(* ===== verification/_CoqProject ===== *)
-Q . S2P
Prelude.v
Cycles.v
GoStrings.v
Utf8.v
GoText.v
Paths.v
Regex.v
Float64.v
Contracts.v
ContentJson.v
LmsData.v
LmsDb.v
Sample.v
Sessions.v
Mastery.v
CourseRepo.v
Eligibility.v
Assign.v
CourseDoc.v
ContentEncode.v
PublishCourse.v
PublishActivity.v
WorkPage.v
ClientStore.v
ClientSync.v
WorkSync.v
Responses.v
Tutor.v
Devices.v
ArtifactStore.v
Artifacts.v
StudentApi.v
EventDelivery.v
Typing.v
ActivityDoc.v
ParentOps.v
Observe.v
TerminalVerify.v
TerminalRunner.v
TerminalSession.v
TypingRunner.v
Engine.v
EngineLogic.v
TerminalRestart.v
EngineSafety.v
EngineSystem.v
EngineOpen.v
EngineSample.v
IdentityData.v
OAuthTokens.v
OAuthEvolve.v
OAuthSample.v
OAuthSafety.v
OAuthBounds.v
