(* ===== verification/Prelude.v ===== *)
(** * Primer: a verification development of the learning core

    Primer is a home-schooling platform.  Its Go server (under [server/])
    keeps the learning state of every student in PostgreSQL; student devices
    download assigned work, run it offline, and send back events, observations,
    responses and completion requests; parents publish courses and activities,
    enroll students and review their work.  This development models the part of
    the server that decides (which activity a student gets next, what a
    completion must show, what that does to the student's mastery of the
    standards), the student routes of its HTTP interface, the client that
    works offline, runs terminal and typing activities and synchronises with
    the server, and the token endpoint of Primer Identity (under
    [primer-identity/]), the OAuth authorization server of the platform.

    ** The program and the files that model it

    Go paths are under [server/internal/], those of Primer Identity under
    [primer-identity/internal/].

    - [Prelude], [GoStrings], [Utf8], [GoText], [Float64], [Regex]: what the Go
      language and its standard library give the code.  Errors are values of
      [result]; loops over slices are [for_each] and its variants;
      [strings.TrimSpace], [ToLower] and the others on byte strings; runes of
      UTF-8 text; times as text and JSON values as text; IEEE binary64 numbers
      with the rounding of Go's float64; regular expressions by derivatives.
    - [Cycles]: the depth-first search with three colours that two validators use.
    - [Paths]: [studentclient/contracts/path.go], the check on file paths an
      activity names, with [path.Clean].
    - [Contracts]: [studentclient/contracts/activity.go], [events.go],
      [kinds.go], [stages.go] and [evalTree] of [mastery/apply.go]: activities,
      checks and their trees, observations, the structured-command capability.
    - [ContentJson], [ContentEncode]: the JSON columns.  [DecodeActivityContent],
      [EvidencePolicyMap], [ParseEvidencePolicy]; what [json.Marshal] makes of an
      activity's content; the content a student may see.
    - [LmsData]: the rows of [domain/domain.go] and the database as a record of
      tables.
    - [LmsDb]: statements, transactions and the generic repository
      ([repo/resource.go], [list.go], [tx.go], [querier.go]) over class [Row], a
      row type with its table and its constraints from the migrations (unique
      indexes, CHECKs, foreign keys).  An operation is a
      function of the kind of querier it is given and the connection's state; a
      failed statement inside a transaction aborts it, and every later statement
      fails with 25P02 until it is rolled back.
    - [Sample]: a small database for the witnesses.
    - [Sessions]: [repo/learning_session.go], sessions, event ingestion,
      acknowledgements, completion rows.
    - [Mastery]: [mastery/apply.go], the mastery engine, completely.
    - [CourseRepo]: the queries and enrollment operations of [repo/course.go].
    - [Eligibility], [Assign]: [overseer/eligibility.go] and
      [overseer/assign.go], the choice of the next assignment, completely.
    - [CourseDoc]: [studentclient/contracts/course.go] and
      [course_validate.go], course documents and their validation.
    - [ActivityDoc]: [studentclient/contracts/validate.go], the validation of
      activity documents.
    - [PublishCourse], [PublishActivity]: the publishing operations of
      [repo/course.go] and [repo/learning.go].
    - [WorkPage]: the paged work feed of [repo/learning.go] and its cursor.
    - [ClientStore]: [studentclient/cache/cache.go], the client's tables and
      every operation on them.
    - [ClientSync]: [studentclient/sync/sync.go], one pass of the sync loop over
      a class [Server] of the exchanges of [studentclient/api/client.go].
    - [WorkSync]: the client's pull against the paged feed (class [WorkFeed]
      states what a feed promises; the server's feed is an instance).
    - [Responses]: [repo/responses.go], conceptual responses and their review.
    - [Tutor]: [tutor/tutor.go] and the coaching functions of [api/student_api.go],
      the reply to a student's message and its record.
    - [Devices]: [repo/student_device.go], [authutil/token.go] and the guard of
      the student routes in [api/student_api.go].
    - [ArtifactStore], [Artifacts]: [artifacts/store.go], [repo/artifacts.go]
      and the upload functions of [api/artifacts_import.go].
    - [StudentApi]: the handlers of [api/student_api.go] and
      [api/artifacts_import.go], the review decision of [api/parent_learning.go],
      and the server as the client sees it: an instance of class [Server] whose
      network loses requests and replies by a script.
    - [EventDelivery]: client queue, network and server composed, as a step
      relation.
    - [Typing]: [studentclient/typing/session.go], a typing session.
    - [ParentOps]: [repo/parent_ops.go], what a parent does to a student's work
      and record, and the overview.
    - [Observe]: [studentclient/contracts/shell_event.go] and
      [studentclient/terminal/observe/observe.go], how lines of the instrumented
      shell become observations of commands.
    - [TerminalVerify]: [verify.go], [history.go], [manifest.go] and [event.go]
      of [studentclient/terminal/], the checks of a terminal activity on files,
      working directory and command history.
    - [TerminalRunner]: [studentclient/activities/terminal_runner.go] and
      [runner.go], [studentclient/terminal/fixtures.go]: a terminal activity from
      its fixtures to its snapshot and durable state.
    - [TerminalSession]: the calls of a session on that runner as a step relation,
      and its agreement with the server's judgement of the same observations.
    - [TypingRunner]: [studentclient/activities/typing_runner.go], a typing session
      behind the interface of runners.
    - [Engine]: [studentclient/engine/engine.go] and [session.go], the part of the
      client that opens, resumes, pauses and completes activities: runners, store,
      sync loop and server composed.  What the machine answers during a call is a
      record [host].
    - [EngineLogic]: a small program logic for these calls, what a sync pass leaves
      alone in the store, what JSON keeps of a saved terminal state.
    - [TerminalRestart]: a terminal session saved as JSON and restored by a new
      process.
    - [EngineSafety], [EngineSystem], [EngineOpen]: the invariant of the store and of
      the open sessions; the program as a step relation (sessions opened, calls, sync
      passes, scripted runs, restarts) and its theorems.
    - [EngineSample]: a run of the whole client for the witnesses.
    - [IdentityData]: the OAuth rows of Primer Identity ([domain/oauth_token.go],
      [domain/oauth_broker.go]), their validation, [secrethash/secrethash.go], and
      the serializable transactions over them with the constraints and deferred
      triggers of the migrations.
    - [OAuthTokens]: the token repository ([repo/oauth_token.go],
      [repo/refresh.go], [repo/service_principals.go]), minting and client
      assertions ([token/mint.go], [token/assertion.go]), and the service
      ([oauth/service.go]): [Exchange], [Revoke], [RevokeInitialFamily], [Purge].
    - [OAuthEvolve]: a small program logic for those transactions, the relation by
      which the database evolves, and the steps of the service.
    - [OAuthSample]: a small identity database for the witnesses.
    - [OAuthSafety], [OAuthBounds]: what the token endpoint guarantees.

    A definition carries the name of the Go function it translates.  Parts of
    long Go functions are definitions of their own, named in the manifest with
    the lines they translate; the Go function composes them in the order of
    the source.

    ** What the theorems show

    - Mastery: an accepted completion was asked for by the owner, on an open
      session, with every required check and task passed; the level it reports
      is backed by stored evidence of each required class; it is idempotent,
      atomic and touches no other student or standard; at full weight, evidence
      never lowers a consistent record.  Two errors are shown as well: the
      client-supplied optional flag avoids the capability check, and a success
      on a mastered standard with low confidence demotes it.
    - Assignment: what [AssignNext] creates belongs to an active course of the
      student; what the course sequence chooses satisfies a declarative rule
      ([may_be_given]), and when nothing is assigned to a student who named no
      activity no entry satisfies it, for lists that fit a page; its
      whole effect on the database is one new assignment.  The ways in which the
      explicit pin and the reinforcement step depart from the comments are
      lemmas.
    - Sessions: the acknowledgement is the greatest prefix stored; ingestion
      and start are idempotent and authorised; a sequence conflict ends in
      25P02 on a pool.
    - Courses: validation accepts exactly the well-formed acyclic documents;
      publishing adds exactly the document's rows; revisions are immutable;
      publishing twice gives the same revision; a course publication on the
      pool is not atomic.
    - Activity documents: validation accepts exactly the documents a declarative
      specification describes, and what it accepts runs: paths stay inside the
      workspace, typing starts, passing every check completes every task.
    - Parent operations: correcting evidence marks one row and adds one of the same
      class, so no record gains or loses evidence unless the note contains the mark;
      the report to parents reads the evidence as the engine does, and judges it as
      the engine does where all links of a standard carry one policy.
    - Synchronisation: a pull ends and leaves what was ahead of the cursor cached
      as the server has it, the whole queue after a walk from nothing; from an empty client, whatever the network loses, an
      event the client counts as acknowledged is stored on the server; over a
      working network one flush delivers what is pending and can be sent.
      Sessions opened offline, reopened sessions and interrupted snapshots are
      shown to stay behind.
    - Student routes: no route, the tutor's included, changes anything through
      another student's session, and all but repeated submissions are refused; a revoked
      token is refused for good; a pairing code works once.
    - Responses: attempts, states and reviews are consistent, what was submitted
      never changes, submitting is authorised and idempotent.
    - Artifacts: blobs have the digest they are stored under, rows marked as
      stored have their bytes, a continuity binding resolves to what was bound.
    - Typing: the counters are exactly the matching, the wrong and the deleting
      keys under every sequence of keys and restarts; typing what is left completes
      the session, for prompts without control characters; a restart loses nothing.
    - Terminal activities: fixtures stay in the workspace; in every reachable state
      the history is bounded and its evidence trusted; a restart through the
      saved JSON gives the state the old runner would have; what the device calls ready the server accepts.  A
      check of the working directory never passes.
    - The client as a whole: in every state it reaches, across restarts, the log of
      a session is numbered without gap and starts once; opening a session resumes one
      without writing to its log or begins a new one; a completion that is queued
      passes the validation of the server, and nothing is written for one that is not
      ready.  A session that was begun without the server never gets a server session,
      and no completion of it is acknowledged.  A session that is paused while it
      completes is open again.
    - Tokens: an authorization code and a client assertion work once; a refresh
      consumes the token it was given, the current one of an active family, and makes
      the next one the only current one; a token that was used gets nothing at any
      later time, and its reuse ends family and grant for good; an access token lives at
      most fifteen minutes and no longer than grant and session; only the owner
      revokes; what is handed out is recognised.  The operator's revocation of an
      active family always fails.
    - JSON and paths: stored policies and contents decode to themselves; an
      accepted path stays below the directory it is joined to.

    ** Bounds and fuel

    Recursion is structural except in the depth-first search of
    [Cycles], whose fuel is the number of nodes plus two (the theorems on
    validation show that it is never used up), and in the page
    loop of [pullWork], for which one page more than the pages of the
    queue is enough.  Pages of the
    generic repository hold at most 200 rows, as in [list.go], and
    the theorems that need complete lists say so.  Confidences are
    binary64 numbers; the monotonicity theorem is for the values a
    NUMERIC(4,3) column can hold, all of which are checked.  Counters of the
    client are unbounded integers.  The tail reader of the shell's spool and the
    walk over a workspace recurse on the lines and entries they are given.

    ** Assumptions

    Identifiers are UUID texts, times are integers, dates are UTC; the clock
    comes with the querier, or is an argument.  Class [Postgres] has what the
    server supplies: fresh identifiers and the rounding of a NUMERIC(4,3) column,
    which stays in the unit interval.  Text columns compare by bytes; rows a query
    does not order come in the order of the table's keys.  The order in which Go
    ranges over a map is class [MapRange].  SHA-256, base64 decoding and the
    rounding of a NUMERIC(6,3) column are parameters, as is the text of a time in a
    correction; which patterns are regular expressions is class [RegexpSyntax].  Class [GoText] has the
    text of times and JSON values with their round trips, [FloatText] and
    [DurableJson] that of numbers and of the typing state, [HttpText] the
    bodies of error answers; each has an instance that satisfies its laws.
    JSON keys match exactly (encoding/json also matches them without regard to
    case; the columns are written from the same structs), and JSON numbers
    pass through binary64.  Other connections do not interleave with an
    operation.  A request either is lost, is executed and its reply lost, or is
    executed and answered; answers above the client's limit of 8 MiB are not
    modelled, nor are I/O errors of the client's SQLite file and of the artifact
    directory.  A terminal activity sees the file system through a view per step,
    what the system calls answer at that moment; the shell is a function from a
    command line to its output and the view after it; Go's regular expressions are
    class [GoRegexp], the digests of files and manifests and the order in which a
    map of tasks is ranged over are arguments.  The mutex of a session makes each
    call one step, and the goroutines it starts are steps of their own: a crash falls
    between calls, and a pass of the background sync does not interleave with a call.
    The options of the client may be others in every step, with the workspace root
    absolute or empty.  The events of the shell's hook come from its reader, which
    lets only trusted sources and relative directories through ([Drain_fine]); new
    identifiers are the values of an injective sequence; class [EngineJson] is the
    JSON of a saved terminal state (its laws [EngineJsonLaws]: it is not empty, and is
    read back with invalid UTF-8 replaced), [WrapJson] that of the typing runner, [SessionServer]
    the request that starts a session.  In Primer Identity, HMAC-SHA-256,
    the S256 challenge and the syntax of UUIDs are class [IdentityCrypto] (its law
    [CryptoLaws]: a digest has 32 bytes); the encoding, signing and verification of
    JWTs are class [TokenSigner] (its law [AssertionLaws]: the claims of an
    assertion are determined by its text); random bytes, identifiers and the
    clock are arguments; a transaction is serializable: how many attempts it loses to
    concurrent ones is an argument of the request, and after eight it fails.  The
    response of a completion is stored as the struct its JSON encodes.

    ** Not modelled, and why

    - The user interfaces (the student's terminal interface, the web and Android
      clients, the parent pages): they present what the modelled operations return.
    - [sandbox], [broker], [ptyterm], the hook script of [observe] and the functions of
      the engine that start processes: processes, pseudo-terminals and sockets; the
      engine sees them as answers of the machine.
    - The parent routes but the review decision, parent sign-in, configuration,
      migrations and command-line tools: glue around modelled operations.
    - The model service behind the tutor, its prompts and rate limits, and Primer
      Agents: conversations with language models; the route and the local hints are
      modelled.
    - Of Primer Identity, the sign-in through the external provider, the HTTP layer,
      the management and rotation of keys, webhooks and the generated client; the
      token repository is modelled as far as the service calls it.
    - Curriculum Studio, Primer Tasks, the TV server and its content ingest: services
      of their own, with their own databases, that the learning core does not call. *)

From stdpp Require Export base tactics list option strings gmap sets sorting.
From stdpp Require Import options.

(** ** Go's (value, error) returns *)

(** A Go function that returns [(T, error)] is modelled as a [result]: [Ok]
    carries the value returned with a nil error, [Err] the error. *)
Inductive result (E A : Type) : Type :=
| Ok (a : A)
| Err (e : E).
Arguments Ok {E A} a.
Arguments Err {E A} e.

#[export] Instance result_ret {E} : MRet (result E) := λ A a, Ok a.
#[export] Instance result_bind {E} : MBind (result E) := λ A B f m,
  match m with Ok a => f a | Err e => Err e end.
#[export] Instance result_fmap {E} : FMap (result E) := λ A B f m,
  match m with Ok a => Ok (f a) | Err e => Err e end.

#[export] Instance result_eq_dec {E A} `{EqDecision E, EqDecision A} :
  EqDecision (result E A).
Proof. solve_decision. Defined.

(** [if !cond { return err }] *)
Definition ensure {E} (cond : bool) (e : E) : result E unit :=
  if cond then Ok tt else Err e.

(** [for _, x := range xs { if err := f(x); err != nil { return err } }] *)
Fixpoint for_each {E A} (f : A → result E unit) (xs : list A) : result E unit :=
  match xs with
  | [] => Ok tt
  | x :: xs' => match f x with Ok _ => for_each f xs' | Err e => Err e end
  end.

(** The same loop with the index the Go loop binds. *)
Fixpoint for_each_i {E A} (i : nat) (f : nat → A → result E unit) (xs : list A)
  : result E unit :=
  match xs with
  | [] => Ok tt
  | x :: xs' => match f i x with Ok _ => for_each_i (S i) f xs' | Err e => Err e end
  end.

(** A loop that threads a local variable (a Go map or slice filled on the way). *)
Fixpoint fold_each {E A S} (i : nat) (f : nat → S → A → result E S) (s : S)
  (xs : list A) : result E S :=
  match xs with
  | [] => Ok s
  | x :: xs' => match f i s x with Ok s' => fold_each (Datatypes.S i) f s' xs' | Err e => Err e end
  end.

Definition is_ok {E A} (r : result E A) : bool :=
  match r with Ok _ => true | Err _ => false end.

(** ** Lemmas on the error loops *)

Lemma bind_Ok {E A B} (m : result E A) (f : A → result E B) b :
  m ≫= f = Ok b ↔ ∃ a, m = Ok a ∧ f a = Ok b.
Proof. destruct m; cbn; naive_solver. Qed.

Lemma ensure_Ok {E} (cond : bool) (e : E) u : ensure cond e = Ok u ↔ cond = true.
Proof. destruct cond, u; cbn; naive_solver. Qed.

Lemma for_each_Ok {E A} (f : A → result E unit) xs :
  for_each f xs = Ok tt ↔ Forall (λ x, f x = Ok tt) xs.
Proof.
  induction xs as [|x xs IH]; cbn; [by split|].
  rewrite Forall_cons. destruct (f x) as [[]|e]; naive_solver.
Qed.

Lemma for_each_i_Ok {E A} (f : nat → A → result E unit) xs i :
  for_each_i i f xs = Ok tt ↔ ∀ k x, xs !! k = Some x → f (i + k) x = Ok tt.
Proof.
  revert i. induction xs as [|x xs IH]; intros i; cbn; [by split|].
  split.
  - intros H [|k] y Hy; simplify_eq/=.
    + rewrite Nat.add_0_r. by destruct (f i y) as [[]|].
    + destruct (f i x) as [[]|]; [|done].
      rewrite <-Nat.add_succ_comm. by apply IH.
  - intros H. pose proof (H 0 x eq_refl) as H0. rewrite Nat.add_0_r in H0.
    rewrite H0. apply IH. intros k y Hy. rewrite Nat.add_succ_comm.
    by apply (H (S k)).
Qed.

(** The invariant rule of [fold_each]: a property of the loop variable kept by
    every iteration that does not return holds after the loop. *)
Lemma fold_each_invariant {E A S} (P : list A → S → Prop)
    (f : nat → S → A → result E S) xs :
  (∀ i done x s s', P done s → f i s x = Ok s' → P (done ++ [x]) s') →
  ∀ i pre s s', P pre s → fold_each i f s xs = Ok s' → P (pre ++ xs) s'.
Proof.
  intros Hstep. induction xs as [|x xs IH]; intros i pre s s' HP Hf; cbn in Hf.
  - rewrite app_nil_r. by simplify_eq.
  - destruct (f i s x) as [s1|] eqn:Hx; [|done].
    replace (pre ++ x :: xs) with ((pre ++ [x]) ++ xs) by by rewrite <-app_assoc.
    eapply IH; eauto.
Qed.

Lemma ensure_bind {E B} (b : bool) (e : E) (k : unit → result E B) r :
  (ensure b e ≫= k) = Ok r ↔ b = true ∧ k tt = Ok r.
Proof. destruct b; cbn; naive_solver. Qed.

Lemma unit_bind {E B} (m : result E unit) (k : unit → result E B) r :
  (m ≫= k) = Ok r ↔ m = Ok tt ∧ k tt = Ok r.
Proof. destruct m as [[]|]; cbn; naive_solver. Qed.

Lemma bool_decide_negb (P : Prop) `{!Decision P} : negb (bool_decide P) = true ↔ ¬ P.
Proof. by rewrite negb_true_iff, bool_decide_eq_false. Qed.

Lemma ensure_tt {E} (b : bool) (e : E) : ensure b e = Ok tt ↔ b = true.
Proof. apply ensure_Ok. Qed.

Lemma for_each_i_all {E A} (f : nat → A → result E unit) (P : A → Prop) xs i :
  (∀ i x, f i x = Ok tt ↔ P x) → for_each_i i f xs = Ok tt ↔ Forall P xs.
Proof.
  intros Hf. rewrite for_each_i_Ok, Forall_lookup. by setoid_rewrite Hf.
Qed.

(** A loop that collects the keys of its items in a Go map and returns an error at the
    first repeated one. *)
Lemma fold_seen_Ok {E A} {K} `{Countable K} (f : nat → gset K → A → result E (gset K)) (key : A → K) (P : A → Prop) xs :
  (∀ i s x s', f i s x = Ok s' ↔ P x ∧ key x ∉ s ∧ s' = {[key x]} ∪ s) →
  ∀ i s s', fold_each i f s xs = Ok s' ↔
    Forall P xs ∧ NoDup (key <$> xs) ∧ (∀ x, x ∈ xs → key x ∉ s) ∧ s' = list_to_set (key <$> xs) ∪ s.
Proof.
  intros Hone. induction xs as [|x xs IH]; intros i s s'; cbn [fold_each].
  { rewrite fmap_nil. cbn. rewrite (left_id_L ∅ (∪)). split.
    - intros [= <-]. split_and!; try done; [constructor|set_solver].
    - by intros (_ & _ & _ & ->). }
  rewrite Forall_cons, fmap_cons, NoDup_cons, list_elem_of_fmap. cbn [list_to_set].
  destruct (f i s x) as [s1|e] eqn:E1.
  - apply Hone in E1 as (Hp & Hk & ->). rewrite (IH (S i)). split.
    + intros (? & ? & Hd & ->). split_and!; try done.
      * intros (y & Hy & Hin). apply (Hd y Hin). set_solver.
      * intros y [->|Hy]%elem_of_cons; [done|]. specialize (Hd y Hy). set_solver.
      * set_solver.
    + intros ([_ ?] & [Hn ?] & Hd & ->). split_and!; try done; [|set_solver].
      intros y Hy. rewrite not_elem_of_union, not_elem_of_singleton. split; [|apply Hd; by right].
      intros Heq. apply Hn. by exists y.
  - split; [done|]. intros ([Hp _] & _ & Hd & _).
    assert (f i s x = Ok ({[key x]} ∪ s)); [|congruence].
    apply Hone. split_and!; [done| |done]. apply Hd. left.
Qed.

(** ** Automation *)

(** [res_inv] takes a successful run of a [result] computation apart: binds,
    guards, conditionals on decided propositions. *)
Ltac res_step :=
  match goal with
  | H : Ok _ = Ok _ |- _ => injection H as H; try subst
  | H : Err _ = Err _ |- _ => injection H as H; try subst
  | H : Ok _ = Err _ |- _ => discriminate H
  | H : Err _ = Ok _ |- _ => discriminate H
  | H : _ ≫= _ = Ok _ |- _ => apply bind_Ok in H as (? & ? & H)
  | H : ensure _ _ = Ok _ |- _ => apply ensure_Ok in H
  | H : for_each _ _ = Ok ?u |- _ => destruct u; apply for_each_Ok in H
  end.
Ltac res_inv := repeat res_step; simplify_eq.

(** Case analysis on every [match]/[if] that blocks a hypothesis or the goal. *)
Ltac crush_match :=
  repeat (case_match; simplify_eq/=; try done).

Create HintDb primer discriminated.
Create Rewrite HintDb primer_rw.

(** ** Small facts on lists shared by the components *)

Lemma existsb_exists_in {A} (f : A → bool) l :
  existsb f l = true ↔ ∃ x, x ∈ l ∧ f x = true.
Proof. rewrite existsb_exists. setoid_rewrite list_elem_of_In. done. Qed.

Lemma existsb_false_in {A} (f : A → bool) l :
  existsb f l = false ↔ ∀ x, x ∈ l → f x = false.
Proof.
  split.
  - intros H x Hx. destruct (f x) eqn:E; [|done].
    assert (existsb f l = true) by (apply existsb_exists_in; eauto). congruence.
  - intros H. destruct (existsb f l) eqn:E; [|done].
    apply existsb_exists_in in E as (x & Hx & E). rewrite (H x Hx) in E. done.
Qed.

Lemma forallb_forall_in {A} (f : A → bool) l :
  forallb f l = true ↔ ∀ x, x ∈ l → f x = true.
Proof. rewrite forallb_forall. setoid_rewrite list_elem_of_In. done. Qed.

Lemma head_filter_Some {A} (P : A → Prop) `{!∀ x, Decision (P x)} l x :
  head (filter P l) = Some x → x ∈ l ∧ P x.
Proof.
  intros Hx. apply head_Some_elem_of in Hx. by apply list_elem_of_filter in Hx as [??].
Qed.

#[export] Hint Resolve list_elem_of_here list_elem_of_further : primer.

Lemma filter_all {A} (P : A → Prop) `{!∀ x, Decision (P x)} l : Forall P l → filter P l = l.
Proof.
  induction 1 as [|x l Hx Hl IH]; [done|]. by rewrite filter_cons_True, IH.
Qed.

Lemma filter_none {A} (P : A → Prop) `{!∀ x, Decision (P x)} l :
  Forall (λ x, ¬ P x) l → filter P l = [].
Proof. induction 1 as [|x l Hx Hl IH]; [done|]. by rewrite filter_cons_False, IH. Qed.
