(* ===== verification/Cycles.v ===== *)
(** * Depth-first search for cycles

    The validators of courses ([detectSlugCycles] of [course_validate.go]) and of
    activities ([detectTaskCycles] of [validate.go]) search a prerequisite graph in the
    same way: a node is white at first, gray while the search is below it, and black
    when it is finished; meeting a gray node is a cycle.  The nodes are slugs in one
    case and indices of tasks in the other, so the search is stated for any countable
    type of nodes. *)
From S2P Require Import Prelude.
From stdpp Require Import options.

Inductive color := Gray | Black.

#[export] Instance color_eq_dec : EqDecision color.
Proof. solve_decision. Defined.

(** [OutOfFuel] is the model's own: [detect_cycles_spec] excludes it. *)
Inductive cycle_error (K : Type) := Cycle (n : K) | OutOfFuel.
Arguments Cycle {K} n.
Arguments OutOfFuel {K}.

Section search.
Context {K : Type} `{Countable K}.

Abbreviation colors := (gmap K color).

Definition succs (adj : gmap K (list K)) (n : K) : list K := default [] (adj !! n).

(** [visit]; a node that is in neither state is white. *)
Fixpoint visit (adj : gmap K (list K)) (fuel : nat) (c : colors) (n : K)
  : result (cycle_error K) colors :=
  match fuel with
  | O => Err OutOfFuel
  | S fuel' =>
      match c !! n with
      | Some Gray => Err (Cycle n)
      | Some Black => Ok c
      | None =>
          c' ← foldl (λ r m, r ≫= λ c, visit adj fuel' c m) (Ok (<[n := Gray]> c)) (succs adj n);
          Ok (<[n := Black]> c')
      end
  end.

(** Every node of the graph. *)
Definition nodes (adj : gmap K (list K)) : gset K :=
  dom adj ∪ list_to_set (concat (map_to_list adj).*2).

(** The search from each of the keys in turn. *)
Definition detect_cycles (keys : list K) (adj : gmap K (list K)) : result (cycle_error K) unit :=
  _ ← foldl (λ r n, r ≫= λ c, visit adj (S (S (size (nodes adj)))) c n) (Ok ∅) keys;
  Ok tt.

(** ** The cycle search is right *)

Context (adj : gmap K (list K)).

(** [n] requires [m]. *)
Definition edge (n m : K) : Prop := m ∈ succs adj n.
Definition acyclic : Prop := ∀ n, ~ tc edge n n.

(** The invariant of the search: what is below a finished node is finished, so no
    infinite path leaves it. *)
Definition blacks_done (c : colors) : Prop := ∀ n, c !! n = Some Black → Acc (flip edge) n.

(** A step of the search paints: grays stay as they are, blacks are only added. *)
Definition paints (c c' : colors) : Prop :=
  (∀ n, c' !! n = Some Gray ↔ c !! n = Some Gray) ∧ (∀ n, c !! n = Some Black → c' !! n = Some Black).

#[local] Instance paints_preorder : PreOrder paints.
Proof. unfold paints. split; [done|]. intros c1 c2 c3 [H1 H2] [H3 H4]. naive_solver. Qed.

Definition white_nodes (c : colors) : gset K :=
  nodes adj ∖ filter (λ n, c !! n = Some Gray) (nodes adj).

Lemma succs_nodes n m : m ∈ succs adj n → m ∈ nodes adj.
Proof.
  unfold succs, nodes. destruct (adj !! n) as [l|] eqn:E; [|set_solver]. cbn. intros Hm.
  apply elem_of_union_r, elem_of_list_to_set, list_elem_of_In, in_concat.
  exists l. split; [|by apply list_elem_of_In]. apply list_elem_of_In, list_elem_of_fmap.
  exists (n, l). split; [done|]. by apply elem_of_map_to_list.
Qed.

(** What a call of [visit] does, as a relation between its argument and result. *)
Definition visited (c : colors) (ns : list K) (r : result (cycle_error K) colors) : Prop :=
  match r with
  | Ok c' => paints c c' ∧ blacks_done c' ∧ ∀ n, n ∈ ns → c' !! n = Some Black
  | Err (Cycle m) => tc edge m m
  | Err OutOfFuel => False
  end.

Lemma visit_list (f : colors → K → result (cycle_error K) colors) ns c :
  blacks_done c →
  (∀ c' n, n ∈ ns → paints c c' → blacks_done c' → visited c' [n] (f c' n)) →
  visited c ns (foldl (λ r m, r ≫= λ c, f c m) (Ok c) ns).
Proof.
  assert (∀ ns e, foldl (λ r m, r ≫= λ c, f c m) (Err e) ns = Err e) as Herr.
  { clear. induction ns as [|n ns IH]; intros e; cbn; [done|apply IH]. }
  revert c. induction ns as [|n ns IH]; intros c Hc Hf; cbn [foldl].
  { split_and!; [reflexivity|done|set_solver]. }
  pose proof (Hf c n ltac:(left) ltac:(reflexivity) Hc) as Hn. cbn [mbind result_bind].
  destruct (f c n) as [c1|e]; [|rewrite Herr; by destruct e].
  destruct Hn as (Hp1 & Hd1 & Hb1).
  specialize (IH c1 Hd1). destruct (foldl _ (Ok c1) ns) as [c2|[m|]]; cbn in *.
  - destruct IH as (Hp2 & Hd2 & Hb2).
    { intros c' n' Hin Hp' Hd'. apply Hf; [by right| |done]. by etrans. }
    split; [by etrans|]. split; [done|]. intros n' [->|Hin]%elem_of_cons; [|by apply Hb2].
    apply Hp2, Hb1. left.
  - apply IH. intros c' n' Hin Hp' Hd'. apply Hf; [by right| |done]. by etrans.
  - apply IH. intros c' n' Hin Hp' Hd'. apply Hf; [by right| |done]. by etrans.
Qed.

Lemma white_nodes_gray c c0 n :
  n ∈ nodes adj → c !! n = None → (∀ k, c0 !! k = Some Gray ↔ k = n ∨ c !! k = Some Gray) →
  (size (white_nodes c0) < size (white_nodes c))%nat.
Proof.
  intros Hn Hc Hg. apply subset_size. split.
  - intros k. unfold white_nodes. set_solver.
  - intros Hsub. assert (n ∈ white_nodes c) as Hw by (unfold white_nodes; set_solver by congruence).
    apply Hsub in Hw. unfold white_nodes in Hw. set_solver.
Qed.

Lemma visit_spec fuel c n :
  n ∈ nodes adj → blacks_done c → (∀ g, c !! g = Some Gray → tc edge g n) →
  (size (white_nodes c) < fuel)%nat → visited c [n] (visit adj fuel c n).
Proof.
  revert c n. induction fuel as [|fuel IH]; intros c n Hn Hd Hg Hf; [lia|]. cbn [visit].
  destruct (c !! n) as [[|]|] eqn:Ec; cbn.
  { by apply Hg. } { split; [reflexivity|]. split; [done|set_solver]. }
  assert (blacks_done (<[n := Gray]> c)) as Hd0.
  { intros k. rewrite lookup_insert_Some. intros [[_ ?]|[_ ?]]; [done|by apply Hd]. }
  pose proof (visit_list (visit adj fuel) (succs adj n) (<[n := Gray]> c) Hd0) as Hl.
  assert (visited (<[n := Gray]> c) (succs adj n)
            (foldl (λ r m, r ≫= λ c, visit adj fuel c m) (Ok (<[n := Gray]> c)) (succs adj n))) as Hv.
  { apply Hl. intros c' m Hm [Hp _] Hd'.
    assert (∀ k, c' !! k = Some Gray ↔ k = n ∨ c !! k = Some Gray) as Hg'.
    { intros k. rewrite Hp, lookup_insert_Some. destruct (decide (n = k)); naive_solver. }
    apply IH; [by eapply succs_nodes|done| |].
    - intros g [->|Hgg]%Hg'; [by apply tc_once|]. eapply tc_r; [by apply Hg|done].
    - pose proof (white_nodes_gray c c' n Hn Ec Hg'). lia. }
  destruct (foldl _ _ _) as [c1|[m|]]; cbn in *; [|done..]. destruct Hv as ([Hp1 Hp2] & Hd1 & Hb1).
  split; [split|split].
  - intros k. rewrite lookup_insert_Some, Hp1, lookup_insert_Some. destruct (decide (n = k)); naive_solver.
  - intros k Hk. rewrite lookup_insert_Some. right. assert (n ≠ k) by congruence. split; [done|].
    apply Hp2. by rewrite lookup_insert_ne.
  - intros k. rewrite lookup_insert_Some. intros [[<- _]|[_ Hk]]; [|by apply Hd1].
    constructor. intros m Hm. by apply Hd1, Hb1.
  - intros k Hk. assert (k = n) as -> by set_solver. by rewrite lookup_insert_eq.
Qed.

Lemma detect_cycles_spec keys :
  (∀ n, n ∈ keys ↔ n ∈ dom adj) →
  match detect_cycles keys adj with
  | Ok _ => acyclic
  | Err (Cycle m) => tc edge m m
  | Err OutOfFuel => False
  end.
Proof.
  intros Hdom. unfold detect_cycles.
  set (fuel := S (S (size (nodes adj)))).
  pose proof (visit_list (visit adj fuel) keys ∅) as Hl.
  assert (visited ∅ keys (foldl (λ r m, r ≫= λ c, visit adj fuel c m) (Ok ∅) keys)) as Hv.
  { apply Hl; [by intros n|]. intros c' n Hn [Hp _] Hd. apply visit_spec; [|done| |].
    - apply elem_of_union_l. by apply Hdom.
    - intros g Hg%Hp. by rewrite lookup_empty in Hg.
    - assert (size (white_nodes c') ≤ size (nodes adj))%nat
        by (apply subseteq_size; unfold white_nodes; set_solver). unfold fuel. lia. }
  destruct (foldl _ _ _) as [c|[m|]]; cbn in *; [|done..]. destruct Hv as (_ & Hd & Hb).
  assert (∀ n, Acc (flip edge) n) as Hacc.
  { intros n. destruct (decide (n ∈ dom adj)) as [Hin|Hin]; [by apply Hd, Hb, Hdom|].
    constructor. intros m Hm. unfold flip, edge, succs in Hm. apply not_elem_of_dom in Hin. rewrite Hin in Hm.
    by apply not_elem_of_nil in Hm. }
  intros n. induction (Hacc n) as [n _ IH]. intros Hn.
  assert (∃ m, edge n m ∧ tc edge m m) as (m & Hm & Htc); [|by apply (IH m)].
  inversion Hn as [? ? He|? m ? He Htc]; subst; [by exists n; split; [|apply tc_once]|].
  exists m. split; [done|]. by eapply tc_r.
Qed.
End search.

Lemma succs_insert `{Countable K} (adj : gmap K (list K)) n l k :
  succs (<[n := l]> adj) k = if decide (k = n) then l else succs adj k.
Proof.
  unfold succs. destruct (decide (k = n)) as [->|Hk]; [by rewrite lookup_insert_eq|].
  by rewrite lookup_insert_ne.
Qed.

Lemma tc_ext {A} (R R' : A → A → Prop) x y : (∀ a b, R a b → R' a b) → tc R x y → tc R' x y.
Proof. intros HR. induction 1; [by apply tc_once, HR|]. eapply tc_l; [by apply HR|done]. Qed.

(** The result of the search as an error of the validator. *)
Definition cycle_check `{Countable K} (msg : K → string) (keys : list K) (adj : gmap K (list K))
  : result string unit :=
  match detect_cycles keys adj with
  | Ok _ => Ok tt
  | Err (Cycle n) => Err (msg n)
  | Err OutOfFuel => Err "out of fuel"
  end.

Lemma cycle_check_Ok `{Countable K} msg (keys : list K) adj :
  (∀ n, n ∈ keys ↔ n ∈ dom adj) → cycle_check msg keys adj = Ok tt ↔ acyclic adj.
Proof.
  intros Hk. pose proof (detect_cycles_spec adj keys Hk) as Hs. unfold cycle_check.
  destruct (detect_cycles keys adj) as [[]|[n|]]; [done| |done].
  split; [done|]. intros Ha. by destruct (Ha n).
Qed.
