(* ===== verification/GoStrings.v ===== *)
(** * The part of Go's [strings] package the components use

    A Go string is a sequence of bytes: here Rocq's [string], whose characters
    are 8-bit.  Literals in the source are ASCII (or UTF-8 written as bytes), so
    comparisons, prefixes, splitting and concatenation are byte-wise exactly as
    in Go.  [TrimSpace] and [ToLower] are the two functions of the package that
    look at code points; they are modelled on the UTF-8 bytes. *)
From S2P Require Import Prelude.
From Stdlib Require Import Ascii.
From stdpp Require Import options.

Lemma append_cons c (a b : string) : String c a +:+ b = String c (a +:+ b).
Proof. done. Qed.

Lemma append_nil (b : string) : "" +:+ b = b.
Proof. done. Qed.

Lemma append_assoc (a b c : string) : (a +:+ b) +:+ c = a +:+ b +:+ c.
Proof. induction a as [|x a IH]; [done|]. rewrite !append_cons. by rewrite IH. Qed.

Lemma append_nil_r (a : string) : a +:+ "" = a.
Proof. induction a as [|x a IH]; [done|]. rewrite append_cons. by rewrite IH. Qed.

Lemma append_inj_l (a b c : string) : a +:+ b = a +:+ c → b = c.
Proof.
  induction a as [|x a IH]; [done|]. rewrite !append_cons. intros [=]. by apply IH.
Qed.

Lemma length_append (a b : string) :
  String.length (a +:+ b) = (String.length a + String.length b)%nat.
Proof. induction a as [|c a IH]; cbn; [done|]. rewrite append_cons. cbn. by rewrite IH. Qed.

(** ** Prefixes *)

(** [strings.HasPrefix(s, p)] *)
Definition HasPrefix (s p : string) : bool := String.prefix p s.

(** [strings.TrimPrefix(s, p)] *)
Definition TrimPrefix (s p : string) : string :=
  if HasPrefix s p then String.substring (String.length p) (String.length s - String.length p) s
  else s.

Lemma prefix_iff p s : String.prefix p s = true ↔ ∃ t, s = (p +:+ t)%string.
Proof.
  revert s. induction p as [|c p IH]; intros s.
  - split; [by exists s|by destruct s].
  - destruct s as [|d s]; cbn; [split; [done|by intros [? [=]]]|].
    destruct (ascii_dec c d) as [->|Hne].
    + rewrite IH. split; intros [t Ht]; exists t; [by rewrite Ht|by injection Ht].
    + split; [done|]. intros [t [=]]. congruence.
Qed.

Lemma HasPrefix_iff s p : HasPrefix s p = true ↔ ∃ t, s = (p +:+ t)%string.
Proof. apply prefix_iff. Qed.

Lemma HasPrefix_app p t : HasPrefix (p +:+ t) p = true.
Proof. apply HasPrefix_iff. by exists t. Qed.

Lemma substring_full s : String.substring 0 (String.length s) s = s.
Proof. induction s as [|c s IH]; cbn; [done|]. by rewrite IH. Qed.

Lemma TrimPrefix_app p t : TrimPrefix (p +:+ t) p = t.
Proof.
  unfold TrimPrefix. rewrite HasPrefix_app.
  induction p as [|c p IH]; cbn.
  - rewrite Nat.sub_0_r. apply substring_full.
  - apply IH.
Qed.

(** ** Substring tests *)

(** [strings.Contains(s, sub)] *)
Fixpoint Contains (s sub : string) : bool :=
  String.prefix sub s ||
  match s with EmptyString => false | String _ s' => Contains s' sub end.

Lemma Contains_iff s sub :
  Contains s sub = true ↔ ∃ a b, s = (a +:+ sub +:+ b)%string.
Proof.
  induction s as [|c s IH]; cbn -[String.prefix]; rewrite orb_true_iff, prefix_iff.
  - split.
    + intros [[t Ht]|]; [|done]. by exists "", t.
    + intros (a & b & H). left. destruct a; [by exists b|done].
  - rewrite IH. split.
    + intros [[t Ht]|(a & b & ->)]; [by exists "", t|by exists (String c a), b].
    + intros ([|d a] & b & H); cbn in H; [by left; exists b|].
      injection H as -> H. right. by exists a, b.
Qed.

(** [strings.ContainsAny(s, chars)] for a set of ASCII characters *)
Fixpoint ContainsAny (s chars : string) : bool :=
  match s with
  | EmptyString => false
  | String c s' => existsb (λ d, bool_decide (c = d)) (String.list_ascii_of_string chars)
                   || ContainsAny s' chars
  end.

(** ** Splitting and joining *)

(** [strings.Split(s, sep)] for a non-empty separator: leftmost, non-overlapping.
    [skip] counts the bytes of a separator that was just recognised. *)
Fixpoint split_from (sep : string) (skip : nat) (s : string) : list string :=
  match s with
  | EmptyString => [EmptyString]
  | String c s' =>
      match skip with
      | S k => split_from sep k s'
      | O =>
          if String.prefix sep s then EmptyString :: split_from sep (String.length sep - 1) s'
          else match split_from sep 0 s' with
               | h :: t => String c h :: t
               | [] => [String c EmptyString]
               end
      end
  end.

Definition Split (s sep : string) : list string := split_from sep 0 s.

(** [strings.Join(elems, sep)] *)
Fixpoint Join (elems : list string) (sep : string) : string :=
  match elems with
  | [] => ""
  | [e] => e
  | e :: es => e +:+ sep +:+ Join es sep
  end.

Lemma Join_cons e es sep : es ≠ [] → Join (e :: es) sep = (e +:+ sep +:+ Join es sep)%string.
Proof. by destruct es. Qed.

Lemma split_from_nonnil sep k s : split_from sep k s ≠ [].
Proof.
  revert k. induction s as [|c s IH]; intros k; [done|].
  cbn -[String.prefix]. destruct k; [|apply IH]. repeat case_match; done.
Qed.

(** Joining what [Split] returns gives the string back. *)
Lemma Join_split_from sep k s t :
  sep ≠ "" → (k ≤ String.length t)%nat → String.length t = k →
  Join (split_from sep k (t +:+ s)) sep = Join (split_from sep 0 s) sep.
Proof.
  intros Hsep. revert k. induction t as [|c t IH]; intros k Hk Hl; cbn in Hl; subst k; [done|].
  cbn. apply IH; cbn in *; lia.
Qed.

Lemma Join_Split s sep : sep ≠ "" → Join (Split s sep) sep = s.
Proof.
  intros Hsep. unfold Split.
  induction s as [s IH] using (induction_ltof1 _ String.length). unfold ltof in IH.
  destruct s as [|c s]; [done|]. cbn -[String.prefix].
  destruct (String.prefix sep (String c s)) eqn:Hp.
  - apply prefix_iff in Hp as [t Ht].
    destruct sep as [|d sep]; [done|]. cbn in Ht. injection Ht as <- ->.
    rewrite Join_cons by apply split_from_nonnil. cbn. rewrite Nat.sub_0_r.
    rewrite Join_split_from by (done || lia).
    rewrite IH; [done|]. cbn. rewrite length_append. lia.
  - destruct (split_from sep 0 s) as [|h l] eqn:Hs.
    + by apply split_from_nonnil in Hs.
    + specialize (IH s ltac:(cbn; lia)). rewrite Hs in IH.
      destruct l; cbn in IH |- *; rewrite ?append_cons; by rewrite IH.
Qed.

(** For a one-byte separator the pieces are the maximal runs without it. *)
Definition no_char (c : ascii) (s : string) : Prop :=
  c ∉ String.list_ascii_of_string s.

#[export] Instance no_char_dec c s : Decision (no_char c s).
Proof. unfold no_char. apply _. Defined.

Lemma no_char_app c a b : no_char c (a +:+ b) ↔ no_char c a ∧ no_char c b.
Proof.
  unfold no_char. induction a as [|d a IH]; [cbn; set_solver|].
  rewrite append_cons. cbn. rewrite !not_elem_of_cons, IH. tauto.
Qed.

Lemma split_char_cons d c s :
  Split (String d s) (String c "") =
    if ascii_dec c d then "" :: Split s (String c "")
    else match Split s (String c "") with
         | h :: t => String d h :: t
         | [] => [String d ""] end.
Proof.
  unfold Split. cbn. destruct (ascii_dec c d); [|done]. by destruct s.
Qed.

Lemma Split_char_pieces c s : Forall (no_char c) (Split s (String c "")).
Proof.
  induction s as [|d s IH].
  { apply Forall_singleton. unfold no_char. cbn. set_solver. }
  rewrite split_char_cons. destruct (ascii_dec c d) as [->|Hne].
  - constructor; [unfold no_char; cbn; set_solver|done].
  - destruct (Split s (String c "")) as [|h t]; [apply Forall_singleton; unfold no_char; cbn; set_solver|].
    apply Forall_cons in IH as [Hh Ht]. constructor; [|done].
    unfold no_char in *. cbn. set_solver.
Qed.

Lemma Split_no_char c s : no_char c s → Split s (String c "") = [s].
Proof.
  induction s as [|d s IH]; [done|]. intros Hc.
  rewrite split_char_cons. unfold no_char in Hc. cbn in Hc.
  apply not_elem_of_cons in Hc as [Hne Hc].
  destruct (ascii_dec c d); [congruence|]. by rewrite IH.
Qed.

Lemma Split_char_app c a s :
  no_char c a → Split (a +:+ String c s) (String c "") = a :: Split s (String c "").
Proof.
  induction a as [|d a IH]; intros Hc.
  - change ("" +:+ String c s)%string with (String c s). rewrite split_char_cons.
    destruct (ascii_dec c c); [done|congruence].
  - change (String d a +:+ String c s)%string with (String d (a +:+ String c s)).
    unfold no_char in Hc. cbn in Hc. apply not_elem_of_cons in Hc as [Hne Hc].
    rewrite split_char_cons, IH by done. destruct (ascii_dec c d); [congruence|done].
Qed.

Lemma Join_app l1 l2 sep :
  l1 ≠ [] → l2 ≠ [] → Join (l1 ++ l2) sep = Join l1 sep +:+ sep +:+ Join l2 sep.
Proof.
  intros H1 H2. induction l1 as [|e l1 IH]; [done|].
  destruct l1 as [|e' l1]; [by apply Join_cons|].
  change ((e :: e' :: l1) ++ l2) with (e :: ((e' :: l1) ++ l2)).
  rewrite !Join_cons, IH by done. by rewrite !append_assoc.
Qed.

(** Splitting a join of pieces without the separator gives the pieces. *)
Lemma Split_Join c l :
  l ≠ [] → Forall (no_char c) l → Split (Join l (String c "")) (String c "") = l.
Proof.
  induction l as [|e l IH]; [done|]. intros _ [He Hl]%Forall_cons.
  destruct l as [|e' l]; [by apply Split_no_char|].
  rewrite Join_cons by done.
  change (String c "" +:+ Join (e' :: l) (String c ""))%string
    with (String c (Join (e' :: l) (String c ""))).
  rewrite Split_char_app by done. by rewrite IH.
Qed.

(** ** Code points: [TrimSpace] and [ToLower] *)

Definition bytes (l : list nat) : string :=
  foldr (λ n s, String (ascii_of_nat n) s) "" l.

(** The UTF-8 encodings of the code points [unicode.IsSpace] accepts. *)
Definition unicode_spaces : list string :=
  [bytes [9]; bytes [10]; bytes [11]; bytes [12]; bytes [13]; bytes [32];
   bytes [194; 133]; bytes [194; 160]; bytes [225; 154; 128];
   bytes [226; 128; 128]; bytes [226; 128; 129]; bytes [226; 128; 130];
   bytes [226; 128; 131]; bytes [226; 128; 132]; bytes [226; 128; 133];
   bytes [226; 128; 134]; bytes [226; 128; 135]; bytes [226; 128; 136];
   bytes [226; 128; 137]; bytes [226; 128; 138]; bytes [226; 128; 168];
   bytes [226; 128; 169]; bytes [226; 128; 175]; bytes [226; 129; 159];
   bytes [227; 128; 128]].

Definition srev (s : string) : string :=
  String.string_of_list_ascii (rev (String.list_ascii_of_string s)).

(** [strings.HasSuffix(s, suf)] *)
Definition HasSuffix (s suf : string) : bool := HasPrefix (srev s) (srev suf).

(** Drop the encodings in [spaces] from the front, as long as one is there.
    Each step drops at least one byte, so [String.length s] steps are enough. *)
Fixpoint trim_left (spaces : list string) (fuel : nat) (s : string) : string :=
  match fuel with
  | O => s
  | S fuel' =>
      match find (λ sp, HasPrefix s sp) spaces with
      | Some sp => trim_left spaces fuel' (TrimPrefix s sp)
      | None => s
      end
  end.

(** [strings.TrimSpace(s)]: UTF-8 is self-synchronising, so a space code point
    ends the string exactly when its encoding is a suffix. *)
Definition TrimSpace (s : string) : string :=
  let l := trim_left unicode_spaces (String.length s) s in
  srev (trim_left (map srev unicode_spaces) (String.length l) (srev l)).

(** [strings.TrimSpace(s) == ""] *)
Definition blank (s : string) : bool := bool_decide (TrimSpace s = "").

(** [strings.Fields]; [skip] counts the bytes left of a white-space code point. *)
Definition word (buf : string) : list string := if bool_decide (buf = "") then [] else [buf].
Fixpoint fields_from (skip : nat) (s buf : string) : list string :=
  match s with
  | EmptyString => word buf
  | String c s' =>
      match skip with
      | S k => fields_from k s' buf
      | O => match find (λ sp, HasPrefix s sp) unicode_spaces with
             | Some sp => (word buf ++ fields_from (String.length sp - 1) s' "")%list
             | None => fields_from 0 s' (buf +:+ String c "")
             end
      end
  end.
Definition Fields (s : string) : list string := fields_from 0 s "".

Definition lower_ascii (c : ascii) : ascii :=
  let n := nat_of_ascii c in
  if (65 <=? n) && (n <=? 90) then ascii_of_nat (n + 32) else c.

(** [strings.ToLower(s)], as far as a comparison with an ASCII string sees it:
    ASCII letters, and the two code points outside ASCII whose lower case is an
    ASCII letter (U+0130, encoded C4 B0, and U+212A, encoded E2 84 AA); the
    lower case of any other code point is outside ASCII and left as it is. *)
Fixpoint ToLower (s : string) : string :=
  match s with
  | EmptyString => EmptyString
  | String c s' =>
      match nat_of_ascii c, s' with
      | 196, String d s1 =>
          if (nat_of_ascii d =? 176)%nat then String "i" (ToLower s1)
          else String c (ToLower s')
      | 226, String d (String e s2) =>
          if (nat_of_ascii d =? 132)%nat && (nat_of_ascii e =? 170)%nat
          then String "k" (ToLower s2)
          else String c (ToLower s')
      | _, _ => String (lower_ascii c) (ToLower s')
      end
  end.

Example TrimSpace_ex : TrimSpace (bytes [32; 194; 160; 97; 32; 98; 9; 227; 128; 128]) = "a b".
Proof. vm_compute. reflexivity. Qed.

Example ToLower_ex : ToLower "PTY-Shell" = "pty-shell".
Proof. vm_compute. reflexivity. Qed.

(** ** [%q] on ASCII text

    Quotes, backslashes and control characters are escaped; bytes from 128 on are
    left as they are (printable UTF-8). *)
Definition hex_digit (n : nat) : Ascii.ascii :=
  Ascii.ascii_of_nat (if decide (n < 10) then 48 + n else 87 + n).

Definition quote_char (c : Ascii.ascii) : string :=
  let n := Ascii.nat_of_ascii c in
  let bs := Ascii.ascii_of_nat 92 in
  let esc (k : nat) := String bs (String (Ascii.ascii_of_nat k) EmptyString) in
  if decide (n = 34) then esc 34
  else if decide (n = 92) then esc 92
  else if decide (n = 7) then esc 97
  else if decide (n = 8) then esc 98
  else if decide (n = 12) then esc 102
  else if decide (n = 10) then esc 110
  else if decide (n = 13) then esc 114
  else if decide (n = 9) then esc 116
  else if decide (n = 11) then esc 118
  else if decide (n < 32 ∨ n = 127) then
    String bs (String "x" (String (hex_digit (n / 16)) (String (hex_digit (n mod 16)) EmptyString)))
  else String c EmptyString.

Fixpoint quote_body (s : string) : string :=
  match s with
  | EmptyString => EmptyString
  | String c s' => String.append (quote_char c) (quote_body s')
  end.

Definition go_quote (s : string) : string :=
  let q := String (Ascii.ascii_of_nat 34) EmptyString in
  String.append q (String.append (quote_body s) q).
