(* ===== verification/Utf8.v ===== *)
(** * UTF-8 ([unicode/utf8], conversions between string and []rune)

    Go strings are bytes; ranging over one, [[]rune(s)] and
    [utf8.RuneCountInString] decode them, each byte that is not part of a valid
    encoding giving U+FFFD. *)
From S2P Require Import Prelude GoStrings.
From Stdlib Require Import Ascii.
From stdpp Require Import options.
Local Open Scope Z_scope.

Definition byte_of (c : ascii) : Z := Z.of_N (N_of_ascii c).
Definition of_byte (b : Z) : ascii := ascii_of_N (Z.to_N b).

Definition RuneError : Z := 0xFFFD.

(** Continuation bytes; the second byte has a narrower range after some first bytes. *)
Definition in_range (lo hi b : Z) : bool := (lo <=? b) && (b <=? hi).
Definition cont (b : Z) : bool := in_range 0x80 0xBF b.
Definition second3 (b0 b1 : Z) : bool :=
  in_range (if b0 =? 0xE0 then 0xA0 else 0x80) (if b0 =? 0xED then 0x9F else 0xBF) b1.
Definition second4 (b0 b1 : Z) : bool :=
  in_range (if b0 =? 0xF0 then 0x90 else 0x80) (if b0 =? 0xF4 then 0x8F else 0xBF) b1.

Definition rune2 (b0 b1 : Z) : Z := Z.lor (Z.shiftl (Z.land b0 0x1F) 6) (Z.land b1 0x3F).
Definition rune3 (b0 b1 b2 : Z) : Z :=
  Z.lor (Z.shiftl (Z.lor (Z.shiftl (Z.land b0 0x0F) 6) (Z.land b1 0x3F)) 6) (Z.land b2 0x3F).
Definition rune4 (b0 b1 b2 b3 : Z) : Z :=
  Z.lor (Z.shiftl (Z.lor (Z.shiftl (Z.lor (Z.shiftl (Z.land b0 0x07) 6) (Z.land b1 0x3F)) 6)
                         (Z.land b2 0x3F)) 6) (Z.land b3 0x3F).

(** [[]rune(s)] *)
Fixpoint runes (s : string) : list Z :=
  match s with
  | EmptyString => []
  | String c0 s1 =>
      let b0 := byte_of c0 in
      if b0 <? 0x80 then b0 :: runes s1
      else match s1 with
      | EmptyString => [RuneError]
      | String c1 s2 =>
          let b1 := byte_of c1 in
          if in_range 0xC2 0xDF b0 && cont b1 then rune2 b0 b1 :: runes s2
          else match s2 with
          | EmptyString => RuneError :: runes s1
          | String c2 s3 =>
              let b2 := byte_of c2 in
              if in_range 0xE0 0xEF b0 && second3 b0 b1 && cont b2 then rune3 b0 b1 b2 :: runes s3
              else match s3 with
              | EmptyString => RuneError :: runes s1
              | String c3 s4 =>
                  let b3 := byte_of c3 in
                  if in_range 0xF0 0xF4 b0 && second4 b0 b1 && cont b2 && cont b3
                  then rune4 b0 b1 b2 b3 :: runes s4
                  else RuneError :: runes s1
              end
          end
      end
  end.

Definition RuneCountInString (s : string) : nat := length (runes s).

(** A rune that UTF-8 can encode: no surrogate, within Unicode. *)
Definition valid_rune (r : Z) : bool := in_range 0 0xD7FF r || in_range 0xE000 0x10FFFF r.

(** [utf8.AppendRune]: anything else is written as U+FFFD. *)
Definition AppendRune (r : Z) (s : string) : string :=
  let c b := of_byte b in
  let tail n := Z.lor 0x80 (Z.land (Z.shiftr r n) 0x3F) in
  if negb (valid_rune r) then String (c 0xEF) (String (c 0xBF) (String (c 0xBD) s))
  else if r <? 0x80 then String (c r) s
  else if r <? 0x800 then String (c (Z.lor 0xC0 (Z.shiftr r 6))) (String (c (tail 0)) s)
  else if r <? 0x10000 then
    String (c (Z.lor 0xE0 (Z.shiftr r 12))) (String (c (tail 6)) (String (c (tail 0)) s))
  else String (c (Z.lor 0xF0 (Z.shiftr r 18)))
         (String (c (tail 12)) (String (c (tail 6)) (String (c (tail 0)) s))).

(** [string(rs)] *)
Fixpoint string_of_runes (rs : list Z) : string :=
  match rs with [] => EmptyString | r :: rs' => AppendRune r (string_of_runes rs') end.

(** ** Arithmetic of the encoding *)

Local Ltac Zify.zify_post_hook ::= Z.to_euclidean_division_equations.

Lemma testbit_high b n i : 0 <= n <= i -> 0 <= b < 2 ^ n -> Z.testbit b i = false.
Proof. intros Hn Hb. apply (Z.bounded_iff_bits_nonneg n b); lia. Qed.

Lemma lor_shift a b n : 0 <= n -> 0 <= b < 2 ^ n -> Z.lor (Z.shiftl a n) b = a * 2 ^ n + b.
Proof.
  intros Hn Hb. rewrite <-Z.shiftl_mul_pow2 by lia.
  assert (Z.land (Z.shiftl a n) b = 0) as Hz.
  { apply Z.bits_inj'. intros i Hi. rewrite Z.land_spec, Z.bits_0.
    destruct (decide (i < n)) as [Hlt|Hge]; [by rewrite Z.shiftl_spec_low|].
    rewrite (testbit_high b n i) by lia. apply andb_false_r. }
  rewrite Z.add_nocarry_lxor by done. symmetry. by apply Z.lxor_lor.
Qed.

Lemma byte_of_byte b : 0 <= b < 256 -> byte_of (of_byte b) = b.
Proof. intros Hb. unfold byte_of, of_byte. rewrite N_ascii_embedding by lia. lia. Qed.
Lemma byte_range c : 0 <= byte_of c < 256.
Proof. unfold byte_of. pose proof (N_ascii_bounded c). lia. Qed.

Lemma land_1F b : Z.land b 0x1F = b mod 32.
Proof. apply (Z.land_ones b 5). lia. Qed.
Lemma land_3F b : Z.land b 0x3F = b mod 64.
Proof. apply (Z.land_ones b 6). lia. Qed.
Lemma land_0F b : Z.land b 0x0F = b mod 16.
Proof. apply (Z.land_ones b 4). lia. Qed.
Lemma land_07 b : Z.land b 0x07 = b mod 8.
Proof. apply (Z.land_ones b 3). lia. Qed.

Lemma rune2_eq b0 b1 : rune2 b0 b1 = (b0 mod 32) * 64 + b1 mod 64.
Proof. unfold rune2. rewrite land_1F, land_3F. apply (lor_shift _ _ 6); lia. Qed.
Lemma rune3_eq b0 b1 b2 : rune3 b0 b1 b2 = ((b0 mod 16) * 64 + b1 mod 64) * 64 + b2 mod 64.
Proof.
  unfold rune3. rewrite land_0F, !land_3F.
  rewrite (lor_shift (b0 mod 16) _ 6) by lia. apply (lor_shift _ _ 6); lia.
Qed.
Lemma rune4_eq b0 b1 b2 b3 :
  rune4 b0 b1 b2 b3 = (((b0 mod 8) * 64 + b1 mod 64) * 64 + b2 mod 64) * 64 + b3 mod 64.
Proof.
  unfold rune4. rewrite land_07, !land_3F.
  rewrite (lor_shift (b0 mod 8) _ 6) by lia. rewrite (lor_shift (_ + _) (b2 mod 64) 6) by lia.
  apply (lor_shift _ _ 6); lia.
Qed.

Lemma tail_eq r n : 0 <= n -> Z.lor 0x80 (Z.land (Z.shiftr r n) 0x3F) = 0x80 + (r / 2 ^ n) mod 64.
Proof.
  intros Hn. rewrite land_3F, Z.shiftr_div_pow2 by done. change 0x80 with (Z.shiftl 2 6) at 1.
  apply (lor_shift 2 _ 6); lia.
Qed.

Lemma in_range_true lo hi b : in_range lo hi b = true <-> lo <= b <= hi.
Proof. unfold in_range. rewrite andb_true_iff, !Z.leb_le. lia. Qed.
Lemma in_range_false lo hi b : in_range lo hi b = false <-> ~ (lo <= b <= hi).
Proof. rewrite <-not_true_iff_false, in_range_true. done. Qed.

(** ** Round trips *)

(** What a string starts with decides the first rune. *)
Lemma runes_1 c s : byte_of c < 0x80 -> runes (String c s) = byte_of c :: runes s.
Proof. intros Hb. cbn [runes]. by rewrite (proj2 (Z.ltb_lt _ _)). Qed.
Lemma runes_2 c0 c1 s :
  in_range 0xC2 0xDF (byte_of c0) = true -> cont (byte_of c1) = true ->
  runes (String c0 (String c1 s)) = rune2 (byte_of c0) (byte_of c1) :: runes s.
Proof.
  intros H0 H1. cbn [runes]. rewrite H0, H1. apply in_range_true in H0.
  by rewrite (proj2 (Z.ltb_ge (byte_of c0) _)) by lia.
Qed.
Lemma runes_3 c0 c1 c2 s :
  in_range 0xE0 0xEF (byte_of c0) = true -> second3 (byte_of c0) (byte_of c1) = true ->
  cont (byte_of c2) = true ->
  runes (String c0 (String c1 (String c2 s))) = rune3 (byte_of c0) (byte_of c1) (byte_of c2) :: runes s.
Proof.
  intros H0 H1 H2. cbn [runes]. rewrite H0, H1, H2. apply in_range_true in H0.
  rewrite (proj2 (Z.ltb_ge (byte_of c0) _)) by lia. by rewrite (proj2 (in_range_false 0xC2 _ (byte_of c0))) by lia.
Qed.
Lemma runes_4 c0 c1 c2 c3 s :
  in_range 0xF0 0xF4 (byte_of c0) = true -> second4 (byte_of c0) (byte_of c1) = true ->
  cont (byte_of c2) = true -> cont (byte_of c3) = true ->
  runes (String c0 (String c1 (String c2 (String c3 s)))) =
    rune4 (byte_of c0) (byte_of c1) (byte_of c2) (byte_of c3) :: runes s.
Proof.
  intros H0 H1 H2 H3. cbn [runes]. rewrite H0, H1, H2, H3. apply in_range_true in H0.
  rewrite (proj2 (Z.ltb_ge (byte_of c0) _)) by lia. rewrite (proj2 (in_range_false 0xC2 _ (byte_of c0))) by lia.
  by rewrite (proj2 (in_range_false 0xE0 _ (byte_of c0))) by lia.
Qed.

Lemma tail_cont r n : 0 <= n ->
  byte_of (of_byte (Z.lor 0x80 (Z.land (Z.shiftr r n) 0x3F))) = 0x80 + (r / 2 ^ n) mod 64.
Proof. intros Hn. rewrite tail_eq by done. apply byte_of_byte. lia. Qed.

Lemma lead_byte k n r m : 0 <= n -> 0 <= m -> 0 <= r / 2 ^ m < 2 ^ n -> 0 <= k * 2 ^ n + r / 2 ^ m < 256 ->
  byte_of (of_byte (Z.lor (Z.shiftl k n) (Z.shiftr r m))) = k * 2 ^ n + r / 2 ^ m.
Proof.
  intros Hn Hm Hr Hb. rewrite Z.shiftr_div_pow2 by done. rewrite lor_shift by done. by apply byte_of_byte.
Qed.

Lemma runes_AppendRune r s : valid_rune r = true -> runes (AppendRune r s) = r :: runes s.
Proof.
  intros Hv. unfold AppendRune. rewrite Hv. cbn [negb].
  unfold valid_rune in Hv. rewrite orb_true_iff, !in_range_true in Hv.
  destruct (Z.ltb_spec r 0x80); [by rewrite runes_1; rewrite byte_of_byte by lia|].
  destruct (Z.ltb_spec r 0x800); [|destruct (Z.ltb_spec r 0x10000)].
  - pose proof (lead_byte 6 5 r 6) as Hl. change (Z.shiftl 6 5) with 0xC0 in Hl.
    rewrite runes_2; [rewrite rune2_eq, tail_cont, Hl by lia; f_equal; lia|..].
    all: rewrite ?tail_cont, ?Hl by lia; apply in_range_true; lia.
  - pose proof (lead_byte 14 4 r 12) as Hl. change (Z.shiftl 14 4) with 0xE0 in Hl.
    rewrite runes_3; [rewrite rune3_eq, !tail_cont, Hl by lia; f_equal; lia|..].
    all: rewrite ?tail_cont, ?Hl by lia; apply in_range_true.
    all: repeat (case Z.eqb_spec; intros); lia.
  - pose proof (lead_byte 30 3 r 18) as Hl. change (Z.shiftl 30 3) with 0xF0 in Hl.
    rewrite runes_4; [rewrite rune4_eq, !tail_cont, Hl by lia; f_equal; lia|..].
    all: rewrite ?tail_cont, ?Hl by lia; apply in_range_true.
    all: repeat (case Z.eqb_spec; intros); lia.
Qed.

(** Writing runes and reading them again. *)
Lemma runes_string_of_runes rs : Forall (fun r => valid_rune r = true) rs -> runes (string_of_runes rs) = rs.
Proof. induction 1 as [|r rs Hr _ IH]; [done|]. cbn. by rewrite runes_AppendRune, IH. Qed.

(** What is read is always a rune that can be written. *)
Lemma valid_range r : 0 <= r <= 0xD7FF \/ 0xE000 <= r <= 0x10FFFF -> valid_rune r = true.
Proof. intros Hr. unfold valid_rune. rewrite orb_true_iff, !in_range_true. done. Qed.

Lemma runes_valid_len n : forall s, (String.length s <= n)%nat -> Forall (fun r => valid_rune r = true) (runes s).
Proof.
  induction n as [|n IH]; intros [|c0 s1] Hn; cbn in Hn; try lia; try constructor. cbn [runes].
  pose proof (byte_range c0) as B0.
  destruct (Z.ltb_spec (byte_of c0) 0x80); [constructor; [apply valid_range; lia|apply IH; lia]|].
  destruct s1 as [|c1 s2]; [by repeat constructor|]. pose proof (byte_range c1) as B1. cbn in Hn.
  destruct (in_range 0xC2 0xDF (byte_of c0) && cont (byte_of c1)) eqn:E2.
  { apply andb_true_iff in E2 as [E2 E2'%in_range_true]. apply in_range_true in E2.
    constructor; [apply valid_range; rewrite rune2_eq; lia|apply IH; lia]. }
  assert (Forall (fun r => valid_rune r = true) (RuneError :: runes (String c1 s2))) as Hbad
    by (constructor; [done|apply IH; cbn; lia]).
  destruct s2 as [|c2 s3]; [exact Hbad|]. pose proof (byte_range c2) as B2. cbn in Hn.
  destruct (in_range 0xE0 0xEF (byte_of c0) && second3 (byte_of c0) (byte_of c1) && cont (byte_of c2)) eqn:E3.
  { rewrite !andb_true_iff in E3. destruct E3 as [[E3%in_range_true E3'] E3''%in_range_true].
    apply in_range_true in E3'. revert E3'. do 2 case Z.eqb_spec; intros.
    all: constructor; [apply valid_range; rewrite rune3_eq; lia|apply IH; lia]. }
  destruct s3 as [|c3 s4]; [exact Hbad|]. pose proof (byte_range c3) as B3. cbn in Hn.
  destruct (in_range 0xF0 0xF4 (byte_of c0) && second4 (byte_of c0) (byte_of c1) && cont (byte_of c2) && cont (byte_of c3)) eqn:E4;
    [|exact Hbad].
  rewrite !andb_true_iff in E4. destruct E4 as [[[E4%in_range_true E4'] E5%in_range_true] E6%in_range_true].
  apply in_range_true in E4'. revert E4'. do 2 case Z.eqb_spec; intros.
  all: constructor; [apply valid_range; rewrite rune4_eq; lia|apply IH; lia].
Qed.
Lemma runes_valid s : Forall (fun r => valid_rune r = true) (runes s).
Proof. by apply (runes_valid_len (String.length s)). Qed.
