(* ===== verification/GoText.v ===== *)
(** * Texts the code stores and parses again

    Instants as RFC 3339 texts ([time.Format]/[time.Parse] with
    [time.RFC3339Nano]), string lists as JSON texts ([json.Marshal] and
    [json.Unmarshal] of [[]string]), and the order in which Go ranges over a set.
    They are an interface with the laws Go documents; [sample_text] implements it. *)
From S2P Require Import Prelude GoStrings.
From Stdlib Require Import Ascii.
From stdpp Require Import options.
Local Open Scope string_scope.
Local Open Scope char_scope.
Local Open Scope string_scope.

(** The zero [time.Time], in nanoseconds. *)
Definition go_zero_time : Z := (-62135596800 * 1000000000)%Z.

(** Years 0000 to 9999, the range of RFC 3339. *)
Definition rfc3339_range (t : Z) : Prop :=
  (-62167219200 * 1000000000 ≤ t < 253402300800 * 1000000000)%Z.

Abbreviation chars := String.list_ascii_of_string.

(** JSON keeps ASCII text as it is; other bytes only if they are UTF-8. *)
Definition ascii_text (s : string) : Prop := Forall (λ c, (Ascii.nat_of_ascii c < 128)%nat) (chars s).

Class GoText := {
  format_time : Z → string;
  parse_time : string → option Z;
  parse_format t : rfc3339_range t → parse_time (format_time t) = Some t;
  format_no_bar t : no_char "|"%char (format_time t);
  marshal_ids : list string → string;
  unmarshal_ids : string → option (list string);
  unmarshal_marshal l : Forall ascii_text l → unmarshal_ids (marshal_ids l) = Some l;
  marshal_not_empty l : marshal_ids l ≠ "";
  unmarshal_empty : unmarshal_ids "[]" = Some [];
  range_set : gset string → list string;
  range_set_perm X : range_set X ≡ₚ elements X }.

(** ** An implementation *)

Fixpoint pos_text (p : positive) : string :=
  match p with xH => "1" | xO p' => "0" +:+ pos_text p' | xI p' => "1" +:+ pos_text p' end.
Fixpoint text_pos (s : string) : option positive :=
  match s with
  | String c EmptyString => if bool_decide (c = "1"%char) then Some xH else None
  | String c s' => p ← text_pos s'; Some (if bool_decide (c = "1"%char) then xI p else xO p)
  | EmptyString => None
  end.
Definition z_text (z : Z) : string :=
  match z with Z0 => "z" | Zpos p => "p" +:+ pos_text p | Zneg p => "n" +:+ pos_text p end.
Definition text_z (s : string) : option Z :=
  match s with
  | String c s' =>
      if bool_decide (c = "p"%char) then Zpos <$> text_pos s'
      else if bool_decide (c = "n"%char) then Zneg <$> text_pos s' else Some 0%Z
  | EmptyString => None
  end.

Lemma pos_text_not_empty p : pos_text p ≠ "".
Proof. by destruct p. Qed.
Lemma text_pos_String c s : s ≠ "" →
  text_pos (String c s) = p ← text_pos s; Some (if bool_decide (c = "1"%char) then xI p else xO p).
Proof. by destruct s. Qed.
Lemma text_pos_text p : text_pos (pos_text p) = Some p.
Proof.
  induction p as [p IH|p IH|]; [| |done].
  - change (pos_text p~1) with (String "1" (pos_text p)).
    by rewrite text_pos_String, IH by apply pos_text_not_empty.
  - change (pos_text p~0) with (String "0" (pos_text p)).
    by rewrite text_pos_String, IH by apply pos_text_not_empty.
Qed.
Lemma text_z_text z : text_z (z_text z) = Some z.
Proof.
  destruct z as [|p|p]; [done| |].
  - change (text_z (z_text (Z.pos p))) with (Zpos <$> text_pos (pos_text p)). by rewrite text_pos_text.
  - change (text_z (z_text (Z.neg p))) with (Zneg <$> text_pos (pos_text p)). by rewrite text_pos_text.
Qed.
Lemma pos_text_chars p c : c ∈ chars (pos_text p) → c = "0"%char ∨ c = "1"%char.
Proof. induction p; cbn; rewrite ?elem_of_cons; set_solver. Qed.
Lemma z_text_no_bar z : no_char "|" (z_text z).
Proof.
  assert (∀ c p, c ≠ "|"%char → no_char "|" (String c (pos_text p))) as Hp.
  { intros c p Hc [?|Hin]%elem_of_cons; [congruence|].
    by destruct (pos_text_chars p "|" Hin). }
  destruct z as [|p|p]; [|by apply Hp|by apply Hp].
  intros [?|[]%not_elem_of_nil]%elem_of_cons. congruence.
Qed.

(** A list of strings, each written as its characters behind a mark. *)
Fixpoint id_text (s rest : string) : string :=
  match s with EmptyString => "e" +:+ rest | String c s' => "c" +:+ String c (id_text s' rest) end.
Fixpoint ids_text (l : list string) : string :=
  match l with [] => "]" | s :: l' => "s" +:+ id_text s (ids_text l') end.
Fixpoint read_ids (fuel : nat) (acc : option string) (s : string) : option (list string) :=
  match fuel with
  | O => None
  | S fuel =>
      match acc, s with
      | None, String c s' =>
          if bool_decide (c = "s"%char) then read_ids fuel (Some "") s' else Some []
      | Some a, String c s' =>
          if bool_decide (c = "e"%char) then (a ::.) <$> read_ids fuel None s'
          else match s' with
               | String x s'' => read_ids fuel (Some (a +:+ String x "")) s''
               | EmptyString => None
               end
      | _, EmptyString => None
      end
  end.
Definition text_ids (s : string) : option (list string) :=
  match s with String _ s' => read_ids (S (String.length s)) None s' | EmptyString => None end.

Lemma id_text_length s rest :
  String.length (id_text s rest) = (2 * String.length s + S (String.length rest))%nat.
Proof.
  induction s as [|c s IH]; [done|].
  change (String.length (id_text (String c s) rest)) with (S (S (String.length (id_text s rest)))).
  change (String.length (String c s)) with (S (String.length s)). lia.
Qed.

Lemma read_id_text s : ∀ rest acc fuel,
  (String.length (id_text s rest) ≤ fuel)%nat →
  read_ids fuel (Some acc) (id_text s rest) =
    ((acc +:+ s) ::.) <$> read_ids (fuel - S (String.length s)) None rest.
Proof.
  induction s as [|c s IH]; intros rest acc fuel Hf; rewrite id_text_length in Hf.
  all: destruct fuel as [|fuel]; [lia|].
  - change (read_ids (S fuel) (Some acc) (id_text "" rest)) with ((acc ::.) <$> read_ids fuel None rest).
    change (S fuel - S (String.length ""))%nat with (fuel - 0)%nat.
    by rewrite Nat.sub_0_r, append_nil_r.
  - change (read_ids (S fuel) (Some acc) (id_text (String c s) rest))
      with (read_ids fuel (Some (acc +:+ String c "")) (id_text s rest)).
    change (String.length (String c s)) with (S (String.length s)) in *.
    rewrite IH by (rewrite id_text_length; lia). by rewrite append_assoc.
Qed.

Lemma read_ids_text l : ∀ fuel,
  (String.length (ids_text l) ≤ fuel)%nat → read_ids fuel None (ids_text l) = Some l.
Proof.
  induction l as [|s l IH]; intros [|fuel] Hf; [by apply Nat.le_0_r in Hf|done|by apply Nat.le_0_r in Hf|].
  change (String.length (ids_text (s :: l))) with (S (String.length (id_text s (ids_text l)))) in Hf.
  change (read_ids (S fuel) None (ids_text (s :: l)))
    with (read_ids fuel (Some "") (id_text s (ids_text l))).
  rewrite read_id_text by lia. rewrite id_text_length in Hf. by rewrite IH by lia.
Qed.

Lemma text_ids_text l : text_ids ("[" +:+ ids_text l) = Some l.
Proof. apply read_ids_text. apply Nat.le_le_succ_r, Nat.le_succ_diag_r. Qed.

Definition sample_text : GoText := {|
  format_time := z_text;
  parse_time := text_z;
  parse_format t _ := text_z_text t;
  format_no_bar := z_text_no_bar;
  marshal_ids l := "[" +:+ ids_text l;
  unmarshal_ids := text_ids;
  unmarshal_marshal l _ := text_ids_text l;
  marshal_not_empty l := λ H : "[" +:+ ids_text l = "", ltac:(discriminate H);
  unmarshal_empty := eq_refl;
  range_set := elements;
  range_set_perm X := reflexivity (elements X) |}.
