(* ===== verification/Paths.v ===== *)
(** * Workspace paths: [studentclient/contracts/path.go]

    [SafeRelPath] guards every path a curriculum document names before it is
    joined to a student's workspace; [JoinUnder] does the joining.  The file
    also models the part of Go's [path] and [path/filepath] packages the client
    calls ([Clean], [Join], [IsAbs], [Base], [Rel]). *)
From S2P Require Import Prelude GoStrings.
From Stdlib Require Import Ascii.
From stdpp Require Import options.

(** ** Go's [path] package *)

(** The segments [path.Clean] keeps, most recent first: [""] and ["."] are
    dropped, [".."] drops the segment before it, or stays in front of a path that
    is not rooted. *)
Fixpoint clean_segs (rooted : bool) (acc : list string) (segs : list string)
  : list string :=
  match segs with
  | [] => acc
  | s :: segs' =>
      if bool_decide (s = "") || bool_decide (s = ".") then clean_segs rooted acc segs'
      else if bool_decide (s = "..") then
        match acc with
        | [] => clean_segs rooted (if rooted then [] else [".."]) segs'
        | top :: acc' =>
            if bool_decide (top = "..") then clean_segs rooted (".." :: acc) segs'
            else clean_segs rooted acc' segs'
        end
      else clean_segs rooted (s :: acc) segs'
  end.

(** [path.IsAbs] *)
Definition IsAbs (p : string) : bool := HasPrefix p "/".

(** [path.Clean] *)
Definition Clean (p : string) : string :=
  let rooted := IsAbs p in
  let segs := rev (clean_segs rooted [] (Split p "/")) in
  if rooted then "/" +:+ Join segs "/"
  else match segs with [] => "." | _ => Join segs "/" end.

(** [path.Join(a, b)] *)
Definition path_Join (a b : string) : string :=
  if bool_decide (a = "") then (if bool_decide (b = "") then "" else Clean b)
  else if bool_decide (b = "") then Clean a
  else Clean (a +:+ "/" +:+ b).

(** Drop the empty segments at the end of a path, given in reverse. *)
Fixpoint trim_slashes (l : list string) : list string :=
  match l with "" :: l' => trim_slashes l' | _ => l end.

(** [filepath.Base] *)
Definition filepath_Base (p : string) : string :=
  if bool_decide (p = "") then "."
  else match trim_slashes (rev (Split p "/")) with [] => "/" | s :: _ => s end.

(** The elements [filepath.Rel] compares: what separators delimit in a cleaned path. *)
Definition path_elems (p : string) : list string :=
  if bool_decide (p = "") then [] else if bool_decide (p = "/") then [""] else Split p "/".

(** What is left of two lists after their common beginning, and whether an element differed. *)
Fixpoint strip_common (b t : list string) : list string * list string * bool :=
  match b, t with
  | x :: b', y :: t' => if bool_decide (x = y) then strip_common b' t' else (b, t, true)
  | _, _ => (b, t, false)
  end.

(** [filepath.Rel(basepath, targpath)] on a system with slashes; [None] is its error. *)
Definition Rel (basepath targpath : string) : option string :=
  let base := Clean basepath in
  let targ := Clean targpath in
  if bool_decide (targ = base) then Some "."
  else
    let base := if bool_decide (base = ".") then "" else base in
    if negb (Bool.eqb (IsAbs base) (IsAbs targ)) then None
    else
      let '(b, t, differ) := strip_common (path_elems base) (path_elems targ) in
      if differ && bool_decide (head b = Some "..") then None
      else Some (Join (replicate (length b) ".." ++ t) "/").

(** ** The code *)

(** The reasons of [ErrUnsafePath], one per [return]. *)
Inductive path_err :=
| PathIsEmpty
| PathContainsNUL
| PathIllegalChar
| PathTilde
| PathLeadingSlash
| PathDotDotSegment
| PathResolvesOutside
| PathMustBeRelative
| PathEmptyAfterClean
| PathDotDotAfterClean
| PathEscapesRoot
| RootNotAbsolute.

#[export] Instance path_err_eq_dec : EqDecision path_err.
Proof. solve_decision. Defined.

Definition NUL : string := bytes [0].

Definition SafeRelPath (p : string) : result path_err string :=
  if bool_decide (p = "") then Err PathIsEmpty
  else if Contains p NUL then Err PathContainsNUL
  else if ContainsAny p ":\" then Err PathIllegalChar
  else if HasPrefix p "~" then Err PathTilde
  else if HasPrefix p "/" then Err PathLeadingSlash
  else if existsb (λ seg, bool_decide (seg = "..")) (Split p "/") then Err PathDotDotSegment
  else
    let cleaned := Clean p in
    if bool_decide (cleaned = ".") || bool_decide (cleaned = "..") || HasPrefix cleaned "../"
    then Err PathResolvesOutside
    else if IsAbs cleaned then Err PathMustBeRelative
    else if bool_decide (cleaned = "") then Err PathEmptyAfterClean
    else if existsb (λ seg, bool_decide (seg = "..") || bool_decide (seg = ""))
                    (Split cleaned "/")
    then Err PathDotDotAfterClean
    else Ok cleaned.

Definition JoinUnder (root rel : string) : result path_err string :=
  match SafeRelPath rel with
  | Err e => Err e
  | Ok safe =>
      if bool_decide (root = "") || negb (HasPrefix root "/") then Err RootNotAbsolute
      else
        let rootClean := Clean root in
        let full := path_Join rootClean safe in
        if negb (bool_decide (full = rootClean)) && negb (HasPrefix full (rootClean +:+ "/"))
        then Err PathEscapesRoot
        else Ok full
  end.

(** ** What a cleaned path looks like *)

(** A path segment that names an entry of its directory. *)
Definition normal_seg (s : string) : Prop :=
  s ≠ "" ∧ s ≠ "." ∧ s ≠ ".." ∧ no_char "/" s.

(** A workspace-relative path: one or more normal segments. *)
Definition inside_workspace (p : string) : Prop :=
  ∃ segs, segs ≠ [] ∧ Forall normal_seg segs ∧ p = Join segs "/".

Lemma clean_segs_normal rooted acc segs :
  Forall normal_seg segs → clean_segs rooted acc segs = rev segs ++ acc.
Proof.
  revert acc. induction segs as [|s segs IH]; intros acc; [done|].
  intros [(?&?&?&?) Hs]%Forall_cons. cbn.
  rewrite !bool_decide_false by done. cbn. rewrite IH by done.
  by rewrite <-app_assoc.
Qed.

Lemma clean_segs_trailing rooted segs : ∀ acc, clean_segs rooted acc (segs ++ [""]) = clean_segs rooted acc segs.
Proof. induction segs as [|s segs IH]; intros acc; [done|]. cbn [app clean_segs]. destruct acc; by rewrite !IH. Qed.

(** Without [".."] in the input, what is kept is normal. *)
Lemma clean_segs_keeps rooted acc segs :
  Forall (no_char "/") segs → ".." ∉ segs → Forall normal_seg acc →
  Forall normal_seg (clean_segs rooted acc segs).
Proof.
  revert acc. induction segs as [|s segs IH]; intros acc; [done|].
  intros [Hc Hs]%Forall_cons Hdd Hacc. apply not_elem_of_cons in Hdd as [Hne Hdd]. cbn.
  destruct (bool_decide_reflect (s = "")); cbn; [by apply IH|].
  destruct (bool_decide_reflect (s = ".")); cbn; [by apply IH|].
  rewrite bool_decide_false by done. apply IH; [done..|].
  by constructor.
Qed.

Lemma rooted_clean_keeps acc segs :
  Forall (no_char "/") segs → Forall normal_seg acc →
  Forall normal_seg (clean_segs true acc segs).
Proof.
  revert acc. induction segs as [|s segs IH]; intros acc; [done|].
  intros [Hc Hs]%Forall_cons Hacc. cbn.
  destruct (bool_decide_reflect (s = "")); cbn; [by apply IH|].
  destruct (bool_decide_reflect (s = ".")); cbn; [by apply IH|].
  destruct (bool_decide_reflect (s = "..")).
  - destruct acc as [|t acc]; [by apply IH|].
    apply Forall_cons in Hacc as [(?&?&?&?) Hacc].
    rewrite bool_decide_false by done. by apply IH.
  - apply IH; [done|]. by constructor.
Qed.

Lemma normal_no_char segs : Forall normal_seg segs → Forall (no_char "/") segs.
Proof. intros Hs. eapply Forall_impl; [exact Hs|]. by intros s (?&?&?&?). Qed.

Lemma Join_first s segs sep : ∃ t, Join (s :: segs) sep = s +:+ t.
Proof.
  destruct segs; [|by eexists]. exists "".
  by rewrite append_nil_r.
Qed.

Lemma normal_not_rooted segs : Forall normal_seg segs → IsAbs (Join segs "/") = false.
Proof.
  destruct segs as [|s segs]; [done|]. intros [(Hne&_&_&Hc) _]%Forall_cons.
  destruct (Join_first s segs "/") as [t ->].
  apply not_true_is_false. intros [u Hu]%HasPrefix_iff.
  destruct s as [|c s]; [done|].
  unfold no_char in Hc. cbn in Hc. apply not_elem_of_cons in Hc as [Hc _].
  rewrite !append_cons in Hu. congruence.
Qed.

(** A relative path of normal segments is its own [Clean]. *)
Lemma Clean_normal segs :
  segs ≠ [] → Forall normal_seg segs → Clean (Join segs "/") = Join segs "/".
Proof.
  intros Hne Hs. unfold Clean. rewrite normal_not_rooted by done.
  rewrite Split_Join by (done || by apply normal_no_char).
  rewrite clean_segs_normal, app_nil_r, rev_involutive by done. by destruct segs.
Qed.

Lemma Split_slash s : Split ("/" +:+ s) "/" = "" :: Split s "/".
Proof.
  change ("/" +:+ s) with ("" +:+ String "/" s). apply Split_char_app.
  unfold no_char. cbn. set_solver.
Qed.

Lemma Clean_rooted_normal segs :
  Forall normal_seg segs → Clean ("/" +:+ Join segs "/") = "/" +:+ Join segs "/".
Proof.
  intros Hs. unfold Clean, IsAbs. rewrite HasPrefix_app, Split_slash. cbn [clean_segs].
  rewrite bool_decide_true by done. cbn [orb].
  destruct segs as [|s segs]; [done|].
  rewrite Split_Join by (done || by apply normal_no_char).
  by rewrite clean_segs_normal, app_nil_r, rev_involutive by done.
Qed.

Lemma Clean_rooted p : IsAbs p = true → ∃ segs, Forall normal_seg segs ∧ Clean p = "/" +:+ Join segs "/".
Proof.
  intros Hp. unfold Clean. rewrite Hp.
  exists (rev (clean_segs true [] (Split p "/"))). split; [|done].
  apply Forall_rev, rooted_clean_keeps; [apply Split_char_pieces|constructor].
Qed.

(** ** The theorems *)

Lemma SafeRelPath_inv p c :
  SafeRelPath p = Ok c →
  p ≠ "" ∧ HasPrefix p "/" = false ∧ ".." ∉ Split p "/" ∧ c = Clean p ∧ c ≠ ".".
Proof.
  unfold SafeRelPath. intros H.
  destruct (bool_decide_reflect (p = "")); [done|].
  destruct (Contains p NUL); [done|]. destruct (ContainsAny p ":\"); [done|].
  destruct (HasPrefix p "~"); [done|]. destruct (HasPrefix p "/"); [done|].
  destruct (existsb _ (Split p "/")) eqn:Hdd; [done|].
  destruct (bool_decide_reflect (Clean p = ".")); cbn in H; [done|].
  repeat case_match; simplify_eq. split_and!; try done.
  intros Hin. by eapply existsb_false_in in Hdd; [rewrite bool_decide_true in Hdd|].
Qed.

Lemma SafeRelPath_segs p c : SafeRelPath p = Ok c → inside_workspace c.
Proof.
  intros Hp. apply SafeRelPath_inv in Hp as (Hne & Habs & Hdd & -> & Hdot).
  unfold Clean in *. unfold IsAbs in *. rewrite Habs in *.
  set (segs := rev (clean_segs false [] (Split p "/"))) in *.
  assert (Forall normal_seg segs) as Hs.
  { apply Forall_rev, clean_segs_keeps; [apply Split_char_pieces|done|constructor]. }
  exists segs. destruct segs; [done|]. by split_and!.
Qed.

(** the path [SafeRelPath] returns is always made of one or more segments
    none of which is empty, ["."], [".."] or contains a slash, so joined to a
    directory it names something below that directory. *)
Lemma SafeRelPath_inside p c : SafeRelPath p = Ok c → inside_workspace c.
Proof. apply SafeRelPath_segs. Qed.

Lemma SafeRelPath_inside_witness : inside_workspace "notes/b/a.txt".
Proof.
  apply (SafeRelPath_inside "./notes//b/./a.txt" "notes/b/a.txt"). vm_compute. reflexivity.
Defined.

Lemma JoinUnder_full root safe :
  IsAbs root = true → inside_workspace safe →
  (Clean root = "/" ∧ path_Join (Clean root) safe = "/" +:+ safe) ∨
  (Clean root ≠ "/" ∧ path_Join (Clean root) safe = Clean root +:+ "/" +:+ safe).
Proof.
  intros Hr (ss & Hss & Hn & ->). destruct (Clean_rooted root Hr) as (rs & Hrs & HC).
  rewrite HC. clear HC. unfold path_Join. rewrite bool_decide_false by done.
  rewrite (bool_decide_false (Join ss "/" = "")); last first.
  { destruct ss as [|s ss]; [done|]. destruct (Join_first s ss "/") as [t ->].
    apply Forall_cons in Hn as [(?&_) _]. by destruct s. }
  destruct rs as [|r rs].
  - left. split; [done|]. unfold Clean. cbn [Join]. rewrite append_nil_r.
    unfold IsAbs. rewrite HasPrefix_app, !Split_slash.
    rewrite Split_Join by (done || by apply normal_no_char).
    cbn [clean_segs]. rewrite !bool_decide_true by done. cbn [orb].
    by rewrite clean_segs_normal, app_nil_r, rev_involutive.
  - right. split.
    { destruct (Join_first r rs "/") as [t ->]. apply Forall_cons in Hrs as [(?&_) _].
      by destruct r. }
    rewrite append_assoc, <-Join_app by done.
    apply Clean_rooted_normal. by apply Forall_app.
Qed.

(** [JoinUnder] succeeds exactly on a safe relative path and an absolute root
    other than the file-system root, and then returns the cleaned root, a slash
    and the safe path: the result is below the root. *)
Lemma JoinUnder_spec root rel full :
  JoinUnder root rel = Ok full ↔
  ∃ safe, SafeRelPath rel = Ok safe ∧ IsAbs root = true ∧ Clean root ≠ "/" ∧
          full = Clean root +:+ "/" +:+ safe.
Proof.
  unfold JoinUnder. destruct (SafeRelPath rel) as [safe|e] eqn:Hs; [|naive_solver].
  apply SafeRelPath_segs in Hs as Hin. fold (IsAbs root).
  destruct (bool_decide_reflect (root = "")) as [->|Hne]; cbn [orb].
  { split; [done|]. by intros (?&?&?&?). }
  destruct (IsAbs root) eqn:Ha; cbn [negb]; [|naive_solver].
  destruct (JoinUnder_full root safe Ha Hin) as [[HC ->]|[HC ->]].
  - rewrite HC. split; [|naive_solver]. 
    destruct Hin as (ss & Hss & Hn & ->).
    rewrite (bool_decide_false (_ = _)).
    + cbn [negb andb]. destruct (HasPrefix _ ("/" +:+ "/")) eqn:Hp; [|done].
      intros _. exfalso. apply HasPrefix_iff in Hp as [t Ht]. rewrite append_assoc in Ht. apply append_inj_l in Ht.
      pose proof (normal_not_rooted ss Hn) as Hr. rewrite Ht in Hr. unfold IsAbs in Hr.
      by rewrite HasPrefix_app in Hr.
    + intros Heq. pose proof (append_inj_l "/" (Join ss "/") "" Heq) as Hj.
      destruct ss as [|s ss]; [done|]. destruct (Join_first s ss "/") as [t Ht].
      rewrite Ht in Hj. apply Forall_cons in Hn as [(?&_) _]. by destruct s.
  - rewrite <-append_assoc, HasPrefix_app. cbn [negb]. rewrite andb_false_r.
    rewrite append_assoc. split.
    + intros [= <-]. by exists safe.
    + by intros (safe' & [= <-] & _ & _ & ->).
Qed.

(** the leading-tilde test of [SafeRelPath] is made before the path is
    cleaned: ["./~root"] is accepted and comes back as ["~root"], a path
    [SafeRelPath] itself rejects. *)
Lemma SafeRelPath_tilde_after_clean :
  SafeRelPath "./~root" = Ok "~root" ∧ SafeRelPath "~root" = Err PathTilde.
Proof. vm_compute. done. Qed.

(** ** Relative paths and containment *)

Definition plain_seg (s : string) : Prop := s ≠ "" ∧ no_char "/" s.

Lemma clean_segs_plain rooted segs : ∀ acc,
  Forall (no_char "/") segs → Forall plain_seg acc → Forall plain_seg (clean_segs rooted acc segs).
Proof.
  assert (plain_seg "..") as Hdd by (split; [done|]; unfold no_char; cbn; set_solver).
  induction segs as [|s segs IH]; intros acc Hs Hacc; [done|]. apply Forall_cons in Hs as [Hc Hs]. cbn [clean_segs].
  destruct (bool_decide (s = "")) eqn:E1; [by apply IH|]. apply bool_decide_eq_false_1 in E1. cbn.
  repeat case_bool_decide; try (by apply IH).
  - destruct acc as [|top acc]; [apply IH; [done|]; destruct rooted; [constructor|by apply Forall_singleton]|].
    apply Forall_cons in Hacc as [Ht Hacc]. case_bool_decide; apply IH; auto.
  - apply IH; [done|]. by constructor.
Qed.

(** Cleaning keeps a path absolute or relative. *)
Lemma IsAbs_Clean p : IsAbs (Clean p) = IsAbs p.
Proof.
  destruct (IsAbs p) eqn:Hp.
  - unfold Clean. rewrite Hp. unfold IsAbs. apply HasPrefix_app.
  - unfold Clean. rewrite Hp. destruct (rev _) as [|s segs] eqn:E; [done|].
    assert (Forall plain_seg (s :: segs)) as [[Hne Hc] _]%Forall_cons.
    { rewrite <-E. apply Forall_rev, clean_segs_plain; [apply Split_char_pieces|done]. }
    destruct (Join_first s segs "/") as [t ->]. destruct s as [|c s]; [done|].
    unfold IsAbs, HasPrefix. rewrite append_cons. cbn [String.prefix]. destruct (ascii_dec "/" c) as [Hs|]; [|reflexivity].
    destruct Hc. subst c. cbn. left.
Qed.

(** A relative path cannot be made relative to an absolute one. *)
Lemma Rel_mixed root p : IsAbs root = true → IsAbs p = false → Rel root p = None.
Proof.
  intros Hr Hp. rewrite <-(IsAbs_Clean root) in Hr. rewrite <-(IsAbs_Clean p) in Hp. unfold Rel. cbv zeta.
  rewrite bool_decide_eq_false_2 by congruence. rewrite (bool_decide_eq_false_2 (Clean root = ".")) by (intros E; by rewrite E in Hr).
  by rewrite Hr, Hp.
Qed.

(** [p] is [root] or lies below it, as names go. *)
Definition path_under (root p : string) : Prop :=
  IsAbs root = true ∧ IsAbs p = true ∧ ∃ segs, path_elems (Clean p) = path_elems (Clean root) ++ segs.

Lemma strip_common_spec b : ∀ t b' t' d, strip_common b t = (b', t', d) → ∃ c, b = c ++ b' ∧ t = c ++ t'.
Proof.
  induction b as [|x b IH]; intros [|y t] b' t' d; cbn; try (intros [= <- <- <-]; by exists []).
  case_bool_decide as E; [subst y|intros [= <- <- <-]; by exists []].
  intros (c & -> & ->)%IH. by exists (x :: c).
Qed.

(** What [cd] accepts: a path whose relative form does not start with two dots. *)
Lemma Rel_under root p r :
  IsAbs root = true → Rel root p = Some r → HasPrefix r ".." = false → path_under root p.
Proof.
  intros Hr HR Hd. destruct (IsAbs p) eqn:Hp; [|by rewrite Rel_mixed in HR]. split_and!; [done|done|].
  unfold Rel in HR. cbv zeta in HR. case_bool_decide as E; [exists []; by rewrite E, app_nil_r|].
  rewrite (bool_decide_eq_false_2 (Clean root = ".")) in HR.
  2: { intros Hc. pose proof (IsAbs_Clean root) as Hi. rewrite Hc, Hr in Hi. done. }
  destruct (negb _); [done|]. destruct (strip_common _ _) as [[b t] d] eqn:Es.
  apply strip_common_spec in Es as (c & Eb & Et). destruct (d && _); [done|]. injection HR as <-.
  destruct b as [|x b]; [exists t; by rewrite Et, Eb, app_nil_r|].
  exfalso. cbn [length replicate app] in Hd. destruct (Join_first ".." (replicate (length b) ".." ++ t) "/") as [u Hu].
  rewrite Hu in Hd. by rewrite HasPrefix_app in Hd.
Qed.

Lemma path_elems_rooted l : Forall normal_seg l → path_elems ("/" +:+ Join l "/") = "" :: l.
Proof.
  intros Hl. unfold path_elems. rewrite bool_decide_eq_false_2 by done. destruct l as [|s l]; [done|].
  rewrite bool_decide_eq_false_2.
  - rewrite Split_slash. f_equal. apply Split_Join; [done|]. by apply normal_no_char.
  - apply Forall_cons in Hl as [(Hne & _) _]. destruct (Join_first s l "/") as [t ->]. by destruct s.
Qed.

Lemma Clean_Clean p : IsAbs p = true → Clean (Clean p) = Clean p.
Proof. intros (segs & Hs & ->)%Clean_rooted. by apply Clean_rooted_normal. Qed.

Lemma path_under_refl p : IsAbs p = true → path_under p p.
Proof. intros Hp. split_and!; [done|done|]. exists []. by rewrite app_nil_r. Qed.

Lemma path_under_Clean root p : path_under root p → path_under root (Clean p).
Proof. intros (Hr & Hp & segs & E). split_and!; [done|by rewrite IsAbs_Clean|]. exists segs. by rewrite Clean_Clean. Qed.

(** What [JoinUnder] gives lies below the root. *)
Lemma JoinUnder_under root rel full : JoinUnder root rel = Ok full → path_under root full.
Proof.
  intros (safe & Hsafe & Hroot & Hne & ->)%JoinUnder_spec.
  destruct (SafeRelPath_segs _ _ Hsafe) as (segs & Hsegs & Hn & ->).
  destruct (Clean_rooted root Hroot) as (rs & Hrs & E). rewrite E in *.
  assert (rs ≠ []) as Hrs0 by (by intros ->).
  assert (("/" +:+ Join rs "/") +:+ "/" +:+ Join segs "/" = "/" +:+ Join (rs ++ segs) "/") as ->.
  { by rewrite append_assoc, Join_app by done. }
  assert (Forall normal_seg (rs ++ segs)) as Hall by (by apply Forall_app).
  split_and!; [done|unfold IsAbs; apply HasPrefix_app|]. exists segs.
  by rewrite Clean_rooted_normal, E, !path_elems_rooted by done.
Qed.

(** A relative form is relative. *)
Lemma Rel_relative root p r : IsAbs root = true → Rel root p = Some r → IsAbs r = false.
Proof.
  intros Hr HR. destruct (IsAbs p) eqn:Hp; [|by rewrite Rel_mixed in HR].
  unfold Rel in HR. cbv zeta in HR. case_bool_decide; [by simplify_eq|].
  destruct (Clean_rooted root Hr) as (rs & Hrs & Er). destruct (Clean_rooted p Hp) as (ps & Hps & Ep).
  rewrite Er, Ep in *. rewrite (bool_decide_eq_false_2 (_ = ".")) in HR by done.
  rewrite !path_elems_rooted in HR by done. destruct (negb _); [done|]. cbn [strip_common] in HR.
  rewrite (bool_decide_eq_true_2 ("" = "")) in HR by done.
  destruct (strip_common rs ps) as [[b t] d] eqn:Es. destruct (d && _); [done|]. injection HR as <-.
  apply strip_common_spec in Es as (c & _ & ->). apply Forall_app in Hps as [_ Ht].
  destruct b as [|x b]; [by apply normal_not_rooted|]. cbn [length replicate app].
  destruct (Join_first ".." (replicate (length b) ".." ++ t) "/") as [u ->]. done.
Qed.
