(* ===== verification/Regex.v ===== *)
(** * The regular expressions of the validators

    Go's [regexp] accepts the regular languages; the patterns used by the
    modelled code are built from character classes, concatenation, alternation
    and repetition.  [matches] decides an anchored pattern ([^...$]) by
    derivatives, [lang] is the language of a pattern, and [matches_lang] says they
    agree.  The classes the code uses contain ASCII characters only (or are the
    complement of such a class), so matching bytes or code points is the same. *)
From S2P Require Import Prelude GoStrings.
From Stdlib Require Import Ascii.
From stdpp Require Import options.

Inductive re :=
| RVoid
| REps
| RCls (cls : ascii → bool)
| RCat (r1 r2 : re)
| RAlt (r1 r2 : re)
| RStar (r : re).

Inductive lang : re → list ascii → Prop :=
| lang_eps : lang REps []
| lang_cls cls c : cls c = true → lang (RCls cls) [c]
| lang_cat r1 r2 w1 w2 : lang r1 w1 → lang r2 w2 → lang (RCat r1 r2) (w1 ++ w2)
| lang_alt_l r1 r2 w : lang r1 w → lang (RAlt r1 r2) w
| lang_alt_r r1 r2 w : lang r2 w → lang (RAlt r1 r2) w
| lang_star_nil r : lang (RStar r) []
| lang_star_cons r w1 w2 : lang r w1 → lang (RStar r) w2 → lang (RStar r) (w1 ++ w2).

Fixpoint nullable (r : re) : bool :=
  match r with
  | RVoid | RCls _ => false
  | REps | RStar _ => true
  | RCat r1 r2 => nullable r1 && nullable r2
  | RAlt r1 r2 => nullable r1 || nullable r2
  end.

Fixpoint deriv (c : ascii) (r : re) : re :=
  match r with
  | RVoid | REps => RVoid
  | RCls cls => if cls c then REps else RVoid
  | RCat r1 r2 =>
      if nullable r1 then RAlt (RCat (deriv c r1) r2) (deriv c r2)
      else RCat (deriv c r1) r2
  | RAlt r1 r2 => RAlt (deriv c r1) (deriv c r2)
  | RStar r => RCat (deriv c r) (RStar r)
  end.

Fixpoint match_list (r : re) (w : list ascii) : bool :=
  match w with [] => nullable r | c :: w' => match_list (deriv c r) w' end.

(** [MatchString] of the pattern [^r$]. *)
Definition matches (r : re) (s : string) : bool :=
  match_list r (String.list_ascii_of_string s).

(** [MatchString] of a pattern without anchors: some part of the text matches. *)
Fixpoint match_prefix (r : re) (w : list ascii) : bool :=
  nullable r || match w with [] => false | c :: w' => match_prefix (deriv c r) w' end.

Fixpoint search_list (r : re) (w : list ascii) : bool :=
  match_prefix r w || match w with [] => false | _ :: w' => search_list r w' end.

Definition search (r : re) (s : string) : bool := search_list r (String.list_ascii_of_string s).

(** ** Derivatives decide the language *)

Lemma nullable_lang r : nullable r = true ↔ lang r [].
Proof.
  induction r as [| | |r1 IH1 r2 IH2|r1 IH1 r2 IH2|r IH]; cbn.
  - split; [done|inversion 1].
  - split; [constructor|done].
  - split; [done|inversion 1].
  - rewrite andb_true_iff, IH1, IH2. split.
    + intros [??]. by apply (lang_cat r1 r2 [] []).
    + inversion 1; subst.
      match goal with Hw : _ ++ _ = [] |- _ => apply app_eq_nil in Hw as [-> ->] end. done.
  - rewrite orb_true_iff, IH1, IH2. split; [intros []; by constructor|].
    inversion 1; subst; tauto.
  - split; [constructor|done].
Qed.

Lemma lang_star_inv r w :
  lang (RStar r) w → w = [] ∨ ∃ w1 w2, w1 ≠ [] ∧ w = w1 ++ w2 ∧ lang r w1 ∧ lang (RStar r) w2.
Proof.
  intros H. remember (RStar r) as r' eqn:Hr. induction H as [| | | | | |r0 w1 w2 H1 _ H2 IH];
    simplify_eq; [by left|].
  destruct w1 as [|c w1]; [by apply IH|]. right. by exists (c :: w1), w2.
Qed.

Lemma deriv_lang r c w : lang (deriv c r) w ↔ lang r (c :: w).
Proof.
  revert w. induction r as [| |cls|r1 IH1 r2 IH2|r1 IH1 r2 IH2|r IH]; intros w; cbn.
  - split; inversion 1.
  - split; inversion 1.
  - destruct (cls c) eqn:Hc; split; inversion 1; subst; try congruence; by constructor.
  - assert (lang (RCat (deriv c r1) r2) w ↔
            ∃ w1 w2, w = w1 ++ w2 ∧ lang r1 (c :: w1) ∧ lang r2 w2) as Hcat.
    { split.
      - inversion 1; subst. setoid_rewrite <-IH1. eauto.
      - intros (w1 & w2 & -> & H1 & H2). constructor; [by apply IH1|done]. }
    assert (lang (RCat r1 r2) (c :: w) ↔
            (∃ w1 w2, w = w1 ++ w2 ∧ lang r1 (c :: w1) ∧ lang r2 w2) ∨
            lang r1 [] ∧ lang r2 (c :: w)) as Hinv.
    { split.
      - inversion 1 as [| |? ? w1 w2| | | |]; subst.
        destruct w1 as [|d w1]; simplify_list_eq; eauto 7.
      - intros [(w1 & w2 & -> & ? & ?)|[? ?]].
        + by apply (lang_cat r1 r2 (c :: w1) w2).
        + by apply (lang_cat r1 r2 [] (c :: w)). }
    rewrite Hinv, <-nullable_lang. destruct (nullable r1).
    + rewrite <-IH2, <-Hcat. split; [inversion 1; subst; tauto|].
      intros [?|[_ ?]]; by constructor.
    + rewrite <-Hcat. naive_solver.
  - split; inversion 1; subst; constructor; by (apply IH1 || apply IH2).
  - split.
    + inversion 1; subst. rewrite app_comm_cons. constructor; [by apply IH|done].
    + intros [|(w1 & w2 & Hne & Hw & ? & ?)]%lang_star_inv; [done|].
      destruct w1 as [|d w1]; [done|]. simplify_list_eq.
      constructor; [by apply IH|done].
Qed.

Lemma match_list_lang r w : match_list r w = true ↔ lang r w.
Proof.
  revert r. induction w as [|c w IH]; intros r; cbn; [apply nullable_lang|].
  rewrite IH. apply deriv_lang.
Qed.

(** The matcher decides the language of the pattern. *)
Theorem matches_lang r s : matches r s = true ↔ lang r (String.list_ascii_of_string s).
Proof. apply match_list_lang. Qed.

Lemma match_prefix_lang r w : match_prefix r w = true ↔ ∃ w1 w2, w = w1 ++ w2 ∧ lang r w1.
Proof.
  revert r. induction w as [|c w IH]; intros r; cbn; rewrite orb_true_iff, nullable_lang.
  - split; [intros [H|]; [by exists [], []|done]|].
    intros (w1 & w2 & Hw & Hl). apply symmetry, app_eq_nil in Hw as [-> ->]. by left.
  - rewrite IH. setoid_rewrite deriv_lang. split.
    + intros [H|(w1 & w2 & -> & Hl)]; [by exists [], (c :: w)|]. by exists (c :: w1), w2.
    + intros ([|d w1] & w2 & Hw & Hl); simplify_list_eq; [by left|]. right. eauto.
Qed.

Lemma search_lang r s :
  search r s = true ↔ ∃ w1 w2 w3, String.list_ascii_of_string s = w1 ++ w2 ++ w3 ∧ lang r w2.
Proof.
  unfold search. induction (String.list_ascii_of_string s) as [|c w IH]; cbn [search_list]; rewrite orb_true_iff, match_prefix_lang.
  - split; [intros [(w1 & w2 & Hw & Hl)|]; [by exists [], w1, w2|done]|].
    intros (w1 & w2 & w3 & Hw & Hl). apply symmetry, app_eq_nil in Hw as [-> Hw]. left. by exists w2, w3.
  - rewrite IH. split.
    + intros [(w1 & w2 & -> & Hl)|(w1 & w2 & w3 & -> & Hl)]; [by exists [], w1, w2|]. by exists (c :: w1), w2, w3.
    + intros ([|d w1] & w2 & w3 & Hw & Hl); simplify_list_eq; [left; eauto|]. right. eauto.
Qed.

(** ** Building blocks of the patterns *)

Definition in_range (a b : ascii) (c : ascii) : bool :=
  (nat_of_ascii a <=? nat_of_ascii c)%nat && (nat_of_ascii c <=? nat_of_ascii b)%nat.
Definition is_lower : ascii → bool := in_range "a" "z".
Definition is_upper : ascii → bool := in_range "A" "Z".
Definition is_digit : ascii → bool := in_range "0" "9".
Definition is_char (a c : ascii) : bool := bool_decide (a = c).

Definition RChr (a : ascii) : re := RCls (is_char a).
Definition RPlus (r : re) : re := RCat r (RStar r).
Definition ROpt (r : re) : re := RAlt r REps.
Fixpoint RRep (n : nat) (r : re) : re :=
  match n with O => REps | S n' => RCat r (RRep n' r) end.
Fixpoint RStr (s : string) : re :=
  match s with EmptyString => REps | String c s' => RCat (RChr c) (RStr s') end.

(** [(?i)] on lower-case letters.  Besides the capital letter, [s] matches U+017F
    (C5 BF) and [k] matches U+212A (E2 84 AA). *)
Definition RFoldChr (c : ascii) : re :=
  let both := RCls (λ d, is_char c (lower_ascii d)) in
  if is_char "s" c then RAlt both (RStr (bytes [197; 191]))
  else if is_char "k" c then RAlt both (RStr (bytes [226; 132; 170])) else both.
Fixpoint RFold (s : string) : re :=
  match s with EmptyString => REps | String c s' => RCat (RFoldChr c) (RFold s') end.

Definition is_word (c : ascii) : bool := is_lower c || is_upper c || is_digit c || is_char "_" c.
