(* ===== verification/Float64.v ===== *)
(** * Go's [float64]

    IEEE 754 binary64 with round to nearest even, from the Standard Library's
    executable specification [SpecFloat] (precision 53, maximal exponent 1024).
    Go evaluates the float expressions of the modelled code operation by
    operation on amd64, where the compiler does not fuse a product into a sum. *)
From S2P Require Import Prelude.
From Stdlib Require Import ZArith SpecFloat.
From stdpp Require Import options.
Local Open Scope Z_scope.

Abbreviation f64 := spec_float.

#[export] Instance f64_eq_dec : EqDecision f64.
Proof. solve_decision. Defined.

Definition fadd : f64 → f64 → f64 := SFadd 53 1024.
Definition fmul : f64 → f64 → f64 := SFmul 53 1024.
Definition fdiv : f64 → f64 → f64 := SFdiv 53 1024.

(** The comparison operators; every one is false on a NaN. *)
Definition flt : f64 → f64 → bool := SFltb.
Definition fle : f64 → f64 → bool := SFleb.
(** [x == y] *)
Definition feq : f64 → f64 → bool := SFeqb.

(** [float64(z)] *)
Definition f64_of_Z (z : Z) : f64 := binary_normalize 53 1024 z 0 false.

(** The float64 nearest to [n/d]: a decimal literal such as [0.35] is [35/100]. *)
Definition f64_lit (n d : Z) : f64 := fdiv (f64_of_Z n) (f64_of_Z d).

Definition fzero : f64 := f64_of_Z 0.
Definition fone : f64 := f64_of_Z 1.

Definition is_nan (x : f64) : bool :=
  match x with S754_nan => true | _ => false end.

(** ** Order facts *)

Lemma SFcompare_opp x y : SFcompare y x = CompOpp <$> SFcompare x y.
Proof.
  destruct x as [[]|[]| |[] mx ex], y as [[]|[]| |[] my ey]; try done; cbn.
  all: rewrite (Z.compare_antisym ex ey); destruct (ex ?= ey)%Z; cbn; try done.
  all: change (Pos.compare_cont Eq mx my) with (mx ?= my)%positive;
    change (Pos.compare_cont Eq my mx) with (my ?= mx)%positive.
  all: rewrite (Pos.compare_antisym mx my); by destruct (mx ?= my)%positive.
Qed.

Lemma SFcompare_total x y : is_nan x = false → is_nan y = false → is_Some (SFcompare x y).
Proof. destruct x, y; try done; cbn; eauto. Qed.

Lemma fle_of_not_flt x y :
  is_nan x = false → is_nan y = false → flt x y = false → fle y x = true.
Proof.
  intros Hx Hy. unfold flt, fle, SFltb, SFleb. rewrite (SFcompare_opp x y).
  destruct (SFcompare_total x y Hx Hy) as [[] ->]; done.
Qed.

Lemma flt_fle x y : flt x y = true → fle x y = true.
Proof. unfold flt, fle, SFltb, SFleb. by destruct (SFcompare x y) as [[]|]. Qed.

Lemma flt_irrefl x : flt x x = false.
Proof.
  unfold flt, SFltb. destruct x as [[]|[]| |[] m e]; try done; cbn;
  rewrite Z.compare_refl; cbn; change (Pos.compare_cont Eq m m) with (m ?= m)%positive;
  by rewrite Pos.compare_refl.
Qed.

Lemma fle_refl x : is_nan x = false → fle x x = true.
Proof. intros Hx. apply fle_of_not_flt; auto using flt_irrefl. Qed.

#[export] Hint Resolve flt_fle fle_refl flt_irrefl : primer.

(** ** [clamp01] and [maxFloat] ([server/internal/mastery/apply.go]) *)

Definition clamp01 (v : f64) : f64 :=
  if flt v fzero then fzero else if flt fone v then fone else v.

Definition maxFloat (a b : f64) : f64 := if flt b a then a else b.

(** A probability as the mastery aggregate stores it. *)
Definition unit_interval (v : f64) : bool := fle fzero v && fle v fone.

Lemma unit_interval_not_nan v : unit_interval v = true → is_nan v = false.
Proof. by destruct v. Qed.

Lemma clamp01_unit v : is_nan v = false → unit_interval (clamp01 v) = true.
Proof.
  intros Hv. unfold clamp01. destruct (flt v fzero) eqn:H0; [done|].
  destruct (flt fone v) eqn:H1; [done|].
  unfold unit_interval. rewrite !fle_of_not_flt; done.
Qed.

Lemma clamp01_fixed v : unit_interval v = true → clamp01 v = v.
Proof.
  unfold unit_interval, clamp01, fle, flt, SFleb, SFltb. intros [H0 H1]%andb_true_iff.
  rewrite (SFcompare_opp fzero v), (SFcompare_opp v fone).
  destruct (SFcompare fzero v) as [[]|]; try done; destruct (SFcompare v fone) as [[]|]; done.
Qed.

(** [int(x)] of a finite float64: truncation toward zero. *)
Definition f64_trunc (x : f64) : Z :=
  match x with
  | S754_finite s m e =>
      let a := if e <? 0 then Zpos m / 2 ^ (- e) else Zpos m * 2 ^ e in
      if s then - a else a
  | _ => 0
  end.

Definition is_finite (x : f64) : bool :=
  match x with S754_zero _ | S754_finite _ _ _ => true | _ => false end.

Example f64_trunc_ex : f64_trunc (f64_lit 299 100) = 2 ∧ f64_trunc (f64_lit (-299) 100) = -2.
Proof. vm_compute. done. Qed.
