(* ===== verification/Contracts.v ===== *)
(** * The contracts between student clients and the LMS

    The data of [studentclient/contracts] ([activity.go], [events.go],
    [kinds.go]) and the pure functions on it: completion trees, capability
    requirements, check stages, evidence policies.  Go's string enumerations stay
    strings; the constants of [kinds.go] are abbreviations of their values. *)
From S2P Require Import Prelude GoStrings Float64.
From stdpp Require Import options.

(** ** JSON values held in [map[string]any] *)

(** A number whose literal is an integer is [JInt], any other number is [JNum]
    with the float64 its literal denotes. *)
Inductive json :=
| JNull
| JBool (b : bool)
| JInt (z : Z)
| JNum (n : f64)
| JStr (s : string)
| JArr (l : list json)
| JObj (l : list (string * json)).

(** A decoded JSON object; [None] is Go's nil map. *)
Abbreviation jmap := (gmap string json).

(** [v, ok := m[key].(string)] and [v, ok := m[key].(bool)] *)
Definition jget_str (d : jmap) (key : string) : option string :=
  match d !! key with Some (JStr s) => Some s | _ => None end.
Definition jget_bool (d : jmap) (key : string) : option bool :=
  match d !! key with Some (JBool b) => Some b | _ => None end.

(** ** Constants of [kinds.go] *)

Abbreviation KindTerminal := "terminal".
Abbreviation KindTyping := "typing".
Abbreviation StandardRolePrimary := "primary".
Abbreviation StandardRoleReinforcement := "reinforcement".
Abbreviation CheckFileExists := "file_exists".
Abbreviation CheckFileNotExists := "file_not_exists".
Abbreviation CheckContentEquals := "content_equals".
Abbreviation CheckContentContains := "content_contains".
Abbreviation CheckContentMatch := "content_match".
Abbreviation CheckPathType := "path_type".
Abbreviation CheckPathMode := "path_mode".
Abbreviation CheckCwd := "cwd".
Abbreviation CheckCommandProperties := "command_properties".
Abbreviation CheckPipelineOutput := "pipeline_output".
Abbreviation CheckTypingMetrics := "typing_metrics".
Abbreviation CheckResponseSubmitted := "response_submitted".
Abbreviation StageFixture := "fixture".
Abbreviation StageTask := "task".
Abbreviation StageFinal := "final".
Abbreviation InvariantAtFixture := "fixture".
Abbreviation EvidenceProceduralContinuous := "procedural_continuous".
Abbreviation EvidenceConceptualResponse := "conceptual_response".
Abbreviation EvidenceParentAttestation := "parent_attestation".
Abbreviation EvidenceFormalAssessment := "formal_assessment".
Abbreviation CapStructuredCommandEvidence := "structured_command_evidence".

(** ** Activity content ([activity.go]) *)

(** [CheckTree]: an all/any tree over check ids. *)
Inductive CheckTree := mkCheckTree {
  ct_All : list CheckTree;
  ct_Any : list CheckTree;
  ct_CheckID : string;
  ct_Optional : bool }.

Record Check := mkCheck {
  ck_ID : string;
  ck_Kind : string;
  ck_Optional : bool;
  ck_Params : jmap;
  ck_Stages : list string;
  ck_EvidenceBearing : option bool;
  ck_InvariantAt : list string }.

Record RubricCriterion := mkRubric {
  rc_ID : string; rc_Description : string; rc_Required : bool }.

Record ResponseTaskSpec := mkResponseSpec {
  rs_Prompt : string; rs_MaxChars : Z; rs_Rubric : list RubricCriterion;
  rs_ParentReviewRequired : bool }.

Record Task := mkTask {
  tk_ID : string; tk_Title : string; tk_Instructions : string; tk_Kind : string;
  tk_Prerequisites : list string; tk_Completion : CheckTree;
  tk_HintIDs : list string; tk_Optional : bool;
  tk_Response : option ResponseTaskSpec }.

Record FixtureEntry := mkFixture {
  fx_Path : string; fx_Type : string; fx_Content : string; fx_Mode : string }.

Record TerminalContent := mkTerminal {
  tc_RuntimeProfile : string; tc_Fixtures : list FixtureEntry;
  tc_InitialCwd : string; tc_Shell : string }.

Record TypingPrompt := mkPrompt { tp_ID : string; tp_Text : string; tp_Category : string }.

Record TypingContent := mkTyping {
  ty_PromptSetID : string; ty_Prompts : list TypingPrompt; ty_Ordering : string;
  ty_TimeLimitSec : Z; ty_SuccessWPM : f64; ty_SuccessAccuracy : f64 }.

Record VocabularyTerm := mkTerm { vt_Term : string; vt_Definition : string }.

Record ResourceRef := mkResource {
  rr_SHA256 : string; rr_MediaType : string; rr_Label : string; rr_ByteSize : Z }.

Record InstructionBlock := mkBlock {
  ib_ID : string; ib_Kind : string; ib_Title : string; ib_Text : string;
  ib_Terms : list VocabularyTerm; ib_Input : string; ib_Output : string;
  ib_Explanation : string; ib_Resource : option ResourceRef }.

Record Hint := mkHint { hn_ID : string; hn_Level : Z; hn_Text : string }.

Record ArtifactPolicy := mkArtifactPolicy {
  ap_Enabled : bool; ap_MaxFiles : Z; ap_MaxBytesEach : Z; ap_MaxBytesTotal : Z;
  ap_AllowedTypes : list string; ap_RetainDays : Z }.

Record TutorContext := mkTutorContext {
  tu_Misconceptions : list string; tu_Constraints : list string; tu_GoalSummary : string }.

Record ProgressionPolicy := mkProgression {
  pp_AllowReset : bool; pp_MaxAttempts : Z; pp_ResumeFromTask : bool; pp_RequireInOrder : bool }.

Record ActivityContent := mkContent {
  ac_Objective : string; ac_Instructions : string; ac_Blocks : list InstructionBlock;
  ac_Terminal : option TerminalContent; ac_Typing : option TypingContent;
  ac_Tasks : list Task; ac_Checks : list Check; ac_Hints : list Hint;
  ac_Tutor : option TutorContext; ac_Progression : option ProgressionPolicy;
  ac_Artifacts : option ArtifactPolicy }.

(** [EvidencePolicy]: which evidence classes a status needs. *)
Record EvidencePolicy := mkPolicy {
  ep_Version : Z;
  ep_StatusRequirements : gmap string (list string) }.

Definition DefaultTerminalEvidencePolicy : EvidencePolicy := {|
  ep_Version := 1;
  ep_StatusRequirements :=
    <["in_progress" := ["procedural_continuous"]]>
    (<["approaching" := ["procedural_continuous"; "conceptual_response"]]>
    (<["mastered" := ["procedural_continuous"; "conceptual_response"; "formal_assessment"]]> ∅)) |}.

Definition DefaultTypingEvidencePolicy : EvidencePolicy := {|
  ep_Version := 1;
  ep_StatusRequirements :=
    <["in_progress" := ["procedural_continuous"]]>
    (<["approaching" := ["procedural_continuous"]]>
    (<["mastered" := ["procedural_continuous"]]> ∅)) |}.

(** ** Observations and completions ([events.go]) *)

Record Observation := mkObservation {
  ob_SchemaVersion : string;
  ob_CheckID : string;
  ob_Kind : string;
  ob_Passed : bool;
  ob_Optional : bool;
  ob_Message : string;
  ob_ObservedAt : Z;
  ob_Details : option jmap }.

Record CompletionRequest := mkCompletionRequest {
  cr_SchemaVersion : string;
  cr_CompletionID : string;
  cr_RequestDigest : string;
  cr_Observations : list Observation;
  cr_ArtifactIDs : list string;
  cr_ArtifactDigests : gmap string string;
  cr_ClientTime : Z;
  cr_Summary : string }.

Record MasteryTransition := mkTransition {
  mt_StandardCode : string;
  mt_FromStatus : string;
  mt_ToStatus : string;
  mt_Confidence : f64;
  mt_Reason : string;
  mt_EvidenceClass : string;
  mt_AcceptedEvidence : list string;
  mt_MissingEvidence : list string;
  mt_PolicySatisfied : bool;
  mt_StatusChanged : bool }.

Record AssignmentCompletion := mkAssignmentCompletion {
  acm_AssignmentID : string; acm_SessionID : string; acm_State : string; acm_Summary : string }.

Record CompletionResult := mkCompletionResult {
  cs_SchemaVersion : string;
  cs_CompletionID : string;
  cs_Accepted : bool;
  cs_RequestDigest : string;
  cs_Observations : list Observation;
  cs_EvidenceIDs : list string;
  cs_MasterySnapshot : list MasteryTransition;
  cs_AssignmentCompletion : option AssignmentCompletion;
  cs_MasteryTransitions : list MasteryTransition;
  cs_Message : string }.

(** What a device reports about its runtime ([studentclient/api/client.go]); the server
    adds the time. *)
Record DeviceCapabilities := mkDeviceCapabilities {
  dc_RuntimeProfiles : list string; dc_ProfileDigests : gmap string string;
  dc_RunnerVersion : string; dc_Capabilities : list string }.

Record ArtifactMeta := mkArtifactMeta {
  am_SchemaVersion : string; am_ArtifactID : string; am_Filename : string; am_MediaType : string;
  am_ByteSize : Z; am_SHA256 : string; am_CreatedAt : Z }.
Record ResponseSubmission := mkResponseSubmission {
  rq_SchemaVersion : string; rq_SubmissionID : string; rq_TaskID : string; rq_Body : string;
  rq_ClientTime : Z; rq_RequestDigest : string }.
Record ResponseSubmissionResult := mkResponseSubmissionResult {
  rt_SchemaVersion : string; rt_SubmissionID : string; rt_ResponseID : string; rt_Status : string;
  rt_EvidenceIDs : list string; rt_Message : string; rt_ReviewRequired : bool }.

Record SessionEvent := mkSessionEvent {
  se_SchemaVersion : string; se_EventID : string; se_Type : string;
  se_Sequence : Z; se_ClientTime : Z; se_Payload : option jmap }.

(** ** Maps built by the loops [byID[x.ID] = x]: the last entry of an id wins. *)

Definition index_by {A} (key : A → string) (l : list A) : gmap string A :=
  foldl (λ m x, <[key x := x]> m) ∅ l.

Lemma index_by_snoc {A} (key : A → string) l x :
  index_by key (l ++ [x]) = <[key x := x]> (index_by key l).
Proof. unfold index_by. by rewrite foldl_app. Qed.

Lemma index_by_lookup {A} (key : A → string) l k x :
  index_by key l !! k = Some x → x ∈ l ∧ key x = k.
Proof.
  induction l as [|y l IH] using rev_ind; [done|]. rewrite index_by_snoc.
  rewrite lookup_insert. case_decide; intros; simplify_eq; set_solver.
Qed.

Lemma index_by_None {A} (key : A → string) l k :
  index_by key l !! k = None ↔ k ∉ key <$> l.
Proof.
  induction l as [|y l IH] using rev_ind; [set_solver|].
  rewrite index_by_snoc, fmap_app, lookup_insert. case_decide; set_solver.
Qed.

Lemma index_by_NoDup {A} (key : A → string) l x :
  NoDup (key <$> l) → x ∈ l → index_by key l !! key x = Some x.
Proof.
  induction l as [|y l IH] using rev_ind; intros Hn Hx; [by apply elem_of_nil in Hx|].
  rewrite fmap_app, NoDup_app in Hn. destruct Hn as (Hn & Hd & _).
  rewrite index_by_snoc, lookup_insert. apply elem_of_app in Hx as [Hx|Hx%list_elem_of_singleton].
  - case_decide as Heq; [|by apply IH]. exfalso. apply (Hd (key x)); [by apply list_elem_of_fmap_2|].
    rewrite <-Heq. cbn. left.
  - subst y. by rewrite decide_True.
Qed.

(** ** Capability requirements ([kinds.go]) *)

Definition RequiresStructuredCommandEvidence (kind : string) : bool :=
  bool_decide (kind = CheckCommandProperties) || bool_decide (kind = CheckPipelineOutput).

Fixpoint treeRequiresStructuredCommand (t : CheckTree) (byID : gmap string Check) : bool :=
  if ct_Optional t then false
  else if negb (bool_decide (ct_CheckID t = "")) then
    match byID !! ct_CheckID t with
    | None => true
    | Some c => if ck_Optional c then false else RequiresStructuredCommandEvidence (ck_Kind c)
    end
  else match ct_All t with
       | _ :: _ => existsb (λ c, treeRequiresStructuredCommand c byID) (ct_All t)
       | [] =>
           match ct_Any t with
           | _ :: _ => forallb (λ c, treeRequiresStructuredCommand c byID) (ct_Any t)
           | [] => false
           end
       end.

Definition RevisionRequiresStructuredCommand (content : ActivityContent) : bool :=
  let byID := index_by ck_ID (ac_Checks content) in
  match ac_Tasks content with
  | [] =>
      let required := filter (λ c, ck_Optional c = false) (ac_Checks content) in
      forallb (λ c, RequiresStructuredCommandEvidence (ck_Kind c)) required
      && negb (bool_decide (required = []))
  | tasks =>
      existsb (λ t, negb (tk_Optional t) && treeRequiresStructuredCommand (tk_Completion t) byID)
              tasks
  end.

(** [RejectIncompatibleRevision]: [true] stands for [ErrIncompatibleRevision]. *)
Definition RejectIncompatibleRevision (content : ActivityContent) (capabilities : gset string)
  : bool :=
  if bool_decide (CapStructuredCommandEvidence ∈ capabilities) then false
  else RevisionRequiresStructuredCommand content.

(** ** Completion trees ([server/internal/mastery/apply.go]) *)

Fixpoint evalTree (t : CheckTree) (byID : gmap string Observation) : bool :=
  if ct_Optional t then true
  else if negb (bool_decide (ct_CheckID t = "")) then
    match byID !! ct_CheckID t with Some o => ob_Passed o | None => false end
  else match ct_All t with
       | _ :: _ => forallb (λ c, evalTree c byID) (ct_All t)
       | [] =>
           match ct_Any t with
           | _ :: _ => existsb (λ c, evalTree c byID) (ct_Any t)
           | [] => true
           end
       end.

(** ** Check stages ([stages.go]) *)

Definition EffectiveStages (ch : Check) : list string :=
  match ck_Stages ch with [] => [StageFinal] | l => l end.

Definition HasStage (ch : Check) (stage : string) : bool :=
  existsb (λ s, bool_decide (s = stage)) (EffectiveStages ch).

Definition IsEvidenceBearing (ch : Check) : bool :=
  match ck_EvidenceBearing ch with None => true | Some b => b end.

Definition IsInvariant (ch : Check) : bool := negb (bool_decide (ck_InvariantAt ch = [])).

Definition HasInvariantAt (ch : Check) (boundary : string) : bool :=
  existsb (λ b, bool_decide (b = boundary)) (ck_InvariantAt ch).

Definition ChecksForStage (checks : list Check) (stage : string) : list Check :=
  filter (λ ch, HasStage ch stage = true) checks.

Definition InvariantsAt (checks : list Check) (boundary : string) : list Check :=
  filter (λ ch, HasInvariantAt ch boundary = true) checks.

Definition isFilesystemCheckKind (kind : string) : bool :=
  existsb (λ k, bool_decide (kind = k))
    [CheckFileExists; CheckFileNotExists; CheckContentEquals; CheckContentContains;
     CheckContentMatch; CheckPathType; CheckPathMode].

(** The closure [add] of [MaterializeChecks] on its captured [seen] and [out]. *)
Definition materialize_add (so : gset string * list Check) (ch : Check) : gset string * list Check :=
  let (seen, out) := so in
  if bool_decide (ck_ID ch ∈ seen) then so
  else if negb (isFilesystemCheckKind (ck_Kind ch)) then so
  else ({[ck_ID ch]} ∪ seen, out ++ [ch]).

Definition MaterializeChecks (checks : list Check) : list Check :=
  (foldl materialize_add (foldl materialize_add (∅, []) (ChecksForStage checks StageFixture))
         (InvariantsAt checks InvariantAtFixture)).2.

(** ** Induction on completion trees *)

Section check_tree_ind.
Context (P : CheckTree → Prop).
Hypothesis Hnode : ∀ all any id opt,
  Forall P all → Forall P any → P (mkCheckTree all any id opt).

Fixpoint CheckTree_rect' (t : CheckTree) : P t :=
  let fix go (l : list CheckTree) : Forall P l :=
    match l with
    | [] => Forall_nil_2 P
    | x :: l' => Forall_cons_2 P x l' (CheckTree_rect' x) (go l')
    end in
  match t with
  | mkCheckTree all any id opt => Hnode all any id opt (go all) (go any)
  end.
End check_tree_ind.

(** ** Theorems on trees and stages *)

(** If a tree needs structured command evidence, observations that only pass
    checks of other kinds do not satisfy it. *)
Lemma treeRequires_evalTree t (checks : gmap string Check) (obs : gmap string Observation) :
  treeRequiresStructuredCommand t checks = true →
  (∀ id o, obs !! id = Some o → ob_Passed o = true →
     ∃ c, checks !! id = Some c ∧ RequiresStructuredCommandEvidence (ck_Kind c) = false) →
  evalTree t obs = false.
Proof.
  intros Hreq Hobs. revert Hreq.
  induction t as [all any id opt Hall Hany] using CheckTree_rect'.
  cbn [treeRequiresStructuredCommand evalTree ct_All ct_Any ct_CheckID ct_Optional].
  destruct opt; [done|]. destruct (negb (bool_decide (id = ""))).
  - destruct (obs !! id) as [o|] eqn:Ho; [|done].
    destruct (ob_Passed o) eqn:Hp; [|done].
    destruct (Hobs id o Ho Hp) as (c & -> & Hk). intros H.
    destruct (ck_Optional c); congruence.
  - destruct all as [|a all].
    + destruct any as [|b any]; [done|]. intros Hf.
      apply existsb_false_in. intros x Hx.
      rewrite Forall_forall in Hany. apply Hany; [done|].
      by apply (proj1 (forallb_forall_in _ _) Hf).
    + intros (x & Hx & Hr)%existsb_exists_in. rewrite Forall_forall in Hall.
      destruct (forallb _ _) eqn:Hf; [|done].
      pose proof (proj1 (forallb_forall_in _ _) Hf x Hx) as He. cbn in He.
      rewrite (Hall x Hx Hr) in He. done.
Qed.

(** More passed observations never make a satisfied tree unsatisfied. *)
Lemma evalTree_mono t (o1 o2 : gmap string Observation) :
  (∀ id o, o1 !! id = Some o → ob_Passed o = true →
     ∃ o', o2 !! id = Some o' ∧ ob_Passed o' = true) →
  evalTree t o1 = true → evalTree t o2 = true.
Proof.
  intros Hsub. induction t as [all any id opt Hall Hany] using CheckTree_rect'.
  rewrite Forall_forall in Hall, Hany.
  cbn [evalTree ct_All ct_Any ct_CheckID ct_Optional].
  destruct opt; [done|]. destruct (negb (bool_decide (id = ""))).
  - destruct (o1 !! id) as [o|] eqn:Ho; [|done]. intros Hp.
    destruct (Hsub id o Ho Hp) as (o' & -> & ?). done.
  - destruct all as [|a all]; [destruct any as [|b any]; [done|]|].
    + intros (x & Hx & He)%existsb_exists_in. apply existsb_exists_in. eauto.
    + rewrite !forallb_forall_in. intros He x Hx. apply Hall; auto.
Qed.

Lemma materialize_fold_inv l so :
  (∀ id, id ∈ so.1 ↔ id ∈ ck_ID <$> so.2) → NoDup (ck_ID <$> so.2) →
  let so' := foldl materialize_add so l in
  (∀ id, id ∈ so'.1 ↔ id ∈ ck_ID <$> so'.2) ∧ NoDup (ck_ID <$> so'.2) ∧
  (∀ id, id ∈ ck_ID <$> so'.2 ↔
     id ∈ ck_ID <$> so.2 ∨ ∃ ch, ch ∈ l ∧ ck_ID ch = id ∧ isFilesystemCheckKind (ck_Kind ch) = true) ∧
  (∀ ch, ch ∈ so'.2 → ch ∈ so.2 ∨ ch ∈ l ∧ isFilesystemCheckKind (ck_Kind ch) = true).
Proof.
  revert so. induction l as [|ch l IH]; intros [seen out] Hs Hn; cbn [foldl].
  { cbn in *. split_and!; try done; set_solver. }
  cbn in Hs, Hn. remember (materialize_add (seen, out) ch) as so1 eqn:Eso.
  unfold materialize_add in Eso. revert Eso.
  destruct (bool_decide_reflect (ck_ID ch ∈ seen)) as [Hin|Hin].
  { intros ->. destruct (IH (seen, out) Hs Hn) as (H1 & H2 & H3 & H4). split_and!; try done.
    - intros id. rewrite H3. cbn [snd]. setoid_rewrite elem_of_cons. split; [naive_solver|].
      intros [?|(c & [->|?] & <- & ?)]; [by left|left; by apply Hs|right; eauto].
    - intros c Hc. destruct (H4 c Hc) as [?|[??]]; set_solver. }
  destruct (isFilesystemCheckKind (ck_Kind ch)) eqn:Hk; cbn [negb]; intros ->.
  - destruct (IH ({[ck_ID ch]} ∪ seen, out ++ [ch])) as (H1 & H2 & H3 & H4); cbn.
    { intros id. rewrite fmap_app. set_solver. }
    { rewrite fmap_app. apply NoDup_app. split_and!; [done| |apply NoDup_singleton].
      intros id Hid. cbn. rewrite list_elem_of_singleton. intros ->. by apply Hin, Hs. }
    split_and!; try done.
    + intros id. rewrite H3. cbn [snd]. rewrite fmap_app, elem_of_app. cbn.
      rewrite list_elem_of_singleton. split.
      * intros [[?| ->]|(c & ? & <- & ?)]; [by left| |]; right;
          [exists ch|exists c]; auto with primer.
      * intros [?|(c & Hc & <- & ?)]; [by left; left|].
        apply elem_of_cons in Hc as [->|]; eauto.
    + intros c Hc. destruct (H4 c Hc) as [Hc'|[??]]; [|set_solver].
      cbn in Hc'. apply elem_of_app in Hc' as [?|Hc']; [by left|].
      apply list_elem_of_singleton in Hc' as ->. right. split; [left|done].
  - destruct (IH (seen, out) Hs Hn) as (H1 & H2 & H3 & H4). split_and!; try done.
    + intros id. rewrite H3. cbn [snd]. setoid_rewrite elem_of_cons. split; [naive_solver|].
      intros [?|(c & [->|?] & <- & ?)]; [by left|congruence|right; eauto].
    + intros c Hc. destruct (H4 c Hc) as [?|[??]]; set_solver.
Qed.

(** [MaterializeChecks] returns, without repeating an id, checks of
    file-system kinds only, and covers every id that has a file-system check
    declared for the fixture stage or as a fixture invariant. *)
Lemma MaterializeChecks_spec checks :
  NoDup (ck_ID <$> MaterializeChecks checks) ∧
  (∀ ch, ch ∈ MaterializeChecks checks →
     ch ∈ checks ∧ isFilesystemCheckKind (ck_Kind ch) = true ∧
     (HasStage ch StageFixture = true ∨ HasInvariantAt ch InvariantAtFixture = true)) ∧
  (∀ ch, ch ∈ checks → isFilesystemCheckKind (ck_Kind ch) = true →
     HasStage ch StageFixture = true ∨ HasInvariantAt ch InvariantAtFixture = true →
     ck_ID ch ∈ ck_ID <$> MaterializeChecks checks).
Proof.
  unfold MaterializeChecks, ChecksForStage, InvariantsAt.
  destruct (materialize_fold_inv (filter (λ ch, HasStage ch StageFixture = true) checks) (∅, []))
    as (A1 & A2 & A3 & A4); [set_solver|constructor|].
  destruct (materialize_fold_inv (filter (λ ch, HasInvariantAt ch InvariantAtFixture = true) checks)
              _ A1 A2) as (B1 & B2 & B3 & B4).
  split_and!; [done| |].
  - intros ch Hch. destruct (B4 ch Hch) as [Hc|[Hc ?]].
    + destruct (A4 ch Hc) as [?|[Hc' ?]]; [set_solver|].
      apply list_elem_of_filter in Hc' as [??]. eauto.
    + apply list_elem_of_filter in Hc as [??]. eauto.
  - intros ch Hin Hk Hor. apply B3. setoid_rewrite A3.
    destruct Hor; [left; right|right]; exists ch; rewrite list_elem_of_filter; done.
Qed.
