(* ===== verification/ContentJson.v ===== *)
(** * Decoding the JSON columns of the LMS

    [DecodeActivityContent] ([repo/responses.go]) and [ParseEvidencePolicy] /
    [EvidencePolicyMap] ([repo/learning.go]) send a [map[string]any] through
    [encoding/json] into a struct and back.  The decoders below follow that
    package: an absent key or a null leaves the zero value, a value of another
    JSON type is an error, an object key that names no field is ignored. *)
From S2P Require Import Prelude GoStrings Float64 Contracts.
From stdpp Require Import options.
Local Open Scope Z_scope.

Abbreviation dec A := (option json → result string A).

Definition type_error {A} (want : string) : result string A :=
  Err ("json: cannot unmarshal into Go value of type " +:+ want)%string.

Definition dec_string : dec string := λ o,
  match o with
  | None | Some JNull => Ok ""%string | Some (JStr s) => Ok s | _ => type_error "string"
  end.

Definition dec_bool : dec bool := λ o,
  match o with
  | None | Some JNull => Ok false | Some (JBool b) => Ok b | _ => type_error "bool"
  end.

Definition dec_int : dec Z := λ o,
  match o with
  | None | Some JNull => Ok 0
  | Some (JInt z) =>
      if bool_decide (-(2^63) ≤ z < 2^63) then Ok z else type_error "int"
  | _ => type_error "int"
  end.

Definition dec_float : dec f64 := λ o,
  match o with
  | None | Some JNull => Ok fzero
  | Some (JInt z) => Ok (f64_of_Z z)
  | Some (JNum f) => Ok f
  | _ => type_error "float64"
  end.

Fixpoint dec_all {A} (f : json → result string A) (l : list json) : result string (list A) :=
  match l with
  | [] => Ok []
  | x :: l' => y ← f x; ys ← dec_all f l'; Ok (y :: ys)
  end.

Definition dec_list {A} (f : dec A) : dec (list A) := λ o,
  match o with
  | None | Some JNull => Ok []
  | Some (JArr l) => dec_all (λ j, f (Some j)) l
  | _ => type_error "slice"
  end.

Definition dec_ptr {A} (f : dec A) : dec (option A) := λ o,
  match o with None | Some JNull => Ok None | Some j => Some <$> f (Some j) end.

Fixpoint jlookup (l : list (string * json)) (k : string) : option json :=
  match l with
  | [] => None
  | (k', j) :: l' => if bool_decide (k = k') then Some j else jlookup l' k
  end.

(** A struct: [f] reads its fields from the object. *)
Definition dec_struct {A} (f : (string → option json) → result string A) : dec A := λ o,
  match o with
  | None | Some JNull => f (λ _, None)
  | Some (JObj l) => f (jlookup l)
  | _ => type_error "struct"
  end.

Definition dec_map : dec jmap := λ o,
  match o with
  | None | Some JNull => Ok ∅
  | Some (JObj l) => Ok (list_to_map l)
  | _ => type_error "map"
  end.

(** [CheckTree] is recursive: [json] objects are traversed structurally. *)
Fixpoint dec_tree (j : json) : result string CheckTree :=
  let fix trees (l : list json) : result string (list CheckTree) :=
    match l with
    | [] => Ok []
    | x :: l' => t ← dec_tree x; ts ← trees l'; Ok (t :: ts)
    end in
  let fix subtrees (key : string) (l : list (string * json)) : result string (list CheckTree) :=
    match l with
    | [] => Ok []
    | (k, v) :: l' =>
        if bool_decide (key = k) then
          match v with
          | JNull => Ok []
          | JArr ts => trees ts
          | _ => type_error "[]CheckTree"
          end
        else subtrees key l'
    end in
  match j with
  | JNull => Ok (mkCheckTree [] [] "" false)
  | JObj l =>
      all ← subtrees "all" l; any ← subtrees "any" l;
      id ← dec_string (jlookup l "checkId"); opt ← dec_bool (jlookup l "optional");
      Ok (mkCheckTree all any id opt)
  | _ => type_error "CheckTree"
  end%string.

Definition dec_check_tree : dec CheckTree := λ o,
  match o with None => Ok (mkCheckTree [] [] "" false) | Some j => dec_tree j end.

Local Open Scope string_scope.

Definition dec_rubric : dec RubricCriterion := dec_struct (λ g,
  a ← dec_string (g "id"); b ← dec_string (g "description"); c ← dec_bool (g "required");
  Ok (mkRubric a b c)).

Definition dec_response_spec : dec ResponseTaskSpec := dec_struct (λ g,
  a ← dec_string (g "prompt"); b ← dec_int (g "maxChars");
  c ← dec_list dec_rubric (g "rubric"); d ← dec_bool (g "parentReviewRequired");
  Ok (mkResponseSpec a b c d)).

Definition dec_task : dec Task := dec_struct (λ g,
  a ← dec_string (g "id"); b ← dec_string (g "title"); c ← dec_string (g "instructions");
  d ← dec_string (g "kind"); e ← dec_list dec_string (g "prerequisites");
  f ← dec_check_tree (g "completion"); h ← dec_list dec_string (g "hintIds");
  i ← dec_bool (g "optional"); j ← dec_ptr dec_response_spec (g "response");
  Ok (mkTask a b c d e f h i j)).

Definition dec_check : dec Check := dec_struct (λ g,
  a ← dec_string (g "id"); b ← dec_string (g "kind"); c ← dec_bool (g "optional");
  d ← dec_map (g "params"); e ← dec_list dec_string (g "stages");
  f ← dec_ptr dec_bool (g "evidenceBearing"); h ← dec_list dec_string (g "invariantAt");
  Ok (mkCheck a b c d e f h)).

Definition dec_fixture : dec FixtureEntry := dec_struct (λ g,
  a ← dec_string (g "path"); b ← dec_string (g "type"); c ← dec_string (g "content");
  d ← dec_string (g "mode"); Ok (mkFixture a b c d)).

Definition dec_terminal : dec TerminalContent := dec_struct (λ g,
  a ← dec_string (g "runtimeProfile"); b ← dec_list dec_fixture (g "fixtures");
  c ← dec_string (g "initialCwd"); d ← dec_string (g "shell"); Ok (mkTerminal a b c d)).

Definition dec_prompt : dec TypingPrompt := dec_struct (λ g,
  a ← dec_string (g "id"); b ← dec_string (g "text"); c ← dec_string (g "category");
  Ok (mkPrompt a b c)).

Definition dec_typing : dec TypingContent := dec_struct (λ g,
  a ← dec_string (g "promptSetId"); b ← dec_list dec_prompt (g "prompts");
  c ← dec_string (g "ordering"); d ← dec_int (g "timeLimitSec");
  e ← dec_float (g "successWpm"); f ← dec_float (g "successAccuracy");
  Ok (mkTyping a b c d e f)).

Definition dec_term : dec VocabularyTerm := dec_struct (λ g,
  a ← dec_string (g "term"); b ← dec_string (g "definition"); Ok (mkTerm a b)).

Definition dec_resource : dec ResourceRef := dec_struct (λ g,
  a ← dec_string (g "sha256"); b ← dec_string (g "mediaType"); c ← dec_string (g "label");
  d ← dec_int (g "byteSize"); Ok (mkResource a b c d)).

Definition dec_block : dec InstructionBlock := dec_struct (λ g,
  a ← dec_string (g "id"); b ← dec_string (g "kind"); c ← dec_string (g "title");
  d ← dec_string (g "text"); e ← dec_list dec_term (g "terms"); f ← dec_string (g "input");
  h ← dec_string (g "output"); i ← dec_string (g "explanation");
  j ← dec_ptr dec_resource (g "resource"); Ok (mkBlock a b c d e f h i j)).

Definition dec_hint : dec Hint := dec_struct (λ g,
  a ← dec_string (g "id"); b ← dec_int (g "level"); c ← dec_string (g "text");
  Ok (mkHint a b c)).

Definition dec_tutor : dec TutorContext := dec_struct (λ g,
  a ← dec_list dec_string (g "misconceptions"); b ← dec_list dec_string (g "constraints");
  c ← dec_string (g "goalSummary"); Ok (mkTutorContext a b c)).

Definition dec_progression : dec ProgressionPolicy := dec_struct (λ g,
  a ← dec_bool (g "allowReset"); b ← dec_int (g "maxAttempts");
  c ← dec_bool (g "resumeFromTask"); d ← dec_bool (g "requireInOrder");
  Ok (mkProgression a b c d)).

Definition dec_artifacts : dec ArtifactPolicy := dec_struct (λ g,
  a ← dec_bool (g "enabled"); b ← dec_int (g "maxFiles"); c ← dec_int (g "maxBytesEach");
  d ← dec_int (g "maxBytesTotal"); e ← dec_list dec_string (g "allowedTypes");
  f ← dec_int (g "retainDays"); Ok (mkArtifactPolicy a b c d e f)).

Definition dec_content : dec ActivityContent := dec_struct (λ g,
  a ← dec_string (g "objective"); b ← dec_string (g "instructions");
  c ← dec_list dec_block (g "blocks"); d ← dec_ptr dec_terminal (g "terminal");
  e ← dec_ptr dec_typing (g "typing"); f ← dec_list dec_task (g "tasks");
  h ← dec_list dec_check (g "checks"); i ← dec_list dec_hint (g "hints");
  j ← dec_ptr dec_tutor (g "tutor"); k ← dec_ptr dec_progression (g "progression");
  l ← dec_ptr dec_artifacts (g "artifacts");
  Ok (mkContent a b c d e f h i j k l)).

Definition DecodeActivityContent (m : jmap) : result string ActivityContent :=
  dec_content (Some (JObj (map_to_list m))).

(** ** Evidence policies *)

Definition EvidencePolicyMap (p : EvidencePolicy) : jmap :=
  let version := if bool_decide (ep_Version p = 0%Z) then 1%Z else ep_Version p in
  let req := prod_map id (λ v, JArr (JStr <$> v)) <$> map_to_list (ep_StatusRequirements p) in
  <["version" := JInt version]> (<["statusRequirements" := JObj req]> ∅).

Fixpoint dec_entries {A} (f : dec A) (l : list (string * json)) : result string (list (string * A)) :=
  match l with
  | [] => Ok []
  | (k, j) :: l' => x ← f (Some j); xs ← dec_entries f l'; Ok ((k, x) :: xs)
  end.

Definition dec_requirements : dec (gmap string (list string)) := λ o,
  match o with
  | None | Some JNull => Ok ∅
  | Some (JObj l) => list_to_map <$> dec_entries (dec_list dec_string) l
  | _ => type_error "map[string][]string"
  end.

Definition dec_policy : dec EvidencePolicy := dec_struct (λ g,
  a ← dec_int (g "version"); b ← dec_requirements (g "statusRequirements");
  Ok (mkPolicy a b)).

Definition ParseEvidencePolicy (m : jmap) : option EvidencePolicy :=
  if bool_decide (m = ∅) then None
  else match dec_policy (Some (JObj (map_to_list m))) with
       | Err _ => None
       | Ok p =>
           if bool_decide (ep_Version p = 0%Z) || bool_decide (ep_StatusRequirements p = ∅)
           then None else Some p
       end.

(** ** What is written is read back *)

Lemma jlookup_elem l k j : NoDup l.*1 → (k, j) ∈ l → jlookup l k = Some j.
Proof.
  induction l as [|[k' j'] l IH]; intros Hn Hin; [by apply elem_of_nil in Hin|].
  apply NoDup_cons in Hn as [Hk Hn]. cbn [jlookup].
  apply elem_of_cons in Hin as [Heq|Hin]; [simplify_eq; by rewrite bool_decide_true by done|].
  rewrite bool_decide_false; [by apply IH|]. intros ->. apply Hk. cbn [fst].
  apply list_elem_of_fmap. by exists (k', j).
Qed.

Lemma jlookup_map (m : jmap) k j : m !! k = Some j → jlookup (map_to_list m) k = Some j.
Proof.
  intros Hk. apply jlookup_elem; [apply NoDup_fst_map_to_list|]. by apply elem_of_map_to_list.
Qed.

Lemma dec_list_strings v : dec_list dec_string (Some (JArr (JStr <$> v))) = Ok v.
Proof.
  cbn. induction v as [|s v IH]; [done|]. cbn. by rewrite IH.
Qed.

Lemma dec_entries_strings (l : list (string * list string)) :
  dec_entries (dec_list dec_string) (prod_map id (λ v, JArr (JStr <$> v)) <$> l) = Ok l.
Proof.
  induction l as [|[k v] l IH]; [done|]. rewrite fmap_cons.
  cbn [prod_map dec_entries id fst snd]. rewrite dec_list_strings, IH. done.
Qed.

Lemma dec_policy_map p :
  (-(2^63) ≤ ep_Version p < 2^63)%Z → ep_Version p ≠ 0%Z →
  dec_policy (Some (JObj (map_to_list (EvidencePolicyMap p)))) = Ok p.
Proof.
  intros Hr H0. unfold dec_policy, dec_struct, EvidencePolicyMap.
  rewrite bool_decide_false by done.
  rewrite (jlookup_map _ "version" (JInt (ep_Version p))) by by rewrite lookup_insert_eq.
  erewrite (jlookup_map _ "statusRequirements")
    by (rewrite lookup_insert_ne, lookup_insert_eq by done; reflexivity).
  cbn [dec_int]. rewrite bool_decide_true by done. cbn [mbind result_bind].
  cbn [dec_requirements]. rewrite dec_entries_strings. cbn.
  rewrite list_to_map_to_list. by destruct p.
Qed.

(** The evidence policy attached to a revision-standard link survives
    storage: [ParseEvidencePolicy] reads back exactly the policy that
    [EvidencePolicyMap] wrote, for every policy with a non-zero 64-bit version and
    at least one status requirement (the policies [resolveLinkPolicy] stores). *)
Lemma EvidencePolicy_roundtrip p :
  (0 < ep_Version p < 2^63)%Z → ep_StatusRequirements p ≠ ∅ →
  ParseEvidencePolicy (EvidencePolicyMap p) = Some p.
Proof.
  intros Hv Hs. unfold ParseEvidencePolicy. rewrite bool_decide_false.
  - rewrite dec_policy_map by lia. rewrite !bool_decide_false by (done || lia). done.
  - unfold EvidencePolicyMap. apply insert_non_empty.
Qed.

Lemma EvidencePolicy_roundtrip_witness :
  ParseEvidencePolicy (EvidencePolicyMap DefaultTerminalEvidencePolicy)
  = Some DefaultTerminalEvidencePolicy.
Proof. apply EvidencePolicy_roundtrip; [cbn; lia|]. vm_compute. discriminate. Defined.

(** A concrete content document decodes to the expected tree. *)
Example decode_content_example :
  (ac_Checks <$> DecodeActivityContent
     (<["checks" := JArr [JObj [("id", JStr "c1"); ("kind", JStr "cwd")]]]> ∅))
  = Ok [mkCheck "c1" "cwd" false ∅ [] None []].
Proof. vm_compute. reflexivity. Qed.

Example decode_content_error :
  is_ok (DecodeActivityContent (<["tasks" := JStr "none"]> ∅)) = false.
Proof. vm_compute. reflexivity. Qed.
