(* ===== verification/LmsData.v ===== *)
(** * The rows and tables of the LMS database

    The row structs of [server/internal/domain/domain.go] and the database as one
    map per table, keyed by primary key.  Times are nanoseconds since the epoch; a
    nullable column is an [option]; a JSONB column is the decoded object, except
    the completion response, which is kept as the struct it encodes (see
    [completion_json] in Sessions).  Of the table [educators]
    only the set of ids is kept: the modelled code asks it for existence only. *)
From S2P Require Import Prelude GoStrings Float64 Contracts.
From stdpp Require Import options.

(** ** Rows ([domain.go]) *)

Record Student := mkStudent {
  su_ID : string; su_FirstName : string; su_LastName : string; su_Birthdate : option Z;
  su_GradeLevel : option Z; su_Notes : string; su_CreatedAt : Z; su_UpdatedAt : Z }.

Record Standard := mkStandard {
  sd_ID : string; sd_Source : string; sd_SubjectID : option string;
  sd_ParentID : option string; sd_Code : string; sd_GradeLevel : option Z;
  sd_Domain : string; sd_Cluster : string; sd_Description : string; sd_TCAPWeight : string;
  sd_Metadata : jmap; sd_CreatedAt : Z; sd_UpdatedAt : Z }.

Record Curriculum := mkCurriculum {
  cu_ID : string; cu_Slug : string; cu_Name : string; cu_Description : string;
  cu_Approach : string; cu_SubjectCode : string; cu_Status : string;
  cu_GradeLevel : option Z; cu_Metadata : jmap; cu_CreatedAt : Z; cu_UpdatedAt : Z }.

Record CurriculumRevision := mkCurriculumRevision {
  cv_ID : string; cv_CurriculumID : string; cv_Revision : Z; cv_Title : string;
  cv_Description : string; cv_SubjectCode : string; cv_Version : string;
  cv_RevisionPolicy : string; cv_Document : jmap; cv_PublishedAt : option Z;
  cv_CreatedAt : Z }.

Record CurriculumActivity := mkCurriculumActivity {
  ca_ID : string; ca_CurriculumRevisionID : string; ca_Position : Z;
  ca_ActivitySlug : string; ca_ActivityRevisionID : option string; ca_Module : string;
  ca_Capstone : bool; ca_ContinuityMode : string; ca_Metadata : jmap; ca_CreatedAt : Z }.

Record CurriculumActivityPrerequisite := mkCurriculumActivityPrerequisite {
  cp_ID : string; cp_CurriculumRevisionID : string; cp_ActivitySlug : string;
  cp_RequiresSlug : string; cp_Requirement : string; cp_Description : string;
  cp_CreatedAt : Z }.

Record CurriculumActivityGate := mkCurriculumActivityGate {
  cg_ID : string; cg_CurriculumRevisionID : string; cg_ActivitySlug : string;
  cg_Kind : string; cg_Standards : list string; cg_Description : string; cg_CreatedAt : Z }.

Record CurriculumActivityRemediation := mkCurriculumActivityRemediation {
  cm_ID : string; cm_CurriculumRevisionID : string; cm_ForActivitySlug : string;
  cm_BranchSlug : string; cm_Kind : string; cm_Description : string; cm_CreatedAt : Z }.

Record Enrollment := mkEnrollment {
  en_ID : string; en_StudentID : string; en_CurriculumID : string;
  en_CurriculumRevisionID : option string; en_Status : string; en_Priority : Z;
  en_PinnedActivitySlug : string; en_PinnedReason : string; en_PinnedBy : option string;
  en_PinnedAt : option Z; en_OverrideSlugs : list string; en_OverrideReason : string;
  en_BlockingReasons : list json; en_Constraints : jmap; en_StartedOn : Z;
  en_EndedOn : option Z; en_CreatedAt : Z; en_UpdatedAt : Z }.

Record EnrollmentAuditEvent := mkEnrollmentAuditEvent {
  ea_ID : string; ea_EnrollmentID : string; ea_EducatorID : option string;
  ea_Action : string; ea_Reason : string; ea_Detail : jmap; ea_CreatedAt : Z }.

Record MasteryRecord := mkMasteryRecord {
  mr_ID : string; mr_StudentID : string; mr_StandardID : string; mr_Status : string;
  mr_Confidence : f64; mr_DecayRate : f64; mr_LastAssessedAt : option Z;
  mr_LastReinforcedAt : option Z; mr_NextReinforcementAt : option Z; mr_CreatedAt : Z;
  mr_UpdatedAt : Z }.

Record MasteryEvidence := mkMasteryEvidence {
  me_ID : string; me_MasteryRecordID : string; me_Kind : string; me_EvidenceClass : string;
  me_Provenance : jmap; me_PolicyVersion : Z; me_MigrationNote : string; me_OccurredOn : Z;
  me_Context : string; me_SourceRef : string; me_CreatedAt : Z; me_UpdatedAt : Z }.

Record LearningActivity := mkLearningActivity {
  la_ID : string; la_Slug : string; la_Title : string; la_Summary : string;
  la_Kind : string; la_SubjectID : option string; la_Status : string; la_CreatedAt : Z;
  la_UpdatedAt : Z }.

Record LearningActivityRevision := mkLearningActivityRevision {
  rv_ID : string; rv_ActivityID : string; rv_Revision : Z; rv_SchemaVersion : string;
  rv_Content : jmap; rv_ContentSHA256 : string; rv_PublishedAt : option Z; rv_CreatedAt : Z }.

Record LearningActivityRevisionStandard := mkLearningActivityRevisionStandard {
  lk_ID : string; lk_ActivityRevisionID : string; lk_StandardID : string; lk_Role : string;
  lk_Weight : f64; lk_MasteryCriterion : string; lk_EvidencePolicy : jmap; lk_CreatedAt : Z }.

Record StudentAssignment := mkStudentAssignment {
  sa_ID : string; sa_StudentID : string; sa_ActivityRevisionID : string;
  sa_EnrollmentID : option string; sa_CurriculumActivityID : option string;
  sa_SelectionReason : string; sa_State : string; sa_Priority : Z; sa_AvailableAt : Z;
  sa_DueAt : option Z; sa_AssignedBy : option string; sa_Reason : string;
  sa_Constraints : jmap; sa_CreatedAt : Z; sa_UpdatedAt : Z }.

Record StudentDevice := mkStudentDevice {
  dv_ID : string; dv_StudentID : string; dv_Name : string; dv_TokenHash : string;
  dv_LastSeenAt : option Z; dv_RevokedAt : option Z; dv_Capabilities : jmap;
  dv_CapabilitiesReportedAt : option Z; dv_CreatedAt : Z; dv_UpdatedAt : Z }.

Record LearningSession := mkLearningSession {
  ls_ID : string; ls_AssignmentID : string; ls_StudentID : string; ls_DeviceID : string;
  ls_ClientSessionID : string; ls_ActivityRevisionID : string; ls_State : string;
  ls_StartedAt : Z; ls_LastEventAt : option Z; ls_CompletedAt : option Z;
  ls_DurationSeconds : Z; ls_Summary : string; ls_CreatedAt : Z; ls_UpdatedAt : Z }.

Record LearningSessionEvent := mkLearningSessionEvent {
  ev_ID : string; ev_SessionID : string; ev_EventID : string; ev_Sequence : Z;
  ev_EventType : string; ev_ClientTime : Z; ev_ReceivedAt : Z; ev_SchemaVersion : string;
  ev_Payload : jmap }.

Record LearningSessionCompletion := mkLearningSessionCompletion {
  lc_ID : string; lc_SessionID : string; lc_CompletionID : string;
  lc_RequestDigest : string; lc_Response : CompletionResult; lc_CreatedAt : Z }.

Record StudentResponse := mkStudentResponse {
  sr_ID : string; sr_SubmissionID : string; sr_StudentID : string; sr_SessionID : string;
  sr_AssignmentID : string; sr_ActivityRevisionID : string; sr_TaskID : string;
  sr_Body : string; sr_BodySHA256 : string; sr_Status : string; sr_RequestDigest : string;
  sr_Attempt : Z; sr_RubricSnapshot : list jmap; sr_ParentReviewRequired : bool;
  sr_SubmittedAt : Z; sr_ReviewedAt : option Z; sr_ReviewedBy : option string;
  sr_ReturnReason : string; sr_CreatedAt : Z; sr_UpdatedAt : Z }.

Record StudentResponseReview := mkStudentResponseReview {
  sw_ID : string; sw_ResponseID : string; sw_EducatorID : string; sw_Decision : string;
  sw_Reason : string; sw_Criteria : list jmap; sw_CreatedAt : Z }.

Record StudentDevicePairingCode := mkStudentDevicePairingCode {
  pc_ID : string; pc_StudentID : string; pc_CodeHash : string; pc_CreatedBy : option string;
  pc_ExpiresAt : Z; pc_UsedAt : option Z; pc_CreatedAt : Z }.

Record LearningSessionArtifact := mkLearningSessionArtifact {
  af_ID : string; af_SessionID : string; af_ArtifactID : string; af_Filename : string;
  af_MediaType : string; af_ByteSize : Z; af_SHA256 : string; af_StoragePath : string;
  af_Status : string; af_StudentID : option string; af_ActivityRevisionID : option string;
  af_BytesStored : bool; af_RetentionUntil : option Z; af_CreatedAt : Z; af_UpdatedAt : Z }.

Record PortfolioItem := mkPortfolioItem {
  po_ID : string; po_StudentID : string; po_SourceArtifactID : string; po_SessionID : string;
  po_ActivityRevisionID : string; po_Title : string; po_MediaType : string; po_ByteSize : Z;
  po_SHA256 : string; po_StoragePath : string; po_PromotedBy : option string; po_Status : string;
  po_Destination : string; po_Provenance : jmap; po_CreatedAt : Z; po_UpdatedAt : Z }.

Record ApprovedFixtureBundle := mkApprovedFixtureBundle {
  fb_ID : string; fb_StudentID : string; fb_SourcePortfolioItemID : option string;
  fb_SourceArtifactID : string; fb_Digest : string; fb_Label : string; fb_Entries : list jmap;
  fb_StorageRoot : string; fb_ApprovedBy : option string; fb_Status : string;
  fb_Provenance : jmap; fb_CreatedAt : Z }.

Record AssignmentContinuityBinding := mkAssignmentContinuityBinding {
  cb_ID : string; cb_AssignmentID : string; cb_StudentID : string; cb_ContinuityMode : string;
  cb_BundleID : option string; cb_DecidedBy : option string; cb_Notes : string; cb_DecidedAt : Z }.

(** ** State constants ([domain.go]) *)

Abbreviation AssignmentAvailable := "available".
Abbreviation AssignmentInProgress := "in_progress".
Abbreviation AssignmentCompleted := "completed".
Abbreviation AssignmentCancelled := "cancelled".
Abbreviation SessionStarted := "started".
Abbreviation SessionPaused := "paused".
Abbreviation SessionCompleted := "completed".
Abbreviation SessionAbandoned := "abandoned".
Abbreviation ActivityStatusDraft := "draft".
Abbreviation ActivityStatusPublished := "published".

(** ** The database *)

Record database := mkDatabase {
  db_students : gmap string Student; db_educators : gset string;
  db_standards : gmap string Standard; db_curricula : gmap string Curriculum;
  db_curriculum_revisions : gmap string CurriculumRevision;
  db_curriculum_activities : gmap string CurriculumActivity;
  db_prerequisites : gmap string CurriculumActivityPrerequisite;
  db_gates : gmap string CurriculumActivityGate;
  db_remediations : gmap string CurriculumActivityRemediation;
  db_enrollments : gmap string Enrollment;
  db_enrollment_audits : gmap string EnrollmentAuditEvent;
  db_mastery_records : gmap string MasteryRecord;
  db_mastery_evidence : gmap string MasteryEvidence;
  db_activities : gmap string LearningActivity;
  db_revisions : gmap string LearningActivityRevision;
  db_links : gmap string LearningActivityRevisionStandard;
  db_assignments : gmap string StudentAssignment; db_devices : gmap string StudentDevice;
  db_sessions : gmap string LearningSession; db_events : gmap string LearningSessionEvent;
  db_completions : gmap string LearningSessionCompletion;
  db_responses : gmap string StudentResponse; db_reviews : gmap string StudentResponseReview;
  db_pairing_codes : gmap string StudentDevicePairingCode;
  db_session_artifacts : gmap string LearningSessionArtifact;
  db_portfolio_items : gmap string PortfolioItem;
  db_bundles : gmap string ApprovedFixtureBundle;
  db_continuity : gmap string AssignmentContinuityBinding }.

Definition set_students (t : gmap string Student) (d : database) : database := {|
  db_students := t; db_educators := db_educators d; db_standards := db_standards d;
  db_curricula := db_curricula d; db_curriculum_revisions := db_curriculum_revisions d;
  db_curriculum_activities := db_curriculum_activities d;
  db_prerequisites := db_prerequisites d; db_gates := db_gates d;
  db_remediations := db_remediations d; db_enrollments := db_enrollments d;
  db_enrollment_audits := db_enrollment_audits d; db_mastery_records := db_mastery_records d;
  db_mastery_evidence := db_mastery_evidence d; db_activities := db_activities d;
  db_revisions := db_revisions d; db_links := db_links d; db_assignments := db_assignments d;
  db_devices := db_devices d; db_sessions := db_sessions d; db_events := db_events d;
  db_completions := db_completions d; db_responses := db_responses d;
  db_reviews := db_reviews d; db_pairing_codes := db_pairing_codes d;
  db_session_artifacts := db_session_artifacts d; db_portfolio_items := db_portfolio_items d;
  db_bundles := db_bundles d; db_continuity := db_continuity d |}.
Definition set_standards (t : gmap string Standard) (d : database) : database := {|
  db_students := db_students d; db_educators := db_educators d; db_standards := t;
  db_curricula := db_curricula d; db_curriculum_revisions := db_curriculum_revisions d;
  db_curriculum_activities := db_curriculum_activities d;
  db_prerequisites := db_prerequisites d; db_gates := db_gates d;
  db_remediations := db_remediations d; db_enrollments := db_enrollments d;
  db_enrollment_audits := db_enrollment_audits d; db_mastery_records := db_mastery_records d;
  db_mastery_evidence := db_mastery_evidence d; db_activities := db_activities d;
  db_revisions := db_revisions d; db_links := db_links d; db_assignments := db_assignments d;
  db_devices := db_devices d; db_sessions := db_sessions d; db_events := db_events d;
  db_completions := db_completions d; db_responses := db_responses d;
  db_reviews := db_reviews d; db_pairing_codes := db_pairing_codes d;
  db_session_artifacts := db_session_artifacts d; db_portfolio_items := db_portfolio_items d;
  db_bundles := db_bundles d; db_continuity := db_continuity d |}.
Definition set_curricula (t : gmap string Curriculum) (d : database) : database := {|
  db_students := db_students d; db_educators := db_educators d; db_standards := db_standards d;
  db_curricula := t; db_curriculum_revisions := db_curriculum_revisions d;
  db_curriculum_activities := db_curriculum_activities d;
  db_prerequisites := db_prerequisites d; db_gates := db_gates d;
  db_remediations := db_remediations d; db_enrollments := db_enrollments d;
  db_enrollment_audits := db_enrollment_audits d; db_mastery_records := db_mastery_records d;
  db_mastery_evidence := db_mastery_evidence d; db_activities := db_activities d;
  db_revisions := db_revisions d; db_links := db_links d; db_assignments := db_assignments d;
  db_devices := db_devices d; db_sessions := db_sessions d; db_events := db_events d;
  db_completions := db_completions d; db_responses := db_responses d;
  db_reviews := db_reviews d; db_pairing_codes := db_pairing_codes d;
  db_session_artifacts := db_session_artifacts d; db_portfolio_items := db_portfolio_items d;
  db_bundles := db_bundles d; db_continuity := db_continuity d |}.
Definition set_curriculum_revisions (t : gmap string CurriculumRevision) (d : database) : database := {|
  db_students := db_students d; db_educators := db_educators d; db_standards := db_standards d;
  db_curricula := db_curricula d; db_curriculum_revisions := t;
  db_curriculum_activities := db_curriculum_activities d;
  db_prerequisites := db_prerequisites d; db_gates := db_gates d;
  db_remediations := db_remediations d; db_enrollments := db_enrollments d;
  db_enrollment_audits := db_enrollment_audits d; db_mastery_records := db_mastery_records d;
  db_mastery_evidence := db_mastery_evidence d; db_activities := db_activities d;
  db_revisions := db_revisions d; db_links := db_links d; db_assignments := db_assignments d;
  db_devices := db_devices d; db_sessions := db_sessions d; db_events := db_events d;
  db_completions := db_completions d; db_responses := db_responses d;
  db_reviews := db_reviews d; db_pairing_codes := db_pairing_codes d;
  db_session_artifacts := db_session_artifacts d; db_portfolio_items := db_portfolio_items d;
  db_bundles := db_bundles d; db_continuity := db_continuity d |}.
Definition set_curriculum_activities (t : gmap string CurriculumActivity) (d : database) : database := {|
  db_students := db_students d; db_educators := db_educators d; db_standards := db_standards d;
  db_curricula := db_curricula d; db_curriculum_revisions := db_curriculum_revisions d;
  db_curriculum_activities := t; db_prerequisites := db_prerequisites d; db_gates := db_gates d;
  db_remediations := db_remediations d; db_enrollments := db_enrollments d;
  db_enrollment_audits := db_enrollment_audits d; db_mastery_records := db_mastery_records d;
  db_mastery_evidence := db_mastery_evidence d; db_activities := db_activities d;
  db_revisions := db_revisions d; db_links := db_links d; db_assignments := db_assignments d;
  db_devices := db_devices d; db_sessions := db_sessions d; db_events := db_events d;
  db_completions := db_completions d; db_responses := db_responses d;
  db_reviews := db_reviews d; db_pairing_codes := db_pairing_codes d;
  db_session_artifacts := db_session_artifacts d; db_portfolio_items := db_portfolio_items d;
  db_bundles := db_bundles d; db_continuity := db_continuity d |}.
Definition set_prerequisites (t : gmap string CurriculumActivityPrerequisite) (d : database) : database := {|
  db_students := db_students d; db_educators := db_educators d; db_standards := db_standards d;
  db_curricula := db_curricula d; db_curriculum_revisions := db_curriculum_revisions d;
  db_curriculum_activities := db_curriculum_activities d; db_prerequisites := t;
  db_gates := db_gates d; db_remediations := db_remediations d;
  db_enrollments := db_enrollments d; db_enrollment_audits := db_enrollment_audits d;
  db_mastery_records := db_mastery_records d; db_mastery_evidence := db_mastery_evidence d;
  db_activities := db_activities d; db_revisions := db_revisions d; db_links := db_links d;
  db_assignments := db_assignments d; db_devices := db_devices d; db_sessions := db_sessions d;
  db_events := db_events d; db_completions := db_completions d; db_responses := db_responses d;
  db_reviews := db_reviews d; db_pairing_codes := db_pairing_codes d;
  db_session_artifacts := db_session_artifacts d; db_portfolio_items := db_portfolio_items d;
  db_bundles := db_bundles d; db_continuity := db_continuity d |}.
Definition set_gates (t : gmap string CurriculumActivityGate) (d : database) : database := {|
  db_students := db_students d; db_educators := db_educators d; db_standards := db_standards d;
  db_curricula := db_curricula d; db_curriculum_revisions := db_curriculum_revisions d;
  db_curriculum_activities := db_curriculum_activities d;
  db_prerequisites := db_prerequisites d; db_gates := t; db_remediations := db_remediations d;
  db_enrollments := db_enrollments d; db_enrollment_audits := db_enrollment_audits d;
  db_mastery_records := db_mastery_records d; db_mastery_evidence := db_mastery_evidence d;
  db_activities := db_activities d; db_revisions := db_revisions d; db_links := db_links d;
  db_assignments := db_assignments d; db_devices := db_devices d; db_sessions := db_sessions d;
  db_events := db_events d; db_completions := db_completions d; db_responses := db_responses d;
  db_reviews := db_reviews d; db_pairing_codes := db_pairing_codes d;
  db_session_artifacts := db_session_artifacts d; db_portfolio_items := db_portfolio_items d;
  db_bundles := db_bundles d; db_continuity := db_continuity d |}.
Definition set_remediations (t : gmap string CurriculumActivityRemediation) (d : database) : database := {|
  db_students := db_students d; db_educators := db_educators d; db_standards := db_standards d;
  db_curricula := db_curricula d; db_curriculum_revisions := db_curriculum_revisions d;
  db_curriculum_activities := db_curriculum_activities d;
  db_prerequisites := db_prerequisites d; db_gates := db_gates d; db_remediations := t;
  db_enrollments := db_enrollments d; db_enrollment_audits := db_enrollment_audits d;
  db_mastery_records := db_mastery_records d; db_mastery_evidence := db_mastery_evidence d;
  db_activities := db_activities d; db_revisions := db_revisions d; db_links := db_links d;
  db_assignments := db_assignments d; db_devices := db_devices d; db_sessions := db_sessions d;
  db_events := db_events d; db_completions := db_completions d; db_responses := db_responses d;
  db_reviews := db_reviews d; db_pairing_codes := db_pairing_codes d;
  db_session_artifacts := db_session_artifacts d; db_portfolio_items := db_portfolio_items d;
  db_bundles := db_bundles d; db_continuity := db_continuity d |}.
Definition set_enrollments (t : gmap string Enrollment) (d : database) : database := {|
  db_students := db_students d; db_educators := db_educators d; db_standards := db_standards d;
  db_curricula := db_curricula d; db_curriculum_revisions := db_curriculum_revisions d;
  db_curriculum_activities := db_curriculum_activities d;
  db_prerequisites := db_prerequisites d; db_gates := db_gates d;
  db_remediations := db_remediations d; db_enrollments := t;
  db_enrollment_audits := db_enrollment_audits d; db_mastery_records := db_mastery_records d;
  db_mastery_evidence := db_mastery_evidence d; db_activities := db_activities d;
  db_revisions := db_revisions d; db_links := db_links d; db_assignments := db_assignments d;
  db_devices := db_devices d; db_sessions := db_sessions d; db_events := db_events d;
  db_completions := db_completions d; db_responses := db_responses d;
  db_reviews := db_reviews d; db_pairing_codes := db_pairing_codes d;
  db_session_artifacts := db_session_artifacts d; db_portfolio_items := db_portfolio_items d;
  db_bundles := db_bundles d; db_continuity := db_continuity d |}.
Definition set_enrollment_audits (t : gmap string EnrollmentAuditEvent) (d : database) : database := {|
  db_students := db_students d; db_educators := db_educators d; db_standards := db_standards d;
  db_curricula := db_curricula d; db_curriculum_revisions := db_curriculum_revisions d;
  db_curriculum_activities := db_curriculum_activities d;
  db_prerequisites := db_prerequisites d; db_gates := db_gates d;
  db_remediations := db_remediations d; db_enrollments := db_enrollments d;
  db_enrollment_audits := t; db_mastery_records := db_mastery_records d;
  db_mastery_evidence := db_mastery_evidence d; db_activities := db_activities d;
  db_revisions := db_revisions d; db_links := db_links d; db_assignments := db_assignments d;
  db_devices := db_devices d; db_sessions := db_sessions d; db_events := db_events d;
  db_completions := db_completions d; db_responses := db_responses d;
  db_reviews := db_reviews d; db_pairing_codes := db_pairing_codes d;
  db_session_artifacts := db_session_artifacts d; db_portfolio_items := db_portfolio_items d;
  db_bundles := db_bundles d; db_continuity := db_continuity d |}.
Definition set_mastery_records (t : gmap string MasteryRecord) (d : database) : database := {|
  db_students := db_students d; db_educators := db_educators d; db_standards := db_standards d;
  db_curricula := db_curricula d; db_curriculum_revisions := db_curriculum_revisions d;
  db_curriculum_activities := db_curriculum_activities d;
  db_prerequisites := db_prerequisites d; db_gates := db_gates d;
  db_remediations := db_remediations d; db_enrollments := db_enrollments d;
  db_enrollment_audits := db_enrollment_audits d; db_mastery_records := t;
  db_mastery_evidence := db_mastery_evidence d; db_activities := db_activities d;
  db_revisions := db_revisions d; db_links := db_links d; db_assignments := db_assignments d;
  db_devices := db_devices d; db_sessions := db_sessions d; db_events := db_events d;
  db_completions := db_completions d; db_responses := db_responses d;
  db_reviews := db_reviews d; db_pairing_codes := db_pairing_codes d;
  db_session_artifacts := db_session_artifacts d; db_portfolio_items := db_portfolio_items d;
  db_bundles := db_bundles d; db_continuity := db_continuity d |}.
Definition set_mastery_evidence (t : gmap string MasteryEvidence) (d : database) : database := {|
  db_students := db_students d; db_educators := db_educators d; db_standards := db_standards d;
  db_curricula := db_curricula d; db_curriculum_revisions := db_curriculum_revisions d;
  db_curriculum_activities := db_curriculum_activities d;
  db_prerequisites := db_prerequisites d; db_gates := db_gates d;
  db_remediations := db_remediations d; db_enrollments := db_enrollments d;
  db_enrollment_audits := db_enrollment_audits d; db_mastery_records := db_mastery_records d;
  db_mastery_evidence := t; db_activities := db_activities d; db_revisions := db_revisions d;
  db_links := db_links d; db_assignments := db_assignments d; db_devices := db_devices d;
  db_sessions := db_sessions d; db_events := db_events d; db_completions := db_completions d;
  db_responses := db_responses d; db_reviews := db_reviews d;
  db_pairing_codes := db_pairing_codes d; db_session_artifacts := db_session_artifacts d;
  db_portfolio_items := db_portfolio_items d; db_bundles := db_bundles d;
  db_continuity := db_continuity d |}.
Definition set_activities (t : gmap string LearningActivity) (d : database) : database := {|
  db_students := db_students d; db_educators := db_educators d; db_standards := db_standards d;
  db_curricula := db_curricula d; db_curriculum_revisions := db_curriculum_revisions d;
  db_curriculum_activities := db_curriculum_activities d;
  db_prerequisites := db_prerequisites d; db_gates := db_gates d;
  db_remediations := db_remediations d; db_enrollments := db_enrollments d;
  db_enrollment_audits := db_enrollment_audits d; db_mastery_records := db_mastery_records d;
  db_mastery_evidence := db_mastery_evidence d; db_activities := t;
  db_revisions := db_revisions d; db_links := db_links d; db_assignments := db_assignments d;
  db_devices := db_devices d; db_sessions := db_sessions d; db_events := db_events d;
  db_completions := db_completions d; db_responses := db_responses d;
  db_reviews := db_reviews d; db_pairing_codes := db_pairing_codes d;
  db_session_artifacts := db_session_artifacts d; db_portfolio_items := db_portfolio_items d;
  db_bundles := db_bundles d; db_continuity := db_continuity d |}.
Definition set_revisions (t : gmap string LearningActivityRevision) (d : database) : database := {|
  db_students := db_students d; db_educators := db_educators d; db_standards := db_standards d;
  db_curricula := db_curricula d; db_curriculum_revisions := db_curriculum_revisions d;
  db_curriculum_activities := db_curriculum_activities d;
  db_prerequisites := db_prerequisites d; db_gates := db_gates d;
  db_remediations := db_remediations d; db_enrollments := db_enrollments d;
  db_enrollment_audits := db_enrollment_audits d; db_mastery_records := db_mastery_records d;
  db_mastery_evidence := db_mastery_evidence d; db_activities := db_activities d;
  db_revisions := t; db_links := db_links d; db_assignments := db_assignments d;
  db_devices := db_devices d; db_sessions := db_sessions d; db_events := db_events d;
  db_completions := db_completions d; db_responses := db_responses d;
  db_reviews := db_reviews d; db_pairing_codes := db_pairing_codes d;
  db_session_artifacts := db_session_artifacts d; db_portfolio_items := db_portfolio_items d;
  db_bundles := db_bundles d; db_continuity := db_continuity d |}.
Definition set_links (t : gmap string LearningActivityRevisionStandard) (d : database) : database := {|
  db_students := db_students d; db_educators := db_educators d; db_standards := db_standards d;
  db_curricula := db_curricula d; db_curriculum_revisions := db_curriculum_revisions d;
  db_curriculum_activities := db_curriculum_activities d;
  db_prerequisites := db_prerequisites d; db_gates := db_gates d;
  db_remediations := db_remediations d; db_enrollments := db_enrollments d;
  db_enrollment_audits := db_enrollment_audits d; db_mastery_records := db_mastery_records d;
  db_mastery_evidence := db_mastery_evidence d; db_activities := db_activities d;
  db_revisions := db_revisions d; db_links := t; db_assignments := db_assignments d;
  db_devices := db_devices d; db_sessions := db_sessions d; db_events := db_events d;
  db_completions := db_completions d; db_responses := db_responses d;
  db_reviews := db_reviews d; db_pairing_codes := db_pairing_codes d;
  db_session_artifacts := db_session_artifacts d; db_portfolio_items := db_portfolio_items d;
  db_bundles := db_bundles d; db_continuity := db_continuity d |}.
Definition set_assignments (t : gmap string StudentAssignment) (d : database) : database := {|
  db_students := db_students d; db_educators := db_educators d; db_standards := db_standards d;
  db_curricula := db_curricula d; db_curriculum_revisions := db_curriculum_revisions d;
  db_curriculum_activities := db_curriculum_activities d;
  db_prerequisites := db_prerequisites d; db_gates := db_gates d;
  db_remediations := db_remediations d; db_enrollments := db_enrollments d;
  db_enrollment_audits := db_enrollment_audits d; db_mastery_records := db_mastery_records d;
  db_mastery_evidence := db_mastery_evidence d; db_activities := db_activities d;
  db_revisions := db_revisions d; db_links := db_links d; db_assignments := t;
  db_devices := db_devices d; db_sessions := db_sessions d; db_events := db_events d;
  db_completions := db_completions d; db_responses := db_responses d;
  db_reviews := db_reviews d; db_pairing_codes := db_pairing_codes d;
  db_session_artifacts := db_session_artifacts d; db_portfolio_items := db_portfolio_items d;
  db_bundles := db_bundles d; db_continuity := db_continuity d |}.
Definition set_devices (t : gmap string StudentDevice) (d : database) : database := {|
  db_students := db_students d; db_educators := db_educators d; db_standards := db_standards d;
  db_curricula := db_curricula d; db_curriculum_revisions := db_curriculum_revisions d;
  db_curriculum_activities := db_curriculum_activities d;
  db_prerequisites := db_prerequisites d; db_gates := db_gates d;
  db_remediations := db_remediations d; db_enrollments := db_enrollments d;
  db_enrollment_audits := db_enrollment_audits d; db_mastery_records := db_mastery_records d;
  db_mastery_evidence := db_mastery_evidence d; db_activities := db_activities d;
  db_revisions := db_revisions d; db_links := db_links d; db_assignments := db_assignments d;
  db_devices := t; db_sessions := db_sessions d; db_events := db_events d;
  db_completions := db_completions d; db_responses := db_responses d;
  db_reviews := db_reviews d; db_pairing_codes := db_pairing_codes d;
  db_session_artifacts := db_session_artifacts d; db_portfolio_items := db_portfolio_items d;
  db_bundles := db_bundles d; db_continuity := db_continuity d |}.
Definition set_sessions (t : gmap string LearningSession) (d : database) : database := {|
  db_students := db_students d; db_educators := db_educators d; db_standards := db_standards d;
  db_curricula := db_curricula d; db_curriculum_revisions := db_curriculum_revisions d;
  db_curriculum_activities := db_curriculum_activities d;
  db_prerequisites := db_prerequisites d; db_gates := db_gates d;
  db_remediations := db_remediations d; db_enrollments := db_enrollments d;
  db_enrollment_audits := db_enrollment_audits d; db_mastery_records := db_mastery_records d;
  db_mastery_evidence := db_mastery_evidence d; db_activities := db_activities d;
  db_revisions := db_revisions d; db_links := db_links d; db_assignments := db_assignments d;
  db_devices := db_devices d; db_sessions := t; db_events := db_events d;
  db_completions := db_completions d; db_responses := db_responses d;
  db_reviews := db_reviews d; db_pairing_codes := db_pairing_codes d;
  db_session_artifacts := db_session_artifacts d; db_portfolio_items := db_portfolio_items d;
  db_bundles := db_bundles d; db_continuity := db_continuity d |}.
Definition set_events (t : gmap string LearningSessionEvent) (d : database) : database := {|
  db_students := db_students d; db_educators := db_educators d; db_standards := db_standards d;
  db_curricula := db_curricula d; db_curriculum_revisions := db_curriculum_revisions d;
  db_curriculum_activities := db_curriculum_activities d;
  db_prerequisites := db_prerequisites d; db_gates := db_gates d;
  db_remediations := db_remediations d; db_enrollments := db_enrollments d;
  db_enrollment_audits := db_enrollment_audits d; db_mastery_records := db_mastery_records d;
  db_mastery_evidence := db_mastery_evidence d; db_activities := db_activities d;
  db_revisions := db_revisions d; db_links := db_links d; db_assignments := db_assignments d;
  db_devices := db_devices d; db_sessions := db_sessions d; db_events := t;
  db_completions := db_completions d; db_responses := db_responses d;
  db_reviews := db_reviews d; db_pairing_codes := db_pairing_codes d;
  db_session_artifacts := db_session_artifacts d; db_portfolio_items := db_portfolio_items d;
  db_bundles := db_bundles d; db_continuity := db_continuity d |}.
Definition set_completions (t : gmap string LearningSessionCompletion) (d : database) : database := {|
  db_students := db_students d; db_educators := db_educators d; db_standards := db_standards d;
  db_curricula := db_curricula d; db_curriculum_revisions := db_curriculum_revisions d;
  db_curriculum_activities := db_curriculum_activities d;
  db_prerequisites := db_prerequisites d; db_gates := db_gates d;
  db_remediations := db_remediations d; db_enrollments := db_enrollments d;
  db_enrollment_audits := db_enrollment_audits d; db_mastery_records := db_mastery_records d;
  db_mastery_evidence := db_mastery_evidence d; db_activities := db_activities d;
  db_revisions := db_revisions d; db_links := db_links d; db_assignments := db_assignments d;
  db_devices := db_devices d; db_sessions := db_sessions d; db_events := db_events d;
  db_completions := t; db_responses := db_responses d; db_reviews := db_reviews d;
  db_pairing_codes := db_pairing_codes d; db_session_artifacts := db_session_artifacts d;
  db_portfolio_items := db_portfolio_items d; db_bundles := db_bundles d;
  db_continuity := db_continuity d |}.
Definition set_responses (t : gmap string StudentResponse) (d : database) : database := {|
  db_students := db_students d; db_educators := db_educators d; db_standards := db_standards d;
  db_curricula := db_curricula d; db_curriculum_revisions := db_curriculum_revisions d;
  db_curriculum_activities := db_curriculum_activities d;
  db_prerequisites := db_prerequisites d; db_gates := db_gates d;
  db_remediations := db_remediations d; db_enrollments := db_enrollments d;
  db_enrollment_audits := db_enrollment_audits d; db_mastery_records := db_mastery_records d;
  db_mastery_evidence := db_mastery_evidence d; db_activities := db_activities d;
  db_revisions := db_revisions d; db_links := db_links d; db_assignments := db_assignments d;
  db_devices := db_devices d; db_sessions := db_sessions d; db_events := db_events d;
  db_completions := db_completions d; db_responses := t; db_reviews := db_reviews d;
  db_pairing_codes := db_pairing_codes d; db_session_artifacts := db_session_artifacts d;
  db_portfolio_items := db_portfolio_items d; db_bundles := db_bundles d;
  db_continuity := db_continuity d |}.
Definition set_reviews (t : gmap string StudentResponseReview) (d : database) : database := {|
  db_students := db_students d; db_educators := db_educators d; db_standards := db_standards d;
  db_curricula := db_curricula d; db_curriculum_revisions := db_curriculum_revisions d;
  db_curriculum_activities := db_curriculum_activities d;
  db_prerequisites := db_prerequisites d; db_gates := db_gates d;
  db_remediations := db_remediations d; db_enrollments := db_enrollments d;
  db_enrollment_audits := db_enrollment_audits d; db_mastery_records := db_mastery_records d;
  db_mastery_evidence := db_mastery_evidence d; db_activities := db_activities d;
  db_revisions := db_revisions d; db_links := db_links d; db_assignments := db_assignments d;
  db_devices := db_devices d; db_sessions := db_sessions d; db_events := db_events d;
  db_completions := db_completions d; db_responses := db_responses d; db_reviews := t;
  db_pairing_codes := db_pairing_codes d; db_session_artifacts := db_session_artifacts d;
  db_portfolio_items := db_portfolio_items d; db_bundles := db_bundles d;
  db_continuity := db_continuity d |}.
Definition set_pairing_codes (t : gmap string StudentDevicePairingCode) (d : database) : database := {|
  db_students := db_students d; db_educators := db_educators d; db_standards := db_standards d;
  db_curricula := db_curricula d; db_curriculum_revisions := db_curriculum_revisions d;
  db_curriculum_activities := db_curriculum_activities d;
  db_prerequisites := db_prerequisites d; db_gates := db_gates d;
  db_remediations := db_remediations d; db_enrollments := db_enrollments d;
  db_enrollment_audits := db_enrollment_audits d; db_mastery_records := db_mastery_records d;
  db_mastery_evidence := db_mastery_evidence d; db_activities := db_activities d;
  db_revisions := db_revisions d; db_links := db_links d; db_assignments := db_assignments d;
  db_devices := db_devices d; db_sessions := db_sessions d; db_events := db_events d;
  db_completions := db_completions d; db_responses := db_responses d;
  db_reviews := db_reviews d; db_pairing_codes := t;
  db_session_artifacts := db_session_artifacts d; db_portfolio_items := db_portfolio_items d;
  db_bundles := db_bundles d; db_continuity := db_continuity d |}.
Definition set_session_artifacts (t : gmap string LearningSessionArtifact) (d : database) : database := {|
  db_students := db_students d; db_educators := db_educators d; db_standards := db_standards d;
  db_curricula := db_curricula d; db_curriculum_revisions := db_curriculum_revisions d;
  db_curriculum_activities := db_curriculum_activities d;
  db_prerequisites := db_prerequisites d; db_gates := db_gates d;
  db_remediations := db_remediations d; db_enrollments := db_enrollments d;
  db_enrollment_audits := db_enrollment_audits d; db_mastery_records := db_mastery_records d;
  db_mastery_evidence := db_mastery_evidence d; db_activities := db_activities d;
  db_revisions := db_revisions d; db_links := db_links d; db_assignments := db_assignments d;
  db_devices := db_devices d; db_sessions := db_sessions d; db_events := db_events d;
  db_completions := db_completions d; db_responses := db_responses d;
  db_reviews := db_reviews d; db_pairing_codes := db_pairing_codes d; db_session_artifacts := t;
  db_portfolio_items := db_portfolio_items d; db_bundles := db_bundles d;
  db_continuity := db_continuity d |}.
Definition set_portfolio_items (t : gmap string PortfolioItem) (d : database) : database := {|
  db_students := db_students d; db_educators := db_educators d; db_standards := db_standards d;
  db_curricula := db_curricula d; db_curriculum_revisions := db_curriculum_revisions d;
  db_curriculum_activities := db_curriculum_activities d;
  db_prerequisites := db_prerequisites d; db_gates := db_gates d;
  db_remediations := db_remediations d; db_enrollments := db_enrollments d;
  db_enrollment_audits := db_enrollment_audits d; db_mastery_records := db_mastery_records d;
  db_mastery_evidence := db_mastery_evidence d; db_activities := db_activities d;
  db_revisions := db_revisions d; db_links := db_links d; db_assignments := db_assignments d;
  db_devices := db_devices d; db_sessions := db_sessions d; db_events := db_events d;
  db_completions := db_completions d; db_responses := db_responses d;
  db_reviews := db_reviews d; db_pairing_codes := db_pairing_codes d;
  db_session_artifacts := db_session_artifacts d; db_portfolio_items := t;
  db_bundles := db_bundles d; db_continuity := db_continuity d |}.
Definition set_bundles (t : gmap string ApprovedFixtureBundle) (d : database) : database := {|
  db_students := db_students d; db_educators := db_educators d; db_standards := db_standards d;
  db_curricula := db_curricula d; db_curriculum_revisions := db_curriculum_revisions d;
  db_curriculum_activities := db_curriculum_activities d;
  db_prerequisites := db_prerequisites d; db_gates := db_gates d;
  db_remediations := db_remediations d; db_enrollments := db_enrollments d;
  db_enrollment_audits := db_enrollment_audits d; db_mastery_records := db_mastery_records d;
  db_mastery_evidence := db_mastery_evidence d; db_activities := db_activities d;
  db_revisions := db_revisions d; db_links := db_links d; db_assignments := db_assignments d;
  db_devices := db_devices d; db_sessions := db_sessions d; db_events := db_events d;
  db_completions := db_completions d; db_responses := db_responses d;
  db_reviews := db_reviews d; db_pairing_codes := db_pairing_codes d;
  db_session_artifacts := db_session_artifacts d; db_portfolio_items := db_portfolio_items d;
  db_bundles := t; db_continuity := db_continuity d |}.
Definition set_continuity (t : gmap string AssignmentContinuityBinding) (d : database) : database := {|
  db_students := db_students d; db_educators := db_educators d; db_standards := db_standards d;
  db_curricula := db_curricula d; db_curriculum_revisions := db_curriculum_revisions d;
  db_curriculum_activities := db_curriculum_activities d;
  db_prerequisites := db_prerequisites d; db_gates := db_gates d;
  db_remediations := db_remediations d; db_enrollments := db_enrollments d;
  db_enrollment_audits := db_enrollment_audits d; db_mastery_records := db_mastery_records d;
  db_mastery_evidence := db_mastery_evidence d; db_activities := db_activities d;
  db_revisions := db_revisions d; db_links := db_links d; db_assignments := db_assignments d;
  db_devices := db_devices d; db_sessions := db_sessions d; db_events := db_events d;
  db_completions := db_completions d; db_responses := db_responses d;
  db_reviews := db_reviews d; db_pairing_codes := db_pairing_codes d;
  db_session_artifacts := db_session_artifacts d; db_portfolio_items := db_portfolio_items d;
  db_bundles := db_bundles d; db_continuity := t |}.

Definition empty_db : database :=
  mkDatabase ∅ ∅ ∅ ∅ ∅ ∅ ∅ ∅ ∅ ∅ ∅ ∅ ∅ ∅ ∅ ∅ ∅ ∅ ∅ ∅ ∅ ∅ ∅ ∅ ∅ ∅ ∅ ∅.
