(* ===== verification/LmsDb.v ===== *)
(** * Statements, transactions and the generic repository

    The part of PostgreSQL and pgx the repository layer relies on: a statement
    runs against a connection that may be in a transaction, a statement that fails
    inside a transaction aborts it (every later statement fails with 25P02 until
    the rollback), [WithTx] ([repo/tx.go]) restores the database on error.  On top
    of it the generic [Resource[T]] ([repo/resource.go], [repo/list.go]) as a class
    of row types with their table and constraints.

    Ids stand for UUID texts; a malformed id, which PostgreSQL rejects, is an id
    that no row has. *)
From S2P Require Import Prelude GoStrings Utf8 Float64 Contracts LmsData.
From stdpp Require Import options.
Local Open Scope string_scope.

(** ** Errors, connections and the monad of database code *)

Inductive err :=
| ErrNotFound
| ErrBadRequest (msg : string)
| ErrConflict (msg : string)
| ErrPg (sqlstate : string)
| ErrTooManyRows
| ErrTxCommitRollback
| ErrGo (msg : string).

#[export] Instance err_eq_dec : EqDecision err.
Proof. solve_decision. Defined.

(** What a [Querier] is: the connection pool, a transaction, or the test wrapper
    that gives every statement its own savepoint ([testutil.SavepointQuerier]). *)
Inductive qmode := QPool | QTx | QSavepoint.

#[export] Instance qmode_eq_dec : EqDecision qmode.
Proof. solve_decision. Defined.

(** The querier and the server's clock, [now()]. *)
Record qenv := mkEnv { q_mode : qmode; q_now : Z }.

(** The database as the connection sees it, and whether its transaction is
    aborted. *)
Record conn := mkConn { cn_db : database; cn_aborted : bool }.

Definition M (A : Type) : Type := qenv → conn → conn * result err A.

#[export] Instance M_ret : MRet M := λ A a q c, (c, Ok a).
#[export] Instance M_bind : MBind M := λ A B f m q c,
  match m q c with
  | (c', Ok a) => f a q c'
  | (c', Err e) => (c', Err e)
  end.

Definition throw {A} (e : err) : M A := λ q c, (c, Err e).

(** Keeps the error as a value: [x, err := m]. *)
Definition attempt {A} (m : M A) : M (result err A) := λ q c,
  let (c', r) := m q c in (c', Ok r).

Definition of_result {A} (r : result err A) : M A := λ q c, (c, r).

Fixpoint for_M {A S} (f : A → S → M S) (l : list A) (s : S) : M S :=
  match l with
  | [] => mret s
  | x :: l' => s' ← f x s; for_M f l' s'
  end.

(** One SQL statement. *)
Definition stmt {A} (f : database → result string (database * A)) : M A := λ q c,
  if cn_aborted c then (c, Err (ErrPg "25P02"))
  else match f (cn_db c) with
       | Ok (d, a) => (mkConn d false, Ok a)
       | Err code => (mkConn (cn_db c) (bool_decide (q_mode q = QTx)), Err (ErrPg code))
       end.

Definition query {A} (f : database → A) : M A := stmt (λ d, Ok (d, f d)).

(** [repo.WithTx].  On a pool it begins a transaction, on a transaction pgx begins
    a savepoint; any other querier runs the function directly.  A commit of an
    aborted transaction fails and nothing of it remains. *)
Definition WithTx {A} (fn : M A) : M A := λ q c,
  match q_mode q with
  | QSavepoint => fn q c
  | _ =>
      if cn_aborted c then (c, Err (ErrPg "25P02"))
      else match fn (mkEnv QTx (q_now q)) c with
           | (c', Ok a) =>
               if cn_aborted c'
               then (mkConn (cn_db c) (bool_decide (q_mode q = QTx)), Err ErrTxCommitRollback)
               else (c', Ok a)
           | (_, Err e) => (c, Err e)
           end
  end.

(** ** Rows of a table *)

Definition rows {A} (t : gmap string A) : list A := (map_to_list t).*2.

Definition select {A} (p : A → bool) (t : gmap string A) : list A :=
  filter (λ x, p x = true) (rows t).

(** [pgx.CollectExactlyOneRow], its [ErrNoRows] turned into [ErrNotFound]. *)
Definition exactly_one {A} (l : list A) : M A :=
  match l with
  | [] => throw ErrNotFound
  | [x] => mret x
  | _ => throw ErrTooManyRows
  end.

(** [ORDER BY key LIMIT ...]: rows with equal keys stay in table order. *)
Fixpoint insert_by {A} (le : A → A → bool) (x : A) (l : list A) : list A :=
  match l with
  | [] => [x]
  | y :: l' => if le x y then x :: y :: l' else y :: insert_by le x l'
  end.
Definition order_by {A} (le : A → A → bool) (l : list A) : list A :=
  foldr (insert_by le) [] l.

(** Byte order of two strings, the collation of the ordered text columns. *)
Definition str_le (a b : string) : bool :=
  match String.compare a b with Gt => false | _ => true end.
Definition str_lt (a b : string) : bool :=
  match String.compare a b with Lt => true | _ => false end.

(** ** What PostgreSQL supplies *)

(** [gen_random_uuid()] and [uuid.NewString()]: an id that is not among those in
    use.  [numeric_4_3] is the value a float64 has after a NUMERIC(4,3) column. *)
Class Postgres := {
  gen_random_uuid : gset string → string;
  gen_random_uuid_fresh : ∀ used, gen_random_uuid used ∉ used;
  numeric_4_3 : f64 → f64;
  numeric_4_3_unit : ∀ v, unit_interval v = true → unit_interval (numeric_4_3 v) = true }.

(** ** [Resource[T]] *)

(** A row type with its table.  [violation d x] is the SQLSTATE of the first
    constraint that [x] breaks next to the other rows of [d]: CHECK, then UNIQUE,
    then REFERENCES. *)
Class Row (A : Type) := {
  row_id : A → string;
  tbl : database → gmap string A;
  set_tbl : gmap string A → database → database;
  violation : database → A → option string;
  tbl_set_tbl : ∀ t d, tbl (set_tbl t d) = t;
  set_tbl_set_tbl : ∀ t t' d, set_tbl t (set_tbl t' d) = set_tbl t d;
  set_tbl_tbl : ∀ d, set_tbl (tbl d) d = d }.

Section resource.
Context `{!Postgres, !Row A}.

(** [INSERT ... RETURNING]: [mk] makes the row from its new id and [now()]. *)
Definition Create (mk : string → Z → A) : M A := λ q c,
  stmt (λ d,
    let x := mk (gen_random_uuid (dom (tbl d))) (q_now q) in
    match violation d x with
    | Some code => Err code
    | None => Ok (set_tbl (<[row_id x := x]> (tbl d)) d, x)
    end) q c.

Definition Get (id : string) : M A :=
  r ← query (λ d, tbl d !! id);
  match r with Some x => mret x | None => throw ErrNotFound end.

(** [UPDATE ... RETURNING]: [f] sets the given columns and [updated_at]. *)
Definition Update (id : string) (f : Z → A → A) : M A := λ q c,
  (r ← stmt (λ d,
     match tbl d !! id with
     | None => Ok (d, None)
     | Some x =>
         let x' := f (q_now q) x in
         match violation (set_tbl (delete id (tbl d)) d) x' with
         | Some code => Err code
         | None => Ok (set_tbl (<[id := x']> (tbl d)) d, Some x')
         end
     end);
   match r with Some x => mret x | None => throw ErrNotFound end) q c.

(** [ListParams.Normalize("created_at", 200)] on the limit. *)
Definition normalize_limit (limit : Z) : Z :=
  let l := if bool_decide (limit ≤ 0)%Z then 25%Z else limit in
  if bool_decide (200 < l)%Z then 200%Z else l.

(** [Resource.List] with offset 0 and no search: the filtered rows in the given
    order, cut at the normalised limit, and the count of all of them. *)
Definition List_ (limit : Z) (le : A → A → bool) (p : A → bool) : M (list A * Z) :=
  total ← query (λ d, Z.of_nat (length (select p (tbl d))));
  items ← query (λ d, take (Z.to_nat (normalize_limit limit)) (order_by le (select p (tbl d))));
  mret (items, total).
End resource.

(** ** Constraints of the migrations *)

Definition has_row {A} (p : A → bool) (t : gmap string A) : bool := existsb p (rows t).
Definition has_key {A} (t : gmap string A) (id : string) : bool := bool_decide (is_Some (t !! id)).
Definition has_opt {A} (t : gmap string A) (id : option string) : bool :=
  match id with None => true | Some i => has_key t i end.
Definition opt_in (id : option string) (X : gset string) : bool :=
  match id with None => true | Some i => bool_decide (i ∈ X) end.
Definition one_of (s : string) (l : list string) : bool := bool_decide (s ∈ l).

(** The first constraint of the list that does not hold. *)
Fixpoint first_violation (l : list (bool * string)) : option string :=
  match l with
  | [] => None
  | (holds, code) :: l' => if holds then first_violation l' else Some code
  end.

Abbreviation check_violation := "23514".
Abbreviation unique_violation := "23505".
Abbreviation foreign_key_violation := "23503".

Definition session_open (s : LearningSession) : bool :=
  one_of (ls_State s) ["started"; "paused"].

Definition violation_session (d : database) (s : LearningSession) : option string :=
  first_violation [
    (one_of (ls_State s) ["started"; "paused"; "completed"; "abandoned"], check_violation);
    (negb (has_key (db_sessions d) (ls_ID s)), unique_violation);
    (negb (has_row (λ o, bool_decide (ls_DeviceID o = ls_DeviceID s) &&
                         bool_decide (ls_ClientSessionID o = ls_ClientSessionID s)) (db_sessions d)),
     unique_violation);
    (negb (session_open s &&
           has_row (λ o, session_open o && bool_decide (ls_AssignmentID o = ls_AssignmentID s))
                   (db_sessions d)), unique_violation);
    (has_key (db_assignments d) (ls_AssignmentID s), foreign_key_violation);
    (has_key (db_students d) (ls_StudentID s), foreign_key_violation);
    (has_key (db_devices d) (ls_DeviceID s), foreign_key_violation);
    (has_key (db_revisions d) (ls_ActivityRevisionID s), foreign_key_violation)].

Definition violation_assignment (d : database) (a : StudentAssignment) : option string :=
  first_violation [
    (one_of (sa_State a) ["available"; "in_progress"; "completed"; "cancelled"], check_violation);
    (negb (has_key (db_assignments d) (sa_ID a)), unique_violation);
    (has_key (db_students d) (sa_StudentID a), foreign_key_violation);
    (has_key (db_revisions d) (sa_ActivityRevisionID a), foreign_key_violation);
    (has_opt (db_enrollments d) (sa_EnrollmentID a), foreign_key_violation);
    (has_opt (db_curriculum_activities d) (sa_CurriculumActivityID a), foreign_key_violation);
    (opt_in (sa_AssignedBy a) (db_educators d), foreign_key_violation)].

(** [CHECK (confidence >= 0.0 AND confidence <= 1.0)] *)
Definition violation_mastery_record (d : database) (r : MasteryRecord) : option string :=
  first_violation [
    (fle fzero (mr_Confidence r) && fle (mr_Confidence r) fone, check_violation);
    (negb (has_key (db_mastery_records d) (mr_ID r)), unique_violation);
    (negb (has_row (λ o, bool_decide (mr_StudentID o = mr_StudentID r) &&
                         bool_decide (mr_StandardID o = mr_StandardID r)) (db_mastery_records d)),
     unique_violation);
    (has_key (db_students d) (mr_StudentID r), foreign_key_violation);
    (has_key (db_standards d) (mr_StandardID r), foreign_key_violation)].

Definition violation_evidence (d : database) (e : MasteryEvidence) : option string :=
  first_violation [
    (one_of (me_EvidenceClass e)
       ["procedural_continuous"; "conceptual_response"; "parent_attestation";
        "formal_assessment"; "portfolio"], check_violation);
    (negb (has_key (db_mastery_evidence d) (me_ID e)), unique_violation);
    (negb (has_row (λ o, negb (bool_decide (me_SourceRef e = "")) &&
                         bool_decide (me_SourceRef o = me_SourceRef e) &&
                         bool_decide (me_MasteryRecordID o = me_MasteryRecordID e))
                   (db_mastery_evidence d)), unique_violation);
    (has_key (db_mastery_records d) (me_MasteryRecordID e), foreign_key_violation)].

Definition violation_completion (d : database) (x : LearningSessionCompletion) : option string :=
  first_violation [
    (negb (has_key (db_completions d) (lc_ID x)), unique_violation);
    (negb (has_row (λ o, bool_decide (lc_CompletionID o = lc_CompletionID x)) (db_completions d)),
     unique_violation);
    (negb (has_row (λ o, bool_decide (lc_SessionID o = lc_SessionID x)) (db_completions d)),
     unique_violation);
    (has_key (db_sessions d) (lc_SessionID x), foreign_key_violation)].

(** [CHECK (sequence >= 0)], [UNIQUE (event_id)], [UNIQUE (session_id, sequence)] *)
Definition violation_event (d : database) (e : LearningSessionEvent) : option string :=
  first_violation [
    (bool_decide (0 ≤ ev_Sequence e)%Z, check_violation);
    (negb (has_key (db_events d) (ev_ID e)), unique_violation);
    (negb (has_row (λ o, bool_decide (ev_EventID o = ev_EventID e)) (db_events d)),
     unique_violation);
    (negb (has_row (λ o, bool_decide (ev_SessionID o = ev_SessionID e) &&
                         bool_decide (ev_Sequence o = ev_Sequence e)) (db_events d)),
     unique_violation);
    (has_key (db_sessions d) (ev_SessionID e), foreign_key_violation)].

Definition violation_enrollment (d : database) (e : Enrollment) : option string :=
  first_violation [
    (negb (has_key (db_enrollments d) (en_ID e)), unique_violation);
    (negb (has_row (λ o, bool_decide (en_StudentID o = en_StudentID e) &&
                         bool_decide (en_CurriculumID o = en_CurriculumID e)) (db_enrollments d)),
     unique_violation);
    (has_key (db_students d) (en_StudentID e), foreign_key_violation);
    (has_key (db_curricula d) (en_CurriculumID e), foreign_key_violation);
    (has_opt (db_curriculum_revisions d) (en_CurriculumRevisionID e), foreign_key_violation);
    (opt_in (en_PinnedBy e) (db_educators d), foreign_key_violation)].

Definition violation_audit (d : database) (e : EnrollmentAuditEvent) : option string :=
  first_violation [
    (one_of (ea_Action e)
       ["enroll"; "pause"; "resume"; "complete"; "withdraw"; "pin"; "unpin";
        "override_prereq"; "clear_override"; "migrate_revision"], check_violation);
    (negb (has_key (db_enrollment_audits d) (ea_ID e)), unique_violation);
    (has_key (db_enrollments d) (ea_EnrollmentID e), foreign_key_violation);
    (opt_in (ea_EducatorID e) (db_educators d), foreign_key_violation)].

Definition violation_activity (d : database) (a : LearningActivity) : option string :=
  first_violation [
    (one_of (la_Kind a) ["terminal"; "typing"], check_violation);
    (one_of (la_Status a) ["draft"; "published"; "retired"], check_violation);
    (negb (has_key (db_activities d) (la_ID a)), unique_violation);
    (negb (has_row (λ o, bool_decide (la_Slug o = la_Slug a)) (db_activities d)), unique_violation)].

Definition violation_revision (d : database) (r : LearningActivityRevision) : option string :=
  first_violation [
    (bool_decide (1 ≤ rv_Revision r)%Z, check_violation);
    (negb (has_key (db_revisions d) (rv_ID r)), unique_violation);
    (negb (has_row (λ o, bool_decide (rv_ActivityID o = rv_ActivityID r) &&
                         bool_decide (rv_Revision o = rv_Revision r)) (db_revisions d)),
     unique_violation);
    (negb (has_row (λ o, bool_decide (rv_ActivityID o = rv_ActivityID r) &&
                         bool_decide (rv_ContentSHA256 o = rv_ContentSHA256 r)) (db_revisions d)),
     unique_violation);
    (has_key (db_activities d) (rv_ActivityID r), foreign_key_violation)].

(** [CHECK (role IN ('primary', 'reinforcement'))], [CHECK (weight >= 0)] *)
Definition violation_link (d : database) (l : LearningActivityRevisionStandard) : option string :=
  first_violation [
    (one_of (lk_Role l) ["primary"; "reinforcement"], check_violation);
    (fle fzero (lk_Weight l), check_violation);
    (negb (has_key (db_links d) (lk_ID l)), unique_violation);
    (negb (has_row (λ o, bool_decide (lk_ActivityRevisionID o = lk_ActivityRevisionID l) &&
                         bool_decide (lk_StandardID o = lk_StandardID l)) (db_links d)),
     unique_violation);
    (has_key (db_revisions d) (lk_ActivityRevisionID l), foreign_key_violation);
    (has_key (db_standards d) (lk_StandardID l), foreign_key_violation)].

Definition violation_curriculum (d : database) (c : Curriculum) : option string :=
  first_violation [
    (one_of (cu_Status c) ["draft"; "published"; "retired"], check_violation);
    (negb (has_key (db_curricula d) (cu_ID c)), unique_violation);
    (negb (has_row (λ o, bool_decide (cu_Slug o = cu_Slug c)) (db_curricula d)), unique_violation)].

Definition violation_curriculum_revision (d : database) (r : CurriculumRevision) : option string :=
  first_violation [
    (bool_decide (1 ≤ cv_Revision r)%Z, check_violation);
    (one_of (cv_RevisionPolicy r) ["latest_published"; "pinned_digest"], check_violation);
    (negb (has_key (db_curriculum_revisions d) (cv_ID r)), unique_violation);
    (negb (has_row (λ o, bool_decide (cv_CurriculumID o = cv_CurriculumID r) &&
                         bool_decide (cv_Revision o = cv_Revision r)) (db_curriculum_revisions d)),
     unique_violation);
    (has_key (db_curricula d) (cv_CurriculumID r), foreign_key_violation)].

Definition violation_curriculum_activity (d : database) (a : CurriculumActivity) : option string :=
  first_violation [
    (bool_decide (1 ≤ ca_Position a)%Z, check_violation);
    (negb (has_key (db_curriculum_activities d) (ca_ID a)), unique_violation);
    (negb (has_row (λ o, bool_decide (ca_CurriculumRevisionID o = ca_CurriculumRevisionID a) &&
                         bool_decide (ca_Position o = ca_Position a)) (db_curriculum_activities d)),
     unique_violation);
    (negb (has_row (λ o, bool_decide (ca_CurriculumRevisionID o = ca_CurriculumRevisionID a) &&
                         bool_decide (ca_ActivitySlug o = ca_ActivitySlug a))
                   (db_curriculum_activities d)), unique_violation);
    (has_key (db_curriculum_revisions d) (ca_CurriculumRevisionID a), foreign_key_violation);
    (has_opt (db_revisions d) (ca_ActivityRevisionID a), foreign_key_violation)].

Definition violation_prerequisite (d : database) (p : CurriculumActivityPrerequisite)
  : option string :=
  first_violation [
    (negb (bool_decide (cp_ActivitySlug p = cp_RequiresSlug p)), check_violation);
    (one_of (cp_Requirement p) ["completed"; "approaching"; "mastered"], check_violation);
    (negb (has_key (db_prerequisites d) (cp_ID p)), unique_violation);
    (negb (has_row (λ o, bool_decide (cp_CurriculumRevisionID o = cp_CurriculumRevisionID p) &&
                         bool_decide (cp_ActivitySlug o = cp_ActivitySlug p) &&
                         bool_decide (cp_RequiresSlug o = cp_RequiresSlug p)) (db_prerequisites d)),
     unique_violation);
    (has_key (db_curriculum_revisions d) (cp_CurriculumRevisionID p), foreign_key_violation)].

Definition violation_gate (d : database) (g : CurriculumActivityGate) : option string :=
  first_violation [
    (one_of (cg_Kind g) ["evidence"; "parent_review"], check_violation);
    (negb (has_key (db_gates d) (cg_ID g)), unique_violation);
    (has_key (db_curriculum_revisions d) (cg_CurriculumRevisionID g), foreign_key_violation)].

Definition violation_remediation (d : database) (r : CurriculumActivityRemediation)
  : option string :=
  first_violation [
    (one_of (cm_Kind r) ["remediation"; "reinforcement"], check_violation);
    (negb (has_key (db_remediations d) (cm_ID r)), unique_violation);
    (has_key (db_curriculum_revisions d) (cm_CurriculumRevisionID r), foreign_key_violation)].

(** [CHECK (char_length(body) <= 8000)] counts characters. *)
Definition violation_response (d : database) (r : StudentResponse) : option string :=
  first_violation [
    (one_of (sr_Status r) ["submitted"; "accepted"; "returned"], check_violation);
    (bool_decide (1 ≤ sr_Attempt r)%Z, check_violation);
    (bool_decide (Z.of_nat (RuneCountInString (sr_Body r)) ≤ 8000)%Z, check_violation);
    (negb (has_key (db_responses d) (sr_ID r)), unique_violation);
    (negb (has_row (λ o, bool_decide (sr_SubmissionID o = sr_SubmissionID r)) (db_responses d)),
     unique_violation);
    (has_key (db_students d) (sr_StudentID r), foreign_key_violation);
    (has_key (db_sessions d) (sr_SessionID r), foreign_key_violation);
    (has_key (db_assignments d) (sr_AssignmentID r), foreign_key_violation);
    (has_key (db_revisions d) (sr_ActivityRevisionID r), foreign_key_violation);
    (opt_in (sr_ReviewedBy r) (db_educators d), foreign_key_violation)].

Definition violation_review (d : database) (r : StudentResponseReview) : option string :=
  first_violation [
    (one_of (sw_Decision r) ["accept"; "return"], check_violation);
    (negb (has_key (db_reviews d) (sw_ID r)), unique_violation);
    (has_key (db_responses d) (sw_ResponseID r), foreign_key_violation);
    (bool_decide (sw_EducatorID r ∈ db_educators d), foreign_key_violation)].

(** A token that a device in use holds: not empty, not revoked. *)
Definition token_live (x : StudentDevice) : bool :=
  negb (bool_decide (dv_TokenHash x = "")) && bool_decide (dv_RevokedAt x = None).

Definition violation_device (d : database) (x : StudentDevice) : option string :=
  first_violation [
    (negb (has_key (db_devices d) (dv_ID x)), unique_violation);
    (negb (token_live x &&
           has_row (λ o, token_live o && bool_decide (dv_TokenHash o = dv_TokenHash x)) (db_devices d)),
     unique_violation);
    (has_key (db_students d) (dv_StudentID x), foreign_key_violation)].

Definition violation_pairing_code (d : database) (x : StudentDevicePairingCode) : option string :=
  first_violation [
    (negb (has_key (db_pairing_codes d) (pc_ID x)), unique_violation);
    (has_key (db_students d) (pc_StudentID x), foreign_key_violation);
    (opt_in (pc_CreatedBy x) (db_educators d), foreign_key_violation)].

(** [UNIQUE (artifact_id)], which implies [UNIQUE (session_id, artifact_id)] *)
Definition violation_artifact (d : database) (x : LearningSessionArtifact) : option string :=
  first_violation [
    (bool_decide (0 ≤ af_ByteSize x)%Z, check_violation);
    (one_of (af_Status x) ["metadata_only"; "reserved"; "uploaded"; "rejected"], check_violation);
    (negb (has_key (db_session_artifacts d) (af_ID x)), unique_violation);
    (negb (has_row (λ o, bool_decide (af_ArtifactID o = af_ArtifactID x)) (db_session_artifacts d)),
     unique_violation);
    (has_key (db_sessions d) (af_SessionID x), foreign_key_violation);
    (has_opt (db_students d) (af_StudentID x), foreign_key_violation);
    (has_opt (db_revisions d) (af_ActivityRevisionID x), foreign_key_violation)].

Definition violation_portfolio (d : database) (x : PortfolioItem) : option string :=
  first_violation [
    (bool_decide (0 ≤ po_ByteSize x)%Z, check_violation);
    (one_of (po_Status x) ["active"; "withdrawn"], check_violation);
    (one_of (po_Destination x) ["portfolio"; "fixture_bundle"], check_violation);
    (negb (has_key (db_portfolio_items d) (po_ID x)), unique_violation);
    (negb (has_row (λ o, bool_decide (po_StudentID o = po_StudentID x) &&
                         bool_decide (po_SourceArtifactID o = po_SourceArtifactID x) &&
                         bool_decide (po_Destination o = po_Destination x)) (db_portfolio_items d)),
     unique_violation);
    (has_key (db_students d) (po_StudentID x), foreign_key_violation);
    (has_key (db_sessions d) (po_SessionID x), foreign_key_violation);
    (has_key (db_revisions d) (po_ActivityRevisionID x), foreign_key_violation);
    (opt_in (po_PromotedBy x) (db_educators d), foreign_key_violation)].

Definition violation_bundle (d : database) (x : ApprovedFixtureBundle) : option string :=
  first_violation [
    (one_of (fb_Status x) ["approved"; "withdrawn"], check_violation);
    (negb (has_key (db_bundles d) (fb_ID x)), unique_violation);
    (negb (has_row (λ o, bool_decide (fb_StudentID o = fb_StudentID x) &&
                         bool_decide (fb_Digest o = fb_Digest x)) (db_bundles d)), unique_violation);
    (has_key (db_students d) (fb_StudentID x), foreign_key_violation);
    (has_opt (db_portfolio_items d) (fb_SourcePortfolioItemID x), foreign_key_violation);
    (opt_in (fb_ApprovedBy x) (db_educators d), foreign_key_violation)].

Definition violation_continuity (d : database) (x : AssignmentContinuityBinding) : option string :=
  first_violation [
    (one_of (cb_ContinuityMode x) ["fresh"; "optional_previous"; "required_project"; "portfolio_review"],
     check_violation);
    (negb (has_key (db_continuity d) (cb_ID x)), unique_violation);
    (negb (has_row (λ o, bool_decide (cb_AssignmentID o = cb_AssignmentID x)) (db_continuity d)),
     unique_violation);
    (has_key (db_assignments d) (cb_AssignmentID x), foreign_key_violation);
    (has_key (db_students d) (cb_StudentID x), foreign_key_violation);
    (has_opt (db_bundles d) (cb_BundleID x), foreign_key_violation);
    (opt_in (cb_DecidedBy x) (db_educators d), foreign_key_violation)].

(** [UNIQUE (source, code)] is not needed by the modelled code: standards are only
    read, and of students only the notes are written. *)
Definition violation_id {A} (id : A → string) (t : database → gmap string A) (d : database) (x : A)
  : option string :=
  first_violation [(negb (has_key (t d) (id x)), unique_violation)].

(** ** The tables *)

Local Ltac row_laws := by intros; repeat match goal with d : database |- _ => destruct d end.

#[export] Program Instance row_standards : Row Standard := {|
  row_id := sd_ID; tbl := db_standards; set_tbl := set_standards; violation := (violation_id sd_ID db_standards) |}.
Solve Obligations with row_laws.
#[export] Program Instance row_curricula : Row Curriculum := {|
  row_id := cu_ID; tbl := db_curricula; set_tbl := set_curricula; violation := violation_curriculum |}.
Solve Obligations with row_laws.
#[export] Program Instance row_curriculum_revisions : Row CurriculumRevision := {|
  row_id := cv_ID; tbl := db_curriculum_revisions; set_tbl := set_curriculum_revisions; violation := violation_curriculum_revision |}.
Solve Obligations with row_laws.
#[export] Program Instance row_curriculum_activities : Row CurriculumActivity := {|
  row_id := ca_ID; tbl := db_curriculum_activities; set_tbl := set_curriculum_activities; violation := violation_curriculum_activity |}.
Solve Obligations with row_laws.
#[export] Program Instance row_prerequisites : Row CurriculumActivityPrerequisite := {|
  row_id := cp_ID; tbl := db_prerequisites; set_tbl := set_prerequisites; violation := violation_prerequisite |}.
Solve Obligations with row_laws.
#[export] Program Instance row_gates : Row CurriculumActivityGate := {|
  row_id := cg_ID; tbl := db_gates; set_tbl := set_gates; violation := violation_gate |}.
Solve Obligations with row_laws.
#[export] Program Instance row_remediations : Row CurriculumActivityRemediation := {|
  row_id := cm_ID; tbl := db_remediations; set_tbl := set_remediations; violation := violation_remediation |}.
Solve Obligations with row_laws.
#[export] Program Instance row_enrollments : Row Enrollment := {|
  row_id := en_ID; tbl := db_enrollments; set_tbl := set_enrollments; violation := violation_enrollment |}.
Solve Obligations with row_laws.
#[export] Program Instance row_enrollment_audits : Row EnrollmentAuditEvent := {|
  row_id := ea_ID; tbl := db_enrollment_audits; set_tbl := set_enrollment_audits; violation := violation_audit |}.
Solve Obligations with row_laws.
#[export] Program Instance row_mastery_records : Row MasteryRecord := {|
  row_id := mr_ID; tbl := db_mastery_records; set_tbl := set_mastery_records; violation := violation_mastery_record |}.
Solve Obligations with row_laws.
#[export] Program Instance row_mastery_evidence : Row MasteryEvidence := {|
  row_id := me_ID; tbl := db_mastery_evidence; set_tbl := set_mastery_evidence; violation := violation_evidence |}.
Solve Obligations with row_laws.
#[export] Program Instance row_activities : Row LearningActivity := {|
  row_id := la_ID; tbl := db_activities; set_tbl := set_activities; violation := violation_activity |}.
Solve Obligations with row_laws.
#[export] Program Instance row_revisions : Row LearningActivityRevision := {|
  row_id := rv_ID; tbl := db_revisions; set_tbl := set_revisions; violation := violation_revision |}.
Solve Obligations with row_laws.
#[export] Program Instance row_links : Row LearningActivityRevisionStandard := {|
  row_id := lk_ID; tbl := db_links; set_tbl := set_links; violation := violation_link |}.
Solve Obligations with row_laws.
#[export] Program Instance row_assignments : Row StudentAssignment := {|
  row_id := sa_ID; tbl := db_assignments; set_tbl := set_assignments; violation := violation_assignment |}.
Solve Obligations with row_laws.
#[export] Program Instance row_devices : Row StudentDevice := {|
  row_id := dv_ID; tbl := db_devices; set_tbl := set_devices; violation := violation_device |}.
Solve Obligations with row_laws.
#[export] Program Instance row_sessions : Row LearningSession := {|
  row_id := ls_ID; tbl := db_sessions; set_tbl := set_sessions; violation := violation_session |}.
Solve Obligations with row_laws.
#[export] Program Instance row_events : Row LearningSessionEvent := {|
  row_id := ev_ID; tbl := db_events; set_tbl := set_events; violation := violation_event |}.
Solve Obligations with row_laws.
#[export] Program Instance row_completions : Row LearningSessionCompletion := {|
  row_id := lc_ID; tbl := db_completions; set_tbl := set_completions; violation := violation_completion |}.
Solve Obligations with row_laws.
#[export] Program Instance row_responses : Row StudentResponse := {|
  row_id := sr_ID; tbl := db_responses; set_tbl := set_responses; violation := violation_response |}.
Solve Obligations with row_laws.

#[export] Program Instance row_students : Row Student := {|
  row_id := su_ID; tbl := db_students; set_tbl := set_students; violation := violation_id su_ID db_students |}.
Solve Obligations with row_laws.
#[export] Program Instance row_reviews : Row StudentResponseReview := {|
  row_id := sw_ID; tbl := db_reviews; set_tbl := set_reviews; violation := violation_review |}.
Solve Obligations with row_laws.
#[export] Program Instance row_pairing_codes : Row StudentDevicePairingCode := {|
  row_id := pc_ID; tbl := db_pairing_codes; set_tbl := set_pairing_codes; violation := violation_pairing_code |}.
Solve Obligations with row_laws.
#[export] Program Instance row_session_artifacts : Row LearningSessionArtifact := {|
  row_id := af_ID; tbl := db_session_artifacts; set_tbl := set_session_artifacts; violation := violation_artifact |}.
Solve Obligations with row_laws.
#[export] Program Instance row_portfolio_items : Row PortfolioItem := {|
  row_id := po_ID; tbl := db_portfolio_items; set_tbl := set_portfolio_items; violation := violation_portfolio |}.
Solve Obligations with row_laws.
#[export] Program Instance row_bundles : Row ApprovedFixtureBundle := {|
  row_id := fb_ID; tbl := db_bundles; set_tbl := set_bundles; violation := violation_bundle |}.
Solve Obligations with row_laws.
#[export] Program Instance row_continuity : Row AssignmentContinuityBinding := {|
  row_id := cb_ID; tbl := db_continuity; set_tbl := set_continuity; violation := violation_continuity |}.
Solve Obligations with row_laws.

(** ** Reasoning about database code *)

Lemma M_bind_Ok {A B} (m : M A) (f : A → M B) q c c' b :
  (m ≫= f) q c = (c', Ok b) ↔ ∃ c1 a, m q c = (c1, Ok a) ∧ f a q c1 = (c', Ok b).
Proof. unfold mbind, M_bind. destruct (m q c) as [c1 [a|e]]; naive_solver. Qed.

Lemma M_bind_Err {A B} (m : M A) (f : A → M B) q c c' e :
  (m ≫= f) q c = (c', Err e) ↔
  m q c = (c', Err e) ∨ ∃ c1 a, m q c = (c1, Ok a) ∧ f a q c1 = (c', Err e).
Proof. unfold mbind, M_bind. destruct (m q c) as [c1 [a|e1]]; naive_solver. Qed.

Lemma stmt_Ok {A} (f : database → result string (database * A)) q c c' a :
  stmt f q c = (c', Ok a) ↔
  cn_aborted c = false ∧ f (cn_db c) = Ok (cn_db c', a) ∧ cn_aborted c' = false.
Proof.
  unfold stmt. destruct c as [d [|]], c' as [d' ab']; cbn; [naive_solver|].
  destruct (f d) as [[d1 a1]|code]; naive_solver.
Qed.

Lemma query_run {A} (f : database → A) q c :
  cn_aborted c = false → query f q c = (c, Ok (f (cn_db c))).
Proof. destruct c as [d ab]. cbn. by intros ->. Qed.

Lemma query_Ok {A} (f : database → A) q c c' a :
  query f q c = (c', Ok a) ↔ cn_aborted c = false ∧ c' = c ∧ a = f (cn_db c).
Proof.
  unfold query. rewrite stmt_Ok. destruct c as [d ab], c' as [d' ab']; cbn. naive_solver.
Qed.

(** Code that never changes the connection. *)
Definition readonly {A} (m : M A) : Prop := ∀ q c, (m q c).1 = c.

Lemma readonly_ret {A} (a : A) : readonly (mret a).
Proof. done. Qed.
Lemma readonly_throw {A} e : readonly (throw (A:=A) e).
Proof. done. Qed.
Lemma readonly_of_result {A} (r : result err A) : readonly (of_result r).
Proof. done. Qed.
Lemma readonly_query {A} (f : database → A) : readonly (query f).
Proof. intros q [d [|]]; done. Qed.
Lemma readonly_bind {A B} (m : M A) (f : A → M B) :
  readonly m → (∀ a, readonly (f a)) → readonly (m ≫= f).
Proof.
  intros Hm Hf q c. unfold mbind, M_bind. specialize (Hm q c).
  destruct (m q c) as [c' [a|e]]; cbn in *; subst; [apply Hf|done].
Qed.
Lemma readonly_attempt {A} (m : M A) : readonly m → readonly (attempt m).
Proof. intros Hm q c. unfold attempt. specialize (Hm q c). by destruct (m q c). Qed.
Lemma readonly_exactly_one {A} (l : list A) : readonly (exactly_one l).
Proof. by destruct l as [|? [|? ?]]. Qed.
Lemma readonly_Get `{!Row A} id : readonly (A:=A) (Get id).
Proof. apply readonly_bind; [apply readonly_query|]. by intros [x|]. Qed.
Lemma readonly_List `{!Row A} limit le (p : A → bool) : readonly (List_ limit le p).
Proof.
  apply readonly_bind; [apply readonly_query|intros n].
  apply readonly_bind; [apply readonly_query|done].
Qed.
Lemma readonly_for_M {A S} (f : A → S → M S) l s :
  (∀ x s, readonly (f x s)) → readonly (for_M f l s).
Proof.
  intros Hf. revert s. induction l as [|x l IH]; intros s; [done|].
  apply readonly_bind; [apply Hf|done].
Qed.

#[export] Hint Resolve readonly_ret readonly_throw readonly_of_result readonly_query
  readonly_bind readonly_attempt readonly_exactly_one readonly_Get readonly_List
  readonly_for_M : primer.

(** Code whose effect on the database stays within a preorder [R], also when it
    fails: the frame rule of the development. *)
Definition preserves {A} (R : database → database → Prop) (m : M A) : Prop :=
  ∀ q c, R (cn_db c) (cn_db (m q c).1).

Section preserves.
Context (R : database → database → Prop) `{!PreOrder R}.
#[local] Set Default Proof Using "Type*".

Lemma preserves_readonly {A} (m : M A) : readonly m → preserves R m.
Proof. intros Hm q c. rewrite Hm. reflexivity. Qed.

Lemma preserves_bind {A B} (m : M A) (f : A → M B) :
  preserves R m → (∀ a, preserves R (f a)) → preserves R (m ≫= f).
Proof.
  intros Hm Hf q c. unfold mbind, M_bind. specialize (Hm q c).
  destruct (m q c) as [c' [a|e]]; cbn in *; [|done]. etrans; [done|apply Hf].
Qed.

Lemma preserves_attempt {A} (m : M A) : preserves R m → preserves R (attempt m).
Proof. intros Hm q c. unfold attempt. specialize (Hm q c). by destruct (m q c). Qed.

Lemma preserves_for_M {A S} (f : A → S → M S) l s :
  (∀ x s, preserves R (f x s)) → preserves R (for_M f l s).
Proof.
  intros Hf. revert s. induction l as [|x l IH]; intros s.
  - apply preserves_readonly, readonly_ret.
  - apply preserves_bind; auto.
Qed.

Lemma preserves_stmt {A} (f : database → result string (database * A)) :
  (∀ d d' a, f d = Ok (d', a) → R d d') → preserves R (stmt f).
Proof.
  intros Hf q c. unfold stmt. destruct (cn_aborted c); [done|].
  destruct (f (cn_db c)) as [[d' a]|code] eqn:E; cbn; [by eapply Hf|done].
Qed.

Lemma preserves_WithTx {A} (m : M A) : preserves R m → preserves R (WithTx m).
Proof.
  intros Hm q c. unfold WithTx. destruct (q_mode q); [| |apply Hm].
  all: destruct (cn_aborted c); [done|].
  all: specialize (Hm (mkEnv QTx (q_now q)) c).
  all: destruct (m _ c) as [c' [a|e]]; cbn in *; [|done].
  all: destruct (cn_aborted c'); cbn; done.
Qed.

Lemma preserves_Create `{!Postgres, !Row A} mk :
  (∀ d (x : A), R d (set_tbl (<[row_id x := x]> (tbl d)) d)) → preserves R (Create mk).
Proof.
  intros HR q c. unfold Create. apply preserves_stmt. intros d d' a.
  destruct (violation d _); [done|]. intros [=<- <-]. apply HR.
Qed.

Lemma preserves_Update `{!Row A} id f :
  (∀ d (x : A), R d (set_tbl (<[id := x]> (tbl d)) d)) → preserves R (Update id f).
Proof.
  intros HR q c. unfold Update. apply preserves_bind.
  - apply preserves_stmt. intros d d' a. destruct (tbl d !! id); [|by intros [=<- <-]].
    destruct (violation _ _); [done|]. intros [=<- <-]. apply HR.
  - intros [x|]; apply preserves_readonly; auto with primer.
Qed.
End preserves.

(** A transaction on a pool or on an open transaction that fails leaves the
    database as it was. *)
Lemma WithTx_atomic {A} (m : M A) q c c' e :
  q_mode q ≠ QSavepoint → WithTx m q c = (c', Err e) → cn_db c' = cn_db c.
Proof.
  unfold WithTx. destruct (q_mode q); intros Hq; [| |done].
  all: destruct (cn_aborted c); [congruence|].
  all: destruct (m _ c) as [c1 [a|e1]]; [destruct (cn_aborted c1)|]; intros; by simplify_eq.
Qed.

(** A transaction that commits ran to its end on a live connection. *)
Lemma WithTx_Ok {A} (m : M A) q c c' a :
  q_mode q ≠ QSavepoint → WithTx m q c = (c', Ok a) ↔
  cn_aborted c = false ∧ m (mkEnv QTx (q_now q)) c = (c', Ok a) ∧ cn_aborted c' = false.
Proof.
  unfold WithTx. destruct (q_mode q) eqn:Eq; intros Hq; [| |done].
  all: destruct (cn_aborted c); [split; [done|by intros (? & _)]|].
  all: destruct (m _ c) as [c1 [a1|e1]]; [|split; [done|by intros (_ & ? & _)]].
  all: destruct (cn_aborted c1) eqn:E1; split; intros; destruct_and?; simplify_eq; auto.
  all: congruence.
Qed.

(** A transaction whose function fails hands its error on. *)
Lemma WithTx_Err {A} (m : M A) q c c1 e :
  q_mode q ≠ QSavepoint → cn_aborted c = false → m (mkEnv QTx (q_now q)) c = (c1, Err e) → WithTx m q c = (c, Err e).
Proof. unfold WithTx. intros Hq -> ->. by destruct (q_mode q). Qed.

(** Take a successful run of database code apart. *)
Ltac m_step :=
  match goal with
  | H : (_ ≫= _) _ _ = (_, Ok _) |- _ => apply M_bind_Ok in H as (? & ? & ? & H)
  | H : mret _ _ _ = (_, Ok _) |- _ => injection H as ? ?; try subst
  | H : throw _ _ _ = (_, Ok _) |- _ => discriminate H
  | H : query _ _ _ = (_, Ok _) |- _ => apply query_Ok in H as (? & ? & ?); subst
  | H : (_, Err _) = (_, Ok _) |- _ => discriminate H
  | H : (_, Ok _) = (_, Ok _) |- _ => injection H as ? ?; try subst
  end.
Ltac m_inv := repeat m_step; simplify_eq.

Lemma elem_of_rows {A} (t : gmap string A) x : x ∈ rows t ↔ ∃ k, t !! k = Some x.
Proof.
  unfold rows. rewrite list_elem_of_fmap. setoid_rewrite <-elem_of_map_to_list.
  split; [intros ([k y] & -> & ?); eauto|]. intros [k ?]. by exists (k, x).
Qed.

Lemma elem_of_select {A} (p : A → bool) (t : gmap string A) x :
  x ∈ select p t ↔ (∃ k, t !! k = Some x) ∧ p x = true.
Proof. unfold select. rewrite list_elem_of_filter, elem_of_rows. naive_solver. Qed.

Lemma has_row_true {A} (p : A → bool) (t : gmap string A) :
  has_row p t = true ↔ ∃ k x, t !! k = Some x ∧ p x = true.
Proof.
  unfold has_row. rewrite existsb_exists_in. setoid_rewrite elem_of_rows. naive_solver.
Qed.

Lemma has_row_false {A} (p : A → bool) (t : gmap string A) :
  has_row p t = false ↔ ∀ k x, t !! k = Some x → p x = false.
Proof.
  unfold has_row. rewrite existsb_false_in. setoid_rewrite elem_of_rows. naive_solver.
Qed.

Lemma Get_Ok `{!Row A} id q c c' (x : A) :
  Get id q c = (c', Ok x) ↔ cn_aborted c = false ∧ c' = c ∧ tbl (cn_db c) !! id = Some x.
Proof.
  unfold Get. rewrite M_bind_Ok. setoid_rewrite query_Ok. split.
  - intros (c1 & r & (Ha & -> & ->) & Hr).
    destruct (tbl (cn_db c) !! id); m_inv; done.
  - intros (Ha & -> & Hx). exists c, (tbl (cn_db c) !! id). by rewrite Hx.
Qed.

Lemma Get_run `{!Row A} id q c (x : A) :
  cn_aborted c = false → tbl (cn_db c) !! id = Some x → Get id q c = (c, Ok x).
Proof. intros. by apply Get_Ok. Qed.

Lemma Update_Ok `{!Row A} id f q c c' (x' : A) :
  Update id f q c = (c', Ok x') →
  ∃ x, tbl (cn_db c) !! id = Some x ∧ x' = f (q_now q) x ∧
       cn_db c' = set_tbl (<[id := x']> (tbl (cn_db c))) (cn_db c) ∧
       violation (set_tbl (delete id (tbl (cn_db c))) (cn_db c)) x' = None ∧
       cn_aborted c = false ∧ cn_aborted c' = false.
Proof.
  unfold Update. intros (c1 & r & H1 & H2)%M_bind_Ok. apply stmt_Ok in H1 as (Ha & H1 & Ha').
  destruct (tbl (cn_db c) !! id) as [x|] eqn:E.
  - destruct (violation _ _) eqn:Ev; [done|]. injection H1 as H1 H1'. subst r.
    injection H2 as <- <-. eauto 10.
  - injection H1 as H1 H1'. subst r. done.
Qed.

Lemma Create_Ok `{!Postgres, !Row A} mk q c c' (x : A) :
  Create mk q c = (c', Ok x) →
  x = mk (gen_random_uuid (dom (tbl (cn_db c)))) (q_now q) ∧
  cn_db c' = set_tbl (<[row_id x := x]> (tbl (cn_db c))) (cn_db c) ∧
  violation (cn_db c) x = None ∧ cn_aborted c = false ∧ cn_aborted c' = false.
Proof.
  unfold Create. intros (Ha & H1 & Ha')%stmt_Ok.
  destruct (violation _ _) eqn:Ev; [done|]. injection H1 as H1 H1'. subst x. eauto 10.
Qed.

(** ** Ordered results *)

Lemma insert_by_perm {A} (le : A → A → bool) x l : insert_by le x l ≡ₚ x :: l.
Proof.
  induction l as [|y l IH]; cbn; [done|]. destruct (le x y); [done|].
  rewrite IH. apply Permutation_swap.
Qed.

Lemma order_by_perm {A} (le : A → A → bool) l : order_by le l ≡ₚ l.
Proof. induction l as [|x l IH]; [done|]. cbn. by rewrite insert_by_perm, IH. Qed.

Lemma insert_by_sorted {A} (le : A → A → bool) x l :
  (∀ a b, le a b = false → le b a = true) →
  (∀ a b c, le a b = true → le b c = true → le a c = true) →
  StronglySorted (λ a b, le a b = true) l → StronglySorted (λ a b, le a b = true) (insert_by le x l).
Proof.
  intros Htot Htr. induction 1 as [|y l Hs IH Hy]; cbn; [by repeat constructor|].
  destruct (le x y) eqn:Exy.
  - constructor; [by constructor|]. constructor; [done|].
    eapply Forall_impl; [exact Hy|]. eauto.
  - constructor; [done|]. rewrite (insert_by_perm le x l). constructor; eauto.
Qed.

Lemma order_by_sorted {A} (le : A → A → bool) l :
  (∀ a b, le a b = false → le b a = true) →
  (∀ a b c, le a b = true → le b c = true → le a c = true) →
  StronglySorted (λ a b, le a b = true) (order_by le l).
Proof.
  intros Htot Htr. induction l as [|x l IH]; cbn; [constructor|]. by apply insert_by_sorted.
Qed.

Lemma elem_of_order_by {A} (le : A → A → bool) l x : x ∈ order_by le l ↔ x ∈ l.
Proof. by rewrite order_by_perm. Qed.

(** Inserting the only row that satisfies the predicate. *)
Lemma rows_insert {A} (t : gmap string A) k x : t !! k = None → rows (<[k := x]> t) ≡ₚ x :: rows t.
Proof. intros Hk. unfold rows. by rewrite map_to_list_insert. Qed.

Lemma select_insert {A} (p : A → bool) (t : gmap string A) k x :
  t !! k = None → select p (<[k := x]> t) ≡ₚ (if p x then [x] else []) ++ select p t.
Proof.
  intros Hk. unfold select. rewrite rows_insert by done.
  rewrite filter_cons. destruct (p x); [by rewrite decide_True by done|by rewrite decide_False by done].
Qed.

Lemma select_insert_single {A} (p : A → bool) (t : gmap string A) k x :
  t !! k = None → select p t = [] → p x = true → select p (<[k := x]> t) = [x].
Proof.
  intros Hk Hn Hx. pose proof (select_insert p t k x Hk) as Hp. rewrite Hx, Hn in Hp.
  apply Permutation_singleton_r in Hp. done.
Qed.

Lemma select_unique {A} (p : A → bool) (t : gmap string A) k x :
  t !! k = Some x → p x = true → (∀ k' y, t !! k' = Some y → p y = true → k' = k) → select p t = [x].
Proof.
  intros Hk Hp Hu. rewrite <-(insert_delete_id t k x) by done.
  apply select_insert_single; [apply lookup_delete_eq| |done].
  destruct (select p (delete k t)) as [|y l] eqn:E; [done|].
  assert (y ∈ select p (delete k t)) as [[k' Hy] Hpy]%elem_of_select by (rewrite E; left).
  apply lookup_delete_Some in Hy as [Hne Hy]. destruct Hne. symmetry. by apply (Hu k' y).
Qed.

Lemma exactly_one_Ok {A} (l : list A) q c c' x :
  exactly_one l q c = (c', Ok x) ↔ c' = c ∧ l = [x].
Proof.
  destruct l as [|y [|z l]]; cbn; split; intros; m_inv; destruct_and?; simplify_eq; done.
Qed.

(** Nothing runs on an aborted transaction: its connection stays as it is. *)
Definition sticky {A} (m : M A) : Prop := ∀ q c, cn_aborted c = true → (m q c).1 = c.

Lemma sticky_readonly {A} (m : M A) : readonly m → sticky m.
Proof. intros H q c _. apply H. Qed.
Lemma sticky_stmt {A} (f : database → result string (database * A)) : sticky (stmt f).
Proof. intros q c Hc. unfold stmt. by rewrite Hc. Qed.
Lemma sticky_bind {A B} (m : M A) (f : A → M B) :
  sticky m → (∀ a, sticky (f a)) → sticky (m ≫= f).
Proof.
  intros Hm Hf q c Hc. unfold mbind, M_bind. specialize (Hm q c Hc).
  destruct (m q c) as [c' [a|e]]; cbn in *; subst; [by apply Hf|done].
Qed.
Lemma sticky_attempt {A} (m : M A) : sticky m → sticky (attempt m).
Proof. intros Hm q c Hc. unfold attempt. specialize (Hm q c Hc). by destruct (m q c). Qed.
Lemma sticky_for_M {A S} (f : A → S → M S) l s :
  (∀ x s, sticky (f x s)) → sticky (for_M f l s).
Proof.
  intros Hf. revert s. induction l as [|x l IH]; intros s; [apply sticky_readonly; done|].
  apply sticky_bind; auto.
Qed.

#[export] Hint Resolve sticky_readonly sticky_stmt sticky_bind sticky_attempt sticky_for_M : primer.

(** What holds of a run that is still live at the end held at every step. *)
Lemma sticky_live {A} (m : M A) q c c' r :
  sticky m → m q c = (c', r) → cn_aborted c' = false → cn_aborted c = false.
Proof.
  intros Hs Hm Hl. destruct (cn_aborted c) eqn:E; [|done].
  pose proof (Hs q c E) as Hc. rewrite Hm in Hc. cbn in Hc. congruence.
Qed.

Lemma for_M_cons_Ok {A S} (f : A → S → M S) x l s q c c' s' :
  for_M f (x :: l) s q c = (c', Ok s') ↔
  ∃ c1 s1, f x s q c = (c1, Ok s1) ∧ for_M f l s1 q c1 = (c', Ok s').
Proof. apply M_bind_Ok. Qed.

Lemma first_violation_cons b code l :
  first_violation ((b, code) :: l) = None ↔ b = true ∧ first_violation l = None.
Proof. destruct b; cbn; naive_solver. Qed.

(** All the constraints a row that was accepted satisfies. *)
Ltac violation_inv H :=
  repeat rewrite first_violation_cons in H; destruct_and? H;
  repeat match goal with
  | H' : negb _ = true |- _ => apply negb_true_iff in H'
  | H' : bool_decide _ = true |- _ => apply bool_decide_eq_true in H'
  | H' : bool_decide _ = false |- _ => apply bool_decide_eq_false in H'
  | H' : has_row _ _ = false |- _ => rewrite has_row_false in H'
  | H' : has_key _ _ = false |- _ => apply bool_decide_eq_false, eq_None_not_Some in H'
  | H' : has_key _ _ = true |- _ => apply bool_decide_eq_true in H'
  | H' : one_of _ _ = true |- _ => apply bool_decide_eq_true in H'
  end.

(** In a transaction a failed statement aborts it. *)
Lemma stmt_Err_aborted {A} (f : database → result string (database * A)) q c c' e :
  q_mode q = QTx → stmt f q c = (c', Err e) → cn_aborted c' = true.
Proof.
  intros Hq. unfold stmt. destruct (cn_aborted c) eqn:Hc; [by intros [= <- _]|].
  destruct (f (cn_db c)) as [[d a]|code]; [done|]. intros [= <- _]. cbn. by apply bool_decide_true.
Qed.

(** ** A server that satisfies the interface *)

(** [NUMERIC(4,3)] by rounding half away from zero on the scaled value. *)
Definition round_4_3 (v : f64) : f64 :=
  f64_lit (Z.max 0 (Z.min 1000 (f64_trunc (fadd (fmul v (f64_of_Z 1000)) (f64_lit 1 2))))) 1000.

Definition thousandths : list Z := Z.of_nat <$> seq 0 1001.

Lemma thousandths_elem z : (0 ≤ z ≤ 1000)%Z → z ∈ thousandths.
Proof.
  intros Hz. unfold thousandths. apply list_elem_of_fmap. exists (Z.to_nat z).
  rewrite elem_of_seq. split; lia.
Qed.

Lemma thousandths_unit : Forall (λ z, unit_interval (f64_lit z 1000) = true) thousandths.
Proof.
  assert (forallb (λ z, fle fzero (f64_lit z 1000) && fle (f64_lit z 1000) fone) thousandths = true)
    as Hb by by vm_compute.
  rewrite forallb_forall_in in Hb. apply Forall_forall. intros z Hz.
  exact (Hb z Hz).
Qed.

Lemma round_4_3_unit v : unit_interval (round_4_3 v) = true.
Proof.
  pose proof thousandths_unit as Hall. rewrite Forall_forall in Hall.
  apply Hall, thousandths_elem. lia.
Qed.

Definition sample_postgres : Postgres := {|
  gen_random_uuid := fresh;
  gen_random_uuid_fresh := is_fresh;
  numeric_4_3 := round_4_3;
  numeric_4_3_unit := λ v _, round_4_3_unit v |}.

Lemma attempt_Ok {A} (m : M A) q c c' r : attempt m q c = (c', Ok r) ↔ m q c = (c', r).
Proof. unfold attempt. destruct (m q c) as [c1 r1]. naive_solver. Qed.

Lemma readonly_conn {A} (m : M A) q c c' r : readonly m → m q c = (c', r) → c' = c.
Proof. intros Hm Hr. specialize (Hm q c). by rewrite Hr in Hm. Qed.

Lemma Create_Err_aborted `{!Postgres, !Row A} (mk : string → Z → A) q c c' e :
  q_mode q = QTx → Create mk q c = (c', Err e) → cn_aborted c' = true.
Proof. unfold Create. apply stmt_Err_aborted. Qed.

Lemma Create_fresh `{!Postgres, !Row A} (d : database) :
  tbl (A:=A) d !! gen_random_uuid (dom (tbl (A:=A) d)) = None.
Proof. apply not_elem_of_dom, gen_random_uuid_fresh. Qed.

Lemma attempt_inv {A} (m : M A) q c c' r : attempt m q c = (c', Ok r) → m q c = (c', r).
Proof. apply attempt_Ok. Qed.
Lemma attempt_run {A} (m : M A) q c c' r : m q c = (c', r) → attempt m q c = (c', Ok r).
Proof. apply attempt_Ok. Qed.
