(* ===== verification/Sample.v ===== *)
(** * A small LMS database

    One student with a device, a terminal and a typing activity, their standards
    links, an assignment and an open session: the concrete state on which the
    examples and witnesses of the LMS components evaluate. *)
From S2P Require Import Prelude GoStrings Float64 Contracts ContentJson LmsData LmsDb.
From stdpp Require Import options.
Local Open Scope string_scope.

Definition w_standard (id code : string) : Standard :=
  mkStandard id "custom" None None code None "" "" "" "" ∅ 0 0.

Definition w_content : jmap :=
  <["checks" := JArr [JObj [("id", JStr "c1"); ("kind", JStr "file_exists")]]]> (
  <["tasks" := JArr [JObj [("id", JStr "t1"); ("completion", JObj [("checkId", JStr "c1")])]]]> ∅).

(** Every required completion path needs a structured command observation. *)
Definition w_command_content : jmap :=
  <["checks" := JArr [JObj [("id", JStr "c1"); ("kind", JStr "command_properties")]]]> (
  <["tasks" := JArr [JObj [("id", JStr "t1"); ("completion", JObj [("checkId", JStr "c1")])]]]> ∅).

Definition w_activity (id slug kind : string) : LearningActivity :=
  mkLearningActivity id slug slug "" kind None "published" 0 0.

Definition w_revision (id act : string) (content : jmap) : LearningActivityRevision :=
  mkLearningActivityRevision id act 1 "1" content id (Some 0%Z) 0.

Definition w_link (id rev std : string) (p : EvidencePolicy) : LearningActivityRevisionStandard :=
  mkLearningActivityRevisionStandard id rev std "primary" fone "" (EvidencePolicyMap p) 0.

Definition w_assignment (id rev state : string) : StudentAssignment :=
  mkStudentAssignment id "s1" rev None None "" state 0 0 None None "" ∅ 0 0.

Definition w_device : StudentDevice := mkStudentDevice "d1" "s1" "" "" None None ∅ None 0 0.

Definition w_session (id asg rev : string) : LearningSession :=
  mkLearningSession id asg "s1" "d1" id rev "started" 0 None None 0 "" 0 0.

Definition w_student : Student := mkStudent "s1" "Ada" "L" None None "" 0 0.

Definition w_db : database := mkDatabase (<["s1" := w_student]> ∅) {["p1"]}
  (<["st1" := w_standard "st1" "CS.SH.1"]> (<["st2" := w_standard "st2" "CS.TYPE.1"]> ∅))
  ∅ ∅ ∅ ∅ ∅ ∅ ∅ ∅ ∅ ∅
  (<["a1" := w_activity "a1" "shell-basics" "terminal"]>
     (<["a2" := w_activity "a2" "type-basics" "typing"]>
     (<["a3" := w_activity "a3" "shell-commands" "terminal"]> ∅)))
  (<["r1" := w_revision "r1" "a1" w_content]> (<["r2" := w_revision "r2" "a2" w_content]>
     (<["r3" := w_revision "r3" "a3" w_command_content]> ∅)))
  (<["l1" := w_link "l1" "r1" "st1" DefaultTerminalEvidencePolicy]>
     (<["l2" := w_link "l2" "r2" "st2" DefaultTypingEvidencePolicy]> ∅))
  (<["as1" := w_assignment "as1" "r1" "in_progress"]>
     (<["as2" := w_assignment "as2" "r2" "available"]>
     (<["as3" := w_assignment "as3" "r1" "cancelled"]>
     (<["as4" := w_assignment "as4" "r3" "available"]> ∅))))
  (<["d1" := w_device]> ∅)
  (<["ss1" := w_session "ss1" "as1" "r1"]> (<["ss3" := w_session "ss3" "as3" "r1"]> ∅))
  ∅ ∅ ∅ ∅ ∅ ∅ ∅ ∅ ∅.

Definition w_conn : conn := mkConn w_db false.
Definition w_pool : qenv := mkEnv QPool 100.

Definition w_event (id : string) (seq : Z) : SessionEvent := mkSessionEvent "1" id "note" seq 5 None.
Definition w_observation (check : string) : Observation :=
  mkObservation "1" check "file_exists" true false "" 7 None.
Definition w_request (id : string) : CompletionRequest :=
  mkCompletionRequest "1" id ("digest-" +:+ id) [w_observation "c1"] [] ∅ 9 "done".
