(* ===== verification/Sessions.v ===== *)
(** * Learning sessions ([repo/learning_session.go])

    Starting and resuming a session, ingesting the client's event stream with its
    acknowledgements, storing completion results. *)
From S2P Require Import Prelude GoStrings Float64 Contracts ContentJson LmsData LmsDb Sample.
From stdpp Require Import options.
Local Open Scope string_scope.

Abbreviation CompletionSchemaVersion := "1".
Abbreviation EventSchemaVersion := "1".
Abbreviation EventTutorMessage := "tutor_message".

(** Go's int64 arithmetic. *)
Definition wrap64 (z : Z) : Z := ((z + 2^63) mod 2^64 - 2^63)%Z.

(** ** Content and capabilities *)

(** [repo.DecodeActivityContent] as a step that can fail. *)
Definition decodeContent (m : jmap) : M ActivityContent :=
  match DecodeActivityContent m with
  | Ok c => mret c
  | Err e => throw (ErrGo e)
  end.

Abbreviation incompatible_msg :=
  "runner lacks structured_command_evidence required by this activity revision".

(** [repo.RejectIncompatibleRevision] *)
Definition checkCompatible (contentMap : jmap) (capabilities : gset string) : M unit :=
  content ← decodeContent contentMap;
  if RejectIncompatibleRevision content capabilities then throw (ErrBadRequest incompatible_msg)
  else mret tt.

(** ** Queries *)

Definition sessionByClientID (deviceID clientSessionID : string) : M LearningSession :=
  r ← query (λ d, select (λ s, bool_decide (ls_DeviceID s = deviceID) &&
                               bool_decide (ls_ClientSessionID s = clientSessionID)) (db_sessions d));
  exactly_one r.

Definition openSessionForAssignment (assignmentID : string) : M LearningSession :=
  r ← query (λ d, take 1 (select (λ s, bool_decide (ls_AssignmentID s = assignmentID) &&
                                       session_open s) (db_sessions d)));
  exactly_one r.

Definition GetSession (id : string) : M LearningSession := Get id.

Definition GetRevision (id : string) : M LearningActivityRevision := Get id.

Definition GetCompletionBySession (sessionID : string) : M LearningSessionCompletion :=
  r ← query (λ d, select (λ x, bool_decide (lc_SessionID x = sessionID)) (db_completions d));
  exactly_one r.

Definition GetCompletionByID (completionID : string) : M LearningSessionCompletion :=
  r ← query (λ d, select (λ x, bool_decide (lc_CompletionID x = completionID)) (db_completions d));
  exactly_one r.

(** ** Column updates *)

Definition assignment_set_state (state : string) (now : Z) (a : StudentAssignment)
  : StudentAssignment :=
  mkStudentAssignment (sa_ID a) (sa_StudentID a) (sa_ActivityRevisionID a) (sa_EnrollmentID a)
    (sa_CurriculumActivityID a) (sa_SelectionReason a) state (sa_Priority a) (sa_AvailableAt a)
    (sa_DueAt a) (sa_AssignedBy a) (sa_Reason a) (sa_Constraints a) (sa_CreatedAt a) now.

Definition session_set_completed (completedAt dur : Z) (summary : string) (now : Z)
    (s : LearningSession) : LearningSession :=
  mkLearningSession (ls_ID s) (ls_AssignmentID s) (ls_StudentID s) (ls_DeviceID s)
    (ls_ClientSessionID s) (ls_ActivityRevisionID s) SessionCompleted (ls_StartedAt s)
    (ls_LastEventAt s) (Some completedAt) dur summary (ls_CreatedAt s) now.

Definition session_touch (at_ now : Z) (s : LearningSession) : LearningSession :=
  mkLearningSession (ls_ID s) (ls_AssignmentID s) (ls_StudentID s) (ls_DeviceID s)
    (ls_ClientSessionID s) (ls_ActivityRevisionID s) (ls_State s) (ls_StartedAt s)
    (Some at_) (ls_CompletedAt s) (ls_DurationSeconds s) (ls_Summary s) (ls_CreatedAt s) now.

(** [int(now.Sub(startedAt).Seconds())], negative durations cut to 0. *)
Definition session_duration (startedAt now : Z) : Z :=
  let d := Z.max (-(2^63)) (Z.min (2^63 - 1) (now - startedAt)) in
  let sec := Z.quot d 1000000000 in
  let nsec := Z.rem d 1000000000 in
  let dur := f64_trunc (fadd (f64_of_Z sec) (f64_lit nsec 1000000000)) in
  if bool_decide (dur < 0)%Z then 0%Z else dur.

(** ** Completions *)

(** The JSON form of an observation: an empty details object is left out. *)
Definition observation_json (o : Observation) : Observation :=
  mkObservation (ob_SchemaVersion o) (ob_CheckID o) (ob_Kind o) (ob_Passed o) (ob_Optional o)
    (ob_Message o) (ob_ObservedAt o)
    (match ob_Details o with
     | Some m => if bool_decide (m = ∅) then None else Some m
     | None => None
     end).

Definition completion_json (r : CompletionResult) : CompletionResult :=
  mkCompletionResult (cs_SchemaVersion r) (cs_CompletionID r) (cs_Accepted r) (cs_RequestDigest r)
    (observation_json <$> cs_Observations r) (cs_EvidenceIDs r) (cs_MasterySnapshot r)
    (cs_AssignmentCompletion r) (cs_MasteryTransitions r) (cs_Message r).

(** [json.Marshal] refuses NaN and infinities. *)
Definition completion_encodable (r : CompletionResult) : bool :=
  forallb (λ t, is_finite (mt_Confidence t)) (cs_MasterySnapshot r) &&
  forallb (λ t, is_finite (mt_Confidence t)) (cs_MasteryTransitions r).

Section sessions.
Context `{!Postgres}.

Definition InsertCompletion (sessionID completionID digest : string) (response : CompletionResult)
  : M LearningSessionCompletion :=
  if completion_encodable response then
    Create (λ id now, mkLearningSessionCompletion id sessionID completionID digest
                        (completion_json response) now)
  else throw (ErrGo "marshal completion response").

Definition CompletionResultFromRow (c : LearningSessionCompletion) : M CompletionResult :=
  mret (lc_Response c).

Definition MarkSessionCompleted (session : LearningSession) (summary : string) (now : Z) : M unit :=
  let dur := session_duration (ls_StartedAt session) now in
  _ ← Update (ls_ID session) (session_set_completed now dur summary);
  _ ← Update (ls_AssignmentID session) (assignment_set_state AssignmentCompleted);
  mret tt.

(** ** Starting and resuming *)

Definition startNewSession (device : StudentDevice) (clientSessionID assignmentID : string)
    (asg : StudentAssignment) (now : Z) : M LearningSession :=
  r ← attempt (Create (λ id t,
        mkLearningSession id assignmentID (dv_StudentID device) (dv_ID device) clientSessionID
          (sa_ActivityRevisionID asg) SessionStarted now None None 0 "" t t));
  match r with
  | Err e =>
      existing ← attempt (sessionByClientID (dv_ID device) clientSessionID);
      match existing with
      | Ok s => mret s
      | Err _ =>
          open ← attempt (openSessionForAssignment assignmentID);
          match open with Ok s => mret s | Err _ => throw e end
      end
  | Ok sess =>
      if bool_decide (sa_State asg = AssignmentAvailable) then
        _ ← Update (sa_ID asg) (assignment_set_state AssignmentInProgress);
        mret sess
      else mret sess
  end.

Definition StartOrResumeSession (device : StudentDevice) (clientSessionID assignmentID : string)
    (now : Z) (capabilities : list string) : M LearningSession :=
  let caps : gset string := list_to_set (filter (λ c, c ≠ "") capabilities) in
  WithTx (
    existing ← attempt (sessionByClientID (dv_ID device) clientSessionID);
    match existing with
    | Ok s => mret s
    | Err ErrNotFound =>
        asg ← (Get assignmentID : M StudentAssignment);
        if negb (bool_decide (sa_StudentID asg = dv_StudentID device)) then throw ErrNotFound
        else if bool_decide (sa_State asg = AssignmentCancelled) then
          throw (ErrBadRequest "assignment is cancelled")
        else if bool_decide (sa_State asg = AssignmentCompleted) then
          throw (ErrBadRequest "assignment is already completed")
        else
          rev ← GetRevision (sa_ActivityRevisionID asg);
          _ ← checkCompatible (rv_Content rev) caps;
          open ← attempt (openSessionForAssignment assignmentID);
          match open with
          | Ok s => mret s
          | Err ErrNotFound => startNewSession device clientSessionID assignmentID asg now
          | Err e => throw e
          end
    | Err e => throw e
    end).

(** ** Events *)

Definition event_row (sessionID : string) (ev : SessionEvent) (now : Z) (id : string)
  : LearningSessionEvent :=
  mkLearningSessionEvent id sessionID (se_EventID ev) (se_Sequence ev) (se_Type ev)
    (se_ClientTime ev) now
    (if bool_decide (se_SchemaVersion ev = "") then EventSchemaVersion else se_SchemaVersion ev)
    (default ∅ (se_Payload ev)).

(** [INSERT ... ON CONFLICT (event_id) DO NOTHING] *)
Definition insertEvent (sessionID : string) (ev : SessionEvent) (now : Z) : M unit :=
  stmt (λ d,
    let x := event_row sessionID ev now (gen_random_uuid (dom (db_events d))) in
    if negb (bool_decide (0 ≤ ev_Sequence x)%Z) then Err check_violation
    else if has_row (λ o, bool_decide (ev_EventID o = ev_EventID x)) (db_events d) then Ok (d, tt)
    else match violation d x with
         | Some code => Err code
         | None => Ok (set_events (<[ev_ID x := x]> (db_events d)) d, tt)
         end).

Definition eventBySequence (sessionID : string) (seq : Z) : M LearningSessionEvent :=
  r ← query (λ d, select (λ e, bool_decide (ev_SessionID e = sessionID) &&
                               bool_decide (ev_Sequence e = seq)) (db_events d));
  exactly_one r.

Definition touchSession (sessionID : string) (now : Z) : M unit := λ q c,
  stmt (λ d, match db_sessions d !! sessionID with
             | None => Ok (d, tt)
             | Some s => Ok (set_sessions (<[sessionID := session_touch now (q_now q) s]>
                                             (db_sessions d)) d, tt)
             end) q c.

Definition session_sequences (sessionID : string) (d : database) : list Z :=
  ev_Sequence <$> select (λ e, bool_decide (ev_SessionID e = sessionID)) (db_events d).

Definition max_seq (l : list Z) : option Z :=
  match l with [] => None | x :: l' => Some (foldl Z.max x l') end.

(** The loop of [contiguousAck] over the ordered sequence numbers. *)
Fixpoint ack_loop (maxSeq expect acked : Z) (seqs : list Z) : Z :=
  match seqs with
  | [] => acked
  | seq :: rest =>
      if negb (bool_decide (seq = expect)) then acked
      else if bool_decide (maxSeq ≤ seq)%Z then seq
      else ack_loop maxSeq (expect + 1) seq rest
  end.

Definition contiguousAck (sessionID : string) (maxSeq : Z) : M Z :=
  r ← attempt (query (λ d,
    order_by Z.leb (filter (λ s, 0 ≤ s)%Z (session_sequences sessionID d))));
  match r with
  | Err _ => mret (-1)%Z
  | Ok seqs => mret (ack_loop maxSeq 0 (-1) seqs)
  end.

Definition ingestOne (sessionID : string) (now : Z) (ev : SessionEvent) (_ : unit) : M unit :=
  if bool_decide (se_EventID ev = "") then throw (ErrBadRequest "eventId is required")
  else
    r ← attempt (insertEvent sessionID ev now);
    match r with
    | Ok _ => mret tt
    | Err (ErrPg code) =>
        if bool_decide (code = unique_violation) then
          existing ← attempt (eventBySequence sessionID (se_Sequence ev));
          match existing with
          | Ok x =>
              if bool_decide (ev_EventID x = se_EventID ev) then mret tt
              else throw (ErrConflict "sequence already held by another event")
          | Err _ => mret tt
          end
        else throw (ErrPg code)
    | Err e => throw e
    end.

Definition IngestSessionEvents (sessionID : string) (events : list SessionEvent) (now : Z) : M Z :=
  WithTx (
    _ ← for_M (ingestOne sessionID now) events tt;
    _ ← touchSession sessionID now;
    maxSeq ← query (λ d, max_seq (session_sequences sessionID d));
    match maxSeq with
    | None => mret (-1)%Z
    | Some m => contiguousAck sessionID m
    end).

Definition ServerEventSequenceBase : Z := 1000000000.

Definition InsertServerSessionEvent (sessionID eventType : string) (payload : option jmap) (now : Z)
  : M unit :=
  WithTx (
    maxSeq ← query (λ d, max_seq (filter (λ s, ServerEventSequenceBase ≤ s)%Z
                                         (session_sequences sessionID d)));
    let seq := match maxSeq with None => ServerEventSequenceBase | Some m => wrap64 (m + 1) end in
    eventID ← query (λ d, gen_random_uuid (list_to_set (ev_EventID <$> rows (db_events d))));
    _ ← Create (λ id _, mkLearningSessionEvent id sessionID eventID seq eventType now now
                          EventSchemaVersion (default ∅ payload));
    touchSession sessionID now).

Definition CountSessionEvents (sessionID : string) : M Z :=
  query (λ d, Z.of_nat (length (session_sequences sessionID d))).

Definition CountTutorEvents (sessionID : string) : M Z :=
  query (λ d, Z.of_nat (length (select (λ e, bool_decide (ev_SessionID e = sessionID) &&
                                             bool_decide (ev_EventType e = EventTutorMessage))
                                       (db_events d)))).

Definition ListTutorReplyHints (sessionID : string) (limit : Z) : M (list string) :=
  let limit := if bool_decide (limit ≤ 0)%Z then 20%Z else limit in
  evs ← query (λ d,
    take (Z.to_nat limit)
      (order_by (λ a b, Z.leb (ev_Sequence a) (ev_Sequence b))
         (select (λ e, bool_decide (ev_SessionID e = sessionID) &&
                       bool_decide (ev_EventType e = EventTutorMessage)) (db_events d))));
  mret (omap (λ e, match jget_str (ev_Payload e) "reply" with
                   | Some r => if bool_decide (r = "") then None else Some r
                   | None => None
                   end) evs).
End sessions.

(** ** Acknowledgements *)

(** The number a client may discard its buffer up to: every sequence from 0 to [n]
    is stored and [n + 1] is not. *)
Definition ack_correct (seqs : list Z) (n : Z) : Prop :=
  (-1 ≤ n)%Z ∧ (∀ k, 0 ≤ k ≤ n → k ∈ seqs)%Z ∧ (n + 1)%Z ∉ seqs.

Lemma ack_loop_spec maxSeq seqs : ∀ expect,
  StronglySorted Z.lt seqs →
  Forall (λ s, expect ≤ s)%Z seqs → Forall (λ s, s ≤ maxSeq)%Z seqs →
  let n := ack_loop maxSeq expect (expect - 1) seqs in
  (expect - 1 ≤ n)%Z ∧ (∀ k, expect ≤ k ≤ n → k ∈ seqs)%Z ∧ (n + 1)%Z ∉ seqs.
Proof.
  induction seqs as [|s seqs IH]; intros expect Hs Hlo Hhi; cbn [ack_loop].
  { split_and!; [lia|lia|apply not_elem_of_nil]. }
  apply StronglySorted_inv in Hs as [Hs Hmin].
  apply Forall_cons in Hlo as [Hlo1 Hlo], Hhi as [Hhi1 Hhi].
  rewrite Forall_forall in Hmin, Hlo, Hhi.
  destruct (bool_decide_reflect (s = expect)) as [->|Hne]; cbn [negb].
  - case_bool_decide as Hmax.
    + split_and!; [lia| |].
      * intros k Hk. replace k with expect by lia. left.
      * intros [?|Hin]%elem_of_cons; [lia|]. apply Hhi in Hin. lia.
    + destruct (IH (expect + 1)%Z Hs) as (H1 & H2 & H3).
      { apply Forall_forall. intros x Hx. apply Hmin in Hx. lia. }
      { by apply Forall_forall. }
      replace (expect + 1 - 1)%Z with expect in H1, H2, H3 by lia.
      split_and!; [lia| |].
      * intros k Hk. destruct (decide (k = expect)) as [->|]; [left|right; apply H2; lia].
      * intros [?|Hin]%elem_of_cons; [lia|done].
  - split_and!; [lia|lia|]. intros [?|Hin]%elem_of_cons; [lia|]. apply Hmin in Hin. lia.
Qed.

(** [UNIQUE (session_id, sequence)] *)
Definition unique_sequences (d : database) : Prop := ∀ i j e e',
  db_events d !! i = Some e → db_events d !! j = Some e' →
  ev_SessionID e = ev_SessionID e' → ev_Sequence e = ev_Sequence e' → i = j.

Lemma NoDup_session_sequences sid d :
  unique_sequences d → NoDup (session_sequences sid d).
Proof.
  intros Hu. unfold session_sequences, select, rows.
  assert (∀ l : list (string * LearningSessionEvent), NoDup l.*1 →
    (∀ i e, (i, e) ∈ l → db_events d !! i = Some e) →
    NoDup (ev_Sequence <$> filter (λ x, bool_decide (ev_SessionID x = sid) = true) l.*2)) as Hl.
  { induction l as [|[i e] l IH]; intros Hn Hl; [constructor|].
    cbn [fmap list_fmap] in *. apply NoDup_cons in Hn as [Hi Hn].
    assert (NoDup (ev_Sequence <$> filter (λ x, bool_decide (ev_SessionID x = sid) = true) l.*2)) as Hrec.
    { apply IH; [done|]. intros. apply Hl. by right. }
    rewrite filter_cons. case_decide as He; [|done]. rewrite fmap_cons. apply NoDup_cons. split; [|done].
    intros (e' & Heq & Hin)%list_elem_of_fmap.
    apply list_elem_of_filter in Hin as [He' Hin].
    apply list_elem_of_fmap in Hin as ([j e2] & -> & Hin). cbn in *.
    apply bool_decide_eq_true in He, He'.
    assert (i = j) as ->.
    { eapply Hu; [apply Hl; left|apply Hl; right; exact Hin|congruence|done]. }
    apply Hi. apply list_elem_of_fmap. by exists (j, e2). }
  apply Hl; [apply NoDup_fst_map_to_list|]. intros i e Hin. by apply elem_of_map_to_list.
Qed.

Lemma foldl_max_ge l : ∀ a x, x = a ∨ x ∈ l → (x ≤ foldl Z.max a l)%Z.
Proof.
  induction l as [|y l IH]; intros a x Hx; cbn.
  { destruct Hx as [->|Hx]; [lia|by apply elem_of_nil in Hx]. }
  destruct Hx as [->|[->|Hx]%elem_of_cons].
  - specialize (IH (Z.max a y) _ (or_introl eq_refl)). lia.
  - specialize (IH (Z.max a y) _ (or_introl eq_refl)). lia.
  - by apply IH; right.
Qed.

Lemma max_seq_ge l m x : max_seq l = Some m → x ∈ l → (x ≤ m)%Z.
Proof.
  destruct l as [|y l]; [done|]. intros [= <-] Hx. apply foldl_max_ge.
  by apply elem_of_cons in Hx.
Qed.

Lemma StronglySorted_lt l : StronglySorted (λ a b, Z.leb a b = true) l → NoDup l → StronglySorted Z.lt l.
Proof.
  induction 1 as [|x l Hs IH Hx]; intros Hn; [constructor|].
  apply NoDup_cons in Hn as [Hin Hn]. constructor; [by apply IH|].
  rewrite Forall_forall in Hx |- *. intros y Hy. specialize (Hx y Hy).
  apply Z.leb_le in Hx. assert (y ≠ x) by congruence. lia.
Qed.

Lemma contiguousAck_correct sid m q c c' n :
  unique_sequences (cn_db c) → max_seq (session_sequences sid (cn_db c)) = Some m →
  Forall (λ s, 0 ≤ s)%Z (session_sequences sid (cn_db c)) →
  cn_aborted c = false → contiguousAck sid m q c = (c', Ok n) →
  c' = c ∧ ack_correct (session_sequences sid (cn_db c)) n.
Proof.
  intros Hu Hm Hpos Hab H. unfold contiguousAck in H.
  apply M_bind_Ok in H as (c1 & r & H1 & H2).
  unfold attempt in H1. rewrite query_run in H1 by done. injection H1 as <- <-.
  injection H2 as <- <-. split; [done|].
  assert (filter (λ s, 0 ≤ s)%Z (session_sequences sid (cn_db c)) = session_sequences sid (cn_db c))
    as -> by by apply filter_all.
  set (l := session_sequences sid (cn_db c)) in *.
  assert (StronglySorted Z.lt (order_by Z.leb l)) as Hs.
  { apply StronglySorted_lt.
    - apply order_by_sorted; intros *; rewrite ?Z.leb_le, ?Z.leb_gt; lia.
    - rewrite order_by_perm. by apply NoDup_session_sequences. }
  destruct (ack_loop_spec m (order_by Z.leb l) 0 Hs) as (H1 & H2 & H3).
  - by rewrite order_by_perm.
  - rewrite order_by_perm. apply Forall_forall. intros x Hx. by eapply max_seq_ge.
  - unfold ack_correct. setoid_rewrite elem_of_order_by in H2. rewrite elem_of_order_by in H3.
    change (0 - 1)%Z with (-1)%Z in *. split_and!; [lia|done|done].
Qed.

(** ** Ingesting events *)

Section ingest.
Context `{!Postgres}.

(** The event table's constraints as an invariant, and its growth. *)
Definition events_ok (d : database) : Prop :=
  unique_sequences d ∧ ∀ i e, db_events d !! i = Some e → (0 ≤ ev_Sequence e)%Z.

Definition has_event (d : database) (id : string) : Prop :=
  ∃ i e, db_events d !! i = Some e ∧ ev_EventID e = id.

Lemma violation_event_None d e :
  violation_event d e = None →
  (0 ≤ ev_Sequence e)%Z ∧ db_events d !! ev_ID e = None ∧
  ∀ i o, db_events d !! i = Some o → ev_SessionID o = ev_SessionID e →
         ev_Sequence o = ev_Sequence e → False.
Proof.
  unfold violation_event. intros Hv. violation_inv Hv. split_and!; [done|done|].
  intros i o Ho Hs Hq.
  match goal with H' : ∀ k x, _ → bool_decide _ && _ = false |- _ => specialize (H' i o Ho) end.
  rewrite !bool_decide_true in * by done. done.
Qed.

Lemma insertEvent_Ok sid ev now q c c' :
  insertEvent sid ev now q c = (c', Ok tt) →
  cn_aborted c = false ∧ cn_aborted c' = false ∧ (0 ≤ se_Sequence ev)%Z ∧
  has_event (cn_db c') (se_EventID ev) ∧
  (c' = c ∨ ∃ k, db_events (cn_db c) !! k = None ∧
     violation (cn_db c) (event_row sid ev now k) = None ∧
     cn_db c' = set_events (<[k := event_row sid ev now k]> (db_events (cn_db c))) (cn_db c)).
Proof.
  unfold insertEvent. intros (Ha & H1 & Ha')%stmt_Ok.
  destruct (bool_decide _) eqn:Hseq; cbn [negb] in H1; [|done].
  apply bool_decide_eq_true in Hseq. cbn in Hseq.
  destruct (has_row _ _) eqn:Hrow.
  - injection H1 as H1. apply has_row_true in Hrow as (k & e & He & Heq%bool_decide_eq_true).
    split_and!; [done|done|done| |].
    + exists k, e. rewrite <-H1. done.
    + left. destruct c, c'; cbn in *; congruence.
  - set (k := gen_random_uuid _) in *.
    destruct (violation _ _) eqn:Hv; [done|]. injection H1 as H1.
    split_and!; [done|done|done| |].
    + exists k, (event_row sid ev now k). rewrite <-H1. cbn. by rewrite lookup_insert_eq.
    + right. exists k. split_and!; [|done|done].
      apply not_elem_of_dom. apply gen_random_uuid_fresh.
Qed.

Lemma insertEvent_events_ok sid ev now q c c' :
  insertEvent sid ev now q c = (c', Ok tt) → events_ok (cn_db c) →
  events_ok (cn_db c') ∧ db_events (cn_db c) ⊆ db_events (cn_db c').
Proof.
  intros (_ & _ & Hseq & _ & [->|(k & Hk & Hv & ->)])%insertEvent_Ok [Hu Hp]; [done|].
  apply violation_event_None in Hv as (_ & _ & Hfresh). cbn in Hfresh. split; [split|].
  - intros i j e e'. cbn. rewrite !lookup_insert.
    repeat case_decide; intros; simplify_eq/=; try done.
    + exfalso. by eapply Hfresh.
    + exfalso. by eapply Hfresh.
    + by eapply Hu.
  - intros i e. cbn. rewrite lookup_insert. case_decide; intros; simplify_eq/=; eauto.
  - cbn. by apply insert_subseteq.
Qed.

Lemma sticky_insertEvent sid ev now : sticky (insertEvent sid ev now).
Proof. apply sticky_stmt. Qed.
Lemma readonly_eventBySequence sid seq : readonly (eventBySequence sid seq).
Proof. unfold eventBySequence. eauto with primer. Qed.
Lemma sticky_ingestOne sid now ev u : sticky (ingestOne sid now ev u).
Proof.
  unfold ingestOne. case_bool_decide; [eauto with primer|].
  apply sticky_bind; [apply sticky_attempt, sticky_insertEvent|].
  intros [[]|[]]; eauto with primer. case_bool_decide; [|eauto with primer].
  apply sticky_bind; [apply sticky_attempt, sticky_readonly, readonly_eventBySequence|].
  intros [e|]; [case_bool_decide|]; eauto with primer.
Qed.

(** In a transaction, an event whose insertion fails leaves it aborted. *)
Lemma ingestOne_live sid now ev u q c c' :
  q_mode q = QTx → ingestOne sid now ev u q c = (c', Ok tt) → cn_aborted c' = false →
  se_EventID ev ≠ "" ∧ insertEvent sid ev now q c = (c', Ok tt).
Proof.
  intros Hq Hi Hl. unfold ingestOne in Hi. case_bool_decide; [done|]. split; [done|].
  apply M_bind_Ok in Hi as (c1 & r & H1 & H2). unfold attempt in H1.
  destruct (insertEvent sid ev now q c) as [c0 [[]|e]] eqn:E; injection H1 as <- <-.
  { injection H2 as <-. done. }
  exfalso. destruct e as [| | |code| | |]; try done. case_bool_decide; [|done].
  assert (cn_aborted c0 = true) as Hab by by eapply stmt_Err_aborted.
  eapply sticky_live in Hl; [|shelve|exact H2]. { congruence. }
  Unshelve. apply sticky_bind; [apply sticky_attempt, sticky_readonly, readonly_eventBySequence|].
  intros [x|]; [case_bool_decide|]; by apply sticky_readonly.
Qed.

Lemma ingest_loop_live sid now evs q c c' :
  q_mode q = QTx → for_M (ingestOne sid now) evs tt q c = (c', Ok tt) → cn_aborted c' = false →
  events_ok (cn_db c) →
  events_ok (cn_db c') ∧ db_events (cn_db c) ⊆ db_events (cn_db c') ∧
  Forall (λ ev, se_EventID ev ≠ "" ∧ (0 ≤ se_Sequence ev)%Z ∧ has_event (cn_db c') (se_EventID ev)) evs.
Proof.
  intros Hq. revert c. induction evs as [|ev evs IH]; intros c Hf Hl Hok.
  { injection Hf as <-. done. }
  apply for_M_cons_Ok in Hf as (c1 & [] & H1 & H2).
  assert (cn_aborted c1 = false) as Hl1.
  { eapply sticky_live; [|exact H2|done]. apply sticky_for_M, sticky_ingestOne. }
  apply ingestOne_live in H1 as [Hne H1]; [|done|done].
  destruct (insertEvent_events_ok _ _ _ _ _ _ H1 Hok) as [Hok1 Hsub1].
  apply insertEvent_Ok in H1 as (_ & _ & Hseq & (i & e & Hi & He) & _).
  destruct (IH c1 H2 Hl Hok1) as (Hok' & Hsub & Hall).
  split_and!; [done|by etrans|]. constructor; [|done]. split_and!; [done|done|].
  exists i, e. split; [|done]. by eapply lookup_weaken.
Qed.

(** Events that are already stored go through without a change. *)
Lemma ingest_loop_again sid now evs q c :
  cn_aborted c = false →
  Forall (λ ev, se_EventID ev ≠ "" ∧ (0 ≤ se_Sequence ev)%Z ∧ has_event (cn_db c) (se_EventID ev)) evs →
  for_M (ingestOne sid now) evs tt q c = (c, Ok tt).
Proof.
  intros Hl. induction 1 as [|ev evs (Hne & Hseq & (i & e & Hi & He)) _ IH]; [done|].
  apply for_M_cons_Ok. exists c, tt. split; [|done]. unfold ingestOne.
  rewrite bool_decide_false by done. apply M_bind_Ok. exists c, (Ok tt). split; [|done].
  unfold attempt, insertEvent, stmt. rewrite Hl. cbn [event_row ev_Sequence ev_EventID].
  rewrite bool_decide_true by done. cbn [negb].
  replace (has_row _ _) with true; [by destruct c as [? []]|].
  symmetry. apply has_row_true. exists i, e. split; [done|]. by apply bool_decide_true.
Qed.

Lemma touchSession_run sid now q c :
  cn_aborted c = false → ∃ c', touchSession sid now q c = (c', Ok tt) ∧ cn_aborted c' = false ∧
    db_events (cn_db c') = db_events (cn_db c).
Proof.
  intros Hl. unfold touchSession, stmt. rewrite Hl.
  destruct (db_sessions (cn_db c) !! sid); eexists; split_and!; reflexivity.
Qed.

(** The tail of [IngestSessionEvents]: touch the session and acknowledge. *)
Definition ack_tail (sid : string) (now : Z) : M Z :=
  _ ← touchSession sid now;
  maxSeq ← query (λ d, max_seq (session_sequences sid d));
  match maxSeq with None => mret (-1)%Z | Some m => contiguousAck sid m end.

Definition ack_value (sid : string) (d : database) : Z :=
  match max_seq (session_sequences sid d) with
  | None => -1
  | Some m => ack_loop m 0 (-1) (order_by Z.leb (filter (λ s, 0 ≤ s)%Z (session_sequences sid d)))
  end.

Lemma ack_tail_run sid now q c :
  cn_aborted c = false → ∃ c', ack_tail sid now q c = (c', Ok (ack_value sid (cn_db c'))) ∧
    cn_aborted c' = false ∧ db_events (cn_db c') = db_events (cn_db c).
Proof.
  intros Hl. destruct (touchSession_run sid now q c Hl) as (c' & Ht & Hl' & He).
  exists c'. split_and!; [|done|done]. unfold ack_tail. apply M_bind_Ok. exists c', tt. split; [done|].
  apply M_bind_Ok. eexists _, _. split; [by apply query_Ok|]. cbn. unfold ack_value.
  destruct (max_seq _); [|done]. unfold contiguousAck. apply M_bind_Ok.
  exists c'. eexists. unfold attempt. rewrite query_run by done. split; reflexivity.
Qed.

Lemma session_sequences_pos sid d : events_ok d → Forall (λ s, 0 ≤ s)%Z (session_sequences sid d).
Proof.
  intros [_ Hp]. apply Forall_forall. intros x (e & -> & He)%list_elem_of_fmap.
  apply elem_of_select in He as [[i Hi] _]. eauto.
Qed.

Lemma ack_value_correct sid d : events_ok d → ack_correct (session_sequences sid d) (ack_value sid d).
Proof.
  intros Hok. pose proof (session_sequences_pos sid d Hok) as Hpos. destruct Hok as [Hu _].
  unfold ack_value. destruct (max_seq (session_sequences sid d)) as [m|] eqn:Hm.
  - destruct (contiguousAck_correct sid m (mkEnv QTx 0) (mkConn d false) (mkConn d false)
      (ack_loop m 0 (-1) (order_by Z.leb (filter (λ s, 0 ≤ s)%Z (session_sequences sid d)))))
      as [_ Hack]; done.
  - unfold max_seq in Hm. destruct (session_sequences sid d); [|done].
    unfold ack_correct. split_and!; [lia|lia|apply not_elem_of_nil].
Qed.

Lemma IngestSessionEvents_run sid evs now q c c' n :
  q_mode q ≠ QSavepoint → IngestSessionEvents sid evs now q c = (c', Ok n) → events_ok (cn_db c) →
  cn_aborted c' = false ∧ n = ack_value sid (cn_db c') ∧ events_ok (cn_db c') ∧
  db_events (cn_db c) ⊆ db_events (cn_db c') ∧
  Forall (λ ev, se_EventID ev ≠ "" ∧ (0 ≤ se_Sequence ev)%Z ∧ has_event (cn_db c') (se_EventID ev)) evs.
Proof.
  intros Hq Hrun0 Hok. apply WithTx_Ok in Hrun0 as (Hl & Hrun0 & Hl'); [|done].
  apply M_bind_Ok in Hrun0 as (c1 & [] & Hloop & Htail).
  fold (ack_tail sid now) in Htail.
  assert (cn_aborted c1 = false) as Hl1.
  { destruct (cn_aborted c1) eqn:E; [|done]. exfalso.
    unfold ack_tail in Htail. apply M_bind_Ok in Htail as (c2 & [] & Ht & _).
    apply stmt_Ok in Ht as [? _]. congruence. }
  destruct (ack_tail_run sid now (mkEnv QTx (q_now q)) c1 Hl1) as (c2 & Hrun & Hl2 & He2).
  rewrite Hrun in Htail. injection Htail as -> <-.
  destruct (ingest_loop_live sid now evs (mkEnv QTx (q_now q)) _ _ eq_refl Hloop Hl1 Hok) as (Hok1 & Hsub & Hall).
  split_and!; [done|done| | |].
  - unfold events_ok, unique_sequences in *. by rewrite He2.
  - by rewrite He2.
  - eapply Forall_impl; [exact Hall|]. unfold has_event. by rewrite He2.
Qed.

(** What a client may drop from its buffer.  When [IngestSessionEvents] accepts a
    batch (on the pool or in a transaction) the number it returns is the greatest
    [n] such that the session's sequences 0..n are all stored: none up to [n] is
    missing and [n + 1] is absent.  Every event of the batch is stored under its
    event id, no stored event is lost, and the table keeps its constraints. *)
Lemma IngestSessionEvents_ack sid evs now q c c' n :
  q_mode q ≠ QSavepoint → events_ok (cn_db c) →
  IngestSessionEvents sid evs now q c = (c', Ok n) →
  ack_correct (session_sequences sid (cn_db c')) n ∧
  Forall (λ ev, has_event (cn_db c') (se_EventID ev)) evs ∧
  db_events (cn_db c) ⊆ db_events (cn_db c') ∧ events_ok (cn_db c').
Proof.
  intros Hq Hok Hrun.
  destruct (IngestSessionEvents_run _ _ _ _ _ _ _ Hq Hrun Hok) as (_ & -> & Hok' & Hsub & Hall).
  split_and!; [by apply ack_value_correct| |done|done].
  eapply Forall_impl; [exact Hall|]. by intros ev (_ & _ & ?).
Qed.

(** Retrying a batch is safe.  After [IngestSessionEvents] has accepted a batch, a
    second call with the same batch, at any later time, succeeds, returns the same
    acknowledgement and leaves the event table as it is. *)
Lemma IngestSessionEvents_idempotent sid evs now q c c' n now2 q2 :
  q_mode q ≠ QSavepoint → q_mode q2 ≠ QSavepoint → events_ok (cn_db c) →
  IngestSessionEvents sid evs now q c = (c', Ok n) →
  ∃ c'', IngestSessionEvents sid evs now2 q2 c' = (c'', Ok n) ∧
         db_events (cn_db c'') = db_events (cn_db c').
Proof.
  intros Hq Hq2 Hok Hrun.
  destruct (IngestSessionEvents_run _ _ _ _ _ _ _ Hq Hrun Hok) as (Hl & -> & _ & _ & Hall).
  destruct (ack_tail_run sid now2 (mkEnv QTx (q_now q2)) c' Hl) as (c2 & Htail & Hl2 & He).
  exists c2. split; [|done]. apply WithTx_Ok; [done|]. split_and!; [done| |done].
  apply M_bind_Ok. exists c', tt. split; [by apply ingest_loop_again|].
  change (ack_tail sid now2 (mkEnv QTx (q_now q2)) c' = (c2, Ok (ack_value sid (cn_db c')))).
  rewrite Htail. unfold ack_value, session_sequences. by rewrite He.
Qed.

Lemma insertEvent_conflict sid ev now q c i o :
  cn_aborted c = false → events_ok (cn_db c) →
  db_events (cn_db c) !! i = Some o → ev_SessionID o = sid → ev_Sequence o = se_Sequence ev →
  ¬ has_event (cn_db c) (se_EventID ev) →
  insertEvent sid ev now q c
  = (mkConn (cn_db c) (bool_decide (q_mode q = QTx)), Err (ErrPg unique_violation)).
Proof.
  intros Hl [Hu Hp] Ho Hs Hseq Hno.
  assert (0 ≤ se_Sequence ev)%Z as Hpos by (rewrite <-Hseq; by eapply Hp).
  unfold insertEvent, stmt. rewrite Hl. cbn [event_row ev_Sequence ev_EventID ev_ID].
  rewrite bool_decide_true by done. cbn [negb].
  destruct (has_row _ _) eqn:Hrow.
  { exfalso. apply Hno. apply has_row_true in Hrow as (k & e & ? & ?%bool_decide_eq_true).
    by exists k, e. }
  replace (violation _ _) with (Some unique_violation); [done|]. symmetry.
  cbn [violation row_events]. unfold violation_event.
  cbn [event_row ev_Sequence ev_EventID ev_ID ev_SessionID].
  rewrite bool_decide_true, Hrow by done. cbn [first_violation negb].
  destruct (negb _); [|done].
  replace (has_row _ _) with true; [done|]. symmetry. apply has_row_true. exists i, o.
  by rewrite Hs, Hseq, !bool_decide_true.
Qed.

Lemma select_sequence sid seq d i o :
  unique_sequences d → db_events d !! i = Some o → ev_SessionID o = sid → ev_Sequence o = seq →
  select (λ e, bool_decide (ev_SessionID e = sid) && bool_decide (ev_Sequence e = seq)) (db_events d)
  = [o].
Proof.
  intros Hu Ho Hs Hseq. rewrite <-(insert_delete_id _ _ _ Ho).
  apply select_insert_single; [by rewrite lookup_delete_eq| |by rewrite Hs, Hseq, !bool_decide_true].
  apply filter_none, Forall_forall. intros x (j & Hj)%elem_of_rows.
  apply lookup_delete_Some in Hj as [Hij Hj].
  intros [Hx1%bool_decide_eq_true Hx2%bool_decide_eq_true]%andb_true_iff. apply Hij.
  eapply Hu; [exact Ho|exact Hj|congruence|congruence].
Qed.

(** A sequence number taken by another event.  The code means to answer
    [ErrConflict]; it does so only with the savepoint querier of the tests.  On the
    connection pool the failed INSERT has aborted the transaction, the look-up of
    the holder fails, the event is skipped, and the next statement returns the
    server's "current transaction is aborted" error (25P02) instead. *)
Lemma IngestSessionEvents_conflict sid ev now t c i o :
  cn_aborted c = false → events_ok (cn_db c) →
  db_events (cn_db c) !! i = Some o → ev_SessionID o = sid → ev_Sequence o = se_Sequence ev →
  se_EventID ev ≠ "" → ¬ has_event (cn_db c) (se_EventID ev) →
  IngestSessionEvents sid [ev] now (mkEnv QPool t) c = (c, Err (ErrPg "25P02")) ∧
  (IngestSessionEvents sid [ev] now (mkEnv QSavepoint t) c).2
  = Err (ErrConflict "sequence already held by another event").
Proof.
  intros Hl Hok Ho Hs Hseq Hne Hno.
  pose proof (λ q, insertEvent_conflict sid ev now q c i o Hl Hok Ho Hs Hseq Hno) as Hins.
  destruct Hok as [Hu _]. pose proof (select_sequence sid _ _ i o Hu Ho Hs Hseq) as Hsel.
  unfold IngestSessionEvents, WithTx. cbn [q_mode q_now]. rewrite Hl.
  cbn [for_M]. unfold ingestOne, mbind, M_bind, attempt. rewrite bool_decide_false by done.
  rewrite !Hins. cbn [q_mode]. rewrite !(bool_decide_true (unique_violation = _)) by done. split.
  - by destruct c.
  - unfold eventBySequence, mbind, M_bind. rewrite bool_decide_false by done.
    rewrite query_run by done. cbn [cn_db]. rewrite Hsel. cbn [exactly_one mret M_ret].
    rewrite bool_decide_false; [done|]. intros Heq. apply Hno. by exists i, o.
Qed.
End ingest.

(** ** Starting and resuming *)

Section start.
Context `{!Postgres}.

Definition is_client (deviceID clientID : string) (s : LearningSession) : bool :=
  bool_decide (ls_DeviceID s = deviceID) && bool_decide (ls_ClientSessionID s = clientID).

(** What lets a device work on an assignment: it is its student's, it is neither
    cancelled nor completed, and the runner can complete its revision. *)
Definition startable (d : database) (device : StudentDevice) (aid : string) (caps : gset string)
    (asg : StudentAssignment) : Prop :=
  db_assignments d !! aid = Some asg ∧ sa_StudentID asg = dv_StudentID device ∧
  sa_State asg ≠ AssignmentCancelled ∧ sa_State asg ≠ AssignmentCompleted ∧
  ∃ rev content, db_revisions d !! sa_ActivityRevisionID asg = Some rev ∧
    DecodeActivityContent (rv_Content rev) = Ok content ∧
    RejectIncompatibleRevision content caps = false.

Lemma readonly_sessionByClientID dev cid : readonly (sessionByClientID dev cid).
Proof. unfold sessionByClientID. eauto with primer. Qed.
Lemma readonly_openSession aid : readonly (openSessionForAssignment aid).
Proof. unfold openSessionForAssignment. eauto with primer. Qed.

Lemma sessionByClientID_res dev cid q c c' r :
  cn_aborted c = false → sessionByClientID dev cid q c = (c', r) →
  c' = c ∧ match r with
           | Ok s => select (is_client dev cid) (db_sessions (cn_db c)) = [s]
           | Err e => e = ErrNotFound → select (is_client dev cid) (db_sessions (cn_db c)) = []
           end.
Proof.
  intros Hl Hr. unfold sessionByClientID, mbind, M_bind in Hr. rewrite query_run in Hr by done.
  fold (is_client dev cid) in Hr. change (λ s, _ && _) with (is_client dev cid) in Hr.
  destruct (select _ _) as [|s [|? ?]]; injection Hr as <- <-; split; done.
Qed.

Lemma openSession_Ok aid q c c' s :
  openSessionForAssignment aid q c = (c', Ok s) →
  c' = c ∧ (∃ k, db_sessions (cn_db c) !! k = Some s) ∧ ls_AssignmentID s = aid ∧ session_open s = true.
Proof.
  unfold openSessionForAssignment. intros (c1 & l & H1 & H2)%M_bind_Ok.
  apply query_Ok in H1 as (_ & -> & ->). apply exactly_one_Ok in H2 as [-> Hs].
  assert (s ∈ take 1 (select (λ s, bool_decide (ls_AssignmentID s = aid) && session_open s)
                             (db_sessions (cn_db c)))) as Hin by (rewrite Hs; left).
  apply elem_of_take in Hin as (i & Hi & _). apply list_elem_of_lookup_2 in Hi.
  apply elem_of_select in Hi as [Hk [Ha%bool_decide_eq_true Ho]%andb_true_iff]. done.
Qed.

Lemma checkCompatible_Ok m caps q c c' :
  checkCompatible m caps q c = (c', Ok tt) →
  c' = c ∧ ∃ content, DecodeActivityContent m = Ok content ∧
                      RejectIncompatibleRevision content caps = false.
Proof.
  unfold checkCompatible, decodeContent. intros (c1 & content & H1 & H2)%M_bind_Ok.
  destruct (DecodeActivityContent m) as [ct|]; [|done]. injection H1 as <- <-.
  destruct (RejectIncompatibleRevision ct caps) eqn:E; [done|]. injection H2 as <-. eauto.
Qed.

Lemma startNewSession_live device cid aid asg now q c c' s :
  q_mode q = QTx → startNewSession device cid aid asg now q c = (c', Ok s) →
  cn_aborted c' = false →
  ∃ k t, s = mkLearningSession k aid (dv_StudentID device) (dv_ID device) cid
             (sa_ActivityRevisionID asg) SessionStarted now None None 0 "" t t ∧
    db_sessions (cn_db c) !! k = None ∧ db_sessions (cn_db c') = <[k := s]> (db_sessions (cn_db c)).
Proof.
  intros Hq Hr Hl. unfold startNewSession in Hr. apply M_bind_Ok in Hr as (c1 & r & H1 & H2).
  apply attempt_inv in H1. destruct r as [sess|e].
  - apply Create_Ok in H1 as (Hs & Hd & _ & _ & Hl1). cbn in Hd.
    eexists _, _. assert (sess = s) as <- by by (case_bool_decide; m_inv).
    split_and!; [exact Hs|exact (Create_fresh (A:=LearningSession) (cn_db c))|].
    assert (db_sessions (cn_db c1) = <[ls_ID sess := sess]> (db_sessions (cn_db c))) as Hd1
      by by rewrite Hd.
    rewrite Hs in Hd1 at 1. cbn [ls_ID] in Hd1. rewrite <-Hd1.
    revert H2. case_bool_decide; intros H2; [|by injection H2 as <-].
    apply M_bind_Ok in H2 as (c2 & a & H2 & H3). injection H3 as <-.
    by apply Update_Ok in H2 as (x & _ & _ & -> & _).
  - exfalso. apply Create_Err_aborted in H1; [|done].
    eapply sticky_live in H2; [congruence| |done].
    apply sticky_bind; [apply sticky_attempt, sticky_readonly, readonly_sessionByClientID|].
    intros [x|]; [by apply sticky_readonly|].
    apply sticky_bind; [apply sticky_attempt, sticky_readonly, readonly_openSession|].
    intros [x|]; by apply sticky_readonly.
Qed.

(** A successful call: found by client id, or the open session of a startable
    assignment, or a new one. *)
Lemma StartOrResumeSession_cases device cid aid now capl q c c' s :
  q_mode q ≠ QSavepoint → StartOrResumeSession device cid aid now capl q c = (c', Ok s) →
  cn_aborted c = false ∧ cn_aborted c' = false ∧
  (c' = c ∧ select (is_client (dv_ID device) cid) (db_sessions (cn_db c)) = [s] ∨
   ∃ asg, startable (cn_db c) device aid (list_to_set (filter (λ x, x ≠ "") capl)) asg ∧
     select (is_client (dv_ID device) cid) (db_sessions (cn_db c)) = [] ∧
     (c' = c ∧ (∀ q', openSessionForAssignment aid q' c = (c, Ok s)) ∨
      ∃ k t, s = mkLearningSession k aid (dv_StudentID device) (dv_ID device) cid
             (sa_ActivityRevisionID asg) SessionStarted now None None 0 "" t t ∧
        db_sessions (cn_db c) !! k = None ∧
        db_sessions (cn_db c') = <[k := s]> (db_sessions (cn_db c)))).
Proof.
  intros Hq Hr. apply WithTx_Ok in Hr as (Hl & Hr & Hl'); [|done]. split_and!; [done|done|].
  apply M_bind_Ok in Hr as (c1 & r & H1 & H2). apply attempt_inv in H1.
  apply sessionByClientID_res in H1 as [-> Hsel]; [|done].
  destruct r as [s0|e]; [injection H2 as <- <-; by left|].
  destruct e; try done. specialize (Hsel eq_refl). right.
  apply M_bind_Ok in H2 as (c1 & asg & H1 & H2). apply Get_Ok in H1 as (_ & -> & Hasg).
  destruct (bool_decide_reflect (sa_StudentID asg = dv_StudentID device)); [|done]. cbn [negb] in H2.
  case_bool_decide as Hx1; [done|]. case_bool_decide as Hx2; [done|].
  apply M_bind_Ok in H2 as (c1 & rev & H1 & H2). apply Get_Ok in H1 as (_ & -> & Hrev).
  apply M_bind_Ok in H2 as (c1 & [] & H1 & H2).
  apply checkCompatible_Ok in H1 as (-> & content & Hdec & Hrej).
  exists asg. split_and!; [|done|].
  { split_and!; try done. by exists rev, content. }
  apply M_bind_Ok in H2 as (c1 & r & H1 & H2). apply attempt_inv in H1.
  pose proof (readonly_conn _ _ _ _ _ (readonly_openSession aid) H1) as ->.
  destruct r as [s0|e0].
  - injection H2 as <- <-. left. split; [done|]. intros q'. rewrite <-H1.
    unfold openSessionForAssignment, mbind, M_bind. rewrite !query_run by done.
    by destruct (take _ _) as [|? [|? ?]].
  - destruct e0; try done. right. eapply startNewSession_live; [|exact H2|done]. done.
Qed.

(** Who may work.  A session handed out by [StartOrResumeSession] is stored and is
    either the one this device opened before under the same client session id, or
    an open session of the assignment asked for; in the second case the assignment
    belongs to the device's student, is neither cancelled nor completed, and its
    revision can be completed with the capabilities the runner reported. *)
Lemma StartOrResumeSession_authorized device cid aid now capl q c c' s :
  q_mode q ≠ QSavepoint → StartOrResumeSession device cid aid now capl q c = (c', Ok s) →
  (∃ k, db_sessions (cn_db c') !! k = Some s) ∧
  (c' = c ∧ ls_DeviceID s = dv_ID device ∧ ls_ClientSessionID s = cid ∨
   ls_AssignmentID s = aid ∧ session_open s = true ∧
   ∃ asg, startable (cn_db c) device aid (list_to_set (filter (λ x, x ≠ "") capl)) asg).
Proof.
  intros Hq Hr. apply StartOrResumeSession_cases in Hr as (_ & _ & Hr); [|done].
  destruct Hr as [(-> & Hsel)|(asg & Hst & _ & [(-> & Hopen)|(k & t & Hs & _ & Hd)])].
  - assert (s ∈ select (is_client (dv_ID device) cid) (db_sessions (cn_db c))) as Hin
      by (rewrite Hsel; left).
    apply elem_of_select in Hin as [Hk [Hd%bool_decide_eq_true Hc%bool_decide_eq_true]%andb_true_iff].
    split; [done|]. by left.
  - specialize (Hopen q). apply openSession_Ok in Hopen as (_ & ? & ? & ?). split; [done|]. right. eauto.
  - split; [exists k; by rewrite Hd, lookup_insert_eq|]. right. subst s. eauto.
Qed.

Lemma StartOrResumeSession_again device cid aid now capl q c s :
  q_mode q ≠ QSavepoint → cn_aborted c = false →
  select (is_client (dv_ID device) cid) (db_sessions (cn_db c)) = [s] →
  StartOrResumeSession device cid aid now capl q c = (c, Ok s).
Proof.
  intros Hq Hl Hsel. apply WithTx_Ok; [done|]. split_and!; [done| |done].
  apply M_bind_Ok. exists c, (Ok s). split; [|done]. apply attempt_run.
  unfold sessionByClientID. apply M_bind_Ok. exists c, [s]. split; [|done].
  apply query_Ok. split_and!; [done|done|]. by rewrite <-Hsel.
Qed.

Lemma StartOrResumeSession_resume device cid aid now capl q c s asg :
  q_mode q ≠ QSavepoint → cn_aborted c = false →
  select (is_client (dv_ID device) cid) (db_sessions (cn_db c)) = [] →
  startable (cn_db c) device aid (list_to_set (filter (λ x, x ≠ "") capl)) asg →
  (∀ q', openSessionForAssignment aid q' c = (c, Ok s)) →
  StartOrResumeSession device cid aid now capl q c = (c, Ok s).
Proof.
  intros Hq Hl Hsel (Hasg & Hst & Hnc & Hnd & rev & content & Hrev & Hdec & Hrej) Hopen.
  apply WithTx_Ok; [done|]. split_and!; [done| |done].
  apply M_bind_Ok. exists c, (Err ErrNotFound). split.
  { apply attempt_run. unfold sessionByClientID, mbind, M_bind. rewrite query_run by done.
    change (λ s, _ && _) with (is_client (dv_ID device) cid). by rewrite Hsel. }
  apply M_bind_Ok. exists c, asg. split; [by apply Get_run|].
  rewrite bool_decide_true by done. cbn [negb]. rewrite !bool_decide_false by done.
  apply M_bind_Ok. exists c, rev. split; [by apply Get_run|].
  apply M_bind_Ok. exists c, tt. split.
  { unfold checkCompatible, decodeContent. rewrite Hdec.
    apply M_bind_Ok. exists c, content. split; [done|]. by rewrite Hrej. }
  apply M_bind_Ok. exists c, (Ok s). split; [by apply attempt_run|done].
Qed.

(** Retrying a start is safe.  After [StartOrResumeSession] has returned a session,
    the same call again, at any later time, returns the same session and changes
    nothing. *)
Lemma StartOrResumeSession_idempotent device cid aid now capl q c c' s now2 q2 :
  q_mode q ≠ QSavepoint → q_mode q2 ≠ QSavepoint →
  StartOrResumeSession device cid aid now capl q c = (c', Ok s) →
  StartOrResumeSession device cid aid now2 capl q2 c' = (c', Ok s).
Proof.
  intros Hq Hq2 Hr. apply StartOrResumeSession_cases in Hr as (Hl & Hl' & Hr); [|done].
  destruct Hr as [(-> & Hsel)|(asg & Hst & Hsel & [(-> & Hopen)|(k & t & Hs & Hk & Hd)])].
  - by apply StartOrResumeSession_again.
  - by eapply StartOrResumeSession_resume.
  - apply StartOrResumeSession_again; [done|done|]. rewrite Hd.
    apply select_insert_single; [done|done|].
    subst s. unfold is_client. cbn. by rewrite !bool_decide_true.
Qed.
End start.

(** ** Witnesses *)

#[local] Existing Instance sample_postgres.

Lemma w_events_ok : events_ok w_db.
Proof.
  split; [intros i j e e' Hi|intros i e Hi].
  all: change (db_events w_db) with (∅ : gmap string LearningSessionEvent) in Hi.
  all: by rewrite lookup_empty in Hi.
Qed.

Lemma IngestSessionEvents_ack_witness :
  ack_correct (session_sequences "ss1" (cn_db
    (IngestSessionEvents "ss1" [w_event "e0" 0; w_event "e1" 1; w_event "e3" 3] 50 w_pool w_conn).1)) 1.
Proof.
  eapply (IngestSessionEvents_ack "ss1" [w_event "e0" 0; w_event "e1" 1; w_event "e3" 3] 50 w_pool w_conn).
  - done.
  - exact w_events_ok.
  - vm_compute. reflexivity.
Defined.

Lemma IngestSessionEvents_idempotent_witness :
  ∃ c, IngestSessionEvents "ss1" [w_event "e0" 0] 60 (mkEnv QPool 200)
         (IngestSessionEvents "ss1" [w_event "e0" 0] 50 w_pool w_conn).1 = (c, Ok 0%Z).
Proof.
  edestruct (IngestSessionEvents_idempotent "ss1" [w_event "e0" 0] 50 w_pool w_conn
    (IngestSessionEvents "ss1" [w_event "e0" 0] 50 w_pool w_conn).1 0%Z 60 (mkEnv QPool 200))
    as (c & Hc & _); [done|done|exact w_events_ok|vm_compute; reflexivity|by exists c].
Defined.

Definition w_conflict_conn : conn := (IngestSessionEvents "ss1" [w_event "e0" 0] 50 w_pool w_conn).1.

Lemma IngestSessionEvents_conflict_witness :
  IngestSessionEvents "ss1" [w_event "e9" 0] 60 (mkEnv QPool 200) w_conflict_conn
  = (w_conflict_conn, Err (ErrPg "25P02")).
Proof.
  edestruct (IngestSessionEvents_conflict "ss1" (w_event "e9" 0) 60 200 w_conflict_conn "0") as [Hc _].
  - vm_compute. reflexivity.
  - assert (db_events (cn_db w_conflict_conn) = {["0" := event_row "ss1" (w_event "e0" 0) 50 "0"]})
      as He by (vm_compute; reflexivity).
    split; unfold unique_sequences; rewrite He.
    + intros i j e e' [<- _]%lookup_singleton_Some [<- _]%lookup_singleton_Some. done.
    + intros i e [_ <-]%lookup_singleton_Some. done.
  - vm_compute. reflexivity.
  - reflexivity.
  - reflexivity.
  - done.
  - intros (i & e & Hi & He).
    assert (db_events (cn_db w_conflict_conn) = {["0" := event_row "ss1" (w_event "e0" 0) 50 "0"]})
      as Hev by (vm_compute; reflexivity).
    rewrite Hev in Hi. apply lookup_singleton_Some in Hi as [_ <-]. done.
  - exact Hc.
Defined.

Lemma StartOrResumeSession_authorized_witness :
  ∃ asg, startable w_db w_device "as2" ∅ asg.
Proof.
  edestruct (StartOrResumeSession_authorized w_device "client-9" "as2" 70 [] w_pool w_conn
    (StartOrResumeSession w_device "client-9" "as2" 70 [] w_pool w_conn).1)
    as [_ [(Hc & _)|(_ & _ & Hs)]].
  - done.
  - vm_compute. reflexivity.
  - exfalso. apply (f_equal (λ c, size (db_sessions (cn_db c)))) in Hc. vm_compute in Hc. done.
  - exact Hs.
Defined.

Lemma StartOrResumeSession_idempotent_witness :
  (StartOrResumeSession w_device "client-9" "as2" 99 [] (mkEnv QPool 500)
     (StartOrResumeSession w_device "client-9" "as2" 70 [] w_pool w_conn).1).1
  = (StartOrResumeSession w_device "client-9" "as2" 70 [] w_pool w_conn).1.
Proof.
  erewrite (StartOrResumeSession_idempotent w_device "client-9" "as2" 70 [] w_pool w_conn _ _ 99
    (mkEnv QPool 500)).
  - reflexivity.
  - done.
  - done.
  - vm_compute. reflexivity.
Defined.
