(* ===== verification/Mastery.v ===== *)
(** * Mastery updates ([server/internal/mastery/apply.go])

    How accepted evidence moves a student's mastery of a standard: the completion
    of a session, a conceptual response, a parent's attestation.  Clients never set
    a status or a confidence; both are derived here, limited by the evidence policy
    of the revision-standard link. *)
From S2P Require Import Prelude GoStrings Float64 Contracts ContentJson LmsData LmsDb Sample Sessions.
From stdpp Require Import options.
Local Open Scope string_scope.
Local Open Scope list_scope.

Definition ConfidenceBump : f64 := f64_lit 35 100.
Definition MasteredThreshold : f64 := f64_lit 8 10.
Definition ApproachingThreshold : f64 := f64_lit 45 100.

(** ** The status ladder *)

Definition statusRank (s : string) : Z :=
  if one_of s ["not_introduced"; ""] then 0
  else if bool_decide (s = "in_progress") then 1
  else if bool_decide (s = "approaching") then 2
  else if bool_decide (s = "mastered") then 3
  else 0.

Definition statusFor (from : string) (conf : f64) (role : string) : string :=
  if fle MasteredThreshold conf then "mastered"
  else if fle ApproachingThreshold conf then "approaching"
  else if bool_decide (from = "not_introduced") || bool_decide (from = "") then "in_progress"
  else if bool_decide (role = StandardRoleReinforcement) && bool_decide (from = "mastered")
       then "mastered"
  else if bool_decide (from = "mastered") && flt conf MasteredThreshold then "approaching"
  else "in_progress".

Definition bump_for (weight : f64) : f64 :=
  let bump := fmul ConfidenceBump weight in
  if fle bump fzero then ConfidenceBump else bump.

Definition proposedStatus (from : string) (fromConf : f64) (role : string) (weight : f64)
  : string * f64 :=
  let newConf := clamp01 (fadd fromConf (bump_for weight)) in
  (statusFor from newConf role, newConf).

Definition confForStatus (status : string) (fromConf weight : f64) : f64 :=
  let bump := bump_for weight in
  if bool_decide (status = "in_progress") then
    if flt fzero fromConf then clamp01 (fadd fromConf (fmul bump (f64_lit 1 4)))
    else clamp01 (f64_lit 2 10)
  else if bool_decide (status = "approaching") then clamp01 (maxFloat fromConf ApproachingThreshold)
  else if bool_decide (status = "mastered") then clamp01 (maxFloat fromConf MasteredThreshold)
  else fromConf.

Definition missingForStatus (status : string) (accepted : list string) (policy : EvidencePolicy)
  : list string :=
  if bool_decide (status = "") || bool_decide (status = "not_introduced") then []
  else match ep_StatusRequirements policy !! status with
       | None => []
       | Some req => filter (λ need, need ∉ accepted) req
       end.

Definition status_order : list string := ["in_progress"; "approaching"; "mastered"].

(** The loop of [highestAllowedStatus]: the allowed status, the evidence missing at
    the first status that is not allowed, and whether none was missing. *)
Fixpoint allowed_loop (order : list string) (fromRank candRank : Z) (accepted : list string)
    (policy : EvidencePolicy) (allowed : string) : string * list string * bool :=
  match order with
  | [] => (allowed, [], true)
  | st :: rest =>
      let r := statusRank st in
      if bool_decide (r ≤ fromRank)%Z then allowed_loop rest fromRank candRank accepted policy allowed
      else if bool_decide (candRank < r)%Z then (allowed, [], true)
      else match missingForStatus st accepted policy with
           | [] => allowed_loop rest fromRank candRank accepted policy st
           | miss => (allowed, miss, false)
           end
  end.

Definition highestAllowedStatus (from candidate : string) (accepted : list string)
    (policy : EvidencePolicy) : string * list string * bool :=
  let candRank := statusRank candidate in
  let start := if bool_decide (from = "") then "not_introduced" else from in
  let '(allowed, missing, sat) :=
    allowed_loop status_order (statusRank from) candRank accepted policy start in
  let below := bool_decide (statusRank allowed < candRank)%Z in
  let missing := if below then match missing with
                               | [] => missingForStatus candidate accepted policy
                               | m => m
                               end else missing in
  let sat := if below then false else sat in
  (allowed, missing, sat && bool_decide (allowed = candidate)).

Definition nextUnsatisfiedStatus (current : string) (accepted : list string)
    (policy : EvidencePolicy) : string :=
  default "" (head (filter (λ st, (statusRank current < statusRank st)%Z ∧
                                  missingForStatus st accepted policy ≠ []) status_order)).

Definition addClass (classes : list string) (c : string) : list string :=
  if bool_decide (c ∈ classes) then classes else classes ++ [c].

(** The new status and confidence: the code shared by the three handlers. *)
Definition advance (from : string) (fromConf : f64) (candidate : string) (candConf : f64)
    (allowed : string) (weight : f64) : string * f64 :=
  if bool_decide (statusRank from < statusRank allowed)%Z then
    if bool_decide (statusRank candidate ≤ statusRank allowed)%Z then (candidate, candConf)
    else (allowed, confForStatus allowed fromConf weight)
  else if bool_decide (statusRank candidate ≤ statusRank allowed)%Z && flt fromConf candConf
       then (candidate, candConf)
  else (from, fromConf).

Definition changed (from : string) (fromConf : f64) (new : string * f64) : bool :=
  negb (bool_decide (new.1 = from)) || negb (feq new.2 fromConf).

(** ** Checks on the request *)

Definition requiredCheck (byID : gmap string Observation) (check : Check) : result err unit :=
  if ck_Optional check then Ok tt
  else match byID !! ck_ID check with
       | Some o => if ob_Passed o then Ok tt
                   else Err (ErrBadRequest ("required check not passed: " +:+ ck_ID check))
       | None => Err (ErrBadRequest ("required check not passed: " +:+ ck_ID check))
       end.

Definition requiredTask (byID : gmap string Observation) (task : Task) : result err unit :=
  if tk_Optional task then Ok tt
  else if evalTree (tk_Completion task) byID then Ok tt
  else Err (ErrBadRequest ("task completion requirements not met: " +:+ tk_ID task)).

Definition validateRequiredChecks (content : ActivityContent) (obs : list Observation)
  : result err unit :=
  let byID := index_by ob_CheckID obs in
  _ ← for_each (requiredCheck byID) (ac_Checks content);
  for_each (requiredTask byID) (ac_Tasks content).

Definition untrusted_sources : list string := ["pty-shell"; "synthetic-pty"; "screen"].
Definition trusted_sources : list string :=
  ["structured"; "structured_command"; "command_instrumentation"; "observe-bash"; "process-wait"].

Definition normal_source (details : jmap) : option string :=
  (λ v, ToLower (TrimSpace v)) <$> jget_str details "source".

Definition source_in (details : jmap) (l : list string) : bool :=
  match normal_source details with Some s => one_of s l | None => false end.

Definition observationHasStructuredCommandEvidence (o : Observation) : bool :=
  match ob_Details o with
  | None => false
  | Some d =>
      if source_in d untrusted_sources then false
      else if bool_decide (jget_bool d "structuredCommandEvidence" = Some true) then
        source_in d trusted_sources
      else if bool_decide (jget_str d "capability" = Some CapStructuredCommandEvidence) then
        if source_in d trusted_sources then true
        else if source_in d untrusted_sources then false
        else true
      else source_in d trusted_sources
  end.

Definition validateObservationCapabilities (content : ActivityContent) (obs : list Observation)
  : result err unit :=
  let byID := index_by ck_ID (ac_Checks content) in
  for_each (λ o,
    if negb (ob_Passed o) || ob_Optional o then Ok tt
    else match byID !! ob_CheckID o with
         | None => Ok tt
         | Some check =>
             if negb (RequiresStructuredCommandEvidence (ck_Kind check)) then Ok tt
             else if observationHasStructuredCommandEvidence o then Ok tt
             else Err (ErrBadRequest
                         ("required check needs structured command evidence: " +:+ ck_ID check))
         end) obs.

Definition primaryCheckID (content : ActivityContent) (obs : list Observation) : string :=
  match filter (λ c, ck_Optional c = false) (ac_Checks content) with
  | c :: _ => ck_ID c
  | [] => match obs with o :: _ => ob_CheckID o | [] => "unknown" end
  end.

Definition standardEligibleForActivity (kind code : string) : bool :=
  let isTyping := Contains code ".TYPE." in
  if bool_decide (kind = KindTyping) then isTyping
  else if bool_decide (kind = KindTerminal) then negb isTyping
  else true.

Definition policyFromLink (link : LearningActivityRevisionStandard) (kind : string)
  : EvidencePolicy :=
  match ParseEvidencePolicy (lk_EvidencePolicy link) with
  | Some p => p
  | None => if bool_decide (kind = KindTyping) then DefaultTypingEvidencePolicy
            else DefaultTerminalEvidencePolicy
  end.

(** [repo.ListRevisionStandards]: [ORDER BY role, created_at] *)
Definition ListRevisionStandards (revisionID : string)
  : M (list LearningActivityRevisionStandard) :=
  query (λ d,
    order_by (λ a b, str_lt (lk_Role a) (lk_Role b) ||
                     (bool_decide (lk_Role a = lk_Role b) && Z.leb (lk_CreatedAt a) (lk_CreatedAt b)))
      (select (λ l, bool_decide (lk_ActivityRevisionID l = revisionID)) (db_links d))).

(** ** Database steps *)

Definition record_of (studentID standardID : string) (r : MasteryRecord) : bool :=
  bool_decide (mr_StudentID r = studentID) && bool_decide (mr_StandardID r = standardID).

Definition selectMastery (studentID standardID : string) : M MasteryRecord :=
  r ← query (λ d, select (record_of studentID standardID) (db_mastery_records d));
  exactly_one r.

Definition evidence_of (recordID sourceRef : string) (e : MasteryEvidence) : bool :=
  bool_decide (me_MasteryRecordID e = recordID) && bool_decide (me_SourceRef e = sourceRef).

(** Days since the epoch, the session time zone being UTC. *)
Definition date_of (now : Z) : Z := Z.div now 86400000000000.

Definition listAcceptedEvidenceClasses (masteryRecordID : string) : M (list string) :=
  query (λ d,
    order_by str_le (remove_dups (me_EvidenceClass <$>
      select (λ e, bool_decide (me_MasteryRecordID e = masteryRecordID) &&
                   negb (Contains (ToLower (me_Context e)) "superseded by parent"))
        (db_mastery_evidence d)))).

Section mastery.
Context `{!Postgres}.

Definition upsertMasteryRecord (studentID standardID : string) : M (MasteryRecord * bool) :=
  r ← attempt (selectMastery studentID standardID);
  match r with
  | Ok rec => mret (rec, false)
  | Err ErrNotFound =>
      created ← attempt (Create (λ id now,
        mkMasteryRecord id studentID standardID "not_introduced" fzero (f64_lit 2 100)
          None None None now now));
      match created with
      | Ok rec => mret (rec, true)
      | Err e =>
          r2 ← attempt (selectMastery studentID standardID);
          match r2 with Ok rec2 => mret (rec2, false) | Err _ => throw e end
      end
  | Err e => throw e
  end.

Definition evidence_row (id recordID sourceRef evidenceClass : string) (provenance : jmap)
    (policyVersion now : Z) (sessionID checkID : string) (dbnow : Z) : MasteryEvidence :=
  mkMasteryEvidence id recordID "continuous" evidenceClass provenance policyVersion "" (date_of now)
    ("session=" +:+ sessionID +:+ " check=" +:+ checkID +:+ " class=" +:+ evidenceClass)
    sourceRef dbnow dbnow.

(** [INSERT ... ON CONFLICT (mastery_record_id, source_ref) WHERE source_ref <> ''
    DO NOTHING RETURNING id] *)
Definition tryInsertEvidence (recordID sourceRef evidenceClass : string) (provenance : jmap)
    (policyVersion now : Z) (sessionID checkID : string) : M (option string) := λ q c,
  stmt (λ d,
    let x := evidence_row (gen_random_uuid (dom (db_mastery_evidence d))) recordID sourceRef
               evidenceClass provenance policyVersion now sessionID checkID (q_now q) in
    if has_row (λ e, negb (bool_decide (sourceRef = "")) && evidence_of recordID sourceRef e)
         (db_mastery_evidence d) then Ok (d, None)
    else match violation d x with
         | Some code => Err code
         | None => Ok (set_mastery_evidence (<[me_ID x := x]> (db_mastery_evidence d)) d,
                       Some (me_ID x))
         end) q c.

Definition insertEvidence (recordID sourceRef evidenceClass : string) (provenance : jmap)
    (policyVersion now : Z) (sessionID checkID : string) : M (string * bool) :=
  r ← tryInsertEvidence recordID sourceRef evidenceClass provenance policyVersion now sessionID checkID;
  match r with
  | Some newID => mret (newID, true)
  | None =>
      ids ← query (λ d, me_ID <$> select (evidence_of recordID sourceRef) (db_mastery_evidence d));
      match ids with
      | id :: _ => mret (id, false)
      | [] => throw (ErrGo "select existing evidence")
      end
  end.

Definition record_set_aggregate (status : string) (confidence : f64) (now dbnow : Z)
    (r : MasteryRecord) : MasteryRecord :=
  mkMasteryRecord (mr_ID r) (mr_StudentID r) (mr_StandardID r) status (numeric_4_3 confidence)
    (mr_DecayRate r) (Some now) (Some now) (mr_NextReinforcementAt r) (mr_CreatedAt r) dbnow.

Definition updateMasteryAggregate (id status : string) (confidence : f64) (now : Z) : M unit := λ q c,
  stmt (λ d,
    match db_mastery_records d !! id with
    | None => Ok (d, tt)
    | Some r =>
        let r' := record_set_aggregate status confidence now (q_now q) r in
        match violation (set_mastery_records (delete id (db_mastery_records d)) d) r' with
        | Some code => Err code
        | None => Ok (set_mastery_records (<[id := r']> (db_mastery_records d)) d, tt)
        end
    end) q c.

(** ** Completing a session *)

Definition completion_provenance (session : LearningSession) (device : StudentDevice)
    (rev : LearningActivityRevision) (act : LearningActivity) (primaryCheck : string)
    (std : Standard) (link : LearningActivityRevisionStandard) : jmap :=
  list_to_map [
    ("sessionId", JStr (ls_ID session)); ("assignmentId", JStr (ls_AssignmentID session));
    ("revisionId", JStr (rv_ID rev)); ("checkId", JStr primaryCheck);
    ("deviceId", JStr (dv_ID device)); ("activityKind", JStr (la_Kind act));
    ("evidenceClass", JStr EvidenceProceduralContinuous); ("standardCode", JStr (sd_Code std));
    ("role", JStr (lk_Role link))].

Definition completion_ref (session : LearningSession) (primaryCheck : string) (std : Standard)
  : string :=
  "student-client:" +:+ ls_ID session +:+ ":" +:+ primaryCheck +:+ ":" +:+ sd_ID std.

Definition transition (std : Standard) (rec : MasteryRecord) (to : string) (conf : f64)
    (reason : string) (accepted missing : list string) (satisfied statusChanged : bool)
  : MasteryTransition :=
  mkTransition (sd_Code std) (mr_Status rec) to conf reason EvidenceProceduralContinuous accepted
    missing satisfied statusChanged.

(** The update of the aggregate and the transition of a newly recorded evidence. *)
Definition recordTransition (std : Standard) (rec : MasteryRecord)
    (link : LearningActivityRevisionStandard) (policy : EvidencePolicy) (accepted : list string)
    (now : Z) : M MasteryTransition :=
  let from := mr_Status rec in
  let fromConf := mr_Confidence rec in
  let '(candidate, candConf) := proposedStatus from fromConf (lk_Role link) (lk_Weight link) in
  let '(allowed, missing, _) := highestAllowedStatus from candidate accepted policy in
  let new := advance from fromConf candidate candConf allowed (lk_Weight link) in
  let satisfied := bool_decide (missingForStatus candidate accepted policy = []) in
  if changed from fromConf new then
    _ ← updateMasteryAggregate (mr_ID rec) new.1 new.2 now;
    mret (transition std rec new.1 new.2 "student-client completion" accepted
            (missingForStatus (nextUnsatisfiedStatus new.1 accepted policy) accepted policy)
            satisfied true)
  else
    let missing := match missing with
                   | [] => missingForStatus candidate accepted policy
                   | m => m
                   end in
    mret (transition std rec from fromConf "evidence recorded; policy limits mastery transition"
            accepted missing satisfied false).

(** The body of the loop over the links: the evidence ids and the transitions grow. *)
Definition applyCompletionLink (session : LearningSession) (device : StudentDevice)
    (rev : LearningActivityRevision) (act : LearningActivity) (primaryCheck : string) (now : Z)
    (link : LearningActivityRevisionStandard) (acc : list string * list MasteryTransition)
  : M (list string * list MasteryTransition) :=
  std ← (Get (lk_StandardID link) : M Standard);
  if negb (standardEligibleForActivity (la_Kind act) (sd_Code std)) then mret acc
  else
    let policy := policyFromLink link (la_Kind act) in
    up ← upsertMasteryRecord (ls_StudentID session) (lk_StandardID link);
    let rec := up.1 in
    insertEvidence (mr_ID rec) (completion_ref session primaryCheck std)
      EvidenceProceduralContinuous
      (completion_provenance session device rev act primaryCheck std link)
      (ep_Version policy) now (ls_ID session) primaryCheck ≫= λ ev : string * bool,
    classes ← listAcceptedEvidenceClasses (mr_ID rec);
    let inserted := ev.2 in
    let accepted := if inserted then addClass classes EvidenceProceduralContinuous else classes in
    if inserted then
      tr ← recordTransition std rec link policy accepted now;
      mret (acc.1 ++ [ev.1], acc.2 ++ [tr])
    else
      let from := mr_Status rec in
      let '(candidate, _) := proposedStatus from (mr_Confidence rec) (lk_Role link) (lk_Weight link) in
      let '(allowed, missing, sat) := highestAllowedStatus from candidate accepted policy in
      mret (acc.1 ++ [ev.1],
            acc.2 ++ [transition std rec from (mr_Confidence rec) "already recorded" accepted missing
                        (sat && bool_decide (allowed = candidate)) false]).

Definition cancelled_result (session : LearningSession) (req : CompletionRequest)
  : CompletionResult :=
  mkCompletionResult CompletionSchemaVersion (cr_CompletionID req) false (cr_RequestDigest req)
    (cr_Observations req) [] []
    (Some (mkAssignmentCompletion (ls_AssignmentID session) (ls_ID session) AssignmentCancelled
             "cancelled-after-work")) []
    "assignment cancelled; evidence retained for parent review (cancelled-after-work)".

Definition accepted_result (session : LearningSession) (req : CompletionRequest) (summary : string)
    (acc : list string * list MasteryTransition) : CompletionResult :=
  mkCompletionResult CompletionSchemaVersion (cr_CompletionID req) true (cr_RequestDigest req)
    (cr_Observations req) acc.1 acc.2
    (Some (mkAssignmentCompletion (ls_AssignmentID session) (ls_ID session) AssignmentCompleted
             summary)) acc.2 "accepted".

(** The part of [ApplyCompletion] after the idempotency checks. *)
Definition acceptCompletion (device : StudentDevice) (session : LearningSession)
    (req : CompletionRequest) (now : Z) : M CompletionResult :=
  rev ← GetRevision (ls_ActivityRevisionID session);
  act ← (Get (rv_ActivityID rev) : M LearningActivity);
  content ← decodeContent (rv_Content rev);
  _ ← of_result (validateRequiredChecks content (cr_Observations req));
  _ ← of_result (validateObservationCapabilities content (cr_Observations req));
  links ← ListRevisionStandards (rv_ID rev);
  let primaryCheck := primaryCheckID content (cr_Observations req) in
  acc ← for_M (applyCompletionLink session device rev act primaryCheck now) links ([], []);
  let summary := if bool_decide (cr_Summary req = "") then "completed" else cr_Summary req in
  let result := accepted_result session req summary acc in
  _ ← InsertCompletion (ls_ID session) (cr_CompletionID req) (cr_RequestDigest req) result;
  _ ← MarkSessionCompleted session summary now;
  mret result.

Definition openCompletion (device : StudentDevice) (session : LearningSession)
    (req : CompletionRequest) (now : Z) : M CompletionResult :=
  if one_of (ls_State session) [SessionCompleted; SessionAbandoned] then
    throw (ErrBadRequest "session is not active")
  else
    asg ← (Get (ls_AssignmentID session) : M StudentAssignment);
    if negb (bool_decide (sa_StudentID asg = dv_StudentID device)) then throw ErrNotFound
    else if bool_decide (sa_State asg = AssignmentCancelled) then
      let result := cancelled_result session req in
      _ ← InsertCompletion (ls_ID session) (cr_CompletionID req) (cr_RequestDigest req) result;
      mret result
    else acceptCompletion device session req now.

(** The function [ApplyCompletion] runs in its transaction. *)
Definition completionTx (device : StudentDevice) (sessionID : string) (req : CompletionRequest)
    (now : Z) : M CompletionResult :=
  session ← GetSession sessionID;
  if negb (bool_decide (ls_StudentID session = dv_StudentID device)) then throw ErrNotFound
  else
    byID ← attempt (GetCompletionByID (cr_CompletionID req));
    match byID with
    | Ok existing =>
        if negb (bool_decide (lc_RequestDigest existing = cr_RequestDigest req)) then
          throw (ErrConflict "completion id reused with different digest")
        else CompletionResultFromRow existing
    | Err ErrNotFound =>
        bySession ← attempt (GetCompletionBySession sessionID);
        match bySession with
        | Ok existing =>
            if bool_decide (lc_CompletionID existing = cr_CompletionID req) &&
               bool_decide (lc_RequestDigest existing = cr_RequestDigest req)
            then CompletionResultFromRow existing
            else throw (ErrConflict "session already completed")
        | Err ErrNotFound => openCompletion device session req now
        | Err e => throw e
        end
    | Err e => throw e
    end.

Definition ApplyCompletion (device : StudentDevice) (sessionID : string) (req : CompletionRequest)
    (now : Z) : M CompletionResult :=
  WithTx (completionTx device sessionID req now).

(** ** Evidence from conceptual responses *)

(** The loop body shared by [ApplyConceptualResponse] and [ApplyParentAttestation]:
    they differ in the evidence class, the source reference and the provenance. *)
Definition applyResponseLink (cls : string) (ref : Standard → string)
    (prov : Standard → LearningActivityRevisionStandard → jmap) (resp : StudentResponse)
    (act : LearningActivity) (now : Z) (link : LearningActivityRevisionStandard) (ids : list string)
  : M (list string) :=
  std ← (Get (lk_StandardID link) : M Standard);
  if negb (standardEligibleForActivity (la_Kind act) (sd_Code std)) then mret ids
  else
    let policy := policyFromLink link (la_Kind act) in
    up ← upsertMasteryRecord (sr_StudentID resp) (lk_StandardID link);
    let rec := up.1 in
    insertEvidence (mr_ID rec) (ref std) cls (prov std link) (ep_Version policy) now
      (sr_SessionID resp) (sr_TaskID resp) ≫= λ ev : string * bool,
    if negb ev.2 then mret (ids ++ [ev.1])
    else
      classes ← listAcceptedEvidenceClasses (mr_ID rec);
      let accepted := addClass classes cls in
      let from := mr_Status rec in
      let fromConf := mr_Confidence rec in
      let '(candidate, candConf) := proposedStatus from fromConf (lk_Role link) (lk_Weight link) in
      let '(allowed, _, _) := highestAllowedStatus from candidate accepted policy in
      let new := advance from fromConf candidate candConf allowed (lk_Weight link) in
      if changed from fromConf new then
        _ ← updateMasteryAggregate (mr_ID rec) new.1 new.2 now;
        mret (ids ++ [ev.1])
      else mret (ids ++ [ev.1]).

Definition applyResponse (cls : string) (ref : Standard → string)
    (prov : Standard → LearningActivityRevisionStandard → jmap) (resp : StudentResponse) (now : Z)
  : M (list string) :=
  WithTx (
    rev ← GetRevision (sr_ActivityRevisionID resp);
    act ← (Get (rv_ActivityID rev) : M LearningActivity);
    links ← ListRevisionStandards (rv_ID rev);
    for_M (applyResponseLink cls ref prov resp act now) links []).

Definition ApplyConceptualResponse (resp : StudentResponse) (now : Z) : M (list string) :=
  applyResponse EvidenceConceptualResponse
    (λ std, "conceptual-response:" +:+ sr_ID resp +:+ ":" +:+ sd_ID std)
    (λ std link, list_to_map [
       ("responseId", JStr (sr_ID resp)); ("submissionId", JStr (sr_SubmissionID resp));
       ("sessionId", JStr (sr_SessionID resp)); ("taskId", JStr (sr_TaskID resp));
       ("attempt", JInt (sr_Attempt resp)); ("bodySha256", JStr (sr_BodySHA256 resp));
       ("standardCode", JStr (sd_Code std)); ("role", JStr (lk_Role link));
       ("source", JStr "student_response")])
    resp now.

Definition ApplyParentAttestation (resp : StudentResponse) (educatorID : string) (now : Z)
  : M (list string) :=
  applyResponse EvidenceParentAttestation
    (λ std, "parent-attestation:" +:+ sr_ID resp +:+ ":" +:+ sd_ID std)
    (λ std link, list_to_map [
       ("responseId", JStr (sr_ID resp)); ("submissionId", JStr (sr_SubmissionID resp));
       ("sessionId", JStr (sr_SessionID resp)); ("taskId", JStr (sr_TaskID resp));
       ("educatorId", JStr educatorID); ("standardCode", JStr (sd_Code std));
       ("role", JStr (lk_Role link)); ("source", JStr "parent_review")])
    resp now.
End mastery.

(** ** The ladder *)

Lemma allowed_loop_spec accepted policy cr order : ∀ fr a,
  Sorted Z.lt (statusRank <$> order) → (statusRank a ≤ fr)%Z ∨ Forall (λ st, statusRank a < statusRank st)%Z order →
  let b := (allowed_loop order fr cr accepted policy a).1.1 in
  (b = a ∨ b ∈ order ∧ (fr < statusRank b ≤ cr)%Z) ∧
  ∀ st, st ∈ order → (fr < statusRank st ≤ statusRank b)%Z →
        (b = a → False) → missingForStatus st accepted policy = [].
Proof.
  induction order as [|s order IH]; intros fr a Hs Ha; rewrite ?fmap_cons in Hs; cbn [allowed_loop].
  { split; [by left|]. intros st Hst. by apply elem_of_nil in Hst. }
  assert (Forall (λ st, statusRank s < statusRank st)%Z order) as Hlt.
  { apply Sorted_StronglySorted in Hs; [|intros ??; lia]. apply StronglySorted_inv in Hs as [_ Hs].
    by rewrite Forall_fmap in Hs. }
  apply Sorted_inv in Hs as [Hs _].
  case_bool_decide as Hle.
  { destruct (IH fr a Hs) as [H1 H2].
    { destruct Ha as [?|Ha]; [by left|]. apply Forall_cons in Ha as [_ ?]. by right. }
    split; [set_solver|]. intros st [->|Hst]%elem_of_cons; [lia|]. auto. }
  case_bool_decide as Hcand; [split; [by left|]; intros; done|].
  destruct (missingForStatus s accepted policy) as [|m ms] eqn:Hm; [|split; [by left|]; intros; done].
  destruct (IH fr s Hs (or_intror Hlt)) as [H1 H2]. set (b := (allowed_loop _ _ _ _ _ _).1.1) in *.
  rewrite Forall_forall in Hlt.
  split.
  - right. destruct H1 as [->|[Hin Hb]]; [|set_solver]. split; [left|lia].
  - intros st Hin Hst Hba. apply elem_of_cons in Hin as [->|Hin]; [done|].
    apply H2; [done|done|]. intros ->. specialize (Hlt st Hin). lia.
Qed.

Lemma status_order_sorted : Sorted Z.lt (statusRank <$> status_order).
Proof. repeat constructor. Qed.

Lemma statusRank_start from :
  statusRank (if bool_decide (from = "") then "not_introduced" else from) = statusRank from.
Proof. case_bool_decide; by subst. Qed.

(** The allowed status never leaves the interval from the current to the proposed
    status, and every status above the current one up to it has its evidence. *)
Lemma highestAllowedStatus_spec from cand accepted policy :
  let allowed := (highestAllowedStatus from cand accepted policy).1.1 in
  (statusRank from ≤ statusRank allowed ≤ Z.max (statusRank from) (statusRank cand))%Z ∧
  ∀ st, st ∈ status_order → (statusRank from < statusRank st ≤ statusRank allowed)%Z →
        missingForStatus st accepted policy = [].
Proof.
  unfold highestAllowedStatus.
  set (start := if bool_decide (from = "") then "not_introduced" else from).
  pose proof (statusRank_start from) as Hst. fold start in Hst.
  destruct (allowed_loop_spec accepted policy (statusRank cand) status_order (statusRank from) start)
    as [H1 H2].
  { apply status_order_sorted. } { left. lia. }
  destruct (allowed_loop _ _ _ _ _ _) as [[allowed missing] sat]. cbn [fst] in *. split.
  - destruct H1 as [->|[_ ?]]; lia.
  - intros st Hin Hr. apply H2; [done|done|]. intros ->. lia.
Qed.

(** Whatever the handlers write, a status above the current one has the evidence its
    policy asks for, at every level climbed. *)
Lemma advance_gated from fromConf role weight accepted policy :
  let '(cand, cc) := proposedStatus from fromConf role weight in
  let allowed := (highestAllowedStatus from cand accepted policy).1.1 in
  let new := advance from fromConf cand cc allowed weight in
  ∀ st, st ∈ status_order → (statusRank from < statusRank st ≤ statusRank new.1)%Z →
        missingForStatus st accepted policy = [].
Proof.
  destruct (proposedStatus from fromConf role weight) as [cand cc].
  destruct (highestAllowedStatus_spec from cand accepted policy) as [H1 H2].
  set (allowed := (highestAllowedStatus from cand accepted policy).1.1) in *.
  cbn zeta. intros st Hst Hr. apply H2; [done|]. revert Hr. unfold advance.
  repeat case_bool_decide; cbn; try lia. destruct (flt fromConf cc); cbn; lia.
Qed.

(** ** What one step of evidence does to the database *)

(** Rows are stored under their id. *)
Definition keyed (d : database) : Prop :=
  ∀ k r, db_mastery_records d !! k = Some r → mr_ID r = k.

(** One standard of one student: the record [rec] became [rec'], evidence of class
    [cls] may have been added to it, and nothing else changed.  [accepted] are
    classes of evidence rows of this record. *)
Record link_effect (stu std cls : string) (d d' : database) (rec rec' : MasteryRecord)
    (accepted : list string) : Prop := {
  le_student : mr_StudentID rec = stu ∧ mr_StudentID rec' = stu;
  le_standard : mr_StandardID rec = std ∧ mr_StandardID rec' = std;
  le_id : mr_ID rec' = mr_ID rec;
  le_before : db_mastery_records d !! mr_ID rec = Some rec ∧
    select (record_of stu std) (db_mastery_records d) = [rec] ∨
    select (record_of stu std) (db_mastery_records d) = [] ∧
    db_mastery_records d !! mr_ID rec = None ∧
    mr_Status rec = "not_introduced" ∧ mr_Confidence rec = fzero;
  le_records : db_mastery_records d' = <[mr_ID rec := rec']> (db_mastery_records d);
  le_evidence : db_mastery_evidence d ⊆ db_mastery_evidence d';
  le_new_evidence : ∀ k row, db_mastery_evidence d' !! k = Some row →
    db_mastery_evidence d !! k = None →
    me_MasteryRecordID row = mr_ID rec ∧ me_EvidenceClass row = cls;
  le_frame : d' = set_mastery_evidence (db_mastery_evidence d')
                    (set_mastery_records (db_mastery_records d') d);
  le_accepted : ∀ x, x ∈ accepted → ∃ k row, db_mastery_evidence d' !! k = Some row ∧
    me_MasteryRecordID row = mr_ID rec ∧ me_EvidenceClass row = x }.

Section effects.
Context `{!Postgres}.

Lemma readonly_selectMastery stu std : readonly (selectMastery stu std).
Proof. unfold selectMastery. eauto with primer. Qed.

Lemma selectMastery_res stu std q c c' r :
  cn_aborted c = false → selectMastery stu std q c = (c', r) →
  c' = c ∧ match r with
           | Ok rec => select (record_of stu std) (db_mastery_records (cn_db c)) = [rec]
           | Err e => e = ErrNotFound → select (record_of stu std) (db_mastery_records (cn_db c)) = []
           end.
Proof.
  intros Hl Hr. unfold selectMastery, mbind, M_bind in Hr. rewrite query_run in Hr by done.
  destruct (select _ _) as [|x [|? ?]]; injection Hr as <- <-; split; done.
Qed.

Lemma upsertMasteryRecord_live stu std q c c' rec b :
  q_mode q = QTx → cn_aborted c = false → cn_aborted c' = false →
  upsertMasteryRecord stu std q c = (c', Ok (rec, b)) →
  c' = c ∧ select (record_of stu std) (db_mastery_records (cn_db c)) = [rec] ∨
  select (record_of stu std) (db_mastery_records (cn_db c)) = [] ∧
  ∃ k, db_mastery_records (cn_db c) !! k = None ∧
    rec = mkMasteryRecord k stu std "not_introduced" fzero (f64_lit 2 100) None None None (q_now q) (q_now q) ∧
    cn_db c' = set_mastery_records (<[k := rec]> (db_mastery_records (cn_db c))) (cn_db c).
Proof.
  intros Hq Hl Hl' Hr. unfold upsertMasteryRecord in Hr.
  apply M_bind_Ok in Hr as (c1 & r & H1 & H2). apply attempt_inv in H1.
  apply selectMastery_res in H1 as [-> Hsel]; [|done].
  destruct r as [rec0|e]; [injection H2 as <- <- <-; by left|].
  destruct e; try done. right. split; [by apply Hsel|].
  apply M_bind_Ok in H2 as (c1 & r & H1 & H2). apply attempt_inv in H1. destruct r as [rec0|e].
  - injection H2 as <- <- _. apply Create_Ok in H1 as (Hrec & Hd & _).
    eexists. split; [exact (Create_fresh (A:=MasteryRecord) (cn_db c))|].
    split; [exact Hrec|]. rewrite Hrec in Hd at 1. exact Hd.
  - exfalso. apply Create_Err_aborted in H1; [|done].
    eapply sticky_live in H2; [congruence| |done].
    apply sticky_bind; [apply sticky_attempt, sticky_readonly, readonly_selectMastery|].
    intros [x|]; by apply sticky_readonly.
Qed.

Lemma insertEvidence_Ok recID ref cls prov ver now sid chk q c c' id ins :
  insertEvidence recID ref cls prov ver now sid chk q c = (c', Ok (id, ins)) →
  cn_aborted c = false ∧ cn_aborted c' = false ∧
  (ins = true ∧
     (let row := evidence_row id recID ref cls prov ver now sid chk (q_now q) in
      db_mastery_evidence (cn_db c) !! id = None ∧
      cn_db c' = set_mastery_evidence (<[id := row]> (db_mastery_evidence (cn_db c))) (cn_db c)) ∨
   ins = false ∧ c' = c ∧ ref ≠ "" ∧
     ∃ l, me_ID <$> select (evidence_of recID ref) (db_mastery_evidence (cn_db c)) = id :: l).
Proof.
  unfold insertEvidence. intros (c1 & r & H1 & H2)%M_bind_Ok.
  unfold tryInsertEvidence in H1. apply stmt_Ok in H1 as (Hl & Hf & Hl1).
  destruct (has_row _ _) eqn:Hrow.
  - injection Hf as Hd <-. apply M_bind_Ok in H2 as (c2 & ids & H2 & H3).
    apply query_Ok in H2 as (_ & -> & ->).
    assert (c1 = c) as -> by (destruct c, c1; cbn in *; congruence).
    destruct (me_ID <$> _) as [|i l] eqn:Hids; [done|]. injection H3 as <- <- <-.
    split_and!; [done|done|]. right. split_and!; [done|done| |by exists l].
    apply has_row_true in Hrow as (? & ? & _ & [Hn _]%andb_true_iff).
    by apply negb_true_iff, bool_decide_eq_false in Hn.
  - destruct (violation _ _); [done|]. injection Hf as Hd <-. injection H2 as <- <- <-.
    split_and!; [done|done|]. left. split; [done|]. cbn [me_ID evidence_row].
    split; [exact (Create_fresh (A:=MasteryEvidence) (cn_db c))|done].
Qed.

Lemma updateMasteryAggregate_Ok id status conf now q c c' u r :
  updateMasteryAggregate id status conf now q c = (c', Ok u) →
  db_mastery_records (cn_db c) !! id = Some r →
  cn_db c' = set_mastery_records
    (<[id := record_set_aggregate status conf now (q_now q) r]> (db_mastery_records (cn_db c))) (cn_db c).
Proof.
  unfold updateMasteryAggregate. intros (_ & Hf & _)%stmt_Ok Hr. rewrite Hr in Hf.
  destruct (violation _ _); [done|]. by injection Hf as <-.
Qed.

Lemma listAccepted_Ok recID q c c' l :
  listAcceptedEvidenceClasses recID q c = (c', Ok l) →
  c' = c ∧ ∀ x, x ∈ l → ∃ k row, db_mastery_evidence (cn_db c) !! k = Some row ∧
    me_MasteryRecordID row = recID ∧ me_EvidenceClass row = x.
Proof.
  intros (_ & -> & ->)%query_Ok. split; [done|]. intros x Hx.
  apply elem_of_order_by, elem_of_remove_dups, list_elem_of_fmap in Hx as (row & -> & Hx).
  apply elem_of_select in Hx as [[k Hk] [Hr%bool_decide_eq_true _]%andb_true_iff]. by exists k, row.
Qed.

Lemma select_single_lookup stu std d rec :
  keyed d → select (record_of stu std) (db_mastery_records d) = [rec] →
  db_mastery_records d !! mr_ID rec = Some rec ∧ mr_StudentID rec = stu ∧ mr_StandardID rec = std.
Proof.
  intros Hk Hsel.
  assert (rec ∈ select (record_of stu std) (db_mastery_records d)) as Hin by (rewrite Hsel; left).
  apply elem_of_select in Hin as [[k Hr] [Hs%bool_decide_eq_true Ht%bool_decide_eq_true]%andb_true_iff].
  by rewrite (Hk k rec Hr).
Qed.

(** Upsert of the record followed by the insertion of the evidence. *)
Lemma evidence_effect stu std ref cls prov ver now sid chk q c c1 c2 rec b id ins accepted :
  q_mode q = QTx → cn_aborted c = false → keyed (cn_db c) →
  upsertMasteryRecord stu std q c = (c1, Ok (rec, b)) →
  insertEvidence (mr_ID rec) ref cls prov ver now sid chk q c1 = (c2, Ok (id, ins)) →
  (∀ x, x ∈ accepted → ∃ k row, db_mastery_evidence (cn_db c2) !! k = Some row ∧
     me_MasteryRecordID row = mr_ID rec ∧ me_EvidenceClass row = x) →
  link_effect stu std cls (cn_db c) (cn_db c2) rec rec accepted.
Proof.
  intros Hq Hl Hk Hup Hins Hacc. pose proof Hins as (Hl1 & Hl2 & Hev)%insertEvidence_Ok.
  destruct (upsertMasteryRecord_live stu std q c c1 rec b Hq Hl Hl1 Hup)
    as [[-> Hsel]|(Hsel & k & Hfresh & Hrec & Hd)].
  - destruct (select_single_lookup _ _ _ _ Hk Hsel) as (Hrec & Hs & Ht).
    destruct Hev as [(-> & Hid & Hd2)|(-> & -> & _)]; [rewrite Hd2 in Hacc |- *|]; cbn in *.
    + split; cbn; try done; [by left|by rewrite insert_id|by apply insert_subseteq|].
      intros j row. rewrite lookup_insert. case_decide; intros; [by simplify_eq|congruence].
    + split; try done; [by left|by rewrite insert_id|intros; congruence|by destruct (cn_db c)].
  - assert (mr_ID rec = k) as Eid by by subst rec.
    destruct Hev as [(-> & Hid & Hd2)|(-> & -> & _)]; [rewrite Hd2, Hd in Hacc |- *; rewrite Hd in Hid|].
    + split; cbn in *; rewrite ?Eid in *; try (by subst rec); try done; [right; by subst rec|by apply insert_subseteq|].
      intros j row. rewrite lookup_insert. case_decide; intros; [by simplify_eq|congruence].
    + rewrite Hd in Hacc |- *.
      split; cbn in *; rewrite ?Eid in *; try (by subst rec); try done; [right; by subst rec|intros; congruence].
Qed.

(** The aggregate of the record is then replaced. *)
Lemma effect_update stu std cls d d2 rec rec' accepted :
  link_effect stu std cls d d2 rec rec accepted →
  mr_ID rec' = mr_ID rec → mr_StudentID rec' = stu → mr_StandardID rec' = std →
  link_effect stu std cls d (set_mastery_records (<[mr_ID rec := rec']> (db_mastery_records d2)) d2)
    rec rec' accepted.
Proof.
  intros [[H1 _] [H2 _] H3 H4 H5 H6 H7 H8 H9] Hi Hs Ht. split; cbn; try done.
  - by rewrite H5, insert_insert_eq.
  - rewrite H8. cbn. done.
Qed.

Lemma effect_lookup stu std cls d d2 rec rec' accepted :
  link_effect stu std cls d d2 rec rec' accepted → db_mastery_records d2 !! mr_ID rec = Some rec'.
Proof. intros E. by rewrite (le_records _ _ _ _ _ _ _ _ E), lookup_insert_eq. Qed.

Lemma effect_keyed stu std cls d d2 rec rec' accepted :
  link_effect stu std cls d d2 rec rec' accepted → keyed d → keyed d2.
Proof.
  intros E Hk k r. rewrite (le_records _ _ _ _ _ _ _ _ E), lookup_insert.
  case_decide; intros; simplify_eq; [by apply (le_id _ _ _ _ _ _ _ _ E)|eauto].
Qed.

(** A status is only written above the current one when, at every level climbed, no
    evidence is missing. *)
Definition gated (policy : EvidencePolicy) (accepted : list string) (from to : string) : Prop :=
  ∀ st, st ∈ status_order → (statusRank from < statusRank st ≤ statusRank to)%Z →
        missingForStatus st accepted policy = [].

Lemma gated_refl policy accepted s : gated policy accepted s s.
Proof. intros st _ ?. lia. Qed.

(** The record before and after the aggregate update, within an effect. *)
Lemma effect_climb stu std cls d q c c' rec accepted policy role weight now u :
  let '(cand, cc) := proposedStatus (mr_Status rec) (mr_Confidence rec) role weight in
  let allowed := (highestAllowedStatus (mr_Status rec) cand accepted policy).1.1 in
  let new := advance (mr_Status rec) (mr_Confidence rec) cand cc allowed weight in
  link_effect stu std cls d (cn_db c) rec rec accepted →
  updateMasteryAggregate (mr_ID rec) new.1 new.2 now q c = (c', Ok u) →
  ∃ rec', link_effect stu std cls d (cn_db c') rec rec' accepted ∧ mr_Status rec' = new.1 ∧
          gated policy accepted (mr_Status rec) (mr_Status rec').
Proof.
  pose proof (advance_gated (mr_Status rec) (mr_Confidence rec) role weight accepted policy) as Hg.
  destruct (proposedStatus _ _ _ _) as [cand cc]. cbn zeta in *.
  set (new := advance _ _ _ _ _ _) in *. intros E Hup.
  pose proof (effect_lookup _ _ _ _ _ _ _ _ E) as Hr.
  apply updateMasteryAggregate_Ok with (r := rec) in Hup; [|done].
  exists (record_set_aggregate new.1 new.2 now (q_now q) rec). rewrite Hup. split_and!; [|done|done].
  apply effect_update; cbn; [done|done| |]; apply E.
Qed.

Lemma recordTransition_Ok stu stdid d std rec link policy accepted now q c c' tr :
  link_effect stu stdid EvidenceProceduralContinuous d (cn_db c) rec rec accepted →
  recordTransition std rec link policy accepted now q c = (c', Ok tr) →
  ∃ rec', link_effect stu stdid EvidenceProceduralContinuous d (cn_db c') rec rec' accepted ∧
    mt_StandardCode tr = sd_Code std ∧ mt_FromStatus tr = mr_Status rec ∧
    mt_ToStatus tr = mr_Status rec' ∧ mt_AcceptedEvidence tr = accepted ∧
    gated policy accepted (mr_Status rec) (mr_Status rec').
Proof.
  intros E Hr. unfold recordTransition in Hr.
  pose proof (effect_climb stu stdid EvidenceProceduralContinuous d q c) as Hc.
  specialize (λ c' u, Hc c' rec accepted policy (lk_Role link) (lk_Weight link) now u).
  destruct (proposedStatus _ _ _ _) as [cand cc].
  destruct (highestAllowedStatus _ _ _ _) as [[allowed missing] sat]. cbn [fst] in Hc.
  destruct (changed _ _ _).
  - apply M_bind_Ok in Hr as (c1 & u & H1 & H2). injection H2 as <- <-.
    destruct (Hc c1 u E H1) as (rec' & E' & Hs & Hg). exists rec'. by rewrite Hs in *.
  - injection Hr as <- <-. exists rec. split_and!; try done. apply gated_refl.
Qed.

Lemma addClass_elem l cls x : x ∈ addClass l cls → x ∈ l ∨ x = cls.
Proof. unfold addClass. case_bool_decide; set_solver. Qed.

(** After the insertion, the class just recorded and the listed ones are classes of
    rows of the record. *)
Lemma accepted_rows recID ref cls prov ver now sid chk q c c' id ins classes :
  insertEvidence recID ref cls prov ver now sid chk q c = (c', Ok (id, ins)) →
  listAcceptedEvidenceClasses recID q c' = (c', Ok classes) →
  ∀ x, x ∈ (if ins then addClass classes cls else classes) →
  ∃ k row, db_mastery_evidence (cn_db c') !! k = Some row ∧ me_MasteryRecordID row = recID ∧
           me_EvidenceClass row = x.
Proof.
  intros Hins [_ Hl]%listAccepted_Ok x Hx. destruct ins; [|by apply Hl].
  apply addClass_elem in Hx as [Hx| ->]; [by apply Hl|].
  apply insertEvidence_Ok in Hins as (_ & _ & [(_ & _ & Hd)|(? & _)]); [|done].
  exists id. eexists. rewrite Hd. cbn. by rewrite lookup_insert_eq.
Qed.

(** What one link of a completion did. *)
Definition completion_link_done (session : LearningSession) (act : LearningActivity)
    (d d' : database) (link : LearningActivityRevisionStandard) (tr : MasteryTransition) : Prop :=
  ∃ std rec rec', db_standards d !! lk_StandardID link = Some std ∧
    standardEligibleForActivity (la_Kind act) (sd_Code std) = true ∧
    link_effect (ls_StudentID session) (lk_StandardID link) EvidenceProceduralContinuous d d' rec rec'
      (mt_AcceptedEvidence tr) ∧
    mt_StandardCode tr = sd_Code std ∧ mt_FromStatus tr = mr_Status rec ∧
    mt_ToStatus tr = mr_Status rec' ∧
    gated (policyFromLink link (la_Kind act)) (mt_AcceptedEvidence tr) (mr_Status rec) (mr_Status rec').

Lemma applyCompletionLink_Ok session device rev act pc now link acc q c c' acc' :
  q_mode q = QTx → cn_aborted c = false → keyed (cn_db c) →
  applyCompletionLink session device rev act pc now link acc q c = (c', Ok acc') →
  cn_aborted c' = false ∧
  (c' = c ∧ acc' = acc ∨
   ∃ evid tr, acc' = (acc.1 ++ [evid], acc.2 ++ [tr]) ∧
     completion_link_done session act (cn_db c) (cn_db c') link tr).
Proof.
  intros Hq Hl Hk Hr. unfold applyCompletionLink in Hr.
  apply M_bind_Ok in Hr as (c0 & std & H0 & Hr). apply Get_Ok in H0 as (_ & -> & Hstd).
  destruct (standardEligibleForActivity _ _) eqn:Hel; cbn [negb] in Hr;
    [|injection Hr as <- <-; split; [done|by left]].
  apply M_bind_Ok in Hr as (c1 & [rec b] & Hup & Hr). cbn [fst] in Hr.
  apply M_bind_Ok in Hr as (c2 & [evid ins] & Hins & Hr). cbn [fst snd] in Hr.
  apply M_bind_Ok in Hr as (c3 & classes & Hcl & Hr).
  pose proof Hcl as [-> _]%listAccepted_Ok.
  pose proof Hins as (_ & Hl2 & _)%insertEvidence_Ok.
  pose proof (accepted_rows _ _ _ _ _ _ _ _ _ _ _ _ _ _ Hins Hcl) as Hacc.
  pose proof (evidence_effect _ _ _ _ _ _ _ _ _ _ _ _ _ _ _ _ _ _ Hq Hl Hk Hup Hins Hacc) as E.
  destruct ins.
  - apply M_bind_Ok in Hr as (c4 & tr & Htr & Hr). injection Hr as <- <-.
    assert (cn_aborted c4 = false) as Hl4.
    { revert Htr. unfold recordTransition. destruct (proposedStatus _ _ _ _), (highestAllowedStatus _ _ _ _) as [[??]?].
      destruct (changed _ _ _); [|by intros [= <- _]].
      intros (c5 & u & Hu & Hr)%M_bind_Ok. injection Hr as <- _. by apply stmt_Ok in Hu as (_ & _ & ?). }
    split; [done|]. right. exists evid, tr. split; [done|].
    destruct (recordTransition_Ok _ _ _ _ _ _ _ _ _ _ _ _ _ E Htr) as (rec' & E' & ? & ? & ? & Ha & ?).
    exists std, rec, rec'. rewrite Ha. done.
  - destruct (proposedStatus _ _ _ _) as [cand cc].
    destruct (highestAllowedStatus _ _ _ _) as [[allowed missing] sat].
    injection Hr as <- <-. split; [done|]. right. eexists evid, _. split; [done|].
    exists std, rec, rec. split_and!; try done. apply gated_refl.
Qed.

(** The mastery tables changed, the others did not; evidence is never removed. *)
Definition mastery_only (d d' : database) : Prop :=
  d' = set_mastery_evidence (db_mastery_evidence d')
         (set_mastery_records (db_mastery_records d') d) ∧
  db_mastery_evidence d ⊆ db_mastery_evidence d'.

#[export] Instance mastery_only_preorder : PreOrder mastery_only.
Proof.
  split.
  - intros d. split; [by destruct d|done].
  - intros d1 d2 d3 [H1 H2] [H3 H4]. split; [|by etrans]. rewrite H3, H1. done.
Qed.

Lemma link_effect_mastery_only stu std cls d d' rec rec' accepted :
  link_effect stu std cls d d' rec rec' accepted → mastery_only d d'.
Proof. intros E. split; apply E. Qed.

(** A standard of the activity that its evidence may touch. *)
Definition touchable (d : database) (act : LearningActivity)
    (links : list LearningActivityRevisionStandard) (stdid : string) : Prop :=
  ∃ link std, link ∈ links ∧ lk_StandardID link = stdid ∧ db_standards d !! stdid = Some std ∧
    standardEligibleForActivity (la_Kind act) (sd_Code std) = true.

(** Records outside the student's touchable standards are as they were. *)
Definition isolated (d0 d d' : database) (act : LearningActivity)
    (links : list LearningActivityRevisionStandard) (stu : string) : Prop :=
  ∀ k r, db_mastery_records d !! k = Some r →
    db_mastery_records d' !! k = Some r ∨
    (mr_StudentID r = stu ∧ touchable d0 act links (mr_StandardID r) ∧
     ∃ r', db_mastery_records d' !! k = Some r' ∧ mr_StudentID r' = stu ∧
           mr_StandardID r' = mr_StandardID r).

Lemma isolated_trans d0 d1 d2 d3 act links stu :
  isolated d0 d1 d2 act links stu → isolated d0 d2 d3 act links stu →
  isolated d0 d1 d3 act links stu.
Proof.
  intros H12 H23 k r Hr.
  destruct (H12 k r Hr) as [Hr2|(Hs & Ht & r2 & Hr2 & Hs2 & Ht2)].
  - by apply H23.
  - right. split_and!; [done|done|].
    destruct (H23 k r2 Hr2) as [Hr3|(_ & _ & r3 & Hr3 & Hs3 & Ht3)]; [by exists r2|].
    exists r3. split_and!; [done|done|congruence].
Qed.

Lemma isolated_standards d0 d0' d d' act links stu :
  db_standards d0 = db_standards d0' → isolated d0 d d' act links stu → isolated d0' d d' act links stu.
Proof. unfold isolated, touchable. by intros ->. Qed.

Lemma link_effect_isolated d0 act links link std stu cls d d' rec rec' accepted :
  link ∈ links → db_standards d0 !! lk_StandardID link = Some std →
  standardEligibleForActivity (la_Kind act) (sd_Code std) = true →
  link_effect stu (lk_StandardID link) cls d d' rec rec' accepted →
  isolated d0 d d' act links stu.
Proof.
  intros Hin Hstd Hel [[S1 S2] [T1 T2] Hid Hb Hrecs _ _ _ _] k r Hr.
  rewrite Hrecs, lookup_insert. case_decide as Heq; [|by left]. subst k. right.
  destruct Hb as [[Hb _]|(_ & Hb & _)]; [|congruence]. simplify_eq.
  split_and!; [done| |by exists rec'; rewrite T2].
  exists link, std. by rewrite T1.
Qed.

(** What the loop over the links did. *)
Record links_done (session : LearningSession) (act : LearningActivity)
    (links : list LearningActivityRevisionStandard) (d d' : database)
    (trs : list MasteryTransition) : Prop := {
  ld_keyed : keyed d';
  ld_only : mastery_only d d';
  ld_isolated : isolated d d d' act links (ls_StudentID session);
  ld_each : ∀ tr, tr ∈ trs → ∃ link d1 d2, link ∈ links ∧ mastery_only d d1 ∧ mastery_only d2 d' ∧
    isolated d d2 d' act links (ls_StudentID session) ∧
    completion_link_done session act d1 d2 link tr }.

Lemma apply_links_Ok session device rev act pc now q : ∀ links done c c' acc acc',
  q_mode q = QTx → cn_aborted c = false → keyed (cn_db c) →
  for_M (applyCompletionLink session device rev act pc now) links acc q c = (c', Ok acc') →
  cn_aborted c' = false ∧
  ∃ evids trs, acc' = (acc.1 ++ evids, acc.2 ++ trs) ∧
    links_done session act (done ++ links) (cn_db c) (cn_db c') trs.
Proof.
  induction links as [|link links IH]; intros done c c' acc acc' Hq Hl Hk Hr.
  { injection Hr as <- <-. split; [done|]. exists [], []. rewrite !app_nil_r.
    split; [by destruct acc|].
    split; [done|reflexivity|intros k r; by left|by intros tr ?%elem_of_nil]. }
  apply for_M_cons_Ok in Hr as (c1 & acc1 & H1 & H2).
  apply applyCompletionLink_Ok in H1 as (Hl1 & Hstep); [|done|done|done].
  assert (∀ l, done ++ link :: l = (done ++ [link]) ++ l) as Happ by (intros; by rewrite <-app_assoc).
  destruct Hstep as [[-> ->]|(evid & tr & -> & Hdone)].
  { destruct (IH (done ++ [link]) c c' acc acc' Hq Hl Hk H2) as (Hl' & evids & trs & Ha & Hd).
    split; [done|]. exists evids, trs. by rewrite Happ. }
  pose proof Hdone as (std & rec & rec' & Hstd & Hel & E & _).
  pose proof (link_effect_mastery_only _ _ _ _ _ _ _ _ E) as Honly.
  destruct (IH (done ++ [link]) c1 c' _ acc' Hq Hl1 (effect_keyed _ _ _ _ _ _ _ _ E Hk) H2)
    as (Hl' & evids & trs & -> & [K O I L]).
  rewrite <-Happ in I, L.
  split; [done|]. exists (evid :: evids), (tr :: trs). cbn [fst snd]. rewrite <-!app_assoc.
  split; [done|].
  assert (db_standards (cn_db c1) = db_standards (cn_db c)) as Hst by by rewrite (proj1 Honly).
  pose proof (isolated_standards _ _ _ _ _ _ _ Hst I) as I'.
  split; [done|by etrans| |].
  - eapply isolated_trans; [|exact I'].
    eapply link_effect_isolated; [|exact Hstd|exact Hel|exact E]. set_solver.
  - intros t [->|Ht]%elem_of_cons.
    + exists link, (cn_db c), (cn_db c1). split_and!; [set_solver|reflexivity|done|done|done].
    + destruct (L t Ht) as (lk & d1 & d2 & ? & ? & ? & HI & ?). exists lk, d1, d2.
      split_and!; [done|by etrans|done|by eapply isolated_standards|done].
Qed.

(** ** The runs of [ApplyCompletion] *)

Definition keyed_sessions (d : database) : Prop :=
  ∀ k x, db_sessions d !! k = Some x → ls_ID x = k.

Definition by_completion (id : string) (x : LearningSessionCompletion) : bool :=
  bool_decide (lc_CompletionID x = id).
Definition by_session (id : string) (x : LearningSessionCompletion) : bool :=
  bool_decide (lc_SessionID x = id).

Definition completion_row (k sessionID completionID digest : string) (r : CompletionResult) (now : Z)
  : LearningSessionCompletion :=
  mkLearningSessionCompletion k sessionID completionID digest (completion_json r) now.

(** The completion row of [r] was added to [d]. *)
Definition completion_added (session : LearningSession) (req : CompletionRequest)
    (r : CompletionResult) (d d' : database) : Prop :=
  ∃ k now, db_completions d !! k = None ∧
    d' = set_completions
           (<[k := completion_row k (ls_ID session) (cr_CompletionID req) (cr_RequestDigest req) r now]>
              (db_completions d)) d.

Record accepted_run (device : StudentDevice) (session : LearningSession) (req : CompletionRequest)
    (d d' : database) (r : CompletionResult) : Prop := {
  ar_open : ls_State session ∉ [SessionCompleted; SessionAbandoned];
  ar_assignment : ∃ asg, db_assignments d !! ls_AssignmentID session = Some asg ∧
    sa_StudentID asg = dv_StudentID device ∧ sa_State asg ≠ AssignmentCancelled;
  ar_body : ∃ rev act content links evids trs summary d1 d2,
    db_revisions d !! ls_ActivityRevisionID session = Some rev ∧
    db_activities d !! rv_ActivityID rev = Some act ∧
    DecodeActivityContent (rv_Content rev) = Ok content ∧
    validateRequiredChecks content (cr_Observations req) = Ok tt ∧
    validateObservationCapabilities content (cr_Observations req) = Ok tt ∧
    (∀ l, l ∈ links ↔ (∃ k, db_links d !! k = Some l) ∧ lk_ActivityRevisionID l = rv_ID rev) ∧
    r = accepted_result session req summary (evids, trs) ∧
    links_done session act links d d1 trs ∧
    completion_added session req r d1 d2 ∧
    db_completions d' = db_completions d2 ∧
    db_mastery_records d' = db_mastery_records d1 ∧
    db_mastery_evidence d' = db_mastery_evidence d1;
  ar_session : ∃ x s', db_sessions d !! ls_ID session = Some x ∧
    db_sessions d' !! ls_ID session = Some s' ∧ ls_StudentID s' = ls_StudentID x ∧
    ls_State s' = SessionCompleted;
  ar_done : ∃ a', db_assignments d' !! ls_AssignmentID session = Some a' ∧
    sa_State a' = AssignmentCompleted }.

Lemma InsertCompletion_Ok session req r q c c' row :
  InsertCompletion (ls_ID session) (cr_CompletionID req) (cr_RequestDigest req) r q c = (c', Ok row) →
  completion_added session req r (cn_db c) (cn_db c') ∧ cn_aborted c' = false.
Proof.
  unfold InsertCompletion. destruct (completion_encodable r); [|done].
  intros (Hrow & Hd & _ & _ & Hl)%Create_Ok. split; [|done].
  eexists _, (q_now q). split; [exact (Create_fresh (A:=LearningSessionCompletion) (cn_db c))|].
  rewrite Hd, Hrow. done.
Qed.

Lemma MarkSessionCompleted_Ok session summary now q c c' :
  MarkSessionCompleted session summary now q c = (c', Ok tt) →
  cn_aborted c' = false ∧
  (∃ x s', db_sessions (cn_db c) !! ls_ID session = Some x ∧
     db_sessions (cn_db c') !! ls_ID session = Some s' ∧ ls_StudentID s' = ls_StudentID x ∧
     ls_State s' = SessionCompleted) ∧
  (∃ a', db_assignments (cn_db c') !! ls_AssignmentID session = Some a' ∧
         sa_State a' = AssignmentCompleted) ∧
  cn_db c' = set_assignments (db_assignments (cn_db c')) (set_sessions (db_sessions (cn_db c')) (cn_db c)).
Proof.
  unfold MarkSessionCompleted. intros (c1 & s1 & H1 & H2)%M_bind_Ok.
  apply M_bind_Ok in H2 as (c2 & a2 & H2 & H3). injection H3 as <-.
  apply Update_Ok in H1 as (x & Hx & -> & Hd1 & _).
  apply Update_Ok in H2 as (y & _ & -> & Hd2 & _ & _ & Hl2). cbn in Hd1, Hd2.
  rewrite Hd2, Hd1. cbn. split_and!; [done| | |done].
  - exists x. eexists. rewrite lookup_insert_eq. done.
  - eexists. rewrite lookup_insert_eq. done.
Qed.

Lemma of_result_Ok {A} (r : result err A) q c c' a : of_result r q c = (c', Ok a) → c' = c ∧ r = Ok a.
Proof. unfold of_result. naive_solver. Qed.

Lemma decodeContent_Ok m q c c' content :
  decodeContent m q c = (c', Ok content) → c' = c ∧ DecodeActivityContent m = Ok content.
Proof. unfold decodeContent. destruct (DecodeActivityContent m); [|done]. by intros [= <- <-]. Qed.

Lemma ListRevisionStandards_Ok id q c c' links :
  ListRevisionStandards id q c = (c', Ok links) →
  c' = c ∧ ∀ l, l ∈ links ↔ (∃ k, db_links (cn_db c) !! k = Some l) ∧ lk_ActivityRevisionID l = id.
Proof.
  intros (_ & -> & ->)%query_Ok. split; [done|]. intros l.
  rewrite elem_of_order_by, elem_of_select, bool_decide_eq_true. done.
Qed.

Lemma acceptCompletion_Ok device session req now q c c' r asg :
  q_mode q = QTx → cn_aborted c = false → keyed (cn_db c) →
  ls_State session ∉ [SessionCompleted; SessionAbandoned] →
  db_assignments (cn_db c) !! ls_AssignmentID session = Some asg →
  sa_StudentID asg = dv_StudentID device → sa_State asg ≠ AssignmentCancelled →
  acceptCompletion device session req now q c = (c', Ok r) →
  accepted_run device session req (cn_db c) (cn_db c') r.
Proof.
  intros Hq Hl Hk Hst Hasg Hown Hnc Hr. unfold acceptCompletion in Hr.
  apply M_bind_Ok in Hr as (c1 & rev & H1 & Hr). apply Get_Ok in H1 as (_ & -> & Hrev).
  apply M_bind_Ok in Hr as (c1 & act & H1 & Hr). apply Get_Ok in H1 as (_ & -> & Hact).
  apply M_bind_Ok in Hr as (c1 & content & H1 & Hr). apply decodeContent_Ok in H1 as [-> Hdec].
  apply M_bind_Ok in Hr as (c1 & [] & H1 & Hr). apply of_result_Ok in H1 as [-> Hreq].
  apply M_bind_Ok in Hr as (c1 & [] & H1 & Hr). apply of_result_Ok in H1 as [-> Hcap].
  apply M_bind_Ok in Hr as (c1 & links & H1 & Hr). apply ListRevisionStandards_Ok in H1 as [-> Hlinks].
  apply M_bind_Ok in Hr as (c1 & acc & H1 & Hr).
  destruct (apply_links_Ok _ _ _ _ _ _ _ links [] _ _ _ _ Hq Hl Hk H1)
    as (Hl1 & evids & trs & -> & Hdone).
  cbn [fst snd app] in Hr, Hdone.
  apply M_bind_Ok in Hr as (c2 & row & H2 & Hr). apply InsertCompletion_Ok in H2 as [Hadd Hl2].
  apply M_bind_Ok in Hr as (c3 & [] & H3 & Hr). injection Hr as <- <-.
  apply MarkSessionCompleted_Ok in H3 as (Hl3 & Hs' & Ha' & Hd3).
  pose proof (ld_only _ _ _ _ _ _ Hdone) as [Hf1 _].
  split; [done|by exists asg| | |done].
  2: { destruct Hs' as (x & s' & Hx & ?). exists x, s'. split; [|done]. rewrite <-Hx.
       destruct Hadd as (k & t & _ & ->). rewrite Hf1. done. }
  eexists rev, act, content, links, evids, trs, _, (cn_db c1), (cn_db c2).
  split_and!; [done|done|done|done|done|done|reflexivity|done|done| | |].
  - by rewrite Hd3.
  - rewrite Hd3. cbn. destruct Hadd as (k & t & _ & ->). done.
  - rewrite Hd3. cbn. destruct Hadd as (k & t & _ & ->). done.
Qed.

Lemma completion_query_res {p : LearningSessionCompletion → bool} q c c' r :
  cn_aborted c = false →
  (x ← query (λ d, select p (db_completions d)); exactly_one x) q c = (c', r) →
  c' = c ∧ match r with
           | Ok x => select p (db_completions (cn_db c)) = [x]
           | Err e => e = ErrNotFound → select p (db_completions (cn_db c)) = []
           end.
Proof.
  intros Hl Hr. unfold mbind, M_bind in Hr. rewrite query_run in Hr by done.
  destruct (select _ _) as [|x [|? ?]]; injection Hr as <- <-; split; done.
Qed.

Lemma select_single_elem {A} (p : A → bool) t x : select p t = [x] → (∃ k, t !! k = Some x) ∧ p x = true.
Proof. intros Hs. apply elem_of_select. rewrite Hs. left. Qed.

Lemma ApplyCompletion_cases device sid req now q c c' r :
  q_mode q ≠ QSavepoint → keyed (cn_db c) →
  ApplyCompletion device sid req now q c = (c', Ok r) →
  cn_aborted c = false ∧ cn_aborted c' = false ∧
  ∃ session, db_sessions (cn_db c) !! sid = Some session ∧
    ls_StudentID session = dv_StudentID device ∧
    (c' = c ∧ (∃ k row, db_completions (cn_db c) !! k = Some row ∧
        lc_CompletionID row = cr_CompletionID req ∧ lc_RequestDigest row = cr_RequestDigest req ∧
        r = lc_Response row) ∨
     select (by_completion (cr_CompletionID req)) (db_completions (cn_db c)) = [] ∧
     select (by_session sid) (db_completions (cn_db c)) = [] ∧
     ((∃ asg, db_assignments (cn_db c) !! ls_AssignmentID session = Some asg ∧
        sa_State asg = AssignmentCancelled) ∧
      r = cancelled_result session req ∧ completion_added session req r (cn_db c) (cn_db c') ∨
      accepted_run device session req (cn_db c) (cn_db c') r)).
Proof.
  intros Hq Hk Hr. apply WithTx_Ok in Hr as (Hl & Hr & Hl'); [|done]. split_and!; [done|done|].
  apply M_bind_Ok in Hr as (c1 & session & H1 & Hr). apply Get_Ok in H1 as (_ & -> & Hs).
  exists session. split; [done|].
  destruct (bool_decide_reflect (ls_StudentID session = dv_StudentID device)) as [Hown|]; [|done].
  split; [done|]. cbn [negb] in Hr.
  apply M_bind_Ok in Hr as (c1 & r1 & H1 & Hr). apply attempt_inv, completion_query_res in H1 as [-> Hid]; [|done].
  destruct r1 as [row|e].
  { left. destruct (bool_decide_reflect (lc_RequestDigest row = cr_RequestDigest req)); [|done].
    injection Hr as <- <-. split; [done|].
    apply select_single_elem in Hid as [[k Hrow] Hp%bool_decide_eq_true]. by exists k, row. }
  destruct e; try done. specialize (Hid eq_refl).
  apply M_bind_Ok in Hr as (c1 & r1 & H1 & Hr). apply attempt_inv, completion_query_res in H1 as [-> Hse]; [|done].
  destruct r1 as [row|e].
  { left. destruct (bool_decide_reflect (lc_CompletionID row = cr_CompletionID req)) as [Hc|]; [|done].
    destruct (bool_decide_reflect (lc_RequestDigest row = cr_RequestDigest req)); [|done].
    injection Hr as <- <-. split; [done|].
    apply select_single_elem in Hse as [[k Hrow] _]. by exists k, row. }
  destruct e; try done. specialize (Hse eq_refl). right. split_and!; [done|done|].
  unfold openCompletion in Hr. destruct (one_of _ _) eqn:Hst; [done|].
  apply bool_decide_eq_false in Hst.
  apply M_bind_Ok in Hr as (c1 & asg & H1 & Hr). apply Get_Ok in H1 as (_ & -> & Hasg).
  destruct (bool_decide_reflect (sa_StudentID asg = dv_StudentID device)) as [Hown'|]; [|done].
  cbn [negb] in Hr. case_bool_decide as Hcan.
  - left. apply M_bind_Ok in Hr as (c1 & row & H1 & Hr). injection Hr as <- <-.
    apply InsertCompletion_Ok in H1 as [Hadd _]. split_and!; [by exists asg|done|done].
  - right. eapply acceptCompletion_Ok; [|exact Hl|exact Hk|exact Hst|exact Hasg|exact Hown'|exact Hcan|exact Hr]. done.
Qed.

(** No completion is stored under the request's completion id yet. *)
Definition first_submission (d : database) (req : CompletionRequest) : Prop :=
  ∀ k row, db_completions d !! k = Some row → lc_CompletionID row ≠ cr_CompletionID req.

Lemma missing_nil_required st accepted policy need reqs :
  st ∈ status_order → missingForStatus st accepted policy = [] →
  ep_StatusRequirements policy !! st = Some reqs → need ∈ reqs → need ∈ accepted.
Proof.
  intros Hst Hm Hr Hn. unfold missingForStatus in Hm.
  assert (bool_decide (st = "") || bool_decide (st = "not_introduced") = false) as Hb.
  { unfold status_order in Hst. repeat (apply elem_of_cons in Hst as [->|Hst]; [done|]).
    by apply elem_of_nil in Hst. }
  rewrite Hb, Hr in Hm. destruct (decide (need ∈ accepted)) as [|Hno]; [done|].
  exfalso. eapply (not_elem_of_nil need). rewrite <-Hm. by apply list_elem_of_filter.
Qed.

(** The student has stored evidence of class [need] for the standard. *)
Definition has_evidence (d : database) (stu std need : string) : Prop :=
  ∃ k row rec, db_mastery_evidence d !! k = Some row ∧
    db_mastery_records d !! me_MasteryRecordID row = Some rec ∧
    mr_StudentID rec = stu ∧ mr_StandardID rec = std ∧ me_EvidenceClass row = need.

Lemma completion_link_evidence session act links d1 d2 d d' link tr :
  completion_link_done session act d1 d2 link tr → mastery_only d2 d' →
  isolated d d2 d' act links (ls_StudentID session) →
  ∀ st need reqs, st ∈ status_order →
    (statusRank (mt_FromStatus tr) < statusRank st ≤ statusRank (mt_ToStatus tr))%Z →
    ep_StatusRequirements (policyFromLink link (la_Kind act)) !! st = Some reqs → need ∈ reqs →
    has_evidence d' (ls_StudentID session) (lk_StandardID link) need.
Proof.
  intros (std & rec & rec' & _ & _ & E & _ & Hf & Ht & Hg) [_ Hsub] Hiso st need reqs Hst Hr Hreq Hneed.
  rewrite Hf, Ht in Hr. specialize (Hg st Hst Hr).
  pose proof (missing_nil_required _ _ _ _ _ Hst Hg Hreq Hneed) as Hacc.
  destruct (le_accepted _ _ _ _ _ _ _ _ E need Hacc) as (k & row & Hk & Hrec & Hcls).
  pose proof (effect_lookup _ _ _ _ _ _ _ _ E) as Hlook.
  destruct (le_student _ _ _ _ _ _ _ _ E) as [_ Hs], (le_standard _ _ _ _ _ _ _ _ E) as [_ Hstd].
  exists k, row. rewrite Hrec.
  destruct (Hiso _ _ Hlook) as [Hl|(_ & _ & r3 & Hl & Hs3 & Ht3)].
  - exists rec'. split_and!; try done. by eapply lookup_weaken.
  - exists r3. split_and!; try done; [by eapply lookup_weaken|congruence].
Qed.

Lemma ApplyCompletion_first device sid req now q c c' r :
  q_mode q ≠ QSavepoint → keyed (cn_db c) → first_submission (cn_db c) req →
  ApplyCompletion device sid req now q c = (c', Ok r) → cs_Accepted r = true →
  ∃ session, db_sessions (cn_db c) !! sid = Some session ∧
    ls_StudentID session = dv_StudentID device ∧
    accepted_run device session req (cn_db c) (cn_db c') r.
Proof.
  intros Hq Hk Hf Hr Ha. apply ApplyCompletion_cases in Hr as (_ & _ & session & Hs & Hown & Hr); [|done|done].
  exists session. split_and!; [done|done|].
  destruct Hr as [(_ & k & row & Hrow & Hid & _)|(_ & _ & [(_ & -> & _)|?])]; [|done|done].
  exfalso. by eapply Hf.
Qed.

(** C1: Mastery is earned with evidence.  Whenever the first submission of a
    completion is accepted and its result reports a standard's status going up,
    then for every status climbed over and every evidence class the policy of the
    standard's link requires for it, the database holds an evidence row of that
    class for this student and this standard. *)
Theorem ApplyCompletion_gated device sid req now q c c' r tr :
  q_mode q ≠ QSavepoint → keyed (cn_db c) → first_submission (cn_db c) req →
  ApplyCompletion device sid req now q c = (c', Ok r) → cs_Accepted r = true →
  tr ∈ cs_MasteryTransitions r →
  ∃ session rev act link std, db_sessions (cn_db c) !! sid = Some session ∧
    db_revisions (cn_db c) !! ls_ActivityRevisionID session = Some rev ∧
    db_activities (cn_db c) !! rv_ActivityID rev = Some act ∧
    (∃ k, db_links (cn_db c) !! k = Some link) ∧ lk_ActivityRevisionID link = rv_ID rev ∧
    db_standards (cn_db c) !! lk_StandardID link = Some std ∧ mt_StandardCode tr = sd_Code std ∧
    ∀ st need reqs, st ∈ status_order →
      (statusRank (mt_FromStatus tr) < statusRank st ≤ statusRank (mt_ToStatus tr))%Z →
      ep_StatusRequirements (policyFromLink link (la_Kind act)) !! st = Some reqs → need ∈ reqs →
      has_evidence (cn_db c') (ls_StudentID session) (lk_StandardID link) need.
Proof.
  intros Hq Hk Hf Hr Ha Htr.
  destruct (ApplyCompletion_first _ _ _ _ _ _ _ _ Hq Hk Hf Hr Ha) as (session & Hs & _ & [_ _ Hb _ _]).
  destruct Hb as (rev & act & content & links & evids & trs & summary & d1 & d2 & Hrev & Hact & _ & _ & _
    & Hlinks & -> & [_ _ _ L] & _ & _ & Hrecs & Hevid).
  destruct (L tr Htr) as (link & da & db & Hin & Honly & Honly2 & Hiso & Hdone).
  apply Hlinks in Hin as [Hlk Hrv]. pose proof Hdone as (std & _ & _ & Hstd & _ & _ & Hcode & _).
  exists session, rev, act, link, std. split_and!; try done.
  { rewrite <-Hstd. by rewrite (proj1 Honly). }
  intros st need reqs Hst Hrank Hreq Hneed.
  destruct (completion_link_evidence _ _ _ _ _ _ _ _ _ Hdone Honly2 Hiso st need reqs Hst Hrank Hreq Hneed)
    as (k & row & rec & ? & ? & ?). exists k, row, rec. by rewrite Hrecs, Hevid.
Qed.

(** C3: Evidence stays with its student and its kind of activity.  A completion
    changes no mastery record of another student, none of a standard the activity's
    revision is not linked to, and none of a standard its kind may not touch (typing
    activities and ".TYPE." standards are kept apart); a record that does change
    keeps its student and its standard, and no evidence row is lost. *)
Theorem ApplyCompletion_isolated device sid req now q c c' r :
  q_mode q ≠ QSavepoint → keyed (cn_db c) →
  ApplyCompletion device sid req now q c = (c', Ok r) →
  db_mastery_evidence (cn_db c) ⊆ db_mastery_evidence (cn_db c') ∧
  ∀ k rec, db_mastery_records (cn_db c) !! k = Some rec →
    db_mastery_records (cn_db c') !! k = Some rec ∨
    mr_StudentID rec = dv_StudentID device ∧
    (∃ rec', db_mastery_records (cn_db c') !! k = Some rec' ∧
       mr_StudentID rec' = mr_StudentID rec ∧ mr_StandardID rec' = mr_StandardID rec) ∧
    ∃ session rev act link std, db_sessions (cn_db c) !! sid = Some session ∧
      db_revisions (cn_db c) !! ls_ActivityRevisionID session = Some rev ∧
      db_activities (cn_db c) !! rv_ActivityID rev = Some act ∧
      (∃ j, db_links (cn_db c) !! j = Some link) ∧ lk_ActivityRevisionID link = rv_ID rev ∧
      mr_StandardID rec = lk_StandardID link ∧
      db_standards (cn_db c) !! lk_StandardID link = Some std ∧
      standardEligibleForActivity (la_Kind act) (sd_Code std) = true.
Proof.
  intros Hq Hk Hr. apply ApplyCompletion_cases in Hr as (_ & _ & session & Hs & Hown & Hr); [|done|done].
  destruct Hr as [(-> & _)|(_ & _ & [(_ & _ & (k & t & _ & ->))|[_ _ Hb _ _]])].
  { split; [done|]. by left. }
  { split; [done|]. by left. }
  destruct Hb as (rev & act & content & links & evids & trs & summary & d1 & d2 & Hrev & Hact & _ & _ & _
    & Hlinks & _ & [_ [_ Hsub] HI _] & _ & _ & Hrecs & Hevid).
  split; [by rewrite Hevid|]. intros k rec Hrec. rewrite Hrecs.
  destruct (HI k rec Hrec) as [?|(Hstu & (link & std & Hin & Heq & Hstd & Hel) & rec' & Hr' & Hs' & Ht')];
    [by left|]. right.
  apply Hlinks in Hin as [Hj Hrv]. split_and!; [congruence|exists rec'; split_and!; congruence|].
  exists session, rev, act, link, std. split_and!; try done. by rewrite Heq.
Qed.

Lemma validateRequiredChecks_Ok content obs :
  validateRequiredChecks content obs = Ok tt →
  (∀ ch, ch ∈ ac_Checks content → ck_Optional ch = false →
     ∃ o, index_by ob_CheckID obs !! ck_ID ch = Some o ∧ ob_Passed o = true) ∧
  (∀ t, t ∈ ac_Tasks content → tk_Optional t = false →
     evalTree (tk_Completion t) (index_by ob_CheckID obs) = true).
Proof.
  unfold validateRequiredChecks. intros ([] & H1 & H2)%bind_Ok.
  rewrite for_each_Ok, Forall_forall in H1. rewrite for_each_Ok, Forall_forall in H2. split.
  - intros ch Hin Ho. specialize (H1 ch Hin). unfold requiredCheck in H1. rewrite Ho in H1.
    destruct (_ !! _) as [o|]; [|done]. destruct (ob_Passed o) eqn:Hp; [|done]. by exists o.
  - intros t Hin Ho. specialize (H2 t Hin). unfold requiredTask in H2. rewrite Ho in H2. by destruct (evalTree _ _).
Qed.

(** C2: What acceptance means.  A first submission that is accepted comes from a
    device of the session's student, for a session that was still open and an
    assignment of that student that was not cancelled; the observations pass every
    required check and satisfy the completion tree of every required task; and
    afterwards the session and its assignment are completed and the result is
    stored under the completion id. *)
Theorem ApplyCompletion_accepted device sid req now q c c' r :
  q_mode q ≠ QSavepoint → keyed (cn_db c) → first_submission (cn_db c) req →
  ApplyCompletion device sid req now q c = (c', Ok r) → cs_Accepted r = true →
  ∃ session asg rev content, db_sessions (cn_db c) !! sid = Some session ∧
    ls_StudentID session = dv_StudentID device ∧
    ls_State session ≠ SessionCompleted ∧ ls_State session ≠ SessionAbandoned ∧
    db_assignments (cn_db c) !! ls_AssignmentID session = Some asg ∧
    sa_StudentID asg = dv_StudentID device ∧ sa_State asg ≠ AssignmentCancelled ∧
    db_revisions (cn_db c) !! ls_ActivityRevisionID session = Some rev ∧
    DecodeActivityContent (rv_Content rev) = Ok content ∧
    (∀ ch, ch ∈ ac_Checks content → ck_Optional ch = false →
       ∃ o, o ∈ cr_Observations req ∧ ob_CheckID o = ck_ID ch ∧ ob_Passed o = true) ∧
    (∀ t, t ∈ ac_Tasks content → tk_Optional t = false →
       evalTree (tk_Completion t) (index_by ob_CheckID (cr_Observations req)) = true) ∧
    (∃ s', db_sessions (cn_db c') !! ls_ID session = Some s' ∧ ls_State s' = SessionCompleted) ∧
    (∃ a', db_assignments (cn_db c') !! ls_AssignmentID session = Some a' ∧
           sa_State a' = AssignmentCompleted) ∧
    (∃ k row, db_completions (cn_db c') !! k = Some row ∧
       lc_CompletionID row = cr_CompletionID req ∧ lc_Response row = completion_json r).
Proof.
  intros Hq Hk Hf Hr Ha.
  destruct (ApplyCompletion_first _ _ _ _ _ _ _ _ Hq Hk Hf Hr Ha) as (session & Hs & Hown & [Ho Hasg Hb Hse Hd]).
  destruct Hasg as (asg & Hasg & Hown' & Hnc), Hse as (x & s' & _ & Hs' & _ & Hst').
  destruct Hb as (rev & act & content & links & evids & trs & summary & d1 & d2 & Hrev & _ & Hdec & Hreq & _
    & _ & -> & _ & (k & t & _ & Hadd) & Hcomp & _).
  apply validateRequiredChecks_Ok in Hreq as [Hchecks Htasks].
  exists session, asg, rev, content.
  split_and!; try done; [intros E; apply Ho; rewrite E; set_solver|
    intros E; apply Ho; rewrite E; set_solver| |by exists s'|].
  - intros ch Hin Hopt. destruct (Hchecks ch Hin Hopt) as (o & Hlook & Hp).
    apply index_by_lookup in Hlook as [??]. by exists o.
  - exists k. eexists. rewrite Hcomp, Hadd. cbn. by rewrite lookup_insert_eq.
Qed.

Lemma by_completion_single session req r d d' :
  select (by_completion (cr_CompletionID req)) (db_completions d) = [] →
  completion_added session req r d d' → ∃ row,
    select (by_completion (cr_CompletionID req)) (db_completions d') = [row] ∧
    lc_RequestDigest row = cr_RequestDigest req ∧ lc_Response row = completion_json r.
Proof.
  intros Hsel (k & t & Hk & ->). eexists. split.
  - apply select_insert_single; [done|done|]. by apply bool_decide_true.
  - done.
Qed.

(** A stored completion is returned to whoever owns the session. *)
Lemma ApplyCompletion_stored device sid req now q c session row :
  q_mode q ≠ QSavepoint → cn_aborted c = false →
  db_sessions (cn_db c) !! sid = Some session → ls_StudentID session = dv_StudentID device →
  select (by_completion (cr_CompletionID req)) (db_completions (cn_db c)) = [row] →
  ApplyCompletion device sid req now q c =
  (c, if bool_decide (lc_RequestDigest row = cr_RequestDigest req) then Ok (lc_Response row)
      else Err (ErrConflict "completion id reused with different digest")).
Proof.
  intros Hq Hl Hs Hown Hsel. unfold ApplyCompletion, WithTx.
  assert (completionTx device sid req now (mkEnv QTx (q_now q)) c =
    (c, if bool_decide (lc_RequestDigest row = cr_RequestDigest req) then Ok (lc_Response row)
        else Err (ErrConflict "completion id reused with different digest"))) as Hrun.
  { unfold completionTx, mbind, M_bind, GetSession. rewrite (Get_run _ _ _ session) by done.
    rewrite bool_decide_true by done. cbn [negb]. unfold attempt, GetCompletionByID, mbind, M_bind.
    rewrite query_run by done. change (λ x, bool_decide (lc_CompletionID x = _))
      with (by_completion (cr_CompletionID req)). rewrite Hsel. cbn [exactly_one mret M_ret].
    by destruct (bool_decide (lc_RequestDigest row = _)). }
  destruct (q_mode q); [| |done]; rewrite Hl, Hrun;
    destruct (bool_decide (lc_RequestDigest row = _)); by rewrite ?Hl.
Qed.

(** Retrying a completion is safe.  Once [ApplyCompletion] has answered a request
    for the first time, accepted or rejected, sending the same request again, from
    any device of the student and at any time, returns the stored result (the
    first one as JSON keeps it) and changes nothing. *)
Lemma ApplyCompletion_idempotent device sid req now q c c' r device2 now2 q2 :
  q_mode q ≠ QSavepoint → q_mode q2 ≠ QSavepoint → keyed (cn_db c) → keyed_sessions (cn_db c) →
  first_submission (cn_db c) req → dv_StudentID device2 = dv_StudentID device →
  ApplyCompletion device sid req now q c = (c', Ok r) →
  ApplyCompletion device2 sid req now2 q2 c' = (c', Ok (completion_json r)).
Proof.
  intros Hq Hq2 Hk Hks Hf Hdev Hr.
  apply ApplyCompletion_cases in Hr as (_ & Hl' & session & Hs & Hown & Hr); [|done|done].
  assert (∃ s' row, db_sessions (cn_db c') !! sid = Some s' ∧ ls_StudentID s' = dv_StudentID device ∧
    select (by_completion (cr_CompletionID req)) (db_completions (cn_db c')) = [row] ∧
    lc_RequestDigest row = cr_RequestDigest req ∧ lc_Response row = completion_json r)
    as (s' & row & Hs' & Hown' & Hsel & Hdig & Hresp).
  { destruct Hr as [(_ & k & row & Hrow & Hid & _)|(Hsel & _ & [(_ & -> & Hadd)|[_ _ Hb Hse _]])].
    - exfalso. by eapply Hf.
    - destruct (by_completion_single _ _ _ _ _ Hsel Hadd) as (row & ? & ? & ?).
      exists session, row. split_and!; try done. by destruct Hadd as (k & t & _ & ->).
    - destruct Hb as (rev & act & content & links & evids & trs & summary & d1 & d2 & _ & _ & _ & _ & _
        & _ & _ & [_ [Hfr _] _ _] & Hadd & Hcomp & _).
      destruct Hse as (x & s' & Hx & Hs' & Hstu & _). rewrite (Hks _ _ Hs) in Hx, Hs'.
      assert (select (by_completion (cr_CompletionID req)) (db_completions d1) = []) as Hsel1.
      { rewrite Hfr. exact Hsel. }
      destruct (by_completion_single _ _ _ _ _ Hsel1 Hadd) as (row & ? & ? & ?).
      exists s', row. rewrite Hcomp. split_and!; try done. congruence. }
  rewrite (ApplyCompletion_stored _ _ _ _ _ _ s' row); [|done|done|done|congruence|done].
  by rewrite bool_decide_true, Hresp by done.
Qed.

(** A completion id is bound to one request.  Reusing it with another digest is
    refused with a conflict and leaves the database as it is. *)
Lemma ApplyCompletion_digest_conflict device sid req now q c session row :
  q_mode q ≠ QSavepoint → cn_aborted c = false →
  db_sessions (cn_db c) !! sid = Some session → ls_StudentID session = dv_StudentID device →
  select (by_completion (cr_CompletionID req)) (db_completions (cn_db c)) = [row] →
  lc_RequestDigest row ≠ cr_RequestDigest req →
  ApplyCompletion device sid req now q c
  = (c, Err (ErrConflict "completion id reused with different digest")).
Proof.
  intros. erewrite ApplyCompletion_stored; [|done..]. by rewrite bool_decide_false.
Qed.

Lemma InsertCompletion_run session req r q c :
  cn_aborted c = false → completion_encodable r = true →
  select (by_completion (cr_CompletionID req)) (db_completions (cn_db c)) = [] →
  select (by_session (ls_ID session)) (db_completions (cn_db c)) = [] →
  is_Some (db_sessions (cn_db c) !! ls_ID session) →
  ∃ c' row, InsertCompletion (ls_ID session) (cr_CompletionID req) (cr_RequestDigest req) r q c
    = (c', Ok row) ∧ cn_aborted c' = false ∧ completion_added session req r (cn_db c) (cn_db c').
Proof.
  intros Hl He Hid Hse Hs.
  destruct (InsertCompletion (ls_ID session) (cr_CompletionID req) (cr_RequestDigest req) r q c)
    as [c' res] eqn:Hr.
  destruct res as [row|e].
  { exists c', row. pose proof Hr as [Hadd Hl']%InsertCompletion_Ok. done. }
  exfalso. revert Hr. unfold InsertCompletion, Create, stmt. rewrite He, Hl.
  replace (violation _ _) with (None : option string); [done|]. symmetry.
  cbn [violation row_completions]. unfold violation_completion.
  cbn [lc_ID lc_CompletionID lc_SessionID].
  rewrite !first_violation_cons. split_and!; [| | | |done].
  - apply negb_true_iff, bool_decide_eq_false. intros [x Hx].
    pose proof (Create_fresh (A:=LearningSessionCompletion) (cn_db c)) as Hn.
    cbn in Hn, Hx. congruence.
  - apply negb_true_iff. apply has_row_false. intros k x Hx.
    destruct (bool_decide _) eqn:Hb; [|done]. exfalso.
    assert (x ∈ select (by_completion (cr_CompletionID req)) (db_completions (cn_db c))) as Hin.
    { apply elem_of_select. eauto. }
    rewrite Hid in Hin. by apply elem_of_nil in Hin.
  - apply negb_true_iff. apply has_row_false. intros k x Hx.
    destruct (bool_decide _) eqn:Hb; [|done]. exfalso.
    assert (x ∈ select (by_session (ls_ID session)) (db_completions (cn_db c))) as Hin.
    { apply elem_of_select. eauto. }
    rewrite Hse in Hin. by apply elem_of_nil in Hin.
  - by apply bool_decide_true.
Qed.

(** Work on a cancelled assignment.  When a student sends the completion of an
    open session whose assignment was cancelled meanwhile, [ApplyCompletion]
    answers with a rejected result (it does not fail), stores that answer under the
    completion id, and touches nothing else: no mastery, no evidence, no change of
    the session or the assignment. *)
Lemma ApplyCompletion_cancelled device sid req now q c session asg :
  q_mode q ≠ QSavepoint → cn_aborted c = false → keyed_sessions (cn_db c) →
  db_sessions (cn_db c) !! sid = Some session → ls_StudentID session = dv_StudentID device →
  ls_State session ∉ [SessionCompleted; SessionAbandoned] →
  select (by_completion (cr_CompletionID req)) (db_completions (cn_db c)) = [] →
  select (by_session sid) (db_completions (cn_db c)) = [] →
  db_assignments (cn_db c) !! ls_AssignmentID session = Some asg →
  sa_StudentID asg = dv_StudentID device → sa_State asg = AssignmentCancelled →
  ∃ c', ApplyCompletion device sid req now q c = (c', Ok (cancelled_result session req)) ∧
    completion_added session req (cancelled_result session req) (cn_db c) (cn_db c').
Proof.
  intros Hq Hl Hks Hs Hown Hst Hid Hse Hasg Hown' Hcan.
  pose proof (Hks _ _ Hs) as Hsid. rewrite <-Hsid in Hse.
  destruct (InsertCompletion_run session req (cancelled_result session req)
    (mkEnv QTx (q_now q)) c Hl eq_refl Hid Hse) as (c' & row & Hins & Hl' & Hadd).
  { rewrite Hsid. by exists session. }
  exists c'. split; [|done]. apply WithTx_Ok; [done|]. split_and!; [done| |done].
  unfold completionTx. apply M_bind_Ok. exists c, session. split; [by apply Get_run|].
  rewrite bool_decide_true by done. cbn [negb].
  apply M_bind_Ok. exists c, (Err ErrNotFound). split.
  { apply attempt_run. unfold GetCompletionByID, mbind, M_bind. rewrite query_run by done.
    change (λ x, bool_decide _) with (by_completion (cr_CompletionID req)). by rewrite Hid. }
  apply M_bind_Ok. exists c, (Err ErrNotFound). split.
  { apply attempt_run. unfold GetCompletionBySession, mbind, M_bind. rewrite query_run by done.
    change (λ x, bool_decide _) with (by_session sid). by rewrite <-Hsid, Hse. }
  unfold openCompletion, one_of. rewrite bool_decide_false by done.
  apply M_bind_Ok. exists c, asg. split; [by apply Get_run|].
  rewrite bool_decide_true by done. cbn [negb]. rewrite bool_decide_true by done.
  apply M_bind_Ok. exists c', row. done.
Qed.

(** ** Evidence from responses *)

Lemma applyResponseLink_Ok cls ref prov resp act now link ids q c c' ids' :
  q_mode q = QTx → cn_aborted c = false → keyed (cn_db c) →
  applyResponseLink cls ref prov resp act now link ids q c = (c', Ok ids') →
  cn_aborted c' = false ∧
  ∃ std, db_standards (cn_db c) !! lk_StandardID link = Some std ∧
  (standardEligibleForActivity (la_Kind act) (sd_Code std) = false ∧ c' = c ∨
   ∃ rec rec' accepted, link_effect (sr_StudentID resp) (lk_StandardID link) cls
       (cn_db c) (cn_db c') rec rec' accepted ∧
     gated (policyFromLink link (la_Kind act)) accepted (mr_Status rec) (mr_Status rec') ∧
     ∃ k row, db_mastery_evidence (cn_db c') !! k = Some row ∧
              evidence_of (mr_ID rec) (ref std) row = true).
Proof.
  intros Hq Hl Hk Hr. unfold applyResponseLink in Hr.
  apply M_bind_Ok in Hr as (c0 & std & H0 & Hr). apply Get_Ok in H0 as (_ & -> & Hstd).
  destruct (standardEligibleForActivity _ _) eqn:Hel; cbn [negb] in Hr;
    [|injection Hr as <- <-; split; [done|]; exists std; split; [done|by left]].
  apply M_bind_Ok in Hr as (c1 & [rec b] & Hup & Hr). cbn [fst] in Hr.
  apply M_bind_Ok in Hr as (c2 & [evid ins] & Hins & Hr). cbn [fst snd] in Hr.
  pose proof Hins as (_ & Hl2 & Hcase)%insertEvidence_Ok.
  assert (∃ k row, db_mastery_evidence (cn_db c2) !! k = Some row ∧
    evidence_of (mr_ID rec) (ref std) row = true) as Hrow.
  { destruct Hcase as [(_ & _ & ->)|(_ & -> & _ & l & Hids)].
    - exists evid. eexists. cbn. rewrite lookup_insert_eq. split; [done|].
      unfold evidence_of. cbn. by rewrite !bool_decide_true.
    - destruct (select _ _) as [|row ?] eqn:Hsel; [done|].
      assert (row ∈ select (evidence_of (mr_ID rec) (ref std)) (db_mastery_evidence (cn_db c1)))
        as Hin by (rewrite Hsel; left).
      apply elem_of_select in Hin as [[k ?] ?]. by exists k, row. }
  destruct ins; cbn [negb] in Hr.
  - apply M_bind_Ok in Hr as (c3 & classes & Hcl & Hr). pose proof Hcl as [-> _]%listAccepted_Ok.
    pose proof (accepted_rows _ _ _ _ _ _ _ _ _ _ _ _ _ _ Hins Hcl) as Hacc. cbn [fst] in Hacc.
    pose proof (evidence_effect _ _ _ _ _ _ _ _ _ _ _ _ _ _ _ _ _ _ Hq Hl Hk Hup Hins Hacc) as E.
    pose proof (effect_climb (sr_StudentID resp) (lk_StandardID link) cls (cn_db c) q c2) as Hc.
    specialize (λ c' u, Hc c' rec (addClass classes cls) (policyFromLink link (la_Kind act))
      (lk_Role link) (lk_Weight link) now u).
    destruct (proposedStatus _ _ _ _) as [cand cc].
    destruct (highestAllowedStatus _ _ _ _) as [[allowed missing] sat]. cbn [fst] in Hc.
    destruct (changed _ _ _).
    + apply M_bind_Ok in Hr as (c4 & u & Hu & Hr). injection Hr as <- <-.
      destruct (Hc c4 u E Hu) as (rec' & E' & _ & Hg). pose proof Hu as (_ & _ & Hl4)%stmt_Ok.
      split; [done|]. exists std. split; [done|]. right. exists rec, rec', (addClass classes cls).
      split_and!; [done|done|]. destruct Hrow as (k & row & Hkr & ?). exists k, row. split; [|done].
      apply updateMasteryAggregate_Ok with (r := rec) in Hu;
        [by rewrite Hu|by eapply effect_lookup].
    + injection Hr as <- <-. split; [done|]. exists std. split; [done|]. right.
      exists rec, rec, (addClass classes cls). split_and!; [done|apply gated_refl|done].
  - injection Hr as <- <-. split; [done|]. exists std. split; [done|]. right. exists rec, rec, [].
    split_and!; [|apply gated_refl|done].
    eapply evidence_effect; [done|done|done|exact Hup|exact Hins|]. by intros x ?%elem_of_nil.
Qed.

(** The one record of a student for a standard. *)
Definition sole_record (d : database) (stu std k : string) : Prop :=
  (∃ rec, db_mastery_records d !! k = Some rec ∧ record_of stu std rec = true) ∧
  ∀ j r, db_mastery_records d !! j = Some r → record_of stu std r = true → j = k.

Lemma sole_record_select d stu std k :
  sole_record d stu std k → ∃ rec, db_mastery_records d !! k = Some rec ∧
    select (record_of stu std) (db_mastery_records d) = [rec].
Proof.
  intros [(rec & Hr & Hp) Hu]. exists rec. split; [done|]. rewrite <-(insert_delete_id _ _ _ Hr).
  apply select_insert_single; [by rewrite lookup_delete_eq| |done].
  apply filter_none, Forall_forall. intros x (j & [Hj Hx]%lookup_delete_Some)%elem_of_rows Hpx.
  by destruct Hj; symmetry; eapply Hu.
Qed.

Lemma select_sole_record d stu std rec :
  keyed d → select (record_of stu std) (db_mastery_records d) = [rec] →
  sole_record d stu std (mr_ID rec).
Proof.
  intros Hk Hsel. split.
  - exists rec. destruct (select_single_lookup _ _ _ _ Hk Hsel) as (? & <- & <-).
    split; [done|]. unfold record_of. by rewrite !bool_decide_true.
  - intros j r Hr Hp. assert (r ∈ select (record_of stu std) (db_mastery_records d)) as Hin.
    { apply elem_of_select. eauto. }
    rewrite Hsel in Hin. apply list_elem_of_singleton in Hin as ->. symmetry. by apply Hk.
Qed.

Lemma record_of_effect stu std cls d d' rec rec' accepted stu0 std0 :
  link_effect stu std cls d d' rec rec' accepted →
  record_of stu0 std0 rec' = record_of stu0 std0 rec.
Proof.
  intros [[S1 S2] [T1 T2] _ _ _ _ _ _ _]. unfold record_of. by rewrite S1, S2, T1, T2.
Qed.

Lemma effect_sole stu std cls d d' rec rec' accepted :
  keyed d → link_effect stu std cls d d' rec rec' accepted → sole_record d' stu std (mr_ID rec).
Proof.
  intros Hk E. destruct E as [[S1 S2] [T1 T2] _ Hb Hrecs _ _ _ _]. unfold sole_record. rewrite Hrecs. split.
  - exists rec'. rewrite lookup_insert_eq. split; [done|]. unfold record_of. by rewrite !bool_decide_true.
  - intros j r. rewrite lookup_insert. case_decide as Hj; [done|]. intros Hr Hp.
    destruct Hb as [[_ Hsel]|(Hsel & _)].
    + eapply select_sole_record in Hsel as [_ Hu]; [|done]. by eapply Hu.
    + assert (r ∈ select (record_of stu std) (db_mastery_records d)) as Hin
        by (apply elem_of_select; eauto). rewrite Hsel in Hin. by apply elem_of_nil in Hin.
Qed.

Lemma effect_keeps_sole stu std cls d d' rec rec' accepted stu0 std0 k :
  link_effect stu std cls d d' rec rec' accepted → sole_record d stu0 std0 k →
  sole_record d' stu0 std0 k.
Proof.
  intros E [(r0 & Hr0 & Hp0) Hu]. pose proof (record_of_effect _ _ _ _ _ _ _ _ stu0 std0 E) as Hsame.
  destruct E as [[S1 _] [T1 _] _ Hb Hrecs _ _ _ _]. unfold sole_record. rewrite Hrecs.
  assert (∀ j r, <[mr_ID rec := rec']> (db_mastery_records d) !! j = Some r →
    record_of stu0 std0 r = true → j = k) as Hu'.
  { intros j r. rewrite lookup_insert. case_decide as Hj; [|by eauto]. intros [= <-] Hp. subst j.
    rewrite Hsame in Hp. destruct Hb as [[Hb _]|(Hsel & Hnone & _)]; [by eauto|].
    assert (r0 ∈ select (record_of stu std) (db_mastery_records d)) as Hin.
    { apply elem_of_select. split; [by exists k|].
      apply andb_true_iff in Hp as [Hp1%bool_decide_eq_true Hp2%bool_decide_eq_true].
      by rewrite <-S1, <-T1, Hp1, Hp2. }
    rewrite Hsel in Hin. by apply elem_of_nil in Hin. }
  split; [|done]. destruct (decide (mr_ID rec = k)) as [<-|Hne].
  - exists rec'. rewrite lookup_insert_eq. split; [done|]. rewrite Hsame.
    destruct Hb as [[Hb _]|(_ & Hnone & _)]; congruence.
  - exists r0. by rewrite lookup_insert_ne.
Qed.

(** The link's evidence is recorded: its sole record exists and holds a row with the
    link's source reference. *)
Definition link_recorded (ref : Standard → string) (stu : string) (act : LearningActivity)
    (d : database) (link : LearningActivityRevisionStandard) : Prop :=
  ∃ std, db_standards d !! lk_StandardID link = Some std ∧
    (standardEligibleForActivity (la_Kind act) (sd_Code std) = false ∨
     ∃ k j row, sole_record d stu (lk_StandardID link) k ∧
       db_mastery_evidence d !! j = Some row ∧ evidence_of k (ref std) row = true).

Lemma link_recorded_effect ref stu act d d' link stu' std' cls rec rec' accepted :
  link_effect stu' std' cls d d' rec rec' accepted →
  link_recorded ref stu act d link → link_recorded ref stu act d' link.
Proof.
  intros E (std & Hstd & Hrec). pose proof (link_effect_mastery_only _ _ _ _ _ _ _ _ E) as [Hf Hsub].
  exists std. split; [by rewrite Hf|]. destruct Hrec as [?|(k & j & row & Hs & Hj & He)]; [by left|].
  right. exists k, j, row. split_and!; [by eapply effect_keeps_sole|by eapply lookup_weaken|done].
Qed.

Lemma response_links_Ok cls ref prov resp act now q : ∀ links done c c' ids ids',
  q_mode q = QTx → cn_aborted c = false → keyed (cn_db c) →
  Forall (link_recorded ref (sr_StudentID resp) act (cn_db c)) done →
  for_M (applyResponseLink cls ref prov resp act now) links ids q c = (c', Ok ids') →
  cn_aborted c' = false ∧ keyed (cn_db c') ∧ mastery_only (cn_db c) (cn_db c') ∧
  Forall (link_recorded ref (sr_StudentID resp) act (cn_db c')) (done ++ links).
Proof.
  induction links as [|link links IH]; intros done c c' ids ids' Hq Hl Hk Hdone Hr.
  { injection Hr as <- <-. rewrite app_nil_r. split_and!; [done|done|reflexivity|done]. }
  apply for_M_cons_Ok in Hr as (c1 & ids1 & H1 & H2).
  apply applyResponseLink_Ok in H1 as (Hl1 & std & Hstd & Hcase); [|done|done|done].
  replace (done ++ link :: links) with ((done ++ [link]) ++ links) by by rewrite <-app_assoc.
  destruct Hcase as [[Hel ->]|(rec & rec' & accepted & E & _ & j & row & Hj & Hev)].
  - eapply IH; [done|done|done| |exact H2]. apply Forall_app; split; [done|].
    constructor; [|done]. exists std. split; [done|by left].
  - pose proof (link_effect_mastery_only _ _ _ _ _ _ _ _ E) as Honly.
    destruct (IH (done ++ [link]) c1 c' ids1 ids' Hq Hl1) as (? & ? & ? & ?); [| |exact H2|].
    + by eapply effect_keyed.
    + apply Forall_app; split.
      * eapply Forall_impl; [exact Hdone|]. intros l. by eapply link_recorded_effect.
      * constructor; [|done]. exists std. split; [by rewrite (proj1 Honly)|]. right.
        exists (mr_ID rec), j, row. split_and!; [by eapply effect_sole|done|done].
    + split_and!; [done|done|by etrans|done].
Qed.

Lemma insertEvidence_again recID ref cls prov ver now sid chk q c j row :
  cn_aborted c = false → ref ≠ "" → db_mastery_evidence (cn_db c) !! j = Some row →
  evidence_of recID ref row = true →
  ∃ id, insertEvidence recID ref cls prov ver now sid chk q c = (c, Ok (id, false)).
Proof.
  intros Hl Hne Hj Hev. unfold insertEvidence, tryInsertEvidence, mbind, M_bind, stmt. rewrite Hl.
  replace (has_row _ _) with true.
  2: { symmetry. apply has_row_true. exists j, row. by rewrite bool_decide_false. }
  assert (mkConn (cn_db c) false = c) as Hc by (destruct c; cbn in *; congruence). rewrite Hc.
  rewrite query_run by done.
  assert (row ∈ select (evidence_of recID ref) (db_mastery_evidence (cn_db c))) as Hin
    by (apply elem_of_select; eauto).
  destruct (select _ _) as [|x l]; [by apply elem_of_nil in Hin|]. by exists (me_ID x).
Qed.

Lemma response_link_again cls ref prov resp act now link ids q c :
  cn_aborted c = false → keyed (cn_db c) → (∀ std, ref std ≠ "") →
  link_recorded ref (sr_StudentID resp) act (cn_db c) link →
  ∃ ids', applyResponseLink cls ref prov resp act now link ids q c = (c, Ok ids').
Proof.
  intros Hl Hk Hne (std & Hstd & Hrec). unfold applyResponseLink, mbind, M_bind at 1.
  rewrite (Get_run _ _ _ std) by done.
  destruct Hrec as [->|(k & j & row & Hs & Hj & Hev)]; [by eexists|].
  destruct (standardEligibleForActivity _ _); [|by eexists]. cbn [negb].
  destruct (sole_record_select _ _ _ _ Hs) as (rec & Hrec & Hsel).
  assert (upsertMasteryRecord (sr_StudentID resp) (lk_StandardID link) q c = (c, Ok (rec, false))) as Hup.
  { unfold upsertMasteryRecord, mbind, M_bind, attempt, selectMastery, mbind, M_bind.
    rewrite query_run, Hsel by done. done. }
  unfold mbind, M_bind. rewrite Hup. cbn [fst].
  assert (mr_ID rec = k) as Hid by by apply Hk. rewrite <-Hid in Hev.
  destruct (insertEvidence_again (mr_ID rec) (ref std) cls (prov std link)
    (ep_Version (policyFromLink link (la_Kind act))) now (sr_SessionID resp) (sr_TaskID resp)
    q c j row Hl (Hne std) Hj Hev) as (id & Hins).
  rewrite Hins. by eexists.
Qed.

Lemma applyResponse_idempotent cls ref prov prov2 resp now q c c' ids now2 q2 :
  (∀ std, ref std ≠ "") → q_mode q ≠ QSavepoint → q_mode q2 ≠ QSavepoint → keyed (cn_db c) →
  applyResponse cls ref prov resp now q c = (c', Ok ids) →
  ∃ ids2, applyResponse cls ref prov2 resp now2 q2 c' = (c', Ok ids2).
Proof.
  intros Hne Hq Hq2 Hk Hr. apply WithTx_Ok in Hr as (Hl & Hr & Hl'); [|done].
  apply M_bind_Ok in Hr as (c1 & rev & H1 & Hr). apply Get_Ok in H1 as (_ & -> & Hrev).
  apply M_bind_Ok in Hr as (c1 & act & H1 & Hr). apply Get_Ok in H1 as (_ & -> & Hact).
  apply M_bind_Ok in Hr as (c1 & links & H1 & Hr). apply query_Ok in H1 as (_ & -> & ->).
  apply (response_links_Ok _ _ _ _ _ _ (mkEnv QTx (q_now q)) _ []) in Hr
    as (_ & Hk' & [Hf _] & Hall); [|done|done|done|done]. cbn [app] in Hall.
  set (links := order_by _ _) in Hall.
  assert (∃ ids2, for_M (applyResponseLink cls ref prov2 resp act now2) links [] (mkEnv QTx (q_now q2)) c'
    = (c', Ok ids2)) as (ids2 & Hloop).
  { generalize (@nil string) as acc. induction Hall as [|link l Hlink _ IH]; intros acc; [by eexists|].
    destruct (response_link_again cls ref prov2 resp act now2 link acc (mkEnv QTx (q_now q2)) c' Hl' Hk' Hne Hlink)
      as (acc1 & H1). destruct (IH acc1) as (ids2 & H2). exists ids2.
    apply for_M_cons_Ok. by exists c', acc1. }
  exists ids2. apply WithTx_Ok; [done|]. split_and!; [done| |done].
  apply M_bind_Ok. exists c', rev. split; [apply Get_run; [done|by rewrite Hf]|].
  apply M_bind_Ok. exists c', act. split; [apply Get_run; [done|by rewrite Hf]|].
  apply M_bind_Ok. exists c', links. split; [|done].
  apply query_Ok. split_and!; [done|done|]. rewrite Hf. done.
Qed.

(** Recording a response twice counts once.  After [ApplyConceptualResponse] has
    recorded the evidence of a response, a second call for the same response
    succeeds and leaves the database as it is (no second evidence row, no further
    rise of a status or a confidence); the same holds of [ApplyParentAttestation],
    also when another educator repeats it. *)
Lemma response_evidence_idempotent resp educator educator2 now now2 q q2 c c' ids :
  q_mode q ≠ QSavepoint → q_mode q2 ≠ QSavepoint → keyed (cn_db c) →
  (ApplyConceptualResponse resp now q c = (c', Ok ids) →
   ∃ ids2, ApplyConceptualResponse resp now2 q2 c' = (c', Ok ids2)) ∧
  (ApplyParentAttestation resp educator now q c = (c', Ok ids) →
   ∃ ids2, ApplyParentAttestation resp educator2 now2 q2 c' = (c', Ok ids2)).
Proof.
  intros Hq Hq2 Hk. unfold ApplyConceptualResponse, ApplyParentAttestation.
  split; intros Hr; (eapply applyResponse_idempotent; [|exact Hq|exact Hq2|exact Hk|exact Hr]).
  all: intros std; rewrite append_cons; discriminate.
Qed.

(** A failing completion leaves no trace.  Run on the pool or in a transaction,
    [ApplyCompletion] that returns an error, at whatever statement, leaves the
    database exactly as it was; so do the two evidence handlers. *)
Lemma mastery_error_atomic device sid req resp educator now q c :
  q_mode q ≠ QSavepoint →
  (∀ c' e, ApplyCompletion device sid req now q c = (c', Err e) → cn_db c' = cn_db c) ∧
  (∀ c' e, ApplyConceptualResponse resp now q c = (c', Err e) → cn_db c' = cn_db c) ∧
  (∀ c' e, ApplyParentAttestation resp educator now q c = (c', Err e) → cn_db c' = cn_db c).
Proof. intros Hq. split_and!; intros c' e; by apply WithTx_atomic. Qed.
End effects.

(** ** The ladder on its own *)

(** The status and confidence after one piece of evidence. *)
Definition climb (from : string) (fromConf : f64) (role : string) (weight : f64)
    (accepted : list string) (policy : EvidencePolicy) : string * f64 :=
  let '(cand, cc) := proposedStatus from fromConf role weight in
  advance from fromConf cand cc (highestAllowedStatus from cand accepted policy).1.1 weight.

Lemma status_rank_cases s : statusRank s = 0%Z ∨ s ∈ status_order.
Proof.
  unfold statusRank, status_order. destruct (one_of _ _); [by left|].
  repeat case_bool_decide; subst; [right; set_solver..|by left].
Qed.

(** Procedure alone is not mastery.  Under the default policy of terminal
    activities, a student whose accepted evidence is all procedural is never lifted
    above [in_progress] by a completion, whatever the confidence, the role or the
    weight; any rise above it has a conceptual response behind it. *)
Lemma terminal_policy_needs_concepts from fromConf role weight accepted :
  EvidenceConceptualResponse ∉ accepted →
  (statusRank (climb from fromConf role weight accepted DefaultTerminalEvidencePolicy).1
   ≤ Z.max (statusRank from) 1)%Z.
Proof.
  intros Hno. unfold climb.
  pose proof (advance_gated from fromConf role weight accepted DefaultTerminalEvidencePolicy) as Hg.
  destruct (proposedStatus _ _ _ _) as [cand cc]. cbn zeta in Hg.
  set (new := advance _ _ _ _ _ _) in *.
  destruct (decide (statusRank new.1 ≤ Z.max (statusRank from) 1)%Z) as [|Hgt]; [done|]. exfalso.
  destruct (status_rank_cases new.1) as [Hz|Hin]; [lia|].
  assert (missingForStatus new.1 accepted DefaultTerminalEvidencePolicy = []) as Hm.
  { apply Hg; [done|lia]. }
  apply Hno. unfold status_order in Hin. repeat (apply elem_of_cons in Hin as [Hin|Hin]).
  - rewrite Hin in Hgt. change (statusRank "in_progress") with 1%Z in Hgt. lia.
  - rewrite Hin in Hm. eapply missing_nil_required; [|exact Hm|reflexivity|]; set_solver.
  - rewrite Hin in Hm. eapply missing_nil_required; [|exact Hm|reflexivity|]; set_solver.
  - by apply elem_of_nil in Hin.
Qed.

Lemma terminal_policy_needs_concepts_witness :
  (statusRank (climb "in_progress" (f64_lit 9 10) "primary" fone ["procedural_continuous"]
     DefaultTerminalEvidencePolicy).1 ≤ 1)%Z.
Proof.
  apply (terminal_policy_needs_concepts "in_progress" (f64_lit 9 10) "primary" fone
           ["procedural_continuous"]).
  apply (bool_decide_unpack _). vm_compute. exact I.
Defined.

(** A status and a confidence that agree: the thresholds of [statusFor]. *)
Definition consistent (status : string) (conf : f64) : bool :=
  if bool_decide (status = "mastered") then fle MasteredThreshold conf
  else if bool_decide (status = "approaching") then fle ApproachingThreshold conf
  else true.

Definition statuses : list string := "not_introduced" :: status_order.
Definition roles : list string := [StandardRolePrimary; StandardRoleReinforcement].

(** The step of one stored confidence [z/1000] at weight 1, as one boolean. *)
Definition climb_sound_at (z : Z) (from role : string) : bool :=
  let conf := f64_lit z 1000 in
  negb (consistent from conf) ||
  (let '(cand, cc) := proposedStatus from conf role fone in
   forallb (λ allowed,
     let new := advance from conf cand cc allowed fone in
     negb (bool_decide (statusRank from ≤ statusRank allowed)%Z) ||
     (bool_decide (statusRank from ≤ statusRank new.1)%Z && fle conf new.2 && unit_interval new.2 &&
      consistent new.1 new.2)) statuses).

Lemma climb_sound_all :
  forallb (λ z, forallb (λ from, forallb (climb_sound_at z from) roles) statuses) thousandths = true.
Proof. vm_cast_no_check (eq_refl true). Qed.

Lemma highestAllowed_in_statuses from cand accepted policy :
  from ∈ statuses → (highestAllowedStatus from cand accepted policy).1.1 ∈ statuses.
Proof.
  intros Hf. unfold highestAllowedStatus.
  destruct (allowed_loop_spec accepted policy (statusRank cand) status_order (statusRank from)
    (if bool_decide (from = "") then "not_introduced" else from)) as [H1 _].
  { apply status_order_sorted. } { left. rewrite statusRank_start. lia. }
  destruct (allowed_loop _ _ _ _ _ _) as [[allowed missing] sat]. cbn [fst] in *.
  destruct H1 as [->|[Hin _]]; [|by right]. case_bool_decide; [by left|done].
Qed.

(** C4: Evidence never takes mastery away.  For the default weight 1 and every
    confidence the NUMERIC(4,3) column can hold, one more piece of evidence on a
    record whose status and confidence agree keeps them in agreement, lowers
    neither, and leaves the confidence within [0,1]: for every role, policy and set
    of accepted evidence. *)
Theorem climb_sound z from role accepted policy :
  (0 ≤ z ≤ 1000)%Z → from ∈ statuses → role ∈ roles → consistent from (f64_lit z 1000) = true →
  let new := climb from (f64_lit z 1000) role fone accepted policy in
  (statusRank from ≤ statusRank new.1)%Z ∧ fle (f64_lit z 1000) new.2 = true ∧
  unit_interval new.2 = true ∧ consistent new.1 new.2 = true.
Proof.
  intros Hz Hf Hr Hc. pose proof climb_sound_all as Hall.
  rewrite forallb_forall_in in Hall. specialize (Hall z (thousandths_elem z Hz)). cbn beta in Hall.
  rewrite forallb_forall_in in Hall. specialize (Hall from Hf). cbn beta in Hall.
  rewrite forallb_forall_in in Hall. specialize (Hall role Hr). cbn zeta. unfold climb.
  unfold climb_sound_at in Hall. rewrite Hc in Hall. cbn [negb orb] in Hall.
  destruct (proposedStatus _ _ _ _) as [cand cc]. rewrite forallb_forall_in in Hall.
  destruct (highestAllowedStatus_spec from cand accepted policy) as [Hle _].
  specialize (Hall _ (highestAllowed_in_statuses from cand accepted policy Hf)).
  set (new := advance _ _ _ _ _ _) in *.
  rewrite bool_decide_true in Hall by lia. cbn [andb negb orb] in Hall.
  apply andb_true_iff in Hall as [[[H1%bool_decide_eq_true H2]%andb_true_iff H3]%andb_true_iff H4].
  done.
Qed.

Lemma climb_sound_witness :
  (1 ≤ statusRank (climb "in_progress" (f64_lit 350 1000) "primary" fone ["procedural_continuous"]
     DefaultTypingEvidencePolicy).1)%Z.
Proof.
  apply (climb_sound 350 "in_progress" "primary" ["procedural_continuous"]
           DefaultTypingEvidencePolicy); [lia| | |reflexivity];
    apply (bool_decide_unpack _); vm_compute; exact I.
Defined.

Definition demotes_at (z : Z) (role : string) : bool :=
  let conf := f64_lit z 1000 in
  let '(cand, cc) := proposedStatus "mastered" conf role fone in
  bool_decide (cand = "approaching") && flt conf cc.

Lemma demotes_all :
  forallb (λ z, (450 <=? z)%Z || demotes_at z "primary" &&
                ((z <=? 100)%Z || demotes_at z "reinforcement")) thousandths = true.
Proof. vm_compute. reflexivity. Qed.

Lemma allowed_mastered cand accepted policy :
  (highestAllowedStatus "mastered" cand accepted policy).1.1 = "mastered".
Proof.
  unfold highestAllowedStatus. rewrite bool_decide_false by done.
  destruct (allowed_loop_spec accepted policy (statusRank cand) status_order (statusRank "mastered")
    "mastered") as [H1 _]; [apply status_order_sorted|left; done|].
  destruct (allowed_loop _ _ _ _ _ _) as [[allowed missing] sat]. cbn [fst] in *.
  destruct H1 as [->|[Hin [Hr _]]]; [done|]. exfalso.
  assert (statusRank allowed ≤ 3)%Z as Hle by (unfold statusRank; repeat case_match; lia).
  change (statusRank "mastered") with 3%Z in Hr. lia.
Qed.

(** A success can demote.  When a mastered standard's confidence lies below 0.45,
    one more successful primary completion (weight 1) turns the status into
    [approaching]; a reinforcement does the same above 0.1, although [statusFor]
    means reinforcement to keep a mastered standard mastered. *)
Lemma success_demotes_mastered z accepted policy :
  (0 ≤ z < 450)%Z →
  (climb "mastered" (f64_lit z 1000) "primary" fone accepted policy).1 = "approaching" ∧
  ((100 < z)%Z → (climb "mastered" (f64_lit z 1000) "reinforcement" fone accepted policy).1 = "approaching").
Proof.
  intros Hz. pose proof demotes_all as Hall. rewrite forallb_forall_in in Hall.
  specialize (Hall z). cbn beta in Hall. rewrite (proj2 (Z.leb_gt 450 z)) in Hall by lia.
  cbn [orb] in Hall. specialize (Hall (thousandths_elem z ltac:(lia))).
  apply andb_true_iff in Hall as [H1 H2].
  assert (∀ role, demotes_at z role = true →
    (climb "mastered" (f64_lit z 1000) role fone accepted policy).1 = "approaching") as Hd.
  { intros role. unfold demotes_at, climb. destruct (proposedStatus _ _ _ _) as [cand cc].
    intros [Hc%bool_decide_eq_true Hlt]%andb_true_iff. rewrite allowed_mastered. subst cand.
    unfold advance. rewrite Hlt. done. }
  split; [by apply Hd|]. intros H100. apply Hd.
  rewrite (proj2 (Z.leb_gt z 100)) in H2 by lia. exact H2.
Qed.

Lemma success_demotes_mastered_witness :
  (climb "mastered" (f64_lit 200 1000) "primary" fone ["procedural_continuous"]
     DefaultTypingEvidencePolicy).1 = "approaching".
Proof.
  refine (proj1 (success_demotes_mastered 200 ["procedural_continuous"]
                   DefaultTypingEvidencePolicy _)). lia.
Defined.

(** ** Command evidence *)

(** Every leaf of a tree names a check of the activity, as the activity validator
    requires. *)
Fixpoint leaves_known (t : CheckTree) (checks : gmap string Check) : bool :=
  (bool_decide (ct_CheckID t = "") || bool_decide (is_Some (checks !! ct_CheckID t))) &&
  forallb (λ s, leaves_known s checks) (ct_All t) &&
  forallb (λ s, leaves_known s checks) (ct_Any t).

Definition content_known (content : ActivityContent) : bool :=
  forallb (λ t, leaves_known (tk_Completion t) (index_by ck_ID (ac_Checks content)))
    (ac_Tasks content).

(** Observations restricted to the checks the activity declares. *)
Definition known_obs (checks : gmap string Check) (obs : gmap string Observation)
  : gmap string Observation :=
  filter (λ p, is_Some (checks !! p.1)) obs.

Lemma evalTree_known t checks obs :
  leaves_known t checks = true → evalTree t (known_obs checks obs) = evalTree t obs.
Proof.
  induction t as [all any id opt Hall Hany] using CheckTree_rect'.
  rewrite Forall_forall in Hall, Hany.
  cbn [leaves_known evalTree ct_All ct_Any ct_CheckID ct_Optional].
  intros [[Hid Hka]%andb_true_iff Hky]%andb_true_iff.
  rewrite forallb_forall_in in Hka, Hky. destruct opt; [done|].
  destruct (bool_decide_reflect (id = "")) as [->|Hne]; cbn [negb orb] in *.
  - assert (∀ l (P : CheckTree → Prop), (∀ x, x ∈ l → evalTree x (known_obs checks obs) = evalTree x obs) →
      forallb (λ c, evalTree c (known_obs checks obs)) l = forallb (λ c, evalTree c obs) l ∧
      existsb (λ c, evalTree c (known_obs checks obs)) l = existsb (λ c, evalTree c obs) l) as Hl.
    { intros l _. induction l as [|x l IH]; intros Hx; [done|]. cbn.
      destruct IH as [-> ->]; [set_solver|]. rewrite Hx by left. done. }
    destruct all as [|a all].
    + destruct any as [|b any]; [done|]. apply (Hl (b :: any) (λ _, True)). intros x Hx. auto.
    + apply (Hl (a :: all) (λ _, True)). intros x Hx. auto.
  - apply bool_decide_eq_true in Hid. unfold known_obs.
    destruct (obs !! id) as [o|] eqn:Ho.
    + by rewrite (map_lookup_filter_Some_2 _ _ _ _ Ho).
    + by rewrite (map_lookup_filter_None_2 _ _ _ (or_introl Ho)).
Qed.

Lemma validateCapabilities_Ok content obs :
  validateObservationCapabilities content obs = Ok tt →
  ∀ o ch, o ∈ obs → ob_Passed o = true → ob_Optional o = false →
    index_by ck_ID (ac_Checks content) !! ob_CheckID o = Some ch →
    RequiresStructuredCommandEvidence (ck_Kind ch) = true →
    observationHasStructuredCommandEvidence o = true.
Proof.
  unfold validateObservationCapabilities. rewrite for_each_Ok, Forall_forall.
  intros Hall o ch Hin Hp Ho Hch Hk. specialize (Hall o Hin). cbn beta in Hall.
  rewrite Hp, Ho, Hch, Hk in Hall. cbn [negb orb] in Hall.
  by destruct (observationHasStructuredCommandEvidence o).
Qed.

(** Command evidence is needed where the activity needs it.  If every required
    completion path of the activity goes through a command-sensitive check
    ([RevisionRequiresStructuredCommand], the test on which
    [RejectIncompatibleRevision] turns runners away), then observations that pass
    both validations and are not flagged optional contain one that carries
    structured command evidence. *)
Lemma structured_completion_needs_evidence content obs :
  RevisionRequiresStructuredCommand content = true → content_known content = true →
  NoDup (ck_ID <$> ac_Checks content) →
  (∀ o, o ∈ obs → ob_Optional o = false) →
  validateRequiredChecks content obs = Ok tt → validateObservationCapabilities content obs = Ok tt →
  ∃ o, o ∈ obs ∧ ob_Passed o = true ∧ observationHasStructuredCommandEvidence o = true.
Proof.
  intros Hrev Hknown Hnd Hopt Hreq Hcap.
  destruct (existsb (λ o, ob_Passed o && observationHasStructuredCommandEvidence o) obs) eqn:Hex.
  { apply existsb_exists_in in Hex as (o & Hin & [??]%andb_true_iff). eauto. }
  exfalso. rewrite existsb_false_in in Hex.
  apply validateRequiredChecks_Ok in Hreq as [Hchecks Htasks].
  assert (∀ o ch, o ∈ obs → ob_Passed o = true →
    index_by ck_ID (ac_Checks content) !! ob_CheckID o = Some ch →
    RequiresStructuredCommandEvidence (ck_Kind ch) = false) as Hplain.
  { intros o ch Hin Hp Hch. destruct (RequiresStructuredCommandEvidence (ck_Kind ch)) eqn:Hk; [|done].
    specialize (Hex o Hin). cbn in Hex.
    by rewrite Hp, (validateCapabilities_Ok _ _ Hcap o ch Hin Hp (Hopt o Hin) Hch Hk) in Hex. }
  unfold RevisionRequiresStructuredCommand in Hrev.
  destruct (ac_Tasks content) as [|t0 ts] eqn:Ets.
  - apply andb_true_iff in Hrev as [Hall Hne].
    destruct (filter _ (ac_Checks content)) as [|ch chs] eqn:Ef; [done|].
    assert (ch ∈ filter (λ c, ck_Optional c = false) (ac_Checks content)) as Hin by (rewrite Ef; left).
    apply list_elem_of_filter in Hin as [Ho Hin].
    destruct (Hchecks ch Hin Ho) as (o & Hlook & Hp). apply index_by_lookup in Hlook as [Hoin Hoid].
    cbn in Hall. apply andb_true_iff in Hall as [Hk _].
    assert (index_by ck_ID (ac_Checks content) !! ob_CheckID o = Some ch) as Hch.
    { rewrite Hoid. by apply index_by_NoDup. }
    by rewrite (Hplain o ch Hoin Hp Hch) in Hk.
  - apply existsb_exists_in in Hrev as (t & Hin & [Hto Htr]%andb_true_iff).
    apply negb_true_iff in Hto. specialize (Htasks t Hin Hto).
    unfold content_known in Hknown. rewrite Ets, forallb_forall_in in Hknown. specialize (Hknown t Hin).
    rewrite <-(evalTree_known _ _ _ Hknown) in Htasks.
    rewrite (treeRequires_evalTree _ _ _ Htr) in Htasks; [done|].
    intros id o (Ho & [ch Hch])%map_lookup_filter_Some Hp. cbn in Hch.
    apply index_by_lookup in Ho as [Hoin <-]. exists ch. split; [done|]. by eapply Hplain.
Qed.

Definition flag_optional (o : Observation) : Observation :=
  mkObservation (ob_SchemaVersion o) (ob_CheckID o) (ob_Kind o) (ob_Passed o) true (ob_Message o)
    (ob_ObservedAt o) (ob_Details o).

Lemma index_by_flag obs :
  index_by ob_CheckID (flag_optional <$> obs) = flag_optional <$> index_by ob_CheckID obs.
Proof.
  induction obs as [|o obs IH] using rev_ind; [done|].
  rewrite fmap_app. change (flag_optional <$> [o]) with [flag_optional o].
  by rewrite !index_by_snoc, IH, fmap_insert.
Qed.

Lemma evalTree_flag t obs : evalTree t (flag_optional <$> obs) = evalTree t obs.
Proof.
  destruct (evalTree t obs) eqn:He.
  - eapply evalTree_mono; [|exact He]. intros id o Ho Hp. exists (flag_optional o).
    by rewrite lookup_fmap, Ho.
  - destruct (evalTree t (flag_optional <$> obs)) eqn:Hf; [|done]. rewrite <-He.
    symmetry. eapply evalTree_mono; [|exact Hf]. intros id o Ho Hp.
    rewrite lookup_fmap in Ho. destruct (obs !! id) as [o'|] eqn:Ho'; [|done].
    exists o'. split; [done|]. cbn in Ho. by simplify_eq.
Qed.

Lemma for_each_ext {E A} (f g : A → result E unit) l :
  (∀ x, f x = g x) → for_each f l = for_each g l.
Proof. intros Hfg. induction l as [|x l IH]; [done|]. cbn. by rewrite Hfg, IH. Qed.

(** The capability check trusts a flag of the client.  Whatever the activity and
    the observations, setting [optional] on every observation makes
    [validateObservationCapabilities] accept them, and changes nothing for
    [validateRequiredChecks]: an untrusted observation of a required command check
    goes through when the client marks it optional, although the check itself is
    required. *)
Lemma optional_flag_bypasses_capabilities content obs :
  validateObservationCapabilities content (flag_optional <$> obs) = Ok tt ∧
  validateRequiredChecks content (flag_optional <$> obs) = validateRequiredChecks content obs.
Proof.
  split.
  - unfold validateObservationCapabilities. apply for_each_Ok, Forall_forall.
    intros x (o & -> & _)%list_elem_of_fmap. cbn [flag_optional ob_Passed ob_Optional].
    by rewrite orb_true_r.
  - unfold validateRequiredChecks. rewrite index_by_flag.
    rewrite (for_each_ext _ (requiredCheck (index_by ob_CheckID obs)) (ac_Checks content)).
    2: { intros ch. unfold requiredCheck. rewrite lookup_fmap.
         by destruct (index_by ob_CheckID obs !! ck_ID ch). }
    by rewrite (for_each_ext _ (requiredTask (index_by ob_CheckID obs)) (ac_Tasks content))
      by (intros t; unfold requiredTask; by rewrite evalTree_flag).
Qed.

(** An untrusted source is never believed.  An observation whose details name a
    screen or pseudo-terminal source, in any spelling of case and surrounding blanks,
    carries no structured command evidence, whatever else its details claim. *)
Lemma untrusted_source_rejected o d v :
  ob_Details o = Some d → jget_str d "source" = Some v →
  ToLower (TrimSpace v) ∈ untrusted_sources →
  observationHasStructuredCommandEvidence o = false.
Proof.
  intros Hd Hv Hu. unfold observationHasStructuredCommandEvidence. rewrite Hd.
  replace (source_in d untrusted_sources) with true; [done|].
  symmetry. unfold source_in, normal_source. rewrite Hv. cbn [fmap option_fmap option_map].
  by apply bool_decide_true.
Qed.

Definition w_command_activity : ActivityContent :=
  mkContent "" "" [] None None
    [mkTask "t1" "" "" "" [] (mkCheckTree [] [] "c1" false) [] false None]
    [mkCheck "c1" "command_properties" false ∅ [] None []] [] None None None.
Definition w_trusted : Observation :=
  mkObservation "1" "c1" "command_properties" true false "" 7
    (Some (<["source" := JStr "observe-bash"]> ∅)).

Lemma structured_completion_needs_evidence_witness :
  ∃ o, o ∈ [w_trusted] ∧ ob_Passed o = true ∧ observationHasStructuredCommandEvidence o = true.
Proof.
  apply (structured_completion_needs_evidence w_command_activity [w_trusted]).
  - vm_compute. reflexivity.
  - vm_compute. reflexivity.
  - apply (bool_decide_unpack _). vm_compute. exact I.
  - intros o ->%list_elem_of_singleton. reflexivity.
  - vm_compute. reflexivity.
  - vm_compute. reflexivity.
Defined.

Section sample_runs.
#[local] Existing Instance sample_postgres.

(** A first completion under the default terminal policy reaches [in_progress]. *)
Example complete_terminal :
  let r := ApplyCompletion w_device "ss1" (w_request "cmp1") 200 w_pool w_conn in
  match r.2 with
  | Ok res => (cs_Accepted res, (λ t, (mt_FromStatus t, mt_ToStatus t)) <$> cs_MasteryTransitions res)
  | Err _ => (false, [])
  end = (true, [("not_introduced", "in_progress")]).
Proof. vm_compute. reflexivity. Qed.

Lemma w_keyed : keyed w_db.
Proof.
  intros k r Hk. change (db_mastery_records w_db) with (∅ : gmap string MasteryRecord) in Hk.
  by rewrite lookup_empty in Hk.
Qed.

Lemma w_keyed_sessions : keyed_sessions w_db.
Proof.
  intros k x Hk. change (db_sessions w_db) with
    (<["ss1" := w_session "ss1" "as1" "r1"]> (<["ss3" := w_session "ss3" "as3" "r1"]>
       (∅ : gmap string LearningSession))) in Hk.
  rewrite !lookup_insert in Hk. repeat case_decide; simplify_eq; done.
Qed.

Lemma w_first req : first_submission w_db req.
Proof.
  intros k r Hk. change (db_completions w_db) with (∅ : gmap string LearningSessionCompletion) in Hk.
  by rewrite lookup_empty in Hk.
Qed.

Definition w_run : conn * result err CompletionResult :=
  ApplyCompletion w_device "ss1" (w_request "cmp1") 200 w_pool w_conn.
Definition w_result : CompletionResult :=
  match w_run.2 with
  | Ok r => r
  | Err _ => accepted_result (w_session "ss1" "as1" "r1") (w_request "cmp1") "" ([], [])
  end.

Lemma w_run_Ok : w_run = (w_run.1, Ok w_result).
Proof. vm_compute. reflexivity. Qed.

Definition w_transition : MasteryTransition :=
  mkTransition "CS.SH.1" "not_introduced" "in_progress" (f64_lit 35 100) "student-client completion"
    "procedural_continuous" ["procedural_continuous"] ["conceptual_response"] true true.

Lemma ApplyCompletion_gated_witness :
  ∃ session link, db_sessions w_db !! "ss1" = Some session ∧
    has_evidence (cn_db w_run.1) (ls_StudentID session) (lk_StandardID link) "procedural_continuous".
Proof.
  edestruct (ApplyCompletion_gated w_device "ss1" (w_request "cmp1") 200 w_pool w_conn w_run.1 w_result
    w_transition) as (session & rev & act & link & std & Hs & Hrev & Hact & Hl & Hlr & Hst & Hc & Hg).
  - done.
  - exact w_keyed.
  - apply w_first.
  - exact w_run_Ok.
  - vm_compute. reflexivity.
  - vm_compute. left.
  - exists session, link. split; [exact Hs|].
    vm_compute in Hs. injection Hs as <-. vm_compute in Hrev. injection Hrev as <-.
    vm_compute in Hact. injection Hact as <-.
    assert (policyFromLink link "terminal" = DefaultTerminalEvidencePolicy) as Hpol.
    { destruct Hl as [k Hl]. change (db_links (cn_db w_conn)) with
        (<["l1" := w_link "l1" "r1" "st1" DefaultTerminalEvidencePolicy]>
          (<["l2" := w_link "l2" "r2" "st2" DefaultTypingEvidencePolicy]>
             (∅ : gmap string LearningActivityRevisionStandard))) in Hl.
      rewrite !lookup_insert in Hl. repeat case_decide; simplify_eq.
      vm_compute. reflexivity. }
    eapply (Hg "in_progress" "procedural_continuous" ["procedural_continuous"]).
    + apply (bool_decide_unpack _). vm_compute. exact I.
    + vm_compute. split; [reflexivity|discriminate].
    + change (la_Kind _) with "terminal". rewrite Hpol. vm_compute. reflexivity.
    + left.
Defined.

Lemma ApplyCompletion_isolated_witness :
  db_mastery_evidence w_db ⊆ db_mastery_evidence (cn_db w_run.1).
Proof.
  apply (ApplyCompletion_isolated w_device "ss1" (w_request "cmp1") 200 w_pool w_conn w_run.1 w_result);
    [done|exact w_keyed|exact w_run_Ok].
Defined.

Lemma ApplyCompletion_accepted_witness :
  ∃ k row, db_completions (cn_db w_run.1) !! k = Some row ∧
    lc_CompletionID row = "cmp1" ∧ lc_Response row = completion_json w_result.
Proof.
  edestruct (ApplyCompletion_accepted w_device "ss1" (w_request "cmp1") 200 w_pool w_conn w_run.1 w_result)
    as (session & asg & rev & content & _ & _ & _ & _ & _ & _ & _ & _ & _ & _ & _ & _ & _ & Hrow).
  - done.
  - exact w_keyed.
  - apply w_first.
  - exact w_run_Ok.
  - vm_compute. reflexivity.
  - exact Hrow.
Defined.

Lemma ApplyCompletion_idempotent_witness :
  ApplyCompletion w_device "ss1" (w_request "cmp1") 900 (mkEnv QPool 1000) w_run.1
  = (w_run.1, Ok (completion_json w_result)).
Proof.
  apply (ApplyCompletion_idempotent w_device "ss1" (w_request "cmp1") 200 w_pool w_conn w_run.1 w_result);
    [done|done|exact w_keyed|exact w_keyed_sessions|apply w_first|done|exact w_run_Ok].
Defined.

Lemma ApplyCompletion_digest_conflict_witness :
  ApplyCompletion w_device "ss1"
    (mkCompletionRequest "1" "cmp1" "other" [] [] ∅ 9 "") 900 w_pool w_run.1
  = (w_run.1, Err (ErrConflict "completion id reused with different digest")).
Proof.
  eapply (ApplyCompletion_digest_conflict w_device "ss1"
    (mkCompletionRequest "1" "cmp1" "other" [] [] ∅ 9 "") 900 w_pool w_run.1).
  - done.
  - vm_compute. reflexivity.
  - vm_compute. reflexivity.
  - vm_compute. reflexivity.
  - vm_compute. reflexivity.
  - vm_compute. discriminate.
Defined.

Lemma ApplyCompletion_cancelled_witness :
  ∃ c, ApplyCompletion w_device "ss3" (w_request "cmp3") 200 w_pool w_conn
    = (c, Ok (cancelled_result (w_session "ss3" "as3" "r1") (w_request "cmp3"))).
Proof.
  edestruct (ApplyCompletion_cancelled w_device "ss3" (w_request "cmp3") 200 w_pool w_conn
    (w_session "ss3" "as3" "r1") (w_assignment "as3" "r1" "cancelled")) as (c & Hc & _).
  - done.
  - done.
  - exact w_keyed_sessions.
  - vm_compute. reflexivity.
  - reflexivity.
  - apply (bool_decide_unpack _). vm_compute. exact I.
  - vm_compute. reflexivity.
  - vm_compute. reflexivity.
  - vm_compute. reflexivity.
  - reflexivity.
  - reflexivity.
  - exists c. exact Hc.
Defined.

Lemma mastery_error_atomic_witness :
  cn_db (ApplyCompletion w_device "no-session" (w_request "cmp1") 200 w_pool w_conn).1 = w_db.
Proof.
  eapply (mastery_error_atomic w_device "no-session" (w_request "cmp1")
    (mkStudentResponse "" "" "" "" "" "" "" "" "" "" "" 1 [] false 0 None None "" 0 0) "" 200 w_pool w_conn).
  - done.
  - vm_compute. reflexivity.
Defined.

Definition w_response : StudentResponse :=
  mkStudentResponse "rs1" "sub1" "s1" "ss1" "as1" "r1" "t1" "because" "sha" "submitted" "" 1 [] true
    0 None None "" 0 0.

Definition w_resp_run : conn * result err (list string) :=
  ApplyConceptualResponse w_response 300 w_pool w_conn.

Lemma w_resp_run_Ok : w_resp_run = (w_resp_run.1, Ok ["0"]).
Proof. vm_compute. reflexivity. Qed.

Lemma response_evidence_idempotent_witness :
  ∃ ids2, ApplyConceptualResponse w_response 900 (mkEnv QPool 1000) w_resp_run.1
  = (w_resp_run.1, Ok ids2).
Proof.
  destruct (response_evidence_idempotent w_response "p1" "p1" 300 900 w_pool (mkEnv QPool 1000) w_conn
    w_resp_run.1 ["0"]) as [Hc _].
  - discriminate.
  - discriminate.
  - exact w_keyed.
  - exact (Hc w_resp_run_Ok).
Defined.
End sample_runs.
