(* ===== verification/CourseRepo.v ===== *)
(** * Courses and enrollments ([repo/course.go])

    The queries on course revisions and student progress that the overseer uses,
    and the operations a parent has on an enrollment: enroll, pause, resume, pin,
    override, each with its audit event. *)
From S2P Require Import Prelude GoStrings Float64 Contracts ContentJson LmsData LmsDb Sample Sessions.
From stdpp Require Import options.
Local Open Scope string_scope.
Local Open Scope list_scope.

(** ** Membership, prerequisites, gates, remediations of a course revision *)

Definition by_created {A} (at_ : A → Z) (a b : A) : bool := Z.leb (at_ a) (at_ b).

Definition ListCurriculumActivities (revisionID : string) : M (list CurriculumActivity) :=
  page ← List_ 500 (λ a b, Z.leb (ca_Position a) (ca_Position b))
           (λ a, bool_decide (ca_CurriculumRevisionID a = revisionID));
  mret page.1.

Definition ListCurriculumPrerequisites (revisionID : string)
  : M (list CurriculumActivityPrerequisite) :=
  page ← List_ 1000 (by_created cp_CreatedAt)
           (λ a, bool_decide (cp_CurriculumRevisionID a = revisionID));
  mret page.1.

Definition ListCurriculumGates (revisionID : string) : M (list CurriculumActivityGate) :=
  page ← List_ 1000 (by_created cg_CreatedAt)
           (λ a, bool_decide (cg_CurriculumRevisionID a = revisionID));
  mret page.1.

Definition ListCurriculumRemediations (revisionID : string)
  : M (list CurriculumActivityRemediation) :=
  page ← List_ 1000 (by_created cm_CreatedAt)
           (λ a, bool_decide (cm_CurriculumRevisionID a = revisionID));
  mret page.1.

Definition membershipExists (revisionID slug : string) : M bool :=
  query (λ d, has_row (λ a, bool_decide (ca_CurriculumRevisionID a = revisionID) &&
                            bool_decide (ca_ActivitySlug a = slug)) (db_curriculum_activities d)).

(** [repo.Students.Get], of which the callers only use the error. *)
Definition GetStudent (id : string) : M unit :=
  ok ← query (λ d, has_key (db_students d) id);
  if (ok : bool) then mret tt else throw ErrNotFound.

(** ** A student's progress *)

(** The slug of the activity an assignment or response is for (two joins). *)
Definition revision_slug (d : database) (revisionID : string) : option string :=
  rev ← db_revisions d !! revisionID; act ← db_activities d !! rv_ActivityID rev; Some (la_Slug act).

Definition assignment_slugs (studentID : string) (states : list string) (d : database) : gset string :=
  list_to_set (omap (λ a, revision_slug d (sa_ActivityRevisionID a))
    (select (λ a, bool_decide (sa_StudentID a = studentID) && one_of (sa_State a) states)
       (db_assignments d))).

Definition CompletedActivitySlugsForStudent (studentID : string) : M (gset string) :=
  query (assignment_slugs studentID [AssignmentCompleted]).

Definition OpenAssignmentSlugsForStudent (studentID : string) : M (gset string) :=
  query (assignment_slugs studentID [AssignmentAvailable; AssignmentInProgress]).

Definition pending_slugs (studentID : string) (d : database) : gset string :=
  list_to_set (omap (λ r, revision_slug d (sr_ActivityRevisionID r))
    (select (λ r, bool_decide (sr_StudentID r = studentID) && bool_decide (sr_Status r = "submitted")
                  && sr_ParentReviewRequired r) (db_responses d))).

Definition PendingParentReviewSlugs (studentID : string) : M (gset string) :=
  query (pending_slugs studentID).

Definition mastery_by_code (studentID : string) (d : database) : gmap string string :=
  foldl (λ m r, match db_standards d !! mr_StandardID r with
                | Some s => <[sd_Code s := mr_Status r]> m
                | None => m
                end) ∅
    (select (λ r, bool_decide (mr_StudentID r = studentID)) (db_mastery_records d)).

Definition MasteryStatusByStandardCode (studentID : string) : M (gmap string string) :=
  query (mastery_by_code studentID).

Definition latest_capabilities (studentID : string) (d : database) : option jmap :=
  dv_Capabilities <$>
    head (order_by (λ a b, Z.leb (default 0%Z (dv_CapabilitiesReportedAt b))
                                 (default 0%Z (dv_CapabilitiesReportedAt a)))
      (select (λ v, bool_decide (dv_StudentID v = studentID) && bool_decide (dv_RevokedAt v = None) &&
                    negb (bool_decide (dv_CapabilitiesReportedAt v = None))) (db_devices d))).

Definition LatestDeviceCapabilitiesForStudent (studentID : string) : M (option jmap) :=
  query (latest_capabilities studentID).

Definition HasOpenAssignmentForRevision (studentID revisionID : string) : M bool :=
  query (λ d, has_row (λ a, bool_decide (sa_StudentID a = studentID) &&
    bool_decide (sa_ActivityRevisionID a = revisionID) &&
    one_of (sa_State a) [AssignmentAvailable; AssignmentInProgress]) (db_assignments d)).

(** ** Enrollments *)

Definition course_backed (en : Enrollment) : bool :=
  match en_CurriculumRevisionID en with Some r => negb (bool_decide (r = "")) | None => false end.

(** [sort.SliceStable] by priority descending, then creation. *)
Definition enrollment_order (a b : Enrollment) : bool :=
  if bool_decide (en_Priority a = en_Priority b) then Z.leb (en_CreatedAt a) (en_CreatedAt b)
  else Z.ltb (en_Priority b) (en_Priority a).

Definition listCourseEnrollments (studentID status : string) : M (list Enrollment) :=
  page ← List_ 100 (λ a b, Z.leb (en_Priority b) (en_Priority a))
           (λ e, bool_decide (en_StudentID e = studentID) && bool_decide (en_Status e = status));
  mret (order_by enrollment_order (filter (λ e, course_backed e = true) page.1)).

Definition ListActiveEnrollmentsForStudent (studentID : string) : M (list Enrollment) :=
  listCourseEnrollments studentID "active".

Definition ListCourseEnrollmentsForStudent (studentID : string) : M (list Enrollment) :=
  page ← List_ 100 (λ a b, Z.leb (en_Priority b) (en_Priority a))
           (λ e, bool_decide (en_StudentID e = studentID));
  mret (order_by enrollment_order
          (filter (λ e, course_backed e = true ∧ one_of (en_Status e) ["active"; "paused"] = true)
             page.1)).

(** Column updates of an enrollment. *)
Definition en_set_course (revisionID : string) (priority now : Z) (e : Enrollment) : Enrollment :=
  mkEnrollment (en_ID e) (en_StudentID e) (en_CurriculumID e) (Some revisionID) "active" priority
    (en_PinnedActivitySlug e) (en_PinnedReason e) (en_PinnedBy e) (en_PinnedAt e) (en_OverrideSlugs e)
    (en_OverrideReason e) (en_BlockingReasons e) (en_Constraints e) (en_StartedOn e) None
    (en_CreatedAt e) now.

Definition en_set_status (status : string) (ended : option Z) (now : Z) (e : Enrollment) : Enrollment :=
  mkEnrollment (en_ID e) (en_StudentID e) (en_CurriculumID e) (en_CurriculumRevisionID e) status
    (en_Priority e) (en_PinnedActivitySlug e) (en_PinnedReason e) (en_PinnedBy e) (en_PinnedAt e)
    (en_OverrideSlugs e) (en_OverrideReason e) (en_BlockingReasons e) (en_Constraints e)
    (en_StartedOn e) ended (en_CreatedAt e) now.

(** [by_ = None] leaves the pinned_by column as it is when a slug is pinned. *)
Definition en_set_pin (slug reason : string) (by_ : option string) (at_ : Z) (now : Z) (e : Enrollment)
  : Enrollment :=
  let unpin := bool_decide (slug = "") in
  mkEnrollment (en_ID e) (en_StudentID e) (en_CurriculumID e) (en_CurriculumRevisionID e)
    (en_Status e) (en_Priority e) slug (if unpin then "" else reason)
    (if unpin then None else match by_ with Some i => Some i | None => en_PinnedBy e end)
    (if unpin then None else Some at_) (en_OverrideSlugs e) (en_OverrideReason e)
    (en_BlockingReasons e) (en_Constraints e) (en_StartedOn e) (en_EndedOn e) (en_CreatedAt e) now.

Definition en_set_override (slugs : list string) (reason : string) (now : Z) (e : Enrollment)
  : Enrollment :=
  mkEnrollment (en_ID e) (en_StudentID e) (en_CurriculumID e) (en_CurriculumRevisionID e)
    (en_Status e) (en_Priority e) (en_PinnedActivitySlug e) (en_PinnedReason e) (en_PinnedBy e)
    (en_PinnedAt e) slugs reason (en_BlockingReasons e) (en_Constraints e) (en_StartedOn e)
    (en_EndedOn e) (en_CreatedAt e) now.

Definition en_set_blocking (reasons : list json) (now : Z) (e : Enrollment) : Enrollment :=
  mkEnrollment (en_ID e) (en_StudentID e) (en_CurriculumID e) (en_CurriculumRevisionID e)
    (en_Status e) (en_Priority e) (en_PinnedActivitySlug e) (en_PinnedReason e) (en_PinnedBy e)
    (en_PinnedAt e) (en_OverrideSlugs e) (en_OverrideReason e) reasons (en_Constraints e)
    (en_StartedOn e) (en_EndedOn e) (en_CreatedAt e) now.

Section enrollments.
Context `{!Postgres}.

Definition UpdateEnrollmentBlockingReasons (enrollmentID : string) (reasons : list json) : M unit :=
  _ ← Update enrollmentID (en_set_blocking reasons); mret tt.

Definition AppendEnrollmentAudit (enrollmentID : string) (educatorID : option string)
    (action reason : string) (detail : option jmap) : M unit :=
  _ ← Create (λ id now, mkEnrollmentAuditEvent id enrollmentID educatorID action reason
                          (default ∅ detail) now);
  mret tt.

Definition EnrollStudentInCurriculumRevision (studentID curriculumID revisionID : string)
    (educatorID : option string) (priority : Z) : M Enrollment :=
  _ ← GetStudent studentID;
  _ ← (Get curriculumID : M Curriculum);
  rev ← (Get revisionID : M CurriculumRevision);
  if negb (bool_decide (cv_CurriculumID rev = curriculumID)) then
    throw (ErrBadRequest "revision does not belong to curriculum")
  else if bool_decide (cv_PublishedAt rev = None) then
    throw (ErrBadRequest "curriculum revision is not published")
  else
    let detail := Some (<["curriculumRevisionId" := JStr revisionID]> ∅) in
    page ← List_ 1 (by_created en_CreatedAt)
             (λ e, bool_decide (en_StudentID e = studentID) &&
                   bool_decide (en_CurriculumID e = curriculumID));
    match page.1 with
    | en :: _ =>
        updated ← Update (en_ID en) (en_set_course revisionID priority);
        _ ← AppendEnrollmentAudit (en_ID updated) educatorID "enroll" "resume or re-enroll" detail;
        mret updated
    | [] =>
        en ← Create (λ id now, mkEnrollment id studentID curriculumID (Some revisionID) "active"
                                 priority "" "" None None [] "" [] ∅ now None now now);
        _ ← AppendEnrollmentAudit (en_ID en) educatorID "enroll" "" detail;
        mret en
    end.

Definition status_action (status : string) : string :=
  if bool_decide (status = "active") then "resume"
  else if bool_decide (status = "paused") then "pause"
  else if bool_decide (status = "completed") then "complete"
  else if bool_decide (status = "withdrawn") then "withdraw"
  else status.

(** [wall] is [time.Now().UTC()]. *)
Definition SetEnrollmentStatus (enrollmentID status : string) (educatorID : option string)
    (reason : string) (wall : Z) : M Enrollment :=
  if negb (one_of status ["active"; "paused"; "completed"; "withdrawn"]) then
    throw (ErrBadRequest "invalid enrollment status")
  else
    let ended := if one_of status ["completed"; "withdrawn"] then Some wall else None in
    en ← Update enrollmentID (en_set_status status ended);
    _ ← AppendEnrollmentAudit (en_ID en) educatorID (status_action status) reason None;
    mret en.

Definition not_in_revision (slug : string) : err :=
  ErrBadRequest ("activity slug " +:+ go_quote slug +:+ " is not in enrolled revision").

Definition PinEnrollmentActivity (enrollmentID slug reason : string) (educatorID : option string)
    (wall : Z) : M Enrollment :=
  en ← (Get enrollmentID : M Enrollment);
  _ ← (if bool_decide (slug = "") then mret tt
       else match en_CurriculumRevisionID en with
            | None => throw (ErrBadRequest "enrollment has no curriculum revision")
            | Some revID =>
                if bool_decide (revID = "") then
                  throw (ErrBadRequest "enrollment has no curriculum revision")
                else
                  ok ← membershipExists revID slug;
                  if (ok : bool) then mret tt else throw (not_in_revision slug)
            end);
  updated ← Update enrollmentID (en_set_pin slug reason educatorID wall);
  _ ← AppendEnrollmentAudit (en_ID updated) educatorID (if bool_decide (slug = "") then "unpin" else "pin")
        reason (Some (<["slug" := JStr slug]> ∅));
  mret updated.

Definition OverrideEnrollmentPrereq (enrollmentID slug reason : string) (educatorID : option string)
  : M Enrollment :=
  if bool_decide (slug = "") then throw (ErrBadRequest "slug is required")
  else if bool_decide (reason = "") then throw (ErrBadRequest "override reason is required")
  else
    en ← (Get enrollmentID : M Enrollment);
    match en_CurriculumRevisionID en with
    | None => throw (ErrBadRequest "enrollment has no curriculum revision")
    | Some revID =>
        if bool_decide (revID = "") then throw (ErrBadRequest "enrollment has no curriculum revision")
        else
          ok ← membershipExists revID slug;
          if negb (ok : bool) then throw (not_in_revision slug)
          else
            let slugs := if bool_decide (slug ∈ en_OverrideSlugs en) then en_OverrideSlugs en
                         else en_OverrideSlugs en ++ [slug] in
            updated ← Update enrollmentID (en_set_override slugs reason);
            _ ← AppendEnrollmentAudit (en_ID updated) educatorID "override_prereq" reason
                  (Some (<["slug" := JStr slug]> ∅));
            mret updated
    end.

(** ** Assignments ([repo/learning.go]) *)

Record AssignmentCreate := mkAssignmentCreate {
  asc_StudentID : string; asc_ActivityRevisionID : string; asc_EnrollmentID : option string;
  asc_CurriculumActivityID : option string; asc_SelectionReason : string;
  asc_AssignedBy : option string; asc_Priority : Z; asc_Reason : string }.

Definition CreateAssignmentFull (in_ : AssignmentCreate) : M StudentAssignment :=
  Create (λ id now, mkStudentAssignment id (asc_StudentID in_) (asc_ActivityRevisionID in_)
    (asc_EnrollmentID in_) (asc_CurriculumActivityID in_) (asc_SelectionReason in_)
    AssignmentAvailable (asc_Priority in_) now None (asc_AssignedBy in_) (asc_Reason in_) ∅ now now).
End enrollments.

(** ** Page sizes *)

(** [Resource.List] cuts every page at 200 rows. *)
Lemma List_length `{!Row A} limit le (p : A → bool) q c c' items total :
  List_ limit le p q c = (c', Ok (items, total)) →
  length items = Nat.min (Z.to_nat (normalize_limit limit)) (length (select p (tbl (cn_db c)))) ∧
  total = Z.of_nat (length (select p (tbl (cn_db c)))).
Proof.
  unfold List_. intros Hr. m_inv. split; [|done].
  rewrite length_take. by rewrite (Permutation_length (order_by_perm _ _)).
Qed.

(** Large courses are cut.  The callers ask for up to 500 entries and 1000
    prerequisites; the generic list caps a page at 200 rows, so every prerequisite
    edge and course entry beyond the 200th is silently ignored by the eligibility
    evaluation. *)
Lemma course_lists_truncated revID q c c' prereqs c'' acts :
  ListCurriculumPrerequisites revID q c = (c', Ok prereqs) →
  ListCurriculumActivities revID q c = (c'', Ok acts) →
  length prereqs = Nat.min 200 (length (select (λ p, bool_decide (cp_CurriculumRevisionID p = revID))
                                          (db_prerequisites (cn_db c)))) ∧
  length acts = Nat.min 200 (length (select (λ p, bool_decide (ca_CurriculumRevisionID p = revID))
                                       (db_curriculum_activities (cn_db c)))).
Proof.
  unfold ListCurriculumPrerequisites, ListCurriculumActivities.
  intros (c1 & [items1 n1] & H1 & H2)%M_bind_Ok (c2 & [items2 n2] & H3 & H4)%M_bind_Ok.
  apply List_length in H1 as [H1 _]. apply List_length in H3 as [H3 _].
  injection H2 as _ <-. injection H4 as _ <-. done.
Qed.

Lemma course_lists_truncated_witness :
  length (match (ListCurriculumPrerequisites "cr1" w_pool w_conn).2 with Ok l => l | _ => [] end) = 0.
Proof.
  refine (proj1 (course_lists_truncated "cr1" w_pool w_conn w_conn [] w_conn [] _ _));
    vm_compute; reflexivity.
Defined.
