(* ===== verification/Eligibility.v ===== *)
(** * Eligibility of course activities ([overseer/eligibility.go])

    For one enrollment, which activities of the course revision the student may be
    given, and for the others the reasons why not. *)
From S2P Require Import Prelude GoStrings Float64 Contracts ContentJson LmsData LmsDb Sample.
From S2P Require Import Sessions CourseRepo.
From stdpp Require Import options.
Local Open Scope string_scope.
Local Open Scope list_scope.

Abbreviation BlockEnrollmentPaused := "enrollment_paused".
Abbreviation BlockEnrollmentInactive := "enrollment_inactive".
Abbreviation BlockNotInRevision := "not_in_revision".
Abbreviation BlockAlreadyCompleted := "already_completed".
Abbreviation BlockAlreadyOpen := "already_open".
Abbreviation BlockPrerequisiteUnmet := "prerequisite_unmet".
Abbreviation BlockParentReviewPending := "parent_review_pending".
Abbreviation BlockEvidenceGateUnmet := "evidence_gate_unmet".
Abbreviation BlockMissingActivityRev := "missing_activity_revision".
Abbreviation BlockNoActiveEnrollment := "no_active_enrollment".
Abbreviation BlockNoEligibleActivity := "no_eligible_activity".
Abbreviation BlockMissingRuntimeProfile := "missing_runtime_profile".
Abbreviation PrereqCompleted := "completed".
Abbreviation PrereqApproaching := "approaching".
Abbreviation PrereqMastered := "mastered".
Abbreviation GateParentReview := "parent_review".
Abbreviation GateEvidence := "evidence".

Record BlockReason := mkBlockReason {
  br_Code : string; br_Message : string; br_Activity : string; br_Requires : string;
  br_Requirement : string }.

Record ActivityStatus := mkActivityStatus {
  as_Membership : CurriculumActivity; as_Eligible : bool; as_Status : string;
  as_BlockingReasons : list BlockReason }.

Record EligibilityPreview := mkPreview {
  ev_Enrollment : Enrollment; ev_Revision : CurriculumRevision;
  ev_Activities : list ActivityStatus; ev_Eligible : list ActivityStatus;
  ev_Blocking : list BlockReason }.

(** ** One membership entry *)

Definition prerequisiteSatisfied (p : CurriculumActivityPrerequisite) (completed : gset string) : bool :=
  let req := if bool_decide (cp_Requirement p = "") then PrereqCompleted else cp_Requirement p in
  if bool_decide (req = PrereqCompleted) then bool_decide (cp_RequiresSlug p ∈ completed)
  else if one_of req [PrereqApproaching; PrereqMastered] then
    if negb (bool_decide (cp_RequiresSlug p ∈ completed)) then false
    else if bool_decide (req = PrereqMastered) then false
    else true
  else bool_decide (cp_RequiresSlug p ∈ completed).

Definition hasCode (blocks : list BlockReason) (code : string) : bool :=
  existsb (λ b, bool_decide (br_Code b = code)) blocks.

Definition prereq_blocks (slug : string) (completed pendingReview : gset string)
    (p : CurriculumActivityPrerequisite) : list BlockReason :=
  (if prerequisiteSatisfied p completed then []
   else [mkBlockReason BlockPrerequisiteUnmet
           ("requires " +:+ cp_RequiresSlug p +:+ " (" +:+ cp_Requirement p +:+ ")")
           slug (cp_RequiresSlug p) (cp_Requirement p)]) ++
  (if bool_decide (cp_RequiresSlug p ∈ pendingReview) then
     [mkBlockReason BlockParentReviewPending ("parent review pending on " +:+ cp_RequiresSlug p)
        slug (cp_RequiresSlug p) ""]
   else []).

Definition gate_blocks (slug : string) (pendingReview : gset string) (mastery : gmap string string)
    (g : CurriculumActivityGate) : list BlockReason :=
  (if bool_decide (cg_Kind g = GateParentReview) && bool_decide (slug ∈ pendingReview) then
     [mkBlockReason BlockParentReviewPending "parent review required" slug "" ""]
   else []) ++
  (if bool_decide (cg_Kind g = GateEvidence) then
     omap (λ code,
       if one_of (default "" (mastery !! code)) ["approaching"; "mastered"] then None
       else Some (mkBlockReason BlockEvidenceGateUnmet ("evidence gate unmet for " +:+ code)
                    slug code "")) (cg_Standards g)
   else []).

Definition resolved (m : CurriculumActivity) : bool :=
  match ca_ActivityRevisionID m with Some r => negb (bool_decide (r = "")) | None => false end.

(** Parent pin or override: prerequisites and gates are skipped. *)
Definition forced (m : CurriculumActivity) (en : Enrollment) : bool :=
  bool_decide (ca_ActivitySlug m ∈ en_OverrideSlugs en) ||
  (negb (bool_decide (en_PinnedActivitySlug en = "")) &&
   bool_decide (en_PinnedActivitySlug en = ca_ActivitySlug m)).

Definition evaluateMembership (m : CurriculumActivity) (en : Enrollment)
    (prereqs : list CurriculumActivityPrerequisite) (gates : list CurriculumActivityGate)
    (completed openSlugs pendingReview : gset string) (mastery : gmap string string)
  : ActivityStatus :=
  let slug := ca_ActivitySlug m in
  let status_blocks :=
    if bool_decide (en_Status en = "paused") then
      [mkBlockReason BlockEnrollmentPaused "enrollment is paused" slug "" ""]
    else if negb (bool_decide (en_Status en = "active")) then
      [mkBlockReason BlockEnrollmentInactive ("enrollment is " +:+ en_Status en) slug "" ""]
    else [] in
  let rev_blocks :=
    if resolved m then []
    else [mkBlockReason BlockMissingActivityRev "membership has no resolved activity revision"
            slug "" ""] in
  if bool_decide (slug ∈ completed) then
    mkActivityStatus m false "completed"
      [mkBlockReason BlockAlreadyCompleted "activity already completed" slug "" ""]
  else if bool_decide (slug ∈ openSlugs) then
    mkActivityStatus m false "assigned"
      [mkBlockReason BlockAlreadyOpen "activity already assigned" slug "" ""]
  else
    let course_blocks :=
      if forced m en then []
      else (prereqs ≫= prereq_blocks slug completed pendingReview) ++
           (gates ≫= gate_blocks slug pendingReview mastery) in
    match status_blocks ++ rev_blocks ++ course_blocks with
    | [] => mkActivityStatus m true "eligible" []
    | blocks =>
        mkActivityStatus m false
          (if hasCode blocks BlockParentReviewPending then "review_needed" else "blocked") blocks
    end.

(** ** Device capabilities *)

Definition runtimeProfilesFromCaps (caps : option jmap) : gset string :=
  match caps with
  | None => ∅
  | Some m =>
      match m !! "runtimeProfiles" with
      | Some (JArr v) =>
          list_to_set (omap (λ x, match x with
                                  | JStr s => if bool_decide (s = "") then None else Some s
                                  | _ => None
                                  end) v)
      | _ => ∅
      end
  end.

Definition runtimeProfileFromContent (content : jmap) : string :=
  match content !! "terminal" with
  | Some (JObj term) =>
      match jlookup term "runtimeProfile" with
      | Some (JStr s) => TrimSpace s
      | _ => match jlookup term "runtime_profile" with Some (JStr s) => TrimSpace s | _ => "" end
      end
  | _ => ""
  end.

Definition blockMissingRuntime (m : CurriculumActivity) (deviceProfiles : gset string)
  : M (option BlockReason) :=
  if bool_decide (deviceProfiles = ∅) then mret None
  else match ca_ActivityRevisionID m with
       | None => mret None
       | Some revID =>
           if bool_decide (revID = "") then mret None
           else
             rev ← attempt (GetRevision revID);
             match rev with
             | Err _ => mret None
             | Ok rev =>
                 let profile := runtimeProfileFromContent (rv_Content rev) in
                 if bool_decide (profile = "") then mret None
                 else if bool_decide (profile ∈ deviceProfiles) then mret None
                 else mret (Some (mkBlockReason BlockMissingRuntimeProfile
                                    ("device missing runtime profile " +:+ go_quote profile)
                                    (ca_ActivitySlug m) "" profile))
             end
       end.

(** The first reason of each key is kept. *)
Definition reason_key (b : BlockReason) : string :=
  br_Code b +:+ "|" +:+ br_Activity b +:+ "|" +:+ br_Requires b +:+ "|" +:+ br_Message b.

Fixpoint dedupe_loop (seen : gset string) (l : list BlockReason) : list BlockReason :=
  match l with
  | [] => []
  | b :: l' => if bool_decide (reason_key b ∈ seen) then dedupe_loop seen l'
               else b :: dedupe_loop ({[reason_key b]} ∪ seen) l'
  end.
Definition dedupeBlockReasons (l : list BlockReason) : list BlockReason := dedupe_loop ∅ l.

(** ** The preview of an enrollment *)

(** The runtime-profile gate applied to an evaluated entry. *)
Definition gateRuntime (deviceProfiles : gset string) (st : ActivityStatus) : M ActivityStatus :=
  if as_Eligible st || bool_decide (as_Status st = "blocked") then
    reason ← blockMissingRuntime (as_Membership st) deviceProfiles;
    match reason with
    | Some r => mret (mkActivityStatus (as_Membership st) false "blocked" (as_BlockingReasons st ++ [r]))
    | None => mret st
    end
  else mret st.

Definition evaluateAll (en : Enrollment) (prereqs : list CurriculumActivityPrerequisite)
    (gates : list CurriculumActivityGate) (completed openSlugs pendingReview : gset string)
    (mastery : gmap string string) (deviceProfiles : gset string)
    (membership : list CurriculumActivity) : M (list ActivityStatus) :=
  for_M (λ m acc,
    let slug := ca_ActivitySlug m in
    st ← gateRuntime deviceProfiles
           (evaluateMembership m en (filter (λ p, cp_ActivitySlug p = slug) prereqs)
              (filter (λ g, cg_ActivitySlug g = slug) gates) completed openSlugs pendingReview mastery);
    mret (acc ++ [st])) membership [].

Definition reason_json (b : BlockReason) : json :=
  JObj [("code", JStr (br_Code b)); ("message", JStr (br_Message b)); ("activity", JStr (br_Activity b))].

Definition EvaluateEnrollmentEligibility (enrollmentID : string) : M EligibilityPreview :=
  en ← (Get enrollmentID : M Enrollment);
  match en_CurriculumRevisionID en with
  | None => throw (ErrBadRequest "enrollment has no curriculum revision")
  | Some revID =>
      if bool_decide (revID = "") then throw (ErrBadRequest "enrollment has no curriculum revision")
      else
        rev ← (Get revID : M CurriculumRevision);
        membership ← ListCurriculumActivities (cv_ID rev);
        prereqs ← ListCurriculumPrerequisites (cv_ID rev);
        gates ← ListCurriculumGates (cv_ID rev);
        completed ← CompletedActivitySlugsForStudent (en_StudentID en);
        openSlugs ← OpenAssignmentSlugsForStudent (en_StudentID en);
        pendingReview ← PendingParentReviewSlugs (en_StudentID en);
        mastery ← MasteryStatusByStandardCode (en_StudentID en);
        caps ← LatestDeviceCapabilitiesForStudent (en_StudentID en);
        activities ← evaluateAll en prereqs gates completed openSlugs pendingReview mastery
                       (runtimeProfilesFromCaps caps) membership;
        let blocking := dedupeBlockReasons
          (filter (λ st, as_Eligible st = false) activities ≫= as_BlockingReasons) in
        _ ← attempt (UpdateEnrollmentBlockingReasons (en_ID en) (reason_json <$> blocking));
        mret (mkPreview en rev activities (filter (λ st, as_Eligible st = true) activities) blocking)
  end.

(** ** Selecting within the courses *)

Definition pinned_entry (pin : string) (activities : list ActivityStatus) : option CurriculumActivity :=
  match filter (λ st, ca_ActivitySlug (as_Membership st) = pin) activities with
  | [] => None
  | st :: _ =>
      if one_of (as_Status st) ["completed"; "assigned"] then None
      else if bool_decide (ca_ActivityRevisionID (as_Membership st) = None) then None
      else Some (as_Membership st)
  end.

Fixpoint first_eligible_loop (ens : list Enrollment)
  : M (option (Enrollment * CurriculumActivity * string)) :=
  match ens with
  | [] => mret None
  | en :: rest =>
      prev ← EvaluateEnrollmentEligibility (en_ID en);
      let pin := en_PinnedActivitySlug en in
      match (if bool_decide (pin = "") then None else pinned_entry pin (ev_Activities prev)) with
      | Some m => mret (Some (en, m, "pin:" +:+ ca_ActivitySlug m))
      | None =>
          match ev_Eligible prev with
          | [] => first_eligible_loop rest
          | st :: _ => mret (Some (en, as_Membership st, "course:" +:+ ca_ActivitySlug (as_Membership st)))
          end
      end
  end.

Definition FirstEligibleCourseActivity (studentID : string)
  : M (option (Enrollment * CurriculumActivity * string)) :=
  ens ← ListActiveEnrollmentsForStudent studentID;
  first_eligible_loop ens.

Definition first_block (activities : list ActivityStatus) : option string :=
  match filter (λ st, one_of (as_Status st) ["completed"; "assigned"] = false ∧ as_BlockingReasons st ≠ [])
          activities with
  | st :: _ => match as_BlockingReasons st with
               | b :: _ => Some (br_Code b +:+ ":" +:+ ca_ActivitySlug (as_Membership st))
               | [] => None
               end
  | [] => None
  end.

(** [None] stands for the early [return "", nil] when something is eligible. *)
Fixpoint block_summary_loop (ens : list Enrollment) (parts : list string) : M (option (list string)) :=
  match ens with
  | [] => mret (Some parts)
  | en :: rest =>
      prev ← EvaluateEnrollmentEligibility (en_ID en);
      match ev_Eligible prev with
      | _ :: _ => mret None
      | [] =>
          match ev_Blocking prev with
          | [] => block_summary_loop rest
                    (parts ++ ["enrollment " +:+ en_ID en +:+ ": all activities completed or assigned"])
          | _ => block_summary_loop rest
                   (match first_block (ev_Activities prev) with
                    | Some p => parts ++ [p]
                    | None => parts
                    end)
          end
      end
  end.

Definition CollectEnrollmentBlockSummary (studentID : string) : M string :=
  ens ← ListActiveEnrollmentsForStudent studentID;
  match ens with
  | [] => mret BlockNoActiveEnrollment
  | _ =>
      parts ← block_summary_loop ens [];
      match parts with
      | None => mret ""
      | Some [] => mret BlockNoEligibleActivity
      | Some ps => mret (Join ps "; ")
      end
  end.

Fixpoint slug_in_loop (slug : string) (ens : list Enrollment)
  : M (option (Enrollment * CurriculumActivity)) :=
  match ens with
  | [] => mret None
  | en :: rest =>
      match en_CurriculumRevisionID en with
      | None => slug_in_loop slug rest
      | Some revID =>
          acts ← ListCurriculumActivities revID;
          match filter (λ a, ca_ActivitySlug a = slug) acts with
          | a :: _ => mret (Some (en, a))
          | [] => slug_in_loop slug rest
          end
      end
  end.

Definition IsSlugInActiveEnrollments (studentID slug : string)
  : M (option (Enrollment * CurriculumActivity)) :=
  ens ← ListActiveEnrollmentsForStudent studentID;
  slug_in_loop slug ens.

(** The empty string is the code's "none". *)
Definition RemediationBranchSlug (revisionID forSlug : string) : M string :=
  items ← ListCurriculumRemediations revisionID;
  mret (match filter (λ it, cm_ForActivitySlug it = forSlug ∧
                            one_of (cm_Kind it) [""; "remediation"] = true) items with
        | it :: _ => cm_BranchSlug it
        | [] => ""
        end).

(** An inner join whose row may be missing: [pgx.ErrNoRows] is not translated here. *)
Definition activitySlugForRevision (revisionID : string) : M string :=
  slug ← query (λ d, revision_slug d revisionID);
  match slug with Some s => mret s | None => throw (ErrGo "no rows in result set") end.

Definition slugAllowedForEnrolledStudent (studentID slug : string) : M bool :=
  ens ← ListActiveEnrollmentsForStudent studentID;
  match ens with
  | [] => mret true
  | _ => r ← IsSlugInActiveEnrollments studentID slug; mret (bool_decide (is_Some r))
  end.

(** ** Theorems *)

(** What a course asks before an activity is handed out. *)
Definition prereqs_met (completed pendingReview : gset string)
    (prereqs : list CurriculumActivityPrerequisite) : Prop :=
  ∀ p, p ∈ prereqs → prerequisiteSatisfied p completed = true ∧ cp_RequiresSlug p ∉ pendingReview.

Definition gates_open (slug : string) (pendingReview : gset string) (mastery : gmap string string)
    (gates : list CurriculumActivityGate) : Prop :=
  ∀ g, g ∈ gates →
    (cg_Kind g = GateParentReview → slug ∉ pendingReview) ∧
    (cg_Kind g = GateEvidence → ∀ code, code ∈ cg_Standards g →
       mastery !! code = Some "approaching" ∨ mastery !! code = Some "mastered").

Lemma bind_nil {A B} (f : A → list B) l : l ≫= f = [] ↔ ∀ x, x ∈ l → f x = [].
Proof.
  induction l as [|x l IH]; cbn; [set_solver|]. rewrite app_nil, IH. set_solver.
Qed.

Lemma omap_nil {A B} (f : A → option B) l : omap f l = [] ↔ ∀ x, x ∈ l → f x = None.
Proof.
  induction l as [|x l IH]; cbn; [set_solver|].
  destruct (f x) eqn:E; [split; [done|]; intros H; specialize (H x); set_solver|].
  rewrite IH. set_solver.
Qed.

Lemma prereq_blocks_nil slug completed pending p :
  prereq_blocks slug completed pending p = [] ↔
  prerequisiteSatisfied p completed = true ∧ cp_RequiresSlug p ∉ pending.
Proof.
  unfold prereq_blocks. rewrite app_nil.
  destruct (prerequisiteSatisfied p completed); case_bool_decide; naive_solver.
Qed.

Lemma evidence_status_ok (mastery : gmap string string) code :
  one_of (default "" (mastery !! code)) ["approaching"; "mastered"] = true ↔
  mastery !! code = Some "approaching" ∨ mastery !! code = Some "mastered".
Proof.
  unfold one_of. rewrite bool_decide_eq_true.
  destruct (mastery !! code) as [s|]; cbn; set_solver.
Qed.

Lemma gate_blocks_nil slug pending mastery g :
  gate_blocks slug pending mastery g = [] ↔
  (cg_Kind g = GateParentReview → slug ∉ pending) ∧
  (cg_Kind g = GateEvidence → ∀ code, code ∈ cg_Standards g →
     mastery !! code = Some "approaching" ∨ mastery !! code = Some "mastered").
Proof.
  unfold gate_blocks. rewrite app_nil. f_equiv.
  - repeat case_bool_decide; cbn; naive_solver.
  - case_bool_decide as Hk; [|naive_solver]. rewrite omap_nil. split.
    + intros H _ code Hc. specialize (H code Hc). apply evidence_status_ok.
      by destruct (one_of _ _).
    + intros H code Hc. rewrite (proj2 (evidence_status_ok mastery code) (H Hk code Hc)). done.
Qed.

Lemma evaluateMembership_eligible m en prereqs gates completed open pending mastery :
  as_Eligible (evaluateMembership m en prereqs gates completed open pending mastery) = true ↔
  en_Status en = "active" ∧ resolved m = true ∧
  ca_ActivitySlug m ∉ completed ∧ ca_ActivitySlug m ∉ open ∧
  (forced m en = true ∨
   prereqs_met completed pending prereqs ∧ gates_open (ca_ActivitySlug m) pending mastery gates).
Proof.
  unfold evaluateMembership. do 2 (case_bool_decide; [naive_solver|]).
  set (course := if forced m en then [] else _).
  assert (course = [] ↔ forced m en = true ∨
    prereqs_met completed pending prereqs ∧ gates_open (ca_ActivitySlug m) pending mastery gates) as Hc.
  { unfold course, prereqs_met, gates_open. destruct (forced m en); [naive_solver|].
    rewrite app_nil, !bind_nil. setoid_rewrite prereq_blocks_nil. setoid_rewrite gate_blocks_nil.
    naive_solver. }
  rewrite <-Hc. clearbody course. clear Hc.
  destruct (bool_decide_reflect (en_Status en = "paused")) as [Hp|Hp].
  { cbn. split; [done|]. intros (Ha & _). rewrite Hp in Ha. done. }
  destruct (bool_decide_reflect (en_Status en = "active")) as [Ha|Ha]; cbn [negb app];
    [|naive_solver].
  destruct (resolved m); cbn [app]; [|naive_solver].
  destruct course; naive_solver.
Qed.

(** When an activity may be given.  A course entry is eligible exactly when the
    enrollment is active, the entry has a resolved activity revision, the student has
    neither completed it nor has it open, and either a parent forces it (pin or
    override) or every prerequisite is satisfied with no parent review pending on it
    and every gate is open; and an entry that is not eligible carries at least one
    blocking reason for the parent, an eligible one none. *)
Lemma evaluateMembership_spec m en prereqs gates completed open pending mastery :
  let st := evaluateMembership m en prereqs gates completed open pending mastery in
  (as_Eligible st = true ↔
   en_Status en = "active" ∧ resolved m = true ∧
   ca_ActivitySlug m ∉ completed ∧ ca_ActivitySlug m ∉ open ∧
   (forced m en = true ∨
    prereqs_met completed pending prereqs ∧ gates_open (ca_ActivitySlug m) pending mastery gates)) ∧
  (as_Eligible st = true ↔ as_BlockingReasons st = []) ∧ as_Membership st = m.
Proof.
  cbn zeta. split; [apply evaluateMembership_eligible|].
  unfold evaluateMembership. do 2 (case_bool_decide; [naive_solver|]).
  destruct (_ ++ _ ++ _); naive_solver.
Qed.

(** A "mastered" prerequisite never holds.  No set of completed activities
    satisfies a prerequisite whose requirement is "mastered": without a parent's pin
    or override the activity behind it is never eligible. *)
Lemma mastered_prerequisite_blocks p m en prereqs gates completed open pending mastery :
  cp_Requirement p = PrereqMastered → p ∈ prereqs → forced m en = false →
  as_Eligible (evaluateMembership m en prereqs gates completed open pending mastery) = false.
Proof.
  intros Hr Hp Hf. destruct (as_Eligible _) eqn:He; [|done].
  apply evaluateMembership_eligible in He as (_ & _ & _ & _ & [Hf'|[Hm _]]); [congruence|].
  destruct (Hm p Hp) as [Hs _]. unfold prerequisiteSatisfied in Hs. rewrite Hr in Hs.
  revert Hs. case_bool_decide; [done|]. rewrite bool_decide_false by done.
  change (one_of "mastered" _) with true. cbn iota. by destruct (negb _).
Qed.
