(* ===== verification/Assign.v ===== *)
(** * Selecting the next assignment ([overseer/assign.go])

    [AssignNext] and the pickers it tries in turn: an explicit slug or a parent's
    pin, the remediation branch of a returned response, due reinforcement, the next
    eligible course activity or, for a student without a course, the library. *)
From S2P Require Import Prelude GoStrings Float64 Contracts ContentJson LmsData LmsDb Sample.
From S2P Require Import Sessions CourseRepo Eligibility.
From stdpp Require Import options.
Local Open Scope string_scope.
Local Open Scope list_scope.

(** [op_Now = None] is the zero time; [op_wall] is [time.Now().UTC()]. *)
Record Options := mkOptions {
  op_Slug : string; op_PreferReinforcement : option bool; op_AssignedBy : option string;
  op_Priority : Z; op_Reason : string; op_Now : option Z; op_wall : Z }.

Record Result := mkResult {
  rs_Assignment : option StudentAssignment; rs_Reason : string; rs_Created : bool;
  rs_BlockReason : string; rs_Candidates : list string }.

(** ** Queries on published activities *)

Definition activity_of (d : database) (r : LearningActivityRevision) : option LearningActivity :=
  db_activities d !! rv_ActivityID r.

Definition published (d : database) (r : LearningActivityRevision) : bool :=
  negb (bool_decide (rv_PublishedAt r = None)) &&
  match activity_of d r with Some a => bool_decide (la_Status a = "published") | None => false end.

Definition activity_slug (d : database) (r : LearningActivityRevision) : string :=
  match activity_of d r with Some a => la_Slug a | None => "" end.

(** [ORDER BY revision DESC] *)
Definition newer (a b : LearningActivityRevision) : bool := Z.leb (rv_Revision b) (rv_Revision a).

(** The newest published revision of the activity, whatever the activity's status. *)
Definition newest_of (d : database) (activityID : string) : option LearningActivityRevision :=
  head (order_by newer (select (λ r, bool_decide (rv_ActivityID r = activityID) &&
                                     negb (bool_decide (rv_PublishedAt r = None))) (db_revisions d))).

Definition latestPublishedRevisionBySlug (slug : string) : M string :=
  r ← query (λ d, head (order_by newer (select (λ r, published d r &&
                                          bool_decide (activity_slug d r = slug)) (db_revisions d))));
  match r with Some r => mret (rv_ID r) | None => throw ErrNotFound end.

(** A student's assignment of the revision in one of the states. *)
Definition assigned (d : database) (studentID revisionID : string) (states : list string) : bool :=
  has_row (λ a, bool_decide (sa_StudentID a = studentID) &&
                bool_decide (sa_ActivityRevisionID a = revisionID) && one_of (sa_State a) states)
    (db_assignments d).

Record dueMastery := mkDue { du_StandardID : string; du_Code : string; du_Status : string }.

Definition reinforcement_due (now : Z) (r : MasteryRecord) : bool :=
  match mr_NextReinforcementAt r with Some t => Z.leb t now | None => false end.

Definition due_row (now : Z) (r : MasteryRecord) : bool :=
  reinforcement_due now r || one_of (mr_Status r) ["approaching"; "in_progress"].

Definition due_status_rank (s : string) : Z :=
  if bool_decide (s = "approaching") then 0 else if bool_decide (s = "in_progress") then 1 else 2.

(** The four keys of the ORDER BY, the second with NULLS LAST. *)
Definition due_order (now : Z) (x y : MasteryRecord * Standard) : bool :=
  let key r := if reinforcement_due now r then 0%Z else 1%Z in
  let rank r := due_status_rank (mr_Status r) in
  let by_status :=
    if negb (bool_decide (rank x.1 = rank y.1)) then Z.leb (rank x.1) (rank y.1)
    else str_le (sd_Code x.2) (sd_Code y.2) in
  if negb (bool_decide (key x.1 = key y.1)) then Z.leb (key x.1) (key y.1)
  else match mr_NextReinforcementAt x.1, mr_NextReinforcementAt y.1 with
       | Some t, Some u => if negb (bool_decide (t = u)) then Z.leb t u else by_status
       | Some _, None => true
       | None, Some _ => false
       | None, None => by_status
       end.

Definition listDueMastery (studentID : string) (now : Z) : M (list dueMastery) :=
  query (λ d,
    (λ x, mkDue (mr_StandardID x.1) (sd_Code x.2) (mr_Status x.1)) <$>
    order_by (due_order now)
      (omap (λ r, s ← db_standards d !! mr_StandardID r; Some (r, s))
         (select (λ r, bool_decide (mr_StudentID r = studentID) && due_row now r)
            (db_mastery_records d)))).

Definition standardLooksLikeTyping (code : string) : bool := Contains code "TYPE".

(** The kind in front, then the slug. *)
Definition kind_order (d : database) (kind : string) (a b : LearningActivityRevision) : bool :=
  let rank r := match activity_of d r with
                | Some x => if bool_decide (la_Kind x = kind) then 0%Z else 1%Z
                | None => 1%Z
                end in
  if negb (bool_decide (rank a = rank b)) then Z.leb (rank a) (rank b)
  else str_le (activity_slug d a) (activity_slug d b).

(** The empty string is the code's "none". *)
Definition findRevisionForStandard (studentID standardID role : string) (preferTyping : bool)
  : M string :=
  query (λ d,
    let linked r := has_row (λ l, bool_decide (lk_ActivityRevisionID l = rv_ID r) &&
                                  bool_decide (lk_StandardID l = standardID) &&
                                  (bool_decide (role = "") || bool_decide (lk_Role l = role)))
                      (db_links d) in
    let kind := if preferTyping then "typing" else "terminal" in
    match order_by (kind_order d kind)
            (select (λ r, published d r && linked r &&
                          bool_decide (rv_ID <$> newest_of d (rv_ActivityID r) = Some (rv_ID r)) &&
                          negb (assigned d studentID (rv_ID r) [AssignmentCompleted]))
               (db_revisions d)) with
    | r :: _ => rv_ID r
    | [] => ""
    end).

Definition pickNextCurriculumRevision (studentID : string) : M (string * string) :=
  query (λ d,
    match order_by (λ a b, str_le (activity_slug d a) (activity_slug d b))
            (select (λ r, published d r &&
                          bool_decide (rv_Revision <$> newest_of d (rv_ActivityID r) = Some (rv_Revision r)) &&
                          negb (assigned d studentID (rv_ID r) [AssignmentCompleted]) &&
                          negb (assigned d studentID (rv_ID r) [AssignmentAvailable; AssignmentInProgress]))
               (db_revisions d)) with
    | r :: _ => (rv_ID r, "library:" +:+ activity_slug d r)
    | [] => ("", "")
    end).

Definition openAssignmentForRevision (studentID revisionID : string) : M (option StudentAssignment) :=
  query (λ d, head (order_by (λ a b, Z.leb (sa_CreatedAt b) (sa_CreatedAt a))
    (select (λ a, bool_decide (sa_StudentID a = studentID) &&
                  bool_decide (sa_ActivityRevisionID a = revisionID) &&
                  one_of (sa_State a) [AssignmentAvailable; AssignmentInProgress])
       (db_assignments d)))).

(** ** The pickers *)

(** The slugs of the activities a response was returned for, [DISTINCT], ordered. *)
Definition returned_slugs (studentID : string) (d : database) : list string :=
  order_by str_le (remove_dups (omap (λ r, revision_slug d (sr_ActivityRevisionID r))
    (select (λ r, bool_decide (sr_StudentID r = studentID) && bool_decide (sr_Status r = "returned"))
       (db_responses d)))).

Definition found : Type := string * Enrollment * option CurriculumActivity * string.

(** The two nested loops of [pickRemediation]: the inner one over the returned
    slugs, for one enrollment. *)
Fixpoint remediation_for (studentID : string) (en : Enrollment) (revID : string)
    (completed openSlugs : gset string) (returned : list string) : M (option found) :=
  match returned with
  | [] => mret None
  | forSlug :: rest =>
      branch ← RemediationBranchSlug revID forSlug;
      if bool_decide (branch = "") || bool_decide (branch ∈ completed) || bool_decide (branch ∈ openSlugs)
      then remediation_for studentID en revID completed openSlugs rest
      else
        r ← IsSlugInActiveEnrollments studentID branch;
        match r with
        | Some (en', mem) => mret (Some (branch, en', Some mem, "remediation:" +:+ branch))
        | None =>
            latest ← attempt (latestPublishedRevisionBySlug branch);
            match latest with
            | Err _ => remediation_for studentID en revID completed openSlugs rest
            | Ok _ => mret (Some (branch, en, None, "remediation:" +:+ branch))
            end
        end
  end.

Fixpoint remediation_loop (studentID : string) (completed openSlugs : gset string)
    (returned : list string) (ens : list Enrollment) : M (option found) :=
  match ens with
  | [] => mret None
  | en :: rest =>
      match en_CurriculumRevisionID en with
      | None => remediation_loop studentID completed openSlugs returned rest
      | Some revID =>
          r ← remediation_for studentID en revID completed openSlugs returned;
          match r with
          | Some f => mret (Some f)
          | None => remediation_loop studentID completed openSlugs returned rest
          end
      end
  end.

Definition pickRemediation (studentID : string) (ens : list Enrollment) : M (option found) :=
  returned ← query (returned_slugs studentID);
  completed ← CompletedActivitySlugsForStudent studentID;
  openSlugs ← OpenAssignmentSlugsForStudent studentID;
  remediation_loop studentID completed openSlugs returned ens.

(** The closure [try] of [pickReinforcementRevision]. *)
Fixpoint try_role (studentID role : string) (preferTyping constrainToCourse : bool)
    (due : list dueMastery) : M (string * string) :=
  match due with
  | [] => mret ("", "")
  | d :: rest =>
      id ← findRevisionForStandard studentID (du_StandardID d) role preferTyping;
      if bool_decide (id = "") then try_role studentID role preferTyping constrainToCourse rest
      else
        ok ← (if constrainToCourse then
                slug ← activitySlugForRevision id;
                slugAllowedForEnrolledStudent studentID slug
              else mret true);
        if negb (ok : bool) then try_role studentID role preferTyping constrainToCourse rest
        else mret (id, (if bool_decide (role = "") then "reinforcement-any" else "reinforcement")
                         +:+ ":" +:+ du_Code d)
  end.

Definition pickReinforcementRevision (studentID : string) (now : Z) (constrainToCourse : bool)
  : M (string * string) :=
  due ← listDueMastery studentID now;
  match due with
  | [] => mret ("", "")
  | _ =>
      let preferTyping := existsb (λ d, standardLooksLikeTyping (du_Code d)) due in
      r ← try_role studentID "reinforcement" preferTyping constrainToCourse due;
      if negb (bool_decide (r.1 = "")) then mret r
      else try_role studentID "" preferTyping constrainToCourse due
  end.

(** ** [AssignNext] *)

(** The local variables of [AssignNext]; [pk_revID = ""] means nothing picked yet. *)
Record pick := mkPick {
  pk_revID : string; pk_reason : string; pk_enrollment : option string;
  pk_membership : option string; pk_candidates : list string }.

Definition no_pick : pick := mkPick "" "" None None [].
Definition add_candidate (c : string) (p : pick) : pick :=
  mkPick (pk_revID p) (pk_reason p) (pk_enrollment p) (pk_membership p) (pk_candidates p ++ [c]).

Definition blocked (reason block : string) (candidates : list string) : Result :=
  mkResult None reason false block candidates.

(** Step 1, an explicit slug; [inl] is an early return. *)
Definition pickSlug (studentID slug : string) (enrolled : bool) : M (Result + pick) :=
  let why := "slug:" +:+ slug in
  if enrolled then
    r ← IsSlugInActiveEnrollments studentID slug;
    match r with
    | None => mret (inl (blocked "" (BlockNotInRevision +:+ ": slug " +:+ go_quote slug +:+
                                      " not in active course enrollments") [why]))
    | Some (en, mem) =>
        match ca_ActivityRevisionID mem with
        | None => throw (ErrBadRequest "course membership missing activity revision")
        | Some revID => mret (inr (mkPick revID why (Some (en_ID en)) (Some (ca_ID mem)) [why]))
        end
    end
  else
    id ← latestPublishedRevisionBySlug slug;
    mret (inr (mkPick id why None None [why])).

(** Step 1, the pins of the active enrollments, in their order. *)
Fixpoint pickPin (studentID : string) (ens : list Enrollment) (p : pick) : M pick :=
  match ens with
  | [] => mret p
  | en :: rest =>
      let slug := en_PinnedActivitySlug en in
      if bool_decide (slug = "") then pickPin studentID rest p
      else
        let p' := add_candidate ("pin:" +:+ slug) p in
        r ← IsSlugInActiveEnrollments studentID slug;
        match r with
        | None => pickPin studentID rest p'
        | Some (_, mem) =>
            match ca_ActivityRevisionID mem with
            | None => pickPin studentID rest p'
            | Some revID =>
                completed ← CompletedActivitySlugsForStudent studentID;
                if bool_decide (slug ∈ completed) then pickPin studentID rest p'
                else mret (mkPick revID ("pin:" +:+ slug) (Some (en_ID en)) (Some (ca_ID mem))
                             (pk_candidates p'))
            end
        end
  end.

(** Step 2. *)
Definition stepRemediation (studentID : string) (activeEns : list Enrollment) (p : pick) : M pick :=
  if bool_decide (pk_revID p = "") && negb (bool_decide (activeEns = [])) then
    r ← pickRemediation studentID activeEns;
    match r with
    | Some (_, en, Some mem, why) =>
        match ca_ActivityRevisionID mem with
        | Some revID => mret (mkPick revID why (Some (en_ID en)) (Some (ca_ID mem)) (pk_candidates p ++ [why]))
        | None => mret p
        end
    | _ => mret p
    end
  else mret p.

(** Step 3. *)
Definition stepReinforcement (studentID : string) (now : Z) (preferReinf hasCourse : bool) (p : pick)
  : M pick :=
  if bool_decide (pk_revID p = "") && preferReinf then
    r ← pickReinforcementRevision studentID now hasCourse;
    let '(id, why) := r in
    if bool_decide (id = "") then mret p
    else
      let p' := add_candidate why p in
      if hasCourse then
        slug ← activitySlugForRevision id;
        r ← IsSlugInActiveEnrollments studentID slug;
        match r with
        | Some (en, mem) =>
            let id' := default id (ca_ActivityRevisionID mem) in
            mret (if bool_decide (id' = "")
                  then mkPick (pk_revID p') (pk_reason p') (Some (en_ID en)) (Some (ca_ID mem)) (pk_candidates p')
                  else mkPick id' why (Some (en_ID en)) (Some (ca_ID mem)) (pk_candidates p'))
        | None => mret p'
        end
      else mret (mkPick id why (pk_enrollment p') (pk_membership p') (pk_candidates p'))
  else mret p.

Section assign.
Context `{!Postgres}.

(** Step 4. *)
Definition stepNext (studentID : string) (hasCourse : bool) (p : pick) : M (Result + pick) :=
  if negb (bool_decide (pk_revID p = "")) then mret (inr p)
  else if hasCourse then
    r ← FirstEligibleCourseActivity studentID;
    match (match r with
           | Some (en, mem, why) =>
               (λ revID, mkPick revID why (Some (en_ID en)) (Some (ca_ID mem)) (pk_candidates p ++ [why]))
               <$> ca_ActivityRevisionID mem
           | None => None
           end) with
    | Some p' => mret (inr p')
    | None =>
        block ← CollectEnrollmentBlockSummary studentID;
        let block := if bool_decide (block = "") then BlockNoEligibleActivity else block in
        mret (inl (blocked block block (pk_candidates p ++ [block])))
    end
  else
    r ← pickNextCurriculumRevision studentID;
    let '(id, why) := r in
    if bool_decide (id = "") then
      mret (inl (blocked BlockNoEligibleActivity "no assignable published activity found" (pk_candidates p)))
    else mret (inr (mkPick id why (pk_enrollment p) (pk_membership p) (pk_candidates p ++ [why]))).

(** The end of [AssignNext]: the open assignment of the revision, or a new one. *)
Definition placeAssignment (studentID : string) (opts : Options) (p : pick) : M Result :=
  let reason := if bool_decide (op_Reason opts = "") then pk_reason p else op_Reason opts in
  existing ← openAssignmentForRevision studentID (pk_revID p);
  match existing with
  | Some a => mret (mkResult (Some a) "already-open" false "" (pk_candidates p))
  | None =>
      asg ← CreateAssignmentFull (mkAssignmentCreate studentID (pk_revID p) (pk_enrollment p)
              (pk_membership p) (pk_reason p) (op_AssignedBy opts) (op_Priority opts) reason);
      mret (mkResult (Some asg) (pk_reason p) true "" (pk_candidates p))
  end.

Definition explicitPick (studentID slug : string) (pausedOnly : bool) (activeEns : list Enrollment)
  : M (Result + pick) :=
  let hasCourse := negb (bool_decide (activeEns = [])) in
  if negb (bool_decide (slug = "")) then pickSlug studentID slug (hasCourse || pausedOnly)
  else if hasCourse then p ← pickPin studentID activeEns no_pick; mret (inr p)
  else mret (inr no_pick).

Definition selectActivity (studentID : string) (opts : Options) (pausedOnly : bool)
    (activeEns : list Enrollment) : M (Result + pick) :=
  let now := default (op_wall opts) (op_Now opts) in
  let preferReinf := default true (op_PreferReinforcement opts) && bool_decide (op_Slug opts = "") in
  let hasCourse := negb (bool_decide (activeEns = [])) in
  r ← explicitPick studentID (op_Slug opts) pausedOnly activeEns;
  match r with
  | inl res => mret (inl res)
  | inr p =>
      p2 ← stepRemediation studentID activeEns p;
      p3 ← stepReinforcement studentID now preferReinf hasCourse p2;
      stepNext studentID hasCourse p3
  end.

Definition AssignNext (studentID : string) (opts : Options) : M Result :=
  _ ← GetStudent studentID;
  courseEns ← ListCourseEnrollmentsForStudent studentID;
  let activeEns := filter (λ en, en_Status en = "active") courseEns in
  let pausedOnly := bool_decide (activeEns = []) && negb (bool_decide (courseEns = [])) in
  if pausedOnly && bool_decide (op_Slug opts = "") then
    mret (blocked BlockEnrollmentPaused BlockEnrollmentPaused [BlockEnrollmentPaused])
  else
    r ← selectActivity studentID opts pausedOnly activeEns;
    match r with
    | inl res => mret res
    | inr p => placeAssignment studentID opts p
    end.
End assign.

(** ** Reading the enrollments *)

Lemma List_Ok `{!Row A} limit le (p : A → bool) q c c' page :
  List_ limit le p q c = (c', Ok page) →
  cn_aborted c = false ∧ c' = c ∧
  page.1 = take (Z.to_nat (normalize_limit limit)) (order_by le (select p (tbl (cn_db c)))).
Proof. unfold List_. intros Hr. by m_inv. Qed.

(** An active course enrollment of the student. *)
Definition enrolled (d : database) (studentID : string) (en : Enrollment) : Prop :=
  (∃ k, db_enrollments d !! k = Some en) ∧ en_StudentID en = studentID ∧
  en_Status en = "active" ∧ course_backed en = true.

(** [ma] is an entry of the course revision of [en]. *)
Definition course_entry (d : database) (en : Enrollment) (ma : CurriculumActivity) : Prop :=
  (∃ k, db_curriculum_activities d !! k = Some ma) ∧
  en_CurriculumRevisionID en = Some (ca_CurriculumRevisionID ma).

Lemma ListActive_Ok sid q c c' ens :
  ListActiveEnrollmentsForStudent sid q c = (c', Ok ens) →
  c' = c ∧ Forall (enrolled (cn_db c) sid) ens.
Proof.
  unfold ListActiveEnrollmentsForStudent, listCourseEnrollments.
  intros (c1 & page & H1 & H2)%M_bind_Ok. apply List_Ok in H1 as (_ & -> & Hp). m_inv.
  split; [done|]. apply Forall_forall. intros e He.
  rewrite elem_of_order_by, list_elem_of_filter, Hp in He. destruct He as [Hb He].
  apply elem_of_take in He as (i & He & _). apply list_elem_of_lookup_2 in He.
  rewrite elem_of_order_by, elem_of_select in He. destruct He as [Hk He].
  apply andb_true_iff in He as [?%bool_decide_eq_true ?%bool_decide_eq_true]. by split_and!.
Qed.

Lemma ListActivities_Ok rev q c c' acts :
  ListCurriculumActivities rev q c = (c', Ok acts) →
  c' = c ∧ ∀ a, a ∈ acts →
    (∃ k, db_curriculum_activities (cn_db c) !! k = Some a) ∧ ca_CurriculumRevisionID a = rev.
Proof.
  unfold ListCurriculumActivities. intros (c1 & page & H1 & H2)%M_bind_Ok.
  apply List_Ok in H1 as (_ & -> & Hp). m_inv. split; [done|]. intros a Ha.
  rewrite Hp in Ha. apply elem_of_take in Ha as (i & Ha & _). apply list_elem_of_lookup_2 in Ha.
  rewrite elem_of_order_by, elem_of_select in Ha. destruct Ha as [? ?%bool_decide_eq_true]. done.
Qed.

Lemma slug_in_loop_Ok slug ens q c c' en mem :
  slug_in_loop slug ens q c = (c', Ok (Some (en, mem))) →
  en ∈ ens ∧ course_entry (cn_db c) en mem ∧ ca_ActivitySlug mem = slug.
Proof.
  induction ens as [|e ens IH]; cbn; [done|].
  destruct (en_CurriculumRevisionID e) as [rev|] eqn:Erev; [|intros Hr; apply IH in Hr; set_solver].
  intros (c1 & acts & H1 & H2)%M_bind_Ok. apply ListActivities_Ok in H1 as [-> Hacts].
  destruct (filter _ acts) as [|a l] eqn:Ef; [apply IH in H2; set_solver|].
  assert (a ∈ filter (λ a, ca_ActivitySlug a = slug) acts) as Ha by (rewrite Ef; left).
  apply list_elem_of_filter in Ha as [Hs Ha]. apply Hacts in Ha as [Hk Hr].
  injection H2 as -> -> ->. split_and!; [left| |done]. split; [done|]. by rewrite Erev, Hr.
Qed.

Lemma IsSlug_Ok sid slug q c c' en mem :
  IsSlugInActiveEnrollments sid slug q c = (c', Ok (Some (en, mem))) →
  enrolled (cn_db c) sid en ∧ course_entry (cn_db c) en mem ∧ ca_ActivitySlug mem = slug.
Proof.
  unfold IsSlugInActiveEnrollments. intros (c1 & ens & H1 & H2)%M_bind_Ok.
  apply ListActive_Ok in H1 as [-> Hall]. apply slug_in_loop_Ok in H2 as (Hin & ? & ?).
  rewrite Forall_forall in Hall. auto.
Qed.

(** Every step but the last two only reads. *)
Lemma readonly_ListActive sid : readonly (ListActiveEnrollmentsForStudent sid).
Proof. unfold ListActiveEnrollmentsForStudent, listCourseEnrollments. eauto with primer. Qed.
Lemma readonly_ListCourse sid : readonly (ListCourseEnrollmentsForStudent sid).
Proof. unfold ListCourseEnrollmentsForStudent. eauto with primer. Qed.
Lemma readonly_ListActivities rev : readonly (ListCurriculumActivities rev).
Proof. unfold ListCurriculumActivities. eauto with primer. Qed.
Lemma readonly_IsSlug sid slug : readonly (IsSlugInActiveEnrollments sid slug).
Proof.
  apply readonly_bind; [apply readonly_ListActive|]. intros ens.
  induction ens as [|e ens IH]; cbn; [auto with primer|].
  destruct (en_CurriculumRevisionID e); [|done].
  apply readonly_bind; [apply readonly_ListActivities|]. intros acts.
  destruct (filter _ acts); auto with primer.
Qed.
Lemma readonly_GetStudent id : readonly (GetStudent id).
Proof. apply readonly_bind; [apply readonly_query|]. intros []; auto with primer. Qed.
Lemma readonly_latest slug : readonly (latestPublishedRevisionBySlug slug).
Proof. apply readonly_bind; [apply readonly_query|]. intros []; auto with primer. Qed.
Lemma readonly_slugForRevision id : readonly (activitySlugForRevision id).
Proof. apply readonly_bind; [apply readonly_query|]. intros []; auto with primer. Qed.
Lemma readonly_completed sid : readonly (CompletedActivitySlugsForStudent sid).
Proof. apply readonly_query. Qed.
Lemma readonly_allowed sid slug : readonly (slugAllowedForEnrolledStudent sid slug).
Proof.
  apply readonly_bind; [apply readonly_ListActive|]. intros []; [auto with primer|].
  apply readonly_bind; [apply readonly_IsSlug|auto with primer].
Qed.
#[local] Hint Resolve readonly_ListActive readonly_ListCourse readonly_ListActivities readonly_IsSlug
  readonly_GetStudent readonly_latest readonly_slugForRevision readonly_allowed readonly_completed : primer.

Lemma readonly_pickPin sid ens p : readonly (pickPin sid ens p).
Proof.
  revert p. induction ens as [|e ens IH]; intros p; cbn; [auto with primer|].
  case_bool_decide; [done|]. apply readonly_bind; [auto with primer|]. intros [[en mem]|]; [|done].
  destruct (ca_ActivityRevisionID mem); [|done].
  apply readonly_bind; [auto with primer|]. intros completed. case_bool_decide; auto with primer.
Qed.

Lemma readonly_explicit sid slug paused ens : readonly (explicitPick sid slug paused ens).
Proof.
  unfold explicitPick, pickSlug. destruct (negb (bool_decide (slug = ""))).
  - destruct (_ || _); apply readonly_bind; auto with primer.
    intros [[en mem]|]; [destruct (ca_ActivityRevisionID mem)|]; auto with primer.
  - destruct (negb _); auto with primer. apply readonly_bind; [apply readonly_pickPin|auto with primer].
Qed.

Lemma readonly_remediation_for sid en rev completed open returned :
  readonly (remediation_for sid en rev completed open returned).
Proof.
  induction returned as [|s l IH]; cbn; [auto with primer|].
  apply readonly_bind; [unfold RemediationBranchSlug, ListCurriculumRemediations; eauto with primer|].
  intros branch. destruct (_ || _); [done|]. apply readonly_bind; [auto with primer|].
  intros [[en' mem]|]; [auto with primer|]. apply readonly_bind; [auto with primer|].
  intros [id|e]; auto with primer.
Qed.

Lemma readonly_stepRemediation sid ens p : readonly (stepRemediation sid ens p).
Proof.
  unfold stepRemediation. destruct (_ && _); [|auto with primer]. apply readonly_bind.
  - unfold pickRemediation, CompletedActivitySlugsForStudent, OpenAssignmentSlugsForStudent.
    do 3 (apply readonly_bind; [auto with primer|intros ?]).
    induction ens as [|e ens IH]; cbn; [auto with primer|].
    destruct (en_CurriculumRevisionID e); [|done].
    apply readonly_bind; [apply readonly_remediation_for|]. intros []; auto with primer.
  - intros [[[[s en] [mem|]] why]|]; try destruct (ca_ActivityRevisionID mem); auto with primer.
Qed.

Lemma readonly_try_role sid role typing constrain due :
  readonly (try_role sid role typing constrain due).
Proof.
  induction due as [|d due IH]; cbn; [auto with primer|].
  apply readonly_bind; [apply readonly_query|]. intros id. case_bool_decide; [done|].
  apply readonly_bind.
  - destruct constrain; [|auto with primer]. apply readonly_bind; auto with primer.
  - intros ok. destruct (negb ok); auto with primer.
Qed.

Lemma readonly_pickReinforcement sid now constrain :
  readonly (pickReinforcementRevision sid now constrain).
Proof.
  apply readonly_bind; [apply readonly_query|]. intros [|d due]; [auto with primer|].
  apply readonly_bind; [apply readonly_try_role|]. intros r. destruct (negb _); [auto with primer|].
  apply readonly_try_role.
Qed.

Lemma readonly_stepReinforcement sid now prefer course p :
  readonly (stepReinforcement sid now prefer course p).
Proof.
  unfold stepReinforcement. destruct (_ && _); [|auto with primer].
  apply readonly_bind; [apply readonly_pickReinforcement|].
  - intros [id why]. case_bool_decide; [auto with primer|]. destruct course; [|auto with primer].
    apply readonly_bind; [auto with primer|]. intros slug. apply readonly_bind; [auto with primer|].
    intros [[en mem]|]; auto with primer.
Qed.

(** ** What the evaluation of an enrollment computes *)

(** Two databases that differ at most in the blocking reasons cached on the
    enrollments. *)
Definition same_courses (d d' : database) : Prop :=
  d' = set_enrollments (db_enrollments d') d ∧
  ∀ k, en_set_blocking [] 0 <$> db_enrollments d' !! k = en_set_blocking [] 0 <$> db_enrollments d !! k.

#[export] Instance same_courses_preorder : PreOrder same_courses.
Proof.
  split.
  - intros d. split; [by destruct d|done].
  - intros d1 d2 d3 [H1 H2] [H3 H4]. split.
    + rewrite H3. rewrite H1. by destruct d1.
    + intros k. by rewrite H4, H2.
Qed.

Lemma Update_db `{!Row A} id f q c :
  cn_db (Update (A:=A) id f q c).1 = cn_db c ∨
  ∃ x, tbl (cn_db c) !! id = Some x ∧
       cn_db (Update (A:=A) id f q c).1 = set_tbl (<[id := f (q_now q) x]> (tbl (cn_db c))) (cn_db c).
Proof.
  unfold Update, mbind, M_bind, stmt. destruct (cn_aborted c); [by left|].
  destruct (tbl (cn_db c) !! id) as [x|]; [|by left].
  destruct (violation _ _); [by left|]. right. eauto.
Qed.

Lemma en_set_blocking_twice l n l' n' e :
  en_set_blocking l n (en_set_blocking l' n' e) = en_set_blocking l n e.
Proof. done. Qed.

Lemma blocking_same_courses id reasons : preserves same_courses (UpdateEnrollmentBlockingReasons id reasons).
Proof.
  apply preserves_bind; [apply _| |intros ?; apply preserves_readonly; [apply _|auto with primer]].
  intros q c.
  destruct (Update_db id (en_set_blocking reasons) q c) as [->|(x & Hx & ->)]; [reflexivity|].
  split; [by destruct (cn_db c)|]. intros k. cbn [set_tbl row_enrollments tbl] in *.
  replace (db_enrollments (set_enrollments _ _))
    with (<[id:=en_set_blocking reasons (q_now q) x]> (db_enrollments (cn_db c))) by done.
  destruct (decide (k = id)) as [->|Hk]; [|by rewrite lookup_insert_ne].
  by rewrite lookup_insert_eq, Hx.
Qed.

Definition runtime_block (d : database) (profiles : gset string) (m : CurriculumActivity)
  : option BlockReason :=
  revID ← ca_ActivityRevisionID m;
  rev ← db_revisions d !! revID;
  let profile := runtimeProfileFromContent (rv_Content rev) in
  if bool_decide (profiles = ∅) || bool_decide (revID = "") || bool_decide (profile = "") ||
     bool_decide (profile ∈ profiles) then None
  else Some (mkBlockReason BlockMissingRuntimeProfile
               ("device missing runtime profile " +:+ go_quote profile) (ca_ActivitySlug m) "" profile).

Lemma blockMissingRuntime_run m profiles q c :
  cn_aborted c = false → blockMissingRuntime m profiles q c = (c, Ok (runtime_block (cn_db c) profiles m)).
Proof.
  intros Hl. unfold blockMissingRuntime, runtime_block.
  destruct (ca_ActivityRevisionID m) as [revID|]; cbn [mbind option_bind];
    [|by case_bool_decide].
  destruct (db_revisions (cn_db c) !! revID) as [rev|] eqn:Er; cbn [mbind option_bind].
  - assert (GetRevision revID q c = (c, Ok rev)) as Hg by (by apply Get_run).
    case_bool_decide; [done|]. case_bool_decide; [done|]. unfold mbind, M_bind.
    rewrite (attempt_run _ _ _ _ _ Hg). cbn. by repeat case_bool_decide.
  - case_bool_decide; [done|]. case_bool_decide; [done|]. unfold mbind, M_bind.
    assert (GetRevision revID q c = (c, Err ErrNotFound)) as Hg.
    { unfold GetRevision, Get, mbind, M_bind. rewrite query_run by done. cbn. by rewrite Er. }
    by rewrite (attempt_run _ _ _ _ _ Hg).
Qed.

Definition with_runtime (d : database) (profiles : gset string) (st : ActivityStatus) : ActivityStatus :=
  if as_Eligible st || bool_decide (as_Status st = "blocked") then
    match runtime_block d profiles (as_Membership st) with
    | Some r => mkActivityStatus (as_Membership st) false "blocked" (as_BlockingReasons st ++ [r])
    | None => st
    end
  else st.

Lemma gateRuntime_run profiles st q c :
  cn_aborted c = false → gateRuntime profiles st q c = (c, Ok (with_runtime (cn_db c) profiles st)).
Proof.
  intros Hl. unfold gateRuntime, with_runtime. destruct (_ || _); [|done].
  unfold mbind, M_bind. rewrite blockMissingRuntime_run by done. by destruct (runtime_block _ _ _).
Qed.

Lemma for_M_collect {A B} (f : A → M B) (g : A → B) l acc q c :
  (∀ x, f x q c = (c, Ok (g x))) →
  for_M (λ x acc, y ← f x; mret (acc ++ [y])) l acc q c = (c, Ok (acc ++ (g <$> l))).
Proof.
  intros Hf. revert acc. induction l as [|x l IH]; intros acc; [cbn; by rewrite app_nil_r|].
  apply for_M_cons_Ok. exists c, (acc ++ [g x]). rewrite IH, <-app_assoc. split; [|done].
  apply M_bind_Ok. exists c, (g x). by rewrite Hf.
Qed.

(** The status of the entry [m] of the course of [en], as a function of the database. *)
Definition revision_prereqs (d : database) (revID : string) : list CurriculumActivityPrerequisite :=
  take 200 (order_by (by_created cp_CreatedAt)
    (select (λ a, bool_decide (cp_CurriculumRevisionID a = revID)) (db_prerequisites d))).
Definition revision_gates (d : database) (revID : string) : list CurriculumActivityGate :=
  take 200 (order_by (by_created cg_CreatedAt)
    (select (λ a, bool_decide (cg_CurriculumRevisionID a = revID)) (db_gates d))).
Definition revision_entries (d : database) (revID : string) : list CurriculumActivity :=
  take 200 (order_by (λ a b, Z.leb (ca_Position a) (ca_Position b))
    (select (λ a, bool_decide (ca_CurriculumRevisionID a = revID)) (db_curriculum_activities d))).

Definition entry_status (d : database) (en : Enrollment) (revID : string) (m : CurriculumActivity)
  : ActivityStatus :=
  let sid := en_StudentID en in
  with_runtime d (runtimeProfilesFromCaps (latest_capabilities sid d))
    (evaluateMembership m en
       (filter (λ p, cp_ActivitySlug p = ca_ActivitySlug m) (revision_prereqs d revID))
       (filter (λ g, cg_ActivitySlug g = ca_ActivitySlug m) (revision_gates d revID))
       (assignment_slugs sid [AssignmentCompleted] d)
       (assignment_slugs sid [AssignmentAvailable; AssignmentInProgress] d)
       (pending_slugs sid d) (mastery_by_code sid d)).

Definition preview (d : database) (en : Enrollment) (revID : string) : list ActivityStatus :=
  entry_status d en revID <$> revision_entries d revID.

Lemma Evaluate_Ok id q c c' prev :
  EvaluateEnrollmentEligibility id q c = (c', Ok prev) →
  same_courses (cn_db c) (cn_db c') ∧
  ∃ en revID rev, db_enrollments (cn_db c) !! id = Some en ∧ en_CurriculumRevisionID en = Some revID ∧
    db_curriculum_revisions (cn_db c) !! revID = Some rev ∧
    ev_Activities prev = preview (cn_db c) en (cv_ID rev) ∧
    ev_Eligible prev = filter (λ st, as_Eligible st = true) (ev_Activities prev).
Proof.
  unfold EvaluateEnrollmentEligibility. intros (c1 & en & H1 & Hr)%M_bind_Ok.
  apply Get_Ok in H1 as (Hl & -> & Hen).
  destruct (en_CurriculumRevisionID en) as [revID|] eqn:Erev; [|done].
  case_bool_decide; [done|]. apply M_bind_Ok in Hr as (c1 & rev & H1 & Hr).
  apply Get_Ok in H1 as (_ & -> & Hrev).
  unfold ListCurriculumActivities, ListCurriculumPrerequisites, ListCurriculumGates,
    CompletedActivitySlugsForStudent, OpenAssignmentSlugsForStudent, PendingParentReviewSlugs,
    MasteryStatusByStandardCode, LatestDeviceCapabilitiesForStudent in Hr.
  do 3 (apply M_bind_Ok in Hr as (? & ? & (? & [? ?] & (_ & -> & ?)%List_Ok & [= <- <-])%M_bind_Ok & Hr)).
  do 5 (apply M_bind_Ok in Hr as (? & ? & (_ & -> & ->)%query_Ok & Hr)).
  apply M_bind_Ok in Hr as (c1 & acts & Hall & Hr). unfold evaluateAll in Hall.
  rewrite (for_M_collect _ (entry_status (cn_db c) en (cv_ID rev))) in Hall.
  2: { intros m. rewrite gateRuntime_run by done. cbn in *. subst. done. }
  injection Hall as <- <-. apply M_bind_Ok in Hr as (c2 & r & Hu%attempt_inv & [= <- <-]). split.
  - pose proof (blocking_same_courses (en_ID en)) as Hb.
    match type of Hu with UpdateEnrollmentBlockingReasons _ ?rs _ _ = _ => specialize (Hb rs q c) end.
    by rewrite Hu in Hb.
  - exists en, revID, rev. cbn in *. subst. done.
Qed.

(** ** The selection against its specification *)

(** Rows are stored under their primary key. *)
Definition keyed (d : database) : Prop :=
  (∀ k e, db_enrollments d !! k = Some e → en_ID e = k) ∧
  (∀ k r, db_curriculum_revisions d !! k = Some r → cv_ID r = k).

(** The course revision is within the page size of the generic list. *)
Definition fits (d : database) (revID : string) : Prop :=
  (length (select (λ a, bool_decide (ca_CurriculumRevisionID a = revID)) (db_curriculum_activities d)) ≤ 200)%nat ∧
  (length (select (λ a, bool_decide (cp_CurriculumRevisionID a = revID)) (db_prerequisites d)) ≤ 200)%nat ∧
  (length (select (λ a, bool_decide (cg_CurriculumRevisionID a = revID)) (db_gates d)) ≤ 200)%nat.

(** What makes an entry of the course of [en] assignable. *)
Definition may_be_given (d : database) (en : Enrollment) (ma : CurriculumActivity) : Prop :=
  let sid := en_StudentID en in
  let slug := ca_ActivitySlug ma in
  let completed := assignment_slugs sid [AssignmentCompleted] d in
  let pending := pending_slugs sid d in
  en_Status en = "active" ∧ resolved ma = true ∧ slug ∉ completed ∧
  slug ∉ assignment_slugs sid [AssignmentAvailable; AssignmentInProgress] d ∧
  (forced ma en = true ∨
   (∀ k p, db_prerequisites d !! k = Some p → cp_CurriculumRevisionID p = ca_CurriculumRevisionID ma →
      cp_ActivitySlug p = slug → prerequisiteSatisfied p completed = true ∧ cp_RequiresSlug p ∉ pending) ∧
   (∀ k g, db_gates d !! k = Some g → cg_CurriculumRevisionID g = ca_CurriculumRevisionID ma →
      cg_ActivitySlug g = slug →
      (cg_Kind g = GateParentReview → slug ∉ pending) ∧
      (cg_Kind g = GateEvidence → ∀ code, code ∈ cg_Standards g →
         mastery_by_code sid d !! code = Some "approaching" ∨ mastery_by_code sid d !! code = Some "mastered"))) ∧
  runtime_block d (runtimeProfilesFromCaps (latest_capabilities sid d)) ma = None.

Lemma elem_of_page {A} (le : A → A → bool) (p : A → bool) (t : gmap string A) n x :
  (length (select p t) ≤ n)%nat → x ∈ take n (order_by le (select p t)) ↔ (∃ k, t !! k = Some x) ∧ p x = true.
Proof.
  intros Hn. rewrite take_ge by (by rewrite (Permutation_length (order_by_perm _ _))).
  by rewrite elem_of_order_by, elem_of_select.
Qed.

Lemma with_runtime_eligible d profiles st :
  as_Eligible (with_runtime d profiles st) = true ↔
  as_Eligible st = true ∧ runtime_block d profiles (as_Membership st) = None.
Proof.
  unfold with_runtime. destruct (as_Eligible st) eqn:E; cbn [orb].
  - destruct (runtime_block _ _ _); cbn; rewrite ?E; naive_solver.
  - destruct (bool_decide _); [destruct (runtime_block _ _ _)|]; cbn; rewrite ?E; naive_solver.
Qed.

Lemma evaluateMembership_membership m en prereqs gates completed open pending mastery :
  as_Membership (evaluateMembership m en prereqs gates completed open pending mastery) = m.
Proof.
  unfold evaluateMembership. do 2 (case_bool_decide; [done|]). by destruct (_ ++ _ ++ _).
Qed.

Lemma entry_status_membership d en revID m : as_Membership (entry_status d en revID m) = m.
Proof.
  unfold entry_status, with_runtime. destruct (_ || _);
    [destruct (runtime_block _ _ _)|]; cbn; apply evaluateMembership_membership.
Qed.

Lemma entry_eligible d en m :
  fits d (ca_CurriculumRevisionID m) →
  as_Eligible (entry_status d en (ca_CurriculumRevisionID m) m) = true ↔ may_be_given d en m.
Proof.
  intros (_ & Hp & Hg). unfold entry_status, may_be_given.
  rewrite with_runtime_eligible, evaluateMembership_eligible, evaluateMembership_membership.
  unfold prereqs_met, gates_open, revision_prereqs, revision_gates.
  setoid_rewrite list_elem_of_filter. setoid_rewrite (elem_of_page _ _ _ _ _ Hp).
  setoid_rewrite (elem_of_page _ _ _ _ _ Hg). setoid_rewrite bool_decide_eq_true.
  naive_solver.
Qed.

Lemma entry_resolved d en revID m :
  as_Eligible (entry_status d en revID m) = true → is_Some (ca_ActivityRevisionID m).
Proof.
  unfold entry_status. intros [He _]%with_runtime_eligible.
  apply evaluateMembership_eligible in He as (_ & Hr & _). unfold resolved in Hr.
  by destruct (ca_ActivityRevisionID m).
Qed.

(** The cached blocking reasons play no role. *)
Lemma preview_same d d' en en' revID :
  same_courses d d' → en_set_blocking [] 0 en' = en_set_blocking [] 0 en →
  preview d' en' revID = preview d en revID.
Proof.
  intros [-> _] He. transitivity (preview d en' revID); [by destruct d|].
  transitivity (preview d (en_set_blocking [] 0 en') revID); [done|]. by rewrite He.
Qed.

Lemma elem_of_preview d en revID st :
  st ∈ preview d en revID →
  ∃ m, st = entry_status d en revID m ∧ as_Membership st = m ∧
       (∃ k, db_curriculum_activities d !! k = Some m) ∧ ca_CurriculumRevisionID m = revID.
Proof.
  unfold preview, revision_entries. intros (m & -> & Hm)%list_elem_of_fmap.
  exists m. split; [done|]. split; [apply entry_status_membership|].
  apply elem_of_take in Hm as (i & Hm & _). apply list_elem_of_lookup_2 in Hm.
  rewrite elem_of_order_by, elem_of_select in Hm. by destruct Hm as [? ?%bool_decide_eq_true].
Qed.

Section selection.
Context `{!Postgres} (d0 : database) (sid : string) (Hkeyed : keyed d0).

(** The enrollment [en] read in [d0] is still there up to its cached reasons. *)
Lemma reread_enrollment d en :
  same_courses d0 d → enrolled d0 sid en →
  ∃ en', db_enrollments d !! en_ID en = Some en' ∧ en_set_blocking [] 0 en' = en_set_blocking [] 0 en.
Proof using Hkeyed.
  intros [_ Hs] ((k & Hk) & _). rewrite (proj1 Hkeyed _ _ Hk). specialize (Hs k).
  rewrite Hk in Hs. destruct (db_enrollments d !! k) as [en'|]; [|done].
  exists en'. split; [done|]. by apply (inj Some).
Qed.

Lemma Evaluate_enrolled en q c c' prev :
  same_courses d0 (cn_db c) → enrolled d0 sid en →
  EvaluateEnrollmentEligibility (en_ID en) q c = (c', Ok prev) →
  same_courses d0 (cn_db c') ∧
  ∃ revID, en_CurriculumRevisionID en = Some revID ∧ ev_Activities prev = preview d0 en revID ∧
           ev_Eligible prev = filter (λ st, as_Eligible st = true) (preview d0 en revID).
Proof using Hkeyed.
  intros Hs Hen (Hs' & en' & revID & rev & He & Hr & Hrev & Ha & Hel)%Evaluate_Ok.
  split; [by etrans|]. destruct (reread_enrollment _ _ Hs Hen) as (en2 & He2 & Hb).
  rewrite He in He2. injection He2 as <-.
  assert (en_CurriculumRevisionID en = Some revID) as Her by (injection Hb; congruence).
  assert (cv_ID rev = revID) as Hid.
  { apply (proj2 Hkeyed revID rev). destruct Hs as [Hs _]. rewrite Hs in Hrev. by destruct d0. }
  exists revID. split; [done|]. rewrite Hel, Ha, Hid, (preview_same _ _ _ _ _ Hs Hb). done.
Qed.

(** What the loop over the enrollments finds: an entry a parent pinned or the first
    eligible one; nothing only if no entry of the enrollments is eligible. *)
Definition selected_from (ens : list Enrollment) (en : Enrollment) (mem : CurriculumActivity) : Prop :=
  en ∈ ens ∧ course_entry d0 en mem ∧ is_Some (ca_ActivityRevisionID mem) ∧
  (en_PinnedActivitySlug en = ca_ActivitySlug mem ∧ ca_ActivitySlug mem ≠ "" ∨
   as_Eligible (entry_status d0 en (ca_CurriculumRevisionID mem) mem) = true).

Lemma pinned_entry_Some pin sts m :
  pinned_entry pin sts = Some m →
  ca_ActivitySlug m = pin ∧ is_Some (ca_ActivityRevisionID m) ∧ ∃ st, st ∈ sts ∧ as_Membership st = m.
Proof.
  unfold pinned_entry. destruct (filter _ sts) as [|st l] eqn:Ef; [done|].
  assert (st ∈ filter (λ st, ca_ActivitySlug (as_Membership st) = pin) sts) as [Hs Hin]%list_elem_of_filter
    by (rewrite Ef; left).
  destruct (one_of _ _); [done|]. case_bool_decide as Hn; [done|]. intros [= <-].
  split; [done|]. split; [|eauto]. by destruct (ca_ActivityRevisionID _).
Qed.

Lemma first_eligible_loop_Ok ens q c c' r :
  same_courses d0 (cn_db c) → Forall (enrolled d0 sid) ens →
  first_eligible_loop ens q c = (c', Ok r) →
  same_courses d0 (cn_db c') ∧
  match r with
  | Some (en, mem, why) => selected_from ens en mem
  | None => ∀ en, en ∈ ens → ∀ revID, en_CurriculumRevisionID en = Some revID →
              filter (λ st, as_Eligible st = true) (preview d0 en revID) = []
  end.
Proof using Hkeyed.
  intros Hs Hall. revert c Hs. induction Hall as [|en ens Hen Hall IH]; intros c Hs; cbn.
  { intros [= <- <-]. split; [done|]. set_solver. }
  intros (c1 & prev & He & Hr)%M_bind_Ok.
  apply Evaluate_enrolled in He as (Hs1 & revID & Hrev & Ha & Hel); [|done..].
  destruct (if bool_decide _ then None else pinned_entry _ _) as [m|] eqn:Ep.
  { injection Hr as <- <-. split; [done|]. case_bool_decide as Hp; [done|].
    apply pinned_entry_Some in Ep as (Hslug & Hsome & st & Hst & Hm). rewrite Ha in Hst.
    apply elem_of_preview in Hst as (m' & _ & Hm' & Hk & Hrid). rewrite Hm in Hm'. subst m'.
    split; [left|]. split; [split; [done|congruence]|]. split; [done|]. left. split; congruence. }
  destruct (ev_Eligible prev) as [|st l] eqn:El.
  - apply IH in Hr as [Hs2 Hr]; [|done]. split; [done|].
    destruct r as [[[en' mem] why]|].
    + destruct Hr as [Hin Hr]. split; [by right|done].
    + intros en' [->|Hin]%elem_of_cons rid Hrid; [|by eapply Hr]. congruence.
  - injection Hr as <- <-. split; [done|].
    assert (st ∈ filter (λ st, as_Eligible st = true) (preview d0 en revID)) as [Hst Hin]%list_elem_of_filter
      by (rewrite <-Hel; left).
    apply elem_of_preview in Hin as (m & -> & Hm & Hk & Hrid). rewrite Hm. subst revID.
    split; [left|]. split; [done|]. split; [by eapply entry_resolved|by right].
Qed.
End selection.

(** ** What a pick says about the course *)

(** The enrollment and the entry recorded on the assignment: active, of the student,
    the entry in the course of an active enrollment (the same one, unless the pick is
    the pin of another), the revision that of the entry. *)
Definition in_course (d : database) (sid revID : string) (enID memID : option string) : Prop :=
  ∃ en en' ma, enID = Some (en_ID en) ∧ memID = Some (ca_ID ma) ∧
    enrolled d sid en ∧ enrolled d sid en' ∧ course_entry d en' ma ∧
    (en = en' ∨ en_PinnedActivitySlug en = ca_ActivitySlug ma) ∧
    (ca_ActivityRevisionID ma = Some revID ∨
     ca_ActivityRevisionID ma = None ∧ revision_slug d revID = Some (ca_ActivitySlug ma)).

Definition pick_in_course (d : database) (sid : string) (p : pick) : Prop :=
  in_course d sid (pk_revID p) (pk_enrollment p) (pk_membership p).

Lemma pick_of_entry d sid en ma revID why cs :
  enrolled d sid en → course_entry d en ma → ca_ActivityRevisionID ma = Some revID →
  pick_in_course d sid (mkPick revID why (Some (en_ID en)) (Some (ca_ID ma)) cs).
Proof. intros. exists en, en, ma. cbn. split_and!; auto. Qed.

Lemma pickPin_Ok d sid ens p q c c' p' :
  cn_db c = d → Forall (enrolled d sid) ens → pk_revID p = "" →
  pickPin sid ens p q c = (c', Ok p') → pk_revID p' = "" ∨ pick_in_course d sid p'.
Proof.
  intros Hd Hall. revert p. induction Hall as [|en ens Hen Hall IH]; intros p Hp; cbn.
  { intros [= <- <-]. by left. }
  case_bool_decide as Hs; [exact (IH p Hp)|]. intros (c1 & r & H1 & H2)%M_bind_Ok.
  assert (c1 = c) as -> by (eapply readonly_conn; [apply readonly_IsSlug|done]).
  destruct r as [[en' mem]|]; [|eapply IH; [|exact H2]; done].
  apply IsSlug_Ok in H1 as (He' & Hm & Hslug). rewrite Hd in *.
  destruct (ca_ActivityRevisionID mem) as [revID|] eqn:Er; [|eapply IH; [|exact H2]; done].
  apply M_bind_Ok in H2 as (c1 & completed & (_ & -> & _)%query_Ok & H2).
  case_bool_decide; [eapply IH; [|exact H2]; done|]. injection H2 as <- <-. right.
  exists en, en', mem. cbn. split_and!; auto.
Qed.

Lemma explicit_Ok sid slug paused ens q c c' p :
  Forall (enrolled (cn_db c) sid) ens → (ens ≠ [] ∨ paused = true) →
  explicitPick sid slug paused ens q c = (c', Ok (inr p)) →
  pk_revID p = "" ∨ pick_in_course (cn_db c) sid p.
Proof.
  intros Hall Hc. unfold explicitPick, pickSlug.
  case_bool_decide as Hslug; cbn [negb].
  - destruct (negb (bool_decide (ens = []))); [|intros [= <- <-]; by left].
    intros (c1 & p1 & H1 & [= <- <-])%M_bind_Ok. by eapply pickPin_Ok in H1.
  - assert (negb (bool_decide (ens = [])) || paused = true) as -> by
      (case_bool_decide; destruct Hc; subst; done).
    intros (c1 & [[en mem]|] & H1 & H2)%M_bind_Ok; [|done].
    apply IsSlug_Ok in H1 as (? & ? & _).
    destruct (ca_ActivityRevisionID mem) eqn:Er; [|done]. injection H2 as <- <-.
    right. by apply pick_of_entry.
Qed.

Lemma remediation_loop_Ok d sid completed open returned ens q c c' slug en mem why :
  cn_db c = d →
  remediation_loop sid completed open returned ens q c = (c', Ok (Some (slug, en, Some mem, why))) →
  enrolled d sid en ∧ course_entry d en mem.
Proof.
  intros Hd. induction ens as [|e ens IH]; cbn; [done|].
  destruct (en_CurriculumRevisionID e) as [rev|]; [|done].
  intros (c1 & r & H1 & H2)%M_bind_Ok.
  assert (c1 = c) as -> by (eapply readonly_conn; [apply readonly_remediation_for|done]).
  destruct r as [f|]; [|by apply IH]. injection H2 as <- ->. clear IH.
  induction returned as [|s l IH]; cbn in H1; [done|].
  apply M_bind_Ok in H1 as (c1 & branch & H0 & H1).
  assert (c1 = c) as ->.
  { eapply readonly_conn; [|exact H0]. unfold RemediationBranchSlug, ListCurriculumRemediations.
    eauto with primer. }
  destruct (_ || _); [by apply IH|]. apply M_bind_Ok in H1 as (c1 & r & H2 & H1).
  assert (c1 = c) as -> by (eapply readonly_conn; [apply readonly_IsSlug|done]).
  destruct r as [[en' mem']|].
  - injection H1 as _ -> -> _. apply IsSlug_Ok in H2 as (? & ? & _). by rewrite <-Hd.
  - apply M_bind_Ok in H1 as (c1 & [id|e'] & H3 & H1); [done|].
    assert (c1 = c) as -> by (eapply readonly_conn; [|exact H3]; auto using readonly_attempt, readonly_latest).
    by apply IH.
Qed.

Lemma stepRemediation_Ok sid ens p q c c' p' :
  stepRemediation sid ens p q c = (c', Ok p') →
  p' = p ∨ pick_in_course (cn_db c) sid p'.
Proof.
  unfold stepRemediation. destruct (_ && _); [|intros [= <- <-]; by left].
  intros (c1 & r & H1 & H2)%M_bind_Ok. unfold pickRemediation in H1.
  do 3 (apply M_bind_Ok in H1 as (? & ? & (_ & -> & _)%query_Ok & H1)).
  destruct r as [[[[s en] [mem|]] why]|]; [|injection H2; auto..].
  apply remediation_loop_Ok with (d := cn_db c) in H1 as [? ?]; [|done].
  destruct (ca_ActivityRevisionID mem) eqn:Er; injection H2 as <- <-; [|by left].
  right. by apply pick_of_entry.
Qed.

Lemma stepReinforcement_Ok sid now prefer p q c c' p' :
  stepReinforcement sid now prefer true p q c = (c', Ok p') →
  pk_revID p = "" ∧ pk_revID p' = "" ∨ p' = p ∨ pick_in_course (cn_db c) sid p'.
Proof.
  unfold stepReinforcement. destruct (bool_decide_reflect (pk_revID p = "")) as [Hp|Hp]; cbn [andb];
    [|intros [= <- <-]; auto].
  destruct prefer; [|intros [= <- <-]; auto].
  intros (c1 & [id why] & H1 & H2)%M_bind_Ok. case_bool_decide; [injection H2; auto|].
  apply M_bind_Ok in H2 as (c2 & slug & H3 & H2).
  unfold activitySlugForRevision in H3.
  apply M_bind_Ok in H3 as (c3 & os & (_ & -> & ->)%query_Ok & H3).
  destruct (revision_slug (cn_db c1) id) as [slug'|] eqn:Es; [|done]. injection H3 as <- <-.
  apply M_bind_Ok in H2 as (c2 & [[en mem]|] & H3 & H2); [|injection H2 as <- <-; by left].
  assert (c1 = c) as -> by (eapply readonly_conn; [apply readonly_pickReinforcement|done]).
  apply IsSlug_Ok in H3 as (? & ? & ?). injection H2 as <- <-.
  case_bool_decide; [by left|]. right; right.
  exists en, en, mem. cbn. split_and!; [done..|auto|].
  destruct (ca_ActivityRevisionID mem); cbn; [by left|right]. split; [done|]. by rewrite Es; subst.
Qed.

(** ** Theorems *)

(** The course enrollments that count: active or paused, within one page. *)
Definition has_course (d : database) (sid : string) : Prop :=
  ∃ k en, db_enrollments d !! k = Some en ∧ en_StudentID en = sid ∧ course_backed en = true ∧
          en_Status en ∈ ["active"; "paused"].
Definition one_page (d : database) (sid : string) : Prop :=
  (length (select (λ e, bool_decide (en_StudentID e = sid)) (db_enrollments d)) ≤ 100)%nat.

Lemma ListCourse_Ok sid q c c' ens :
  ListCourseEnrollmentsForStudent sid q c = (c', Ok ens) →
  c' = c ∧ (∀ e, e ∈ ens → (∃ k, db_enrollments (cn_db c) !! k = Some e) ∧ en_StudentID e = sid ∧
              course_backed e = true) ∧
  (one_page (cn_db c) sid → ∀ k e, db_enrollments (cn_db c) !! k = Some e → en_StudentID e = sid →
     course_backed e = true → en_Status e ∈ ["active"; "paused"] → e ∈ ens).
Proof.
  unfold ListCourseEnrollmentsForStudent. intros (c1 & page & H1 & H2)%M_bind_Ok.
  apply List_Ok in H1 as (_ & -> & Hp). injection H2 as <- <-. rewrite Hp. split; [done|].
  setoid_rewrite elem_of_order_by. setoid_rewrite list_elem_of_filter. split.
  - intros e ((Hb & _) & (i & He & _)%elem_of_take). apply list_elem_of_lookup_2 in He.
    rewrite elem_of_order_by, elem_of_select in He. by destruct He as [? ?%bool_decide_eq_true].
  - intros Hn k e Hk Hs Hb Hst. split; [split; [done|by apply bool_decide_true]|].
    apply elem_of_page; [done|]. split; [by eexists|by apply bool_decide_true].
Qed.

Lemma select_length_mono {A} (p p' : A → bool) (t : gmap string A) :
  (∀ x, p x = true → p' x = true) → (length (select p t) ≤ length (select p' t))%nat.
Proof.
  intros Hp. unfold select. induction (rows t) as [|x l IH]; [done|]. rewrite !filter_cons.
  specialize (Hp x). destruct (decide (p x = true)) as [E|E].
  - rewrite (decide_True _ _ (Hp E)). cbn. lia.
  - destruct (decide (p' x = true)); cbn; lia.
Qed.

Lemma ListActive_complete sid q c c' ens en :
  one_page (cn_db c) sid → ListActiveEnrollmentsForStudent sid q c = (c', Ok ens) →
  enrolled (cn_db c) sid en → en ∈ ens.
Proof.
  unfold ListActiveEnrollmentsForStudent, listCourseEnrollments, one_page.
  intros Hn (c1 & page & H1 & H2)%M_bind_Ok ([k Hk] & Hs & Ha & Hb).
  apply List_Ok in H1 as (_ & -> & Hp). injection H2 as <- <-.
  rewrite elem_of_order_by, list_elem_of_filter, Hp. split; [done|]. apply elem_of_page.
  - etrans; [|exact Hn]. apply select_length_mono. intros e [? _]%andb_true_iff. done.
  - split; [by eexists|]. by rewrite !bool_decide_true.
Qed.

Section theorems.
Context `{!Postgres}.

Lemma Evaluate_same_courses id : preserves same_courses (EvaluateEnrollmentEligibility id).
Proof.
  intros q c. destruct (EvaluateEnrollmentEligibility id q c) as [c' [prev|e]] eqn:He.
  { by apply Evaluate_Ok in He as [? _]. }
  revert He. unfold EvaluateEnrollmentEligibility. cbn.
  assert (∀ A (m : M A) B (k : A → M B), readonly m → (∀ a, preserves same_courses (k a)) →
            preserves same_courses (m ≫= k)) as Hbind.
  { intros. apply preserves_bind; [apply _|by apply preserves_readonly; [apply _|]|done]. }
  match goal with |- ?m q c = _ → _ => enough (preserves same_courses m) as Hm end.
  { intros He. specialize (Hm q c). by rewrite He in Hm. }
  apply Hbind; [apply readonly_Get|]. intros en.
  destruct (en_CurriculumRevisionID en) as [revID|]; [|by apply preserves_readonly; [apply _|]].
  case_bool_decide; [by apply preserves_readonly; [apply _|]|].
  apply Hbind; [apply readonly_Get|intros rev].
  do 3 (apply Hbind; [unfold ListCurriculumActivities, ListCurriculumPrerequisites, ListCurriculumGates;
                      eauto with primer|intros ?]).
  do 5 (apply Hbind; [apply readonly_query|intros ?]).
  apply Hbind; [|intros acts].
  - apply readonly_for_M. intros m acc. apply readonly_bind; [|auto with primer].
    unfold gateRuntime, blockMissingRuntime, GetRevision. destruct (_ || _); [|auto with primer].
    apply readonly_bind; [|intros []; auto with primer]. case_bool_decide; [auto with primer|].
    destruct (ca_ActivityRevisionID _); [|auto with primer]. case_bool_decide; [auto with primer|].
    apply readonly_bind; [apply readonly_attempt, readonly_Get|]. intros [rv|]; [|auto with primer].
    repeat case_bool_decide; auto with primer.
  - apply preserves_bind; [apply _|apply preserves_attempt, blocking_same_courses; apply _|].
    intros ?. apply preserves_readonly; [apply _|auto with primer].
Qed.
Lemma first_eligible_same_courses ens : preserves same_courses (first_eligible_loop ens).
Proof.
  induction ens as [|en ens IH]; cbn; [apply preserves_readonly; [apply _|auto with primer]|].
  apply preserves_bind; [apply _|apply Evaluate_same_courses|]. intros prev.
  destruct (if bool_decide _ then None else _); [apply preserves_readonly; [apply _|auto with primer]|].
  destruct (ev_Eligible prev); [done|apply preserves_readonly; [apply _|auto with primer]].
Qed.

Lemma block_summary_same_courses ens parts : preserves same_courses (block_summary_loop ens parts).
Proof.
  revert parts. induction ens as [|en ens IH]; intros parts; cbn;
    [apply preserves_readonly; [apply _|auto with primer]|].
  apply preserves_bind; [apply _|apply Evaluate_same_courses|]. intros prev.
  destruct (ev_Eligible prev); [|apply preserves_readonly; [apply _|auto with primer]].
  destruct (ev_Blocking prev); apply IH.
Qed.

Lemma stepNext_same_courses sid course p : preserves same_courses (stepNext sid course p).
Proof.
  assert (∀ A (m : M A), readonly m → preserves same_courses m) as Hro.
  { intros. by apply preserves_readonly; [apply _|]. }
  unfold stepNext. destruct (negb _); [auto with primer|]. destruct course.
  - apply preserves_bind; [apply _| |].
    + apply preserves_bind; [apply _|auto with primer|intros; apply first_eligible_same_courses].
    + intros r. destruct (match r with Some _ => _ | None => _ end); [auto with primer|].
      apply preserves_bind; [apply _| |auto with primer]. unfold CollectEnrollmentBlockSummary.
      apply preserves_bind; [apply _|auto with primer|]. intros [|en ens]; [auto with primer|].
      apply preserves_bind; [apply _|apply block_summary_same_courses|].
      intros [[|? ?]|]; auto with primer.
  - apply Hro. apply readonly_bind; [apply readonly_query|]. intros [id why].
    case_bool_decide; auto with primer.
Qed.

Lemma selectActivity_same_courses sid opts paused ens :
  preserves same_courses (selectActivity sid opts paused ens).
Proof.
  assert (∀ A (m : M A), readonly m → preserves same_courses m) as Hro.
  { intros. by apply preserves_readonly; [apply _|]. }
  unfold selectActivity. apply preserves_bind; [apply _|apply Hro, readonly_explicit|].
  intros [res|p]; [auto with primer|].
  apply preserves_bind; [apply _|apply Hro, readonly_stepRemediation|]. intros p2.
  apply preserves_bind; [apply _|apply Hro, readonly_stepReinforcement|]. intros p3.
  apply stepNext_same_courses.
Qed.

(** A blocked result names its reason. *)
Definition is_blocked (res : Result) : Prop :=
  rs_Assignment res = None ∧ rs_Created res = false ∧ rs_BlockReason res ≠ "".

Lemma selectActivity_blocked sid opts paused ens q c c' res :
  selectActivity sid opts paused ens q c = (c', Ok (inl res)) → is_blocked res.
Proof.
  unfold selectActivity. intros (c1 & r & H1 & Hr)%M_bind_Ok. destruct r as [res'|p].
  - injection Hr as <- <-. revert H1. unfold explicitPick, pickSlug.
    destruct (negb (bool_decide (op_Slug opts = ""))).
    + destruct (_ || _); [|by intros (? & ? & _ & ?)%M_bind_Ok].
      intros (c2 & [[en mem]|] & _ & H2)%M_bind_Ok; [by destruct (ca_ActivityRevisionID mem)|].
      injection H2 as <- <-. done.
    + destruct (negb _); [|done]. by intros (? & ? & _ & ?)%M_bind_Ok.
  - apply M_bind_Ok in Hr as (c2 & p2 & _ & (c3 & p3 & _ & Hr)%M_bind_Ok). revert Hr.
    unfold stepNext. destruct (negb _); [done|]. destruct (negb (bool_decide (ens = []))).
    + intros (c4 & r & _ & H2)%M_bind_Ok.
      destruct (match r with Some _ => _ | None => _ end); [done|].
      apply M_bind_Ok in H2 as (c5 & block & _ & H2). injection H2 as <- <-.
      split_and!; [done..|]. cbn. by case_bool_decide.
    + intros (c4 & [id why] & _ & H2)%M_bind_Ok. revert H2. case_bool_decide; [|done].
      intros [= <- <-]. done.
Qed.

Lemma placeAssignment_Ok sid opts p q c c' res :
  placeAssignment sid opts p q c = (c', Ok res) →
  ∃ a, rs_Assignment res = Some a ∧ sa_StudentID a = sid ∧ sa_ActivityRevisionID a = pk_revID p ∧
    if rs_Created res then
      assigned (cn_db c) sid (pk_revID p) [AssignmentAvailable; AssignmentInProgress] = false ∧
      db_assignments (cn_db c) !! sa_ID a = None ∧ sa_State a = AssignmentAvailable ∧
      sa_EnrollmentID a = pk_enrollment p ∧ sa_CurriculumActivityID a = pk_membership p ∧
      sa_SelectionReason a = pk_reason p ∧
      cn_db c' = set_assignments (<[sa_ID a := a]> (db_assignments (cn_db c))) (cn_db c)
    else c' = c ∧ (∃ k, db_assignments (cn_db c) !! k = Some a) ∧
         sa_State a ∈ [AssignmentAvailable; AssignmentInProgress].
Proof.
  unfold placeAssignment, openAssignmentForRevision.
  intros (c1 & ex & (_ & -> & ->)%query_Ok & Hr)%M_bind_Ok.
  set (p_open := λ a, _ && one_of (sa_State a) _) in Hr.
  destruct (order_by _ (select p_open _)) as [|a l] eqn:El.
  - apply M_bind_Ok in Hr as (c2 & a & Hc & [= <- <-]). apply Create_Ok in Hc as (-> & Hd & Hv & _ & _).
    eexists. split; [reflexivity|]. cbn [rs_Created sa_StudentID sa_ActivityRevisionID sa_ID]. cbn in Hv, Hd.
    split_and!; try done; [|exact (Create_fresh (A:=StudentAssignment) (cn_db c))].
    unfold assigned. apply has_row_false. intros k x Hk. destruct (_ && _) eqn:Ep; [|done].
    assert (x ∈ order_by (λ a b, Z.leb (sa_CreatedAt b) (sa_CreatedAt a)) (select p_open (db_assignments (cn_db c)))).
    { apply elem_of_order_by, elem_of_select. by split; [eexists|]. }
    rewrite El in *. set_solver.
  - injection Hr as <- <-. exists a.
    assert (a ∈ select p_open (db_assignments (cn_db c))) as [Hk Ha]%elem_of_select.
    { apply (elem_of_order_by (λ a b, Z.leb (sa_CreatedAt b) (sa_CreatedAt a))). rewrite El. left. }
    unfold p_open in Ha. rewrite !andb_true_iff in Ha. 
    destruct Ha as [[Hs%bool_decide_eq_true Hv%bool_decide_eq_true] Ho]. cbn. by apply bool_decide_eq_true in Ho.
Qed.

(** A successful call is blocked, or picks within the courses (or the library) and
    places the pick. *)
Lemma AssignNext_Ok sid opts q c c' res :
  AssignNext sid opts q c = (c', Ok res) →
  ∃ courseEns, ListCourseEnrollmentsForStudent sid q c = (c, Ok courseEns) ∧
  let activeEns := filter (λ en, en_Status en = "active") courseEns in
  let pausedOnly := bool_decide (activeEns = []) && negb (bool_decide (courseEns = [])) in
  (pausedOnly && bool_decide (op_Slug opts = "") = true ∧ c' = c ∧ is_blocked res) ∨
  (pausedOnly && bool_decide (op_Slug opts = "") = false ∧
   ((selectActivity sid opts pausedOnly activeEns q c = (c', Ok (inl res)) ∧ is_blocked res) ∨
    ∃ c1 p, selectActivity sid opts pausedOnly activeEns q c = (c1, Ok (inr p)) ∧
            same_courses (cn_db c) (cn_db c1) ∧ placeAssignment sid opts p q c1 = (c', Ok res))).
Proof.
  unfold AssignNext. intros (c1 & u & Hg & Hr)%M_bind_Ok.
  assert (c1 = c) as -> by (eapply readonly_conn; [apply readonly_GetStudent|done]).
  apply M_bind_Ok in Hr as (c1 & ens & Hl & Hr).
  assert (c1 = c) as -> by (eapply readonly_conn; [apply readonly_ListCourse|done]).
  exists ens. split; [done|]. cbn zeta.
  destruct (_ && bool_decide (op_Slug opts = "")) eqn:Ep.
  { left. injection Hr as <- <-. done. }
  right. split; [done|]. apply M_bind_Ok in Hr as (c1 & [res'|p] & Hs & Hr).
  - left. injection Hr as <- <-. split; [done|]. by eapply selectActivity_blocked.
  - right. exists c1, p. split_and!; [done| |done].
    pose proof (selectActivity_same_courses sid opts) as Hsame.
    match type of Hs with selectActivity _ _ ?b ?l _ _ = _ => specialize (Hsame b l q c) end.
    by rewrite Hs in Hsame.
Qed.

Lemma active_enrolled sid q c ens :
  ListCourseEnrollmentsForStudent sid q c = (c, Ok ens) →
  Forall (enrolled (cn_db c) sid) (filter (λ en, en_Status en = "active") ens).
Proof.
  intros (_ & Hin & _)%ListCourse_Ok. apply Forall_forall. intros e [Ha He]%list_elem_of_filter.
  apply Hin in He as (? & ? & ?). by split_and!.
Qed.

Lemma stepNext_in_course sid p q c c' p' :
  keyed (cn_db c) → pk_revID p = "" ∨ pick_in_course (cn_db c) sid p →
  stepNext sid true p q c = (c', Ok (inr p')) → pick_in_course (cn_db c) sid p'.
Proof.
  intros Hk Hp. unfold stepNext. case_bool_decide as He; cbn [negb].
  2: { intros [= <- <-]. by destruct Hp. }
  intros (c1 & r & H1 & H2)%M_bind_Ok. unfold FirstEligibleCourseActivity in H1.
  apply M_bind_Ok in H1 as (c2 & ens & Hl & H1). apply ListActive_Ok in Hl as [-> Hall].
  apply (first_eligible_loop_Ok (cn_db c) sid) in H1 as [_ H1]; [|done|reflexivity|done].
  destruct r as [[[en mem] why]|]; [|by apply M_bind_Ok in H2 as (? & ? & _ & ?)].
  destruct H1 as (Hin & Hce & [rid Hrid] & _). rewrite Hrid in H2. injection H2 as <- <-.
  rewrite Forall_forall in Hall. apply pick_of_entry; auto.
Qed.

Lemma selectActivity_in_course sid opts paused ens q c c' p :
  keyed (cn_db c) → Forall (enrolled (cn_db c) sid) ens → ens ≠ [] →
  selectActivity sid opts paused ens q c = (c', Ok (inr p)) → pick_in_course (cn_db c) sid p.
Proof.
  intros Hk Hall Hne. unfold selectActivity. intros (c1 & r & H1 & Hr)%M_bind_Ok.
  assert (c1 = c) as -> by (eapply readonly_conn; [apply readonly_explicit|done]).
  destruct r as [res|p1]; [done|]. apply explicit_Ok in H1; [|by auto..].
  rewrite bool_decide_false in Hr by done. cbn [negb] in Hr.
  apply M_bind_Ok in Hr as (c1 & p2 & H2 & Hr).
  assert (c1 = c) as -> by (eapply readonly_conn; [apply readonly_stepRemediation|done]).
  apply M_bind_Ok in Hr as (c1 & p3 & H3 & Hr).
  assert (c1 = c) as -> by (eapply readonly_conn; [apply readonly_stepReinforcement|done]).
  apply stepRemediation_Ok in H2. apply stepReinforcement_Ok in H3.
  eapply stepNext_in_course; [done| |done]. naive_solver.
Qed.

(** With only paused course enrollments nothing is ever picked. *)
Lemma paused_slug_blocked sid opts q c c' r :
  (∀ k e, db_enrollments (cn_db c) !! k = Some e → en_StudentID e = sid → course_backed e = true →
     en_Status e ≠ "active") → op_Slug opts ≠ "" → cn_aborted c = false →
  selectActivity sid opts true [] q c = (c', r) →
  c' = c ∧ ∃ res, r = Ok (inl res) ∧ is_blocked res.
Proof.
  intros Hno Hslug Hl. unfold selectActivity, explicitPick, pickSlug, IsSlugInActiveEnrollments.
  rewrite (bool_decide_false (op_Slug opts = "")) by done. rewrite (bool_decide_true ([] = [])) by done.
  cbn [negb orb].
  set (kont := λ ens, slug_in_loop (op_Slug opts) ens).
  assert (ListActiveEnrollmentsForStudent sid q c = (c, Ok [])) as Hl0.
  { destruct (ListActiveEnrollmentsForStudent sid q c) as [c1 [ens|e]] eqn:E.
    - apply ListActive_Ok in E as [-> Hall]. destruct Hall as [|e ens ((k & Hk) & ? & ? & ?)]; [done|].
      exfalso. by eapply Hno.
    - revert E. unfold ListActiveEnrollmentsForStudent, listCourseEnrollments, List_, mbind, M_bind.
      rewrite query_run by done. cbn. rewrite query_run by done. done. }
  unfold mbind, M_bind. rewrite Hl0. cbn. intros [= <- <-].
  split; [done|]. eexists. split; [reflexivity|done].
Qed.

(** The reasons of the first three steps never start with [course:]. *)
Definition not_course (p : pick) : Prop := ∀ s, pk_reason p ≠ "course:" +:+ s.

Lemma pickPin_not_course sid ens p q c c' p' :
  not_course p → pickPin sid ens p q c = (c', Ok p') → not_course p'.
Proof.
  revert p c. induction ens as [|en ens IH]; intros p c Hp; cbn; [intros [= <- <-]; done|].
  case_bool_decide; [by apply IH|]. intros (c1 & r & _ & Hr)%M_bind_Ok.
  destruct r as [[en' mem]|]; [|eapply IH; [|exact Hr]; exact Hp].
  destruct (ca_ActivityRevisionID mem); [|eapply IH; [|exact Hr]; exact Hp].
  apply M_bind_Ok in Hr as (c2 & completed & _ & Hr).
  case_bool_decide; [eapply IH; [|exact Hr]; exact Hp|]. injection Hr as <- <-. by intros ?.
Qed.

Lemma explicit_not_course sid slug paused ens q c c' p :
  explicitPick sid slug paused ens q c = (c', Ok (inr p)) → not_course p.
Proof.
  unfold explicitPick, pickSlug. destruct (negb (bool_decide (slug = ""))).
  - destruct (_ || _); intros (c1 & r & _ & Hr)%M_bind_Ok.
    + destruct r as [[en mem]|]; [|done]. destruct (ca_ActivityRevisionID mem); [|done].
      injection Hr as <- <-. by intros ?.
    + injection Hr as <- <-. by intros ?.
  - destruct (negb _); [|intros [= <- <-]; by intros ?].
    intros (c1 & r & H1 & [= <- <-])%M_bind_Ok. eapply pickPin_not_course; [|done]. by intros ?.
Qed.

Lemma try_role_reason sid role typing constrain due q c c' id why :
  try_role sid role typing constrain due q c = (c', Ok (id, why)) → ∀ s, why ≠ "course:" +:+ s.
Proof.
  revert c. induction due as [|d due IH]; intros c; cbn; [intros [= <- <- <-]; by intros ?|].
  intros (c1 & i & _ & Hr)%M_bind_Ok. case_bool_decide; [by eapply IH|].
  apply M_bind_Ok in Hr as (c2 & ok & _ & Hr). destruct (negb ok); [by eapply IH|].
  injection Hr as <- <- <-. intros s. by case_bool_decide.
Qed.

Lemma pickReinforcement_reason sid now constrain q c c' id why :
  pickReinforcementRevision sid now constrain q c = (c', Ok (id, why)) → ∀ s, why ≠ "course:" +:+ s.
Proof.
  unfold pickReinforcementRevision. intros (c1 & due & _ & Hr)%M_bind_Ok.
  destruct due; [injection Hr as <- <- <-; by intros ?|].
  apply M_bind_Ok in Hr as (c2 & [i w] & H1 & Hr). destruct (negb _).
  - injection Hr as <- <- <-. by eapply try_role_reason.
  - by eapply try_role_reason.
Qed.

Lemma remediation_reason sid ens q c c' slug en mem why :
  pickRemediation sid ens q c = (c', Ok (Some (slug, en, mem, why))) → ∀ s, why ≠ "course:" +:+ s.
Proof.
  unfold pickRemediation. intros Hr. do 3 (apply M_bind_Ok in Hr as (? & ? & _ & Hr)).
  match type of Hr with remediation_loop _ _ _ _ _ _ ?c0 = _ => revert c0 Hr end.
  induction ens as [|e ens IH]; intros c0; cbn; [done|].
  destruct (en_CurriculumRevisionID e) as [rev|]; [|by apply IH].
  intros (c1 & r & H1 & H2)%M_bind_Ok. destruct r as [f|]; [|by eapply IH].
  injection H2 as <- ->. clear IH. revert c0 H1.
  match goal with |- ∀ _, remediation_for _ _ _ _ _ ?l _ _ = _ → _ => induction l as [|s0 l IH] end;
    intros c0; cbn; [done|].
  intros (c2 & branch & _ & H1)%M_bind_Ok. destruct (_ || _); [by eapply IH|].
  apply M_bind_Ok in H1 as (c3 & [[en' mem']|] & _ & H1); [injection H1 as _ _ _ _ <-; by intros ?|].
  apply M_bind_Ok in H1 as (c4 & [i|e'] & _ & H1); [|by eapply IH].
  injection H1 as _ _ _ _ <-. by intros ?.
Qed.

Lemma steps_not_course sid ens now prefer course p q c c1 p2 c2 p3 :
  not_course p → stepRemediation sid ens p q c = (c1, Ok p2) →
  stepReinforcement sid now prefer course p2 q c1 = (c2, Ok p3) → not_course p3.
Proof.
  intros Hp H2 H3. assert (not_course p2) as Hp2.
  { revert H2. unfold stepRemediation. destruct (_ && _); [|intros [= <- <-]; done].
    intros (c3 & r & H1 & Hr)%M_bind_Ok. destruct r as [[[[s en] mem] why]|]; [|injection Hr as <- <-; done].
    pose proof (remediation_reason _ _ _ _ _ _ _ _ _ H1) as Hw.
    destruct mem as [mem|]; [|injection Hr as <- <-; done].
    destruct (ca_ActivityRevisionID mem); injection Hr as <- <-; [exact Hw|done]. }
  revert H3. unfold stepReinforcement. destruct (_ && _); [|intros [= <- <-]; done].
  intros (c3 & [id why] & H1 & Hr)%M_bind_Ok. pose proof (pickReinforcement_reason _ _ _ _ _ _ _ _ H1) as Hw.
  case_bool_decide; [injection Hr as <- <-; done|].
  destruct course; [|injection Hr as <- <-; exact Hw].
  apply M_bind_Ok in Hr as (c4 & slug & _ & (c5 & r & _ & Hr)%M_bind_Ok).
  destruct r as [[en mem]|]; injection Hr as <- <-; [|done]. case_bool_decide; [exact Hp2|exact Hw].
Qed.

Lemma first_eligible_reason ens q c c' en mem why :
  first_eligible_loop ens q c = (c', Ok (Some (en, mem, why))) →
  (why = "pin:" +:+ ca_ActivitySlug mem ∨
   why = "course:" +:+ ca_ActivitySlug mem ∧
   ∃ c1 c2 prev, EvaluateEnrollmentEligibility (en_ID en) q c1 = (c2, Ok prev) ∧
     same_courses (cn_db c) (cn_db c1) ∧ mem ∈ as_Membership <$> ev_Eligible prev).
Proof.
  revert c. induction ens as [|e ens IH]; intros c; cbn; [done|].
  intros (c1 & prev & He & Hr)%M_bind_Ok.
  destruct (if bool_decide _ then None else _); [injection Hr as <- <- <- <-; by left|].
  pose proof (Evaluate_same_courses (en_ID e) q c) as Hsame. rewrite He in Hsame. cbn in Hsame.
  destruct (ev_Eligible prev) as [|st l] eqn:El.
  - apply IH in Hr as [->|(-> & c2 & c3 & prev' & ? & ? & ?)]; [by left|right].
    split; [done|]. exists c2, c3, prev'. split_and!; [done| |done]. by etrans.
  - injection Hr as <- <- <- <-. right. split; [done|]. exists c, c1, prev.
    split_and!; [done|reflexivity|]. rewrite El. cbn. left.
Qed.

Lemma selectActivity_course sid opts paused ens q c c' p s :
  keyed (cn_db c) → (∀ revID, fits (cn_db c) revID) →
  selectActivity sid opts paused ens q c = (c', Ok (inr p)) → pk_reason p = "course:" +:+ s →
  ∃ en ma, pk_enrollment p = Some (en_ID en) ∧ pk_membership p = Some (ca_ID ma) ∧
    ca_ActivityRevisionID ma = Some (pk_revID p) ∧ enrolled (cn_db c) sid en ∧
    course_entry (cn_db c) en ma ∧ may_be_given (cn_db c) en ma.
Proof.
  intros Hk Hfits. unfold selectActivity. intros (c1 & r & H1 & Hr)%M_bind_Ok Hwhy.
  assert (c1 = c) as -> by (eapply readonly_conn; [apply readonly_explicit|done]).
  destruct r as [res|p1]; [done|]. apply explicit_not_course in H1.
  apply M_bind_Ok in Hr as (c1 & p2 & H2 & (c2 & p3 & H3 & Hr)%M_bind_Ok).
  pose proof (steps_not_course _ _ _ _ _ _ _ _ _ _ _ _ H1 H2 H3) as Hnc.
  assert (c1 = c) as -> by (eapply readonly_conn; [apply readonly_stepRemediation|done]).
  assert (c2 = c) as -> by (eapply readonly_conn; [apply readonly_stepReinforcement|done]).
  revert Hr. unfold stepNext. destruct (negb (bool_decide (pk_revID p3 = ""))).
  { intros [= <- <-]. by destruct (Hnc s). }
  destruct (negb _).
  2: { intros (c1 & [id why] & Hq & Hr)%M_bind_Ok. apply query_Ok in Hq as (_ & _ & Hq).
       destruct (bool_decide (id = "")); [done|]. injection Hr as <- <-.
       destruct (order_by _ _); injection Hq as -> ->; done. }
  intros (c1 & r & H4 & Hr)%M_bind_Ok. unfold FirstEligibleCourseActivity in H4.
  apply M_bind_Ok in H4 as (c2 & ens' & Hl' & H4). apply ListActive_Ok in Hl' as [-> Hall].
  destruct r as [[[en mem] why]|]; [|by apply M_bind_Ok in Hr as (? & ? & _ & ?)].
  pose proof H4 as Hloop. apply (first_eligible_loop_Ok (cn_db c) sid) in Hloop as [_ (Hin & Hce & [rid Hrid] & _)];
    [|done|reflexivity|done].
  rewrite Hrid in Hr. injection Hr as <- <-. cbn in Hwhy. rewrite Forall_forall in Hall.
  exists en, mem. cbn. split_and!; [done..|by auto|done|].
  apply first_eligible_reason in H4 as [->|(_ & c2 & c3 & prev & Hev & Hsame & Hmem)]; [done|].
  apply (Evaluate_enrolled (cn_db c) sid) in Hev as (_ & revID & Hrev & _ & Hel); [|by auto..].
  rewrite Hel in Hmem. apply list_elem_of_fmap in Hmem as (st & Hm & [Hst Hpre]%list_elem_of_filter).
  apply elem_of_preview in Hpre as (m & -> & Hm' & _ & Hid). rewrite Hm' in Hm. subst mem revID.
  by apply entry_eligible.
Qed.

Lemma has_course_nonempty sid q c ens :
  one_page (cn_db c) sid → has_course (cn_db c) sid →
  ListCourseEnrollmentsForStudent sid q c = (c, Ok ens) → ens ≠ [].
Proof.
  intros Hn (k & en & Hk & Hs & Hb & Hst) (_ & _ & Hc)%ListCourse_Ok.
  specialize (Hc Hn k en Hk Hs Hb Hst). intros ->. by apply not_elem_of_nil in Hc.
Qed.

Lemma ListCourse_live sid q c c' ens :
  ListCourseEnrollmentsForStudent sid q c = (c', Ok ens) → cn_aborted c = false.
Proof.
  unfold ListCourseEnrollmentsForStudent. intros (c1 & page & H1 & _)%M_bind_Ok.
  by apply List_Ok in H1 as (? & _).
Qed.

Lemma active_elem sid q c ens en :
  one_page (cn_db c) sid → enrolled (cn_db c) sid en →
  ListCourseEnrollmentsForStudent sid q c = (c, Ok ens) →
  en ∈ filter (λ en, en_Status en = "active") ens.
Proof.
  intros Hn ((k & Hk) & Hs & Ha & Hb) (_ & _ & Hc)%ListCourse_Ok.
  apply list_elem_of_filter. split; [done|]. apply (Hc Hn k); [done..|]. rewrite Ha. left.
Qed.

Lemma no_active_filter sid q c ens :
  (∀ k e, db_enrollments (cn_db c) !! k = Some e → en_StudentID e = sid → course_backed e = true →
     en_Status e ≠ "active") →
  ListCourseEnrollmentsForStudent sid q c = (c, Ok ens) →
  filter (λ en, en_Status en = "active") ens = [].
Proof.
  intros Hno (_ & Hin & _)%ListCourse_Ok.
  destruct (filter _ ens) as [|e l] eqn:E; [done|]. exfalso.
  assert (e ∈ filter (λ en, en_Status en = "active") ens) as [Ha He]%list_elem_of_filter by (rewrite E; left).
  apply Hin in He as ((k & Hk) & ? & ?). by eapply Hno.
Qed.

(** C5: Enrolled students stay in their courses.  For a student with an active or
    paused course enrollment and at most 100 enrollments, every assignment [AssignNext]
    creates, whatever the options, records an active enrollment of the student and an
    entry of the course of an active enrollment: the same one, unless the recorded one
    has that activity pinned, in which case the entry may be of another active course.
    Its revision is the one of that entry, or, for an entry without a resolved revision,
    some revision of the entry's activity. *)
Theorem AssignNext_in_course sid opts q c c' res :
  keyed (cn_db c) → one_page (cn_db c) sid → has_course (cn_db c) sid →
  AssignNext sid opts q c = (c', Ok res) → rs_Created res = true →
  ∃ a, rs_Assignment res = Some a ∧ db_assignments (cn_db c') !! sa_ID a = Some a ∧
       sa_StudentID a = sid ∧
       in_course (cn_db c) sid (sa_ActivityRevisionID a) (sa_EnrollmentID a) (sa_CurriculumActivityID a).
Proof.
  intros Hk Hn Hc Hr Hcr. apply AssignNext_Ok in Hr as (ens & Hl & Hr).
  assert (ens ≠ []) as Hens by by eapply has_course_nonempty.
  destruct Hr as [(_ & _ & _ & ? & _)|(Hp & [(_ & _ & ? & _)|(c1 & p & Hs & Hsame & Hpl)])]; [congruence..|].
  pose proof (active_enrolled _ _ _ _ Hl) as Hall.
  apply placeAssignment_Ok in Hpl as (a & Ha & Hsid & Hrev & Hpl). rewrite Hcr in Hpl.
  destruct Hpl as (_ & _ & _ & Hen & Hmem & _ & Hd'). exists a.
  assert (pick_in_course (cn_db c) sid p) as Hin.
  { destruct (decide (filter (λ en, en_Status en = "active") ens = [])) as [He|He];
      [|by eapply selectActivity_in_course].
    exfalso. rewrite He, (bool_decide_true ([] = [])), (bool_decide_false (ens = [])) in Hp, Hs by done.
    cbn [andb negb] in Hp, Hs. apply bool_decide_eq_false in Hp.
    apply paused_slug_blocked in Hs as (_ & res' & ? & _); [done| |done|].
    - intros k e Hke Hse Hb Hae. assert (e ∈ filter (λ en, en_Status en = "active") ens) as Hin.
      { eapply active_elem; [done| |done]. split_and!; eauto. }
      rewrite He in Hin. by apply not_elem_of_nil in Hin.
    - by eapply ListCourse_live. }
  split_and!; [done| |done|].
  - rewrite Hd'. cbn. apply lookup_insert_eq.
  - unfold pick_in_course in Hin. by rewrite Hrev, Hen, Hmem.
Qed.

Lemma same_courses_assignments d d' t :
  same_courses d d' → same_courses (set_assignments t d) (set_assignments t d').
Proof. intros [H1 H2]. split; [|exact H2]. rewrite H1. by destruct d. Qed.

(** What [AssignNext] changes.  A successful call either is blocked, with a
    reason and no assignment, or returns an open assignment the student already has
    for the chosen revision, or adds exactly one row: a fresh assignment of the
    student in state available, for a revision the student has no open assignment
    of.  Apart from that row and the cached blocking reasons of enrollments the
    database stays as it was, so a student never has the same revision open twice
    because of it. *)
Lemma AssignNext_effect sid opts q c c' res :
  AssignNext sid opts q c = (c', Ok res) →
  match rs_Assignment res with
  | None => rs_Created res = false ∧ rs_BlockReason res ≠ "" ∧ same_courses (cn_db c) (cn_db c')
  | Some a =>
      sa_StudentID a = sid ∧
      if rs_Created res then
        assigned (cn_db c) sid (sa_ActivityRevisionID a) [AssignmentAvailable; AssignmentInProgress] = false ∧
        db_assignments (cn_db c) !! sa_ID a = None ∧ sa_State a = AssignmentAvailable ∧
        same_courses (set_assignments (<[sa_ID a := a]> (db_assignments (cn_db c))) (cn_db c)) (cn_db c')
      else (∃ k, db_assignments (cn_db c) !! k = Some a) ∧
           sa_State a ∈ [AssignmentAvailable; AssignmentInProgress] ∧ same_courses (cn_db c) (cn_db c')
  end.
Proof.
  intros (ens & Hl & Hr)%AssignNext_Ok.
  destruct Hr as [(_ & -> & -> & -> & ?)|(_ & [(Hs & -> & -> & ?)|(c1 & p & _ & Hsame & Hpl)])].
  - by split_and!.
  - split_and!; [done..|]. match type of Hs with selectActivity _ _ ?b ?l _ _ = _ =>
      pose proof (selectActivity_same_courses sid opts b l q c) as Hd end. by rewrite Hs in Hd.
  - apply placeAssignment_Ok in Hpl as (a & -> & Hsid & Hrev & Hpl). split; [done|].
    destruct Hsame as [Hd1 Hd2]. destruct (rs_Created res).
    + destruct Hpl as (Hno & Hnone & Hst & _ & _ & _ & ->). rewrite Hrev. rewrite Hd1 in Hno, Hnone.
      split_and!; [by destruct (cn_db c)..|done|].
      replace (db_assignments (cn_db c1)) with (db_assignments (cn_db c)) by (rewrite Hd1; by destruct (cn_db c)).
      by apply same_courses_assignments.
    + destruct Hpl as (-> & [k Hk] & Ho). split_and!; [|done|by split]. exists k. rewrite Hd1 in Hk.
      by destruct (cn_db c).
Qed.

(** A paused course stops new work.  When all course enrollments of a student
    are paused, [AssignNext] answers every request, also one for an explicit slug,
    with a blocking reason and changes nothing. *)
Lemma AssignNext_paused sid opts q c :
  cn_aborted c = false → is_Some (db_students (cn_db c) !! sid) → one_page (cn_db c) sid →
  has_course (cn_db c) sid →
  (∀ k e, db_enrollments (cn_db c) !! k = Some e → en_StudentID e = sid → course_backed e = true →
     en_Status e ≠ "active") →
  ∃ res, AssignNext sid opts q c = (c, Ok res) ∧ rs_Assignment res = None ∧ rs_BlockReason res ≠ "".
Proof.
  intros Hl Hsid Hn Hc Hno. unfold AssignNext, GetStudent.
  destruct (ListCourseEnrollmentsForStudent sid q c) as [c1 [ens|e]] eqn:El.
  2: { revert El. unfold ListCourseEnrollmentsForStudent, List_, mbind, M_bind.
       rewrite query_run by done. cbn. rewrite query_run by done. done. }
  assert (c1 = c) as -> by (eapply readonly_conn; [apply readonly_ListCourse|done]).
  pose proof (has_course_nonempty _ _ _ _ Hn Hc El) as Hne.
  pose proof (no_active_filter _ _ _ _ Hno El) as Hna.
  unfold mbind, M_bind. rewrite query_run by done. unfold has_key at 1. rewrite bool_decide_true by done. cbn [mret M_ret].
  unfold mret, M_ret. rewrite El, Hna, (bool_decide_true ([] = [])), (bool_decide_false (ens = [])) by done.
  cbn [andb negb]. case_bool_decide as Hslug; [by eexists|].
  destruct (selectActivity sid opts true [] q c) as [c2 r] eqn:Es.
  apply paused_slug_blocked in Es as (-> & res & -> & ? & ? & ?); [|done..]. by exists res.
Qed.

(** C7: Nothing assignable is withheld.  When a student with active courses asks
    for the next assignment without naming one, and gets none, then no entry of any of
    those courses may be given: each is completed, open, unresolved, behind an unmet
    prerequisite, a pending review or an evidence gate, or needs a runtime the
    device lacks.  The student has at most 100 enrollments, and the lists of the course
    fit the 200 rows of a page. *)
Theorem AssignNext_complete sid opts q c c' res en ma :
  keyed (cn_db c) → one_page (cn_db c) sid → op_Slug opts = "" →
  AssignNext sid opts q c = (c', Ok res) → rs_Assignment res = None →
  enrolled (cn_db c) sid en → course_entry (cn_db c) en ma →
  fits (cn_db c) (ca_CurriculumRevisionID ma) → ~ may_be_given (cn_db c) en ma.
Proof.
  intros Hk Hn Hslug Hr Hnone Hen [Hma Hrev] Hfits Hgive.
  apply AssignNext_Ok in Hr as (ens & Hl & Hr). pose proof (active_elem _ _ _ _ _ Hn Hen Hl) as Hact.
  assert (filter (λ en, en_Status en = "active") ens ≠ []) as Hne
    by (intros E; rewrite E in Hact; by apply not_elem_of_nil in Hact).
  cbn zeta in Hr. rewrite (bool_decide_false _ Hne) in Hr. cbn [andb] in Hr.
  destruct Hr as [(? & _)|(_ & [(Hs & _)|(c1 & p & _ & _ & Hpl)])]; [done| |].
  2: { apply placeAssignment_Ok in Hpl as (a & ? & _). congruence. }
  revert Hs. unfold selectActivity, explicitPick. rewrite Hslug, (bool_decide_false _ Hne).
  cbn [negb bool_decide orb andb]. intros (c1 & r & H1 & Hs)%M_bind_Ok.
  apply M_bind_Ok in H1 as (c2 & p & Hp & [= <- <-]).
  assert (c2 = c) as -> by (eapply readonly_conn; [apply readonly_pickPin|done]).
  apply M_bind_Ok in Hs as (c1 & p2 & H2 & Hs).
  assert (c1 = c) as -> by (eapply readonly_conn; [apply readonly_stepRemediation|done]).
  apply M_bind_Ok in Hs as (c1 & p3 & H3 & Hs).
  assert (c1 = c) as -> by (eapply readonly_conn; [apply readonly_stepReinforcement|done]).
  revert Hs. unfold stepNext. destruct (negb _); [done|]. intros (c1 & r & H4 & Hs)%M_bind_Ok.
  unfold FirstEligibleCourseActivity in H4. apply M_bind_Ok in H4 as (c2 & ens' & Hl' & H4).
  pose proof (ListActive_complete _ _ _ _ _ _ Hn Hl' Hen) as Hin.
  apply ListActive_Ok in Hl' as [-> Hall].
  apply (first_eligible_loop_Ok (cn_db c) sid) in H4 as [_ H4]; [|done|reflexivity|done].
  destruct r as [[[en' mem] why]|].
  { destruct H4 as (_ & _ & [rid Hrid] & _). by rewrite Hrid in Hs. }
  specialize (H4 en Hin _ Hrev).
  assert (entry_status (cn_db c) en (ca_CurriculumRevisionID ma) ma ∈
          filter (λ st, as_Eligible st = true) (preview (cn_db c) en (ca_CurriculumRevisionID ma))) as Habs.
  { apply list_elem_of_filter. split; [by apply entry_eligible|]. unfold preview. apply list_elem_of_fmap_2.
    apply elem_of_page; [apply Hfits|]. split; [done|by apply bool_decide_true]. }
  rewrite H4 in Habs. by apply not_elem_of_nil in Habs.
Qed.

(** C6: The course sequence is respected.  If the lists of every course (entries,
    prerequisites, gates) fit the 200 rows of a page, an assignment created with a reason
    [course:...] is for an entry of an active enrollment of the student that may be
    given: active enrollment, resolved revision, not completed or open, forced by
    the parent or with its prerequisites met, no pending review and its gates open,
    and a runtime the device has. *)
Theorem AssignNext_course_sound sid opts q c c' res s :
  keyed (cn_db c) → (∀ revID, fits (cn_db c) revID) →
  AssignNext sid opts q c = (c', Ok res) → rs_Created res = true → rs_Reason res = "course:" +:+ s →
  ∃ a en ma, rs_Assignment res = Some a ∧ sa_EnrollmentID a = Some (en_ID en) ∧
    sa_CurriculumActivityID a = Some (ca_ID ma) ∧ ca_ActivityRevisionID ma = Some (sa_ActivityRevisionID a) ∧
    enrolled (cn_db c) sid en ∧ course_entry (cn_db c) en ma ∧ may_be_given (cn_db c) en ma.
Proof.
  intros Hk Hfits Hr Hcr Hwhy. apply AssignNext_Ok in Hr as (ens & Hl & Hr).
  destruct Hr as [(_ & _ & _ & ? & _)|(_ & [(_ & _ & ? & _)|(c1 & p & Hs & _ & Hpl)])]; [congruence..|].
  assert (rs_Reason res = pk_reason p) as Hreason.
  { revert Hpl. unfold placeAssignment. intros (c2 & [x|] & _ & Hpl)%M_bind_Ok.
    - injection Hpl as _ <-. done.
    - by apply M_bind_Ok in Hpl as (c3 & a & _ & [= _ <-]). }
  apply placeAssignment_Ok in Hpl as (a & Ha & _ & Hrev & Hpl). rewrite Hcr in Hpl.
  destruct Hpl as (_ & _ & _ & Hen & Hmem & _). rewrite Hreason in Hwhy.
  apply (selectActivity_course _ _ _ _ _ _ _ _ s) in Hs as (en & ma & ? & ? & ? & ? & ? & ?); [|done..].
  exists a, en, ma. rewrite Hen, Hmem, Hrev. done.
Qed.
End theorems.

(** ** A small course *)

(** [shell-basics] before [shell-commands], one enrollment. *)
Definition w_entry (id rev : string) (pos : Z) (slug act : string) : CurriculumActivity :=
  mkCurriculumActivity id rev pos slug (Some act) "" false "" ∅ 0.
Definition w_enrollment (id cur rev status : string) (priority : Z) (pin : string) : Enrollment :=
  mkEnrollment id "s1" cur (Some rev) status priority pin "" None None [] "" [] ∅ 0 None 0 0.
Definition w_curriculum (id : string) : Curriculum := mkCurriculum id id "" "" "" "" "published" None ∅ 0 0.
Definition w_course_revision (id cur : string) : CurriculumRevision :=
  mkCurriculumRevision id cur 1 "" "" "" "" "latest_published" ∅ (Some 0%Z) 0.

Definition w_m1 : CurriculumActivity := w_entry "m1" "cr1" 1 "shell-basics" "r1".
Definition w_m2 : CurriculumActivity := w_entry "m2" "cr1" 2 "shell-commands" "r3".

Definition w_course_db (assignments : gmap string StudentAssignment)
    (enrollments : gmap string Enrollment) : database :=
  set_curricula (<["cu1" := w_curriculum "cu1"]> (<["cu2" := w_curriculum "cu2"]> ∅))
  (set_curriculum_revisions (<["cr1" := w_course_revision "cr1" "cu1"]>
     (<["cr2" := w_course_revision "cr2" "cu2"]> ∅))
  (set_curriculum_activities (<["m1" := w_m1]> (<["m2" := w_m2]>
     (<["m3" := w_entry "m3" "cr2" 1 "shell-basics" "r1"]> ∅)))
  (set_prerequisites (<["p1" := mkCurriculumActivityPrerequisite "p1" "cr1" "shell-commands"
                                  "shell-basics" "completed" "" 0]> ∅)
  (set_enrollments enrollments (set_assignments assignments (set_sessions ∅ w_db)))))).

Definition w_options : Options := mkOptions "" None None 0 "" None 0.
Definition w_e1 : Enrollment := w_enrollment "e1" "cu1" "cr1" "active" 1 "".

(** Nothing assigned yet; the first entry open; the enrollment paused. *)
Definition w_course : conn := mkConn (w_course_db ∅ (<["e1" := w_e1]> ∅)) false.
Definition w_course_open : conn :=
  mkConn (w_course_db (<["as1" := w_assignment "as1" "r1" "in_progress"]> ∅) (<["e1" := w_e1]> ∅)) false.
Definition w_course_paused : conn :=
  mkConn (w_course_db ∅ (<["e1" := w_enrollment "e1" "cu1" "cr1" "paused" 1 ""]> ∅)) false.

Lemma keyed_decide d :
  bool_decide (map_Forall (λ k e, en_ID e = k) (db_enrollments d)) &&
  bool_decide (map_Forall (λ k r, cv_ID r = k) (db_curriculum_revisions d)) = true → keyed d.
Proof. intros [H1%bool_decide_eq_true H2%bool_decide_eq_true]%andb_true_iff. by split. Qed.

Lemma fits_decide d revID :
  bool_decide (size (db_curriculum_activities d) ≤ 200)%nat &&
  bool_decide (size (db_prerequisites d) ≤ 200)%nat && bool_decide (size (db_gates d) ≤ 200)%nat = true →
  fits d revID.
Proof.
  rewrite !andb_true_iff, !bool_decide_eq_true. intros [[H1 H2] H3].
  assert (∀ A (p : A → bool) t, (length (select p t) ≤ size t)%nat) as Hsel.
  { intros. etrans; [apply length_filter|]. unfold rows. by rewrite length_fmap, length_map_to_list. }
  split_and!; (etrans; [apply Hsel|done]).
Qed.

#[local] Existing Instance sample_postgres.
Definition w_next : conn * result err Result := AssignNext "s1" w_options w_pool w_course.
Definition w_next_res : Result := match w_next.2 with Ok r => r | Err _ => blocked "" "" [] end.
Lemma w_next_Ok : AssignNext "s1" w_options w_pool w_course = (w_next.1, Ok w_next_res).
Proof. vm_compute. reflexivity. Qed.

Definition w_wait : conn * result err Result := AssignNext "s1" w_options w_pool w_course_open.
Definition w_wait_res : Result := match w_wait.2 with Ok r => r | Err _ => blocked "" "" [] end.
Lemma w_wait_Ok : AssignNext "s1" w_options w_pool w_course_open = (w_wait.1, Ok w_wait_res).
Proof. vm_compute. reflexivity. Qed.

Lemma w_course_keyed : keyed (cn_db w_course).
Proof. apply keyed_decide. vm_compute. reflexivity. Qed.

Lemma w_has_course : has_course (cn_db w_course) "s1".
Proof. exists "e1", w_e1. split_and!; [vm_compute; reflexivity|reflexivity|vm_compute; reflexivity|left]. Qed.

Lemma AssignNext_in_course_witness :
  ∃ a, rs_Assignment w_next_res = Some a ∧ sa_ActivityRevisionID a = "r1" ∧
       in_course (cn_db w_course) "s1" "r1" (sa_EnrollmentID a) (sa_CurriculumActivityID a).
Proof.
  destruct (AssignNext_in_course "s1" w_options w_pool w_course w_next.1 w_next_res) as (a & Ha & _ & _ & Hin).
  - exact w_course_keyed.
  - unfold one_page. vm_compute. lia.
  - exact w_has_course.
  - exact w_next_Ok.
  - vm_compute. reflexivity.
  - exists a. assert (sa_ActivityRevisionID a = "r1") as Hr.
    { assert (sa_ActivityRevisionID <$> rs_Assignment w_next_res = Some "r1") as Hq by (vm_compute; reflexivity).
      rewrite Ha in Hq. by injection Hq. }
    rewrite Hr in Hin. auto.
Defined.

Lemma AssignNext_effect_witness :
  rs_Created w_wait_res = false ∧ rs_BlockReason w_wait_res ≠ "".
Proof.
  pose proof (AssignNext_effect "s1" w_options w_pool w_course_open _ _ w_wait_Ok) as He.
  assert (rs_Assignment w_wait_res = None) as Hn by (vm_compute; reflexivity).
  rewrite Hn in He. destruct He as (? & ? & _). auto.
Defined.

Lemma AssignNext_paused_witness :
  ∃ res, AssignNext "s1" (mkOptions "shell-basics" None None 0 "" None 0) w_pool w_course_paused
         = (w_course_paused, Ok res) ∧ rs_Assignment res = None ∧ rs_BlockReason res ≠ "".
Proof.
  apply (AssignNext_paused "s1" (mkOptions "shell-basics" None None 0 "" None 0) w_pool w_course_paused).
  - reflexivity.
  - apply (bool_decide_unpack (is_Some (db_students (cn_db w_course_paused) !! "s1"))). vm_compute. exact I.
  - unfold one_page. vm_compute. lia.
  - exists "e1", (w_enrollment "e1" "cu1" "cr1" "paused" 1 "").
    split_and!; [vm_compute; reflexivity|reflexivity|vm_compute; reflexivity|right; left].
  - intros k e Hk _ _. revert Hk. cbn. rewrite lookup_insert_Some.
    intros [[_ <-]|[_ Hk]]; [done|]. by rewrite lookup_empty in Hk.
Defined.

Lemma AssignNext_complete_witness : ~ may_be_given (cn_db w_course_open) w_e1 w_m2.
Proof.
  apply (AssignNext_complete "s1" w_options w_pool w_course_open w_wait.1 w_wait_res).
  - apply keyed_decide. vm_compute. reflexivity.
  - unfold one_page. vm_compute. lia.
  - reflexivity.
  - exact w_wait_Ok.
  - vm_compute. reflexivity.
  - split_and!; [exists "e1"; vm_compute; reflexivity|reflexivity..].
  - split; [exists "m2"; vm_compute; reflexivity|reflexivity].
  - apply fits_decide. vm_compute. reflexivity.
Defined.

Lemma AssignNext_course_sound_witness :
  ∃ a en ma, rs_Assignment w_next_res = Some a ∧ sa_EnrollmentID a = Some (en_ID en) ∧
    sa_CurriculumActivityID a = Some (ca_ID ma) ∧ may_be_given (cn_db w_course) en ma.
Proof.
  destruct (AssignNext_course_sound "s1" w_options w_pool w_course w_next.1 w_next_res "shell-basics")
    as (a & en & ma & H1 & H2 & H3 & _ & _ & _ & H4).
  - exact w_course_keyed.
  - intros revID. apply fits_decide. vm_compute. reflexivity.
  - exact w_next_Ok.
  - vm_compute. reflexivity.
  - vm_compute. reflexivity.
  - exists a, en, ma. auto.
Defined.

(** The student is in progress on a standard that [shell-commands] reinforces. *)
Definition w_reinforce : conn :=
  mkConn (set_links (<["l3" := mkLearningActivityRevisionStandard "l3" "r3" "st1" "reinforcement" fone "" ∅ 0]> ∅)
          (set_mastery_records
             (<["mr1" := mkMasteryRecord "mr1" "s1" "st1" "in_progress" fzero fzero None None None 0 0]> ∅)
             (cn_db w_course))) false.
Definition w_reinforced : conn * result err Result := AssignNext "s1" w_options w_pool w_reinforce.

(** Reinforcement ignores the sequence.  There is a course in which
    [shell-commands] requires [shell-basics], which the student has not completed,
    and in which [AssignNext] with default options assigns [shell-commands]: the
    reinforcement step checks that the activity is in the course, not that it may be
    given. *)
Lemma reinforcement_skips_prerequisites :
  ∃ a, rs_Assignment <$> (match w_reinforced.2 with Ok r => Some r | Err _ => None end) = Some (Some a) ∧
       sa_SelectionReason a = "reinforcement:CS.SH.1" ∧
       sa_CurriculumActivityID a = Some (ca_ID w_m2) ∧ sa_ActivityRevisionID a = "r3" ∧
       course_entry (cn_db w_reinforce) w_e1 w_m2 ∧ ~ may_be_given (cn_db w_reinforce) w_e1 w_m2.
Proof.
  eexists. split; [vm_compute; reflexivity|]. split_and!; [vm_compute; reflexivity..| |].
  - split; [exists "m2"; vm_compute; reflexivity|reflexivity].
  - intros (_ & _ & _ & _ & [Hf|[Hp _]] & _); [revert Hf; vm_compute; discriminate|].
    destruct (Hp "p1" (mkCurriculumActivityPrerequisite "p1" "cr1" "shell-commands"
                         "shell-basics" "completed" "" 0)) as [Hs _];
      [vm_compute; reflexivity|reflexivity..|]. revert Hs. vm_compute. discriminate.
Qed.

(** [shell-basics] is in both courses; only the second enrollment pins it. *)
Definition w_two : conn :=
  mkConn (w_course_db ∅ (<["e1" := w_e1]>
    (<["e2" := w_enrollment "e2" "cu2" "cr2" "active" 0 "shell-basics"]> ∅))) false.
Definition w_pinned : conn * result err Result := AssignNext "s1" w_options w_pool w_two.

(** A pin can be booked on the wrong course.  There is a student with two active
    enrollments sharing an activity, pinned on the second one, for whom [AssignNext]
    stores the second enrollment together with the entry of the first one's course:
    the entry is looked up over all active enrollments. *)
Lemma pin_mixes_enrollments :
  ∃ a, rs_Assignment <$> (match w_pinned.2 with Ok r => Some r | Err _ => None end) = Some (Some a) ∧
       sa_SelectionReason a = "pin:shell-basics" ∧ sa_EnrollmentID a = Some "e2" ∧
       sa_CurriculumActivityID a = Some (ca_ID w_m1) ∧
       en_CurriculumRevisionID <$> db_enrollments (cn_db w_two) !! "e2" = Some (Some "cr2") ∧
       ca_CurriculumRevisionID w_m1 = "cr1".
Proof. eexists. split_and!; vm_compute; reflexivity. Qed.
