(* ===== verification/CourseDoc.v ===== *)
(** * Course documents ([studentclient/contracts/course.go], [course_validate.go])

    The git-authored course manifest and its validation: identity, contiguous
    activity order, modules, prerequisite edges without cycles, gates and
    remediation branches. *)
From S2P Require Import Prelude Cycles GoStrings Regex Contracts.
From Stdlib Require Import Ascii.
From stdpp Require Import pretty options.
Local Open Scope string_scope.
Local Open Scope list_scope.

(** ** The document *)

Record ContinuityPolicy := mkContinuity { cn_Mode : string }.
Record CoursePacing := mkPacing {
  pc_NominalWeeks : Z; pc_NominalDaysPerWeek : Z; pc_NominalMinutesPerDay : Z; pc_MasteryBased : bool }.
Record CourseActivityRef := mkActivityRef {
  cr_Order : Z; cr_Slug : string; cr_File : string; cr_Module : string; cr_Capstone : bool;
  cr_Continuity : option ContinuityPolicy; cr_Metadata : gmap string string }.
Record CoursePrerequisite := mkPrereq {
  cq_Activity : string; cq_Requires : list string; cq_Requirement : string; cq_Description : string }.
Record CourseGate := mkGate {
  ct_Activity : string; ct_Kind : string; ct_Standards : list string; ct_Description : string }.
Record CourseRemediation := mkRemediation {
  ce_ForActivity : string; ce_BranchSlug : string; ce_Kind : string; ce_Description : string }.
Record CourseModule := mkModule {
  co_ID : string; co_Title : string; co_Description : string; co_Activities : list string }.
Record CourseDocument := mkCourseDocument {
  cd_SchemaVersion : string; cd_Slug : string; cd_Title : string; cd_SubjectCode : string;
  cd_Version : string; cd_ParentDescription : string; cd_RevisionPolicy : string;
  cd_PacingReference : option CoursePacing; cd_Activities : list CourseActivityRef;
  cd_Prerequisites : list CoursePrerequisite; cd_Gates : list CourseGate;
  cd_Remediation : list CourseRemediation; cd_Modules : list CourseModule;
  cd_ContinuityDefaults : option ContinuityPolicy; cd_Metadata : gmap string string }.

(** ** Patterns ([validate.go]) *)

Definition lower_digit : re := RCls (λ c, is_lower c || is_digit c).
Definition upper_digit : re := RCls (λ c, is_upper c || is_digit c).
Definition letter : re := RCls (λ c, is_lower c || is_upper c).

(** [^[a-z0-9]+(?:-[a-z0-9]+)*$] *)
Definition slugRE : re := RCat (RPlus lower_digit) (RStar (RCat (RChr "-") (RPlus lower_digit))).
(** [^[a-zA-Z][a-zA-Z0-9_.-]*$] *)
Definition idRE : re :=
  RCat letter (RStar (RCls (λ c, is_lower c || is_upper c || is_digit c || is_char "_" c ||
                                 is_char "." c || is_char "-" c))).
(** [^[A-Z0-9]+(?:\.[A-Z0-9]+)+$] *)
Definition standardRE : re := RCat (RPlus upper_digit) (RPlus (RCat (RChr ".") (RPlus upper_digit))).

(** ** Cycles *)

(** [for n := range adj]: the keys in the order [keys], which Go leaves open. *)
Definition detectSlugCycles (keys : list string) (adj : gmap string (list string)) : result string unit :=
  cycle_check (λ n, "prerequisites: cycle involving " +:+ go_quote n) keys adj.

(** The order in which Go ranges over a map: some order of its keys. *)
Class MapRange := {
  range_keys {A} : gmap string A → list string;
  range_keys_perm {A} (m : gmap string A) : range_keys m ≡ₚ (map_to_list m).*1 }.

Lemma range_keys_dom `{!MapRange} {A} (m : gmap string A) n : n ∈ range_keys m ↔ n ∈ dom m.
Proof.
  rewrite range_keys_perm, elem_of_dom, list_elem_of_fmap. split.
  - intros ([k l] & -> & Hin%elem_of_map_to_list). by eexists.
  - intros [l Hl]. exists (n, l). split; [done|]. by apply elem_of_map_to_list.
Qed.

(** ** Validation *)

Definition indexed (name : string) (i : nat) : string := name +:+ "[" +:+ pretty i +:+ "]".

Definition validateContinuity (c : option ContinuityPolicy) (field : string) : result string unit :=
  match c with
  | None => Ok tt
  | Some c =>
      if bool_decide (cn_Mode c ∈ ["fresh"; "optional_previous"; "required_project"; "portfolio_review"])
      then Ok tt
      else if bool_decide (cn_Mode c = "") then Err (field +:+ ".mode is required")
      else Err (field +:+ ".mode " +:+ go_quote (cn_Mode c) +:+ " is unknown")
  end.

Definition seen : Type := gset Z * gset string.

(** One iteration of the activity loop, with [seenOrder] and [seenSlug]. *)
Definition validateActivityRef (i : nat) (s : seen) (a : CourseActivityRef) : result string seen :=
  let prefix := indexed "activities" i in
  _ ← ensure (Z.leb 1 (cr_Order a)) (prefix +:+ ".order must be >= 1");
  _ ← ensure (bool_decide (cr_Order a ∉ s.1))
        (prefix +:+ ".order " +:+ pretty (cr_Order a) +:+ " is duplicate");
  _ ← ensure (matches slugRE (cr_Slug a)) (prefix +:+ ".slug " +:+ go_quote (cr_Slug a) +:+ " is invalid");
  _ ← ensure (bool_decide (cr_Slug a ∉ s.2))
        (prefix +:+ ".slug " +:+ go_quote (cr_Slug a) +:+ " is duplicate");
  _ ← ensure (bool_decide (cr_File a = "") ||
              negb (HasPrefix (cr_File a) "/" || Contains (cr_File a) ".."))
        (prefix +:+ ".file must be a relative path without ..");
  _ ← validateContinuity (cr_Continuity a) (prefix +:+ ".continuity");
  Ok ({[cr_Order a]} ∪ s.1, {[cr_Slug a]} ∪ s.2).

Definition validateModule (seenSlug : gset string) (i : nat) (ids : gset string) (m : CourseModule)
  : result string (gset string) :=
  let prefix := indexed "modules" i in
  _ ← ensure (matches idRE (co_ID m)) (prefix +:+ ".id " +:+ go_quote (co_ID m) +:+ " is invalid");
  _ ← ensure (bool_decide (co_ID m ∉ ids)) (prefix +:+ ".id " +:+ go_quote (co_ID m) +:+ " is duplicate");
  _ ← ensure (negb (bool_decide (TrimSpace (co_Title m) = ""))) (prefix +:+ ".title is required");
  _ ← for_each_i 0 (λ j slug, ensure (bool_decide (slug ∈ seenSlug))
        (prefix +:+ indexed ".activities" j +:+ ": unknown activity slug " +:+ go_quote slug)) (co_Activities m);
  Ok ({[co_ID m]} ∪ ids).

(** One iteration of the prerequisite loop; [adj] collects the edges. *)
Definition validatePrereq (seenSlug : gset string) (i : nat) (adj : gmap string (list string))
    (p : CoursePrerequisite) : result string (gmap string (list string)) :=
  let prefix := indexed "prerequisites" i in
  _ ← ensure (bool_decide (cq_Activity p ∈ seenSlug))
        (prefix +:+ ".activity " +:+ go_quote (cq_Activity p) +:+ " is not in activities");
  _ ← ensure (negb (bool_decide (cq_Requires p = []))) (prefix +:+ ".requires must not be empty");
  _ ← ensure (bool_decide (cq_Requirement p ∈ [""; "completed"; "approaching"; "mastered"]))
        (prefix +:+ ".requirement " +:+ go_quote (cq_Requirement p) +:+ " is unknown");
  fold_each 0 (λ j adj req,
    _ ← ensure (bool_decide (req ∈ seenSlug))
          (prefix +:+ indexed ".requires" j +:+ ": unknown activity slug " +:+ go_quote req);
    _ ← ensure (negb (bool_decide (req = cq_Activity p))) (prefix +:+ ": activity cannot require itself");
    Ok (<[cq_Activity p := succs adj (cq_Activity p) ++ [req]]> adj)) adj (cq_Requires p).

Definition validateGate (seenSlug : gset string) (i : nat) (g : CourseGate) : result string unit :=
  let prefix := indexed "gates" i in
  _ ← ensure (bool_decide (ct_Activity g ∈ seenSlug))
        (prefix +:+ ".activity " +:+ go_quote (ct_Activity g) +:+ " is not in activities");
  _ ← ensure (bool_decide (ct_Kind g ∈ ["evidence"; "parent_review"]))
        (prefix +:+ ".kind " +:+ go_quote (ct_Kind g) +:+ " is unknown");
  for_each_i 0 (λ j code, ensure (matches standardRE code)
    (prefix +:+ indexed ".standards" j +:+ ": invalid code " +:+ go_quote code)) (ct_Standards g).

Definition validateRemediation (seenSlug : gset string) (i : nat) (r : CourseRemediation)
  : result string unit :=
  let prefix := indexed "remediation" i in
  _ ← ensure (bool_decide (ce_ForActivity r ∈ seenSlug))
        (prefix +:+ ".forActivity " +:+ go_quote (ce_ForActivity r) +:+ " is not in activities");
  _ ← ensure (matches slugRE (ce_BranchSlug r))
        (prefix +:+ ".branchSlug " +:+ go_quote (ce_BranchSlug r) +:+ " is invalid");
  ensure (bool_decide (ce_Kind r ∈ [""; "remediation"; "reinforcement"]))
    (prefix +:+ ".kind " +:+ go_quote (ce_Kind r) +:+ " is unknown").

Definition pacing_ok (p : option CoursePacing) : bool :=
  match p with
  | None => true
  | Some p => Z.leb 0 (pc_NominalWeeks p) && Z.leb 0 (pc_NominalDaysPerWeek p) &&
              Z.leb 0 (pc_NominalMinutesPerDay p)
  end.

Definition ValidateCourseDocument `{!MapRange} (doc : CourseDocument) : result string unit :=
  _ ← ensure (bool_decide (cd_SchemaVersion doc = "1"))
        ("unsupported schemaVersion " +:+ go_quote (cd_SchemaVersion doc) +:+ " (want " +:+ go_quote "1" +:+ ")");
  _ ← ensure (matches slugRE (cd_Slug doc)) ("slug " +:+ go_quote (cd_Slug doc) +:+ " is invalid");
  _ ← ensure (negb (bool_decide (TrimSpace (cd_Title doc) = ""))) "title is required";
  _ ← ensure (negb (bool_decide (TrimSpace (cd_SubjectCode doc) = ""))) "subjectCode is required";
  _ ← ensure (bool_decide (cd_RevisionPolicy doc ∈ [""; "latest_published"; "pinned_digest"]))
        ("revisionPolicy " +:+ go_quote (cd_RevisionPolicy doc) +:+ " is unknown");
  _ ← ensure (pacing_ok (cd_PacingReference doc)) "pacingReference: nominal values must be non-negative";
  _ ← validateContinuity (cd_ContinuityDefaults doc) "continuityDefaults";
  _ ← ensure (negb (bool_decide (cd_Activities doc = []))) "activities must not be empty";
  s ← fold_each 0 validateActivityRef (∅, ∅) (cd_Activities doc);
  _ ← for_each (λ i, ensure (bool_decide (Z.of_nat i ∈ s.1))
        ("activities: missing order " +:+ pretty i +:+ " (orders must be contiguous from 1)"))
        (seq 1 (length (cd_Activities doc)));
  _ ← fold_each 0 (validateModule s.2) ∅ (cd_Modules doc);
  adj ← fold_each 0 (validatePrereq s.2) ∅ (cd_Prerequisites doc);
  _ ← detectSlugCycles (range_keys adj) adj;
  _ ← for_each_i 0 (validateGate s.2) (cd_Gates doc);
  for_each_i 0 (validateRemediation s.2) (cd_Remediation doc).

(** ** What a valid document is *)

Definition continuity_ok (c : option ContinuityPolicy) : Prop :=
  ∀ p, c = Some p → cn_Mode p ∈ ["fresh"; "optional_previous"; "required_project"; "portfolio_review"].

Definition ref_ok (a : CourseActivityRef) : Prop :=
  matches slugRE (cr_Slug a) = true ∧
  (cr_File a = "" ∨ HasPrefix (cr_File a) "/" = false ∧ Contains (cr_File a) ".." = false) ∧
  continuity_ok (cr_Continuity a).

Definition slugs (doc : CourseDocument) : list string := cr_Slug <$> cd_Activities doc.

(** The prerequisite relation the document states. *)
Definition requires (doc : CourseDocument) (a b : string) : Prop :=
  ∃ p, p ∈ cd_Prerequisites doc ∧ cq_Activity p = a ∧ b ∈ cq_Requires p.

Definition valid_course (doc : CourseDocument) : Prop :=
  (cd_SchemaVersion doc = "1" ∧ matches slugRE (cd_Slug doc) = true ∧
   TrimSpace (cd_Title doc) ≠ "" ∧ TrimSpace (cd_SubjectCode doc) ≠ "" ∧
   cd_RevisionPolicy doc ∈ [""; "latest_published"; "pinned_digest"] ∧
   pacing_ok (cd_PacingReference doc) = true ∧ continuity_ok (cd_ContinuityDefaults doc)) ∧
  (cd_Activities doc ≠ [] ∧ Forall ref_ok (cd_Activities doc) ∧ NoDup (slugs doc) ∧
   cr_Order <$> cd_Activities doc ≡ₚ Z.of_nat <$> seq 1 (length (cd_Activities doc))) ∧
  (NoDup (co_ID <$> cd_Modules doc) ∧
   Forall (λ m, matches idRE (co_ID m) = true ∧ TrimSpace (co_Title m) ≠ "" ∧
                co_Activities m ⊆ slugs doc) (cd_Modules doc)) ∧
  (Forall (λ p, cq_Activity p ∈ slugs doc ∧ cq_Requires p ≠ [] ∧
                cq_Requirement p ∈ [""; "completed"; "approaching"; "mastered"] ∧
                cq_Requires p ⊆ slugs doc) (cd_Prerequisites doc) ∧
   ∀ a, ~ tc (requires doc) a a) ∧
  Forall (λ g, ct_Activity g ∈ slugs doc ∧ ct_Kind g ∈ ["evidence"; "parent_review"] ∧
               Forall (λ code, matches standardRE code = true) (ct_Standards g)) (cd_Gates doc) ∧
  Forall (λ r, ce_ForActivity r ∈ slugs doc ∧ matches slugRE (ce_BranchSlug r) = true ∧
               ce_Kind r ∈ [""; "remediation"; "reinforcement"]) (cd_Remediation doc).

(** ** Validation decides it *)

Lemma validateContinuity_Ok c field : validateContinuity c field = Ok tt ↔ continuity_ok c.
Proof.
  unfold validateContinuity, continuity_ok. destruct c as [p|]; [|naive_solver].
  case_bool_decide; [naive_solver|]. case_bool_decide; naive_solver.
Qed.

Lemma validateActivityRef_Ok i s a s' :
  validateActivityRef i s a = Ok s' ↔
  ref_ok a ∧ (1 ≤ cr_Order a)%Z ∧ cr_Order a ∉ s.1 ∧ cr_Slug a ∉ s.2 ∧
  s' = ({[cr_Order a]} ∪ s.1, {[cr_Slug a]} ∪ s.2).
Proof.
  unfold validateActivityRef, ref_ok. rewrite !ensure_bind, unit_bind, validateContinuity_Ok.
  rewrite !bool_decide_eq_true, orb_true_iff, bool_decide_eq_true, negb_true_iff, orb_false_iff, Z.leb_le.
  naive_solver.
Qed.

Lemma validateActivities_Ok acts : ∀ i s s',
  fold_each i validateActivityRef s acts = Ok s' ↔
  Forall ref_ok acts ∧ Forall (λ a, 1 ≤ cr_Order a)%Z acts ∧
  NoDup (cr_Order <$> acts) ∧ (∀ a, a ∈ acts → cr_Order a ∉ s.1) ∧
  NoDup (cr_Slug <$> acts) ∧ (∀ a, a ∈ acts → cr_Slug a ∉ s.2) ∧
  s' = (list_to_set (cr_Order <$> acts) ∪ s.1, list_to_set (cr_Slug <$> acts) ∪ s.2).
Proof.
  induction acts as [|a acts IH]; intros i s s'; cbn [fold_each].
  { rewrite !fmap_nil. cbn. rewrite !(left_id_L ∅ (∪)). destruct s.
    split; [intros [= <-]; split_and!; try done; try constructor; set_solver|].
    by intros (_ & _ & _ & _ & _ & _ & ->). }
  destruct (validateActivityRef i s a) as [s1|e] eqn:E.
  - apply validateActivityRef_Ok in E as (Hr & Ho & Hso & Hss & ->).
    rewrite (IH (S i)). rewrite !Forall_cons, !fmap_cons, !NoDup_cons, !list_elem_of_fmap. cbn [fst snd list_to_set].
    split.
    + intros (? & ? & ? & Hd1 & ? & Hd2 & ->). split_and!; try done.
      * intros (x & Hx & Hin). apply (Hd1 x Hin). set_solver.
      * intros x [->|Hx]%elem_of_cons; [done|]. specialize (Hd1 x Hx). set_solver.
      * intros (x & Hx & Hin). apply (Hd2 x Hin). set_solver.
      * intros x [->|Hx]%elem_of_cons; [done|]. specialize (Hd2 x Hx). set_solver.
      * f_equal; set_solver.
    + intros ([_ ?] & [_ ?] & [Hn1 ?] & Hd1 & [Hn2 ?] & Hd2 & ->). split_and!; try done.
      * intros x Hx. rewrite not_elem_of_union, not_elem_of_singleton. split; [|apply Hd1; by right].
        intros Heq. apply Hn1. by exists x.
      * intros x Hx. rewrite not_elem_of_union, not_elem_of_singleton. split; [|apply Hd2; by right].
        intros Heq. apply Hn2. by exists x.
      * f_equal; set_solver.
  - split; [done|]. intros (Hr & Ho & _ & Hd1 & _ & Hd2 & _).
    rewrite Forall_cons in Hr, Ho. assert (validateActivityRef i s a = Ok ({[cr_Order a]} ∪ s.1, {[cr_Slug a]} ∪ s.2)).
    { apply validateActivityRef_Ok. destruct Hr, Ho. split_and!; try done; [apply Hd1|apply Hd2]; left. }
    congruence.
Qed.

Lemma orders_contiguous (acts : list CourseActivityRef) :
  Forall (λ a, 1 ≤ cr_Order a)%Z acts ∧ NoDup (cr_Order <$> acts) ∧
  Forall (λ i, Z.of_nat i ∈ cr_Order <$> acts) (seq 1 (length acts)) ↔
  cr_Order <$> acts ≡ₚ Z.of_nat <$> seq 1 (length acts).
Proof.
  assert (NoDup (Z.of_nat <$> seq 1 (length acts))) as Hn by (apply NoDup_fmap_2; [apply _|apply NoDup_seq]).
  split.
  - intros (_ & Hnd & Hall). symmetry. apply submseteq_length_Permutation.
    + apply NoDup_submseteq; [done|]. intros x (i & -> & Hi)%list_elem_of_fmap.
      rewrite Forall_forall in Hall. by apply Hall.
    + by rewrite !length_fmap, length_seq.
  - intros Hp. split_and!.
    + apply Forall_forall. intros a Ha.
      assert (cr_Order a ∈ cr_Order <$> acts) as Hin by (by apply list_elem_of_fmap_2).
      rewrite Hp in Hin. apply list_elem_of_fmap in Hin as (i & -> & Hi%elem_of_seq). lia.
    + by rewrite Hp.
    + apply Forall_forall. intros i Hi. rewrite Hp. by apply list_elem_of_fmap_2.
Qed.

Lemma validateModules_Ok known ms : ∀ i ids ids',
  fold_each i (validateModule known) ids ms = Ok ids' ↔
  Forall (λ m, matches idRE (co_ID m) = true ∧ TrimSpace (co_Title m) ≠ "" ∧
               ∀ s, s ∈ co_Activities m → s ∈ known) ms ∧
  NoDup (co_ID <$> ms) ∧ (∀ m, m ∈ ms → co_ID m ∉ ids) ∧ ids' = list_to_set (co_ID <$> ms) ∪ ids.
Proof.
  apply fold_seen_Ok. intros i ids m ids'. unfold validateModule. rewrite !ensure_bind, unit_bind.
  rewrite (for_each_i_all _ (λ s, s ∈ known)) by (intros; by rewrite ensure_tt, bool_decide_eq_true).
  rewrite bool_decide_eq_true, bool_decide_negb, Forall_forall. naive_solver.
Qed.

Definition prereq_ok (known : gset string) (p : CoursePrerequisite) : Prop :=
  cq_Activity p ∈ known ∧ cq_Requires p ≠ [] ∧
  cq_Requirement p ∈ [""; "completed"; "approaching"; "mastered"] ∧
  ∀ r, r ∈ cq_Requires p → r ∈ known ∧ r ≠ cq_Activity p.

Lemma validatePrereq_Ok known i adj p r :
  validatePrereq known i adj p = r →
  match r with
  | Ok adj' => prereq_ok known p ∧
      ∀ n m, m ∈ succs adj' n ↔ m ∈ succs adj n ∨ n = cq_Activity p ∧ m ∈ cq_Requires p
  | Err _ => ~ prereq_ok known p
  end.
Proof.
  intros <-. unfold validatePrereq, prereq_ok.
  destruct (bool_decide_reflect (cq_Activity p ∈ known)) as [Ha|Ha]; cbn [ensure mbind result_bind];
    [|by intros (? & _)].
  destruct (bool_decide_reflect (cq_Requires p = [])) as [Hr|Hr]; cbn [ensure mbind result_bind negb];
    [by intros (_ & ? & _)|].
  destruct (bool_decide_reflect (cq_Requirement p ∈ [""; "completed"; "approaching"; "mastered"])) as [Hq|Hq];
    cbn [ensure mbind result_bind]; [|by intros (_ & _ & ? & _)].
  enough (∀ j adj, match fold_each j (λ j adj req,
      _ ← ensure (bool_decide (req ∈ known))
            (indexed "prerequisites" i +:+ indexed ".requires" j +:+ ": unknown activity slug " +:+ go_quote req);
      _ ← ensure (negb (bool_decide (req = cq_Activity p)))
            (indexed "prerequisites" i +:+ ": activity cannot require itself");
      Ok (<[cq_Activity p := succs adj (cq_Activity p) ++ [req]]> adj)) adj (cq_Requires p) with
    | Ok adj' => (∀ r, r ∈ cq_Requires p → r ∈ known ∧ r ≠ cq_Activity p) ∧
                 ∀ n m, m ∈ succs adj' n ↔ m ∈ succs adj n ∨ n = cq_Activity p ∧ m ∈ cq_Requires p
    | Err _ => ~ ∀ r, r ∈ cq_Requires p → r ∈ known ∧ r ≠ cq_Activity p
    end) as Hall by (specialize (Hall 0 adj); destruct (fold_each _ _ _ _); naive_solver).
  clear. induction (cq_Requires p) as [|req l IH]; intros j adj; cbn [fold_each]; [set_solver|].
  destruct (bool_decide_reflect (req ∈ known)) as [Hkn|Hkn]; cbn [ensure mbind result_bind]; [|intros Hall; apply Hkn, Hall; left].
  destruct (bool_decide_reflect (req = cq_Activity p)) as [Hsf|Hsf]; cbn [ensure mbind result_bind negb]; [intros Hall; apply (Hall req); [left|done]|].
  specialize (IH (S j) (<[cq_Activity p := succs adj (cq_Activity p) ++ [req]]> adj)).
  destruct (fold_each _ _ _ _); [|set_solver]. destruct IH as [Hk Hs]. split; [set_solver|].
  intros n m. rewrite Hs, succs_insert. destruct (decide (n = cq_Activity p)); set_solver.
Qed.

Lemma validatePrereqs_Ok known ps : ∀ i adj,
  match fold_each i (validatePrereq known) adj ps with
  | Ok adj' => Forall (prereq_ok known) ps ∧
      ∀ n m, m ∈ succs adj' n ↔ m ∈ succs adj n ∨ ∃ p, p ∈ ps ∧ cq_Activity p = n ∧ m ∈ cq_Requires p
  | Err _ => ~ Forall (prereq_ok known) ps
  end.
Proof.
  induction ps as [|p ps IH]; intros i adj; cbn [fold_each].
  { split; [constructor|set_solver]. }
  pose proof (validatePrereq_Ok known i adj p _ eq_refl) as Hp.
  destruct (validatePrereq known i adj p) as [adj1|e]; cbn iota; [|intros [? _]%Forall_cons; done].
  destruct Hp as [Hp Hs]. specialize (IH (S i) adj1).
  destruct (fold_each _ _ adj1 ps) as [adj2|]; [|by intros [_ ?]%Forall_cons].
  destruct IH as [Hps Hs2]. split; [by constructor|]. intros n m. rewrite Hs2, Hs. set_solver.
Qed.

Section validate.
Context `{!MapRange}.

Lemma detectSlugCycles_Ok adj : detectSlugCycles (range_keys adj) adj = Ok tt ↔ acyclic adj.
Proof. apply cycle_check_Ok. intros n. apply range_keys_dom. Qed.

(** The prerequisite part: local conditions and no cycle. *)
Lemma prereqs_valid doc known :
  (∀ s, s ∈ known ↔ s ∈ slugs doc) →
  (∃ adj, fold_each 0 (validatePrereq known) ∅ (cd_Prerequisites doc) = Ok adj ∧ acyclic adj) ↔
  Forall (λ p, cq_Activity p ∈ slugs doc ∧ cq_Requires p ≠ [] ∧
               cq_Requirement p ∈ [""; "completed"; "approaching"; "mastered"] ∧
               cq_Requires p ⊆ slugs doc) (cd_Prerequisites doc) ∧ ∀ a, ~ tc (requires doc) a a.
Proof.
  intros Hk. pose proof (validatePrereqs_Ok known (cd_Prerequisites doc) 0 ∅) as Hv. split.
  - intros (adj & Ha & Hac). rewrite Ha in Hv. destruct Hv as [Hall Hs]. split.
    + eapply Forall_impl; [exact Hall|]. intros p (? & ? & ? & Hr).
      split_and!; [by apply Hk|done..|]. intros r Hin. apply Hk. by apply Hr.
    + intros a Htc. apply (Hac a). eapply tc_ext; [|exact Htc]. intros n m (p & Hp & <- & Hm).
      apply Hs. right. by exists p.
  - intros [Hall Hac].
    assert (Forall (prereq_ok known) (cd_Prerequisites doc)) as Hok.
    { rewrite Forall_forall in Hall |- *. intros p Hp. destruct (Hall p Hp) as (? & ? & ? & Hr).
      split_and!; [by apply Hk|done..|]. intros r Hin. split; [by apply Hk, Hr|]. intros ->.
      apply (Hac (cq_Activity p)), tc_once. by exists p. }
    destruct (fold_each 0 (validatePrereq known) ∅ (cd_Prerequisites doc)) as [adj|e]; [|done].
    exists adj. split; [done|]. destruct Hv as [_ Hs]. intros a Htc. apply (Hac a).
    eapply tc_ext; [|exact Htc]. intros n m Hm. unfold edge in Hm. rewrite Hs in Hm. destruct Hm as [Hm|Hm].
    + unfold succs in Hm. rewrite lookup_empty in Hm. by apply not_elem_of_nil in Hm.
    + destruct Hm as (p & ? & ? & ?). by exists p.
Qed.

Lemma gates_valid doc known :
  (∀ s, s ∈ known ↔ s ∈ slugs doc) →
  for_each_i 0 (validateGate known) (cd_Gates doc) = Ok tt ↔
  Forall (λ g, ct_Activity g ∈ slugs doc ∧ ct_Kind g ∈ ["evidence"; "parent_review"] ∧
               Forall (λ code, matches standardRE code = true) (ct_Standards g)) (cd_Gates doc).
Proof.
  intros Hk. apply for_each_i_all. intros i g. unfold validateGate. rewrite !ensure_bind, !bool_decide_eq_true, Hk.
  rewrite (for_each_i_all _ (λ code, matches standardRE code = true)) by (intros; by rewrite ensure_tt). done.
Qed.

Lemma remediation_valid doc known :
  (∀ s, s ∈ known ↔ s ∈ slugs doc) →
  for_each_i 0 (validateRemediation known) (cd_Remediation doc) = Ok tt ↔
  Forall (λ r, ce_ForActivity r ∈ slugs doc ∧ matches slugRE (ce_BranchSlug r) = true ∧
               ce_Kind r ∈ [""; "remediation"; "reinforcement"]) (cd_Remediation doc).
Proof.
  intros Hk. apply for_each_i_all. intros i r. unfold validateRemediation.
  by rewrite !ensure_bind, ensure_tt, !bool_decide_eq_true, Hk.
Qed.

Lemma modules_valid doc known :
  (∀ s, s ∈ known ↔ s ∈ slugs doc) →
  (∃ ids, fold_each 0 (validateModule known) ∅ (cd_Modules doc) = Ok ids) ↔
  NoDup (co_ID <$> cd_Modules doc) ∧
  Forall (λ m, matches idRE (co_ID m) = true ∧ TrimSpace (co_Title m) ≠ "" ∧
               co_Activities m ⊆ slugs doc) (cd_Modules doc).
Proof.
  intros Hk. setoid_rewrite validateModules_Ok. setoid_rewrite Hk.
  split; [naive_solver|]. intros [? ?]. eexists. by split_and!.
Qed.

Lemma activities_valid doc :
  (∃ s, fold_each 0 validateActivityRef (∅, ∅) (cd_Activities doc) = Ok s ∧
        Forall (λ i, Z.of_nat i ∈ s.1) (seq 1 (length (cd_Activities doc)))) ↔
  Forall ref_ok (cd_Activities doc) ∧ NoDup (slugs doc) ∧
  cr_Order <$> cd_Activities doc ≡ₚ Z.of_nat <$> seq 1 (length (cd_Activities doc)).
Proof.
  rewrite <-orders_contiguous. setoid_rewrite validateActivities_Ok. split.
  - intros (s & (? & ? & ? & _ & ? & _ & ->) & Ho). split_and!; try done.
    eapply Forall_impl; [exact Ho|]. cbn. intros i. by rewrite (right_id_L ∅ (∪)), elem_of_list_to_set.
  - intros (? & ? & ? & ? & Ho). eexists. split; [split_and!; try done; set_solver|].
    eapply Forall_impl; [exact Ho|]. cbn. intros i. by rewrite (right_id_L ∅ (∪)), elem_of_list_to_set.
Qed.

Lemma known_slugs doc s :
  fold_each 0 validateActivityRef (∅, ∅) (cd_Activities doc) = Ok s → ∀ x, x ∈ s.2 ↔ x ∈ slugs doc.
Proof. intros (_ & _ & _ & _ & _ & _ & ->)%validateActivities_Ok x. unfold slugs. set_solver. Qed.

Lemma validate_valid doc : ValidateCourseDocument doc = Ok tt ↔ valid_course doc.
Proof.
  unfold ValidateCourseDocument, valid_course.
  rewrite !ensure_bind, unit_bind, validateContinuity_Ok, !bool_decide_negb, !bool_decide_eq_true.
  rewrite ensure_bind, bool_decide_negb, bind_Ok. setoid_rewrite unit_bind. setoid_rewrite bind_Ok.
  setoid_rewrite bind_Ok. setoid_rewrite unit_bind. setoid_rewrite detectSlugCycles_Ok.
  setoid_rewrite for_each_Ok. setoid_rewrite ensure_tt. setoid_rewrite bool_decide_eq_true.
  rewrite <-activities_valid. split.
  - intros (? & ? & ? & ? & ? & ? & ? & ? & s & Hs & Ho & ids & Hm & adj & Ha & Hac & [Hg Hr]%unit_bind).
    pose proof (known_slugs doc s Hs) as Hk. split_and!; try done.
    + by exists s.
    + apply (modules_valid doc s.2 Hk). by exists ids.
    + apply (modules_valid doc s.2 Hk). by exists ids.
    + apply (prereqs_valid doc s.2 Hk). by exists adj.
    + apply (prereqs_valid doc s.2 Hk). by exists adj.
    + by apply (gates_valid doc s.2).
    + by apply (remediation_valid doc s.2).
  - intros ((? & ? & ? & ? & ? & ? & ?) & (? & s & Hs & Ho) & Hm & Hp & Hg & Hr).
    pose proof (known_slugs doc s Hs) as Hk. split_and!; try done. exists s. split; [done|]. split; [done|].
    apply (modules_valid doc s.2 Hk) in Hm as [ids Hm]. exists ids. split; [done|].
    apply (prereqs_valid doc s.2 Hk) in Hp as (adj & Ha & Hac). exists adj. split; [done|]. split; [done|].
    apply unit_bind. split; [by apply (gates_valid doc s.2)|by apply (remediation_valid doc s.2)].
Qed.

(** C39: Validation is exact.  [ValidateCourseDocument] accepts a course document if
    and only if it is valid: supported schema, well-formed slug, title, subject,
    policy and continuity; a non-empty activity list with distinct slugs and orders
    exactly 1..n; modules, prerequisites, gates and remediation that only name
    activities of the course; and a prerequisite relation without cycles, however
    Go orders the map it searches.  The depth-first search always ends with an
    answer. *)
Theorem ValidateCourseDocument_spec doc : ValidateCourseDocument doc = Ok tt ↔ valid_course doc.
Proof. apply validate_valid. Qed.
End validate.

(** ** A course of two activities *)

Definition table_range : MapRange := {| range_keys A m := (map_to_list m).*1; range_keys_perm A m := reflexivity _ |}.

Definition w_ref (order : Z) (slug : string) : CourseActivityRef := mkActivityRef order slug "" "" false None ∅.
Definition w_course_doc (prereqs : list CoursePrerequisite) : CourseDocument :=
  mkCourseDocument "1" "basic-linux" "Basic Linux" "CS" "1" "" "" None
    [w_ref 2 "shell-commands"; w_ref 1 "shell-basics"] prereqs [mkGate "shell-commands" "evidence" ["CS.SH.1"] ""]
    [mkRemediation "shell-commands" "shell-again" "" ""] [] None ∅.
Definition w_doc : CourseDocument := w_course_doc [mkPrereq "shell-commands" ["shell-basics"] "" ""].
Definition w_cyclic_doc : CourseDocument :=
  w_course_doc [mkPrereq "shell-commands" ["shell-basics"] "" ""; mkPrereq "shell-basics" ["shell-commands"] "" ""].

Lemma ValidateCourseDocument_spec_witness : valid_course w_doc ∧ ~ valid_course w_cyclic_doc.
Proof.
  split.
  - apply (@ValidateCourseDocument_spec table_range). vm_compute. reflexivity.
  - intros Hv. apply (@ValidateCourseDocument_spec table_range) in Hv. revert Hv.
    vm_compute. discriminate.
Defined.
