(* ===== verification/ContentEncode.v ===== *)
(** * Encoding activity content

    [json.Marshal] of [contracts.ActivityContent] followed by [json.Unmarshal] into
    [map[string]any], as [ContentSHA256] / [PublishActivityRevision]
    ([repo/learning.go]) and [StudentSafeRevisionContent] do: the object a revision
    stores.  A field with [omitempty] is left out at its zero value; numbers pass
    through float64 on their way into the map.  Go's nil slices and maps, which
    encode as null where there is no [omitempty], are the empty list and map. *)
From S2P Require Import Prelude GoStrings Float64 Contracts ContentJson.
From stdpp Require Import options.
Local Open Scope string_scope.
Local Open Scope list_scope.

(** ** Fields *)

(** A struct as its fields in order; [None] is a field left out. *)
Abbreviation fields := (list (string * option json)).

Definition present (fs : fields) : list (string * json) :=
  omap (λ f, (λ j, (f.1, j)) <$> f.2) fs.
Definition obj (fs : fields) : json := JObj (present fs).

Fixpoint get_field (fs : fields) (k : string) : option json :=
  match fs with
  | [] => None
  | f :: fs' => if String.eqb k f.1 then f.2 else get_field fs' k
  end.

Definition req (k : string) (j : json) : string * option json := (k, Some j).
(** [omitempty] *)
Definition opt (k : string) (zero : bool) (j : json) : string * option json :=
  (k, if zero then None else Some j).

(** The integer a number has after float64. *)
Definition enc_int (z : Z) : json := JInt (f64_trunc (f64_of_Z z)).
Definition int_zero (z : Z) : bool := bool_decide (z = 0%Z).

(** An integral float64 below 1e21 has an integer literal. *)
Definition enc_float (x : f64) : json :=
  if feq (f64_of_Z (f64_trunc x)) x && bool_decide (Z.abs (f64_trunc x) < 10 ^ 21)%Z
  then JInt (f64_trunc x) else JNum x.
Definition float_zero (x : f64) : bool := feq x fzero.

Definition str_zero (s : string) : bool := bool_decide (s = "").
Definition list_zero {A} (l : list A) : bool := match l with [] => true | _ => false end.
Definition enc_strings (l : list string) : json := JArr (JStr <$> l).
Definition opt_str (k s : string) := opt k (str_zero s) (JStr s).
Definition opt_int (k : string) (z : Z) := opt k (int_zero z) (enc_int z).
Definition opt_float (k : string) (x : f64) := opt k (float_zero x) (enc_float x).
Definition opt_bool (k : string) (b : bool) := opt k (negb b) (JBool b).
Definition opt_strings (k : string) (l : list string) := opt k (list_zero l) (enc_strings l).
Definition opt_ptr {A} (k : string) (f : A → json) (o : option A) : string * option json := (k, f <$> o).
Definition opt_list {A} (k : string) (f : A → json) (l : list A) := opt k (list_zero l) (JArr (f <$> l)).
Definition req_list {A} (k : string) (f : A → json) (l : list A) := req k (JArr (f <$> l)).

(** ** The structs of [activity.go] *)

Fixpoint enc_tree (t : CheckTree) : json :=
  obj [opt "all" (list_zero (ct_All t)) (JArr (enc_tree <$> ct_All t));
       opt "any" (list_zero (ct_Any t)) (JArr (enc_tree <$> ct_Any t));
       opt_str "checkId" (ct_CheckID t); opt_bool "optional" (ct_Optional t)].

Definition enc_rubric (x : RubricCriterion) : json :=
  obj [req "id" (JStr (rc_ID x)); req "description" (JStr (rc_Description x)); opt_bool "required" (rc_Required x)].
Definition enc_response_spec (x : ResponseTaskSpec) : json :=
  obj [req "prompt" (JStr (rs_Prompt x)); opt_int "maxChars" (rs_MaxChars x);
       req_list "rubric" enc_rubric (rs_Rubric x); opt_bool "parentReviewRequired" (rs_ParentReviewRequired x)].
Definition enc_task (x : Task) : json :=
  obj [req "id" (JStr (tk_ID x)); req "title" (JStr (tk_Title x)); req "instructions" (JStr (tk_Instructions x));
       opt_str "kind" (tk_Kind x); opt_strings "prerequisites" (tk_Prerequisites x);
       req "completion" (enc_tree (tk_Completion x)); opt_strings "hintIds" (tk_HintIDs x);
       opt_bool "optional" (tk_Optional x); opt_ptr "response" enc_response_spec (tk_Response x)].
Definition enc_check (x : Check) : json :=
  obj [req "id" (JStr (ck_ID x)); req "kind" (JStr (ck_Kind x)); opt_bool "optional" (ck_Optional x);
       req "params" (JObj (map_to_list (ck_Params x))); opt_strings "stages" (ck_Stages x);
       opt_ptr "evidenceBearing" JBool (ck_EvidenceBearing x); opt_strings "invariantAt" (ck_InvariantAt x)].
Definition enc_fixture (x : FixtureEntry) : json :=
  obj [req "path" (JStr (fx_Path x)); req "type" (JStr (fx_Type x)); opt_str "content" (fx_Content x);
       opt_str "mode" (fx_Mode x)].
Definition enc_terminal (x : TerminalContent) : json :=
  obj [req "runtimeProfile" (JStr (tc_RuntimeProfile x)); req_list "fixtures" enc_fixture (tc_Fixtures x);
       opt_str "initialCwd" (tc_InitialCwd x); opt_str "shell" (tc_Shell x)].
Definition enc_prompt (x : TypingPrompt) : json :=
  obj [req "id" (JStr (tp_ID x)); req "text" (JStr (tp_Text x)); opt_str "category" (tp_Category x)].
Definition enc_typing (x : TypingContent) : json :=
  obj [req "promptSetId" (JStr (ty_PromptSetID x)); req_list "prompts" enc_prompt (ty_Prompts x);
       opt_str "ordering" (ty_Ordering x); opt_int "timeLimitSec" (ty_TimeLimitSec x);
       opt_float "successWpm" (ty_SuccessWPM x); opt_float "successAccuracy" (ty_SuccessAccuracy x)].
Definition enc_term (x : VocabularyTerm) : json :=
  obj [req "term" (JStr (vt_Term x)); req "definition" (JStr (vt_Definition x))].
Definition enc_resource (x : ResourceRef) : json :=
  obj [req "sha256" (JStr (rr_SHA256 x)); req "mediaType" (JStr (rr_MediaType x)); req "label" (JStr (rr_Label x));
       opt_int "byteSize" (rr_ByteSize x)].
Definition enc_block (x : InstructionBlock) : json :=
  obj [req "id" (JStr (ib_ID x)); req "kind" (JStr (ib_Kind x)); opt_str "title" (ib_Title x);
       opt_str "text" (ib_Text x); opt_list "terms" enc_term (ib_Terms x); opt_str "input" (ib_Input x);
       opt_str "output" (ib_Output x); opt_str "explanation" (ib_Explanation x);
       opt_ptr "resource" enc_resource (ib_Resource x)].
Definition enc_hint (x : Hint) : json :=
  obj [req "id" (JStr (hn_ID x)); req "level" (enc_int (hn_Level x)); req "text" (JStr (hn_Text x))].
Definition enc_tutor (x : TutorContext) : json :=
  obj [opt_strings "misconceptions" (tu_Misconceptions x); opt_strings "constraints" (tu_Constraints x);
       opt_str "goalSummary" (tu_GoalSummary x)].
Definition enc_progression (x : ProgressionPolicy) : json :=
  obj [req "allowReset" (JBool (pp_AllowReset x)); opt_int "maxAttempts" (pp_MaxAttempts x);
       req "resumeFromTask" (JBool (pp_ResumeFromTask x)); req "requireInOrder" (JBool (pp_RequireInOrder x))].
Definition enc_artifacts (x : ArtifactPolicy) : json :=
  obj [req "enabled" (JBool (ap_Enabled x)); opt_int "maxFiles" (ap_MaxFiles x);
       opt_int "maxBytesEach" (ap_MaxBytesEach x); opt_int "maxBytesTotal" (ap_MaxBytesTotal x);
       opt_strings "allowedTypes" (ap_AllowedTypes x); opt_int "retainDays" (ap_RetainDays x)].

Definition content_fields (x : ActivityContent) : fields :=
  [req "objective" (JStr (ac_Objective x)); req "instructions" (JStr (ac_Instructions x));
   opt_list "blocks" enc_block (ac_Blocks x); opt_ptr "terminal" enc_terminal (ac_Terminal x);
   opt_ptr "typing" enc_typing (ac_Typing x); req_list "tasks" enc_task (ac_Tasks x);
   req_list "checks" enc_check (ac_Checks x); opt_list "hints" enc_hint (ac_Hints x);
   opt_ptr "tutor" enc_tutor (ac_Tutor x); opt_ptr "progression" enc_progression (ac_Progression x);
   opt_ptr "artifacts" enc_artifacts (ac_Artifacts x)].

(** The map a revision stores. *)
Definition contentMap (x : ActivityContent) : jmap := list_to_map (present (content_fields x)).

(** ** What is stored is read back *)

Lemma jlookup_present fs k : NoDup fs.*1 → jlookup (present fs) k = get_field fs k.
Proof.
  induction fs as [|[k' o] fs IH]; [done|]. rewrite fmap_cons, NoDup_cons. intros [Hn Hd]. cbn.
  assert (∀ l : fields, k ∉ l.*1 → jlookup (present l) k = None) as Hnone.
  { clear. induction l as [|[k1 [j|]] l IH]; cbn; [done| |]; intros Hk; rewrite not_elem_of_cons in Hk.
    - rewrite bool_decide_false by naive_solver. naive_solver.
    - naive_solver. }
  destruct (String.eqb_spec k k') as [->|Hk].
  - destruct o as [j|]; cbn; [by rewrite bool_decide_true|]. by apply Hnone.
  - destruct o as [j|]; cbn; [rewrite bool_decide_false by done|]; by apply IH.
Qed.

Lemma dec_struct_obj {A} (f : (string → option json) → result string A) fs r :
  bool_decide (NoDup fs.*1) = true → (∀ g, (∀ k, g k = get_field fs k) → f g = r) →
  dec_struct f (Some (obj fs)) = r.
Proof. intros Hn%bool_decide_eq_true Hf. apply Hf. intros k. by apply jlookup_present. Qed.

(** The numbers float64 keeps. *)
Definition exact_int (z : Z) : Prop := (-(2^63) ≤ z < 2^63)%Z ∧ f64_trunc (f64_of_Z z) = z.
Definition exact_float (x : f64) : Prop :=
  if float_zero x then x = fzero else dec_float (Some (enc_float x)) = Ok x.

Lemma dec_enc_int z : exact_int z → dec_int (Some (enc_int z)) = Ok z.
Proof. intros [Hr He]. unfold enc_int. rewrite He. cbn. by rewrite bool_decide_true. Qed.

Lemma dec_opt_int z : exact_int z → dec_int (if int_zero z then None else Some (enc_int z)) = Ok z.
Proof.
  intros Hz. unfold int_zero. case_bool_decide; [by subst|]. by apply dec_enc_int.
Qed.

Lemma dec_opt_float x :
  exact_float x → dec_float (if float_zero x then None else Some (enc_float x)) = Ok x.
Proof. unfold exact_float. destruct (float_zero x); [by intros ->|done]. Qed.

Lemma dec_opt_str s : dec_string (if str_zero s then None else Some (JStr s)) = Ok s.
Proof. unfold str_zero. case_bool_decide; by subst. Qed.

Lemma dec_opt_bool b : dec_bool (if negb b then None else Some (JBool b)) = Ok b.
Proof. by destruct b. Qed.

Lemma dec_opt_strings l : dec_list dec_string (if list_zero l then None else Some (enc_strings l)) = Ok l.
Proof. destruct l; [done|]. apply dec_list_strings. Qed.

Lemma dec_arr {A} (f : dec A) (e : A → json) l :
  Forall (λ x, f (Some (e x)) = Ok x) l → dec_list f (Some (JArr (e <$> l))) = Ok l.
Proof.
  cbn. induction 1 as [|x l Hx Hl IH]; [done|]. rewrite fmap_cons. cbn. rewrite Hx. cbn. by rewrite IH.
Qed.

Lemma dec_opt_list {A} (f : dec A) (e : A → json) l :
  Forall (λ x, f (Some (e x)) = Ok x) l →
  dec_list f (if list_zero l then None else Some (JArr (e <$> l))) = Ok l.
Proof. destruct l; [done|]. apply dec_arr. Qed.

Lemma dec_opt_ptr {A} (f : dec A) (e : A → json) o :
  (∀ x, e x ≠ JNull) → (∀ x, o = Some x → f (Some (e x)) = Ok x) → dec_ptr f (e <$> o) = Ok o.
Proof.
  intros Hn Hf. destruct o as [x|]; [|done]. cbn. specialize (Hf x eq_refl). specialize (Hn x).
  destruct (e x); try done; by rewrite Hf.
Qed.

Lemma dec_req_str s : dec_string (Some (JStr s)) = Ok s.
Proof. done. Qed.
Lemma dec_req_bool b : dec_bool (Some (JBool b)) = Ok b.
Proof. done. Qed.
Lemma dec_req_map (m : jmap) : dec_map (Some (JObj (map_to_list m))) = Ok m.
Proof. cbn. by rewrite list_to_map_to_list. Qed.

(** [dec_step] decodes the next field, [dec_fields] starts a struct; the values of
    [opt] fields are matched in their unfolded form. *)
Ltac dec_step :=
  first
    [ progress cbn [mbind result_bind]
    | rewrite dec_req_str | rewrite dec_req_bool | rewrite dec_req_map
    | rewrite dec_opt_str | rewrite dec_opt_bool | rewrite dec_opt_strings
    | rewrite dec_opt_int by done | rewrite dec_opt_float by done | rewrite dec_enc_int by done ].
Ltac dec_fields :=
  apply dec_struct_obj; [reflexivity|]; let g := fresh "g" in let Hg := fresh "Hg" in
  intros g Hg; rewrite !Hg;
  cbn [get_field fst snd String.eqb Ascii.eqb Bool.eqb req opt_str opt_int opt_float opt_bool opt_strings
       opt_ptr opt_list req_list opt]; clear g Hg; repeat dec_step.

Lemma dec_enc_rubric x : dec_rubric (Some (enc_rubric x)) = Ok x.
Proof. dec_fields. by destruct x. Qed.

Definition dec_subtrees (o : option json) : result string (list CheckTree) :=
  match o with
  | None | Some JNull => Ok []
  | Some (JArr ts) => dec_all dec_tree ts
  | _ => type_error "[]CheckTree"
  end.

Lemma dec_tree_obj l :
  dec_tree (JObj l) =
  (all ← dec_subtrees (jlookup l "all"); any ← dec_subtrees (jlookup l "any");
   id ← dec_string (jlookup l "checkId"); opt ← dec_bool (jlookup l "optional");
   Ok (mkCheckTree all any id opt)).
Proof.
  cbn [dec_tree].
  match goal with |- (?sub "all" l ≫= _) = _ =>
    assert (∀ key l, sub key l = dec_subtrees (jlookup l key)) as Hs end.
  { clear l. intros key l. induction l as [|[k v] l IH]; [done|]. cbn [jlookup].
    case_bool_decide; [|exact IH]. destruct v; try done. cbn.
    match goal with |- ?f l0 = _ => generalize l0 end.
    intros ts. induction ts as [|t ts IHt]; [done|]. cbn. by rewrite IHt. }
  by rewrite !Hs.
Qed.

Lemma dec_enc_tree t : dec_tree (enc_tree t) = Ok t.
Proof.
  induction t as [all any id o Hall Hany] using CheckTree_rect'.
  assert (∀ l, Forall (λ t, dec_tree (enc_tree t) = Ok t) l →
    dec_subtrees (if list_zero l then None else Some (JArr (enc_tree <$> l))) = Ok l) as Hs.
  { intros l Hl. destruct Hl as [|x l Hx Hl]; [done|]. cbn. rewrite Hx. cbn.
    assert (dec_all dec_tree (enc_tree <$> l) = Ok l) as ->; [|done].
    induction Hl as [|y l Hy Hl IH]; [done|]. cbn. rewrite Hy. cbn. by rewrite IH. }
  change (enc_tree (mkCheckTree all any id o)) with
    (obj [opt "all" (list_zero all) (JArr (enc_tree <$> all)); opt "any" (list_zero any) (JArr (enc_tree <$> any));
          opt_str "checkId" id; opt_bool "optional" o]).
  unfold obj. rewrite dec_tree_obj, !jlookup_present by (apply (bool_decide_unpack _); reflexivity).
  cbn [get_field fst snd String.eqb Ascii.eqb Bool.eqb opt_str opt_bool opt].
  rewrite !Hs by done. cbn [mbind result_bind]. by rewrite dec_opt_str, dec_opt_bool.
Qed.

Definition wf_response (x : ResponseTaskSpec) : Prop := exact_int (rs_MaxChars x).

Lemma dec_enc_response x : wf_response x → dec_response_spec (Some (enc_response_spec x)) = Ok x.
Proof.
  intros Hx. unfold wf_response in Hx. dec_fields.
  rewrite dec_arr by (apply Forall_true; apply dec_enc_rubric). repeat dec_step. by destruct x.
Qed.

Definition wf_task (x : Task) : Prop := ∀ r, tk_Response x = Some r → wf_response r.

Lemma dec_enc_task x : wf_task x → dec_task (Some (enc_task x)) = Ok x.
Proof.
  intros Hx. dec_fields. cbn [dec_check_tree]. rewrite dec_enc_tree. repeat dec_step.
  rewrite dec_opt_ptr; [by destruct x|done|]. intros r Hr. by apply dec_enc_response, Hx.
Qed.

Lemma dec_enc_check x : dec_check (Some (enc_check x)) = Ok x.
Proof.
  dec_fields. rewrite dec_opt_ptr by done. repeat dec_step. by destruct x.
Qed.

Lemma dec_enc_fixture x : dec_fixture (Some (enc_fixture x)) = Ok x.
Proof. dec_fields. by destruct x. Qed.

Lemma dec_enc_terminal x : dec_terminal (Some (enc_terminal x)) = Ok x.
Proof.
  dec_fields. rewrite dec_arr by (apply Forall_true; apply dec_enc_fixture). repeat dec_step.
  by destruct x.
Qed.

Lemma dec_enc_prompt x : dec_prompt (Some (enc_prompt x)) = Ok x.
Proof. dec_fields. by destruct x. Qed.

Definition wf_typing (x : TypingContent) : Prop :=
  exact_int (ty_TimeLimitSec x) ∧ exact_float (ty_SuccessWPM x) ∧ exact_float (ty_SuccessAccuracy x).

Lemma dec_enc_typing x : wf_typing x → dec_typing (Some (enc_typing x)) = Ok x.
Proof.
  intros (Ht & Hw & Ha). dec_fields. rewrite dec_arr by (apply Forall_true; apply dec_enc_prompt).
  repeat dec_step. by destruct x.
Qed.

Lemma dec_enc_term x : dec_term (Some (enc_term x)) = Ok x.
Proof. dec_fields. by destruct x. Qed.

Lemma dec_enc_resource x : exact_int (rr_ByteSize x) → dec_resource (Some (enc_resource x)) = Ok x.
Proof. intros Hx. dec_fields. by destruct x. Qed.

Definition wf_block (x : InstructionBlock) : Prop := ∀ r, ib_Resource x = Some r → exact_int (rr_ByteSize r).

Lemma dec_enc_block x : wf_block x → dec_block (Some (enc_block x)) = Ok x.
Proof.
  intros Hx. dec_fields. rewrite dec_opt_list by (apply Forall_true; apply dec_enc_term).
  repeat dec_step. rewrite dec_opt_ptr; [by destruct x|done|]. intros r Hr. by apply dec_enc_resource, Hx.
Qed.

Lemma dec_enc_hint x : exact_int (hn_Level x) → dec_hint (Some (enc_hint x)) = Ok x.
Proof. intros Hx. dec_fields. by destruct x. Qed.
Lemma dec_enc_tutor x : dec_tutor (Some (enc_tutor x)) = Ok x.
Proof. dec_fields. by destruct x. Qed.
Lemma dec_enc_progression x : exact_int (pp_MaxAttempts x) → dec_progression (Some (enc_progression x)) = Ok x.
Proof. intros Hx. dec_fields. by destruct x. Qed.

Definition wf_artifacts (x : ArtifactPolicy) : Prop :=
  exact_int (ap_MaxFiles x) ∧ exact_int (ap_MaxBytesEach x) ∧ exact_int (ap_MaxBytesTotal x) ∧
  exact_int (ap_RetainDays x).
Lemma dec_enc_artifacts x : wf_artifacts x → dec_artifacts (Some (enc_artifacts x)) = Ok x.
Proof. intros (? & ? & ? & ?). dec_fields. by destruct x. Qed.

Definition wf_content (x : ActivityContent) : Prop :=
  Forall wf_block (ac_Blocks x) ∧ Forall wf_task (ac_Tasks x) ∧
  Forall (λ h, exact_int (hn_Level h)) (ac_Hints x) ∧
  (∀ t, ac_Typing x = Some t → wf_typing t) ∧
  (∀ p, ac_Progression x = Some p → exact_int (pp_MaxAttempts p)) ∧
  (∀ a, ac_Artifacts x = Some a → wf_artifacts a).

Lemma jlookup_list_to_map l k : (list_to_map l : jmap) !! k = jlookup l k.
Proof.
  induction l as [|[k' j] l IH]; [done|]. cbn.
  case_bool_decide; [subst; by rewrite lookup_insert_eq|]. by rewrite lookup_insert_ne.
Qed.

Lemma jlookup_map_to_list (m : jmap) k : jlookup (map_to_list m) k = m !! k.
Proof. by rewrite <-jlookup_list_to_map, list_to_map_to_list. Qed.

Lemma decode_contentMap x : wf_content x → DecodeActivityContent (contentMap x) = Ok x.
Proof.
  intros (Hb & Ht & Hh & Hty & Hp & Ha). unfold DecodeActivityContent, dec_content, dec_struct.
  assert (∀ k, jlookup (map_to_list (contentMap x)) k = get_field (content_fields x) k) as Hg.
  { intros k. unfold contentMap. rewrite jlookup_map_to_list, jlookup_list_to_map.
    apply jlookup_present. apply (bool_decide_unpack _). reflexivity. }
  rewrite !Hg. unfold content_fields.
  cbn [get_field fst snd String.eqb Ascii.eqb Bool.eqb req opt_ptr opt_list req_list opt].
  rewrite (dec_opt_list dec_block enc_block) by (eapply Forall_impl; [exact Hb|apply dec_enc_block]).
  rewrite (dec_opt_ptr dec_terminal enc_terminal) by (intros; try done; apply dec_enc_terminal).
  rewrite (dec_opt_ptr dec_typing enc_typing) by (intros; try done; by apply dec_enc_typing, Hty).
  rewrite (dec_arr dec_task enc_task) by (eapply Forall_impl; [exact Ht|apply dec_enc_task]).
  rewrite (dec_arr dec_check enc_check) by (apply Forall_true; apply dec_enc_check).
  rewrite (dec_opt_list dec_hint enc_hint) by (eapply Forall_impl; [exact Hh|apply dec_enc_hint]).
  rewrite (dec_opt_ptr dec_tutor enc_tutor) by (intros; try done; apply dec_enc_tutor).
  rewrite (dec_opt_ptr dec_progression enc_progression) by (intros; try done; by apply dec_enc_progression, Hp).
  rewrite (dec_opt_ptr dec_artifacts enc_artifacts) by (intros; try done; by apply dec_enc_artifacts, Ha).
  repeat dec_step.
  by destruct x.
Qed.

(** ** The student's copy *)

Definition StudentBlocks (blocks : list InstructionBlock) : list InstructionBlock :=
  filter (λ b, ib_Kind b ≠ "parent_note") blocks.

Definition set_blocks (bs : list InstructionBlock) (c : ActivityContent) : ActivityContent :=
  mkContent (ac_Objective c) (ac_Instructions c) bs (ac_Terminal c) (ac_Typing c) (ac_Tasks c)
    (ac_Checks c) (ac_Hints c) (ac_Tutor c) (ac_Progression c) (ac_Artifacts c).

(** The model's [json.Marshal] has no error case: the floats of a decoded content
    are finite. *)
Definition StudentSafeRevisionContent (content : jmap) : jmap :=
  match DecodeActivityContent content with
  | Err _ => content
  | Ok c =>
      if list_zero (ac_Blocks c) then content
      else
        let safe := StudentBlocks (ac_Blocks c) in
        if bool_decide (length safe = length (ac_Blocks c)) then content
        else contentMap (set_blocks safe c)
  end.

Lemma filter_length_all {A} (P : A → Prop) `{!∀ x, Decision (P x)} l :
  length (filter P l) = length l → filter P l = l.
Proof.
  induction l as [|x l IH]; [done|]. rewrite filter_cons. destruct (decide (P x)); cbn.
  - intros [= Hl]. by rewrite IH.
  - pose proof (length_filter P l). lia.
Qed.

(** Stored content is what was authored.  [DecodeActivityContent] applied to the
    map a revision stores gives back the content of the document, field by field,
    for every content whose numbers are exact in float64; and the copy sent to a
    student device decodes to the same content without its parent notes. *)
Lemma ActivityContent_roundtrip x :
  wf_content x →
  DecodeActivityContent (contentMap x) = Ok x ∧
  DecodeActivityContent (StudentSafeRevisionContent (contentMap x)) =
    Ok (set_blocks (StudentBlocks (ac_Blocks x)) x) ∧
  (∀ b, b ∈ StudentBlocks (ac_Blocks x) ↔ b ∈ ac_Blocks x ∧ ib_Kind b ≠ "parent_note").
Proof.
  intros Hwf. pose proof (decode_contentMap x Hwf) as Hd. split; [done|]. split.
  - unfold StudentSafeRevisionContent. rewrite Hd.
    destruct (ac_Blocks x) as [|b bs] eqn:Eb; cbn [list_zero]; [rewrite Hd; by destruct x; cbn in Eb; subst|].
    rewrite <-Eb. case_bool_decide as Hl.
    + apply filter_length_all in Hl. unfold StudentBlocks. rewrite Hl, Hd. by destruct x.
    + apply decode_contentMap. destruct Hwf as (Hb & Hwf). split; [|done]. cbn.
      rewrite Forall_forall in Hb |- *. intros b' [_ Hin]%list_elem_of_filter. by apply Hb.
  - intros b. unfold StudentBlocks. rewrite list_elem_of_filter. naive_solver.
Qed.

Definition w_authored : ActivityContent :=
  mkContent "Use a shell" "" [mkBlock "b1" "prose" "" "hello" [] "" "" "" None;
                              mkBlock "b2" "parent_note" "" "secret" [] "" "" "" None]
    None (Some (mkTyping "p" [mkPrompt "p1" "ls" ""] "" 30 (f64_lit 25 1) (f64_lit 95 100)))
    [mkTask "t1" "List" "" "" [] (mkCheckTree [] [] "c1" false) [] false None]
    [mkCheck "c1" "file_exists" false (<["path" := JStr "a"]> ∅) ["final"] (Some true) []] [] None None None.

Lemma ActivityContent_roundtrip_witness :
  ac_Blocks <$> DecodeActivityContent (StudentSafeRevisionContent (contentMap w_authored)) =
    Ok [mkBlock "b1" "prose" "" "hello" [] "" "" "" None].
Proof.
  destruct (ActivityContent_roundtrip w_authored) as (_ & -> & _).
  - unfold wf_content. cbn [w_authored ac_Blocks ac_Tasks ac_Hints]. rewrite !Forall_cons, !Forall_nil.
    split_and!; try done.
    intros t [= <-]. split_and!; [|vm_compute; reflexivity..]. split; [cbn; lia|vm_compute; reflexivity].
  - reflexivity.
Defined.
