(* ===== verification/PublishCourse.v ===== *)
(** * Publishing a course ([repo/course.go], [PublishCourseDocument])

    A course document becomes an immutable curriculum revision: its ordered
    membership, each entry pinned to the newest published revision of its activity,
    its prerequisites, gates and remediation branches. *)
From S2P Require Import Prelude GoStrings Float64 Contracts ContentJson LmsData LmsDb Sample.
From S2P Require Import ContentEncode CourseRepo CourseDoc Assign.
From stdpp Require Import options.
Local Open Scope string_scope.
Local Open Scope list_scope.

(** ** The stored document *)

Definition opt_string_map (k : string) (m : gmap string string) : string * option json :=
  opt k (bool_decide (m = ∅)) (JObj (prod_map id JStr <$> map_to_list m)).

Definition continuity_json (c : ContinuityPolicy) : json := obj [req "mode" (JStr (cn_Mode c))].
Definition pacing_json (p : CoursePacing) : json :=
  obj [opt_int "nominalWeeks" (pc_NominalWeeks p); opt_int "nominalDaysPerWeek" (pc_NominalDaysPerWeek p);
       opt_int "nominalMinutesPerDay" (pc_NominalMinutesPerDay p); opt_bool "masteryBased" (pc_MasteryBased p)].
Definition activity_ref_json (a : CourseActivityRef) : json :=
  obj [req "order" (enc_int (cr_Order a)); req "slug" (JStr (cr_Slug a)); opt_str "file" (cr_File a);
       opt_str "module" (cr_Module a); opt_bool "capstone" (cr_Capstone a);
       opt_ptr "continuity" continuity_json (cr_Continuity a); opt_string_map "metadata" (cr_Metadata a)].
Definition prereq_json (p : CoursePrerequisite) : json :=
  obj [req "activity" (JStr (cq_Activity p)); req "requires" (enc_strings (cq_Requires p));
       opt_str "requirement" (cq_Requirement p); opt_str "description" (cq_Description p)].
Definition gate_json (g : CourseGate) : json :=
  obj [req "activity" (JStr (ct_Activity g)); req "kind" (JStr (ct_Kind g));
       opt_strings "standards" (ct_Standards g); opt_str "description" (ct_Description g)].
Definition remediation_json (r : CourseRemediation) : json :=
  obj [req "forActivity" (JStr (ce_ForActivity r)); req "branchSlug" (JStr (ce_BranchSlug r));
       opt_str "kind" (ce_Kind r); opt_str "description" (ce_Description r)].
Definition module_json (m : CourseModule) : json :=
  obj [req "id" (JStr (co_ID m)); req "title" (JStr (co_Title m)); opt_str "description" (co_Description m);
       opt_strings "activities" (co_Activities m)].

Definition courseDocumentMap (doc : CourseDocument) : jmap := list_to_map (present
  [req "schemaVersion" (JStr (cd_SchemaVersion doc)); req "slug" (JStr (cd_Slug doc));
   req "title" (JStr (cd_Title doc)); req "subjectCode" (JStr (cd_SubjectCode doc));
   opt_str "version" (cd_Version doc); opt_str "parentDescription" (cd_ParentDescription doc);
   opt_str "revisionPolicy" (cd_RevisionPolicy doc);
   opt_ptr "pacingReference" pacing_json (cd_PacingReference doc);
   req_list "activities" activity_ref_json (cd_Activities doc);
   opt_list "prerequisites" prereq_json (cd_Prerequisites doc); opt_list "gates" gate_json (cd_Gates doc);
   opt_list "remediation" remediation_json (cd_Remediation doc); opt_list "modules" module_json (cd_Modules doc);
   opt_ptr "continuityDefaults" continuity_json (cd_ContinuityDefaults doc);
   opt_string_map "metadata" (cd_Metadata doc)]).

Definition stringMapAny (m : gmap string string) : jmap := JStr <$> m.
Definition firstNonEmpty (vals : list string) : string := default "" (head (filter (λ v, v ≠ "") vals)).

(** ** Publication *)

Record PublishCourseResult := mkPublished {
  pb_Curriculum : Curriculum; pb_Revision : CurriculumRevision; pb_Activities : nat; pb_Created : bool }.

(** The queries of [LatestCurriculumRevision] and [GetCurriculumBySlug]. *)
Definition LatestCurriculumRevision (curriculumID : string) : M CurriculumRevision :=
  r ← query (λ d, head (order_by (λ a b, Z.leb (cv_Revision b) (cv_Revision a))
    (select (λ r, bool_decide (cv_CurriculumID r = curriculumID) &&
                  negb (bool_decide (cv_PublishedAt r = None))) (db_curriculum_revisions d))));
  match r with Some x => mret x | None => throw ErrNotFound end.

Definition GetCurriculumBySlug (slug : string) : M Curriculum :=
  page ← List_ 1 (by_created cu_CreatedAt) (λ c, bool_decide (cu_Slug c = slug));
  match page.1 with x :: _ => mret x | [] => throw ErrNotFound end.

(** [COALESCE(MAX(revision), 0) + 1] *)
Definition nextCurriculumRevisionNumber (curriculumID : string) : M Z :=
  query (λ d, (1 + foldr Z.max 0 (cv_Revision <$>
    select (λ r, bool_decide (cv_CurriculumID r = curriculumID)) (db_curriculum_revisions d)))%Z).

(** The same query as [latestPublishedRevisionBySlug], with "" for no rows. *)
Definition latestPublishedActivityRevisionID (slug : string) : M string :=
  r ← query (λ d, head (order_by newer (select (λ r, published d r &&
                          bool_decide (activity_slug d r = slug)) (db_revisions d))));
  match r with Some r => mret (rv_ID r) | None => mret "" end.

Section publish.
Context `{!Postgres, !MapRange}.

Definition ensureCurriculumIdentity (doc : CourseDocument) : M Curriculum :=
  page ← List_ 1 (by_created cu_CreatedAt) (λ c, bool_decide (cu_Slug c = cd_Slug doc));
  match page.1 with
  | x :: _ => mret x
  | [] => Create (λ id now, mkCurriculum id (cd_Slug doc) (cd_Title doc) (cd_ParentDescription doc)
                              "mastery_based" (cd_SubjectCode doc) "published" None
                              (<["source" := JStr "course-document"]> ∅) now now)
  end.

(** The loop that resolves every activity slug. *)
Definition resolveActivities (acts : list CourseActivityRef) : M (gmap string string) :=
  for_M (λ a resolved,
    revID ← latestPublishedActivityRevisionID (cr_Slug a);
    if bool_decide (revID = "") then
      throw (ErrBadRequest ("activity " +:+ go_quote (cr_Slug a) +:+ " has no published revision"))
    else mret (<[cr_Slug a := revID]> resolved)) acts ∅.

(** [INSERT] once per element of a list. *)
Definition create_each `{!Row A} {X} (mk : X → string → Z → A) (l : list X) : M unit :=
  for_M (λ x _, _ ← Create (mk x); mret tt) l tt.

Definition entry_row (doc : CourseDocument) (revID : string) (resolved : gmap string string)
    (a : CourseActivityRef) (id : string) (now : Z) : CurriculumActivity :=
  let cont := match cr_Continuity a with
              | Some c => cn_Mode c
              | None => match cd_ContinuityDefaults doc with Some c => cn_Mode c | None => "" end
              end in
  mkCurriculumActivity id revID (cr_Order a) (cr_Slug a) (Some (default "" (resolved !! cr_Slug a)))
    (cr_Module a) (cr_Capstone a) cont (stringMapAny (cr_Metadata a)) now.

(** One row per (activity, required slug). *)
Definition doc_edges (doc : CourseDocument) : list (CoursePrerequisite * string) :=
  cd_Prerequisites doc ≫= λ p, (λ r, (p, r)) <$> cq_Requires p.

Definition edge_row (revID : string) (e : CoursePrerequisite * string) (id : string) (now : Z)
  : CurriculumActivityPrerequisite :=
  mkCurriculumActivityPrerequisite id revID (cq_Activity e.1) e.2
    (if bool_decide (cq_Requirement e.1 = "") then "completed" else cq_Requirement e.1)
    (cq_Description e.1) now.

Definition gate_row (revID : string) (g : CourseGate) (id : string) (now : Z) : CurriculumActivityGate :=
  mkCurriculumActivityGate id revID (ct_Activity g) (ct_Kind g) (ct_Standards g) (ct_Description g) now.

Definition remediation_row (revID : string) (r : CourseRemediation) (id : string) (now : Z)
  : CurriculumActivityRemediation :=
  mkCurriculumActivityRemediation id revID (ce_ForActivity r) (ce_BranchSlug r)
    (if bool_decide (ce_Kind r = "") then "remediation" else ce_Kind r) (ce_Description r) now.

Definition curriculum_publish (doc : CourseDocument) (now : Z) (c : Curriculum) : Curriculum :=
  mkCurriculum (cu_ID c) (cu_Slug c) (cd_Title doc) (cd_ParentDescription doc) "mastery_based"
    (cd_SubjectCode doc) "published" (cu_GradeLevel c) (cu_Metadata c) (cu_CreatedAt c) now.

Definition revision_row (doc : CourseDocument) (curriculumID : string) (n published_at : Z)
    (id : string) (now : Z) : CurriculumRevision :=
  mkCurriculumRevision id curriculumID n (cd_Title doc) (cd_ParentDescription doc) (cd_SubjectCode doc)
    (firstNonEmpty [cd_Version doc; "1"])
    (if bool_decide (cd_RevisionPolicy doc = "") then "latest_published" else cd_RevisionPolicy doc)
    (courseDocumentMap doc) (Some published_at) now.

(** [now] is the caller's clock, [None] the zero time; [wall] is [time.Now()]. *)
Definition PublishCourseDocument (doc : CourseDocument) (now : option Z) (wall : Z)
  : M PublishCourseResult :=
  match ValidateCourseDocument doc with
  | Err msg => throw (ErrBadRequest msg)
  | Ok _ =>
      curr ← ensureCurriculumIdentity doc;
      resolved ← resolveActivities (cd_Activities doc);
      nextRev ← nextCurriculumRevisionNumber (cu_ID curr);
      rev ← Create (revision_row doc (cu_ID curr) nextRev (default wall now));
      let acts := order_by (λ a b, Z.leb (cr_Order a) (cr_Order b)) (cd_Activities doc) in
      _ ← create_each (entry_row doc (cv_ID rev) resolved) acts;
      _ ← create_each (edge_row (cv_ID rev)) (doc_edges doc);
      _ ← create_each (gate_row (cv_ID rev)) (cd_Gates doc);
      _ ← create_each (remediation_row (cv_ID rev)) (cd_Remediation doc);
      _ ← Update (cu_ID curr) (curriculum_publish doc);
      curr' ← (Get (cu_ID curr) : M Curriculum);
      mret (mkPublished curr' rev (length acts) true)
  end.
End publish.

(** ** What is published *)

(** [new] is one row per element of [l], added to the table, in whatever order. *)
Definition added `{!Row A} {X} (mk : X → string → Z → A) (now : Z) (l : list X) (new : list A)
    (d d' : database) : Prop :=
  Forall2 (λ x y, y = mk x (row_id y) now) l new ∧ rows (tbl d') ≡ₚ new ++ rows (tbl d) ∧
  (∀ k y, tbl d !! k = Some y → tbl d' !! k = Some y).

Lemma create_each_Ok `{!Postgres, !Row A} {X} (mk : X → string → Z → A) l q c c' u :
  (∀ x id now, row_id (mk x id now) = id) →
  create_each mk l q c = (c', Ok u) →
  cn_db c' = set_tbl (tbl (cn_db c')) (cn_db c) ∧ ∃ new, added mk (q_now q) l new (cn_db c) (cn_db c').
Proof.
  intros Hid. unfold create_each, added. revert c. induction l as [|x l IH]; intros c.
  { intros [= <-]. split; [by rewrite set_tbl_tbl|]. exists []. split_and!; [constructor|done..]. }
  intros (c1 & u1 & H1 & H2)%for_M_cons_Ok. destruct u1.
  apply M_bind_Ok in H1 as (c2 & y & Hc & [= <-]).
  apply Create_Ok in Hc as (Hy & Hd & _ & _ & _). apply IH in H2 as (Hd' & new & Hnew & Hrows & Hsub).
  assert (row_id y = gen_random_uuid (dom (tbl (A:=A) (cn_db c)))) as Hk by (rewrite Hy; apply Hid).
  pose proof (Create_fresh (A:=A) (cn_db c)) as Hfresh. rewrite <-Hk in Hfresh.
  rewrite Hd, tbl_set_tbl in Hrows, Hsub. split; [by rewrite Hd', Hd, set_tbl_set_tbl, tbl_set_tbl|].
  exists (y :: new). split_and!.
  - constructor; [by rewrite Hk|done].
  - rewrite Hrows, rows_insert by done. symmetry. apply Permutation_middle.
  - intros k z Hz. apply Hsub. rewrite lookup_insert_ne; [done|]. congruence.
Qed.

(** [revID] is the newest published revision of the activity. *)
Definition pins (d : database) (slug revID : string) : Prop :=
  ∃ k r, db_revisions d !! k = Some r ∧ rv_ID r = revID ∧ published d r = true ∧ activity_slug d r = slug ∧
    ∀ k' r', db_revisions d !! k' = Some r' → published d r' = true → activity_slug d r' = slug →
      (rv_Revision r' ≤ rv_Revision r)%Z.

Lemma head_order_by_max {A} (le : A → A → bool) l x :
  (∀ a b, le a b = false → le b a = true) → (∀ a b c, le a b = true → le b c = true → le a c = true) →
  head (order_by le l) = Some x → x ∈ l ∧ ∀ y, y ∈ l → y = x ∨ le x y = true.
Proof.
  intros Htot Htr Hx. pose proof (order_by_sorted le l Htot Htr) as Hs.
  setoid_rewrite <-(elem_of_order_by le l). destruct (order_by le l) as [|z rest]; [done|].
  injection Hx as ->. split; [left|]. intros y [->|Hy]%elem_of_cons; [by left|right].
  apply StronglySorted_inv in Hs as [_ Hs]. rewrite Forall_forall in Hs. auto.
Qed.

Lemma latest_pins slug q c c' revID :
  latestPublishedActivityRevisionID slug q c = (c', Ok revID) → revID ≠ "" →
  c' = c ∧ pins (cn_db c) slug revID.
Proof.
  unfold latestPublishedActivityRevisionID. intros (c1 & r & Hq & Hr)%M_bind_Ok Hne.
  apply query_Ok in Hq as (_ & -> & ->).
  destruct (head (order_by newer _)) as [r|] eqn:Eh; injection Hr as <- <-; [|done].
  apply head_order_by_max in Eh as [Hin Hmax].
  2: { unfold newer. intros a b ?%Z.leb_gt. apply Z.leb_le. lia. }
  2: { unfold newer. intros a b x ?%Z.leb_le ?%Z.leb_le. apply Z.leb_le. lia. }
  split; [done|]. apply elem_of_select in Hin as [[k Hk] [Hp Hs%bool_decide_eq_true]%andb_true_iff].
  exists k, r. split_and!; try done. intros k' r' Hk' Hp' Hs'.
  destruct (Hmax r') as [->|Hle]; [|done|unfold newer in Hle; lia].
  apply elem_of_select. split; [by eexists|]. by rewrite Hp', bool_decide_true.
Qed.

Lemma resolveActivities_Ok acts q c c' resolved :
  resolveActivities acts q c = (c', Ok resolved) →
  c' = c ∧ ∀ a, a ∈ acts → pins (cn_db c) (cr_Slug a) (default "" (resolved !! cr_Slug a)).
Proof.
  unfold resolveActivities.
  assert (∀ m c', for_M (λ a resolved,
      revID ← latestPublishedActivityRevisionID (cr_Slug a);
      if bool_decide (revID = "") then
        throw (ErrBadRequest ("activity " +:+ go_quote (cr_Slug a) +:+ " has no published revision"))
      else mret (<[cr_Slug a := revID]> resolved)) acts m q c = (c', Ok resolved) →
    c' = c ∧ (∀ s, m !! s = resolved !! s ∨ pins (cn_db c) s (default "" (resolved !! s))) ∧
    ∀ a, a ∈ acts → pins (cn_db c) (cr_Slug a) (default "" (resolved !! cr_Slug a))) as Hall.
  { clear c'. induction acts as [|a acts IH]; intros m c'.
    { intros [= <- <-]. split; [done|]. split; [by left|]. intros a. by rewrite elem_of_nil. }
    intros (c1 & m1 & H1 & H2)%for_M_cons_Ok. apply M_bind_Ok in H1 as (c2 & revID & Hl & H1).
    case_bool_decide as Hne; [done|]. injection H1 as <- <-.
    apply latest_pins in Hl as [-> Hp]; [|done]. apply IH in H2 as (-> & Hm & Ha). split; [done|].
    assert (pins (cn_db c) (cr_Slug a) (default "" (resolved !! cr_Slug a))) as Hpa.
    { destruct (Hm (cr_Slug a)) as [<-|?]; [by rewrite lookup_insert_eq|done]. }
    split.
    - intros s. destruct (decide (s = cr_Slug a)) as [->|Hs]; [by right|].
      destruct (Hm s) as [Hs'|?]; [|by right]. left. by rewrite <-Hs', lookup_insert_ne.
    - intros x [->|Hx]%elem_of_cons; [done|by apply Ha]. }
  intros Hr. apply Hall in Hr as (-> & _ & ?). done.
Qed.

Lemma foldr_max_ge l z : z ∈ l → (z ≤ foldr Z.max 0 l)%Z.
Proof.
  induction l as [|y l IH]; [by rewrite elem_of_nil|]. cbn. intros [->|Hz]%elem_of_cons; [lia|].
  specialize (IH Hz). lia.
Qed.

(** Rows of [curricula] are stored under their primary key. *)
Definition keyed_curricula (d : database) : Prop := ∀ k x, db_curricula d !! k = Some x → cu_ID x = k.

Section exact.
Context `{!Postgres, !MapRange}.

Lemma ensureCurriculumIdentity_Ok doc q c c' curr :
  keyed_curricula (cn_db c) → ensureCurriculumIdentity doc q c = (c', Ok curr) →
  cn_db c' = set_curricula (db_curricula (cn_db c')) (cn_db c) ∧
  db_curricula (cn_db c') !! cu_ID curr = Some curr ∧ cu_Slug curr = cd_Slug doc.
Proof.
  intros Hk. unfold ensureCurriculumIdentity. intros (c1 & page & Hl & Hr)%M_bind_Ok.
  apply List_Ok in Hl as (_ & -> & Hp). destruct page.1 as [|x l].
  - apply Create_Ok in Hr as (-> & Hd & _ & _ & _). rewrite Hd. split; [by destruct (cn_db c)|].
    split; [|done]. cbn. by rewrite lookup_insert_eq.
  - injection Hr as <- <-. split; [by destruct (cn_db c)|].
    assert (x ∈ take (Z.to_nat (normalize_limit 1)) (order_by (by_created cu_CreatedAt)
              (select (λ c, bool_decide (cu_Slug c = cd_Slug doc)) (tbl (cn_db c))))) as Hx
      by (rewrite <-Hp; left).
    apply elem_of_take in Hx as (i & Hx & _). apply list_elem_of_lookup_2 in Hx.
    rewrite elem_of_order_by, elem_of_select in Hx. destruct Hx as [[k Hx] ?%bool_decide_eq_true].
    split; [|done]. by rewrite (Hk k x Hx).
Qed.

(** The rows a course revision gets: entries in course order, each pinned to the
    newest published revision, one row per prerequisite edge, gate and branch. *)
Definition course_rows (doc : CourseDocument) (rev : string) (now : Z) (d d' : database) : Prop :=
  ∃ resolved entries edges gates branches,
    (∀ a, a ∈ cd_Activities doc → pins d (cr_Slug a) (default "" (resolved !! cr_Slug a))) ∧
    added (entry_row doc rev resolved) now
      (order_by (λ a b, Z.leb (cr_Order a) (cr_Order b)) (cd_Activities doc)) entries d d' ∧
    added (edge_row rev) now (doc_edges doc) edges d d' ∧
    added (gate_row rev) now (cd_Gates doc) gates d d' ∧
    added (remediation_row rev) now (cd_Remediation doc) branches d d'.

Lemma added_cong `{!Row A} {X} (mk : X → string → Z → A) now l new d d' e e' :
  tbl (A:=A) e = tbl d → tbl (A:=A) e' = tbl d' → added mk now l new d d' → added mk now l new e e'.
Proof. unfold added. by intros -> ->. Qed.

Lemma course_rows_Ok doc curr n pub q c0 resolved rev c1 c2 c3 c4 c5 u1 u2 u3 u4 :
  (∀ a, a ∈ cd_Activities doc → pins (cn_db c0) (cr_Slug a) (default "" (resolved !! cr_Slug a))) →
  Create (revision_row doc curr n pub) q c0 = (c1, Ok rev) →
  create_each (entry_row doc (cv_ID rev) resolved)
    (order_by (λ a b, Z.leb (cr_Order a) (cr_Order b)) (cd_Activities doc)) q c1 = (c2, Ok u1) →
  create_each (edge_row (cv_ID rev)) (doc_edges doc) q c2 = (c3, Ok u2) →
  create_each (gate_row (cv_ID rev)) (cd_Gates doc) q c3 = (c4, Ok u3) →
  create_each (remediation_row (cv_ID rev)) (cd_Remediation doc) q c4 = (c5, Ok u4) →
  rev = revision_row doc curr n pub (cv_ID rev) (q_now q) ∧
  db_curriculum_revisions (cn_db c0) !! cv_ID rev = None ∧
  db_curriculum_revisions (cn_db c5) = <[cv_ID rev := rev]> (db_curriculum_revisions (cn_db c0)) ∧
  db_curricula (cn_db c5) = db_curricula (cn_db c0) ∧
  course_rows doc (cv_ID rev) (q_now q) (cn_db c0) (cn_db c5).
Proof.
  intros Hpins Hc H1 H2 H3 H4. apply Create_Ok in Hc as (Hrev & Hd1 & _ & _ & _).
  pose proof (Create_fresh (A:=CurriculumRevision) (cn_db c0)) as Hfresh.
  assert (cv_ID rev = gen_random_uuid (dom (db_curriculum_revisions (cn_db c0)))) as Hid by by rewrite Hrev.
  apply create_each_Ok in H1 as (Hd2 & entries & A1); [|done].
  apply create_each_Ok in H2 as (Hd3 & edges & A2); [|done].
  apply create_each_Ok in H3 as (Hd4 & gates & A3); [|done].
  apply create_each_Ok in H4 as (Hd5 & branches & A4); [|done].
  destruct c0 as [d0 b0], c1 as [d1 b1], c2 as [d2 b2], c3 as [d3 b3], c4 as [d4 b4], c5 as [d5 b5].
  cbn [cn_db] in *. rewrite Hid. split; [by rewrite Hrev|]. split; [exact Hfresh|].
  split_and!; [rewrite Hd5, Hd4, Hd3, Hd2, Hd1; cbn; by rewrite Hid
              |by rewrite Hd5, Hd4, Hd3, Hd2, Hd1|].
  rewrite <-Hid. exists resolved, entries, edges, gates, branches. split; [done|].
  split_and!; [apply (added_cong _ _ _ _ d1 d2)|apply (added_cong _ _ _ _ d2 d3)
              |apply (added_cong _ _ _ _ d3 d4)|apply (added_cong _ _ _ _ d4 d5)]; try done.
  - by rewrite Hd1.
  - by rewrite Hd5, Hd4, Hd3.
  - by rewrite Hd2, Hd1.
  - by rewrite Hd5, Hd4.
  - by rewrite Hd3, Hd2, Hd1.
  - by rewrite Hd5.
  - by rewrite Hd4, Hd3, Hd2, Hd1.
Qed.

Lemma course_rows_frame doc rev now d d' t t' e e' :
  e = set_curricula t d → e' = set_curricula t' d' → course_rows doc rev now e d' → course_rows doc rev now d e'.
Proof.
  intros -> ->. intros (resolved & entries & edges & gates & branches & Hp & H1 & H2 & H3 & H4).
  exists resolved, entries, edges, gates, branches. split_and!; [exact Hp|exact H1|exact H2|exact H3|exact H4].
Qed.


(** C40: A published course is the document.  A successful [PublishCourseDocument]
    was given a valid document, and adds one curriculum revision, published, of the
    curriculum with the document's slug and numbered above all earlier ones; its
    rows are exactly the document's: the activities in course order, each pinned to
    the newest published revision of its slug, one row per prerequisite edge, per
    gate and per remediation branch.  Earlier revisions and their rows stay as they
    were. *)
Theorem PublishCourseDocument_exact doc now wall q c c' res :
  keyed_curricula (cn_db c) →
  PublishCourseDocument doc now wall q c = (c', Ok res) →
  let rev := pb_Revision res in
  valid_course doc ∧
  (cu_Slug (pb_Curriculum res) = cd_Slug doc ∧ cv_CurriculumID rev = cu_ID (pb_Curriculum res) ∧
   db_curricula (cn_db c') !! cu_ID (pb_Curriculum res) = Some (pb_Curriculum res)) ∧
  (cv_PublishedAt rev = Some (default wall now) ∧ cv_Document rev = courseDocumentMap doc ∧
   db_curriculum_revisions (cn_db c) !! cv_ID rev = None ∧
   db_curriculum_revisions (cn_db c') = <[cv_ID rev := rev]> (db_curriculum_revisions (cn_db c)) ∧
   ∀ k r, db_curriculum_revisions (cn_db c) !! k = Some r → cv_CurriculumID r = cv_CurriculumID rev →
     (cv_Revision r < cv_Revision rev)%Z) ∧
  course_rows doc (cv_ID rev) (q_now q) (cn_db c) (cn_db c').
Proof.
  intros Hk. unfold PublishCourseDocument.
  destruct (ValidateCourseDocument doc) as [[]|e] eqn:Ev; [|done].
  rewrite validate_valid in Ev. intros (c1 & curr & Hi & Hr)%M_bind_Ok.
  apply ensureCurriculumIdentity_Ok in Hi as (Hd1 & Hcurr & Hslug); [|done].
  apply M_bind_Ok in Hr as (c2 & resolved & [-> Hpins]%resolveActivities_Ok & Hr).
  apply M_bind_Ok in Hr as (c2 & n & (_ & -> & Hn)%query_Ok & Hr).
  apply M_bind_Ok in Hr as (c2 & rev & Hrev & Hr). cbn zeta in Hr.
  apply M_bind_Ok in Hr as (c3 & u1 & H1 & (c4 & u2 & H2 & Hr)%M_bind_Ok).
  apply M_bind_Ok in Hr as (c5 & u3 & H3 & (c6 & u4 & H4 & Hr)%M_bind_Ok).
  destruct (course_rows_Ok _ _ _ _ _ _ _ _ _ _ _ _ _ _ _ _ _ Hpins Hrev H1 H2 H3 H4)
    as (Hrow & Hnone & Hrevs & Hcurs & Hrows).
  apply M_bind_Ok in Hr as (c7 & curr2 & Hu & (c8 & curr3 & Hg & [= <- <-])%M_bind_Ok).
  apply Update_Ok in Hu as (x & Hx & -> & Hd7 & _). cbn [tbl row_curricula set_tbl] in Hx, Hd7.
  rewrite Hcurs, Hcurr in Hx. injection Hx as <-. apply Get_Ok in Hg as (_ & -> & Hg).
  cbn [tbl row_curricula] in Hg. rewrite Hd7 in Hg. cbn in Hg. rewrite lookup_insert_eq in Hg.
  injection Hg as <-. cbn [pb_Revision pb_Curriculum].
  destruct c as [d b], c1 as [d1 b1], c6 as [d6 b6], c7 as [d7 b7]. cbn [cn_db] in *.
  split; [done|]. split; [|split].
  - rewrite Hrow, Hd7. cbn. rewrite lookup_insert_eq. done.
  - rewrite Hd7. rewrite Hd1 in Hnone, Hrevs, Hn. cbn in Hnone, Hrevs, Hn.
    split; [by rewrite Hrow|]. split; [by rewrite Hrow|]. split; [done|]. split; [exact Hrevs|].
    intros k r Hr Hc. rewrite Hrow. rewrite Hrow in Hc. cbn in *. rewrite Hn.
    enough (cv_Revision r ≤ foldr Z.max 0 (cv_Revision <$> select (λ r, bool_decide (cv_CurriculumID r = cu_ID curr)) (db_curriculum_revisions d)))%Z by lia.
    apply foldr_max_ge, list_elem_of_fmap_2, elem_of_select. split; [by eexists|by apply bool_decide_true].
  - exact (course_rows_frame _ _ _ _ _ _ _ _ _ Hd1 Hd7 Hrows).
Qed.
End exact.

(** ** Publishing the small course *)

#[local] Existing Instance sample_postgres.
#[local] Existing Instance table_range.

Definition w_publish : conn * result err PublishCourseResult :=
  PublishCourseDocument w_doc (Some 5%Z) 7 w_pool w_conn.
Definition w_published : PublishCourseResult :=
  match w_publish.2 with
  | Ok r => r
  | Err _ => mkPublished (w_curriculum "") (w_course_revision "" "") 0 false
  end.
Lemma w_publish_Ok :
  PublishCourseDocument w_doc (Some 5%Z) 7 w_pool w_conn = (w_publish.1, Ok w_published).
Proof. vm_compute. reflexivity. Qed.

Lemma PublishCourseDocument_exact_witness :
  cu_Slug (pb_Curriculum w_published) = "basic-linux" ∧
  course_rows w_doc (cv_ID (pb_Revision w_published)) (q_now w_pool) (cn_db w_conn) (cn_db w_publish.1).
Proof.
  destruct (PublishCourseDocument_exact w_doc (Some 5%Z) 7 w_pool w_conn w_publish.1 w_published)
    as (_ & [Hs _] & _ & Hr).
  - intros k x Hx. exfalso. revert Hx. cbn. rewrite lookup_empty. discriminate.
  - exact w_publish_Ok.
  - split; [exact Hs|exact Hr].
Defined.

(** The edge is listed twice. *)
Definition w_dup_doc : CourseDocument :=
  w_course_doc [mkPrereq "shell-commands" ["shell-basics"; "shell-basics"] "" ""].
Definition w_partial : conn * result err PublishCourseResult :=
  PublishCourseDocument w_dup_doc (Some 5%Z) 7 w_pool w_conn.

(** Publication is not atomic.  On the connection pool, as the HTTP handlers
    call it, a valid document that lists a prerequisite edge twice fails with a
    unique violation, and leaves a published revision behind whose entries are all
    there and whose gate and remediation branch are missing. *)
Lemma PublishCourseDocument_partial :
  valid_course w_dup_doc ∧ w_partial.2 = Err (ErrPg "23505") ∧
  (cv_PublishedAt <$> rows (db_curriculum_revisions (cn_db w_partial.1))) = [Some 5%Z] ∧
  size (db_curriculum_activities (cn_db w_partial.1)) = length (cd_Activities w_dup_doc) ∧
  db_gates (cn_db w_partial.1) = ∅ ∧ cd_Gates w_dup_doc ≠ [] ∧
  db_remediations (cn_db w_partial.1) = ∅ ∧ cd_Remediation w_dup_doc ≠ [].
Proof.
  split; [apply validate_valid; vm_compute; reflexivity|].
  split_and!; [vm_compute; reflexivity..|done|vm_compute; reflexivity|done].
Qed.
