(* ===== verification/PublishActivity.v ===== *)
(** * Publishing activities ([repo/learning.go])

    An activity document becomes a revision of the activity with its slug:
    appended when its content digest is new, found again otherwise.  Revisions and
    their standards links are never changed. *)
From S2P Require Import Prelude GoStrings Float64 Contracts ContentJson LmsData LmsDb Sample.
From S2P Require Import ContentEncode PublishCourse.
From stdpp Require Import options.
Local Open Scope string_scope.
Local Open Scope list_scope.

Record StandardRef := mkStandardRef {
  sf_Code : string; sf_Role : string; sf_Weight : f64; sf_EvidencePolicy : option EvidencePolicy }.

Record ReferenceStep := mkReferenceStep {
  rf_WorkDir : string; rf_Argv : list string; rf_Stdin : string }.
Record ReferenceSolution := mkReferenceSolution {
  rf_Description : string; rf_Deterministic : bool; rf_Steps : list ReferenceStep }.

Record ActivityDocument := mkActivityDocument {
  ad_SchemaVersion : string; ad_Slug : string; ad_Title : string; ad_Summary : string; ad_Kind : string;
  ad_SubjectCode : string; ad_Standards : list StandardRef; ad_Content : ActivityContent;
  ad_MinRunner : string; ad_Metadata : gmap string string;
  ad_ReferenceSolution : option ReferenceSolution }.

Definition activityBySlug (slug : string) : M LearningActivity :=
  r ← query (λ d, select (λ a, bool_decide (la_Slug a = slug)) (db_activities d));
  exactly_one r.

Definition by_digest (activityID digest : string) (r : LearningActivityRevision) : bool :=
  bool_decide (rv_ActivityID r = activityID) && bool_decide (rv_ContentSHA256 r = digest).

Definition revisionByDigest (activityID digest : string) : M LearningActivityRevision :=
  r ← query (λ d, select (by_digest activityID digest) (db_revisions d));
  exactly_one r.

(** A nil [max], no rows, gives 1. *)
Definition nextRevisionNumber (activityID : string) : M Z :=
  query (λ d, match rv_Revision <$> select (λ r, bool_decide (rv_ActivityID r = activityID)) (db_revisions d) with
              | [] => 1%Z
              | z :: l => (foldr Z.max z l + 1)%Z
              end).

Definition defaultPolicyForKind (kind : string) : EvidencePolicy :=
  if bool_decide (kind = KindTyping) then DefaultTypingEvidencePolicy else DefaultTerminalEvidencePolicy.

Definition resolveLinkPolicy (ref : StandardRef) (kind : string) : EvidencePolicy :=
  match sf_EvidencePolicy ref with
  | Some p => if bool_decide (0 < ep_Version p)%Z && negb (bool_decide (ep_StatusRequirements p = ∅))
              then p else defaultPolicyForKind kind
  | None => defaultPolicyForKind kind
  end.

Definition la_set (title summary kind : string) (subject : option string) (now : Z) (a : LearningActivity)
  : LearningActivity :=
  mkLearningActivity (la_ID a) (la_Slug a) title summary kind subject "published" (la_CreatedAt a) now.
Definition la_set_status (now : Z) (a : LearningActivity) : LearningActivity :=
  mkLearningActivity (la_ID a) (la_Slug a) (la_Title a) (la_Summary a) (la_Kind a) (la_SubjectID a)
    "published" (la_CreatedAt a) now.

(** The hex SHA-256 of the marshalled content, and what a NUMERIC(6,3) column
    makes of a float64 ([None] is an overflow). *)
Section publish_activity.
Context `{!Postgres} (sha256_hex : ActivityContent → string) (numeric_6_3 : f64 → option f64).

Definition qCreateRevisionStandard (revID standardID role : string) (weight : f64) (policy : EvidencePolicy)
  : M LearningActivityRevisionStandard :=
  match numeric_6_3 weight with
  | None => stmt (λ d, Err "22003")
  | Some w => Create (λ id now, mkLearningActivityRevisionStandard id revID standardID role w ""
                                  (EvidencePolicyMap policy) now)
  end.

(** The loop over the standard references, with [seenStd]. *)
Definition linkStandards (revID kind : string) (standardIDs : gmap string string) (refs : list StandardRef)
  : M (gset string) :=
  for_M (λ ref seenStd,
    match standardIDs !! sf_Code ref with
    | None => throw (ErrBadRequest ("unknown standard code: " +:+ sf_Code ref))
    | Some stdID =>
        if bool_decide (stdID ∈ seenStd) then mret seenStd
        else
          let weight := if feq (sf_Weight ref) fzero then fone else sf_Weight ref in
          let role := if bool_decide (sf_Role ref = "") then StandardRolePrimary else sf_Role ref in
          _ ← qCreateRevisionStandard revID stdID role weight (resolveLinkPolicy ref kind);
          mret ({[stdID]} ∪ seenStd)
    end) refs ∅.

Definition new_revision (activityID schemaVersion : string) (content : ActivityContent) (n published_at : Z)
    (id : string) (now : Z) : LearningActivityRevision :=
  mkLearningActivityRevision id activityID n schemaVersion (contentMap content) (sha256_hex content)
    (Some published_at) now.

(** The activity row: created, or brought up to date. *)
Definition upsertActivity (doc : ActivityDocument) (subjectID : option string) : M LearningActivity :=
  r ← attempt (activityBySlug (ad_Slug doc));
  match r with
  | Err ErrNotFound =>
      Create (λ id now, mkLearningActivity id (ad_Slug doc) (ad_Title doc) (ad_Summary doc) (ad_Kind doc)
                          subjectID "published" now now)
  | Err e => throw e
  | Ok act => Update (la_ID act) (la_set (ad_Title doc) (ad_Summary doc) (ad_Kind doc) subjectID)
  end.

(** The revision with the content's digest: found, or appended with its links. *)
Definition appendRevision (activityID kind schemaVersion : string) (content : ActivityContent)
    (standards : list StandardRef) (standardIDs : gmap string string) (now : Z)
  : M LearningActivityRevision :=
  next ← nextRevisionNumber activityID;
  rev ← Create (new_revision activityID schemaVersion content next now);
  _ ← linkStandards (rv_ID rev) kind standardIDs standards;
  mret rev.

Definition PublishActivityRevision (doc : ActivityDocument) (subjectID : option string)
    (standardIDs : gmap string string) (now : Z) : M (LearningActivity * LearningActivityRevision) :=
  WithTx (
    act ← upsertActivity doc subjectID;
    existing ← attempt (revisionByDigest (la_ID act) (sha256_hex (ad_Content doc)));
    match existing with
    | Ok rev => mret (act, rev)
    | Err ErrNotFound =>
        rev ← appendRevision (la_ID act) (ad_Kind doc) (ad_SchemaVersion doc) (ad_Content doc)
                (ad_Standards doc) standardIDs now;
        mret (act, rev)
    | Err e => throw e
    end).

Definition CreateDraftActivity (slug title summary kind : string) (subjectID : option string)
  : M LearningActivity :=
  Create (λ id now, mkLearningActivity id slug title summary kind subjectID "draft" now now).

Definition PublishDraftRevision (activityID : string) (content : ActivityContent) (schemaVersion : string)
    (standards : list StandardRef) (standardIDs : gmap string string) (now : Z)
  : M LearningActivityRevision :=
  let schemaVersion := if bool_decide (schemaVersion = "") then "1" else schemaVersion in
  WithTx (
    act ← (Get activityID : M LearningActivity);
    existing ← attempt (revisionByDigest (la_ID act) (sha256_hex content));
    match existing with
    | Ok rev =>
        _ ← attempt (Update (la_ID act) la_set_status);
        mret rev
    | Err ErrNotFound =>
        rev ← appendRevision (la_ID act) (la_Kind act) schemaVersion content standards standardIDs now;
        _ ← Update (la_ID act) la_set_status;
        mret rev
    | Err e => throw e
    end).
End publish_activity.

(** ** Theorems *)

(** Every revision and every standards link of [d] is still there, unchanged. *)
Definition history_kept (d d' : database) : Prop :=
  (∀ k x, db_revisions d !! k = Some x → db_revisions d' !! k = Some x) ∧
  (∀ k x, db_links d !! k = Some x → db_links d' !! k = Some x).

#[export] Instance history_kept_preorder : PreOrder history_kept.
Proof. unfold history_kept. split; [done|]. intros d1 d2 d3 [? ?] [? ?]. auto. Qed.

Lemma preserves_Create_fresh `{!Postgres, !Row A} (R : database → database → Prop) `{!PreOrder R}
    (mk : string → Z → A) :
  (∀ id now, row_id (mk id now) = id) →
  (∀ d (x : A), tbl d !! row_id x = None → R d (set_tbl (<[row_id x := x]> (tbl d)) d)) →
  preserves R (Create mk).
Proof.
  intros Hid HR q c. unfold Create. apply preserves_stmt; [apply _|]. intros d d' a.
  destruct (violation d _); [done|]. intros [=<- <-]. apply HR. rewrite Hid. apply Create_fresh.
Qed.

Section publish_theorems.
Context `{!Postgres} (sha256_hex : ActivityContent → string) (numeric_6_3 : f64 → option f64).

Lemma kept_readonly {A} (m : M A) : readonly m → preserves history_kept m.
Proof. apply preserves_readonly; apply _. Qed.

Lemma kept_bind {A B} (m : M A) (f : A → M B) :
  preserves history_kept m → (∀ a, preserves history_kept (f a)) → preserves history_kept (m ≫= f).
Proof. apply preserves_bind; apply _. Qed.

Lemma kept_activity id f : preserves history_kept (Update (A:=LearningActivity) id f).
Proof. apply preserves_Update; [apply _|]. intros d x. split; by destruct d. Qed.

Lemma kept_new_activity (mk : string → Z → LearningActivity) : preserves history_kept (Create mk).
Proof. apply preserves_Create; [apply _|]. intros d x. split; by destruct d. Qed.

Lemma kept_link revID std role w pol :
  preserves history_kept (qCreateRevisionStandard numeric_6_3 revID std role w pol).
Proof.
  unfold qCreateRevisionStandard. destruct (numeric_6_3 w).
  - apply preserves_Create_fresh; [apply _|done|]. intros d x Hx. split; [by destruct d|].
    intros k y Hy. cbn. rewrite lookup_insert_ne; [done|]. cbn in Hx. congruence.
  - by apply preserves_stmt; [apply _|].
Qed.

Lemma kept_append act kind sv content refs ids now :
  preserves history_kept (appendRevision sha256_hex numeric_6_3 act kind sv content refs ids now).
Proof.
  unfold appendRevision. apply kept_bind; [apply kept_readonly, readonly_query|intros n].
  apply kept_bind.
  - apply preserves_Create_fresh; [apply _|done|]. intros d x Hx. split; [|by destruct d].
    intros k y Hy. cbn. rewrite lookup_insert_ne; [done|]. cbn in Hx. congruence.
  - intros rev. apply kept_bind; [|intros; apply kept_readonly; auto with primer].
    apply preserves_for_M; [apply _|]. intros ref s.
    destruct (ids !! sf_Code ref); [|apply kept_readonly; auto with primer].
    case_bool_decide; [apply kept_readonly; auto with primer|].
    apply kept_bind; [apply kept_link|intros; apply kept_readonly; auto with primer].
Qed.

Lemma readonly_activityBySlug slug : readonly (activityBySlug slug).
Proof. apply readonly_bind; [apply readonly_query|apply readonly_exactly_one]. Qed.
Lemma readonly_revisionByDigest a g : readonly (revisionByDigest a g).
Proof. apply readonly_bind; [apply readonly_query|apply readonly_exactly_one]. Qed.

(** Revisions are immutable.  Whatever [PublishActivityRevision] or
    [PublishDraftRevision] is given and whether it succeeds or fails, every activity
    revision and every standards link that was stored stays exactly as it was:
    content a student works on never changes under an assignment. *)
Lemma publish_keeps_revisions doc subject ids now activityID content sv refs :
  preserves history_kept (PublishActivityRevision sha256_hex numeric_6_3 doc subject ids now) ∧
  preserves history_kept (PublishDraftRevision sha256_hex numeric_6_3 activityID content sv refs ids now).
Proof.
  split; apply preserves_WithTx; try apply _.
  - apply kept_bind.
    + apply kept_bind; [apply kept_readonly, readonly_attempt, readonly_activityBySlug|].
      intros [act|[]]; try (apply kept_readonly; solve [auto with primer]).
      * apply kept_activity.
      * apply kept_new_activity.
    + intros act. apply kept_bind; [apply kept_readonly, readonly_attempt, readonly_revisionByDigest|].
      intros [rev|[]]; try (apply kept_readonly; solve [auto with primer]).
      apply kept_bind; [apply kept_append|intros; apply kept_readonly; auto with primer].
  - apply kept_bind; [apply kept_readonly, readonly_Get|intros act].
    apply kept_bind; [apply kept_readonly, readonly_attempt, readonly_revisionByDigest|].
    intros [rev|[]]; try (apply kept_readonly; solve [auto with primer]).
    + apply kept_bind; [apply preserves_attempt, kept_activity; apply _|].
      intros; apply kept_readonly; auto with primer.
    + apply kept_bind; [apply kept_append|intros rev].
      apply kept_bind; [apply kept_activity|intros; apply kept_readonly; auto with primer].
Qed.

(** Rows under their keys, slugs unique, one revision per content of an activity:
    what the constraints of the migrations keep. *)
Definition publish_inv (d : database) : Prop :=
  (∀ k a, db_activities d !! k = Some a → la_ID a = k) ∧
  (∀ k r, db_revisions d !! k = Some r → rv_ID r = k) ∧
  (∀ k1 a1 k2 a2, db_activities d !! k1 = Some a1 → db_activities d !! k2 = Some a2 →
     la_Slug a1 = la_Slug a2 → k1 = k2) ∧
  (∀ k1 r1 k2 r2, db_revisions d !! k1 = Some r1 → db_revisions d !! k2 = Some r2 →
     rv_ActivityID r1 = rv_ActivityID r2 → rv_ContentSHA256 r1 = rv_ContentSHA256 r2 → k1 = k2).

Lemma select_sole {A} (p : A → bool) (t : gmap string A) x :
  select p t = [x] → (∃ k, t !! k = Some x) ∧ p x = true.
Proof. intros E. apply elem_of_select. rewrite E. left. Qed.

Lemma select_empty {A} (p : A → bool) (t : gmap string A) k y :
  select p t = [] → t !! k = Some y → p y = false.
Proof.
  intros E Hk. destruct (p y) eqn:Hp; [|done].
  assert (y ∈ select p t) as Hin by (apply elem_of_select; eauto). rewrite E in Hin. by apply not_elem_of_nil in Hin.
Qed.

(** A query for the one row that satisfies [p]. *)
Lemma one_row {A} (p : A → bool) (t : database → gmap string A) q c c' r :
  cn_aborted c = false →
  attempt (r ← query (λ d, select p (t d)); exactly_one r) q c = (c', Ok r) →
  c' = c ∧ match r with
           | Ok x => select p (t (cn_db c)) = [x]
           | Err ErrNotFound => select p (t (cn_db c)) = []
           | Err _ => True
           end.
Proof.
  intros Hl Hr%attempt_inv. unfold mbind, M_bind in Hr. rewrite query_run in Hr by done.
  destruct (select p (t (cn_db c))) as [|x [|y l]]; injection Hr as <- <-; done.
Qed.

Lemma violation_activity_kind d a : violation_activity d a = None → la_Kind a ∈ ["terminal"; "typing"].
Proof. unfold violation_activity. intros Hv. violation_inv Hv. done. Qed.

Lemma upsertActivity_Ok doc subject q c c' act :
  cn_aborted c = false → publish_inv (cn_db c) → upsertActivity doc subject q c = (c', Ok act) →
  publish_inv (cn_db c') ∧ cn_db c' = set_activities (db_activities (cn_db c')) (cn_db c) ∧
  db_activities (cn_db c') !! la_ID act = Some act ∧ la_Slug act = ad_Slug doc ∧
  la_Kind act = ad_Kind doc ∧ la_Kind act ∈ ["terminal"; "typing"] ∧ la_Status act = "published" ∧
  cn_aborted c' = false.
Proof.
  intros Hl (Hka & Hkr & Hsl & Hdg) (c1 & r & Hq & Hr)%M_bind_Ok.
  apply one_row in Hq as [-> Hsel]; [|done]. destruct r as [a|[]]; try discriminate Hr.
  - apply select_sole in Hsel as [[k Hk] Hs%bool_decide_eq_true].
    apply Update_Ok in Hr as (x & Hx & -> & Hd & Hv & _ & Hl'). cbn in Hx. rewrite (Hka k a Hk), Hk in Hx.
    injection Hx as <-. apply violation_activity_kind in Hv.
    rewrite Hd. destruct c as [d b]. cbn in *. rewrite (Hka k a Hk) in *.
    split; [|split_and!; try done; try (by destruct d); try (by rewrite lookup_insert_eq)].
    split_and!; [|exact Hkr| |exact Hdg].
    + intros k' y. cbn. rewrite lookup_insert_Some. intros [[<- <-]|[_ ?]]; [exact (Hka k a Hk)|by apply Hka].
    + intros k1 a1 k2 a2. cbn. rewrite !lookup_insert_Some.
      intros [[<- <-]|[? Ha1]] [[<- <-]|[? Ha2]] Heq; try done; cbn in Heq; by eapply Hsl.
  - apply Create_Ok in Hr as (-> & Hd & Hv & _ & Hl'). apply violation_activity_kind in Hv.
    pose proof (Create_fresh (A:=LearningActivity) (cn_db c)) as Hf.
    rewrite Hd. destruct c as [d b]. cbn in *.
    split; [|split_and!; try done; try (by destruct d); try (by rewrite lookup_insert_eq)].
    split_and!; [|exact Hkr| |exact Hdg].
    + intros k' y. cbn. rewrite lookup_insert_Some. intros [[<- <-]|[_ ?]]; [done|by apply Hka].
    + assert (∀ k2 a2, db_activities d !! k2 = Some a2 → ad_Slug doc ≠ la_Slug a2) as Hno.
      { intros k2 a2 Ha2 Heq. pose proof (select_empty _ _ _ _ Hsel Ha2) as Hb.
        apply bool_decide_eq_false in Hb. congruence. }
      intros k1 a1 k2 a2. cbn. rewrite !lookup_insert_Some.
      intros [[<- <-]|[? Ha1]] [[<- <-]|[? Ha2]] Heq; try done; cbn in Heq.
      * by destruct (Hno k2 a2 Ha2).
      * by destruct (Hno k1 a1 Ha1).
      * by eapply Hsl.
Qed.

Lemma linkStandards_frame revID kind ids refs q c c' s :
  linkStandards numeric_6_3 revID kind ids refs q c = (c', Ok s) →
  cn_db c' = set_links (db_links (cn_db c')) (cn_db c).
Proof.
  unfold linkStandards. generalize (∅ : gset string). revert c.
  induction refs as [|ref refs IH]; intros c s0; [intros [= <- _]; by destruct (cn_db c)|].
  intros (c1 & s1 & H1 & H2)%for_M_cons_Ok. apply IH in H2. rewrite H2.
  assert (cn_db c1 = set_links (db_links (cn_db c1)) (cn_db c)) as ->; [|by destruct (cn_db c)].
  destruct (ids !! sf_Code ref) as [std|]; [|done].
  case_bool_decide; [injection H1 as <- _; by destruct (cn_db c)|].
  apply M_bind_Ok in H1 as (c2 & l & Hq & [= <- _]). unfold qCreateRevisionStandard in Hq.
  destruct (numeric_6_3 _); [|by apply stmt_Ok in Hq as (_ & ? & _)].
  apply Create_Ok in Hq as (_ & -> & _). by destruct (cn_db c).
Qed.

Lemma foldr_max_cons z l x : x ∈ z :: l → (x ≤ foldr Z.max z l)%Z.
Proof.
  intros [->|Hx]%elem_of_cons; induction l as [|y l IH]; cbn in *; try lia.
  - by apply not_elem_of_nil in Hx.
  - apply elem_of_cons in Hx as [->|Hx]; [lia|]. specialize (IH Hx). lia.
Qed.

Lemma nextRevisionNumber_max act q c c' n k r :
  nextRevisionNumber act q c = (c', Ok n) → db_revisions (cn_db c) !! k = Some r →
  rv_ActivityID r = act → c' = c ∧ (rv_Revision r < n)%Z.
Proof.
  unfold nextRevisionNumber. intros (_ & -> & ->)%query_Ok Hk Hr. split; [done|].
  assert (rv_Revision r ∈ rv_Revision <$> select (λ r, bool_decide (rv_ActivityID r = act)) (db_revisions (cn_db c))) as Hin.
  { apply list_elem_of_fmap_2, elem_of_select. split; [by eexists|by apply bool_decide_true]. }
  destruct (rv_Revision <$> _) as [|z l]; [by apply not_elem_of_nil in Hin|].
  apply foldr_max_cons in Hin. lia.
Qed.

Lemma appendRevision_Ok act kind sv content refs ids now q c c' rev :
  publish_inv (cn_db c) → select (by_digest act (sha256_hex content)) (db_revisions (cn_db c)) = [] →
  appendRevision sha256_hex numeric_6_3 act kind sv content refs ids now q c = (c', Ok rev) →
  publish_inv (cn_db c') ∧ db_activities (cn_db c') = db_activities (cn_db c) ∧
  db_revisions (cn_db c') = <[rv_ID rev := rev]> (db_revisions (cn_db c)) ∧
  (∃ n at_, rev = new_revision sha256_hex act sv content n now (rv_ID rev) at_) ∧
  ∀ k r, db_revisions (cn_db c) !! k = Some r → rv_ActivityID r = act → (rv_Revision r < rv_Revision rev)%Z.
Proof.
  intros (Hka & Hkr & Hsl & Hdg) Hnone (c1 & n & Hn & Hr)%M_bind_Ok.
  pose proof (λ k r, nextRevisionNumber_max act q c c1 n k r Hn) as Hmax.
  assert (c1 = c) as -> by (eapply readonly_conn; [|exact Hn]; apply readonly_query).
  apply M_bind_Ok in Hr as (c2 & rev' & Hc & (c3 & u & Hlk & [= <- <-])%M_bind_Ok).
  apply linkStandards_frame in Hlk. apply Create_Ok in Hc as (-> & Hd & _ & _ & _).
  set (id := gen_random_uuid _) in *. rewrite Hlk. destruct c as [d b]. cbn in Hd. rewrite Hd. cbn.
  assert (∀ k2 r2, db_revisions d !! k2 = Some r2 → act = rv_ActivityID r2 →
            sha256_hex content = rv_ContentSHA256 r2 → False) as Hno.
  { intros k2 r2 Hr2 Ha Hs. pose proof (select_empty _ _ _ _ Hnone Hr2) as Hb.
    unfold by_digest in Hb. by rewrite !bool_decide_true in Hb. }
  split; [|split_and!; [done|done|by eexists _, _|intros k r Hk Hr; by apply (Hmax k r)]].
  split_and!; [exact Hka| |exact Hsl|].
  - intros k r. cbn. rewrite lookup_insert_Some. intros [[<- <-]|[_ ?]]; [done|by apply Hkr].
  - intros k1 r1 k2 r2. cbn. rewrite !lookup_insert_Some.
    intros [[<- <-]|[? Hr1]] [[<- <-]|[? Hr2]] Ha Hs; try done; cbn in Ha, Hs.
    + by destruct (Hno k2 r2).
    + by destruct (Hno k1 r1).
    + by eapply Hdg.
Qed.

Lemma one_row_run {A} (p : A → bool) (t : database → gmap string A) q c x :
  cn_aborted c = false → select p (t (cn_db c)) = [x] →
  attempt (r ← query (λ d, select p (t d)); exactly_one r) q c = (c, Ok (Ok x)).
Proof. intros Hl Hs. apply attempt_run. unfold mbind, M_bind. rewrite query_run by done. by rewrite Hs. Qed.

Lemma Update_run `{!Row A} id f q c (x : A) :
  cn_aborted c = false → tbl (cn_db c) !! id = Some x →
  violation (set_tbl (delete id (tbl (cn_db c))) (cn_db c)) (f (q_now q) x) = None →
  Update id f q c = (mkConn (set_tbl (<[id := f (q_now q) x]> (tbl (cn_db c))) (cn_db c)) false, Ok (f (q_now q) x)).
Proof. intros Hl Hx Hv. unfold Update, mbind, M_bind, stmt. by rewrite Hl, Hx, Hv. Qed.

(** The activity row of a document that was published can be updated again. *)
Lemma upsertActivity_again doc subject q c act :
  cn_aborted c = false → publish_inv (cn_db c) → db_activities (cn_db c) !! la_ID act = Some act →
  la_Slug act = ad_Slug doc → ad_Kind doc ∈ ["terminal"; "typing"] →
  ∃ d', upsertActivity doc subject q c =
        (mkConn d' false, Ok (la_set (ad_Title doc) (ad_Summary doc) (ad_Kind doc) subject (q_now q) act)) ∧
        d' = set_activities (db_activities d') (cn_db c).
Proof.
  intros Hl (Hka & _ & Hsl & _) Hact Hslug Hkind. unfold upsertActivity.
  assert (select (λ a, bool_decide (la_Slug a = ad_Slug doc)) (db_activities (cn_db c)) = [act]) as Hs.
  { apply (select_unique _ _ (la_ID act)); [done|by apply bool_decide_true|].
    intros k' y Hy Hb%bool_decide_eq_true. apply (Hsl _ _ _ _ Hy Hact). congruence. }
  unfold mbind at 1, M_bind at 1. unfold activityBySlug. rewrite (one_row_run _ _ q c act) by done.
  eexists. split; [apply Update_run; [done|exact Hact|]|by destruct (cn_db c)].
  cbn [violation row_activities]. unfold violation_activity. cbn [la_set la_Kind la_Status la_ID la_Slug].
  rewrite !first_violation_cons.
  split_and!; [by apply bool_decide_true|reflexivity|apply negb_true_iff..|done].
  - apply bool_decide_eq_false, eq_None_not_Some. cbn. apply lookup_delete_eq.
  - apply has_row_false. intros k x Hx. cbn in Hx. apply lookup_delete_Some in Hx as [Hne Hx].
    apply bool_decide_eq_false. intros Heq. destruct Hne. symmetry. by apply (Hsl k x (la_ID act) act).
Qed.

Lemma PublishActivity_Ok doc subject ids now q c c' act rev :
  q_mode q ≠ QSavepoint → publish_inv (cn_db c) →
  PublishActivityRevision sha256_hex numeric_6_3 doc subject ids now q c = (c', Ok (act, rev)) →
  publish_inv (cn_db c') ∧ cn_aborted c' = false ∧
  db_activities (cn_db c') !! la_ID act = Some act ∧ la_Slug act = ad_Slug doc ∧
  ad_Kind doc ∈ ["terminal"; "typing"] ∧ la_Status act = "published" ∧
  db_revisions (cn_db c') !! rv_ID rev = Some rev ∧ by_digest (la_ID act) (sha256_hex (ad_Content doc)) rev = true ∧
  (db_revisions (cn_db c') = db_revisions (cn_db c) ∨
   db_revisions (cn_db c') = <[rv_ID rev := rev]> (db_revisions (cn_db c)) ∧
   rv_Content rev = contentMap (ad_Content doc) ∧ rv_PublishedAt rev = Some now ∧
   ∀ k r, db_revisions (cn_db c) !! k = Some r → rv_ActivityID r = la_ID act →
     (rv_Revision r < rv_Revision rev)%Z).
Proof.
  intros Hq Hinv Hr. apply WithTx_Ok in Hr as (Hl & (c1 & act' & Hu & Hr)%M_bind_Ok & Hl'); [|done].
  apply upsertActivity_Ok in Hu as (Hinv1 & Hd1 & Hact & Hslug & Hkind & Hk2 & Hst & Hl1); [|done..].
  apply M_bind_Ok in Hr as (c2 & ex & Hex & Hr). apply one_row in Hex as [-> Hsel]; [|done].
  assert (db_revisions (cn_db c1) = db_revisions (cn_db c)) as Hrv by (rewrite Hd1; by destruct (cn_db c)).
  destruct ex as [r|[]]; try discriminate Hr.
  - injection Hr as <- <- <-. apply select_sole in Hsel as [[k Hk] Hb].
    assert (rv_ID r = k) as Hid by (by apply Hinv1). rewrite <-Hid in Hk. rewrite <-Hkind.
    split_and!; try done. by left.
  - apply M_bind_Ok in Hr as (c3 & r & Ha & [= <- <- <-]).
    apply appendRevision_Ok in Ha as (Hinv3 & Ha3 & Hr3 & (n & at_ & Hrow) & Hmax); [|done..].
    rewrite Ha3, Hr3, Hrv, <-Hkind. rewrite Hrv in Hmax. split_and!; try done.
    + by rewrite lookup_insert_eq.
    + rewrite Hrow. unfold by_digest. cbn. by rewrite !bool_decide_true.
    + right. split; [done|]. split; [by rewrite Hrow|]. split; [by rewrite Hrow|done].
Qed.

(** Publishing is idempotent on the content.  A published document has its
    activity (by slug, status published) and its revision (by digest) stored; the
    revision either was there before or is new, carries the document's content and
    has a number above all earlier revisions.  Publishing the same document again
    succeeds, returns the same revision and adds neither a revision nor a link. *)
Lemma PublishActivityRevision_idempotent doc subject ids now q c c1 act rev now2 q2 :
  q_mode q ≠ QSavepoint → q_mode q2 ≠ QSavepoint → publish_inv (cn_db c) →
  PublishActivityRevision sha256_hex numeric_6_3 doc subject ids now q c = (c1, Ok (act, rev)) →
  (db_activities (cn_db c1) !! la_ID act = Some act ∧ la_Slug act = ad_Slug doc ∧ la_Status act = "published" ∧
   db_revisions (cn_db c1) !! rv_ID rev = Some rev ∧ rv_ActivityID rev = la_ID act ∧
   rv_ContentSHA256 rev = sha256_hex (ad_Content doc)) ∧
  (db_revisions (cn_db c1) = db_revisions (cn_db c) ∨
   db_revisions (cn_db c1) = <[rv_ID rev := rev]> (db_revisions (cn_db c)) ∧
   rv_Content rev = contentMap (ad_Content doc) ∧ rv_PublishedAt rev = Some now ∧
   ∀ k r, db_revisions (cn_db c) !! k = Some r → rv_ActivityID r = la_ID act →
     (rv_Revision r < rv_Revision rev)%Z) ∧
  ∃ c2 act2, PublishActivityRevision sha256_hex numeric_6_3 doc subject ids now2 q2 c1 = (c2, Ok (act2, rev)) ∧
    la_ID act2 = la_ID act ∧ db_revisions (cn_db c2) = db_revisions (cn_db c1) ∧
    db_links (cn_db c2) = db_links (cn_db c1).
Proof.
  intros Hq Hq2 Hinv Hr.
  apply PublishActivity_Ok in Hr as (Hinv1 & Hl & Hact & Hslug & Hkind & Hst & Hrev & Hb & Hcase); [|done..].
  pose proof Hb as [Ha%bool_decide_eq_true Hs%bool_decide_eq_true]%andb_true_iff.
  split; [done|]. split; [done|].
  destruct (upsertActivity_again doc subject (mkEnv QTx (q_now q2)) c1 act) as (d' & Hu & Hd'); [done..|].
  exists (mkConn d' false), (la_set (ad_Title doc) (ad_Summary doc) (ad_Kind doc) subject (q_now q2) act).
  split; [|split_and!; [done|cbn; rewrite Hd'; by destruct (cn_db c1)..]].
  apply WithTx_Ok; [done|]. split_and!; [done| |done].
  apply M_bind_Ok. eexists _, _. split; [exact Hu|]. apply M_bind_Ok. eexists _, _. split.
  - apply (one_row_run _ _ _ (mkConn d' false) rev); [done|].
    cbn [cn_db]. replace (db_revisions d') with (db_revisions (cn_db c1)) by (rewrite Hd'; by destruct (cn_db c1)).
    apply (select_unique _ _ (rv_ID rev)); [done|exact Hb|].
    intros k y Hy [Hya%bool_decide_eq_true Hys%bool_decide_eq_true]%andb_true_iff.
    apply (proj2 (proj2 (proj2 Hinv1)) _ _ _ _ Hy Hrev); [by rewrite Ha|congruence].
  - done.
Qed.
End publish_theorems.

(** ** Publishing a new version of [shell-basics] *)

#[local] Existing Instance sample_postgres.

Lemma publish_inv_decide d :
  bool_decide (map_Forall (λ k a, la_ID a = k) (db_activities d)) &&
  bool_decide (map_Forall (λ k r, rv_ID r = k) (db_revisions d)) &&
  bool_decide (map_Forall (λ k1 a1, map_Forall (λ k2 a2, la_Slug a1 = la_Slug a2 → k1 = k2)
    (db_activities d)) (db_activities d)) &&
  bool_decide (map_Forall (λ k1 r1, map_Forall (λ k2 r2, rv_ActivityID r1 = rv_ActivityID r2 →
    rv_ContentSHA256 r1 = rv_ContentSHA256 r2 → k1 = k2) (db_revisions d)) (db_revisions d)) = true →
  publish_inv d.
Proof.
  rewrite !andb_true_iff, !bool_decide_eq_true. intros [[[H1 H2] H3] H4].
  split_and!; [exact H1|exact H2| |].
  - intros k1 a1 k2 a2 Ha1 Ha2. exact (H3 k1 a1 Ha1 k2 a2 Ha2).
  - intros k1 a1 k2 a2 Ha1 Ha2. exact (H4 k1 a1 Ha1 k2 a2 Ha2).
Qed.

Definition w_activity_doc : ActivityDocument :=
  mkActivityDocument "1" "shell-basics" "Shell" "" "typing" "CS"
    [mkStandardRef "CS.SH.1" "" fzero None; mkStandardRef "CS.SH.1" "reinforcement" fone None]
    w_authored "" ∅ None.
Definition w_codes : gmap string string := <["CS.SH.1" := "st1"]> ∅.
Definition w_pub : conn * result err (LearningActivity * LearningActivityRevision) :=
  PublishActivityRevision ac_Objective Some w_activity_doc None w_codes 5 w_pool w_conn.
Definition w_pub_res : LearningActivity * LearningActivityRevision :=
  match w_pub.2 with Ok r => r | Err _ => (w_activity "" "" "", w_revision "" "" ∅) end.
Lemma w_pub_Ok :
  PublishActivityRevision ac_Objective Some w_activity_doc None w_codes 5 w_pool w_conn
  = (w_pub.1, Ok (w_pub_res.1, w_pub_res.2)).
Proof. vm_compute. reflexivity. Qed.

Lemma PublishActivityRevision_idempotent_witness :
  ∃ c2 act2, PublishActivityRevision ac_Objective Some w_activity_doc None w_codes 9 w_pool w_pub.1
    = (c2, Ok (act2, w_pub_res.2)) ∧ db_revisions (cn_db c2) = db_revisions (cn_db w_pub.1).
Proof.
  destruct (PublishActivityRevision_idempotent ac_Objective Some w_activity_doc None w_codes 5 w_pool w_conn
    w_pub.1 w_pub_res.1 w_pub_res.2 9 w_pool) as (_ & _ & c2 & act2 & Hr & _ & Hv & _).
  - discriminate.
  - discriminate.
  - apply publish_inv_decide. vm_compute. reflexivity.
  - exact w_pub_Ok.
  - exists c2, act2. split; [exact Hr|exact Hv].
Defined.
