(* ===== verification/WorkPage.v ===== *)
(** * The student's work queue ([repo/learning.go])

    [ListStudentWorkPage]: keyset pagination over a student's assignments, ordered
    by (updated_at, id), with the cursor as a text. *)
From S2P Require Import Prelude GoStrings GoText Float64 Contracts ContentJson LmsData LmsDb Sample.
From S2P Require Import ContentEncode.
From Stdlib Require Import Ascii.
From stdpp Require Import options.
Local Open Scope string_scope.
Local Open Scope list_scope.

Abbreviation WorkModeSnapshot := "snapshot".
Abbreviation WorkModeIncremental := "incremental".

Record StudentWorkItem := mkWorkItem {
  wi_Assignment : StudentAssignment; wi_Revision : LearningActivityRevision;
  wi_Activity : LearningActivity }.

Record StudentWorkPage := mkWorkPage {
  wp_Items : list StudentWorkItem; wp_Cursor : string; wp_Mode : string; wp_HasMore : bool }.

(** ** The cursor *)

(** [splitCursor]: at the first bar. *)
Fixpoint splitCursor (s : string) : option (string * string) :=
  match s with
  | EmptyString => None
  | String c s' =>
      if bool_decide (c = "|"%char) then Some ("", s')
      else p ← splitCursor s'; Some (String c p.1, p.2)
  end.

(** A timestamptz has microseconds: pgx sends [t] without what is below. *)
Definition pg_micros (t : Z) : Z := (t / 1000 * 1000)%Z.

Section page.
Context `{!GoText}.

Definition cursor_text (t : Z) (id : string) : string := format_time t +:+ "|" +:+ id.
Definition cursor_of (a : StudentAssignment) : string := cursor_text (sa_UpdatedAt a) (sa_ID a).

(** What the texts of [after] stand for: nothing, or an instant and an id. *)
Definition parseCursor (after : string) : M (option (Z * string)) :=
  if bool_decide (after = "") then mret None
  else match splitCursor after with
       | None => throw (ErrBadRequest "invalid after cursor")
       | Some (t, id) =>
           match parse_time t with
           | None => throw (ErrBadRequest "invalid after cursor time")
           | Some t => mret (Some (t, id))
           end
       end.
End page.

(** ** The query *)

(** [(a.updated_at, a.id) > ($2, $3)]; a NULL cursor lets every row through. *)
Definition key_after (k : option (Z * string)) (a : StudentAssignment) : bool :=
  match k with
  | None => true
  | Some (t, id) => Z.ltb (pg_micros t) (sa_UpdatedAt a) ||
                    (Z.eqb (pg_micros t) (sa_UpdatedAt a) && str_lt id (sa_ID a))
  end.

(** [ORDER BY a.updated_at ASC, a.id ASC] *)
Definition key_le (a b : StudentAssignment) : bool :=
  Z.ltb (sa_UpdatedAt a) (sa_UpdatedAt b) ||
  (Z.eqb (sa_UpdatedAt a) (sa_UpdatedAt b) && str_le (sa_ID a) (sa_ID b)).

Definition student_safe (r : LearningActivityRevision) : LearningActivityRevision :=
  mkLearningActivityRevision (rv_ID r) (rv_ActivityID r) (rv_Revision r) (rv_SchemaVersion r)
    (StudentSafeRevisionContent (rv_Content r)) (rv_ContentSHA256 r) (rv_PublishedAt r) (rv_CreatedAt r).

(** The joins: a row without its revision or activity does not appear. *)
Definition work_item (d : database) (a : StudentAssignment) : option StudentWorkItem :=
  r ← db_revisions d !! sa_ActivityRevisionID a;
  la ← db_activities d !! rv_ActivityID r;
  Some (mkWorkItem a (student_safe r) la).

Definition work_rows (d : database) (studentID : string) (k : option (Z * string)) : list StudentWorkItem :=
  omap (work_item d)
    (order_by key_le (select (λ a, bool_decide (sa_StudentID a = studentID) && key_after k a)
                             (db_assignments d))).

Section list_page.
Context `{!GoText}.

Definition last_cursor (items : list StudentWorkItem) : string :=
  match last items with Some it => cursor_of (wi_Assignment it) | None => "" end.

Definition ListStudentWorkPage (studentID after : string) (limit : Z) : M StudentWorkPage :=
  let limit := if bool_decide (limit ≤ 0)%Z || bool_decide (200 < limit)%Z then 50%Z else limit in
  let mode := if bool_decide (after = "") then WorkModeSnapshot else WorkModeIncremental in
  k ← parseCursor after;
  items ← query (λ d, take (Z.to_nat (limit + 1)) (work_rows d studentID k));
  if bool_decide (Z.to_nat limit < length items)%nat then
    let items := take (Z.to_nat limit) items in
    mret (mkWorkPage items (last_cursor items) mode true)
  else mret (mkWorkPage items (last_cursor items) mode false).

Definition ListStudentWork (studentID after : string) (limit : Z) : M (list StudentWorkItem * string) :=
  page ← ListStudentWorkPage studentID after limit;
  mret (wp_Items page, wp_Cursor page).
End list_page.

(** [ORDER BY priority DESC, available_at ASC, id ASC], cancelled ones left out. *)
Definition queue_le (a b : StudentAssignment) : bool :=
  Z.ltb (sa_Priority b) (sa_Priority a) ||
  (Z.eqb (sa_Priority b) (sa_Priority a) &&
   (Z.ltb (sa_AvailableAt a) (sa_AvailableAt b) ||
    (Z.eqb (sa_AvailableAt a) (sa_AvailableAt b) && str_le (sa_ID a) (sa_ID b)))).

Definition ListAssignmentsForStudent (studentID : string) : M (list StudentAssignment) :=
  query (λ d, order_by queue_le
    (select (λ a, bool_decide (sa_StudentID a = studentID) &&
                  negb (bool_decide (sa_State a = AssignmentCancelled))) (db_assignments d))).

(** ** The order of the queue *)

Lemma str_compare_refl s : String.compare s s = Eq.
Proof.
  induction s as [|c s IH]; [done|]. cbn. unfold Ascii.compare. by rewrite N.compare_refl.
Qed.

Lemma ascii_compare_trans a b c o : Ascii.compare a b = o → Ascii.compare b c = o → Ascii.compare a c = o.
Proof.
  unfold Ascii.compare. destruct o.
  - rewrite !N.compare_eq_iff. congruence.
  - rewrite !N.compare_lt_iff. lia.
  - rewrite !N.compare_gt_iff. lia.
Qed.

Lemma str_lt_trans : ∀ a b c, String.compare a b = Lt → String.compare b c = Lt → String.compare a c = Lt.
Proof.
  induction a as [|x a IH]; intros [|y b] [|z c]; cbn; try done.
  destruct (Ascii.compare x y) eqn:E1, (Ascii.compare y z) eqn:E2; try done; intros H1 H2.
  - rewrite (ascii_compare_trans x y z Eq) by done. eauto.
  - apply Ascii.compare_eq_iff in E1. subst. by rewrite E2.
  - apply Ascii.compare_eq_iff in E2. subst. by rewrite E1.
  - by rewrite (ascii_compare_trans x y z Lt).
Qed.

Lemma str_le_spec a b : str_le a b = true ↔ a = b ∨ str_lt a b = true.
Proof.
  unfold str_le, str_lt. destruct (String.compare a b) eqn:E.
  - apply String.compare_eq_iff in E. naive_solver.
  - naive_solver.
  - split; [done|]. intros [->|?]; [|done]. by rewrite str_compare_refl in E.
Qed.
Lemma str_lt_irrefl a : str_lt a a = false.
Proof. unfold str_lt. by rewrite str_compare_refl. Qed.
Lemma str_lt_tr a b c : str_lt a b = true → str_lt b c = true → str_lt a c = true.
Proof.
  unfold str_lt. destruct (String.compare a b) eqn:E1, (String.compare b c) eqn:E2; try done.
  by rewrite (str_lt_trans a b c).
Qed.
Lemma str_lt_total a b : a = b ∨ str_lt a b = true ∨ str_lt b a = true.
Proof.
  unfold str_lt. rewrite (String.compare_antisym b a). destruct (String.compare a b) eqn:E; [|by auto..].
  apply String.compare_eq_iff in E. auto.
Qed.

(** Strictly below in the order of the queue. *)
Definition key_lt (a b : StudentAssignment) : Prop :=
  (sa_UpdatedAt a < sa_UpdatedAt b)%Z ∨
  (sa_UpdatedAt a = sa_UpdatedAt b ∧ str_lt (sa_ID a) (sa_ID b) = true).

Lemma key_lt_trans a b c : key_lt a b → key_lt b c → key_lt a c.
Proof.
  intros [?|[? ?]] [?|[? ?]]; [left; lia..|]. right. split; [congruence|]. by eapply str_lt_tr.
Qed.
Lemma key_lt_irrefl a : ~ key_lt a a.
Proof. intros [?|[_ ?]]; [lia|]. by rewrite str_lt_irrefl in *. Qed.

Lemma key_le_spec a b :
  key_le a b = true ↔ key_lt a b ∨ (sa_UpdatedAt a = sa_UpdatedAt b ∧ sa_ID a = sa_ID b).
Proof.
  unfold key_le, key_lt.
  rewrite orb_true_iff, andb_true_iff, Z.ltb_lt, Z.eqb_eq, str_le_spec. naive_solver.
Qed.
Lemma key_le_total a b : key_le a b = false → key_le b a = true.
Proof.
  intros Hn. apply not_true_iff_false in Hn. rewrite key_le_spec in *. unfold key_lt in *.
  destruct (Z.lt_total (sa_UpdatedAt a) (sa_UpdatedAt b)) as [?|[?|?]]; [naive_solver| |naive_solver].
  destruct (str_lt_total (sa_ID a) (sa_ID b)) as [?|[?|?]]; naive_solver.
Qed.
Lemma key_le_trans a b c : key_le a b = true → key_le b c = true → key_le a c = true.
Proof.
  rewrite !key_le_spec. intros [H1|[H1 H1']] [H2|[H2 H2']].
  - left. by eapply key_lt_trans.
  - left. unfold key_lt in *. rewrite <-H2, <-H2'. done.
  - left. unfold key_lt in *. rewrite H1, H1'. done.
  - right. split; congruence.
Qed.

(** ** One page *)

(** Rows are stored under their id, with timestamps PostgreSQL can hold and RFC 3339
    can write. *)
Definition queue_ok (d : database) : Prop := ∀ k a, db_assignments d !! k = Some a →
  sa_ID a = k ∧ rfc3339_range (sa_UpdatedAt a) ∧ pg_micros (sa_UpdatedAt a) = sa_UpdatedAt a.

(** The whole queue of a student. *)
Definition queue (d : database) (studentID : string) : list StudentWorkItem := work_rows d studentID None.

Lemma NoDup_ids_select d p : queue_ok d → NoDup (sa_ID <$> select p (db_assignments d)).
Proof.
  intros Hok. unfold select, rows.
  assert (NoDup (sa_ID <$> (map_to_list (db_assignments d)).*2)) as Hn.
  { assert (sa_ID <$> (map_to_list (db_assignments d)).*2 = (map_to_list (db_assignments d)).*1) as ->.
    { rewrite <-list_fmap_compose. apply list_fmap_ext. intros i [k a] Hi. cbn.
      apply list_elem_of_lookup_2, elem_of_map_to_list in Hi. by destruct (Hok k a Hi). }
    apply NoDup_fst_map_to_list. }
  revert Hn. generalize ((map_to_list (db_assignments d)).*2). intros l Hn.
  induction l as [|a l IH]; [constructor|]. apply NoDup_cons in Hn as [Ha Hn].
  rewrite filter_cons. case_decide; [|auto]. cbn. constructor; [|auto].
  intros (b & E & Hb)%list_elem_of_fmap. apply Ha, list_elem_of_fmap. exists b.
  split; [done|]. by apply list_elem_of_filter in Hb as [_ ?].
Qed.

Definition asgs (d : database) (sid : string) (k : option (Z * string)) : list StudentAssignment :=
  order_by key_le (select (λ a, bool_decide (sa_StudentID a = sid) && key_after k a) (db_assignments d)).

Lemma strictly_sorted l :
  NoDup (sa_ID <$> l) → StronglySorted (λ a b, key_le a b = true) l → StronglySorted key_lt l.
Proof.
  intros Hn Hs. induction Hs as [|a l Hs IH Ha]; [constructor|].
  cbn in Hn. apply NoDup_cons in Hn as [Hin Hn]. constructor; [by auto|].
  { rewrite Forall_forall in *. intros b Hb. specialize (Ha b Hb). cbn in Ha.
    apply key_le_spec in Ha as [?|[_ E]]; [done|]. destruct Hin. rewrite E. by apply list_elem_of_fmap_2. }
Qed.

Lemma asgs_sorted d sid k : queue_ok d → StronglySorted key_lt (asgs d sid k).
Proof.
  intros Hok. apply strictly_sorted.
  - unfold asgs. rewrite order_by_perm. by apply NoDup_ids_select.
  - apply order_by_sorted; [apply key_le_total|apply key_le_trans].
Qed.

#[local] Instance key_lt_antisymm : AntiSymm (=) key_lt.
Proof. intros a b H1 H2. destruct (key_lt_irrefl a). by eapply key_lt_trans. Qed.

Lemma StronglySorted_filter {A} (R : A → A → Prop) (P : A → Prop) `{!∀ x, Decision (P x)} l :
  StronglySorted R l → StronglySorted R (filter P l).
Proof.
  induction 1 as [|x l Hs IH Hx]; [constructor|]. rewrite filter_cons. case_decide; [|done].
  constructor; [done|]. rewrite Forall_forall in *. intros y [_ Hy]%list_elem_of_filter. auto.
Qed.

(** The condition on the key is a filter on the ordered queue. *)
Lemma asgs_after d sid k :
  queue_ok d → asgs d sid k = filter (λ a, key_after k a = true) (asgs d sid None).
Proof.
  intros Hok. apply (StronglySorted_unique key_lt).
  - by apply asgs_sorted.
  - by apply StronglySorted_filter, asgs_sorted.
  - unfold asgs. rewrite !order_by_perm. unfold select.
    rewrite list_filter_filter. erewrite list_filter_iff; [reflexivity|].
    intros a. cbn. rewrite !andb_true_iff. naive_solver.
Qed.

Lemma work_item_Some d a it : work_item d a = Some it → wi_Assignment it = a.
Proof.
  unfold work_item. destruct (db_revisions d !! _) as [r|]; [|done]. cbn.
  destruct (db_activities d !! _); [|done]. by intros [= <-].
Qed.

Lemma omap_filter_item d (l : list StudentAssignment) k :
  omap (work_item d) (filter (λ a, key_after k a = true) l) =
  filter (λ it, key_after k (wi_Assignment it) = true) (omap (work_item d) l).
Proof.
  induction l as [|a l IH]; [done|]. rewrite filter_cons.
  destruct (work_item d a) as [it|] eqn:E.
  - pose proof (work_item_Some d a it E) as Ha. cbn. rewrite E, filter_cons.
    rewrite Ha. case_decide; cbn; rewrite ?E, IH; done.
  - cbn. rewrite E. case_decide; cbn; rewrite ?E; done.
Qed.

Lemma work_rows_filter d sid k : queue_ok d →
  work_rows d sid k = filter (λ it, key_after k (wi_Assignment it) = true) (queue d sid).
Proof.
  intros Hok. unfold queue, work_rows. fold (asgs d sid k) (asgs d sid None).
  by rewrite asgs_after, omap_filter_item.
Qed.

Definition item_lt (x y : StudentWorkItem) : Prop := key_lt (wi_Assignment x) (wi_Assignment y).

Lemma queue_sorted d sid : queue_ok d → StronglySorted item_lt (queue d sid).
Proof.
  intros Hok. pose proof (asgs_sorted d sid None Hok) as Hs. unfold queue, work_rows.
  fold (asgs d sid None). induction Hs as [|a l Hs IH Ha]; [constructor|]. cbn.
  destruct (work_item d a) as [it|] eqn:E; [|done]. constructor; [done|].
  apply Forall_forall. intros y (b & Hb & Eb)%list_elem_of_omap.
  unfold item_lt. rewrite (work_item_Some _ _ _ E), (work_item_Some _ _ _ Eb).
  rewrite Forall_forall in Ha. by apply Ha.
Qed.

Lemma queue_elem d sid it : it ∈ queue d sid ↔
  ∃ k a, db_assignments d !! k = Some a ∧ sa_StudentID a = sid ∧ work_item d a = Some it.
Proof.
  unfold queue, work_rows. rewrite list_elem_of_omap. setoid_rewrite elem_of_order_by.
  setoid_rewrite elem_of_select. setoid_rewrite andb_true_iff. setoid_rewrite bool_decide_eq_true.
  cbn. naive_solver.
Qed.

(** After the key of an item of the queue comes what follows it. *)
Lemma filter_after pre it suf :
  StronglySorted item_lt (pre ++ it :: suf) → pg_micros (sa_UpdatedAt (wi_Assignment it)) = sa_UpdatedAt (wi_Assignment it) →
  filter (λ x, key_after (Some (sa_UpdatedAt (wi_Assignment it), sa_ID (wi_Assignment it))) (wi_Assignment x) = true)
    (pre ++ it :: suf) = suf.
Proof.
  intros Hs Hm.
  assert (∀ x, key_after (Some (sa_UpdatedAt (wi_Assignment it), sa_ID (wi_Assignment it))) (wi_Assignment x) = true
               ↔ item_lt it x) as Hk.
  { intros x. cbn. rewrite Hm, orb_true_iff, andb_true_iff, Z.ltb_lt, Z.eqb_eq. done. }
  rewrite filter_app. rewrite (filter_none _ pre).
  - rewrite filter_cons_False by (rewrite Hk; apply key_lt_irrefl). apply filter_all.
    apply StronglySorted_app_1_r, StronglySorted_inv in Hs as [_ Ha].
    eapply Forall_impl; [exact Ha|]. intros x Hx. by apply Hk.
  - apply Forall_forall. intros x Hx Hlt%Hk. apply (key_lt_irrefl (wi_Assignment x)).
    eapply key_lt_trans; [|exact Hlt].
    apply (StronglySorted_app_1_elem_of item_lt pre (it :: suf)); [done|done|left].
Qed.

Lemma splitCursor_at t id : no_char "|" t → splitCursor (t +:+ "|" +:+ id) = Some (t, id).
Proof.
  unfold no_char. induction t as [|c t IH]; intros Hn; [done|]. cbn in Hn.
  change (String c t +:+ "|" +:+ id) with (String c (t +:+ "|" +:+ id)). cbn [splitCursor].
  rewrite bool_decide_false by set_solver. by rewrite IH by set_solver.
Qed.

Section page_spec.
Context `{!GoText}.

Lemma cursor_not_empty t id : cursor_text t id ≠ "".
Proof. unfold cursor_text. by destruct (format_time t). Qed.

Lemma cursor_text_id t1 id1 t2 id2 : cursor_text t1 id1 = cursor_text t2 id2 → id1 = id2.
Proof.
  intros Hc. pose proof (splitCursor_at _ id1 (format_no_bar t1)) as H1.
  pose proof (splitCursor_at _ id2 (format_no_bar t2)) as H2.
  unfold cursor_text in Hc. rewrite Hc, H2 in H1. congruence.
Qed.

Lemma parseCursor_text t id q c : rfc3339_range t →
  parseCursor (cursor_text t id) q c = (c, Ok (Some (t, id))).
Proof.
  intros Hr. unfold parseCursor. rewrite bool_decide_false by apply cursor_not_empty.
  unfold cursor_text. rewrite splitCursor_at by apply format_no_bar. by rewrite parse_format.
Qed.

Lemma queue_item_ok d sid it : queue_ok d → it ∈ queue d sid →
  rfc3339_range (sa_UpdatedAt (wi_Assignment it)) ∧
  pg_micros (sa_UpdatedAt (wi_Assignment it)) = sa_UpdatedAt (wi_Assignment it) ∧
  db_assignments d !! sa_ID (wi_Assignment it) = Some (wi_Assignment it).
Proof.
  intros Hok (k & a & Ha & _ & Hit)%queue_elem. apply work_item_Some in Hit as <-.
  destruct (Hok _ _ Ha) as (Hk & ? & ?). rewrite Hk. eauto.
Qed.

(** The cursor [after] has [suf] ahead of it: everything, or what lies behind a key
    that was the key of some row. *)
Definition ahead (d : database) (sid after : string) (suf : list StudentWorkItem) : Prop :=
  (after = "" ∧ suf = queue d sid) ∨
  ∃ t id, after = cursor_text t id ∧ rfc3339_range t ∧ pg_micros t = t ∧
          suf = filter (λ it, key_after (Some (t, id)) (wi_Assignment it) = true) (queue d sid).

Lemma ahead_suffix d sid after suf : queue_ok d → ahead d sid after suf → ∃ pre, queue d sid = pre ++ suf.
Proof.
  intros Hok [[_ ->]|(t & id & _ & _ & Ht & ->)]; [by exists []|].
  pose proof (queue_sorted d sid Hok) as Hs. induction Hs as [|it l Hs [pre IH] Hit]; [by exists []|].
  rewrite filter_cons. case_decide as Hk; [|exists (it :: pre); by rewrite <-app_comm_cons, <-IH].
  exists []. rewrite (filter_all _ l); [done|]. eapply Forall_impl; [exact Hit|].
  intros x Hx. revert Hk. cbn. rewrite !orb_true_iff, !andb_true_iff, !Z.ltb_lt, !Z.eqb_eq.
  destruct Hx as [?|[E ?]]; [intros [?|[? _]]; left; lia|rewrite <-E].
  intros [?|[? ?]]; [by left|right]. split; [done|]. by eapply str_lt_tr.
Qed.

(** The cursor of the last item delivered has the rest ahead. *)
Lemma ahead_next d sid after done rest : queue_ok d → done ≠ [] →
  ahead d sid after (done ++ rest) → ahead d sid (last_cursor done) rest.
Proof.
  intros Hok Hne Ha. destruct (ahead_suffix _ _ _ _ Hok Ha) as [pre Hq].
  destruct done as [|it done _] using rev_ind; [done|]. right.
  assert (it ∈ queue d sid) as Hin by (rewrite Hq; set_solver).
  destruct (queue_item_ok _ _ _ Hok Hin) as (Hr & Hm & _).
  exists (sa_UpdatedAt (wi_Assignment it)), (sa_ID (wi_Assignment it)).
  split_and!; [by unfold last_cursor; rewrite last_snoc|done|done|].
  assert (queue d sid = (pre ++ done) ++ it :: rest) as Hq' by by rewrite Hq, <-!app_assoc.
  rewrite Hq'. symmetry. apply filter_after; [|done]. rewrite <-Hq'. by apply queue_sorted.
Qed.

(** One page is what lies ahead of the cursor, cut at the limit; [HasMore] says whether
    something is left. *)
Lemma ListStudentWorkPage_run sid limit after suf q c :
  queue_ok (cn_db c) → cn_aborted c = false → ahead (cn_db c) sid after suf → (1 ≤ limit ≤ 200)%Z →
  ListStudentWorkPage sid after limit q c =
    (c, Ok (mkWorkPage (take (Z.to_nat limit) suf) (last_cursor (take (Z.to_nat limit) suf))
              (if bool_decide (after = "") then WorkModeSnapshot else WorkModeIncremental)
              (bool_decide (Z.to_nat limit < length suf)%nat))).
Proof.
  intros Hok Hl Ha Hlim. unfold ListStudentWorkPage.
  rewrite (bool_decide_false (limit ≤ 0)%Z), (bool_decide_false (200 < limit)%Z) by lia. cbn [orb].
  assert (∃ k, parseCursor after q c = (c, Ok k) ∧ work_rows (cn_db c) sid k = suf) as (k & Hk & Hr).
  { destruct Ha as [[-> ->]|(t & id & -> & Hrt & _ & ->)]; [by exists None|].
    exists (Some (t, id)). split; [by apply parseCursor_text|by apply work_rows_filter]. }
  unfold mbind, M_bind. rewrite Hk, query_run by done. rewrite Hr. rewrite Z2Nat.inj_add by lia.
  rewrite length_take. destruct (bool_decide_reflect (Z.to_nat limit < length suf)%nat) as [Hlt|Hge].
  - rewrite bool_decide_true by (change (Z.to_nat 1) with 1%nat; lia).
    by rewrite take_take, Nat.min_l by lia.
  - rewrite bool_decide_false by lia. change (Z.to_nat 1) with 1%nat.
    rewrite !(take_ge suf) by lia. done.
Qed.

Lemma queue_ids_NoDup d sid : queue_ok d → NoDup ((λ it, sa_ID (wi_Assignment it)) <$> queue d sid).
Proof.
  intros Hok. pose proof (queue_sorted d sid Hok) as Hs.
  assert (∀ x y, x ∈ queue d sid → y ∈ queue d sid → item_lt x y →
            sa_ID (wi_Assignment x) ≠ sa_ID (wi_Assignment y)) as Hne.
  { intros x y Hx Hy Hlt E. destruct (queue_item_ok _ _ _ Hok Hx) as (_ & _ & H1).
    destruct (queue_item_ok _ _ _ Hok Hy) as (_ & _ & H2). rewrite E, H2 in H1. injection H1 as H1.
    unfold item_lt in Hlt. rewrite H1 in Hlt. by apply key_lt_irrefl in Hlt. }
  revert Hne Hs. generalize (queue d sid). intros l Hne Hs.
  induction Hs as [|x l Hs IH Hx]; [constructor|]. cbn. constructor.
  - intros (y & E & Hy)%list_elem_of_fmap. rewrite Forall_forall in Hx.
    apply (Hne x y); [left|by right|by apply Hx|done].
  - apply IH. intros a b Ha Hb. apply Hne; by right.
Qed.
End page_spec.
