(* ===== verification/ClientStore.v ===== *)
(** * The student client's durable store ([studentclient/cache/cache.go])

    The SQLite tables of the client: device meta, cached work, sessions, the event
    outbox, completion and response intents, pending artifacts, runner state and
    response drafts.  A JSON column is the struct it encodes; a text timestamp is the
    instant it is written from, and is ordered by its text.  Every operation is one
    statement or one transaction, so a failing one leaves the store as it was. *)
From S2P Require Import Prelude GoStrings GoText Float64 Contracts ContentJson LmsData LmsDb.
From S2P Require Import ContentEncode WorkPage.
From stdpp Require Import options.
Local Open Scope string_scope.
Local Open Scope list_scope.

(** Errors of the store and of the HTTP client ([api.ErrUnauthorized],
    [api.ErrHTTP]). *)
Inductive cerr :=
| CNotFound
| CUnauthorized (msg : string)
| CHttp (status : Z) (body op : string)
| CConstraint
| COther (msg : string).

#[export] Instance cerr_eq_dec : EqDecision cerr.
Proof. solve_decision. Defined.

(** ** Rows *)

Record work_row := mkWorkRow { wr_Item : StudentWorkItem; wr_UpdatedAt : string }.

Record ClientSession := mkClientSession {
  ss_ClientSessionID : string; ss_ServerSessionID : string; ss_AssignmentID : string;
  ss_ActivityRevisionID : string; ss_State : string; ss_LastAckedSequence : Z;
  ss_NextSequence : Z; ss_WorkspacePath : string; ss_CreatedAt : Z; ss_UpdatedAt : Z }.

Record OutboxEvent := mkOutboxEvent {
  ox_ClientSessionID : string; ox_ServerSessionID : string; ox_Event : SessionEvent; ox_Acked : bool }.

Record CompletionIntent := mkCompletionIntent {
  ci_CompletionID : string; ci_ClientSessionID : string; ci_ServerSessionID : string;
  ci_Request : CompletionRequest; ci_Response : option CompletionResult; ci_Acked : bool;
  ci_CreatedAt : Z; ci_UpdatedAt : Z }.

Record PendingArtifact := mkPendingArtifact {
  pa_ArtifactID : string; pa_ClientSessionID : string; pa_ServerSessionID : string;
  pa_Meta : ArtifactMeta; pa_Acked : bool; pa_CreatedAt : Z }.

Record ResponseIntent := mkResponseIntent {
  ri_SubmissionID : string; ri_ClientSessionID : string; ri_ServerSessionID : string;
  ri_TaskID : string; ri_Request : ResponseSubmission; ri_Response : option ResponseSubmissionResult;
  ri_Acked : bool; ri_CreatedAt : Z; ri_UpdatedAt : Z }.

Record RunnerState := mkRunnerState {
  rn_ClientSessionID : string; rn_Kind : string; rn_StateJSON : string; rn_UpdatedAt : Z }.

(** The outbox is in the order of its AUTOINCREMENT id. *)
Record Store := mkStore {
  st_meta : gmap string string; st_work : gmap string work_row;
  st_sessions : gmap string ClientSession; st_outbox : list OutboxEvent;
  st_completions : gmap string CompletionIntent; st_artifacts : gmap string PendingArtifact;
  st_runner : gmap string RunnerState; st_drafts : gmap (string * string) string;
  st_responses : gmap string ResponseIntent }.

Definition empty_store : Store := mkStore ∅ ∅ ∅ [] ∅ ∅ ∅ ∅ ∅.

Definition set_meta (t : gmap string string) (s : Store) : Store :=
  mkStore t (st_work s) (st_sessions s) (st_outbox s) (st_completions s) (st_artifacts s) (st_runner s)
    (st_drafts s) (st_responses s).
Definition set_work (t : gmap string work_row) (s : Store) : Store :=
  mkStore (st_meta s) t (st_sessions s) (st_outbox s) (st_completions s) (st_artifacts s) (st_runner s)
    (st_drafts s) (st_responses s).
Definition set_csessions (t : gmap string ClientSession) (s : Store) : Store :=
  mkStore (st_meta s) (st_work s) t (st_outbox s) (st_completions s) (st_artifacts s) (st_runner s)
    (st_drafts s) (st_responses s).
Definition set_outbox (t : list OutboxEvent) (s : Store) : Store :=
  mkStore (st_meta s) (st_work s) (st_sessions s) t (st_completions s) (st_artifacts s) (st_runner s)
    (st_drafts s) (st_responses s).
Definition set_ccompletions (t : gmap string CompletionIntent) (s : Store) : Store :=
  mkStore (st_meta s) (st_work s) (st_sessions s) (st_outbox s) t (st_artifacts s) (st_runner s)
    (st_drafts s) (st_responses s).
Definition set_artifacts (t : gmap string PendingArtifact) (s : Store) : Store :=
  mkStore (st_meta s) (st_work s) (st_sessions s) (st_outbox s) (st_completions s) t (st_runner s)
    (st_drafts s) (st_responses s).
Definition set_runner (t : gmap string RunnerState) (s : Store) : Store :=
  mkStore (st_meta s) (st_work s) (st_sessions s) (st_outbox s) (st_completions s) (st_artifacts s) t
    (st_drafts s) (st_responses s).
Definition set_drafts (t : gmap (string * string) string) (s : Store) : Store :=
  mkStore (st_meta s) (st_work s) (st_sessions s) (st_outbox s) (st_completions s) (st_artifacts s)
    (st_runner s) t (st_responses s).
Definition set_cresponses (t : gmap string ResponseIntent) (s : Store) : Store :=
  mkStore (st_meta s) (st_work s) (st_sessions s) (st_outbox s) (st_completions s) (st_artifacts s)
    (st_runner s) (st_drafts s) t.

(** ** Device meta *)

Definition SetMeta (key value : string) (s : Store) : Store := set_meta (<[key := value]> (st_meta s)) s.
Definition GetMeta (key : string) (s : Store) : string := default "" (st_meta s !! key).

Definition SetDeviceToken : string → Store → Store := SetMeta "device_token".
Definition DeviceToken : Store → string := GetMeta "device_token".
Definition SetDeviceIdentity (deviceID studentID deviceName : string) (s : Store) : Store :=
  SetMeta "device_name" deviceName (SetMeta "student_id" studentID (SetMeta "device_id" deviceID s)).

Abbreviation MetaWorkCursor := "work_sync_cursor".
Abbreviation MetaWorkSyncMode := "work_sync_mode".
Abbreviation MetaWorkLastFullSync := "work_sync_last_full_at".
Abbreviation MetaWorkPageCursor := "work_sync_page_cursor".
Abbreviation MetaWorkPageMode := "work_sync_page_mode".
Abbreviation MetaWorkPageSeenIDs := "work_sync_page_seen".
Abbreviation MetaWorkInProgress := "work_sync_in_progress".

(** ** Work cache *)

Record WorkSyncState := mkWorkSyncState {
  ws_Cursor : string; ws_Mode : string; ws_LastFullSyncAt : string; ws_PageCursor : string;
  ws_PageMode : string; ws_InProgress : bool; ws_SnapshotSeenIDs : list string }.

Section store.
Context `{!GoText}.

Definition GetWorkSyncState (s : Store) : result cerr WorkSyncState :=
  let raw := GetMeta MetaWorkPageSeenIDs s in
  ids ← (if bool_decide (raw = "") then Ok []
         else match unmarshal_ids raw with
              | Some ids => Ok ids
              | None => Err (COther "decode work_sync_page_seen")
              end);
  Ok (mkWorkSyncState (GetMeta MetaWorkCursor s) (GetMeta MetaWorkSyncMode s)
        (GetMeta MetaWorkLastFullSync s) (GetMeta MetaWorkPageCursor s) (GetMeta MetaWorkPageMode s)
        (bool_decide (GetMeta MetaWorkInProgress s = "1")) ids).

(** The two [SetMeta] are kept when the read that follows fails. *)
Definition BeginWorkPage (mode : string) (s : Store) : Store * result cerr unit :=
  let s := SetMeta MetaWorkPageMode mode (SetMeta MetaWorkInProgress "1" s) in
  if bool_decide (mode = WorkModeSnapshot) then
    match GetWorkSyncState s with
    | Err e => (s, Err e)
    | Ok st => if bool_decide (ws_PageCursor st = "") then (SetMeta MetaWorkPageSeenIDs "[]" s, Ok tt)
               else (s, Ok tt)
    end
  else (s, Ok tt).

(** The set read back from the JSON text; a text that does not decode counts as
    empty. *)
Definition seen_ids (s : Store) : gset string :=
  let raw := GetMeta MetaWorkPageSeenIDs s in
  if bool_decide (raw = "") then ∅
  else match unmarshal_ids raw with Some ids => list_to_set ids | None => ∅ end.

Definition upsert_item (now : Z) (s : Store) (it : StudentWorkItem) : Store :=
  let t := sa_UpdatedAt (wi_Assignment it) in
  let updated := format_time (if bool_decide (t = go_zero_time) then now else t) in
  set_work (<[sa_ID (wi_Assignment it) := mkWorkRow it updated]> (st_work s)) s.

Definition ApplyWorkPage (now : Z) (items : list StudentWorkItem) (pageCursor mode : string) (s : Store)
  : Store :=
  let s := foldl (upsert_item now) s items in
  let pageIDs := (λ it, sa_ID (wi_Assignment it)) <$> items in
  let s := if bool_decide (mode = WorkModeSnapshot) && negb (bool_decide (pageIDs = [])) then
             SetMeta MetaWorkPageSeenIDs (marshal_ids (range_set (list_to_set pageIDs ∪ seen_ids s))) s
           else s in
  SetMeta MetaWorkInProgress "1" (SetMeta MetaWorkPageMode mode (SetMeta MetaWorkPageCursor pageCursor s)).

Definition assignment_cancel (now : Z) (a : StudentAssignment) : StudentAssignment :=
  mkStudentAssignment (sa_ID a) (sa_StudentID a) (sa_ActivityRevisionID a) (sa_EnrollmentID a)
    (sa_CurriculumActivityID a) (sa_SelectionReason a) "cancelled" (sa_Priority a) (sa_AvailableAt a)
    (sa_DueAt a) (sa_AssignedBy a) (sa_Reason a) (sa_Constraints a) (sa_CreatedAt a) now.

(** A cached row that the snapshot did not contain. *)
Definition reconcile (now : Z) (seen : gset string) (id : string) (r : work_row) : work_row :=
  let a := wi_Assignment (wr_Item r) in
  if bool_decide (id ∈ seen) || bool_decide (sa_State a ∈ ["cancelled"; "completed"]) then r
  else mkWorkRow (mkWorkItem (assignment_cancel now a) (wi_Revision (wr_Item r)) (wi_Activity (wr_Item r)))
         (format_time now).

Definition CommitWorkSync (now : Z) (finalCursor mode : string) (s : Store) : Store :=
  let s := if bool_decide (mode = WorkModeSnapshot) then
             SetMeta MetaWorkLastFullSync (format_time now)
               (set_work (map_imap (λ id r, Some (reconcile now (seen_ids s) id r)) (st_work s)) s)
           else s in
  SetMeta MetaWorkInProgress "0" (SetMeta MetaWorkPageSeenIDs "" (SetMeta MetaWorkPageMode ""
    (SetMeta MetaWorkPageCursor "" (SetMeta MetaWorkSyncMode mode (SetMeta MetaWorkCursor finalCursor s))))).

Definition ResetWorkSyncCursor (s : Store) : Store :=
  SetMeta MetaWorkInProgress "0" (foldl (λ s k, SetMeta k "" s) s
    [MetaWorkCursor; MetaWorkPageCursor; MetaWorkPageMode; MetaWorkPageSeenIDs; MetaWorkInProgress]).

Definition SaveWork (now : Z) (items : list StudentWorkItem) : Store → Store := ApplyWorkPage now items "" "".

Definition ListWork (s : Store) : list StudentWorkItem :=
  (λ x, wr_Item x.2) <$>
    order_by (λ x y, str_lt (wr_UpdatedAt x.2) (wr_UpdatedAt y.2) ||
                     (bool_decide (wr_UpdatedAt x.2 = wr_UpdatedAt y.2) && str_le x.1 y.1))
      (map_to_list (st_work s)).

Definition GetWork (assignmentID : string) (s : Store) : result cerr StudentWorkItem :=
  match st_work s !! assignmentID with Some r => Ok (wr_Item r) | None => Err CNotFound end.

(** ** Sessions *)

(** [ON CONFLICT DO UPDATE] keeps the creation time of the row. *)
Definition SaveSession (now : Z) (sess : ClientSession) (s : Store) : Store :=
  let created := match st_sessions s !! ss_ClientSessionID sess with
                 | Some old => ss_CreatedAt old
                 | None => if bool_decide (ss_CreatedAt sess = go_zero_time) then now else ss_CreatedAt sess
                 end in
  set_csessions (<[ss_ClientSessionID sess :=
    mkClientSession (ss_ClientSessionID sess) (ss_ServerSessionID sess) (ss_AssignmentID sess)
      (ss_ActivityRevisionID sess) (ss_State sess) (ss_LastAckedSequence sess) (ss_NextSequence sess)
      (ss_WorkspacePath sess) created now]> (st_sessions s)) s.

Definition GetClientSession (clientSessionID : string) (s : Store) : result cerr ClientSession :=
  match st_sessions s !! clientSessionID with Some x => Ok x | None => Err CNotFound end.

Definition session_set_server (serverSessionID : string) (now : Z) (x : ClientSession) : ClientSession :=
  mkClientSession (ss_ClientSessionID x) serverSessionID (ss_AssignmentID x) (ss_ActivityRevisionID x)
    (ss_State x) (ss_LastAckedSequence x) (ss_NextSequence x) (ss_WorkspacePath x) (ss_CreatedAt x) now.

(** The stamp on the rows that lack a server id. *)
Definition bind_id (clientSessionID serverSessionID cid sid : string) : string :=
  if bool_decide (cid = clientSessionID) && bool_decide (sid = "") then serverSessionID else sid.

Definition BindServerSession (now : Z) (clientSessionID serverSessionID : string) (s : Store) : Store :=
  let b := bind_id clientSessionID serverSessionID in
  let s := set_csessions (alter (session_set_server serverSessionID now) clientSessionID (st_sessions s)) s in
  let s := set_outbox ((λ o, mkOutboxEvent (ox_ClientSessionID o) (b (ox_ClientSessionID o) (ox_ServerSessionID o))
                                (ox_Event o) (ox_Acked o)) <$> st_outbox s) s in
  let s := set_ccompletions ((λ c, mkCompletionIntent (ci_CompletionID c) (ci_ClientSessionID c)
             (b (ci_ClientSessionID c) (ci_ServerSessionID c)) (ci_Request c) (ci_Response c) (ci_Acked c)
             (ci_CreatedAt c) (ci_UpdatedAt c)) <$> st_completions s) s in
  set_artifacts ((λ a, mkPendingArtifact (pa_ArtifactID a) (pa_ClientSessionID a)
    (b (pa_ClientSessionID a) (pa_ServerSessionID a)) (pa_Meta a) (pa_Acked a) (pa_CreatedAt a))
    <$> st_artifacts s) s.

(** [ORDER BY updated_at DESC LIMIT 1] on the text column. *)
Definition FindOpenSessionByAssignment (assignmentID : string) (s : Store) : result cerr ClientSession :=
  match order_by (λ a b, str_le (format_time (ss_UpdatedAt b)) (format_time (ss_UpdatedAt a)))
          (select (λ x, bool_decide (ss_AssignmentID x = assignmentID) &&
                        negb (one_of (ss_State x) ["completed"; "cancelled"])) (st_sessions s)) with
  | x :: _ => Ok x
  | [] => Err CNotFound
  end.

(** ** Runner state *)

Definition SaveRunnerState (now : Z) (clientSessionID kind : string) (stateJSON : option string) (s : Store)
  : result cerr Store :=
  _ ← ensure (negb (bool_decide (clientSessionID = ""))) (COther "client session id required");
  _ ← ensure (negb (bool_decide (kind = ""))) (COther "runner kind required");
  Ok (set_runner (<[clientSessionID :=
        mkRunnerState clientSessionID kind (default "{}" stateJSON) now]> (st_runner s)) s).

Definition GetRunnerState (clientSessionID : string) (s : Store) : result cerr RunnerState :=
  match st_runner s !! clientSessionID with Some x => Ok x | None => Err CNotFound end.

Definition DeleteRunnerState (clientSessionID : string) (s : Store) : Store :=
  set_runner (delete clientSessionID (st_runner s)) s.

(** ** Event outbox *)

Definition session_set_next (next now : Z) (x : ClientSession) : ClientSession :=
  mkClientSession (ss_ClientSessionID x) (ss_ServerSessionID x) (ss_AssignmentID x) (ss_ActivityRevisionID x)
    (ss_State x) (ss_LastAckedSequence x) next (ss_WorkspacePath x) (ss_CreatedAt x) now.

Definition EnqueueEvent (now : Z) (clientSessionID : string) (ev : SessionEvent) (s : Store)
  : result cerr (Store * SessionEvent) :=
  match st_sessions s !! clientSessionID with
  | None => Err CNotFound
  | Some sess =>
      let nextSeq := ss_NextSequence sess in
      let ev := mkSessionEvent
        (if bool_decide (se_SchemaVersion ev = "") then "1" else se_SchemaVersion ev)
        (se_EventID ev) (se_Type ev)
        (if bool_decide (se_Sequence ev < 0)%Z then nextSeq else se_Sequence ev)
        (if bool_decide (se_ClientTime ev = go_zero_time) then now else se_ClientTime ev) (se_Payload ev) in
      if existsb (λ o, bool_decide (se_EventID (ox_Event o) = se_EventID ev)) (st_outbox s)
      then Err CConstraint
      else
        let newNext := if bool_decide (nextSeq < se_Sequence ev + 1)%Z then (se_Sequence ev + 1)%Z else nextSeq in
        Ok (set_csessions (<[clientSessionID := session_set_next newNext now sess]> (st_sessions s))
              (set_outbox (st_outbox s ++ [mkOutboxEvent clientSessionID (ss_ServerSessionID sess) ev false]) s),
            ev)
  end.

(** [ORDER BY client_session_id ASC, sequence ASC] *)
Definition outbox_le (a b : OutboxEvent) : bool :=
  str_lt (ox_ClientSessionID a) (ox_ClientSessionID b) ||
  (bool_decide (ox_ClientSessionID a = ox_ClientSessionID b) &&
   Z.leb (se_Sequence (ox_Event a)) (se_Sequence (ox_Event b))).

(** What the row's columns give back: the schema version is a constant of the
    reader. *)
Definition outbox_read (o : OutboxEvent) : OutboxEvent :=
  let e := ox_Event o in
  mkOutboxEvent (ox_ClientSessionID o) (ox_ServerSessionID o)
    (mkSessionEvent "1" (se_EventID e) (se_Type e) (se_Sequence e) (se_ClientTime e) (se_Payload e)) false.

Definition ListPendingEvents (limit : Z) (s : Store) : list OutboxEvent :=
  let limit := if bool_decide (limit ≤ 0)%Z then 100%Z else limit in
  outbox_read <$> take (Z.to_nat limit) (order_by outbox_le (filter (λ o, ox_Acked o = false) (st_outbox s))).

Definition ack_row (clientSessionID : string) (through : Z) (o : OutboxEvent) : OutboxEvent :=
  if bool_decide (ox_ClientSessionID o = clientSessionID) && Z.leb (se_Sequence (ox_Event o)) through
  then mkOutboxEvent (ox_ClientSessionID o) (ox_ServerSessionID o) (ox_Event o) true else o.

Definition session_set_acked (through now : Z) (x : ClientSession) : ClientSession :=
  mkClientSession (ss_ClientSessionID x) (ss_ServerSessionID x) (ss_AssignmentID x) (ss_ActivityRevisionID x)
    (ss_State x) (Z.max (ss_LastAckedSequence x) through) (ss_NextSequence x) (ss_WorkspacePath x)
    (ss_CreatedAt x) now.

Definition AckEvents (now : Z) (clientSessionID : string) (throughSequence : Z) (s : Store) : Store :=
  set_csessions (alter (session_set_acked throughSequence now) clientSessionID (st_sessions s))
    (set_outbox (ack_row clientSessionID throughSequence <$> st_outbox s) s).

(** ** Completion intents *)

(** [ON CONFLICT DO UPDATE]: a non-empty server id replaces the stored one. *)
Definition keep_server (new old : string) : string := if bool_decide (new = "") then old else new.

Definition SaveCompletionIntent (now : Z) (clientSessionID serverSessionID : string) (req : CompletionRequest)
    (s : Store) : Store :=
  let id := cr_CompletionID req in
  set_ccompletions (<[id := match st_completions s !! id with
    | Some c => mkCompletionIntent id (ci_ClientSessionID c) (keep_server serverSessionID (ci_ServerSessionID c))
                  req (ci_Response c) (ci_Acked c) (ci_CreatedAt c) now
    | None => mkCompletionIntent id clientSessionID serverSessionID req None false now now
    end]> (st_completions s)) s.

Definition completion_ack (res : CompletionResult) (now : Z) (c : CompletionIntent) : CompletionIntent :=
  mkCompletionIntent (ci_CompletionID c) (ci_ClientSessionID c) (ci_ServerSessionID c) (ci_Request c)
    (Some res) true (ci_CreatedAt c) now.

Definition MarkCompletionAcked (now : Z) (completionID : string) (res : CompletionResult) (s : Store) : Store :=
  set_ccompletions (alter (completion_ack res now) completionID (st_completions s)) s.

Definition ListPendingCompletions (s : Store) : list CompletionIntent :=
  order_by (λ a b, str_le (format_time (ci_CreatedAt a)) (format_time (ci_CreatedAt b)))
    (select (λ c, negb (ci_Acked c)) (st_completions s)).

Definition GetCompletion (completionID : string) (s : Store) : result cerr CompletionIntent :=
  match st_completions s !! completionID with Some c => Ok c | None => Err CNotFound end.

(** ** Artifacts *)

Definition SavePendingArtifact (now : Z) (clientSessionID serverSessionID : string) (meta : ArtifactMeta)
    (s : Store) : Store :=
  let id := am_ArtifactID meta in
  set_artifacts (<[id := match st_artifacts s !! id with
    | Some a => mkPendingArtifact id (pa_ClientSessionID a) (keep_server serverSessionID (pa_ServerSessionID a))
                  meta (pa_Acked a) (pa_CreatedAt a)
    | None => mkPendingArtifact id clientSessionID serverSessionID meta false now
    end]> (st_artifacts s)) s.

Definition ListPendingArtifacts (s : Store) : list PendingArtifact :=
  order_by (λ a b, str_le (format_time (pa_CreatedAt a)) (format_time (pa_CreatedAt b)))
    (select (λ a, negb (pa_Acked a)) (st_artifacts s)).

Definition artifact_ack (a : PendingArtifact) : PendingArtifact :=
  mkPendingArtifact (pa_ArtifactID a) (pa_ClientSessionID a) (pa_ServerSessionID a) (pa_Meta a) true
    (pa_CreatedAt a).

Definition MarkArtifactAcked (artifactID : string) (s : Store) : Store :=
  set_artifacts (alter artifact_ack artifactID (st_artifacts s)) s.

(** ** Responses *)

Definition SaveResponseDraft (clientSessionID taskID body : string) (s : Store) : Store :=
  set_drafts (<[(clientSessionID, taskID) := body]> (st_drafts s)) s.
Definition GetResponseDraft (clientSessionID taskID : string) (s : Store) : string :=
  default "" (st_drafts s !! (clientSessionID, taskID)).

Definition SaveResponseIntent (now : Z) (clientSessionID serverSessionID : string) (req : ResponseSubmission)
    (s : Store) : Store :=
  let id := rq_SubmissionID req in
  set_cresponses (<[id := match st_responses s !! id with
    | Some r => mkResponseIntent id (ri_ClientSessionID r) (keep_server serverSessionID (ri_ServerSessionID r))
                  (ri_TaskID r) req (ri_Response r) (ri_Acked r) (ri_CreatedAt r) now
    | None => mkResponseIntent id clientSessionID serverSessionID (rq_TaskID req) req None false now now
    end]> (st_responses s)) s.

Definition response_ack (res : ResponseSubmissionResult) (now : Z) (r : ResponseIntent) : ResponseIntent :=
  mkResponseIntent (ri_SubmissionID r) (ri_ClientSessionID r) (ri_ServerSessionID r) (ri_TaskID r)
    (ri_Request r) (Some res) true (ri_CreatedAt r) now.

Definition MarkResponseAcked (now : Z) (submissionID : string) (res : ResponseSubmissionResult) (s : Store)
  : Store :=
  set_cresponses (alter (response_ack res now) submissionID (st_responses s)) s.

Definition ListPendingResponses (s : Store) : list ResponseIntent :=
  order_by (λ a b, str_le (format_time (ri_CreatedAt a)) (format_time (ri_CreatedAt b)))
    (select (λ r, negb (ri_Acked r)) (st_responses s)).

(** The second query of the function also counts what is not acknowledged yet. *)
Definition ListAckedResponseTaskIDs (clientSessionID : string) (s : Store) : gset string :=
  list_to_set (ri_TaskID <$> select (λ r, bool_decide (ri_ClientSessionID r = clientSessionID) && ri_Acked r)
                                    (st_responses s)) ∪
  list_to_set (ri_TaskID <$> select (λ r, bool_decide (ri_ClientSessionID r = clientSessionID)) (st_responses s)).

(** ** Summary *)

Record PendingSync := mkPendingSync {
  py_Events : list OutboxEvent; py_Completions : list CompletionIntent; py_Artifacts : list PendingArtifact }.

Definition GetPendingSync (s : Store) : PendingSync :=
  mkPendingSync (ListPendingEvents 1000 s) (ListPendingCompletions s) (ListPendingArtifacts s).

(** [cache.DecodeActivityContent]: parent notes never reach the client. *)
Definition clientContent (m : jmap) : result string ActivityContent :=
  c ← DecodeActivityContent m; Ok (set_blocks (StudentBlocks (ac_Blocks c)) c).
End store.
