(* ===== verification/ClientSync.v ===== *)
(** * The client's sync loop ([studentclient/sync/sync.go], [studentclient/api/client.go])

    One pass pulls the work queue page by page and flushes the durable outbox: events,
    artifacts, completions, responses.  The server is an interface ([Server]): what the
    HTTP client can call, over the state of whatever answers. *)
From S2P Require Import Prelude GoStrings GoText Float64 Contracts ContentJson LmsData LmsDb.
From S2P Require Import ContentEncode WorkPage ClientStore.
From stdpp Require Import pretty options.
Local Open Scope string_scope.
Local Open Scope list_scope.

Inductive Status := StatusOnline | StatusOffline | StatusSyncing | StatusAwaiting | StatusRevoked | StatusIdle.

#[export] Instance Status_eq_dec : EqDecision Status.
Proof. solve_decision. Defined.

Record SyncResult := mkSyncResult {
  sy_Status : Status; sy_WorkItems : nat; sy_EventsFlushed : nat; sy_CompletionsSent : nat;
  sy_ArtifactsSent : nat; sy_PendingEvents : nat; sy_PendingCompletes : nat; sy_Err : option cerr }.

Definition sync_zero : SyncResult := mkSyncResult StatusIdle 0 0 0 0 0 0 None.

(** ** The server as the client sees it *)

(** Each call carries the device token, may change the state of the world and may fail;
    [srv_now] is the client's clock. *)
Class Server (W : Type) := {
  srv_now : W → Z;
  srv_Work : string → string → Z → W → W * result cerr StudentWorkPage;
  srv_PostEvents : string → string → list SessionEvent → W → W * result cerr Z;
  srv_PostArtifact : string → string → ArtifactMeta → W → W * result cerr unit;
  srv_Complete : string → string → CompletionRequest → W → W * result cerr CompletionResult;
  srv_SubmitResponse : string → string → ResponseSubmission → W → W * result cerr ResponseSubmissionResult;
  srv_ReportCapabilities : string → DeviceCapabilities → W → W * result cerr unit }.

(** The loop, its client's token and its store, next to the world. *)
Record cstate (W : Type) := mkClient {
  cl_world : W; cl_store : Store; cl_token : string; cl_status : Status; cl_last : SyncResult }.
Arguments mkClient {W}.
Arguments cl_world {W}.
Arguments cl_store {W}.
Arguments cl_token {W}.
Arguments cl_status {W}.
Arguments cl_last {W}.

Definition CM (W A : Type) : Type := cstate W → cstate W * result cerr A.

#[export] Instance CM_ret {W} : MRet (CM W) := λ A a c, (c, Ok a).
#[export] Instance CM_bind {W} : MBind (CM W) := λ A B f m c,
  match m c with (c', Ok a) => f a c' | (c', Err e) => (c', Err e) end.

Definition fail {W A} (e : cerr) : CM W A := λ c, (c, Err e).
Definition try {W A} (m : CM W A) : CM W (result cerr A) := λ c, let (c', r) := m c in (c', Ok r).
Definition lift {W A} (r : result cerr A) : CM W A := λ c, (c, r).
Definition with_store {W} (s : Store) (c : cstate W) : cstate W :=
  mkClient (cl_world c) s (cl_token c) (cl_status c) (cl_last c).
Definition read {W A} (f : Store → A) : CM W A := λ c, (c, Ok (f (cl_store c))).

Section loop.
Context `{!GoText} {W : Type} `{!Server W}.

(** A store operation that stamps [time.Now()]. *)
Definition modify (f : Z → Store → Store) : CM W unit := λ c,
  (with_store (f (srv_now (cl_world c)) (cl_store c)) c, Ok tt).

(** [Client.doJSON] with authentication: without a token nothing is sent. *)
Definition call {A} (f : string → W → W * result cerr A) : CM W A := λ c,
  if bool_decide (cl_token c = "") then (c, Err (CUnauthorized "missing device token"))
  else
    let (w, r) := f (cl_token c) (cl_world c) in
    (mkClient w (cl_store c) (cl_token c) (cl_status c) (cl_last c), r).

(** [Loop.set] *)
Definition set_status (st : Status) (res : SyncResult) : CM W SyncResult := λ c,
  let res := mkSyncResult st (sy_WorkItems res) (sy_EventsFlushed res) (sy_CompletionsSent res)
               (sy_ArtifactsSent res) (sy_PendingEvents res) (sy_PendingCompletes res) (sy_Err res) in
  (mkClient (cl_world c) (cl_store c) (cl_token c) st res, Ok res).

Definition DefaultWorkPageLimit : Z := 100.

(** [Client.Work]: an answer without a mode gets the one its cursor implies. *)
Definition Work (after : string) (limit : Z) : CM W StudentWorkPage :=
  out ← call (λ tok, srv_Work tok after limit);
  if bool_decide (wp_Mode out = "") then
    mret (mkWorkPage (wp_Items out) (wp_Cursor out)
            (if bool_decide (after = "") then WorkModeSnapshot else WorkModeIncremental) (wp_HasMore out))
  else mret out.

Definition ensureToken : CM W unit := λ c,
  if negb (bool_decide (cl_token c = "")) then (c, Ok tt)
  else
    let tok := DeviceToken (cl_store c) in
    if bool_decide (tok = "") then (c, Err (COther "no device token configured"))
    else (mkClient (cl_world c) (cl_store c) tok (cl_status c) (cl_last c), Ok tt).

(** ** Pulling work *)

(** [ErrHTTP.Error()] *)
Definition http_text (status : Z) (body op : string) : string :=
  let msg := if bool_decide (200 < String.length body)%nat then String.substring 0 200 body +:+ "…" else body in
  op +:+ ": HTTP " +:+ pretty status +:+ ": " +:+ msg.

Definition cursor_rejected (e : cerr) : bool :=
  match e with
  | CHttp status body op =>
      Z.eqb status 400 && (Contains body "cursor" || Contains (http_text status body op) "cursor")
  | _ => false
  end.

Definition begin (mode : string) : CM W unit := λ c,
  let (s, r) := BeginWorkPage mode (cl_store c) in (with_store s c, r).

(** One call to the server, with the restart on a rejected cursor: the page, the
    cursor it was asked for and the mode. *)
Definition fetch (after mode : string) : CM W (StudentWorkPage * string * string) :=
  r ← try (Work after DefaultWorkPageLimit);
  match r with
  | Ok work => mret (work, after, mode)
  | Err e =>
      if cursor_rejected e then
        _ ← modify (λ _, ResetWorkSyncCursor);
        _ ← begin WorkModeSnapshot;
        work ← Work "" DefaultWorkPageLimit;
        mret (work, "", WorkModeSnapshot)
      else fail e
  end.

(** The loop of [pullWork]; [None] is the model running out of fuel. *)
Fixpoint pull_loop (fuel : nat) (after mode : string) (total : nat) (finalCursor : string)
  : CM W (option (nat * string * string)) :=
  match fuel with
  | O => mret None
  | S fuel' =>
      r ← fetch after mode;
      let '(work, after, mode) := r in
      let mode := if bool_decide (total = 0)%nat then
                    if negb (bool_decide (wp_Mode work = "")) then wp_Mode work
                    else if bool_decide (after = "") then WorkModeSnapshot else mode
                  else mode in
      let pageCursor := wp_Cursor work in
      let full := negb (wp_HasMore work) &&
                  bool_decide (DefaultWorkPageLimit ≤ Z.of_nat (length (wp_Items work)))%Z &&
                  negb (bool_decide (pageCursor = "")) && negb (bool_decide (pageCursor = after)) in
      let hasMore := (wp_HasMore work || full) && negb (bool_decide (wp_Items work = [])) in
      _ ← modify (λ now, ApplyWorkPage now (wp_Items work) pageCursor mode);
      let total := (total + length (wp_Items work))%nat in
      let finalCursor := if bool_decide (pageCursor = "") then finalCursor else pageCursor in
      if negb hasMore then mret (Some (total, finalCursor, mode))
      else if bool_decide (pageCursor = "") || bool_decide (pageCursor = after)
           then mret (Some (total, finalCursor, mode))
           else pull_loop fuel' pageCursor mode total finalCursor
  end.

(** Where a pull starts: the page it had reached, or the committed cursor. *)
Definition resume_at (st : WorkSyncState) : string * string :=
  if ws_InProgress st && negb (bool_decide (ws_PageCursor st = "")) then
    (ws_PageCursor st, if bool_decide (ws_PageMode st = "") then WorkModeIncremental else ws_PageMode st)
  else if bool_decide (ws_Cursor st = "") then (ws_Cursor st, WorkModeSnapshot)
       else (ws_Cursor st, WorkModeIncremental).

Definition pullWork (fuel : nat) : CM W (option nat) :=
  st ← read GetWorkSyncState;
  st ← lift st;
  let '(after, mode) := resume_at st in
  _ ← begin mode;
  r ← pull_loop fuel after mode 0 after;
  match r with
  | None => mret None
  | Some (total, finalCursor, mode) =>
      _ ← modify (λ now, CommitWorkSync now finalCursor mode);
      mret (Some total)
  end.

(** ** Flushing *)

Record eventBatch := mkBatch { eb_clientID : string; eb_serverID : string; eb_events : list OutboxEvent }.

(** The grouping loop: consecutive rows of one client session. *)
Definition add_to_batches (bs : list eventBatch) (ev : OutboxEvent) : list eventBatch :=
  match last bs with
  | Some b =>
      if bool_decide (eb_clientID b = ox_ClientSessionID ev) then
        removelast bs ++ [mkBatch (eb_clientID b)
          (if bool_decide (eb_serverID b = "") then ox_ServerSessionID ev else eb_serverID b)
          (eb_events b ++ [ev])]
      else bs ++ [mkBatch (ox_ClientSessionID ev) (ox_ServerSessionID ev) [ev]]
  | None => [mkBatch (ox_ClientSessionID ev) (ox_ServerSessionID ev) [ev]]
  end.

(** The id stored with the row, or else the one of its session. *)
Definition server_id (rowID clientID : string) : CM W string :=
  if negb (bool_decide (rowID = "")) then mret rowID
  else sess ← read (GetClientSession clientID); sess ← lift sess; mret (ss_ServerSessionID sess).

(** A flush loop: [f] says how many rows it sent; the first error ends the loop, with
    what was sent so far. *)
Fixpoint flush_each {A} (f : A → CM W nat) (l : list A) (sent : nat) : CM W (nat * option cerr) :=
  match l with
  | [] => mret (sent, None)
  | x :: l' =>
      r ← try (f x);
      match r with Ok n => flush_each f l' (sent + n)%nat | Err e => mret (sent, Some e) end
  end.

Definition flushBatch (b : eventBatch) : CM W nat :=
  serverID ← server_id (eb_serverID b) (eb_clientID b);
  if bool_decide (serverID = "") then mret 0%nat
  else
    ack ← call (λ tok, srv_PostEvents tok serverID (ox_Event <$> eb_events b));
    _ ← modify (λ now, AckEvents now (eb_clientID b) ack);
    mret (length (eb_events b)).

Definition flushEvents : CM W (nat * option cerr) :=
  pending ← read (ListPendingEvents 500);
  flush_each flushBatch (foldl add_to_batches [] pending) 0.

Definition flushArtifact (a : PendingArtifact) : CM W nat :=
  serverID ← server_id (pa_ServerSessionID a) (pa_ClientSessionID a);
  if bool_decide (serverID = "") then mret 0%nat
  else
    _ ← call (λ tok, srv_PostArtifact tok serverID (pa_Meta a));
    _ ← modify (λ _, MarkArtifactAcked (pa_ArtifactID a));
    mret 1%nat.

Definition flushArtifacts : CM W (nat * option cerr) :=
  pending ← read ListPendingArtifacts;
  flush_each flushArtifact pending 0.

Definition flushResponse (r : ResponseIntent) : CM W nat :=
  serverID ← server_id (ri_ServerSessionID r) (ri_ClientSessionID r);
  if bool_decide (serverID = "") then mret 0%nat
  else
    res ← call (λ tok, srv_SubmitResponse tok serverID (ri_Request r));
    _ ← modify (λ now, MarkResponseAcked now (ri_SubmissionID r) res);
    mret 1%nat.

Definition flushResponses : CM W (nat * option cerr) :=
  pending ← read ListPendingResponses;
  flush_each flushResponse pending 0.

Definition session_set_state (state : string) (x : ClientSession) : ClientSession :=
  mkClientSession (ss_ClientSessionID x) (ss_ServerSessionID x) (ss_AssignmentID x) (ss_ActivityRevisionID x)
    state (ss_LastAckedSequence x) (ss_NextSequence x) (ss_WorkspacePath x) (ss_CreatedAt x) (ss_UpdatedAt x).

(** [if sess, err := GetSession(id); err == nil { sess.State = state; SaveSession }] *)
Definition mark_session (clientSessionID state : string) : CM W unit :=
  sess ← read (GetClientSession clientSessionID);
  match sess with
  | Ok sess => modify (λ now, SaveSession now (session_set_state state sess))
  | Err _ => mret tt
  end.

Definition cancel_rejected (e : cerr) : bool :=
  match e with
  | CHttp status body op =>
      Z.eqb status 400 && Contains (ToLower (body +:+ http_text status body op)) "cancel"
  | _ => false
  end.

Definition rejected_completion (req : CompletionRequest) : CompletionResult :=
  mkCompletionResult "1" (cr_CompletionID req) false (cr_RequestDigest req) (cr_Observations req) [] [] None []
    "assignment cancelled; evidence retained for parent review".

Definition flushCompletion (c : CompletionIntent) : CM W nat :=
  serverID ← server_id (ci_ServerSessionID c) (ci_ClientSessionID c);
  if bool_decide (serverID = "") then mret 0%nat
  else
    r ← try (call (λ tok, srv_Complete tok serverID (ci_Request c)));
    match r with
    | Err e =>
        if cancel_rejected e then
          _ ← modify (λ now, MarkCompletionAcked now (ci_CompletionID c) (rejected_completion (ci_Request c)));
          _ ← mark_session (ci_ClientSessionID c) "cancelled_after_work";
          mret 1%nat
        else fail e
    | Ok res =>
        _ ← modify (λ now, MarkCompletionAcked now (ci_CompletionID c) res);
        _ ← (if cs_Accepted res then mark_session (ci_ClientSessionID c) "completed"
             else if Contains (ToLower (cs_Message res)) "cancel"
                  then mark_session (ci_ClientSessionID c) "cancelled_after_work" else mret tt);
        mret 1%nat
    end.

Definition flushCompletions : CM W (nat * option cerr) :=
  pending ← read ListPendingCompletions;
  flush_each flushCompletion pending 0.

(** ** One pass *)

(** The pending counters of a result, as both ends of a pass fill them. *)
Definition with_pending (res : SyncResult) (events completes : nat) : SyncResult :=
  mkSyncResult (sy_Status res) (sy_WorkItems res) (sy_EventsFlushed res) (sy_CompletionsSent res)
    (sy_ArtifactsSent res) events completes (sy_Err res).
Definition with_err (res : SyncResult) (e : cerr) : SyncResult :=
  mkSyncResult (sy_Status res) (sy_WorkItems res) (sy_EventsFlushed res) (sy_CompletionsSent res)
    (sy_ArtifactsSent res) (sy_PendingEvents res) (sy_PendingCompletes res) (Some e).

Definition handleErr (res : SyncResult) (e : cerr) : CM W SyncResult :=
  let res := with_err res e in
  match e with
  | CUnauthorized _ => set_status StatusRevoked res
  | _ =>
      pending ← read GetPendingSync;
      let res := with_pending res (length (py_Events pending)) (length (py_Completions pending)) in
      set_status (if bool_decide (0 < sy_PendingEvents res)%nat || bool_decide (0 < sy_PendingCompletes res)%nat
                  then StatusAwaiting else StatusOffline) res
  end.

(** The end of a pass without an error. *)
Definition finishSync (res : SyncResult) : CM W SyncResult :=
  pending ← read GetPendingSync;
  let res := with_pending res (length (py_Events pending)) (length (py_Completions pending)) in
  rs ← read ListPendingResponses;
  set_status
    (if bool_decide (0 < length (py_Events pending))%nat || bool_decide (0 < length (py_Completions pending))%nat
        || bool_decide (0 < length (py_Artifacts pending))%nat || bool_decide (0 < length rs)%nat
     then StatusAwaiting else StatusOnline) res.

(** The four flushes in their order. *)
Definition flushAll (work : nat) : CM W SyncResult :=
  evs ← flushEvents;
  let res := mkSyncResult StatusSyncing work evs.1 0 0 0 0 None in
  match evs.2 with
  | Some e => handleErr res e
  | None =>
      arts ← flushArtifacts;
      let res := mkSyncResult StatusSyncing work evs.1 0 arts.1 0 0 None in
      match arts.2 with
      | Some e => handleErr res e
      | None =>
          cmps ← flushCompletions;
          let res := mkSyncResult StatusSyncing work evs.1 cmps.1 arts.1 0 0 None in
          match cmps.2 with
          | Some e => handleErr res e
          | None =>
              rsp ← flushResponses;
              match rsp.2 with Some e => handleErr res e | None => finishSync res end
          end
      end
  end.

(** [deviceCaps] is what [CollectDeviceCapabilities] finds on the machine.  [None] is
    the model running out of fuel in [pullWork]. *)
Definition SyncOnce (fuel : nat) (deviceCaps : option DeviceCapabilities) : CM W (option SyncResult) :=
  res ← set_status StatusSyncing sync_zero;
  tok ← try ensureToken;
  match tok with
  | Err e => r ← set_status StatusOffline (with_err res e); mret (Some r)
  | Ok _ =>
      _ ← (match deviceCaps with Some caps => try (call (λ tok, srv_ReportCapabilities tok caps)) | None => mret (Ok tt) end);
      n ← try (pullWork fuel);
      match n with
      | Err e => r ← handleErr res e; mret (Some r)
      | Ok None => mret None
      | Ok (Some n) => r ← flushAll n; mret (Some r)
      end
  end.
End loop.
