(* ===== verification/WorkSync.v ===== *)
(** * Pulling work: the client against the server

    [WorkFeed] is what the client needs from the server's work listing; [pullWork] is
    proved against it, and the LMS of [WorkPage] satisfies it. *)
From S2P Require Import Prelude GoStrings GoText Float64 Contracts ContentJson LmsData LmsDb Sample.
From S2P Require Import ContentEncode WorkPage ClientStore ClientSync.
From stdpp Require Import pretty options.
Local Open Scope string_scope.
Local Open Scope list_scope.

Definition item_id (it : StudentWorkItem) : string := sa_ID (wi_Assignment it).

(** A queue [Q] that does not change while it is read: in the worlds of [feed_world] the
    listing answers from [Q], and stays in them; [feed_ahead after suf] says that [suf]
    lies ahead of the cursor [after]. *)
Class WorkFeed `{!GoText} (W : Type) `{!Server W} (token : string) (Q : list StudentWorkItem) := {
  feed_token : token ≠ "";
  feed_world : W → Prop;
  feed_ahead : string → list StudentWorkItem → Prop;
  feed_start suf : feed_ahead "" suf ↔ suf = Q;
  feed_page after suf w : feed_world w → feed_ahead after suf →
    ∃ w', feed_world w' ∧ srv_Work token after DefaultWorkPageLimit w =
      (w', Ok (mkWorkPage (take 100 suf) (last_cursor (take 100 suf))
                (if bool_decide (after = "") then WorkModeSnapshot else WorkModeIncremental)
                (bool_decide (100 < length suf)%nat)));
  feed_next after l rest : l ≠ [] → feed_ahead after (l ++ rest) → feed_ahead (last_cursor l) rest;
  feed_suffix after suf : feed_ahead after suf → ∃ pre, Q = pre ++ suf;
  feed_progress after suf it : feed_ahead after suf → it ∈ suf → cursor_of (wi_Assignment it) ≠ after;
  feed_NoDup : NoDup (item_id <$> Q);
  feed_ascii it : it ∈ Q → ascii_text (item_id it) }.

(** ** What the store operations do to the cache *)

Definition cached (s : Store) (id : string) : option StudentWorkItem := wr_Item <$> st_work s !! id.

(** The tables that hold the student's own work. *)
Definition local_work (s : Store) :=
  (st_sessions s, st_outbox s, st_completions s, st_artifacts s, st_runner s, st_drafts s, st_responses s).

Section cache.
Context `{!GoText}.

Lemma cached_upsert now it s id :
  cached (upsert_item now s it) id = if bool_decide (item_id it = id) then Some it else cached s id.
Proof.
  unfold cached, upsert_item, item_id. cbn [st_work set_work].
  destruct (bool_decide_reflect (sa_ID (wi_Assignment it) = id)) as [<-|E].
  - by rewrite lookup_insert_eq.
  - by rewrite lookup_insert_ne.
Qed.

Lemma cached_upserts now items : ∀ s, NoDup (item_id <$> items) →
  (∀ it, it ∈ items → cached (foldl (upsert_item now) s items) (item_id it) = Some it) ∧
  (∀ id, id ∉ item_id <$> items → cached (foldl (upsert_item now) s items) id = cached s id).
Proof.
  induction items as [|x items IH]; intros s Hn; cbn.
  { split; [by intros it ?%elem_of_nil|done]. }
  apply NoDup_cons in Hn as [Hx Hn]. destruct (IH (upsert_item now s x) Hn) as [H1 H2]. split.
  - intros it [->|Hit]%elem_of_cons; [|by apply H1].
    rewrite H2 by done. rewrite cached_upsert. by rewrite bool_decide_true.
  - intros id [Hne Hid]%not_elem_of_cons. rewrite H2 by done. rewrite cached_upsert.
    by rewrite bool_decide_false by congruence.
Qed.

Lemma upserts_meta now items : ∀ s, st_meta (foldl (upsert_item now) s items) = st_meta s.
Proof. induction items as [|x items IH]; intros s; cbn; [done|]. by rewrite IH. Qed.
Lemma upserts_local now items : ∀ s, local_work (foldl (upsert_item now) s items) = local_work s.
Proof. induction items as [|x items IH]; intros s; cbn; [done|]. by rewrite IH. Qed.

Lemma GetMeta_set k v s k' : GetMeta k' (SetMeta k v s) = if bool_decide (k = k') then v else GetMeta k' s.
Proof.
  unfold GetMeta, SetMeta. cbn [st_meta set_meta]. case_bool_decide as E.
  - subst. by rewrite lookup_insert_eq.
  - by rewrite lookup_insert_ne.
Qed.

Lemma GetMeta_ne k v s k' : k ≠ k' → GetMeta k' (SetMeta k v s) = GetMeta k' s.
Proof. intros Hk. by rewrite GetMeta_set, bool_decide_false. Qed.
Lemma GetMeta_eq k v s : GetMeta k (SetMeta k v s) = v.
Proof. by rewrite GetMeta_set, bool_decide_true. Qed.

(** A meta key that the paging operations leave alone. *)
Lemma Apply_local now items pc mode s :
  local_work (ApplyWorkPage now items pc mode s) = local_work s ∧
  GetMeta MetaWorkCursor (ApplyWorkPage now items pc mode s) = GetMeta MetaWorkCursor s.
Proof.
  unfold ApplyWorkPage. split.
  - destruct (_ && _); cbn; by rewrite <-(upserts_local now items s).
  - rewrite !GetMeta_ne by done. destruct (_ && _); rewrite ?GetMeta_ne by done.
    all: unfold GetMeta; by rewrite upserts_meta.
Qed.

Lemma Apply_cached now items pc mode s id :
  cached (ApplyWorkPage now items pc mode s) id = cached (foldl (upsert_item now) s items) id.
Proof. unfold ApplyWorkPage. by destruct (_ && _). Qed.

Definition ascii_ids (X : gset string) : Prop := ∀ x, x ∈ X → ascii_text x.

Lemma seen_ids_marshal X v s : ascii_ids X → v = marshal_ids (range_set X) →
  GetMeta MetaWorkPageSeenIDs s = v → seen_ids s = X.
Proof.
  intros HX -> Hv. unfold seen_ids. rewrite Hv, bool_decide_false by apply marshal_not_empty.
  rewrite unmarshal_marshal.
  - rewrite range_set_perm. apply list_to_set_elements_L.
  - rewrite range_set_perm. apply Forall_forall. intros x Hx%elem_of_elements. by apply HX.
Qed.

Lemma Apply_seen now items pc mode s :
  ascii_ids (list_to_set (item_id <$> items) ∪ seen_ids s) →
  seen_ids (ApplyWorkPage now items pc mode s) =
    if bool_decide (mode = WorkModeSnapshot) then list_to_set (item_id <$> items) ∪ seen_ids s else seen_ids s.
Proof.
  intros Ha. unfold ApplyWorkPage. fold item_id.
  assert (∀ v, seen_ids (SetMeta MetaWorkInProgress "1" (SetMeta MetaWorkPageMode mode
            (SetMeta MetaWorkPageCursor pc v))) = seen_ids v) as Hout.
  { intros v. unfold seen_ids. by rewrite !GetMeta_ne by done. }
  rewrite Hout.
  assert (seen_ids (foldl (upsert_item now) s items) = seen_ids s) as Hs
    by (unfold seen_ids, GetMeta; by rewrite upserts_meta).
  change ((λ it, sa_ID (wi_Assignment it)) <$> items) with (item_id <$> items). rewrite Hs.
  destruct (bool_decide (mode = WorkModeSnapshot)); cbn [andb]; [|done].
  destruct items as [|it items]; cbn [fmap list_fmap].
  - rewrite bool_decide_true by done. cbn. set_solver.
  - rewrite bool_decide_false by done. cbn [negb].
    eapply seen_ids_marshal; [exact Ha|reflexivity|]. apply GetMeta_eq.
Qed.
End cache.

(** ** The loop *)

(** What a walk over [suf] has done to the store. *)
Definition walked `{!GoText} (mode : string) (suf : list StudentWorkItem) (s s' : Store) : Prop :=
  (∀ it, it ∈ suf → cached s' (item_id it) = Some it) ∧
  (∀ id, id ∉ item_id <$> suf → cached s' id = cached s id) ∧
  local_work s' = local_work s ∧
  seen_ids s' = (if bool_decide (mode = WorkModeSnapshot)
                 then list_to_set (item_id <$> suf) ∪ seen_ids s else seen_ids s).

Section pull.
Context `{!GoText} {W : Type} `{!Server W} (token : string) (Q : list StudentWorkItem) `{!WorkFeed W token Q}.

(** The client with another world and another store. *)
Definition moved (w : W) (s : Store) (c : cstate W) : cstate W :=
  mkClient w s (cl_token c) (cl_status c) (cl_last c).

Definition start_mode (after : string) : string :=
  if bool_decide (after = "") then WorkModeSnapshot else WorkModeIncremental.

Lemma fetch_run after suf mode c : feed_ahead after suf → feed_world (cl_world c) → cl_token c = token →
  ∃ w', feed_world w' ∧ fetch after mode c =
    (moved w' (cl_store c) c, Ok (mkWorkPage (take 100 suf) (last_cursor (take 100 suf)) (start_mode after)
              (bool_decide (100 < length suf)%nat), after, mode)).
Proof.
  intros Ha Hw Ht. destruct (feed_page _ _ _ Hw Ha) as (w' & Hw' & Hp). exists w'. split; [done|].
  unfold fetch, mbind, CM_bind, try, Work, mbind, CM_bind, call.
  rewrite Ht, bool_decide_false by exact feed_token. rewrite Hp. cbn [wp_Mode]. fold (start_mode after).
  rewrite bool_decide_false by (unfold start_mode; by case_bool_decide). unfold moved. by rewrite Ht.
Qed.

Lemma walked_app mode l1 l2 s s1 s2 :
  NoDup (item_id <$> (l1 ++ l2)) → walked mode l1 s s1 → walked mode l2 s1 s2 → walked mode (l1 ++ l2) s s2.
Proof.
  rewrite fmap_app, NoDup_app. intros (_ & Hd & _) (A1 & A2 & A3 & A4) (B1 & B2 & B3 & B4).
  split_and!.
  - intros it [Hit|Hit]%elem_of_app; [|by apply B1]. rewrite B2; [by apply A1|].
    by apply Hd, list_elem_of_fmap_2.
  - intros id. rewrite fmap_app, not_elem_of_app. intros [H1 H2]. by rewrite B2, A2.
  - congruence.
  - rewrite B4, A4. case_bool_decide; [|done]. rewrite fmap_app, list_to_set_app_L. set_solver.
Qed.

Lemma feed_ascii_ids after suf : feed_ahead after suf → ascii_ids (list_to_set (item_id <$> suf)).
Proof.
  intros [pre HQ]%feed_suffix x (it & -> & Hit)%elem_of_list_to_set%list_elem_of_fmap.
  apply feed_ascii. rewrite HQ. set_solver.
Qed.

Lemma Apply_walked now after l rest pc mode s :
  feed_ahead after (l ++ rest) → ascii_ids (seen_ids s) →
  walked mode l s (ApplyWorkPage now l pc mode s).
Proof.
  intros Ha Hs. pose proof (feed_ascii_ids _ _ Ha) as Hasc. apply feed_suffix in Ha as [pre HQ].
  assert (NoDup (item_id <$> l)) as Hn.
  { pose proof (feed_NoDup (W:=W) (token:=token) (Q:=Q)) as Hn. rewrite HQ, !fmap_app in Hn.
    apply NoDup_app in Hn as (_ & _ & Hn). by apply NoDup_app in Hn as (? & _). }
  destruct (cached_upserts now l s Hn) as [H1 H2].
  split_and!.
  - intros it Hit. rewrite Apply_cached. auto.
  - intros id Hid. rewrite Apply_cached. auto.
  - apply Apply_local.
  - apply Apply_seen. intros x [Hx|Hx]%elem_of_union; [|by apply Hs].
    apply Hasc. rewrite fmap_app, list_to_set_app. set_solver.
Qed.

Lemma last_cursor_app l1 l2 : l2 ≠ [] → last_cursor (l1 ++ l2) = last_cursor l2.
Proof.
  intros Hne. unfold last_cursor. destruct l2 as [|x l2 _] using rev_ind; [done|].
  by rewrite app_assoc, !last_snoc.
Qed.

(** A full page leads on: to the rest of the queue, with a cursor that moves. *)
Lemma full_page after suf : feed_ahead after suf → (100 ≤ length suf)%nat →
  take 100 suf ≠ [] ∧ last_cursor (take 100 suf) ≠ "" ∧ last_cursor (take 100 suf) ≠ after ∧
  feed_ahead (last_cursor (take 100 suf)) (drop 100 suf) ∧
  (length (drop 100 suf) / 100 < length suf / 100)%nat.
Proof.
  intros Ha Hge.
  assert (length (take 100 suf) = 100%nat) as Hlen by (rewrite length_take; lia).
  assert (take 100 suf ≠ []) as Hne by (intros E; by rewrite E in Hlen).
  assert (∃ x, last (take 100 suf) = Some x ∧ x ∈ suf) as (x & Hx & Hin).
  { destruct (take 100 suf) as [|x l _] eqn:El using rev_ind; [done|]. exists x. split; [apply last_snoc|].
    rewrite <-(take_drop 100 suf), El. set_solver. }
  unfold last_cursor at 1 2. rewrite Hx. split_and!.
  - done.
  - apply cursor_not_empty.
  - by eapply feed_progress.
  - eapply feed_next; [done|]. by rewrite take_drop.
  - rewrite length_drop. rewrite <-(Nat.sub_add 100 (length suf)) at 2 by lia.
    replace (length suf - 100 + 100)%nat with (length suf - 100 + 1 * 100)%nat by lia.
    rewrite Nat.div_add by lia. lia.
Qed.

Lemma pull_loop_run fuel : ∀ after suf mode total final c,
  feed_ahead after suf → (length suf / 100 < fuel)%nat → feed_world (cl_world c) → cl_token c = token →
  ascii_ids (seen_ids (cl_store c)) →
  let m := if bool_decide (total = 0)%nat then start_mode after else mode in
  ∃ w' s', feed_world w' ∧ pull_loop fuel after mode total final c =
          (moved w' s' c, Ok (Some ((total + length suf)%nat,
             if bool_decide (suf = []) then final else last_cursor suf, m))) ∧
        walked m suf (cl_store c) s' ∧
        GetMeta MetaWorkCursor s' = GetMeta MetaWorkCursor (cl_store c).
Proof.
  induction fuel as [|fuel IH]; intros after suf mode total final c Ha Hf Hw Ht Hs m; [lia|].
  cbn [pull_loop]. unfold mbind at 1, CM_bind at 1. destruct (fetch_run _ _ mode _ Ha Hw Ht) as (w1 & Hw1 & ->).
  cbn [wp_Items wp_Cursor wp_Mode wp_HasMore].
  assert ((if bool_decide (total = 0)%nat then
             if negb (bool_decide (start_mode after = "")) then start_mode after
             else if bool_decide (after = "") then WorkModeSnapshot else mode else mode) = m) as ->.
  { unfold m. case_bool_decide; [|done]. rewrite (bool_decide_false (start_mode after = "")); [done|].
    unfold start_mode. by case_bool_decide. }
  unfold mbind at 1, CM_bind at 1, modify at 1. cbn [fst snd cl_world cl_store moved].
  assert (feed_ahead after (take 100 suf ++ drop 100 suf)) as Ha' by by rewrite take_drop.
  pose proof (Apply_walked (srv_now w1) after (take 100 suf) (drop 100 suf)
    (last_cursor (take 100 suf)) m (cl_store c) Ha' Hs) as Hwk.
  destruct (Apply_local (srv_now w1) (take 100 suf) (last_cursor (take 100 suf)) m (cl_store c))
    as [_ Hcur].
  set (s1 := ApplyWorkPage _ _ _ _ _) in *.
  destruct (decide (length suf < 100)%nat) as [Hlt|Hge].
  - (* the last page *)
    rewrite (bool_decide_false (100 < length suf)%nat) by lia.
    rewrite (bool_decide_false (DefaultWorkPageLimit ≤ _)%Z)
      by (unfold DefaultWorkPageLimit; rewrite length_take; lia). cbn [negb andb orb].
    rewrite !take_ge in * by lia. exists w1, s1. split_and!; [done| |done|done].
    assert (bool_decide (last_cursor suf = "") = bool_decide (suf = [])) as ->; [|done].
    apply bool_decide_ext. split; [|by intros ->]. destruct suf as [|x l _] using rev_ind; [done|].
    unfold last_cursor. rewrite last_snoc. intros E. by apply cursor_not_empty in E.
  - (* a full page: go on *)
    destruct (full_page after suf Ha) as (Hne & Hc1 & Hc2 & Hnext & Hdiv); [lia|].
    rewrite (bool_decide_false (last_cursor (take 100 suf) = "")), (bool_decide_false (_ = after)) by done.
    rewrite (bool_decide_false (take 100 suf = [])) by done.
    rewrite (bool_decide_true (DefaultWorkPageLimit ≤ _)%Z)
      by (unfold DefaultWorkPageLimit; rewrite length_take; lia).
    assert (∀ b : bool, negb ((b || (negb b && true && negb false && negb false)) && negb false) = false) as Hb
      by by intros []. rewrite Hb. cbn [orb].
    destruct (IH (last_cursor (take 100 suf)) (drop 100 suf) m (total + length (take 100 suf))%nat
                (last_cursor (take 100 suf)) (moved w1 s1 c)) as (w2 & s' & Hw2 & Hrun & Hwk' & Hcur').
    + exact Hnext.
    + lia.
    + done.
    + done.
    + cbn [cl_store moved]. destruct Hwk as (_ & _ & _ & ->). case_bool_decide; [|done].
      intros x [Hx|Hx]%elem_of_union; [|by apply Hs]. apply (feed_ascii_ids _ _ Ha').
      rewrite fmap_app, list_to_set_app. set_solver.
    + rewrite length_take, Nat.min_l in * by lia.
      rewrite (bool_decide_false (total + 100 = 0)%nat) in * by lia.
      exists w2, s'. split_and!; [done|..].
      * change (with_store s1 (moved w1 (cl_store c) c)) with (moved w1 s1 c). rewrite Hrun. unfold moved. cbn [cl_world cl_token cl_status cl_last]. do 4 f_equal.
        apply (f_equal2 pair).
        -- rewrite length_drop. lia.
        -- rewrite (bool_decide_false (suf = [])) by (intros ->; by rewrite take_nil in Hne).
           case_bool_decide as Hd; [|by rewrite <-(last_cursor_app (take 100 suf)), take_drop].
           by rewrite <-(take_drop 100 suf) at 2; rewrite Hd, app_nil_r.
      * rewrite <-(take_drop 100 suf). eapply walked_app; [|exact Hwk|exact Hwk'].
        apply feed_suffix in Ha' as [pre HQ]. pose proof (feed_NoDup (W:=W) (token:=token) (Q:=Q)) as Hn.
        rewrite HQ, fmap_app in Hn. by apply NoDup_app in Hn as (_ & _ & ?).
      * rewrite Hcur'. exact Hcur.
Qed.

(** What every state of the store keeps: the seen ids decode, and a walk that is not in
    progress has no page cursor. *)
Definition sync_ok (s : Store) : Prop :=
  (∃ st, GetWorkSyncState s = Ok st) ∧ ascii_ids (seen_ids s) ∧
  (GetMeta MetaWorkInProgress s ≠ "1" → GetMeta MetaWorkPageCursor s = "").

Lemma GetWorkSyncState_fields s st : GetWorkSyncState s = Ok st →
  ws_Cursor st = GetMeta MetaWorkCursor s ∧ ws_PageCursor st = GetMeta MetaWorkPageCursor s ∧
  ws_PageMode st = GetMeta MetaWorkPageMode s ∧
  ws_InProgress st = bool_decide (GetMeta MetaWorkInProgress s = "1") ∧
  seen_ids s = list_to_set (ws_SnapshotSeenIDs st).
Proof.
  unfold GetWorkSyncState, seen_ids.
  destruct (bool_decide_reflect (GetMeta MetaWorkPageSeenIDs s = "")); cbn; [by intros [= <-]|].
  destruct (unmarshal_ids _) as [ids|]; cbn; [by intros [= <-]|done].
Qed.

(** [begin] changes neither the cache nor the cursor; a walk that starts from nothing
    starts with nothing seen. *)
Lemma begin_run (c : cstate W) st after mode :
  sync_ok (cl_store c) → GetWorkSyncState (cl_store c) = Ok st → resume_at st = (after, mode) →
  ∃ s, begin mode c = (with_store s c, Ok tt) ∧
       (∀ id, cached s id = cached (cl_store c) id) ∧ local_work s = local_work (cl_store c) ∧
       ascii_ids (seen_ids s) ∧ (after = "" → seen_ids s = ∅).
Proof.
  intros (_ & Hasc & Hpc) Hst Hat. destruct (GetWorkSyncState_fields _ _ Hst) as (Hc & Hp & Hm & Hi & Hseen).
  unfold begin, BeginWorkPage. set (s1 := SetMeta MetaWorkPageMode _ _).
  assert (seen_ids s1 = seen_ids (cl_store c)) as Hs1 by (unfold seen_ids, s1; by rewrite !GetMeta_ne).
  assert (∃ st1, GetWorkSyncState s1 = Ok st1 ∧ ws_PageCursor st1 = ws_PageCursor st) as (st1 & -> & ->).
  { revert Hst. unfold GetWorkSyncState, s1. rewrite !(GetMeta_ne _ _ _ MetaWorkPageSeenIDs) by done.
    destruct (bool_decide_reflect (GetMeta MetaWorkPageSeenIDs (cl_store c) = "")); cbn;
      [|destruct (unmarshal_ids _); cbn; [|done]]; intros [= <-]; eexists; split; try done.
    all: cbn; by rewrite !GetMeta_ne. }
  assert (seen_ids (SetMeta MetaWorkPageSeenIDs "[]" s1) = ∅) as Hempty.
  { unfold seen_ids. rewrite GetMeta_eq, bool_decide_false by done. by rewrite unmarshal_empty. }
  destruct (bool_decide_reflect (mode = WorkModeSnapshot)) as [Hmode|Hmode].
  - destruct (bool_decide_reflect (ws_PageCursor st = "")) as [Hpage|Hpage].
    + eexists. split_and!; [done|done|done| |done]. rewrite Hempty. intros x. set_solver.
    + eexists. split_and!; [done|done|done|by rewrite Hs1|]. intros ->. exfalso.
      revert Hat. unfold resume_at. rewrite Hi.
      destruct (bool_decide_reflect (GetMeta MetaWorkInProgress (cl_store c) = "1")) as [Hin|Hin].
      * rewrite bool_decide_false by done. cbn. intros [= ? _]. congruence.
      * intros _. apply Hpage. rewrite Hp. by apply Hpc.
  - eexists. split_and!; [done|done|done|by rewrite Hs1|]. intros ->.
    revert Hat. unfold resume_at. destruct (ws_InProgress st), (bool_decide_reflect (ws_PageCursor st = "")),
      (bool_decide_reflect (ws_Cursor st = "")); cbn; intros Hat; simplify_eq; congruence.
Qed.

(** ** Committing *)

Lemma NoDup_fmap_inj_on {A B} (f : A → B) l x y :
  NoDup (f <$> l) → x ∈ l → y ∈ l → f x = f y → x = y.
Proof.
  induction l as [|z l IH]; [by intros _ ?%elem_of_nil|]. cbn. intros [Hz Hn]%NoDup_cons.
  intros [->|Hx]%elem_of_cons [->|Hy]%elem_of_cons E; [done| | |by apply IH].
  - destruct Hz. rewrite E. by apply list_elem_of_fmap_2.
  - destruct Hz. rewrite <-E. by apply list_elem_of_fmap_2.
Qed.

Lemma GetMeta_work t s k : GetMeta k (set_work t s) = GetMeta k s.
Proof. done. Qed.

Lemma Commit_meta now cur mode s :
  GetMeta MetaWorkCursor (CommitWorkSync now cur mode s) = cur ∧
  sync_ok (CommitWorkSync now cur mode s) ∧ local_work (CommitWorkSync now cur mode s) = local_work s.
Proof.
  unfold CommitWorkSync. split_and!.
  - rewrite !GetMeta_ne by done. by rewrite GetMeta_eq.
  - unfold sync_ok, GetWorkSyncState, seen_ids. rewrite !(GetMeta_ne _ _ _ MetaWorkPageSeenIDs) by done.
    rewrite !GetMeta_eq. cbn. split_and!; [by eexists|by intros x ?%elem_of_empty|].
    intros _. rewrite !(GetMeta_ne _ _ _ MetaWorkPageCursor) by done. by rewrite GetMeta_eq.
  - by case_bool_decide.
Qed.

Lemma Commit_cached now cur mode s id :
  st_work (CommitWorkSync now cur mode s) !! id =
    (if bool_decide (mode = WorkModeSnapshot) then reconcile now (seen_ids s) id else λ r, r) <$> st_work s !! id.
Proof.
  unfold CommitWorkSync. cbn [st_work SetMeta set_meta]. case_bool_decide; cbn [st_work SetMeta set_meta set_work].
  - rewrite map_lookup_imap. by destruct (st_work s !! id).
  - by destruct (st_work s !! id).
Qed.

Lemma reconcile_seen now seen id r : id ∈ seen → reconcile now seen id r = r.
Proof. intros Hid. unfold reconcile. by rewrite bool_decide_true by done. Qed.

Lemma reconcile_unseen now seen id r :
  id ∉ seen → sa_State (wi_Assignment (wr_Item (reconcile now seen id r))) ∈ ["cancelled"; "completed"].
Proof.
  intros Hid. unfold reconcile. rewrite bool_decide_false by done. cbn [orb].
  case_bool_decide as Hs; [done|]. cbn. set_solver.
Qed.

(** The committed walk: an item the walk saw, or any item after an incremental walk,
    stays as it was cached. *)
Lemma Commit_keeps now cur mode s it id :
  mode ≠ WorkModeSnapshot ∨ id ∈ seen_ids s → cached s id = Some it →
  cached (CommitWorkSync now cur mode s) id = Some it.
Proof.
  intros Hor Hc. unfold cached in *. rewrite Commit_cached.
  destruct (st_work s !! id) as [r|]; [|done]. cbn in *. case_bool_decide; [|done].
  destruct Hor as [?|?]; [done|]. by rewrite reconcile_seen.
Qed.

End pull.
