(* ===== verification/Responses.v ===== *)
(** * Conceptual responses and their review ([repo/responses.go])

    A student submits a text for a task, at most one waits for review per assignment
    and task, a parent accepts or returns it, a returned one may be revised.  The
    handlers that join this with the mastery engine are in [StudentApi].  The digest
    ([sha256] in hexadecimal) is a parameter. *)
From S2P Require Import Prelude GoStrings Utf8 Float64 Contracts ContentJson LmsData LmsDb Sample Sessions.
From S2P Require Import ContentEncode.
From stdpp Require Import options.
Local Open Scope string_scope.
Local Open Scope list_scope.

Abbreviation ResponseSubmitted := "submitted".
Abbreviation ResponseAccepted := "accepted".
Abbreviation ResponseReturned := "returned".
Abbreviation ReviewAccept := "accept".
Abbreviation ReviewReturn := "return".
Abbreviation TaskKindAction := "action".
Abbreviation TaskKindShortResponse := "short_response".
Abbreviation EventResponseSubmitted := "response_submitted".
Abbreviation EventResponseReturned := "response_returned".
Abbreviation BlockParentNote := "parent_note".

Definition DefaultResponseMaxChars : Z := 2000.
Definition MaxResponseMaxChars : Z := 8000.

Definition TaskKindOrDefault (t : Task) : string :=
  if bool_decide (tk_Kind t = "") then TaskKindAction else tk_Kind t.

Definition findTask (tasks : list Task) (id : string) : option Task :=
  find (λ t, bool_decide (tk_ID t = id)) tasks.

Definition tutor_markers : list string :=
  ["[tutor]"; "as your tutor"; "i am an ai"; "generated by the tutor"].

Definition looksLikeTutorAuthored (body : string) : bool :=
  existsb (λ m, Contains (ToLower body) m) tutor_markers.

(** The rows of the snapshot as [decodeRubric] reads them back. *)
Definition rubricSnapshot (criteria : list RubricCriterion) : list jmap :=
  (λ c, list_to_map ([("id", JStr (rc_ID c)); ("description", JStr (rc_Description c))] ++
                     if rc_Required c then [("required", JBool true)] else [])) <$> criteria.

(** [QueryRow(...).Scan]: the first row. *)
Definition first_row {A} (l : list A) : M A :=
  match l with [] => throw ErrNotFound | x :: _ => mret x end.

Definition by_submission (submissionID : string) (r : StudentResponse) : bool :=
  bool_decide (sr_SubmissionID r = submissionID).

Definition GetResponseBySubmissionID (submissionID : string) : M StudentResponse :=
  l ← query (λ d, select (by_submission submissionID) (db_responses d)); first_row l.

Definition GetResponse (id : string) : M StudentResponse := Get id.

Definition for_task (assignmentID taskID : string) (r : StudentResponse) : bool :=
  bool_decide (sr_AssignmentID r = assignmentID) && bool_decide (sr_TaskID r = taskID).

Definition nextResponseAttempt (assignmentID taskID : string) : M Z :=
  m ← query (λ d, default 0%Z (max_seq (sr_Attempt <$> select (for_task assignmentID taskID) (db_responses d))));
  mret (m + 1)%Z.

Definition awaiting (assignmentID taskID : string) (r : StudentResponse) : bool :=
  for_task assignmentID taskID r && bool_decide (sr_Status r = ResponseSubmitted).

Definition latestOpenResponse (assignmentID taskID : string) : M StudentResponse :=
  l ← query (λ d, order_by (λ a b, Z.leb (sr_Attempt b) (sr_Attempt a))
                    (select (awaiting assignmentID taskID) (db_responses d)));
  first_row l.

Section responses.
Context `{!Postgres} (sha256_hex : string → string).

Definition newline : string := bytes [10].

Definition hashBody (body : string) : string := sha256_hex body.
Definition responseDigest (taskID body : string) : string := sha256_hex (taskID +:+ newline +:+ body).

(** The checks that need no database. *)
Definition checkSubmission (req : ResponseSubmission) : M string :=
  if bool_decide (rq_SubmissionID req = "") then throw (ErrBadRequest "submissionId is required")
  else if blank (rq_TaskID req) then throw (ErrBadRequest "taskId is required")
  else
    let body := TrimSpace (rq_Body req) in
    if bool_decide (body = "") then throw (ErrBadRequest "body is required")
    else if bool_decide (MaxResponseMaxChars < Z.of_nat (RuneCountInString body))%Z
         then throw (ErrBadRequest "body exceeds 8000 characters")
         else if looksLikeTutorAuthored body then throw (ErrBadRequest "body must be the student's own response")
              else mret body.

(** The task of the revision, if it takes a short response of this length. *)
Definition responseTask (content : ActivityContent) (taskID body : string) : M ResponseTaskSpec :=
  match findTask (ac_Tasks content) taskID with
  | None => throw (ErrBadRequest "unknown taskId for this revision")
  | Some task =>
      match tk_Response task with
      | Some spec =>
          if negb (bool_decide (TaskKindOrDefault task = TaskKindShortResponse))
          then throw (ErrBadRequest "task is not a short_response task")
          else
            let maxChars := if bool_decide (rs_MaxChars spec ≤ 0)%Z then DefaultResponseMaxChars
                            else rs_MaxChars spec in
            if bool_decide (maxChars < Z.of_nat (RuneCountInString body))%Z
            then throw (ErrBadRequest "body exceeds task maxChars")
            else mret spec
      | None => throw (ErrBadRequest "task is not a short_response task")
      end
  end.

Definition insertResponse (sess : LearningSession) (device : StudentDevice) (req : ResponseSubmission)
    (body : string) (spec : ResponseTaskSpec) (attempt now : Z) : M StudentResponse :=
  Create (λ id at_, mkStudentResponse id (rq_SubmissionID req) (dv_StudentID device) (ls_ID sess)
    (ls_AssignmentID sess) (ls_ActivityRevisionID sess) (rq_TaskID req) body (hashBody body)
    ResponseSubmitted
    (if bool_decide (rq_RequestDigest req = "") then responseDigest (rq_TaskID req) body else rq_RequestDigest req)
    attempt (rubricSnapshot (rs_Rubric spec)) (rs_ParentReviewRequired spec) now None None "" at_ at_).

(** The transaction, for a submission id that no row has. *)
Definition newResponse (device : StudentDevice) (sessionID : string) (req : ResponseSubmission)
    (body : string) (now : Z) : M (StudentResponse * bool) :=
  sess ← GetSession sessionID;
  if negb (bool_decide (ls_StudentID sess = dv_StudentID device)) then throw ErrNotFound
  else if bool_decide (ls_State sess = SessionAbandoned) then throw (ErrBadRequest "session is abandoned")
  else
    asg ← (Get (ls_AssignmentID sess) : M StudentAssignment);
    if bool_decide (sa_State asg = AssignmentCancelled) then throw (ErrBadRequest "assignment is cancelled")
    else
      rev ← GetRevision (ls_ActivityRevisionID sess);
      content ← decodeContent (rv_Content rev);
      spec ← responseTask content (rq_TaskID req) body;
      attempt_ ← nextResponseAttempt (ls_AssignmentID sess) (rq_TaskID req);
      open ← attempt (latestOpenResponse (ls_AssignmentID sess) (rq_TaskID req));
      match open with
      | Ok _ => throw (ErrBadRequest "a response is already awaiting review; revise only after return")
      | Err ErrNotFound =>
          rec ← insertResponse sess device req body spec attempt_ now;
          _ ← attempt (InsertServerSessionEvent (ls_ID sess) EventResponseSubmitted (Some (list_to_map [
                 ("submissionId", JStr (rq_SubmissionID req)); ("responseId", JStr (sr_ID rec));
                 ("taskId", JStr (rq_TaskID req)); ("attempt", JInt attempt_);
                 ("bodySha256", JStr (hashBody body)); ("source", JStr "student")])) now);
          mret (rec, true)
      | Err e => throw e
      end.

Definition SubmitStudentResponse (device : StudentDevice) (sessionID : string) (req : ResponseSubmission)
    (now : Z) : M (StudentResponse * bool) :=
  body ← checkSubmission req;
  WithTx (
    existing ← attempt (GetResponseBySubmissionID (rq_SubmissionID req));
    match existing with
    | Ok x =>
        if negb (bool_decide (sr_BodySHA256 x = hashBody body)) &&
           negb (bool_decide (sr_RequestDigest x = responseDigest (rq_TaskID req) body))
        then throw (ErrConflict "submission id reused with different body")
        else mret (x, false)
    | Err ErrNotFound => newResponse device sessionID req body now
    | Err e => throw e
    end).

(** ** Listing *)

Record ResponseListItem := mkResponseListItem {
  rl_Response : StudentResponse; rl_StudentName : string; rl_ActivitySlug : string;
  rl_ActivityTitle : string; rl_TaskTitle : string; rl_ReviewRequired : bool }.

(** The title of the task, best effort: a second statement can only run while the rows
    are read when the querier is the pool. *)
Definition task_title (d : database) (m : qmode) (r : StudentResponse) : string :=
  match m, db_revisions d !! sr_ActivityRevisionID r with
  | QPool, Some rev =>
      match DecodeActivityContent (rv_Content rev) with
      | Ok content => match findTask (ac_Tasks content) (sr_TaskID r) with Some t => tk_Title t | None => "" end
      | Err _ => ""
      end
  | _, _ => ""
  end.

Definition list_item (d : database) (m : qmode) (r : StudentResponse) : option ResponseListItem :=
  s ← db_students d !! sr_StudentID r;
  rev ← db_revisions d !! sr_ActivityRevisionID r;
  a ← db_activities d !! rv_ActivityID rev;
  Some (mkResponseListItem r (su_FirstName s +:+ " " +:+ su_LastName s) (la_Slug a) (la_Title a)
          (task_title d m r) (sr_ParentReviewRequired r || bool_decide (sr_Status r = ResponseSubmitted))).

Definition ListResponsesForReview (studentID status : string) (limit : Z) : M (list ResponseListItem) := λ q c,
  let limit := if bool_decide (limit ≤ 0)%Z || bool_decide (200 < limit)%Z then 50%Z else limit in
  let status := if bool_decide (status = "") then ResponseSubmitted else status in
  query (λ d,
    take (Z.to_nat limit)
      (omap (list_item d (q_mode q))
        (order_by (λ a b, Z.leb (sr_SubmittedAt a) (sr_SubmittedAt b))
          (select (λ r, (bool_decide (studentID = "") || bool_decide (sr_StudentID r = studentID)) &&
                        bool_decide (sr_Status r = status)) (db_responses d))))) q c.

Definition ListResponseReviews (responseID : string) : M (list StudentResponseReview) :=
  query (λ d, order_by (λ a b, Z.leb (sw_CreatedAt a) (sw_CreatedAt b))
                (select (λ r, bool_decide (sw_ResponseID r = responseID)) (db_reviews d))).

Record ResponseDetail := mkResponseDetail {
  rd_Response : StudentResponse; rd_Reviews : list StudentResponseReview; rd_Student : Student;
  rd_ActivitySlug : string; rd_ActivityTitle : string; rd_Task : option Task;
  rd_StudentBlocks : list InstructionBlock; rd_ParentNotes : list InstructionBlock }.

Definition GetResponseDetail (responseID : string) : M ResponseDetail :=
  resp ← GetResponse responseID;
  st ← (Get (sr_StudentID resp) : M Student);
  rev ← GetRevision (sr_ActivityRevisionID resp);
  act ← (Get (rv_ActivityID rev) : M LearningActivity);
  content ← decodeContent (rv_Content rev);
  reviews ← ListResponseReviews responseID;
  mret (mkResponseDetail resp reviews st (la_Slug act) (la_Title act)
          (findTask (ac_Tasks content) (sr_TaskID resp)) (StudentBlocks (ac_Blocks content))
          (filter (λ b, ib_Kind b = BlockParentNote) (ac_Blocks content))).

(** [DISTINCT task_id] as the keys of the map. *)
Definition ListSubmittedTaskIDs (sessionID : string) : M (gset string) :=
  query (λ d, list_to_set (sr_TaskID <$>
    select (λ r, bool_decide (sr_SessionID r = sessionID) &&
                 one_of (sr_Status r) ["submitted"; "accepted"]) (db_responses d))).

(** ** Review *)

Record ReviewDecisionInput := mkReviewDecision {
  rdi_Decision : string; rdi_Reason : string; rdi_Criteria : option (list jmap) }.

Definition response_reviewed (status : string) (now : Z) (educatorID reason : string) (at_ : Z)
    (r : StudentResponse) : StudentResponse :=
  mkStudentResponse (sr_ID r) (sr_SubmissionID r) (sr_StudentID r) (sr_SessionID r) (sr_AssignmentID r)
    (sr_ActivityRevisionID r) (sr_TaskID r) (sr_Body r) (sr_BodySHA256 r) status (sr_RequestDigest r)
    (sr_Attempt r) (sr_RubricSnapshot r) (sr_ParentReviewRequired r) (sr_SubmittedAt r) (Some now)
    (Some educatorID) reason (sr_CreatedAt r) at_.

(** The decision on a response that awaits it. *)
Definition decideResponse (educatorID responseID decision : string) (in_ : ReviewDecisionInput)
    (cur : StudentResponse) (now : Z) : M (StudentResponse * option StudentResponseReview) :=
  let newStatus := if bool_decide (decision = ReviewReturn) then ResponseReturned else ResponseAccepted in
  review ← Create (λ id at_, mkStudentResponseReview id responseID educatorID decision
                               (TrimSpace (rdi_Reason in_)) (default [] (rdi_Criteria in_)) at_);
  let reason := if bool_decide (decision = ReviewReturn) then TrimSpace (rdi_Reason in_) else "" in
  updated ← Update responseID (response_reviewed newStatus now educatorID reason);
  _ ← attempt (InsertServerSessionEvent (sr_SessionID cur)
         (if bool_decide (decision = ReviewAccept) then EventResponseSubmitted else EventResponseReturned)
         (Some (list_to_map [
           ("responseId", JStr responseID); ("decision", JStr decision); ("educatorId", JStr educatorID);
           ("reason", JStr reason); ("source", JStr "parent")])) now);
  mret (updated, Some review).

(** The status a decision leads to. *)
Definition decided (decision : string) : string :=
  if bool_decide (decision = ReviewReturn) then ResponseReturned else ResponseAccepted.

Definition ApplyResponseReview (educatorID responseID : string) (in_ : ReviewDecisionInput) (now : Z)
  : M (StudentResponse * option StudentResponseReview) :=
  let decision := TrimSpace (rdi_Decision in_) in
  if negb (bool_decide (decision = ReviewAccept)) && negb (bool_decide (decision = ReviewReturn))
  then throw (ErrBadRequest "decision must be accept or return")
  else if bool_decide (decision = ReviewReturn) && blank (rdi_Reason in_)
  then throw (ErrBadRequest "return requires a reason")
  else WithTx (
    cur ← GetResponse responseID;
    if bool_decide (sr_Status cur = decided decision)
    then reviews ← ListResponseReviews responseID; mret (cur, last reviews)
    else if negb (bool_decide (sr_Status cur = ResponseSubmitted))
    then throw (ErrBadRequest "response is not awaiting review")
    else decideResponse educatorID responseID decision in_ cur now).
End responses.

(** ** The audit events *)

(** Nothing but events and sessions is written. *)
Definition events_only (d d' : database) : Prop := ∃ ts te, d' = set_sessions ts (set_events te d).

#[global] Instance events_only_preorder : PreOrder events_only.
Proof.
  split.
  - intros d. exists (db_sessions d), (db_events d). by destruct d.
  - intros d1 d2 d3 (ts & te & ->) (ts' & te' & ->). exists ts', te'. by destruct d1.
Qed.

Section response_theorems.
Context `{!Postgres} (sha256_hex : string → string).

Lemma events_only_touch sid now : preserves events_only (touchSession sid now).
Proof.
  intros q c. unfold touchSession. apply preserves_stmt; [apply _|]. intros d d' [].
  destruct (db_sessions d !! sid); intros [= <-]; [|reflexivity].
  eexists _, (db_events d). by destruct d.
Qed.

Lemma events_only_server_event sid ty payload now :
  preserves events_only (InsertServerSessionEvent sid ty payload now).
Proof.
  apply preserves_WithTx; [apply _|]. apply preserves_bind; [apply _|apply preserves_readonly; [apply _|auto with primer]|].
  intros m. apply preserves_bind; [apply _|apply preserves_readonly; [apply _|auto with primer]|].
  intros id. apply preserves_bind; [apply _|apply preserves_Create; [apply _|]|intros; apply events_only_touch].
  intros d x. exists (db_sessions d), (<[ev_ID x := x]> (db_events d)). by destruct d.
Qed.

(** ** Taking runs apart *)

Lemma first_row_Ok {A} (l : list A) q c c' x : first_row l q c = (c', Ok x) → c' = c ∧ ∃ l', l = x :: l'.
Proof. destruct l as [|y l]; [done|]. unfold first_row, mret, M_ret. intros Hr. simplify_eq. eauto. Qed.

Lemma first_row_NotFound {A} (l : list A) q c c' :
  first_row l q c = (c', Err ErrNotFound) → c' = c ∧ l = [].
Proof. destruct l; [|done]. unfold first_row, throw. intros Hr. by simplify_eq. Qed.

Lemma query_first_row {A} (f : database → list A) q c c' r : cn_aborted c = false →
  (query f ≫= first_row) q c = (c', r) → c' = c ∧ r = match f (cn_db c) with [] => Err ErrNotFound | x :: _ => Ok x end.
Proof.
  intros Hl. unfold mbind, M_bind. rewrite query_run by done.
  destruct (f (cn_db c)); cbn; unfold throw, mret, M_ret; intros Hr; by simplify_eq.
Qed.

Lemma order_by_nil {A} (le : A → A → bool) l : order_by le l = [] → l = [].
Proof. intros Hn. pose proof (order_by_perm le l) as Hp. rewrite Hn in Hp. by apply Permutation_nil in Hp. Qed.

Lemma checkSubmission_Ok req q c c' body : checkSubmission req q c = (c', Ok body) →
  c' = c ∧ body = TrimSpace (rq_Body req) ∧ rq_SubmissionID req ≠ "" ∧ blank (rq_TaskID req) = false ∧ body ≠ "" ∧
  (Z.of_nat (RuneCountInString body) ≤ MaxResponseMaxChars)%Z ∧ looksLikeTutorAuthored body = false.
Proof.
  unfold checkSubmission. case_bool_decide; [done|]. destruct (blank _); [done|].
  case_bool_decide; [done|]. case_bool_decide; [done|].
  destruct (looksLikeTutorAuthored _) eqn:E; [done|]. intros [= <- <-]. split_and!; (done || lia).
Qed.

Lemma responseTask_Ok content taskID body q c c' spec : responseTask content taskID body q c = (c', Ok spec) →
  c' = c ∧ ∃ task, findTask (ac_Tasks content) taskID = Some task ∧ tk_Response task = Some spec ∧
  TaskKindOrDefault task = TaskKindShortResponse ∧
  (Z.of_nat (RuneCountInString body) ≤
     if bool_decide (rs_MaxChars spec ≤ 0) then DefaultResponseMaxChars else rs_MaxChars spec)%Z.
Proof.
  unfold responseTask. destruct (findTask _ _) as [task|]; [|done].
  destruct (tk_Response task) as [sp|] eqn:Er; [|done].
  destruct (bool_decide_reflect (TaskKindOrDefault task = TaskKindShortResponse)); cbn [negb]; [|done].
  destruct (bool_decide_reflect ((if bool_decide (rs_MaxChars sp ≤ 0) then DefaultResponseMaxChars
    else rs_MaxChars sp) < Z.of_nat (RuneCountInString body))%Z); [done|].
  intros [= <- <-]. split; [done|]. exists task. split_and!; (done || lia).
Qed.

(** The row a submission makes. *)
Definition response_row (id : string) (sess : LearningSession) (device : StudentDevice) (req : ResponseSubmission)
    (body : string) (spec : ResponseTaskSpec) (attempt now at_ : Z) : StudentResponse :=
  mkStudentResponse id (rq_SubmissionID req) (dv_StudentID device) (ls_ID sess)
    (ls_AssignmentID sess) (ls_ActivityRevisionID sess) (rq_TaskID req) body (hashBody sha256_hex body)
    ResponseSubmitted
    (if bool_decide (rq_RequestDigest req = "") then responseDigest sha256_hex (rq_TaskID req) body
     else rq_RequestDigest req)
    attempt (rubricSnapshot (rs_Rubric spec)) (rs_ParentReviewRequired spec) now None None "" at_ at_.

(** When a student may submit a new response for a task of a session. *)
Definition submission_allowed (d : database) (device : StudentDevice) (sid taskID body : string)
    (sess : LearningSession) (spec : ResponseTaskSpec) : Prop :=
  db_sessions d !! sid = Some sess ∧ ls_StudentID sess = dv_StudentID device ∧ ls_State sess ≠ SessionAbandoned ∧
  (∃ asg, db_assignments d !! ls_AssignmentID sess = Some asg ∧ sa_State asg ≠ AssignmentCancelled) ∧
  (∃ rev content task, db_revisions d !! ls_ActivityRevisionID sess = Some rev ∧
     DecodeActivityContent (rv_Content rev) = Ok content ∧ findTask (ac_Tasks content) taskID = Some task ∧
     tk_Response task = Some spec ∧ TaskKindOrDefault task = TaskKindShortResponse ∧
     (Z.of_nat (RuneCountInString body) ≤
        if bool_decide (rs_MaxChars spec ≤ 0) then DefaultResponseMaxChars else rs_MaxChars spec)%Z) ∧
  select (awaiting (ls_AssignmentID sess) taskID) (db_responses d) = [].

Definition next_attempt (d : database) (aid taskID : string) : Z :=
  (default 0 (max_seq (sr_Attempt <$> select (for_task aid taskID) (db_responses d))) + 1)%Z.

(** What a stored submission has done: one row more, besides the audit event. *)
Definition response_stored (device : StudentDevice) (sid : string) (req : ResponseSubmission) (now at_ : Z)
    (d d' : database) (r : StudentResponse) : Prop :=
  ∃ sess spec id, submission_allowed d device sid (rq_TaskID req) (sr_Body r) sess spec ∧
    r = response_row id sess device req (TrimSpace (rq_Body req)) spec
          (next_attempt d (ls_AssignmentID sess) (rq_TaskID req)) now at_ ∧
    db_responses d !! id = None ∧ violation d r = None ∧
    events_only (set_responses (<[id := r]> (db_responses d)) d) d'.

Lemma newResponse_Ok device sid req now q c c' r b :
  newResponse sha256_hex device sid req (TrimSpace (rq_Body req)) now q c = (c', Ok (r, b)) →
  b = true ∧ response_stored device sid req now (q_now q) (cn_db c) (cn_db c') r.
Proof.
  unfold newResponse. intros (c1 & sess & (Hl & -> & Hsess)%Get_Ok & Hr)%M_bind_Ok.
  destruct (bool_decide_reflect (ls_StudentID sess = dv_StudentID device)) as [Hstu|]; cbn [negb] in Hr; [|done].
  destruct (bool_decide_reflect (ls_State sess = SessionAbandoned)) as [|Hab]; [done|].
  apply M_bind_Ok in Hr as (c1 & asg & (_ & -> & Hasg)%Get_Ok & Hr).
  destruct (bool_decide_reflect (sa_State asg = AssignmentCancelled)) as [|Hcan]; [done|].
  apply M_bind_Ok in Hr as (c1 & rev & (_ & -> & Hrev)%Get_Ok & Hr).
  apply M_bind_Ok in Hr as (c1 & content & Hdec & Hr).
  unfold decodeContent in Hdec. destruct (DecodeActivityContent (rv_Content rev)) eqn:Ed; [|done].
  injection Hdec as <- <-.
  apply M_bind_Ok in Hr as (c1 & spec & (-> & task & Ht1 & Ht2 & Ht3 & Ht4)%responseTask_Ok & Hr).
  apply M_bind_Ok in Hr as (c1 & n & (c2 & m & (_ & -> & ->)%query_Ok & Hn)%M_bind_Ok & Hr). injection Hn as <- <-.
  apply M_bind_Ok in Hr as (c1 & open & Hopen%attempt_inv & Hr).
  unfold latestOpenResponse in Hopen. apply query_first_row in Hopen as [-> ->]; [|done].
  destruct (order_by _ _) eqn:Hnone in Hr; [|done]. apply order_by_nil in Hnone.
  apply M_bind_Ok in Hr as (c1 & rec & Hins & Hr).
  apply M_bind_Ok in Hr as (c2 & u & Hev%attempt_inv & Hr). injection Hr as <- <- <-.
  split; [done|]. apply Create_Ok in Hins as (Hrow & Hdb & Hviol & _ & _).
  exists sess, spec, (gen_random_uuid (dom (db_responses (cn_db c)))). split_and!.
  - rewrite Hrow. cbn [sr_Body]. split_and!; eauto 10.
  - exact Hrow.
  - exact (Create_fresh (A:=StudentResponse) (cn_db c)).
  - exact Hviol.
  - rewrite Hrow in Hdb at 1. cbn in Hdb. rewrite <-Hdb.
    pose proof (events_only_server_event (ls_ID sess) EventResponseSubmitted) as He.
    match type of Hev with InsertServerSessionEvent _ _ ?p ?t ?q' ?c' = _ => specialize (He p t q' c') end.
    by rewrite Hev in He.
Qed.

Lemma WithTx_Err_db {A} (m : M A) q c c' e :
  q_mode q ≠ QSavepoint → WithTx m q c = (c', Err e) → cn_db c' = cn_db c.
Proof.
  unfold WithTx. destruct (q_mode q); intros Hq; [| |done].
  all: destruct (cn_aborted c); [by intros [= <- _]|].
  all: destruct (m _ c) as [c1 [a|e1]]; [destruct (cn_aborted c1)|]; by intros [= <- _].
Qed.

Lemma Submit_cases device sid req now q c c' r b : q_mode q ≠ QSavepoint →
  SubmitStudentResponse sha256_hex device sid req now q c = (c', Ok (r, b)) →
  cn_aborted c = false ∧ cn_aborted c' = false ∧ looksLikeTutorAuthored (TrimSpace (rq_Body req)) = false ∧
  ((b = false ∧ c' = c ∧ (∃ l, select (by_submission (rq_SubmissionID req)) (db_responses (cn_db c)) = r :: l) ∧
    (sr_BodySHA256 r = hashBody sha256_hex (TrimSpace (rq_Body req)) ∨
     sr_RequestDigest r = responseDigest sha256_hex (rq_TaskID req) (TrimSpace (rq_Body req)))) ∨
   (b = true ∧ select (by_submission (rq_SubmissionID req)) (db_responses (cn_db c)) = [] ∧
    response_stored device sid req now (q_now q) (cn_db c) (cn_db c') r)).
Proof.
  intros Hq. unfold SubmitStudentResponse.
  intros (c1 & body & (-> & -> & _ & _ & _ & _ & Hown)%checkSubmission_Ok & Hr)%M_bind_Ok.
  apply WithTx_Ok in Hr as (Hl & Hr & Hl'); [|done].
  apply M_bind_Ok in Hr as (c1 & x & Hx%attempt_inv & Hr).
  unfold GetResponseBySubmissionID in Hx. apply query_first_row in Hx as [-> ->]; [|done].
  split_and!; [done..|]. destruct (select _ _) as [|x l] eqn:Hsel.
  - apply newResponse_Ok in Hr as [-> Hr]. by right.
  - left. destruct (bool_decide_reflect (sr_BodySHA256 x = hashBody sha256_hex (TrimSpace (rq_Body req)))),
      (bool_decide_reflect (sr_RequestDigest x = responseDigest sha256_hex (rq_TaskID req) (TrimSpace (rq_Body req)))).
    all: cbn [negb andb] in Hr; try done; injection Hr as <- <- <-; eauto 10.
Qed.

Lemma Submit_Err_db device sid req now q c c' e : q_mode q ≠ QSavepoint →
  SubmitStudentResponse sha256_hex device sid req now q c = (c', Err e) → cn_db c' = cn_db c.
Proof.
  intros Hq. unfold SubmitStudentResponse, mbind at 1, M_bind at 1.
  destruct (checkSubmission req q c) as [c1 [body|e1]] eqn:E.
  - apply checkSubmission_Ok in E as (-> & _). by apply WithTx_Err_db.
  - intros [= <- _]. f_equal. eapply readonly_conn; [|exact E]. unfold checkSubmission.
    repeat case_bool_decide; try destruct (blank _); try destruct (looksLikeTutorAuthored _); auto with primer.
Qed.

(** ** Reviews *)

Definition review_of (id : string) (w : StudentResponseReview) : bool := bool_decide (sw_ResponseID w = id).

(** What a decision has done: the row of the review, and the response with its new
    status. *)
Definition review_stored (educatorID id decision : string) (in_ : ReviewDecisionInput) (now at_ : Z)
    (d d' : database) (cur r : StudentResponse) : Prop :=
  ∃ w, db_responses d !! id = Some cur ∧ sr_Status cur = ResponseSubmitted ∧
    (decision = ReviewAccept ∨ decision = ReviewReturn) ∧
    r = response_reviewed (decided decision) now educatorID
          (if bool_decide (decision = ReviewReturn) then TrimSpace (rdi_Reason in_) else "") at_ cur ∧
    db_reviews d !! sw_ID w = None ∧ sw_ResponseID w = id ∧ sw_EducatorID w = educatorID ∧ sw_Decision w = decision ∧
    events_only (set_responses (<[id := r]> (db_responses d)) (set_reviews (<[sw_ID w := w]> (db_reviews d)) d)) d'.

Lemma decideResponse_Ok educatorID id decision in_ cur now q c c' r w :
  db_responses (cn_db c) !! id = Some cur → sr_Status cur = ResponseSubmitted →
  decision = ReviewAccept ∨ decision = ReviewReturn →
  decideResponse educatorID id decision in_ cur now q c = (c', Ok (r, w)) →
  review_stored educatorID id decision in_ now (q_now q) (cn_db c) (cn_db c') cur r.
Proof.
  intros Hcur Hst Hdec. unfold decideResponse. intros (c1 & rw & Hrw & Hr)%M_bind_Ok.
  apply Create_Ok in Hrw as (Hw & Hdb & _ & _ & Hl1).
  apply M_bind_Ok in Hr as (c2 & upd & Hupd & Hr). apply Update_Ok in Hupd as (x & Hx & Hxr & Hdb2 & _ & _ & _).
  apply M_bind_Ok in Hr as (c3 & u & Hev%attempt_inv & Hr). injection Hr as <- <- _.
  assert (x = cur) as ->.
  { rewrite Hdb in Hx. destruct (cn_db c). cbn in *. congruence. }
  exists rw. split_and!; try done.
  - rewrite Hw. exact (Create_fresh (A:=StudentResponseReview) (cn_db c)).
  - by rewrite Hw.
  - by rewrite Hw.
  - by rewrite Hw.
  - pose proof (events_only_server_event (sr_SessionID cur)) as He.
    match type of Hev with InsertServerSessionEvent _ ?ty ?p ?t ?q' ?c' = _ => specialize (He ty p t q' c') end.
    rewrite Hev in He. cbn [fst] in He. rewrite Hdb2, Hdb in He. destruct (cn_db c). exact He.
Qed.

Lemma Review_cases educatorID id in_ now q c c' r w : q_mode q ≠ QSavepoint →
  ApplyResponseReview educatorID id in_ now q c = (c', Ok (r, w)) →
  let decision := TrimSpace (rdi_Decision in_) in
  (decision = ReviewAccept ∨ decision = ReviewReturn ∧ blank (rdi_Reason in_) = false) ∧
  ((c' = c ∧ db_responses (cn_db c) !! id = Some r ∧ sr_Status r = decided decision) ∨
   ∃ cur, review_stored educatorID id decision in_ now (q_now q) (cn_db c) (cn_db c') cur r).
Proof.
  intros Hq. cbn zeta. unfold ApplyResponseReview.
  set (decision := TrimSpace (rdi_Decision in_)).
  destruct (bool_decide_reflect (decision = ReviewAccept)) as [Ha|Ha],
    (bool_decide_reflect (decision = ReviewReturn)) as [Hb|Hb]; cbn [negb andb]; try done; [congruence| |].
  2: destruct (blank (rdi_Reason in_)) eqn:Hbl; [done|].
  all: intros Hr; split; [by eauto|]; apply WithTx_Ok in Hr as (Hl & Hr & Hl'); [|done].
  all: apply M_bind_Ok in Hr as (c1 & cur & (_ & -> & Hcur)%Get_Ok & Hr).
  all: destruct (bool_decide_reflect (sr_Status cur = decided decision)) as [Hs|Hs].
  1, 3: left; apply M_bind_Ok in Hr as (c1 & l & (_ & -> & ->)%query_Ok & Hr); by injection Hr as <- <- _.
  all: destruct (bool_decide_reflect (sr_Status cur = ResponseSubmitted)) as [Hsub|]; cbn [negb] in Hr; [|done].
  all: right; exists cur; eapply (decideResponse_Ok _ _ _ _ _ _ (mkEnv QTx (q_now q)));
    [exact Hcur|exact Hsub|by auto|exact Hr].
Qed.

Lemma Review_Err_db educatorID id in_ now q c c' e : q_mode q ≠ QSavepoint →
  ApplyResponseReview educatorID id in_ now q c = (c', Err e) → cn_db c' = cn_db c.
Proof.
  intros Hq. unfold ApplyResponseReview.
  destruct (_ && _); [by intros [= <- _]|]. destruct (_ && _); [by intros [= <- _]|]. by apply WithTx_Err_db.
Qed.

(** ** The invariant *)

Definition same_task (r1 r2 : StudentResponse) : Prop :=
  sr_AssignmentID r1 = sr_AssignmentID r2 ∧ sr_TaskID r1 = sr_TaskID r2.

(** The responses of a task are numbered 1, 2, ... without gaps or repeats; only the
    last may await review; a decided one has exactly one review, which states the
    decision, and one that awaits review has none. *)
Record responses_ok (d : database) : Prop := {
  rok_key k r : db_responses d !! k = Some r → sr_ID r = k;
  rok_status k r : db_responses d !! k = Some r → sr_Status r ∈ [ResponseSubmitted; ResponseAccepted; ResponseReturned];
  rok_attempt k1 k2 r1 r2 : db_responses d !! k1 = Some r1 → db_responses d !! k2 = Some r2 →
    same_task r1 r2 → sr_Attempt r1 = sr_Attempt r2 → k1 = k2;
  rok_pos k r : db_responses d !! k = Some r → (1 ≤ sr_Attempt r)%Z;
  rok_gapless k r i : db_responses d !! k = Some r → (1 ≤ i ≤ sr_Attempt r)%Z →
    ∃ k' r', db_responses d !! k' = Some r' ∧ same_task r r' ∧ sr_Attempt r' = i;
  rok_last k1 k2 r1 r2 : db_responses d !! k1 = Some r1 → db_responses d !! k2 = Some r2 →
    same_task r1 r2 → sr_Status r1 = ResponseSubmitted → (sr_Attempt r2 ≤ sr_Attempt r1)%Z;
  rok_reviews k r : db_responses d !! k = Some r →
    if bool_decide (sr_Status r = ResponseSubmitted) then select (review_of k) (db_reviews d) = []
    else ∃ w, select (review_of k) (db_reviews d) = [w] ∧ decided (sw_Decision w) = sr_Status r;
  rok_review_of k w : db_reviews d !! k = Some w → is_Some (db_responses d !! sw_ResponseID w) }.

Lemma events_only_tables d d' : events_only d d' →
  db_responses d' = db_responses d ∧ db_reviews d' = db_reviews d.
Proof. by intros (ts & te & ->). Qed.

Lemma responses_ok_ext d d' : db_responses d' = db_responses d → db_reviews d' = db_reviews d →
  responses_ok d → responses_ok d'.
Proof.
  intros E1 E2 []. by split; rewrite ?E1, ?E2.
Qed.

Lemma max_seq_in l m : max_seq l = Some m → m ∈ l.
Proof.
  destruct l as [|x l]; [done|]. cbn. intros [= <-]. revert x. induction l as [|y l IH]; intros x; cbn; [left|].
  destruct (Z.max_spec x y) as [[_ ->]|[_ ->]].
  - right. apply IH.
  - pose proof (IH x) as [E|Hi]%elem_of_cons; [rewrite E; left|by right; right].
Qed.

(** The next number is one above those in use. *)
Lemma next_attempt_spec d aid tid :
  (∀ k r, db_responses d !! k = Some r → sr_AssignmentID r = aid → sr_TaskID r = tid →
          (sr_Attempt r < next_attempt d aid tid)%Z) ∧
  (next_attempt d aid tid = 1 ∨ ∃ k r, db_responses d !! k = Some r ∧ sr_AssignmentID r = aid ∧ sr_TaskID r = tid ∧
                                       next_attempt d aid tid = sr_Attempt r + 1)%Z.
Proof.
  unfold next_attempt. set (l := sr_Attempt <$> _).
  assert (∀ k r, db_responses d !! k = Some r → sr_AssignmentID r = aid → sr_TaskID r = tid → sr_Attempt r ∈ l) as Hin.
  { intros k r Hk Ha Ht. apply list_elem_of_fmap_2, elem_of_select. split; [eauto|].
    unfold for_task. by rewrite !bool_decide_true. }
  destruct (max_seq l) as [m|] eqn:Em; cbn [from_option id].
  - split.
    + intros k r Hk Ha Ht. pose proof (max_seq_ge l m _ Em (Hin k r Hk Ha Ht)). lia.
    + right. apply max_seq_in in Em. apply list_elem_of_fmap in Em as (r & -> & Hr).
      apply elem_of_select in Hr as [[k Hk] Hp]. unfold for_task in Hp. apply andb_true_iff in Hp as [H1 H2].
      apply bool_decide_eq_true in H1, H2. eauto 10.
  - destruct l eqn:El; [|done]. split; [|by left]. intros k r Hk Ha Ht. by apply Hin in Hk; [apply elem_of_nil in Hk|..].
Qed.

Lemma stored_ok device sid req now at_ d d' r :
  response_stored device sid req now at_ d d' r → responses_ok d → responses_ok d'.
Proof.
  intros (sess & spec & id & Hal & Hr & Hnew & _ & [E1 E2]%events_only_tables) Hok.
  apply (responses_ok_ext (set_responses (<[id := r]> (db_responses d)) d)); [done..|]. clear d' E1 E2.
  destruct (next_attempt_spec d (ls_AssignmentID sess) (rq_TaskID req)) as [Hmax Hpred].
  set (n := next_attempt _ _ _) in *.
  assert (sr_ID r = id ∧ sr_Attempt r = n ∧ sr_AssignmentID r = ls_AssignmentID sess ∧ sr_TaskID r = rq_TaskID req ∧
          sr_Status r = ResponseSubmitted) as (Hid & Hn & Ha & Ht & Hs) by by rewrite Hr.
  destruct Hal as (_ & _ & _ & _ & _ & Hopen).
  assert (∀ k x, db_responses d !! k = Some x → same_task r x → (sr_Attempt x < n)%Z ∧ sr_Status x ≠ ResponseSubmitted)
    as Hothers.
  { intros k x Hk [Hxa Hxt]. split; [eapply Hmax; [exact Hk|congruence..]|]. intros Hxs.
    assert (x ∈ select (awaiting (ls_AssignmentID sess) (rq_TaskID req)) (db_responses d)) as Hin.
    { apply elem_of_select. split; [eauto|]. unfold awaiting, for_task. rewrite !bool_decide_true by congruence. done. }
    rewrite Hopen in Hin. by apply elem_of_nil in Hin. }
  assert (1 ≤ n)%Z as Hpos.
  { destruct Hpred as [->|(k & x & Hk & _ & _ & ->)]; [done|]. pose proof (rok_pos d Hok _ _ Hk). lia. }
  assert (∀ k x, db_responses d !! k = Some x → k ≠ id) as Hne by (intros k x Hk ->; congruence).
  split; cbn [db_responses set_responses db_reviews].
  - intros k x [[<- <-]|[_ Hk]]%lookup_insert_Some; [done|by eapply rok_key].
  - intros k x [[<- <-]|[_ Hk]]%lookup_insert_Some; [rewrite Hs; set_solver|by eapply rok_status].
  - intros k1 k2 r1 r2 [[<- <-]|[Hk1 H1]]%lookup_insert_Some [[<- <-]|[Hk2 H2]]%lookup_insert_Some Hst He; [done|..].
    + destruct (Hothers _ _ H2 Hst). lia.
    + destruct (Hothers _ _ H1) as [? _]; [|lia]. by destruct Hst.
    + by eapply (rok_attempt d Hok).
  - intros k x [[<- <-]|[_ Hk]]%lookup_insert_Some; [lia|by eapply rok_pos].
  - intros k x i [[<- <-]|[_ Hk]]%lookup_insert_Some Hi.
    + destruct (decide (i = n)) as [->|Hin]; [exists id, r; by rewrite lookup_insert_eq|].
      destruct Hpred as [?|(k & x & Hk & Hxa & Hxt & Hx)]; [lia|].
      destruct (rok_gapless d Hok k x i Hk) as (k' & r' & Hk' & [] & ?); [lia|].
      exists k', r'. rewrite lookup_insert_ne by (intros ->; by eapply Hne). split_and!; [done|split; congruence|done].
    + destruct (rok_gapless d Hok k x i Hk Hi) as (k' & r' & Hk' & ? & ?). exists k', r'.
      by rewrite lookup_insert_ne by (intros ->; by eapply Hne).
  - intros k1 k2 r1 r2 [[<- <-]|[Hk1 H1]]%lookup_insert_Some [[<- <-]|[Hk2 H2]]%lookup_insert_Some Hst Hs1; [done|..].
    + destruct (Hothers _ _ H2 Hst). lia.
    + destruct (Hothers _ _ H1) as [_ ?]; [by destruct Hst|done].
    + by eapply (rok_last d Hok).
  - intros k x [[<- <-]|[_ Hk]]%lookup_insert_Some; [|by apply (rok_reviews d Hok)].
    rewrite bool_decide_true by done. apply elem_of_nil_inv. intros w [[k Hk] Hw]%elem_of_select.
    apply bool_decide_eq_true in Hw. destruct (rok_review_of d Hok k w Hk) as [x Hx]. congruence.
  - intros k w Hk. destruct (rok_review_of d Hok k w Hk) as [x Hx].
    rewrite lookup_insert_ne by (intros E; eapply Hne; [exact Hx|done]). eauto.
Qed.

(** The columns of a response that no operation changes. *)
Definition response_fixed (r : StudentResponse) :=
  (sr_ID r, sr_SubmissionID r, sr_StudentID r, sr_SessionID r, sr_AssignmentID r, sr_ActivityRevisionID r,
   sr_TaskID r, (sr_Body r, sr_BodySHA256 r, sr_RequestDigest r, sr_Attempt r, sr_RubricSnapshot r,
                 sr_ParentReviewRequired r, sr_SubmittedAt r, sr_CreatedAt r)).

Lemma reviewed_ok educatorID id decision in_ now at_ d d' cur r :
  review_stored educatorID id decision in_ now at_ d d' cur r → responses_ok d → responses_ok d'.
Proof.
  clear sha256_hex. intros (w & Hcur & Hst & Hdec & Hr & Hnew & Hwid & _ & Hwd & [E1 E2]%events_only_tables) Hok.
  eapply responses_ok_ext; [exact E1|exact E2|]. clear d' E1 E2.
  assert (response_fixed r = response_fixed cur ∧ sr_Status r = decided decision) as [Hfix Hs] by by rewrite Hr.
  assert (sr_Status r ≠ ResponseSubmitted) as Hns by (rewrite Hs; unfold decided; by case_bool_decide).
  assert (∀ k x, <[id := r]> (db_responses d) !! k = Some x → ∃ x0, db_responses d !! k = Some x0 ∧
            response_fixed x = response_fixed x0 ∧ (sr_Status x = ResponseSubmitted → x = x0 ∧ k ≠ id) ∧
            (k ≠ id → x = x0)) as Hold.
  { intros k x [[<- <-]|[Hk Hx]]%lookup_insert_Some; [by exists cur|]. exists x. by split_and!. }
  assert (∀ x x0, response_fixed x = response_fixed x0 →
            sr_ID x = sr_ID x0 ∧ sr_Attempt x = sr_Attempt x0 ∧ sr_AssignmentID x = sr_AssignmentID x0 ∧
            sr_TaskID x = sr_TaskID x0) as Hf by (intros x x0 [=]; done).
  assert (∀ k x0, db_responses d !! k = Some x0 → ∃ x, <[id := r]> (db_responses d) !! k = Some x ∧
            response_fixed x = response_fixed x0) as Hnow.
  { intros k x0 Hk. destruct (decide (k = id)) as [->|Hne].
    - exists r. rewrite lookup_insert_eq. split; congruence.
    - exists x0. by rewrite lookup_insert_ne. }
  split; cbn [db_responses set_responses db_reviews set_reviews].
  - intros k x (x0 & Hk & (-> & _)%Hf & _)%Hold. by eapply rok_key.
  - intros k x [[<- <-]|[_ Hk]]%lookup_insert_Some; [|by eapply rok_status].
    rewrite Hs. unfold decided. case_bool_decide; set_solver.
  - intros k1 k2 r1 r2 (x1 & Hk1 & (_ & A1 & A2 & A3)%Hf & _)%Hold (x2 & Hk2 & (_ & B1 & B2 & B3)%Hf & _)%Hold [] He.
    eapply (rok_attempt d Hok); [exact Hk1|exact Hk2|split; congruence|congruence].
  - intros k x (x0 & Hk & (_ & -> & _)%Hf & _)%Hold. by eapply rok_pos.
  - intros k x i (x0 & Hk & (_ & A1 & A2 & A3)%Hf & _)%Hold Hi. rewrite A1 in Hi.
    destruct (rok_gapless d Hok k x0 i Hk Hi) as (k' & r' & Hk' & [] & ?).
    destruct (Hnow _ _ Hk') as (r2 & Hr2 & (_ & B1 & B2 & B3)%Hf).
    exists k', r2. split_and!; [done|split; congruence|congruence].
  - intros k1 k2 r1 r2 (x1 & Hk1 & (_ & A1 & A2 & A3)%Hf & Hsub & _)%Hold
      (x2 & Hk2 & (_ & B1 & B2 & B3)%Hf & _)%Hold [] Hs1.
    destruct (Hsub Hs1) as [-> _]. rewrite B1. eapply (rok_last d Hok); [exact Hk1|exact Hk2|split; congruence|done].
  - intros k x Hx. destruct (Hold k x Hx) as (x0 & Hk & _ & Hsub & Hsame). pose proof (rok_reviews d Hok k x0 Hk) as Hrev.
    pose proof (select_insert (review_of k) (db_reviews d) (sw_ID w) w Hnew) as Hsel.
    destruct (decide (k = id)) as [->|Hne].
    + rewrite Hcur in Hk. injection Hk as <-. rewrite bool_decide_true in Hrev by done.
      rewrite lookup_insert_eq in Hx. injection Hx as <-. rewrite bool_decide_false by done. exists w.
      rewrite Hrev in Hsel. unfold review_of in Hsel at 2. rewrite bool_decide_true in Hsel by done.
      apply Permutation_singleton_r in Hsel. split; [done|congruence].
    + specialize (Hsame Hne) as ->. unfold review_of in Hsel at 2. rewrite bool_decide_false in Hsel by congruence.
      destruct (bool_decide_reflect (sr_Status x0 = ResponseSubmitted)).
      * rewrite Hrev in Hsel. by apply Permutation_nil_r in Hsel.
      * destruct Hrev as (w0 & Hw0 & ?). exists w0. rewrite Hw0 in Hsel. by apply Permutation_singleton_r in Hsel.
  - intros k x [[<- <-]|[_ Hk]]%lookup_insert_Some.
    + rewrite Hwid, lookup_insert_eq. eauto.
    + destruct (rok_review_of d Hok k x Hk) as [y Hy]. destruct (Hnow _ _ Hy) as (z & Hz & _). eauto.
Qed.

(** C24: The bookkeeping of responses is an invariant of submitting and reviewing.  For
    every assignment and task the attempts are numbered 1, 2, ... without gap or
    repeat, only the last one may await review (so at most one does), a decided
    response has exactly one review and its decision is the response's status, and one
    that awaits review has none; whatever the two operations are given and whether
    they succeed or fail. *)
Theorem responses_invariant device sid req educator id in_ now q c :
  q_mode q ≠ QSavepoint → responses_ok (cn_db c) →
  responses_ok (cn_db (SubmitStudentResponse sha256_hex device sid req now q c).1) ∧
  responses_ok (cn_db (ApplyResponseReview educator id in_ now q c).1).
Proof.
  intros Hq Hok. split.
  - destruct (SubmitStudentResponse _ _ _ _ _ q c) as [c' [[r b]|e]] eqn:E; cbn [fst].
    + apply Submit_cases in E as (_ & _ & _ & [(_ & -> & _)|(_ & _ & Hst)]); [done| |done].
      by eapply stored_ok.
    + by rewrite (Submit_Err_db _ _ _ _ _ _ _ _ Hq E).
  - destruct (ApplyResponseReview _ _ _ _ q c) as [c' [[r w]|e]] eqn:E; cbn [fst].
    + apply Review_cases in E as (_ & [(-> & _)|(cur & Hst)]); [done| |done]. by eapply reviewed_ok.
    + by rewrite (Review_Err_db _ _ _ _ _ _ _ _ Hq E).
Qed.

(** The life of a response: it awaits review until it is accepted or returned. *)
Inductive response_step : StudentResponse → StudentResponse → Prop :=
| step_kept r : response_step r r
| step_decided r r' : sr_Status r = ResponseSubmitted → sr_Status r' ∈ [ResponseAccepted; ResponseReturned] →
    response_fixed r' = response_fixed r → response_step r r'.

Definition responses_step (d d' : database) : Prop :=
  ∀ k r, db_responses d !! k = Some r → ∃ r', db_responses d' !! k = Some r' ∧ response_step r r'.

Lemma stored_step device sid req now at_ d d' r :
  response_stored device sid req now at_ d d' r → responses_step d d'.
Proof.
  intros (sess & spec & id & _ & _ & Hnew & _ & [E _]%events_only_tables) k x Hk. exists x. rewrite E. cbn.
  rewrite lookup_insert_ne by congruence. split; [done|constructor].
Qed.

Lemma reviewed_step educatorID id decision in_ now at_ d d' cur r :
  review_stored educatorID id decision in_ now at_ d d' cur r → responses_step d d'.
Proof.
  clear sha256_hex. intros (w & Hcur & Hst & Hdec & Hr & _ & _ & _ & _ & [E _]%events_only_tables) k x Hk. rewrite E. cbn.
  destruct (decide (k = id)) as [->|Hne].
  - exists r. rewrite lookup_insert_eq. split; [done|]. assert (x = cur) as -> by congruence.
    apply step_decided; [done| |by rewrite Hr]. rewrite Hr. cbn. unfold decided. case_bool_decide; set_solver.
  - exists x. rewrite lookup_insert_ne by done. split; [done|constructor].
Qed.

(** A response is immutable once stored, and a decision is final: submitting and
    reviewing keep every stored response, never change its text, its task, its attempt,
    its digest or its rubric, and move its status only from submitted to accepted or
    returned. *)
Lemma responses_immutable device sid req educator id in_ now q c :
  q_mode q ≠ QSavepoint →
  responses_step (cn_db c) (cn_db (SubmitStudentResponse sha256_hex device sid req now q c).1) ∧
  responses_step (cn_db c) (cn_db (ApplyResponseReview educator id in_ now q c).1).
Proof.
  intros Hq. assert (∀ d, responses_step d d) as Hrefl by (intros d k r Hk; exists r; split; [done|constructor]).
  split.
  - destruct (SubmitStudentResponse _ _ _ _ _ q c) as [c' [[r b]|e]] eqn:E; cbn [fst].
    + apply Submit_cases in E as (_ & _ & _ & [(_ & -> & _)|(_ & _ & Hst)]); [done| |done]. by eapply stored_step.
    + by rewrite (Submit_Err_db _ _ _ _ _ _ _ _ Hq E).
  - destruct (ApplyResponseReview _ _ _ _ q c) as [c' [[r w]|e]] eqn:E; cbn [fst].
    + apply Review_cases in E as (_ & [(-> & _)|(cur & Hst)]); [done| |done]. by eapply reviewed_step.
    + by rewrite (Review_Err_db _ _ _ _ _ _ _ _ Hq E).
Qed.

(** A submission whose id is stored with this body is answered with that row. *)
Lemma Submit_again device sid req now q c r l :
  q_mode q ≠ QSavepoint → cn_aborted c = false → checkSubmission req q c = (c, Ok (TrimSpace (rq_Body req))) →
  select (by_submission (rq_SubmissionID req)) (db_responses (cn_db c)) = r :: l →
  sr_BodySHA256 r = hashBody sha256_hex (TrimSpace (rq_Body req)) ∨
  sr_RequestDigest r = responseDigest sha256_hex (rq_TaskID req) (TrimSpace (rq_Body req)) →
  SubmitStudentResponse sha256_hex device sid req now q c = (c, Ok (r, false)).
Proof.
  intros Hq Hl Hck Hsel Hor. unfold SubmitStudentResponse. apply M_bind_Ok. exists c, (TrimSpace (rq_Body req)).
  split; [done|]. apply WithTx_Ok; [done|]. split_and!; [done| |done].
  apply M_bind_Ok. exists c, (Ok r). split.
  - apply attempt_run. unfold GetResponseBySubmissionID. apply M_bind_Ok. eexists c, _.
    split; [by apply query_run|]. by rewrite Hsel.
  - assert (negb (bool_decide (sr_BodySHA256 r = hashBody sha256_hex (TrimSpace (rq_Body req)))) &&
            negb (bool_decide (sr_RequestDigest r =
              responseDigest sha256_hex (rq_TaskID req) (TrimSpace (rq_Body req)))) = false) as ->; [|done].
    destruct Hor as [Hor|Hor]; rewrite (bool_decide_true _ Hor); [done|apply andb_false_r].
Qed.

Lemma checkSubmission_run req q c c' body q2 c2 : checkSubmission req q c = (c', Ok body) →
  checkSubmission req q2 c2 = (c2, Ok body).
Proof.
  unfold checkSubmission. repeat case_bool_decide; try done.
  all: destruct (blank _); try done. all: destruct (looksLikeTutorAuthored _); try done. by intros [= _ ->].
Qed.

(** Submitting is idempotent.  After a submission succeeded, sending the same
    request again, at any later time, changes nothing and is answered with the same row,
    marked as not created.  The answer depends on the submission id and the text alone:
    it is the same for every device and every session the request comes from. *)
Lemma SubmitStudentResponse_idempotent device sid req now q c c' r b device2 sid2 now2 q2 :
  q_mode q ≠ QSavepoint → q_mode q2 ≠ QSavepoint →
  SubmitStudentResponse sha256_hex device sid req now q c = (c', Ok (r, b)) →
  SubmitStudentResponse sha256_hex device2 sid2 req now2 q2 c' = (c', Ok (r, false)).
Proof.
  intros Hq Hq2 Hrun. assert (∃ c1 body, checkSubmission req q c = (c1, Ok body)) as (c1 & body & Hck).
  { unfold SubmitStudentResponse in Hrun. apply M_bind_Ok in Hrun as (? & ? & ? & _). eauto. }
  pose proof (checkSubmission_Ok _ _ _ _ _ Hck) as (_ & -> & _).
  pose proof (checkSubmission_run _ _ _ _ _ q2 c' Hck) as Hck2.
  apply Submit_cases in Hrun as (Hl & Hl' & _ & [(-> & -> & (l & Hsel) & Hor)|(-> & Hnone & Hst)]); [..|done].
  - by eapply Submit_again.
  - destruct Hst as (sess & spec & id & _ & Hr & Hnew & _ & [E _]%events_only_tables). cbn in E.
    apply (Submit_again _ _ _ _ _ _ _ []); [done..| |left; by rewrite Hr].
    rewrite E. apply select_insert_single; [done|done|]. unfold by_submission. apply bool_decide_eq_true. by rewrite Hr.
Qed.

(** C25: A response is stored only for the student's own work.  When a submission creates
    a row, its session belongs to the student of the device and is not abandoned, its
    assignment is not cancelled, the task is a short-response task of the revision the
    student works on, the text is trimmed, within the task's limit and without the
    markers of the tutor, and no other response of the task awaits review; the row
    carries exactly that student, session, assignment and task. *)
Theorem SubmitStudentResponse_authorized device sid req now q c c' r :
  q_mode q ≠ QSavepoint →
  SubmitStudentResponse sha256_hex device sid req now q c = (c', Ok (r, true)) →
  ∃ sess spec, submission_allowed (cn_db c) device sid (rq_TaskID req) (sr_Body r) sess spec ∧
    looksLikeTutorAuthored (sr_Body r) = false ∧ sr_Body r = TrimSpace (rq_Body req) ∧
    sr_StudentID r = dv_StudentID device ∧ sr_SessionID r = ls_ID sess ∧
    sr_AssignmentID r = ls_AssignmentID sess ∧ sr_TaskID r = rq_TaskID req ∧ sr_Status r = ResponseSubmitted ∧
    db_responses (cn_db c') = <[sr_ID r := r]> (db_responses (cn_db c)) ∧ db_responses (cn_db c) !! sr_ID r = None.
Proof.
  intros Hq Hrun.
  apply Submit_cases in Hrun as (_ & _ & Hown & [(? & _)|(_ & _ & Hst)]); [done| |done].
  destruct Hst as (sess & spec & id & Hal & Hr & Hnew & _ & [E _]%events_only_tables). cbn in E.
  assert (sr_ID r = id) as -> by by rewrite Hr.
  exists sess, spec. split_and!; try done; by rewrite Hr.
Qed.
End response_theorems.

(** ** Examples and witnesses *)

Section sample_runs.
#[local] Existing Instance sample_postgres.

(** A task that asks for a short explanation. *)
Definition w_response_content : jmap :=
  <["tasks" := JArr [JObj [("id", JStr "t1"); ("kind", JStr "short_response");
      ("response", JObj [("prompt", JStr "why?"); ("maxChars", JInt 40); ("parentReviewRequired", JBool true)])]]]> ∅.

Definition w_response_db : database :=
  set_revisions (<["r1" := w_revision "r1" "a1" w_response_content]> (db_revisions w_db)) w_db.
Definition w_response_conn : conn := mkConn w_response_db false.

Definition w_submission (id body : string) : ResponseSubmission := mkResponseSubmission "1" id "t1" body 5 "".

Definition w_submit (id body : string) (c : conn) : conn * result err (StudentResponse * bool) :=
  SubmitStudentResponse (λ s, s) w_device "ss1" (w_submission id body) 200 w_pool c.
Definition w_review (id decision reason : string) (c : conn) : conn * result err (StudentResponse * option StudentResponseReview) :=
  ApplyResponseReview "p1" id (mkReviewDecision decision reason None) 300 w_pool c.

Definition outcome {A B} (f : A → B) (x : conn * result err A) : result err B := match x.2 with Ok a => Ok (f a) | Err e => Err e end.

(** Submit, blocked while it waits, return, revise, accept; a decision is final. *)
Example response_story :
  let c1 := (w_submit "u1" "  it lists files " w_response_conn).1 in
  let c2 := (w_review "0" "return" "say more" c1).1 in
  let c3 := (w_submit "u2" "it lists the files here" c2).1 in
  (outcome (λ x, (sr_Body x.1, sr_Attempt x.1)) (w_submit "u1" "  it lists files " w_response_conn),
   outcome fst (w_submit "u2" "it lists the files here" c1),
   outcome (λ x, sr_Attempt x.1) (w_submit "u2" "it lists the files here" c2),
   outcome (λ x, sr_Status x.1) (w_review "0" "accept" "" c3),
   outcome (λ x, sr_Status x.1) (w_review "1" " accept " "" c3)) =
  (Ok ("it lists files", 1%Z),
   Err (ErrBadRequest "a response is already awaiting review; revise only after return"),
   Ok 2%Z, Err (ErrBadRequest "response is not awaiting review"), Ok "accepted").
Proof. vm_compute. reflexivity. Qed.

Definition w_submitted : conn := (w_submit "u1" "it lists files" w_response_conn).1.
Definition w_submitted_row : StudentResponse :=
  response_row (λ s, s) "0" (w_session "ss1" "as1" "r1") w_device (w_submission "u1" "it lists files") "it lists files"
    (mkResponseSpec "why?" 40 [] true) 1 200 100.

Lemma w_submit_Ok : w_submit "u1" "it lists files" w_response_conn = (w_submitted, Ok (w_submitted_row, true)).
Proof. vm_compute. reflexivity. Qed.

Lemma w_responses_ok : responses_ok w_response_db.
Proof.
  split; intros *; change (db_responses w_response_db) with (∅ : gmap string StudentResponse);
    change (db_reviews w_response_db) with (∅ : gmap string StudentResponseReview); by rewrite ?lookup_empty.
Qed.

Lemma responses_invariant_witness :
  responses_ok (cn_db (SubmitStudentResponse (λ s, s) w_device "ss1" (w_submission "u1" "it lists files") 200
                         w_pool w_response_conn).1).
Proof.
  apply (responses_invariant (λ s, s) w_device "ss1" (w_submission "u1" "it lists files") "p1" "0"
    (mkReviewDecision "accept" "" None) 200 w_pool w_response_conn); [discriminate|exact w_responses_ok].
Defined.

Lemma responses_immutable_witness :
  responses_step (cn_db w_submitted)
    (cn_db (ApplyResponseReview "p1" "0" (mkReviewDecision "accept" "" None) 300 w_pool w_submitted).1).
Proof.
  apply (responses_immutable (λ s, s) w_device "ss1" (w_submission "u1" "it lists files") "p1" "0"
    (mkReviewDecision "accept" "" None) 300 w_pool w_submitted). discriminate.
Defined.

(** Another student's device gets the row, text included. *)
Definition w_other_device : StudentDevice := mkStudentDevice "d2" "s2" "" "" None None ∅ None 0 0.

Lemma SubmitStudentResponse_idempotent_witness :
  SubmitStudentResponse (λ s, s) w_other_device "no-session" (w_submission "u1" "it lists files") 900 w_pool w_submitted =
    (w_submitted, Ok (w_submitted_row, false)) ∧ sr_StudentID w_submitted_row ≠ dv_StudentID w_other_device.
Proof.
  split; [|discriminate].
  eapply (SubmitStudentResponse_idempotent (λ s, s) w_device "ss1" (w_submission "u1" "it lists files") 200 w_pool
    w_response_conn); [discriminate|discriminate|exact w_submit_Ok].
Defined.

Lemma SubmitStudentResponse_authorized_witness :
  ∃ sess spec, submission_allowed w_response_db w_device "ss1" "t1" "it lists files" sess spec.
Proof.
  destruct (SubmitStudentResponse_authorized (λ s, s) w_device "ss1" (w_submission "u1" "it lists files") 200 w_pool
    w_response_conn w_submitted w_submitted_row) as (sess & spec & Ha & _); [discriminate|exact w_submit_Ok|].
  exists sess, spec. exact Ha.
Defined.

(** The digest of task and text does not tell a reused id apart: the id of a response
    to one task, sent with the same text for another task, is answered with the row of
    the first. *)
Lemma reused_submission_id_other_task :
  SubmitStudentResponse (λ s, s) w_device "ss1" (mkResponseSubmission "1" "u1" "t2" "it lists files" 5 "") 900 w_pool
    w_submitted = (w_submitted, Ok (w_submitted_row, false)) ∧ sr_TaskID w_submitted_row = "t1".
Proof. vm_compute. split; reflexivity. Qed.
End sample_runs.
