(* ===== verification/Tutor.v ===== *)
(** * The tutor of a session ([tutor/tutor.go], [api/student_api.go])

    The coaching reply to a student's message: the activity-local hints, the cleaning of the message and
    the record of the exchange.  The service behind [tutor.Service] (a model with its policy) is the
    argument [tutor_service]; whether it is on is [ts_Enabled]. *)
From S2P Require Import Prelude GoStrings Utf8 Contracts ContentJson LmsData LmsDb Sessions Responses.
From stdpp Require Import options.
Local Open Scope string_scope.
Local Open Scope list_scope.

(** ** Hints *)

Definition DefaultFallback : string := "Take one small step, then check what changed in the workspace.".

(** One pass over the hints of a level; the level of the hint that is kept is -1 at first. *)
Definition exact_hint (level : Z) (best : string * Z) (h : Hint) : string * Z :=
  let t := TrimSpace (hn_Text h) in
  if negb (bool_decide (hn_Level h = level)) || bool_decide (t = "") then best
  else if (best.2 <? 0)%Z || (hn_Level h <? best.2)%Z then (t, hn_Level h) else best.
Definition lower_hint (level : Z) (best : string * Z) (h : Hint) : string * Z :=
  let t := TrimSpace (hn_Text h) in
  if (level <? hn_Level h)%Z || bool_decide (t = "") then best
  else if (best.2 <=? hn_Level h)%Z then (t, hn_Level h) else best.

Definition hintAtLevel (hints : list Hint) (level : Z) : string :=
  let best := foldl (exact_hint level) ("", (-1)%Z) hints in
  if negb (bool_decide (best.1 = "")) then best.1 else (foldl (lower_hint level) best hints).1.

Definition goalSummary (activity : ActivityContent) : string :=
  match ac_Tutor activity with Some t => TrimSpace (tu_GoalSummary t) | None => "" end.

(** Lengths and the cut are in bytes. *)
Definition paraphraseObjective (obj : string) : string :=
  let obj := TrimSpace obj in
  if bool_decide (obj = "") then DefaultFallback
  else
    let obj := if bool_decide (180 < String.length obj)%nat then TrimSpace (String.substring 0 177 obj) +:+ "..." else obj in
    if HasSuffix obj "." then "Focus on this goal: " +:+ obj else "Focus on this goal: " +:+ obj +:+ ".".

Definition FallbackHint (activity : ActivityContent) (priorHints : list string) (hintLevel : Z) : string :=
  let level := if (hintLevel <=? 0)%Z then (Z.of_nat (length priorHints) + 1)%Z else hintLevel in
  let text := hintAtLevel (ac_Hints activity) level in
  if negb (bool_decide (text = "")) then text
  else
    let used := TrimSpace <$> priorHints in
    let texts := (λ h, TrimSpace (hn_Text h)) <$> ac_Hints activity in
    match filter (λ t, t ≠ "" ∧ t ∉ used) texts with
    | t :: _ => t
    | [] =>
        let lastText := default "" (last texts) in
        if negb (bool_decide (lastText = "")) then lastText
        else if negb (bool_decide (goalSummary activity = "")) then paraphraseObjective (goalSummary activity)
        else if negb (bool_decide (TrimSpace (ac_Objective activity) = "")) then paraphraseObjective (TrimSpace (ac_Objective activity))
        else DefaultFallback
    end.

(** ** The student's message *)

Definition hijack_line (line : string) : bool :=
  let lower := ToLower (TrimSpace line) in
  HasPrefix lower "system:" || HasPrefix lower "assistant:" || Contains lower "ignore previous" || Contains lower "ignore all previous" ||
  Contains lower "you are now" || Contains lower "disregard your instructions".

Definition SanitizeStudentMessage (msg : string) : string :=
  let msg := TrimSpace msg in
  if bool_decide (msg = "") then ""
  else
    let out := TrimSpace (GoStrings.Join (filter (λ l, hijack_line l = false) (Split msg newline)) newline) in
    if bool_decide (out = "") then "I need a hint for the current task."
    else if bool_decide (500 < length (runes out))%nat then string_of_runes (take 500 (runes out)) else out.

(** ** Coaching a session *)

Record TutorRequest := mkTutorRequest {
  tq_SessionID : string; tq_StudentID : string; tq_ActivitySlug : string; tq_Activity : ActivityContent; tq_StudentMessage : string;
  tq_PriorHints : list string }.
Record TutorResponse := mkTutorResponse {
  tp_Reply : string; tp_Provider : string; tp_Fallback : bool; tp_RateLimited : bool; tp_Disabled : bool }.
Record tutorReplyMeta := mkReplyMeta { tm_Provider : string; tm_Fallback : bool; tm_RateLimited : bool; tm_Disabled : bool }.

(** The service of the deployment: its name, whether it is on, and its answer to a request. *)
Record tutor_service := mkTutorService {
  ts_ProviderName : string; ts_Enabled : bool; ts_Coach : TutorRequest → result string TutorResponse }.

Definition studentTutorDisabled (notes : string) : bool := Contains (ToLower notes) "tutor:off".

Section coach.
Context `{!Postgres}.

Definition decodeRevisionContent (m : jmap) : M ActivityContent := decodeContent m.

Definition loadSessionActivity (sess : LearningSession) : M (ActivityContent * string) :=
  revID ← (if bool_decide (ls_ActivityRevisionID sess = "")
           then asg ← (Get (ls_AssignmentID sess) : M StudentAssignment); mret (sa_ActivityRevisionID asg)
           else mret (ls_ActivityRevisionID sess));
  rev ← GetRevision revID;
  content ← decodeRevisionContent (rv_Content rev);
  act ← attempt (Get (rv_ActivityID rev) : M LearningActivity);
  mret (content, match act with Ok a => la_Slug a | Err _ => "" end).

Definition recordTutorEvent (sessionID studentMessage reply : string) (meta : tutorReplyMeta) (now : Z) : M unit :=
  let payload : jmap := list_to_map [
    ("reply", JStr reply); ("provider", JStr (tm_Provider meta)); ("fallback", JBool (tm_Fallback meta));
    ("rateLimited", JBool (tm_RateLimited meta)); ("disabled", JBool (tm_Disabled meta)); ("source", JStr "server")] in
  let msg := SanitizeStudentMessage studentMessage in
  let payload := if bool_decide (msg = "") then payload else <["studentMessage" := JStr msg]> payload in
  InsertServerSessionEvent sessionID EventTutorMessage (Some payload) now.

(** The reply is recorded, best effort, and returned. *)
Definition recorded (svc : tutor_service) (sess : LearningSession) (msg reply : string) (meta : tutorReplyMeta) (now : Z) : M (string * tutorReplyMeta) :=
  _ ← attempt (recordTutorEvent (ls_ID sess) msg reply meta now);
  mret (reply, meta).

Definition coachSession (svc : tutor_service) (sess : LearningSession) (studentMessage : string) (now : Z) : M (string * tutorReplyMeta) :=
  loaded ← attempt (loadSessionActivity sess);
  match loaded with
  | Err _ => recorded svc sess studentMessage DefaultFallback (mkReplyMeta (ts_ProviderName svc) true false false) now
  | Ok (content, slug) =>
      student ← (Get (ls_StudentID sess) : M Student);
      hints ← attempt (ListTutorReplyHints (ls_ID sess) 20);
      let prior := match hints with Ok l => l | Err _ => [] end in
      let fallback := FallbackHint content prior 0 in
      if negb (ts_Enabled svc) || studentTutorDisabled (su_Notes student)
      then recorded svc sess studentMessage fallback (mkReplyMeta (ts_ProviderName svc) true false true) now
      else match ts_Coach svc (mkTutorRequest (ls_ID sess) (ls_StudentID sess) slug content studentMessage prior) with
           | Err _ => recorded svc sess studentMessage fallback (mkReplyMeta (ts_ProviderName svc) true false false) now
           | Ok resp =>
               let provider := if bool_decide (tp_Provider resp = "") then ts_ProviderName svc else tp_Provider resp in
               recorded svc sess studentMessage (tp_Reply resp) (mkReplyMeta provider (tp_Fallback resp) (tp_RateLimited resp) (tp_Disabled resp)) now
           end
  end.

(** A message of the student writes nothing but events and the session's time: no mastery, no assignment. *)
Lemma coach_events_only svc sess msg now : preserves events_only (coachSession svc sess msg now).
Proof.
  assert (Hrec : ∀ reply meta, preserves events_only (recorded svc sess msg reply meta now)).
  { intros reply meta. apply preserves_bind; [apply _|apply preserves_attempt; [apply _|apply events_only_server_event]|].
    intros r. apply preserves_readonly; [apply _|auto with primer]. }
  assert (Hload : readonly (loadSessionActivity sess)).
  { unfold loadSessionActivity, GetRevision, decodeRevisionContent, decodeContent. apply readonly_bind; [case_bool_decide; auto with primer|].
    intros revID. apply readonly_bind; [auto with primer|]. intros rev. apply readonly_bind; [destruct (DecodeActivityContent _); auto with primer|].
    intros content. auto with primer. }
  unfold coachSession. apply preserves_bind; [apply _|apply preserves_readonly; [apply _|auto with primer]|]. intros [[content slug]|e]; [|done].
  apply preserves_bind; [apply _|apply preserves_readonly; [apply _|auto with primer]|]. intros student.
  apply preserves_bind; [apply _|apply preserves_readonly; [apply _|]|].
  { unfold ListTutorReplyHints. auto with primer. }
  intros hints. cbn zeta. destruct (_ || _); [done|]. by destruct (ts_Coach _ _).
Qed.
End coach.
