(* ===== verification/Devices.v ===== *)
(** * Student devices: pairing, tokens, revocation ([repo/student_device.go], [authutil])

    A parent issues a one-time code, the device exchanges it for a token, the server
    keeps only hashes.  Random bytes and fresh tokens are arguments; the hash
    ([sha256] in hexadecimal) is a parameter. *)
From S2P Require Import Prelude GoStrings Utf8 Float64 Contracts LmsData LmsDb Sample.
From Stdlib Require Import Ascii.
From stdpp Require Import options.
Local Open Scope string_scope.
Local Open Scope list_scope.

(** ** Codes ([authutil/token.go]) *)

Definition pairingAlphabet : string := "ACDEFGHJKMNPQRTUVWXY34679".
Definition PairingCodeLength : nat := 6.

(** The character a random byte selects. *)
Definition pairing_char (b : Z) : ascii :=
  default "A"%char (String.get (Z.to_nat (b mod Z.of_nat (String.length pairingAlphabet))) pairingAlphabet).

(** [buf] is what [rand.Read] filled. *)
Definition NewPairingCode (buf : list Z) : string :=
  String.string_of_list_ascii (pairing_char <$> take PairingCodeLength buf).

Section hash.
Context (sha256_hex : string → string).

Definition HashToken (token : string) : string := sha256_hex token.

Definition EqualHash (presented storedHash : string) : bool :=
  if bool_decide (storedHash = "") then false else bool_decide (HashToken presented = storedHash).
End hash.

(** ** Rows *)

(** [15 * time.Minute] *)
Definition PairingCodeTTL : Z := 15 * 60 * 1000000000.

Definition code_used (now : Z) (x : StudentDevicePairingCode) : StudentDevicePairingCode :=
  mkStudentDevicePairingCode (pc_ID x) (pc_StudentID x) (pc_CodeHash x) (pc_CreatedBy x) (pc_ExpiresAt x)
    (Some now) (pc_CreatedAt x).

Definition device_reported (caps : jmap) (now at_ : Z) (x : StudentDevice) : StudentDevice :=
  mkStudentDevice (dv_ID x) (dv_StudentID x) (dv_Name x) (dv_TokenHash x) (Some now) (dv_RevokedAt x)
    caps (Some now) (dv_CreatedAt x) at_.
Definition device_touched (now at_ : Z) (x : StudentDevice) : StudentDevice :=
  mkStudentDevice (dv_ID x) (dv_StudentID x) (dv_Name x) (dv_TokenHash x) (Some now) (dv_RevokedAt x)
    (dv_Capabilities x) (dv_CapabilitiesReportedAt x) (dv_CreatedAt x) at_.
Definition device_revoked (now at_ : Z) (x : StudentDevice) : StudentDevice :=
  mkStudentDevice (dv_ID x) (dv_StudentID x) (dv_Name x) "" (dv_LastSeenAt x) (Some now)
    (dv_Capabilities x) (dv_CapabilitiesReportedAt x) (dv_CreatedAt x) at_.

(** [UPDATE student_devices SET ... WHERE id = $1]: no row is not an error. *)
Definition exec_device (id : string) (f : Z → StudentDevice → StudentDevice) : M unit := λ q c,
  stmt (λ d, Ok (set_devices (alter (f (q_now q)) id (db_devices d)) d, tt)) q c.

Section devices.
Context `{!Postgres} (sha256_hex : string → string).
Local Abbreviation HashToken := (HashToken sha256_hex).

Definition CreatePairingCode (code studentID : string) (createdBy : option string) (now : Z)
  : M (string * StudentDevicePairingCode) :=
  pc ← Create (λ id at_, mkStudentDevicePairingCode id studentID (HashToken code) createdBy
                           (now + PairingCodeTTL) None at_);
  mret (code, pc).

(** [used_at IS NULL AND expires_at > now] *)
Definition claimable (codeHash : string) (now : Z) (x : StudentDevicePairingCode) : bool :=
  bool_decide (pc_CodeHash x = codeHash) && bool_decide (pc_UsedAt x = None) && Z.ltb now (pc_ExpiresAt x).

(** The UPDATE marks every matching row and returns them. *)
Definition claimCode (codeHash : string) (now : Z) : M (list StudentDevicePairingCode) :=
  stmt (λ d, Ok (set_pairing_codes ((λ x, if claimable codeHash now x then code_used now x else x) <$> db_pairing_codes d) d,
                 code_used now <$> select (claimable codeHash now) (db_pairing_codes d))).

Definition ClaimStudentPairingCode (token code deviceName : string) (now : Z) : M (string * StudentDevice) :=
  device ← WithTx (
    pcs ← claimCode (HashToken code) now;
    pc ← exactly_one pcs;
    Create (λ id at_, mkStudentDevice id (pc_StudentID pc) deviceName (HashToken token) (Some now) None
                        ∅ None at_ at_));
  mret (token, device).

Definition by_token (hash : string) (x : StudentDevice) : bool :=
  bool_decide (dv_TokenHash x = hash) && token_live x.

Definition StudentDeviceByToken (token : string) : M StudentDevice :=
  l ← query (λ d, take 1 (select (by_token (HashToken token)) (db_devices d)));
  exactly_one l.

Definition StoreDeviceCapabilities (deviceID : string) (caps : option jmap) (now : Z) : M unit :=
  exec_device deviceID (device_reported (default ∅ caps) now).

Definition TouchStudentDevice (deviceID : string) (now : Z) : M unit :=
  exec_device deviceID (device_touched now).

(** The row is only updated when it is not revoked. *)
Definition RevokeStudentDevice (deviceID : string) (now : Z) : M StudentDevice := λ q c,
  (l ← stmt (λ d,
     match db_devices d !! deviceID with
     | Some x =>
         if bool_decide (dv_RevokedAt x = None) then
           let x' := device_revoked now (q_now q) x in
           Ok (set_devices (<[deviceID := x']> (db_devices d)) d, [x'])
         else Ok (d, [])
     | None => Ok (d, [])
     end);
   exactly_one l) q c.

(** [ORDER BY last_seen_at DESC NULLS LAST, created_at DESC] *)
Definition seen_le (a b : StudentDevice) : bool :=
  match dv_LastSeenAt a, dv_LastSeenAt b with
  | Some x, Some y => Z.ltb y x || (Z.eqb x y && Z.leb (dv_CreatedAt b) (dv_CreatedAt a))
  | Some _, None => true
  | None, Some _ => false
  | None, None => Z.leb (dv_CreatedAt b) (dv_CreatedAt a)
  end.

Definition ListStudentDevices (studentID : string) : M (list StudentDevice) :=
  query (λ d, order_by seen_le
    (select (λ x, bool_decide (studentID = "") || bool_decide (dv_StudentID x = studentID)) (db_devices d))).

(** ** The guard of the student routes ([api/student_api.go]) *)

Inductive guard_result := GuardUnauthorized (msg : string) | GuardFailed | GuardDevice (d : StudentDevice).

(** [header] is X-Device-Token, [bearer] what the Authorization header carries; the
    result of the touch is ignored. *)
Definition StudentDeviceGuard (header bearer : string) (now : Z) : M guard_result :=
  let token := if bool_decide (header = "") then bearer else header in
  if bool_decide (token = "") then mret (GuardUnauthorized "missing device token")
  else
    dev ← attempt (StudentDeviceByToken token);
    match dev with
    | Err ErrNotFound => mret (GuardUnauthorized "unknown or revoked device token")
    | Err _ => mret GuardFailed
    | Ok dev => _ ← attempt (TouchStudentDevice (dv_ID dev) now); mret (GuardDevice dev)
    end.
End devices.

(** ** Codes *)

Lemma pairing_char_in b : ∃ i, String.get i pairingAlphabet = Some (pairing_char b).
Proof.
  unfold pairing_char. set (i := Z.to_nat _).
  assert (i < 25)%nat as Hi.
  { unfold i. pose proof (Z.mod_pos_bound b 25). change (Z.of_nat (String.length pairingAlphabet)) with 25%Z. lia. }
  exists i. clearbody i. do 25 (destruct i as [|i]; [done|]). lia.
Qed.

(** ** Pools *)

(** On the pool a failing statement leaves no aborted transaction behind. *)
Definition pool_live {A} (m : M A) : Prop :=
  ∀ q c, q_mode q = QPool → cn_aborted c = false → cn_aborted (m q c).1 = false.

Lemma pool_live_readonly {A} (m : M A) : readonly m → pool_live m.
Proof. intros Hm q c _ Hl. by rewrite Hm. Qed.
Lemma pool_live_stmt {A} (f : database → result string (database * A)) : pool_live (stmt f).
Proof.
  intros q c Hq Hl. unfold stmt. rewrite Hl. destruct (f (cn_db c)) as [[d a]|code]; cbn; [done|].
  by rewrite Hq.
Qed.
Lemma pool_live_bind {A B} (m : M A) (f : A → M B) : pool_live m → (∀ a, pool_live (f a)) → pool_live (m ≫= f).
Proof.
  intros Hm Hf q c Hq Hl. unfold mbind, M_bind. specialize (Hm q c Hq Hl).
  destruct (m q c) as [c' [a|e]]; [by apply Hf|done].
Qed.
Lemma pool_live_attempt {A} (m : M A) : pool_live m → pool_live (attempt m).
Proof. intros Hm q c Hq Hl. unfold attempt. specialize (Hm q c Hq Hl). by destruct (m q c). Qed.
Lemma pool_live_WithTx {A} (m : M A) : pool_live (WithTx m).
Proof.
  intros q c Hq Hl. unfold WithTx. rewrite Hq, Hl. destruct (m _ c) as [c' [a|e]]; [|done].
  by destruct (cn_aborted c') eqn:E.
Qed.
Lemma pool_live_Create `{!Postgres, !Row A} (mk : string → Z → A) : pool_live (Create mk).
Proof. intros q c. unfold Create. apply pool_live_stmt. Qed.
Lemma pool_live_Update `{!Row A} id (f : Z → A → A) : pool_live (Update id f).
Proof.
  intros q c. unfold Update. apply pool_live_bind; [apply pool_live_stmt|].
  intros [x|]; apply pool_live_readonly; auto with primer.
Qed.

#[export] Hint Resolve pool_live_readonly pool_live_stmt pool_live_bind pool_live_attempt pool_live_WithTx
  pool_live_Create pool_live_Update : primer.

(** ** Tokens *)

(** No device in use holds a token with this hash. *)
Definition no_token (h : string) (d : database) : Prop :=
  ∀ k x, db_devices d !! k = Some x → by_token h x = false.

(** Rows are stored under their id, and two devices in use never share a token. *)
Definition devices_ok (d : database) : Prop :=
  (∀ k x, db_devices d !! k = Some x → dv_ID x = k) ∧
  ∀ k1 k2 x1 x2, db_devices d !! k1 = Some x1 → db_devices d !! k2 = Some x2 →
    token_live x1 = true → token_live x2 = true → dv_TokenHash x1 = dv_TokenHash x2 → k1 = k2.

Definition keeps_out (h : string) (d d' : database) : Prop := no_token h d → no_token h d'.

#[global] Instance keeps_out_preorder h : PreOrder (keeps_out h).
Proof. split; [by intros d Hd|]. intros d1 d2 d3. unfold keeps_out. auto. Qed.

Section device_theorems.
Context `{!Postgres} (sha256_hex : string → string).

Lemma keeps_out_exec h id f :
  (∀ at_ x, by_token h x = false → by_token h (f at_ x) = false) → preserves (keeps_out h) (exec_device id f).
Proof.
  intros Hf q c. apply (preserves_stmt (keeps_out h)). intros d d' [] [= <-] Hno k x. cbn.
  rewrite lookup_alter_Some. intros [(-> & y & Hy & ->)|[_ Hx]]; [|by apply (Hno k)].
  apply Hf. by eapply Hno.
Qed.

Lemma keeps_out_revoke h id now : preserves (keeps_out h) (RevokeStudentDevice id now).
Proof.
  intros q c. unfold RevokeStudentDevice. apply (preserves_bind (keeps_out h)).
  - apply (preserves_stmt (keeps_out h)). intros d d' a. destruct (db_devices d !! id) as [y|] eqn:Ey; [|by intros [= <- _]].
    case_bool_decide; [|by intros [= <- _]]. intros [= <- _] Hno k x. cbn.
    intros [[<- <-]|[_ Hx]]%lookup_insert_Some; [|by apply (Hno k)].
    unfold by_token, token_live. cbn. by rewrite andb_false_r.
  - intros l. apply preserves_readonly; [apply _|auto with primer].
Qed.

Lemma keeps_out_create h code sid by_ now : preserves (keeps_out h) (CreatePairingCode sha256_hex code sid by_ now).
Proof.
  apply (preserves_bind (keeps_out h)); [|intros pc; apply preserves_readonly; [apply _|auto with primer]].
  apply preserves_Create; [apply _|]. intros d x Hno k y. apply Hno.
Qed.

Lemma keeps_out_claim h token code name now :
  sha256_hex token ≠ h → preserves (keeps_out h) (ClaimStudentPairingCode sha256_hex token code name now).
Proof.
  intros Hh. apply (preserves_bind (keeps_out h)); [|intros dev; apply preserves_readonly; [apply _|auto with primer]].
  apply preserves_WithTx; [apply _|]. apply (preserves_bind (keeps_out h)).
  { apply (preserves_stmt (keeps_out h)). intros d d' l [= <- _]. intros Hno k x. apply Hno. }
  intros pcs. apply (preserves_bind (keeps_out h)); [apply preserves_readonly; [apply _|auto with primer]|].
  intros pc q c. unfold Create. apply (preserves_stmt (keeps_out h)). intros d d' x.
  destruct (violation d _); [done|]. intros [= <- _] Hno k y. cbn.
  intros [[<- <-]|[_ Hy]]%lookup_insert_Some; [|by apply (Hno k)].
  unfold by_token. cbn. by rewrite bool_decide_false.
Qed.

(** The operations on devices and codes. *)
Inductive device_op :=
| OpCreateCode (code sid : string) (by_ : option string) (now : Z)
| OpClaim (token code name : string) (now : Z)
| OpTouch (id : string) (now : Z)
| OpReport (id : string) (caps : option jmap) (now : Z)
| OpRevoke (id : string) (now : Z).

Definition run_op (op : device_op) (q : qenv) (c : conn) : conn :=
  match op with
  | OpCreateCode code sid by_ now => (CreatePairingCode sha256_hex code sid by_ now q c).1
  | OpClaim token code name now => (ClaimStudentPairingCode sha256_hex token code name now q c).1
  | OpTouch id now => (TouchStudentDevice id now q c).1
  | OpReport id caps now => (StoreDeviceCapabilities id caps now q c).1
  | OpRevoke id now => (RevokeStudentDevice id now q c).1
  end.

(** Every token issued later differs from this one, also in its hash. *)
Definition issues_other (h : string) (op : device_op) : Prop :=
  match op with OpClaim token _ _ _ => sha256_hex token ≠ h | _ => True end.

Lemma run_op_keeps_out h op q c : issues_other h op → no_token h (cn_db c) → no_token h (cn_db (run_op op q c)).
Proof.
  destruct op; cbn; intros Ho.
  - apply keeps_out_create.
  - by apply keeps_out_claim.
  - by apply keeps_out_exec.
  - by apply keeps_out_exec.
  - apply keeps_out_revoke.
Qed.

Lemma run_ops_keeps_out h ops : Forall (issues_other h) ops → ∀ q c, no_token h (cn_db c) →
  no_token h (cn_db (foldl (λ c op, run_op op q c) c ops)).
Proof.
  induction 1 as [|op ops Ho _ IH]; intros q c Hn; [done|]. apply IH. by apply run_op_keeps_out.
Qed.

Lemma no_token_guard token now q c :
  token ≠ "" → cn_aborted c = false → no_token (sha256_hex token) (cn_db c) →
  StudentDeviceGuard sha256_hex token "" now q c = (c, Ok (GuardUnauthorized "unknown or revoked device token")).
Proof.
  intros Ht Hl Hn. unfold StudentDeviceGuard. rewrite (bool_decide_false (token = "")) by done.
  rewrite (bool_decide_false (token = "")) by done.
  unfold mbind, M_bind, attempt, StudentDeviceByToken, mbind, M_bind. rewrite query_run by done.
  assert (select (by_token (HashToken sha256_hex token)) (db_devices (cn_db c)) = []) as ->; [|done].
  apply elem_of_nil_inv. intros x [[k Hk] Hx]%elem_of_select. pose proof (Hn k x Hk) as E. unfold HashToken in Hx. congruence.
Qed.

Lemma Revoke_Ok id now q c c' dev : RevokeStudentDevice id now q c = (c', Ok dev) →
  ∃ x, db_devices (cn_db c) !! id = Some x ∧ dev = device_revoked now (q_now q) x ∧
       cn_db c' = set_devices (<[id := dev]> (db_devices (cn_db c))) (cn_db c) ∧ cn_aborted c' = false.
Proof.
  unfold RevokeStudentDevice. intros (c1 & l & (_ & Hl & Ha)%stmt_Ok & (-> & ->)%exactly_one_Ok)%M_bind_Ok.
  destruct (db_devices (cn_db c) !! id) as [x|]; [|done]. case_bool_decide; [|done].
  injection Hl as Hd <-. exists x. eauto.
Qed.

Lemma run_op_live op q c : q_mode q = QPool → cn_aborted c = false → cn_aborted (run_op op q c) = false.
Proof.
  intros Hq Hl. destruct op; cbn.
  - by apply pool_live_bind; [apply pool_live_Create|intros; apply pool_live_readonly; auto with primer|..].
  - by apply pool_live_bind; [apply pool_live_WithTx|intros; apply pool_live_readonly; auto with primer|..].
  - by apply pool_live_stmt.
  - by apply pool_live_stmt.
  - unfold RevokeStudentDevice. apply pool_live_bind; [apply pool_live_stmt| |done..].
    intros; apply pool_live_readonly; auto with primer.
Qed.

Lemma run_ops_live ops : ∀ q c, q_mode q = QPool → cn_aborted c = false →
  cn_aborted (foldl (λ c op, run_op op q c) c ops) = false.
Proof. induction ops as [|op ops IH]; intros q c Hq Hl; [done|]. apply IH; [done|]. by apply run_op_live. Qed.

(** C26: A revoked device stays locked out.  Once [RevokeStudentDevice] has succeeded on
    the device that held a token, the guard of the student routes rejects that token,
    after any sequence of pairing, touching, reporting and revoking in which no later
    device is given a token with the same hash. *)
Theorem revoked_token_refused id now q c c' dev x token ops now2 :
  q_mode q = QPool → devices_ok (cn_db c) → token ≠ "" → sha256_hex token ≠ "" →
  db_devices (cn_db c) !! id = Some x → dv_TokenHash x = sha256_hex token →
  RevokeStudentDevice id now q c = (c', Ok dev) → Forall (issues_other (sha256_hex token)) ops →
  let c2 := foldl (λ c op, run_op op q c) c' ops in
  StudentDeviceGuard sha256_hex token "" now2 q c2 = (c2, Ok (GuardUnauthorized "unknown or revoked device token")).
Proof.
  intros Hq Hok Ht Hh Hx Htok Hrev Hops c2.
  destruct (Revoke_Ok _ _ _ _ _ _ Hrev) as (y & Hy & -> & Hdb & Hl). assert (y = x) as -> by congruence.
  apply no_token_guard; [done|by apply run_ops_live|]. apply run_ops_keeps_out; [done|].
  rewrite Hdb. intros k z. cbn. intros [[<- <-]|[Hk Hz]]%lookup_insert_Some.
  - unfold by_token, token_live. cbn. by rewrite andb_false_r.
  - destruct (by_token _ z) eqn:E; [|done]. apply andb_true_iff in E as [E1 E2]. apply bool_decide_eq_true in E1.
    destruct Hk. eapply (proj2 Hok); [exact Hx|exact Hz| |done|congruence].
    unfold token_live. rewrite (bool_decide_false (dv_TokenHash x = "")) by congruence.
    unfold RevokeStudentDevice in Hrev. apply M_bind_Ok in Hrev as (c3 & l & (_ & Hl2 & _)%stmt_Ok & Hone).
    rewrite Hx in Hl2. by destruct (bool_decide_reflect (dv_RevokedAt x = None)); [|injection Hl2 as _ <-].
Qed.

(** ** Pairing *)

(** C27: A pairing code works once, in time, for its student.  When a claim succeeds there
    was exactly one unused code row with that hash, it had not expired, the new device
    belongs to the student the code was issued for, the token returned authenticates
    exactly that device, and a second claim of the same code, at any later time, is
    refused. *)
Theorem pairing_code_single_use token code name now q c c' tok dev token2 name2 now2 :
  q_mode q = QPool → sha256_hex token ≠ "" →
  ClaimStudentPairingCode sha256_hex token code name now q c = (c', Ok (tok, dev)) →
  tok = token ∧
  (∃ pc, select (claimable (sha256_hex code) now) (db_pairing_codes (cn_db c)) = [pc] ∧
         pc_UsedAt pc = None ∧ (now < pc_ExpiresAt pc)%Z ∧ dv_StudentID dev = pc_StudentID pc) ∧
  StudentDeviceByToken sha256_hex token q c' = (c', Ok dev) ∧
  ((now ≤ now2)%Z → ClaimStudentPairingCode sha256_hex token2 code name2 now2 q c' = (c', Err ErrNotFound)).
Proof.
  intros Hq Hh. unfold ClaimStudentPairingCode at 1. intros (c1 & dv & Hcl & [= <- <- <-])%M_bind_Ok.
  apply WithTx_Ok in Hcl as (Hl & Hcl & Hl'); [|by rewrite Hq].
  apply M_bind_Ok in Hcl as (c2 & pcs & (_ & Hupd & Hl2)%stmt_Ok & Hcl). injection Hupd as Hdb2 Hpcs.
  apply M_bind_Ok in Hcl as (c3 & pcu & (-> & ->)%exactly_one_Ok & Hcl).
  apply Create_Ok in Hcl as (Hdv & Hdb & Hviol & _ & _).
  assert (∃ pc, select (claimable (sha256_hex code) now) (db_pairing_codes (cn_db c)) = [pc] ∧ pcu = code_used now pc)
    as (pc & Hsel & ->).
  { unfold HashToken in Hpcs. destruct (select _ _) as [|pc [|? ?]]; try done. exists pc. by injection Hpcs as <-. }
  assert (pc ∈ [pc]) as Hpc by left. rewrite <-Hsel, elem_of_select in Hpc. destruct Hpc as [_ Hpc].
  unfold claimable in Hpc. rewrite !andb_true_iff, !bool_decide_eq_true, Z.ltb_lt in Hpc. destruct Hpc as [[_ Hun] Hexp].
  assert (dv_StudentID dv = pc_StudentID pc ∧ dv_TokenHash dv = sha256_hex token ∧ token_live dv = true ∧
          dv_ID dv = gen_random_uuid (dom (db_devices (cn_db c2)))) as (Hstu & Htok & Hlive & Hid).
  { rewrite Hdv. cbn. unfold token_live, HashToken. cbn. by rewrite bool_decide_false. }
  split_and!; [done| | |].
  - exists pc. eauto.
  - apply M_bind_Ok. eexists c1, _. split; [by apply query_run|]. apply exactly_one_Ok. split; [done|].
    rewrite Hdb. cbn [db_devices set_devices tbl set_tbl row_devices row_id].
    assert (select (by_token (HashToken sha256_hex token)) (<[dv_ID dv := dv]> (db_devices (cn_db c2))) = [dv]) as ->; [|done].
    apply select_insert_single.
    + rewrite Hid. exact (Create_fresh (A:=StudentDevice) (cn_db c2)).
    + apply elem_of_nil_inv. intros y [[k Hk] Hy]%elem_of_select. unfold by_token in Hy.
      apply andb_true_iff in Hy as [Hy1 Hy2]. apply bool_decide_eq_true in Hy1.
      change (violation (cn_db c2) dv) with (violation_device (cn_db c2) dv) in Hviol.
      unfold violation_device in Hviol. violation_inv Hviol.
      match goal with Hc : _ && has_row _ _ = false |- _ => rewrite Hlive in Hc; cbn [andb] in Hc;
        rewrite has_row_false in Hc; specialize (Hc k y Hk); cbn in Hc; rewrite Hy2 in Hc end.
      cbn [andb] in *. unfold HashToken in *. by rewrite bool_decide_true in * by congruence.
    + unfold by_token. rewrite Hlive. by rewrite bool_decide_true.
  - intros Hnow. unfold ClaimStudentPairingCode, mbind at 1, M_bind at 1, WithTx. rewrite Hq, Hl'.
    unfold mbind at 1, M_bind at 1, claimCode, stmt. rewrite Hl'. cbn [fst].
    assert (select (claimable (HashToken sha256_hex code) now2) (db_pairing_codes (cn_db c1)) = []) as ->; [|done].
    rewrite Hdb. cbn. rewrite <-Hdb2. apply elem_of_nil_inv. intros y [[k Hk] Hy]%elem_of_select. cbn in Hk.
    apply lookup_fmap_Some in Hk as (z & <- & Hz). revert Hy. unfold claimable.
    destruct (bool_decide_reflect (pc_CodeHash z = HashToken sha256_hex code)),
      (bool_decide_reflect (pc_UsedAt z = None)), (Z.ltb_spec now (pc_ExpiresAt z)); cbn [andb]; cbn.
    all: rewrite !andb_true_iff, !bool_decide_eq_true, Z.ltb_lt; naive_solver lia.
Qed.
End device_theorems.

(** ** Examples and witnesses *)

Section sample_runs.
#[local] Existing Instance sample_postgres.

Definition w_hash (s : string) : string := "h" +:+ s.

Example pairing_code_ex : NewPairingCode [0; 24; 25; 255; 7; 130]%Z = "A9AGJG".
Proof. reflexivity. Qed.

(** A code issued at 100 and claimed at 200. *)
Definition w_issued : conn := (CreatePairingCode w_hash "A9AGJG" "s1" (Some "p1") 100 w_pool w_conn).1.
Definition w_claimed : conn := (ClaimStudentPairingCode w_hash "tok" "A9AGJG" "pc" 200 w_pool w_issued).1.
Definition w_claimed_device : StudentDevice :=
  mkStudentDevice "0" "s1" "pc" "htok" (Some 200%Z) None ∅ None 100 100.

Lemma w_claim_Ok :
  ClaimStudentPairingCode w_hash "tok" "A9AGJG" "pc" 200 w_pool w_issued = (w_claimed, Ok ("tok", w_claimed_device)).
Proof. vm_compute. reflexivity. Qed.

Lemma pairing_code_single_use_witness :
  StudentDeviceByToken w_hash "tok" w_pool w_claimed = (w_claimed, Ok w_claimed_device) ∧
  ClaimStudentPairingCode w_hash "tok2" "A9AGJG" "pc" 300 w_pool w_claimed = (w_claimed, Err ErrNotFound).
Proof.
  destruct (pairing_code_single_use w_hash "tok" "A9AGJG" "pc" 200 w_pool w_issued w_claimed "tok" w_claimed_device
    "tok2" "pc" 300) as (_ & _ & Ht & Hn).
  - reflexivity.
  - discriminate.
  - exact w_claim_Ok.
  - split; [exact Ht|]. apply Hn. lia.
Defined.

(** Claimed too late. *)
Example claim_expired :
  (ClaimStudentPairingCode w_hash "tok" "A9AGJG" "pc" (100 + PairingCodeTTL) w_pool w_issued).2 = Err ErrNotFound.
Proof. vm_compute. reflexivity. Qed.

Lemma w_devices_ok : devices_ok (cn_db w_claimed).
Proof.
  assert (db_devices (cn_db w_claimed) = <["0" := w_claimed_device]> (<["d1" := w_device]> ∅)) as Hd
    by (vm_compute; reflexivity).
  split; intros *; rewrite Hd, ?lookup_insert_Some, ?lookup_empty; [naive_solver|].
  intros Hk1 Hk2 H1 H2 Heq.
  destruct Hk1 as [[<- <-]|[_ [[<- <-]|[_ ?]]]], Hk2 as [[<- <-]|[_ [[<- <-]|[_ ?]]]]; try done.
Qed.

Lemma revoked_token_refused_witness :
  let c' := (RevokeStudentDevice "0" 400 w_pool w_claimed).1 in
  let c2 := run_op w_hash (OpTouch "0" 500) w_pool c' in
  StudentDeviceGuard w_hash "tok" "" 600 w_pool c2 = (c2, Ok (GuardUnauthorized "unknown or revoked device token")).
Proof.
  apply (revoked_token_refused w_hash "0" 400 w_pool w_claimed (RevokeStudentDevice "0" 400 w_pool w_claimed).1
    (device_revoked 400 100 w_claimed_device) w_claimed_device "tok" [OpTouch "0" 500] 600).
  - reflexivity.
  - exact w_devices_ok.
  - discriminate.
  - discriminate.
  - vm_compute. reflexivity.
  - reflexivity.
  - vm_compute. reflexivity.
  - repeat constructor.
Defined.
End sample_runs.
