(* ===== verification/ArtifactStore.v ===== *)
(** * The artifact store and its policy ([artifacts/store.go])

    Content-addressed blobs under [objects/], per-session pointers under
    [sessions/], materialised fixture bundles under [bundles/].  A file is named by
    the place it has in that layout; [place_path] is its path.  File contents are
    byte strings, the digest ([sha256] in hexadecimal) is a parameter, and the
    operating system is taken to carry out the calls it is given. *)
From S2P Require Import Prelude GoStrings Paths Contracts LmsData LmsDb Sessions.
From Stdlib Require Import Ascii.
From stdpp Require Import options.
Local Open Scope string_scope.
Local Open Scope list_scope.

(** ** Strings *)

(** [strings.EqualFold] as far as a comparison with an ASCII string sees it: ASCII
    letters fold, and so do U+212A with k and U+017F (encoded C5 BF) with s. *)
Fixpoint fold_ascii (s : string) : string :=
  match s with
  | EmptyString => EmptyString
  | String c s' =>
      if (nat_of_ascii c =? 197)%nat then
        match s' with
        | String d s1 => if (nat_of_ascii d =? 191)%nat then String "s" (fold_ascii s1) else String c (fold_ascii s')
        | EmptyString => String c EmptyString
        end
      else if (nat_of_ascii c =? 226)%nat then
        match s' with
        | String d (String e s2) =>
            if ((nat_of_ascii d =? 132) && (nat_of_ascii e =? 170))%nat then String "k" (fold_ascii s2)
            else String c (fold_ascii s')
        | _ => String c (fold_ascii s')
        end
      else String (lower_ascii c) (fold_ascii s')
  end.
Definition EqualFold (s t : string) : bool := bool_decide (fold_ascii s = fold_ascii t).

Definition TrimSuffix (s suf : string) : string := srev (TrimPrefix (srev s) (srev suf)).

(** [strings.ReplaceAll] of one character. *)
Fixpoint replace_char (a b : ascii) (s : string) : string :=
  match s with
  | EmptyString => EmptyString
  | String c s' => String (if bool_decide (c = a) then b else c) (replace_char a b s')
  end.

Definition backslash : ascii := ascii_of_nat 92.

Definition SafeFilename (name : string) : result string string :=
  let name := TrimSpace name in
  if bool_decide (name = "") then Err "filename is required"
  else
    let base := replace_char backslash "_" (filepath_Base name) in
    if one_of base ["."; ".."; ""] then Err "invalid filename"
    else if Contains base "/" || Contains base NUL then Err "invalid filename"
    else Ok base.

Definition is_hex (c : ascii) : bool :=
  let n := nat_of_ascii c in ((48 <=? n) && (n <=? 57) || (97 <=? n) && (n <=? 102))%nat.

Definition normalizeDigest (d : string) : result string string :=
  let d := ToLower (TrimSpace d) in
  if negb (bool_decide (String.length d = 64)%nat) then Err "sha256 digest must be 64 hex chars"
  else if negb (forallb is_hex (String.list_ascii_of_string d)) then Err "sha256 digest must be hex"
  else Ok d.

Definition requireSafeID (id : string) : result string unit :=
  if bool_decide (id = "") then Err "id is required"
  else if Contains id "/" || Contains id (String backslash "") || Contains id ".." || Contains id NUL
  then Err "id contains illegal characters" else Ok tt.

(** ** The layout *)

Inductive place :=
| PObject (digest : string)
| PSession (sessionID artifactID : string)
| PBundle (studentID digest rel : string).

#[export] Instance place_eq_dec : EqDecision place.
Proof. solve_decision. Defined.
#[export] Instance place_countable : Countable place.
Proof.
  refine (inj_countable' (λ p, match p with
    | PObject d => inl d | PSession s a => inr (inl (s, a)) | PBundle s d r => inr (inr (s, d, r)) end)
    (λ x, match x with inl d => PObject d | inr (inl (s, a)) => PSession s a | inr (inr (s, d, r)) => PBundle s d r end) _).
  by intros [].
Defined.

Definition bundle_dir (studentID digest : string) : string := "bundles/" +:+ studentID +:+ "/" +:+ digest.

(** The path under the root of the store. *)
Definition place_path (p : place) : string :=
  match p with
  | PObject d => "objects/sha256/" +:+ String.substring 0 2 d +:+ "/" +:+ d
  | PSession s a => "sessions/" +:+ s +:+ "/" +:+ a
  | PBundle s d r => bundle_dir s d +:+ "/" +:+ r
  end.

Record file := mkFile { fl_data : string; fl_mode : Z }.
Abbreviation files := (gmap place file).

Definition ObjectPath (digest : string) : result string place := d ← normalizeDigest digest; Ok (PObject d).
Definition SessionArtifactPath (sessionID artifactID : string) : result string place :=
  _ ← requireSafeID sessionID; _ ← requireSafeID artifactID; Ok (PSession sessionID artifactID).
(** The directory of a bundle, as the student and the digest that name it. *)
Definition BundleRoot (studentID digest : string) : result string (string * string) :=
  _ ← requireSafeID studentID; d ← normalizeDigest digest; Ok (studentID, d).

Section store.
Context (sha256_hex : string → string).

Definition size (s : string) : Z := Z.of_nat (String.length s).

(** [io.LimitReader(r, expectedSize+1)] *)
Definition limited (data : string) (n : Z) : string := String.substring 0 (Z.to_nat n) data.

(** The relative path and the size of the object; its mode is 0o640. *)
Definition PutObject (digest data : string) (expectedSize : Z) (fs : files)
  : files * result string (string * Z) :=
  match ObjectPath digest with
  | Err e => (fs, Err e)
  | Ok obj =>
      match fs !! obj with
      | Some f =>
          if negb (EqualFold (sha256_hex (fl_data f)) digest) then (fs, Err "corrupt object")
          else if bool_decide (0 ≤ expectedSize)%Z && negb (bool_decide (size (fl_data f) = expectedSize))
          then (fs, Err "object exists with another size")
          else (fs, Ok (place_path obj, size (fl_data f)))
      | None =>
          let written := limited data (expectedSize + 1) in
          if bool_decide (0 ≤ expectedSize)%Z && negb (bool_decide (size written = expectedSize))
          then (fs, Err "size mismatch")
          else if negb (EqualFold (sha256_hex written) digest) then (fs, Err "digest mismatch")
          else (<[obj := mkFile written 0x1A0]> fs, Ok (place_path obj, size written))
      end
  end.

Definition LinkSessionArtifact (sessionID artifactID digest : string) (fs : files)
  : files * result string string :=
  match ObjectPath digest with
  | Err e => (fs, Err e)
  | Ok obj =>
      match fs !! obj with
      | None => (fs, Err "object missing")
      | Some f =>
          match SessionArtifactPath sessionID artifactID with
          | Err e => (fs, Err e)
          | Ok link =>
              match fs !! link with
              | Some _ => (fs, Ok (place_path link))
              | None => (<[link := f]> fs, Ok (place_path link))
              end
          end
      end
  end.

Definition OpenObject (digest : string) (fs : files) : result string string :=
  obj ← ObjectPath digest;
  match fs !! obj with Some f => Ok (fl_data f) | None => Err "no such object" end.
End store.

(** [mode] has no bits above the permissions here; zero means the default. *)
Definition WriteBundleEntry (root : string * string) (rel data : string) (mode : Z) (fs : files)
  : files * result string unit :=
  match SafeRelPath rel with
  | Err _ => (fs, Err "unsafe path")
  | Ok safe =>
      let mode := if bool_decide (mode = 0)%Z then 0x1A4%Z else mode in
      (<[PBundle root.1 root.2 safe := mkFile data mode]> fs, Ok tt)
  end.

(** ** Materialising a bundle in a workspace *)

Inductive ftype := FDir | FRegular | FSymlink | FSpecial | FOther.

#[export] Instance ftype_eq_dec : EqDecision ftype.
Proof. solve_decision. Defined.

(** What [filepath.WalkDir] visits below the root of the bundle. *)
Record walk_entry := mkWalkEntry { we_rel : string; we_type : ftype; we_perm : Z; we_data : string }.

(** [perm &^= 0o222] after the default 0o644. *)
Definition bundle_perm (perm : Z) : Z :=
  Z.ldiff (if bool_decide (perm = 0)%Z then 0x1A4%Z else perm) 0x92.

(** One call of the walk function: the file it writes, if any. *)
Definition materialize_entry (destAbs : string) (e : walk_entry) : result string (option (string * file)) :=
  match SafeRelPath (we_rel e) with
  | Err _ => Err "unsafe path"
  | Ok _ =>
      if bool_decide (we_type e = FSymlink) then Err "reject symlink in bundle"
      else if bool_decide (we_type e = FSpecial) then Err "reject special file in bundle"
      else match JoinUnder destAbs (we_rel e) with
           | Err _ => Err "unsafe path"
           | Ok target =>
               match we_type e with
               | FDir => Ok None
               | FRegular => Ok (Some (target, mkFile (we_data e) (bundle_perm (we_perm e))))
               | _ => Err "reject non-regular file in bundle"
               end
           end
  end.

(** The files written so far, by path; the walk stops at the first error. *)
Definition MaterializeBundle (entries : list walk_entry) (destAbs : string)
  : gmap string file * result string unit :=
  (fix walk (l : list walk_entry) (ws : gmap string file) :=
     match l with
     | [] => (ws, Ok tt)
     | e :: l' =>
         match materialize_entry destAbs e with
         | Err m => (ws, Err m)
         | Ok None => walk l' ws
         | Ok (Some (p, f)) => walk l' (<[p := f]> ws)
         end
     end) entries ∅.

(** ** Quotas *)

Definition DefaultMaxBytesEach : Z := 1048576.
Definition DefaultMaxBytesTotal : Z := 5242880.
Definition DefaultMaxFiles : Z := 20.
Definition DefaultMaxStudentBytes : Z := 52428800.

Definition or_default (v dflt : Z) : Z := if bool_decide (v ≤ 0)%Z then dflt else v.

Definition type_allowed (mediaType t : string) : bool :=
  EqualFold t mediaType || bool_decide (t = "*/*") ||
  (HasSuffix t "/*" && HasPrefix (ToLower mediaType) (ToLower (TrimSuffix t "/*") +:+ "/")).

Definition PolicyCheck (pol : option ArtifactPolicy) (mediaType : string) (byteSize sessionFileCount sessionByteTotal : Z)
  : result string unit :=
  match pol with
  | None => Err "artifacts are not enabled for this activity revision"
  | Some pol =>
      let maxEach := or_default (ap_MaxBytesEach pol) DefaultMaxBytesEach in
      let maxTotal := or_default (ap_MaxBytesTotal pol) DefaultMaxBytesTotal in
      let maxFiles := or_default (ap_MaxFiles pol) DefaultMaxFiles in
      _ ← ensure (ap_Enabled pol) "artifacts are not enabled for this activity revision";
      _ ← ensure (bool_decide (0 ≤ byteSize)%Z) "byteSize must be non-negative";
      _ ← ensure (bool_decide (byteSize ≤ maxEach)%Z) "file exceeds maxBytesEach";
      _ ← ensure (bool_decide (sessionFileCount < maxFiles)%Z) "session file quota exceeded";
      _ ← ensure (bool_decide (wrap64 (sessionByteTotal + byteSize) ≤ maxTotal)%Z) "session byte quota exceeded";
      ensure (bool_decide (ap_AllowedTypes pol = []) || existsb (type_allowed mediaType) (ap_AllowedTypes pol))
        "media type is not allowed"
  end.

(** ** Properties of the store *)

(** Every blob has the digest it is stored under. *)
Definition store_ok (sha256_hex : string → string) (fs : files) : Prop :=
  ∀ d f, fs !! PObject d = Some f → EqualFold (sha256_hex (fl_data f)) d = true.

(** What the code relies on of [hex.EncodeToString(sha256.Sum256(...))]. *)
Definition hex_string (s : string) : Prop := forallb is_hex (String.list_ascii_of_string s) = true.
Definition hex_digests (sha256_hex : string → string) : Prop :=
  ∀ s, hex_string (sha256_hex s) ∧ String.length (sha256_hex s) = 64%nat.

(** A character whose lower case is a hexadecimal digit is neither folded specially nor
    the first or last byte of a space. *)
Definition lower_hex_ok (c : ascii) : bool :=
  implb (is_hex (lower_ascii c))
    (negb (nat_of_ascii c =? 196)%nat && negb (nat_of_ascii c =? 197)%nat && negb (nat_of_ascii c =? 226)%nat &&
     forallb (λ sp, match sp with String x _ => negb (bool_decide (x = c)) | EmptyString => false end)
       (unicode_spaces ++ map srev unicode_spaces)).
Lemma lower_hex_ok_all c : lower_hex_ok c = true.
Proof. destruct c as [[] [] [] [] [] [] [] []]; vm_compute; reflexivity. Qed.

Lemma lower_hex_special c : is_hex (lower_ascii c) = true →
  nat_of_ascii c ≠ 196%nat ∧ nat_of_ascii c ≠ 197%nat ∧ nat_of_ascii c ≠ 226%nat ∧
  ∀ s sp, sp ∈ unicode_spaces ++ map srev unicode_spaces → HasPrefix (String c s) sp = false.
Proof.
  intros Hc. pose proof (lower_hex_ok_all c) as Hok. unfold lower_hex_ok in Hok. rewrite Hc in Hok. cbn [implb] in Hok.
  rewrite !andb_true_iff, !negb_true_iff, !Nat.eqb_neq, forallb_forall_in in Hok.
  destruct Hok as [[[? ?] ?] Hsp]. split_and!; [done..|]. intros s sp Hin. specialize (Hsp sp Hin).
  destruct sp as [|x sp]; [done|]. apply negb_true_iff, bool_decide_eq_false in Hsp.
  unfold HasPrefix. cbn. destruct (ascii_dec x c); [done|done].
Qed.

Lemma trim_left_none spaces fuel s : (∀ sp, sp ∈ spaces → HasPrefix s sp = false) → trim_left spaces fuel s = s.
Proof.
  intros Hn. destruct fuel; [done|]. cbn. destruct (find _ spaces) as [sp|] eqn:E; [|done].
  apply find_some in E as [Hin Hp]. by rewrite Hn in Hp by by apply list_elem_of_In.
Qed.

(** Text of hexadecimal digits in either case. *)
Definition hexish (s : string) : Prop := ∀ c, c ∈ String.list_ascii_of_string s → is_hex (lower_ascii c) = true.

Lemma srev_involutive s : srev (srev s) = s.
Proof.
  unfold srev. rewrite String.list_ascii_of_string_of_list_ascii, rev_involutive.
  apply String.string_of_list_ascii_of_string.
Qed.

Lemma hexish_srev s : hexish s → hexish (srev s).
Proof.
  intros Hs c. unfold srev. rewrite String.list_ascii_of_string_of_list_ascii.
  rewrite list_elem_of_In, <-in_rev, <-list_elem_of_In. apply Hs.
Qed.

Lemma hexish_no_space s sp : hexish s → sp ∈ unicode_spaces ++ map srev unicode_spaces → HasPrefix s sp = false.
Proof.
  intros Hs Hsp. destruct s as [|c s].
  - assert (sp ≠ "") as Hne; [|by destruct sp].
    pose proof (proj1 (forallb_forall_in (λ sp, negb (bool_decide (sp = ""))) (unicode_spaces ++ map srev unicode_spaces))
      ltac:(by vm_compute) sp Hsp) as Hb. by apply negb_true_iff, bool_decide_eq_false in Hb.
  - apply lower_hex_special; [|done]. apply Hs. left.
Qed.

Lemma TrimSpace_hexish s : hexish s → TrimSpace s = s.
Proof.
  intros Hs. unfold TrimSpace. rewrite (trim_left_none unicode_spaces).
  - rewrite trim_left_none; [apply srev_involutive|]. intros sp Hsp.
    apply hexish_no_space; [by apply hexish_srev|]. apply elem_of_app. by right.
  - intros sp Hsp. apply hexish_no_space; [done|]. apply elem_of_app. by left.
Qed.

Lemma fold_plain c s : nat_of_ascii c ≠ 197%nat → nat_of_ascii c ≠ 226%nat →
  fold_ascii (String c s) = String (lower_ascii c) (fold_ascii s).
Proof. intros H1 H2. cbn [fold_ascii]. by rewrite (proj2 (Nat.eqb_neq _ _) H1), (proj2 (Nat.eqb_neq _ _) H2). Qed.
Lemma lower_plain c s : nat_of_ascii c ≠ 196%nat → nat_of_ascii c ≠ 226%nat →
  ToLower (String c s) = String (lower_ascii c) (ToLower s).
Proof. destruct c as [[] [] [] [] [] [] [] []]; intros H1 H2; first [reflexivity|by destruct H1|by destruct H2]. Qed.
(** The special code points fold to text that is not hexadecimal. *)
Lemma fold_special c s : nat_of_ascii c = 197%nat ∨ nat_of_ascii c = 226%nat →
  ∃ x t, fold_ascii (String c s) = String x t ∧ is_hex x = false.
Proof.
  intros Hc. assert (is_hex c = false) as Hx by (unfold is_hex; by destruct Hc as [->| ->]).
  cbn [fold_ascii]. destruct Hc as [Hc|Hc]; rewrite Hc; cbn [Nat.eqb].
  - destruct s as [|d s]; [eauto|]. destruct (nat_of_ascii d =? 191)%nat; eexists _, _; eauto.
  - destruct s as [|d [|e s]]; [by eauto..|].
    destruct ((nat_of_ascii d =? 132) && (nat_of_ascii e =? 170))%nat; eexists _, _; eauto.
Qed.

Lemma fold_hex s : hex_string (fold_ascii s) → hexish s ∧ ToLower s = fold_ascii s.
Proof.
  induction s as [|c s IH]; intros Hh; [split; [by intros ? ?%elem_of_nil|done]|].
  destruct (decide (nat_of_ascii c = 197%nat ∨ nat_of_ascii c = 226%nat)) as [Hc|Hc].
  { destruct (fold_special c s Hc) as (x & t & E & Hx). rewrite E in Hh. unfold hex_string in Hh. cbn in Hh.
    by rewrite Hx in Hh. }
  assert (nat_of_ascii c ≠ 197%nat ∧ nat_of_ascii c ≠ 226%nat) as [H1 H2] by naive_solver.
  rewrite fold_plain in Hh by done. unfold hex_string in Hh. cbn in Hh. apply andb_true_iff in Hh as [Hx Hh].
  destruct (IH Hh) as [Hs Hl]. destruct (lower_hex_special c Hx) as (H3 & _).
  rewrite fold_plain, lower_plain, Hl by done. split; [|done].
  intros d [->|Hd]%elem_of_cons; [done|by apply Hs].
Qed.

Lemma is_hex_lower c : is_hex c = true → lower_ascii c = c ∧ nat_of_ascii c ≠ 197%nat ∧ nat_of_ascii c ≠ 226%nat.
Proof. destruct c as [[] [] [] [] [] [] [] []]; intros Hc; try (by vm_compute in Hc); split; done. Qed.

Lemma fold_of_hex s : hex_string s → fold_ascii s = s.
Proof.
  unfold hex_string. induction s as [|c s IH]; [done|]. cbn [String.list_ascii_of_string forallb].
  intros [Hc Hs]%andb_true_iff. destruct (is_hex_lower c Hc) as (Hl & H1 & H2).
  by rewrite fold_plain, Hl, IH by done.
Qed.

Section put.
Context (sha256_hex : string → string) (Hsha : hex_digests sha256_hex).
#[local] Set Default Proof Using "Type*".

(** A digest that was verified against the bytes is, in normal form, their digest. *)
Lemma verified_digest data digest d :
  EqualFold (sha256_hex data) digest = true → normalizeDigest digest = Ok d → d = sha256_hex data.
Proof.
  intros He%bool_decide_eq_true Hn. destruct (Hsha data) as [Hh _]. rewrite (fold_of_hex _ Hh) in He.
  rewrite He in Hh. destruct (fold_hex digest Hh) as [Hx Hl].
  unfold normalizeDigest in Hn. rewrite (TrimSpace_hexish _ Hx), Hl, <-He in Hn.
  destruct (negb _); [done|]. destruct (negb _); [done|]. congruence.
Qed.

Lemma PutObject_ok digest data n fs fs' r :
  store_ok sha256_hex fs → PutObject sha256_hex digest data n fs = (fs', r) →
  store_ok sha256_hex fs' ∧ fs ⊆ fs' ∧
  ∀ rel m, r = Ok (rel, m) → (0 ≤ n)%Z →
    ∃ d f, normalizeDigest digest = Ok d ∧ fs' !! PObject d = Some f ∧ sha256_hex (fl_data f) = d ∧
           size (fl_data f) = n ∧ m = n ∧ rel = place_path (PObject d).
Proof.
  intros Hok. unfold PutObject, ObjectPath.
  destruct (normalizeDigest digest) as [d|e] eqn:En; cbn [mbind result_bind]; [|by intros [= <- <-]].
  destruct (fs !! PObject d) as [f|] eqn:Ef.
  - destruct (EqualFold (sha256_hex (fl_data f)) digest) eqn:Ee; cbn [negb]; [|by intros [= <- <-]].
    destruct (bool_decide_reflect (0 ≤ n)%Z), (bool_decide_reflect (size (fl_data f) = n)); cbn [andb negb].
    all: intros [= <- <-]; split_and!; [done|done|]; intros rel m [= <- <-] ?; try done; try lia.
    exists d, f. split_and!; try done. by rewrite (verified_digest _ _ _ Ee En).
  - set (w := limited data (n + 1)).
    destruct (bool_decide_reflect (0 ≤ n)%Z), (bool_decide_reflect (size w = n)); cbn [andb negb]; [|by intros [= <- <-]|..].
    all: destruct (EqualFold (sha256_hex w) digest) eqn:Ee; cbn [negb]; [|by intros [= <- <-]].
    all: intros [= <- <-]; pose proof (verified_digest _ _ _ Ee En) as Hd; split_and!.
    all: try (by apply insert_subseteq).
    all: try (intros d0 f0 [[[= <-] <-]|[_ Hf]]%lookup_insert_Some; [|by apply Hok]).
    all: try (subst d; by apply bool_decide_eq_true).
    all: intros rel m [= <- <-] ?; try lia.
    exists d, (mkFile w 0x1A0). rewrite lookup_insert_eq. split_and!; done.
Qed.
(** Blobs are content-addressed.  Storing an object, whatever bytes, digest and size
    it is given, keeps every file of the store and the property that each blob has the
    digest it is stored under.  When it succeeds with a size that is not negative, the
    blob is there under the normalised digest, its bytes have exactly that digest and
    exactly that size, and the path returned is the blob's. *)
Lemma PutObject_addressed digest data n fs fs' r :
  store_ok sha256_hex fs → PutObject sha256_hex digest data n fs = (fs', r) →
  store_ok sha256_hex fs' ∧ fs ⊆ fs' ∧
  ∀ rel m, r = Ok (rel, m) → (0 ≤ n)%Z →
    ∃ d f, normalizeDigest digest = Ok d ∧ fs' !! PObject d = Some f ∧ sha256_hex (fl_data f) = d ∧
           size (fl_data f) = n ∧ m = n ∧ rel = place_path (PObject d).
Proof. apply PutObject_ok. Qed.
End put.

(** ** Permissions *)

(** A bundle file loses its write permission for its owner too. *)
Lemma bundle_perm_owner perm : Z.testbit (bundle_perm perm) 7 = false.
Proof. unfold bundle_perm. rewrite Z.ldiff_spec. apply andb_false_r. Qed.

(** ** Examples and witnesses *)

(** The bytes of an upload do not matter once the blob is there. *)
Lemma PutObject_existing sha256_hex digest d f data :
  normalizeDigest digest = Ok d → EqualFold (sha256_hex (fl_data f)) digest = true →
  ∀ fs, fs !! PObject d = Some f →
  PutObject sha256_hex digest data (size (fl_data f)) fs = (fs, Ok (place_path (PObject d), size (fl_data f))).
Proof.
  intros Hn He fs Hf. unfold PutObject, ObjectPath. rewrite Hn. cbn [mbind result_bind]. rewrite Hf, He. cbn [negb].
  by rewrite (bool_decide_true (size _ = size _)) by done; rewrite andb_false_r.
Qed.

Definition w_digest : string := "abababababababababababababababababababababababababababababababab".
Definition w_sha (s : string) : string := w_digest.

Lemma w_sha_hex : hex_digests w_sha.
Proof. intros s. split; vm_compute; reflexivity. Qed.

Lemma PutObject_addressed_witness :
  let r := PutObject w_sha w_digest "hello" 5 ∅ in
  store_ok w_sha r.1 ∧ (0 ≤ 5)%Z.
Proof.
  split; [|lia].
  refine (proj1 (PutObject_addressed w_sha w_sha_hex w_digest "hello" 5 ∅ _ _ _ (surjective_pairing _))).
  intros d f. by rewrite lookup_empty.
Defined.

Example SafeFilename_ex :
  (SafeFilename " ../../etc/passwd ", SafeFilename "a/b/", SafeFilename "///", SafeFilename "..") =
  (Ok "passwd", Ok "b", Err "invalid filename", Err "invalid filename").
Proof. vm_compute. reflexivity. Qed.

Example PolicyCheck_ex :
  let pol := Some (mkArtifactPolicy true 2 100 150 ["text/*"; "image/png"] 0) in
  (PolicyCheck pol "Text/Plain" 100 0 0, PolicyCheck pol "text/plain" 100 1 60, PolicyCheck pol "text/plain" 10 2 60,
   PolicyCheck pol "application/pdf" 10 0 0, PolicyCheck None "text/plain" 1 0 0) =
  (Ok tt, Err "session byte quota exceeded", Err "session file quota exceeded", Err "media type is not allowed",
   Err "artifacts are not enabled for this activity revision").
Proof. vm_compute. reflexivity. Qed.
