(* ===== verification/Artifacts.v ===== *)
(** * Session artifacts, portfolio and continuity ([repo/artifacts.go], [api/artifacts_import.go])

    A client reserves a slot for a file, uploads its bytes, a parent promotes it to the
    portfolio or to a fixture bundle, and binds an assignment to a bundle. *)
From S2P Require Import Prelude GoStrings GoText Paths Float64 Contracts ContentJson LmsData LmsDb Sample Sessions.
From S2P Require Import ArtifactStore.
From stdpp Require Import options.
Local Open Scope string_scope.
Local Open Scope list_scope.

Abbreviation ArtifactStatusMetadataOnly := "metadata_only".
Abbreviation ArtifactStatusReserved := "reserved".
Abbreviation ArtifactStatusUploaded := "uploaded".
Abbreviation PortfolioDestinationPortfolio := "portfolio".
Abbreviation PortfolioDestinationFixtureBundle := "fixture_bundle".
Abbreviation ContinuityFresh := "fresh".
Abbreviation ContinuityOptionalPrevious := "optional_previous".
Abbreviation ContinuityRequiredProject := "required_project".
Abbreviation ContinuityPortfolioReview := "portfolio_review".

(** ** Artifact rows *)

Definition by_artifact (artifactID : string) (x : LearningSessionArtifact) : bool :=
  bool_decide (af_ArtifactID x = artifactID).

Definition GetSessionArtifactByClientID (artifactID : string) : M LearningSessionArtifact :=
  l ← query (λ d, select (by_artifact artifactID) (db_session_artifacts d)); exactly_one l.

Definition ListSessionArtifacts (sessionID : string) : M (list LearningSessionArtifact) :=
  query (λ d, order_by (λ a b, Z.leb (af_CreatedAt a) (af_CreatedAt b))
                (select (λ x, bool_decide (af_SessionID x = sessionID)) (db_session_artifacts d))).

Definition sum_Z (l : list Z) : Z := foldr Z.add 0%Z l.

Definition in_usage (sessionID : string) (x : LearningSessionArtifact) : bool :=
  bool_decide (af_SessionID x = sessionID) && one_of (af_Status x) ["reserved"; "uploaded"; "metadata_only"].

(** The number of files and the sum of their sizes. *)
Definition SessionArtifactUsage (sessionID : string) : M (Z * Z) :=
  query (λ d, let l := select (in_usage sessionID) (db_session_artifacts d) in
              (Z.of_nat (length l), sum_Z (af_ByteSize <$> l))).

Definition StudentArtifactBytes (studentID : string) : M Z :=
  query (λ d, sum_Z (af_ByteSize <$>
    select (λ x, bool_decide (af_StudentID x = Some studentID) && af_BytesStored x) (db_session_artifacts d))).

(** A reservation for the same file of the same session. *)
Definition checkReservation (sess : LearningSession) (meta : ArtifactMeta) (existing : LearningSessionArtifact)
  : M LearningSessionArtifact :=
  if negb (bool_decide (af_SessionID existing = ls_ID sess)) then throw (ErrConflict "conflict")
  else if negb (bool_decide (af_SHA256 existing = am_SHA256 meta)) ||
          negb (bool_decide (af_ByteSize existing = am_ByteSize meta)) ||
          negb (bool_decide (af_Filename existing = am_Filename meta))
       then throw (ErrConflict "conflict") else mret existing.

Section artifacts.
Context `{!Postgres}.

(** [INSERT ... ON CONFLICT (artifact_id) DO NOTHING RETURNING]: the rows returned. *)
Definition insertArtifact (sess : LearningSession) (meta : ArtifactMeta) (status : string)
  : M (list LearningSessionArtifact) := λ q c,
  stmt (λ d,
    let id := gen_random_uuid (dom (db_session_artifacts d)) in
    let x := mkLearningSessionArtifact id (ls_ID sess) (am_ArtifactID meta) (am_Filename meta) (am_MediaType meta)
               (am_ByteSize meta) (am_SHA256 meta) "" status (Some (ls_StudentID sess))
               (Some (ls_ActivityRevisionID sess)) false None (q_now q) (q_now q) in
    if negb (bool_decide (0 ≤ am_ByteSize meta)%Z) ||
       negb (one_of status ["metadata_only"; "reserved"; "uploaded"; "rejected"]) then Err check_violation
    else if has_row (by_artifact (am_ArtifactID meta)) (db_session_artifacts d) then Ok (d, [])
    else match violation d x with
         | Some code => Err code
         | None => Ok (set_session_artifacts (<[id := x]> (db_session_artifacts d)) d, [x])
         end) q c.

Definition ReserveSessionArtifact (sess : LearningSession) (meta : ArtifactMeta) (status : string)
  : M LearningSessionArtifact :=
  let status := if bool_decide (status = "") then ArtifactStatusReserved else status in
  existing ← attempt (GetSessionArtifactByClientID (am_ArtifactID meta));
  match existing with
  | Ok x => checkReservation sess meta x
  | Err ErrNotFound =>
      l ← insertArtifact sess meta status;
      match l with
      | [art] => mret art
      | _ => x ← GetSessionArtifactByClientID (am_ArtifactID meta); checkReservation sess meta x
      end
  | Err e => throw e
  end.

Definition artifact_uploaded (storagePath : string) (retainUntil : option Z) (at_ : Z) (x : LearningSessionArtifact)
  : LearningSessionArtifact :=
  mkLearningSessionArtifact (af_ID x) (af_SessionID x) (af_ArtifactID x) (af_Filename x) (af_MediaType x)
    (af_ByteSize x) (af_SHA256 x) storagePath ArtifactStatusUploaded (af_StudentID x) (af_ActivityRevisionID x)
    true retainUntil (af_CreatedAt x) at_.

(** Every row with the id is updated and returned. *)
Definition MarkArtifactUploaded (artifactID storagePath : string) (retainUntil : option Z)
  : M LearningSessionArtifact := λ q c,
  (l ← stmt (λ d,
     let f x := if by_artifact artifactID x then artifact_uploaded storagePath retainUntil (q_now q) x else x in
     Ok (set_session_artifacts (f <$> db_session_artifacts d) d,
         artifact_uploaded storagePath retainUntil (q_now q) <$> select (by_artifact artifactID) (db_session_artifacts d)));
   exactly_one l) q c.

Definition UpsertSessionArtifact (sessionID : string) (meta : ArtifactMeta) : M LearningSessionArtifact :=
  sess ← GetSession sessionID;
  existing ← attempt (GetSessionArtifactByClientID (am_ArtifactID meta));
  match existing with
  | Ok x =>
      if negb (bool_decide (af_SessionID x = sessionID)) then throw (ErrConflict "conflict")
      else if af_BytesStored x || one_of (af_Status x) [ArtifactStatusUploaded; ArtifactStatusReserved] then mret x
      else if negb (bool_decide (af_SHA256 x = am_SHA256 meta)) || negb (bool_decide (af_ByteSize x = am_ByteSize meta))
           then throw (ErrConflict "conflict") else mret x
  | Err ErrNotFound => ReserveSessionArtifact sess meta ArtifactStatusMetadataOnly
  | Err e => throw e
  end.

Definition ArtifactPolicyFromRevision (rev : LearningActivityRevision) : M (option ArtifactPolicy) :=
  content ← decodeContent (rv_Content rev); mret (ac_Artifacts content).

(** ** Reserving and uploading ([api/artifacts_import.go]) *)

Definition set_filename (name : string) (meta : ArtifactMeta) : ArtifactMeta :=
  mkArtifactMeta (if bool_decide (am_SchemaVersion meta = "") then "1" else am_SchemaVersion meta)
    (am_ArtifactID meta) name (am_MediaType meta) (am_ByteSize meta) (am_SHA256 meta) (am_CreatedAt meta).

Definition bad_request {A} (r : result string A) : M A :=
  match r with Ok a => mret a | Err m => throw (ErrBadRequest m) end.

Definition reserveArtifact (sess : LearningSession) (meta : ArtifactMeta) : M LearningSessionArtifact :=
  if bool_decide (am_ArtifactID meta = "") then throw (ErrBadRequest "artifactId is required")
  else
    name ← bad_request (SafeFilename (am_Filename meta));
    let meta := set_filename name meta in
    rev ← GetRevision (ls_ActivityRevisionID sess);
    pol ← ArtifactPolicyFromRevision rev;
    existing ← attempt (GetSessionArtifactByClientID (am_ArtifactID meta));
    match existing with
    | Ok x => if negb (bool_decide (af_SessionID x = ls_ID sess)) then throw (ErrConflict "conflict") else mret x
    | Err ErrNotFound =>
        usage ← SessionArtifactUsage (ls_ID sess);
        _ ← bad_request (PolicyCheck pol (am_MediaType meta) (am_ByteSize meta) usage.1 usage.2);
        total ← attempt (StudentArtifactBytes (ls_StudentID sess));
        match total with
        | Ok n =>
            if bool_decide (DefaultMaxStudentBytes < wrap64 (n + am_ByteSize meta))%Z
            then throw (ErrBadRequest "student artifact storage quota exceeded")
            else ReserveSessionArtifact sess meta ArtifactStatusReserved
        | Err _ => ReserveSessionArtifact sess meta ArtifactStatusReserved
        end
    | Err e => throw e
    end.

(** [base64.StdEncoding] and, when that fails, [base64.URLEncoding]. *)
Context (decode_base64 : string → option string) (sha256_hex : string → string).

(** The checks of an upload against its reservation and the policy. *)
Definition checkUpload (sess : LearningSession) (art : LearningSessionArtifact) (contentB64 sha : string)
  : M (string * option ArtifactPolicy) :=
  match decode_base64 contentB64 with
  | None => throw (ErrBadRequest "contentBase64 is invalid")
  | Some raw =>
      if negb (bool_decide (size raw = af_ByteSize art)) then throw (ErrBadRequest "uploaded size does not match reservation")
      else if negb (bool_decide (sha = "")) && negb (EqualFold sha (af_SHA256 art))
      then throw (ErrBadRequest "sha256 does not match reservation")
      else
        rev ← GetRevision (ls_ActivityRevisionID sess);
        pol ← ArtifactPolicyFromRevision rev;
        usage ← SessionArtifactUsage (ls_ID sess);
        let files := if bool_decide (0 < usage.1)%Z then (usage.1 - 1)%Z else usage.1 in
        let total := if bool_decide (af_ByteSize art ≤ usage.2)%Z then (usage.2 - af_ByteSize art)%Z else usage.2 in
        _ ← bad_request (PolicyCheck pol (af_MediaType art) (af_ByteSize art) files total);
        mret (raw, pol)
  end.

Definition day : Z := 24 * 60 * 60 * 1000000000.

(** The artifact and what is left to do: nothing, or to store the bytes. *)
Definition prepareUpload (sess : LearningSession) (artifactID contentB64 sha : string)
  : M (LearningSessionArtifact * option (string * option ArtifactPolicy)) :=
  if bool_decide (artifactID = "") then throw (ErrBadRequest "artifactId is required")
  else
    art ← GetSessionArtifactByClientID artifactID;
    if negb (bool_decide (af_SessionID art = ls_ID sess)) then throw ErrNotFound
    else if af_BytesStored art && bool_decide (af_Status art = ArtifactStatusUploaded) then mret (art, None)
    else up ← checkUpload sess art contentB64 sha; mret (art, Some up).

Definition retain_until (pol : option ArtifactPolicy) (now : Z) : option Z :=
  match pol with
  | Some p => if bool_decide (0 < ap_RetainDays p)%Z then Some (now + wrap64 (ap_RetainDays p * day))%Z else None
  | None => None
  end.

(** The files of the store afterwards, also when the call fails, and the answer. *)
Definition uploadArtifactBytes (sess : LearningSession) (artifactID contentB64 sha : string) (now : Z) (fs : files)
  : M (files * result err LearningSessionArtifact) :=
  pre ← attempt (prepareUpload sess artifactID contentB64 sha);
  match pre with
  | Err e => mret (fs, Err e)
  | Ok (art, None) => mret (fs, Ok art)
  | Ok (art, Some (raw, pol)) =>
      let (fs, put) := PutObject sha256_hex (af_SHA256 art) raw (af_ByteSize art) fs in
      match put with
      | Err m => mret (fs, Err (ErrBadRequest m))
      | Ok _ =>
          let (fs, link) := LinkSessionArtifact (ls_ID sess) (af_ArtifactID art) (af_SHA256 art) fs in
          match link with
          | Err m => mret (fs, Err (ErrGo m))
          | Ok rel => x ← attempt (MarkArtifactUploaded (af_ArtifactID art) rel (retain_until pol now)); mret (fs, x)
          end
      end
  end.
End artifacts.

(** ** Portfolio *)

Definition educator_opt (educatorID : string) : option string :=
  if bool_decide (educatorID = "") then None else Some educatorID.

Definition portfolioBySource (studentID sourceArtifactID destination : string) : M PortfolioItem :=
  l ← query (λ d, select (λ x, bool_decide (po_StudentID x = studentID) &&
                               bool_decide (po_SourceArtifactID x = sourceArtifactID) &&
                               bool_decide (po_Destination x = destination)) (db_portfolio_items d));
  exactly_one l.

Definition bundle_of (studentID sourceArtifactID : string) (x : ApprovedFixtureBundle) : bool :=
  bool_decide (fb_StudentID x = studentID) && bool_decide (fb_SourceArtifactID x = sourceArtifactID) &&
  bool_decide (fb_Status x = "approved").

Definition bundleBySourceArtifact (studentID sourceArtifactID : string) : M ApprovedFixtureBundle :=
  l ← query (λ d, take 1 (order_by (λ a b, Z.leb (fb_CreatedAt b) (fb_CreatedAt a))
                            (select (bundle_of studentID sourceArtifactID) (db_bundles d))));
  exactly_one l.

Definition GetApprovedBundle (id : string) : M ApprovedFixtureBundle := Get id.

Definition ListPortfolioItems (studentID : string) : M (list PortfolioItem) :=
  query (λ d, order_by (λ a b, Z.leb (po_CreatedAt b) (po_CreatedAt a))
    (select (λ x, bool_decide (po_StudentID x = studentID) && bool_decide (po_Status x = "active")) (db_portfolio_items d))).

Definition bundle_label (label : string) (x : ApprovedFixtureBundle) : ApprovedFixtureBundle :=
  mkApprovedFixtureBundle (fb_ID x) (fb_StudentID x) (fb_SourcePortfolioItemID x) (fb_SourceArtifactID x) (fb_Digest x)
    label (fb_Entries x) (fb_StorageRoot x) (fb_ApprovedBy x) (fb_Status x) (fb_Provenance x) (fb_CreatedAt x).
Definition bundle_root (root : string) (x : ApprovedFixtureBundle) : ApprovedFixtureBundle :=
  mkApprovedFixtureBundle (fb_ID x) (fb_StudentID x) (fb_SourcePortfolioItemID x) (fb_SourceArtifactID x) (fb_Digest x)
    (fb_Label x) (fb_Entries x) root (fb_ApprovedBy x) (fb_Status x) (fb_Provenance x) (fb_CreatedAt x).

Definition same_digest (studentID digest : string) (x : ApprovedFixtureBundle) : bool :=
  bool_decide (fb_StudentID x = studentID) && bool_decide (fb_Digest x = digest).

Definition SetBundleStorageRoot (bundleID storageRoot : string) : M unit :=
  stmt (λ d, Ok (set_bundles (alter (bundle_root storageRoot) bundleID (db_bundles d)) d, tt)).

Section portfolio.
Context `{!Postgres, !GoText}.

(** [INSERT ... ON CONFLICT (student_id, digest) DO UPDATE SET label]: a bundle with
    this digest keeps everything but its label. *)
Definition createApprovedBundle (item : PortfolioItem) (educatorID : string) (now : Z) : M ApprovedFixtureBundle :=
  l ← stmt (λ d,
    let id := gen_random_uuid (dom (db_bundles d)) in
    let entry : jmap := list_to_map [
      ("path", JStr (if bool_decide (po_Title item = "") then "artifact.bin" else po_Title item));
      ("type", JStr "file"); ("sha256", JStr (po_SHA256 item)); ("mediaType", JStr (po_MediaType item));
      ("byteSize", JInt (po_ByteSize item))] in
    let prov : jmap := list_to_map [
      ("portfolioItemId", JStr (po_ID item)); ("sourceArtifactId", JStr (po_SourceArtifactID item));
      ("activityRevisionId", JStr (po_ActivityRevisionID item)); ("approvedAt", JStr (format_time now))] in
    let x := mkApprovedFixtureBundle id (po_StudentID item) (Some (po_ID item)) (po_SourceArtifactID item)
               (po_SHA256 item) (po_Title item) [entry] "" (educator_opt educatorID) "approved" prov now in
    match select (same_digest (po_StudentID item) (po_SHA256 item)) (db_bundles d) with
    | old :: _ =>
        let old' := bundle_label (po_Title item) old in
        Ok (set_bundles (<[fb_ID old := old']> (db_bundles d)) d, [old'])
    | [] => match violation d x with
            | Some code => Err code
            | None => Ok (set_bundles (<[id := x]> (db_bundles d)) d, [x])
            end
    end);
  exactly_one l.

Definition insertPortfolioItem (art : LearningSessionArtifact) (studentID revisionID educatorID title destination : string)
    (now : Z) : M PortfolioItem :=
  Create (λ id _, mkPortfolioItem id studentID (af_ArtifactID art) (af_SessionID art) revisionID title (af_MediaType art)
    (af_ByteSize art) (af_SHA256 art) (af_StoragePath art) (educator_opt educatorID) "active" destination
    (list_to_map [("sourceArtifactId", JStr (af_ArtifactID art)); ("sessionId", JStr (af_SessionID art));
       ("activityRevisionId", JStr revisionID); ("sha256", JStr (af_SHA256 art));
       ("promotedAt", JStr (format_time now)); ("destination", JStr destination)]) now now).

(** A promotion that was made before. *)
Definition promotedBefore (item : PortfolioItem) (studentID artifactID destination : string)
  : M (PortfolioItem * option ApprovedFixtureBundle) :=
  if bool_decide (destination = PortfolioDestinationFixtureBundle) then
    b ← attempt (bundleBySourceArtifact studentID artifactID);
    match b with
    | Ok b => mret (item, Some b)
    | Err ErrNotFound => mret (item, None)
    | Err e => throw e
    end
  else mret (item, None).

Definition promoteTx (art : LearningSessionArtifact) (studentID revisionID educatorID title destination : string) (now : Z)
  : M (PortfolioItem * option ApprovedFixtureBundle) :=
  existing ← attempt (portfolioBySource studentID (af_ArtifactID art) destination);
  match existing with
  | Ok item => promotedBefore item studentID (af_ArtifactID art) destination
  | Err ErrNotFound =>
      item ← insertPortfolioItem art studentID revisionID educatorID title destination now;
      if bool_decide (destination = PortfolioDestinationFixtureBundle)
      then b ← createApprovedBundle item educatorID now; mret (item, Some b)
      else mret (item, None)
  | Err e => throw e
  end.

(** A zero [now] is the caller's clock; the only caller passes a time. *)
Definition PromoteArtifactToPortfolio (artifactClientID educatorID title destination : string) (now : Z)
  : M (PortfolioItem * option ApprovedFixtureBundle) :=
  let destination := if bool_decide (destination = "") then PortfolioDestinationPortfolio else destination in
  if negb (one_of destination [PortfolioDestinationPortfolio; PortfolioDestinationFixtureBundle])
  then throw (ErrBadRequest "destination must be portfolio or fixture_bundle")
  else
    art ← GetSessionArtifactByClientID artifactClientID;
    if negb (af_BytesStored art) || negb (bool_decide (af_Status art = ArtifactStatusUploaded))
    then throw (ErrBadRequest "artifact bytes must be uploaded before promotion")
    else match af_StudentID art, af_ActivityRevisionID art with
         | Some studentID, Some revisionID =>
             let title := if bool_decide (title = "") then af_Filename art else title in
             WithTx (promoteTx art studentID revisionID educatorID title destination now)
         | _, _ => throw (ErrBadRequest "artifact missing student or revision provenance")
         end.

(** ** Continuity *)

Definition binding_of (assignmentID : string) (x : AssignmentContinuityBinding) : bool :=
  bool_decide (cb_AssignmentID x = assignmentID).

(** [INSERT ... ON CONFLICT (assignment_id) DO UPDATE] *)
Definition upsertBinding (assignmentID studentID mode : string) (bundle educator : option string) (notes : string) (now : Z)
  : M AssignmentContinuityBinding :=
  l ← stmt (λ d,
    match select (binding_of assignmentID) (db_continuity d) with
    | old :: _ =>
        let x := mkAssignmentContinuityBinding (cb_ID old) (cb_AssignmentID old) (cb_StudentID old) mode bundle educator
                   notes now in
        match violation (set_continuity (delete (cb_ID old) (db_continuity d)) d) x with
        | Some code => Err code
        | None => Ok (set_continuity (<[cb_ID old := x]> (db_continuity d)) d, [x])
        end
    | [] =>
        let id := gen_random_uuid (dom (db_continuity d)) in
        let x := mkAssignmentContinuityBinding id assignmentID studentID mode bundle educator notes now in
        match violation d x with
        | Some code => Err code
        | None => Ok (set_continuity (<[id := x]> (db_continuity d)) d, [x])
        end
    end);
  exactly_one l.

Definition given (id : option string) : option string :=
  match id with Some i => if bool_decide (i = "") then None else Some i | None => None end.

(** The bundle, if one is named, belongs to the student and is approved. *)
Definition checkBundle (studentID : string) (bundleID : option string) : M unit :=
  match bundleID with
  | None => mret tt
  | Some id =>
      b ← GetApprovedBundle id;
      if negb (bool_decide (fb_StudentID b = studentID)) then throw (ErrBadRequest "bundle does not belong to student")
      else if negb (bool_decide (fb_Status b = "approved")) then throw (ErrBadRequest "bundle is not approved")
      else mret tt
  end.

Definition BindAssignmentContinuity (assignmentID studentID mode : string) (bundleID : option string)
    (educatorID notes : string) (now : Z) : M AssignmentContinuityBinding :=
  if negb (one_of mode [ContinuityFresh; ContinuityOptionalPrevious; ContinuityRequiredProject; ContinuityPortfolioReview])
  then throw (ErrBadRequest "invalid continuity mode")
  else if bool_decide (mode = ContinuityRequiredProject) && bool_decide (given bundleID = None)
  then throw (ErrBadRequest "required_project continuity needs an approved bundleId")
  else
    let bundleID := if bool_decide (mode = ContinuityFresh) then None else given bundleID in
    asg ← (Get assignmentID : M StudentAssignment);
    if negb (bool_decide (sa_StudentID asg = studentID)) then throw ErrNotFound
    else
      _ ← checkBundle studentID bundleID;
      upsertBinding assignmentID studentID mode bundleID (educator_opt educatorID) notes now.

Definition GetAssignmentContinuity (assignmentID : string) : M AssignmentContinuityBinding :=
  l ← query (λ d, select (binding_of assignmentID) (db_continuity d)); exactly_one l.

Record ContinuityResolution := mkContinuity { cz_Mode : string; cz_Bundle : option ApprovedFixtureBundle }.

Definition resolveBundle (mode id : string) : M ContinuityResolution :=
  b ← attempt (GetApprovedBundle id);
  match b with
  | Err ErrNotFound =>
      if bool_decide (mode = ContinuityRequiredProject) then throw (ErrBadRequest "required approved bundle is missing")
      else mret (mkContinuity ContinuityFresh None)
  | Err e => throw e
  | Ok b =>
      if negb (bool_decide (fb_Status b = "approved")) then
        if bool_decide (mode = ContinuityRequiredProject)
        then throw (ErrBadRequest "required approved bundle was withdrawn")
        else mret (mkContinuity ContinuityFresh None)
      else mret (mkContinuity mode (Some b))
  end.

Definition ResolveContinuityForAssignment (assignmentID : string) : M ContinuityResolution :=
  bind ← attempt (GetAssignmentContinuity assignmentID);
  match bind with
  | Err ErrNotFound => mret (mkContinuity ContinuityFresh None)
  | Err e => throw e
  | Ok bind =>
      match given (cb_BundleID bind) with
      | Some id => resolveBundle (cb_ContinuityMode bind) id
      | None =>
          if bool_decide (cb_ContinuityMode bind = ContinuityRequiredProject)
          then throw (ErrBadRequest "required_project continuity has no bundle")
          else mret (mkContinuity (cb_ContinuityMode bind) None)
      end
  end.
End portfolio.

(** ** Uploads *)

(** A stored artifact has its bytes in the store, with its digest and its size. *)
Definition has_bytes (sha256_hex : string → string) (fs : files) (x : LearningSessionArtifact) : Prop :=
  ∃ d f, normalizeDigest (af_SHA256 x) = Ok d ∧ fs !! PObject d = Some f ∧ sha256_hex (fl_data f) = d ∧
         size (fl_data f) = af_ByteSize x.

Definition uploads_ok (sha256_hex : string → string) (fs : files) (d : database) : Prop :=
  store_ok sha256_hex fs ∧
  ∀ k x, db_session_artifacts d !! k = Some x → (0 ≤ af_ByteSize x)%Z ∧ (af_BytesStored x = true → has_bytes sha256_hex fs x).

(** Rows that are added hold no bytes yet. *)
Definition artifacts_grow (d d' : database) : Prop := ∀ k x, db_session_artifacts d' !! k = Some x →
  db_session_artifacts d !! k = Some x ∨ af_BytesStored x = false ∧ (0 ≤ af_ByteSize x)%Z.

#[global] Instance artifacts_grow_preorder : PreOrder artifacts_grow.
Proof. split; [by left|]. intros d1 d2 d3 H1 H2 k x [Hx|?]%H2; [by apply H1|by right]. Qed.

Section artifact_theorems.
Context `{!Postgres, !GoText} (decode_base64 : string → option string) (sha256_hex : string → string)
  (Hsha : hex_digests sha256_hex).
#[local] Set Default Proof Using "Type*".

Lemma uploads_ok_grow fs d d' : artifacts_grow d d' → uploads_ok sha256_hex fs d → uploads_ok sha256_hex fs d'.
Proof.
  intros Hg [Hs Hx]. split; [done|]. intros k x [Hk|[Hb Hz]]%Hg; [by eapply Hx|]. split; [done|congruence].
Qed.

Lemma readonly_GetArtifact id : readonly (GetSessionArtifactByClientID id).
Proof. unfold GetSessionArtifactByClientID. eauto with primer. Qed.
Lemma readonly_checkReservation sess meta x : readonly (checkReservation sess meta x).
Proof. unfold checkReservation. destruct (negb _); [|destruct (_ || _)]; auto with primer. Qed.

Lemma readonly_policy rev : readonly (ArtifactPolicyFromRevision rev).
Proof. apply readonly_bind; [|by intros]. unfold decodeContent. destruct (DecodeActivityContent _); auto with primer. Qed.

Lemma grow_insert sess meta status : preserves artifacts_grow (insertArtifact sess meta status).
Proof.
  intros q c. unfold insertArtifact. apply (preserves_stmt artifacts_grow). intros d d' l.
  destruct (bool_decide_reflect (0 ≤ am_ByteSize meta)%Z); cbn [negb orb]; [|done].
  destruct (negb _); [done|]. destruct (has_row _ _); [by intros [= <- _]|]. destruct (violation d _); [done|].
  intros [= <- _] k x. cbn. intros [[<- <-]|[_ Hx]]%lookup_insert_Some; [by right|by left].
Qed.

Lemma grow_reserve sess meta status : preserves artifacts_grow (ReserveSessionArtifact sess meta status).
Proof.
  unfold ReserveSessionArtifact. apply (preserves_bind artifacts_grow).
  { apply preserves_readonly; [apply _|]. apply readonly_attempt, readonly_GetArtifact. }
  intros [x|[]]; try solve [apply preserves_readonly; [apply _|]; auto using readonly_checkReservation with primer].
  apply (preserves_bind artifacts_grow); [apply grow_insert|].
  intros l. assert (preserves artifacts_grow (x ← GetSessionArtifactByClientID (am_ArtifactID meta); checkReservation sess meta x)).
  { apply preserves_readonly; [apply _|]. apply readonly_bind; [apply readonly_GetArtifact|apply readonly_checkReservation]. }
  destruct l as [|art [|? ?]]; try done. apply preserves_readonly; [apply _|auto with primer].
Qed.
Lemma grow_api_reserve sess meta : preserves artifacts_grow (reserveArtifact sess meta).
Proof.
  unfold reserveArtifact. destruct (bool_decide _); [by apply preserves_readonly; [apply _|]|].
  apply (preserves_bind artifacts_grow).
  { apply preserves_readonly; [apply _|]. unfold bad_request. destruct (SafeFilename _); auto with primer. }
  intros name. apply (preserves_bind artifacts_grow); [apply preserves_readonly; [apply _|]; apply readonly_Get|].
  intros rev. apply (preserves_bind artifacts_grow).
  { apply preserves_readonly; [apply _|]. apply readonly_policy. }
  intros pol. apply (preserves_bind artifacts_grow).
  { apply preserves_readonly; [apply _|]. apply readonly_attempt, readonly_GetArtifact. }
  intros [x|[]]; try solve [apply preserves_readonly; [apply _|]; try destruct (negb _); auto with primer].
  apply (preserves_bind artifacts_grow); [apply preserves_readonly; [apply _|]; apply readonly_query|].
  intros usage. apply (preserves_bind artifacts_grow).
  { apply preserves_readonly; [apply _|]. unfold bad_request. destruct (PolicyCheck _ _ _ _ _); auto with primer. }
  intros _. apply (preserves_bind artifacts_grow).
  { apply preserves_readonly; [apply _|]. apply readonly_attempt, readonly_query. }
  intros [n|e]; [|apply grow_reserve]. destruct (bool_decide _); [by apply preserves_readonly; [apply _|]|apply grow_reserve].
Qed.

Lemma grow_upsert sessionID meta : preserves artifacts_grow (UpsertSessionArtifact sessionID meta).
Proof.
  unfold UpsertSessionArtifact. apply (preserves_bind artifacts_grow); [apply preserves_readonly; [apply _|]; apply readonly_Get|].
  intros sess. apply (preserves_bind artifacts_grow).
  { apply preserves_readonly; [apply _|]. apply readonly_attempt, readonly_GetArtifact. }
  intros [x|[]]; [|apply grow_reserve|by apply preserves_readonly; [apply _|]..].
  apply preserves_readonly; [apply _|]. repeat case_match; auto with primer.
Qed.

Lemma readonly_prepare sess artifactID b64 sha : readonly (prepareUpload decode_base64 sess artifactID b64 sha).
Proof.
  unfold prepareUpload, checkUpload. destruct (bool_decide _); [done|].
  apply readonly_bind; [apply readonly_GetArtifact|]. intros art. destruct (negb _); [done|]. destruct (_ && _); [done|].
  apply readonly_bind; [|by intros]. destruct (decode_base64 b64); [|done]. destruct (negb _); [done|]. destruct (_ && _); [done|].
  apply readonly_bind; [apply readonly_Get|]. intros rev. apply readonly_bind; [apply readonly_policy|].
  intros pol. apply readonly_bind; [apply readonly_query|]. intros u. apply readonly_bind; [|by intros].
  unfold bad_request. destruct (PolicyCheck _ _ _ _ _); auto with primer.
Qed.

(** The artifact of an upload is the only row with its id; either its bytes are
    stored, or there are bytes to store. *)
Lemma prepareUpload_Ok sess artifactID b64 sha q c c' art up :
  prepareUpload decode_base64 sess artifactID b64 sha q c = (c', Ok (art, up)) →
  cn_aborted c = false ∧ select (by_artifact artifactID) (db_session_artifacts (cn_db c)) = [art] ∧
  af_SessionID art = ls_ID sess ∧ (up = None → af_BytesStored art = true).
Proof.
  unfold prepareUpload. destruct (bool_decide _); [done|].
  intros (c1 & a & (c2 & l & (Ha & -> & ->)%query_Ok & [-> Hl]%exactly_one_Ok)%M_bind_Ok & Hu)%M_bind_Ok.
  destruct (bool_decide_reflect (af_SessionID a = ls_ID sess)); cbn [negb] in Hu; [|done].
  destruct (_ && _) eqn:E.
  - injection Hu as <- <- <-. by apply andb_true_iff in E as [? _].
  - apply M_bind_Ok in Hu as (c3 & x & _ & [= -> <- <-]). done.
Qed.

Lemma has_bytes_mono fs fs' x : (∀ d f, fs !! PObject d = Some f → fs' !! PObject d = Some f) →
  has_bytes sha256_hex fs x → has_bytes sha256_hex fs' x.
Proof. intros Hs (d & f & H1 & H2 & H3). exists d, f. split_and!; [done|by apply Hs|apply H3..]. Qed.

(** A link is a file beside the blobs. *)
Lemma Link_objects sessionID artifactID digest fs fs' r d :
  LinkSessionArtifact sessionID artifactID digest fs = (fs', r) → fs' !! PObject d = fs !! PObject d.
Proof.
  unfold LinkSessionArtifact, SessionArtifactPath. repeat (case_match; simplify_eq/=; try (by intros [= <- <-])).
  all: try (intros [= <- <-]; apply lookup_insert_ne); repeat (destruct (requireSafeID _); simplify_eq/=; try done).
Qed.

(** Marking the only row with an id, whose bytes the store has. *)
Lemma mark_ok fs d artifactID art rel retain at_ :
  uploads_ok sha256_hex fs d → select (by_artifact artifactID) (db_session_artifacts d) = [art] → has_bytes sha256_hex fs art →
  let f x := if by_artifact artifactID x then artifact_uploaded rel retain at_ x else x in
  uploads_ok sha256_hex fs (set_session_artifacts (f <$> db_session_artifacts d) d).
Proof.
  intros [Hs Hd] Hl Hb f. split; [done|]. intros k x Hx. cbn in Hx.
  rewrite lookup_fmap in Hx. destruct (db_session_artifacts d !! k) as [y|] eqn:Ey; [|done]. injection Hx as <-.
  unfold f. destruct (by_artifact artifactID y) eqn:By; [|by apply (Hd k)].
  assert (y ∈ select (by_artifact artifactID) (db_session_artifacts d)) as Hy.
  { apply elem_of_select. split; [|done]. by exists k. }
  rewrite Hl in Hy. apply list_elem_of_singleton in Hy as ->. split; [by apply (Hd k art)|done].
Qed.

Lemma upload_stores sess artifactID b64 sha now fs q c : uploads_ok sha256_hex fs (cn_db c) →
  ∃ c' fs' r, uploadArtifactBytes decode_base64 sha256_hex sess artifactID b64 sha now fs q c = (c', Ok (fs', r)) ∧
    uploads_ok sha256_hex fs' (cn_db c') ∧ (∀ d f, fs !! PObject d = Some f → fs' !! PObject d = Some f) ∧
    ∀ x, r = Ok x → has_bytes sha256_hex fs' x ∧ af_ArtifactID x = artifactID.
Proof.
  intros Hok. pose proof Hok as [Hst Hd]. unfold uploadArtifactBytes, mbind, M_bind, attempt at 1.
  pose proof (readonly_prepare sess artifactID b64 sha q c) as Hro.
  destruct (prepareUpload _ _ _ _ _ q c) as [c1 [[art up]|e]] eqn:Ep; cbn [fst] in Hro; subst c1; [|by eexists _, _, _].
  apply prepareUpload_Ok in Ep as (Hab & Hsel & _ & Hup).
  assert (by_artifact artifactID art = true ∧ ∃ k, db_session_artifacts (cn_db c) !! k = Some art) as [Hby [k Hk]].
  { assert (art ∈ [art]) as Hin by left. rewrite <-Hsel in Hin. apply elem_of_select in Hin as [? ?]. done. }
  apply bool_decide_eq_true in Hby. destruct (Hd k art Hk) as [Hsz Hbytes].
  destruct up as [[raw pol]|]; [|by eexists _, _, _; split_and!; [done..|]; intros x [= <-]; auto].
  destruct (PutObject _ _ _ _ fs) as [fs1 put] eqn:Eput.
  pose proof (PutObject_ok _ Hsha _ _ _ _ _ _ Hst Eput) as (Hst1 & Hsub & Hput).
  assert (Hsub' : ∀ d f, fs !! PObject d = Some f → fs1 !! PObject d = Some f) by (intros ? ? ?; by eapply lookup_weaken).
  assert (Hok1 : uploads_ok sha256_hex fs1 (cn_db c)).
  { split; [done|]. intros k0 x0 Hx0. destruct (Hd k0 x0 Hx0) as [? Hx]. split; [done|]. intros ?. eapply has_bytes_mono; eauto. }
  destruct put as [[rel m]|e]; [|by eexists _, _, _]. destruct (Hput rel m eq_refl Hsz) as (dg & f & Hn & Hf & Hh & Hz & _ & _).
  destruct (LinkSessionArtifact _ _ _ fs1) as [fs2 link] eqn:Elink.
  pose proof (λ d, Link_objects _ _ _ _ _ _ d Elink) as Hobj.
  assert (Hok2 : uploads_ok sha256_hex fs2 (cn_db c)).
  { destruct Hok1 as [? Hd1]. split; [intros d0 f0; rewrite Hobj; auto|].
    intros k0 x0 Hx0. destruct (Hd1 k0 x0 Hx0) as [? Hx]. split; [done|]. intros ?. eapply has_bytes_mono; [|by auto]. intros ? ?. by rewrite Hobj. }
  assert (Hb2 : has_bytes sha256_hex fs2 art) by (exists dg, f; by rewrite Hobj).
  assert (Hsub2 : ∀ d f, fs !! PObject d = Some f → fs2 !! PObject d = Some f) by (intros ? ? ?; rewrite Hobj; auto).
  destruct link as [rel2|e]; [|by eexists _, _, _].
  rewrite Hby. unfold attempt, MarkArtifactUploaded, mbind, M_bind, stmt. rewrite Hab. cbn.
  rewrite Hsel. cbn. eexists _, _, _. split; [done|].
  split; [by apply (mark_ok _ _ _ art)|]. split; [done|]. intros x [= <-]. done.
Qed.

(** C28: Artifacts that count as stored have their bytes.  Reserving a slot, registering
    metadata and uploading, whatever the request (the base64 decoder is arbitrary),
    keep the property that every artifact row marked as stored has, under its digest,
    a blob with exactly that SHA-256 and exactly the reserved size, and never change or
    drop a blob of the store.  An upload that is answered with an artifact answers with
    the requested one, and its bytes are in the store. *)
Theorem uploads_invariant sess meta sessionID artifactID b64 sha now fs q c :
  uploads_ok sha256_hex fs (cn_db c) →
  uploads_ok sha256_hex fs (cn_db (reserveArtifact sess meta q c).1) ∧
  uploads_ok sha256_hex fs (cn_db (UpsertSessionArtifact sessionID meta q c).1) ∧
  ∃ c' fs' r, uploadArtifactBytes decode_base64 sha256_hex sess artifactID b64 sha now fs q c = (c', Ok (fs', r)) ∧
    uploads_ok sha256_hex fs' (cn_db c') ∧ (∀ d f, fs !! PObject d = Some f → fs' !! PObject d = Some f) ∧
    ∀ x, r = Ok x → has_bytes sha256_hex fs' x ∧ af_ArtifactID x = artifactID.
Proof.
  intros Hok. split_and!; [..|by apply upload_stores]; (eapply uploads_ok_grow; [|done]).
  - apply grow_api_reserve.
  - apply grow_upsert.
Qed.
End artifact_theorems.

(** ** Continuity *)

(** Bindings are keyed by their id, one for each assignment. *)
Definition continuity_ok (d : database) : Prop :=
  (∀ k x, db_continuity d !! k = Some x → cb_ID x = k) ∧
  ∀ k k' x x', db_continuity d !! k = Some x → db_continuity d !! k' = Some x' →
    cb_AssignmentID x = cb_AssignmentID x' → k = k'.

Section continuity_theorems.
Context `{!Postgres}.

(** What an upsert leaves: the row it returns, alone for its assignment. *)
Lemma upsertBinding_Ok aid sid mode bundle educator notes now q c c' x :
  continuity_ok (cn_db c) → upsertBinding aid sid mode bundle educator notes now q c = (c', Ok x) →
  cn_aborted c' = false ∧ continuity_ok (cn_db c') ∧ (∃ t, cn_db c' = set_continuity t (cn_db c)) ∧
  select (binding_of aid) (db_continuity (cn_db c')) = [x] ∧
  cb_ContinuityMode x = mode ∧ cb_BundleID x = bundle ∧ cb_AssignmentID x = aid.
Proof.
  intros [Hid Hun] (c1 & l & (Hab & Hf & Hab1)%stmt_Ok & [-> ->]%exactly_one_Ok)%M_bind_Ok. split; [done|].
  assert (∃ k, db_continuity (cn_db c1) = <[k := x]> (db_continuity (cn_db c)) ∧ (∃ t, cn_db c1 = set_continuity t (cn_db c)) ∧
    cb_ID x = k ∧ cb_AssignmentID x = aid ∧ cb_ContinuityMode x = mode ∧ cb_BundleID x = bundle ∧
    ∀ k' y, db_continuity (cn_db c) !! k' = Some y → cb_AssignmentID y = aid → k' = k) as (k & Hdb & Hset & Hk & Ha & Hm & Hb & Hall).
  { destruct (select _ _) as [|old l] eqn:E; cbv zeta in Hf; destruct (violation _ _) eqn:Hv in Hf; try done; injection Hf as <- <-.
    - exists (gen_random_uuid (dom (db_continuity (cn_db c)))). split_and!; try done; [by eexists|].
      intros k' y Hy Hay. exfalso. assert (y ∈ select (binding_of aid) (db_continuity (cn_db c))) as Hin.
      { apply elem_of_select. split; [by exists k'|by apply bool_decide_eq_true]. }
      rewrite E in Hin. by apply elem_of_nil in Hin.
    - assert (old ∈ select (binding_of aid) (db_continuity (cn_db c))) as Hin by (rewrite E; left).
      apply elem_of_select in Hin as [[k0 Hk0] Ho%bool_decide_eq_true]. exists (cb_ID old).
      split_and!; try done; [by eexists|]. intros k' y Hy Hay. rewrite (Hid _ _ Hk0). eapply Hun; eauto. congruence. }
  split_and!; try done; rewrite ?Hdb.
  - split; rewrite Hdb.
    + intros k1 x1 [[<- <-]|[_ ?]]%lookup_insert_Some; auto.
    + intros k1 k2 x1 x2 [[<- <-]|[? H1]]%lookup_insert_Some [[<- <-]|[? H2]]%lookup_insert_Some E; [done|..].
      * symmetry. eapply Hall; eauto. congruence.
      * eapply Hall; eauto. congruence.
      * eapply Hun; eauto.
  - apply (select_unique _ _ k); [apply lookup_insert_eq|by apply bool_decide_eq_true|].
    intros k' y [[? _]|[? Hy]]%lookup_insert_Some Hp%bool_decide_eq_true; [done|by eapply Hall].
Qed.

Lemma checkBundle_Ok sid id q c c' u : checkBundle sid (Some id) q c = (c', Ok u) →
  c' = c ∧ ∃ b, db_bundles (cn_db c) !! id = Some b ∧ fb_StudentID b = sid ∧ fb_Status b = "approved".
Proof.
  cbn [checkBundle]. intros (c1 & b & (Hab & -> & Hb)%Get_Ok & Hc)%M_bind_Ok.
  destruct (bool_decide_reflect (fb_StudentID b = sid)); cbn [negb] in Hc; [|done].
  destruct (bool_decide_reflect (fb_Status b = "approved")); cbn [negb] in Hc; [|done].
  injection Hc as <- _. split; [done|]. by exists b.
Qed.

Lemma given_given b : given (given b) = given b.
Proof. destruct b as [i|]; [|done]. cbn. destruct (bool_decide (i = "")) eqn:E; [done|]. cbn. by rewrite E. Qed.

(** The bundle a request binds. *)
Definition bound_bundle (mode : string) (bundleID : option string) : option string :=
  if bool_decide (mode = ContinuityFresh) then None else given bundleID.

Lemma Bind_Ok aid sid mode bundleID educatorID notes now q c c' x :
  BindAssignmentContinuity aid sid mode bundleID educatorID notes now q c = (c', Ok x) →
  (mode = ContinuityRequiredProject → bound_bundle mode bundleID ≠ None) ∧
  (∃ a, db_assignments (cn_db c) !! aid = Some a ∧ sa_StudentID a = sid) ∧
  (∀ id, bound_bundle mode bundleID = Some id →
     ∃ b, db_bundles (cn_db c) !! id = Some b ∧ fb_StudentID b = sid ∧ fb_Status b = "approved") ∧
  upsertBinding aid sid mode (bound_bundle mode bundleID) (educator_opt educatorID) notes now q c = (c', Ok x).
Proof.
  unfold BindAssignmentContinuity. destruct (negb _); [done|]. destruct (_ && _) eqn:Er; [done|].
  intros (c1 & a & (Hab & -> & Ha)%Get_Ok & Hb)%M_bind_Ok.
  destruct (bool_decide_reflect (sa_StudentID a = sid)); cbn [negb] in Hb; [|done].
  change (if bool_decide (mode = "fresh") then None else given bundleID) with (bound_bundle mode bundleID) in Hb.
  apply M_bind_Ok in Hb as (c2 & u & Hc & Hu). split_and!; [|by exists a|..].
  - intros ->. rewrite bool_decide_true in Er by done. cbn in Er. by apply bool_decide_eq_false in Er.
  - intros id Hid. rewrite Hid in Hc. by apply checkBundle_Ok in Hc as [_ ?].
  - destruct (bound_bundle _ _) eqn:E; [by apply checkBundle_Ok in Hc as [-> _]|]. by injection Hc as <- _.
Qed.

(** Binding an assignment to a bundle and resolving it again agree.  After a binding
    succeeds, which needs an assignment of the student, resolving the assignment
    succeeds, changes nothing and gives the mode that was bound.  Its bundle is the one
    named in the request, which belongs to the student and is approved; there is none
    when the mode is "fresh" or no bundle was named, and in mode "required_project"
    there always is one.  The table keeps one binding for each assignment. *)
Lemma continuity_round_trip aid sid mode bundleID educatorID notes now q c c' x q' :
  continuity_ok (cn_db c) →
  BindAssignmentContinuity aid sid mode bundleID educatorID notes now q c = (c', Ok x) →
  continuity_ok (cn_db c') ∧ (∃ a, db_assignments (cn_db c) !! aid = Some a ∧ sa_StudentID a = sid) ∧
  match bound_bundle mode bundleID with
  | None => mode ≠ ContinuityRequiredProject ∧ ResolveContinuityForAssignment aid q' c' = (c', Ok (mkContinuity mode None))
  | Some id => ∃ b, db_bundles (cn_db c) !! id = Some b ∧ fb_StudentID b = sid ∧ fb_Status b = "approved" ∧
      ResolveContinuityForAssignment aid q' c' = (c', Ok (mkContinuity mode (Some b)))
  end.
Proof.
  intros Hok (Hreq & Ha & Hbun & Hup)%Bind_Ok.
  destruct (upsertBinding_Ok _ _ _ _ _ _ _ _ _ _ _ Hok Hup) as (Hab & Hok' & [t Ht] & Hsel & Hm & Hb & _).
  split_and!; [done..|]. clear Hup. unfold ResolveContinuityForAssignment, GetAssignmentContinuity, attempt, mbind, M_bind.
  rewrite query_run, Hsel by done. cbn [exactly_one]. unfold mret, M_ret. rewrite Hb, Hm.
  assert (given (bound_bundle mode bundleID) = bound_bundle mode bundleID) as ->.
  { unfold bound_bundle. destruct (bool_decide _); [done|apply given_given]. }
  destruct (bound_bundle mode bundleID) as [id|].
  - destruct (Hbun id eq_refl) as (b & Hb1 & Hb2 & Hb3). exists b. split_and!; try done.
    unfold resolveBundle, GetApprovedBundle, attempt, mbind, M_bind. rewrite (Get_run _ _ _ b); [|done|by rewrite Ht].
    by rewrite (bool_decide_true (fb_Status b = _)) by done.
  - assert (mode ≠ ContinuityRequiredProject) by (intros ->; by apply Hreq). split; [done|].
    by rewrite bool_decide_false by done.
Qed.
End continuity_theorems.

(** ** Examples and witnesses *)

Section sample_runs.
#[local] Existing Instance sample_postgres.
#[local] Existing Instance sample_text.

(** Activities that accept text files. *)
Definition w_artifact_content : jmap :=
  <["artifacts" := JObj [("enabled", JBool true); ("maxFiles", JInt 3); ("retainDays", JInt 1)]]> w_content.
Definition w_artifact_conn : conn :=
  mkConn (set_revisions (<["r1" := w_revision "r1" "a1" w_artifact_content]> (db_revisions w_db)) w_db) false.
Definition w_sess : LearningSession := w_session "ss1" "as1" "r1".
Definition w_meta (id : string) : ArtifactMeta := mkArtifactMeta "" id "notes.txt" "text/plain" 5 w_digest 7.

Definition w_upload (id : string) (x : conn * files) : conn * files :=
  let c := (reserveArtifact w_sess (w_meta id) w_pool x.1).1 in
  match uploadArtifactBytes (λ s, Some s) w_sha w_sess id "hello" "" 300 x.2 w_pool c with
  | (c', Ok (fs, _)) => (c', fs)
  | (c', Err _) => (c', x.2)
  end.
Definition w_artifacts : conn * files := w_upload "x2" (w_upload "x1" (w_artifact_conn, ∅)).

Example upload_story :
  (λ x, (af_ArtifactID x, af_Status x, af_BytesStored x, af_RetentionUntil x, af_StoragePath x)) <$>
    order_by (λ a b, str_le (af_ArtifactID a) (af_ArtifactID b)) (rows (db_session_artifacts (cn_db w_artifacts.1))) =
  [("x1", "uploaded", true, Some (300 + day)%Z, "sessions/ss1/x1"); ("x2", "uploaded", true, Some (300 + day)%Z, "sessions/ss1/x2")].
Proof. vm_compute. reflexivity. Qed.

Definition w_reserved : conn := (reserveArtifact w_sess (w_meta "x1") w_pool w_artifact_conn).1.

(** A reserved artifact is uploaded: the row is marked and the store has its bytes. *)
Lemma uploads_invariant_witness :
  ∃ c' fs' x, uploadArtifactBytes (λ s, Some s) w_sha w_sess "x1" "hello" "" 300 ∅ w_pool w_reserved = (c', Ok (fs', Ok x)) ∧
    uploads_ok w_sha fs' (cn_db c') ∧ has_bytes w_sha fs' x ∧ af_ArtifactID x = "x1" ∧ af_BytesStored x = true.
Proof.
  assert (uploads_ok w_sha ∅ (cn_db w_reserved)) as Hok.
  { refine (proj1 (uploads_invariant (λ s, Some s) w_sha w_sha_hex w_sess (w_meta "x1") "ss1" "x1" "hello" "" 300 ∅ w_pool w_artifact_conn _)).
    split; [intros d f; by rewrite lookup_empty|]. intros k x.
    change (db_session_artifacts (cn_db w_artifact_conn)) with (∅ : gmap string LearningSessionArtifact). by rewrite lookup_empty. }
  destruct (uploads_invariant (λ s, Some s) w_sha w_sha_hex w_sess (w_meta "x1") "ss1" "x1" "hello" "" 300 ∅ w_pool w_reserved Hok)
    as (_ & _ & c' & fs' & r & Hrun & Hok' & _ & Hx).
  assert (match (uploadArtifactBytes (λ s, Some s) w_sha w_sess "x1" "hello" "" 300 ∅ w_pool w_reserved).2 with
          | Ok (_, Ok x) => af_BytesStored x | _ => false end = true) as Hc by (vm_compute; reflexivity).
  rewrite Hrun in Hc. cbn [snd] in Hc. destruct r as [x|e]; [|discriminate Hc].
  destruct (Hx x eq_refl) as [Hb Hid]. exists c', fs', x. exact (conj Hrun (conj Hok' (conj Hb (conj Hid Hc)))).
Defined.

Definition w_promote (id destination : string) (c : conn)
  : conn * result err (PortfolioItem * option ApprovedFixtureBundle) :=
  PromoteArtifactToPortfolio id "p1" "" destination 400 w_pool c.
Definition bundle_source (x : conn * result err (PortfolioItem * option ApprovedFixtureBundle))
  : result err (option (string * string)) :=
  match x.2 with Ok (_, b) => Ok ((λ b, (fb_ID b, fb_SourceArtifactID b)) <$> b) | Err e => Err e end.

(** Two uploads of the same bytes share one bundle, which keeps the first artifact as
    its source: promoting the second again gives the item without its bundle. *)
Lemma second_promotion_loses_bundle :
  let c1 := (w_promote "x1" "fixture_bundle" w_artifacts.1).1 in
  let c2 := (w_promote "x2" "fixture_bundle" c1).1 in
  (bundle_source (w_promote "x1" "fixture_bundle" c1), bundle_source (w_promote "x2" "fixture_bundle" c1),
   bundle_source (w_promote "x2" "fixture_bundle" c2)) =
  (Ok (Some ("0", "x1")), Ok (Some ("0", "x1")), Ok None).
Proof. vm_compute. reflexivity. Qed.

Definition w_bundled : conn := (w_promote "x1" "fixture_bundle" w_artifacts.1).1.
Definition w_bind (mode : string) (b : option string) : conn * result err AssignmentContinuityBinding :=
  BindAssignmentContinuity "as2" "s1" mode b "p1" "" 500 w_pool w_bundled.

Lemma continuity_round_trip_witness :
  ∃ b, ResolveContinuityForAssignment "as2" w_pool (w_bind "required_project" (Some "0")).1 =
         ((w_bind "required_project" (Some "0")).1, Ok (mkContinuity "required_project" (Some b))) ∧ fb_StudentID b = "s1".
Proof.
  destruct (continuity_round_trip "as2" "s1" "required_project" (Some "0") "p1" "" 500 w_pool w_bundled
    (w_bind "required_project" (Some "0")).1 (mkAssignmentContinuityBinding "0" "as2" "s1" "required_project" (Some "0")
      (Some "p1") "" 500) w_pool) as (_ & _ & b & _ & Hs & _ & Hr).
  - split; intros *; change (db_continuity (cn_db w_bundled)) with (∅ : gmap string AssignmentContinuityBinding);
      by rewrite lookup_empty.
  - vm_compute. reflexivity.
  - exists b. by split.
Defined.
End sample_runs.
