(* ===== verification/StudentApi.v ===== *)
(** * The student API ([api/student_api.go], [api/artifacts_import.go], [api/crud.go])

    The handlers of the student routes behind the device guard, the translation of
    errors to HTTP and back ([MapError], [Client.doJSON]), and the LMS behind a network
    that loses requests and replies, as the [Server] of the client.

    A path id or a query that the framework's schema refuses does not reach a handler;
    an id that is no UUID text is an id without a row here. *)
From S2P Require Import Prelude GoStrings GoText Paths Utf8 Float64 Contracts ContentJson LmsData LmsDb Sample Sessions.
From S2P Require Import Mastery ContentEncode WorkPage ClientStore ClientSync WorkSync Responses Tutor Devices ArtifactStore Artifacts.
From Stdlib Require Import Ascii.
From stdpp Require Import pretty options.
Local Open Scope string_scope.
Local Open Scope list_scope.

(** ** Errors *)

Inductive http_error := HttpError (status : Z) (msg : string).

(** The texts that come from outside: what PostgreSQL says beside the code of an error,
    and the body the framework makes of a status and a message. *)
Class HttpText := {
  pg_text : string → string;
  problem_body : Z → string → string }.

Section errors.
Context `{!HttpText}.

(** An error without a status is a 500. *)
Definition MapError (e : err) : http_error :=
  match e with
  | ErrNotFound => HttpError 404 "resource not found"
  | ErrConflict msg => HttpError 409 msg
  | ErrBadRequest msg => HttpError 400 msg
  | ErrPg code =>
      if bool_decide (code = "23505") then HttpError 409 ("duplicate: " +:+ pg_text code)
      else if bool_decide (code = "23503") then HttpError 422 ("invalid reference: " +:+ pg_text code)
      else if bool_decide (code = "23514") then HttpError 422 ("constraint violation: " +:+ pg_text code)
      else if bool_decide (code = "22P02") then HttpError 400 ("invalid input syntax: " +:+ pg_text code)
      else HttpError 500 "unexpected error occurred"
  | ErrTooManyRows | ErrTxCommitRollback | ErrGo _ => HttpError 500 "unexpected error occurred"
  end.
End errors.

(** A handler: its answer is a value, so that nothing of the database is lost with an
    error. *)
Abbreviation Handler A := (M (result http_error A)).

(** ** Handlers *)

Record StudentProfile := mkStudentProfile { pf_Student : Student; pf_DeviceID : string; pf_DeviceName : string }.
Record PairResponse := mkPairResponse {
  pr_DeviceID : string; pr_Token : string; pr_Student : Student; pr_Device : StudentDevice }.

Definition deviceCapsToMap (c : DeviceCapabilities) : jmap :=
  let strs l := JArr (JStr <$> l) in
  (if bool_decide (dc_RuntimeProfiles c = []) then id else <["runtimeProfiles" := strs (dc_RuntimeProfiles c)]>) (
  (if bool_decide (dc_ProfileDigests c = ∅) then id
   else <["profileDigests" := JObj (prod_map id JStr <$> map_to_list (dc_ProfileDigests c))]>) (
  (if bool_decide (dc_RunnerVersion c = "") then id else <["runnerVersion" := JStr (dc_RunnerVersion c)]>) (
  (if bool_decide (dc_Capabilities c = []) then id else <["capabilities" := strs (dc_Capabilities c)]>) ∅))).

(** Defaults the handlers fill in. *)
Definition artifact_defaults (meta : ArtifactMeta) : ArtifactMeta :=
  mkArtifactMeta (if bool_decide (am_SchemaVersion meta = "") then "1" else am_SchemaVersion meta)
    (am_ArtifactID meta) (am_Filename meta) (am_MediaType meta) (am_ByteSize meta) (am_SHA256 meta) (am_CreatedAt meta).
Definition response_defaults (now : Z) (req : ResponseSubmission) : ResponseSubmission :=
  mkResponseSubmission (if bool_decide (rq_SchemaVersion req = "") then "1" else rq_SchemaVersion req)
    (rq_SubmissionID req) (rq_TaskID req) (rq_Body req)
    (if bool_decide (rq_ClientTime req = go_zero_time) then now else rq_ClientTime req) (rq_RequestDigest req).

Section handlers.
Context `{!Postgres, !GoText, !HttpText} (sha256_hex : string → string) (decode_base64 : string → option string).

(** [x, err := m; if err != nil { return nil, MapError(err) }] *)
Definition step {A B} (m : M A) (f : A → Handler B) : Handler B :=
  r ← attempt m;
  match r with Ok a => f a | Err e => mret (Err (MapError e)) end.

Definition reply {A} (a : A) : Handler A := mret (Ok a).
Definition refuse {A} (status : Z) (msg : string) : Handler A := mret (Err (HttpError status msg)).

(** The session of the path, if it is the student's. *)
Definition own_session {A} (dev : StudentDevice) (id : string) (f : LearningSession → Handler A) : Handler A :=
  step (GetSession id) (λ sess,
    if negb (bool_decide (ls_StudentID sess = dv_StudentID dev)) then refuse 404 "session not found" else f sess).

Definition pairStudentDevice (token code deviceName : string) (now : Z) : Handler PairResponse :=
  let name := if bool_decide (deviceName = "") then "workstation" else deviceName in
  r ← attempt (ClaimStudentPairingCode sha256_hex token code name now);
  match r with
  | Err ErrNotFound => refuse 403 "pairing code is invalid, expired, or already used"
  | Err e => mret (Err (MapError e))
  | Ok (token, dev) =>
      step (Get (dv_StudentID dev)) (λ student, reply (mkPairResponse (dv_ID dev) token student dev))
  end.

Definition getStudentProfile (dev : StudentDevice) : Handler StudentProfile :=
  step (Get (dv_StudentID dev)) (λ student, reply (mkStudentProfile student (dv_ID dev) (dv_Name dev))).

Definition getStudentWork (after : string) (limit : Z) (dev : StudentDevice) : Handler StudentWorkPage :=
  step (ListStudentWorkPage (dv_StudentID dev) after limit) reply.

Definition reportDeviceCapabilities (caps : DeviceCapabilities) (now : Z) (dev : StudentDevice) : Handler unit :=
  step (StoreDeviceCapabilities (dv_ID dev) (Some (deviceCapsToMap caps)) now) (λ _, reply tt).

Definition startStudentSession (clientSessionID assignmentID : string) (capabilities : list string)
    (deviceCaps : option DeviceCapabilities) (now : Z) (dev : StudentDevice) : Handler LearningSession :=
  _ ← match deviceCaps with
      | Some caps => attempt (StoreDeviceCapabilities (dv_ID dev) (Some (deviceCapsToMap caps)) now)
      | None => mret (Ok tt)
      end;
  step (StartOrResumeSession dev clientSessionID assignmentID now capabilities) reply.

Definition postSessionEvents (id : string) (events : list SessionEvent) (now : Z) (dev : StudentDevice) : Handler Z :=
  own_session dev id (λ sess, step (IngestSessionEvents (ls_ID sess) events now) reply).

Definition postSessionArtifact (id : string) (meta : ArtifactMeta) (dev : StudentDevice) : Handler LearningSessionArtifact :=
  own_session dev id (λ sess, step (UpsertSessionArtifact (ls_ID sess) (artifact_defaults meta)) reply).

Definition completeStudentSession (id : string) (req : CompletionRequest) (now : Z) (dev : StudentDevice)
  : Handler CompletionResult :=
  step (ApplyCompletion dev id req now) reply.

Definition submission_result (resp : StudentResponse) (evidenceIDs : list string) : ResponseSubmissionResult :=
  mkResponseSubmissionResult "1" (sr_SubmissionID resp) (sr_ID resp) (sr_Status resp) evidenceIDs "accepted"
    (sr_ParentReviewRequired resp).

(** The response is committed before its evidence is applied, in another transaction. *)
Definition submitStudentResponse (id : string) (req : ResponseSubmission) (now : Z) (dev : StudentDevice)
  : Handler ResponseSubmissionResult :=
  step (SubmitStudentResponse sha256_hex dev id (response_defaults now req) now) (λ x : StudentResponse * bool,
    if x.2 then step (ApplyConceptualResponse x.1 now) (λ ids, reply (submission_result x.1 ids))
    else reply (submission_result x.1 [])).

Record TutorMessageResponse := mkTutorMessage { tr_Reply : string; tr_Provider : string; tr_Fallback : bool; tr_RateLimited : bool }.

Definition postTutorMessage (svc : tutor_service) (id message : string) (now : Z) (dev : StudentDevice) : Handler TutorMessageResponse :=
  own_session dev id (λ sess, step (coachSession svc sess message now) (λ x : string * tutorReplyMeta,
    reply (mkTutorMessage x.1 (tm_Provider x.2) (tm_Fallback x.2) (tm_RateLimited x.2)))).

Definition reserveSessionArtifact (id : string) (meta : ArtifactMeta) (dev : StudentDevice) : Handler LearningSessionArtifact :=
  own_session dev id (λ sess, step (reserveArtifact sess meta) reply).

(** [None] of the files is a server without artifact storage.  The files are those of
    the store afterwards, also when the answer is an error. *)
Definition uploadSessionArtifact (id artifactID contentB64 sha : string) (now : Z) (fs : option files) (dev : StudentDevice)
  : M (option files * result http_error LearningSessionArtifact) :=
  r ← own_session dev id reply;
  match r, fs with
  | Err e, _ => mret (fs, Err e)
  | Ok _, None => mret (fs, Err (HttpError 503 "artifact storage is not configured"))
  | Ok sess, Some fs =>
      up ← uploadArtifactBytes decode_base64 sha256_hex sess artifactID contentB64 sha now fs;
      mret (Some up.1, match up.2 with Ok art => Ok art | Err e => Err (MapError e) end)
  end.

Definition getSessionContinuity (id : string) (dev : StudentDevice) : Handler ContinuityResolution :=
  own_session dev id (λ sess, step (ResolveContinuityForAssignment (ls_AssignmentID sess)) reply).

(** [studentOp]: the guard in front of a handler. *)
Definition studentOp {A} (header bearer : string) (now : Z) (h : StudentDevice → Handler A) : Handler A :=
  g ← StudentDeviceGuard sha256_hex header bearer now;
  match g with
  | GuardUnauthorized msg => refuse 401 msg
  | GuardFailed => refuse 500 "authenticate device"
  | GuardDevice dev => h dev
  end.

(** The parent's decision ([api/parent_learning.go]); again two transactions. *)
Record ResponseDecisionResult := mkDecisionResult {
  dr_Response : StudentResponse; dr_Review : option StudentResponseReview; dr_EvidenceIDs : list string }.

Definition decideResponseReview (educatorID id : string) (in_ : ReviewDecisionInput) (now : Z) : Handler ResponseDecisionResult :=
  step (ApplyResponseReview educatorID id in_ now) (λ x : StudentResponse * option StudentResponseReview,
    if bool_decide (sr_Status x.1 = "accepted") then
      step (ApplyParentAttestation x.1 educatorID now) (λ ids, reply (mkDecisionResult x.1 x.2 ids))
    else reply (mkDecisionResult x.1 x.2 [])).
End handlers.

(** ** The LMS behind a network *)

Definition hex_upper (n : N) : ascii := ascii_of_N (if (n <? 10)%N then 48 + n else 55 + n)%N.
Definition percent (c : ascii) : string :=
  String "%" (String (hex_upper (N.div (N_of_ascii c) 16)) (String (hex_upper (N.modulo (N_of_ascii c) 16)) "")).

Definition unreserved (c : ascii) : bool :=
  let n := N_of_ascii c in
  ((48 <=? n) && (n <=? 57) || (65 <=? n) && (n <=? 90) || (97 <=? n) && (n <=? 122))%N ||
  bool_decide (c ∈ ["-"; "_"; "."; "~"]%char).

(** [url.QueryEscape] and [url.PathEscape] *)
Fixpoint QueryEscape (s : string) : string :=
  match s with
  | EmptyString => ""
  | String c s' => (if bool_decide (c = " "%char) then "+" else if unreserved c then String c "" else percent c) +:+ QueryEscape s'
  end.
Fixpoint PathEscape (s : string) : string :=
  match s with
  | EmptyString => ""
  | String c s' =>
      (if unreserved c || bool_decide (c ∈ ["$"; "&"; "+"; "="; ":"; "@"]%char) then String c "" else percent c) +:+ PathEscape s'
  end.

Definition work_op (after : string) (limit : Z) : string :=
  let parts := (if bool_decide (after = "") then [] else ["after=" +:+ QueryEscape after]) ++
               (if bool_decide (0 < limit)%Z then ["limit=" +:+ pretty limit] else []) in
  let enc := String.concat "&" parts in
  "GET /student/work" +:+ (if bool_decide (enc = "") then "" else "?" +:+ enc).
Definition session_op (id what : string) : string := "POST /student/sessions/" +:+ PathEscape id +:+ "/" +:+ what.

(** What happens to one exchange. *)
Inductive fate := Deliver | LoseRequest | LoseReply.

#[export] Instance fate_eq_dec : EqDecision fate.
Proof. solve_decision. Defined.

(** The LMS and the network: the next exchanges, each with the time it is handled at;
    after them everything arrives. *)
Record lms := mkLms { lm_conn : conn; lm_clock : Z; lm_script : list (fate * Z) }.

Section network.
Context `{!Postgres, !GoText, !HttpText} (sha256_hex : string → string).

(** The end of [Client.doJSON]. *)
Definition client_result {A} (op : string) (r : result err (result http_error A)) : result cerr A :=
  match r with
  | Ok (Ok a) => Ok a
  | Ok (Err (HttpError status msg)) =>
      if bool_decide (status = 401)%Z then Err (CUnauthorized (TrimSpace (problem_body status msg)))
      else Err (CHttp status (problem_body status msg) op)
  | Err _ => Err (CHttp 500 (problem_body 500 "unexpected error occurred") op)
  end.

Definition next_exchange (w : lms) : fate * Z * list (fate * Z) :=
  match lm_script w with
  | [] => (Deliver, lm_clock w, [])
  | (f, t) :: l => (f, t, l)
  end.

Definition exchange {A} (op token : string) (h : Z → StudentDevice → Handler A) (w : lms) : lms * result cerr A :=
  let '(f, now, script) := next_exchange w in
  match f with
  | LoseRequest => (mkLms (lm_conn w) now script, Err (COther (op +:+ ": connection refused")))
  | Deliver | LoseReply =>
      let (c, r) := studentOp sha256_hex token token now (h now) (mkEnv QPool now) (lm_conn w) in
      (mkLms c now script,
       match f with Deliver => client_result op r | _ => Err (COther "read response: unexpected EOF") end)
  end.

Definition drop_value {A} (x : lms * result cerr A) : lms * result cerr unit :=
  (x.1, match x.2 with Ok _ => Ok tt | Err e => Err e end).

#[export] Instance lms_server : Server lms := {|
  srv_now := lm_clock;
  srv_Work tok after limit := exchange (work_op after limit) tok (λ _, getStudentWork after limit);
  srv_PostEvents tok id events := exchange (session_op id "events") tok (postSessionEvents id events);
  srv_PostArtifact tok id meta w := drop_value (exchange (session_op id "artifacts") tok (λ _, postSessionArtifact id meta) w);
  srv_Complete tok id req := exchange (session_op id "complete") tok (completeStudentSession id req);
  srv_SubmitResponse tok id req := exchange (session_op id "responses") tok (submitStudentResponse sha256_hex id req);
  srv_ReportCapabilities tok caps := exchange "POST /student/device/capabilities" tok (reportDeviceCapabilities caps) |}.

(** *** The work listing of the LMS *)

(** One live device holds the token, and it is the student's. *)
Definition token_of (d : database) (token sid : string) : Prop :=
  ∃ k x, db_devices d !! k = Some x ∧ dv_ID x = k ∧ by_token (HashToken sha256_hex token) x = true ∧
    dv_StudentID x = sid ∧
    ∀ k' y, db_devices d !! k' = Some y → by_token (HashToken sha256_hex token) y = true → k' = k.

Lemma token_of_touch d token sid k now at_ :
  token_of d token sid → token_of (set_devices (alter (device_touched now at_) k (db_devices d)) d) token sid.
Proof.
  intros (k0 & x & Hx & Hid & Hb & Hs & Hu). exists k0, (if bool_decide (k = k0) then device_touched now at_ x else x).
  cbn. case_bool_decide as E; [subst k|]; rewrite ?lookup_alter_eq, ?lookup_alter_ne, Hx by done; split_and!; try done.
  all: intros k' y Hy; apply lookup_alter_Some in Hy as [(<- & z & Hz & ->)|[_ Hy]]; eauto.
Qed.

(** The guard lets a live token through and touches its device. *)
Lemma studentOp_run {A} token sid now q c (h : StudentDevice → Handler A) :
  token ≠ "" → cn_aborted c = false → token_of (cn_db c) token sid →
  ∃ dev, dv_StudentID dev = sid ∧ db_devices (cn_db c) !! dv_ID dev = Some dev ∧
    studentOp sha256_hex token token now h q c =
      h dev q (mkConn (set_devices (alter (device_touched now (q_now q)) (dv_ID dev) (db_devices (cn_db c))) (cn_db c)) false).
Proof.
  intros Ht Hab (k & x & Hx & Hid & Hb & Hs & Hu). exists x. split_and!; [done|congruence|].
  unfold studentOp, StudentDeviceGuard, StudentDeviceByToken, attempt, mbind, M_bind.
  rewrite (bool_decide_false (token = "")), (bool_decide_false (token = "")) by done.
  rewrite query_run, (select_unique _ _ k x) by done. cbn [take exactly_one].
  unfold mret, M_ret, TouchStudentDevice, exec_device, stmt. by rewrite Hab.
Qed.

(** The worlds of a quiet LMS: a network that delivers, a live token, and the tables of
    the queue as they are in [d]. *)
Definition quiet (d : database) (token sid : string) (w : lms) : Prop :=
  cn_aborted (lm_conn w) = false ∧ token_of (cn_db (lm_conn w)) token sid ∧ Forall (λ x, x.1 = Deliver) (lm_script w) ∧
  db_assignments (cn_db (lm_conn w)) = db_assignments d ∧ db_revisions (cn_db (lm_conn w)) = db_revisions d ∧
  db_activities (cn_db (lm_conn w)) = db_activities d.

Lemma next_Deliver w : Forall (λ x, x.1 = Deliver) (lm_script w) →
  ∃ now script, next_exchange w = (Deliver, now, script) ∧ Forall (λ x, x.1 = Deliver) script.
Proof.
  intros Hf. unfold next_exchange. destruct (lm_script w) as [|[f t] l]; [by eexists _, _|].
  apply Forall_cons in Hf as [Hd Hf]. cbn in Hd. subst f. by eexists _, _.
Qed.

Lemma ahead_ext d d' sid after suf : db_assignments d' = db_assignments d → db_revisions d' = db_revisions d →
  db_activities d' = db_activities d → ahead d sid after suf → ahead d' sid after suf.
Proof.
  intros Ea Er Et. assert (queue d' sid = queue d sid) as Hq.
  { unfold queue, work_rows. rewrite Ea. apply list_omap_ext.
    apply Forall_Forall2_diag, Forall_true. intros a. unfold work_item. by rewrite Er, Et. }
  unfold ahead. by rewrite Hq.
Qed.

Lemma lms_page d token sid after suf w : token ≠ "" → queue_ok d → quiet d token sid w → ahead d sid after suf →
  ∃ w', quiet d token sid w' ∧ srv_Work token after DefaultWorkPageLimit w =
    (w', Ok (mkWorkPage (take 100 suf) (last_cursor (take 100 suf))
              (if bool_decide (after = "") then WorkModeSnapshot else WorkModeIncremental)
              (bool_decide (100 < length suf)%nat))).
Proof.
  intros Ht Hq (Hab & Htok & Hnet & Ha & Hr & Hact) Hah.
  destruct (next_Deliver w Hnet) as (now & script & Hn & Hnet'). cbn [srv_Work lms_server]. unfold exchange. rewrite Hn.
  destruct (studentOp_run token sid now (mkEnv QPool now) (lm_conn w) (getStudentWork after DefaultWorkPageLimit) Ht Hab Htok)
    as (dev & Hs & _ & ->). set (c' := mkConn _ false).
  exists (mkLms c' now script). split.
  { split_and!; try done. by apply token_of_touch. }
  unfold getStudentWork, step, mbind, M_bind, attempt.
  rewrite Hs, (ListStudentWorkPage_run sid DefaultWorkPageLimit after suf); [done| |done| |done].
  - intros k a. cbn. rewrite Ha. apply Hq.
  - by apply (ahead_ext d).
Qed.

(** The LMS is a feed of its queue. *)
Definition lms_feed (d : database) (token sid : string) (Ht : token ≠ "") (Hq : queue_ok d)
    (Hascii : ∀ it, it ∈ queue d sid → ascii_text (item_id it)) : WorkFeed lms token (queue d sid).
Proof.
  refine {| feed_token := Ht; feed_world := quiet d token sid; feed_ahead := ahead d sid |}.
  - intros suf. split; [|by left]. intros [[_ E]|(t & id & E & _)]; [done|]. symmetry in E. by apply cursor_not_empty in E.
  - intros after suf w Hw Ha. by apply lms_page.
  - intros after l rest Hne Ha. by eapply ahead_next.
  - intros after suf Ha. by eapply ahead_suffix.
  - intros after suf it Ha Hit E. destruct Ha as [[-> _]|(t & id & -> & Hr & Hm & ->)].
    + by apply cursor_not_empty in E.
    + apply list_elem_of_filter in Hit as [Hk Hit]. destruct (queue_item_ok _ _ _ Hq Hit) as (Hr' & Hm' & _).
      pose proof (cursor_text_id _ _ _ _ E) as Eid. unfold cursor_of, cursor_text in E.
      assert (sa_UpdatedAt (wi_Assignment it) = t) as Et.
      { pose proof (splitCursor_at (format_time t) id (format_no_bar t)) as S1.
        pose proof (splitCursor_at (format_time (sa_UpdatedAt (wi_Assignment it))) (sa_ID (wi_Assignment it))
          (format_no_bar _)) as S2. rewrite E, S1 in S2. injection S2 as S2 _.
        apply (f_equal parse_time) in S2. rewrite !parse_format in S2 by done. congruence. }
      revert Hk. cbn. rewrite Et, Hm, Eid, str_lt_irrefl, Z.ltb_irrefl, andb_false_r. done.
  - by apply queue_ids_NoDup.
  - exact Hascii.
Defined.
End network.

(** ** Students are kept apart *)

Section isolation.
Context `{!Postgres, !GoText, !HttpText} (sha256_hex : string → string) (decode_base64 : string → option string).

(** The session exists and is another student's. *)
Definition foreign (dev : StudentDevice) (id : string) (d : database) : Prop :=
  ∃ sess, db_sessions d !! id = Some sess ∧ ls_StudentID sess ≠ dv_StudentID dev.

Lemma own_session_foreign {A} dev id (f : LearningSession → Handler A) q c : cn_aborted c = false →
  foreign dev id (cn_db c) → own_session dev id f q c = (c, Ok (Err (HttpError 404 "session not found"))).
Proof.
  intros Hab (sess & Hs & Hne). unfold own_session, step, mbind, M_bind, attempt, GetSession.
  rewrite (Get_run (A:=LearningSession) _ _ _ sess) by done. by rewrite bool_decide_false.
Qed.

Lemma submit_foreign dev id req now q c : q_mode q ≠ QSavepoint → foreign dev id (cn_db c) →
  cn_db (submitStudentResponse sha256_hex id req now dev q c).1 = cn_db c.
Proof.
  intros Hq (sess & Hs & Hne). unfold submitStudentResponse, step, mbind, M_bind, attempt.
  destruct (SubmitStudentResponse _ _ _ _ _ q c) as [c1 [[r b]|e]] eqn:E.
  - apply Submit_cases in E as (_ & _ & _ & [(-> & -> & _)|(_ & _ & sess' & spec & k & (Hs' & Hst & _) & _)]); [done| |done].
    rewrite Hs in Hs'. by injection Hs' as <-.
  - by eapply Submit_Err_db.
Qed.

Lemma complete_foreign dev id req now q c : q_mode q ≠ QSavepoint → cn_aborted c = false → foreign dev id (cn_db c) →
  completeStudentSession id req now dev q c = (c, Ok (Err (HttpError 404 "resource not found"))).
Proof.
  intros Hq Hab (sess & Hs & Hne). unfold completeStudentSession, step, mbind, M_bind, attempt, ApplyCompletion, WithTx.
  rewrite Hab. assert (completionTx dev id req now (mkEnv QTx (q_now q)) c = (c, Err ErrNotFound)) as ->.
  { unfold completionTx, GetSession, mbind, M_bind. rewrite (Get_run (A:=LearningSession) _ _ _ sess) by done.
    by rewrite bool_decide_false. }
  by destruct (q_mode q).
Qed.

(** A new submission for another student's session is refused. *)
Lemma submit_refused dev id req now q c : q_mode q ≠ QSavepoint → cn_aborted c = false → foreign dev id (cn_db c) →
  select (by_submission (rq_SubmissionID req)) (db_responses (cn_db c)) = [] →
  ∃ status msg, submitStudentResponse sha256_hex id req now dev q c = (c, Ok (Err (HttpError status msg))) ∧ status ∈ [400; 404]%Z.
Proof.
  intros Hq Hab (sess & Hs & Hne) Hnew. unfold submitStudentResponse, step, mbind, M_bind, attempt, SubmitStudentResponse.
  assert (Hcheck : (∃ body, checkSubmission (response_defaults now req) q c = (c, Ok body)) ∨
    ∃ msg, checkSubmission (response_defaults now req) q c = (c, Err (ErrBadRequest msg))).
  { unfold checkSubmission, throw, mret, M_ret. case_bool_decide; [eauto|]. destruct (blank _); [eauto|]. cbv zeta. case_bool_decide; [eauto|]. case_bool_decide; [eauto|].
    destruct (looksLikeTutorAuthored _); eauto. }
  unfold mbind, M_bind. destruct Hcheck as [[body ->]|[msg ->]]; [|exists 400%Z, msg; split; [done|left]].
  rewrite (WithTx_Err _ q c c ErrNotFound); [by eexists 404%Z, _; split; [done|right; left]|done|done|].
  unfold GetResponseBySubmissionID, attempt, mbind, M_bind. rewrite query_run by done. cbn [rq_SubmissionID response_defaults]. rewrite Hnew.
  cbn [first_row]. unfold throw at 1. cbn. unfold newResponse, GetSession, mbind, M_bind. rewrite (Get_run (A:=LearningSession) _ _ _ sess) by done.
  by rewrite bool_decide_false.
Qed.

(** C22: A device works on its own student's sessions only.  When the session in the path
    is another student's, every route under it (events, artifact metadata, reservation,
    upload, continuity, tutor message, completion, response) leaves the whole database as
    it was, the upload also the files of the artifact store, and is refused: with status
    404, the response route with 404 or, for a malformed submission, 400.  The exception
    is a response whose submission id is already stored: it too changes nothing, but is
    not necessarily refused. *)
Theorem student_isolation dev id events meta req sub svc message artifactID b64 sha fs now q c :
  q_mode q ≠ QSavepoint → cn_aborted c = false → foreign dev id (cn_db c) →
  let not_found {A} : result err (result http_error A) := Ok (Err (HttpError 404 "session not found")) in
  postSessionEvents id events now dev q c = (c, not_found) ∧
  postSessionArtifact id meta dev q c = (c, not_found) ∧
  reserveSessionArtifact id meta dev q c = (c, not_found) ∧
  uploadSessionArtifact sha256_hex decode_base64 id artifactID b64 sha now fs dev q c =
    (c, Ok (fs, Err (HttpError 404 "session not found"))) ∧
  getSessionContinuity id dev q c = (c, not_found) ∧
  postTutorMessage svc id message now dev q c = (c, not_found) ∧
  completeStudentSession id req now dev q c = (c, Ok (Err (HttpError 404 "resource not found"))) ∧
  cn_db (submitStudentResponse sha256_hex id sub now dev q c).1 = cn_db c ∧
  (select (by_submission (rq_SubmissionID sub)) (db_responses (cn_db c)) = [] →
   ∃ status msg, submitStudentResponse sha256_hex id sub now dev q c = (c, Ok (Err (HttpError status msg))) ∧ status ∈ [400; 404]%Z).
Proof.
  intros Hq Hab Hf nf. split_and!.
  - by apply own_session_foreign.
  - by apply own_session_foreign.
  - by apply own_session_foreign.
  - unfold uploadSessionArtifact, mbind, M_bind. by rewrite own_session_foreign.
  - by apply own_session_foreign.
  - by apply own_session_foreign.
  - by apply complete_foreign.
  - by apply submit_foreign.
  - by apply submit_refused.
Qed.

(** The state between the two transactions of a submission: the response is stored, its
    evidence is not.  Sending it again does not apply the evidence. *)
Lemma resubmission_without_evidence dev id req now q c r l :
  q_mode q ≠ QSavepoint → cn_aborted c = false →
  (∃ c0 now0, SubmitStudentResponse sha256_hex dev id (response_defaults now0 req) now0 q c0 = (c, Ok (r, true))) →
  select (by_submission (rq_SubmissionID req)) (db_responses (cn_db c)) = r :: l →
  submitStudentResponse sha256_hex id req now dev q c = (c, Ok (Ok (submission_result r []))).
Proof.
  intros Hq Hab (c0 & now0 & Hs) Hl.
  assert (SubmitStudentResponse sha256_hex dev id (response_defaults now req) now q c = (c, Ok (r, false))) as Hagain.
  { pose proof Hs as Hc. unfold SubmitStudentResponse in Hs. apply M_bind_Ok in Hs as (c1 & body & Hb & _).
    pose proof (checkSubmission_Ok _ _ _ _ _ Hb) as (_ & Hbody & _).
    apply Submit_cases in Hc as (_ & _ & _ & [(? & _)|(_ & _ & sess & spec & k & _ & Hr & _)]); [done| |done].
    unfold SubmitStudentResponse, mbind, M_bind.
    assert (checkSubmission (response_defaults now req) q c = (c, Ok body)) as ->.
    { by rewrite <-(checkSubmission_run _ _ _ _ _ q c Hb). }
    unfold WithTx. rewrite Hab. destruct (q_mode q); [| |done].
    all: unfold GetResponseBySubmissionID, attempt, mbind, M_bind; rewrite query_run by done.
    all: cbn [rq_SubmissionID response_defaults]; rewrite Hl; cbn [first_row].
    all: unfold mret, M_ret; rewrite (bool_decide_true (sr_BodySHA256 r = _)) by (by subst r body).
    all: cbn [negb andb]; by rewrite Hab. }
  unfold submitStudentResponse, step, mbind, M_bind, attempt. by rewrite Hagain.
Qed.
End isolation.

(** ** Examples and witnesses *)

Section sample_runs.
#[local] Existing Instance sample_postgres.
#[local] Existing Instance sample_text.

Definition sample_http : HttpText := {| pg_text code := "sqlstate " +:+ code; problem_body status msg := msg |}.
#[local] Existing Instance sample_http.
#[local] Instance w_server : Server lms := lms_server w_hash.

(** The LMS with one device paired, the network delivering. *)
Definition w_lms : lms := mkLms w_claimed 200 [(Deliver, 300%Z)].
Definition w_client (s : Store) : cstate lms := mkClient w_lms s "tok" StatusIdle sync_zero.

Lemma w_quiet : quiet w_hash w_db "tok" "s1" w_lms.
Proof.
  assert (db_devices (cn_db w_claimed) = <["0" := w_claimed_device]> (<["d1" := w_device]> ∅)) as Hd
    by (vm_compute; reflexivity).
  unfold quiet. split_and!; try (vm_compute; reflexivity); [|by repeat constructor].
  exists "0", w_claimed_device. cbn [lm_conn w_lms]. rewrite Hd. split_and!; try done.
  intros k y [[<- _]|[_ [[<- <-]|[_ Hy]]%lookup_insert_Some]]%lookup_insert_Some; [done|vm_compute; discriminate|].
  by rewrite lookup_empty in Hy.
Qed.

Lemma w_queue_ok : queue_ok w_db.
Proof.
  intros k a Hk. assert (map_Forall (λ k a, sa_ID a = k ∧ sa_UpdatedAt a = 0%Z) (db_assignments w_db)) as Hall.
  { apply (bool_decide_eq_true_1 _). vm_compute. reflexivity. }
  destruct (Hall k a Hk) as [? ->]. split; [done|]. unfold rfc3339_range, pg_micros. split; [lia|done].
Qed.

Lemma w_queue_ascii it : it ∈ queue w_db "s1" → ascii_text (item_id it).
Proof.
  assert (Forall (λ it, Forall (λ c, (nat_of_ascii c <? 128)%nat = true) (chars (item_id it))) (queue w_db "s1")) as Hall.
  { apply (bool_decide_eq_true_1 _). vm_compute. reflexivity. }
  rewrite Forall_forall in Hall. intros Hit. specialize (Hall it Hit). unfold ascii_text.
  eapply Forall_impl; [exact Hall|]. intros c. apply Nat.ltb_lt.
Qed.

#[local] Instance w_feed : WorkFeed lms "tok" (queue w_db "s1") :=
  lms_feed w_hash w_db "tok" "s1" ltac:(discriminate) w_queue_ok w_queue_ascii.


(** A snapshot that lost its connection after a page: "gone" is cached, the server no
    longer lists it, the page reached "as1". *)
Definition w_gone : StudentWorkItem :=
  mkWorkItem (w_assignment "gone" "r1" "available") (w_revision "r1" "a1" w_content) (w_activity "a1" "shell-basics" "terminal").
Definition w_stale : Store := SaveWork 10 [w_gone] empty_store.
Definition w_interrupted : Store :=
  let first := filter (λ it, item_id it = "as1") (queue w_db "s1") in
  ApplyWorkPage 20 first (last_cursor first) "snapshot" (BeginWorkPage "snapshot" w_stale).1.
Definition state_of (id : string) (x : cstate lms * result cerr (option nat)) : option string :=
  sa_State ∘ wi_Assignment <$> cached (cl_store x.1) id.

(** The resumed walk is taken for an incremental one: what an uninterrupted snapshot
    cancels stays available. *)
Lemma interrupted_snapshot_keeps_stale_work :
  state_of "gone" (pullWork 1 (w_client w_stale)) = Some "cancelled" ∧
  state_of "gone" (pullWork 1 (w_client w_interrupted)) = Some "available" ∧
  GetMeta MetaWorkInProgress (cl_store (pullWork 1 (w_client w_interrupted)).1) = "0".
Proof. vm_compute. split_and!; reflexivity. Qed.

(** A request on the session of a student who is not the device's. *)
Definition w_foreign_device : StudentDevice := mkStudentDevice "d9" "s9" "" "" None None ∅ None 0 0.

Lemma student_isolation_witness :
  postSessionEvents "ss1" [w_event "e1" 0] 300 w_foreign_device w_pool w_conn =
    (w_conn, Ok (Err (HttpError 404 "session not found"))) ∧
  ∃ status msg, submitStudentResponse w_hash "ss1" (w_submission "u1" "text") 300 w_foreign_device w_pool w_conn =
    (w_conn, Ok (Err (HttpError status msg))).
Proof.
  destruct (student_isolation w_hash Some w_foreign_device "ss1" [w_event "e1" 0] (w_meta "x1") (w_request "c1")
    (w_submission "u1" "text") (mkTutorService "fake" true (λ _, Err "down")) "help" "x1" "" "" None 300 w_pool w_conn)
    as (H1 & _ & _ & _ & _ & _ & _ & _ & H2); [discriminate|reflexivity| |].
  - exists (w_session "ss1" "as1" "r1"). split; [vm_compute; reflexivity|discriminate].
  - split; [exact H1|]. destruct H2 as (status & msg & H2 & _); [vm_compute; reflexivity|]. exists status, msg. exact H2.
Defined.
End sample_runs.
