(* ===== verification/EventDelivery.v ===== *)
(** * Delivery of session events: the client's outbox, the network and the LMS

    The composition of the client's store ([ClientStore]), its flush ([ClientSync]), a
    network that loses requests and replies ([StudentApi]) and the server's ingestion
    ([Sessions]): what the client marks as acknowledged is stored on the server, and a
    pass over a working network delivers. *)
From S2P Require Import Prelude GoStrings GoText Utf8 Float64 Contracts ContentJson LmsData LmsDb Sample Sessions.
From S2P Require Import Mastery ContentEncode WorkPage ClientStore ClientSync WorkSync Responses Devices StudentApi.
From stdpp Require Import options.
Local Open Scope string_scope.
Local Open Scope list_scope.

(** ** What the server's event table gains *)

(** The event as it travels. *)
Definition wire (o : OutboxEvent) : SessionEvent := ox_Event (outbox_read o).
Definition event_id (o : OutboxEvent) : string := se_EventID (ox_Event o).
Definition event_seq (o : OutboxEvent) : Z := se_Sequence (ox_Event o).

(** Everything of the batch is stored, and nothing else was added. *)
Definition ingested (sid : string) (evs : list SessionEvent) (d d' : database) : Prop :=
  events_ok d' ∧ db_events d ⊆ db_events d' ∧ Forall (λ ev, has_event d' (se_EventID ev)) evs ∧
  ∀ k e, db_events d' !! k = Some e →
    db_events d !! k = Some e ∨ ∃ ev now, ev ∈ evs ∧ e = event_row sid ev now k.

Definition same_events (d d' : database) : Prop :=
  db_events d' = db_events d ∧ (keyed_sessions d → keyed_sessions d').

#[global] Instance same_events_preorder : PreOrder same_events.
Proof. split; [done|]. intros d1 d2 d3 [H1 H2] [H3 H4]. split; [congruence|auto]. Qed.

Section ingestion.
Context `{!Postgres}.

Lemma same_events_touch sid now : preserves same_events (touchSession sid now).
Proof.
  intros q c. unfold touchSession. apply (preserves_stmt same_events). intros d d' a.
  destruct (db_sessions d !! sid) as [s|] eqn:E; intros [= <- _]; [|done]. split; [done|].
  intros Hk k x. cbn. intros [[<- <-]|[_ Hx]]%lookup_insert_Some; [exact (Hk _ _ E)|by apply Hk].
Qed.

Lemma ingest_loop_rows sid now evs q : q_mode q = QTx → ∀ c c',
  for_M (ingestOne sid now) evs tt q c = (c', Ok tt) → cn_aborted c' = false →
  (∀ k e, db_events (cn_db c') !! k = Some e →
    db_events (cn_db c) !! k = Some e ∨ ∃ ev now, ev ∈ evs ∧ e = event_row sid ev now k) ∧
  db_sessions (cn_db c') = db_sessions (cn_db c).
Proof.
  intros Hq. induction evs as [|ev evs IH]; intros c c' Hf Hl.
  { injection Hf as <-. split; [|done]. by left. }
  apply for_M_cons_Ok in Hf as (c1 & [] & H1 & H2).
  assert (cn_aborted c1 = false) as Hl1.
  { eapply sticky_live; [|exact H2|done]. apply sticky_for_M, sticky_ingestOne. }
  apply ingestOne_live in H1 as [_ H1]; [|done|done].
  apply insertEvent_Ok in H1 as (_ & _ & _ & _ & [->|(k0 & _ & _ & Hdb)]).
  - destruct (IH _ _ H2 Hl) as [Hrows Hses]. split; [|done].
    intros k e [?|(ev' & t & Hin & ->)]%Hrows; [by left|]. right. exists ev', t. split; [by right|done].
  - destruct (IH _ _ H2 Hl) as [Hrows Hses]. rewrite Hdb in Hrows, Hses. split; [|done].
    intros k e [Hk|(ev' & t & Hin & ->)]%Hrows.
    + cbn in Hk. apply lookup_insert_Some in Hk as [[<- <-]|[_ ?]]; [|by left]. right. exists ev, now. split; [left|done].
    + right. exists ev', t. split; [by right|done].
Qed.

Lemma Ingest_ingested sid evs now q c c' n : q_mode q ≠ QSavepoint → events_ok (cn_db c) →
  IngestSessionEvents sid evs now q c = (c', Ok n) →
  ingested sid evs (cn_db c) (cn_db c') ∧ n = ack_value sid (cn_db c') ∧ (keyed_sessions (cn_db c) → keyed_sessions (cn_db c')).
Proof.
  intros Hq Hok Hrun. destruct (IngestSessionEvents_run _ _ _ _ _ _ _ Hq Hrun Hok) as (_ & Hn & Hok' & Hsub & Hall).
  apply WithTx_Ok in Hrun as (Hl & Hrun & Hl'); [|done].
  apply M_bind_Ok in Hrun as (c1 & [] & Hloop & Htail).
  apply M_bind_Ok in Htail as (c2 & [] & Ht & Htail).
  assert (cn_aborted c1 = false) as Hl1 by (by apply stmt_Ok in Ht as [? _]).
  destruct (ingest_loop_rows sid now evs (mkEnv QTx (q_now q)) eq_refl _ _ Hloop Hl1) as [Hrows Hses].
  pose proof (same_events_touch sid now (mkEnv QTx (q_now q)) c1) as [He Hk]. rewrite Ht in He, Hk. cbn [fst] in He, Hk.
  assert (c' = c2) as ->.
  { apply M_bind_Ok in Htail as (c3 & m & (_ & -> & ->)%query_Ok & Hr). destruct (max_seq _); [|by injection Hr as <- _].
    unfold contiguousAck in Hr. apply M_bind_Ok in Hr as (c4 & r & Hr & Hr').
    apply attempt_inv in Hr. assert (c4 = c2) as -> by (eapply readonly_conn; [|exact Hr]; auto with primer).
    destruct r; by injection Hr' as <- _. }
  split_and!; [|done|].
  - split_and!; [done..| |].
    + eapply Forall_impl; [exact Hall|]. by intros ev (_ & _ & ?).
    + intros k e. rewrite He. apply Hrows.
  - intros Hkey. apply Hk. intros k s. rewrite Hses. apply Hkey.
Qed.
End ingestion.

(** ** One post over the network *)

Section post.
Context `{!Postgres, !GoText, !HttpText} (sha256_hex : string → string).

Lemma same_events_guard header bearer now : preserves same_events (StudentDeviceGuard sha256_hex header bearer now).
Proof.
  unfold StudentDeviceGuard. set (tok := if bool_decide (header = "") then bearer else header). clearbody tok.
  destruct (bool_decide (tok = "")); [apply preserves_readonly; [apply _|done]|].
  apply (preserves_bind same_events).
  { apply preserves_readonly; [apply _|]. unfold StudentDeviceByToken. eauto with primer. }
  intros [dev|[]]; [|by apply preserves_readonly; [apply _|]..].
  apply (preserves_bind same_events); [|by intros; apply preserves_readonly; [apply _|]].
  apply (preserves_attempt same_events). intros q c. unfold TouchStudentDevice, exec_device.
  apply (preserves_stmt same_events). by intros d d' a [= <- _].
Qed.

(** What posting a batch does to the event table: nothing, or it stores the batch; a
    positive answer is the acknowledgement. *)
Definition post_effect {E} (sid : string) (evs : list SessionEvent) (d d' : database) (r : result E Z) : Prop :=
  keyed_sessions d' ∧
  ((db_events d' = db_events d ∧ ∀ n, r ≠ Ok n) ∨ (ingested sid evs d d' ∧ ∀ n, r = Ok n → n = ack_value sid d')).

Lemma handler_effect dev sid evs now q c : q_mode q ≠ QSavepoint → events_ok (cn_db c) → keyed_sessions (cn_db c) →
  ∃ c' r, postSessionEvents sid evs now dev q c = (c', Ok r) ∧ post_effect sid evs (cn_db c) (cn_db c') r.
Proof.
  intros Hq Hok Hk. unfold postSessionEvents, own_session, step, attempt, mbind, M_bind.
  destruct (GetSession sid q c) as [c1 [sess|e]] eqn:Eg.
  all: assert (c1 = c) as -> by (eapply readonly_conn; [exact (readonly_Get (A:=LearningSession) sid)|exact Eg]).
  2: { eexists _, _. split; [done|]. by split; [|left]. }
  apply (Get_Ok (A:=LearningSession)) in Eg as (Hab & _ & Hs). rewrite (Hk _ _ Hs).
  destruct (negb _); [by eexists _, _; split; [|split; [|left]]|].
  destruct (IngestSessionEvents sid evs now q c) as [c3 [n|e]] eqn:Ei.
  - apply Ingest_ingested in Ei as (Hing & -> & Hk'); [|done..].
    eexists _, _. split; [done|]. split; [by apply Hk'|right]. split; [done|]. by intros n [= <-].
  - apply WithTx_Err_db in Ei; [|done]. eexists _, _. split; [done|]. rewrite Ei. by split; [|left].
Qed.

Lemma guarded_effect tok sid evs now q c : q_mode q ≠ QSavepoint → events_ok (cn_db c) → keyed_sessions (cn_db c) →
  ∃ c' r, studentOp sha256_hex tok tok now (postSessionEvents sid evs now) q c = (c', r) ∧
    post_effect sid evs (cn_db c) (cn_db c') (match r with Ok r => r | Err _ => Err (HttpError 500 "") end).
Proof.
  intros Hq Hok Hkey. unfold studentOp, mbind at 1, M_bind at 1.
  pose proof (same_events_guard tok tok now q c) as [He Hk].
  destruct (StudentDeviceGuard _ _ _ _ _ _) as [c1 [g|e]]; cbn [fst] in He, Hk; specialize (Hk Hkey).
  2: { eexists _, _. split; [done|]. by split; [|left]. }
  destruct g as [m| |dev]; try by eexists _, _; split; [|split; [|left]].
  destruct (handler_effect dev sid evs now q c1 Hq) as (c2 & r & Hrun & Hk2 & Hr); [|done|].
  { by unfold events_ok, unique_sequences; rewrite He. }
  exists c2, (Ok r). split; [done|]. split; [done|]. unfold ingested in *. by rewrite <-He.
Qed.

(** The same over the network, whatever it loses. *)
Lemma post_events_effect tok sid evs w w' r :
  events_ok (cn_db (lm_conn w)) → keyed_sessions (cn_db (lm_conn w)) →
  srv_PostEvents (Server:=lms_server sha256_hex) tok sid evs w = (w', r) →
  post_effect sid evs (cn_db (lm_conn w)) (cn_db (lm_conn w')) r.
Proof.
  intros Hok Hkey. cbn [srv_PostEvents lms_server]. unfold exchange.
  destruct (next_exchange w) as [[f now] script].
  destruct (guarded_effect tok sid evs now (mkEnv QPool now) (lm_conn w)) as (c' & r' & Hrun & Hk & Heff); [done..|].
  destruct f; rewrite ?Hrun; intros [= <- <-]; [|by split; [|left]|]; (split; [done|]); cbn [lm_conn].
  - destruct Heff as [[? Hn]|[? Hn]]; [left|right]; (split; [done|]).
    all: intros n; unfold client_result; destruct r' as [[m|[st msg]]|]; try (by case_bool_decide).
    all: try (intros [= ->]; by destruct (Hn n)).
  - by destruct Heff as [[? _]|[? _]]; [left|right].
Qed.
End post.

(** ** The invariant *)

Record delivery_ok (s : Store) (d : database) : Prop := {
  dl_client o : o ∈ st_outbox s → event_id o ≠ "" ∧ ∃ x, st_sessions s !! ox_ClientSessionID o = Some x ∧
    (ox_ServerSessionID o = "" ∨ ox_ServerSessionID o = ss_ServerSessionID x) ∧ (0 ≤ event_seq o < ss_NextSequence x)%Z;
  dl_ids o1 o2 : o1 ∈ st_outbox s → o2 ∈ st_outbox s → event_id o1 = event_id o2 → o1 = o2;
  dl_seqs o1 o2 : o1 ∈ st_outbox s → o2 ∈ st_outbox s → ox_ClientSessionID o1 = ox_ClientSessionID o2 →
    event_seq o1 = event_seq o2 → o1 = o2;
  (** the sequences of a session are 0, 1, 2, ..., below those of server events *)
  dl_full cid x n : st_sessions s !! cid = Some x → (0 ≤ n < ss_NextSequence x)%Z →
    ∃ o, o ∈ st_outbox s ∧ ox_ClientSessionID o = cid ∧ event_seq o = n;
  dl_next cid x : st_sessions s !! cid = Some x → (0 ≤ ss_NextSequence x ≤ ServerEventSequenceBase)%Z;
  (** no two client sessions feed one server session *)
  dl_bind c1 c2 x1 x2 : st_sessions s !! c1 = Some x1 → st_sessions s !! c2 = Some x2 →
    ss_ServerSessionID x1 = ss_ServerSessionID x2 → ss_ServerSessionID x1 ≠ "" → c1 = c2;
  (** the client events of a bound session come from this outbox *)
  dl_server k e cid x : db_events d !! k = Some e → st_sessions s !! cid = Some x → ss_ServerSessionID x = ev_SessionID e →
    ss_ServerSessionID x ≠ "" → (ev_Sequence e < ServerEventSequenceBase)%Z →
    ∃ o, o ∈ st_outbox s ∧ ox_ClientSessionID o = cid ∧ event_seq o = ev_Sequence e ∧ event_id o = ev_EventID e;
  (** a stored event of the outbox is stored as it is, in the session it belongs to *)
  dl_known k e o : db_events d !! k = Some e → o ∈ st_outbox s → ev_EventID e = event_id o →
    ∃ x now, st_sessions s !! ox_ClientSessionID o = Some x ∧ ss_ServerSessionID x ≠ "" ∧
      e = event_row (ss_ServerSessionID x) (wire o) now k;
  dl_acked o : o ∈ st_outbox s → ox_Acked o = true → has_event d (event_id o);
  dl_events : events_ok d;
  dl_keyed : keyed_sessions d }.

(** What happens on the server outside this client: it adds events to sessions that are
    not bound here, or server events, under ids of their own. *)
Definition outside (s : Store) (d d' : database) : Prop :=
  db_events d ⊆ db_events d' ∧ events_ok d' ∧ keyed_sessions d' ∧
  ∀ k e, db_events d' !! k = Some e → db_events d !! k = Some e ∨
    ((∀ o, o ∈ st_outbox s → ev_EventID e ≠ event_id o) ∧
     ((∀ cid x, st_sessions s !! cid = Some x → ss_ServerSessionID x ≠ ev_SessionID e) ∨
      ServerEventSequenceBase ≤ ev_Sequence e)%Z).

Lemma has_event_mono d d' id : db_events d ⊆ db_events d' → has_event d id → has_event d' id.
Proof. intros Hs (i & e & Hi & He). exists i, e. split; [by eapply lookup_weaken|done]. Qed.

Lemma delivery_outside s d d' : delivery_ok s d → outside s d d' → delivery_ok s d'.
Proof.
  intros [Hc Hi Hq Hf Hn Hb Hs Hk Ha He Hy] (Hsub & He' & Hy' & Hnew). split; try done.
  - intros k e cid x Hke Hx Hsid Hne Hlt. apply Hnew in Hke as [Hke|[_ [Hu|Hu]]]; [by eapply Hs| |lia].
    by destruct (Hu cid x Hx).
  - intros k e o Hke Ho Hid. apply Hnew in Hke as [Hke|[Hu _]]; [by eapply Hk|]. by destruct (Hu o Ho).
  - intros o Ho Hao. eapply has_event_mono; eauto.
Qed.

(** Storing a batch of a session's own events. *)
Lemma delivery_ingested s d d' cid x evs : delivery_ok s d → st_sessions s !! cid = Some x → ss_ServerSessionID x ≠ "" →
  (∀ ev, ev ∈ evs → ∃ o, o ∈ st_outbox s ∧ ox_ClientSessionID o = cid ∧ wire o = ev) →
  keyed_sessions d' → ingested (ss_ServerSessionID x) evs d d' → delivery_ok s d'.
Proof.
  intros [Hc Hi Hq Hf Hn Hb Hs Hk Ha He Hy] Hx Hsid Hevs Hy' (He' & Hsub & _ & Hnew). split; try done.
  - intros k e cid' x' Hke Hx' Hs' Hne Hlt. apply Hnew in Hke as [Hke|(ev & now & Hev & ->)]; [by eapply Hs|].
    destruct (Hevs ev Hev) as (o & Ho & Hoc & <-). exists o. split_and!; try done.
    rewrite Hoc. symmetry. by eapply Hb.
  - intros k e o Hke Ho Hid. apply Hnew in Hke as [Hke|(ev & now & Hev & ->)]; [by eapply Hk|].
    destruct (Hevs ev Hev) as (o' & Ho' & Hoc & <-). assert (o' = o) as -> by by apply Hi.
    exists x, now. by rewrite Hoc.
  - intros o Ho Hao. eapply has_event_mono; eauto.
Qed.

Lemma event_ack o cid n :
  event_id (ack_row cid n o) = event_id o ∧ event_seq (ack_row cid n o) = event_seq o ∧
  wire (ack_row cid n o) = wire o ∧ ox_ClientSessionID (ack_row cid n o) = ox_ClientSessionID o ∧
  ox_ServerSessionID (ack_row cid n o) = ox_ServerSessionID o ∧ ox_Event (ack_row cid n o) = ox_Event o.
Proof. unfold ack_row. by destruct (_ && _). Qed.

Section acks.
Context `{!GoText}.

Lemma ack_session_lookup now cid n s cid' x : st_sessions (AckEvents now cid n s) !! cid' = Some x →
  ∃ x0, st_sessions s !! cid' = Some x0 ∧ ss_ServerSessionID x = ss_ServerSessionID x0 ∧
        ss_NextSequence x = ss_NextSequence x0.
Proof.
  cbn. intros [(<- & x0 & Hx & ->)|[_ Hx]]%lookup_alter_Some; [by exists x0|by exists x].
Qed.
Lemma ack_session_lookup2 now cid n s cid' x0 : st_sessions s !! cid' = Some x0 →
  ∃ x, st_sessions (AckEvents now cid n s) !! cid' = Some x ∧ ss_ServerSessionID x = ss_ServerSessionID x0 ∧
        ss_NextSequence x = ss_NextSequence x0.
Proof.
  intros Hx. cbn. destruct (decide (cid = cid')) as [->|Hne].
  - rewrite lookup_alter_eq, Hx. by eexists.
  - rewrite lookup_alter_ne by done. eauto.
Qed.

(** Acknowledging what is stored. *)
Lemma delivery_ack now s d cid n : delivery_ok s d →
  (∀ o, o ∈ st_outbox s → ox_ClientSessionID o = cid → (event_seq o ≤ n)%Z → has_event d (event_id o)) →
  delivery_ok (AckEvents now cid n s) d.
Proof.
  intros [Hc Hi Hq Hf Hn Hb Hs Hk Ha He Hy] Hst.
  assert (Hel : ∀ o, o ∈ st_outbox (AckEvents now cid n s) → ∃ o0, o = ack_row cid n o0 ∧ o0 ∈ st_outbox s).
  { intros o (o0 & -> & Ho)%list_elem_of_fmap. by exists o0. }
  split; try done.
  - intros o (o0 & -> & Ho)%Hel. destruct (event_ack o0 cid n) as (-> & -> & _ & -> & -> & _).
    destruct (Hc o0 Ho) as (Hne & x & Hx & H1 & H2). split; [done|].
    destruct (ack_session_lookup2 now cid n s _ x Hx) as (x' & Hx' & E1 & E2). exists x'. by rewrite E1, E2.
  - intros o1 o2 (a & -> & H1)%Hel (b & -> & H2)%Hel. destruct (event_ack a cid n) as (-> & _), (event_ack b cid n) as (-> & _).
    intros E. by rewrite (Hi a b H1 H2 E).
  - intros o1 o2 (a & -> & H1)%Hel (b & -> & H2)%Hel.
    destruct (event_ack a cid n) as (_ & -> & _ & -> & _), (event_ack b cid n) as (_ & -> & _ & -> & _).
    intros E1 E2. by rewrite (Hq a b H1 H2 E1 E2).
  - intros cid' x m (x0 & Hx & _ & ->)%ack_session_lookup Hm. destruct (Hf _ _ _ Hx Hm) as (o & Ho & H1 & H2).
    exists (ack_row cid n o). destruct (event_ack o cid n) as (_ & -> & _ & -> & _). split_and!; [|done..].
    by apply list_elem_of_fmap_2.
  - intros cid' x (x0 & Hx & _ & ->)%ack_session_lookup. by eapply Hn.
  - intros c1 c2 x1 x2 (y1 & Hy1 & -> & _)%ack_session_lookup (y2 & Hy2 & -> & _)%ack_session_lookup. by eapply Hb.
  - intros k e cid' x Hke (x0 & Hx & -> & _)%ack_session_lookup H1 H2 H3. destruct (Hs k e cid' x0 Hke Hx H1 H2 H3) as (o & Ho & ?).
    exists (ack_row cid n o). destruct (event_ack o cid n) as (-> & -> & _ & -> & _). split; [|done].
    by apply list_elem_of_fmap_2.
  - intros k e o Hke (o0 & -> & Ho)%Hel. destruct (event_ack o0 cid n) as (-> & _ & -> & -> & _). intros E.
    destruct (Hk k e o0 Hke Ho E) as (x & t & Hx & H1 & H2).
    destruct (ack_session_lookup2 now cid n s _ x Hx) as (x' & Hx' & E1 & _). exists x', t. by rewrite E1.
  - intros o (o0 & -> & Ho)%Hel. destruct (event_ack o0 cid n) as (-> & _). unfold ack_row.
    destruct (bool_decide_reflect (ox_ClientSessionID o0 = cid)); cbn [andb]; [|by apply Ha].
    destruct (Z.leb_spec (se_Sequence (ox_Event o0)) n); [|by apply Ha]. intros _. by apply Hst.
Qed.

(** An acknowledgement of the server covers stored events only. *)
Lemma ack_value_stored s d cid x : delivery_ok s d → st_sessions s !! cid = Some x → ss_ServerSessionID x ≠ "" →
  ∀ o, o ∈ st_outbox s → ox_ClientSessionID o = cid → (event_seq o ≤ ack_value (ss_ServerSessionID x) d)%Z →
  has_event d (event_id o).
Proof.
  intros [Hc Hi Hq Hf Hn Hb Hs Hk Ha He Hy] Hx Hne o Ho Hoc Hle.
  destruct (Hc o Ho) as (_ & x' & Hx' & _ & Hlo). rewrite Hoc, Hx in Hx'. injection Hx' as <-.
  destruct (ack_value_correct (ss_ServerSessionID x) d He) as (_ & Hall & _).
  assert (event_seq o ∈ session_sequences (ss_ServerSessionID x) d) as (e & Hseq & Hin)%list_elem_of_fmap by (apply Hall; lia).
  apply elem_of_select in Hin as [[k Hke] Hse%bool_decide_eq_true]. pose proof (Hn _ _ Hx) as Hnx.
  destruct (Hs k e cid x Hke Hx) as (o' & Ho' & Hoc' & Hq' & Hid); [done|done|lia|].
  assert (o' = o) as -> by (apply Hq; [done|done|congruence|congruence]). by exists k, e.
Qed.
End acks.

(** ** Batches *)

Definition in_outbox (s : Store) (cid : string) (e : OutboxEvent) : Prop :=
  ∃ o, o ∈ st_outbox s ∧ outbox_read o = e ∧ ox_ClientSessionID o = cid.

Definition batch_ok (s : Store) (b : eventBatch) : Prop :=
  eb_events b ≠ [] ∧ Forall (in_outbox s (eb_clientID b)) (eb_events b) ∧
  (eb_serverID b = "" ∨ ∃ e, e ∈ eb_events b ∧ ox_ServerSessionID e = eb_serverID b).

Lemma in_outbox_ack now cid n s cid' e : in_outbox s cid' e → in_outbox (AckEvents now cid n s) cid' e.
Proof.
  intros (o & Ho & <- & <-). exists (ack_row cid n o). destruct (event_ack o cid n) as (_ & _ & _ & Hc & Hs & He).
  split_and!; [by apply list_elem_of_fmap_2| |done]. unfold outbox_read. by rewrite Hc, Hs, He.
Qed.
Lemma batch_ok_ack now cid n s b : batch_ok s b → batch_ok (AckEvents now cid n s) b.
Proof. intros (H0 & H1 & H2). split_and!; [done| |done]. eapply Forall_impl; [exact H1|]. intros e. apply in_outbox_ack. Qed.

Lemma last_removelast {A} (l : list A) x : last l = Some x → l = removelast l ++ [x].
Proof.
  intros Hl. destruct l as [|y l _] using rev_ind; [done|]. rewrite last_snoc in Hl. injection Hl as ->.
  by rewrite removelast_last.
Qed.

(** A batch lists the rows of one client session, all of them those of the page. *)
Lemma add_batches_ok s bs e : Forall (batch_ok s) bs → in_outbox s (ox_ClientSessionID e) e →
  Forall (batch_ok s) (add_to_batches bs e) ∧
  concat (eb_events <$> add_to_batches bs e) = concat (eb_events <$> bs) ++ [e].
Proof.
  intros Hbs He. unfold add_to_batches.
  assert (batch_ok s (mkBatch (ox_ClientSessionID e) (ox_ServerSessionID e) [e])) as Hnew.
  { split_and!; [done|by constructor|]. right. exists e. split; [left|done]. }
  destruct (last bs) as [b|] eqn:Hl; cycle 1.
  { apply last_None in Hl as ->. split; [by constructor|done]. }
  apply last_removelast in Hl. revert Hl. generalize (removelast bs). intros bs' ->. apply Forall_app in Hbs as [Hbs [Hb _]%Forall_cons].
  case_bool_decide as Hc.
  - split.
    + apply Forall_app. split; [done|]. constructor; [|done]. destruct Hb as (_ & H1 & H2). split_and!; cbn [eb_events eb_clientID eb_serverID].
      * by destruct (eb_events b).
      * apply Forall_app. split; [done|]. constructor; [by rewrite Hc|done].
      * case_bool_decide as Hs; [destruct (decide (ox_ServerSessionID e = "")); [by left|]; right; exists e|].
        -- split; [apply elem_of_app; right; left|done].
        -- destruct H2 as [?|(e' & He' & Hs')]; [done|]. right. exists e'. split; [apply elem_of_app; by left|done].
    + rewrite !fmap_app, !concat_app. cbn. by rewrite !app_nil_r, app_assoc.
  - split; [by apply Forall_app; split; [apply Forall_app; split; [|constructor]|constructor]|].
    rewrite !fmap_app, !concat_app. cbn. by rewrite !app_nil_r.
Qed.

Lemma batches_ok s l : Forall (λ e, in_outbox s (ox_ClientSessionID e) e) l →
  Forall (batch_ok s) (foldl add_to_batches [] l) ∧ concat (eb_events <$> foldl add_to_batches [] l) = l.
Proof.
  intros Hl. induction l as [|e l IH] using rev_ind; [done|]. apply Forall_app in Hl as [Hl [He _]%Forall_cons].
  destruct (IH Hl) as [H1 H2]. rewrite foldl_snoc.
  destruct (add_batches_ok s (foldl add_to_batches [] l) e H1 He) as [H3 H4]. split; [done|]. by rewrite H4, H2.
Qed.

Lemma pending_in_outbox limit s : Forall (λ e, in_outbox s (ox_ClientSessionID e) e) (ListPendingEvents limit s).
Proof.
  apply Forall_forall. intros e (o & -> & Ho)%list_elem_of_fmap. apply elem_of_take in Ho as (i & Ho & _).
  apply list_elem_of_lookup_2, elem_of_order_by, list_elem_of_filter in Ho as [_ Ho]. by exists o.
Qed.

(** ** Flushing *)

Section flush.
Context `{!Postgres, !GoText, !HttpText} (sha256_hex : string → string).
#[local] Existing Instance lms_server.

Local Abbreviation client := (cstate lms).
Local Abbreviation db_of c := (cn_db (lm_conn (cl_world c))).

(** The server session of a batch is that of its client session. *)
Lemma server_id_spec b c c' sid : delivery_ok (cl_store c) (db_of c) → batch_ok (cl_store c) b →
  server_id (W:=lms) (eb_serverID b) (eb_clientID b) c = (c', Ok sid) →
  c' = c ∧ (sid ≠ "" → ∃ x, st_sessions (cl_store c) !! eb_clientID b = Some x ∧ ss_ServerSessionID x = sid).
Proof.
  intros Hok (_ & Hevs & Hsid). unfold server_id. case_bool_decide as Hr; cbn [negb].
  - unfold mbind, CM_bind, read, lift, GetClientSession. destruct (st_sessions _ !! _) as [x|] eqn:E; intros [= <- <-]. eauto.
  - intros [= <- <-]. split; [done|]. intros _. destruct Hsid as [?|(e & He & Hs)]; [done|].
    rewrite Forall_forall in Hevs. destruct (Hevs e He) as (o & Ho & <- & Hc).
    destruct (dl_client _ _ Hok o Ho) as (_ & x & Hx & Hb & _). exists x. rewrite Hc in Hx. split; [done|].
    cbn in Hs. destruct Hb as [Hb|Hb]; congruence.
Qed.

(** Only acknowledgements change the store. *)
Definition acks_only (s s' : Store) : Prop := s' = s ∨ ∃ now cid n, s' = AckEvents now cid n s.

Lemma flushBatch_ok b (c c' : client) r : delivery_ok (cl_store c) (db_of c) → batch_ok (cl_store c) b →
  flushBatch (Server0:=lms_server sha256_hex) b c = (c', r) →
  delivery_ok (cl_store c') (db_of c') ∧ acks_only (cl_store c) (cl_store c').
Proof.
  intros Hok Hb. unfold flushBatch, mbind at 1, CM_bind at 1.
  destruct (server_id _ _ c) as [c1 [sid|e]] eqn:Es; cycle 1.
  { revert Es. unfold server_id. case_bool_decide; cbn [negb]; [|done].
    unfold mbind, CM_bind, read, lift. destruct (GetClientSession _ _); intros [= <- _]; try done.
    intros [= <- <-]. split; [done|by left]. }
  destruct (server_id_spec b c c1 sid Hok Hb Es) as [-> Hx].
  destruct (bool_decide_reflect (sid = "")) as [->|Hne]; [intros [= <- <-]; split; [done|by left]|].
  destruct (Hx Hne) as (x & Hs & Hsid). unfold mbind, CM_bind, call.
  destruct (bool_decide (cl_token c = "")); [intros [= <- <-]; split; [done|by left]|].
  destruct (srv_PostEvents _ _ _ _) as [w ans] eqn:Ep.
  pose proof (post_events_effect sha256_hex _ _ _ _ _ _ (dl_events _ _ Hok) (dl_keyed _ _ Hok) Ep) as [Hk Heff].
  assert (delivery_ok (cl_store c) (cn_db (lm_conn w))) as Hok'.
  { destruct Heff as [[He _]|[Hing _]].
    - apply (delivery_outside _ (db_of c)); [done|]. split_and!; [by rewrite He| |done|intros k e; rewrite He; by left].
      pose proof (dl_events _ _ Hok). by unfold events_ok, unique_sequences; rewrite He.
    - subst sid. apply (delivery_ingested _ (db_of c) _ (eb_clientID b) x (ox_Event <$> eb_events b)); try done.
      intros ev (e & -> & He)%list_elem_of_fmap. destruct Hb as (_ & Hevs & _). rewrite Forall_forall in Hevs.
      destruct (Hevs e He) as (o & Ho & <- & Hc). by exists o. }
  destruct ans as [n|e]; [|intros [= <- <-]; split; [done|by left]].
  destruct Heff as [[_ Hn]|[_ Hn]]; [by destruct (Hn n)|]. rewrite (Hn n eq_refl).
  cbn [modify with_store cl_world cl_store]. intros [= <- <-]. cbn [cl_store cl_world with_store].
  split; [|right; by eexists _, _, _]. apply delivery_ack; [done|]. subst sid. by apply ack_value_stored.
Qed.

Lemma flush_batches_ok l : ∀ sent (c c' : client) r, delivery_ok (cl_store c) (db_of c) → Forall (batch_ok (cl_store c)) l →
  flush_each (flushBatch (Server0:=lms_server sha256_hex)) l sent c = (c', r) → delivery_ok (cl_store c') (db_of c').
Proof.
  induction l as [|b l IH]; intros sent c c' r Hok Hl; [by intros [= <- _]|].
  apply Forall_cons in Hl as [Hb Hl]. cbn [flush_each]. unfold mbind, CM_bind, try at 1.
  destruct (flushBatch b c) as [c1 r1] eqn:Ef. destruct (flushBatch_ok b c c1 r1 Hok Hb Ef) as [Hok1 Hacks].
  destruct r1 as [n|e]; [|by intros [= <- _]]. apply IH; [done|].
  eapply Forall_impl; [exact Hl|]. intros b'. destruct Hacks as [->|(now & cid & m & ->)]; [done|apply batch_ok_ack].
Qed.

Lemma flushEvents_ok (c c' : client) r : delivery_ok (cl_store c) (db_of c) →
  flushEvents (Server0:=lms_server sha256_hex) c = (c', r) → delivery_ok (cl_store c') (db_of c').
Proof.
  intros Hok. unfold flushEvents, mbind, CM_bind, read. intros Hf. eapply flush_batches_ok; [exact Hok| |exact Hf].
  by destruct (batches_ok (cl_store c) _ (pending_in_outbox 500 (cl_store c))).
Qed.
End flush.

(** ** Runs of the whole system *)

Lemma delivery_enqueue now cid ev s d s' ev' : delivery_ok s d → (se_Sequence ev < 0)%Z → se_EventID ev ≠ "" →
  ~ has_event d (se_EventID ev) → (∀ x, st_sessions s !! cid = Some x → ss_NextSequence x < ServerEventSequenceBase)%Z →
  EnqueueEvent now cid ev s = Ok (s', ev') → delivery_ok s' d.
Proof.
  intros [Hc Hi Hq Hf Hn Hb Hs Hk Ha He Hy] Hneg Hid Hfresh Hbase. unfold EnqueueEvent.
  destruct (st_sessions s !! cid) as [x|] eqn:Hx; [|done]. cbn [se_EventID se_Sequence].
  rewrite (bool_decide_true (se_Sequence ev < 0)%Z) by done.
  destruct (existsb _ _) eqn:Hex; [done|]. rewrite existsb_false_in in Hex.
  rewrite (bool_decide_true (ss_NextSequence x < ss_NextSequence x + 1)%Z) by lia. intros [= <- _].
  set (new := mkOutboxEvent _ _ _ false). pose proof (Hn _ _ Hx) as Hnx. specialize (Hbase x eq_refl).
  assert (Hnew : ∀ o, o ∈ st_outbox s → event_id o ≠ event_id new).
  { intros o Ho E. specialize (Hex o Ho). by apply bool_decide_eq_false in Hex. }
  assert (Hsl : ∀ cid' y, <[cid := session_set_next (ss_NextSequence x + 1) now x]> (st_sessions s) !! cid' = Some y →
    ∃ y0, st_sessions s !! cid' = Some y0 ∧ ss_ServerSessionID y = ss_ServerSessionID y0 ∧
      ss_NextSequence y = (if bool_decide (cid' = cid) then ss_NextSequence y0 + 1 else ss_NextSequence y0)%Z).
  { intros cid' y [[<- <-]|[Hne Hy']]%lookup_insert_Some; [exists x; by rewrite bool_decide_true|].
    exists y. by rewrite bool_decide_false. }
  assert (Hsr : ∀ cid' y0, st_sessions s !! cid' = Some y0 → ∃ y,
    <[cid := session_set_next (ss_NextSequence x + 1) now x]> (st_sessions s) !! cid' = Some y ∧
    ss_ServerSessionID y = ss_ServerSessionID y0 ∧ (ss_NextSequence y0 ≤ ss_NextSequence y)%Z).
  { intros cid' y0 Hy0. destruct (decide (cid = cid')) as [<-|Hne].
    - rewrite lookup_insert_eq. rewrite Hx in Hy0. injection Hy0 as <-. eexists. split_and!; [done..|cbn; lia].
    - rewrite lookup_insert_ne by done. exists y0. split_and!; [done..|lia]. }
  split; cbn [st_outbox st_sessions set_csessions set_outbox].
  - intros o [Ho| ->%list_elem_of_singleton]%elem_of_app.
    + destruct (Hc o Ho) as (Hne & y & Hy0 & Hsv & Hsq). split; [done|].
      destruct (Hsr _ _ Hy0) as (y' & ? & E & ?). exists y'. rewrite E. split_and!; [done|done|lia|lia].
    + split; [done|]. eexists. cbn [ox_ClientSessionID new]. rewrite lookup_insert_eq. split; [done|]. cbn. split; [by right|].
      unfold event_seq. cbn. lia.
  - intros o1 o2 [H1| ->%list_elem_of_singleton]%elem_of_app [H2| ->%list_elem_of_singleton]%elem_of_app E; auto.
    + by destruct (Hnew o1 H1).
    + by destruct (Hnew o2 H2).
  - assert (Hold : ∀ o, o ∈ st_outbox s → ox_ClientSessionID o = cid → event_seq o ≠ event_seq new).
    { intros o Ho Hoc. destruct (Hc o Ho) as (_ & y & Hy0 & _ & Hsq). rewrite Hoc, Hx in Hy0. injection Hy0 as <-.
      unfold event_seq at 2. cbn. lia. }
    intros o1 o2 [H1| ->%list_elem_of_singleton]%elem_of_app [H2| ->%list_elem_of_singleton]%elem_of_app E1 E2; auto.
    + by destruct (Hold o1 H1).
    + by destruct (Hold o2 H2).
  - intros cid' y n (y0 & Hy0 & _ & Hnext)%Hsl Hlt. setoid_rewrite elem_of_app.
    destruct (bool_decide_reflect (cid' = cid)) as [->|Hne].
    + rewrite Hx in Hy0. injection Hy0 as <-. destruct (decide (n = ss_NextSequence x)) as [->|Hlt'].
      * exists new. split_and!; [by right; left|done|done].
      * destruct (Hf cid x n Hx) as (o & ? & ? & ?); [lia|]. exists o. auto.
    + destruct (Hf cid' y0 n Hy0) as (o & ? & ? & ?); [lia|]. exists o. auto.
  - intros cid' y (y0 & Hy0 & _ & Hnext)%Hsl. pose proof (Hn _ _ Hy0).
    destruct (bool_decide_reflect (cid' = cid)) as [->|]; [|lia]. rewrite Hx in Hy0. injection Hy0 as <-. lia.
  - intros c1 c2 x1 x2 (y1 & Hy1 & -> & _)%Hsl (y2 & Hy2 & -> & _)%Hsl. by eapply Hb.
  - intros k e cid' y Hke (y0 & Hy0 & -> & _)%Hsl H1 H2 H3. destruct (Hs k e cid' y0 Hke Hy0 H1 H2 H3) as (o & Ho & ?).
    exists o. split; [|done]. apply elem_of_app. by left.
  - intros k e o Hke [Ho| ->%list_elem_of_singleton]%elem_of_app E.
    + destruct (Hk k e o Hke Ho E) as (y & t & Hy0 & H1 & H2). destruct (Hsr _ _ Hy0) as (y' & ? & E' & _).
      exists y', t. by rewrite E'.
    + destruct Hfresh. by exists k, e.
  - intros o [Ho| ->%list_elem_of_singleton]%elem_of_app; [by apply Ha|done].
  - done.
  - done.
Qed.

(** A session opened by the client: new, not started, and alone on its server session. *)
Definition opens (sess : ClientSession) (s : Store) (d : database) : Prop :=
  st_sessions s !! ss_ClientSessionID sess = None ∧ ss_NextSequence sess = 0%Z ∧
  (ss_ServerSessionID sess ≠ "" →
     (∀ cid x, st_sessions s !! cid = Some x → ss_ServerSessionID x ≠ ss_ServerSessionID sess) ∧
     ∀ k e, db_events d !! k = Some e → ev_SessionID e = ss_ServerSessionID sess → (ServerEventSequenceBase ≤ ev_Sequence e)%Z).

Lemma delivery_open now sess s d : delivery_ok s d → opens sess s d → delivery_ok (SaveSession now sess s) d.
Proof.
  intros [Hc Hi Hq Hf Hn Hb Hs Hk Ha He Hy] (Hnone & Hnext & Hfree). unfold SaveSession. rewrite Hnone.
  set (new := mkClientSession _ _ _ _ _ _ _ _ _ _).
  assert (Hne : ∀ o, o ∈ st_outbox s → ox_ClientSessionID o ≠ ss_ClientSessionID sess).
  { intros o Ho E. destruct (Hc o Ho) as (_ & x & Hx & _). congruence. }
  split; cbn [st_outbox st_sessions set_csessions]; try done.
  - intros o Ho. destruct (Hc o Ho) as (? & x & ?). split; [done|]. exists x.
    rewrite lookup_insert_ne by (intros E; by destruct (Hne o Ho)). done.
  - intros cid x n [[<- <-]|[_ Hx]]%lookup_insert_Some Hlt; [cbn in Hlt; lia|by eapply Hf].
  - intros cid x [[<- <-]|[_ Hx]]%lookup_insert_Some; [|by eapply Hn]. cbn. unfold ServerEventSequenceBase. lia.
  - intros c1 c2 x1 x2 [[<- <-]|[_ H1]]%lookup_insert_Some [[<- <-]|[_ H2]]%lookup_insert_Some E1 E2; [done|..|by eapply Hb].
    + destruct (proj1 (Hfree E2) c2 x2 H2). by symmetry.
    + rewrite E1 in E2. by destruct (proj1 (Hfree E2) c1 x1 H1).
  - intros k e cid x Hke [[<- <-]|[_ Hx]]%lookup_insert_Some H1 H2 H3; [|by eapply Hs].
    pose proof (proj2 (Hfree H2) k e Hke (eq_sym H1)). lia.
  - intros k e o Hke Ho E. destruct (Hk k e o Hke Ho E) as (x & t & Hx & ?). exists x, t.
    rewrite lookup_insert_ne by (intros E'; by destruct (Hne o Ho)). done.
Qed.

Section runs.
Context `{!Postgres, !GoText, !HttpText} (sha256_hex : string → string).

Definition server_db (w : lms) : database := cn_db (lm_conn w).

(** One step: the client enqueues an event, flushes, or opens a session; the server
    works for others; the network changes its mind. *)
Inductive delivery_step : Store * lms → Store * lms → Prop :=
| step_enqueue s w now cid ev s' ev' :
    (se_Sequence ev < 0)%Z → se_EventID ev ≠ "" → ~ has_event (server_db w) (se_EventID ev) →
    (∀ x, st_sessions s !! cid = Some x → ss_NextSequence x < ServerEventSequenceBase)%Z →
    EnqueueEvent now cid ev s = Ok (s', ev') → delivery_step (s, w) (s', w)
| step_flush s w tok st res c' r :
    flushEvents (Server0:=lms_server sha256_hex) (mkClient w s tok st res) = (c', r) →
    delivery_step (s, w) (cl_store c', cl_world c')
| step_open s w now sess :
    opens sess s (server_db w) → delivery_step (s, w) (SaveSession now sess s, w)
| step_server s w c' clock : outside s (server_db w) (cn_db c') → delivery_step (s, w) (s, mkLms c' clock (lm_script w))
| step_network s w clock script : delivery_step (s, w) (s, mkLms (lm_conn w) clock script).

Lemma delivery_step_ok a b : delivery_step a b → delivery_ok a.1 (server_db a.2) → delivery_ok b.1 (server_db b.2).
Proof.
  intros Hs Hok. destruct Hs; cbn [fst snd] in *.
  - by eapply delivery_enqueue.
  - by eapply (flushEvents_ok sha256_hex (mkClient w s tok st res)).
  - by apply delivery_open.
  - by eapply delivery_outside.
  - done.
Qed.

Lemma rtc_delivery_ok a b : rtc delivery_step a b → delivery_ok a.1 (server_db a.2) → delivery_ok b.1 (server_db b.2).
Proof. induction 1 as [a|a b c Hab _ IH]; [done|]. intros Hok. apply IH. by eapply delivery_step_ok. Qed.

Lemma delivery_start s d : st_sessions s = ∅ → st_outbox s = [] → events_ok d → keyed_sessions d → delivery_ok s d.
Proof.
  intros Es Eo He Hy. split; rewrite ?Es, ?Eo; try done; intros *; rewrite ?lookup_empty; try done.
  all: by intros ?%elem_of_nil || by intros _ ?%elem_of_nil.
Qed.

(** C20: No acknowledged event is lost.  From an empty client store, whatever the client
    enqueues, flushes and opens, whatever requests and replies the network loses and
    whatever the server does for others in between: an event that the client has marked
    as acknowledged is stored on the server, in the server session of its client
    session, with its id, its sequence, its type, its time and its payload.  The client
    sessions must be opened on server sessions of their own. *)
Theorem acked_events_stored s0 w0 s w o :
  st_sessions s0 = ∅ → st_outbox s0 = [] → events_ok (server_db w0) → keyed_sessions (server_db w0) →
  rtc delivery_step (s0, w0) (s, w) → o ∈ st_outbox s → ox_Acked o = true →
  ∃ x k now, st_sessions s !! ox_ClientSessionID o = Some x ∧
    db_events (server_db w) !! k = Some (event_row (ss_ServerSessionID x) (wire o) now k).
Proof.
  intros Hs Ho He Hy Hrun Hin Hack.
  assert (delivery_ok s (server_db w)) as Hok.
  { apply (rtc_delivery_ok _ _ Hrun). by apply delivery_start. }
  destruct (dl_acked _ _ Hok o Hin Hack) as (k & e & Hk & Hid).
  destruct (dl_known _ _ Hok k e o Hk Hin Hid) as (x & now & Hx & _ & ->). by exists x, k, now.
Qed.

(** A server event, whose id is no event's of the client, is outside. *)
Lemma server_event_outside s sid ty payload now q c c' : q_mode q ≠ QSavepoint →
  events_ok (cn_db c) → keyed_sessions (cn_db c) → (∀ k e, db_events (cn_db c) !! k = Some e → ev_Sequence e < 2^63 - 1)%Z →
  (∀ o, o ∈ st_outbox s → event_id o ≠ gen_random_uuid (list_to_set (ev_EventID <$> rows (db_events (cn_db c))))) →
  InsertServerSessionEvent sid ty payload now q c = (c', Ok tt) → outside s (cn_db c) (cn_db c').
Proof.
  intros Hq He Hy Hbig Hfresh (Hl & Hr & Hl')%WithTx_Ok; [|done].
  apply M_bind_Ok in Hr as (c1 & m & (_ & -> & ->)%query_Ok & Hr).
  apply M_bind_Ok in Hr as (c1 & id & (_ & -> & ->)%query_Ok & Hr).
  apply M_bind_Ok in Hr as (c1 & x & (Hx & Hdb & Hv & _)%Create_Ok & Ht).
  pose proof (same_events_touch sid now (mkEnv QTx (q_now q)) c1) as [Hev Hk]. rewrite Ht in Hev, Hk. cbn [fst] in Hev, Hk.
  change (cn_db c1 = set_events (<[ev_ID x := x]> (db_events (cn_db c))) (cn_db c)) in Hdb.
  apply violation_event_None in Hv as (Hpos & Hnone & Huniq). rewrite Hdb in Hev. cbn in Hev.
  assert (Hseq : (ServerEventSequenceBase ≤ ev_Sequence x)%Z).
  { rewrite Hx. cbn. destruct (max_seq _) as [m|] eqn:Em; [|done].
    apply max_seq_in, list_elem_of_filter in Em as [Hm (e & -> & Hin)%list_elem_of_fmap].
    apply elem_of_select in Hin as [[k Hke] _]. specialize (Hbig k e Hke). unfold ServerEventSequenceBase, wrap64 in *.
    rewrite Z.mod_small by lia. lia. }
  unfold outside. rewrite Hev. split_and!.
  - by apply insert_subseteq.
  - destruct He as [Hu Hp]. split.
    + intros i j e e'. rewrite Hev, !lookup_insert. repeat case_decide; intros; simplify_eq; try done.
      * exfalso. eapply Huniq; eauto.
      * exfalso. by eapply Huniq.
      * by eapply Hu.
    + intros i e. rewrite Hev, lookup_insert. case_decide; intros; simplify_eq; eauto.
  - apply Hk. intros k y. rewrite Hdb. apply Hy.
  - intros k e [[<- <-]|[_ ?]]%lookup_insert_Some; [right|by left]. split; [|by right].
    intros o Ho E. apply (Hfresh o Ho). rewrite <-E, Hx. done.
Qed.
End runs.

(** ** A pass over a working network *)

Section liveness.
Context `{!Postgres, !GoText, !HttpText} (sha256_hex : string → string).

Definition same_rows (d d' : database) : Prop := db_sessions d' = db_sessions d ∧ db_devices d' = db_devices d.

(** An event of the outbox can always be stored in its session. *)
Lemma insert_own s cid x o sess now q c : cn_aborted c = false → delivery_ok s (cn_db c) →
  st_sessions s !! cid = Some x → ss_ServerSessionID x ≠ "" → db_sessions (cn_db c) !! ss_ServerSessionID x = Some sess →
  o ∈ st_outbox s → ox_ClientSessionID o = cid →
  ∃ c', insertEvent (ss_ServerSessionID x) (wire o) now q c = (c', Ok tt) ∧ cn_aborted c' = false ∧
    delivery_ok s (cn_db c') ∧ same_rows (cn_db c) (cn_db c').
Proof.
  intros Hab Hok Hx Hne Hsess Ho Hoc. destruct (dl_client _ _ Hok o Ho) as (_ & x' & Hx' & _ & Hseq).
  rewrite Hoc, Hx in Hx'. injection Hx' as <-. pose proof (dl_next _ _ Hok _ _ Hx) as Hnext.
  assert (∃ c', insertEvent (ss_ServerSessionID x) (wire o) now q c = (c', Ok tt)) as [c' Hrun].
  { unfold insertEvent, stmt. rewrite Hab. set (row := event_row _ _ _ _). cbv zeta.
    rewrite (bool_decide_true (0 ≤ ev_Sequence row)%Z) by (unfold event_seq in Hseq; cbn; lia). cbn [negb].
    destruct (has_row _ _) eqn:Hrow; [by eexists|]. rewrite has_row_false in Hrow.
    assert (violation (cn_db c) row = None) as ->; [|by eexists].
    change (violation_event (cn_db c) row = None). unfold violation_event.
    rewrite (bool_decide_true (0 ≤ ev_Sequence row)%Z) by (unfold event_seq in Hseq; cbn; lia).
    assert (has_key (db_events (cn_db c)) (ev_ID row) = false) as ->.
    { apply bool_decide_eq_false. intros [e He]. apply (gen_random_uuid_fresh (dom (db_events (cn_db c)))).
      apply elem_of_dom. by exists e. }
    assert (has_row (λ o, bool_decide (ev_EventID o = ev_EventID row)) (db_events (cn_db c)) = false) as ->
      by by apply has_row_false.
    assert (has_row (λ o, bool_decide (ev_SessionID o = ev_SessionID row) && bool_decide (ev_Sequence o = ev_Sequence row))
              (db_events (cn_db c)) = false) as ->.
    { apply has_row_false. intros k e Hke. apply not_true_iff_false.
      intros [Hs%bool_decide_eq_true Hq%bool_decide_eq_true]%andb_true_iff.
      destruct (dl_server _ _ Hok k e cid x Hke Hx) as (o' & Ho' & Hoc' & Hq' & Hid); [done|done|unfold event_seq in Hseq; rewrite Hq; cbn; lia|].
      assert (o' = o) as -> by (apply (dl_seqs _ _ Hok); [done|done|congruence|rewrite Hq', Hq; done]).
      specialize (Hrow k e Hke). apply bool_decide_eq_false in Hrow. by apply Hrow. }
    assert (has_key (db_sessions (cn_db c)) (ev_SessionID row) = true) as -> by (apply bool_decide_eq_true; by exists sess).
    done. }
  exists c'. split; [done|]. destruct (insertEvent_events_ok _ _ _ _ _ _ Hrun (dl_events _ _ Hok)) as [He Hsub].
  apply insertEvent_Ok in Hrun as (_ & Hab' & _ & Hhas & Hcase). split; [done|].
  assert (same_rows (cn_db c) (cn_db c')) as Hsame by (by destruct Hcase as [->|(k & _ & _ & ->)]).
  split; [|done]. apply (delivery_ingested _ (cn_db c) _ cid x [wire o] Hok Hx Hne).
  - intros ev Hev. apply list_elem_of_singleton in Hev as ->. by exists o.
  - intros k y. destruct Hsame as [-> _]. apply (dl_keyed _ _ Hok).
  - split_and!; [done|done|by repeat constructor|]. destruct Hcase as [->|(k & _ & _ & ->)]; [by left|].
    intros k' e. cbn. intros [[<- <-]|[_ ?]]%lookup_insert_Some; [right|by left].
    eexists _, _. split; [left|done].
Qed.

Lemma ingest_own s cid x sess now q l : q_mode q = QTx → st_sessions s !! cid = Some x → ss_ServerSessionID x ≠ "" →
  ∀ c, cn_aborted c = false → delivery_ok s (cn_db c) → db_sessions (cn_db c) !! ss_ServerSessionID x = Some sess →
  Forall (λ o, o ∈ st_outbox s ∧ ox_ClientSessionID o = cid) l →
  ∃ c', for_M (ingestOne (ss_ServerSessionID x) now) (wire <$> l) tt q c = (c', Ok tt) ∧ cn_aborted c' = false ∧
    delivery_ok s (cn_db c') ∧ same_rows (cn_db c) (cn_db c').
Proof.
  intros Hq Hx Hne. induction l as [|o l IH]; intros c Hab Hok Hs Hl; [by exists c|].
  apply Forall_cons in Hl as [[Ho Hoc] Hl].
  destruct (insert_own s cid x o sess now q c) as (c1 & Hi & Hab1 & Hok1 & Hse & Hdv); [done..|].
  destruct (IH c1) as (c2 & Hrun & Hab2 & Hok2 & Hse2 & Hdv2); [done|done|by rewrite Hse|done|].
  exists c2. split_and!; [|done..|split; congruence]. cbn [fmap list_fmap]. apply for_M_cons_Ok. exists c1, tt. split; [|exact Hrun].
  unfold ingestOne. rewrite bool_decide_false by (by apply (dl_client _ _ Hok o Ho)).
  unfold mbind, M_bind, attempt. by rewrite Hi.
Qed.

(** The network delivers, the token is live, and the bound sessions are the student's. *)
Definition working (token student : string) (s : Store) (w : lms) : Prop :=
  cn_aborted (lm_conn w) = false ∧ token_of sha256_hex (server_db w) token student ∧ Forall (λ x, x.1 = Deliver) (lm_script w) ∧
  ∀ cid x, st_sessions s !! cid = Some x → ss_ServerSessionID x ≠ "" →
    ∃ sess, db_sessions (server_db w) !! ss_ServerSessionID x = Some sess ∧ ls_StudentID sess = student.

Lemma IngestSessionEvents_own s cid x sess now q c l : q_mode q ≠ QSavepoint → st_sessions s !! cid = Some x → ss_ServerSessionID x ≠ "" →
  cn_aborted c = false → delivery_ok s (cn_db c) → db_sessions (cn_db c) !! ss_ServerSessionID x = Some sess →
  Forall (λ o, o ∈ st_outbox s ∧ ox_ClientSessionID o = cid) l →
  ∃ c', IngestSessionEvents (ss_ServerSessionID x) (wire <$> l) now q c = (c', Ok (ack_value (ss_ServerSessionID x) (cn_db c'))) ∧
    cn_aborted c' = false ∧ db_devices (cn_db c') = db_devices (cn_db c) ∧
    ∀ k y, db_sessions (cn_db c) !! k = Some y → ∃ y', db_sessions (cn_db c') !! k = Some y' ∧ ls_StudentID y' = ls_StudentID y.
Proof.
  intros Hq Hx Hne Hab Hok Hs Hl.
  destruct (ingest_own s cid x sess now (mkEnv QTx (q_now q)) l eq_refl Hx Hne c Hab Hok Hs Hl)
    as (c1 & Hloop & Hab1 & Hok1 & Hse & Hdv).
  destruct (ack_tail_run (ss_ServerSessionID x) now (mkEnv QTx (q_now q)) c1 Hab1) as (c2 & Htail & Hab2 & He).
  exists c2. assert (∃ ct, touchSession (ss_ServerSessionID x) now (mkEnv QTx (q_now q)) c1 = (ct, Ok tt) ∧
    db_devices (cn_db ct) = db_devices (cn_db c1) ∧ c2 = ct ∧
    ∀ k y, db_sessions (cn_db c1) !! k = Some y → ∃ y', db_sessions (cn_db ct) !! k = Some y' ∧ ls_StudentID y' = ls_StudentID y)
    as (ct & Ht & Hd & -> & Hses).
  { destruct (touchSession_run (ss_ServerSessionID x) now (mkEnv QTx (q_now q)) c1 Hab1) as (ct & Ht & Habt & _).
    exists ct. split; [done|]. split; [|split].
    - revert Ht. unfold touchSession, stmt. rewrite Hab1. by destruct (db_sessions (cn_db c1) !! ss_ServerSessionID x); intros [= <-].
    - unfold ack_tail in Htail. apply M_bind_Ok in Htail as (c3 & [] & Ht' & Hr). rewrite Ht in Ht'. injection Ht' as <-.
      apply M_bind_Ok in Hr as (c4 & m & (_ & -> & ->)%query_Ok & Hr). destruct (max_seq _); [|by injection Hr as <- _].
      unfold contiguousAck in Hr. apply M_bind_Ok in Hr as (c5 & r & Hr & Hr'). apply attempt_inv in Hr.
      assert (c5 = ct) as -> by (eapply readonly_conn; [|exact Hr]; auto with primer). destruct r; by injection Hr' as <- _.
    - revert Ht. unfold touchSession, stmt. rewrite Hab1.
      destruct (db_sessions (cn_db c1) !! ss_ServerSessionID x) as [y0|] eqn:E; intros [= <-] k y Hy; cbn; [|by exists y].
      destruct (decide (ss_ServerSessionID x = k)) as [<-|Hk]; [rewrite lookup_insert_eq|rewrite lookup_insert_ne by done; by exists y].
      rewrite E in Hy. injection Hy as <-. by eexists. }
  split_and!; [|done|congruence|by rewrite <-Hse].
  apply WithTx_Ok; [done|]. split_and!; [done| |done]. apply M_bind_Ok. exists c1, tt. split; [exact Hloop|exact Htail].
Qed.

Lemma post_delivers token student s w cid x l : token ≠ "" → working token student s w → delivery_ok s (server_db w) →
  st_sessions s !! cid = Some x → ss_ServerSessionID x ≠ "" → Forall (λ o, o ∈ st_outbox s ∧ ox_ClientSessionID o = cid) l →
  ∃ w', srv_PostEvents (Server:=lms_server sha256_hex) token (ss_ServerSessionID x) (wire <$> l) w =
      (w', Ok (ack_value (ss_ServerSessionID x) (server_db w'))) ∧ working token student s w'.
Proof.
  intros Ht (Hab & Htok & Hnet & Hlive) Hok Hx Hne Hl.
  destruct (next_Deliver w Hnet) as (now & script & Hn & Hnet'). cbn [srv_PostEvents lms_server]. unfold exchange. rewrite Hn.
  destruct (studentOp_run sha256_hex token student now (mkEnv QPool now) (lm_conn w)
    (postSessionEvents (ss_ServerSessionID x) (wire <$> l) now) Ht Hab Htok) as (dev & Hst & _ & ->).
  set (c1 := mkConn _ false).
  assert (delivery_ok s (cn_db c1)) as Hok1.
  { apply (delivery_outside _ (server_db w)); [done|]. split_and!; [done|apply (dl_events _ _ Hok)|apply (dl_keyed _ _ Hok)|by left]. }
  destruct (Hlive cid x Hx Hne) as (sess & Hs & Hstu).
  destruct (IngestSessionEvents_own s cid x sess now (mkEnv QPool now) c1 l) as (c2 & Hi & Hab2 & Hdv & Hses); [done..|].
  exists (mkLms c2 now script). split.
  - unfold postSessionEvents, own_session, step, attempt, mbind, M_bind, GetSession.
    rewrite (Get_run (A:=LearningSession) _ _ _ sess) by done. rewrite bool_decide_true by congruence. cbn [negb].
    rewrite (dl_keyed _ _ Hok1 (ss_ServerSessionID x) sess) by done. by rewrite Hi.
  - split_and!; try done.
    + unfold token_of, server_db. cbn [lm_conn]. rewrite Hdv. by apply token_of_touch.
    + intros cid' x' Hx' Hne'. destruct (Hlive cid' x' Hx' Hne') as (y & Hy & Hys).
      destruct (Hses _ y Hy) as (y' & ? & ?). exists y'. split; [done|congruence].
Qed.

Lemma batch_rows s cid evs : Forall (in_outbox s cid) evs →
  ∃ l, ox_Event <$> evs = wire <$> l ∧ Forall (λ o, o ∈ st_outbox s ∧ ox_ClientSessionID o = cid) l.
Proof.
  induction 1 as [|e evs (o & Ho & <- & Hoc) _ (l & IH & Hl)]; [by exists []|].
  exists (o :: l). split; [by rewrite !fmap_cons, IH|by constructor].
Qed.

Definition bound (s : Store) (cid : string) : Prop := ∃ x, st_sessions s !! cid = Some x ∧ ss_ServerSessionID x ≠ "".
Definition acked (s : Store) (e : OutboxEvent) : Prop :=
  ∃ o, o ∈ st_outbox s ∧ event_id o = event_id e ∧ ox_Acked o = true.

Lemma bound_acks s s' cid : acks_only s s' → bound s' cid ↔ bound s cid.
Proof.
  intros [->|(now & c & n & ->)]; [done|]. split; intros (x & Hx & Hne).
  - apply ack_session_lookup in Hx as (x0 & Hx & E & _). exists x0. by rewrite <-E.
  - destruct (ack_session_lookup2 now c n s cid x Hx) as (x' & Hx' & E & _). exists x'. by rewrite E.
Qed.
Lemma acked_acks s s' e : acks_only s s' → acked s e → acked s' e.
Proof.
  intros [->|(now & c & n & ->)]; [done|]. intros (o & Ho & Hid & Ha). exists (ack_row c n o).
  destruct (event_ack o c n) as (-> & _). split_and!; [by apply list_elem_of_fmap_2|done|].
  unfold ack_row. by destruct (_ && _).
Qed.
Lemma working_acks token student s s' w : acks_only s s' → working token student s w → working token student s' w.
Proof.
  intros Ha (A1 & A2 & A3 & A4). split_and!; try done. intros cid x Hx Hne. destruct Ha as [->|(now & c & n & ->)]; [by eapply A4|].
  apply ack_session_lookup in Hx as (x0 & Hx & E & _). rewrite E in *. by eapply A4.
Qed.

(** When everything up to an event is stored, the acknowledgement reaches it. *)
Lemma ack_reaches s d cid x e : delivery_ok s d → st_sessions s !! cid = Some x → ss_ServerSessionID x ≠ "" →
  e ∈ st_outbox s → ox_ClientSessionID e = cid →
  (∀ o, o ∈ st_outbox s → ox_ClientSessionID o = cid → (event_seq o ≤ event_seq e)%Z → has_event d (event_id o)) →
  (event_seq e ≤ ack_value (ss_ServerSessionID x) d)%Z.
Proof.
  intros Hok Hx Hne He Hec Hall. destruct (ack_value_correct (ss_ServerSessionID x) d (dl_events _ _ Hok)) as (Hlo & _ & Hnot).
  destruct (dl_client _ _ Hok e He) as (_ & x' & Hx' & _ & Hseq). rewrite Hec, Hx in Hx'. injection Hx' as <-.
  destruct (decide (event_seq e ≤ ack_value (ss_ServerSessionID x) d)%Z) as [?|Hgt]; [done|]. destruct Hnot.
  set (n := ack_value _ _) in *. destruct (dl_full _ _ Hok cid x (n + 1)%Z Hx) as (o & Ho & Hoc & Hn); [lia|].
  destruct (Hall o Ho Hoc) as (k & r & Hk & Hid); [lia|].
  destruct (dl_known _ _ Hok k r o Hk Ho Hid) as (y & t & Hy & _ & ->). rewrite Hoc, Hx in Hy. injection Hy as <-.
  apply list_elem_of_fmap. eexists. split; [|apply elem_of_select; split; [by exists k|by apply bool_decide_eq_true]].
  symmetry. exact Hn.
Qed.

Lemma read_id o : event_id (outbox_read o) = event_id o.
Proof. done. Qed.

(** One batch of a bound session whose earlier events are stored or in the batch. *)
Lemma flushBatch_delivers token student b (c : cstate lms) : token ≠ "" → cl_token c = token →
  working token student (cl_store c) (cl_world c) → delivery_ok (cl_store c) (server_db (cl_world c)) → batch_ok (cl_store c) b →
  ∃ c' n, flushBatch (Server0:=lms_server sha256_hex) b c = (c', Ok n) ∧ cl_token c' = token ∧
    working token student (cl_store c') (cl_world c') ∧
    (bound (cl_store c) (eb_clientID b) →
      (∀ e, e ∈ eb_events b → has_event (server_db (cl_world c')) (event_id e)) ∧
      ((∀ e o, e ∈ eb_events b → o ∈ st_outbox (cl_store c) → ox_ClientSessionID o = eb_clientID b → (event_seq o ≤ event_seq e)%Z →
          has_event (server_db (cl_world c)) (event_id o) ∨ ∃ e', e' ∈ eb_events b ∧ event_id e' = event_id o) →
       ∀ e, e ∈ eb_events b → acked (cl_store c') e)) ∧
    db_events (server_db (cl_world c)) ⊆ db_events (server_db (cl_world c')).
Proof.
  intros Ht Etok Hw Hok Hb. pose proof Hb as (Hnil & Hevs & _).
  destruct (eb_events b) as [|e0 evs0] eqn:Eb; [done|]. rewrite <-Eb in Hevs, Hnil. pose proof Hevs as Hf.
  rewrite Eb in Hf. apply Forall_cons in Hf as [(o0 & Ho0 & _ & Hc0) _]. rewrite <-Eb. clear e0 evs0 Eb.
  destruct (dl_client _ _ Hok o0 Ho0) as (_ & x & Hx & _). rewrite Hc0 in Hx.
  assert (∃ sid, server_id (W:=lms) (eb_serverID b) (eb_clientID b) c = (c, Ok sid)) as [sid Hsid].
  { unfold server_id. case_bool_decide; cbn [negb]; [|by eexists]. unfold mbind, CM_bind, read, lift, GetClientSession.
    rewrite Hx. by eexists. }
  destruct (server_id_spec b c c sid Hok Hb Hsid) as [_ Hsx]. unfold flushBatch, mbind, CM_bind. rewrite Hsid.
  destruct (bool_decide_reflect (sid = "")) as [->|Hne].
  { exists c, 0%nat. split_and!; [done..| |done]. intros (y & Hy & Hyne). exfalso. rewrite Hx in Hy. injection Hy as <-.
    revert Hsid. unfold server_id. case_bool_decide as Hr; cbn [negb]; [|by intros [= ?]].
    unfold mbind, CM_bind, read, lift, GetClientSession. rewrite Hx. by intros [= ?]. }
  destruct (Hsx Hne) as (x' & Hx' & <-). rewrite Hx in Hx'. injection Hx' as <-.
  destruct (batch_rows _ _ _ Hevs) as (l & Hl & Hlo).
  destruct (post_delivers token student (cl_store c) (cl_world c) (eb_clientID b) x l Ht Hw Hok Hx Hne Hlo) as (w & Hp & Hw').
  unfold call. rewrite Etok, bool_decide_false, Hl, Hp by done. cbn [modify with_store cl_world cl_store fst snd].
  eexists _, _. split; [done|]. cbn [cl_store cl_world cl_token with_store].
  destruct (post_events_effect sha256_hex _ _ _ _ _ _ (dl_events _ _ Hok) (dl_keyed _ _ Hok) Hp) as [Hk [[_ Hn]|[Hing _]]].
  { by destruct (Hn _ eq_refl). }
  assert (Hok' : delivery_ok (cl_store c) (server_db w)).
  { apply (delivery_ingested _ _ _ (eb_clientID b) x (wire <$> l) Hok Hx Hne); try done.
    intros ev (o & -> & Ho)%list_elem_of_fmap. rewrite Forall_forall in Hlo. destruct (Hlo o Ho). by exists o. }
  destruct Hing as (_ & Hsub & Hhas & _).
  assert (Hin : ∀ e, e ∈ eb_events b → has_event (server_db w) (event_id e)).
  { intros e He. rewrite <-Hl, Forall_fmap, Forall_forall in Hhas. by apply Hhas. }
  split_and!; [done|by eapply working_acks; [right; by eexists _, _, _|]| |done].
  intros _. split; [done|]. intros Hlow e He. rewrite Forall_forall in Hevs. destruct (Hevs e He) as (o & Ho & <- & Hoc).
  exists (ack_row (eb_clientID b) (ack_value (ss_ServerSessionID x) (server_db w)) o).
  destruct (event_ack o (eb_clientID b) (ack_value (ss_ServerSessionID x) (server_db w))) as (Hid & _).
  split_and!; [by apply list_elem_of_fmap_2|by rewrite Hid|].
  assert (event_seq o ≤ ack_value (ss_ServerSessionID x) (server_db w))%Z as Hle.
  { apply (ack_reaches (cl_store c) _ (eb_clientID b)); try done. intros o' Ho' Hoc' Hs'.
    destruct (Hlow (outbox_read o) o' He Ho' Hoc' Hs') as [Hh|(e' & He' & <-)]; [by eapply has_event_mono|by apply Hin]. }
  unfold ack_row. rewrite bool_decide_true by done. unfold event_seq in Hle. by rewrite (proj2 (Z.leb_le _ _) Hle).
Qed.

(** The events before an event of a batch are stored, or in this batch or an earlier
    one. *)
Definition ordered (s : Store) (d : database) (l : list eventBatch) : Prop :=
  ∀ l1 b l2 e o, l = l1 ++ b :: l2 → bound s (eb_clientID b) → e ∈ eb_events b → o ∈ st_outbox s →
    ox_ClientSessionID o = eb_clientID b → (event_seq o ≤ event_seq e)%Z →
    has_event d (event_id o) ∨
    ∃ b' e', b' ∈ l1 ++ [b] ∧ eb_clientID b' = eb_clientID b ∧ e' ∈ eb_events b' ∧ event_id e' = event_id o.

Lemma ordered_next s s' d d' b l : acks_only s s' → db_events d ⊆ db_events d' →
  (bound s (eb_clientID b) → ∀ e, e ∈ eb_events b → has_event d' (event_id e)) →
  ordered s d (b :: l) → ordered s' d' l.
Proof.
  intros Ha Hsub Hb Hord l1 b1 l2 e o -> Hbd He Ho Hoc Hs. rewrite (bound_acks s s') in Hbd by done.
  assert (∃ o0, o0 ∈ st_outbox s ∧ event_id o0 = event_id o ∧ ox_ClientSessionID o0 = ox_ClientSessionID o ∧ event_seq o0 = event_seq o)
    as (o0 & Ho0 & Hid & Hc & Hq).
  { destruct Ha as [->|(now & cid & n & ->)]; [by exists o|]. apply list_elem_of_fmap in Ho as (o0 & -> & Ho0). exists o0.
    destruct (event_ack o0 cid n) as (-> & -> & _ & -> & _). done. }
  destruct (Hord (b :: l1) b1 l2 e o0 eq_refl Hbd He Ho0) as [Hh|(b' & e' & [->|Hb']%elem_of_cons & Hc' & He' & Hid')];
    [congruence|lia|left|left|right].
  - rewrite <-Hid. by eapply has_event_mono.
  - rewrite <-Hid, <-Hid'. apply Hb; [by rewrite Hc'|done].
  - exists b', e'. split_and!; [exact Hb'|done|done|congruence].
Qed.

Lemma flush_delivers token student l : token ≠ "" → ∀ sent (c : cstate lms), cl_token c = token →
  working token student (cl_store c) (cl_world c) → delivery_ok (cl_store c) (server_db (cl_world c)) →
  Forall (batch_ok (cl_store c)) l → ordered (cl_store c) (server_db (cl_world c)) l →
  ∃ c' n, flush_each (flushBatch (Server0:=lms_server sha256_hex)) l sent c = (c', Ok (n, None)) ∧
    (∀ e, acked (cl_store c) e → acked (cl_store c') e) ∧
    ∀ b e, b ∈ l → bound (cl_store c) (eb_clientID b) → e ∈ eb_events b → acked (cl_store c') e.
Proof.
  intros Ht. induction l as [|b l IH]; intros sent c Etok Hw Hok Hl Hord.
  { exists c, sent. split_and!; [done|done|]. by intros b e ?%elem_of_nil. }
  apply Forall_cons in Hl as [Hb Hl].
  destruct (flushBatch_delivers token student b c Ht Etok Hw Hok Hb) as (c1 & n & Hrun & Etok1 & Hw1 & Hdone & Hsub).
  destruct (flushBatch_ok sha256_hex b c c1 (Ok n) Hok Hb Hrun) as [Hok1 Hacks].
  destruct (IH (sent + n)%nat c1) as (c' & m & Hrest & Hmono & Hall).
  - done.
  - done.
  - done.
  - eapply Forall_impl; [exact Hl|]. intros b'. destruct Hacks as [->|(now & cid & k & ->)]; [done|apply batch_ok_ack].
  - eapply ordered_next; [exact Hacks|exact Hsub| |exact Hord]. intros Hbd. by destruct (Hdone Hbd).
  - exists c', m. split_and!.
    + cbn [flush_each]. unfold mbind, CM_bind, try at 1. by rewrite Hrun.
    + intros e He. apply Hmono. by eapply acked_acks.
    + intros b' e [->|Hb']%elem_of_cons Hbd He; [|apply (Hall b'); [done|by rewrite (bound_acks (cl_store c))|done]].
      apply Hmono. destruct (Hdone Hbd) as [_ Hd]. apply Hd; [|done]. intros e1 o He1 Ho Hoc Hs.
      destruct (Hord [] b l e1 o eq_refl Hbd He1 Ho Hoc Hs) as [?|(b' & e' & Hb'%list_elem_of_singleton & _ & He' & Hid)]; [by left|].
      subst b'. right. by exists e'.
Qed.

Lemma outbox_le_total a b : outbox_le a b = false → outbox_le b a = true.
Proof.
  unfold outbox_le. intros [Hl Hr]%orb_false_iff. destruct (str_lt_total (ox_ClientSessionID a) (ox_ClientSessionID b)) as [E|[E|E]].
  - rewrite E in *. rewrite bool_decide_true in * by done. cbn in *. rewrite str_lt_irrefl. cbn.
    apply Z.leb_le. apply Z.leb_gt in Hr. lia.
  - by rewrite E in Hl.
  - by rewrite E.
Qed.
Lemma outbox_le_trans a b c : outbox_le a b = true → outbox_le b c = true → outbox_le a c = true.
Proof.
  unfold outbox_le. rewrite !orb_true_iff, !andb_true_iff, !bool_decide_eq_true, !Z.leb_le.
  intros [L1|[E1 L1]] [L2|[E2 L2]].
  - left. by eapply str_lt_tr.
  - left. by rewrite <-E2.
  - left. by rewrite E1.
  - right. split; [congruence|lia].
Qed.

Lemma StronglySorted_split {A} (R : A → A → Prop) l1 l2 x y : StronglySorted R (l1 ++ l2) → x ∈ l1 → y ∈ l2 → R x y.
Proof.
  induction l1 as [|z l1 IH]; [by intros _ ?%elem_of_nil|]. cbn. intros [Hs Hz]%StronglySorted_inv [->|Hx]%elem_of_cons Hy.
  - rewrite Forall_forall in Hz. apply Hz, elem_of_app. by right.
  - by apply IH.
Qed.

Lemma StronglySorted_app_l {A} (R : A → A → Prop) l1 l2 : StronglySorted R (l1 ++ l2) → StronglySorted R l1.
Proof.
  induction l1 as [|x l1 IH]; [constructor|]. cbn. intros [Hs Hx]%StronglySorted_inv. constructor; [auto|].
  by apply Forall_app in Hx as [? _].
Qed.
Lemma StronglySorted_read l : StronglySorted (λ a b, outbox_le a b = true) l →
  StronglySorted (λ a b, outbox_le a b = true) (outbox_read <$> l).
Proof. induction 1 as [|x l Hs IH Hx]; [constructor|]. cbn. constructor; [done|]. by apply Forall_fmap. Qed.

(** The pages of the outbox are ordered. *)
Lemma pending_ordered s d : delivery_ok s d → ordered s d (foldl add_to_batches [] (ListPendingEvents 500 s)).
Proof.
  intros Hok. destruct (batches_ok s _ (pending_in_outbox 500 s)) as [Hbs Hcat].
  set (bs := foldl _ _ _) in *. intros l1 b l2 e o Hl _ He Ho Hoc Hle. rewrite Hl in Hbs, Hcat. clearbody bs. clear bs Hl.
  destruct (ox_Acked o) eqn:Hack; [left; by eapply dl_acked|]. right.
  set (L := order_by outbox_le (filter (λ o, ox_Acked o = false) (st_outbox s))).
  assert (StronglySorted (λ a b, outbox_le a b = true) L) as Hsort
    by (apply order_by_sorted; [apply outbox_le_total|apply outbox_le_trans]).
  assert (o ∈ L) as HoL by (apply elem_of_order_by, list_elem_of_filter; done).
  change (ListPendingEvents 500 s) with (outbox_read <$> take 500 L) in Hcat.
  rewrite fmap_app, fmap_cons, concat_app in Hcat. cbn in Hcat.
  apply Forall_app in Hbs as [Hl1 [Hb _]%Forall_cons]. destruct Hb as (_ & Hb & _). rewrite Forall_forall in Hb.
  destruct (Hb e He) as (oe & Hoe & <- & Hoec).
  assert (outbox_le oe o = true → o = oe) as Hsame.
  { intros Hcmp. apply (dl_seqs _ _ Hok); [done|done|congruence|]. revert Hcmp. unfold outbox_le.
    rewrite Hoc, Hoec, str_lt_irrefl, bool_decide_true by done. cbn. rewrite Z.leb_le. change (event_seq (outbox_read oe)) with (event_seq oe) in Hle.
    unfold event_seq in *. lia. }
  assert (Hfound : ∀ o', o' = oe ∨ outbox_read o' ∈ concat (eb_events <$> l1) → ox_ClientSessionID o' = eb_clientID b →
    ∃ b' e', b' ∈ l1 ++ [b] ∧ eb_clientID b' = eb_clientID b ∧ e' ∈ eb_events b' ∧ event_id e' = event_id o').
  { intros o' [->|Hin] Hc'; [exists b, (outbox_read oe); split_and!; [apply elem_of_app; right; left|done..]|].
    apply list_elem_of_In, in_concat in Hin as (evs & Hevs%list_elem_of_In & Hin%list_elem_of_In).
    apply list_elem_of_fmap in Hevs as (b' & -> & Hb'). exists b', (outbox_read o').
    split_and!; [apply elem_of_app; by left| |done|done].
    rewrite Forall_forall in Hl1. destruct (Hl1 b' Hb') as (_ & Hx & _). rewrite Forall_forall in Hx.
    destruct (Hx _ Hin) as (o2 & _ & E & <-). rewrite <-Hc'. by apply (f_equal ox_ClientSessionID) in E. }
  rewrite <-(take_drop 500 L) in HoL, Hsort.
  assert (oe ∈ take 500 L) as HoeL.
  { assert (outbox_read oe ∈ outbox_read <$> take 500 L) as (o2 & E & Ho2)%list_elem_of_fmap.
    { rewrite <-Hcat. apply elem_of_app. right. apply elem_of_app. by left. }
    assert (o2 = oe) as ->; [|done]. apply (dl_ids _ _ Hok); [|done|by apply (f_equal event_id) in E].
    assert (o2 ∈ L) as H2 by (rewrite <-(take_drop 500 L); apply elem_of_app; by left).
    by apply elem_of_order_by, list_elem_of_filter in H2 as [_ ?]. }
  apply elem_of_app in HoL as [HoT|HoD]; cycle 1.
  { apply Hfound; [|done]. left. apply Hsame. exact (StronglySorted_split _ _ _ oe o Hsort HoeL HoD). }
  apply StronglySorted_app_l, (StronglySorted_read (take 500 L)) in Hsort. rewrite <-Hcat, app_assoc in Hsort.
  apply (list_elem_of_fmap_2 outbox_read) in HoT. rewrite <-Hcat in HoT.
  apply elem_of_app in HoT as [HoT|[HoT|HoT]%elem_of_app].
  - apply Hfound; [by right|done].
  - exists b, (outbox_read o). split_and!; [apply elem_of_app; right; left|done..].
  - apply Hfound; [|done]. left. apply Hsame.
    refine (StronglySorted_split _ _ _ (outbox_read oe) (outbox_read o) Hsort _ HoT). apply elem_of_app. by right.
Qed.

(** C21: A pass over a working network delivers.  When the exchanges arrive, the device
    token is live, the server sessions the client is bound to are its student's, and the
    two stores are in order (no two client sessions on one server session, the events of a
    session numbered from 0 without gaps, no event of another client in a bound session:
    what the steps of [delivery_step] keep), a flush ends without an error and every event among the
    first 500 that are pending is acknowledged, except those of sessions that have no
    server session yet; what was acknowledged stays so.  It holds however many flushes
    failed before. *)
Theorem flushEvents_delivers token student (c : cstate lms) : token ≠ "" → cl_token c = token →
  working token student (cl_store c) (cl_world c) → delivery_ok (cl_store c) (server_db (cl_world c)) →
  ∃ c' n, flushEvents (Server0:=lms_server sha256_hex) c = (c', Ok (n, None)) ∧
    (∀ e, acked (cl_store c) e → acked (cl_store c') e) ∧
    ∀ e, e ∈ ListPendingEvents 500 (cl_store c) → bound (cl_store c) (ox_ClientSessionID e) → acked (cl_store c') e.
Proof.
  intros Ht Etok Hw Hok. destruct (batches_ok (cl_store c) _ (pending_in_outbox 500 (cl_store c))) as [Hbs Hcat].
  destruct (flush_delivers token student _ Ht 0 c Etok Hw Hok Hbs (pending_ordered _ _ Hok)) as (c' & n & Hrun & Hmono & Hall).
  exists c', n. split_and!; [done|done|]. intros e He Hbd. rewrite <-Hcat in He.
  apply list_elem_of_In, in_concat in He as (evs & Hevs%list_elem_of_In & He%list_elem_of_In).
  apply list_elem_of_fmap in Hevs as (b & -> & Hb). apply (Hall b e Hb); [|done].
  rewrite Forall_forall in Hbs. destruct (Hbs b Hb) as (_ & Hx & _). rewrite Forall_forall in Hx.
  destruct (Hx e He) as (o & _ & <- & <-). done.
Qed.
End liveness.

(** ** Examples and witnesses *)

Section sample_runs.
#[local] Existing Instance sample_postgres.
#[local] Existing Instance sample_text.
#[local] Existing Instance sample_http.
#[local] Instance w_lms_server : Server lms := lms_server w_hash.

Definition w_client_session (cid sid : string) : ClientSession := mkClientSession cid sid "as1" "r1" "open" (-1) 0 "" 0 0.
Definition w_note (id : string) : SessionEvent := mkSessionEvent "1" id "note" (-1) 5 None.
Definition enqueue (cid id : string) (s : Store) : Store :=
  match EnqueueEvent 10 cid (w_note id) s with Ok (s', _) => s' | Err _ => s end.

(** A session on "ss1" with two events, over a network that loses a reply. *)
Definition w_opened : Store := SaveSession 1 (w_client_session "k1" "ss1") empty_store.
Definition w_queued : Store := enqueue "k1" "e2" (enqueue "k1" "e1" w_opened).
Definition w_bad_net : lms := mkLms w_claimed 200 [(LoseReply, 210%Z); (LoseRequest, 220%Z)].
Definition as_client (w : lms) (s : Store) : cstate lms := mkClient w s "tok" StatusIdle sync_zero.
Definition flushed (w : lms) (s : Store) : cstate lms := (flushEvents (as_client w s)).1.
Definition pending_ids (s : Store) : list string := event_id <$> ListPendingEvents 500 s.

(** Two failing flushes, then one that works: the events are stored once. *)
Example flush_story :
  let c1 := flushed w_bad_net w_queued in
  let c2 := flushed (cl_world c1) (cl_store c1) in
  let c3 := flushed (cl_world c2) (cl_store c2) in
  (pending_ids (cl_store c1), pending_ids (cl_store c2), pending_ids (cl_store c3),
   order_by Z.leb (session_sequences "ss1" (server_db (cl_world c3)))) = (["e1"; "e2"], ["e1"; "e2"], [], [0%Z; 1%Z]).
Proof. vm_compute. reflexivity. Qed.

Lemma w_lms_events : events_ok (server_db w_lms).
Proof.
  assert (db_events (server_db w_lms) = ∅) as E by (vm_compute; reflexivity).
  split; intros *; rewrite ?E, ?lookup_empty; done.
Qed.
Lemma w_lms_keyed : keyed_sessions (server_db w_lms).
Proof.
  assert (map_Forall (λ k x, ls_ID x = k) (db_sessions (server_db w_lms))) as Hall.
  { apply (bool_decide_eq_true_1 _). vm_compute. reflexivity. }
  intros k x. apply Hall.
Qed.
Lemma w_lms_no_events id : ~ has_event (server_db w_lms) id.
Proof. intros (k & e & Hk & _). assert (db_events (server_db w_lms) = ∅) as E by (vm_compute; reflexivity). by rewrite E, lookup_empty in Hk. Qed.
Lemma w_opens : opens (w_client_session "k1" "ss1") empty_store (server_db w_lms).
Proof.
  split_and!; [reflexivity|reflexivity|]. intros _. split; [intros cid x; cbn; by rewrite lookup_empty|].
  intros k e Hk _. destruct (w_lms_no_events (ev_EventID e)). by exists k, e.
Qed.

Lemma w_queued_run : rtc (delivery_step w_hash) (empty_store, w_lms) (w_queued, w_lms).
Proof.
  eapply rtc_l; [apply (step_open _ _ _ 1), w_opens|].
  eapply rtc_l.
  { apply (step_enqueue _ _ _ 10 "k1" (w_note "e1") (enqueue "k1" "e1" w_opened) (mkSessionEvent "1" "e1" "note" 0 5 None));
      [done|done|apply w_lms_no_events| |vm_compute; reflexivity].
    intros x Hx. vm_compute in Hx. by injection Hx as <-. }
  eapply rtc_l; [|done].
  apply (step_enqueue _ _ _ 10 "k1" (w_note "e2") w_queued (mkSessionEvent "1" "e2" "note" 1 5 None));
    [done|done|apply w_lms_no_events| |vm_compute; reflexivity].
  intros x Hx. vm_compute in Hx. by injection Hx as <-.
Qed.

Lemma w_run : rtc (delivery_step w_hash) (empty_store, w_lms) (cl_store (flushed w_lms w_queued), cl_world (flushed w_lms w_queued)).
Proof.
  eapply rtc_r; [exact w_queued_run|].
  by eapply (step_flush _ _ _ "tok" StatusIdle sync_zero _ (flushEvents (as_client w_lms w_queued)).2), surjective_pairing.
Qed.

Lemma acked_events_stored_witness :
  ∃ x k now, st_sessions (cl_store (flushed w_lms w_queued)) !! "k1" = Some x ∧
    db_events (server_db (cl_world (flushed w_lms w_queued))) !! k =
      Some (event_row (ss_ServerSessionID x) (mkSessionEvent "1" "e2" "note" 1 5 None) now k).
Proof.
  apply (acked_events_stored w_hash empty_store w_lms (cl_store (flushed w_lms w_queued)) (cl_world (flushed w_lms w_queued))
    (mkOutboxEvent "k1" "ss1" (mkSessionEvent "1" "e2" "note" 1 5 None) true)).
  - reflexivity.
  - reflexivity.
  - exact w_lms_events.
  - exact w_lms_keyed.
  - exact w_run.
  - apply (list_elem_of_lookup_2 _ 1). vm_compute. reflexivity.
  - reflexivity.
Defined.

Lemma w_queued_ok : delivery_ok w_queued (server_db w_lms).
Proof.
  change (delivery_ok (w_queued, w_lms).1 (server_db (w_queued, w_lms).2)).
  eapply rtc_delivery_ok; [exact w_queued_run|].
  apply delivery_start; [done|done|exact w_lms_events|exact w_lms_keyed].
Qed.

Lemma flushEvents_delivers_witness :
  ∃ c' n, flushEvents (as_client w_lms w_queued) = (c', Ok (n, None)) ∧
    acked (cl_store c') (mkOutboxEvent "k1" "ss1" (mkSessionEvent "1" "e2" "note" 1 5 None) false).
Proof.
  destruct (flushEvents_delivers w_hash "tok" "s1" (as_client w_lms w_queued)) as (c' & n & Hrun & _ & Hall).
  - discriminate.
  - reflexivity.
  - split_and!; [reflexivity|exact (proj1 (proj2 w_quiet))|by repeat constructor|].
    intros cid x Hx Hne. assert (map_Forall (λ _ x, ss_ServerSessionID x = "ss1") (st_sessions w_queued)) as Hs.
    { apply (bool_decide_eq_true_1 _). vm_compute. reflexivity. }
    rewrite (Hs cid x Hx). exists (w_session "ss1" "as1" "r1"). by split; vm_compute.
  - exact w_queued_ok.
  - exists c', n. split; [exact Hrun|]. apply Hall.
    + apply (list_elem_of_lookup_2 _ 1). vm_compute. reflexivity.
    + exists (mkClientSession "k1" "ss1" "as1" "r1" "open" (-1) 2 "" 0 10). split; [vm_compute; reflexivity|discriminate].
Defined.

(** *** What a session without a server session of its own runs into *)

(** Events of a session that was opened offline are never sent: a flush ends without an
    error and leaves them pending. *)
Lemma offline_session_never_flushed :
  let s := enqueue "k2" "e1" (SaveSession 1 (w_client_session "k2" "") empty_store) in
  let r := flushEvents (as_client w_lms s) in
  r.2 = Ok (0%nat, None) ∧ pending_ids (cl_store r.1) = ["e1"].
Proof. vm_compute. split; reflexivity. Qed.

(** A second client session on the same open server session starts at sequence 0
    again: each of its flushes fails, and the events stay pending. *)
Lemma reopened_session_blocks :
  let c1 := flushed w_lms w_queued in
  let s := enqueue "k3" "e3" (SaveSession 20 (w_client_session "k3" "ss1") (cl_store c1)) in
  let r := flushEvents (as_client (cl_world c1) s) in
  let r2 := flushEvents (as_client (cl_world r.1) (cl_store r.1)) in
  r.2 = Ok (0%nat, Some (CHttp 500 "unexpected error occurred" "POST /student/sessions/ss1/events")) ∧
  r2.2 = r.2 ∧ pending_ids (cl_store r2.1) = ["e3"].
Proof. vm_compute. split_and!; reflexivity. Qed.

(** Five hundred pending events of an offline session fill the page: an event of a
    session that could be sent is not. *)
Definition w_starved : Store :=
  let s := SaveSession 1 (w_client_session "k2" "ss1") (SaveSession 1 (w_client_session "k1" "") empty_store) in
  let ev i := mkOutboxEvent "k1" "" (mkSessionEvent "1" (String.concat "" (replicate i "x")) "note" (Z.of_nat i) 5 None) false in
  enqueue "k2" "e2" (set_outbox (ev <$> seq 0 500) s).
Lemma offline_events_starve :
  let r := flushEvents (as_client w_lms w_starved) in
  r.2 = Ok (0%nat, None) ∧ length (filter (λ o, ox_Acked o = true) (st_outbox (cl_store r.1))) = 0%nat ∧
  length (st_outbox (cl_store r.1)) = 501%nat.
Proof. vm_compute. split_and!; reflexivity. Qed.
End sample_runs.
