(* ===== verification/Typing.v ===== *)
(** * The typing runner ([studentclient/typing/session.go])

    A student types the prompts of an activity; the session counts keystrokes, computes
    speed and accuracy, survives a restart through a durable state and turns its
    metrics into observations.  Counters are integers without a bound: an [int] would
    need 2^63 keystrokes to overflow. *)
From S2P Require Import Prelude GoStrings GoText Utf8 Float64 Contracts LmsData LmsDb Sample Sessions.
From stdpp Require Import pretty options.
Local Open Scope string_scope.
Local Open Scope list_scope.

(** [fmt]'s fixed-point verbs and quotation, and [strconv.ParseFloat]. *)
Class FloatText := {
  format_quoted : string → string;
  format_fixed : nat → f64 → string;
  parse_float : string → option f64 }.

(** ** Thresholds of a check ([contracts/validate.go]) *)

Section params.
Context `{!FloatText}.

(** The value of a parameter in a decoded document: a number or the text of one. *)
Definition floatParam (v : option json) : option f64 :=
  match v with
  | Some (JNum n) => Some n
  | Some (JInt z) => Some (f64_of_Z z)
  | Some (JStr s) => parse_float s
  | _ => None
  end.

Definition param_of (params : jmap) (name alias : string) : option f64 :=
  match floatParam (params !! name) with Some v => Some v | None => floatParam (params !! alias) end.

Definition TypingMinWPM (params : jmap) : option f64 := param_of params "min_wpm" "minWpm".
Definition TypingMinAccuracy (params : jmap) : option f64 := param_of params "min_accuracy" "minAccuracy".
End params.

(** ** Sessions *)

Record TypingSession := mkTypingSession {
  tn_content : TypingContent; tn_checks : list Check; tn_promptIdx : Z; tn_input : list Z;
  tn_correct : Z; tn_incorrect : Z; tn_keys : Z; tn_startedAt : Z }.

Record Metrics := mkMetrics {
  mx_CorrectChars : Z; mx_IncorrectChars : Z; mx_TotalKeystrokes : Z; mx_CompletedPrompts : Z; mx_TotalPrompts : Z;
  mx_Elapsed : Z; mx_WPM : f64; mx_Accuracy : f64; mx_Done : bool; mx_ThresholdsMet : bool }.

Record DurableState := mkDurable {
  du_Version : Z; du_PromptIdx : Z; du_Input : string; du_Correct : Z; du_Incorrect : Z; du_Keys : Z;
  du_ElapsedMs : Z; du_HasStarted : bool }.

Definition NewSession (content : option TypingContent) (checks : list Check) : result string TypingSession :=
  match content with
  | None => Err "typing content is required"
  | Some content =>
      if bool_decide (ty_Prompts content = []) then Err "typing prompts must not be empty"
      else if existsb (λ p, bool_decide (TrimSpace (tp_Text p) = "")) (ty_Prompts content)
      then Err "typing prompts: empty text"
      else Ok (mkTypingSession content checks 0 [] 0 0 0 go_zero_time)
  end.

Definition total_prompts (s : TypingSession) : Z := Z.of_nat (length (ty_Prompts (tn_content s))).

Definition Done (s : TypingSession) : bool := bool_decide (total_prompts s ≤ tn_promptIdx s)%Z.

(** [content.Prompts[promptIdx]]: the callers check [Done]; a negative index does not
    occur. *)
Definition current (s : TypingSession) : TypingPrompt :=
  default (mkPrompt "" "" "") (ty_Prompts (tn_content s) !! Z.to_nat (tn_promptIdx s)).

Definition set_progress (idx : Z) (input : list Z) (correct incorrect keys startedAt : Z) (s : TypingSession) : TypingSession :=
  mkTypingSession (tn_content s) (tn_checks s) idx input correct incorrect keys startedAt.

Definition markStarted (now : Z) (s : TypingSession) : Z :=
  if bool_decide (tn_startedAt s = go_zero_time) then now else tn_startedAt s.

Definition TypeKey (now : Z) (r : Z) (s : TypingSession) : TypingSession :=
  if Done s then s
  else if bool_decide (r < 32)%Z && negb (bool_decide (r = 9)%Z) then s
  else
    let started := markStarted now s in
    let keys := (tn_keys s + 1)%Z in
    let prompt := runes (tp_Text (current s)) in
    let wrong := set_progress (tn_promptIdx s) (tn_input s) (tn_correct s) (tn_incorrect s + 1) keys started s in
    match prompt !! length (tn_input s) with
    | None => wrong
    | Some want =>
        if bool_decide (r = want) then
          let input := tn_input s ++ [r] in
          if bool_decide (length input = length prompt)
          then set_progress (tn_promptIdx s + 1) [] (tn_correct s + 1) (tn_incorrect s) keys started s
          else set_progress (tn_promptIdx s) input (tn_correct s + 1) (tn_incorrect s) keys started s
        else wrong
    end.

Definition Backspace (now : Z) (s : TypingSession) : TypingSession :=
  if Done s || bool_decide (tn_input s = []) then s
  else
    let correct := if bool_decide (tn_correct s - 1 < 0)%Z then 0%Z else (tn_correct s - 1)%Z in
    set_progress (tn_promptIdx s) (removelast (tn_input s)) correct (tn_incorrect s) (tn_keys s + 1) (markStarted now s) s.

Definition SubmitLine (s : TypingSession) : TypingSession * bool :=
  if Done s then (s, false)
  else
    let prompt := tp_Text (current s) in
    if negb (bool_decide (string_of_runes (tn_input s) = prompt)) then (s, false)
    else if bool_decide (length (tn_input s) = RuneCountInString prompt)
    then (set_progress (tn_promptIdx s + 1) [] (tn_correct s) (tn_incorrect s) (tn_keys s) (tn_startedAt s) s, true)
    else (s, false).

Definition CurrentPrompt (s : TypingSession) : string * string :=
  if Done s then ("", "") else (tp_ID (current s), tp_Text (current s)).
Definition CurrentInput (s : TypingSession) : string := string_of_runes (tn_input s).
Definition RemainingPrompts (s : TypingSession) : Z := Z.max 0 (total_prompts s - tn_promptIdx s).

(** [for _, r := range text] *)
Definition TypeString (now : Z) (text : string) (s : TypingSession) : TypingSession :=
  foldl (λ s r, TypeKey now r s) s (runes text).

(** ** Metrics *)

(** [now.Sub(t)], which saturates, cut at 0. *)
Definition elapsed (now startedAt : Z) : Z :=
  let d := Z.max (-(2^63)) (Z.min (2^63 - 1) (now - startedAt)) in if bool_decide (d < 0)%Z then 0%Z else d.

Definition accuracy (correct incorrect : Z) : f64 :=
  let total := (correct + incorrect)%Z in
  if bool_decide (total = 0)%Z then fone else fdiv (f64_of_Z correct) (f64_of_Z total).

(** [Duration.Minutes] *)
Definition minutes_of (d : Z) : f64 :=
  fadd (f64_of_Z (Z.quot d 60000000000)) (fdiv (f64_of_Z (Z.rem d 60000000000)) (f64_of_Z 60000000000)).

Definition wpm (correctChars d : Z) : f64 :=
  if bool_decide (correctChars ≤ 0)%Z then fzero
  else
    let minutes := minutes_of d in
    let minutes := if fle minutes fzero then f64_lit 1 60 else minutes in
    fdiv (fdiv (f64_of_Z correctChars) (f64_of_Z 5)) minutes.

Definition tolerance : f64 := f64_lit 1 1000000000.

Definition thresholdsMet (done : bool) (wpm accuracy : f64) (content : TypingContent) : bool :=
  if negb done then false
  else
    let needWPM := if flt (ty_SuccessWPM content) fzero then fzero else ty_SuccessWPM content in
    let needAcc := if fle (ty_SuccessAccuracy content) fzero then fone else ty_SuccessAccuracy content in
    if flt (fadd wpm tolerance) needWPM then false
    else if flt (fadd accuracy tolerance) needAcc then false else true.

Definition SessionMetrics (now : Z) (s : TypingSession) : Metrics :=
  let e := if bool_decide (tn_startedAt s = go_zero_time) then 0%Z else elapsed now (tn_startedAt s) in
  let acc := accuracy (tn_correct s) (tn_incorrect s) in
  let w := wpm (tn_correct s) e in
  mkMetrics (tn_correct s) (tn_incorrect s) (tn_keys s) (tn_promptIdx s) (total_prompts s) e w acc (Done s)
    (Done s && thresholdsMet (Done s) w acc (tn_content s)).

Definition MeetsThresholds (now : Z) (s : TypingSession) : bool := mx_ThresholdsMet (SessionMetrics now s).

Definition metricsDetails (m : Metrics) : jmap := list_to_map [
  ("wpm", JNum (mx_WPM m)); ("accuracy", JNum (mx_Accuracy m)); ("correctChars", JInt (mx_CorrectChars m));
  ("incorrectChars", JInt (mx_IncorrectChars m)); ("totalKeystrokes", JInt (mx_TotalKeystrokes m));
  ("completedPrompts", JInt (mx_CompletedPrompts m)); ("totalPrompts", JInt (mx_TotalPrompts m));
  ("elapsedMs", JInt (Z.quot (mx_Elapsed m) 1000000)); ("done", JBool (mx_Done m));
  ("thresholdsMet", JBool (mx_ThresholdsMet m))].

Section observations.
Context `{!FloatText}.

Definition metricsMessage (m : Metrics) : string :=
  let figures := format_fixed 1 (mx_WPM m) +:+ " wpm, " +:+ format_fixed 0 (fmul (mx_Accuracy m) (f64_of_Z 100)) +:+ "% accuracy" in
  if negb (mx_Done m) then "prompts " +:+ pretty (mx_CompletedPrompts m) +:+ "/" +:+ pretty (mx_TotalPrompts m) +:+ " incomplete"
  else if mx_ThresholdsMet m then "met thresholds: " +:+ figures
  else "thresholds not met: " +:+ figures.

(** The threshold of a check: its parameter, or the content's when that is missing or
    not positive. *)
Definition check_threshold (param : option f64) (fallback : f64) : f64 :=
  match param with Some v => if fle v fzero then fallback else v | None => fallback end.

Definition observe (m : Metrics) (now : Z) (content : TypingContent) (ch : Check) : Observation :=
  if bool_decide (ck_Kind ch = CheckTypingMetrics) then
    let minWPM := check_threshold (TypingMinWPM (ck_Params ch)) (ty_SuccessWPM content) in
    let minAcc := check_threshold (TypingMinAccuracy (ck_Params ch)) (ty_SuccessAccuracy content) in
    mkObservation "1" (ck_ID ch) (ck_Kind ch)
      (mx_Done m && fle minWPM (mx_WPM m) && fle minAcc (fadd (mx_Accuracy m) tolerance)) (ck_Optional ch)
      (metricsMessage m) now
      (Some (<["minAccuracy" := JNum minAcc]> (<["minWpm" := JNum minWPM]> (metricsDetails m))))
  else mkObservation "1" (ck_ID ch) (ck_Kind ch) false (ck_Optional ch)
         ("check kind " +:+ format_quoted (ck_Kind ch) +:+ " is not evaluated by typing runner") now (Some ∅).

Definition Observations (now : Z) (s : TypingSession) : list Observation :=
  let m := SessionMetrics now s in
  if bool_decide (tn_checks s = []) then
    [mkObservation "1" "typing-metrics" CheckTypingMetrics (mx_ThresholdsMet m) false (metricsMessage m) now
       (Some (metricsDetails m))]
  else observe m now (tn_content s) <$> tn_checks s.
End observations.

(** ** Restarts *)

Definition durable (now : Z) (s : TypingSession) : DurableState :=
  let started := negb (bool_decide (tn_startedAt s = go_zero_time)) in
  mkDurable 1 (tn_promptIdx s) (string_of_runes (tn_input s)) (tn_correct s) (tn_incorrect s) (tn_keys s)
    (if started then Z.quot (elapsed now (tn_startedAt s)) 1000000 else 0) started.

(** [json.Marshal] and [json.Unmarshal] of a [DurableState]. *)
Class DurableJson := {
  marshal_durable : DurableState → string;
  unmarshal_durable : string → option DurableState }.

Section durable.
Context `{!DurableJson}.

Definition EncodeState (now : Z) (s : TypingSession) : string := marshal_durable (durable now s).

Definition RestoreState (now : Z) (raw : string) (s : TypingSession) : result string TypingSession :=
  if bool_decide (raw = "") then Ok s
  else match unmarshal_durable raw with
       | None => Err "typing restore"
       | Some st =>
           if negb (bool_decide (du_Version st = 0)%Z) && negb (bool_decide (du_Version st = 1)%Z)
           then Err "typing restore: unsupported state version"
           else
             let idx := Z.min (Z.max 0 (du_PromptIdx st)) (total_prompts s) in
             let started := if du_HasStarted st || bool_decide (0 < du_ElapsedMs st)%Z
                            then (now - wrap64 (du_ElapsedMs st * 1000000))%Z else tn_startedAt s in
             Ok (set_progress idx (runes (du_Input st)) (du_Correct st) (du_Incorrect st) (du_Keys st) started s)
       end.
End durable.

(** ** What every session keeps *)

Definition texts (content : TypingContent) : list (list Z) := (λ p, runes (tp_Text p)) <$> ty_Prompts content.
Definition lengths (l : list (list Z)) : Z := Z.of_nat (length (concat l)).

(** The input is a proper beginning of the current prompt; what was typed correctly is
    the prompts that are complete and the input. *)
Record typing_ok (s : TypingSession) : Prop := {
  to_idx : (0 ≤ tn_promptIdx s ≤ total_prompts s)%Z;
  to_input : if Done s then tn_input s = []
             else ∃ rest, rest ≠ [] ∧ texts (tn_content s) !! Z.to_nat (tn_promptIdx s) = Some (tn_input s ++ rest);
  to_correct : tn_correct s = (lengths (take (Z.to_nat (tn_promptIdx s)) (texts (tn_content s))) + Z.of_nat (length (tn_input s)))%Z;
  to_incorrect : (0 ≤ tn_incorrect s)%Z;
  to_keys : (tn_correct s + tn_incorrect s ≤ tn_keys s)%Z;
  to_texts : Forall (λ t, t ≠ []) (texts (tn_content s)) }.

Lemma texts_length content : length (texts content) = length (ty_Prompts content).
Proof. apply length_fmap. Qed.

Lemma Done_false s : Done s = false ↔ (tn_promptIdx s < total_prompts s)%Z.
Proof. unfold Done. rewrite bool_decide_eq_false. lia. Qed.

Lemma current_text s t : texts (tn_content s) !! Z.to_nat (tn_promptIdx s) = Some t → runes (tp_Text (current s)) = t.
Proof.
  unfold texts, current. rewrite list_lookup_fmap. destruct (ty_Prompts (tn_content s) !! _); [|done].
  cbn. by intros [= <-].
Qed.

Lemma lengths_next l i t : l !! i = Some t → lengths (take (S i) l) = (lengths (take i l) + Z.of_nat (length t))%Z.
Proof.
  intros Hi. unfold lengths. rewrite (take_S_r _ _ _ Hi), concat_app, length_app. cbn. rewrite app_nil_r. lia.
Qed.

(** The session after a key that is expected, before and at the end of the prompt. *)
Lemma TypeKey_right now r rest s : typing_ok s → Done s = false → (32 ≤ r ∨ r = 9)%Z →
  texts (tn_content s) !! Z.to_nat (tn_promptIdx s) = Some (tn_input s ++ r :: rest) →
  TypeKey now r s = set_progress (if bool_decide (rest = []) then tn_promptIdx s + 1 else tn_promptIdx s)
    (if bool_decide (rest = []) then [] else tn_input s ++ [r]) (tn_correct s + 1) (tn_incorrect s) (tn_keys s + 1)
    (markStarted now s) s.
Proof.
  intros Hok Hd Hr Ht. unfold TypeKey. rewrite Hd. replace (bool_decide (r < 32)%Z && _) with false.
  - rewrite (current_text s _ Ht), lookup_app_r, Nat.sub_diag by done. cbn. rewrite bool_decide_true by done.
    rewrite !length_app. cbn. destruct rest as [|x rest]; cbn.
    + by rewrite bool_decide_true.
    + rewrite bool_decide_false by lia. done.
  - symmetry. destruct Hr as [Hr| ->]; [|by rewrite andb_comm]. by rewrite bool_decide_false by lia.
Qed.

Lemma TypeKey_cases now r s : typing_ok s → Done s = false →
  TypeKey now r s = s ∨
  (∃ started, TypeKey now r s = set_progress (tn_promptIdx s) (tn_input s) (tn_correct s) (tn_incorrect s + 1) (tn_keys s + 1) started s) ∨
  ∃ rest, texts (tn_content s) !! Z.to_nat (tn_promptIdx s) = Some (tn_input s ++ r :: rest) ∧ (32 ≤ r ∨ r = 9)%Z.
Proof.
  intros Hok Hd. pose proof (to_input _ Hok) as Hin. rewrite Hd in Hin. destruct Hin as ([|w rest] & Hne & Ht); [done|].
  unfold TypeKey. rewrite Hd. destruct (_ && _) eqn:Hc; [by left|right].
  rewrite (current_text s _ Ht), lookup_app_r, Nat.sub_diag by done. cbn.
  destruct (bool_decide_reflect (r = w)) as [<-|Hw]; [right|left; by eexists]. exists rest. split; [done|].
  apply andb_false_iff in Hc as [Hc%bool_decide_eq_false|Hc]; [lia|]. right. by apply negb_false_iff, bool_decide_eq_true in Hc.
Qed.

Lemma TypeKey_ok now r s : typing_ok s → typing_ok (TypeKey now r s).
Proof.
  intros Hok. destruct (Done s) eqn:Hd; [unfold TypeKey; by rewrite Hd|]. pose proof Hok as [Hi Hin Hc Hx Hk Ht].
  destruct (TypeKey_cases now r s Hok Hd) as [->|[[t ->]|(rest & Hat & Hr)]]; [done| |].
  - split; cbn; try done; lia.
  - rewrite (TypeKey_right now r rest s Hok Hd Hr Hat). apply Done_false in Hd as Hlt.
    destruct (bool_decide_reflect (rest = [])) as [->|Hne].
    + assert (Z.to_nat (tn_promptIdx s + 1) = S (Z.to_nat (tn_promptIdx s))) as Hs by lia.
      split; cbn [tn_promptIdx tn_input tn_correct tn_incorrect tn_keys tn_content set_progress].
      * change (total_prompts (set_progress _ _ _ _ _ _ s)) with (total_prompts s). lia.
      * destruct (Done (set_progress _ _ _ _ _ _ s)) eqn:Hd'; [done|]. apply Done_false in Hd'. unfold total_prompts in Hd'.
        cbn [tn_promptIdx tn_content set_progress] in Hd'.
        destruct (lookup_lt_is_Some_2 (texts (tn_content s)) (Z.to_nat (tn_promptIdx s + 1))) as [t Ht'].
        { rewrite texts_length. lia. }
        exists t. split; [|done]. rewrite Forall_forall in Ht. by apply Ht, (list_elem_of_lookup_2 _ _ _ Ht').
      * rewrite Hs, (lengths_next _ _ _ Hat), length_app, Hc. cbn [length]. lia.
      * done.
      * lia.
      * done.
    + split; cbn [tn_promptIdx tn_input tn_correct tn_incorrect tn_keys tn_content set_progress]; try done; try lia.
      * change (Done (set_progress _ _ _ _ _ _ s)) with (Done s). rewrite Hd. exists rest. split; [done|]. by rewrite <-app_assoc.
      * rewrite length_app. cbn [length]. lia.
Qed.

Lemma Backspace_ok now s : typing_ok s → typing_ok (Backspace now s).
Proof.
  intros Hok. unfold Backspace. destruct (Done s) eqn:Hd; [done|]. cbn [orb].
  destruct (bool_decide_reflect (tn_input s = [])) as [|Hne]; [done|]. pose proof Hok as [Hi Hin Hc Hx Hk Ht].
  rewrite Hd in Hin. destruct Hin as (rest & Hrest & Hat).
  destruct (tn_input s) as [|a l _] eqn:El using rev_ind; [done|]. rewrite removelast_last.
  assert (0 ≤ lengths (take (Z.to_nat (tn_promptIdx s)) (texts (tn_content s))))%Z by (unfold lengths; lia).
  rewrite length_app in Hc. cbn [length] in Hc. rewrite bool_decide_false by lia.
  split; cbn [tn_promptIdx tn_input tn_correct tn_incorrect tn_keys tn_content set_progress]; try done; try lia.
  change (Done (set_progress _ _ _ _ _ _ s)) with (Done s). rewrite Hd. exists (a :: rest). split; [done|]. by rewrite <-app_assoc in Hat.
Qed.

(** Enter never does anything: a full match has already advanced. *)
Lemma SubmitLine_idle s : typing_ok s → SubmitLine s = (s, false).
Proof.
  intros Hok. unfold SubmitLine. destruct (Done s) eqn:Hd; [done|]. pose proof (to_input _ Hok) as Hin. rewrite Hd in Hin.
  destruct Hin as (rest & Hne & Hat). pose proof (current_text s _ Hat) as Hcur.
  destruct (bool_decide_reflect (string_of_runes (tn_input s) = tp_Text (current s))) as [Heq|]; cbn [negb]; [|done].
  exfalso. rewrite <-Heq, runes_string_of_runes in Hcur.
  - apply (f_equal length) in Hcur. rewrite length_app in Hcur. destruct rest; [done|]. cbn in Hcur. lia.
  - pose proof (runes_valid (tp_Text (current s))) as Hv. rewrite <-Heq in Hv. rewrite Hcur in Hv. rewrite Heq in Hcur.
    by apply Forall_app in Hv as [? _].
Qed.

(** ** Runs *)

(** What JSON keeps of a durable state: all of it, its text being UTF-8. *)
Definition durable_law `{!DurableJson} : Prop := ∀ st rs, Forall (λ r, valid_rune r = true) rs → du_Input st = string_of_runes rs →
  marshal_durable st ≠ "" ∧ unmarshal_durable (marshal_durable st) = Some st.

Inductive typing_op :=
| OpKey (now r : Z) | OpBackspace (now : Z) | OpSubmit
| OpRestart (saved restored : Z).   (** saved by one process, restored by the next *)

Section runs.
Context `{!DurableJson} (Hjson : durable_law).
#[local] Set Default Proof Using "Type*".

Definition fresh (s : TypingSession) : TypingSession := mkTypingSession (tn_content s) (tn_checks s) 0 [] 0 0 0 go_zero_time.

Definition run_typing (s : TypingSession) (op : typing_op) : TypingSession :=
  match op with
  | OpKey now r => TypeKey now r s
  | OpBackspace now => Backspace now s
  | OpSubmit => (SubmitLine s).1
  | OpRestart saved restored =>
      match RestoreState restored (EncodeState saved s) (fresh s) with Ok s' => s' | Err _ => s end
  end.

Lemma input_valid s : typing_ok s → Forall (λ r, valid_rune r = true) (tn_input s).
Proof.
  intros Hok. pose proof (to_input _ Hok) as Hin. destruct (Done s); [rewrite Hin; constructor|].
  destruct Hin as (rest & _ & Hat). pose proof (runes_valid (tp_Text (current s))) as Hv.
  rewrite (current_text s _ Hat) in Hv. by apply Forall_app in Hv as [? _].
Qed.

Lemma restore_encode saved restored s : typing_ok s →
  ∃ started, RestoreState restored (EncodeState saved s) (fresh s) =
    Ok (set_progress (tn_promptIdx s) (tn_input s) (tn_correct s) (tn_incorrect s) (tn_keys s) started s) ∧
  (if bool_decide (tn_startedAt s = go_zero_time) then started = go_zero_time
   else elapsed restored started = (Z.quot (elapsed saved (tn_startedAt s)) 1000000 * 1000000)%Z).
Proof.
  intros Hok. destruct (Hjson (durable saved s) (tn_input s) (input_valid s Hok) eq_refl) as [Hne Hun].
  unfold RestoreState, EncodeState. rewrite bool_decide_false, Hun by done. cbn [du_Version durable]. cbn [negb andb bool_decide decide_rel].
  rewrite (bool_decide_true (1 = 1)%Z), andb_false_r by done. eexists. split.
  - f_equal. unfold set_progress, fresh. cbn [tn_content tn_checks durable du_PromptIdx du_Input du_Correct du_Incorrect du_Keys].
    rewrite runes_string_of_runes by by apply input_valid. f_equal. pose proof (to_idx _ Hok).
    change (total_prompts (mkTypingSession _ _ _ _ _ _ _ _)) with (total_prompts s). lia.
  - cbn [durable du_HasStarted du_ElapsedMs]. destruct (bool_decide_reflect (tn_startedAt s = go_zero_time)) as [E|E]; cbn [negb orb].
    + rewrite bool_decide_false by lia. done.
    + assert (0 ≤ elapsed saved (tn_startedAt s) < 2^63)%Z as Hb by (unfold elapsed; case_bool_decide; lia).
      set (e := elapsed saved (tn_startedAt s)) in *. rewrite Z.quot_div_nonneg by lia.
      assert (0 ≤ e / 1000000 * 1000000 < 2^63)%Z as Hm.
      { pose proof (Z.div_mod e 1000000 ltac:(lia)). pose proof (Z.mod_pos_bound e 1000000 ltac:(lia)). lia. }
      assert (wrap64 (e / 1000000 * 1000000) = e / 1000000 * 1000000)%Z as -> by (unfold wrap64; rewrite Z.mod_small; lia).
      unfold elapsed. replace (restored - (restored - e / 1000000 * 1000000))%Z with (e / 1000000 * 1000000)%Z by lia.
      rewrite Z.min_r, Z.max_r by lia. by rewrite bool_decide_false by lia.
Qed.

Lemma typing_ok_started s t : typing_ok s → typing_ok (set_progress (tn_promptIdx s) (tn_input s) (tn_correct s) (tn_incorrect s) (tn_keys s) t s).
Proof. by intros [? ? ? ? ? ?]; split. Qed.

Lemma run_typing_ok op s : typing_ok s → typing_ok (run_typing s op).
Proof.
  intros Hok. destruct op; cbn [run_typing].
  - by apply TypeKey_ok.
  - by apply Backspace_ok.
  - by rewrite SubmitLine_idle.
  - destruct (restore_encode saved restored s Hok) as (t & -> & _). by apply typing_ok_started.
Qed.

Lemma run_content op s : tn_content (run_typing s op) = tn_content s.
Proof.
  destruct op; cbn [run_typing].
  - unfold TypeKey. destruct (Done s); [done|]. destruct (_ && _); [done|]. destruct (_ !! _); [|done]. by repeat case_bool_decide.
  - unfold Backspace. by destruct (_ || _).
  - unfold SubmitLine. destruct (Done s); [done|]. destruct (negb _); [done|]. by case_bool_decide.
  - unfold RestoreState. case_bool_decide; [done|]. destruct (unmarshal_durable _); [|done]. by destruct (_ && _).
Qed.

Lemma runes_not_nil s : s ≠ "" → runes s ≠ [].
Proof.
  destruct s as [|c s]; [done|]. intros _. cbn [runes]. repeat case_match; done.
Qed.

Lemma NewSession_ok content checks s : NewSession content checks = Ok s → typing_ok s ∧ content = Some (tn_content s) ∧ tn_promptIdx s = 0%Z ∧ tn_input s = [] ∧ (tn_correct s, tn_incorrect s, tn_keys s) = (0, 0, 0)%Z.
Proof.
  unfold NewSession. destruct content as [content|]; [|done]. case_bool_decide as Hne; [done|].
  destruct (existsb _ _) eqn:Hex; [done|]. intros [= <-]. rewrite existsb_false_in in Hex.
  assert (Forall (λ t, t ≠ []) (texts content)) as Ht.
  { apply Forall_forall. intros t (p & -> & Hp)%list_elem_of_fmap. specialize (Hex p Hp). apply bool_decide_eq_false in Hex.
    apply runes_not_nil. intros E. rewrite E in Hex. by vm_compute in Hex. }
  split; [|done]. split; cbn [tn_promptIdx tn_input tn_correct tn_incorrect tn_keys tn_content]; try done.
  - unfold total_prompts. lia.
  - destruct (texts content) as [|t l] eqn:Et.
    { exfalso. apply Hne. apply length_zero_iff_nil. rewrite <-texts_length, Et. done. }
    rewrite (proj2 (Done_false _)).
    + exists t. split; [by apply Forall_cons in Ht as [? _]|]. done.
    + unfold total_prompts. cbn. destruct (ty_Prompts content); [done|]. cbn. lia.
Qed.

(** The keys that are left to type. *)
Definition remaining (s : TypingSession) : list Z :=
  drop (length (tn_input s)) (concat (drop (Z.to_nat (tn_promptIdx s)) (texts (tn_content s)))).

(** A key the session takes: no control character but the tab. *)
Definition typable (r : Z) : Prop := (32 ≤ r ∨ r = 9)%Z.

Lemma remaining_at s rest : texts (tn_content s) !! Z.to_nat (tn_promptIdx s) = Some (tn_input s ++ rest) →
  remaining s = rest ++ concat (drop (S (Z.to_nat (tn_promptIdx s))) (texts (tn_content s))).
Proof.
  intros Hat. unfold remaining. rewrite (drop_S _ _ _ Hat). cbn. by rewrite <-app_assoc, drop_app_length.
Qed.

Lemma remaining_done s : typing_ok s → remaining s = [] ↔ Done s = true.
Proof.
  intros [Hi Hin _ _ _ _]. split.
  - intros Hr. destruct (Done s) eqn:Hd; [done|]. destruct Hin as (rest & Hne & Hat). rewrite (remaining_at s rest Hat) in Hr.
    by apply app_eq_nil in Hr as [? _].
  - intros Hd. apply bool_decide_eq_true in Hd. unfold remaining.
    rewrite (drop_ge (texts (tn_content s))); [apply drop_nil|]. rewrite texts_length. unfold total_prompts in *. lia.
Qed.

(** *** What the counters count *)

(** A key of the trace is right or wrong by the next character of the prompts, whatever the counters say; a
    deletion needs an input. *)
Definition is_right (s : TypingSession) (op : typing_op) : bool :=
  match op with OpKey _ r => bool_decide (typable r) && bool_decide (head (remaining s) = Some r) | _ => false end.
Definition is_wrong (s : TypingSession) (op : typing_op) : bool :=
  match op with
  | OpKey _ r => bool_decide (typable r) && negb (bool_decide (remaining s = [])) && negb (bool_decide (head (remaining s) = Some r))
  | _ => false
  end.
Definition is_deletion (s : TypingSession) (op : typing_op) : bool :=
  match op with OpBackspace _ => negb (bool_decide (tn_input s = [])) | _ => false end.

(** How many operations of a run are such, each judged in the state it meets. *)
Fixpoint count (p : TypingSession → typing_op → bool) (s : TypingSession) (ops : list typing_op) : Z :=
  match ops with [] => 0 | op :: ops' => Z.b2z (p s op) + count p (run_typing s op) ops' end.

(** The three counters. *)
Definition counters (s : TypingSession) : Z * Z * Z := (tn_correct s, tn_incorrect s, tn_keys s).
Definition counted (right wrong deleted : Z) (c : Z * Z * Z) : Z * Z * Z :=
  (c.1.1 + right - deleted, c.1.2 + wrong, c.2 + right + wrong + deleted)%Z.

Local Ltac counts := unfold counters, counted; cbn; f_equal; [f_equal|]; lia.

Lemma key_counted now r s : typing_ok s →
  counters (TypeKey now r s) = counted (Z.b2z (is_right s (OpKey now r))) (Z.b2z (is_wrong s (OpKey now r))) 0 (counters s).
Proof.
  intros Hok. cbn [is_right is_wrong]. destruct (Done s) eqn:Hd.
  - rewrite (proj2 (remaining_done s Hok) Hd). unfold TypeKey. rewrite Hd. cbn. rewrite !andb_false_r. counts.
  - pose proof (to_input _ Hok) as Hin. rewrite Hd in Hin. destruct Hin as ([|w rest] & Hne & Hat); [done|].
    rewrite (remaining_at s _ Hat). cbn [head app]. rewrite (bool_decide_false (_ :: _ = [])) by done. destruct (decide (typable r)) as [Ht|Ht].
    + rewrite (bool_decide_true (typable r)) by done. cbn [andb negb]. destruct (decide (r = w)) as [<-|Hw].
      * rewrite (bool_decide_true (Some r = Some r)), (TypeKey_right now r rest s Hok Hd Ht Hat) by done. counts.
      * rewrite bool_decide_false by congruence. unfold TypeKey. rewrite Hd. replace (bool_decide (r < 32)%Z && _) with false.
        2: { symmetry. destruct Ht as [Ht| ->]; [|by rewrite andb_comm]. by rewrite bool_decide_false by lia. }
        rewrite (current_text s _ Hat), lookup_app_r, Nat.sub_diag by done. cbn. rewrite bool_decide_false by done.
        counts.
    + rewrite (bool_decide_false (typable r)) by done. unfold TypeKey. rewrite Hd. unfold typable in Ht.
      rewrite (bool_decide_true (r < 32)%Z), (bool_decide_false (r = 9)%Z) by lia. counts.
Qed.

Lemma op_counted s op : typing_ok s →
  counters (run_typing s op) = counted (Z.b2z (is_right s op)) (Z.b2z (is_wrong s op)) (Z.b2z (is_deletion s op)) (counters s).
Proof.
  intros Hok. destruct op as [now r|now| |saved restored]; cbn [run_typing].
  - by apply key_counted.
  - cbn [is_right is_wrong is_deletion]. unfold Backspace. destruct (bool_decide_reflect (tn_input s = [])) as [E|E].
    + rewrite orb_true_r. counts.
    + pose proof (to_input _ Hok) as Hin. pose proof (to_correct _ Hok) as Hc. destruct (Done s); [by rewrite Hin in E|]. cbn [orb].
      assert (0 < tn_correct s)%Z by (rewrite Hc; unfold lengths; destruct (tn_input s); [done|cbn [length]; lia]).
      rewrite bool_decide_false by lia. counts.
  - rewrite SubmitLine_idle by done. counts.
  - destruct (restore_encode saved restored s Hok) as (t & -> & _). counts.
Qed.

Lemma run_counted s ops : typing_ok s →
  counters (foldl run_typing s ops) = counted (count is_right s ops) (count is_wrong s ops) (count is_deletion s ops) (counters s).
Proof.
  revert s. induction ops as [|op ops IH]; intros s Hok.
  - counts.
  - cbn [foldl count]. rewrite IH by (by apply run_typing_ok). rewrite op_counted by done. counts.
Qed.

(** C29: Whatever is typed, deleted, submitted, and however often the program is
    restarted in between, a typing session stays in order: its input is a proper
    beginning of the current prompt, and the correct characters are exactly those of the
    complete prompts and the input.  The counters are exact: the wrong characters are the
    keys of the run that did not match the next character of the prompts, the correct
    ones those that did less the deletions, and the keystrokes all of the three.  The
    session is done exactly when every prompt was typed in full, and the enter key never
    changes anything. *)
Theorem typing_invariant content checks s0 ops :
  NewSession content checks = Ok s0 →
  let s := foldl run_typing s0 ops in
  typing_ok s ∧ content = Some (tn_content s) ∧ SubmitLine s = (s, false) ∧
  (Done s = true ↔ tn_correct s = lengths (texts (tn_content s))) ∧
  tn_incorrect s = count is_wrong s0 ops ∧ tn_correct s = (count is_right s0 ops - count is_deletion s0 ops)%Z ∧
  tn_keys s = (count is_right s0 ops + count is_wrong s0 ops + count is_deletion s0 ops)%Z.
Proof.
  intros Hnew s. destruct (NewSession_ok _ _ _ Hnew) as (Hok0 & Hc0 & _ & _ & Hz).
  assert (typing_ok s ∧ tn_content s = tn_content s0) as [Hok Hc].
  { unfold s. clear Hnew Hc0 Hz s. induction ops as [|op ops IH] using rev_ind; [done|]. rewrite foldl_snoc. destruct IH as [H1 H2].
    split; [by apply run_typing_ok|by rewrite run_content]. }
  pose proof (run_counted s0 ops Hok0) as Hcount. fold s in Hcount. unfold counters at 2 in Hcount. rewrite Hz in Hcount. injection Hcount as Hn1 Hn2 Hn3.
  split_and!; [done|congruence|by apply SubmitLine_idle| |lia|lia|lia]. clear Hn1 Hn2 Hn3. pose proof Hok as [Hi Hin Hcor _ _ Htx]. rewrite Hcor. split.
  - intros Hd. rewrite Hd in Hin. rewrite Hin. apply bool_decide_eq_true in Hd.
    rewrite take_ge by (rewrite texts_length; unfold total_prompts in *; lia). cbn. lia.
  - intros E. destruct (Done s) eqn:Hd; [done|]. exfalso. destruct Hin as (rest & Hne & Hat).
    assert (lengths (texts (tn_content s)) = lengths (take (S (Z.to_nat (tn_promptIdx s))) (texts (tn_content s))) +
      lengths (drop (S (Z.to_nat (tn_promptIdx s))) (texts (tn_content s))))%Z as Hsplit.
    { unfold lengths. rewrite <-Nat2Z.inj_add, <-length_app, <-concat_app, take_drop. done. }
    rewrite Hsplit, (lengths_next _ _ _ Hat), length_app in E. destruct rest; [done|].
    unfold lengths in E. cbn [length] in E. lia.
Qed.

(** A restart loses nothing but fractions of a millisecond.  Restoring the encoded
    state of a session into a new session of the same activity succeeds and gives back
    the prompt, the input and the three counters; whether typing has started is kept,
    and the elapsed time at the restore is that of the save, cut to milliseconds,
    however long the program was not running. *)
Lemma typing_restart saved restored s : typing_ok s →
  ∃ s', RestoreState restored (EncodeState saved s) (fresh s) = Ok s' ∧ typing_ok s' ∧
    tn_promptIdx s' = tn_promptIdx s ∧ tn_input s' = tn_input s ∧ tn_correct s' = tn_correct s ∧
    tn_incorrect s' = tn_incorrect s ∧ tn_keys s' = tn_keys s ∧ CurrentPrompt s' = CurrentPrompt s ∧
    (if bool_decide (tn_startedAt s = go_zero_time) then tn_startedAt s' = go_zero_time
     else elapsed restored (tn_startedAt s') = (Z.quot (elapsed saved (tn_startedAt s)) 1000000 * 1000000)%Z).
Proof.
  intros Hok. destruct (restore_encode saved restored s Hok) as (t & Hr & Ht). eexists. split; [exact Hr|].
  split_and!; try done. by apply typing_ok_started.
Qed.

(** *** Completing a session *)

Lemma TypeKey_remaining now r l s : typing_ok s → remaining s = r :: l → typable r →
  remaining (TypeKey now r s) = l ∧ tn_incorrect (TypeKey now r s) = tn_incorrect s ∧
  tn_keys (TypeKey now r s) = (tn_keys s + 1)%Z ∧ tn_correct (TypeKey now r s) = (tn_correct s + 1)%Z.
Proof.
  intros Hok Hr Ht. destruct (Done s) eqn:Hd; [by rewrite (proj2 (remaining_done s Hok) Hd) in Hr|].
  pose proof (to_input _ Hok) as Hin. rewrite Hd in Hin. destruct Hin as ([|w rest] & Hne & Hat); [done|].
  rewrite (remaining_at s _ Hat) in Hr. injection Hr as -> <-.
  rewrite (TypeKey_right now r rest s Hok Hd Ht Hat). split; [|done].
  pose proof (to_idx _ Hok) as Hi. case_bool_decide as Hrest.
  - subst rest. unfold remaining, set_progress. cbn [tn_input tn_promptIdx tn_content length]. rewrite drop_0.
    by replace (Z.to_nat (tn_promptIdx s + 1)) with (S (Z.to_nat (tn_promptIdx s))) by lia.
  - apply (remaining_at (set_progress _ _ _ _ _ _ s) rest). cbn. by rewrite <-app_assoc.
Qed.

(** C30: Typing what is left completes the session, from every state that a student can
    reach.  Typing the remaining characters in order, at any times, leaves the session
    done, with each of these keys counted as correct and none as wrong, if the prompts
    have no control characters other than tabs. *)
Theorem typing_completes (s : TypingSession) (l : list (Z * Z)) :
  typing_ok s → l.*2 = remaining s → Forall typable (remaining s) →
  let s' := foldl (λ s x, TypeKey x.1 x.2 s) s l in
  Done s' = true ∧ tn_incorrect s' = tn_incorrect s ∧ tn_correct s' = (tn_correct s + Z.of_nat (length l))%Z ∧
  tn_keys s' = (tn_keys s + Z.of_nat (length l))%Z.
Proof.
  revert s. induction l as [|[now r] l IH]; intros s Hok Hl Ht.
  - cbn. split_and!; [by apply remaining_done|done|lia|lia].
  - cbn in Hl. rewrite <-Hl in Ht. apply Forall_cons in Ht as [Hr Ht].
    destruct (TypeKey_remaining now r l.*2 s Hok (eq_sym Hl) Hr) as (Hrem & Hx & Hk & Hc).
    destruct (IH (TypeKey now r s)) as (H1 & H2 & H3 & H4); [by apply TypeKey_ok|done|by rewrite Hrem|].
    cbn [foldl fst snd length]. split_and!; [done|congruence|lia|lia].
Qed.

(** *** Prompts that cannot be completed *)

Definition before (i p : nat) (s : TypingSession) : Prop :=
  (tn_promptIdx s ≤ Z.of_nat i)%Z ∧ (tn_promptIdx s = Z.of_nat i → (length (tn_input s) ≤ p)%nat).

Lemma before_key i p t c now r s : typing_ok s → texts (tn_content s) !! i = Some t → t !! p = Some c → ~ typable c →
  before i p s → before i p (TypeKey now r s).
Proof.
  intros Hok Ht Hp Hc [Hb1 Hb2]. destruct (Done s) eqn:Hd; [unfold TypeKey; by rewrite Hd|].
  destruct (TypeKey_cases now r s Hok Hd) as [->|[[t' ->]|(rest & Hat & Hr)]]; [done|done|].
  rewrite (TypeKey_right now r rest s Hok Hd Hr Hat). pose proof (to_idx _ Hok) as Hi.
  destruct (decide (tn_promptIdx s = Z.of_nat i)) as [E|E].
  - rewrite E, Nat2Z.id, Ht in Hat. injection Hat as ->. specialize (Hb2 E).
    assert (length (tn_input s) ≠ p) as Hne.
    { intros <-. rewrite lookup_app_r, Nat.sub_diag in Hp by done. injection Hp as <-. done. }
    assert (rest ≠ []) as Hrest.
    { intros ->. apply lookup_lt_Some in Hp. rewrite length_app in Hp. cbn in Hp. lia. }
    rewrite !bool_decide_false by done. split; cbn; [lia|]. intros _. rewrite length_app. cbn. lia.
  - case_bool_decide; split; cbn; try lia.
Qed.

Lemma before_step i p t c op s : typing_ok s → texts (tn_content s) !! i = Some t → t !! p = Some c → ~ typable c →
  before i p s → before i p (run_typing s op).
Proof.
  intros Hok Ht Hp Hc Hb. destruct op; cbn [run_typing].
  - by eapply before_key.
  - unfold Backspace. destruct (_ || _); [done|]. destruct Hb as [H1 H2]. split; [done|]. cbn. intros E. specialize (H2 E).
    destruct (tn_input s) as [|x l _] using rev_ind; [done|]. rewrite removelast_last. rewrite length_app in H2. cbn in H2. lia.
  - by rewrite SubmitLine_idle.
  - by destruct (restore_encode saved restored s Hok) as (t' & -> & _).
Qed.

(** A prompt with a control character, such as a line break, can never be completed. *)
Lemma control_character_never_done content checks s0 ops i t p c :
  NewSession (Some content) checks = Ok s0 → texts content !! i = Some t → t !! p = Some c → ~ typable c →
  Done (foldl run_typing s0 ops) = false.
Proof.
  intros Hnew Ht Hp Hc. destruct (NewSession_ok _ _ _ Hnew) as (Hok & [= ->] & Hidx & Hin & _).
  assert (typing_ok (foldl run_typing s0 ops) ∧ tn_content (foldl run_typing s0 ops) = tn_content s0 ∧
    before i p (foldl run_typing s0 ops)) as (Hok' & Hc' & [Hb _]).
  { induction ops as [|op ops IH] using rev_ind.
    - split_and!; [done|done|]. split; [cbn; lia|]. cbn. rewrite Hin. cbn. lia.
    - rewrite foldl_snoc. destruct IH as (H1 & H2 & H3). split_and!; [by apply run_typing_ok|by rewrite run_content|].
      eapply before_step; eauto. by rewrite H2. }
  apply Done_false. unfold total_prompts. rewrite Hc', <-texts_length. apply lookup_lt_Some in Ht. lia.
Qed.
End runs.

(** ** Examples and witnesses *)

#[export] Instance durable_eq_dec : EqDecision DurableState.
Proof. solve_decision. Defined.
#[export] Instance durable_countable : Countable DurableState.
Proof.
  refine (inj_countable' (λ d, (du_Version d, du_PromptIdx d, du_Input d, du_Correct d, (du_Incorrect d, du_Keys d, du_ElapsedMs d, du_HasStarted d)))
    (λ x, let '(v, i, t, c, (w, k, e, h)) := x in mkDurable v i t c w k e h) _). by intros [].
Defined.

Definition sample_durable : DurableJson := {|
  marshal_durable st := z_text (Zpos (encode st));
  unmarshal_durable s := match text_z s with Some (Zpos p) => decode p | _ => None end |}.

Section sample_runs.
#[local] Existing Instance sample_durable.

Lemma sample_durable_law : durable_law.
Proof.
  intros st rs _ _. cbn [marshal_durable unmarshal_durable sample_durable]. rewrite text_z_text. split; [done|apply decode_encode].
Qed.

Definition w_typing (prompts : list string) : TypingContent :=
  mkTyping "set" ((λ t, mkPrompt t t "") <$> prompts) "sequential" 0 fone fzero.
Definition w_typing_session (prompts : list string) : TypingSession :=
  mkTypingSession (w_typing prompts) [] 0 [] 0 0 0 go_zero_time.

Definition w_ops : list typing_op :=
  [OpKey 1 108; OpKey 2 120; OpRestart 3000000 900000000; OpBackspace 4; OpKey 5 108; OpSubmit; OpKey 6 115; OpKey 7 99]%Z.

Example typing_story :
  let s := foldl run_typing (w_typing_session ["ls"; "cd"]) w_ops in
  (CurrentPrompt s, CurrentInput s, tn_correct s, tn_incorrect s, tn_keys s, RemainingPrompts s) =
  (("cd", "cd"), "c", 3%Z, 1%Z, 6%Z, 1%Z).
Proof. vm_compute. reflexivity. Qed.

Lemma typing_invariant_witness :
  let s := foldl run_typing (w_typing_session ["ls"; "cd"]) w_ops in
  typing_ok s ∧ SubmitLine s = (s, false) ∧ tn_incorrect s = 1%Z ∧ tn_keys s = 6%Z.
Proof.
  destruct (typing_invariant sample_durable_law (Some (w_typing ["ls"; "cd"])) [] (w_typing_session ["ls"; "cd"]) w_ops)
    as (Hok & _ & Hs & _ & Hw & _ & Hk); [vm_compute; reflexivity|]. exact (conj Hok (conj Hs (conj Hw Hk))).
Defined.

Lemma w_typing_ok : typing_ok (w_typing_session ["ls"; "cd"]).
Proof. apply (NewSession_ok (Some (w_typing ["ls"; "cd"])) []). vm_compute. reflexivity. Qed.

Lemma typing_restart_witness :
  ∃ s', RestoreState 900 (EncodeState 500 (w_typing_session ["ls"; "cd"])) (fresh (w_typing_session ["ls"; "cd"])) = Ok s' ∧ typing_ok s'.
Proof.
  destruct (typing_restart sample_durable_law 500 900 (w_typing_session ["ls"; "cd"]) w_typing_ok) as (s' & Hr & Hok & _).
  exists s'. split; [exact Hr|exact Hok].
Defined.

Lemma typing_completes_witness :
  Done (foldl (λ s x, TypeKey x.1 x.2 s) (w_typing_session ["ls"; "cd"]) [(1, 108); (2, 115); (3, 99); (4, 100)]%Z) = true.
Proof.
  apply (typing_completes (w_typing_session ["ls"; "cd"]) [(1, 108); (2, 115); (3, 99); (4, 100)]%Z).
  - exact w_typing_ok.
  - vm_compute. reflexivity.
  - vm_compute. repeat constructor; discriminate.
Defined.

(** Two lines in one prompt. *)
Lemma two_lines_never_done ops : Done (foldl run_typing (w_typing_session ["a" +:+ bytes [10] +:+ "b"]) ops) = false.
Proof.
  apply (control_character_never_done sample_durable_law (w_typing ["a" +:+ bytes [10] +:+ "b"]) [] _ ops 0 [97; 10; 98]%Z 1 10%Z);
    [vm_compute; reflexivity..|]. unfold typable. lia.
Qed.

(** An observation may pass although the session has not met its thresholds: with no
    accuracy asked for anywhere, the session wants a perfect one, the check none. *)
Definition sample_float : FloatText := {| format_quoted s := s; format_fixed n x := ""; parse_float s := None |}.
#[local] Existing Instance sample_float.

Lemma check_passes_without_thresholds :
  let s := foldl (λ s r, TypeKey 5 r s)
    (mkTypingSession (w_typing ["ls"]) [mkCheck "c1" CheckTypingMetrics false ∅ [] None []] 0 [] 0 0 0 go_zero_time) [108; 120; 120; 115]%Z in
  MeetsThresholds 10 s = false ∧ (ob_Passed <$> Observations 10 s) = [true].
Proof. vm_compute. split; reflexivity. Qed.
End sample_runs.
