(* ===== verification/ActivityDoc.v ===== *)
(** * Validation of activity documents ([studentclient/contracts/validate.go])

    What the authoring tools check before an activity is published: the head of the
    document, the terminal or typing part, the checks with their parameters, hints,
    instruction blocks, tasks with their completion trees and prerequisites, and the
    reference solution.  The validator is shown to accept exactly the valid documents,
    and what it accepts is shown to be workable for the parts that run it: the
    required checks can be satisfied and the typing runner starts. *)
From S2P Require Import Prelude Cycles GoStrings Paths Regex Float64 Contracts LmsData LmsDb Sample.
From S2P Require Import Mastery CourseDoc PublishActivity Responses Typing.
From Stdlib Require Import Ascii.
From stdpp Require Import pretty options.
Local Open Scope string_scope.
Local Open Scope list_scope.

Abbreviation FixtureFile := "file".
Abbreviation FixtureDirectory := "directory".
Abbreviation BlockParentNote := "parent_note".

(** Why [regexp.Compile] refuses a pattern, if it does. *)
Class RegexpSyntax := { compile_error : string → option string }.

(** ** Patterns *)

Definition octal : re := RCls (in_range "0" "7").
(** [^[0-7]{3,4}$] *)
Definition modeRE : re := RCat (RRep 3 octal) (ROpt octal).
(** [^[a-fA-F0-9]{64}$] *)
Definition sha256HexRE : re :=
  RRep 64 (RCls (λ c, in_range "a" "f" c || in_range "A" "F" c || is_digit c)).
(** [(?i)(https?://|javascript:|data:)] *)
Definition unsafeLinkRE : re :=
  RAlt (RCat (RFold "http") (RCat (ROpt (RFold "s")) (RStr "://")))
       (RAlt (RCat (RFold "javascript") (RStr ":")) (RCat (RFold "data") (RStr ":"))).

(** [(?i)<\s*(script|iframe|object|embed|link|meta|style)\b].  The word boundary is the
    character behind the name: one that is no word character, or, if the name ends in
    the Kelvin sign, which is none itself, a word character. *)
Definition space : re := RCls (λ c, existsb (λ n, (nat_of_ascii c =? n)%nat) [9; 10; 12; 13; 32]).
Definition not_word : re := RCls (λ c, negb (is_word c)).
Definition unsafeTagRE : re :=
  RCat (RChr "<") (RCat (RStar space)
    (RAlt (RCat (foldr (λ s r, RAlt (RFold s) r) RVoid ["script"; "iframe"; "object"; "embed"; "meta"; "style"]) not_word)
          (RCat (RFold "lin") (RAlt (RCat (RCls (λ c, is_char "k" (lower_ascii c))) not_word)
                                    (RCat (RStr (bytes [226; 132; 170])) (RCls is_word)))))).

(** The end of the text is a boundary behind a word character: it counts as one more
    character that is none (a newline). *)
Definition looksLikeUnsafeMarkup (s : string) : bool :=
  if bool_decide (s = "") then false
  else search unsafeLinkRE s || search unsafeTagRE (s +:+ bytes [10]).

Definition octal_value (s : string) : Z :=
  foldl (λ n c, n * 8 + (Z.of_nat (nat_of_ascii c) - 48))%Z 0%Z (String.list_ascii_of_string s).

Definition ParseMode (s : string) : result string Z :=
  if matches modeRE s then Ok (octal_value s) else Err ("invalid mode " +:+ go_quote s).

(** ** Parameters of a check *)

Definition map_err {E A} (f : E → E) (r : result E A) : result E A :=
  match r with Ok a => Ok a | Err e => Err (f e) end.

Definition path_reason (e : path_err) : string :=
  match e with
  | PathIsEmpty => "path is empty"
  | PathContainsNUL => "path contains NUL"
  | PathIllegalChar => "path contains illegal ':' or '\'"
  | PathTilde => "path must not start with '~'"
  | PathLeadingSlash => "path must be relative (no leading '/')"
  | PathDotDotSegment | PathDotDotAfterClean => "path escapes workspace via '..'"
  | PathResolvesOutside => "path resolves outside workspace"
  | PathMustBeRelative => "path must be relative"
  | PathEmptyAfterClean => "path is empty after clean"
  | PathEscapesRoot => "resolved path escapes workspace root"
  | RootNotAbsolute => "workspace root must be an absolute path"
  end.

(** [SafeRelPath] with the text of its error. *)
Definition safe_path (p : string) : result string string :=
  match SafeRelPath p with
  | Ok c => Ok c
  | Err e => Err ("unsafe path " +:+ go_quote p +:+ ": " +:+ path_reason e)
  end.

Definition stringParam (params : jmap) (key : string) : option string :=
  match params !! key with Some (JStr s) => Some s | _ => None end.

Definition requireSafePathParam (params : jmap) (key : string) : result string unit :=
  match stringParam params key with
  | Some p => if bool_decide (p = "") then Err ("params." +:+ key +:+ " is required") else safe_path p ≫= λ _, Ok tt
  | None => Err ("params." +:+ key +:+ " is required")
  end.

Fixpoint strings_of (l : list json) : option (list string) :=
  match l with
  | [] => Some []
  | JStr s :: l' => (s ::.) <$> strings_of l'
  | _ :: _ => None
  end.

Definition stringSlice (v : json) : option (list string) :=
  match v with JArr l => strings_of l | _ => None end.

(** [strconv.Atoi]: an optional sign, decimal digits, within 64 bits. *)
Fixpoint digits_value (n : Z) (l : list ascii) : option Z :=
  match l with
  | [] => Some n
  | c :: l' => if is_digit c then digits_value (n * 10 + (Z.of_nat (nat_of_ascii c) - 48))%Z l' else None
  end.

Definition Atoi (s : string) : option Z :=
  let number (neg : bool) (l : list ascii) :=
    match l with
    | [] => None
    | _ => match digits_value 0 l with
           | Some n => let z := if neg then (- n)%Z else n in
                       if bool_decide (- 2 ^ 63 ≤ z < 2 ^ 63)%Z then Some z else None
           | None => None
           end
    end in
  match String.list_ascii_of_string s with
  | c :: l => if is_char "-" c then number true l else if is_char "+" c then number false l else number false (c :: l)
  | [] => None
  end.

(** [use_number]: the document was read from JSON, where a number keeps its text and
    [Int64] fails on one that is not written as an integer; from YAML a number that is
    not an integer is a float64. *)
Definition intParam (use_number : bool) (v : json) : option Z :=
  match v with
  | JInt z => Some z
  | JNum n => if use_number then None else Some (f64_trunc n)
  | JStr s => Atoi s
  | _ => None
  end.

(** [for_each_i] in a form that allows recursion through the loop body. *)
Section loop.
Context {A : Type} (f : nat → A → result string unit).
Fixpoint loop_i (i : nat) (l : list A) : result string unit :=
  match l with
  | [] => Ok tt
  | x :: l' => match f i x with Ok _ => loop_i (S i) l' | Err e => Err e end
  end.

Lemma loop_i_all (P : A → Prop) l i : Forall (λ x, ∀ i, f i x = Ok tt ↔ P x) l → loop_i i l = Ok tt ↔ Forall P l.
Proof.
  intros Hall. revert i. induction Hall as [|x l Hx Hl IH]; intros i; cbn [loop_i]; [by split|].
  rewrite Forall_cons. destruct (f i x) as [[]|e] eqn:E.
  - apply Hx in E. rewrite IH. tauto.
  - split; [done|]. intros [Hp _]. apply (Hx i) in Hp. congruence.
Qed.
End loop.

Section validate.
Context `{!MapRange, !FloatText, !RegexpSyntax} (use_number : bool).

Definition requireParamsSubset (params : jmap) (allowed : list string) : result string unit :=
  for_each (λ k, ensure (bool_decide (k ∈ allowed)) ("unknown params." +:+ k)) (range_keys params).

Definition requireExactParams (params : jmap) (keys : list string) : result string unit :=
  requireParamsSubset params keys.

(** [if _, err := regexp.Compile(pat); err != nil { return "invalid <name>: " + err }] *)
Definition compiles (name pat : string) : result string unit :=
  match compile_error pat with
  | None => Ok tt
  | Some e => Err ("invalid " +:+ name +:+ ": " +:+ e)
  end.

Definition optional_pattern (params : jmap) (name key : string) : result string unit :=
  match stringParam params key with
  | Some pat => if bool_decide (pat = "") then Ok tt else compiles name pat
  | None => Ok tt
  end.

Definition present {A} (o : option A) : bool := match o with Some _ => true | None => false end.

(** The parameters of one kind of check: the cases of the switch in [validateCheck]. *)
Definition pathParams (params : jmap) : result string unit :=
  _ ← requireExactParams params ["path"];
  requireSafePathParam params "path".

Definition contentParams (params : jmap) : result string unit :=
  _ ← requireExactParams params ["path"; "value"];
  _ ← requireSafePathParam params "path";
  ensure (present (stringParam params "value")) "params.value is required".

Definition matchParams (params : jmap) : result string unit :=
  _ ← requireExactParams params ["path"; "pattern"];
  _ ← requireSafePathParam params "path";
  match stringParam params "pattern" with
  | Some pat => if bool_decide (pat = "") then Err "params.pattern is required" else compiles "pattern" pat
  | None => Err "params.pattern is required"
  end.

Definition typeParams (params : jmap) : result string unit :=
  _ ← requireExactParams params ["path"; "type"];
  _ ← requireSafePathParam params "path";
  match stringParam params "type" with
  | None => Err "params.type is required"
  | Some pt => ensure (bool_decide (pt ∈ ["file"; "directory"; "symlink"])) ("unknown path type " +:+ go_quote pt)
  end.

Definition modeParams (params : jmap) : result string unit :=
  _ ← requireExactParams params ["path"; "mode"];
  _ ← requireSafePathParam params "path";
  ensure (match stringParam params "mode" with Some m => matches modeRE m | None => false end)
    "params.mode must be octal like 0644".

Definition commandParams (params : jmap) : result string unit :=
  _ ← requireParamsSubset params ["executable"; "args"; "exitCode"; "stdoutContains"; "stdoutEquals"; "stdoutPattern";
        "stderrContains"; "stderrEquals"; "stderrPattern"];
  _ ← ensure (present (stringParam params "executable")) "params.executable is required";
  _ ← ensure (match params !! "args" with Some v => present (stringSlice v) | None => true end)
        "params.args must be a string list";
  _ ← ensure (match params !! "exitCode" with Some v => present (intParam use_number v) | None => true end)
        "params.exitCode must be an int";
  _ ← optional_pattern params "stdoutPattern" "stdoutPattern";
  optional_pattern params "stderrPattern" "stderrPattern".

Definition pipelineParams (params : jmap) : result string unit :=
  _ ← requireParamsSubset params ["value"; "contains"; "pattern"];
  _ ← ensure (present (stringParam params "value") || present (stringParam params "contains") || present (stringParam params "pattern"))
        "one of value, contains, or pattern is required";
  optional_pattern params "pattern" "pattern".

Definition typingParams (params : jmap) : result string unit :=
  _ ← requireParamsSubset params ["min_wpm"; "minWpm"; "min_accuracy"; "minAccuracy"];
  _ ← ensure (present (floatParam (params !! "min_wpm")) || present (floatParam (params !! "minWpm")))
        "params.min_wpm is required and must be a number";
  _ ← ensure (present (floatParam (params !! "min_accuracy")) || present (floatParam (params !! "minAccuracy")))
        "params.min_accuracy is required and must be a number";
  match TypingMinAccuracy params with
  | None => Err "params.min_accuracy is required"
  | Some acc =>
      _ ← ensure (negb (flt acc fzero || flt fone acc)) "params.min_accuracy must be between 0 and 1";
      match TypingMinWPM params with
      | None => Err "params.min_wpm is required"
      | Some wpm => ensure (negb (flt wpm fzero)) "params.min_wpm must be non-negative"
      end
  end.

Definition responseParams (params : jmap) : result string unit :=
  _ ← requireParamsSubset params ["taskId"; "task_id"];
  let tid := match stringParam params "taskId" with Some t => Some t | None => stringParam params "task_id" end in
  ensure (match tid with Some t => matches idRE t | None => false end) "params.taskId is required".

Definition validateParams (kind : string) (params : jmap) : result string unit :=
  if bool_decide (kind ∈ [CheckFileExists; CheckFileNotExists]) then pathParams params
  else if bool_decide (kind ∈ [CheckContentEquals; CheckContentContains]) then contentParams params
  else if bool_decide (kind = CheckContentMatch) then matchParams params
  else if bool_decide (kind = CheckPathType) then typeParams params
  else if bool_decide (kind = CheckPathMode) then modeParams params
  else if bool_decide (kind = CheckCwd) then pathParams params
  else if bool_decide (kind = CheckCommandProperties) then commandParams params
  else if bool_decide (kind = CheckPipelineOutput) then pipelineParams params
  else if bool_decide (kind = CheckTypingMetrics) then typingParams params
  else if bool_decide (kind = CheckResponseSubmitted) then responseParams params
  else Err ("unknown kind " +:+ go_quote kind).

Definition check_error (i : nat) (ch : Check) (msg : string) : string :=
  indexed "checks" i +:+ " (" +:+ ck_ID ch +:+ "): " +:+ msg.

(** One of the two loops of [validateCheckStages]. *)
Definition validateNames (i : nat) (ch : Check) (what : string) (known names : list string) : result string unit :=
  _ ← fold_each 0 (λ _ (seen : gset string) s,
        _ ← ensure (bool_decide (s ∈ known)) (check_error i ch ("unknown " +:+ what +:+ " " +:+ go_quote s));
        _ ← ensure (bool_decide (s ∉ seen)) (check_error i ch ("duplicate " +:+ what +:+ " " +:+ go_quote s));
        Ok ({[s]} ∪ seen)) ∅ names;
  Ok tt.

Definition validateCheckStages (i : nat) (ch : Check) : result string unit :=
  _ ← validateNames i ch "stage" [StageFixture; StageTask; StageFinal] (ck_Stages ch);
  validateNames i ch "invariantAt" ["fixture"; "after_task"; "final"] (ck_InvariantAt ch).

Definition validateCheck (i : nat) (seen : gset string) (ch : Check) : result string (gset string) :=
  _ ← ensure (matches idRE (ck_ID ch)) (indexed "checks" i +:+ ": invalid id " +:+ go_quote (ck_ID ch));
  _ ← ensure (bool_decide (ck_ID ch ∉ seen)) (indexed "checks" i +:+ ": duplicate id " +:+ go_quote (ck_ID ch));
  _ ← validateCheckStages i ch;
  _ ← map_err (check_error i ch) (validateParams (ck_Kind ch) (ck_Params ch));
  Ok ({[ck_ID ch]} ∪ seen).

(** ** Terminal and typing content *)

Definition validateFixture (i : nat) (seen : gset string) (f : FixtureEntry) : result string (gset string) :=
  let at_ := indexed "terminal.fixtures" i in
  rel ← map_err (λ e, at_ +:+ ".path: " +:+ e) (safe_path (fx_Path f));
  _ ← ensure (bool_decide (rel ∉ seen)) (at_ +:+ ": duplicate path " +:+ go_quote rel);
  _ ← ensure (bool_decide (fx_Type f ∈ [FixtureFile; FixtureDirectory])) (at_ +:+ ": unknown type " +:+ go_quote (fx_Type f));
  _ ← ensure (negb (bool_decide (fx_Type f = FixtureDirectory) && negb (bool_decide (fx_Content f = ""))))
        (at_ +:+ ": directory must not have content");
  _ ← ensure (bool_decide (fx_Mode f = "") || matches modeRE (fx_Mode f)) (at_ +:+ ": invalid mode " +:+ go_quote (fx_Mode f));
  Ok ({[rel]} ∪ seen).

Definition validateTerminal (t : TerminalContent) : result string unit :=
  _ ← ensure (bool_decide (tc_RuntimeProfile t ∈ ["coreutils-basic"; "text-processing"]))
        (if bool_decide (tc_RuntimeProfile t = "") then "terminal.runtime_profile is required"
         else "terminal.runtime_profile " +:+ go_quote (tc_RuntimeProfile t) +:+ " is unknown");
  _ ← (if bool_decide (tc_InitialCwd t = "") then Ok ""
       else map_err (λ e, "terminal.initial_cwd: " +:+ e) (safe_path (tc_InitialCwd t)));
  _ ← fold_each 0 validateFixture ∅ (tc_Fixtures t);
  Ok tt.

Definition validatePrompt (i : nat) (seen : gset string) (p : TypingPrompt) : result string (gset string) :=
  let at_ := indexed "typing.prompts" i in
  _ ← ensure (matches idRE (tp_ID p)) (at_ +:+ ": invalid id " +:+ go_quote (tp_ID p));
  _ ← ensure (bool_decide (tp_ID p ∉ seen)) (at_ +:+ ": duplicate id " +:+ go_quote (tp_ID p));
  _ ← ensure (negb (blank (tp_Text p))) (at_ +:+ ": text is required");
  Ok ({[tp_ID p]} ∪ seen).

Definition validateTyping (t : TypingContent) : result string unit :=
  _ ← ensure (negb (blank (ty_PromptSetID t))) "typing.prompt_set_id is required";
  _ ← ensure (negb (bool_decide (ty_Prompts t = []))) "typing.prompts must not be empty";
  _ ← fold_each 0 validatePrompt ∅ (ty_Prompts t);
  ensure (Z.leb 0 (ty_TimeLimitSec t)) "typing.time_limit_sec must be non-negative".

(** ** Instruction blocks *)

Definition MaxInstructionBlockText : Z := 8000.
Definition MaxResourceBytes : Z := 256 * 1024.

Definition validateResourceRef (path : string) (r : ResourceRef) : result string unit :=
  _ ← ensure (matches sha256HexRE (rr_SHA256 r)) (path +:+ ".sha256 must be 64 hex chars");
  _ ← ensure (negb (blank (rr_Label r))) (path +:+ ".label is required");
  _ ← ensure (negb (blank (rr_MediaType r))) (path +:+ ".mediaType is required");
  _ ← ensure (negb (Contains (rr_Label r) "://" || HasPrefix (ToLower (rr_MediaType r)) "text/html"))
        (path +:+ ": remote or HTML resources are not allowed");
  ensure (Z.leb 0 (rr_ByteSize r) && Z.leb (rr_ByteSize r) MaxResourceBytes)
    (path +:+ ".byteSize must be between 0 and " +:+ pretty MaxResourceBytes).

Definition empty_list {A} (l : list A) : bool := match l with [] => true | _ => false end.

Definition textBlock (at_ : string) (b : InstructionBlock) : result string unit :=
  _ ← ensure (negb (blank (ib_Text b))) (at_ +:+ ": text is required");
  _ ← ensure (Z.leb (Z.of_nat (String.length (ib_Text b))) MaxInstructionBlockText)
        (at_ +:+ ": text exceeds " +:+ pretty MaxInstructionBlockText +:+ " characters");
  _ ← ensure (negb (looksLikeUnsafeMarkup (ib_Text b))) (at_ +:+ ": unsafe markup or links are not allowed");
  ensure (empty_list (ib_Terms b) && bool_decide (ib_Resource b = None) && bool_decide (ib_Input b = "") && bool_decide (ib_Output b = ""))
    (at_ +:+ ": unexpected fields for kind " +:+ ib_Kind b).

Definition vocabularyBlock (i : nat) (at_ : string) (b : InstructionBlock) : result string unit :=
  _ ← ensure (negb (empty_list (ib_Terms b))) (at_ +:+ ": terms are required");
  _ ← for_each_i 0 (λ j term,
        let here := indexed "blocks" i +:+ indexed ".terms" j in
        _ ← ensure (negb (blank (vt_Term term) || blank (vt_Definition term))) (here +:+ ": term and definition are required");
        ensure (negb (looksLikeUnsafeMarkup (vt_Term term) || looksLikeUnsafeMarkup (vt_Definition term)))
          (here +:+ ": unsafe markup is not allowed")) (ib_Terms b);
  ensure (bool_decide (ib_Text b = "") && bool_decide (ib_Resource b = None)) (at_ +:+ ": unexpected fields for vocabulary").

Definition exampleBlock (at_ : string) (b : InstructionBlock) : result string unit :=
  _ ← ensure (negb (blank (ib_Input b) && blank (ib_Output b) && blank (ib_Explanation b)))
        (at_ +:+ ": example needs input, output, or explanation");
  _ ← for_each (λ s, ensure (negb (looksLikeUnsafeMarkup s)) (at_ +:+ ": unsafe markup is not allowed"))
        [ib_Input b; ib_Output b; ib_Explanation b; ib_Text b];
  ensure (empty_list (ib_Terms b) && bool_decide (ib_Resource b = None)) (at_ +:+ ": unexpected fields for example").

Definition resourceBlock (i : nat) (at_ : string) (b : InstructionBlock) : result string unit :=
  match ib_Resource b with
  | None => Err (at_ +:+ ": resource is required")
  | Some r =>
      _ ← validateResourceRef (indexed "blocks" i +:+ ".resource") r;
      ensure (bool_decide (ib_Text b = "") && empty_list (ib_Terms b)) (at_ +:+ ": unexpected fields for resource")
  end.

Definition text_kinds : list string := ["prose"; "warning"; "question"; "practice"; BlockParentNote].

(** The switch on the kind of a block. *)
Definition blockFields (i : nat) (at_ : string) (b : InstructionBlock) : result string unit :=
  if bool_decide (ib_Kind b ∈ text_kinds) then textBlock at_ b
  else if bool_decide (ib_Kind b = "vocabulary") then vocabularyBlock i at_ b
  else if bool_decide (ib_Kind b = "example") then exampleBlock at_ b
  else if bool_decide (ib_Kind b = "resource") then resourceBlock i at_ b
  else Err (at_ +:+ ": unknown kind " +:+ go_quote (ib_Kind b)).

Definition validateBlock (i : nat) (seen : gset string) (b : InstructionBlock) : result string (gset string) :=
  let at_ := indexed "blocks" i +:+ " (" +:+ ib_ID b +:+ ")" in
  _ ← ensure (matches idRE (ib_ID b)) (indexed "blocks" i +:+ ": invalid id " +:+ go_quote (ib_ID b));
  _ ← ensure (bool_decide (ib_ID b ∉ seen)) (indexed "blocks" i +:+ ": duplicate id " +:+ go_quote (ib_ID b));
  _ ← blockFields i at_ b;
  Ok ({[ib_ID b]} ∪ seen).

Definition validateInstructionBlocks (blocks : list InstructionBlock) : result string unit :=
  _ ← fold_each 0 validateBlock ∅ blocks;
  Ok tt.

(** ** Tasks *)

Definition validateCriterion (path : string) (i : nat) (seen : gset string) (c : RubricCriterion) : result string (gset string) :=
  let at_ := path +:+ indexed ".rubric" i in
  _ ← ensure (matches idRE (rc_ID c)) (at_ +:+ ": invalid id " +:+ go_quote (rc_ID c));
  _ ← ensure (bool_decide (rc_ID c ∉ seen)) (at_ +:+ ": duplicate id " +:+ go_quote (rc_ID c));
  _ ← ensure (negb (blank (rc_Description c))) (at_ +:+ ": description is required");
  Ok ({[rc_ID c]} ∪ seen).

Definition validateResponseSpec (path : string) (spec : option ResponseTaskSpec) : result string unit :=
  match spec with
  | None => Err (path +:+ " is required for short_response tasks")
  | Some spec =>
      _ ← ensure (negb (blank (rs_Prompt spec))) (path +:+ ".prompt is required");
      _ ← ensure (negb (looksLikeUnsafeMarkup (rs_Prompt spec))) (path +:+ ".prompt: unsafe markup is not allowed");
      let max := if bool_decide (rs_MaxChars spec = 0%Z) then DefaultResponseMaxChars else rs_MaxChars spec in
      _ ← ensure (Z.leb 1 max && Z.leb max MaxResponseMaxChars)
            (path +:+ ".maxChars must be between 1 and " +:+ pretty MaxResponseMaxChars);
      _ ← ensure (negb (empty_list (rs_Rubric spec))) (path +:+ ".rubric must not be empty");
      _ ← fold_each 0 (validateCriterion path) ∅ (rs_Rubric spec);
      Ok tt
  end.

Fixpoint validateCheckTree (prefix : string) (tree : CheckTree) (checkIDs : gset string) : result string unit :=
  let children (label : string) :=
    loop_i (λ i c, validateCheckTree (prefix +:+ "." +:+ indexed label i) c checkIDs) 0 in
  let n := (if bool_decide (ct_CheckID tree = "") then 0 else 1) + (if empty_list (ct_All tree) then 0 else 1) +
           (if empty_list (ct_Any tree) then 0 else 1) in
  if negb (bool_decide (n = 1)) then Err (prefix +:+ ": exactly one of check_id, all, or any is required")
  else if negb (bool_decide (ct_CheckID tree = "")) then
    ensure (bool_decide (ct_CheckID tree ∈ checkIDs)) (prefix +:+ ": unknown check_id " +:+ go_quote (ct_CheckID tree))
  else if empty_list (ct_Any tree) then children "all" (ct_All tree) else children "any" (ct_Any tree).

Definition validateTask (hintIDs checkIDs : gset string) (i : nat) (taskIDs : gset string) (t : Task)
  : result string (gset string) :=
  let at_ := indexed "tasks" i in
  _ ← ensure (matches idRE (tk_ID t)) (at_ +:+ ": invalid id " +:+ go_quote (tk_ID t));
  _ ← ensure (bool_decide (tk_ID t ∉ taskIDs)) (at_ +:+ ": duplicate id " +:+ go_quote (tk_ID t));
  _ ← ensure (negb (blank (tk_Title t))) (at_ +:+ ": title is required");
  _ ← ensure (negb (blank (tk_Instructions t))) (at_ +:+ ": instructions are required");
  _ ← (let kind := TaskKindOrDefault t in
       if bool_decide (kind = TaskKindAction) then
         ensure (bool_decide (tk_Response t = None)) (at_ +:+ ": response is only valid for short_response tasks")
       else if bool_decide (kind = TaskKindShortResponse) then validateResponseSpec (at_ +:+ ".response") (tk_Response t)
       else Err (at_ +:+ ": unknown kind " +:+ go_quote (tk_Kind t)));
  _ ← for_each (λ pre, ensure (matches idRE pre) (at_ +:+ ": invalid prerequisite id " +:+ go_quote pre)) (tk_Prerequisites t);
  _ ← for_each (λ hid, ensure (bool_decide (hid ∈ hintIDs)) (at_ +:+ ": unknown hint id " +:+ go_quote hid)) (tk_HintIDs t);
  _ ← validateCheckTree (at_ +:+ ".completion") (tk_Completion t) checkIDs;
  Ok ({[tk_ID t]} ∪ taskIDs).

Definition validatePrerequisites (taskIDs : gset string) (i : nat) (t : Task) : result string unit :=
  for_each (λ pre,
    _ ← ensure (bool_decide (pre ∈ taskIDs)) (indexed "tasks" i +:+ ": unknown prerequisite " +:+ go_quote pre);
    ensure (negb (bool_decide (pre = tk_ID t))) (indexed "tasks" i +:+ ": task cannot prerequisite itself")) (tk_Prerequisites t).

(** The nodes are the indices of the tasks; an id stands for its last task. *)
Definition task_index (tasks : list Task) : gmap string nat :=
  fst <$> index_by (λ p, tk_ID p.2) (imap pair tasks).

Definition task_graph (tasks : list Task) : gmap nat (list nat) :=
  list_to_map (imap (λ i t, (i, omap (λ pre, task_index tasks !! pre) (tk_Prerequisites t))) tasks).

Definition detectTaskCycles (tasks : list Task) : result string unit :=
  cycle_check (λ i, "tasks: prerequisite cycle involving " +:+ go_quote (from_option tk_ID "" (tasks !! i)))
    (seq 0 (length tasks)) (task_graph tasks).

(** ** Contents and documents *)

Definition validateHint (i : nat) (seen : gset string) (h : Hint) : result string (gset string) :=
  let at_ := indexed "hints" i in
  _ ← ensure (matches idRE (hn_ID h)) (at_ +:+ ": invalid id " +:+ go_quote (hn_ID h));
  _ ← ensure (bool_decide (hn_ID h ∉ seen)) (at_ +:+ ": duplicate id " +:+ go_quote (hn_ID h));
  _ ← ensure (negb (blank (hn_Text h))) (at_ +:+ ": text is required");
  Ok ({[hn_ID h]} ∪ seen).

Definition validateKind (kind : string) (c : ActivityContent) : result string unit :=
  if bool_decide (kind = KindTerminal) then
    match ac_Terminal c with
    | None => Err ("content.terminal is required for kind " +:+ kind)
    | Some t =>
        _ ← ensure (bool_decide (ac_Typing c = None)) ("content.typing must be empty for kind " +:+ kind);
        validateTerminal t
    end
  else if bool_decide (kind = KindTyping) then
    match ac_Typing c with
    | None => Err ("content.typing is required for kind " +:+ kind)
    | Some t =>
        _ ← ensure (bool_decide (ac_Terminal c = None)) ("content.terminal must be empty for kind " +:+ kind);
        validateTyping t
    end
  else Err ("unknown kind " +:+ go_quote kind).

Definition artifact_limits (p : option ArtifactPolicy) : bool :=
  match p with
  | Some p => negb (ap_Enabled p) || (Z.leb 0 (ap_MaxFiles p) && Z.leb 0 (ap_MaxBytesEach p) && Z.leb 0 (ap_MaxBytesTotal p))
  | None => true
  end.

Definition ValidateContent (kind : string) (c : ActivityContent) : result string unit :=
  _ ← ensure (negb (blank (ac_Objective c))) "content.objective is required";
  _ ← ensure (negb (blank (ac_Instructions c))) "content.instructions is required";
  _ ← validateKind kind c;
  checkIDs ← fold_each 0 validateCheck ∅ (ac_Checks c);
  _ ← ensure (negb (empty_list (ac_Checks c))) "content.checks must not be empty";
  hintIDs ← fold_each 0 validateHint ∅ (ac_Hints c);
  _ ← validateInstructionBlocks (ac_Blocks c);
  _ ← ensure (negb (empty_list (ac_Tasks c))) "content.tasks must not be empty";
  taskIDs ← fold_each 0 (validateTask hintIDs checkIDs) ∅ (ac_Tasks c);
  _ ← for_each_i 0 (validatePrerequisites taskIDs) (ac_Tasks c);
  _ ← detectTaskCycles (ac_Tasks c);
  ensure (artifact_limits (ac_Artifacts c)) "artifacts: limits must be non-negative".

Definition validateStep (i : nat) (step : ReferenceStep) : result string unit :=
  let at_ := indexed "referenceSolution.steps" i in
  _ ← ensure (negb (empty_list (rf_Argv step))) (at_ +:+ ".argv must not be empty");
  _ ← for_each_i 0 (λ j a, ensure (negb (blank a)) (at_ +:+ indexed ".argv" j +:+ " must not be empty")) (rf_Argv step);
  if bool_decide (rf_WorkDir step = "") then Ok tt
  else _ ← map_err (λ e, at_ +:+ ".workDir: " +:+ e) (safe_path (rf_WorkDir step)); Ok tt.

Definition validateReferenceSolution (ref : option ReferenceSolution) : result string unit :=
  match ref with
  | None => Ok tt
  | Some ref =>
      _ ← ensure (negb (empty_list (rf_Steps ref))) "referenceSolution.steps must not be empty";
      for_each_i 0 validateStep (rf_Steps ref)
  end.

Definition validateStandard (i : nat) (seen : gset string) (s : StandardRef) : result string (gset string) :=
  let at_ := indexed "standards" i in
  let key := sf_Code s +:+ "|" +:+ sf_Role s in
  _ ← ensure (matches standardRE (sf_Code s)) (at_ +:+ ": invalid code " +:+ go_quote (sf_Code s));
  _ ← ensure (bool_decide (key ∉ seen)) (at_ +:+ ": duplicate standard " +:+ sf_Code s +:+ " role " +:+ sf_Role s);
  _ ← ensure (bool_decide (sf_Role s ∈ [StandardRolePrimary; StandardRoleReinforcement])) (at_ +:+ ": unknown role " +:+ go_quote (sf_Role s));
  Ok ({[key]} ∪ seen).

Definition ValidateDocument (doc : ActivityDocument) : result string unit :=
  _ ← ensure (bool_decide (ad_SchemaVersion doc = "1"))
        ("unsupported schema_version " +:+ go_quote (ad_SchemaVersion doc) +:+ " (want " +:+ go_quote "1" +:+ ")");
  _ ← ensure (matches slugRE (ad_Slug doc)) ("slug " +:+ go_quote (ad_Slug doc) +:+ " is invalid");
  _ ← ensure (negb (blank (ad_Title doc))) "title is required";
  _ ← ensure (bool_decide (ad_Kind doc ∈ [KindTerminal; KindTyping])) ("unknown kind " +:+ go_quote (ad_Kind doc));
  _ ← ensure (negb (blank (ad_SubjectCode doc))) "subject_code is required";
  _ ← ensure (negb (empty_list (ad_Standards doc))) "at least one standard is required";
  _ ← fold_each 0 validateStandard ∅ (ad_Standards doc);
  _ ← ValidateContent (ad_Kind doc) (ad_Content doc);
  validateReferenceSolution (ad_ReferenceSolution doc).
End validate.

(** ** What a valid activity is *)

Section specification.
Context `{!FloatText, !RegexpSyntax} (use_number : bool).

(** Only these parameters occur. *)
Definition only (params : jmap) (keys : list string) : Prop := ∀ k, is_Some (params !! k) → k ∈ keys.

(** The parameter is a path that stays in the workspace. *)
Definition safe_param (params : jmap) (key : string) : Prop :=
  ∃ p c, stringParam params key = Some p ∧ SafeRelPath p = Ok c.

Definition pattern_ok (params : jmap) (key : string) : Prop :=
  ∀ pat, stringParam params key = Some pat → pat ≠ "" → compile_error pat = None.

(** The parameters a check of each kind may and must have. *)
Inductive params_ok (params : jmap) : string → Prop :=
| ok_path kind : kind ∈ [CheckFileExists; CheckFileNotExists; CheckCwd] →
    only params ["path"] → safe_param params "path" → params_ok params kind
| ok_content kind : kind ∈ [CheckContentEquals; CheckContentContains] →
    only params ["path"; "value"] → safe_param params "path" → is_Some (stringParam params "value") → params_ok params kind
| ok_match pat : only params ["path"; "pattern"] → safe_param params "path" →
    stringParam params "pattern" = Some pat → pat ≠ "" → compile_error pat = None → params_ok params CheckContentMatch
| ok_type t : only params ["path"; "type"] → safe_param params "path" →
    stringParam params "type" = Some t → t ∈ ["file"; "directory"; "symlink"] → params_ok params CheckPathType
| ok_mode m : only params ["path"; "mode"] → safe_param params "path" →
    stringParam params "mode" = Some m → matches modeRE m = true → params_ok params CheckPathMode
| ok_command : only params ["executable"; "args"; "exitCode"; "stdoutContains"; "stdoutEquals"; "stdoutPattern";
                            "stderrContains"; "stderrEquals"; "stderrPattern"] →
    is_Some (stringParam params "executable") →
    (∀ v, params !! "args" = Some v → is_Some (stringSlice v)) →
    (∀ v, params !! "exitCode" = Some v → is_Some (intParam use_number v)) →
    pattern_ok params "stdoutPattern" → pattern_ok params "stderrPattern" → params_ok params CheckCommandProperties
| ok_pipeline key : only params ["value"; "contains"; "pattern"] → key ∈ ["value"; "contains"; "pattern"] →
    is_Some (stringParam params key) → pattern_ok params "pattern" → params_ok params CheckPipelineOutput
| ok_typing acc wpm : only params ["min_wpm"; "minWpm"; "min_accuracy"; "minAccuracy"] →
    TypingMinAccuracy params = Some acc → flt acc fzero = false → flt fone acc = false →
    TypingMinWPM params = Some wpm → flt wpm fzero = false → params_ok params CheckTypingMetrics
| ok_response t : only params ["taskId"; "task_id"] →
    match stringParam params "taskId" with Some t => Some t | None => stringParam params "task_id" end = Some t →
    matches idRE t = true → params_ok params CheckResponseSubmitted.

Definition check_ok (ch : Check) : Prop :=
  matches idRE (ck_ID ch) = true ∧
  NoDup (ck_Stages ch) ∧ ck_Stages ch ⊆ [StageFixture; StageTask; StageFinal] ∧
  NoDup (ck_InvariantAt ch) ∧ ck_InvariantAt ch ⊆ ["fixture"; "after_task"; "final"] ∧
  params_ok (ck_Params ch) (ck_Kind ch).

(** A completion tree: a known check, or a list of trees of which all or any count. *)
Inductive tree_ok (ids : list string) : CheckTree → Prop :=
| tree_check id opt : id ≠ "" → id ∈ ids → tree_ok ids (mkCheckTree [] [] id opt)
| tree_all l opt : l ≠ [] → Forall (tree_ok ids) l → tree_ok ids (mkCheckTree l [] "" opt)
| tree_any l opt : l ≠ [] → Forall (tree_ok ids) l → tree_ok ids (mkCheckTree [] l "" opt).

Definition spec_ok (s : ResponseTaskSpec) : Prop :=
  TrimSpace (rs_Prompt s) ≠ "" ∧ looksLikeUnsafeMarkup (rs_Prompt s) = false ∧
  (0 ≤ rs_MaxChars s ≤ MaxResponseMaxChars)%Z ∧ rs_Rubric s ≠ [] ∧ NoDup (rc_ID <$> rs_Rubric s) ∧
  Forall (λ c, matches idRE (rc_ID c) = true ∧ TrimSpace (rc_Description c) ≠ "") (rs_Rubric s).

Definition task_ok (hints checks : list string) (t : Task) : Prop :=
  matches idRE (tk_ID t) = true ∧ TrimSpace (tk_Title t) ≠ "" ∧ TrimSpace (tk_Instructions t) ≠ "" ∧
  (TaskKindOrDefault t = TaskKindAction ∧ tk_Response t = None ∨
   TaskKindOrDefault t = TaskKindShortResponse ∧ ∃ s, tk_Response t = Some s ∧ spec_ok s) ∧
  tk_HintIDs t ⊆ hints ∧ tree_ok checks (tk_Completion t).

Definition terminal_ok (t : TerminalContent) : Prop :=
  tc_RuntimeProfile t ∈ ["coreutils-basic"; "text-processing"] ∧
  (tc_InitialCwd t = "" ∨ ∃ c, SafeRelPath (tc_InitialCwd t) = Ok c) ∧
  ∃ paths, Forall2 (λ f p, SafeRelPath (fx_Path f) = Ok p) (tc_Fixtures t) paths ∧ NoDup paths ∧
    Forall (λ f, fx_Type f = FixtureFile ∨ fx_Type f = FixtureDirectory ∧ fx_Content f = "") (tc_Fixtures t) ∧
    Forall (λ f, fx_Mode f = "" ∨ matches modeRE (fx_Mode f) = true) (tc_Fixtures t).

Definition typing_content_ok (t : TypingContent) : Prop :=
  TrimSpace (ty_PromptSetID t) ≠ "" ∧ ty_Prompts t ≠ [] ∧ NoDup (tp_ID <$> ty_Prompts t) ∧
  Forall (λ p, matches idRE (tp_ID p) = true ∧ TrimSpace (tp_Text p) ≠ "") (ty_Prompts t) ∧ (0 ≤ ty_TimeLimitSec t)%Z.

Definition plain (s : string) : Prop := looksLikeUnsafeMarkup s = false.

Definition resource_ok (r : ResourceRef) : Prop :=
  matches sha256HexRE (rr_SHA256 r) = true ∧ TrimSpace (rr_Label r) ≠ "" ∧ TrimSpace (rr_MediaType r) ≠ "" ∧
  Contains (rr_Label r) "://" = false ∧ HasPrefix (ToLower (rr_MediaType r)) "text/html" = false ∧
  (0 ≤ rr_ByteSize r ≤ MaxResourceBytes)%Z.

Definition block_fields_ok (b : InstructionBlock) : Prop :=
  (ib_Kind b ∈ text_kinds ∧ TrimSpace (ib_Text b) ≠ "" ∧ (Z.of_nat (String.length (ib_Text b)) ≤ MaxInstructionBlockText)%Z ∧
     plain (ib_Text b) ∧ ib_Terms b = [] ∧ ib_Resource b = None ∧ ib_Input b = "" ∧ ib_Output b = "" ∨
   ib_Kind b = "vocabulary" ∧ ib_Terms b ≠ [] ∧ ib_Text b = "" ∧ ib_Resource b = None ∧
     Forall (λ t, TrimSpace (vt_Term t) ≠ "" ∧ TrimSpace (vt_Definition t) ≠ "" ∧ plain (vt_Term t) ∧ plain (vt_Definition t)) (ib_Terms b) ∨
   ib_Kind b = "example" ∧ (TrimSpace (ib_Input b) ≠ "" ∨ TrimSpace (ib_Output b) ≠ "" ∨ TrimSpace (ib_Explanation b) ≠ "") ∧
     Forall plain [ib_Input b; ib_Output b; ib_Explanation b; ib_Text b] ∧ ib_Terms b = [] ∧ ib_Resource b = None ∨
   ib_Kind b = "resource" ∧ ib_Text b = "" ∧ ib_Terms b = [] ∧ ∃ r, ib_Resource b = Some r ∧ resource_ok r).

Definition block_ok (b : InstructionBlock) : Prop := matches idRE (ib_ID b) = true ∧ block_fields_ok b.

(** The prerequisite relation between task ids. *)
Definition needs (tasks : list Task) (a b : string) : Prop := ∃ t, t ∈ tasks ∧ tk_ID t = a ∧ b ∈ tk_Prerequisites t.

Definition valid_content (kind : string) (c : ActivityContent) : Prop :=
  let checks := ck_ID <$> ac_Checks c in
  let hints := hn_ID <$> ac_Hints c in
  let tasks := tk_ID <$> ac_Tasks c in
  TrimSpace (ac_Objective c) ≠ "" ∧ TrimSpace (ac_Instructions c) ≠ "" ∧
  (kind = KindTerminal ∧ ac_Typing c = None ∧ (∃ t, ac_Terminal c = Some t ∧ terminal_ok t) ∨
   kind = KindTyping ∧ ac_Terminal c = None ∧ (∃ t, ac_Typing c = Some t ∧ typing_content_ok t)) ∧
  (ac_Checks c ≠ [] ∧ NoDup checks ∧ Forall check_ok (ac_Checks c)) ∧
  (NoDup hints ∧ Forall (λ h, matches idRE (hn_ID h) = true ∧ TrimSpace (hn_Text h) ≠ "") (ac_Hints c)) ∧
  (NoDup (ib_ID <$> ac_Blocks c) ∧ Forall block_ok (ac_Blocks c)) ∧
  (ac_Tasks c ≠ [] ∧ NoDup tasks ∧ Forall (task_ok hints checks) (ac_Tasks c)) ∧
  (Forall (λ t, tk_Prerequisites t ⊆ tasks) (ac_Tasks c) ∧ ∀ a, ~ tc (needs (ac_Tasks c)) a a) ∧
  artifact_limits (ac_Artifacts c) = true.

Definition valid_activity (doc : ActivityDocument) : Prop :=
  ad_SchemaVersion doc = "1" ∧ matches slugRE (ad_Slug doc) = true ∧ TrimSpace (ad_Title doc) ≠ "" ∧
  TrimSpace (ad_SubjectCode doc) ≠ "" ∧ ad_Standards doc ≠ [] ∧
  NoDup ((λ s, (sf_Code s, sf_Role s)) <$> ad_Standards doc) ∧
  Forall (λ s, matches standardRE (sf_Code s) = true ∧ sf_Role s ∈ [StandardRolePrimary; StandardRoleReinforcement]) (ad_Standards doc) ∧
  valid_content (ad_Kind doc) (ad_Content doc) ∧
  ∀ ref, ad_ReferenceSolution doc = Some ref → rf_Steps ref ≠ [] ∧
    Forall (λ s, rf_Argv s ≠ [] ∧ Forall (λ a, TrimSpace a ≠ "") (rf_Argv s) ∧
                 (rf_WorkDir s = "" ∨ ∃ c, SafeRelPath (rf_WorkDir s) = Ok c)) (rf_Steps ref).
End specification.

(** ** Validation decides it *)

Lemma not_blank s : negb (blank s) = true ↔ TrimSpace s ≠ "".
Proof. unfold blank. apply bool_decide_negb. Qed.

Lemma empty_list_true {A} (l : list A) : empty_list l = true ↔ l = [].
Proof. by destruct l. Qed.

Lemma empty_list_negb {A} (l : list A) : negb (empty_list l) = true ↔ l ≠ [].
Proof. by destruct l. Qed.

Lemma present_true {A} (o : option A) : present o = true ↔ is_Some o.
Proof. destruct o; cbn; [naive_solver|]. split; [done|intros [? [=]]]. Qed.

Lemma map_err_Ok {E A} (f : E → E) (r : result E A) a : map_err f r = Ok a ↔ r = Ok a.
Proof. destruct r; naive_solver. Qed.

Lemma safe_path_Ok p c : safe_path p = Ok c ↔ SafeRelPath p = Ok c.
Proof. unfold safe_path. destruct (SafeRelPath p); naive_solver. Qed.

Lemma requireSafePathParam_Ok params key : requireSafePathParam params key = Ok tt ↔ safe_param params key.
Proof.
  unfold requireSafePathParam, safe_param. destruct (stringParam params key) as [p|]; [|naive_solver].
  destruct (bool_decide_reflect (p = "")) as [->|Hp].
  - split; [done|]. by intros (p & c & [= <-] & Hc).
  - rewrite bind_Ok. setoid_rewrite safe_path_Ok. naive_solver.
Qed.

Section proofs.
Context `{!MapRange, !FloatText, !RegexpSyntax} (use_number : bool).

Lemma requireParamsSubset_Ok params keys : requireParamsSubset params keys = Ok tt ↔ only params keys.
Proof.
  unfold requireParamsSubset, only. rewrite for_each_Ok, Forall_forall.
  setoid_rewrite ensure_tt. setoid_rewrite bool_decide_eq_true. setoid_rewrite range_keys_dom.
  by setoid_rewrite elem_of_dom.
Qed.

Lemma optional_pattern_Ok params name key : optional_pattern params name key = Ok tt ↔ pattern_ok params key.
Proof.
  unfold optional_pattern, pattern_ok, compiles. destruct (stringParam params key) as [pat|]; [|naive_solver].
  destruct (bool_decide_reflect (pat = "")); [naive_solver|]. destruct (compile_error pat) eqn:E; naive_solver congruence.
Qed.

(** The rewriting that turns guards into propositions. *)
Ltac guards := repeat first
  [ setoid_rewrite unit_bind | setoid_rewrite ensure_bind | setoid_rewrite ensure_tt
  | setoid_rewrite requireParamsSubset_Ok | setoid_rewrite requireSafePathParam_Ok
  | setoid_rewrite optional_pattern_Ok | setoid_rewrite present_true | setoid_rewrite bool_decide_eq_true
  | setoid_rewrite bool_decide_negb | setoid_rewrite not_blank | setoid_rewrite empty_list_negb
  | setoid_rewrite empty_list_true | setoid_rewrite andb_true_iff | setoid_rewrite orb_true_iff
  | setoid_rewrite Z.leb_le | setoid_rewrite negb_true_iff | setoid_rewrite orb_false_iff | setoid_rewrite map_err_Ok ].

Lemma pathParams_Ok params : pathParams params = Ok tt ↔ only params ["path"] ∧ safe_param params "path".
Proof. unfold pathParams, requireExactParams. by guards. Qed.

Lemma contentParams_Ok params :
  contentParams params = Ok tt ↔
  only params ["path"; "value"] ∧ safe_param params "path" ∧ is_Some (stringParam params "value").
Proof. unfold contentParams, requireExactParams. by guards. Qed.

Lemma matchParams_Ok params :
  matchParams params = Ok tt ↔ only params ["path"; "pattern"] ∧ safe_param params "path" ∧
    ∃ pat, stringParam params "pattern" = Some pat ∧ pat ≠ "" ∧ compile_error pat = None.
Proof.
  unfold matchParams, requireExactParams, compiles. guards. do 2 f_equiv.
  destruct (stringParam params "pattern") as [pat|]; [|naive_solver].
  destruct (bool_decide_reflect (pat = "")); [naive_solver|]. destruct (compile_error pat) eqn:E; naive_solver congruence.
Qed.

Lemma typeParams_Ok params :
  typeParams params = Ok tt ↔ only params ["path"; "type"] ∧ safe_param params "path" ∧
    ∃ t, stringParam params "type" = Some t ∧ t ∈ ["file"; "directory"; "symlink"].
Proof.
  unfold typeParams, requireExactParams. guards. do 2 f_equiv.
  destruct (stringParam params "type") as [t|]; [|naive_solver]. guards. naive_solver.
Qed.

Lemma modeParams_Ok params :
  modeParams params = Ok tt ↔ only params ["path"; "mode"] ∧ safe_param params "path" ∧
    ∃ m, stringParam params "mode" = Some m ∧ matches modeRE m = true.
Proof.
  unfold modeParams, requireExactParams. guards. do 2 f_equiv.
  destruct (stringParam params "mode") as [m|]; naive_solver.
Qed.

Lemma commandParams_Ok params :
  commandParams use_number params = Ok tt ↔ params_ok use_number params CheckCommandProperties.
Proof.
  unfold commandParams. guards. split.
  - intros (? & ? & Ha & He & ? & ?). apply ok_command; try done.
    + intros v Hv. rewrite Hv in Ha. by apply present_true.
    + intros v Hv. rewrite Hv in He. by apply present_true.
  - inversion 1 as [? Hk|? Hk| | | |? ? Ha He| | |]; [set_solver|set_solver|]. split_and!; try done.
    + destruct (params !! "args"); [|done]. apply present_true. by apply Ha.
    + destruct (params !! "exitCode"); [|done]. apply present_true. by apply He.
Qed.

Lemma pipelineParams_Ok params :
  pipelineParams params = Ok tt ↔ params_ok use_number params CheckPipelineOutput.
Proof.
  unfold pipelineParams. guards. split.
  - intros (? & [[Hs|Hs]|Hs] & ?); [apply (ok_pipeline _ _ "value")|apply (ok_pipeline _ _ "contains")|apply (ok_pipeline _ _ "pattern")];
      try done; set_solver.
  - inversion 1 as [? Hk|? Hk| | | | |key ? Hk Hs| |]; [set_solver|set_solver|]. split_and!; [done| |done].
    rewrite !elem_of_cons in Hk. destruct Hk as [->|[->|[->|Hk]]]; [naive_solver..|by apply elem_of_nil in Hk].
Qed.

Lemma typingParams_Ok params :
  typingParams params = Ok tt ↔ params_ok use_number params CheckTypingMetrics.
Proof.
  unfold typingParams. guards. split.
  - intros (? & ? & ? & Hm). destruct (TypingMinAccuracy params) as [acc|] eqn:Ea; [|done].
    revert Hm. guards. intros ((? & ?) & Hw). destruct (TypingMinWPM params) as [wpm|] eqn:Ew; [|done].
    revert Hw. guards. intros ?. by apply (ok_typing _ _ acc wpm).
  - inversion 1 as [? Hk|? Hk| | | | | |acc wpm ? Ha ? ? Hw|]; [set_solver|set_solver|].
    split; [done|]. split; [|split].
    + revert Hw. unfold TypingMinWPM, param_of. destruct (floatParam (params !! "min_wpm")); eauto.
    + revert Ha. unfold TypingMinAccuracy, param_of. destruct (floatParam (params !! "min_accuracy")); eauto.
    + rewrite Ha, Hw. by guards.
Qed.

Lemma responseParams_Ok params :
  responseParams params = Ok tt ↔ params_ok use_number params CheckResponseSubmitted.
Proof.
  unfold responseParams. guards. split.
  - intros [? Ht]. destruct (match stringParam params "taskId" with Some t => Some t | None => _ end) as [t|] eqn:E; [|done].
    by apply (ok_response _ _ t).
  - inversion 1 as [? Hk|? Hk| | | | | | |t ? Ht]; [set_solver|set_solver|]. split; [done|]. by rewrite Ht.
Qed.

Lemma validateParams_Ok kind params : validateParams use_number kind params = Ok tt ↔ params_ok use_number params kind.
Proof.
  split.
  - unfold validateParams. repeat case_bool_decide; subst; [..|done];
      rewrite ?pathParams_Ok, ?contentParams_Ok, ?matchParams_Ok, ?typeParams_Ok, ?modeParams_Ok,
        ?commandParams_Ok, ?pipelineParams_Ok, ?typingParams_Ok, ?responseParams_Ok; try done.
    + intros [? ?]. apply ok_path; [set_solver|done..].
    + intros (? & ? & ?). by apply ok_content.
    + intros (? & ? & pat & ? & ? & ?). by apply (ok_match _ _ pat).
    + intros (? & ? & t & ? & ?). by apply (ok_type _ _ t).
    + intros (? & ? & m & ? & ?). by apply (ok_mode _ _ m).
    + intros [? ?]. apply ok_path; [set_solver|done..].
  - intros Hp. pose proof Hp as Hp'. destruct Hp' as [kind Hk| kind Hk|pat|t|m| | | |].
    + assert (validateParams use_number kind params = pathParams params) as ->
        by (rewrite !elem_of_cons in Hk; destruct Hk as [->|[->|[->|[]%elem_of_nil]]]; reflexivity).
      by apply pathParams_Ok.
    + assert (validateParams use_number kind params = contentParams params) as ->
        by (rewrite !elem_of_cons in Hk; destruct Hk as [->|[->|[]%elem_of_nil]]; reflexivity).
      by apply contentParams_Ok.
    + change (matchParams params = Ok tt). apply matchParams_Ok. naive_solver.
    + change (typeParams params = Ok tt). apply typeParams_Ok. naive_solver.
    + change (modeParams params = Ok tt). apply modeParams_Ok. naive_solver.
    + by apply commandParams_Ok.
    + by apply pipelineParams_Ok.
    + by apply typingParams_Ok.
    + by apply responseParams_Ok.
Qed.

Lemma validateNames_Ok i ch what known names :
  validateNames i ch what known names = Ok tt ↔ NoDup names ∧ names ⊆ known.
Proof.
  unfold validateNames. rewrite bind_Ok.
  setoid_rewrite (fold_seen_Ok _ (λ s, s) (λ s, s ∈ known)).
  - rewrite list_fmap_id. setoid_rewrite Forall_forall. split.
    + intros (s & (Hk & Hn & _) & _). by split.
    + intros [Hn Hk]. eexists. split; [|done]. split_and!; [done|done|set_solver|done].
  - intros j s x s'. guards. naive_solver.
Qed.

Lemma validateCheck_Ok i seen ch seen' :
  validateCheck use_number i seen ch = Ok seen' ↔ check_ok use_number ch ∧ ck_ID ch ∉ seen ∧ seen' = {[ck_ID ch]} ∪ seen.
Proof.
  unfold validateCheck, validateCheckStages, check_ok. guards. rewrite !validateNames_Ok, validateParams_Ok. naive_solver.
Qed.

(** The results of the loops that collect ids. *)
Lemma ids_Ok {A} (f : nat → gset string → A → result string (gset string)) (key : A → string) (P : A → Prop) xs s' :
  (∀ i s x s', f i s x = Ok s' ↔ P x ∧ key x ∉ s ∧ s' = {[key x]} ∪ s) →
  fold_each 0 f ∅ xs = Ok s' ↔ Forall P xs ∧ NoDup (key <$> xs) ∧ s' = list_to_set (key <$> xs).
Proof.
  intros Hf. rewrite (fold_seen_Ok f key P xs Hf), (right_id_L ∅ (∪)). set_solver.
Qed.

Lemma validateChecks_Ok checks s' :
  fold_each 0 (validateCheck use_number) ∅ checks = Ok s' ↔
  Forall (check_ok use_number) checks ∧ NoDup (ck_ID <$> checks) ∧ s' = list_to_set (ck_ID <$> checks).
Proof. apply ids_Ok. intros. apply validateCheck_Ok. Qed.

Lemma validateHints_Ok hints s' :
  fold_each 0 validateHint ∅ hints = Ok s' ↔
  Forall (λ h, matches idRE (hn_ID h) = true ∧ TrimSpace (hn_Text h) ≠ "") hints ∧ NoDup (hn_ID <$> hints) ∧
  s' = list_to_set (hn_ID <$> hints).
Proof. apply ids_Ok. intros. unfold validateHint. guards. naive_solver. Qed.

Lemma validateTyping_Ok t : validateTyping t = Ok tt ↔ typing_content_ok t.
Proof.
  unfold validateTyping, typing_content_ok. guards. rewrite bind_Ok.
  setoid_rewrite (ids_Ok validatePrompt tp_ID (λ p, matches idRE (tp_ID p) = true ∧ TrimSpace (tp_Text p) ≠ "")).
  - guards. split; [naive_solver|]. intros (? & ? & ? & ? & ?). split_and!; [done..|]. eexists. by split_and!.
  - intros. unfold validatePrompt. guards. naive_solver.
Qed.

Lemma validateSpec_Ok path spec : validateResponseSpec path spec = Ok tt ↔ ∃ s, spec = Some s ∧ spec_ok s.
Proof.
  destruct spec as [s|]; [|naive_solver]. cbn [validateResponseSpec]. guards. rewrite bind_Ok.
  setoid_rewrite (ids_Ok (validateCriterion path) rc_ID (λ c, matches idRE (rc_ID c) = true ∧ TrimSpace (rc_Description c) ≠ "")).
  2: { intros. unfold validateCriterion. guards. naive_solver. }
  transitivity (spec_ok s); [|naive_solver]. unfold spec_ok.
  assert ((1 ≤ if bool_decide (rs_MaxChars s = 0%Z) then DefaultResponseMaxChars else rs_MaxChars s)%Z ∧
          ((if bool_decide (rs_MaxChars s = 0%Z) then DefaultResponseMaxChars else rs_MaxChars s) ≤ MaxResponseMaxChars)%Z ↔
          (0 ≤ rs_MaxChars s ≤ MaxResponseMaxChars)%Z) as ->.
  { unfold DefaultResponseMaxChars, MaxResponseMaxChars. case_bool_decide; lia. }
  split; [naive_solver|]. intros (? & ? & [? ?] & ? & ? & ?). split_and!; try done. eexists. by split_and!.
Qed.

Lemma validateResourceRef_Ok path r : validateResourceRef path r = Ok tt ↔ resource_ok r.
Proof. unfold validateResourceRef, resource_ok. guards. naive_solver. Qed.

Lemma blockFields_Ok i at_ b : blockFields i at_ b = Ok tt ↔ block_fields_ok b.
Proof.
  assert (∀ k, k ∈ ["vocabulary"; "example"; "resource"] → k ∉ text_kinds) as Hother.
  { intros k Hk. rewrite !elem_of_cons in Hk. destruct Hk as [->|[->|[->|[]%elem_of_nil]]]; by apply (bool_decide_eq_true_1 _). }
  unfold blockFields, block_fields_ok, plain.
  destruct (bool_decide_reflect (ib_Kind b ∈ text_kinds)) as [Ht|Ht].
  { unfold textBlock. guards. split; [naive_solver|].
    intros [?|[(Hk & _)|[(Hk & _)|(Hk & _)]]]; [naive_solver|exfalso; apply (Hother (ib_Kind b)); [rewrite Hk; set_solver|done]..]. }
  destruct (bool_decide_reflect (ib_Kind b = "vocabulary")) as [Hv|Hv].
  { unfold vocabularyBlock. guards. rewrite (for_each_i_all _ (λ t, TrimSpace (vt_Term t) ≠ "" ∧ TrimSpace (vt_Definition t) ≠ "" ∧
      looksLikeUnsafeMarkup (vt_Term t) = false ∧ looksLikeUnsafeMarkup (vt_Definition t) = false)).
    - split; [tauto|]. intros [[? _]|[?|[[? _]|[? _]]]]; [done|tauto|congruence..].
    - intros j t. unfold blank. guards. rewrite !bool_decide_eq_false. tauto. }
  destruct (bool_decide_reflect (ib_Kind b = "example")) as [He|He].
  { unfold exampleBlock. guards. rewrite !Forall_cons, Forall_nil, !andb_false_iff. unfold blank. rewrite !bool_decide_eq_false.
    split; [tauto|]. intros [[? _]|[[? _]|[?|[? _]]]]; [done|congruence|tauto|congruence]. }
  destruct (bool_decide_reflect (ib_Kind b = "resource")) as [Hr|Hr];
    [|split; [done|]; intros [[? _]|[[? _]|[[? _]|[? _]]]]; done].
  transitivity (ib_Text b = "" ∧ ib_Terms b = [] ∧ ∃ r, ib_Resource b = Some r ∧ resource_ok r).
  - unfold resourceBlock. destruct (ib_Resource b) as [r|]; [|naive_solver].
    rewrite unit_bind, validateResourceRef_Ok. guards. naive_solver.
  - split; [tauto|]. intros [[? _]|[[? _]|[[? _]|[_ ?]]]]; [done|congruence|congruence|done].
Qed.

Lemma validateBlock_Ok i seen b seen' :
  validateBlock i seen b = Ok seen' ↔ block_ok b ∧ ib_ID b ∉ seen ∧ seen' = {[ib_ID b]} ∪ seen.
Proof.
  unfold validateBlock, block_ok. guards. rewrite blockFields_Ok. naive_solver.
Qed.

Lemma validateInstructionBlocks_Ok blocks :
  validateInstructionBlocks blocks = Ok tt ↔ NoDup (ib_ID <$> blocks) ∧ Forall block_ok blocks.
Proof.
  unfold validateInstructionBlocks. rewrite bind_Ok.
  setoid_rewrite (ids_Ok validateBlock ib_ID block_ok); [|intros; apply validateBlock_Ok].
  split; [naive_solver|]. intros [? ?]. eexists. by split_and!.
Qed.

Lemma validateCheckTree_Ok ids t : ∀ prefix,
  validateCheckTree prefix t (list_to_set ids) = Ok tt ↔ tree_ok ids t.
Proof.
  induction t as [all any id opt Hall Hany] using CheckTree_rect'. intros prefix.
  cbn [validateCheckTree ct_All ct_Any ct_CheckID].
  destruct (bool_decide_reflect (id = "")) as [->|Hid]; cbn [negb].
  - destruct all as [|a all], any as [|b any]; cbn -[loop_i validateCheckTree];
      try (rewrite (bool_decide_true (_ = 1)) by done); try (rewrite (bool_decide_false (_ = 1)) by done); cbn [negb].
    + split; [done|]. by inversion 1.
    + rewrite loop_i_all by (eapply Forall_impl; [exact Hany|]; intros x Hx j; apply Hx).
      split; [by intros; apply tree_any|]. by inversion 1.
    + rewrite loop_i_all by (eapply Forall_impl; [exact Hall|]; intros x Hx j; apply Hx).
      split; [by intros; apply tree_all|]. by inversion 1.
    + split; [done|]. by inversion 1.
  - destruct all as [|a all], any as [|b any]; cbn -[loop_i validateCheckTree];
      try (rewrite (bool_decide_true (_ = 1)) by done); try (rewrite (bool_decide_false (_ = 1)) by done); cbn [negb].
    + rewrite ensure_tt, bool_decide_eq_true, elem_of_list_to_set.
      split; [by intros; apply tree_check|]. by inversion 1.
    + split; [done|]. by inversion 1.
    + split; [done|]. by inversion 1.
    + split; [done|]. by inversion 1.
Qed.

Definition fixture_path (f : FixtureEntry) : string :=
  match SafeRelPath (fx_Path f) with Ok p => p | Err _ => "" end.

Lemma validateTerminal_Ok t : validateTerminal t = Ok tt ↔ terminal_ok t.
Proof.
  unfold validateTerminal, terminal_ok. rewrite ensure_bind, bool_decide_eq_true, bind_Ok. f_equiv.
  set (P f := (∃ p, SafeRelPath (fx_Path f) = Ok p) ∧ (fx_Type f = FixtureFile ∨ fx_Type f = FixtureDirectory ∧ fx_Content f = "") ∧
              (fx_Mode f = "" ∨ matches modeRE (fx_Mode f) = true)).
  setoid_rewrite bind_Ok. setoid_rewrite (ids_Ok validateFixture fixture_path P).
  2: { intros i s f s'. unfold validateFixture, fixture_path, P, safe_path.
       destruct (SafeRelPath (fx_Path f)) as [p|e]; cbn [map_err mbind result_bind]; [|naive_solver].
       rewrite !ensure_bind, negb_true_iff, andb_false_iff, negb_false_iff, orb_true_iff, !bool_decide_eq_true, bool_decide_eq_false.
       rewrite !elem_of_cons, elem_of_nil. split.
       - intros (? & Hty & Hc & ? & [= <-]). split_and!; [by eexists| |done..].
         destruct Hty as [?|[?|[]]]; [by left|]. right. destruct Hc; done.
       - intros ((_ & Hty & ?) & ? & ->). split_and!; [done|tauto| |done..].
         destruct Hty as [->|[_ ?]]; [by left|by right]. }
  split.
  - intros (c & Hc & s & (Hall & Hn & _) & _). split.
    + destruct (bool_decide_reflect (tc_InitialCwd t = "")); [by left|]. right. exists c. by apply map_err_Ok, safe_path_Ok in Hc.
    + exists (fixture_path <$> tc_Fixtures t). rewrite Forall_forall in Hall. split_and!; [|done|..].
      * apply Forall2_fmap_r, Forall_Forall2_diag, Forall_forall. intros f ((p & Hp) & _)%Hall. cbn. unfold fixture_path. by rewrite !Hp.
      * apply Forall_forall. by intros f (_ & ? & _)%Hall.
      * apply Forall_forall. by intros f (_ & _ & ?)%Hall.
  - intros (Hc & paths & Hp & Hn & Ht & Hm).
    assert (paths = fixture_path <$> tc_Fixtures t) as ->.
    { clear -Hp. induction Hp as [|f p fs ps Hf _ IH]; [done|]. cbn. rewrite <-IH. unfold fixture_path at 1. by rewrite Hf. }
    assert (∃ c, (if bool_decide (tc_InitialCwd t = "") then Ok "" else
      map_err (λ e, "terminal.initial_cwd: " +:+ e) (safe_path (tc_InitialCwd t))) = Ok c) as [c Hc'].
    { case_bool_decide as E0; [by eexists|]. destruct Hc as [?|[c Hc]]; [done|]. exists c. by apply map_err_Ok, safe_path_Ok. }
    exists c. split; [done|]. eexists. split; [|done]. split_and!; [|done|done]. apply Forall_forall. intros f Hf.
    rewrite Forall_forall in Ht, Hm. split_and!; [|by apply Ht|by apply Hm].
    apply list_elem_of_lookup in Hf as [i Hi]. destruct (Forall2_lookup_l _ _ _ i f Hp Hi) as (p & _ & Hf). by exists p.
Qed.

Lemma validateTask_Ok hints checks i seen t seen' :
  validateTask (list_to_set hints) (list_to_set checks) i seen t = Ok seen' ↔
  (task_ok hints checks t ∧ Forall (λ p, matches idRE p = true) (tk_Prerequisites t)) ∧
  tk_ID t ∉ seen ∧ seen' = {[tk_ID t]} ∪ seen.
Proof.
  unfold validateTask, task_ok.
  rewrite !ensure_bind, !unit_bind, validateCheckTree_Ok, !for_each_Ok, !not_blank, bool_decide_eq_true.
  setoid_rewrite ensure_tt. setoid_rewrite bool_decide_eq_true. setoid_rewrite elem_of_list_to_set.
  rewrite (Forall_forall (λ x, x ∈ hints)).
  assert ((if bool_decide (TaskKindOrDefault t = TaskKindAction)
           then ensure (bool_decide (tk_Response t = None)) (indexed "tasks" i +:+ ": response is only valid for short_response tasks")
           else if bool_decide (TaskKindOrDefault t = TaskKindShortResponse)
           then validateResponseSpec (indexed "tasks" i +:+ ".response") (tk_Response t)
           else Err (indexed "tasks" i +:+ ": unknown kind " +:+ go_quote (tk_Kind t))) = Ok tt ↔
    (TaskKindOrDefault t = TaskKindAction ∧ tk_Response t = None ∨
     TaskKindOrDefault t = TaskKindShortResponse ∧ ∃ s, tk_Response t = Some s ∧ spec_ok s)) as ->.
  { destruct (bool_decide_reflect (TaskKindOrDefault t = TaskKindAction)) as [E|E].
    - rewrite ensure_tt, bool_decide_eq_true, E. split; [by left|]. by intros [[_ ?]|[? _]].
    - destruct (bool_decide_reflect (TaskKindOrDefault t = TaskKindShortResponse)) as [E'|E'].
      + rewrite validateSpec_Ok. tauto.
      + split; [done|]. tauto. }
  change (tk_HintIDs t ⊆ hints) with (∀ x, x ∈ tk_HintIDs t → x ∈ hints). split.
  - intros (? & ? & ? & ? & ? & ? & ? & ? & [= <-]). tauto.
  - intros (((? & ? & ? & ? & ? & ?) & ?) & ? & ->). split_and!; tauto.
Qed.

Lemma validateTasks_Ok hints checks tasks s' :
  fold_each 0 (validateTask (list_to_set hints) (list_to_set checks)) ∅ tasks = Ok s' ↔
  Forall (λ t, task_ok hints checks t ∧ Forall (λ p, matches idRE p = true) (tk_Prerequisites t)) tasks ∧
  NoDup (tk_ID <$> tasks) ∧ s' = list_to_set (tk_ID <$> tasks).
Proof. apply ids_Ok. intros. apply validateTask_Ok. Qed.

(** *** The prerequisite graph *)

Lemma task_index_Some tasks id i :
  NoDup (tk_ID <$> tasks) → task_index tasks !! id = Some i ↔ ∃ t, tasks !! i = Some t ∧ tk_ID t = id.
Proof.
  intros Hn. unfold task_index. rewrite lookup_fmap, fmap_Some. split.
  - intros ([j t] & Hx & ->). apply index_by_lookup in Hx as [Hin Hid]. apply elem_of_lookup_imap in Hin as (k & t' & [= -> ->] & Hk).
    by exists t'.
  - intros (t & Ht & Hid). exists (i, t). split; [|done]. rewrite <-Hid.
    apply (index_by_NoDup (λ p, tk_ID p.2) (imap pair tasks) (i, t)).
    + rewrite fmap_imap. rewrite (imap_ext _ (const tk_ID)) by done. by rewrite imap_const.
    + apply elem_of_lookup_imap. by exists i, t.
Qed.

Lemma list_to_map_imap {A B} (f : A → B) (l : list A) i :
  (list_to_map (imap (λ i x, (i, f x)) l) : gmap nat B) !! i = f <$> l !! i.
Proof.
  enough (∀ k, (list_to_map (imap (λ i x, (k + i, f x)) l) : gmap nat B) !! i =
               f <$> if decide (k ≤ i)%nat then l !! (i - k) else None) as Hk.
  { specialize (Hk 0). rewrite decide_True, Nat.sub_0_r in Hk by lia. exact Hk. }
  induction l as [|x l IH]; intros k; cbn; [by case_decide|].
  rewrite Nat.add_0_r, lookup_insert. case_decide as Hk.
  - subst. by rewrite decide_True, Nat.sub_diag by lia.
  - rewrite (imap_ext _ (λ i x, (S k + i, f x))) by (intros; cbn; f_equal; lia). rewrite (IH (S k)).
    repeat case_decide; try lia; [|done]. by replace (i - k) with (S (i - S k)) by lia.
Qed.

Lemma task_graph_lookup tasks i :
  task_graph tasks !! i = (λ t, omap (λ pre, task_index tasks !! pre) (tk_Prerequisites t)) <$> tasks !! i.
Proof. apply (list_to_map_imap (λ t, omap (λ pre, task_index tasks !! pre) (tk_Prerequisites t))). Qed.

Lemma needs_edge tasks a b i : NoDup (tk_ID <$> tasks) → tasks !! i = Some a → Forall (λ t, tk_Prerequisites t ⊆ tk_ID <$> tasks) tasks →
  needs tasks (tk_ID a) b ↔ ∃ j t, edge (task_graph tasks) i j ∧ tasks !! j = Some t ∧ tk_ID t = b.
Proof.
  intros Hn Ha Hp. unfold needs, edge, succs. rewrite task_graph_lookup, Ha. cbn. setoid_rewrite list_elem_of_omap.
  setoid_rewrite task_index_Some; [|done]. split.
  - intros (t & (k & Hk)%list_elem_of_lookup & Hid & Hb).
    assert (k = i) as ->.
    { apply (NoDup_lookup _ k i (tk_ID a) Hn); rewrite list_lookup_fmap; [rewrite Hk; cbn; by rewrite Hid|by rewrite Ha]. }
    assert (t = a) as -> by congruence.
    rewrite Forall_forall in Hp. pose proof (Hp a ltac:(by apply list_elem_of_lookup_2 in Ha) b Hb) as (t & -> & (j & Hj)%list_elem_of_lookup)%list_elem_of_fmap.
    exists j, t. split; [|done]. exists (tk_ID t). split; [done|]. by exists t.
  - intros (j & t & (pre & Hpre & t' & Hj & <-) & Ht & <-). exists a. apply list_elem_of_lookup_2 in Ha.
    split_and!; [done..|]. by simplify_eq.
Qed.

Lemma edge_task tasks i j :
  NoDup (tk_ID <$> tasks) → edge (task_graph tasks) i j →
  ∃ a b, tasks !! i = Some a ∧ tasks !! j = Some b ∧ tk_ID b ∈ tk_Prerequisites a.
Proof.
  intros Hn. unfold edge, succs. rewrite task_graph_lookup. destruct (tasks !! i) as [a|]; cbn; [|by intros ?%not_elem_of_nil].
  intros (pre & Hpre & (b & Hb & <-)%task_index_Some)%list_elem_of_omap; [|done]. by exists a, b.
Qed.

Lemma tc_needs_edge tasks a c : NoDup (tk_ID <$> tasks) → Forall (λ t, tk_Prerequisites t ⊆ tk_ID <$> tasks) tasks →
  tc (needs tasks) a c → ∀ i t, tasks !! i = Some t → tk_ID t = a →
  ∃ j t', tc (edge (task_graph tasks)) i j ∧ tasks !! j = Some t' ∧ tk_ID t' = c.
Proof.
  intros Hn Hp. induction 1 as [a b Hab|a b c Hab Hbc IH]; intros i t Ht <-.
  - destruct (proj1 (needs_edge tasks t b i Hn Ht Hp) Hab) as (j & t' & ? & ? & ?). exists j, t'. split; [by apply tc_once|done].
  - destruct (proj1 (needs_edge tasks t b i Hn Ht Hp) Hab) as (j & t' & Hij & Hj & Hid).
    destruct (IH j t' Hj Hid) as (k & t2 & Hjk & ? & ?). exists k, t2. split; [by eapply tc_l|done].
Qed.

Lemma detectTaskCycles_Ok tasks :
  NoDup (tk_ID <$> tasks) → Forall (λ t, tk_Prerequisites t ⊆ tk_ID <$> tasks) tasks →
  detectTaskCycles tasks = Ok tt ↔ ∀ a, ~ tc (needs tasks) a a.
Proof.
  intros Hn Hp. unfold detectTaskCycles. rewrite cycle_check_Ok.
  2: { intros i. rewrite elem_of_seq, elem_of_dom, task_graph_lookup, fmap_is_Some, lookup_lt_is_Some. lia. }
  split.
  - intros Hac a Htc. assert (∃ b, needs tasks a b) as (b & t & Hin & Hid & _) by (inversion Htc; eauto).
    apply list_elem_of_lookup in Hin as [i Hi].
    destruct (tc_needs_edge tasks a a Hn Hp Htc i t Hi Hid) as (j & t' & Hij & Hj & Hid').
    assert (j = i) as ->; [|by apply (Hac i)].
    apply (NoDup_lookup _ j i a Hn); rewrite list_lookup_fmap; [rewrite Hj|rewrite Hi]; cbn; congruence.
  - intros Hac i Htc.
    assert (∀ i j, tc (edge (task_graph tasks)) i j → ∃ a b, tasks !! i = Some a ∧ tasks !! j = Some b ∧
              tc (needs tasks) (tk_ID a) (tk_ID b)) as Hlift.
    { clear -Hn. induction 1 as [i j Hij|i j k Hij Hjk IH].
      - apply edge_task in Hij as (a & b & Ha & Hb & Hin); [|done]. exists a, b. split_and!; [done..|].
        apply tc_once. exists a. apply list_elem_of_lookup_2 in Ha. done.
      - apply edge_task in Hij as (a & b & Ha & Hb & Hin); [|done]. destruct IH as (b' & c & Hb' & Hc & Htc). simplify_eq.
        exists a, c. split_and!; [done..|]. eapply tc_l; [|done]. exists a. apply list_elem_of_lookup_2 in Ha. done. }
    destruct (Hlift i i Htc) as (a & b & Ha & Hb & Hab). rewrite Ha in Hb. injection Hb as ->. by apply (Hac (tk_ID b)).
Qed.

Lemma validatePrerequisites_Ok tasks ids :
  for_each_i 0 (validatePrerequisites (list_to_set ids)) tasks = Ok tt ↔
  Forall (λ t, tk_Prerequisites t ⊆ ids ∧ tk_ID t ∉ tk_Prerequisites t) tasks.
Proof.
  apply for_each_i_all. intros i t. unfold validatePrerequisites. rewrite for_each_Ok, Forall_forall.
  setoid_rewrite ensure_bind. setoid_rewrite ensure_tt. setoid_rewrite bool_decide_negb. setoid_rewrite bool_decide_eq_true.
  setoid_rewrite elem_of_list_to_set. split.
  - intros Hall. split; [intros x Hx; by apply Hall|]. intros Hx. by apply (Hall (tk_ID t)).
  - intros [Hsub Hself] x Hx. split; [by apply Hsub|]. by intros ->.
Qed.

Lemma validateKind_Ok kind c :
  validateKind kind c = Ok tt ↔
  kind = KindTerminal ∧ ac_Typing c = None ∧ (∃ t, ac_Terminal c = Some t ∧ terminal_ok t) ∨
  kind = KindTyping ∧ ac_Terminal c = None ∧ (∃ t, ac_Typing c = Some t ∧ typing_content_ok t).
Proof.
  unfold validateKind. destruct (bool_decide_reflect (kind = KindTerminal)) as [->|Hk1].
  - destruct (ac_Terminal c) as [t|]; [|naive_solver].
    rewrite ensure_bind, bool_decide_eq_true, validateTerminal_Ok. naive_solver.
  - destruct (bool_decide_reflect (kind = KindTyping)) as [->|Hk2]; [|naive_solver].
    destruct (ac_Typing c) as [t|]; [|naive_solver].
    rewrite ensure_bind, bool_decide_eq_true, validateTyping_Ok. naive_solver.
Qed.

Lemma validate_content kind c : ValidateContent use_number kind c = Ok tt ↔ valid_content use_number kind c.
Proof.
  unfold ValidateContent, valid_content. rewrite !ensure_bind, unit_bind, !not_blank, validateKind_Ok, bind_Ok.
  do 3 f_equiv. split.
  - intros (cs & (Hck & Hcn & ->)%validateChecks_Ok & Hrest).
    apply ensure_bind in Hrest as [Hc0%empty_list_negb Hrest].
    apply bind_Ok in Hrest as (hs & (Hh & Hhn & ->)%validateHints_Ok & Hrest).
    apply unit_bind in Hrest as [Hb%validateInstructionBlocks_Ok Hrest].
    apply ensure_bind in Hrest as [Ht0%empty_list_negb Hrest].
    apply bind_Ok in Hrest as (ts & Hts & Hrest). apply unit_bind in Hrest as [Hp Hrest].
    apply unit_bind in Hrest as [Hcy Ha%ensure_tt].
    apply validateTasks_Ok in Hts as (Ht & Htn & ->). apply validatePrerequisites_Ok in Hp.
    assert (Forall (λ t, tk_Prerequisites t ⊆ tk_ID <$> ac_Tasks c) (ac_Tasks c)) as Hps
      by (eapply Forall_impl; [exact Hp|]; by intros ? [? _]).
    rewrite (detectTaskCycles_Ok _ Htn Hps) in Hcy.
    split_and!; try done; try apply Hb. eapply Forall_impl; [exact Ht|]. by intros ? [? _].
  - intros ((Hc0 & Hcn & Hck) & (Hhn & Hh) & Hb & (Ht0 & Htn & Ht) & (Hp & Hac) & Ha).
    eexists. split; [by apply validateChecks_Ok|]. apply ensure_bind. split; [by apply empty_list_negb|].
    apply bind_Ok. eexists. split; [by apply validateHints_Ok|].
    apply unit_bind. split; [by apply validateInstructionBlocks_Ok|].
    apply ensure_bind. split; [by apply empty_list_negb|]. apply bind_Ok. eexists. split.
    + apply validateTasks_Ok. split_and!; [|done|reflexivity]. rewrite Forall_forall in Ht, Hp |- *. intros t Hin.
      split; [by apply Ht|]. apply Forall_forall. intros p Hpin.
      apply (Hp t Hin) in Hpin. apply list_elem_of_fmap in Hpin as (t' & -> & Hin'). by destruct (Ht t' Hin').
    + apply unit_bind. split; [|apply unit_bind; split; [by apply (detectTaskCycles_Ok _ Htn Hp)|by apply ensure_tt]].
      apply validatePrerequisites_Ok.
      rewrite Forall_forall in Hp |- *. intros t Hin. split; [by apply Hp|]. intros Hself.
      apply (Hac (tk_ID t)), tc_once. by exists t.
Qed.

(** *** Documents *)

Lemma role_key_inj (s s' : StandardRef) :
  sf_Role s ∈ [StandardRolePrimary; StandardRoleReinforcement] →
  sf_Role s' ∈ [StandardRolePrimary; StandardRoleReinforcement] →
  sf_Code s +:+ "|" +:+ sf_Role s = sf_Code s' +:+ "|" +:+ sf_Role s' → (sf_Code s, sf_Role s) = (sf_Code s', sf_Role s').
Proof.
  intros Hr Hr' Heq. apply (f_equal String.list_ascii_of_string) in Heq.
  assert (∀ a b : string, String.list_ascii_of_string (a +:+ b) = String.list_ascii_of_string a ++ String.list_ascii_of_string b) as Happ.
  { induction a as [|x a IH]; intros b; [done|]. rewrite append_cons. cbn. by rewrite IH. }
  rewrite !Happ in Heq. apply (f_equal (@rev ascii)) in Heq. rewrite !rev_app_distr, <-!app_assoc in Heq.
  rewrite !elem_of_cons in Hr, Hr'.
  destruct Hr as [Hr|[Hr|[]%elem_of_nil]], Hr' as [Hr'|[Hr'|[]%elem_of_nil]]; rewrite Hr, Hr' in Heq |- *; try (cbn in Heq; discriminate);
    f_equal; cbn in Heq; simplify_eq; apply (f_equal (@rev ascii)) in Heq; rewrite !rev_involutive in Heq;
    rewrite <-(String.string_of_list_ascii_of_string (sf_Code s)), Heq; apply String.string_of_list_ascii_of_string.
Qed.

Lemma NoDup_fmap_ext {A B C} (g : A → B) (h : A → C) (l : list A) :
  (∀ x y, x ∈ l → y ∈ l → g x = g y ↔ h x = h y) → NoDup (g <$> l) ↔ NoDup (h <$> l).
Proof.
  induction l as [|x l IH]; intros Hgh; [by rewrite !fmap_nil, !NoDup_nil|].
  rewrite !fmap_cons, !NoDup_cons, IH by set_solver. rewrite !list_elem_of_fmap. f_equiv. f_equiv. f_equiv. intros y.
  split; intros [Hxy Hy]; (split; [|done]); apply (Hgh x y); set_solver.
Qed.

Lemma validateStandards_Ok refs :
  (∃ s, fold_each 0 validateStandard ∅ refs = Ok s) ↔
  NoDup ((λ s, (sf_Code s, sf_Role s)) <$> refs) ∧
  Forall (λ s, matches standardRE (sf_Code s) = true ∧ sf_Role s ∈ [StandardRolePrimary; StandardRoleReinforcement]) refs.
Proof.
  setoid_rewrite (ids_Ok validateStandard (λ s, sf_Code s +:+ "|" +:+ sf_Role s) (λ s, matches standardRE (sf_Code s) = true ∧
    sf_Role s ∈ [StandardRolePrimary; StandardRoleReinforcement])).
  2: { intros. unfold validateStandard. rewrite !ensure_bind, !bool_decide_eq_true. naive_solver. }
  assert (Forall (λ s, matches standardRE (sf_Code s) = true ∧ sf_Role s ∈ [StandardRolePrimary; StandardRoleReinforcement]) refs →
    NoDup ((λ s, sf_Code s +:+ "|" +:+ sf_Role s) <$> refs) ↔ NoDup ((λ s, (sf_Code s, sf_Role s)) <$> refs)) as Hnd.
  { rewrite Forall_forall. intros Hall. apply NoDup_fmap_ext. intros x y Hx Hy. split.
    - apply role_key_inj; by apply Hall.
    - by intros [= -> ->]. }
  split.
  - intros (s & Hall & Hn & _). split; [by apply Hnd|done].
  - intros [Hn Hall]. eexists. split_and!; [done|by apply Hnd|done].
Qed.

Lemma validateReferenceSolution_Ok ref :
  validateReferenceSolution ref = Ok tt ↔
  ∀ r, ref = Some r → rf_Steps r ≠ [] ∧
    Forall (λ s, rf_Argv s ≠ [] ∧ Forall (λ a, TrimSpace a ≠ "") (rf_Argv s) ∧
                 (rf_WorkDir s = "" ∨ ∃ c, SafeRelPath (rf_WorkDir s) = Ok c)) (rf_Steps r).
Proof.
  destruct ref as [r|]; [|naive_solver]. cbn [validateReferenceSolution]. rewrite ensure_bind, empty_list_negb.
  rewrite (for_each_i_all _ (λ s, rf_Argv s ≠ [] ∧ Forall (λ a, TrimSpace a ≠ "") (rf_Argv s) ∧
    (rf_WorkDir s = "" ∨ ∃ c, SafeRelPath (rf_WorkDir s) = Ok c))).
  { split; [by intros ? ? [= <-]|]. intros Hr. by apply Hr. }
  intros i s. unfold validateStep. rewrite ensure_bind, unit_bind, empty_list_negb.
  rewrite (for_each_i_all _ (λ a, TrimSpace a ≠ "")) by (intros; by rewrite ensure_tt, not_blank).
  do 2 f_equiv. destruct (bool_decide_reflect (rf_WorkDir s = "")) as [->|Hw]; [by split; [left|]|].
  rewrite bind_Ok. setoid_rewrite map_err_Ok. setoid_rewrite safe_path_Ok. naive_solver.
Qed.

Lemma validate_document doc : ValidateDocument use_number doc = Ok tt ↔ valid_activity use_number doc.
Proof.
  unfold ValidateDocument, valid_activity.
  rewrite !ensure_bind, !not_blank, empty_list_negb, !bool_decide_eq_true. split.
  - intros (? & ? & ? & _ & ? & ? & (s & Hs & Hrest)%bind_Ok).
    apply unit_bind in Hrest as [Hc%validate_content Hr]. rewrite validateReferenceSolution_Ok in Hr.
    assert (∃ s, fold_each 0 validateStandard ∅ (ad_Standards doc) = Ok s) as [Hn Hf]%validateStandards_Ok by eauto.
    by split_and!.
  - intros (? & ? & ? & ? & ? & Hn & Hf & Hc & Hr). split_and!; try done.
    + destruct Hc as (_ & _ & [(-> & _)|(-> & _)] & _); [left|right; left].
    + destruct (proj2 (validateStandards_Ok (ad_Standards doc)) (conj Hn Hf)) as [s Hs]. apply bind_Ok. exists s. split; [done|].
      apply unit_bind. split; [by apply validate_content|by apply validateReferenceSolution_Ok].
Qed.

(** ** What validation gives the parts that run an activity *)

Lemma tree_satisfied ids t (obs : gmap string Observation) :
  (∀ id, id ∈ ids → ∃ o, obs !! id = Some o ∧ ob_Passed o = true) → tree_ok ids t → evalTree t obs = true.
Proof.
  intros Hobs. induction t as [all any id opt Hall Hany] using CheckTree_rect'. rewrite Forall_forall in Hall, Hany.
  intros Ht. cbn [evalTree ct_All ct_Any ct_CheckID ct_Optional]. destruct opt; [done|].
  inversion Ht as [? ? Hid Hin|? ? Hne Hl|? ? Hne Hl]; subst; cbn [bool_decide negb].
  - rewrite bool_decide_false by done. cbn. by destruct (Hobs id Hin) as (o & -> & ?).
  - rewrite bool_decide_true by done. cbn [negb]. rewrite Forall_forall in Hl. destruct all as [|a all]; [done|].
    apply forallb_forall_in. intros x Hx. apply Hall; auto.
  - rewrite bool_decide_true by done. cbn [negb]. rewrite Forall_forall in Hl. destruct any as [|b any]; [done|].
    apply existsb_exists_in. exists b. split; [left|]. apply Hany; [left|]. apply Hl. left.
Qed.

(** A path the content names: of a fixture, the initial directory or a check. *)
Definition names_path (c : ActivityContent) (p : string) : Prop :=
  (∃ t f, ac_Terminal c = Some t ∧ f ∈ tc_Fixtures t ∧ fx_Path f = p) ∨
  (∃ t, ac_Terminal c = Some t ∧ tc_InitialCwd t = p ∧ p ≠ "") ∨
  ∃ ch, ch ∈ ac_Checks c ∧ stringParam (ck_Params ch) "path" = Some p.

Lemma params_path params kind p :
  params_ok use_number params kind → stringParam params "path" = Some p → ∃ c, SafeRelPath p = Ok c.
Proof.
  intros Hp Hs.
  assert (is_Some (params !! "path")) as Hin by (unfold stringParam in Hs; destruct (params !! "path"); [by eexists|done]).
  destruct Hp; try (match goal with Hsp : safe_param params "path" |- _ =>
      destruct Hsp as (p' & c & Hp' & Hc); exists c; congruence end);
    match goal with Ho : only params ?l |- _ =>
      exfalso; specialize (Ho "path" Hin); revert Ho; by apply (bool_decide_eq_false_1 ("path" ∈ l)) end.
Qed.

Lemma valid_paths kind c p : valid_content use_number kind c → names_path c p → ∃ safe, SafeRelPath p = Ok safe.
Proof.
  intros (_ & _ & Hkind & (_ & _ & Hck) & _) [(t & f & Ht & Hf & <-)|[(t & Ht & <- & Hne)|(ch & Hch & Hp)]].
  - destruct Hkind as [(_ & _ & t' & Ht' & _ & _ & paths & Hall & _)|(_ & Hnone & _)]; [|congruence].
    assert (t' = t) as -> by congruence. apply list_elem_of_lookup in Hf as [i Hi].
    destruct (Forall2_lookup_l _ _ _ i f Hall Hi) as (q & _ & Hq). by exists q.
  - destruct Hkind as [(_ & _ & t' & Ht' & _ & Hcwd & _)|(_ & Hnone & _)]; [|congruence].
    assert (t' = t) as -> by congruence. by destruct Hcwd.
  - rewrite Forall_forall in Hck. destruct (Hck ch Hch) as (_ & _ & _ & _ & _ & Hok). by eapply params_path.
Qed.

Lemma typing_runs c t : ac_Typing c = Some t → typing_content_ok t → is_ok (NewSession (ac_Typing c) (ac_Checks c)) = true.
Proof.
  intros -> (_ & Hne & _ & Hall & _). cbn [NewSession]. rewrite bool_decide_false by done.
  destruct (existsb _ _) eqn:E; [|done]. apply existsb_exists_in in E as (p & Hp & Hb%bool_decide_eq_true).
  rewrite Forall_forall in Hall. by destruct (Hall p Hp).
Qed.

(** C35: Validation is exact.  [ValidateDocument] accepts an activity document if and
    only if it is valid: a supported schema, a well-formed slug, title, subject and
    standards without repetition; the content of its kind and no other; checks, hints,
    blocks, tasks, prompts and rubrics with well-formed, distinct ids; for every kind
    of check exactly the parameters it may and must have, with paths that stay in the
    workspace and patterns that compile; completion trees that name known checks and
    are never empty; prerequisites that name tasks of the activity, without cycles.
    The search for cycles always ends with an answer. *)
Theorem ValidateDocument_spec doc : ValidateDocument use_number doc = Ok tt ↔ valid_activity use_number doc.
Proof. apply validate_document. Qed.

(** C36: A validated activity can be worked on.  If the content passed validation, then
    observations in which every check has passed satisfy the required checks and tasks
    of the mastery engine, whatever else they contain; the typing runner starts on
    typing content; and every path of a fixture, of the initial directory and of a
    check stays inside the workspace. *)
Theorem validated_content_runs kind c obs :
  ValidateContent use_number kind c = Ok tt →
  ((∀ ch, ch ∈ ac_Checks c → ∃ o, index_by ob_CheckID obs !! ck_ID ch = Some o ∧ ob_Passed o = true) →
   validateRequiredChecks c obs = Ok tt) ∧
  (kind = KindTyping → is_ok (NewSession (ac_Typing c) (ac_Checks c)) = true) ∧
  (∀ p, names_path c p → ∃ safe, SafeRelPath p = Ok safe ∧ inside_workspace safe).
Proof.
  intros Hv%validate_content. split_and!.
  - intros Hobs. destruct Hv as (_ & _ & _ & _ & _ & _ & (_ & _ & Ht) & _). rewrite Forall_forall in Ht.
    unfold validateRequiredChecks. apply unit_bind. split; apply for_each_Ok, Forall_forall.
    + intros ch Hch. unfold requiredCheck. destruct (ck_Optional ch); [done|]. by destruct (Hobs ch Hch) as (o & -> & ->).
    + intros t Hin. unfold requiredTask. destruct (tk_Optional t); [done|]. destruct (Ht t Hin) as (_ & _ & _ & _ & _ & Htree).
      rewrite (tree_satisfied (ck_ID <$> ac_Checks c) (tk_Completion t) (index_by ob_CheckID obs)); [done| |done].
      intros id Hid. apply list_elem_of_fmap in Hid as (ch & -> & Hch). by apply Hobs.
  - intros ->. destruct Hv as (_ & _ & [(Hk & _)|(_ & _ & t & Ht & Hok)] & _); [done|]. by eapply typing_runs.
  - intros p Hp. destruct (valid_paths kind c p Hv Hp) as [safe Hs]. exists safe. split; [done|]. by eapply SafeRelPath_segs.
Qed.
End proofs.

(** ** Examples *)

Definition all_compile : RegexpSyntax := {| compile_error s := None |}.
#[local] Existing Instance all_compile.
#[local] Existing Instance table_range.
#[local] Existing Instance sample_float.

Definition w_path_check (id kind path : string) : Check :=
  mkCheck id kind false {["path" := JStr path]} ["final"] None [].
Definition w_task (id check : string) (needs : list string) : Task :=
  mkTask id "Task" "Do it" "" needs (mkCheckTree [mkCheckTree [] [] check false] [] "" false) ["h1"] false None.
Definition w_terminal_content (pre : list string) : ActivityContent :=
  mkContent "Learn mkdir" "Make a directory" [mkBlock "b1" "prose" "" "Use mkdir." [] "" "" "" None]
    (Some (mkTerminal "coreutils-basic" [mkFixture "notes" "directory" "" "0755"] "notes" "")) None
    [w_task "t1" "c1" pre; w_task "t2" "c2" ["t1"]]
    [w_path_check "c1" "file_exists" "notes/a"; w_path_check "c2" "cwd" "notes"] [mkHint "h1" 1 "Try mkdir"]
    None None None.
Definition w_terminal_doc (pre : list string) : ActivityDocument :=
  mkActivityDocument "1" "make-dirs" "Directories" "" "terminal" "CS" [mkStandardRef "CS.SH.1" "primary" fone None]
    (w_terminal_content pre) "" ∅ (Some (mkReferenceSolution "" true [mkReferenceStep "" ["mkdir"; "notes/a"] ""])).

Lemma ValidateDocument_spec_witness :
  valid_activity true (w_terminal_doc []) ∧ ~ valid_activity true (w_terminal_doc ["t2"]) ∧
  ValidateDocument true (w_terminal_doc ["t2"]) = Err ("tasks: prerequisite cycle involving " +:+ go_quote "t1").
Proof.
  split_and!.
  - apply (ValidateDocument_spec true). vm_compute. reflexivity.
  - intros Hv. apply (ValidateDocument_spec true) in Hv. revert Hv. vm_compute. discriminate.
  - vm_compute. reflexivity.
Defined.

Definition w_passed (id : string) : Observation := mkObservation "1" id "" true false "" 0 None.

Lemma validated_content_runs_witness :
  validateRequiredChecks (w_terminal_content []) [w_passed "c1"; w_passed "c2"] = Ok tt ∧
  ∃ safe, SafeRelPath "notes/a" = Ok safe ∧ inside_workspace safe.
Proof.
  destruct (validated_content_runs true KindTerminal (w_terminal_content []) [w_passed "c1"; w_passed "c2"]) as (Hr & _ & Hp).
  - vm_compute. reflexivity.
  - split.
    + apply Hr. intros ch Hch. cbn in Hch. rewrite !elem_of_cons in Hch.
      destruct Hch as [->|[->|[]%elem_of_nil]]; eexists; split; reflexivity.
    + apply Hp. right. right. exists (w_path_check "c1" "file_exists" "notes/a"). split; [left|reflexivity].
Defined.

Example unsafe_markup_ex :
  looksLikeUnsafeMarkup "see HTTPS://x" = true ∧ looksLikeUnsafeMarkup "a < script>" = true ∧
  looksLikeUnsafeMarkup "<Style" = true ∧ looksLikeUnsafeMarkup "<scripted>" = false ∧ looksLikeUnsafeMarkup "a <b> metadata" = false.
Proof. vm_compute. done. Qed.

(** The limit on the text of a block counts bytes, although its message speaks of
    characters: 4001 characters of two bytes each are refused. *)
Lemma block_text_counts_bytes :
  let text := String.concat "" (repeat (bytes [195; 169]) 4001) in
  textBlock "b" (mkBlock "b1" "prose" "" text [] "" "" "" None) = Err "b: text exceeds 8000 characters".
Proof. vm_compute. reflexivity. Qed.

(** A typing activity with a line break in a prompt passes validation; it can never be
    completed ([control_character_never_done]). *)
Definition w_two_lines : ActivityContent :=
  mkContent "Type" "Type the text" [] None (Some (mkTyping "p" [mkPrompt "p1" ("ls" +:+ bytes [10] +:+ "pwd") ""] "" 0 fzero fzero))
    [mkTask "t1" "Type" "Type it" "" [] (mkCheckTree [] [] "c1" false) [] false None]
    [mkCheck "c1" CheckTypingMetrics false (<["min_wpm" := JInt 10]> {["min_accuracy" := JNum (f64_lit 9 10)]}) [] None []]
    [] None None None.

Lemma valid_prompt_never_done `{!DurableJson} : durable_law →
  ValidateContent true KindTyping w_two_lines = Ok tt ∧
  ∀ s ops, NewSession (ac_Typing w_two_lines) (ac_Checks w_two_lines) = Ok s → Done (foldl run_typing s ops) = false.
Proof.
  intros Hlaw. split; [vm_compute; reflexivity|]. intros s ops Hs.
  eapply (control_character_never_done Hlaw _ _ s ops 0 _ 2 10%Z); [exact Hs|reflexivity|reflexivity|].
  unfold typable. lia.
Qed.
