(* ===== verification/ParentOps.v ===== *)
(** * Parent operations ([repo/parent_ops.go])

    What a parent does to a student's work and record: cancelling and repeating
    assignments, switching the tutor off in the student's notes, correcting evidence,
    and the overview of the student's state with the evidence that is still missing. *)
From S2P Require Import Prelude GoStrings Float64 Contracts ContentJson LmsData LmsDb Sample Sessions.
From S2P Require Import Mastery CourseRepo WorkPage Devices ArtifactStore.
From stdpp Require Import pretty options.
Local Open Scope string_scope.
Local Open Scope list_scope.

(** ** Assignments *)

Section assignments.
Context `{!Postgres}.

Definition assignment_cancelled (now : Z) (a : StudentAssignment) : StudentAssignment :=
  mkStudentAssignment (sa_ID a) (sa_StudentID a) (sa_ActivityRevisionID a) (sa_EnrollmentID a) (sa_CurriculumActivityID a)
    (sa_SelectionReason a) AssignmentCancelled (sa_Priority a) (sa_AvailableAt a) (sa_DueAt a) (sa_AssignedBy a) (sa_Reason a)
    (sa_Constraints a) (sa_CreatedAt a) now.

Definition CancelAssignment (assignmentID : string) : M StudentAssignment :=
  asg ← (Get assignmentID : M StudentAssignment);
  if bool_decide (sa_State asg = AssignmentCancelled) then mret asg
  else if bool_decide (sa_State asg = AssignmentCompleted) then throw (ErrBadRequest "completed assignment cannot be cancelled")
  else Update assignmentID assignment_cancelled.

Definition CreateAssignment (studentID revisionID : string) (assignedBy : option string) (priority : Z) (reason : string)
  : M StudentAssignment :=
  CreateAssignmentFull (mkAssignmentCreate studentID revisionID None None "" assignedBy priority reason).

Definition RetryAssignment (assignmentID : string) (assignedBy : option string) (reason : string) : M StudentAssignment :=
  asg ← (Get assignmentID : M StudentAssignment);
  let reason := if bool_decide (reason = "") then "parent-retry" else reason in
  CreateAssignment (sa_StudentID asg) (sa_ActivityRevisionID asg) assignedBy (sa_Priority asg) reason.
End assignments.

(** ** The tutor switch *)

Definition TutorOffMarker : string := "tutor:off".
Definition line_break : string := bytes [10].

Definition has_marker (s : string) : bool := Contains (ToLower s) TutorOffMarker.

(** A line that is nothing but markers and white space. *)
Definition marker_line (line : string) : bool :=
  EqualFold (TrimSpace line) TutorOffMarker ||
  (blank (GoStrings.Join (Split (ToLower line) TutorOffMarker) "") && has_marker line).

Definition removeTutorOffMarker (notes : string) : string :=
  TrimSpace (GoStrings.Join (filter (λ l, marker_line l = false) (Split notes line_break)) line_break).

Definition student_notes (notes : string) (now : Z) (s : Student) : Student :=
  mkStudent (su_ID s) (su_FirstName s) (su_LastName s) (su_Birthdate s) (su_GradeLevel s) notes (su_CreatedAt s) now.

Definition SetStudentTutorEnabled (studentID : string) (enabled : bool) : M Student :=
  st ← (Get studentID : M Student);
  let hasOff := has_marker (su_Notes st) in
  if enabled && hasOff then Update studentID (student_notes (removeTutorOffMarker (su_Notes st)))
  else if negb enabled && negb hasOff then
    let notes := TrimSpace (su_Notes st) in
    Update studentID (student_notes (if bool_decide (notes = "") then TutorOffMarker else notes +:+ line_break +:+ TutorOffMarker))
  else mret st.

(** ** Corrections of evidence *)

Definition superseded (context : string) : bool := Contains (ToLower context) "superseded by parent".

Section supersede.
(** [time.Time.Format(time.RFC3339)] *)
Context `{!Postgres} (rfc3339 : Z → string).

Definition supersede_mark (note educatorID : string) (now : Z) : string :=
  "superseded by parent at " +:+ rfc3339 now +:+
  (if bool_decide (educatorID = "") then "" else " educator=" +:+ educatorID) +:+
  (if bool_decide (note = "") then "" else "; " +:+ note).

Definition marked_context (context mark : string) : string :=
  let ctx := TrimSpace context in if bool_decide (ctx = "") then mark else ctx +:+ " | " +:+ mark.

Definition evidence_context (context : string) (now : Z) (e : MasteryEvidence) : MasteryEvidence :=
  mkMasteryEvidence (me_ID e) (me_MasteryRecordID e) (me_Kind e) (me_EvidenceClass e) (me_Provenance e) (me_PolicyVersion e)
    (me_MigrationNote e) (me_OccurredOn e) context (me_SourceRef e) (me_CreatedAt e) now.

Definition class_or_default (class : string) : string :=
  if bool_decide (class = "") then EvidenceProceduralContinuous else class.

Definition replacement_row (ev : MasteryEvidence) (evidenceID note educatorID : string) (now : Z) (id : string) (created : Z) : MasteryEvidence :=
  mkMasteryEvidence id (me_MasteryRecordID ev) (me_Kind ev) (class_or_default (me_EvidenceClass ev))
    (list_to_map [("supersedes", JStr evidenceID); ("educatorId", JStr educatorID); ("note", JStr note)])
    (me_PolicyVersion ev) "" (date_of now)
    (if bool_decide (note = "") then "parent correction superseding " +:+ evidenceID
     else note +:+ " (supersedes " +:+ evidenceID +:+ ")")
    ("parent-supersede:" +:+ evidenceID +:+ ":" +:+ pretty now) created created.

Definition SupersedeMasteryEvidence (evidenceID note educatorID : string) (now : Z) : M (MasteryEvidence * MasteryEvidence) :=
  WithTx (
    ev ← (Get evidenceID : M MasteryEvidence);
    if superseded (me_Context ev) then throw (ErrBadRequest "evidence already superseded")
    else
      updated ← Update evidenceID (evidence_context (marked_context (me_Context ev) (supersede_mark note educatorID now)));
      rep ← Create (replacement_row ev evidenceID note educatorID now);
      mret (updated, rep)).
End supersede.

(** ** The overview *)

Definition missingClassesForStatus (status : string) (accepted : list string) (pol : EvidencePolicy) : list string :=
  filter (λ need, need ∉ accepted) (default [] (ep_StatusRequirements pol !! status)).

Definition status_rank (s : string) : Z :=
  default 0%Z ((list_to_map [("not_introduced", 0); ("", 0); ("in_progress", 1); ("approaching", 2); ("mastered", 3)]%Z : gmap string Z) !! s).

Fixpoint missing_loop (order : list string) (cur : Z) (accepted : list string) (pol : EvidencePolicy) : list string :=
  match order with
  | [] => []
  | st :: rest =>
      if bool_decide (status_rank st ≤ cur)%Z then missing_loop rest cur accepted pol
      else match missingClassesForStatus st accepted pol with [] => missing_loop rest cur accepted pol | miss => miss end
  end.

Definition missingClassesForNext (current : string) (accepted : list string) (pol : EvidencePolicy) : list string :=
  missing_loop ["in_progress"; "approaching"; "mastered"] (status_rank current) accepted pol.

Definition containsString (ss : list string) (want : string) : bool := existsb (λ s, bool_decide (s = want)) ss.

(** [None]: no link, or a link without a policy. *)
Definition latestPolicyForStandard (standardID : string) : M (option EvidencePolicy) :=
  r ← query (λ d, head (order_by (λ a b, Z.leb (lk_CreatedAt b) (lk_CreatedAt a))
        (select (λ l, bool_decide (lk_StandardID l = standardID)) (db_links d))));
  mret (match r with Some l => ParseEvidencePolicy (lk_EvidencePolicy l) | None => None end).

Record StandardEvidenceStatus := mkStandardEvidence {
  sv_StandardID : string; sv_StandardCode : string; sv_MasteryRecordID : string; sv_MasteryStatus : string;
  sv_Confidence : f64; sv_AcceptedEvidenceClasses : list string; sv_MissingEvidenceClasses : list string;
  sv_EvidenceStatus : string; sv_ActivityCompleted : bool; sv_ProceduralAccepted : bool;
  sv_AdditionalEvidenceRequired : bool; sv_FormalMastery : bool }.

(** The evidence classes of one record that the query aggregates. *)
Definition accepted_of (recordID : string) (d : database) : list string :=
  order_by str_le (remove_dups (me_EvidenceClass <$>
    select (λ e, bool_decide (me_MasteryRecordID e = recordID) && negb (superseded (me_Context e))) (db_mastery_evidence d))).

(** The rows of the query: records of the student joined with their standards. *)
Definition evidence_rows (studentID : string) (d : database) : list (MasteryRecord * Standard * list string) :=
  omap (λ r, (λ s, (r, s, accepted_of (mr_ID r) d)) <$> db_standards d !! mr_StandardID r)
    (order_by (λ a b, Z.leb (mr_UpdatedAt b) (mr_UpdatedAt a))
      (select (λ r, bool_decide (mr_StudentID r = studentID)) (db_mastery_records d))).

Definition default_policy (code : string) : EvidencePolicy :=
  if Contains code ".TYPE." then DefaultTypingEvidencePolicy else DefaultTerminalEvidencePolicy.

Definition evidence_status (r : MasteryRecord) (s : Standard) (accepted : list string) (pol : EvidencePolicy)
  : StandardEvidenceStatus :=
  let missing := missingClassesForNext (mr_Status r) accepted pol in
  let procedural := containsString accepted EvidenceProceduralContinuous in
  let formal := bool_decide (mr_Status r = "mastered") && bool_decide (missingClassesForStatus "mastered" accepted pol = []) in
  let additional := negb (bool_decide (missing = [])) && procedural in
  let introduced := negb (bool_decide (mr_Status r = "not_introduced")) in
  mkStandardEvidence (mr_StandardID r) (sd_Code s) (mr_ID r) (mr_Status r) (mr_Confidence r) accepted missing
    (if formal then "formal_mastery" else if additional then "additional_evidence_required"
     else if procedural then "procedural_accepted" else if introduced then "activity_completed" else "not_introduced")
    (introduced || procedural) procedural additional formal.

Definition ListEvidenceStatusesForStudent (studentID : string) : M (list StandardEvidenceStatus) :=
  raw ← query (evidence_rows studentID);
  for_M (λ x out,
    let '(r, s, accepted) := x in
    p ← latestPolicyForStandard (mr_StandardID r);
    mret (out ++ [evidence_status r s accepted (default (default_policy (sd_Code s)) p)])) raw [].

Definition ListOpenAssignmentsForStudent (studentID : string) : M (list StudentAssignment) :=
  query (λ d, order_by queue_le
    (select (λ a, bool_decide (sa_StudentID a = studentID) && one_of (sa_State a) ["available"; "in_progress"]) (db_assignments d))).

Definition ListRecentSessionsForStudent (studentID : string) (limit : Z) : M (list LearningSession) :=
  query (λ d, take (Z.to_nat limit) (order_by (λ a b, Z.leb (ls_StartedAt b) (ls_StartedAt a))
    (select (λ s, bool_decide (ls_StudentID s = studentID)) (db_sessions d)))).

Definition ListMasteryForStudent (studentID : string) : M (list MasteryRecord) :=
  query (λ d, order_by (λ a b, Z.leb (mr_UpdatedAt b) (mr_UpdatedAt a))
    (select (λ r, bool_decide (mr_StudentID r = studentID)) (db_mastery_records d))).

Record StudentLearningOverview := mkOverview {
  ov_Student : Student; ov_Devices : list StudentDevice; ov_OpenAssignments : list StudentAssignment;
  ov_RecentSessions : list LearningSession; ov_MasterySummary : list MasteryRecord;
  ov_EvidenceStatuses : list StandardEvidenceStatus; ov_TutorNotesDisable : bool }.

Definition GetStudentLearningOverview (studentID : string) (sessionLimit : Z) : M StudentLearningOverview :=
  let limit := if bool_decide (sessionLimit ≤ 0)%Z || bool_decide (100 < sessionLimit)%Z then 20%Z else sessionLimit in
  st ← (Get studentID : M Student);
  devices ← ListStudentDevices studentID;
  open ← ListOpenAssignmentsForStudent studentID;
  sessions ← ListRecentSessionsForStudent studentID limit;
  mastery ← ListMasteryForStudent studentID;
  evidence ← ListEvidenceStatusesForStudent studentID;
  mret (mkOverview st devices open sessions mastery evidence (has_marker (su_Notes st))).

Record StudentClientMetrics := mkClientMetrics {
  mc_DevicesActive : nat; mc_DevicesRevoked : nat; mc_AssignmentsOpen : nat; mc_SessionsActive : nat;
  mc_CompletionsLast24h : nat; mc_TutorFailuresLast24h : nat }.

Definition count_rows {A} (p : A → bool) (t : database → gmap string A) : M nat := query (λ d, length (select p (t d))).

Definition GetStudentClientMetrics (now : Z) : M StudentClientMetrics :=
  let since := (now - 24 * 3600 * 1000000000)%Z in
  active ← count_rows (λ d, bool_decide (dv_RevokedAt d = None)) db_devices;
  revoked ← count_rows (λ d, negb (bool_decide (dv_RevokedAt d = None))) db_devices;
  open ← count_rows (λ a, one_of (sa_State a) ["available"; "in_progress"]) db_assignments;
  sessions ← count_rows (λ s, one_of (ls_State s) ["started"; "paused"]) db_sessions;
  completions ← count_rows (λ x, Z.leb since (lc_CreatedAt x)) db_completions;
  mret (mkClientMetrics active revoked open sessions completions 0).

(** ** Theorems *)

(** *** Lower case and concatenation *)

Lemma ToLower_String c s :
  ToLower (String c s) =
  if bool_decide (Ascii.nat_of_ascii c = 196) then
    match s with
    | String d s1 => if (Ascii.nat_of_ascii d =? 176)%nat then String (Ascii.ascii_of_nat 105) (ToLower s1) else String c (ToLower s)
    | EmptyString => String c ""
    end
  else if bool_decide (Ascii.nat_of_ascii c = 226) then
    match s with
    | String d (String e s2) =>
        if (Ascii.nat_of_ascii d =? 132)%nat && (Ascii.nat_of_ascii e =? 170)%nat then String (Ascii.ascii_of_nat 107) (ToLower s2) else String c (ToLower s)
    | _ => String c (ToLower s)
    end
  else String (lower_ascii c) (ToLower s).
Proof. destruct c as [[] [] [] [] [] [] [] []]; try reflexivity; destruct s as [|d [|e s]]; reflexivity. Qed.

(** An ASCII character cannot continue a code point. *)
Lemma ToLower_app a c b : (Ascii.nat_of_ascii c < 128)%nat → ToLower (a +:+ String c b) = ToLower a +:+ ToLower (String c b).
Proof.
  intros Hc. enough (∀ n a, (String.length a ≤ n)%nat → ToLower (a +:+ String c b) = ToLower a +:+ ToLower (String c b)) by eauto.
  clear a. induction n as [|n IH]; intros [|x a] Hn; cbn [String.length] in Hn; [reflexivity|lia|reflexivity|].
  assert (String x (ToLower (a +:+ String c b)) = String x (ToLower a) +:+ ToLower (String c b)) as Hskip.
  { rewrite append_cons. f_equal. apply IH. lia. }
  rewrite append_cons, !(ToLower_String x).
  case_bool_decide; [|case_bool_decide].
  - destruct a as [|d a]; [cbn [String.append]; by rewrite append_nil, (proj2 (Nat.eqb_neq _ _)) by lia|].
    rewrite append_cons in *. cbn [String.length] in Hn.
    destruct (_ =? 176)%nat; [|exact Hskip]. rewrite append_cons. f_equal. apply IH. lia.
  - destruct a as [|d [|e a]].
    + rewrite append_nil in *. destruct b; [exact Hskip|]. rewrite (proj2 (Nat.eqb_neq _ _)) by lia. exact Hskip.
    + change (String d "" +:+ String c b) with (String d (String c b)) in *.
      cbv iota. rewrite (proj2 (Nat.eqb_neq (Ascii.nat_of_ascii c) 170)) by lia. rewrite andb_false_r. exact Hskip.
    + rewrite !append_cons in *. cbn [String.length] in Hn. destruct (_ && _); [|exact Hskip].
      rewrite append_cons. f_equal. apply IH. lia.
  - rewrite append_cons. f_equal. apply IH. lia.
Qed.

Lemma Contains_middle a sub b : Contains (a +:+ sub +:+ b) sub = true.
Proof. apply Contains_iff. by exists a, b. Qed.

(** A mark at the end of a text is found whatever the text is. *)
Lemma ToLower_marked a c b sub :
  (Ascii.nat_of_ascii c < 128)%nat → Contains (ToLower (String c b)) sub = true → Contains (ToLower (a +:+ String c b)) sub = true.
Proof.
  intros Hc (x & y & E)%Contains_iff. rewrite ToLower_app by done. apply Contains_iff.
  exists (ToLower a +:+ x), y. by rewrite E, append_assoc.
Qed.

Lemma superseded_mark rfc note educator now context :
  superseded (marked_context context (supersede_mark rfc note educator now)) = true.
Proof.
  unfold superseded, marked_context, supersede_mark. cbv zeta. set (rest := rfc now +:+ _).
  assert (∀ a, Contains (ToLower (a +:+ "superseded by parent at " +:+ rest)) "superseded by parent" = true) as Hm.
  { intros a. apply (ToLower_marked _ _ ("uperseded by parent at " +:+ rest)); [vm_compute; lia|].
    change (ToLower (String _ _)) with (ToLower ("superseded by parent" +:+ String (Ascii.ascii_of_nat 32) ("at " +:+ rest))).
    rewrite ToLower_app by (vm_compute; lia). apply (Contains_middle ""). }
  case_bool_decide; [apply (Hm "")|]. rewrite <-append_assoc. apply Hm.
Qed.

(** *** Corrections of evidence *)

Section supersede_facts.
Context `{!Postgres} (rfc3339 : Z → string).

Lemma SupersedeMasteryEvidence_Ok id note educator now q c c' orig rep :
  q_mode q ≠ QSavepoint → SupersedeMasteryEvidence rfc3339 id note educator now q c = (c', Ok (orig, rep)) →
  ∃ ev, db_mastery_evidence (cn_db c) !! id = Some ev ∧ superseded (me_Context ev) = false ∧
    orig = evidence_context (marked_context (me_Context ev) (supersede_mark rfc3339 note educator now)) (q_now q) ev ∧
    (∃ rid, rid ≠ id ∧ db_mastery_evidence (cn_db c) !! rid = None ∧
            rep = replacement_row ev id note educator now rid (q_now q)) ∧
    cn_db c' = set_mastery_evidence (<[me_ID rep := rep]> (<[id := orig]> (db_mastery_evidence (cn_db c)))) (cn_db c) ∧
    cn_aborted c' = false.
Proof.
  intros Hq. unfold SupersedeMasteryEvidence. rewrite (WithTx_Ok _ _ _ _ _ Hq). intros (Ha & Hr & Ha').
  apply M_bind_Ok in Hr as (c1 & ev & (_ & -> & Hev)%Get_Ok & Hr).
  destruct (superseded _) eqn:Es; [discriminate Hr|].
  apply M_bind_Ok in Hr as (c1 & o & Hu & Hr). apply Update_Ok in Hu as (ev' & Hev' & -> & Hd1 & _).
  apply M_bind_Ok in Hr as (c2 & r & Hcr & Hr). apply Create_Ok in Hcr as (-> & Hd2 & _).
  injection Hr as -> <- <-. cbn in Hev, Hev', Hd1, Hd2. assert (ev' = ev) as -> by congruence.
  rewrite Hd1 in Hd2. cbn in Hd2.
  rewrite Hd1. cbn. set (t := <[id:=_]> _) in *. pose proof (Create_fresh (A:=MasteryEvidence) (cn_db c1)) as Hf.
  rewrite Hd1 in Hf. cbn in Hf. apply lookup_insert_None in Hf as [Hf Hne].
  exists ev. split_and!; try done. by exists (gen_random_uuid (dom t)).
Qed.

(** A row the query of accepted classes does not see may change freely. *)
Lemma accepted_of_ext recID cls d d' :
  (∀ e, (∃ k, db_mastery_evidence d' !! k = Some e) → me_MasteryRecordID e = recID → superseded (me_Context e) = false →
        me_EvidenceClass e = cls → ∃ k e0, db_mastery_evidence d !! k = Some e0 ∧ me_MasteryRecordID e0 = recID ∧
        superseded (me_Context e0) = false ∧ me_EvidenceClass e0 = cls) →
  cls ∈ accepted_of recID d' → cls ∈ accepted_of recID d.
Proof.
  intros Hs. unfold accepted_of. rewrite !elem_of_order_by, !elem_of_remove_dups, !list_elem_of_fmap.
  intros (e & -> & [Hk Hp]%elem_of_select). apply andb_true_iff in Hp as [Hr%bool_decide_eq_true_1 Hc%negb_true_iff].
  destruct (Hs e Hk Hr Hc eq_refl) as (k & e0 & Hk0 & Hr0 & Hc0 & <-). exists e0. split; [done|].
  apply elem_of_select. split; [eauto|]. by rewrite bool_decide_eq_true_2, Hc0 by done.
Qed.

(** The row counts as evidence of the class for the record. *)
Definition counts_for (recID cls : string) (e : MasteryEvidence) : Prop :=
  me_MasteryRecordID e = recID ∧ superseded (me_Context e) = false ∧ me_EvidenceClass e = cls.

Lemma elem_of_accepted recID cls d : cls ∈ accepted_of recID d ↔ ∃ k e, db_mastery_evidence d !! k = Some e ∧ counts_for recID cls e.
Proof.
  unfold accepted_of, counts_for. rewrite elem_of_order_by, elem_of_remove_dups, list_elem_of_fmap. setoid_rewrite elem_of_select.
  setoid_rewrite andb_true_iff. setoid_rewrite bool_decide_eq_true. setoid_rewrite negb_true_iff. naive_solver.
Qed.

(** The classes after a correction: those of the other rows, and that of the new one. *)
Lemma supersede_classes id orig rid rep t d recID cls :
  t !! rid = None → superseded (me_Context orig) = true →
  cls ∈ accepted_of recID (set_mastery_evidence (<[rid := rep]> (<[id := orig]> t)) d) ↔
  (∃ k e, k ≠ id ∧ t !! k = Some e ∧ counts_for recID cls e) ∨ counts_for recID cls rep.
Proof.
  intros Hfree Ho. rewrite elem_of_accepted. cbn [set_mastery_evidence db_mastery_evidence]. split.
  - intros (k & e & [[-> ->]|[Hk [[-> ->]|[Hki He]]%lookup_insert_Some]]%lookup_insert_Some & Hc); [by right| |left; eauto].
    destruct Hc as (_ & Hs & _). congruence.
  - intros [(k & e & Hk & He & Hc)|Hc]; [|exists rid, rep; by rewrite lookup_insert_eq].
    exists k, e. rewrite !lookup_insert_ne by congruence. done.
Qed.

Lemma supersede_accepted ev id note educator now rid created t d orig recID cls :
  db_mastery_evidence d = t → t !! id = Some ev → t !! rid = None → rid ≠ id →
  superseded (me_Context ev) = false → superseded (me_Context orig) = true → me_EvidenceClass ev ≠ "" →
  let rep := replacement_row ev id note educator now rid created in
  superseded (me_Context rep) = false →
  cls ∈ accepted_of recID (set_mastery_evidence (<[rid := rep]> (<[id := orig]> t)) d) ↔ cls ∈ accepted_of recID d.
Proof.
  intros Ht Hid Hfree Hne Hev Ho Hcls rep Hrep.
  assert (me_EvidenceClass rep = me_EvidenceClass ev) as Hc by (cbn; unfold class_or_default; by rewrite bool_decide_eq_false_2).
  split; apply accepted_of_ext; rewrite Ht; cbn [set_mastery_evidence db_mastery_evidence].
  - intros e [k Hk] Hr Hs <-. apply lookup_insert_Some in Hk as [[<- <-]|[Hk1 Hk]]; [by exists id, ev|].
    apply lookup_insert_Some in Hk as [[<- <-]|[_ Hk]]; [congruence|]. eauto 10.
  - intros e [k Hk] Hr Hs <-. destruct (decide (k = id)) as [->|Hki].
    + simplify_eq. exists rid, rep. rewrite lookup_insert_eq. done.
    + exists k, e. rewrite !lookup_insert_ne by congruence. done.
Qed.

(** C37: A correction that succeeds marks an evidence row that counted until then, and changes
    nothing else of it; it adds one new row for the same mastery record, of the same kind and of
    the same class (the procedural one for a row without a class), with the parent's note as its
    context.  No other row of the database changes.  The classes of evidence a record has accepted
    afterwards are exactly those of its other rows that count, and that of the new row if its
    context does not contain the mark.  So if the note does not contain the mark and the row had a
    class, every record has the same accepted classes as before, and the correction neither grants
    nor withdraws mastery.  The same row cannot be corrected twice. *)
Theorem supersede_sound id note educator now q c c' orig rep :
  q_mode q ≠ QSavepoint → SupersedeMasteryEvidence rfc3339 id note educator now q c = (c', Ok (orig, rep)) →
  ∃ ev, db_mastery_evidence (cn_db c) !! id = Some ev ∧ superseded (me_Context ev) = false ∧
    orig = evidence_context (me_Context orig) (q_now q) ev ∧ superseded (me_Context orig) = true ∧
    db_mastery_evidence (cn_db c) !! me_ID rep = None ∧ me_ID rep ≠ id ∧
    me_MasteryRecordID rep = me_MasteryRecordID ev ∧ me_Kind rep = me_Kind ev ∧
    me_EvidenceClass rep = class_or_default (me_EvidenceClass ev) ∧
    cn_db c' = set_mastery_evidence (<[me_ID rep := rep]> (<[id := orig]> (db_mastery_evidence (cn_db c)))) (cn_db c) ∧
    me_Context rep = (if bool_decide (note = "") then "parent correction superseding " +:+ id else note +:+ " (supersedes " +:+ id +:+ ")") ∧
    (∀ recID cls, cls ∈ accepted_of recID (cn_db c') ↔
      (∃ k e, k ≠ id ∧ db_mastery_evidence (cn_db c) !! k = Some e ∧ counts_for recID cls e) ∨ counts_for recID cls rep) ∧
    (superseded (me_Context rep) = false → me_EvidenceClass ev ≠ "" →
      ∀ recID cls, cls ∈ accepted_of recID (cn_db c') ↔ cls ∈ accepted_of recID (cn_db c)) ∧
    (∀ note2 educator2 now2 q2, q_mode q2 ≠ QSavepoint →
      SupersedeMasteryEvidence rfc3339 id note2 educator2 now2 q2 c' = (c', Err (ErrBadRequest "evidence already superseded"))).
Proof.
  intros Hq Hr. apply SupersedeMasteryEvidence_Ok in Hr as (ev & Hev & Hs & Ho & (rid & Hne & Hfree & Hrep) & Hd & Ha); [|done].
  assert (superseded (me_Context orig) = true) as Hso by (rewrite Ho; apply superseded_mark).
  assert (me_ID rep = rid) as Hrid by (by rewrite Hrep).
  exists ev. split; [done|]. split; [done|]. split; [by rewrite Ho|]. split; [done|].
  rewrite Hrid. do 2 (split; [done|]). do 3 (split; [by rewrite Hrep|]). split; [by rewrite <-Hrid|].
  split; [by rewrite Hrep|]. split; [intros recID cls; rewrite Hd, Hrid; by apply supersede_classes|]. split.
  - rewrite Hd. intros Hrs Hcls recID cls. rewrite Hrid. rewrite Hrep in Hrs |- *. by apply supersede_accepted.
  - intros note2 educator2 now2 q2 Hq2. apply (WithTx_Err _ _ _ c'); [done|done|].
    apply M_bind_Err. right. exists c', orig. split; [|by rewrite Hso]. apply Get_run; [done|].
    rewrite Hd. cbn. rewrite lookup_insert_ne by congruence. apply lookup_insert_eq.
Qed.
End supersede_facts.

(** *** The evidence report *)

Lemma status_rank_engine s : status_rank s = statusRank s.
Proof.
  unfold status_rank, statusRank. cbn [list_to_map foldr]. unfold one_of. cbn [existsb].
  destruct (decide (s ∈ ["not_introduced"; ""; "in_progress"; "approaching"; "mastered"])) as [Hs|Hs].
  - repeat (apply elem_of_cons in Hs as [->|Hs]; [by vm_compute|]). by apply elem_of_nil in Hs.
  - rewrite !not_elem_of_cons in Hs. destruct_and! Hs.
    rewrite !lookup_insert_ne by (cbn; congruence). rewrite (bool_decide_eq_false_2 (s ∈ _)) by set_solver.
    by rewrite !bool_decide_eq_false_2 by congruence.
Qed.

Lemma missingClasses_engine s accepted pol :
  s ∈ status_order → missingClassesForStatus s accepted pol = missingForStatus s accepted pol.
Proof.
  intros Hs. unfold missingClassesForStatus, missingForStatus.
  rewrite !bool_decide_eq_false_2 by (intros ->; apply list_elem_of_In in Hs; vm_compute in Hs; intuition discriminate).
  by destruct (_ !! s).
Qed.

(** The report walks the ladder as the engine does for the candidate [mastered]. *)
Lemma missing_loop_engine cur accepted pol order : ∀ allowed,
  order ⊆ status_order →
  missing_loop order cur accepted pol = (allowed_loop order cur (statusRank "mastered") accepted pol allowed).1.2.
Proof.
  induction order as [|s order IH]; intros allowed Hsub; [done|]. cbn [missing_loop allowed_loop]. cbv zeta.
  assert (s ∈ status_order) as Hs by (apply Hsub; left). rewrite status_rank_engine, missingClasses_engine by done.
  assert (order ⊆ status_order) as Hsub' by (intros x Hx; apply Hsub; by right).
  case_bool_decide; [by apply IH|]. rewrite bool_decide_eq_false_2.
  - destruct (missingForStatus _ _ _); [by apply IH|done].
  - apply list_elem_of_In in Hs. cbn in Hs. destruct Hs as [<-|[<-|[<-|[]]]]; by vm_compute.
Qed.

Lemma missing_for_engine cur accepted pol :
  missingClassesForNext cur accepted pol = (highestAllowedStatus cur "mastered" accepted pol).1.2.
Proof.
  unfold missingClassesForNext, highestAllowedStatus. rewrite status_rank_engine.
  cbv zeta. set (start := if bool_decide (cur = "") then _ else cur).
  pose proof (statusRank_start cur) as Hst. fold start in Hst.
  rewrite (missing_loop_engine _ _ _ _ start) by done. change ["in_progress"; "approaching"; "mastered"] with status_order.
  destruct (allowed_loop _ _ _ _ _ _) as [[a m] sat] eqn:E. cbn.
  case_bool_decide as Hb; [|done]. destruct m; [|done].
  unfold status_order in E. cbn [allowed_loop] in E. change (statusRank "mastered") with 3%Z in *.
  change (statusRank "approaching") with 2%Z in *. change (statusRank "in_progress") with 1%Z in *.
  cbv zeta in E. rewrite !(bool_decide_eq_false_2 (3 < _)%Z) in E by lia.
  repeat case_bool_decide; repeat destruct (missingForStatus _ _ _); simplify_eq;
    try (change (statusRank "mastered") with 3%Z in *); lia || done.
Qed.

(** A candidate below mastery stops the ladder at the same step, or before any class is missing. *)
Lemma lower_candidate from cand accepted pol :
  cand ∈ status_order →
  (highestAllowedStatus from cand accepted pol).1.2 = [] ∨
  (highestAllowedStatus from cand accepted pol).1.2 = (highestAllowedStatus from "mastered" accepted pol).1.2.
Proof.
  intros Hc. pose proof (statusRank_start from) as Hst. unfold highestAllowedStatus. cbv zeta in Hst |- *. set (start := if bool_decide (from = "") then _ else from) in *.
  apply list_elem_of_In in Hc. cbn in Hc. destruct Hc as [<-|[<-|[<-|[]]]]; [| |by right];
    unfold status_order; cbn [allowed_loop]; cbv zeta;
    change (statusRank "mastered") with 3%Z; change (statusRank "approaching") with 2%Z; change (statusRank "in_progress") with 1%Z;
    repeat (case_bool_decide; try lia); repeat (destruct (missingForStatus _ _ _)); cbn; auto;
    repeat (case_bool_decide; try lia); cbn; auto;
    change (statusRank "approaching") with 2%Z in *; change (statusRank "in_progress") with 1%Z in *; try lia.
Qed.

(** The policy the report uses for a standard: the newest link's, else the default of its code. *)
Definition report_policy (d : database) (standardID code : string) : EvidencePolicy :=
  default (default_policy code)
    (head (order_by (λ a b, Z.leb (lk_CreatedAt b) (lk_CreatedAt a))
       (select (λ l, bool_decide (lk_StandardID l = standardID)) (db_links d))) ≫= λ l, ParseEvidencePolicy (lk_EvidencePolicy l)).

Lemma latestPolicy_run standardID code q c :
  cn_aborted c = false →
  ∃ p, latestPolicyForStandard standardID q c = (c, Ok p) ∧ default (default_policy code) p = report_policy (cn_db c) standardID code.
Proof.
  intros Ha. unfold latestPolicyForStandard, report_policy. eexists. split.
  - apply M_bind_Ok. do 2 eexists. split; [by apply query_Ok|]. reflexivity.
  - by destruct (head _).
Qed.

(** Where all links of the standard carry one policy, it is the report's and the engine's for every activity. *)
Lemma one_policy d standardID code p k l kind :
  (∀ k' l', db_links d !! k' = Some l' → lk_StandardID l' = standardID → ParseEvidencePolicy (lk_EvidencePolicy l') = Some p) →
  db_links d !! k = Some l → lk_StandardID l = standardID → policyFromLink l kind = report_policy d standardID code.
Proof.
  intros Hall Hk Hl. unfold policyFromLink, report_policy. rewrite (Hall k l Hk Hl).
  set (o := order_by _ _). assert (∀ l', l' ∈ o ↔ (∃ k', db_links d !! k' = Some l') ∧ lk_StandardID l' = standardID) as Ho.
  { intros l'. subst o. rewrite elem_of_order_by, elem_of_select, bool_decide_eq_true. done. }
  destruct o as [|l' o'] eqn:Eo; [exfalso; eapply not_elem_of_nil; apply Ho; eauto|].
  cbn. destruct (proj1 (Ho l')) as [[k' Hk'] Hl']; [left|]. by rewrite (Hall k' l' Hk' Hl').
Qed.

Lemma ListEvidenceStatuses_run studentID q c :
  cn_aborted c = false →
  ListEvidenceStatusesForStudent studentID q c =
  (c, Ok ((λ x, evidence_status x.1.1 x.1.2 x.2 (report_policy (cn_db c) (mr_StandardID x.1.1) (sd_Code x.1.2)))
            <$> evidence_rows studentID (cn_db c))).
Proof.
  intros Ha. unfold ListEvidenceStatusesForStudent. apply M_bind_Ok.
  exists c, (evidence_rows studentID (cn_db c)). split; [by apply query_Ok|].
  set (f := λ x, evidence_status _ _ _ _).
  match goal with |- for_M ?g _ _ _ _ = _ =>
    enough (∀ l out, for_M g l out q c = (c, Ok (out ++ (f <$> l)))) as Hl by apply (Hl _ []) end.
  induction l as [|[[r s] acc] l IH]; intros out; [by rewrite app_nil_r|].
  cbn [for_M]. apply M_bind_Ok. destruct (latestPolicy_run (mr_StandardID r) (sd_Code s) q c Ha) as (p & Hp & Hpol).
  exists c, (out ++ [f (r, s, acc)]). split.
  - apply M_bind_Ok. exists c, p. split; [done|]. subst f. cbn [fst snd]. by rewrite <-Hpol.
  - by rewrite IH, <-app_assoc.
Qed.

(** C38: The parents' evidence report reads evidence as the mastery engine does.  It changes nothing
    and never fails on a working connection; it has one line for every mastery record of the student
    whose standard exists.  The accepted classes of a line are those the engine reads.  The report
    judges them by the policy of the standard's newest link, or the default of its code; under that
    policy its missing classes are those on which the engine's ladder stops on the way to mastery,
    and for a lower candidate the engine's missing classes are these or none; formal mastery is
    reported exactly for records called mastered with all the evidence the policy asks for at that
    level.  The engine takes the policy of the completed activity's own link: it is the report's
    when all links of the standard carry the same policy, and may differ otherwise. *)
Theorem evidence_report_agrees studentID q c :
  cn_aborted c = false →
  ∃ out, ListEvidenceStatusesForStudent studentID q c = (c, Ok out) ∧
    (∀ k r s, db_mastery_records (cn_db c) !! k = Some r → mr_StudentID r = studentID →
       db_standards (cn_db c) !! mr_StandardID r = Some s → ∃ sv, sv ∈ out ∧ sv_MasteryRecordID sv = mr_ID r) ∧
    (∀ sv, sv ∈ out → ∃ k r s, db_mastery_records (cn_db c) !! k = Some r ∧ mr_StudentID r = studentID ∧
       db_standards (cn_db c) !! mr_StandardID r = Some s ∧
       let pol := report_policy (cn_db c) (mr_StandardID r) (sd_Code s) in
       sv_MasteryRecordID sv = mr_ID r ∧ sv_MasteryStatus sv = mr_Status r ∧
       listAcceptedEvidenceClasses (mr_ID r) q c = (c, Ok (sv_AcceptedEvidenceClasses sv)) ∧
       sv_MissingEvidenceClasses sv = (highestAllowedStatus (mr_Status r) "mastered" (sv_AcceptedEvidenceClasses sv) pol).1.2 ∧
       (sv_FormalMastery sv = true ↔
          mr_Status r = "mastered" ∧ missingForStatus "mastered" (sv_AcceptedEvidenceClasses sv) pol = []) ∧
       (∀ cand, cand ∈ status_order →
          let miss := (highestAllowedStatus (mr_Status r) cand (sv_AcceptedEvidenceClasses sv) pol).1.2 in
          miss = [] ∨ miss = sv_MissingEvidenceClasses sv) ∧
       (∀ p, (∀ k' l', db_links (cn_db c) !! k' = Some l' → lk_StandardID l' = mr_StandardID r → ParseEvidencePolicy (lk_EvidencePolicy l') = Some p) →
          ∀ k' l' kind, db_links (cn_db c) !! k' = Some l' → lk_StandardID l' = mr_StandardID r → policyFromLink l' kind = pol)).
Proof.
  intros Ha. eexists. split; [by apply ListEvidenceStatuses_run|]. split.
  - intros k r s Hr Hst Hs. eexists. split; [apply list_elem_of_fmap; exists (r, s, accepted_of (mr_ID r) (cn_db c)); split; [done|]|done].
    apply list_elem_of_omap. exists r. rewrite Hs. split; [|done].
    apply elem_of_order_by, elem_of_select. split; [eauto|]. by apply bool_decide_eq_true_2.
  - intros sv ([[r s] acc] & -> & Hin)%list_elem_of_fmap. apply list_elem_of_omap in Hin as (r' & Hr & Hin).
    destruct (db_standards _ !! _) as [s'|] eqn:Hs; [|done]. cbn in Hin. injection Hin as -> -> <-.
    apply elem_of_order_by, elem_of_select in Hr as [[k Hk] Hstu%bool_decide_eq_true_1].
    exists k, r, s. do 3 (split; [done|]). cbv zeta. split_and!; try done.
    + unfold listAcceptedEvidenceClasses. by apply query_Ok.
    + apply missing_for_engine.
    + cbn. rewrite andb_true_iff, !bool_decide_eq_true, missingClasses_engine by (right; right; left). done.
    + intros cand Hc. cbn [evidence_status sv_MissingEvidenceClasses sv_AcceptedEvidenceClasses]. rewrite missing_for_engine. by apply lower_candidate.
    + intros p Hall k' l' kind Hk' Hl'. by eapply one_policy.
Qed.

(** *** The tutor switch *)

(** Switching the tutor off leaves the marker in the student's notes. *)
Lemma tutor_off_is_marked id q c c' st :
  SetStudentTutorEnabled id false q c = (c', Ok st) → has_marker (su_Notes st) = true.
Proof.
  unfold SetStudentTutorEnabled. intros (c1 & s & _ & Hr)%M_bind_Ok. cbn [andb negb] in Hr. cbv zeta in Hr.
  destruct (has_marker (su_Notes s)) eqn:Hm; cbn [negb] in Hr; [by injection Hr as _ <-|].
  apply Update_Ok in Hr as (s' & _ & -> & _). cbn [student_notes su_Notes].
  case_bool_decide; [by vm_compute|].
  unfold has_marker, line_break. apply (ToLower_marked _ (Ascii.ascii_of_nat 10) TutorOffMarker); by vm_compute; lia.
Qed.

(** A student whose notes mention the marker inside a sentence. *)
Definition w_marked : database :=
  set_students (<["s1" := mkStudent "s1" "Ada" "L" None None "tutor:off until May" 0 0]> ∅) w_db.

(** Switching the tutor on removes only lines that hold nothing but the marker: with the marker in
    a longer line the tutor stays off, and the overview says so. *)
Lemma tutor_stays_off :
  match SetStudentTutorEnabled "s1" true w_pool (mkConn w_marked false) with
  | (_, Ok st) => has_marker (su_Notes st)
  | _ => false
  end = true.
Proof. vm_compute. reflexivity. Qed.

(** *** On the sample database *)

Section sample_runs.
#[local] Existing Instance sample_postgres.

(** The evidence the sample's first completion recorded. *)
Definition w_evidence_id : string := default "" (head (elements (dom (db_mastery_evidence (cn_db w_run.1))))).
Definition w_supersede (note : string) := SupersedeMasteryEvidence (λ _, "2026-01-01T00:00:00Z") w_evidence_id note "p1" 500 w_pool w_run.1.
Definition w_rows (r : conn * result err (MasteryEvidence * MasteryEvidence)) : MasteryEvidence * MasteryEvidence :=
  match r.2 with Ok x => x | Err _ => let e := mkMasteryEvidence "" "" "" "" ∅ 0 "" 0 "" "" 0 0 in (e, e) end.

Lemma supersede_sound_witness :
  ∃ ev, db_mastery_evidence (cn_db w_run.1) !! w_evidence_id = Some ev ∧ superseded (me_Context ev) = false ∧
    ∀ recID cls, cls ∈ accepted_of recID (cn_db (w_supersede "typo").1) ↔ cls ∈ accepted_of recID (cn_db w_run.1).
Proof.
  edestruct (supersede_sound (λ _, "2026-01-01T00:00:00Z") w_evidence_id "typo" "p1" 500 w_pool w_run.1
    (w_supersede "typo").1 (w_rows (w_supersede "typo")).1 (w_rows (w_supersede "typo")).2)
    as (ev & Hev & Hs & _ & _ & _ & _ & _ & _ & _ & _ & _ & _ & Hacc & _).
  - discriminate.
  - vm_compute. reflexivity.
  - exists ev. split; [exact Hev|]. split; [exact Hs|]. apply Hacc; [vm_compute; reflexivity|].
    vm_compute in Hev. injection Hev as <-. discriminate.
Defined.

Lemma evidence_report_agrees_witness :
  ∃ sv, ListEvidenceStatusesForStudent "s1" w_pool w_run.1 = (w_run.1, Ok [sv]) ∧
    sv_MissingEvidenceClasses sv = ["conceptual_response"] ∧ sv_FormalMastery sv = false ∧
    listAcceptedEvidenceClasses (sv_MasteryRecordID sv) w_pool w_run.1 = (w_run.1, Ok ["procedural_continuous"]).
Proof.
  destruct (evidence_report_agrees "s1" w_pool w_run.1) as (out & Hout & _ & Hin); [vm_compute; reflexivity|].
  assert (match (ListEvidenceStatusesForStudent "s1" w_pool w_run.1).2 with
          | Ok [sv] => bool_decide (sv_AcceptedEvidenceClasses sv = ["procedural_continuous"] ∧
                                    sv_MissingEvidenceClasses sv = ["conceptual_response"] ∧ sv_FormalMastery sv = false)
          | _ => false end = true) as Hc by (vm_compute; reflexivity).
  rewrite Hout in Hc. cbn [snd] in Hc. destruct out as [|sv [|sv' out]]; [discriminate Hc| |discriminate Hc].
  apply bool_decide_eq_true_1 in Hc as (Hacc & Hmiss & Hformal).
  destruct (Hin sv) as (k & r & s & _ & _ & _ & Hid & _ & Hl & _); [left|]. rewrite Hacc, <-Hid in Hl.
  exists sv. exact (conj Hout (conj Hmiss (conj Hformal Hl))).
Defined.

(** The report after that completion. *)
Example report_after_completion :
  match ListEvidenceStatusesForStudent "s1" w_pool w_run.1 with
  | (_, Ok [sv]) => (sv_EvidenceStatus sv, sv_AcceptedEvidenceClasses sv, sv_MissingEvidenceClasses sv)
  | _ => ("", [], [])
  end = ("additional_evidence_required", ["procedural_continuous"], ["conceptual_response"]).
Proof. vm_compute. reflexivity. Qed.

(** A newer link of the standard with another policy: the report judges by it, the engine by the link of the
    activity the student completed. *)
Example report_policy_differs :
  let d := set_links (<["l9" := mkLearningActivityRevisionStandard "l9" "r9" "st1" "primary" fone "" (EvidencePolicyMap DefaultTypingEvidencePolicy) 99]>
    (db_links (cn_db w_run.1))) (cn_db w_run.1) in
  (λ l, policyFromLink l "terminal") <$> db_links d !! "l1" = Some DefaultTerminalEvidencePolicy ∧
  report_policy d "st1" "CS.TERM.1" = DefaultTypingEvidencePolicy.
Proof. split; vm_compute; reflexivity. Qed.

(** A note that contains the mark makes the replacement count as superseded as well: the class is
    lost, although the correction is meant to keep it. *)
Lemma supersede_note_withdraws :
  accepted_of (me_MasteryRecordID (w_rows (w_supersede "was superseded by parent")).2)
    (cn_db (w_supersede "was superseded by parent").1) = [] ∧
  accepted_of (me_MasteryRecordID (w_rows (w_supersede "was superseded by parent")).2) (cn_db w_run.1) = ["procedural_continuous"].
Proof. split; vm_compute; reflexivity. Qed.
End sample_runs.
