(* ===== verification/Observe.v ===== *)
(** * Command observations ([contracts/shell_event.go], [terminal/observe/observe.go])

    What the student client records about a finished shell command, and how it gets
    there from the lines that the instrumented bash appends to a spool file: the
    tail reader, the tokenizer that finds executable and arguments, the relative
    working directory, the quality flags that decide whether the observation is
    evidence. *)
From S2P Require Import Prelude GoStrings Utf8 Paths.
From Stdlib Require Import Ascii.
From stdpp Require Import options.
Local Open Scope string_scope.
Local Open Scope list_scope.

(** ** The records of [shell_event.go] *)

Definition ShellEventSchemaVersion : string := "1".
Definition CommandObservationSchemaVersion : string := "1".
Definition WorkspaceManifestSchemaVersion : string := "1".

Definition SourceStructured : string := "structured".
Definition SourceObserveBash : string := "observe-bash".
Definition SourcePTYShell : string := "pty-shell".
Definition SourceSyntheticPTY : string := "synthetic-pty".
Definition SourceScreen : string := "screen".

Record Excerpt := mkExcerpt {
  xc_Text : string; xc_SHA256 : string; xc_ByteLen : Z; xc_Truncated : bool; xc_Trusted : bool }.

Record PipelineInfo := mkPipeline {
  pi_Stages : list string; pi_HasPipe : bool; pi_HasRedirectOut : bool; pi_HasRedirectIn : bool }.

Record EvidenceQuality := mkQuality {
  eq_Exit : bool; eq_Cwd : bool; eq_Argv : bool; eq_Stdout : bool; eq_Stderr : bool }.

Definition MeetsStructuredBar (q : EvidenceQuality) : bool := eq_Exit q && eq_Cwd q && eq_Argv q.

Record ShellEvent := mkShellEvent {
  se_SchemaVersion : string; se_SessionID : string; se_Sequence : Z; se_StartedAt : option Z; se_FinishedAt : Z;
  se_SubmittedLine : string; se_Executable : string; se_Argv : list string; se_ArgvAvailable : bool;
  se_CwdBefore : string; se_CwdAfter : string; se_CwdAvailable : bool; se_ExitCode : Z; se_ExitAvailable : bool;
  se_Signal : string; se_Stdout : Excerpt; se_Stderr : Excerpt; se_Pipeline : option PipelineInfo;
  se_ManifestBefore : string; se_ManifestAfter : string; se_WriteSet : list string; se_RunnerVersion : string;
  se_ShellInstrumentation : string; se_VerifierVersion : string; se_Source : string; se_Structured : bool;
  se_Quality : EvidenceQuality }.

Record CommandObservation := mkCommandObservation {
  co_SchemaVersion : string; co_Sequence : Z; co_TaskID : string; co_TaskIndex : Z; co_RecordedAt : Z;
  co_Executable : string; co_Argv : list string; co_ArgvAvailable : bool; co_SubmittedLine : string;
  co_CwdBefore : string; co_CwdAfter : string; co_CwdAvailable : bool; co_ExitCode : Z; co_ExitAvailable : bool;
  co_Stdout : Excerpt; co_Stderr : Excerpt; co_Pipeline : option PipelineInfo; co_ManifestBefore : string;
  co_ManifestAfter : string; co_WriteSet : list string; co_Source : string; co_Structured : bool;
  co_Quality : EvidenceQuality }.

Record WorkspaceManifestEntry := mkManifestEntry {
  wm_Path : string; wm_Type : string; wm_Mode : string; wm_SHA256 : string; wm_Size : Z }.

Record WorkspaceManifest := mkManifest {
  wf_SchemaVersion : string; wf_Digest : string; wf_Entries : list WorkspaceManifestEntry; wf_Truncated : bool }.

Definition ObservationFromShellEvent (ev : ShellEvent) (taskID : string) (taskIndex : Z) : CommandObservation := {|
  co_SchemaVersion := CommandObservationSchemaVersion; co_Sequence := se_Sequence ev; co_TaskID := taskID;
  co_TaskIndex := taskIndex; co_RecordedAt := se_FinishedAt ev; co_Executable := se_Executable ev; co_Argv := se_Argv ev;
  co_ArgvAvailable := se_ArgvAvailable ev; co_SubmittedLine := se_SubmittedLine ev; co_CwdBefore := se_CwdBefore ev;
  co_CwdAfter := se_CwdAfter ev; co_CwdAvailable := se_CwdAvailable ev; co_ExitCode := se_ExitCode ev;
  co_ExitAvailable := se_ExitAvailable ev; co_Stdout := se_Stdout ev; co_Stderr := se_Stderr ev;
  co_Pipeline := se_Pipeline ev; co_ManifestBefore := se_ManifestBefore ev; co_ManifestAfter := se_ManifestAfter ev;
  co_WriteSet := se_WriteSet ev; co_Source := se_Source ev; co_Structured := se_Structured ev; co_Quality := se_Quality ev |}.

(** ** The tokenizer of [observe.go] *)

Definition squote : ascii := ascii_of_nat 39.
Definition dquote : ascii := ascii_of_nat 34.
Definition bslash : ascii := ascii_of_nat 92.

(** [unicode.IsSpace(rune(c))] of a byte: the white space of Latin-1. *)
Definition byte_space (c : ascii) : bool :=
  existsb (λ n, (nat_of_ascii c =? n)%nat) [9; 10; 11; 12; 13; 32; 133; 160].

Definition push (buf : string) (c : ascii) : string := buf +:+ String c "".
Definition flush_token (tokens : list string) (buf : string) : list string :=
  if bool_decide (buf = "") then tokens else tokens ++ [buf].

Fixpoint tokenize_loop (s buf : string) (inSingle inDouble : bool) (tokens : list string) : option (list string) :=
  match s with
  | EmptyString =>
      if inSingle || inDouble then None
      else match flush_token tokens buf with [] => None | l => Some l end
  | String c s' =>
      let otherwise :=
        if bool_decide (c = squote) && negb inDouble then tokenize_loop s' buf (negb inSingle) inDouble tokens
        else if bool_decide (c = dquote) && negb inSingle then tokenize_loop s' buf inSingle (negb inDouble) tokens
        else if byte_space c && negb inSingle && negb inDouble
             then tokenize_loop s' "" inSingle inDouble (flush_token tokens buf)
        else tokenize_loop s' (push buf c) inSingle inDouble tokens in
      if bool_decide (c = bslash) && negb inSingle then
        match s' with
        | String d s'' => tokenize_loop s'' (push buf d) inSingle inDouble tokens
        | EmptyString => otherwise
        end
      else otherwise
  end.

(** [None]: [false] for the second result. *)
Definition tokenize (s : string) : option (list string) :=
  let s := TrimSpace s in
  if bool_decide (s = "") then None else tokenize_loop s "" false false [].

(** The loop over the runes of the line. *)
Fixpoint pipeline_loop (rs buf : list Z) (inSingle inDouble : bool) (parts : list string) : list string :=
  match rs with
  | [] =>
      let s := TrimSpace (string_of_runes buf) in
      if negb (bool_decide (s = "")) || negb (bool_decide (parts = [])) then parts ++ [s] else parts
  | r :: rs' =>
      if bool_decide (r = 39%Z) && negb inDouble then pipeline_loop rs' (buf ++ [r]) (negb inSingle) inDouble parts
      else if bool_decide (r = 34%Z) && negb inSingle then pipeline_loop rs' (buf ++ [r]) inSingle (negb inDouble) parts
      else if bool_decide (r = 124%Z) && negb inSingle && negb inDouble
           then pipeline_loop rs' [] inSingle inDouble (parts ++ [TrimSpace (string_of_runes buf)])
      else pipeline_loop rs' (buf ++ [r]) inSingle inDouble parts
  end.

Definition splitPipeline (line : string) : list string := pipeline_loop (runes line) [] false false [].

Definition redirections : list string := [">"; ">>"; "<"; "2>"; "2>>"; "&>"; ">&"].

Definition ascii_digit (c : ascii) : bool := (48 <=? nat_of_ascii c)%nat && (nat_of_ascii c <=? 57)%nat.

(** A redirection glued to its target: [2>f], [>f], [<f], [1>f]. *)
Definition glued_redirection (t : string) : bool :=
  HasPrefix t "2>" || HasPrefix t ">" || HasPrefix t "<" ||
  match t with
  | String a (String b _) => ascii_digit a && (bool_decide (b = ascii_of_nat 62) || bool_decide (b = ascii_of_nat 60))
  | _ => false
  end.

Fixpoint dropRedirs (toks : list string) : list string :=
  match toks with
  | [] => []
  | t :: rest =>
      if bool_decide (t ∈ redirections) then match rest with [] => [] | _ :: rest' => dropRedirs rest' end
      else if glued_redirection t then dropRedirs rest
      else t :: dropRedirs rest
  end.

(** The executables of the stages; [None] when a stage has no words. *)
Fixpoint stage_names (stages : list string) : option (list string) :=
  match stages with
  | [] => Some []
  | st :: rest =>
      match tokenize st with
      | None => None
      | Some toks => match dropRedirs toks with [] => None | t :: _ => (t ::.) <$> stage_names rest end
      end
  end.

(** The stages recorded before the first that has none. *)
Fixpoint stage_names_until (stages : list string) : list string :=
  match stages with
  | [] => []
  | st :: rest =>
      match dropRedirs (default [] (tokenize st)) with [] => [] | t :: _ => t :: stage_names_until rest end
  end.

Record parsed := mkParsed { pa_exe : string; pa_argv : list string; pa_ok : bool; pa_pipe : option PipelineInfo }.

Definition unparsed (p : option PipelineInfo) : parsed := mkParsed "" [] false p.

Definition ParseCommandLine (line : string) : parsed :=
  let line := TrimSpace line in
  if bool_decide (line = "") then unparsed None
  else if ContainsAny line "`" || Contains line "$(" || Contains line "${" then unparsed (Some (mkPipeline [] false false false))
  else
    let stages := splitPipeline line in
    let pipe := mkPipeline (stage_names_until stages) (Contains line "|") (Contains line ">") (Contains line "<") in
    match stage_names stages, stages with
    | None, _ | _, [] => unparsed (Some pipe)
    | Some _, st :: _ =>
        match dropRedirs (default [] (tokenize st)) with
        | [] => unparsed (Some pipe)
        | exe :: argv => mkParsed exe argv true (Some pipe)
        end
    end.

(** ** Excerpts *)

Definition MaxSubmittedLine : nat := 1024.
Definition MaxExcerptBytes : nat := 2048.

(** [s[:n]] *)
Definition take_bytes (n : nat) (s : string) : string := String.substring 0 n s.

Definition BoundExcerpt (sha256_hex : string → string) (full : string) (trusted : bool) : Excerpt :=
  if bool_decide (String.length full ≤ MaxExcerptBytes)%nat
  then mkExcerpt full (sha256_hex full) (Z.of_nat (String.length full)) false trusted
  else mkExcerpt (take_bytes MaxExcerptBytes full) (sha256_hex full) (Z.of_nat (String.length full)) true trusted.

(** ** The reader of the spool file *)

Definition InstrumentationVersion : string := "observe-bash/1".

Record rawEvent := mkRawEvent {
  rw_V : Z; rw_Cmd : string; rw_CwdBefore : string; rw_CwdAfter : string; rw_Exit : Z; rw_TS : Z }.

Record Reader := mkReader {
  rd_path : string; rd_offset : nat; rd_seq : Z; rd_Workspace : string; rd_SandboxWorkspace : string;
  rd_SessionID : string; rd_RunnerVersion : string; rd_VerifierVersion : string }.

Definition relCwd (r : Reader) (cwd : string) : string :=
  let cwd := TrimSpace cwd in
  let sand := rd_SandboxWorkspace r in
  let relative := if IsAbs cwd then "" else Clean cwd in
  let host :=
    if bool_decide (rd_Workspace r = "") then relative
    else match Rel (rd_Workspace r) cwd with
         | Some rel => if HasPrefix rel ".." then relative else if bool_decide (rel = "") then "." else rel
         | None => relative
         end in
  if bool_decide (cwd = "") then ""
  else if bool_decide (sand = "") then host
  else if bool_decide (cwd = sand) then "."
  else if HasPrefix cwd (sand +:+ "/") then TrimPrefix cwd (sand +:+ "/")
  else host.

Definition toShellEvent (r : Reader) (now : Z) (raw : rawEvent) : ShellEvent :=
  let line := if bool_decide (MaxSubmittedLine < String.length (rw_Cmd raw))%nat
              then take_bytes MaxSubmittedLine (rw_Cmd raw) else rw_Cmd raw in
  let p := ParseCommandLine line in
  let cwdAfter := relCwd r (rw_CwdAfter raw) in
  let q := mkQuality true (negb (bool_decide (cwdAfter = "")) || negb (bool_decide (rw_CwdAfter raw = ""))) (pa_ok p) false false in
  {| se_SchemaVersion := ShellEventSchemaVersion; se_SessionID := rd_SessionID r; se_Sequence := rd_seq r;
     se_StartedAt := None; se_FinishedAt := if bool_decide (0 < rw_TS raw)%Z then (rw_TS raw * 1000000000)%Z else now;
     se_SubmittedLine := line; se_Executable := pa_exe p; se_Argv := pa_argv p; se_ArgvAvailable := pa_ok p;
     se_CwdBefore := relCwd r (rw_CwdBefore raw); se_CwdAfter := cwdAfter; se_CwdAvailable := eq_Cwd q;
     se_ExitCode := rw_Exit raw; se_ExitAvailable := true; se_Signal := "";
     se_Stdout := mkExcerpt "" "" 0 false false; se_Stderr := mkExcerpt "" "" 0 false false; se_Pipeline := pa_pipe p;
     se_ManifestBefore := ""; se_ManifestAfter := ""; se_WriteSet := []; se_RunnerVersion := rd_RunnerVersion r;
     se_ShellInstrumentation := InstrumentationVersion; se_VerifierVersion := rd_VerifierVersion r;
     se_Source := SourceObserveBash; se_Structured := MeetsStructuredBar q; se_Quality := q |}.

Definition reader_seq (n : Z) (r : Reader) : Reader :=
  mkReader (rd_path r) (rd_offset r) n (rd_Workspace r) (rd_SandboxWorkspace r) (rd_SessionID r) (rd_RunnerVersion r) (rd_VerifierVersion r).
Definition reader_offset (n : nat) (r : Reader) : Reader :=
  mkReader (rd_path r) n (rd_seq r) (rd_Workspace r) (rd_SandboxWorkspace r) (rd_SessionID r) (rd_RunnerVersion r) (rd_VerifierVersion r).

(** The longest line [bufio.Scanner] takes with the buffer the reader gives it. *)
Definition MaxScanLine : nat := Z.to_nat (1024 * 1024).

(** [bufio.ScanLines]: lines end at a line feed, a carriage return before it is dropped, and
    what is left at the end of the file is a line too. *)
Definition strip_cr (s : string) : string :=
  match srev s with String c s' => if bool_decide (c = ascii_of_nat 13) then srev s' else s | EmptyString => s end.

Definition raw_lines (content : string) : list string :=
  match rev (Split content (bytes [10])) with "" :: l => rev l | l => rev l end.

Section drain.
(** [json.Unmarshal] of a line into [rawEvent]. *)
Context (unmarshal : string → option rawEvent) (now : Z).

(** The loop over the lines; [false] when a line does not fit the scanner's buffer. *)
Fixpoint drain_loop (lines : list string) (r : Reader) (out : list ShellEvent) : Reader * list ShellEvent * bool :=
  match lines with
  | [] => (r, out, true)
  | l :: rest =>
      if bool_decide (MaxScanLine ≤ String.length l)%nat then (r, out, false)
      else
        let line := TrimSpace (strip_cr l) in
        let skip := drain_loop rest r out in
        if bool_decide (line = "") then skip
        else match unmarshal line with
             | None => skip
             | Some raw =>
                 if negb (bool_decide (rw_V raw = 1%Z)) || blank (rw_Cmd raw) then skip
                 else let r := reader_seq (rd_seq r + 1) r in drain_loop rest r (out ++ [toShellEvent r now raw])
             end
  end.

(** [content] is the spool file, [None] when there is none.  The last result is false
    when the reader returns an error beside the events. *)
Definition Drain (r : Reader) (content : option string) : Reader * list ShellEvent * bool :=
  if bool_decide (rd_path r = "") then (r, [], true)
  else match content with
       | None => (r, [], true)
       | Some s =>
           let unread := String.substring (rd_offset r) (String.length s - rd_offset r) s in
           match drain_loop (raw_lines unread) r [] with
           | (r', out, true) => (reader_offset (Nat.max (rd_offset r) (String.length s)) r', out, true)
           | res => res
           end
       end.
End drain.

(** ** Examples *)

Example parse_ex : ParseCommandLine "grep -n 'two words' notes.txt > out.txt" =
  mkParsed "grep" ["-n"; "two words"; "notes.txt"] true (Some (mkPipeline ["grep"] false true false)).
Proof. vm_compute. reflexivity. Qed.

Example parse_pipe_ex : ParseCommandLine "cat a.txt | sort | uniq -c" =
  mkParsed "cat" ["a.txt"] true (Some (mkPipeline ["cat"; "sort"; "uniq"] true false false)).
Proof. vm_compute. reflexivity. Qed.
