(* ===== verification/TerminalVerify.v ===== *)
(** * Terminal checks ([terminal/verify.go], [history.go], [event.go], [manifest.go])

    How the student client decides whether a check of a terminal activity passes:
    on the files of the workspace, on the working directory, and on the commands
    the student ran, which must have been observed by trusted instrumentation.  The
    command history is bounded and knows where each task began.

    The file system is a view, what the system calls answer at one moment; Go's
    regular expressions, SHA-256 and the JSON text of a manifest are parameters. *)
From S2P Require Import Prelude GoStrings Paths Contracts Float64 LmsDb ActivityDoc Observe.
From Stdlib Require Import Ascii.
From stdpp Require Import options.
Local Open Scope string_scope.
Local Open Scope list_scope.

(** ** What the code calls *)

(** [regexp.Compile]: the matcher of a pattern, or the error. *)
Class GoRegexp := { regexp_Compile : string → result string (string → bool) }.

(** What validation asks of a pattern. *)
#[export] Instance regexp_syntax `{!GoRegexp} : RegexpSyntax :=
  {| compile_error := λ p, match regexp_Compile p with Ok _ => None | Err e => Some e end |}.

Record FileInfo := mkFileInfo { fi_Symlink : bool; fi_Dir : bool; fi_Regular : bool; fi_Perm : Z; fi_Size : Z }.

(** An error of a system call: whether [os.IsNotExist] holds of it, and its text. *)
Record os_error := mkOsError { oe_NotExist : bool; oe_Text : string }.

(** A file [filepath.WalkDir] visits: its path, [d.Info()] and the digest of its bytes. *)
Record walked := mkWalked { wk_Path : string; wk_Info : option FileInfo; wk_Hash : option string }.

Record fs_view := mkView {
  os_Lstat : string → result os_error FileInfo;
  os_Stat : string → result os_error FileInfo;
  os_ReadFile : string → result os_error string;
  os_Walk : string → list walked }.

(** ** The command history ([history.go]) *)

Definition MaxHistoryEvents : nat := 200.

(** A nil map reads like an empty one. *)
Record History := mkHistory { hi_Events : list CommandObservation; hi_TaskStartSeq : gmap Z Z }.

Definition Append (h : History) (obs : CommandObservation) : History :=
  let events := hi_Events h ++ [obs] in
  mkHistory (if bool_decide (MaxHistoryEvents < length events)%nat then drop (length events - MaxHistoryEvents) events else events)
    (hi_TaskStartSeq h).

Definition MarkTaskStart (h : History) (taskIndex nextSeq : Z) : History :=
  match hi_TaskStartSeq h !! taskIndex with
  | Some _ => h
  | None => mkHistory (hi_Events h) (<[taskIndex := nextSeq]> (hi_TaskStartSeq h))
  end.

Definition SinceTask (h : History) (taskIndex : Z) : list CommandObservation :=
  let minSeq := default 0%Z (hi_TaskStartSeq h !! taskIndex) in
  filter (λ e, (minSeq ≤ co_Sequence e)%Z) (hi_Events h).

Definition Last (h : History) : option CommandObservation := last (hi_Events h).

Record CommandMatch := mkMatch {
  cm_Executable : string; cm_Args : list string; cm_ArgsSet : bool; cm_ExitCode : option Z; cm_RequireSuccess : bool;
  cm_StdoutEquals : string; cm_StdoutContains : string; cm_StdoutPattern : string;
  cm_StderrEquals : string; cm_StderrContains : string; cm_StderrPattern : string;
  cm_RequireStructured : bool; cm_RequireStdoutTrusted : bool; cm_RequireStderrTrusted : bool }.

(** [strings.ReplaceAll(s, CR LF, LF)] and [strings.TrimRight] of line feeds. *)
Definition CRLF : string := bytes [13; 10].
Definition LF : string := bytes [10].

Fixpoint trim_lf (l : list ascii) : list ascii :=
  match l with c :: l' => if bool_decide (c = ascii_of_nat 10) then trim_lf l' else l | [] => [] end.

Definition normalizeOutput (s : string) : string :=
  let s := GoStrings.Join (Split s CRLF) LF in
  String.string_of_list_ascii (rev (trim_lf (rev (String.list_ascii_of_string s)))).

Definition executableEqual (got want : string) : bool :=
  bool_decide (got = want) ||
  (bool_decide (filepath_Base got = want) || bool_decide (filepath_Base want = got)) ||
  bool_decide (filepath_Base got = filepath_Base want) ||
  (let g := TrimPrefix got "/usr" in
   let w := TrimPrefix want "/usr" in
   bool_decide (g = w) || bool_decide (filepath_Base g = filepath_Base w)).

Definition argEquivalent (got want : string) : bool :=
  let cg := Clean got in
  let cw := Clean want in
  bool_decide (got = want) || bool_decide (cg = cw) ||
  (bool_decide (filepath_Base cg = filepath_Base cw) && (Contains got "/" || Contains want "/") &&
   bool_decide (TrimPrefix cg "./" = TrimPrefix cw "./")).

Fixpoint argsEquivalent (got want : list string) : bool :=
  match got, want with
  | [], [] => true
  | g :: got', w :: want' => argEquivalent g w && argsEquivalent got' want'
  | _, _ => false
  end.

Definition untrusted_source (source : string) : bool :=
  bool_decide (source = SourcePTYShell) || bool_decide (source = SourceSyntheticPTY) || bool_decide (source = SourceScreen).

Section verify.
Context `{!GoRegexp}.

(** The expectations on one of the two output streams. *)
Definition matchStream (x : Excerpt) (requireTrusted : bool) (equals contains pattern : string) : bool :=
  if bool_decide (equals = "") && bool_decide (contains = "") && bool_decide (pattern = "") then true
  else
    (negb requireTrusted || xc_Trusted x) &&
    (let out := normalizeOutput (xc_Text x) in
     (bool_decide (equals = "") || bool_decide (out = normalizeOutput equals)) &&
     (bool_decide (contains = "") || Contains out (normalizeOutput contains)) &&
     (bool_decide (pattern = "") || match regexp_Compile pattern with Ok re => re out | Err _ => false end)).

Definition matchObservation (e : CommandObservation) (m : CommandMatch) : bool :=
  (negb (cm_RequireStructured m) ||
     (co_Structured e && MeetsStructuredBar (co_Quality e) && negb (untrusted_source (co_Source e)))) &&
  (bool_decide (cm_Executable m = "") ||
     ((co_ArgvAvailable e || negb (bool_decide (co_Executable e = ""))) && executableEqual (co_Executable e) (cm_Executable m))) &&
  (negb (cm_ArgsSet m) || (co_ArgvAvailable e && argsEquivalent (co_Argv e) (cm_Args m))) &&
  match cm_ExitCode m with
  | Some code => co_ExitAvailable e && bool_decide (co_ExitCode e = code)
  | None => negb (cm_RequireSuccess m) || (co_ExitAvailable e && bool_decide (co_ExitCode e = 0%Z))
  end &&
  matchStream (co_Stdout e) (cm_RequireStdoutTrusted m) (cm_StdoutEquals m) (cm_StdoutContains m) (cm_StdoutPattern m) &&
  matchStream (co_Stderr e) (cm_RequireStderrTrusted m) (cm_StderrEquals m) (cm_StderrContains m) (cm_StderrPattern m).

Definition FindMatch (h : History) (taskIndex : Z) (m : CommandMatch) : option CommandObservation :=
  head (filter (λ e, matchObservation e m = true) (SinceTask h taskIndex)).

(** ** Shell state and single checks ([verify.go]) *)

Record ShellState := mkShell {
  sh_Cwd : string; sh_Executable : string; sh_Args : list string; sh_ExitCode : Z; sh_Stdout : string; sh_Stderr : string;
  sh_StructuredCommandEvidence : bool; sh_Source : string; sh_History : option History; sh_TaskIndex : Z;
  sh_ManifestDigest : string; sh_SubmittedTasks : gset string }.

Definition ShellStateFromObservation (o : CommandObservation) : ShellState :=
  mkShell (co_CwdAfter o) (co_Executable o) (co_Argv o) (co_ExitCode o) (xc_Text (co_Stdout o)) (xc_Text (co_Stderr o))
    (co_Structured o && MeetsStructuredBar (co_Quality o)) (co_Source o) None 0 "" ∅.

(** [params[key].(string)] with the error of the verifier. *)
Definition stringParam (params : jmap) (key : string) : result string string :=
  match params !! key with
  | None | Some JNull => Err ("params." +:+ key +:+ " is required")
  | Some (JStr s) => Ok s
  | Some _ => Err ("params." +:+ key +:+ " must be a string")
  end.

Definition pathParam (params : jmap) (key : string) : result string string :=
  s ← stringParam params key; _ ← safe_path s; Ok s.

Definition pathAndString (params : jmap) (valueKey : string) : result string (string * string) :=
  p ← pathParam params "path"; v ← stringParam params valueKey; Ok (p, v).

(** [JoinUnder] with the text of its error. *)
Definition join_under (root rel : string) : result string string :=
  match JoinUnder root rel with
  | Ok p => Ok p
  | Err RootNotAbsolute => Err (path_reason RootNotAbsolute)
  | Err e => Err ("unsafe path " +:+ go_quote rel +:+ ": " +:+ path_reason e)
  end.

Definition readWorkspaceFile (v : fs_view) (root rel : string) : result string string :=
  full ← join_under root rel;
  match os_ReadFile v full with Ok b => Ok b | Err e => Err ("read " +:+ rel +:+ ": " +:+ oe_Text e) end.

Definition pathTypeOf (st : FileInfo) : string :=
  if fi_Symlink st then "symlink" else if fi_Dir st then "directory" else "file".

Definition asStringSlice (v : json) : result string (list string) :=
  match v with
  | JArr l => match strings_of l with Some out => Ok out | None => Err "string list element is not string" end
  | _ => Err "expected string list"
  end.

Definition asInt (v : json) : result string Z :=
  match v with JInt z => Ok z | JNum n => Ok (f64_trunc n) | _ => Err "expected int" end.

(** [s[:n] + "…"] *)
Definition truncate (s : string) (n : nat) : string :=
  if bool_decide (String.length s ≤ n)%nat then s else take_bytes n s +:+ bytes [226; 128; 166].

Definition str_or_empty (params : jmap) (key : string) : string := default "" (jget_str params key).
Definition is_str (params : jmap) (key : string) : bool := match jget_str params key with Some _ => true | None => false end.

Definition commandMatchFromParams (params : jmap) (requireStructured : bool) : result string CommandMatch :=
  exe ← stringParam params "executable";
  args ← match params !! "args" with Some raw => l ← asStringSlice raw; Ok (Some l) | None => Ok None end;
  code ← match params !! "exitCode" with Some raw => z ← asInt raw; Ok (Some z) | None => Ok None end;
  Ok {| cm_Executable := exe; cm_Args := default [] args; cm_ArgsSet := match args with Some _ => true | None => false end;
        cm_ExitCode := code; cm_RequireSuccess := match code with Some _ => false | None => true end;
        cm_StdoutEquals := str_or_empty params "stdoutEquals"; cm_StdoutContains := str_or_empty params "stdoutContains";
        cm_StdoutPattern := str_or_empty params "stdoutPattern"; cm_StderrEquals := str_or_empty params "stderrEquals";
        cm_StderrContains := str_or_empty params "stderrContains"; cm_StderrPattern := str_or_empty params "stderrPattern";
        cm_RequireStructured := requireStructured;
        cm_RequireStdoutTrusted := is_str params "stdoutContains" || is_str params "stdoutEquals" || is_str params "stdoutPattern";
        cm_RequireStderrTrusted := is_str params "stderrContains" || is_str params "stderrEquals" || is_str params "stderrPattern" |}.

Definition pipelineMatchFromParams (params : jmap) : result string CommandMatch :=
  let m := {| cm_Executable := ""; cm_Args := []; cm_ArgsSet := false; cm_ExitCode := None; cm_RequireSuccess := false;
              cm_StdoutEquals := str_or_empty params "value"; cm_StdoutContains := str_or_empty params "contains";
              cm_StdoutPattern := str_or_empty params "pattern"; cm_StderrEquals := ""; cm_StderrContains := "";
              cm_StderrPattern := ""; cm_RequireStructured := true; cm_RequireStdoutTrusted := true;
              cm_RequireStderrTrusted := false |} in
  if bool_decide (cm_StdoutEquals m = "") && bool_decide (cm_StdoutContains m = "") && bool_decide (cm_StdoutPattern m = "")
  then Err "no output expectation" else Ok m.

Definition historyHasStructured (h : option History) (taskIndex : Z) : bool :=
  match h with
  | None => false
  | Some h => existsb (λ e, co_Structured e && MeetsStructuredBar (co_Quality e)) (SinceTask h taskIndex)
  end.

(** The keys of a Go map of integers in the order [range] visits them. *)
Context (range_tasks : gmap Z Z → list Z).

Definition findHistoryMatch (shell : ShellState) (m : CommandMatch) : option CommandObservation :=
  match sh_History shell with
  | None => None
  | Some h =>
      match FindMatch h (sh_TaskIndex shell) m with
      | Some hit => Some hit
      | None =>
          match (if bool_decide (sh_TaskIndex shell = 0%Z) then None else FindMatch h 0 m) with
          | Some hit => Some hit
          | None =>
              head (omap (λ idx, if bool_decide (idx = sh_TaskIndex shell) || bool_decide (idx = 0%Z) then None else FindMatch h idx m)
                (range_tasks (hi_TaskStartSeq h)))
          end
      end
  end.

(** What a check found: passed, message, details ([None] for nil). *)
Definition verdict : Type := bool * string * option jmap.
Definition path_detail (p : string) : jmap := <["path" := JStr p]> ∅.

Definition checkFileExists (v : fs_view) (root : string) (params : jmap) : result string verdict :=
  p ← pathParam params "path";
  full ← join_under root p;
  Ok (match os_Lstat v full with
      | Ok _ => (true, "exists", Some (path_detail p))
      | Err _ => (false, "path does not exist", Some (path_detail p))
      end).

Definition checkFileNotExists (v : fs_view) (root : string) (params : jmap) : result string verdict :=
  p ← pathParam params "path";
  full ← join_under root p;
  match os_Lstat v full with
  | Ok _ => Ok (false, "path still exists", Some (path_detail p))
  | Err e => if oe_NotExist e then Ok (true, "absent", Some (path_detail p)) else Err (oe_Text e)
  end.

Definition checkContent (v : fs_view) (root p : string) (ok : string → bool) (yes no : string) : verdict :=
  match readWorkspaceFile v root p with
  | Err e => (false, e, Some (path_detail p))
  | Ok got => (ok got, if ok got then yes else no, Some (path_detail p))
  end.

Definition checkContentMatch (v : fs_view) (root : string) (params : jmap) : result string verdict :=
  p ← pathParam params "path";
  pat ← stringParam params "pattern";
  re ← regexp_Compile pat;
  Ok (checkContent v root p re "content matches" "pattern not matched").

Definition checkPathType (v : fs_view) (root : string) (params : jmap) : result string verdict :=
  p ← pathParam params "path";
  want ← stringParam params "type";
  full ← join_under root p;
  Ok (match os_Lstat v full with
      | Err _ => (false, "path does not exist", Some (path_detail p))
      | Ok st =>
          let got := pathTypeOf st in
          let details := <["type" := JStr got]> (path_detail p) in
          if bool_decide (got = want) then (true, "type ok", Some details)
          else (false, "want type " +:+ want +:+ " got " +:+ got, Some details)
      end).

(** [%04o] *)
Fixpoint octal_digits (fuel : nat) (n : Z) (acc : string) : string :=
  match fuel with
  | O => acc
  | S f => octal_digits f (n / 8) (String (ascii_of_nat (48 + Z.to_nat (n mod 8))) acc)
  end.
Definition octal_text (n : Z) : string := octal_digits 4 n "".

Definition checkPathMode (v : fs_view) (root : string) (params : jmap) : result string verdict :=
  p ← pathParam params "path";
  modeStr ← stringParam params "mode";
  want ← ParseMode modeStr;
  full ← join_under root p;
  Ok (match os_Lstat v full with
      | Err _ => (false, "path does not exist", Some (path_detail p))
      | Ok st =>
          let got := fi_Perm st in
          let details := <["mode" := JStr (octal_text got)]> (path_detail p) in
          if bool_decide (Z.land got 511 = Z.land want 511) then (true, "mode ok", Some details)
          else (false, "want mode " +:+ modeStr +:+ " got " +:+ octal_text got, Some details)
      end).

Definition checkCwd (root : string) (params : jmap) (shell : option ShellState) : result string verdict :=
  p ← pathParam params "path";
  match shell with
  | Some sh =>
      if bool_decide (sh_Cwd sh = "") then Ok (false, "no shell cwd available", Some (path_detail p))
      else
        wantFull ← join_under root p;
        let got := Clean (sh_Cwd sh) in
        let details := <["cwd" := JStr got]> (path_detail p) in
        if bool_decide (got = Clean wantFull) then Ok (true, "cwd ok", Some details)
        else match Rel root got with
             | Some rel => if bool_decide (Clean rel = Clean p) then Ok (true, "cwd ok", Some details)
                           else Ok (false, "cwd mismatch", Some details)
             | None => Ok (false, "cwd mismatch", Some details)
             end
  | None => Ok (false, "no shell cwd available", Some (path_detail p))
  end.

(** The guard on the latest observation when there is no history. *)
Definition untrusted_shell (sh : ShellState) : bool :=
  negb (sh_StructuredCommandEvidence sh) || bool_decide (sh_Executable sh = "pty-shell") || untrusted_source (sh_Source sh).

Definition manifest_detail (digest : string) : jmap :=
  if bool_decide (digest = "") then ∅ else <["workspaceManifestDigest" := JStr digest]> ∅.

Definition command_detail (exe : string) (args : list string) (code : Z) (d : jmap) : jmap :=
  <["exitCode" := JInt code]> (<["args" := JArr (JStr <$> args)]> (<["executable" := JStr exe]> d)).

Definition evidence_detail (source : string) (structured : bool) (d : jmap) : jmap :=
  <["structuredCommandEvidence" := JBool structured]> (<["source" := JStr source]> d).

Definition capability (c : string) (d : jmap) : jmap := <["capability" := JStr c]> d.

Definition has_history (sh : ShellState) : bool := match sh_History sh with Some h => negb (bool_decide (hi_Events h = [])) | None => false end.

Definition shell_observation (sh : ShellState) : CommandObservation := {|
  co_SchemaVersion := ""; co_Sequence := 0; co_TaskID := ""; co_TaskIndex := 0; co_RecordedAt := 0;
  co_Executable := sh_Executable sh; co_Argv := sh_Args sh;
  co_ArgvAvailable := negb (bool_decide (sh_Executable sh = "")) || negb (bool_decide (sh_Args sh = []));
  co_SubmittedLine := ""; co_CwdBefore := ""; co_CwdAfter := ""; co_CwdAvailable := false;
  co_ExitCode := sh_ExitCode sh; co_ExitAvailable := true;
  co_Stdout := mkExcerpt (sh_Stdout sh) "" 0 false true; co_Stderr := mkExcerpt (sh_Stderr sh) "" 0 false true;
  co_Pipeline := None; co_ManifestBefore := ""; co_ManifestAfter := ""; co_WriteSet := [];
  co_Source := sh_Source sh; co_Structured := sh_StructuredCommandEvidence sh;
  co_Quality := mkQuality true (negb (bool_decide (sh_Cwd sh = ""))) true true true |}.

Definition checkCommandProperties (params : jmap) (shell : option ShellState) : result string verdict :=
  match shell with
  | None => Ok (false, "no command observation available", None)
  | Some sh =>
      let details := manifest_detail (sh_ManifestDigest sh) in
      m ← commandMatchFromParams params true;
      if has_history sh then
        match findHistoryMatch sh m with
        | Some hit =>
            let d := <["sequence" := JInt (co_Sequence hit)]> (command_detail (co_Executable hit) (co_Argv hit) (co_ExitCode hit)
                       (capability CapStructuredCommandEvidence (evidence_detail (co_Source hit) (co_Structured hit) details))) in
            Ok (true, "command ok (history)",
                Some (if bool_decide (co_ManifestAfter hit = "") then d else <["workspaceManifestDigest" := JStr (co_ManifestAfter hit)]> d))
        | None =>
            let d := evidence_detail (sh_Source sh) false details in
            if negb (historyHasStructured (sh_History sh) 0)
            then Ok (false, "structured command evidence unavailable", Some (capability "" d))
            else Ok (false, "no matching command in task history", Some d)
        end
      else
        let d := evidence_detail (sh_Source sh) (sh_StructuredCommandEvidence sh) details in
        if untrusted_shell sh then Ok (false, "structured command evidence unavailable", Some (capability "" d))
        else
          let d := command_detail (sh_Executable sh) (sh_Args sh) (sh_ExitCode sh) (capability CapStructuredCommandEvidence d) in
          if matchObservation (shell_observation sh) m then Ok (true, "command ok", Some d) else Ok (false, "command mismatch", Some d)
  end.

(** The observation the pipeline check makes of the shell: every quality is taken as given. *)
Definition pipeline_observation (sh : ShellState) : CommandObservation := {|
  co_SchemaVersion := ""; co_Sequence := 0; co_TaskID := ""; co_TaskIndex := 0; co_RecordedAt := 0; co_Executable := "";
  co_Argv := []; co_ArgvAvailable := false; co_SubmittedLine := ""; co_CwdBefore := ""; co_CwdAfter := "";
  co_CwdAvailable := false; co_ExitCode := sh_ExitCode sh; co_ExitAvailable := true;
  co_Stdout := mkExcerpt (sh_Stdout sh) "" 0 false true; co_Stderr := mkExcerpt "" "" 0 false false; co_Pipeline := None;
  co_ManifestBefore := ""; co_ManifestAfter := ""; co_WriteSet := []; co_Source := sh_Source sh; co_Structured := true;
  co_Quality := mkQuality true true true true true |}.

Definition stdout_detail (out : string) (d : jmap) : jmap := <["stdoutNorm" := JStr (truncate (normalizeOutput out) 256)]> d.

Definition checkPipelineOutput (params : jmap) (shell : option ShellState) : result string verdict :=
  match shell with
  | None => Ok (false, "no pipeline observation available", None)
  | Some sh =>
      let details := manifest_detail (sh_ManifestDigest sh) in
      m ← pipelineMatchFromParams params;
      if has_history sh then
        match findHistoryMatch sh m with
        | Some hit =>
            Ok (true, "output ok (history)",
                Some (<["sequence" := JInt (co_Sequence hit)]> (stdout_detail (xc_Text (co_Stdout hit))
                  (capability CapStructuredCommandEvidence (evidence_detail (co_Source hit) (co_Structured hit) details)))))
        | None =>
            let d := <["source" := JStr (sh_Source sh)]> details in
            if negb (historyHasStructured (sh_History sh) 0)
            then Ok (false, "structured command evidence unavailable", Some (capability "" d))
            else Ok (false, "no matching output in task history", Some d)
        end
      else
        let d := evidence_detail (sh_Source sh) (sh_StructuredCommandEvidence sh) details in
        if untrusted_shell sh then Ok (false, "structured command evidence unavailable", Some (capability "" d))
        else
          let d := capability CapStructuredCommandEvidence d in
          if cm_RequireStdoutTrusted m && negb (bool_decide (sh_Source sh = SourceStructured))
          then Ok (false, "stdout not trusted for pipeline check", Some d)
          else
            let d := stdout_detail (sh_Stdout sh) d in
            if matchObservation (pipeline_observation sh) m then Ok (true, "output ok", Some d) else Ok (false, "output mismatch", Some d)
  end.

Definition checkResponseSubmitted (params : jmap) (shell : option ShellState) : result string verdict :=
  taskID ← match stringParam params "taskId" with Ok t => Ok t | Err _ => stringParam params "task_id" end;
  let details := <["taskId" := JStr taskID]> (∅ : jmap) in
  Ok (if match shell with Some sh => bool_decide (taskID ∈ sh_SubmittedTasks sh) | None => false end
      then (true, "response submitted", Some details) else (false, "response not submitted", Some details)).

Definition evalCheck (v : fs_view) (root : string) (check : Check) (shell : option ShellState) : result string verdict :=
  let params := ck_Params check in
  let kind := ck_Kind check in
  if bool_decide (kind = CheckFileExists) then checkFileExists v root params
  else if bool_decide (kind = CheckFileNotExists) then checkFileNotExists v root params
  else if bool_decide (kind = CheckContentEquals) then
    x ← pathAndString params "value"; Ok (checkContent v root x.1 (λ got, bool_decide (got = x.2)) "content equals" "content mismatch")
  else if bool_decide (kind = CheckContentContains) then
    x ← pathAndString params "value"; Ok (checkContent v root x.1 (λ got, Contains got x.2) "content contains" "substring not found")
  else if bool_decide (kind = CheckContentMatch) then checkContentMatch v root params
  else if bool_decide (kind = CheckPathType) then checkPathType v root params
  else if bool_decide (kind = CheckPathMode) then checkPathMode v root params
  else if bool_decide (kind = CheckCwd) then checkCwd root params shell
  else if bool_decide (kind = CheckCommandProperties) then checkCommandProperties params shell
  else if bool_decide (kind = CheckPipelineOutput) then checkPipelineOutput params shell
  else if bool_decide (kind = CheckResponseSubmitted) then checkResponseSubmitted params shell
  else Err ("unknown check kind " +:+ go_quote kind).

Definition VerifierVersion : string := "2".

Definition VerifyCheck (v : fs_view) (root : string) (check : Check) (shell : option ShellState) (now : Z) : Observation :=
  match evalCheck v root check shell with
  | Err e => mkObservation "1" (ck_ID check) (ck_Kind check) false (ck_Optional check) e now (Some ∅)
  | Ok (passed, msg, details) =>
      mkObservation "1" (ck_ID check) (ck_Kind check) passed (ck_Optional check) msg now (Some (default ∅ details))
  end.

Definition VerifyAll (v : fs_view) (root : string) (checks : list Check) (shell : option ShellState) (now : Z) : list Observation :=
  (λ ch, VerifyCheck v root ch shell now) <$> checks.
End verify.

(** ** Completion trees on the client *)

Section tree_loops.
Context {A : Type} (f : A → bool * string).

Fixpoint all_loop (l : list A) : bool * string :=
  match l with [] => (true, "") | c :: l' => let r := f c in if r.1 then all_loop l' else (false, r.2) end.

Fixpoint any_loop (l : list A) (msgs : list string) : bool * string :=
  match l with
  | [] => (false, "none of any-branch passed: " +:+ GoStrings.Join msgs "; ")
  | c :: l' => let r := f c in
               if r.1 then (true, "") else any_loop l' (if bool_decide (r.2 = "") then msgs else msgs ++ [r.2])
  end.

Lemma all_loop_true l : (all_loop l).1 = true → ∀ c, c ∈ l → (f c).1 = true.
Proof.
  induction l as [|x l IH]; cbn; intros Hr c Hc; [by apply elem_of_nil in Hc|].
  destruct (f x).1 eqn:E; [|done]. apply elem_of_cons in Hc as [->|Hc]; [done|]. by apply IH.
Qed.

Lemma any_loop_true l : ∀ msgs, (any_loop l msgs).1 = true → ∃ c, c ∈ l ∧ (f c).1 = true.
Proof.
  induction l as [|x l IH]; cbn; intros msgs Hr; [done|]. destruct (f x).1 eqn:E; [exists x; split; [left|done]|].
  destruct (IH _ Hr) as (c & Hc & Hf). exists c. split; [by right|done].
Qed.
End tree_loops.

(** Whether the tree passes, and a message. *)
Fixpoint EvalTree (tree : CheckTree) (byID : gmap string Observation) : bool * string :=
  if negb (bool_decide (ct_CheckID tree = "")) then
    match byID !! ct_CheckID tree with
    | None => (false, "missing observation for " +:+ ct_CheckID tree)
    | Some obs =>
        if ob_Passed obs then (true, "")
        else if ct_Optional tree || ob_Optional obs then (true, "optional check " +:+ ct_CheckID tree +:+ " failed")
        else (false, ob_Message obs)
    end
  else match ct_All tree with
       | _ :: _ => all_loop (λ c, EvalTree c byID) (ct_All tree)
       | [] => match ct_Any tree with
               | _ :: _ => any_loop (λ c, EvalTree c byID) (ct_Any tree) []
               | [] => (false, "empty check tree")
               end
       end.

(** ** The workspace manifest ([manifest.go]) *)

Definition MaxManifestEntries : nat := 500.
Definition MaxManifestFileBytes : Z := 256 * 1024.

Section manifest.
(** SHA-256 of the JSON text of the entries and the flag. *)
Context (digestManifest : list WorkspaceManifestEntry → bool → string).

Definition manifest_entry (rel : string) (info : FileInfo) (hash : option string) : WorkspaceManifestEntry :=
  let mode := octal_text (fi_Perm info) in
  if fi_Symlink info then mkManifestEntry rel "symlink" mode "" 0
  else if fi_Dir info then mkManifestEntry rel "directory" mode "" 0
  else mkManifestEntry rel "file" mode
         (if bool_decide (fi_Size info ≤ MaxManifestFileBytes)%Z && fi_Regular info then default "" hash else "") (fi_Size info).

(** The function given to [WalkDir], over the files it visits.  Below a directory that
    is skipped nothing would be added either. *)
Fixpoint walk_loop (root : string) (ws : list walked) (entries : list WorkspaceManifestEntry) (truncated : bool)
  : list WorkspaceManifestEntry * bool :=
  match ws with
  | [] => (entries, truncated)
  | w :: rest =>
      let skip := walk_loop root rest entries truncated in
      if bool_decide (wk_Path w = root) then skip
      else match Rel root (wk_Path w) with
           | None => skip
           | Some rel =>
               if bool_decide (rel = ".") || HasPrefix rel ".." then skip
               else if bool_decide (MaxManifestEntries ≤ length entries)%nat then walk_loop root rest entries true
               else match wk_Info w with
                    | None => skip
                    | Some info => walk_loop root rest (entries ++ [manifest_entry rel info (wk_Hash w)]) truncated
                    end
           end
  end.

Definition CaptureManifest (v : fs_view) (root : string) : WorkspaceManifest :=
  if bool_decide (root = "") then mkManifest WorkspaceManifestSchemaVersion "" [] false
  else
    let '(entries, truncated) := walk_loop (Clean root) (os_Walk v (Clean root)) [] false in
    let entries := order_by (λ a b, str_le (wm_Path a) (wm_Path b)) entries in
    mkManifest WorkspaceManifestSchemaVersion (digestManifest entries truncated) entries truncated.
End manifest.

(** The last entry of each path. *)
Definition by_path (m : WorkspaceManifest) : gmap string WorkspaceManifestEntry := index_by wm_Path (wf_Entries m).

Definition entry_changed (ea eb : WorkspaceManifestEntry) : bool :=
  negb (bool_decide (wm_Type ea = wm_Type eb)) || negb (bool_decide (wm_Mode ea = wm_Mode eb)) ||
  negb (bool_decide (wm_SHA256 ea = wm_SHA256 eb)) || negb (bool_decide (wm_Size ea = wm_Size eb)).

(** The paths [WriteSetDiff] adds, before sorting. *)
Definition changed_paths (before after : WorkspaceManifest) : list string :=
  let a := by_path before in
  let b := by_path after in
  (map_to_list b).*1 ≫= (λ p, match a !! p, b !! p with
                              | Some ea, Some eb => if entry_changed ea eb then [p] else []
                              | _, _ => [p]
                              end).

Definition WriteSetDiff (before after : WorkspaceManifest) : list string :=
  let removed := filter (λ p, by_path after !! p = None) (map_to_list (by_path before)).*1 in
  let out := filter (λ p, p ≠ "") (changed_paths before after ++ removed) in
  take 100 (order_by str_le out).

(** ** Events of commands the client ran itself ([event.go]) *)

Definition truncateStr (s : string) (n : nat) : string :=
  let s := TrimSpace s in if bool_decide (String.length s ≤ n)%nat then s else take_bytes n s.

Definition is_sh (exe : string) : bool :=
  bool_decide (exe = "/bin/sh") || bool_decide (exe = "sh") || bool_decide (filepath_Base exe = "sh").

(** Executable, arguments, whether they are known, and the pipeline, after looking at the submitted line. *)
Definition submitted_command (executable : string) (argv : list string) (submitted : string)
  : string * list string * bool * option PipelineInfo :=
  let known := negb (bool_decide (executable = "")) || negb (bool_decide (argv = [])) in
  let p := ParseCommandLine submitted in
  if bool_decide (submitted = "") || negb (pa_ok p) then (executable, argv, known, None)
  else if is_sh executable then
    if bool_decide (2 ≤ length argv)%nat && bool_decide (head argv = Some "-c") then (pa_exe p, pa_argv p, true, pa_pipe p)
    else (executable, argv, known, None)
  else if bool_decide (executable = "") then (pa_exe p, pa_argv p, pa_ok p, pa_pipe p)
  else (executable, argv, known, pa_pipe p).

Section event.
Context (sha256_hex : string → string).

Definition BuildStructuredEvent (seq : Z) (sessionID cwdBefore cwdAfterRel executable : string) (argv : list string)
    (submitted : string) (exitCode : Z) (stdout stderr runnerVer verifierVer : string)
    (manifestBefore manifestAfter : WorkspaceManifest) (now : Z) : ShellEvent :=
  let '(exe, args, argvOK, pipe) := submitted_command executable argv submitted in
  let q := mkQuality true (negb (bool_decide (cwdAfterRel = ""))) argvOK true true in
  {| se_SchemaVersion := ShellEventSchemaVersion; se_SessionID := sessionID; se_Sequence := seq; se_StartedAt := None;
     se_FinishedAt := now; se_SubmittedLine := truncateStr submitted MaxSubmittedLine; se_Executable := exe; se_Argv := args;
     se_ArgvAvailable := argvOK; se_CwdBefore := cwdBefore; se_CwdAfter := cwdAfterRel; se_CwdAvailable := eq_Cwd q;
     se_ExitCode := exitCode; se_ExitAvailable := true; se_Signal := "";
     se_Stdout := BoundExcerpt sha256_hex stdout true; se_Stderr := BoundExcerpt sha256_hex stderr true; se_Pipeline := pipe;
     se_ManifestBefore := wf_Digest manifestBefore; se_ManifestAfter := wf_Digest manifestAfter;
     se_WriteSet := WriteSetDiff manifestBefore manifestAfter; se_RunnerVersion := runnerVer;
     se_ShellInstrumentation := "process-wait/1"; se_VerifierVersion := verifierVer; se_Source := SourceStructured;
     se_Structured := MeetsStructuredBar q; se_Quality := q |}.
End event.

(** ** Theorems *)

(** *** The history *)

Lemma Append_bounded h obs : (length (hi_Events h) ≤ MaxHistoryEvents)%nat → (length (hi_Events (Append h obs)) ≤ MaxHistoryEvents)%nat.
Proof. intros Hh. unfold Append. cbn. case_bool_decide; rewrite ?length_drop; lia. Qed.

Lemma Append_events h obs : ∃ dropped, hi_Events h ++ [obs] = dropped ++ hi_Events (Append h obs) ∧
  ((length (hi_Events h) < MaxHistoryEvents)%nat → dropped = []).
Proof.
  unfold Append. cbn. case_bool_decide as E; [|by exists []].
  eexists. split; [symmetry; apply take_drop|]. rewrite length_app in E. cbn in E. lia.
Qed.

Lemma Append_elem h obs e : e ∈ hi_Events (Append h obs) → e ∈ hi_Events h ∨ e = obs.
Proof.
  destruct (Append_events h obs) as (d & E & _). intros He.
  assert (e ∈ hi_Events h ++ [obs]) as He' by (rewrite E; apply elem_of_app; by right).
  apply elem_of_app in He' as [?|He']; [by left|]. right. by apply list_elem_of_singleton in He'.
Qed.

Lemma Append_nonempty h obs : hi_Events (Append h obs) ≠ [].
Proof.
  unfold Append. cbn. intros E. apply (f_equal length) in E. unfold MaxHistoryEvents in E.
  case_bool_decide; rewrite ?length_drop, ?length_app in E; cbn in E; lia.
Qed.

Lemma MarkTaskStart_events h i n : hi_Events (MarkTaskStart h i n) = hi_Events h.
Proof. unfold MarkTaskStart. by destruct (_ !! i). Qed.

Lemma MarkTaskStart_keeps h i n j s : hi_TaskStartSeq h !! j = Some s → hi_TaskStartSeq (MarkTaskStart h i n) !! j = Some s.
Proof.
  intros Hj. unfold MarkTaskStart. destruct (_ !! i) eqn:E; [done|]. cbn. rewrite lookup_insert_ne; [done|congruence].
Qed.

Section facts.
Context `{!GoRegexp} (range_tasks : gmap Z Z → list Z).

Lemma matchObservation_structured e m :
  cm_RequireStructured m = true → matchObservation e m = true →
  co_Structured e = true ∧ MeetsStructuredBar (co_Quality e) = true ∧ untrusted_source (co_Source e) = false.
Proof.
  intros Hm. unfold matchObservation. rewrite Hm. cbn [negb orb]. rewrite !andb_true_iff, negb_true_iff. tauto.
Qed.

Lemma FindMatch_Some h i m e : FindMatch h i m = Some e → e ∈ hi_Events h ∧ matchObservation e m = true.
Proof.
  unfold FindMatch. intros Hh. apply head_filter_Some in Hh as [He Hm]. split; [|done].
  by apply list_elem_of_filter in He as [_ He].
Qed.

Lemma FindMatch_complete h i m e :
  e ∈ hi_Events h → (default 0 (hi_TaskStartSeq h !! i) ≤ co_Sequence e)%Z → matchObservation e m = true → is_Some (FindMatch h i m).
Proof.
  intros He Hs Hm. unfold FindMatch, SinceTask.
  assert (e ∈ filter (λ e, matchObservation e m = true) (filter (λ e, (default 0 (hi_TaskStartSeq h !! i) ≤ co_Sequence e)%Z) (hi_Events h)))
    as Hin by (by rewrite !list_elem_of_filter).
  destruct (filter _ _); [by apply elem_of_nil in Hin|by eexists].
Qed.

Lemma findHistoryMatch_Some sh m e :
  findHistoryMatch range_tasks sh m = Some e → ∃ h, sh_History sh = Some h ∧ e ∈ hi_Events h ∧ matchObservation e m = true.
Proof.
  unfold findHistoryMatch. destruct (sh_History sh) as [h|]; [|done]. intros Hf. exists h. split; [done|].
  destruct (FindMatch h (sh_TaskIndex sh) m) eqn:E1; [simplify_eq; by eapply FindMatch_Some|].
  destruct (if bool_decide _ then _ else _) eqn:E2.
  - simplify_eq. case_bool_decide; [done|]. by eapply FindMatch_Some.
  - apply head_Some_elem_of, list_elem_of_omap in Hf as (idx & _ & Hf). destruct (_ || _); [done|]. by eapply FindMatch_Some.
Qed.

(** Whatever task is current, a command of the session that matches is found. *)
Lemma findHistoryMatch_complete sh h m e :
  sh_History sh = Some h → e ∈ hi_Events h → (default 0 (hi_TaskStartSeq h !! 0) ≤ co_Sequence e)%Z →
  matchObservation e m = true → is_Some (findHistoryMatch range_tasks sh m).
Proof.
  intros Hh He Hs Hm. unfold findHistoryMatch. rewrite Hh.
  destruct (FindMatch_complete h 0 m e He Hs Hm) as [x Hx].
  destruct (FindMatch h (sh_TaskIndex sh) m) eqn:E1; [by eexists|]. case_bool_decide as E; [by rewrite E, Hx in E1|].
  rewrite Hx. by eexists.
Qed.

Lemma commandMatch_structured params m : commandMatchFromParams params true = Ok m → cm_RequireStructured m = true.
Proof.
  unfold commandMatchFromParams. intros (? & _ & H1)%bind_Ok. apply bind_Ok in H1 as (? & _ & H1).
  apply bind_Ok in H1 as (? & _ & H1). by simplify_eq.
Qed.

Lemma pipelineMatch_structured params m : pipelineMatchFromParams params = Ok m → cm_RequireStructured m = true.
Proof. unfold pipelineMatchFromParams. cbv zeta. destruct (_ && _); [done|]. intros. by simplify_eq. Qed.

(** Where the evidence of a passed command check comes from. *)
Definition evidence_from (sh : ShellState) (source : string) : Prop :=
  (∃ h e, sh_History sh = Some h ∧ e ∈ hi_Events h ∧ co_Structured e = true ∧ untrusted_source (co_Source e) = false ∧ source = co_Source e) ∨
  (sh_StructuredCommandEvidence sh = true ∧ source = sh_Source sh).

Definition shows_evidence (sh : ShellState) (details : option jmap) : Prop :=
  ∃ d source, details = Some d ∧ jget_str d "source" = Some source ∧ jget_bool d "structuredCommandEvidence" = Some true ∧
    evidence_from sh source.

Lemma history_evidence sh m e :
  cm_RequireStructured m = true → findHistoryMatch range_tasks sh m = Some e → co_Structured e = true ∧ evidence_from sh (co_Source e).
Proof.
  intros Hm (h & Hh & He & Hmatch)%findHistoryMatch_Some.
  destruct (matchObservation_structured e m Hm Hmatch) as (Hs & _ & Hu). split; [done|]. left. eauto 10.
Qed.

Ltac details := unfold jget_str, jget_bool, capability, command_detail, evidence_detail, stdout_detail, manifest_detail;
  repeat (rewrite lookup_insert_eq || rewrite lookup_insert_ne by done); reflexivity.

Lemma passed_command_evidence params sh msg d :
  checkCommandProperties range_tasks params (Some sh) = Ok (true, msg, d) → shows_evidence sh d.
Proof.
  unfold checkCommandProperties. intros (m & Hm%commandMatch_structured & Hr)%bind_Ok.
  destruct (has_history sh).
  - destruct (findHistoryMatch _ _ _) as [e|] eqn:Ef; [|by destruct (negb _)].
    destruct (history_evidence _ _ _ Hm Ef) as [Hs Hev]. rewrite Hs in Hr. injection Hr as _ <-. cbv zeta.
    eexists _, (co_Source e). split; [done|]. split_and!; [case_bool_decide; details..|done].
  - cbv zeta in Hr. destruct (untrusted_shell sh) eqn:Eu; [done|]. destruct (matchObservation _ _); [|done].
    unfold untrusted_shell in Eu. rewrite !orb_false_iff, negb_false_iff in Eu. destruct Eu as [[Hs _] _].
    rewrite Hs in Hr. injection Hr as _ <-. eexists _, (sh_Source sh). split; [done|]. split_and!; [details..|by right].
Qed.

Lemma passed_pipeline_evidence params sh msg d :
  checkPipelineOutput range_tasks params (Some sh) = Ok (true, msg, d) → shows_evidence sh d.
Proof.
  unfold checkPipelineOutput. intros (m & Hm%pipelineMatch_structured & Hr)%bind_Ok.
  destruct (has_history sh).
  - destruct (findHistoryMatch _ _ _) as [e|] eqn:Ef; [|by destruct (negb _)].
    destruct (history_evidence _ _ _ Hm Ef) as [Hs Hev]. rewrite Hs in Hr. injection Hr as _ <-. cbv zeta.
    eexists _, (co_Source e). split; [done|]. split_and!; [details..|done].
  - cbv zeta in Hr. destruct (untrusted_shell sh) eqn:Eu; [done|]. destruct (_ && _); [done|]. destruct (matchObservation _ _); [|done].
    unfold untrusted_shell in Eu. rewrite !orb_false_iff, negb_false_iff in Eu. destruct Eu as [[Hs _] _].
    rewrite Hs in Hr. injection Hr as _ <-. eexists _, (sh_Source sh). split; [done|]. split_and!; [details..|by right].
Qed.

Lemma passed_evidence v root check sh msg d :
  RequiresStructuredCommandEvidence (ck_Kind check) = true →
  evalCheck range_tasks v root check (Some sh) = Ok (true, msg, d) → shows_evidence sh d.
Proof.
  unfold RequiresStructuredCommandEvidence. rewrite orb_true_iff, !bool_decide_eq_true.
  unfold evalCheck. cbv zeta. intros [Hk|Hk]; rewrite Hk;
    repeat (rewrite bool_decide_eq_false_2 by done); rewrite bool_decide_eq_true_2 by done;
    [apply passed_command_evidence|apply passed_pipeline_evidence].
Qed.

(** *** The working directory *)

(** A check of the working directory cannot pass when the shell reports a relative one. *)
Lemma relative_cwd_never_passes root params sh msg d :
  IsAbs (sh_Cwd sh) = false → checkCwd root params (Some sh) ≠ Ok (true, msg, d).
Proof.
  intros Hc. unfold checkCwd. intros (p & _ & Hr)%bind_Ok. case_bool_decide; [done|].
  apply bind_Ok in Hr as (full & Hf & Hr). unfold join_under in Hf.
  destruct (JoinUnder root p) as [f|e] eqn:Hj; [|by destruct e]. injection Hf as ->.
  apply JoinUnder_spec in Hj as (safe & _ & Hroot & _ & ->). cbv zeta in Hr.
  pose proof (IsAbs_Clean (sh_Cwd sh)) as Hg. rewrite Hc in Hg.
  rewrite Rel_mixed in Hr by done. rewrite bool_decide_eq_false_2 in Hr; [done|].
  intros E. rewrite E, IsAbs_Clean in Hg. destruct (Clean_rooted root Hroot) as (segs & _ & Hcl).
  rewrite Hcl, append_assoc in Hg. unfold IsAbs in Hg. by rewrite HasPrefix_app in Hg.
Qed.
End facts.

(** *** Completion trees on both sides *)

(** The checks a tree names. *)
Fixpoint tree_checks (t : CheckTree) : list string :=
  ct_CheckID t :: flat_map tree_checks (ct_All t) ++ flat_map tree_checks (ct_Any t).

(** The checks a tree names are observed as required ones. *)
Definition no_optional (t : CheckTree) (byID : gmap string Observation) : Prop :=
  ∀ id o, id ∈ tree_checks t → byID !! id = Some o → ob_Optional o = false.

Lemma no_optional_child t byID c :
  no_optional t byID → c ∈ ct_All t ∨ c ∈ ct_Any t → no_optional c byID.
Proof.
  intros Hn Hc id o Hid. apply Hn. destruct t as [all any i opt]. cbn [tree_checks]. right. rewrite elem_of_app.
  setoid_rewrite list_elem_of_In. rewrite !in_flat_map. setoid_rewrite <-list_elem_of_In. destruct Hc; [left|right]; eauto.
Qed.

(** What the client counts as completed, the server does too, if no optional check is named. *)
Lemma EvalTree_server t byID : no_optional t byID → (EvalTree t byID).1 = true → evalTree t byID = true.
Proof.
  induction t as [all any id opt Hall Hany] using CheckTree_rect'. intros Hn.
  cbn [EvalTree evalTree ct_All ct_Any ct_CheckID ct_Optional].
  destruct opt; [done|]. destruct (negb (bool_decide (id = ""))) eqn:Eid.
  - destruct (byID !! id) as [o|] eqn:Ho; [|done]. destruct (ob_Passed o); [done|].
    rewrite (Hn id o) by (done || left). done.
  - rewrite !Forall_forall in *.
    assert (∀ c, c ∈ all → (EvalTree c byID).1 = true → evalTree c byID = true) as IHall.
    { intros c Hc. apply Hall; [done|]. eapply no_optional_child; [done|]. by left. }
    assert (∀ c, c ∈ any → (EvalTree c byID).1 = true → evalTree c byID = true) as IHany.
    { intros c Hc. apply Hany; [done|]. eapply no_optional_child; [done|]. by right. }
    clear Hn Hall Hany. destruct all as [|a all].
    + destruct any as [|b any]; [done|]. intros (c & Hc & He)%any_loop_true. apply existsb_exists_in. eauto.
    + intros Hr. apply forallb_forall_in. intros c Hc. apply IHall; [done|]. by apply (all_loop_true _ _ Hr).
Qed.
