(* ===== verification/TerminalRunner.v ===== *)
(** * The terminal runner ([activities/runner.go], [activities/terminal_runner.go], [terminal/fixtures.go])

    A terminal activity on the student's device: the fixtures are written to a
    workspace, the student runs commands, each command becomes an observation in
    the history, and after each step every check is evaluated again.  The runner
    says when the activity may be completed.

    The file system is a view per step, what [os.Stat] and the others answer at that
    moment; the shell is a function that answers a command line with its output and
    the view after it.  Durable state is the record that is written as JSON. *)
From S2P Require Import Prelude GoStrings Paths Float64 Contracts LmsDb ActivityDoc Observe TerminalVerify.
From Stdlib Require Import Ascii.
From stdpp Require Import options.
Local Open Scope string_scope.
Local Open Scope list_scope.

(** ** Shared records ([runner.go]) *)

Definition RunnerVersion : string := "1".

Record ShellResult := mkShellResult {
  sr_Cwd : string; sr_Executable : string; sr_Args : list string; sr_ExitCode : Z; sr_Stdout : string; sr_Stderr : string;
  sr_CountCommand : bool; sr_Structured : bool; sr_Source : string }.

Record CheckStatus := mkCheckStatus { cks_ID : string; cks_Passed : bool; cks_Optional : bool; cks_Message : string }.

Inductive Input :=
| InputCommand (line : string)
| InputKey (rune : Z)
| InputBackspace
| InputString (text : string)
| InputShellResult (shell : option ShellResult) (event : option ShellEvent)
| InputOther (type : string).

Definition input_type (i : Input) : string :=
  match i with
  | InputCommand _ => "command"
  | InputKey _ => "key"
  | InputBackspace => "backspace"
  | InputString _ => "string"
  | InputShellResult _ _ => "shell_result"
  | InputOther t => t
  end.

Record TypingSnapshot := mkTypingSnapshot {
  ts_PromptID : string; ts_PromptText : string; ts_Input : string; ts_PromptIndex : Z; ts_TotalPrompts : Z; ts_RemainingPrompts : Z;
  ts_WPM : f64; ts_Accuracy : f64; ts_CorrectChars : Z; ts_IncorrectChars : Z; ts_Done : bool; ts_ThresholdsMet : bool }.

Record Snapshot := mkSnapshot {
  sn_Kind : string; sn_Workspace : string; sn_Cwd : string; sn_RelCwd : string; sn_CurrentTaskIdx : Z;
  sn_Checks : list CheckStatus; sn_RequiredPassed : bool; sn_ChecksPassed : nat; sn_ChecksTotal : nat; sn_CommandsRun : Z;
  sn_LastOutput : string; sn_LastError : string; sn_Typing : option TypingSnapshot; sn_EmitSample : bool; sn_EmitChecks : bool;
  sn_LastShell : option ShellResult; sn_LastEvent : option ShellEvent; sn_EmitCommand : bool }.

(** The registered kinds ([register.go]), in the order [SupportedKinds] sorts them. *)
Definition SupportedKinds : list string := [KindTerminal; KindTyping].
Definition Supports (kind : string) : bool := bool_decide (kind ∈ SupportedKinds).

Definition ResolveKind (explicit : string) (content : ActivityContent) : result string string :=
  if negb (bool_decide (explicit = "")) then Ok explicit
  else match ac_Terminal content, ac_Typing content with
       | Some _, _ => Ok KindTerminal
       | None, Some _ => Ok KindTyping
       | None, None => Err "activity has no terminal or typing content"
       end.

(** ** Fixtures ([fixtures.go]) *)

Inductive fs_op := MkdirAll (path : string) (mode : Z) | WriteFile (path content : string) (mode : Z) | Chmod (path : string) (mode : Z).

Definition op_path (o : fs_op) : string := match o with MkdirAll p _ | WriteFile p _ _ | Chmod p _ => p end.

(** [filepath.Dir] *)
Definition filepath_Dir (p : string) : string :=
  match tail (rev (Split p "/")) with [] => "." | l => Clean (GoStrings.Join (rev l) "/" +:+ "/") end.

Definition pathDepth (p : string) : nat := length (filter (λ c, c = ascii_of_nat 47) (String.list_ascii_of_string p)).

Definition fixture_le (a b : FixtureEntry) : bool :=
  let da := pathDepth (fx_Path a) in
  let db := pathDepth (fx_Path b) in
  (da <? db)%nat || ((da =? db)%nat && str_le (fx_Path a) (fx_Path b)).

(** The system calls for one fixture, with the text that goes in front of an error. *)
Definition materializeOne (root : string) (f : FixtureEntry) : result string (list (fs_op * string)) :=
  let named (e : string) := "fixture " +:+ go_quote (fx_Path f) +:+ ": " +:+ e in
  full ← map_err named (join_under root (fx_Path f));
  mode ← (if bool_decide (fx_Mode f = "") then Ok (if bool_decide (fx_Type f = "directory") then 493%Z else 420%Z)
          else map_err named (ParseMode (fx_Mode f)));
  if bool_decide (fx_Type f = "directory") then
    Ok [(MkdirAll full mode, "mkdir " +:+ fx_Path f +:+ ": "); (Chmod full mode, "chmod " +:+ fx_Path f +:+ ": ")]
  else if bool_decide (fx_Type f = "file") then
    Ok [(MkdirAll (filepath_Dir full) 493, "mkdir parent for " +:+ fx_Path f +:+ ": ");
        (WriteFile full (fx_Content f) mode, "write " +:+ fx_Path f +:+ ": "); (Chmod full mode, "chmod " +:+ fx_Path f +:+ ": ")]
  else Err (named ("unknown type " +:+ go_quote (fx_Type f))).

(** The directory of a clean rooted path is the path without its last segment. *)
Lemma rooted_Dir l last :
  l ≠ [] → Forall normal_seg l → Forall normal_seg [last] →
  filepath_Dir ("/" +:+ GoStrings.Join (l ++ [last]) "/") = "/" +:+ GoStrings.Join l "/".
Proof.
  intros Hl Hn Hlast. assert (Forall normal_seg (l ++ [last])) as Hall by (by apply Forall_app).
  unfold filepath_Dir. rewrite Split_slash, Split_Join by (first [by apply normal_no_char|by destruct l]).
  rewrite app_comm_cons, rev_app_distr. change (tail (rev [last] ++ rev ("" :: l))) with (rev l ++ [""]).
  destruct (rev l ++ [""]) as [|x y] eqn:E; [by destruct (rev l)|]. rewrite <-E, rev_app_distr, rev_involutive. cbn [rev app].
  rewrite Join_cons by done. change ("" +:+ "/" +:+ GoStrings.Join l "/") with ("/" +:+ GoStrings.Join l "/").
  rewrite append_assoc. assert (GoStrings.Join l "/" +:+ "/" = GoStrings.Join (l ++ [""]) "/") as -> by (by rewrite Join_app).
  unfold Clean, IsAbs. rewrite HasPrefix_app, Split_slash. cbn [clean_segs]. rewrite bool_decide_true by done. cbn [orb].
  rewrite Split_Join; [|by destruct l|apply Forall_app; split; [by apply normal_no_char|repeat constructor; unfold no_char; cbn; set_solver]].
  rewrite clean_segs_trailing, clean_segs_normal, app_nil_r, rev_involutive by done. done.
Qed.

Section materialize.
(** The operating system's answer to a call: its error, or [None]. *)
Context (os : fs_op → option string).

(** The calls made, and the result. *)
Fixpoint run_ops (ops : list (fs_op * string)) : list fs_op * result string unit :=
  match ops with
  | [] => ([], Ok tt)
  | (o, what) :: rest =>
      match os o with
      | Some e => ([o], Err (what +:+ e))
      | None => let '(done, r) := run_ops rest in (o :: done, r)
      end
  end.

Fixpoint materialize_loop (root : string) (fixtures : list FixtureEntry) : list fs_op * result string unit :=
  match fixtures with
  | [] => ([], Ok tt)
  | f :: rest =>
      match materializeOne root f with
      | Err e => ([], Err e)
      | Ok ops =>
          match run_ops ops with
          | (calls, Err e) => (calls, Err e)
          | (calls, Ok _) => let '(more, r) := materialize_loop root rest in (calls ++ more, r)
          end
      end
  end.

Definition Materialize (destDir : string) (fixtures : list FixtureEntry) : list fs_op * result string unit :=
  if bool_decide (destDir = "") then ([], Err "destination directory is required")
  else match run_ops [(MkdirAll destDir 493, "create workspace: ")] with
       | (calls, Err e) => (calls, Err e)
       | (calls, Ok _) => let '(more, r) := materialize_loop destDir (order_by fixture_le fixtures) in (calls ++ more, r)
       end.

(** *** Fixtures stay in the workspace *)

Lemma run_ops_incl ops o : o ∈ (run_ops ops).1 → o ∈ ops.*1.
Proof using Type.
  revert o. induction ops as [|[o1 what] ops IH]; cbn; [done|]. destruct (os o1).
  - intros o ->%list_elem_of_singleton. left.
  - destruct (run_ops ops) as [made r]. cbn in *. intros o [->|Ho]%elem_of_cons; [left|right; by apply IH].
Qed.

Lemma run_ops_all ops made : run_ops ops = (made, Ok tt) → made = ops.*1.
Proof using Type.
  revert made. induction ops as [|[o what] ops IH]; cbn; intros made; [by intros [= <-]|]. destruct (os o); [done|].
  destruct (run_ops ops) as [made' r]. intros [= <- ->]. f_equal. by apply IH.
Qed.

(** The directory of a path below the workspace. *)
Lemma JoinUnder_Dir root rel full : JoinUnder root rel = Ok full → path_under root (filepath_Dir full).
Proof using Type.
  intros (safe & Hsafe & Hroot & Hne & ->)%JoinUnder_spec.
  destruct (SafeRelPath_segs _ _ Hsafe) as (segs & Hsegs & Hn & ->).
  destruct (Clean_rooted root Hroot) as (rs & Hrs & E). rewrite E in *.
  assert (rs ≠ []) as Hrs0 by (by intros ->).
  destruct (exists_last Hsegs) as (front & last & ->). apply Forall_app in Hn as [Hfront Hlast].
  assert (("/" +:+ GoStrings.Join rs "/") +:+ "/" +:+ GoStrings.Join (front ++ [last]) "/" = "/" +:+ GoStrings.Join ((rs ++ front) ++ [last]) "/") as ->.
  { rewrite append_assoc, <-(app_assoc rs front [last]). by rewrite (Join_app rs) by (first [done|by destruct front]). }
  assert (Forall normal_seg (rs ++ front)) as Hall by (by apply Forall_app).
  rewrite rooted_Dir by (by destruct rs).
  split_and!; [done|unfold IsAbs; apply HasPrefix_app|]. exists front.
  by rewrite Clean_rooted_normal, E, !path_elems_rooted by done.
Qed.

Lemma materializeOne_inside root f ops o : materializeOne root f = Ok ops → o ∈ ops.*1 → path_under root (op_path o).
Proof using Type.
  unfold materializeOne. cbv zeta. intros (full & Hf & Hr)%bind_Ok. apply bind_Ok in Hr as (mode & _ & Hr).
  assert (JoinUnder root (fx_Path f) = Ok full) as Hj by (unfold join_under in Hf; destruct (JoinUnder _ _) as [?|[]]; by simplify_eq/=).
  pose proof (JoinUnder_under _ _ _ Hj). pose proof (JoinUnder_Dir _ _ _ Hj).
  case_bool_decide; [|case_bool_decide; [|done]]; simplify_eq; cbn; rewrite !elem_of_cons; intros Ho; repeat destruct Ho as [->|Ho]; try done;
    by apply elem_of_nil in Ho.
Qed.

Lemma materialize_loop_inside root fixtures o : o ∈ (materialize_loop root fixtures).1 → path_under root (op_path o).
Proof using Type.
  revert o. induction fixtures as [|f fixtures IH]; cbn; intros o; [by intros ?%elem_of_nil|].
  destruct (materializeOne root f) as [ops|] eqn:E; [|by intros ?%elem_of_nil].
  pose proof (λ o H, materializeOne_inside root f ops o E (run_ops_incl ops o H)) as Hone.
  destruct (run_ops ops) as [calls []]; [|by apply Hone]. destruct (materialize_loop root fixtures) as [more r]. cbn in *.
  intros [Ho|Ho]%elem_of_app; [by apply Hone|by apply IH].
Qed.

Lemma materialize_loop_all root fixtures calls f :
  materialize_loop root fixtures = (calls, Ok tt) → f ∈ fixtures → ∃ ops, materializeOne root f = Ok ops ∧ ops.*1 ⊆ calls.
Proof using Type.
  revert calls. induction fixtures as [|g fixtures IH]; cbn; intros calls Hr Hf; [by apply elem_of_nil in Hf|].
  destruct (materializeOne root g) as [ops|] eqn:E; [|done]. destruct (run_ops ops) as [made [[]|]] eqn:Em; [|done].
  apply run_ops_all in Em as ->. destruct (materialize_loop root fixtures) as [more r]. injection Hr as <- ->.
  apply elem_of_cons in Hf as [->|Hf].
  - exists ops. split; [done|]. intros x Hx. apply elem_of_app. by left.
  - destruct (IH more eq_refl Hf) as (ops' & Ho & Hs). exists ops'. split; [done|]. intros x Hx. apply elem_of_app. right. by apply Hs.
Qed.

Lemma materialize_loop_runs root fixtures :
  (∀ o, os o = None) → (∀ f, f ∈ fixtures → is_ok (materializeOne root f) = true) → (materialize_loop root fixtures).2 = Ok tt.
Proof using Type.
  intros Hos. induction fixtures as [|f fixtures IH]; cbn; intros Hf; [done|].
  specialize (Hf f (list_elem_of_here _ _)) as Hf1. destruct (materializeOne root f) as [ops|]; [|done].
  assert ((run_ops ops).2 = Ok tt) as Hops.
  { clear -Hos. induction ops as [|[o w] ops IH]; cbn; [done|]. rewrite Hos. by destruct (run_ops ops). }
  destruct (run_ops ops) as [made r]. cbn in Hops. subst r. specialize (IH (λ g Hg, Hf g (list_elem_of_further _ _ _ Hg))).
  by destruct (materialize_loop root fixtures).
Qed.

(** C33: Fixtures stay in the workspace.  Whatever the fixtures are and whichever system call
    fails, [Materialize] creates directories, writes files and changes modes only at paths
    in the workspace, never above or beside it; when it succeeds every fixture was written,
    its directory, its content and its mode; and it succeeds when the paths and modes are
    well-formed and no call fails. *)
Theorem Materialize_inside destDir fixtures :
  IsAbs destDir = true →
  (∀ o, o ∈ (Materialize destDir fixtures).1 → path_under destDir (op_path o)) ∧
  ((Materialize destDir fixtures).2 = Ok tt →
     ∀ f, f ∈ fixtures → ∃ ops, materializeOne destDir f = Ok ops ∧ ops.*1 ⊆ (Materialize destDir fixtures).1) ∧
  ((∀ o, os o = None) → (∀ f, f ∈ fixtures → is_ok (materializeOne destDir f) = true) → (Materialize destDir fixtures).2 = Ok tt).
Proof using Type.
  intros Hd. unfold Materialize. rewrite bool_decide_eq_false_2 by (by intros ->).
  pose proof (materialize_loop_inside destDir (order_by fixture_le fixtures)) as Hin.
  pose proof (λ calls f, materialize_loop_all destDir (order_by fixture_le fixtures) calls f) as Hall.
  pose proof (materialize_loop_runs destDir (order_by fixture_le fixtures)) as Hruns.
  pose proof (elem_of_order_by fixture_le fixtures) as Hord.
  cbn [run_ops]. destruct (os (MkdirAll destDir 493)) as [e|] eqn:Eos; cbn.
  - split_and!; [|done|intros Hn; by rewrite Hn in Eos]. intros o ->%list_elem_of_singleton. by apply path_under_refl.
  - destruct (materialize_loop destDir _) as [more r] eqn:Em. cbn in *. split_and!.
    + intros o [->|Ho]%elem_of_cons; [by apply path_under_refl|by apply Hin].
    + intros -> f Hf. destruct (Hall more f eq_refl) as (ops & Ho & Hs); [by apply Hord|]. exists ops. split; [done|].
      intros x Hx. right. by apply Hs.
    + intros Hos Hf. apply Hruns; [done|]. intros f Hf'. apply Hf. by apply Hord.
Qed.
End materialize.

(** ** The runner's state *)

Record TerminalRunner := mkTerminalRunner {
  tr_content : ActivityContent; tr_digest : string; tr_ws : string; tr_cwd : string; tr_runShell : bool;
  tr_history : History; tr_nextSeq : Z; tr_lastShell : option ShellState; tr_lastManifest : string; tr_obs : list Observation;
  tr_checks : list CheckStatus; tr_requiredPassed : bool; tr_checksPassed : nat; tr_commandsRun : Z; tr_currentTaskIdx : Z;
  tr_lastOutput : string; tr_lastError : string; tr_emitChecks : bool; tr_emitCommand : bool; tr_pendingShell : option ShellResult;
  tr_pendingEvent : option ShellEvent; tr_submittedTasks : gset string }.

Definition set_cwd (x : string) (r : TerminalRunner) : TerminalRunner :=
  mkTerminalRunner (tr_content r) (tr_digest r) (tr_ws r) x (tr_runShell r) (tr_history r) (tr_nextSeq r) (tr_lastShell r)
    (tr_lastManifest r) (tr_obs r) (tr_checks r) (tr_requiredPassed r) (tr_checksPassed r) (tr_commandsRun r) (tr_currentTaskIdx r)
    (tr_lastOutput r) (tr_lastError r) (tr_emitChecks r) (tr_emitCommand r) (tr_pendingShell r) (tr_pendingEvent r)
    (tr_submittedTasks r).
Definition set_runShell (x : bool) (r : TerminalRunner) : TerminalRunner :=
  mkTerminalRunner (tr_content r) (tr_digest r) (tr_ws r) (tr_cwd r) x (tr_history r) (tr_nextSeq r) (tr_lastShell r)
    (tr_lastManifest r) (tr_obs r) (tr_checks r) (tr_requiredPassed r) (tr_checksPassed r) (tr_commandsRun r) (tr_currentTaskIdx r)
    (tr_lastOutput r) (tr_lastError r) (tr_emitChecks r) (tr_emitCommand r) (tr_pendingShell r) (tr_pendingEvent r)
    (tr_submittedTasks r).
Definition set_history (x : History) (r : TerminalRunner) : TerminalRunner :=
  mkTerminalRunner (tr_content r) (tr_digest r) (tr_ws r) (tr_cwd r) (tr_runShell r) x (tr_nextSeq r) (tr_lastShell r)
    (tr_lastManifest r) (tr_obs r) (tr_checks r) (tr_requiredPassed r) (tr_checksPassed r) (tr_commandsRun r) (tr_currentTaskIdx r)
    (tr_lastOutput r) (tr_lastError r) (tr_emitChecks r) (tr_emitCommand r) (tr_pendingShell r) (tr_pendingEvent r)
    (tr_submittedTasks r).
Definition set_nextSeq (x : Z) (r : TerminalRunner) : TerminalRunner :=
  mkTerminalRunner (tr_content r) (tr_digest r) (tr_ws r) (tr_cwd r) (tr_runShell r) (tr_history r) x (tr_lastShell r)
    (tr_lastManifest r) (tr_obs r) (tr_checks r) (tr_requiredPassed r) (tr_checksPassed r) (tr_commandsRun r) (tr_currentTaskIdx r)
    (tr_lastOutput r) (tr_lastError r) (tr_emitChecks r) (tr_emitCommand r) (tr_pendingShell r) (tr_pendingEvent r)
    (tr_submittedTasks r).
Definition set_lastShell (x : option ShellState) (r : TerminalRunner) : TerminalRunner :=
  mkTerminalRunner (tr_content r) (tr_digest r) (tr_ws r) (tr_cwd r) (tr_runShell r) (tr_history r) (tr_nextSeq r) x
    (tr_lastManifest r) (tr_obs r) (tr_checks r) (tr_requiredPassed r) (tr_checksPassed r) (tr_commandsRun r) (tr_currentTaskIdx r)
    (tr_lastOutput r) (tr_lastError r) (tr_emitChecks r) (tr_emitCommand r) (tr_pendingShell r) (tr_pendingEvent r)
    (tr_submittedTasks r).
Definition set_lastManifest (x : string) (r : TerminalRunner) : TerminalRunner :=
  mkTerminalRunner (tr_content r) (tr_digest r) (tr_ws r) (tr_cwd r) (tr_runShell r) (tr_history r) (tr_nextSeq r) (tr_lastShell r) x
    (tr_obs r) (tr_checks r) (tr_requiredPassed r) (tr_checksPassed r) (tr_commandsRun r) (tr_currentTaskIdx r) (tr_lastOutput r)
    (tr_lastError r) (tr_emitChecks r) (tr_emitCommand r) (tr_pendingShell r) (tr_pendingEvent r) (tr_submittedTasks r).
Definition set_commandsRun (x : Z) (r : TerminalRunner) : TerminalRunner :=
  mkTerminalRunner (tr_content r) (tr_digest r) (tr_ws r) (tr_cwd r) (tr_runShell r) (tr_history r) (tr_nextSeq r) (tr_lastShell r)
    (tr_lastManifest r) (tr_obs r) (tr_checks r) (tr_requiredPassed r) (tr_checksPassed r) x (tr_currentTaskIdx r) (tr_lastOutput r)
    (tr_lastError r) (tr_emitChecks r) (tr_emitCommand r) (tr_pendingShell r) (tr_pendingEvent r) (tr_submittedTasks r).
Definition set_currentTaskIdx (x : Z) (r : TerminalRunner) : TerminalRunner :=
  mkTerminalRunner (tr_content r) (tr_digest r) (tr_ws r) (tr_cwd r) (tr_runShell r) (tr_history r) (tr_nextSeq r) (tr_lastShell r)
    (tr_lastManifest r) (tr_obs r) (tr_checks r) (tr_requiredPassed r) (tr_checksPassed r) (tr_commandsRun r) x (tr_lastOutput r)
    (tr_lastError r) (tr_emitChecks r) (tr_emitCommand r) (tr_pendingShell r) (tr_pendingEvent r) (tr_submittedTasks r).
Definition set_lastOutput (x : string) (r : TerminalRunner) : TerminalRunner :=
  mkTerminalRunner (tr_content r) (tr_digest r) (tr_ws r) (tr_cwd r) (tr_runShell r) (tr_history r) (tr_nextSeq r) (tr_lastShell r)
    (tr_lastManifest r) (tr_obs r) (tr_checks r) (tr_requiredPassed r) (tr_checksPassed r) (tr_commandsRun r) (tr_currentTaskIdx r) x
    (tr_lastError r) (tr_emitChecks r) (tr_emitCommand r) (tr_pendingShell r) (tr_pendingEvent r) (tr_submittedTasks r).
Definition set_lastError (x : string) (r : TerminalRunner) : TerminalRunner :=
  mkTerminalRunner (tr_content r) (tr_digest r) (tr_ws r) (tr_cwd r) (tr_runShell r) (tr_history r) (tr_nextSeq r) (tr_lastShell r)
    (tr_lastManifest r) (tr_obs r) (tr_checks r) (tr_requiredPassed r) (tr_checksPassed r) (tr_commandsRun r) (tr_currentTaskIdx r)
    (tr_lastOutput r) x (tr_emitChecks r) (tr_emitCommand r) (tr_pendingShell r) (tr_pendingEvent r) (tr_submittedTasks r).
Definition set_emitChecks (x : bool) (r : TerminalRunner) : TerminalRunner :=
  mkTerminalRunner (tr_content r) (tr_digest r) (tr_ws r) (tr_cwd r) (tr_runShell r) (tr_history r) (tr_nextSeq r) (tr_lastShell r)
    (tr_lastManifest r) (tr_obs r) (tr_checks r) (tr_requiredPassed r) (tr_checksPassed r) (tr_commandsRun r) (tr_currentTaskIdx r)
    (tr_lastOutput r) (tr_lastError r) x (tr_emitCommand r) (tr_pendingShell r) (tr_pendingEvent r) (tr_submittedTasks r).
Definition set_emitCommand (x : bool) (r : TerminalRunner) : TerminalRunner :=
  mkTerminalRunner (tr_content r) (tr_digest r) (tr_ws r) (tr_cwd r) (tr_runShell r) (tr_history r) (tr_nextSeq r) (tr_lastShell r)
    (tr_lastManifest r) (tr_obs r) (tr_checks r) (tr_requiredPassed r) (tr_checksPassed r) (tr_commandsRun r) (tr_currentTaskIdx r)
    (tr_lastOutput r) (tr_lastError r) (tr_emitChecks r) x (tr_pendingShell r) (tr_pendingEvent r) (tr_submittedTasks r).
Definition set_pendingShell (x : option ShellResult) (r : TerminalRunner) : TerminalRunner :=
  mkTerminalRunner (tr_content r) (tr_digest r) (tr_ws r) (tr_cwd r) (tr_runShell r) (tr_history r) (tr_nextSeq r) (tr_lastShell r)
    (tr_lastManifest r) (tr_obs r) (tr_checks r) (tr_requiredPassed r) (tr_checksPassed r) (tr_commandsRun r) (tr_currentTaskIdx r)
    (tr_lastOutput r) (tr_lastError r) (tr_emitChecks r) (tr_emitCommand r) x (tr_pendingEvent r) (tr_submittedTasks r).
Definition set_pendingEvent (x : option ShellEvent) (r : TerminalRunner) : TerminalRunner :=
  mkTerminalRunner (tr_content r) (tr_digest r) (tr_ws r) (tr_cwd r) (tr_runShell r) (tr_history r) (tr_nextSeq r) (tr_lastShell r)
    (tr_lastManifest r) (tr_obs r) (tr_checks r) (tr_requiredPassed r) (tr_checksPassed r) (tr_commandsRun r) (tr_currentTaskIdx r)
    (tr_lastOutput r) (tr_lastError r) (tr_emitChecks r) (tr_emitCommand r) (tr_pendingShell r) x (tr_submittedTasks r).
Definition set_submittedTasks (x : gset string) (r : TerminalRunner) : TerminalRunner :=
  mkTerminalRunner (tr_content r) (tr_digest r) (tr_ws r) (tr_cwd r) (tr_runShell r) (tr_history r) (tr_nextSeq r) (tr_lastShell r)
    (tr_lastManifest r) (tr_obs r) (tr_checks r) (tr_requiredPassed r) (tr_checksPassed r) (tr_commandsRun r) (tr_currentTaskIdx r)
    (tr_lastOutput r) (tr_lastError r) (tr_emitChecks r) (tr_emitCommand r) (tr_pendingShell r) (tr_pendingEvent r) x.

(** The results of an evaluation of the checks. *)
Definition set_results (obs : list Observation) (checks : list CheckStatus) (required : bool) (passed : nat) (r : TerminalRunner)
  : TerminalRunner :=
  mkTerminalRunner (tr_content r) (tr_digest r) (tr_ws r) (tr_cwd r) (tr_runShell r) (tr_history r) (tr_nextSeq r)
    (tr_lastShell r) (tr_lastManifest r) obs checks required passed (tr_commandsRun r) (tr_currentTaskIdx r)
    (tr_lastOutput r) (tr_lastError r) (tr_emitChecks r) (tr_emitCommand r) (tr_pendingShell r) (tr_pendingEvent r)
    (tr_submittedTasks r).

Definition NewTerminal : TerminalRunner :=
  mkTerminalRunner (mkContent "" "" [] None None [] [] [] None None None) "" "" "" false (mkHistory [] ∅) 0 None "" [] []
    false 0 0 0 "" "" false false None None ∅.

Definition relCwdLocked (r : TerminalRunner) : string :=
  if bool_decide (tr_ws r = "") || bool_decide (tr_cwd r = "") then "." else default "." (Rel (tr_ws r) (tr_cwd r)).

(** A shell state with the runner's history and tasks attached. *)
Definition attach (r : TerminalRunner) (manifest : string) (s : ShellState) : ShellState :=
  mkShell (sh_Cwd s) (sh_Executable s) (sh_Args s) (sh_ExitCode s) (sh_Stdout s) (sh_Stderr s) (sh_StructuredCommandEvidence s)
    (sh_Source s) (Some (tr_history r)) (tr_currentTaskIdx r) manifest (tr_submittedTasks r).

Definition shellStateLocked (r : TerminalRunner) : ShellState :=
  attach r (tr_lastManifest r)
    (default (mkShell (relCwdLocked r) "" [] 0 "" "" false "" None 0 "" ∅) (tr_lastShell r)).

(** The checks and the tasks the activity requires, on the observations. *)
Definition required_checks (content : ActivityContent) (byID : gmap string Observation) : bool :=
  forallb (λ ch, ck_Optional ch || match byID !! ck_ID ch with Some o => ob_Passed o | None => false end) (ac_Checks content).
Definition required_tasks (content : ActivityContent) (byID : gmap string Observation) : bool :=
  forallb (λ t, tk_Optional t || (EvalTree (tk_Completion t) byID).1) (ac_Tasks content).

(** The index of the first required task that is not completed, the number of tasks when all are. *)
Fixpoint current_task (i : Z) (tasks : list Task) (byID : gmap string Observation) : Z :=
  match tasks with
  | [] => i
  | t :: rest => if tk_Optional t || (EvalTree (tk_Completion t) byID).1 then current_task (i + 1) rest byID else i
  end.

Definition ShellStateFromEvent (ev : ShellEvent) (hist : History) (taskIdx : Z) (manifest : string) : ShellState :=
  mkShell (se_CwdAfter ev) (se_Executable ev) (se_Argv ev) (se_ExitCode ev) (xc_Text (se_Stdout ev)) (xc_Text (se_Stderr ev))
    (se_Structured ev && MeetsStructuredBar (se_Quality ev)) (se_Source ev) (Some hist) taskIdx manifest ∅.

Definition parseCD (line : string) : option string :=
  match Fields line with
  | [] => None
  | f :: rest => if negb (bool_decide (f = "cd")) then None
                 else match rest with [] => Some "." | _ => Some (GoStrings.Join rest " ") end
  end.

(** What a command run through [sh -c] answers, and the files after it. *)
Record shell_run := mkRun { xr_stdout : string; xr_stderr : string; xr_exitCode : Z; xr_err : option string; xr_view : fs_view }.

Section runner.
Context `{!GoRegexp} (range_tasks : gmap Z Z → list Z).
Context (digestManifest : list WorkspaceManifestEntry → bool → string) (sha256_hex : string → string).

(** ** Evaluation *)

Definition check_status (o : Observation) : CheckStatus := mkCheckStatus (ob_CheckID o) (ob_Passed o) (ob_Optional o) (ob_Message o).

Definition refreshLocked (v : fs_view) (now : Z) (shell : option ShellState) (enqueue : bool) (r : TerminalRunner) : TerminalRunner :=
  let shell := match shell with
               | None => shellStateLocked r
               | Some s => attach r (if bool_decide (sh_ManifestDigest s = "") then tr_lastManifest r else sh_ManifestDigest s) s
               end in
  let content := tr_content r in
  let obs := VerifyAll range_tasks v (tr_ws r) (ac_Checks content) (Some shell) now in
  let byID := index_by ob_CheckID obs in
  let r1 := set_results obs (check_status <$> obs) (required_checks content byID && required_tasks content byID)
              (length (filter (λ o, ob_Passed o = true) obs)) r in
  let cur := current_task 0 (ac_Tasks content) byID in
  let r2 := set_currentTaskIdx cur r1 in
  let r3 := if negb (bool_decide (cur = tr_currentTaskIdx r)) && bool_decide (cur < Z.of_nat (length (ac_Tasks content)))%Z
            then set_history (MarkTaskStart (tr_history r2) cur (tr_nextSeq r2)) r2 else r2 in
  set_emitChecks enqueue r3.

Definition Verify (v : fs_view) (now : Z) (r : TerminalRunner) : TerminalRunner :=
  refreshLocked v now (Some (shellStateLocked r)) true r.

Definition CompleteReady (r : TerminalRunner) : bool := tr_requiredPassed r.
Definition Observations (r : TerminalRunner) : list Observation := tr_obs r.

Definition MarkResponseSubmitted (v : fs_view) (now : Z) (taskID : string) (r : TerminalRunner) : TerminalRunner :=
  let r := if bool_decide (taskID = "") then r else set_submittedTasks ({[taskID]} ∪ tr_submittedTasks r) r in
  refreshLocked v now (Some (shellStateLocked r)) true r.

(** ** Opening *)

Record OpenOpts := mkOpenOpts {
  oo_Workspace : string; oo_Content : ActivityContent; oo_Digest : string; oo_RunShell : bool; oo_SkipMaterialize : bool }.

(** The state [Open] builds before it touches the file system. *)
Definition open_state (opts : OpenOpts) (cwd : string) (r : TerminalRunner) : TerminalRunner :=
  mkTerminalRunner (oo_Content opts) (oo_Digest opts) (oo_Workspace opts) cwd (oo_RunShell opts) (mkHistory [] {[0%Z := 1%Z]}) 1
    (tr_lastShell r) (tr_lastManifest r) (tr_obs r) (tr_checks r) (tr_requiredPassed r) (tr_checksPassed r) (tr_commandsRun r)
    (tr_currentTaskIdx r) (tr_lastOutput r) (tr_lastError r) (tr_emitChecks r) (tr_emitCommand r) (tr_pendingShell r)
    (tr_pendingEvent r) (tr_submittedTasks r).

(** [os] answers the calls that write the fixtures; [v] is the view after them. *)
Definition Open (os : fs_op → option string) (v : fs_view) (now : Z) (opts : OpenOpts) (r : TerminalRunner)
  : result string TerminalRunner :=
  match ac_Terminal (oo_Content opts) with
  | None => Err "terminal content is required"
  | Some t =>
      if bool_decide (oo_Workspace opts = "") then Err "workspace is required"
      else
        _ ← (if oo_SkipMaterialize opts then Ok tt
             else map_err (λ e, "materialize fixtures: " +:+ e) (Materialize os (oo_Workspace opts) (tc_Fixtures t)).2);
        cwd ← (if bool_decide (tc_InitialCwd t = "") then Ok (oo_Workspace opts) else join_under (oo_Workspace opts) (tc_InitialCwd t));
        let r := open_state opts cwd r in
        let r := set_lastManifest (wf_Digest (CaptureManifest digestManifest v (oo_Workspace opts))) r in
        Ok (refreshLocked v now None false r)
  end.

(** ** Commands *)

Definition event_sequence (n : Z) (ev : ShellEvent) : ShellEvent :=
  mkShellEvent (se_SchemaVersion ev) (se_SessionID ev) n (se_StartedAt ev) (se_FinishedAt ev) (se_SubmittedLine ev)
    (se_Executable ev) (se_Argv ev) (se_ArgvAvailable ev) (se_CwdBefore ev) (se_CwdAfter ev) (se_CwdAvailable ev)
    (se_ExitCode ev) (se_ExitAvailable ev) (se_Signal ev) (se_Stdout ev) (se_Stderr ev) (se_Pipeline ev)
    (se_ManifestBefore ev) (se_ManifestAfter ev) (se_WriteSet ev) (se_RunnerVersion ev) (se_ShellInstrumentation ev)
    (se_VerifierVersion ev) (se_Source ev) (se_Structured ev) (se_Quality ev).

Definition event_manifests (before after : string) (ev : ShellEvent) : ShellEvent :=
  mkShellEvent (se_SchemaVersion ev) (se_SessionID ev) (se_Sequence ev) (se_StartedAt ev) (se_FinishedAt ev)
    (se_SubmittedLine ev) (se_Executable ev) (se_Argv ev) (se_ArgvAvailable ev) (se_CwdBefore ev) (se_CwdAfter ev)
    (se_CwdAvailable ev) (se_ExitCode ev) (se_ExitAvailable ev) (se_Signal ev) (se_Stdout ev) (se_Stderr ev)
    (se_Pipeline ev) before after (se_WriteSet ev) (se_RunnerVersion ev) (se_ShellInstrumentation ev)
    (se_VerifierVersion ev) (se_Source ev) (se_Structured ev) (se_Quality ev).

Definition task_id (content : ActivityContent) (i : Z) : string :=
  if bool_decide (0 ≤ i)%Z then match ac_Tasks content !! Z.to_nat i with Some t => tk_ID t | None => "" end else "".

Definition event_result (ev : ShellEvent) : ShellResult :=
  mkShellResult (se_CwdAfter ev) (se_Executable ev) (se_Argv ev) (se_ExitCode ev) (xc_Text (se_Stdout ev)) (xc_Text (se_Stderr ev))
    true (se_Structured ev) (se_Source ev).

(** The part of [recordEventLocked] before the checks are evaluated. *)
Definition record_event (ev : ShellEvent) (r : TerminalRunner) : TerminalRunner * ShellState :=
  let ev := if bool_decide (se_Sequence ev < tr_nextSeq r)%Z then event_sequence (tr_nextSeq r) ev else ev in
  let r := set_nextSeq (se_Sequence ev + 1) r in
  let r := set_commandsRun (tr_commandsRun r + 1) r in
  let taskID := task_id (tr_content r) (tr_currentTaskIdx r) in
  let h := MarkTaskStart (tr_history r) (tr_currentTaskIdx r) (se_Sequence ev) in
  let h := Append h (ObservationFromShellEvent ev taskID (tr_currentTaskIdx r)) in
  let r := set_history h r in
  let shell := ShellStateFromEvent ev h (tr_currentTaskIdx r) (tr_lastManifest r) in
  let r := set_lastShell (Some shell) r in
  let r := set_lastOutput (truncate (xc_Text (se_Stdout ev)) 4000) r in
  let r := set_lastError (if negb (bool_decide (xc_Text (se_Stderr ev) = "")) && negb (bool_decide (se_ExitCode ev = 0%Z))
                          then truncate (xc_Text (se_Stderr ev)) 512 else "") r in
  let r := if bool_decide (se_ManifestAfter ev = "") then r else set_lastManifest (se_ManifestAfter ev) r in
  let r := set_pendingEvent (Some ev) r in
  let r := set_pendingShell (Some (event_result ev)) r in
  (set_emitCommand true r, shell).

Definition recordEventLocked (v : fs_view) (now : Z) (ev : ShellEvent) (r : TerminalRunner) : TerminalRunner :=
  let '(r, shell) := record_event ev r in refreshLocked v now (Some shell) true r.

(** [os.Stat] says it is a directory. *)
Definition is_dir (v : fs_view) (p : string) : bool := match os_Stat v p with Ok i => fi_Dir i | Err _ => false end.

Definition outside (rel : option string) : bool := match rel with Some rel => HasPrefix rel ".." | None => true end.

Definition applyCDLocked (v : fs_view) (target : string) (r : TerminalRunner) : result string TerminalRunner :=
  let target := if bool_decide (target = "") then "." else target in
  let next := if IsAbs target then Clean target else Clean (path_Join (tr_cwd r) target) in
  if outside (Rel (tr_ws r) (if IsAbs target then target else next)) then Err "cd: path outside workspace"
  else match os_Stat v next with
       | Err e => Err ("cd: " +:+ oe_Text e)
       | Ok info => if fi_Dir info then Ok (set_cwd next r) else Err "cd: not a directory"
       end.

Definition capture (v : fs_view) (r : TerminalRunner) : WorkspaceManifest := CaptureManifest digestManifest v (tr_ws r).

(** The event of a command the runner executed itself. *)
Definition built_event (r : TerminalRunner) (now : Z) (cwdBefore cwdAfter exe : string) (argv : list string) (line : string)
    (code : Z) (stdout stderr : string) (before after : WorkspaceManifest) : ShellEvent :=
  BuildStructuredEvent sha256_hex (tr_nextSeq r) "" cwdBefore cwdAfter exe argv line code stdout stderr RunnerVersion VerifierVersion
    before after now.

(** [exec] is [runShell]. *)
Definition runLineLocked (exec : string → string → string → shell_run) (v : fs_view) (now : Z) (line : string) (r : TerminalRunner)
  : result string TerminalRunner :=
  let line := TrimSpace line in
  if bool_decide (line = "") then Ok r
  else
    let cwdBefore := relCwdLocked r in
    let manBefore := capture v r in
    match parseCD line with
    | Some target =>
        match applyCDLocked v target r with
        | Err e =>
            let r := set_lastOutput "" (set_lastError e r) in
            Ok (recordEventLocked v now (built_event r now cwdBefore cwdBefore "cd" [target] line 1 "" e manBefore manBefore) r)
        | Ok r =>
            let r := set_lastError "" (set_lastOutput "" r) in
            Ok (recordEventLocked v now
                  (built_event r now cwdBefore (relCwdLocked r) "cd" [target] line 0 "" "" manBefore (capture v r)) r)
        end
    | None =>
        if negb (tr_runShell r) then Err "terminal runner has no shell executor"
        else
          let x := exec (tr_ws r) (tr_cwd r) line in
          let out := if bool_decide (xr_stderr x = "") then xr_stdout x
                     else (if bool_decide (xr_stdout x = "") then "" else xr_stdout x +:+ LF) +:+ xr_stderr x in
          let r := set_lastOutput (truncate out 4000) r in
          let r := set_lastError (match xr_err x with Some e => if bool_decide (xr_exitCode x = 0%Z) then e else "" | None => "" end) r in
          Ok (recordEventLocked (xr_view x) now
                (built_event r now cwdBefore (relCwdLocked r) "/bin/sh" ["-c"; line] line (xr_exitCode x) (xr_stdout x) (xr_stderr x)
                   manBefore (capture (xr_view x) r)) r)
    end.

(** The working directory follows an observed one that can be joined to the workspace and is a directory. *)
Definition follow_cwd (v : fs_view) (cwd : string) (r : TerminalRunner) : TerminalRunner :=
  match JoinUnder (tr_ws r) cwd with Ok joined => if is_dir v joined then set_cwd joined r else r | Err _ => r end.

Definition applyEventLocked (v : fs_view) (now : Z) (ev : ShellEvent) (r : TerminalRunner) : TerminalRunner :=
  let ev := if bool_decide (se_Sequence ev ≤ 0)%Z then event_sequence (tr_nextSeq r) ev else ev in
  let digest := wf_Digest (capture v r) in
  let missing := bool_decide (se_ManifestAfter ev = "") in
  let r := set_lastManifest (if missing then digest else se_ManifestAfter ev) r in
  let ev := if missing
            then event_manifests (if bool_decide (se_ManifestBefore ev = "") then digest else se_ManifestBefore ev) digest ev else ev in
  let r := if bool_decide (se_CwdAfter ev = "") then r else follow_cwd v (se_CwdAfter ev) r in
  recordEventLocked v now ev r.

(** Whether a legacy observation is structured, and its source. *)
Definition shell_source (sr : ShellResult) : bool * string :=
  let '(structured, source) :=
    if negb (bool_decide (sr_Source sr = "")) then (sr_Structured sr, sr_Source sr)
    else if bool_decide (sr_Executable sr = "pty-shell") || negb (sr_Structured sr) then (false, SourcePTYShell)
    else (sr_Structured sr, SourceStructured) in
  if bool_decide (sr_Executable sr = "pty-shell") || untrusted_source source then (false, SourcePTYShell) else (structured, source).

Definition shell_cwd (v : fs_view) (cwd : string) (r : TerminalRunner) : TerminalRunner :=
  if bool_decide (cwd = "") then r
  else if negb (IsAbs cwd) then follow_cwd v cwd r
  else if outside (Rel (tr_ws r) cwd) then r else set_cwd (Clean cwd) r.

Definition shell_event (v : fs_view) (now : Z) (sr : ShellResult) (r : TerminalRunner) : ShellEvent :=
  let '(structured, source) := shell_source sr in
  let rel := relCwdLocked r in
  let trusted := structured && bool_decide (source = SourceStructured) in
  let q := mkQuality structured (structured && negb (bool_decide (rel = "")))
             (structured && negb (bool_decide (sr_Executable sr = "")) && negb (bool_decide (sr_Executable sr = "pty-shell"))) trusted trusted in
  {| se_SchemaVersion := ShellEventSchemaVersion; se_SessionID := ""; se_Sequence := tr_nextSeq r; se_StartedAt := None;
     se_FinishedAt := now; se_SubmittedLine := ""; se_Executable := sr_Executable sr; se_Argv := sr_Args sr;
     se_ArgvAvailable := eq_Argv q; se_CwdBefore := ""; se_CwdAfter := rel; se_CwdAvailable := eq_Cwd q;
     se_ExitCode := sr_ExitCode sr; se_ExitAvailable := eq_Exit q; se_Signal := "";
     se_Stdout := mkExcerpt (truncate (sr_Stdout sr) 2048) "" 0 false trusted;
     se_Stderr := mkExcerpt (truncate (sr_Stderr sr) 1024) "" 0 false trusted; se_Pipeline := None; se_ManifestBefore := "";
     se_ManifestAfter := wf_Digest (capture v r); se_WriteSet := []; se_RunnerVersion := RunnerVersion;
     se_ShellInstrumentation := ""; se_VerifierVersion := VerifierVersion; se_Source := source;
     se_Structured := structured && MeetsStructuredBar q; se_Quality := q |}.

Definition applyShellLocked (v : fs_view) (now : Z) (sr : ShellResult) (r : TerminalRunner) : TerminalRunner :=
  let r := shell_cwd v (sr_Cwd sr) r in
  let ev := shell_event v now sr r in
  if negb (sr_CountCommand sr) && negb (se_Structured ev) then
    let r := set_lastOutput (truncate (sr_Stdout sr) 4000) r in
    refreshLocked v now (Some (shellStateLocked r)) true r
  else recordEventLocked v now ev r.

Definition HandleInput (exec : string → string → string → shell_run) (v : fs_view) (now : Z) (i : Input) (r : TerminalRunner)
  : result string TerminalRunner :=
  if bool_decide (tr_ws r = "") then Err "terminal runner not open"
  else match i with
       | InputCommand line => runLineLocked exec v now line r
       | InputShellResult _ (Some ev) => Ok (applyEventLocked v now ev r)
       | InputShellResult (Some sr) None => Ok (applyShellLocked v now sr r)
       | InputShellResult None None => Err "shell_result requires shell or event payload"
       | _ => Err ("terminal runner does not accept input type " +:+ go_quote (input_type i))
       end.

Definition SetCwd (v : fs_view) (abs : string) (r : TerminalRunner) : result string TerminalRunner :=
  if outside (Rel (tr_ws r) abs) then Err "cwd outside workspace"
  else match os_Stat v abs with
       | Err e => Err (oe_Text e)
       | Ok info => if fi_Dir info then Ok (set_cwd abs r) else Err "not a directory"
       end.

Definition Close (r : TerminalRunner) : TerminalRunner := set_runShell false r.

(** ** Snapshots *)

Definition snapshot (r : TerminalRunner) : Snapshot :=
  mkSnapshot KindTerminal (tr_ws r) (tr_cwd r) (relCwdLocked r) (tr_currentTaskIdx r) (tr_checks r) (tr_requiredPassed r)
    (tr_checksPassed r) (length (tr_checks r)) (tr_commandsRun r) (tr_lastOutput r) (tr_lastError r) None false (tr_emitChecks r)
    (tr_pendingShell r) (tr_pendingEvent r) (tr_emitCommand r).

Definition snapshotLocked (drain : bool) (r : TerminalRunner) : TerminalRunner * Snapshot :=
  (if drain then set_pendingEvent None (set_pendingShell None (set_emitCommand false (set_emitChecks false r))) else r, snapshot r).

(** ** Durable state *)

Record terminalDurable := mkDurable {
  td_V : Z; td_Kind : string; td_RelCwd : string; td_CommandsRun : Z; td_CurrentTaskIdx : Z; td_RequiredPassed : bool;
  td_ChecksPassed : nat; td_Checks : list CheckStatus; td_Observations : list Observation; td_LastOutput : string;
  td_LastError : string; td_LastShellCwd : string; td_LastShellExe : string; td_LastExitCode : Z; td_LastStdout : string;
  td_LastStderr : string; td_LastSource : string; td_LastStructured : bool; td_History : option History; td_NextSeq : Z;
  td_LastManifest : string; td_SubmittedTasks : list string; td_SavedAt : Z }.

(** The tasks in the order of [elements]; they are read back as a set. *)
Definition EncodeState (now : Z) (r : TerminalRunner) : terminalDurable :=
  let s := default (mkShell "" "" [] 0 "" "" false "" None 0 "" ∅) (tr_lastShell r) in
  mkDurable 2 KindTerminal (relCwdLocked r) (tr_commandsRun r) (tr_currentTaskIdx r) (tr_requiredPassed r) (tr_checksPassed r)
    (tr_checks r) (tr_obs r) (tr_lastOutput r) (tr_lastError r) (sh_Cwd s) (sh_Executable s) (sh_ExitCode s) (sh_Stdout s)
    (sh_Stderr s) (sh_Source s) (sh_StructuredCommandEvidence s) (Some (tr_history r)) (tr_nextSeq r) (tr_lastManifest r)
    (elements (tr_submittedTasks r)) now.

(** [None]: the stored text is empty; [Err]: it cannot be decoded. *)
Definition RestoreState (v : fs_view) (now : Z) (raw : option (result string terminalDurable)) (r : TerminalRunner) : result string TerminalRunner :=
  if bool_decide (tr_ws r = "") then Err "terminal runner not open"
  else match raw with
       | None => Ok r
       | Some (Err e) => Err ("terminal restore: " +:+ e)
       | Some (Ok st) =>
           if negb (bool_decide (td_V st ∈ [0; 1; 2]%Z)) then Err "terminal restore: unsupported state version"
           else
             let r := if bool_decide (td_RelCwd st = "") then r else follow_cwd v (td_RelCwd st) r in
             let r := set_commandsRun (td_CommandsRun st) r in
             let r := set_currentTaskIdx (td_CurrentTaskIdx st) r in
             let r := set_lastManifest (td_LastManifest st) (set_lastError (td_LastError st) (set_lastOutput (td_LastOutput st) r)) in
             let r := if bool_decide (0 < td_NextSeq st)%Z then set_nextSeq (td_NextSeq st) r else r in
             let r := match td_History st with Some h => set_history h r | None => r end in
             let r := if bool_decide (td_LastShellExe st = "") && bool_decide (td_LastStdout st = "") &&
                         bool_decide (td_LastShellCwd st = "") && bool_decide (td_LastSource st = "") then r
                      else set_lastShell (Some (mkShell (td_LastShellCwd st) (td_LastShellExe st) [] (td_LastExitCode st)
                             (td_LastStdout st) (td_LastStderr st) (td_LastStructured st) (td_LastSource st) None 0 "" ∅)) r in
             let r := set_submittedTasks (list_to_set (filter (λ id, id ≠ "") (td_SubmittedTasks st))) r in
             Ok (refreshLocked v now (Some (shellStateLocked r)) false r)
       end.
End runner.

(** ** The invariant *)

#[export] Instance Ok_inj {E A} : Inj (=) (=) (@Ok E A).
Proof. by intros a b [=]. Qed.

(** The sources of instrumentation the server trusts as well. *)
Definition trusted_source (source : string) : Prop := source ∈ [SourceStructured; SourceObserveBash].

(** The history and what hangs on it: bounded, numbered upwards, seen from the start of the session,
    and no command counts as evidence unless trusted instrumentation saw it. *)
Record core_inv (r : TerminalRunner) : Prop := {
  ci_ws : IsAbs (tr_ws r) = true;
  ci_cwd : path_under (tr_ws r) (tr_cwd r);
  ci_bound : (length (hi_Events (tr_history r)) ≤ MaxHistoryEvents)%nat;
  ci_next : (1 ≤ tr_nextSeq r)%Z;
  ci_sorted : StronglySorted Z.lt (co_Sequence <$> hi_Events (tr_history r));
  ci_range : Forall (λ e, 1 ≤ co_Sequence e < tr_nextSeq r)%Z (hi_Events (tr_history r));
  ci_start : hi_TaskStartSeq (tr_history r) !! 0%Z = Some 1%Z;
  ci_trusted : Forall (λ e, co_Structured e = true → trusted_source (co_Source e)) (hi_Events (tr_history r));
  ci_shell : ∀ s, tr_lastShell r = Some s →
    (sh_StructuredCommandEvidence s = true → trusted_source (sh_Source s)) ∧ IsAbs (sh_Cwd s) = false ∧ sh_Source s ≠ "" ∧
    hi_Events (tr_history r) ≠ [];
  ci_submitted : "" ∉ tr_submittedTasks r }.

(** The shell state the checks are evaluated on. *)
Record shell_inv (r : TerminalRunner) (s : ShellState) : Prop := {
  si_history : sh_History s = Some (tr_history r);
  si_submitted : sh_SubmittedTasks s = tr_submittedTasks r;
  si_trusted : sh_StructuredCommandEvidence s = true → trusted_source (sh_Source s);
  si_cwd : IsAbs (sh_Cwd s) = false }.

(** Two states agree on everything but the results of the checks, the current task and the flags. *)
Definition same_core (r r' : TerminalRunner) : Prop :=
  tr_content r' = tr_content r ∧ tr_ws r' = tr_ws r ∧ tr_cwd r' = tr_cwd r ∧ hi_Events (tr_history r') = hi_Events (tr_history r) ∧
  (∀ i s, hi_TaskStartSeq (tr_history r) !! i = Some s → hi_TaskStartSeq (tr_history r') !! i = Some s) ∧
  tr_nextSeq r' = tr_nextSeq r ∧ tr_lastShell r' = tr_lastShell r ∧ tr_submittedTasks r' = tr_submittedTasks r.

Lemma same_core_inv r r' : same_core r r' → core_inv r → core_inv r'.
Proof.
  intros (_ & Hws & Hcwd & Hev & Hst & Hn & Hsh & Hsub) [].
  split; rewrite ?Hws, ?Hcwd, ?Hev, ?Hn, ?Hsh, ?Hsub; auto.
Qed.

Lemma attach_inv r m s :
  (sh_StructuredCommandEvidence s = true → trusted_source (sh_Source s)) → IsAbs (sh_Cwd s) = false → shell_inv r (attach r m s).
Proof. by split. Qed.

Lemma relCwd_relative r : IsAbs (tr_ws r) = true → IsAbs (relCwdLocked r) = false.
Proof.
  intros Hw. unfold relCwdLocked. destruct (_ || _); [done|]. destruct (Rel _ _) as [x|] eqn:E; [|done]. by eapply Rel_relative.
Qed.

Lemma shellState_inv r : core_inv r → shell_inv r (shellStateLocked r).
Proof.
  intros Hc. unfold shellStateLocked. destruct (tr_lastShell r) as [s|] eqn:E; cbn.
  - destruct (ci_shell _ Hc _ E) as (? & ? & _). by apply attach_inv.
  - apply attach_inv; [done|]. by apply relCwd_relative, Hc.
Qed.

Section invariant.
Context `{!GoRegexp} (range_tasks : gmap Z Z → list Z).
Context (digestManifest : list WorkspaceManifestEntry → bool → string) (sha256_hex : string → string).

Abbreviation refresh := (refreshLocked range_tasks).

Definition trusted_history (h : History) : Prop := Forall (λ e, co_Structured e = true → trusted_source (co_Source e)) (hi_Events h).

Definition fine_shell (s : ShellState) : Prop :=
  (sh_StructuredCommandEvidence s = true → trusted_source (sh_Source s)) ∧ IsAbs (sh_Cwd s) = false ∧
  ∃ h, sh_History s = Some h ∧ trusted_history h.

(** The results stem from an evaluation of the checks on some view and a trustworthy shell state. *)
Definition results_inv (r : TerminalRunner) : Prop :=
  let byID := index_by ob_CheckID (tr_obs r) in
  (∃ v now s, fine_shell s ∧ tr_obs r = VerifyAll range_tasks v (tr_ws r) (ac_Checks (tr_content r)) (Some s) now) ∧
  tr_requiredPassed r = required_checks (tr_content r) byID && required_tasks (tr_content r) byID ∧
  tr_currentTaskIdx r = current_task 0 (ac_Tasks (tr_content r)) byID.

Definition runner_inv (r : TerminalRunner) : Prop := core_inv r ∧ results_inv r.

Lemma refresh_same v now sh enq r : same_core r (refresh v now sh enq r).
Proof.
  unfold refreshLocked. cbv zeta. unfold same_core. destruct (_ && _); cbn; split_and!; try done.
  - apply MarkTaskStart_events.
  - intros i s. apply MarkTaskStart_keeps.
Qed.

Lemma refresh_inv v now sh enq r :
  core_inv r →
  (∀ s, sh = Some s → (sh_StructuredCommandEvidence s = true → trusted_source (sh_Source s)) ∧ IsAbs (sh_Cwd s) = false) →
  runner_inv (refresh v now sh enq r).
Proof.
  intros Hc Hs. split; [by eapply same_core_inv; [apply refresh_same|]|].
  set (s' := match sh with None => shellStateLocked r | Some s => attach r (if bool_decide (sh_ManifestDigest s = "") then tr_lastManifest r else sh_ManifestDigest s) s end).
  assert (fine_shell s') as Hf.
  { assert (shell_inv r s') as [Hh _ Ht Hcw].
    { subst s'. destruct sh as [s|]; [|by apply shellState_inv]. destruct (Hs s eq_refl). by apply attach_inv. }
    split_and!; [done|done|]. exists (tr_history r). split; [done|apply Hc]. }
  unfold results_inv, refreshLocked. fold s'. cbv zeta.
  destruct (_ && _) eqn:E; cbn; (split; [|done]); eauto 10.
Qed.

Lemma Verify_inv v now r : core_inv r → runner_inv (Verify range_tasks v now r).
Proof.
  intros Hc. apply refresh_inv; [done|]. intros s [= <-]. destruct (shellState_inv r Hc). done.
Qed.

(** What an event must be like to be recorded: evidence only from trusted instrumentation, a
    working directory relative to the workspace. *)
Definition event_fine (ev : ShellEvent) : Prop :=
  (se_Structured ev = true → trusted_source (se_Source ev)) ∧ IsAbs (se_CwdAfter ev) = false ∧ se_Source ev ≠ "".

Lemma Sorted_app_one (l : list Z) n : StronglySorted Z.lt l → Forall (λ x, x < n)%Z l → StronglySorted Z.lt (l ++ [n]).
Proof.
  induction l as [|x l IH]; cbn; [repeat constructor|]. intros [Hs Hx]%StronglySorted_inv [Hn Hl]%Forall_cons.
  constructor; [by apply IH|]. apply Forall_app. split; [done|]. by apply Forall_singleton.
Qed.

Lemma StronglySorted_suffix {A} (R : A → A → Prop) l1 l2 : StronglySorted R (l1 ++ l2) → StronglySorted R l2.
Proof. induction l1; cbn; [done|]. intros [? _]%StronglySorted_inv. auto. Qed.

Lemma record_event_core ev r :
  core_inv r → event_fine ev →
  core_inv (record_event ev r).1 ∧
  (sh_StructuredCommandEvidence (record_event ev r).2 = true → trusted_source (sh_Source (record_event ev r).2)) ∧
  IsAbs (sh_Cwd (record_event ev r).2) = false.
Proof.
  intros Hc (Ht & Hcwd & Hsrc). unfold record_event.
  set (ev' := if bool_decide (se_Sequence ev < tr_nextSeq r)%Z then event_sequence (tr_nextSeq r) ev else ev).
  assert (tr_nextSeq r ≤ se_Sequence ev')%Z as Hseq by (subst ev'; case_bool_decide; cbn; lia).
  assert (event_fine ev') as (Ht' & Hcwd' & Hsrc') by (subst ev'; by case_bool_decide).
  clearbody ev'. clear ev Ht Hcwd Hsrc. cbv zeta.
  set (h1 := MarkTaskStart _ _ _). set (o := ObservationFromShellEvent _ _ _).
  assert (hi_Events h1 = hi_Events (tr_history r)) as Hh1 by apply MarkTaskStart_events.
  assert (hi_TaskStartSeq h1 !! 0%Z = Some 1%Z) as Hst by (apply MarkTaskStart_keeps, Hc).
  clearbody h1. destruct (Append_events h1 o) as (dropped & Hd & _). rewrite Hh1 in Hd.
  assert (sh_StructuredCommandEvidence (ShellStateFromEvent ev' (Append h1 o) (tr_currentTaskIdx r) (tr_lastManifest r)) = true →
          trusted_source (se_Source ev')) as Hsh by (cbn; intros [? _]%andb_true_iff; auto).
  assert (Forall (λ e, co_Structured e = true → trusted_source (co_Source e)) (dropped ++ hi_Events (Append h1 o))) as Htr.
  { rewrite <-Hd. apply Forall_app. split; [apply Hc|]. by apply Forall_singleton. }
  assert (Forall (λ e, 1 ≤ co_Sequence e < se_Sequence ev' + 1)%Z (dropped ++ hi_Events (Append h1 o))) as Hrg.
  { rewrite <-Hd. apply Forall_app. split; [|apply Forall_singleton; cbn; pose proof (ci_next _ Hc); lia].
    eapply Forall_impl; [apply Hc|]. cbn. lia. }
  assert (StronglySorted Z.lt (co_Sequence <$> dropped ++ hi_Events (Append h1 o))) as Hso.
  { rewrite <-Hd, fmap_app. apply Sorted_app_one; [apply Hc|]. rewrite Forall_fmap. eapply Forall_impl; [apply Hc|]. cbn. lia. }
  apply Forall_app in Htr as [_ Htr]. apply Forall_app in Hrg as [_ Hrg]. rewrite fmap_app in Hso. apply StronglySorted_suffix in Hso.
  split; [|destruct (bool_decide (se_ManifestAfter ev' = "")); done].
  pose proof (Append_nonempty h1 o) as Hne.
  destruct (bool_decide (se_ManifestAfter ev' = "")); split; cbn; try apply Hc; try done.
  all: try (by apply Append_bounded; rewrite Hh1; apply Hc).
  all: try (pose proof (ci_next _ Hc); lia).
  all: intros s [= <-]; done.
Qed.

Lemma recordEvent_inv v now ev r : core_inv r → event_fine ev → runner_inv (recordEventLocked range_tasks v now ev r).
Proof.
  intros Hc He. unfold recordEventLocked. destruct (record_event_core ev r Hc He) as (H1 & H2 & H3).
  destruct (record_event ev r) as [r' s']. apply refresh_inv; [done|]. intros s [= <-]. done.
Qed.

(** The fields the invariant does not look at. *)
Lemma core_set_lastOutput x r : core_inv r → core_inv (set_lastOutput x r).
Proof. by apply same_core_inv. Qed.
Lemma core_set_lastError x r : core_inv r → core_inv (set_lastError x r).
Proof. by apply same_core_inv. Qed.
Lemma core_set_lastManifest x r : core_inv r → core_inv (set_lastManifest x r).
Proof. by apply same_core_inv. Qed.
Lemma core_set_cwd x r : core_inv r → path_under (tr_ws r) x → core_inv (set_cwd x r).
Proof. intros [] Hx. by split. Qed.
#[local] Hint Resolve core_set_lastOutput core_set_lastError core_set_lastManifest : primer.

Lemma follow_cwd_core v cwd r : core_inv r → core_inv (follow_cwd v cwd r).
Proof.
  intros Hc. unfold follow_cwd. destruct (JoinUnder _ _) as [j|] eqn:E; [|done]. destruct (is_dir v j); [|done].
  apply core_set_cwd; [done|]. by eapply JoinUnder_under.
Qed.

Lemma not_outside ws p : IsAbs ws = true → outside (Rel ws p) = false → path_under ws p.
Proof. intros Hw. unfold outside. destruct (Rel ws p) as [x|] eqn:E; [|done]. by eapply Rel_under. Qed.

Lemma applyCD_core v target r r' : applyCDLocked v target r = Ok r' → core_inv r → core_inv r'.
Proof.
  intros Hr Hc. unfold applyCDLocked in Hr. cbv zeta in Hr. set (t := if bool_decide (target = "") then "." else target) in *.
  destruct (outside _) eqn:Eo; [done|]. apply not_outside in Eo; [|exact (ci_ws _ Hc)].
  destruct (os_Stat v _) as [info|]; [|done]. destruct (fi_Dir info); [|done]. injection Hr as <-.
  apply core_set_cwd; [done|]. destruct (IsAbs t); [by apply path_under_Clean|done].
Qed.

Lemma built_event_fine r now before after exe argv line code out err mb ma :
  IsAbs after = false → event_fine (built_event sha256_hex r now before after exe argv line code out err mb ma).
Proof.
  intros Ha. unfold built_event, BuildStructuredEvent. destruct (submitted_command _ _ _) as [[[? ?] ?] ?].
  split_and!; cbn; [|done|done]. intros _. by left.
Qed.

Lemma runLine_inv exec v now line r r' :
  runLineLocked range_tasks digestManifest sha256_hex exec v now line r = Ok r' → runner_inv r → runner_inv r'.
Proof.
  intros Hr [Hc Hres]. unfold runLineLocked in Hr. cbv zeta in Hr. case_bool_decide; [by simplify_eq|].
  pose proof (relCwd_relative r (ci_ws _ Hc)) as Hrel.
  destruct (parseCD _) as [target|].
  - destruct (applyCDLocked v target r) as [r1|e] eqn:E; apply (inj Ok) in Hr; subst r'.
    + apply applyCD_core in E; [|done]. apply recordEvent_inv; [auto with primer|].
      apply built_event_fine, relCwd_relative. exact (ci_ws _ E).
    + apply recordEvent_inv; [auto with primer|]. by apply built_event_fine.
  - destruct (negb _); [done|]. apply (inj Ok) in Hr; subst r'. apply recordEvent_inv; [auto with primer|].
    apply built_event_fine, relCwd_relative. exact (ci_ws _ Hc).
Qed.

Lemma applyEvent_inv v now ev r :
  core_inv r → event_fine ev → runner_inv (applyEventLocked range_tasks digestManifest v now ev r).
Proof.
  intros Hc He. unfold applyEventLocked. cbv zeta. apply recordEvent_inv.
  - case_bool_decide; [auto with primer|]. apply follow_cwd_core. auto with primer.
  - destruct (bool_decide (se_Sequence ev ≤ 0)%Z); case_bool_decide; done.
Qed.

(** The sources a legacy observation may name. *)
Definition shell_fine (sr : ShellResult) : Prop :=
  sr_Source sr ∈ [""; SourceStructured; SourceObserveBash; SourcePTYShell; SourceSyntheticPTY; SourceScreen].

Lemma shell_source_fine sr : shell_fine sr → ((shell_source sr).1 = true → trusted_source (shell_source sr).2) ∧ (shell_source sr).2 ≠ "".
Proof.
  unfold shell_fine, shell_source. intros Hs.
  repeat (apply elem_of_cons in Hs as [->|Hs]; [cbn [negb bool_decide]|]); [..|by apply elem_of_nil in Hs].
  all: rewrite ?(bool_decide_eq_true_2 ("" = "")), ?(bool_decide_eq_false_2 (_ = "")) by done; cbn [negb].
  all: destruct (bool_decide (sr_Executable sr = "pty-shell")), (sr_Structured sr); cbn; (split; [|done]); intros; try done.
  all: unfold trusted_source; set_solver.
Qed.

Lemma shell_cwd_core v cwd r : core_inv r → core_inv (shell_cwd v cwd r).
Proof.
  intros Hc. unfold shell_cwd. case_bool_decide; [done|]. destruct (negb _); [by apply follow_cwd_core|].
  destruct (outside _) eqn:Eo; [done|]. apply core_set_cwd; [done|]. apply path_under_Clean. apply not_outside; [exact (ci_ws _ Hc)|done].
Qed.

Lemma applyShell_inv v now sr r :
  core_inv r → shell_fine sr → runner_inv (applyShellLocked range_tasks digestManifest v now sr r).
Proof.
  intros Hc Hs. unfold applyShellLocked. cbv zeta. pose proof (shell_cwd_core v (sr_Cwd sr) r Hc) as Hc1.
  set (r1 := shell_cwd v (sr_Cwd sr) r) in *. destruct (_ && _).
  - apply refresh_inv; [auto with primer|]. intros s [= <-].
    destruct (shellState_inv (set_lastOutput (truncate (sr_Stdout sr) 4000) r1)); auto with primer.
  - apply recordEvent_inv; [done|]. destruct (shell_source_fine sr Hs) as [Ht Hne].
    unfold shell_event. destruct (shell_source sr) as [b src]. cbn in Ht, Hne.
    split_and!; cbn; [|exact (relCwd_relative _ (ci_ws _ Hc1))|done]. intros [Hb _]%andb_true_iff. auto.
Qed.

Lemma MarkResponse_inv v now id r : core_inv r → runner_inv (MarkResponseSubmitted range_tasks v now id r).
Proof.
  intros Hc. unfold MarkResponseSubmitted. cbv zeta. apply Verify_inv. case_bool_decide; [done|].
  destruct Hc as [????????? Hsub]. split; try done. cbn. rewrite elem_of_union, elem_of_singleton. intros [E|E]; [congruence|done].
Qed.

Lemma SetCwd_inv v abs r r' : SetCwd v abs r = Ok r' → runner_inv r → runner_inv r'.
Proof.
  unfold SetCwd. destruct (outside _) eqn:Eo; [done|]. destruct (os_Stat v abs) as [info|]; [|done]. destruct (fi_Dir info); [|done].
  intros Hr [Hc Hres]. apply (inj Ok) in Hr; subst r'. split; [|exact Hres].
  apply core_set_cwd; [done|]. apply not_outside; [exact (ci_ws _ Hc)|done].
Qed.

Lemma Open_core opts cwd v :
  IsAbs (oo_Workspace opts) = true → path_under (oo_Workspace opts) cwd →
  core_inv (set_lastManifest (wf_Digest (CaptureManifest digestManifest v (oo_Workspace opts))) (open_state opts cwd NewTerminal)).
Proof.
  intros Hw Hu. apply core_set_lastManifest. split; cbn; try done; try (by constructor); unfold MaxHistoryEvents; lia.
Qed.

Lemma Open_inv os v now opts r :
  IsAbs (oo_Workspace opts) = true → Open range_tasks digestManifest os v now opts NewTerminal = Ok r →
  runner_inv r ∧ tr_content r = oo_Content opts ∧ tr_ws r = oo_Workspace opts ∧ tr_lastShell r = None.
Proof.
  intros Hw. unfold Open. destruct (ac_Terminal _) as [t|]; [|done]. case_bool_decide; [done|].
  intros (_ & _ & Hr)%bind_Ok. apply bind_Ok in Hr as (cwd & Hcwd & Hr). cbv zeta in Hr. apply (inj Ok) in Hr; subst r.
  assert (path_under (oo_Workspace opts) cwd) as Hu.
  { case_bool_decide; [simplify_eq; by apply path_under_refl|]. unfold join_under in Hcwd.
    destruct (JoinUnder _ _) as [j|[]] eqn:E; simplify_eq. by eapply JoinUnder_under. }
  set (r0 := set_lastManifest _ _). pose proof (Open_core opts cwd v Hw Hu) as Hc. fold r0 in Hc.
  destruct (refresh_same v now None false r0) as (H1 & H2 & _ & _ & _ & _ & H3 & _). split; [by apply refresh_inv|].
  by rewrite H1, H2, H3.
Qed.

(** The state [RestoreState] builds before the checks are evaluated again. *)
Definition restored (v : fs_view) (r r0 : TerminalRunner) : TerminalRunner :=
  let r1 := if bool_decide (relCwdLocked r = "") then r0 else follow_cwd v (relCwdLocked r) r0 in
  let r1 := set_commandsRun (tr_commandsRun r) r1 in
  let r1 := set_currentTaskIdx (tr_currentTaskIdx r) r1 in
  let r1 := set_lastManifest (tr_lastManifest r) (set_lastError (tr_lastError r) (set_lastOutput (tr_lastOutput r) r1)) in
  let r1 := set_history (tr_history r) (set_nextSeq (tr_nextSeq r) r1) in
  let r1 := match tr_lastShell r with
            | None => r1
            | Some s => set_lastShell (Some (mkShell (sh_Cwd s) (sh_Executable s) [] (sh_ExitCode s) (sh_Stdout s) (sh_Stderr s)
                          (sh_StructuredCommandEvidence s) (sh_Source s) None 0 "" ∅)) r1
            end in
  set_submittedTasks (tr_submittedTasks r) r1.

Lemma submitted_back (S : gset string) : "" ∉ S → list_to_set (filter (λ id, id ≠ "") (elements S)) = S.
Proof. intros HS. apply set_eq. intros x. rewrite elem_of_list_to_set, list_elem_of_filter, elem_of_elements.
  split; [by intros [_ ?]|]. intros Hx. split; [by intros ->|done]. Qed.

Lemma RestoreState_run v now now' r r0 :
  core_inv r → tr_ws r0 ≠ "" →
  RestoreState range_tasks v now (Some (Ok (EncodeState now' r))) r0 =
  Ok (refresh v now (Some (shellStateLocked (restored v r r0))) false (restored v r r0)).
Proof.
  intros Hc Hw. unfold RestoreState. rewrite bool_decide_eq_false_2 by done.
  rewrite (bool_decide_eq_true_2 (td_V _ ∈ _)) by (right; right; left). cbn [negb].
  rewrite (bool_decide_eq_true_2 (0 < _)%Z) by (cbn; pose proof (ci_next _ Hc); lia).
  unfold restored. destruct (tr_lastShell r) as [s|] eqn:Es.
  - unfold EncodeState. rewrite Es. cbn [default td_LastShellExe td_LastStdout td_LastShellCwd td_LastSource td_LastExitCode td_LastStderr
      td_LastStructured td_RelCwd td_CommandsRun td_CurrentTaskIdx td_LastManifest td_LastError td_LastOutput td_History td_NextSeq td_SubmittedTasks].
    destruct (ci_shell _ Hc _ Es) as (_ & _ & Hne & _). rewrite (bool_decide_eq_false_2 (sh_Source s = "")) by done.
    rewrite andb_false_r, submitted_back by apply Hc. reflexivity.
  - unfold EncodeState. rewrite Es. cbn [default sh_Executable sh_Stdout sh_Cwd sh_Source td_LastShellExe td_LastStdout td_LastShellCwd td_LastSource td_LastExitCode td_LastStderr
      td_LastStructured td_RelCwd td_CommandsRun td_CurrentTaskIdx td_LastManifest td_LastError td_LastOutput td_History td_NextSeq td_SubmittedTasks].
    rewrite submitted_back by apply Hc. rewrite (bool_decide_eq_true_2 ("" = "")) by done. reflexivity.
Qed.
End invariant.

(** ** Witness *)

Definition w_fixtures : list FixtureEntry := [mkFixture "notes/a.txt" "file" "hello" ""; mkFixture "notes" "directory" "" "0755"].

Lemma Materialize_inside_witness :
  (Materialize (λ _, None) "/home/kid/ws" w_fixtures).1 =
    [MkdirAll "/home/kid/ws" 493; MkdirAll "/home/kid/ws/notes" 493; Chmod "/home/kid/ws/notes" 493;
     MkdirAll "/home/kid/ws/notes" 493; WriteFile "/home/kid/ws/notes/a.txt" "hello" 420; Chmod "/home/kid/ws/notes/a.txt" 420] ∧
  path_under "/home/kid/ws" "/home/kid/ws/notes/a.txt".
Proof.
  split; [vm_compute; reflexivity|].
  destruct (Materialize_inside (λ _, None) "/home/kid/ws" w_fixtures) as [Hin _]; [reflexivity|].
  apply (Hin (Chmod "/home/kid/ws/notes/a.txt" 420)), (list_elem_of_lookup_2 _ 5). vm_compute. reflexivity.
Defined.
