(* ===== verification/TerminalSession.v ===== *)
(** * A terminal activity from opening to completion

    The calls a session makes on the terminal runner ([activities/terminal_runner.go])
    as a step relation, and what holds in every state it reaches: the invariant of the
    runner, restarts from the durable state, and the agreement of the device with the
    server, which judges the observations again when the session is completed
    ([mastery/apply.go]). *)
From S2P Require Import Prelude GoStrings Paths Contracts LmsDb ActivityDoc Mastery Observe TerminalVerify TerminalRunner.
From stdpp Require Import options.
Local Open Scope string_scope.
Local Open Scope list_scope.

(** ** The events of the shell hook *)

(** The directory the hook reports, as [pwd -P] prints it, has no empty segment. *)
Lemma relCwd_relative_out r cwd :
  (rd_Workspace r = "" ∨ IsAbs (rd_Workspace r) = true) → Contains (TrimSpace cwd) "//" = false → IsAbs (relCwd r cwd) = false.
Proof.
  intros Hw Hc. unfold relCwd. set (c := TrimSpace cwd) in *. cbv zeta.
  assert (IsAbs (if IsAbs c then "" else Clean c) = false) as Hrel.
  { destruct (IsAbs c) eqn:E; [done|]. by rewrite IsAbs_Clean. }
  set (host := if bool_decide (rd_Workspace r = "") then _ else _).
  assert (IsAbs host = false) as Hhost.
  { subst host. case_bool_decide as E; [done|]. destruct Hw as [?|Hw]; [done|].
    destruct (Rel (rd_Workspace r) c) as [x|] eqn:Ex; [|done]. destruct (HasPrefix x ".."); [done|].
    case_bool_decide; [done|]. by eapply Rel_relative. }
  clearbody host. case_bool_decide; [done|]. case_bool_decide; [done|]. case_bool_decide; [done|].
  destruct (HasPrefix c _) eqn:E; [|done]. apply HasPrefix_iff in E as [rest Erest].
  rewrite Erest, TrimPrefix_app. destruct (IsAbs rest) eqn:Ea; [|done].
  apply HasPrefix_iff in Ea as [x ->]. exfalso. rewrite Erest in Hc.
  assert (Contains (rd_SandboxWorkspace r +:+ "//" +:+ x) "//" = true) as Hin by (apply Contains_iff; eauto).
  rewrite append_assoc in Hc. change ("/" +:+ "/" +:+ x) with ("//" +:+ x) in Hc. congruence.
Qed.

Lemma toShellEvent_fine r now raw :
  (rd_Workspace r = "" ∨ IsAbs (rd_Workspace r) = true) → Contains (TrimSpace (rw_CwdAfter raw)) "//" = false →
  event_fine (toShellEvent r now raw).
Proof.
  intros Hw Hc. split_and!; cbn; [intros _; right; left|by apply relCwd_relative_out|done].
Qed.

(** Every line of the spool that decodes reports a directory without empty segments. *)
Definition hook_lines (unmarshal : string → option rawEvent) : Prop :=
  ∀ line raw, unmarshal line = Some raw → Contains (TrimSpace (rw_CwdAfter raw)) "//" = false.

Lemma drain_loop_fine unmarshal now lines r out :
  hook_lines unmarshal → (rd_Workspace r = "" ∨ IsAbs (rd_Workspace r) = true) →
  Forall event_fine out → Forall event_fine (drain_loop unmarshal now lines r out).1.2.
Proof.
  intros Hu. revert r out. induction lines as [|l lines IH]; intros r out Hw Hout; cbn [drain_loop]; [done|].
  destruct (bool_decide (MaxScanLine ≤ String.length l)%nat); [done|]. cbv zeta. case_bool_decide; [by apply IH|].
  destruct (unmarshal _) as [raw|] eqn:E; [|by apply IH]. destruct (_ || _); [by apply IH|]. apply IH; [done|].
  apply Forall_app. split; [done|]. apply Forall_singleton. apply toShellEvent_fine; [done|by eapply Hu].
Qed.

Lemma Drain_fine unmarshal now r content :
  hook_lines unmarshal → (rd_Workspace r = "" ∨ IsAbs (rd_Workspace r) = true) → Forall event_fine (Drain unmarshal now r content).1.2.
Proof.
  intros Hu Hw. unfold Drain. case_bool_decide; [done|]. destruct content as [s|]; [|done]. cbv zeta.
  pose proof (drain_loop_fine unmarshal now (raw_lines (String.substring (rd_offset r) (String.length s - rd_offset r) s)) r [] Hu Hw) as Hl.
  destruct (drain_loop _ _ _ _ _) as [[r' out] []]; by apply Hl.
Qed.

(** ** The steps of a session *)

Definition input_ok (i : Input) : Prop :=
  match i with
  | InputShellResult _ (Some ev) => event_fine ev
  | InputShellResult (Some sr) None => shell_fine sr
  | _ => True
  end.

Section session.
Context `{!GoRegexp} (range_tasks : gmap Z Z → list Z).
Context (digestManifest : list WorkspaceManifestEntry → bool → string) (sha256_hex : string → string).

Abbreviation handle := (HandleInput range_tasks digestManifest sha256_hex).
Abbreviation open := (Open range_tasks digestManifest).
Abbreviation restore := (RestoreState range_tasks).
Abbreviation verify := (Verify range_tasks).

(** What a session does with its runner.  The view of the files and the clock are those of
    the moment of the call; a restart opens a new runner and restores the durable state. *)
Inductive step (content : ActivityContent) (ws : string) : TerminalRunner → TerminalRunner → Prop :=
| step_input exec v now i r r' : input_ok i → handle exec v now i r = Ok r' → step content ws r r'
| step_verify v now r : step content ws r (verify v now r)
| step_response v now task r : step content ws r (MarkResponseSubmitted range_tasks v now task r)
| step_drain drain r : step content ws r (snapshotLocked drain r).1
| step_cwd v abs r r' : SetCwd v abs r = Ok r' → step content ws r r'
| step_close r : step content ws r (Close r)
| step_restart os v v' now now' saved opts r r0 r' :
    oo_Content opts = content → oo_Workspace opts = ws → open os v now opts NewTerminal = Ok r0 →
    restore v' now' (Some (Ok (EncodeState saved r))) r0 = Ok r' → step content ws r r'.

Inductive reachable (content : ActivityContent) (ws : string) : TerminalRunner → Prop :=
| reachable_open os v now opts r :
    oo_Content opts = content → oo_Workspace opts = ws → open os v now opts NewTerminal = Ok r → reachable content ws r
| reachable_step r r' : reachable content ws r → step content ws r r' → reachable content ws r'.

(** The fields that say which activity is worked on. *)
Definition of_activity (content : ActivityContent) (ws : string) (r : TerminalRunner) : Prop := tr_content r = content ∧ tr_ws r = ws.

Lemma refresh_of content ws v now sh enq r : of_activity content ws r → of_activity content ws (refreshLocked range_tasks v now sh enq r).
Proof. destruct (refresh_same range_tasks v now sh enq r) as (Hc & Hw & _). unfold of_activity. by rewrite Hc, Hw. Qed.

Lemma recordEvent_of content ws v now ev r : of_activity content ws r → of_activity content ws (recordEventLocked range_tasks v now ev r).
Proof.
  intros Hr. unfold recordEventLocked. destruct (record_event ev r) as [r' s] eqn:E. apply refresh_of.
  assert (r' = (record_event ev r).1) as -> by (by rewrite E). unfold record_event. cbv zeta. by destruct (bool_decide (se_ManifestAfter _ = "")).
Qed.

Lemma follow_of content ws v cwd r : of_activity content ws r → of_activity content ws (follow_cwd v cwd r).
Proof. intros Hr. unfold follow_cwd. destruct (JoinUnder _ _); [|done]. by destruct (is_dir _ _). Qed.

Lemma event_of content ws v now ev r :
  of_activity content ws r → of_activity content ws (applyEventLocked range_tasks digestManifest v now ev r).
Proof. intros Hr. apply recordEvent_of. case_bool_decide; [done|]. by apply follow_of. Qed.

Lemma shell_of content ws v now sr r :
  of_activity content ws r → of_activity content ws (applyShellLocked range_tasks digestManifest v now sr r).
Proof.
  intros Hr. unfold applyShellLocked. cbv zeta.
  assert (of_activity content ws (shell_cwd v (sr_Cwd sr) r)) as Hc.
  { unfold shell_cwd. case_bool_decide; [done|]. destruct (negb _); [by apply follow_of|]. by destruct (outside _). }
  destruct (_ && _); [by apply refresh_of|by apply recordEvent_of].
Qed.

Lemma line_of content ws exec v now line r r' :
  of_activity content ws r → runLineLocked range_tasks digestManifest sha256_hex exec v now line r = Ok r' → of_activity content ws r'.
Proof.
  intros Hr. unfold runLineLocked. cbv zeta. case_bool_decide; [intros Hok; apply (inj Ok) in Hok; by subst|].
  destruct (parseCD _) as [target|].
  - destruct (applyCDLocked v target r) as [r1|e] eqn:E; intros Hok; apply (inj Ok) in Hok; subst r'; apply recordEvent_of; [|done].
    unfold applyCDLocked in E. cbv zeta in E. destruct (outside _); [done|]. destruct (os_Stat _ _) as [info|]; [|done].
    destruct (fi_Dir info); [|done]. apply (inj Ok) in E. by subst r1.
  - destruct (negb _); [done|]. intros Hok; apply (inj Ok) in Hok; subst r'. by apply recordEvent_of.
Qed.

Lemma handle_of content ws exec v now i r r' : of_activity content ws r → handle exec v now i r = Ok r' → of_activity content ws r'.
Proof.
  intros Hr. unfold HandleInput. case_bool_decide; [done|].
  destruct i as [line|rune| |text|[sr|] [ev|]|t]; try done; [by apply line_of|intros Hok; apply (inj Ok) in Hok; subst r'..].
  - by apply event_of.
  - by apply shell_of.
  - by apply event_of.
Qed.

Lemma handle_inv exec v now i r r' :
  input_ok i → handle exec v now i r = Ok r' → runner_inv range_tasks r → runner_inv range_tasks r'.
Proof.
  intros Hi Hr Hinv. unfold HandleInput in Hr. case_bool_decide; [done|].
  destruct i as [line|rune| |text|[sr|] [ev|]|t]; try done; [by eapply runLine_inv|apply (inj Ok) in Hr; subst r'..];
    [apply applyEvent_inv|apply applyShell_inv|apply applyEvent_inv]; (apply Hi || apply Hinv).
Qed.

Lemma follow_lastShell v cwd r : tr_lastShell (follow_cwd v cwd r) = tr_lastShell r.
Proof. unfold follow_cwd. destruct (JoinUnder _ _); [|done]. by destruct (is_dir _ _). Qed.

Lemma restored_core v r r0 : core_inv r → core_inv r0 → tr_lastShell r0 = None → core_inv (restored v r r0).
Proof.
  intros Hr H0 Hn. unfold restored. cbv zeta.
  set (r1 := if bool_decide (relCwdLocked r = "") then r0 else follow_cwd v (relCwdLocked r) r0).
  assert (core_inv r1) as H1 by (subst r1; case_bool_decide; [done|by apply follow_cwd_core]).
  assert (tr_lastShell r1 = None) as Hn1 by (subst r1; case_bool_decide; [done|by rewrite follow_lastShell]). clearbody r1.
  destruct (tr_lastShell r) as [s|] eqn:E.
  - destruct (ci_shell _ Hr _ E) as (Ht & Hc & Hs & Hh). split; cbn; try apply H1; try apply Hr. intros s' [= <-]. done.
  - split; cbn; try apply H1; try apply Hr. intros s. by rewrite Hn1.
Qed.

Lemma restored_of content ws v r r0 : of_activity content ws r0 → of_activity content ws (restored v r r0).
Proof.
  intros H0. unfold restored. cbv zeta.
  set (r1 := if bool_decide (relCwdLocked r = "") then r0 else follow_cwd v (relCwdLocked r) r0).
  assert (of_activity content ws r1) as H1 by (subst r1; case_bool_decide; [done|by apply follow_of]). clearbody r1.
  by destruct (tr_lastShell r).
Qed.

Lemma step_inv content ws r r' :
  IsAbs ws = true → step content ws r r' → runner_inv range_tasks r ∧ of_activity content ws r →
  runner_inv range_tasks r' ∧ of_activity content ws r'.
Proof.
  intros Hw Hstep [Hinv Hof]. destruct Hstep.
  - split; [by eapply handle_inv|by eapply handle_of].
  - split; [apply Verify_inv, Hinv|by apply refresh_of].
  - split; [apply MarkResponse_inv, Hinv|]. apply refresh_of. by case_bool_decide.
  - destruct drain; [|done]. split; [|done]. destruct Hinv as [Hc Hres]. split; [|exact Hres]. by eapply same_core_inv; [|exact Hc].
  - split; [by eapply SetCwd_inv|]. unfold SetCwd in *. destruct (outside _); [done|]. destruct (os_Stat _ _) as [info|]; [|done].
    destruct (fi_Dir info); [|done]. match goal with Hr : Ok _ = Ok _ |- _ => apply (inj Ok) in Hr; by subst end.
  - split; [|done]. destruct Hinv as [Hc Hres]. split; [|exact Hres]. by eapply same_core_inv; [|exact Hc].
  - match goal with Hr : open _ _ _ _ _ = _ |- _ => apply Open_inv in Hr as ([Hc0 _] & Hcont & Hws & Hn); [|congruence] end.
    match goal with Hr : restore _ _ _ _ = _ |- _ => rewrite RestoreState_run in Hr; [|apply Hinv|] end.
    2: { rewrite Hws. intros E. assert (ws = "") as Ews by congruence. by rewrite Ews in Hw. }
    match goal with Hr : Ok _ = Ok _ |- _ => apply (inj Ok) in Hr; subst r' end.
    assert (of_activity content ws r0) as Hof0 by (split; congruence).
    pose proof (restored_core v' r r0 (proj1 Hinv) Hc0 Hn) as Hres. split; [|by apply refresh_of, restored_of].
    apply refresh_inv; [done|]. intros s [= <-]. destruct (shellState_inv _ Hres). done.
Qed.

Lemma reachable_inv content ws r :
  IsAbs ws = true → reachable content ws r → runner_inv range_tasks r ∧ of_activity content ws r.
Proof.
  intros Hw. induction 1 as [os v now opts r Hc Hws Hr|r r' _ IH Hs].
  - apply Open_inv in Hr as (Hinv & ? & ? & _); [|congruence]. split; [done|]. split; congruence.
  - by eapply step_inv.
Qed.
(** *** The checks on a shell state that lost its arguments *)

(** Two shell states that differ at most in the arguments of the last command. *)
Definition same_shell (a b : ShellState) : Prop :=
  sh_Cwd a = sh_Cwd b ∧ sh_Executable a = sh_Executable b ∧ sh_ExitCode a = sh_ExitCode b ∧ sh_Stdout a = sh_Stdout b ∧
  sh_Stderr a = sh_Stderr b ∧ sh_StructuredCommandEvidence a = sh_StructuredCommandEvidence b ∧ sh_Source a = sh_Source b ∧
  sh_History a = sh_History b ∧ sh_TaskIndex a = sh_TaskIndex b ∧ sh_ManifestDigest a = sh_ManifestDigest b ∧
  sh_SubmittedTasks a = sh_SubmittedTasks b ∧ (sh_Args a = sh_Args b ∨ has_history a = true).

Lemma findHistoryMatch_same a b m : same_shell a b → findHistoryMatch range_tasks a m = findHistoryMatch range_tasks b m.
Proof. intros (_ & _ & _ & _ & _ & _ & _ & Hh & Ht & _). unfold findHistoryMatch. by rewrite Hh, Ht. Qed.

Lemma evalCheck_same v root check a b :
  same_shell a b → evalCheck range_tasks v root check (Some a) = evalCheck range_tasks v root check (Some b).
Proof.
  intros Hab. pose proof Hab as (H1 & H2 & H3 & H4 & H5 & H6 & H7 & H8 & H9 & H10 & H11 & Hargs). destruct Hargs as [Hargs|Hh].
  { destruct a, b. cbn in *. by subst. }
  assert (has_history b = true) as Hh' by (unfold has_history in *; by rewrite <-H8).
  assert (∀ p, checkCommandProperties range_tasks p (Some a) = checkCommandProperties range_tasks p (Some b)) as Hcmd.
  { intros p. unfold checkCommandProperties. destruct (commandMatchFromParams p true) as [m|]; [|done]. cbn [mbind result_bind].
    by rewrite Hh, Hh', (findHistoryMatch_same a b m Hab), H7, H8, H10. }
  assert (∀ p, checkPipelineOutput range_tasks p (Some a) = checkPipelineOutput range_tasks p (Some b)) as Hpipe.
  { intros p. unfold checkPipelineOutput. destruct (pipelineMatchFromParams p) as [m|]; [|done]. cbn [mbind result_bind].
    by rewrite Hh, Hh', (findHistoryMatch_same a b m Hab), H7, H8, H10. }
  unfold evalCheck. cbv zeta. rewrite Hcmd, Hpipe. unfold checkCwd, checkResponseSubmitted. by rewrite H1, H11.
Qed.

Lemma VerifyAll_same v root checks a b now :
  same_shell a b → VerifyAll range_tasks v root checks (Some a) now = VerifyAll range_tasks v root checks (Some b) now.
Proof.
  intros Hab. unfold VerifyAll. apply list_fmap_ext. intros i ch _. unfold VerifyCheck. by rewrite (evalCheck_same _ _ _ _ _ Hab).
Qed.
(** *** Restarts *)

(** What the checks are evaluated on. *)
Definition same_inputs (a b : TerminalRunner) : Prop :=
  tr_content a = tr_content b ∧ tr_ws a = tr_ws b ∧ tr_cwd a = tr_cwd b ∧ tr_history a = tr_history b ∧ tr_nextSeq a = tr_nextSeq b ∧
  tr_lastManifest a = tr_lastManifest b ∧ tr_commandsRun a = tr_commandsRun b ∧ tr_currentTaskIdx a = tr_currentTaskIdx b ∧
  tr_lastOutput a = tr_lastOutput b ∧ tr_lastError a = tr_lastError b ∧ tr_submittedTasks a = tr_submittedTasks b.

Definition same_results (a b : TerminalRunner) : Prop :=
  tr_obs a = tr_obs b ∧ tr_checks a = tr_checks b ∧ tr_requiredPassed a = tr_requiredPassed b ∧ tr_checksPassed a = tr_checksPassed b.

Lemma refresh_agree v now a b sa sb ea eb :
  same_inputs a b → same_shell (attach a (tr_lastManifest a) sa) (attach b (tr_lastManifest b) sb) →
  sh_ManifestDigest sa = tr_lastManifest a → sh_ManifestDigest sb = tr_lastManifest b →
  let a' := refreshLocked range_tasks v now (Some sa) ea a in
  let b' := refreshLocked range_tasks v now (Some sb) eb b in
  same_inputs a' b' ∧ same_results a' b'.
Proof.
  intros (H1 & H2 & H3 & H4 & H5 & H6 & H7 & H8 & H9 & H10 & H11) Hsh Hma Hmb. unfold refreshLocked. cbv zeta. rewrite Hma, Hmb.
  assert (∀ m : string, (if bool_decide (m = "") then m else m) = m) as Em by (intros; by case_bool_decide). rewrite !Em.
  rewrite (VerifyAll_same _ _ _ _ _ _ Hsh), <-H1, <-H2. set (obs := VerifyAll _ _ _ _ _ _). cbn [set_currentTaskIdx set_results tr_history tr_nextSeq].
  rewrite <-H8. destruct (_ && _); (split; [split_and!|split_and!]); cbn; congruence.
Qed.

Lemma JoinUnder_dot ws : is_ok (JoinUnder ws ".") = false.
Proof. unfold JoinUnder. by destruct (bool_decide (ws = "")). Qed.

(** The working directory the restored runner finds: the saved one, when it can be joined to the
    workspace and still is a directory; and the workspace itself when the activity starts there. *)
Definition cwd_restored (v : fs_view) (r r0 : TerminalRunner) : Prop :=
  JoinUnder (tr_ws r) (relCwdLocked r) = Ok (tr_cwd r) ∧ is_dir v (tr_cwd r) = true ∨ relCwdLocked r = "." ∧ tr_cwd r0 = tr_cwd r.

(** The directory the restored runner is in: the saved one if it can be followed, or the one a new session
    opens in. *)
Definition restored_cwd (v : fs_view) (r r0 : TerminalRunner) : string := tr_cwd (follow_cwd v (relCwdLocked r) r0).

Lemma follow_empty v r : follow_cwd v "" r = r.
Proof. unfold follow_cwd, JoinUnder. by destruct (bool_decide (tr_ws r = "")). Qed.

Lemma restored_cwd_saved v r r0 : tr_ws r0 = tr_ws r → cwd_restored v r r0 → restored_cwd v r r0 = tr_cwd r.
Proof.
  intros Hw Hcwd. unfold restored_cwd, follow_cwd. rewrite Hw. destruct Hcwd as [[Hj Hd]|[Hrel Hr0]]; [by rewrite Hj, Hd|].
  rewrite Hrel. pose proof (JoinUnder_dot (tr_ws r)) as Hdot. by destruct (JoinUnder (tr_ws r) ".").
Qed.

Lemma restored_inputs v r r0 :
  tr_content r0 = tr_content r → tr_ws r0 = tr_ws r → same_inputs (restored v r r0) (set_cwd (restored_cwd v r r0) r).
Proof.
  intros Hc Hw. unfold restored. cbv zeta.
  replace (if bool_decide (relCwdLocked r = "") then r0 else follow_cwd v (relCwdLocked r) r0) with (follow_cwd v (relCwdLocked r) r0)
    by (case_bool_decide as E; [by rewrite E, follow_empty|done]).
  assert (tr_content (follow_cwd v (relCwdLocked r) r0) = tr_content r ∧ tr_ws (follow_cwd v (relCwdLocked r) r0) = tr_ws r) as [E1 E2].
  { unfold follow_cwd. destruct (JoinUnder _ _) as [p|]; [|done]. by destruct (is_dir v p). }
  unfold restored_cwd. generalize dependent (follow_cwd v (relCwdLocked r) r0). intros r1 E1 E2. by destruct (tr_lastShell r); split_and!.
Qed.
(** The shell state of the restored runner differs from the saved one in the arguments only. *)
Lemma restored_shell v r r0 :
  core_inv r → tr_lastShell r0 = None → same_inputs (restored v r r0) (set_cwd (restored_cwd v r r0) r) →
  same_shell (shellStateLocked (restored v r r0)) (shellStateLocked (set_cwd (restored_cwd v r r0) r)).
Proof.
  intros Hc Hn. set (old := set_cwd _ r). intros Hin. pose proof Hin as (H1 & H2 & H3 & H4 & H5 & H6 & H7 & H8 & H9 & H10 & H11).
  assert (relCwdLocked (restored v r r0) = relCwdLocked old) as Hrel by (unfold relCwdLocked; by rewrite H2, H3).
  unfold shellStateLocked. unfold attach. rewrite Hrel, H4, H6, H8, H11. change (tr_lastShell old) with (tr_lastShell r). destruct (tr_lastShell r) as [s|] eqn:E.
  - assert (tr_lastShell (restored v r r0) = Some (mkShell (sh_Cwd s) (sh_Executable s) [] (sh_ExitCode s) (sh_Stdout s) (sh_Stderr s)
      (sh_StructuredCommandEvidence s) (sh_Source s) None 0 "" ∅)) as -> by (unfold restored; by rewrite E).
    split_and!; try done. right. cbn. destruct (ci_shell _ Hc _ E) as (_ & _ & _ & Hh). by rewrite bool_decide_eq_false_2.
  - assert (tr_lastShell (restored v r r0) = None) as ->.
    { unfold restored. rewrite E. cbn. case_bool_decide; [done|]. by rewrite follow_lastShell. }
    split_and!; try done. by left.
Qed.

(** Nothing is waiting to be sent to the host. *)
Definition silent (r : TerminalRunner) : Prop :=
  tr_emitChecks r = false ∧ tr_emitCommand r = false ∧ tr_pendingShell r = None ∧ tr_pendingEvent r = None.

Lemma silent_refresh v now sh r :
  tr_emitCommand r = false ∧ tr_pendingShell r = None ∧ tr_pendingEvent r = None → silent (refreshLocked range_tasks v now sh false r).
Proof. intros Hr. unfold refreshLocked. cbv zeta. destruct (_ && _); by split. Qed.

Lemma silent_restored v r r0 : silent r0 → let r1 := restored v r r0 in tr_emitCommand r1 = false ∧ tr_pendingShell r1 = None ∧ tr_pendingEvent r1 = None.
Proof.
  intros (_ & Hr). unfold restored. cbv zeta.
  set (r1 := if bool_decide (relCwdLocked r = "") then r0 else follow_cwd v (relCwdLocked r) r0).
  assert (tr_emitCommand r1 = false ∧ tr_pendingShell r1 = None ∧ tr_pendingEvent r1 = None) as H1.
  { subst r1. case_bool_decide; [done|]. unfold follow_cwd. destruct (JoinUnder _ _); [|done]. by destruct (is_dir _ _). }
  clearbody r1. by destruct (tr_lastShell r).
Qed.

Lemma Open_silent os v now opts r : open os v now opts NewTerminal = Ok r → silent r.
Proof.
  unfold Open. destruct (ac_Terminal _) as [t|]; [|done]. case_bool_decide; [done|].
  intros (_ & _ & Hr)%bind_Ok. apply bind_Ok in Hr as (cwd & _ & Hr). cbv zeta in Hr. apply (inj Ok) in Hr; subst r. by apply silent_refresh.
Qed.

(** Restoring a saved state into a runner just opened: the old state with its checks evaluated again, in the
    directory that could be restored. *)
Lemma restart_restores content ws os v v' now now' saved opts r r0 :
  IsAbs ws = true → reachable content ws r →
  oo_Content opts = content → oo_Workspace opts = ws → open os v now opts NewTerminal = Ok r0 →
  let old := set_cwd (restored_cwd v' r r0) r in
  ∃ r', restore v' now' (Some (Ok (EncodeState saved r))) r0 = Ok r' ∧
    same_inputs r' (verify v' now' old) ∧ same_results r' (verify v' now' old) ∧ silent r' ∧ tr_ws r0 = tr_ws r.
Proof.
  intros Hw Hr Hoc How Hop old. destruct (reachable_inv _ _ _ Hw Hr) as [[Hc _] [Hrc Hrw]].
  pose proof (Open_silent _ _ _ _ _ Hop) as Hsil. apply Open_inv in Hop as (_ & Hc0 & Hw0 & Hn); [|congruence].
  rewrite RestoreState_run; [|done|]. 2: { rewrite Hw0, How. intros E. by rewrite E in Hw. }
  eexists. split; [done|].
  assert (same_inputs (restored v' r r0) old) as Hin by (apply restored_inputs; congruence).
  destruct (refresh_agree v' now' (restored v' r r0) old (shellStateLocked (restored v' r r0)) (shellStateLocked old) false true Hin)
    as [??]; [by apply restored_shell|done|done|].
  split_and!; [done|done|by apply silent_refresh, silent_restored|congruence].
Qed.

(** *** In every state *)

Lemma current_task_bounds tasks byID : ∀ i, (i ≤ current_task i tasks byID ≤ i + Z.of_nat (length tasks))%Z.
Proof.
  induction tasks as [|t tasks IH]; intros i; cbn [current_task length]; [lia|].
  destruct (_ || _); [|lia]. specialize (IH (i + 1)%Z). lia.
Qed.

Lemma current_task_end tasks byID :
  ∀ i, current_task i tasks byID = (i + Z.of_nat (length tasks))%Z ↔ forallb (λ t, tk_Optional t || (EvalTree (tk_Completion t) byID).1) tasks = true.
Proof.
  induction tasks as [|t tasks IH]; intros i; cbn [current_task length forallb]; [split; [done|lia]|].
  destruct (_ || _); [|split; [lia|done]]. cbn [andb]. rewrite <-(IH (i + 1)%Z). lia.
Qed.

Lemma VerifyCheck_fields v root ch sh now :
  ob_CheckID (VerifyCheck range_tasks v root ch sh now) = ck_ID ch ∧ ob_Kind (VerifyCheck range_tasks v root ch sh now) = ck_Kind ch ∧
  ob_Optional (VerifyCheck range_tasks v root ch sh now) = ck_Optional ch.
Proof. unfold VerifyCheck. by destruct (evalCheck _ _ _ _ _) as [[[? ?] ?]|]. Qed.

(** C31: The invariant of the terminal runner.  In every state it reaches, whatever the student
    types and the file system answers: the history holds at most 200 commands, numbered
    upwards below the next number; a command counts as structured evidence only if trusted
    instrumentation saw it; the working directory is in the workspace; there is one
    observation per check, in their order; the current task is one of the activity or one
    past the last; and the activity may be completed exactly when every required check
    passes and no required task is left. *)
Theorem terminal_runner_invariant content ws r :
  IsAbs ws = true → reachable content ws r →
  let events := hi_Events (tr_history r) in
  (length events ≤ MaxHistoryEvents)%nat ∧
  StronglySorted Z.lt (co_Sequence <$> events) ∧ Forall (λ e, 1 ≤ co_Sequence e < tr_nextSeq r)%Z events ∧
  Forall (λ e, co_Structured e = true → trusted_source (co_Source e)) events ∧
  path_under ws (tr_cwd r) ∧
  ob_CheckID <$> Observations r = ck_ID <$> ac_Checks content ∧
  (0 ≤ tr_currentTaskIdx r ≤ Z.of_nat (length (ac_Tasks content)))%Z ∧
  (CompleteReady r = true ↔
     required_checks content (index_by ob_CheckID (Observations r)) = true ∧
     tr_currentTaskIdx r = Z.of_nat (length (ac_Tasks content))).
Proof.
  intros Hw Hr events. destruct (reachable_inv _ _ _ Hw Hr) as [[Hc Hres] [Hrc Hrw]].
  destruct Hres as ((v & now & s & _ & Hobs) & Hreq & Hcur). rewrite Hrc in Hobs, Hreq, Hcur.
  split_and!; try apply Hc; [rewrite <-Hrw; apply Hc|..].
  - unfold Observations. rewrite Hobs. unfold VerifyAll. rewrite <-list_fmap_compose. apply list_fmap_ext. intros i ch _. apply VerifyCheck_fields.
  - rewrite Hcur. apply (current_task_bounds _ _ 0).
  - rewrite Hcur. apply (current_task_bounds _ _ 0).
  - unfold CompleteReady, Observations. rewrite Hreq, Hcur, andb_true_iff. unfold required_tasks.
    by rewrite <-(current_task_end _ _ 0).
Qed.

Lemma observed_inv content ws r o :
  runner_inv range_tasks r → of_activity content ws r → o ∈ Observations r →
  ∃ v now s ch, fine_shell s ∧ ch ∈ ac_Checks content ∧ o = VerifyCheck range_tasks v ws ch (Some s) now.
Proof.
  intros [_ ((v & now & s & Hs & Hobs) & _)] [Hrc Hrw] Ho.
  unfold Observations in Ho. rewrite Hobs, Hrc, Hrw in Ho. apply list_elem_of_fmap in Ho as (ch & -> & Hch). eauto 10.
Qed.

Lemma observed content ws r o :
  IsAbs ws = true → reachable content ws r → o ∈ Observations r →
  ∃ v now s ch, fine_shell s ∧ ch ∈ ac_Checks content ∧ o = VerifyCheck range_tasks v ws ch (Some s) now.
Proof. intros Hw Hr. destruct (reachable_inv _ _ _ Hw Hr). by apply observed_inv. Qed.

(** C34: Checks of the working directory cannot pass.  The runner reports the working directory
    relative to the workspace and the verifier compares it with absolute paths only: in every
    state a [cwd] check fails, and an activity that requires one never becomes ready, wherever
    the student is. *)
Theorem cwd_check_never_passes content ws r :
  IsAbs ws = true → reachable content ws r →
  (∀ o, o ∈ Observations r → ob_Kind o = CheckCwd → ob_Passed o = false) ∧
  (∀ ch, ch ∈ ac_Checks content → ck_Kind ch = CheckCwd → ck_Optional ch = false → NoDup (ck_ID <$> ac_Checks content) → CompleteReady r = false).
Proof.
  intros Hw Hr.
  assert (∀ o, o ∈ Observations r → ob_Kind o = CheckCwd → ob_Passed o = false) as Hall.
  { intros o Ho Hk. destruct (observed _ _ _ _ Hw Hr Ho) as (v & now & s & ch & (_ & Hcwd & _) & _ & ->).
    unfold VerifyCheck in *. destruct (evalCheck _ _ _ _ _) as [[[b msg] d]|] eqn:E; cbn in *; [|done]. destruct b; [|done].
    unfold evalCheck in E. cbv zeta in E. rewrite Hk in E. repeat (rewrite bool_decide_eq_false_2 in E by done).
    rewrite bool_decide_eq_true_2 in E by done. by apply relative_cwd_never_passes in E. }
  split; [done|]. intros ch Hch Hk Hopt Hnd. destruct (CompleteReady r) eqn:Hready; [|done]. exfalso.
  destruct (reachable_inv _ _ _ Hw Hr) as [[_ ((v & now & s & _ & Hobs) & Hreq & _)] [Hrc Hrw]].
  unfold CompleteReady in Hready. rewrite Hreq, Hrc in Hready. apply andb_true_iff in Hready as [Hready _].
  unfold required_checks in Hready. rewrite forallb_forall_in in Hready. specialize (Hready ch Hch). rewrite Hopt in Hready.
  cbn [orb] in Hready. destruct (_ !! _) as [o|] eqn:Eo; [|done]. apply index_by_lookup in Eo as [Hin Hid].
  rewrite (Hall o) in Hready; [done|done|].
  destruct (observed _ _ _ _ Hw Hr Hin) as (v' & now' & s' & ch' & _ & Hch' & ->).
  destruct (VerifyCheck_fields v' ws ch' (Some s') now') as (Hi' & Hk' & _). rewrite Hk'. rewrite Hi' in Hid. rewrite <-Hk. f_equal.
  apply (inj Some). rewrite <-(index_by_NoDup ck_ID _ ch' Hnd Hch'), <-(index_by_NoDup ck_ID _ ch Hnd Hch). by rewrite Hid.
Qed.
(** *** The server judges as the device does *)

Lemma trusted_evidence o d source :
  ob_Details o = Some d → jget_str d "source" = Some source → jget_bool d "structuredCommandEvidence" = Some true →
  trusted_source source → observationHasStructuredCommandEvidence o = true.
Proof.
  intros Ho Hs Hb Ht. unfold observationHasStructuredCommandEvidence, source_in, normal_source. rewrite Ho, Hs, Hb. cbn [fmap option_fmap option_map].
  rewrite (bool_decide_eq_true_2 (Some true = Some true)) by done.
  unfold trusted_source in Ht. rewrite !elem_of_cons in Ht. destruct Ht as [->|[->|[]%elem_of_nil]]; reflexivity.
Qed.

Lemma fine_shell_evidence s source : fine_shell s → evidence_from s source → trusted_source source.
Proof.
  intros (Ht & _ & h & Hh & Hall) [(h' & e & Hh' & He & Hs & _ & ->)|[Hs ->]]; [|by apply Ht].
  rewrite Hh in Hh'. apply (inj Some) in Hh' as ->. unfold trusted_history in Hall. rewrite Forall_forall in Hall. by apply Hall.
Qed.

Lemma passed_check_trusted v root ch s now :
  fine_shell s → RequiresStructuredCommandEvidence (ck_Kind ch) = true → ob_Passed (VerifyCheck range_tasks v root ch (Some s) now) = true →
  observationHasStructuredCommandEvidence (VerifyCheck range_tasks v root ch (Some s) now) = true.
Proof.
  intros Hs Hk Hp. unfold VerifyCheck in *. destruct (evalCheck _ _ _ _ _) as [[[b msg] d]|] eqn:E; cbn in Hp; [subst b|done].
  destruct (passed_evidence range_tasks _ _ _ _ _ _ Hk E) as (d' & source & -> & Hsrc & Hb & Hev).
  eapply trusted_evidence; [reflexivity|done|done|]. by eapply fine_shell_evidence.
Qed.

(** The completion of a required task names no optional check. *)
Definition required_trees (content : ActivityContent) : Prop :=
  ∀ t ch, t ∈ ac_Tasks content → tk_Optional t = false → ch ∈ ac_Checks content → ck_ID ch ∈ tree_checks (tk_Completion t) → ck_Optional ch = false.

(** When the runner says that the activity may be completed, the observations it sends pass the
    server's validation of required checks and tasks, and each carries the command evidence the
    server asks for, provided that the check ids are distinct and no required task names an
    optional check. *)
Lemma ready_server_accepts content ws r :
  runner_inv range_tasks r → of_activity content ws r → NoDup (ck_ID <$> ac_Checks content) → required_trees content → CompleteReady r = true →
  validateRequiredChecks content (Observations r) = Ok tt ∧ validateObservationCapabilities content (Observations r) = Ok tt.
Proof.
  intros Hinv Hof Hnd Htrees Hready. pose proof (λ o, observed_inv content ws r o Hinv Hof) as Hobs. split.
  - destruct Hinv as [_ (_ & Hreq & _)], Hof as [Hrc _].
    unfold CompleteReady in Hready. rewrite Hreq, Hrc in Hready. apply andb_true_iff in Hready as [Hch Ht].
    unfold required_checks in Hch. unfold required_tasks in Ht. rewrite forallb_forall_in in Hch. rewrite forallb_forall_in in Ht.
    unfold validateRequiredChecks. apply unit_bind. split; apply for_each_Ok, Forall_forall.
    + intros ch Hin. specialize (Hch ch Hin). unfold requiredCheck. destruct (ck_Optional ch); [done|]. unfold Observations.
      destruct (_ !! _) as [o|]; [|done]. cbn in Hch. by rewrite Hch.
    + intros t Hin. specialize (Ht t Hin). unfold requiredTask. destruct (tk_Optional t) eqn:Eo; [done|]. cbn [orb] in Ht.
      rewrite EvalTree_server; [done| |done]. intros id o Hid Ho. apply index_by_lookup in Ho as [Ho <-].
      destruct (Hobs o Ho) as (v & now & s & ch & _ & Hchk & ->). destruct (VerifyCheck_fields v ws ch (Some s) now) as (Ei & _ & ->).
      rewrite Ei in Hid. by eapply Htrees.
  - unfold validateObservationCapabilities. apply for_each_Ok, Forall_forall. intros o Ho. cbn beta.
    destruct (Hobs o Ho) as (v & now & s & ch & Hs & Hchk & ->). destruct (VerifyCheck_fields v ws ch (Some s) now) as (Ei & _ & _).
    rewrite Ei, (index_by_NoDup ck_ID _ ch Hnd Hchk). destruct (negb _ || _) eqn:Ep; [done|].
    apply orb_false_iff in Ep as [Ep%negb_false_iff _]. destruct (RequiresStructuredCommandEvidence (ck_Kind ch)) eqn:Hk; [|done].
    by rewrite passed_check_trusted.
Qed.

(** A matching command is found.  If the history holds a command that satisfies a
    command check, then evaluating the checks passes it, with evidence the server trusts,
    whichever task is current and whatever was run since. *)
Lemma matching_command_is_found content ws r v now ch m e :
  IsAbs ws = true → reachable content ws r → ch ∈ ac_Checks content → ck_Kind ch = CheckCommandProperties →
  commandMatchFromParams (ck_Params ch) true = Ok m → e ∈ hi_Events (tr_history r) → matchObservation e m = true →
  ∃ o, o ∈ Observations (verify v now r) ∧ ob_CheckID o = ck_ID ch ∧ ob_Passed o = true ∧ observationHasStructuredCommandEvidence o = true.
Proof.
  intros Hw Hr Hch Hk Hm He Hmatch. destruct (reachable_inv _ _ _ Hw Hr) as [[Hc _] [Hrc Hrw]].
  set (s := shellStateLocked r). destruct (shellState_inv r Hc) as [Hh _ Ht Hcwd]. fold s in Hh, Ht, Hcwd.
  exists (VerifyCheck range_tasks v (tr_ws r) ch (Some s) now).
  assert (ob_Passed (VerifyCheck range_tasks v (tr_ws r) ch (Some s) now) = true) as Hp.
  { destruct (findHistoryMatch_complete range_tasks s (tr_history r) m e Hh He) as [hit Hhit]; [|done|].
    { rewrite (ci_start _ Hc). cbn. pose proof (ci_range _ Hc) as Hrg. rewrite Forall_forall in Hrg. specialize (Hrg e He). lia. }
    unfold VerifyCheck, evalCheck. cbv zeta. rewrite Hk. repeat (rewrite bool_decide_eq_false_2 by done). rewrite bool_decide_eq_true_2 by done.
    unfold checkCommandProperties. rewrite Hm. cbn [mbind result_bind]. rewrite Hhit.
    assert (has_history s = true) as -> by (unfold has_history; rewrite Hh; destruct (hi_Events (tr_history r)); [by apply elem_of_nil in He|done]).
    done. }
  split_and!; [|apply VerifyCheck_fields|done|].
  - unfold Observations, Verify, refreshLocked. cbv zeta. fold s.
    assert (attach r (if bool_decide (sh_ManifestDigest s = "") then tr_lastManifest r else sh_ManifestDigest s) s = s) as ->.
    { subst s. unfold shellStateLocked, attach. cbn. by case_bool_decide. }
    rewrite Hrc. destruct (_ && _); cbn; apply list_elem_of_fmap; eauto.
  - apply passed_check_trusted; [|by rewrite Hk|done]. split_and!; [done|done|]. exists (tr_history r). split; [done|apply Hc].
Qed.
End session.

(** ** Where the device and its partners differ *)

(** A shell hook that reports the workspace itself is not followed: the runner stays in the
    directory it was in. *)
Lemma workspace_root_not_followed v r : follow_cwd v "." r = r.
Proof. unfold follow_cwd. pose proof (JoinUnder_dot (tr_ws r)) as Hd. by destruct (JoinUnder (tr_ws r) "."). Qed.

(** ** Witnesses *)

(** A device on which nothing but directories exists and the shell answers every command with its
    working directory. *)
#[local] Instance no_patterns : GoRegexp := {| regexp_Compile p := Ok (λ s, bool_decide (p = s)) |}.
Definition w_range (m : gmap Z Z) : list Z := (map_to_list m).*1.
Definition w_digest (l : list WorkspaceManifestEntry) (b : bool) : string := GoStrings.Join (wm_Path <$> l) ",".
Definition w_sha (s : string) : string := "sha-" +:+ s.
Definition w_view : fs_view :=
  mkView (λ _, Err (mkOsError true "no such file")) (λ _, Ok (mkFileInfo false true false 493 0)) (λ _, Err (mkOsError true "no such file"))
    (λ _, []).
Definition w_exec (ws cwd line : string) : shell_run := mkRun (cwd +:+ LF) "" 0 None w_view.
Definition w_command_check : Check :=
  mkCheck "where" CheckCommandProperties false {["executable" := JStr "pwd"]} ["final"] None [].
Definition w_cwd_check : Check := mkCheck "there" CheckCwd false {["path" := JStr "notes"]} ["final"] None [].
Definition w_lesson (extra : list Check) : ActivityContent :=
  mkContent "" "" [] (Some (mkTerminal "coreutils-basic" [mkFixture "notes" "directory" "" "0755"] "" "")) None
    [w_task "t1" "where" []] (w_command_check :: extra) [] None None None.
Definition w_opts (extra : list Check) : OpenOpts := mkOpenOpts "/ws" (w_lesson extra) "" true false.
Definition w_opened (extra : list Check) : TerminalRunner :=
  match Open w_range w_digest (λ _, None) w_view 0 (w_opts extra) NewTerminal with Ok r => r | Err _ => NewTerminal end.
(** The student changes to [notes] and asks where that is. *)
Definition w_command (line : string) (r : TerminalRunner) : TerminalRunner :=
  match HandleInput w_range w_digest w_sha w_exec w_view 0 (InputCommand line) r with Ok r' => r' | Err _ => r end.
Definition w_done (extra : list Check) : TerminalRunner := w_command "pwd" (w_command "cd notes" (w_opened extra)).

Lemma w_reachable extra : is_ok (Open w_range w_digest (λ _, None) w_view 0 (w_opts extra) NewTerminal) = true →
  reachable w_range w_digest w_sha (w_lesson extra) "/ws" (w_done extra).
Proof.
  intros Hok.
  assert (∀ line r, reachable w_range w_digest w_sha (w_lesson extra) "/ws" r →
            reachable w_range w_digest w_sha (w_lesson extra) "/ws" (w_command line r)) as Hstep.
  { intros line r Hr. unfold w_command. destruct (HandleInput _ _ _ _ _ _ _ _) as [r'|] eqn:E; [|done].
    eapply reachable_step; [exact Hr|]. eapply step_input; [|exact E]. done. }
  apply Hstep, Hstep. unfold w_opened. destruct (Open _ _ _ _ _ _ _) as [r|] eqn:E; [|done].
  eapply reachable_open; [..|exact E]; done.
Qed.

Lemma terminal_runner_invariant_witness :
  length (hi_Events (tr_history (w_done []))) = 2 ∧ tr_cwd (w_done []) = "/ws/notes" ∧ CompleteReady (w_done []) = true ∧
  path_under "/ws" (tr_cwd (w_done [])).
Proof.
  split_and!; [vm_compute; reflexivity..|].
  apply (terminal_runner_invariant w_range w_digest w_sha (w_lesson []) "/ws"); [reflexivity|]. apply w_reachable. vm_compute. reflexivity.
Defined.

Lemma cwd_check_never_passes_witness :
  tr_cwd (w_done [w_cwd_check]) = "/ws/notes" ∧ CompleteReady (w_done [w_cwd_check]) = false.
Proof.
  split; [vm_compute; reflexivity|].
  apply (cwd_check_never_passes w_range w_digest w_sha (w_lesson [w_cwd_check]) "/ws") with (ch := w_cwd_check); [reflexivity| |..].
  - apply w_reachable. vm_compute. reflexivity.
  - right. left.
  - reflexivity.
  - reflexivity.
  - apply (bool_decide_unpack _). vm_compute. exact I.
Defined.

(** The first command of the session still counts after the second. *)
Lemma matching_command_is_found_witness :
  ∃ o, o ∈ Observations (Verify w_range w_view 0 (w_command "ls" (w_done []))) ∧ ob_CheckID o = "where" ∧ ob_Passed o = true ∧
    observationHasStructuredCommandEvidence o = true.
Proof.
  destruct (hi_Events (tr_history (w_command "ls" (w_done []))) !! 1) as [e|] eqn:Ee; [|vm_compute in Ee; discriminate].
  destruct (commandMatchFromParams (ck_Params w_command_check) true) as [m|] eqn:Em; [|vm_compute in Em; discriminate].
  apply (matching_command_is_found w_range w_digest w_sha (w_lesson []) "/ws" _ w_view 0 w_command_check m e); try reflexivity.
  - eapply reachable_step; [apply w_reachable; vm_compute; reflexivity|].
    apply (step_input _ _ _ _ _ w_exec w_view 0 (InputCommand "ls")); [done|]. vm_compute. reflexivity.
  - left.
  - exact Em.
  - by eapply list_elem_of_lookup_2.
  - vm_compute in Ee. injection Ee as <-. vm_compute in Em. injection Em as <-. vm_compute. reflexivity.
Defined.

(** A required task that names an optional check: the device is ready although the check fails,
    the server refuses the completion. *)
Definition w_optional_lesson : ActivityContent :=
  mkContent "" "" [] (Some (mkTerminal "coreutils-basic" [] "" "")) None [w_task "t1" "where" []]
    [mkCheck "where" CheckCommandProperties true {["executable" := JStr "pwd"]} ["final"] None []] [] None None None.

Example optional_check_blocks_completion :
  match Open w_range w_digest (λ _, None) w_view 0 (mkOpenOpts "/ws" w_optional_lesson "" true false) NewTerminal with
  | Ok r => CompleteReady r = true ∧ is_ok (validateRequiredChecks w_optional_lesson (Observations r)) = false
  | Err _ => False
  end.
Proof. vm_compute. split; reflexivity. Qed.
