(* ===== verification/TypingRunner.v ===== *)
(** * The typing runner ([activities/typing_runner.go])

    The adapter that makes a typing session ([Typing]) a runner: keys go to the session, its
    observations are evaluated after each, and the host is told when a prompt was completed.
    The steps of a runner as a relation, and the agreement of its readiness with the server. *)
From S2P Require Import Prelude GoStrings GoText Utf8 Float64 Contracts LmsData LmsDb ActivityDoc Mastery.
From S2P Require Import Typing Observe TerminalVerify TerminalRunner.
From stdpp Require Import options.
Local Open Scope string_scope.
Local Open Scope list_scope.

(** [json.Marshal] of the wrapper [{v, kind, state}] ([state] absent when [None]), and the raw [state]
    of a text that decodes as one ([""] when it has none). *)
Class WrapJson := {
  marshal_wrap : Z → string → option string → string;
  unmarshal_wrap : string → option string }.

Record TypingRunner := mkTypingRunner {
  yr_content : ActivityContent; yr_digest : string; yr_ws : string; yr_sess : option TypingSession; yr_obs : list Observation;
  yr_checks : list CheckStatus; yr_requiredPassed : bool; yr_checksPassed : nat; yr_currentTaskIdx : Z; yr_emitSample : bool;
  yr_emitChecks : bool }.

Definition NewTyping : TypingRunner :=
  mkTypingRunner (mkContent "" "" [] None None [] [] [] None None None) "" "" None [] [] false 0 0 false false.

Definition set_sess (x : option TypingSession) (r : TypingRunner) : TypingRunner :=
  mkTypingRunner (yr_content r) (yr_digest r) (yr_ws r) x (yr_obs r) (yr_checks r) (yr_requiredPassed r) (yr_checksPassed r)
    (yr_currentTaskIdx r) (yr_emitSample r) (yr_emitChecks r).
Definition set_emits (sample checks : bool) (r : TypingRunner) : TypingRunner :=
  mkTypingRunner (yr_content r) (yr_digest r) (yr_ws r) (yr_sess r) (yr_obs r) (yr_checks r) (yr_requiredPassed r) (yr_checksPassed r)
    (yr_currentTaskIdx r) sample checks.

Definition checkTreeEmpty (t : CheckTree) : bool :=
  bool_decide (ct_CheckID t = "") && bool_decide (length (ct_All t) = 0%nat) && bool_decide (length (ct_Any t) = 0%nat).

(** Tasks with a completion tree, which a typing activity rarely has. *)
Definition required_trees_pass (content : ActivityContent) (byID : gmap string Observation) : bool :=
  forallb (λ t, tk_Optional t || checkTreeEmpty (tk_Completion t) || (EvalTree (tk_Completion t) byID).1) (ac_Tasks content).

Fixpoint current_typing_task (i : Z) (tasks : list Task) (byID : gmap string Observation) : Z :=
  match tasks with
  | [] => i
  | t :: rest =>
      if tk_Optional t then current_typing_task (i + 1) rest byID
      else if checkTreeEmpty (tk_Completion t) then i
      else if (EvalTree (tk_Completion t) byID).1 then current_typing_task (i + 1) rest byID else i
  end.

Section runner.
Context `{!FloatText, !DurableJson, !WrapJson}.

Definition refreshLocked (now : Z) (emitSample : bool) (r : TypingRunner) : TypingRunner :=
  match yr_sess r with
  | None => r
  | Some sess =>
      let obs := Typing.Observations now sess in
      let byID := index_by ob_CheckID obs in
      let content := yr_content r in
      mkTypingRunner content (yr_digest r) (yr_ws r) (Some sess) obs (check_status <$> obs)
        (required_checks content byID && required_trees_pass content byID) (length (filter (λ o, ob_Passed o = true) obs))
        (current_typing_task 0 (ac_Tasks content) byID) emitSample emitSample
  end.

Definition Open (now : Z) (opts : OpenOpts) (r : TypingRunner) : result string TypingRunner :=
  match ac_Typing (oo_Content opts) with
  | None => Err "typing content is required"
  | Some t =>
      sess ← NewSession (Some t) (ac_Checks (oo_Content opts));
      Ok (refreshLocked now false
            (mkTypingRunner (oo_Content opts) (oo_Digest opts) (oo_Workspace opts) (Some sess) (yr_obs r) (yr_checks r)
               (yr_requiredPassed r) (yr_checksPassed r) (yr_currentTaskIdx r) (yr_emitSample r) (yr_emitChecks r)))
  end.

Definition typing_snapshot (now : Z) (sess : TypingSession) : TypingSnapshot :=
  let m := SessionMetrics now sess in
  mkTypingSnapshot (CurrentPrompt sess).1 (CurrentPrompt sess).2 (CurrentInput sess) (tn_promptIdx sess) (mx_TotalPrompts m)
    (RemainingPrompts sess) (mx_WPM m) (mx_Accuracy m) (mx_CorrectChars m) (mx_IncorrectChars m) (mx_Done m) (mx_ThresholdsMet m).

Definition snapshotLocked (now : Z) (drain : bool) (r : TypingRunner) : TypingRunner * Snapshot :=
  (if drain then set_emits false false r else r,
   mkSnapshot KindTyping (yr_ws r) (yr_ws r) "." (yr_currentTaskIdx r) (yr_checks r) (yr_requiredPassed r) (yr_checksPassed r)
     (length (yr_checks r)) 0 "" "" (typing_snapshot now <$> yr_sess r) (yr_emitSample r) (yr_emitChecks r) None None false).

Definition HandleInput (now : Z) (i : Input) (r : TypingRunner) : result string TypingRunner :=
  match yr_sess r with
  | None => Err "typing runner not open"
  | Some sess =>
      sess' ← (match i with
               | InputKey rune => Ok (TypeKey now rune sess)
               | InputBackspace => Ok (Backspace now sess)
               | InputString text => Ok (TypeString now text sess)
               | _ => Err ("typing runner does not accept input type " +:+ go_quote (input_type i))
               end);
      let advanced := negb (bool_decide (tn_promptIdx sess = tn_promptIdx sess')) || (negb (Done sess) && Done sess') in
      Ok (refreshLocked now advanced (set_sess (Some sess') r))
  end.

Definition Verify (now : Z) (r : TypingRunner) : result string TypingRunner :=
  match yr_sess r with None => Err "typing runner not open" | Some _ => Ok (refreshLocked now false r) end.

Definition CompleteReady (r : TypingRunner) : bool := yr_requiredPassed r.
Definition Observations (r : TypingRunner) : list Observation := yr_obs r.

Definition EncodeState (now : Z) (r : TypingRunner) : string :=
  marshal_wrap 1 KindTyping ((λ sess, Typing.EncodeState now sess) <$> yr_sess r).

(** A wrapped state or a bare one. *)
Definition RestoreState (now : Z) (raw : string) (r : TypingRunner) : result string TypingRunner :=
  match yr_sess r with
  | None => Err "typing runner not open"
  | Some sess =>
      if bool_decide (raw = "") then Ok r
      else
        let bare := match unmarshal_wrap raw with Some state => if bool_decide (state = "") then raw else state | None => raw end in
        sess' ← Typing.RestoreState now bare sess;
        Ok (set_emits false false (refreshLocked now false (set_sess (Some sess') r)))
  end.

Definition Close (r : TypingRunner) : TypingRunner := set_sess None r.

(** ** The steps of a runner *)

(** A session of the activity, wherever it stands. *)
Definition session_of (content : ActivityContent) (sess : TypingSession) : Prop :=
  Some (tn_content sess) = ac_Typing content ∧ tn_checks sess = ac_Checks content.

(** The results are those of an evaluation of such a session. *)
Definition results_of (r : TypingRunner) : Prop :=
  ∃ now sess, session_of (yr_content r) sess ∧
    let byID := index_by ob_CheckID (yr_obs r) in
    yr_obs r = Typing.Observations now sess ∧
    yr_requiredPassed r = required_checks (yr_content r) byID && required_trees_pass (yr_content r) byID.

Record typing_runner_inv (r : TypingRunner) : Prop := {
  yi_sess : ∀ sess, yr_sess r = Some sess → session_of (yr_content r) sess;
  yi_results : results_of r }.

Lemma typing_refresh_inv now emit r sess :
  yr_sess r = Some sess → session_of (yr_content r) sess → typing_runner_inv (refreshLocked now emit r).
Proof using Type.
  intros Hs Hof. unfold refreshLocked. rewrite Hs. split; cbn.
  - by intros ? [= <-].
  - by exists now, sess.
Qed.

Lemma refresh_content now emit r : yr_content (refreshLocked now emit r) = yr_content r.
Proof using Type. unfold refreshLocked. by destruct (yr_sess r). Qed.

Lemma typing_Open_inv now opts r r' : Open now opts r = Ok r' → typing_runner_inv r' ∧ yr_content r' = oo_Content opts.
Proof using Type.
  unfold Open. destruct (ac_Typing (oo_Content opts)) as [t|] eqn:Et; [|done]. intros (sess & Hn & Hr)%bind_Ok.
  apply (inj Ok) in Hr; subst r'. split; [|by rewrite refresh_content].
  destruct (NewSession_ok _ _ _ Hn) as (_ & Hc & _). eapply typing_refresh_inv; [done|]. split; [cbn; congruence|].
  unfold NewSession in Hn. destruct (bool_decide _); [done|]. destruct (existsb _ _); [done|]. by injection Hn as <-.
Qed.

Lemma TypeKey_same now k s : tn_content (TypeKey now k s) = tn_content s ∧ tn_checks (TypeKey now k s) = tn_checks s.
Proof using Type.
  unfold TypeKey. destruct (Done s); [done|]. destruct (_ && _); [done|]. destruct (_ !! _); [|done]. by repeat case_bool_decide.
Qed.

Lemma TypeKey_session content now k s : session_of content s → session_of content (TypeKey now k s).
Proof using Type. intros (Ha & Hb). destruct (TypeKey_same now k s) as [E1 E2]. split; [by rewrite E1|by rewrite E2]. Qed.

Lemma Backspace_session content now s : session_of content s → session_of content (Backspace now s).
Proof using Type. intros Hs. unfold Backspace. by destruct (_ || _). Qed.

Lemma TypeString_session content now text s : session_of content s → session_of content (TypeString now text s).
Proof using Type.
  unfold TypeString. revert s. induction (runes text) as [|k l IH]; cbn; intros s Hs; [done|]. by apply IH, TypeKey_session.
Qed.

Lemma Handle_inv now i r r' :
  HandleInput now i r = Ok r' → typing_runner_inv r → typing_runner_inv r' ∧ yr_content r' = yr_content r.
Proof using Type.
  unfold HandleInput. destruct (yr_sess r) as [sess|] eqn:Es; [|done]. intros (s' & Hs' & Hr)%bind_Ok Hinv.
  apply (inj Ok) in Hr; subst r'. pose proof (yi_sess _ Hinv _ Es) as Hof. split; [|by rewrite refresh_content].
  eapply typing_refresh_inv; [done|]. cbn [set_sess yr_content].
  destruct i; simplify_eq; [by apply TypeKey_session|by apply Backspace_session|by apply TypeString_session].
Qed.

Lemma typing_Verify_inv now r r' : Verify now r = Ok r' → typing_runner_inv r → typing_runner_inv r' ∧ yr_content r' = yr_content r.
Proof using Type.
  unfold Verify. destruct (yr_sess r) as [sess|] eqn:Es; [|done]. intros Hr Hinv. apply (inj Ok) in Hr; subst r'.
  split; [|by rewrite refresh_content]. eapply typing_refresh_inv; [done|]. exact (yi_sess _ Hinv _ Es).
Qed.

Lemma Restore_inv now raw r r' :
  RestoreState now raw r = Ok r' → typing_runner_inv r → typing_runner_inv r' ∧ yr_content r' = yr_content r.
Proof using Type.
  unfold RestoreState. destruct (yr_sess r) as [sess|] eqn:Es; [|done]. pose proof (λ Hi, yi_sess r Hi _ Es) as Hof.
  case_bool_decide; [intros Hr; apply (inj Ok) in Hr; by subst|]. cbv zeta. intros (s' & Hs' & Hr)%bind_Ok Hinv.
  apply (inj Ok) in Hr; subst r'. split; [|done]. specialize (Hof Hinv).
  assert (session_of (yr_content r) s') as Hs.
  { unfold Typing.RestoreState in Hs'. case_bool_decide; [by simplify_eq|]. destruct (unmarshal_durable _); [|done].
    destruct (_ && _); [done|]. apply (inj Ok) in Hs'. by subst s'. }
  assert (typing_runner_inv (refreshLocked now false (set_sess (Some s') r))) as [Ha Hb] by (by eapply typing_refresh_inv). by split.
Qed.

Lemma set_emits_inv a b r : typing_runner_inv r → typing_runner_inv (set_emits a b r).
Proof using Type. by intros [Ha Hb]. Qed.
Lemma Close_inv r : typing_runner_inv r → typing_runner_inv (Close r).
Proof using Type. by intros [Ha Hb]. Qed.

(** *** The server judges as the device does *)

Lemma observation_of now sess o : o ∈ Typing.Observations now sess →
  (tn_checks sess = [] ∧ ob_CheckID o = "typing-metrics" ∧ ob_Optional o = false) ∨
  ∃ ch, ch ∈ tn_checks sess ∧ ob_CheckID o = ck_ID ch ∧ ob_Optional o = ck_Optional ch ∧
    (ob_Passed o = true → ck_Kind ch = CheckTypingMetrics).
Proof using Type.
  unfold Typing.Observations. case_bool_decide as E.
  - intros ->%list_elem_of_singleton. by left.
  - intros (ch & -> & Hch)%list_elem_of_fmap. right. exists ch. unfold observe. by case_bool_decide.
Qed.

(** When the typing runner says that the activity may be completed, its observations pass the server's
    validation of required checks and tasks and of command evidence. *)
Lemma typing_ready_server_accepts r :
  typing_runner_inv r → NoDup (ck_ID <$> ac_Checks (yr_content r)) →
  (∀ t ch, t ∈ ac_Tasks (yr_content r) → tk_Optional t = false → ch ∈ ac_Checks (yr_content r) →
     ck_ID ch ∈ tree_checks (tk_Completion t) → ck_Optional ch = false) →
  CompleteReady r = true →
  validateRequiredChecks (yr_content r) (Observations r) = Ok tt ∧
  validateObservationCapabilities (yr_content r) (Observations r) = Ok tt.
Proof using Type.
  intros [_ (now & sess & [Hc Hch] & Hobs & Hreq)] Hnd Htrees Hready. unfold CompleteReady in Hready. unfold Observations.
  rewrite Hreq in Hready. apply andb_true_iff in Hready as [Hchecks Htasks].
  unfold required_checks in Hchecks. unfold required_trees_pass in Htasks.
  rewrite forallb_forall_in in Hchecks. rewrite forallb_forall_in in Htasks. split.
  - unfold validateRequiredChecks. apply unit_bind. split; apply for_each_Ok, Forall_forall.
    + intros ch Hin. specialize (Hchecks ch Hin). unfold requiredCheck. destruct (ck_Optional ch); [done|].
      destruct (_ !! _) as [o|]; [|done]. cbn in Hchecks. by rewrite Hchecks.
    + intros t Hin. specialize (Htasks t Hin). unfold requiredTask. destruct (tk_Optional t) eqn:Eo; [done|]. cbn [orb] in Htasks.
      apply orb_true_iff in Htasks as [Hempty|Htree].
      * unfold checkTreeEmpty in Hempty. rewrite !andb_true_iff, !bool_decide_eq_true in Hempty. destruct Hempty as [[Ha Hb] Hd].
        destruct (tk_Completion t) as [all any id opt]; cbn in *. destruct opt; [done|]. destruct all; [|done]. destruct any; [|done].
        by rewrite Ha.
      * rewrite EvalTree_server; [done| |done]. intros id o Hid Ho. apply index_by_lookup in Ho as [Ho <-].
        rewrite Hobs in Ho. apply observation_of in Ho as [(_ & _ & ?)|(ch & Hin' & Hid' & -> & _)]; [done|].
        rewrite Hid' in Hid. rewrite Hch in Hin'. by eapply Htrees.
  - unfold validateObservationCapabilities. apply for_each_Ok, Forall_forall. intros o Ho. cbn beta.
    destruct (negb _ || _) eqn:Ep; [done|]. apply orb_false_iff in Ep as [Ep%negb_false_iff _].
    rewrite Hobs in Ho. apply observation_of in Ho as [(E & _)|(ch & Hin & Hid & _ & Hk)].
    + rewrite Hch in E. by rewrite E.
    + rewrite Hch in Hin. rewrite Hid, (index_by_NoDup ck_ID _ ch Hnd Hin), (Hk Ep). done.
Qed.
End runner.
