(* ===== verification/Engine.v ===== *)
(** * The session engine ([studentclient/engine/engine.go], [studentclient/engine/session.go])

    The part of the student client that opens, runs, pauses, resumes and completes activities: it
    holds a runner ([TerminalRunner], [TypingRunner]), turns what the runner reports into events of the
    outbox, saves the runner's state after each step ([ClientStore]) and queues the completion, which
    the sync loop ([ClientSync]) delivers.

    What the machine answers during a call is a record [host]: the files, the shell, the spool of the
    shell hook, the pseudo-terminal.  Identifiers are the values of a sequence [uuid].  Go's mutex makes
    each call one step; the goroutine that drains the spool after a command, and the one that syncs
    after a response, are steps of their own. *)
From S2P Require Import Prelude GoStrings GoText Paths Utf8 Float64 Contracts ContentJson LmsData LmsDb Responses ActivityDoc Sessions.
From S2P Require Import ContentEncode WorkPage ClientStore ClientSync Mastery Typing Observe TerminalVerify TerminalRunner.
From S2P Require TypingRunner.
From stdpp Require Import pretty options.
Local Open Scope string_scope.
Local Open Scope list_scope.

Abbreviation TypingRunner := TypingRunner.TypingRunner.
Abbreviation WrapJson := TypingRunner.WrapJson.

Abbreviation EventSessionStarted := "session_started".
Abbreviation EventTaskViewed := "task_viewed".
Abbreviation EventCommandFinished := "command_finished".
Abbreviation EventCheckEvaluated := "check_evaluated".
Abbreviation EventTypingSample := "typing_sample".
Abbreviation EventSessionCompleted := "session_completed".

(** ** State and errors *)

(** A call changes a state and returns a value or an error; the state is kept with the error. *)
Definition SE (S A : Type) : Type := S → S * result cerr A.
#[export] Instance SE_ret {S} : MRet (SE S) | 100 := λ A a s, (s, Ok a).
#[export] Instance SE_bind {S} : MBind (SE S) | 100 := λ A B f m s,
  match m s with (s', Ok a) => f a s' | (s', Err e) => (s', Err e) end.
Definition se_fail {S A} (e : cerr) : SE S A := λ s, (s, Err e).
Definition se_try {S A} (m : SE S A) : SE S (result cerr A) := λ s, let (s', r) := m s in (s', Ok r).
Definition se_of {S A} (r : result cerr A) : SE S A := λ s, (s, r).
Definition se_get {S} : SE S S := λ s, (s, Ok s).
Definition se_mod {S} (f : S → S) : SE S unit := λ s, (f s, Ok tt).
(** An error that is dropped: [_ = f()]. *)
Definition se_ignore {S A} (m : SE S A) : SE S unit := λ s, ((m s).1, Ok tt).
Fixpoint se_each {S A} (f : A → SE S unit) (l : list A) : SE S unit :=
  match l with [] => mret tt | x :: l' => _ ← f x; se_each f l' end.

(** A runner's error as an error of the client. *)
Definition text_err {A} (r : result string A) : result cerr A := match r with Ok a => Ok a | Err e => Err (COther e) end.

(** ** The engine *)

(** [op_Client] and [op_Sync]: whether the pointers are set. *)
Record Options := mkOptions {
  op_Store : bool; op_Client : bool; op_Sync : bool; op_WorkspaceRoot : string; op_Offline : bool; op_UseSandbox : bool;
  op_AllowUnsandboxed : bool; op_RuntimeProfile : string; op_StructuredCommandEvidence : bool;
  op_DisableStructuredCommandEvidence : bool }.

(** [es_Sync] is [None] for the empty string. *)
Record EngineStatus := mkEngineStatus {
  es_Phase : string; es_Sync : option Status; es_WorkDownloaded : nat; es_AssignmentID : string; es_ActivitySlug : string;
  es_ClientSessionID : string; es_ServerSessionID : string; es_CommandsRun : Z; es_ChecksPassed : nat;
  es_ChecksTotal : nat; es_RequiredPassed : bool; es_CompletionQueued : bool; es_CompletionAcked : bool;
  es_Offline : bool; es_Message : string; es_LastError : string }.

Definition st_phase (x : string) (s : EngineStatus) : EngineStatus :=
  mkEngineStatus x (es_Sync s) (es_WorkDownloaded s) (es_AssignmentID s) (es_ActivitySlug s) (es_ClientSessionID s)
    (es_ServerSessionID s) (es_CommandsRun s) (es_ChecksPassed s) (es_ChecksTotal s) (es_RequiredPassed s)
    (es_CompletionQueued s) (es_CompletionAcked s) (es_Offline s) (es_Message s) (es_LastError s).
Definition st_sync (x : Status) (s : EngineStatus) : EngineStatus :=
  mkEngineStatus (es_Phase s) (Some x) (es_WorkDownloaded s) (es_AssignmentID s) (es_ActivitySlug s) (es_ClientSessionID s)
    (es_ServerSessionID s) (es_CommandsRun s) (es_ChecksPassed s) (es_ChecksTotal s) (es_RequiredPassed s)
    (es_CompletionQueued s) (es_CompletionAcked s) (es_Offline s) (es_Message s) (es_LastError s).
Definition st_work_items (x : nat) (s : EngineStatus) : EngineStatus :=
  mkEngineStatus (es_Phase s) (es_Sync s) x (es_AssignmentID s) (es_ActivitySlug s) (es_ClientSessionID s)
    (es_ServerSessionID s) (es_CommandsRun s) (es_ChecksPassed s) (es_ChecksTotal s) (es_RequiredPassed s)
    (es_CompletionQueued s) (es_CompletionAcked s) (es_Offline s) (es_Message s) (es_LastError s).
Definition st_slug (x : string) (s : EngineStatus) : EngineStatus :=
  mkEngineStatus (es_Phase s) (es_Sync s) (es_WorkDownloaded s) (es_AssignmentID s) x (es_ClientSessionID s)
    (es_ServerSessionID s) (es_CommandsRun s) (es_ChecksPassed s) (es_ChecksTotal s) (es_RequiredPassed s)
    (es_CompletionQueued s) (es_CompletionAcked s) (es_Offline s) (es_Message s) (es_LastError s).
Definition st_session (x0 : string) (x1 : string) (x2 : bool) (s : EngineStatus) : EngineStatus :=
  mkEngineStatus (es_Phase s) (es_Sync s) (es_WorkDownloaded s) (es_AssignmentID s) (es_ActivitySlug s) x0 x1
    (es_CommandsRun s) (es_ChecksPassed s) (es_ChecksTotal s) (es_RequiredPassed s) (es_CompletionQueued s)
    (es_CompletionAcked s) x2 (es_Message s) (es_LastError s).
Definition st_commands (x : Z) (s : EngineStatus) : EngineStatus :=
  mkEngineStatus (es_Phase s) (es_Sync s) (es_WorkDownloaded s) (es_AssignmentID s) (es_ActivitySlug s)
    (es_ClientSessionID s) (es_ServerSessionID s) x (es_ChecksPassed s) (es_ChecksTotal s) (es_RequiredPassed s)
    (es_CompletionQueued s) (es_CompletionAcked s) (es_Offline s) (es_Message s) (es_LastError s).
Definition st_results (x0 : nat) (x1 : nat) (x2 : bool) (s : EngineStatus) : EngineStatus :=
  mkEngineStatus (es_Phase s) (es_Sync s) (es_WorkDownloaded s) (es_AssignmentID s) (es_ActivitySlug s)
    (es_ClientSessionID s) (es_ServerSessionID s) (es_CommandsRun s) x0 x1 x2 (es_CompletionQueued s)
    (es_CompletionAcked s) (es_Offline s) (es_Message s) (es_LastError s).
Definition st_completion (x0 : bool) (x1 : bool) (s : EngineStatus) : EngineStatus :=
  mkEngineStatus (es_Phase s) (es_Sync s) (es_WorkDownloaded s) (es_AssignmentID s) (es_ActivitySlug s)
    (es_ClientSessionID s) (es_ServerSessionID s) (es_CommandsRun s) (es_ChecksPassed s) (es_ChecksTotal s)
    (es_RequiredPassed s) x0 x1 (es_Offline s) (es_Message s) (es_LastError s).
Definition st_offline (x : bool) (s : EngineStatus) : EngineStatus :=
  mkEngineStatus (es_Phase s) (es_Sync s) (es_WorkDownloaded s) (es_AssignmentID s) (es_ActivitySlug s)
    (es_ClientSessionID s) (es_ServerSessionID s) (es_CommandsRun s) (es_ChecksPassed s) (es_ChecksTotal s)
    (es_RequiredPassed s) (es_CompletionQueued s) (es_CompletionAcked s) x (es_Message s) (es_LastError s).
Definition st_message (x : string) (s : EngineStatus) : EngineStatus :=
  mkEngineStatus (es_Phase s) (es_Sync s) (es_WorkDownloaded s) (es_AssignmentID s) (es_ActivitySlug s)
    (es_ClientSessionID s) (es_ServerSessionID s) (es_CommandsRun s) (es_ChecksPassed s) (es_ChecksTotal s)
    (es_RequiredPassed s) (es_CompletionQueued s) (es_CompletionAcked s) (es_Offline s) x (es_LastError s).
Definition st_last_error (x : string) (s : EngineStatus) : EngineStatus :=
  mkEngineStatus (es_Phase s) (es_Sync s) (es_WorkDownloaded s) (es_AssignmentID s) (es_ActivitySlug s)
    (es_ClientSessionID s) (es_ServerSessionID s) (es_CommandsRun s) (es_ChecksPassed s) (es_ChecksTotal s)
    (es_RequiredPassed s) (es_CompletionQueued s) (es_CompletionAcked s) (es_Offline s) (es_Message s) x.

(** [New]: the options as the engine keeps them. *)
Definition New (opts : Options) : result cerr (Options * EngineStatus) :=
  if negb (op_Store opts) then Err (COther "cache store is required")
  else if negb (op_Client opts) && negb (op_Offline opts) then Err (COther "api client is required unless offline")
  else Ok (mkOptions (op_Store opts) (op_Client opts) (op_Sync opts || op_Client opts) (op_WorkspaceRoot opts) (op_Offline opts)
             (op_UseSandbox opts) (op_AllowUnsandboxed opts) (op_RuntimeProfile opts) (op_StructuredCommandEvidence opts)
             (op_DisableStructuredCommandEvidence opts),
           mkEngineStatus "init" (Some StatusIdle) 0 "" "" "" "" 0 0 0 false false false false "" "").

(** ** Runners *)

Inductive Runner := RTerminal (r : TerminalRunner) | RTyping (r : TypingRunner).

(** The answers of the machine during one call. *)
Record host := mkHost {
  ho_view : fs_view;                                  (** the files *)
  ho_os : fs_op → option string;                      (** directories and fixtures written *)
  ho_exec : string → string → string → shell_run;     (** [RunShell] *)
  ho_tempdir : result string string;                  (** [os.MkdirTemp] *)
  ho_bash : bool;                                     (** [exec.LookPath] finds bash *)
  ho_prepare : result string string;                  (** [observe.Prepare]: the path of the spool *)
  ho_writeRC : option string;                         (** [observe.WriteBashRC] fails *)
  ho_shell : result string bool;                      (** [shellCommand]: whether the shell is sandboxed *)
  ho_startPTY : option string;                        (** [ptyterm.Start] fails *)
  ho_alive : bool;                                    (** the shell of the terminal is alive *)
  ho_write : option string;                           (** writing to the terminal fails *)
  ho_spool : option string }.                         (** what the shell hook has written *)

Record Session := mkSession {
  s_item : StudentWorkItem; s_content : ActivityContent; s_digest : string; s_kind : string; s_runner : Runner;
  s_clientSessionID : string; s_serverSessionID : string; s_workspace : string; s_pty : bool; s_observeOK : bool;
  s_reader : option Reader; s_message : string; s_completed : bool; s_completionQueued : bool;
  s_completionAcked : bool; s_offline : bool; s_syncStatus : Status; s_tutorHint : string; s_lastPTYInputAt : Z;
  s_pendingObserve : bool; s_restored : bool }.

Definition ses_runner (x : Runner) (s : Session) : Session :=
  mkSession (s_item s) (s_content s) (s_digest s) (s_kind s) x (s_clientSessionID s) (s_serverSessionID s)
    (s_workspace s) (s_pty s) (s_observeOK s) (s_reader s) (s_message s) (s_completed s) (s_completionQueued s)
    (s_completionAcked s) (s_offline s) (s_syncStatus s) (s_tutorHint s) (s_lastPTYInputAt s) (s_pendingObserve s)
    (s_restored s).
Definition ses_pty (x : bool) (s : Session) : Session :=
  mkSession (s_item s) (s_content s) (s_digest s) (s_kind s) (s_runner s) (s_clientSessionID s) (s_serverSessionID s)
    (s_workspace s) x (s_observeOK s) (s_reader s) (s_message s) (s_completed s) (s_completionQueued s)
    (s_completionAcked s) (s_offline s) (s_syncStatus s) (s_tutorHint s) (s_lastPTYInputAt s) (s_pendingObserve s)
    (s_restored s).
Definition ses_observe (x0 : bool) (x1 : option Reader) (s : Session) : Session :=
  mkSession (s_item s) (s_content s) (s_digest s) (s_kind s) (s_runner s) (s_clientSessionID s) (s_serverSessionID s)
    (s_workspace s) (s_pty s) x0 x1 (s_message s) (s_completed s) (s_completionQueued s) (s_completionAcked s)
    (s_offline s) (s_syncStatus s) (s_tutorHint s) (s_lastPTYInputAt s) (s_pendingObserve s) (s_restored s).
Definition ses_message (x : string) (s : Session) : Session :=
  mkSession (s_item s) (s_content s) (s_digest s) (s_kind s) (s_runner s) (s_clientSessionID s) (s_serverSessionID s)
    (s_workspace s) (s_pty s) (s_observeOK s) (s_reader s) x (s_completed s) (s_completionQueued s)
    (s_completionAcked s) (s_offline s) (s_syncStatus s) (s_tutorHint s) (s_lastPTYInputAt s) (s_pendingObserve s)
    (s_restored s).
Definition ses_completed (x0 : bool) (x1 : bool) (s : Session) : Session :=
  mkSession (s_item s) (s_content s) (s_digest s) (s_kind s) (s_runner s) (s_clientSessionID s) (s_serverSessionID s)
    (s_workspace s) (s_pty s) (s_observeOK s) (s_reader s) (s_message s) x0 x1 (s_completionAcked s) (s_offline s)
    (s_syncStatus s) (s_tutorHint s) (s_lastPTYInputAt s) (s_pendingObserve s) (s_restored s).
Definition ses_acked (x : bool) (s : Session) : Session :=
  mkSession (s_item s) (s_content s) (s_digest s) (s_kind s) (s_runner s) (s_clientSessionID s) (s_serverSessionID s)
    (s_workspace s) (s_pty s) (s_observeOK s) (s_reader s) (s_message s) (s_completed s) (s_completionQueued s) x
    (s_offline s) (s_syncStatus s) (s_tutorHint s) (s_lastPTYInputAt s) (s_pendingObserve s) (s_restored s).
Definition ses_sync (x : Status) (s : Session) : Session :=
  mkSession (s_item s) (s_content s) (s_digest s) (s_kind s) (s_runner s) (s_clientSessionID s) (s_serverSessionID s)
    (s_workspace s) (s_pty s) (s_observeOK s) (s_reader s) (s_message s) (s_completed s) (s_completionQueued s)
    (s_completionAcked s) (s_offline s) x (s_tutorHint s) (s_lastPTYInputAt s) (s_pendingObserve s) (s_restored s).
Definition ses_hint (x : string) (s : Session) : Session :=
  mkSession (s_item s) (s_content s) (s_digest s) (s_kind s) (s_runner s) (s_clientSessionID s) (s_serverSessionID s)
    (s_workspace s) (s_pty s) (s_observeOK s) (s_reader s) (s_message s) (s_completed s) (s_completionQueued s)
    (s_completionAcked s) (s_offline s) (s_syncStatus s) x (s_lastPTYInputAt s) (s_pendingObserve s) (s_restored s).
Definition ses_input_at (x : Z) (s : Session) : Session :=
  mkSession (s_item s) (s_content s) (s_digest s) (s_kind s) (s_runner s) (s_clientSessionID s) (s_serverSessionID s)
    (s_workspace s) (s_pty s) (s_observeOK s) (s_reader s) (s_message s) (s_completed s) (s_completionQueued s)
    (s_completionAcked s) (s_offline s) (s_syncStatus s) (s_tutorHint s) x (s_pendingObserve s) (s_restored s).
Definition ses_pending (x : bool) (s : Session) : Session :=
  mkSession (s_item s) (s_content s) (s_digest s) (s_kind s) (s_runner s) (s_clientSessionID s) (s_serverSessionID s)
    (s_workspace s) (s_pty s) (s_observeOK s) (s_reader s) (s_message s) (s_completed s) (s_completionQueued s)
    (s_completionAcked s) (s_offline s) (s_syncStatus s) (s_tutorHint s) (s_lastPTYInputAt s) x (s_restored s).

(** [POST /student/sessions] as the client sees it. *)
Class SessionServer (W : Type) := {
  srv_StartSession : string → string → string → list string → option DeviceCapabilities → W → W * result cerr LearningSession }.

(** The JSON texts of a saved terminal state and of what a completion digest covers. *)
Class EngineJson := {
  marshal_terminal : terminalDurable → string;
  unmarshal_terminal : string → result string terminalDurable;
  marshal_digest_input : string → list Observation → string }.

Record estate (W : Type) := mkEState {
  ea_client : cstate W; ea_status : EngineStatus; ea_profile : string; ea_uuids : nat }.
Arguments mkEState {W}.
Arguments ea_client {W}.
Arguments ea_status {W}.
Arguments ea_profile {W}.
Arguments ea_uuids {W}.

Definition obs_json `{!GoText} (o : Observation) : json :=
  JObj ([("schemaVersion", JStr (ob_SchemaVersion o)); ("checkId", JStr (ob_CheckID o)); ("kind", JStr (ob_Kind o));
         ("passed", JBool (ob_Passed o))] ++
        (if ob_Optional o then [("optional", JBool true)] else []) ++
        (if bool_decide (ob_Message o = "") then [] else [("message", JStr (ob_Message o))]) ++
        [("observedAt", JStr (format_time (ob_ObservedAt o)))] ++
        (match ob_Details o with
         | Some d => if bool_decide (d = ∅) then [] else [("details", JObj (map_to_list d))]
         | None => []
         end)).

Definition quality_json (q : EvidenceQuality) : json :=
  JObj [("exit", JBool (eq_Exit q)); ("cwd", JBool (eq_Cwd q)); ("argv", JBool (eq_Argv q)); ("stdout", JBool (eq_Stdout q));
        ("stderr", JBool (eq_Stderr q))].

(** The payloads of [applyRunnerEvents]. *)
Definition event_payload (ev : ShellEvent) : jmap := list_to_map [
  ("schemaVersion", JStr (se_SchemaVersion ev)); ("sequence", JInt (se_Sequence ev)); ("executable", JStr (se_Executable ev));
  ("argv", JArr (JStr <$> se_Argv ev)); ("argvAvailable", JBool (se_ArgvAvailable ev)); ("exitCode", JInt (se_ExitCode ev));
  ("exitAvailable", JBool (se_ExitAvailable ev)); ("cwd", JStr (se_CwdAfter ev)); ("cwdBefore", JStr (se_CwdBefore ev));
  ("cwdAvailable", JBool (se_CwdAvailable ev)); ("submittedLine", JStr (se_SubmittedLine ev));
  ("stdoutNorm", JStr (truncate (xc_Text (se_Stdout ev)) 2048)); ("stderrNorm", JStr (truncate (xc_Text (se_Stderr ev)) 1024));
  ("stdoutTrusted", JBool (xc_Trusted (se_Stdout ev))); ("stderrTrusted", JBool (xc_Trusted (se_Stderr ev)));
  ("source", JStr (se_Source ev)); ("structured", JBool (se_Structured ev)); ("runnerVersion", JStr (se_RunnerVersion ev));
  ("shellInstrumentation", JStr (se_ShellInstrumentation ev)); ("verifierVersion", JStr (se_VerifierVersion ev));
  ("manifestBefore", JStr (se_ManifestBefore ev)); ("manifestAfter", JStr (se_ManifestAfter ev));
  ("writeSet", JArr (JStr <$> se_WriteSet ev)); ("quality", quality_json (se_Quality ev))].

Definition shell_payload (sh : ShellResult) : jmap := list_to_map [
  ("executable", JStr (sr_Executable sh)); ("args", JArr (JStr <$> sr_Args sh)); ("exitCode", JInt (sr_ExitCode sh));
  ("cwd", JStr (sr_Cwd sh)); ("stdoutNorm", JStr (truncate (sr_Stdout sh) 2048)); ("stderrNorm", JStr (truncate (sr_Stderr sh) 1024));
  ("source", JStr (sr_Source sh)); ("structured", JBool (sr_Structured sh))].

Definition sample_payload (t : TypingSnapshot) : jmap :=
  let m : jmap := list_to_map [
    ("wpm", JNum (ts_WPM t)); ("accuracy", JNum (ts_Accuracy t)); ("correctChars", JInt (ts_CorrectChars t));
    ("incorrectChars", JInt (ts_IncorrectChars t)); ("completedPrompts", JInt (ts_PromptIndex t));
    ("totalPrompts", JInt (ts_TotalPrompts t)); ("done", JBool (ts_Done t)); ("thresholdsMet", JBool (ts_ThresholdsMet t))] in
  if bool_decide (ts_PromptID t = "") then m
  else <["promptText" := JStr (ts_PromptText t)]> (<["promptId" := JStr (ts_PromptID t)]> m).

Section engine.
Context `{!GoText, !GoRegexp, !FloatText, !DurableJson, !WrapJson, !EngineJson} {W : Type} `{!Server W, !SessionServer W}.
Context (range_tasks : gmap Z Z → list Z) (digestManifest : list WorkspaceManifestEntry → bool → string).
Context (sha256_hex : string → string) (unmarshal : string → option rawEvent) (uuid : nat → string) (constraint_text : string).
Context (fuel : nat) (deviceCaps : option DeviceCapabilities) (opts : Options).

Local Abbreviation EM := (SE (estate W)).
Local Abbreviation SM := (SE (estate W * Session)).

(** [err.Error()] *)
Definition error_text (e : cerr) : string :=
  match e with
  | CNotFound => "not found"
  | CUnauthorized msg => if bool_decide (msg = "") then "unauthorized" else msg
  | CHttp status body op => http_text status body op
  | CConstraint => constraint_text
  | COther msg => msg
  end.

Definition store_of (st : estate W) : Store := cl_store (ea_client st).
Definition now_of (st : estate W) : Z := srv_now (cl_world (ea_client st)).
Definition with_client (c : cstate W) (st : estate W) : estate W := mkEState c (ea_status st) (ea_profile st) (ea_uuids st).
Definition put_store (s : Store) (st : estate W) : estate W := with_client (with_store s (ea_client st)) st.
Definition put_status (f : EngineStatus → EngineStatus) (st : estate W) : estate W :=
  mkEState (ea_client st) (f (ea_status st)) (ea_profile st) (ea_uuids st).

Definition on_client {A} (m : CM W A) : EM A := λ st, let (c, r) := m (ea_client st) in (with_client c st, r).
Definition on_store (f : Z → Store → Store) : EM unit := se_mod (λ st, put_store (f (now_of st) (store_of st)) st).
Definition get_store {A} (f : Store → A) : EM A := λ st, (st, Ok (f (store_of st))).
Definition status (f : EngineStatus → EngineStatus) : EM unit := se_mod (put_status f).

(** [uuid.NewString] *)
Definition NewString : EM string := λ st,
  (mkEState (ea_client st) (ea_status st) (ea_profile st) (S (ea_uuids st)), Ok (uuid (ea_uuids st))).

(** *** Runners behind their interface *)

(** [fmt.Sprintf("%v", SupportedKinds())] *)
Definition kinds_text : string := "[" +:+ GoStrings.Join SupportedKinds " " +:+ "]".

(** [activities.New] *)
Definition new_runner (kind : string) : result cerr Runner :=
  if bool_decide (kind = KindTerminal) then Ok (RTerminal NewTerminal)
  else if bool_decide (kind = KindTyping) then Ok (RTyping TypingRunner.NewTyping)
  else Err (COther ("unsupported activity kind: " +:+ go_quote kind +:+ " (supported: " +:+ kinds_text +:+ ")")).

Definition runner_Open (h : host) (now : Z) (o : OpenOpts) (r : Runner) : result cerr Runner :=
  text_err (match r with
            | RTerminal r => r' ← Open range_tasks digestManifest (ho_os h) (ho_view h) now o r; Ok (RTerminal r')
            | RTyping r => r' ← TypingRunner.Open now o r; Ok (RTyping r')
            end).

Definition runner_HandleInput (h : host) (now : Z) (i : Input) (r : Runner) : result cerr Runner :=
  text_err (match r with
            | RTerminal r => r' ← HandleInput range_tasks digestManifest sha256_hex (ho_exec h) (ho_view h) now i r; Ok (RTerminal r')
            | RTyping r => r' ← TypingRunner.HandleInput now i r; Ok (RTyping r')
            end).

Definition runner_Verify (h : host) (now : Z) (r : Runner) : result cerr Runner :=
  text_err (match r with
            | RTerminal r => Ok (RTerminal (Verify range_tasks (ho_view h) now r))
            | RTyping r => r' ← TypingRunner.Verify now r; Ok (RTyping r')
            end).

Definition runner_CompleteReady (r : Runner) : bool :=
  match r with RTerminal r => CompleteReady r | RTyping r => TypingRunner.CompleteReady r end.
Definition runner_Observations (r : Runner) : list Observation :=
  match r with RTerminal r => Observations r | RTyping r => TypingRunner.Observations r end.

(** The snapshot, and the runner after it. *)
Definition runner_Snapshot (now : Z) (drain : bool) (r : Runner) : Runner * Snapshot :=
  match r with
  | RTerminal r => let (r', s) := snapshotLocked drain r in (RTerminal r', s)
  | RTyping r => let (r', s) := TypingRunner.snapshotLocked now drain r in (RTyping r', s)
  end.

Definition runner_EncodeState (now : Z) (r : Runner) : string :=
  match r with RTerminal r => marshal_terminal (EncodeState now r) | RTyping r => TypingRunner.EncodeState now r end.

Definition runner_RestoreState (h : host) (now : Z) (raw : string) (r : Runner) : result cerr Runner :=
  text_err (match r with
            | RTerminal r =>
                r' ← RestoreState range_tasks (ho_view h) now (if bool_decide (raw = "") then None else Some (unmarshal_terminal raw)) r;
                Ok (RTerminal r')
            | RTyping r => r' ← TypingRunner.RestoreState now raw r; Ok (RTyping r')
            end).

Definition runner_Close (r : Runner) : Runner :=
  match r with RTerminal r => RTerminal (Close r) | RTyping r => RTyping (TypingRunner.Close r) end.

(** [tr.MarkResponseSubmitted(id)] if the runner is one for a terminal. *)
Definition mark_response (h : host) (now : Z) (r : Runner) (id : string) : Runner :=
  match r with RTerminal r => RTerminal (MarkResponseSubmitted range_tasks (ho_view h) now id r) | RTyping r => RTyping r end.

(** *** Synchronisation *)

Definition sync_pass : EM SyncResult :=
  r ← on_client (SyncOnce fuel deviceCaps);
  match r with Some res => mret res | None => se_fail (COther "out of fuel") end.

Definition record_error (e : option cerr) : EM unit :=
  match e with Some e => status (st_last_error (error_text e)) | None => mret tt end.

Definition eng_SyncOnce : EM SyncResult :=
  if op_Offline opts || negb (op_Sync opts) then
    _ ← status (λ x, st_sync StatusOffline (st_offline true x));
    mret (mkSyncResult StatusOffline 0 0 0 0 0 0 None)
  else
    res ← sync_pass;
    _ ← status (λ x, st_work_items (sy_WorkItems res) (st_sync (sy_Status res) x));
    _ ← record_error (sy_Err res);
    mret res.

(** [flush]: its error is a value for the callers. *)
Definition flush : EM (option cerr) :=
  if op_Offline opts || negb (op_Sync opts) then _ ← status (st_sync StatusOffline); mret None
  else
    res ← sync_pass;
    _ ← status (st_sync (sy_Status res));
    _ ← record_error (sy_Err res);
    mret (sy_Err res).

Definition enqueue (clientSessionID typ : string) (payload : jmap) : EM SessionEvent :=
  id ← NewString;
  st ← se_get;
  match EnqueueEvent (now_of st) clientSessionID (mkSessionEvent EventSchemaVersion id typ (-1) (now_of st) (Some payload)) (store_of st) with
  | Ok (s, ev) => _ ← se_mod (put_store s); mret ev
  | Err e => se_fail e
  end.

Definition sessionCapabilities (h : host) : list string :=
  if op_DisableStructuredCommandEvidence opts then []
  else if op_StructuredCommandEvidence opts || ho_bash h then [CapStructuredCommandEvidence] else [].

Definition isIncompatibleRevisionError (e : cerr) : bool :=
  match e with
  | CHttp status body op =>
      if bool_decide (status = 400)%Z
      then Contains body "structured_command_evidence" || Contains (http_text status body op) "structured_command_evidence"
      else Contains (http_text status body op) "structured_command_evidence"
  | _ => Contains (error_text e) "structured_command_evidence"
  end.

Definition incompatible_text : string := "runner lacks structured_command_evidence required by this activity revision".

Definition check_capabilities (h : host) (content : ActivityContent) : EM unit :=
  if RejectIncompatibleRevision content (list_to_set (sessionCapabilities h)) then se_fail (COther incompatible_text) else mret tt.

Definition runtimeProfile (st : estate W) : string :=
  let p := TrimSpace (ea_profile st) in if bool_decide (p = "") then TrimSpace (op_RuntimeProfile opts) else p.

(** *** Session pieces *)

Definition on_engine {A} (m : EM A) : SM A := λ x, let (st, r) := m x.1 in ((st, x.2), r).
Definition set_session (f : Session → Session) : SM unit := se_mod (λ x, (x.1, f x.2)).

Definition persistRunnerState : SM unit := λ x,
  let '(st, s) := x in
  match SaveRunnerState (now_of st) (s_clientSessionID s) (s_kind s) (Some (runner_EncodeState (now_of st) (s_runner s))) (store_of st) with
  | Ok store => ((put_store store st, s), Ok tt)
  | Err e => ((st, s), Err e)
  end.

(** The event of a finished command. *)
Definition emit_command (snap : Snapshot) (cid : string) : EM unit :=
  if sn_EmitCommand snap then
    match sn_LastEvent snap, sn_LastShell snap with
    | Some ev, _ => se_ignore (enqueue cid EventCommandFinished (event_payload ev))
    | None, Some sh => se_ignore (enqueue cid EventCommandFinished (shell_payload sh))
    | None, None => mret tt
    end
  else mret tt.

Definition emit_sample (snap : Snapshot) (kind cid : string) : EM unit :=
  match sn_Typing snap with
  | Some t => if sn_EmitSample snap && bool_decide (kind = KindTyping)
              then se_ignore (enqueue cid EventTypingSample (sample_payload t)) else mret tt
  | None => mret tt
  end.

Definition check_payload (digest kind : string) (o : Observation) : jmap :=
  <["observation" := obs_json o]>
    (<["verifierVersion" := JStr (if bool_decide (kind = KindTyping) then "1" else VerifierVersion)]>
       (<["activityDigest" := JStr digest]> ∅)).

Definition emit_checks (snap : Snapshot) (s : Session) : EM unit :=
  if sn_EmitChecks snap then
    se_each (λ o, se_ignore (enqueue (s_clientSessionID s) EventCheckEvaluated (check_payload (s_digest s) (s_kind s) o)))
      (runner_Observations (s_runner s))
  else mret tt.

Definition applyRunnerEvents : SM unit := λ x,
  let '(st, s) := x in
  let '(r, snap) := runner_Snapshot (now_of st) true (s_runner s) in
  let s := ses_runner r s in
  on_engine (_ ← emit_command snap (s_clientSessionID s);
             _ ← emit_sample snap (s_kind s) (s_clientSessionID s);
             emit_checks snap s) (st, s).

(** The runner takes an input; its error leaves the runner as it was. *)
Definition handle (h : host) (i : Input) : SM unit := λ x,
  match runner_HandleInput h (now_of x.1) i (s_runner x.2) with
  | Ok r => ((x.1, ses_runner r x.2), Ok tt)
  | Err e => (x, Err e)
  end.

Definition verify (h : host) : SM unit := λ x,
  match runner_Verify h (now_of x.1) (s_runner x.2) with
  | Ok r => ((x.1, ses_runner r x.2), Ok tt)
  | Err e => (x, Err e)
  end.

(** The manifest of the workspace is attached to an event that has none. *)
Definition with_manifest (h : host) (s : Session) (ev : ShellEvent) : ShellEvent :=
  if bool_decide (se_ManifestAfter ev = "")
  then event_manifests (se_ManifestBefore ev) (wf_Digest (CaptureManifest digestManifest (ho_view h) (s_workspace s))) ev else ev.

Definition drainObserveLocked (h : host) : SM unit := λ x,
  let '(st, s) := x in
  match s_reader s with
  | None => (x, Ok tt)
  | Some rd =>
      let '(rd', events, ok) := Drain unmarshal (now_of st) rd (ho_spool h) in
      let s := ses_observe (s_observeOK s) (Some rd') s in
      if negb ok then ((st, ses_message "observe drain error: bufio.Scanner: token too long" s), Ok tt)
      else se_each (λ ev, se_ignore (handle h (InputShellResult None (Some (with_manifest h s ev))))) events (st, s)
  end.

Definition restoreSubmittedResponses (h : host) : SM unit := λ x,
  let ids := ListAckedResponseTaskIDs (s_clientSessionID x.2) (store_of x.1) in
  ((x.1, ses_runner (foldl (mark_response h (now_of x.1)) (s_runner x.2) (range_set ids)) x.2), Ok tt).

(** [startPTY]: the terminal, and the reader of the shell hook when it could be installed. *)
Definition startPTY (h : host) : SM unit := λ x,
  let '(st, s) := x in
  let '(spool, s) :=
    if ho_bash h then
      match ho_prepare h with
      | Err e => (None, ses_message ("observe spool unavailable: " +:+ e) s)
      | Ok path => match ho_writeRC h with
                   | Some e => (None, ses_message ("observe rc unavailable: " +:+ e) s)
                   | None => (Some path, s)
                   end
      end
    else (None, s) in
  match ho_shell h with
  | Err e => ((st, s), Err (COther e))
  | Ok sandboxed =>
      match ho_startPTY h with
      | Some e => ((st, s), Err (COther e))
      | None =>
          let s := ses_pty true s in
          match spool with
          | Some path =>
              let rd := mkReader path 0 0 (s_workspace s) (if sandboxed then "/workspace" else "") (s_clientSessionID s) RunnerVersion
                          VerifierVersion in
              ((st, ses_observe true (Some rd) s), Ok tt)
          | None =>
              let s := ses_observe false (s_reader s) s in
              ((st, if bool_decide (s_message s = "")
                    then ses_message "bash observe instrumentation unavailable; command checks fail closed" s else s), Ok tt)
          end
      end
  end.

(** The terminal of an opened session; [failed] is the message when the session goes on without one. *)
Definition attach_terminal (h : host) (kind failed : string) : SM unit :=
  if bool_decide (kind = KindTerminal) then
    r ← se_try (startPTY h);
    match r with
    | Ok _ => mret tt
    | Err e =>
        if op_AllowUnsandboxed opts then set_session (ses_message (failed +:+ error_text e))
        else se_fail (COther ("start terminal pty: " +:+ error_text e))
    end
  else mret tt.

(** A session piece run on a new session, which is the result. *)
Definition with_session {A} (s : Session) (m : SM A) : EM Session := λ st,
  match m (st, s) with ((st', s'), Ok _) => (st', Ok s') | ((st', _), Err e) => (st', Err e) end.

(** *** Opening *)

Definition set_profile (kind : string) (content : ActivityContent) (resume : bool) : EM unit := se_mod (λ st,
  let p := match ac_Terminal content with Some t => if bool_decide (kind = KindTerminal) then tc_RuntimeProfile t else ea_profile st
           | None => ea_profile st end in
  let p := if bool_decide (op_RuntimeProfile opts = "") || negb (resume || bool_decide (kind = KindTerminal)) then p
           else op_RuntimeProfile opts in
  mkEState (ea_client st) (ea_status st) p (ea_uuids st)).

(** [item.Assignment.ID[:8]]: identifiers are UUIDs. *)
Definition workspace_name (kind id : string) : string :=
  (if bool_decide (kind = KindTerminal) then "exercise-" else if bool_decide (kind = KindTyping) then "typing-" else "activity-")
    +:+ String.substring 0 8 id.

Definition open_opts (workspace : string) (content : ActivityContent) (item : StudentWorkItem) (skip : bool) : OpenOpts :=
  mkOpenOpts workspace content (rv_ContentSHA256 (wi_Revision item)) true skip.

(** The server session of a new client session: its identifier, or [""] when the session goes on offline. *)
Definition start_online (h : host) (clientSessionID assignmentID : string) : EM (string * bool) :=
  if op_Offline opts || negb (op_Client opts) then mret ("", op_Offline opts)
  else
    tok ← get_store DeviceToken;
    _ ← (if bool_decide (tok = "") then mret tt
         else se_mod (λ st, let c := ea_client st in with_client (mkClient (cl_world c) (cl_store c) tok (cl_status c) (cl_last c)) st));
    r ← se_try (on_client (call (λ tok, srv_StartSession tok clientSessionID assignmentID (sessionCapabilities h) deviceCaps)));
    match r with
    | Ok sess => mret (ls_ID sess, false)
    | Err e => if isIncompatibleRevisionError e then se_fail e else mret ("", true)
    end.

Definition new_session (item : StudentWorkItem) (content : ActivityContent) (kind : string) (runner : Runner)
    (clientSessionID serverSessionID workspace : string) (offline restored : bool) (message : string) : Session :=
  mkSession item content (rv_ContentSHA256 (wi_Revision item)) kind runner clientSessionID serverSessionID workspace false false None
    message false false false offline (if offline then StatusOffline else StatusIdle) "" go_zero_time false restored.

Definition started_payload (item : StudentWorkItem) (kind : string) : jmap := list_to_map [
  ("assignmentId", JStr (sa_ID (wi_Assignment item))); ("activitySlug", JStr (la_Slug (wi_Activity item)));
  ("revisionId", JStr (rv_ID (wi_Revision item))); ("kind", JStr kind)].
Definition viewed_payload (t : Task) : jmap := list_to_map [("taskId", JStr (tk_ID t)); ("title", JStr (tk_Title t))].

(** The events a new session begins with. *)
Definition opening_events (item : StudentWorkItem) (content : ActivityContent) (kind cid : string) : EM unit :=
  _ ← enqueue cid EventSessionStarted (started_payload item kind);
  se_each (λ t, _ ← enqueue cid EventTaskViewed (viewed_payload t); mret tt) (ac_Tasks content).

(** The workspace of a new session, with the runner opened in it. *)
Definition open_runner (h : host) (item : StudentWorkItem) (content : ActivityContent) (kind : string) : EM (string * Runner) :=
  wsRoot ← (if bool_decide (op_WorkspaceRoot opts = "") then se_of (text_err (ho_tempdir h)) else mret (op_WorkspaceRoot opts));
  _ ← set_profile kind content false;
  let workspace := path_Join wsRoot (workspace_name kind (sa_ID (wi_Assignment item))) in
  _ ← (match ho_os h (MkdirAll workspace 493) with Some e => se_fail (COther e) | None => mret tt end);
  runner ← se_of (new_runner kind);
  st ← se_get;
  runner ← se_of (runner_Open h (now_of st) (open_opts workspace content item false) runner);
  mret (workspace, runner).

Definition openFreshSession (h : host) (item : StudentWorkItem) (content : ActivityContent) (kind : string) : EM Session :=
  x ← open_runner h item content kind;
  clientSessionID ← NewString;
  _ ← check_capabilities h content;
  y ← start_online h clientSessionID (sa_ID (wi_Assignment item));
  _ ← on_store (λ now, SaveSession now (mkClientSession clientSessionID y.1 (sa_ID (wi_Assignment item)) (rv_ID (wi_Revision item))
                                          "started" (-1) 0 x.1 go_zero_time go_zero_time));
  with_session (new_session item content kind x.2 clientSessionID y.1 x.1 y.2 false (if y.2 then "working offline" else "")) (
    _ ← restoreSubmittedResponses h;
    _ ← on_engine (opening_events item content kind clientSessionID);
    _ ← attach_terminal h kind "pty unavailable; command box only: ";
    _ ← se_ignore (verify h);
    se_ignore persistRunnerState).

(** The saved runner, opened in the workspace of its session. *)
Definition restore_runner (h : host) (item : StudentWorkItem) (content : ActivityContent) (kind : string) (row : ClientSession)
    (rs : RunnerState) : EM Runner :=
  _ ← (if negb (bool_decide (rn_Kind rs = "")) && negb (bool_decide (rn_Kind rs = kind))
       then se_fail (COther ("runner state kind " +:+ go_quote (rn_Kind rs) +:+ " does not match activity kind " +:+ go_quote kind)) else mret tt);
  let workspace := ss_WorkspacePath row in
  _ ← (if bool_decide (workspace = "") then se_fail (COther ("session " +:+ ss_ClientSessionID row +:+ " has no workspace path")) else mret tt);
  _ ← (match os_Stat (ho_view h) workspace with
       | Err e => se_fail (COther ("workspace missing for resume: " +:+ oe_Text e)) | Ok _ => mret tt end);
  _ ← set_profile kind content true;
  runner ← se_of (new_runner kind);
  st ← se_get;
  runner ← se_of (runner_Open h (now_of st) (open_opts workspace content item true) runner);
  se_of (runner_RestoreState h (now_of st) (rn_StateJSON rs) runner).

Definition resumeSession (h : host) (item : StudentWorkItem) (content : ActivityContent) (kind : string) (row : ClientSession)
    (rs : RunnerState) : EM Session :=
  runner ← restore_runner h item content kind row rs;
  _ ← check_capabilities h content;
  _ ← on_store (λ now, SaveSession now (session_set_state "started" row));
  with_session (new_session item content kind runner (ss_ClientSessionID row) (ss_ServerSessionID row) (ss_WorkspacePath row)
                  (op_Offline opts) true "resumed session") (
    _ ← restoreSubmittedResponses h;
    _ ← attach_terminal h kind "resumed; pty unavailable: ";
    se_ignore (verify h)).

(** The work item, synchronising once more when the cache does not have it. *)
Definition load_work (assignmentID : string) : EM StudentWorkItem :=
  r ← get_store (GetWork assignmentID);
  r ← (match r with
       | Ok _ => mret r
       | Err _ =>
           if negb (op_Offline opts) && op_Client opts then
             res ← eng_SyncOnce;
             match sy_Err res with None => get_store (GetWork assignmentID) | Some _ => mret r end
           else mret r
       end);
  match r with
  | Ok item => mret item
  | Err e => se_fail (COther ("load assignment " +:+ assignmentID +:+ ": " +:+ error_text e))
  end.

(** The open session of the assignment and its saved runner, if both are there. *)
Definition find_resumable (assignmentID : string) (s : Store) : option (ClientSession * RunnerState) :=
  match FindOpenSessionByAssignment assignmentID s with
  | Ok row => match GetRunnerState (ss_ClientSessionID row) s with Ok rs => Some (row, rs) | Err _ => None end
  | Err _ => None
  end.

(** The pass before a session is opened. *)
Definition sync_first : EM unit :=
  if op_Offline opts || negb (op_Sync opts) then mret tt
  else
    res ← eng_SyncOnce;
    if bool_decide (sy_Status res = StatusRevoked)
    then se_fail (COther ("device revoked: " +:+ match sy_Err res with Some e => error_text e | None => "" end)) else mret tt.

Definition OpenSession (h : host) (assignmentID : string) : EM Session :=
  _ ← sync_first;
  item ← load_work assignmentID;
  content ← se_of (text_err (clientContent (rv_Content (wi_Revision item))));
  kind ← se_of (match ResolveKind (la_Kind (wi_Activity item)) content with
                | Ok kind => Ok kind
                | Err e => Err (COther ("activity " +:+ la_Slug (wi_Activity item) +:+ ": " +:+ e))
                end);
  _ ← (if Supports kind then mret tt
       else se_fail (COther ("unsupported activity kind: " +:+ go_quote kind +:+ " (supported: " +:+ kinds_text +:+ ", runnerVersion=" +:+
                             RunnerVersion +:+ ")")));
  found ← get_store (find_resumable (sa_ID (wi_Assignment item)));
  match found with
  | Some (row, rs) =>
      r ← se_try (resumeSession h item content kind row rs);
      match r with
      | Ok sess => mret sess
      | Err e => _ ← status (st_last_error ("resume failed: " +:+ error_text e)); openFreshSession h item content kind
      end
  | None => openFreshSession h item content kind
  end.

(** ** The calls on a session *)

(** [if s.completed { return fmt.Errorf("session already completed") }] *)
Definition unless_completed (m : SM unit) : SM unit := λ x,
  if s_completed x.2 then (x, Err (COther "session already completed")) else m x.
Definition only_if (cond : Session → bool) (msg : string) (m : SM unit) : SM unit := λ x,
  if cond x.2 then m x else (x, Err (COther msg)).
Definition is_typing (s : Session) : bool := bool_decide (s_kind s = KindTyping).

Definition after_input : SM unit := _ ← applyRunnerEvents; persistRunnerState.

Definition TypeRune (h : host) (r : Z) : SM unit :=
  unless_completed (only_if is_typing "TypeRune is only valid for typing activities" (_ ← handle h (InputKey r); after_input)).
Definition TypeBackspace (h : host) : SM unit :=
  unless_completed (only_if is_typing "TypeBackspace is only valid for typing activities" (_ ← handle h InputBackspace; after_input)).
Definition TypeString (h : host) (text : string) : SM unit := se_each (TypeRune h) (runes text).
Definition RunLine (h : host) (line : string) : SM unit :=
  unless_completed (only_if (λ s, negb (is_typing s)) "RunLine is not valid for typing activities"
    (_ ← handle h (InputCommand line); after_input)).

Definition SessionVerify (h : host) : SM unit := _ ← drainObserveLocked h; _ ← verify h; after_input.

(** The last byte of what is typed is a line break. *)
Definition ends_line (data : string) : bool := bool_decide (last (String.list_ascii_of_string data) = Some (Ascii.ascii_of_nat 10)).

Definition WriteTerminal (h : host) (data : string) : SM unit :=
  unless_completed (only_if (λ s, negb (is_typing s)) "WriteTerminal is not valid for typing activities"
    (only_if (λ s, s_pty s && ho_alive h) "no live terminal" (λ x,
       match ho_write h with
       | Some e => (x, Err (COther e))
       | None => let s := ses_input_at (now_of x.1) x.2 in
                 ((x.1, if ends_line data then ses_pending true s else s), Ok tt)
       end))).

(** The goroutine that [WriteTerminal] starts, half a second later. *)
Definition drainObserveAfterIdle (h : host) : SM unit := λ x,
  let '(st, s) := x in
  if negb (s_pendingObserve s) || s_completed s then (x, Ok tt)
  else if bool_decide (now_of st - s_lastPTYInputAt s < 400000000)%Z then (x, Ok tt)
  else (_ ← drainObserveLocked h; _ ← applyRunnerEvents; se_ignore persistRunnerState) (st, ses_pending false s).

Definition requestDigest (activityDigest : string) (obs : list Observation) : string :=
  sha256_hex (marshal_digest_input activityDigest obs).

Definition not_ready_text (passed total : nat) : string :=
  "required checks not passed (" +:+ pretty passed +:+ "/" +:+ pretty total +:+ ")".

(** The intent, the event and the row of a completed session. *)
Definition queue_completion : SM string := λ x,
  let '(st, s) := x in
  let obs := runner_Observations (s_runner s) in
  on_engine (
    completionID ← NewString;
    let req := mkCompletionRequest "1" completionID (requestDigest (s_digest s) obs) obs [] ∅ (now_of st)
                 ("student completed " +:+ la_Slug (wi_Activity (s_item s))) in
    _ ← on_store (λ now, SaveCompletionIntent now (s_clientSessionID s) (s_serverSessionID s) req);
    _ ← enqueue (s_clientSessionID s) EventSessionCompleted {["completionId" := JStr completionID]};
    mret completionID) x.

(** [if row, err := GetSession(id); err == nil { row.State = state; _ = SaveSession(row) }] *)
Definition save_state (cid state : string) : EM unit :=
  row ← get_store (GetClientSession cid);
  match row with Ok row => on_store (λ now, SaveSession now (session_set_state state row)) | Err _ => mret tt end.

(** The outcome of the flush that follows. *)
Definition completion_outcome (completionID : string) (failed : option cerr) (s : Store) (x : Session) : Session :=
  let awaiting := ses_message "completion queued; awaiting sync" (ses_sync StatusAwaiting x) in
  match failed, GetCompletion completionID s with
  | None, Ok c => if ci_Acked c then ses_message "completed and synced" (ses_sync StatusOnline (ses_acked true x)) else awaiting
  | _, _ => awaiting
  end.

Definition Complete (h : host) : SM unit := λ x,
  if s_completed x.2 then (x, Ok tt)
  else
    (_ ← drainObserveLocked h;
     _ ← se_ignore (verify h);
     y ← se_get;
     if negb (runner_CompleteReady (s_runner y.2)) then
       let snap := (runner_Snapshot (now_of y.1) false (s_runner y.2)).2 in
       se_fail (COther (not_ready_text (sn_ChecksPassed snap) (sn_ChecksTotal snap)))
     else
       completionID ← queue_completion;
       _ ← set_session (λ s, ses_message "completion queued" (ses_completed true true s));
       _ ← on_engine (_ ← save_state (s_clientSessionID y.2) "completed";
                      on_store (λ _, DeleteRunnerState (s_clientSessionID y.2)));
       failed ← on_engine flush;
       z ← se_get;
       set_session (completion_outcome completionID failed (store_of z.1))) x.

Definition find_task (content : ActivityContent) (taskID : string) : option Task :=
  head (filter (λ t, tk_ID t = taskID) (ac_Tasks content)).

Definition response_task (content : ActivityContent) (taskID body : string) : result cerr unit :=
  match find_task content taskID with
  | None => Err (COther ("unknown task " +:+ go_quote taskID))
  | Some t =>
      match tk_Response t with
      | Some spec =>
          if negb (bool_decide (TaskKindOrDefault t = TaskKindShortResponse))
          then Err (COther ("task " +:+ go_quote taskID +:+ " is not a short_response task"))
          else
            let max := if bool_decide (rs_MaxChars spec ≤ 0)%Z then DefaultResponseMaxChars else rs_MaxChars spec in
            if bool_decide (max < Z.of_nat (length (runes body)))%Z
            then Err (COther ("response exceeds " +:+ pretty max +:+ " characters")) else Ok tt
      | None => Err (COther ("task " +:+ go_quote taskID +:+ " is not a short_response task"))
      end
  end.

(** The sync it starts in the background is a step of its own. *)
Definition SubmitResponse (h : host) (taskID body : string) : SM unit :=
  unless_completed (
    let body := TrimSpace body in
    _ ← (if bool_decide (body = "") then se_fail (COther "response body is required") else mret tt);
    x ← se_get;
    _ ← se_of (response_task (s_content x.2) taskID body);
    id ← on_engine NewString;
    _ ← on_engine (on_store (λ now, SaveResponseIntent now (s_clientSessionID x.2) (s_serverSessionID x.2)
                                      (mkResponseSubmission "1" id taskID body now "")));
    _ ← on_engine (on_store (λ _, SaveResponseDraft (s_clientSessionID x.2) taskID body));
    _ ← (match s_runner x.2 with
         | RTerminal _ =>
             _ ← se_mod (λ y, (y.1, ses_runner (mark_response h (now_of y.1) (s_runner y.2) taskID) y.2));
             _ ← applyRunnerEvents;
             se_ignore persistRunnerState
         | RTyping _ => mret tt
         end);
    if negb (s_offline x.2) && op_Sync opts && negb (bool_decide (s_serverSessionID x.2 = "")) then mret tt
    else set_session (ses_message "Response saved — awaiting sync")).

Definition SessionSaveDraft (taskID body : string) : SM unit := λ x,
  on_engine (on_store (λ _, SaveResponseDraft (s_clientSessionID x.2) taskID body)) x.

Definition SetTutorHint (hint : string) : SM unit := set_session (ses_hint hint).
Definition CloseTerminal : SM unit := set_session (ses_pty false).

Definition LocalHint (s : Session) : string :=
  let snap := (runner_Snapshot 0 false (s_runner s)).2 in
  let first := match ac_Hints (s_content s) with
               | h :: _ => hn_Text h
               | [] => "Try discovering with short commands like pwd and ls before changing directories."
               end in
  if bool_decide (0 ≤ sn_CurrentTaskIdx snap)%Z then
    match ac_Tasks (s_content s) !! Z.to_nat (sn_CurrentTaskIdx snap) with
    | Some t =>
        let byID : gmap string string := hn_Text <$> index_by hn_ID (ac_Hints (s_content s)) in
        match omap (λ id, match byID !! id with Some t => if bool_decide (t = "") then None else Some t | None => None end) (tk_HintIDs t) with
        | t :: _ => t
        | [] => first
        end
    | None => first
    end
  else first.

Definition Pause : SM unit :=
  _ ← set_session (ses_pty false);
  _ ← se_ignore persistRunnerState;
  x ← se_get;
  row ← on_engine (get_store (GetClientSession (s_clientSessionID x.2)));
  row ← se_of row;
  on_engine (on_store (λ now, SaveSession now (session_set_state "paused" row))).

Definition SessionClose : SM unit := set_session (λ s,
  let s := ses_pty false s in
  let s := match s_reader s with Some _ => ses_observe false None s | None => s end in
  ses_runner (runner_Close (s_runner s)) s).

(** ** The view of a session *)

Record SessionSnapshot := mkSessionSnapshot {
  sv_AssignmentID : string; sv_ActivitySlug : string; sv_ActivityTitle : string; sv_Kind : string; sv_ClientSessionID : string;
  sv_ServerSessionID : string; sv_Workspace : string; sv_Cwd : string; sv_RelCwd : string; sv_Objective : string;
  sv_Instructions : string; sv_Blocks : list InstructionBlock; sv_Tasks : list Task; sv_CurrentTaskIdx : Z;
  sv_Checks : list CheckStatus; sv_RequiredPassed : bool; sv_ChecksPassed : nat; sv_ChecksTotal : nat; sv_CommandsRun : Z;
  sv_LastOutput : string; sv_LastError : string; sv_Message : string; sv_Completed : bool; sv_CompletionQueued : bool;
  sv_CompletionAcked : bool; sv_Offline : bool; sv_Sync : Status; sv_Hints : list Hint; sv_TutorHint : string;
  sv_Typing : option TypingSnapshot; sv_TerminalScreen : string; sv_HasTerminal : bool; sv_ResponseDraft : string;
  sv_ResponseQueued : bool }.

(** The draft of the current task and whether a response to it is waiting, for a conceptual task. *)
Definition response_view (idx : Z) (s : Session) (store : Store) : string * bool :=
  match (if bool_decide (0 ≤ idx)%Z then ac_Tasks (s_content s) !! Z.to_nat idx else None) with
  | Some t =>
      if bool_decide (TaskKindOrDefault t = TaskKindShortResponse) then
        (GetResponseDraft (s_clientSessionID s) (tk_ID t) store,
         existsb (λ p, bool_decide (ri_ClientSessionID p = s_clientSessionID s) && bool_decide (ri_TaskID p = tk_ID t)) (ListPendingResponses store))
      else ("", false)
  | None => ("", false)
  end.

(** [screen] is what the terminal shows. *)
Definition session_snapshot (h : host) (screen : string) (st : estate W) (s : Session) : SessionSnapshot :=
  let rs := (runner_Snapshot (now_of st) false (s_runner s)).2 in
  let title := la_Title (wi_Activity (s_item s)) in
  let live := s_pty s && ho_alive h in
  let shown := if live then screen else "" in
  let '(draft, queued) := response_view (sn_CurrentTaskIdx rs) s (store_of st) in
  mkSessionSnapshot (sa_ID (wi_Assignment (s_item s))) (la_Slug (wi_Activity (s_item s)))
    (if bool_decide (title = "") then la_Slug (wi_Activity (s_item s)) else title) (s_kind s) (s_clientSessionID s) (s_serverSessionID s)
    (sn_Workspace rs) (sn_Cwd rs) (sn_RelCwd rs) (ac_Objective (s_content s)) (ac_Instructions (s_content s))
    (StudentBlocks (ac_Blocks (s_content s))) (ac_Tasks (s_content s)) (sn_CurrentTaskIdx rs) (sn_Checks rs) (sn_RequiredPassed rs)
    (sn_ChecksPassed rs) (sn_ChecksTotal rs) (sn_CommandsRun rs)
    (if bool_decide (shown = "") then sn_LastOutput rs else truncate shown 4000) (sn_LastError rs) (s_message s) (s_completed s)
    (s_completionQueued s) (s_completionAcked s) (s_offline s) (s_syncStatus s) (ac_Hints (s_content s)) (s_tutorHint s) (sn_Typing rs)
    shown live draft queued.

(** ** Scripted runs *)

Record ScriptedCommand := mkScripted { sc_Argv : list string; sc_Dir : string; sc_Shell : bool }.

Definition BasicNavigationScript : list ScriptedCommand :=
  [mkScripted ["pwd"] "" false; mkScripted ["ls"; "-la"] "" false; mkScripted ["cd"; "docs"] "" false; mkScripted ["ls"] "" false;
   mkScripted ["cat"; "guide.txt"] "" false].

(** [FindAssignmentBySlug] *)
Definition FindAssignmentBySlug (slug : string) (s : Store) : result cerr string :=
  match filter (λ it, la_Slug (wi_Activity it) = slug ∧ sa_State (wi_Assignment it) ≠ "cancelled") (ListWork s) with
  | it :: _ => Ok (sa_ID (wi_Assignment it))
  | [] => Err CNotFound
  end.

(** One command of a script; an error of the command itself does not end the script. *)
Definition run_scripted (h1 h2 : host) (sc : ScriptedCommand) : SM unit :=
  _ ← (if bool_decide (sc_Dir sc = "") then mret tt else RunLine h1 ("cd " +:+ sc_Dir sc));
  r ← se_try (RunLine h2 (GoStrings.Join (sc_Argv sc) " "));
  _ ← (match r with Err e => if Contains (error_text e) "cd:" then se_fail e else mret tt | Ok _ => mret tt end);
  on_engine (status (λ x, st_commands (es_CommandsRun x + 1) x)).

(** The machine's answers to the calls of a script, one after the other. *)
Fixpoint run_script (ho : nat → host) (i : nat) (l : list ScriptedCommand) : SM unit :=
  match l with [] => mret tt | sc :: l' => _ ← run_scripted (ho i) (ho (S i)) sc; run_script ho (S (S i)) l' end.

(** The commands of the script, or the prompts of the activity. *)
Definition play_script (ho : nat → host) (slug : string) (commands : list ScriptedCommand) : SM unit :=
  x ← se_get;
  if is_typing x.2 then
    _ ← on_engine (status (st_phase "run_typing"));
    match ac_Typing (s_content x.2) with
    | None => se_fail (COther ("activity " +:+ slug +:+ " is kind typing but has no typing content"))
    | Some t => se_each (λ p, TypeString (ho 1) (tp_Text p)) (ty_Prompts t)
    end
  else if bool_decide (s_kind x.2 = KindTerminal) then
    _ ← on_engine (status (st_phase "run_commands"));
    run_script ho 1 commands
  else se_fail (COther ("unsupported activity kind " +:+ go_quote (s_kind x.2))).

(** The end of a run: the checks, then the completion or an error. *)
Definition finish_script (h : host) : SM unit :=
  _ ← on_engine (status (st_phase "verify"));
  _ ← SessionVerify h;
  y ← se_get;
  let snap := (runner_Snapshot (now_of y.1) false (s_runner y.2)).2 in
  _ ← on_engine (status (λ x, st_commands (sn_CommandsRun snap)
                                (st_results (sn_ChecksPassed snap) (sn_ChecksTotal snap) (sn_RequiredPassed snap) x)));
  if negb (sn_RequiredPassed snap) then
    _ ← on_engine (status (λ x, st_message "required checks not passed" (st_phase "incomplete" x)));
    _ ← on_engine (se_ignore flush);
    se_fail (COther (not_ready_text (sn_ChecksPassed snap) (sn_ChecksTotal snap)))
  else
    _ ← on_engine (status (st_phase "complete"));
    _ ← Complete h;
    z ← se_get;
    on_engine (status (λ x, st_phase (if s_completionAcked z.2 then "done" else "awaiting_sync")
                              (st_message (s_message z.2) (st_completion (s_completionQueued z.2) (s_completionAcked z.2) x)))).

Definition run_session (ho : nat → host) (slug : string) (commands : list ScriptedCommand) : SM unit :=
  x ← se_get;
  _ ← on_engine (status (st_session (s_clientSessionID x.2) (s_serverSessionID x.2) (s_offline x.2)));
  _ ← play_script ho slug commands;
  finish_script (ho (S (2 * length commands))).

(** [defer sess.Close()]: the session is gone at the end, which the engine does not notice. *)
Definition then_close (s : Session) (m : SM unit) : EM unit := λ st, let (x, r) := m (st, s) in (x.1, r).

(** The context is never cancelled. *)
Definition RunAssignment (ho : nat → host) (assignmentID : string) (commands : list ScriptedCommand) : EM unit :=
  _ ← status (λ _, mkEngineStatus "load_work" None 0 assignmentID "" "" "" 0 0 0 false false false (op_Offline opts) "" "");
  _ ← (if op_Offline opts || negb (op_Sync opts) then mret tt
       else
         res ← eng_SyncOnce;
         if bool_decide (sy_Status res = StatusRevoked)
         then se_fail (COther ("device revoked: " +:+ match sy_Err res with Some e => error_text e | None => "" end))
         else match sy_Err res with Some _ => status (st_message "sync failed; trying cache") | None => mret tt end);
  item ← load_work assignmentID;
  _ ← status (λ x, st_phase "session" (st_work_items 1 (st_slug (la_Slug (wi_Activity item)) x)));
  sess ← OpenSession (ho 0) assignmentID;
  then_close sess (run_session ho (la_Slug (wi_Activity item)) commands).
End engine.
