(* ===== verification/EngineLogic.v ===== *)
(** * The session engine: the logic of its calls

    Rules for calls that change a state and may fail ([spec]), what the sync loop leaves alone in the
    store ([sync_le]), and what JSON keeps of a saved terminal state ([durable_inv]). *)
From S2P Require Import Prelude GoStrings GoText Paths Utf8 Float64 Contracts ContentJson LmsData LmsDb Responses ActivityDoc Sessions.
From S2P Require Import ContentEncode WorkPage ClientStore ClientSync Mastery Typing Observe TerminalVerify TerminalRunner TerminalSession.
From S2P Require Import Engine.
From Stdlib Require Import Ascii.
From stdpp Require Import options.
Local Open Scope string_scope.
Local Open Scope list_scope.

(** ** Specifications of calls *)

(** From a state with [P], the call ends with a value and [Q], or with an error and [E]. *)
Definition spec {S A} (P : S → Prop) (m : SE S A) (Q : A → S → Prop) (E : S → Prop) : Prop :=
  ∀ s, P s → match m s with (s', Ok a) => Q a s' | (s', Err _) => E s' end.

(** The call keeps [I], also when it fails; its value satisfies [Q]. *)
Abbreviation keeps I m Q := (spec I m (λ a s, I s ∧ Q a) I).

Lemma spec_ret {S A} (a : A) (Q : A → S → Prop) E : spec (Q a) (mret a) Q E.
Proof. by intros s. Qed.

Lemma spec_bind {S A B} P (m : SE S A) (f : A → SE S B) Q R E :
  spec P m Q E → (∀ a, spec (Q a) (f a) R E) → spec P (m ≫= f) R E.
Proof.
  intros Hm Hf s Hs. specialize (Hm s Hs). unfold mbind, SE_bind. destruct (m s) as [s' [a|e]]; [|done]. exact (Hf a s' Hm).
Qed.

Lemma spec_conseq {S A} (P P' : S → Prop) (m : SE S A) Q Q' (E E' : S → Prop) :
  spec P m Q E → (∀ s, P' s → P s) → (∀ a s, Q a s → Q' a s) → (∀ s, E s → E' s) → spec P' m Q' E'.
Proof. intros Hm HP HQ HE s Hs. specialize (Hm s (HP s Hs)). destruct (m s) as [s' [a|e]]; auto. Qed.

Lemma spec_post {S A} (P : S → Prop) (m : SE S A) Q Q' (E : S → Prop) : spec P m Q E → (∀ a s, Q a s → Q' a s) → spec P m Q' E.
Proof. intros Hm HQ. by eapply spec_conseq. Qed.

Lemma spec_and {S A} (P P' : S → Prop) (m : SE S A) Q Q' (E E' : S → Prop) :
  spec P m Q E → spec P' m Q' E' → spec (λ s, P s ∧ P' s) m (λ a s, Q a s ∧ Q' a s) (λ s, E s ∧ E' s).
Proof. intros Hm Hm' s [Hs Hs']. specialize (Hm s Hs). specialize (Hm' s Hs'). destruct (m s) as [s' [a|e]]; by split. Qed.

(** A first call that is known to succeed. *)
Lemma bind_run {S A B} (m : SE S A) (f : A → SE S B) s s' a : m s = (s', Ok a) → (m ≫= f) s = f a s'.
Proof. intros E. unfold mbind, SE_bind. by rewrite E. Qed.

Section rules.
Context {S : Type} (I : S → Prop).

Lemma keeps_ret {A} (a : A) (Q : A → Prop) : Q a → keeps I (mret a) Q.
Proof. by intros Ha s Hs. Qed.
Lemma keeps_fail {A} e (Q : A → Prop) : keeps I (se_fail e) Q.
Proof. by intros s Hs. Qed.
Lemma keeps_of {A} (r : result cerr A) (Q : A → Prop) : (∀ a, r = Ok a → Q a) → keeps I (se_of r) Q.
Proof. intros Hr s Hs. unfold se_of. destruct r; [by split; [|apply Hr]|done]. Qed.
Lemma keeps_get : keeps I se_get I.
Proof. by intros s Hs. Qed.
Lemma keeps_mod f (Q : unit → Prop) : (∀ s, I s → I (f s)) → Q tt → keeps I (se_mod f) Q.
Proof. intros Hf HQ s Hs. split; [by apply Hf|done]. Qed.
Lemma keeps_bind {A B} (m : SE S A) (f : A → SE S B) Q R :
  keeps I m Q → (∀ a, Q a → keeps I (f a) R) → keeps I (m ≫= f) R.
Proof. intros Hm Hf. eapply spec_bind; [exact Hm|]. intros a s [Hs HQ]. by apply Hf. Qed.
Lemma keeps_try {A} (m : SE S A) (Q : A → Prop) :
  keeps I m Q → keeps I (se_try m) (λ r, ∀ a, r = Ok a → Q a).
Proof.
  intros Hm s Hs. specialize (Hm s Hs). unfold se_try. destruct (m s) as [s' [a|e]]; [|done].
  destruct Hm. split; [done|]. by intros ? [= <-].
Qed.
Lemma keeps_ignore {A} (m : SE S A) (Q : A → Prop) : keeps I m Q → keeps I (se_ignore m) (λ _, True).
Proof. intros Hm s Hs. specialize (Hm s Hs). unfold se_ignore. destruct (m s) as [s' [a|e]]; [|done]. by destruct Hm. Qed.
Lemma keeps_each {A} (f : A → SE S unit) l :
  (∀ x, x ∈ l → keeps I (f x) (λ _, True)) → keeps I (se_each f l) (λ _, True).
Proof.
  induction l as [|x l IH]; intros Hf; [by apply keeps_ret|]. cbn [se_each].
  eapply keeps_bind; [apply Hf; left|]. intros _ _. apply IH. intros y Hy. apply Hf. by right.
Qed.
Lemma keeps_weaken {A} (m : SE S A) (Q R : A → Prop) : keeps I m Q → (∀ a, Q a → R a) → keeps I m R.
Proof. intros Hm HQ. eapply spec_post; [exact Hm|]. intros a s [Hs Ha]. auto. Qed.
End rules.

(** ** What a pass of the sync loop leaves alone *)

Definition event_of (o : OutboxEvent) : string * SessionEvent := (ox_ClientSessionID o, ox_Event o).

(** A completion that the flush can send: the server session is known. *)
Definition sendable (s : Store) (c : CompletionIntent) : Prop :=
  ci_ServerSessionID c ≠ "" ∨ ∃ row, st_sessions s !! ci_ClientSessionID c = Some row ∧ ss_ServerSessionID row ≠ "".

(** Sessions and completions keep what the engine put there; the outbox is only acknowledged, and a
    completion only if it can be sent. *)
Record sync_le (s s' : Store) : Prop := {
  sl_runner : st_runner s' = st_runner s;
  sl_outbox : event_of <$> st_outbox s' = event_of <$> st_outbox s;
  sl_session : ∀ cid x', st_sessions s' !! cid = Some x' → ∃ x, st_sessions s !! cid = Some x ∧
    ss_ClientSessionID x' = ss_ClientSessionID x ∧ ss_NextSequence x' = ss_NextSequence x ∧ ss_WorkspacePath x' = ss_WorkspacePath x ∧
    ss_ServerSessionID x' = ss_ServerSessionID x ∧ ss_AssignmentID x' = ss_AssignmentID x;
  sl_kept : ∀ cid, is_Some (st_sessions s !! cid) → is_Some (st_sessions s' !! cid);
  sl_completion : ∀ id c', st_completions s' !! id = Some c' → ∃ c, st_completions s !! id = Some c ∧
    ci_Request c' = ci_Request c ∧ ci_ClientSessionID c' = ci_ClientSessionID c ∧ ci_ServerSessionID c' = ci_ServerSessionID c ∧
    ci_CompletionID c' = ci_CompletionID c ∧ (ci_Acked c' = true → ci_Acked c = true ∨ sendable s c);
  sl_ckept : ∀ id, is_Some (st_completions s !! id) → is_Some (st_completions s' !! id) }.

#[global] Instance sync_le_preorder : PreOrder sync_le.
Proof.
  split.
  - intros s. split; [done|done|intros ? x; by exists x|done|intros ? c ?; exists c; by split_and!; [..|left]|done].
  - intros s1 s2 s3 [A1 A2 A3 Ak A4 Ac] [B1 B2 B3 Bk B4 Bc]. split; [congruence|congruence|..].
    + intros cid x (y & Hy & E1 & E2 & E3 & E4 & E5)%B3. apply A3 in Hy as (z & Hz & F1 & F2 & F3 & F4 & F5). exists z. split_and!; [done|congruence..].
    + intros cid Hc. by apply Bk, Ak.
    + intros id c (y & Hy & E1 & E2 & E3 & E4 & Ea)%B4. apply A4 in Hy as (z & Hz & F1 & F2 & F3 & F4 & Fa).
      exists z. split_and!; [done|congruence..|]. intros [Hy|[Hsid|(row & (r0 & Hr0 & _ & _ & _ & Es & _)%A3 & Hne)]]%Ea; [by apply Fa|..].
      * right. left. congruence.
      * right. right. exists r0. rewrite <-F2. split; [done|congruence].
    + intros id Hc. by apply Bc, Ac.
Qed.

(** Rows of sessions stay, with the server session, the assignment and the workspace they have. *)
Definition rows_kept (s s' : Store) : Prop := ∀ cid x, st_sessions s !! cid = Some x → ∃ x', st_sessions s' !! cid = Some x' ∧
  ss_ServerSessionID x' = ss_ServerSessionID x ∧ ss_AssignmentID x' = ss_AssignmentID x ∧ ss_WorkspacePath x' = ss_WorkspacePath x.

#[global] Instance rows_kept_preorder : PreOrder rows_kept.
Proof.
  split; [intros s cid x Hx; by exists x|]. intros s1 s2 s3 H12 H23 cid x (y & Hy & E1 & E2 & E3)%H12.
  apply H23 in Hy as (z & Hz & F1 & F2 & F3). exists z. split_and!; [done|congruence..].
Qed.

Lemma sync_rows_kept s s' : sync_le s s' → rows_kept s s'.
Proof.
  intros Hs cid x Hx. destruct (sl_kept _ _ Hs cid (mk_is_Some _ _ Hx)) as [x' Hx']. exists x'. split; [done|].
  destruct (sl_session _ _ Hs _ _ Hx') as (y & Hy & _ & _ & E3 & E1 & E2). rewrite Hx in Hy. apply (inj Some) in Hy. by subst y.
Qed.

(** Only tables the relation does not look at differ. *)
Lemma sync_le_same s s' :
  st_runner s' = st_runner s → st_outbox s' = st_outbox s → st_sessions s' = st_sessions s → st_completions s' = st_completions s →
  sync_le s s'.
Proof. intros H1 H2 H3 H4. split; [done|by rewrite H2|rewrite H3; intros ? x; by exists x|by rewrite H3|rewrite H4; intros ? c ?; exists c; by split_and!; [..|left]|by rewrite H4]. Qed.

Section sync.
Context `{!GoText} {W : Type} `{!Server W}.
#[local] Set Default Proof Using "Type*".

Definition syncs {A} (m : CM W A) : Prop := ∀ c, sync_le (cl_store c) (cl_store (m c).1).

Lemma syncs_bind {A B} (m : CM W A) (f : A → CM W B) : syncs m → (∀ a, syncs (f a)) → syncs (m ≫= f).
Proof.
  intros Hm Hf c. specialize (Hm c). unfold mbind, CM_bind. destruct (m c) as [c' [a|e]]; [|done].
  cbn in Hm. etrans; [exact Hm|apply Hf].
Qed.
Lemma syncs_same {A} (m : CM W A) : (∀ c, cl_store (m c).1 = cl_store c) → syncs m.
Proof. intros Hm c. by rewrite Hm. Qed.
Lemma syncs_ret {A} (a : A) : syncs (mret a).
Proof. by apply syncs_same. Qed.
Lemma syncs_try {A} (m : CM W A) : syncs m → syncs (try m).
Proof. intros Hm c. specialize (Hm c). unfold try. by destruct (m c). Qed.
Lemma syncs_call_store {A} (f : string → W → W * result cerr A) c : cl_store (call f c).1 = cl_store c.
Proof. unfold call. case_bool_decide; [done|]. by destruct (f _ _). Qed.
Lemma syncs_call {A} (f : string → W → W * result cerr A) : syncs (call f).
Proof. apply syncs_same, syncs_call_store. Qed.
Lemma syncs_modify f : (∀ now s, sync_le s (f now s)) → syncs (modify f).
Proof. intros Hf c. apply Hf. Qed.
Lemma syncs_status st res : syncs (set_status st res).
Proof. by apply syncs_same. Qed.
Hint Resolve syncs_ret syncs_try syncs_call syncs_status syncs_bind : syncs.

Lemma syncs_read {A} (f : Store → A) : syncs (read f).
Proof. by apply syncs_same. Qed.
Lemma syncs_lift {A} (r : result cerr A) : syncs (lift r).
Proof. by apply syncs_same. Qed.
Lemma syncs_fail {A} e : syncs (A:=A) (fail e).
Proof. by apply syncs_same. Qed.
Hint Resolve syncs_read syncs_lift syncs_fail : syncs.

(** *** The work cache *)

(** Nothing but the device's notes and the cached work. *)
Definition cache_only (s s' : Store) : Prop :=
  st_runner s' = st_runner s ∧ st_outbox s' = st_outbox s ∧ st_sessions s' = st_sessions s ∧ st_completions s' = st_completions s.

Lemma cache_sync s s' : cache_only s s' → sync_le s s'.
Proof. intros (H1 & H2 & H3 & H4). by apply sync_le_same. Qed.

Lemma upsert_only now items s : cache_only s (foldl (upsert_item now) s items).
Proof.
  revert s. induction items as [|it items IH]; intros s; [by split_and!|]. cbn [foldl].
  destruct (IH (upsert_item now s it)) as (H1 & H2 & H3 & H4). by split_and!.
Qed.

Lemma ApplyWorkPage_only now items pageCursor mode s : cache_only s (ApplyWorkPage now items pageCursor mode s).
Proof.
  unfold ApplyWorkPage. cbv zeta. pose proof (upsert_only now items s) as Hu. destruct (_ && _); exact Hu.
Qed.
Lemma CommitWorkSync_only now cur mode s : cache_only s (CommitWorkSync now cur mode s).
Proof. unfold CommitWorkSync. cbv zeta. by case_bool_decide. Qed.
Lemma BeginWorkPage_only mode s : cache_only s (BeginWorkPage mode s).1.
Proof.
  unfold BeginWorkPage. cbv zeta. case_bool_decide; [|done]. destruct (GetWorkSyncState _) as [st|]; [|done]. by case_bool_decide.
Qed.

Lemma syncs_begin mode : syncs (begin (W:=W) mode).
Proof. intros c. unfold begin. pose proof (BeginWorkPage_only mode (cl_store c)) as Hb. destruct (BeginWorkPage _ _). by apply cache_sync. Qed.
Hint Resolve syncs_begin : syncs.

Lemma syncs_fetch after mode : syncs (fetch after mode).
Proof.
  unfold fetch. apply syncs_bind.
  - apply syncs_try. unfold Work. apply syncs_bind; [auto with syncs|]. intros out. case_bool_decide; auto with syncs.
  - intros [work|e]; [auto with syncs|]. destruct (cursor_rejected e); [|auto with syncs].
    apply syncs_bind; [by apply syncs_modify; intros; apply cache_sync|]. intros _. apply syncs_bind; [auto with syncs|].
    intros _. apply syncs_bind; [|auto with syncs]. unfold Work. apply syncs_bind; [auto with syncs|]. intros out. case_bool_decide; auto with syncs.
Qed.

Lemma syncs_pull_loop f : ∀ after mode total cur, syncs (pull_loop f after mode total cur).
Proof.
  induction f as [|f IH]; intros after mode total cur; [apply syncs_ret|]. cbn [pull_loop].
  apply syncs_bind; [apply syncs_fetch|]. intros [[work aft] m]. cbv zeta.
  apply syncs_bind; [apply syncs_modify; intros; apply cache_sync, ApplyWorkPage_only|]. intros _.
  destruct (negb _); [auto with syncs|]. destruct (_ || _); auto with syncs.
Qed.

Lemma syncs_pullWork f : syncs (pullWork f).
Proof.
  unfold pullWork. apply syncs_bind; [auto with syncs|]. intros st. apply syncs_bind; [auto with syncs|]. intros st'.
  destruct (resume_at st') as [after mode]. apply syncs_bind; [auto with syncs|]. intros _.
  apply syncs_bind; [apply syncs_pull_loop|]. intros [[[total cur] m]|]; [|auto with syncs].
  apply syncs_bind; [|auto with syncs]. apply syncs_modify. intros. apply cache_sync, CommitWorkSync_only.
Qed.

(** *** Acknowledgements *)

Lemma AckEvents_sync now cid n s : sync_le s (AckEvents now cid n s).
Proof.
  split; cbn; try done; [| | |intros ? c ?; exists c; by split_and!; [..|left]].
  - rewrite <-list_fmap_compose. apply list_fmap_ext. intros i o _. unfold event_of, ack_row. cbn. by destruct (_ && _).
  - intros cid' x' [(<- & x & Hx & ->)|[_ Hx]]%lookup_alter_Some; [by exists x|by exists x'].
  - intros cid' Hc. by rewrite lookup_alter_is_Some.
Qed.
Lemma MarkCompletionAcked_sync now id res s :
  (∀ c, st_completions s !! id = Some c → sendable s c) → sync_le s (MarkCompletionAcked now id res s).
Proof.
  intros Hs. split; cbn; try done; [intros ? x; by exists x| |intros id' Hc; by rewrite lookup_alter_is_Some].
  intros id' c' [(<- & c & Hc & ->)|[_ Hc]]%lookup_alter_Some; [exists c|exists c']; split_and!; try done; [|by left]. right. by apply Hs.
Qed.

Lemma SaveSession_sync now state row s :
  st_sessions s !! ss_ClientSessionID row = Some row → sync_le s (SaveSession now (session_set_state state row) s).
Proof.
  intros Hrow. split; cbn; try done; [| |intros ? c ?; exists c; by split_and!; [..|left]].
  - intros cid x' [[<- <-]|[_ Hx]]%lookup_insert_Some; [by exists row|by exists x'].
  - intros cid Hc. apply lookup_insert_is_Some. destruct (decide (ss_ClientSessionID row = cid)); [by left|by right].
Qed.

Definition keyed_csessions (s : Store) : Prop := ∀ cid x, st_sessions s !! cid = Some x → ss_ClientSessionID x = cid.

Definition keyed_completions (s : Store) : Prop := ∀ id c, st_completions s !! id = Some c → ci_CompletionID c = id.
Definition keyed_store (s : Store) : Prop := keyed_csessions s ∧ keyed_completions s.

Lemma sync_le_keyed s s' : sync_le s s' → keyed_store s → keyed_store s'.
Proof.
  intros Hs [Hk Hc]. split.
  - intros cid x (y & Hy & E & _)%(sl_session _ _ Hs). rewrite E. by apply Hk.
  - intros id c (y & Hy & _ & _ & _ & E & _)%(sl_completion _ _ Hs). rewrite E. by apply Hc.
Qed.

(** The calls that save a session again rely on rows being stored under their identifier. *)
Definition syncs_keyed {A} (m : CM W A) : Prop := ∀ c, keyed_store (cl_store c) → sync_le (cl_store c) (cl_store (m c).1).

Lemma syncs_syncs_keyed {A} (m : CM W A) : syncs m → syncs_keyed m.
Proof. by intros Hm c _. Qed.
Lemma keyed_bind {A B} (m : CM W A) (f : A → CM W B) : syncs_keyed m → (∀ a, syncs_keyed (f a)) → syncs_keyed (m ≫= f).
Proof.
  intros Hm Hf c Hk. specialize (Hm c Hk). unfold mbind, CM_bind. destruct (m c) as [c' [a|e]]; [|done]. cbn in Hm.
  etrans; [exact Hm|]. apply Hf. by eapply sync_le_keyed.
Qed.
Lemma keyed_try {A} (m : CM W A) : syncs_keyed m → syncs_keyed (try m).
Proof. intros Hm c Hk. specialize (Hm c Hk). unfold try. by destruct (m c). Qed.
Hint Resolve syncs_syncs_keyed : syncs.

Lemma keyed_mark cid state : syncs_keyed (mark_session cid state).
Proof.
  intros c [Hk _]. unfold mark_session, mbind, CM_bind, read, GetClientSession. destruct (st_sessions _ !! cid) as [row|] eqn:E; [|done].
  apply SaveSession_sync. by rewrite (Hk _ _ E).
Qed.

Lemma syncs_server_id a b : syncs (server_id a b).
Proof. unfold server_id. destruct (negb _); [auto with syncs|]. apply syncs_bind; [auto with syncs|]. intros r. apply syncs_bind; auto with syncs. Qed.

Lemma keyed_each {A} (f : A → CM W nat) l : (∀ x, syncs_keyed (f x)) → ∀ n, syncs_keyed (flush_each f l n).
Proof.
  intros Hf. induction l as [|x l IH]; intros n; [apply syncs_syncs_keyed, syncs_ret|]. cbn [flush_each]. apply keyed_bind; [by apply keyed_try|].
  intros [k|e]; [apply IH|auto with syncs].
Qed.

Lemma keyed_flushEvents : syncs_keyed flushEvents.
Proof.
  unfold flushEvents. apply keyed_bind; [auto with syncs|]. intros l. apply keyed_each. intros b. apply syncs_syncs_keyed.
  unfold flushBatch. apply syncs_bind; [apply syncs_server_id|]. intros sid. case_bool_decide; [auto with syncs|].
  apply syncs_bind; [auto with syncs|]. intros ack. apply syncs_bind; [|auto with syncs]. apply syncs_modify. intros. apply AckEvents_sync.
Qed.
Lemma keyed_flushArtifacts : syncs_keyed flushArtifacts.
Proof.
  unfold flushArtifacts. apply keyed_bind; [auto with syncs|]. intros l. apply keyed_each. intros b. apply syncs_syncs_keyed.
  unfold flushArtifact. apply syncs_bind; [apply syncs_server_id|]. intros sid. case_bool_decide; [auto with syncs|].
  apply syncs_bind; [auto with syncs|]. intros ack. apply syncs_bind; [|auto with syncs]. apply syncs_modify. intros. by apply sync_le_same.
Qed.
Lemma keyed_flushResponses : syncs_keyed flushResponses.
Proof.
  unfold flushResponses. apply keyed_bind; [auto with syncs|]. intros l. apply keyed_each. intros b. apply syncs_syncs_keyed.
  unfold flushResponse. apply syncs_bind; [apply syncs_server_id|]. intros sid. case_bool_decide; [auto with syncs|].
  apply syncs_bind; [auto with syncs|]. intros ack. apply syncs_bind; [|auto with syncs]. apply syncs_modify. intros. by apply sync_le_same.
Qed.

(** A completion read from the store, later. *)
Definition read_from (s : Store) (c : CompletionIntent) : Prop :=
  ∃ c', st_completions s !! ci_CompletionID c = Some c' ∧ ci_ServerSessionID c' = ci_ServerSessionID c ∧ ci_ClientSessionID c' = ci_ClientSessionID c.

Lemma read_from_sync s s' c : sync_le s s' → read_from s c → read_from s' c.
Proof.
  intros Hs (c1 & Hc1 & E1 & E2). destruct (sl_ckept _ _ Hs _ (mk_is_Some _ _ Hc1)) as [c2 Hc2].
  destruct (sl_completion _ _ Hs _ _ Hc2) as (c0 & Hc0 & _ & F2 & F1 & _). rewrite Hc1 in Hc0. apply (inj Some) in Hc0; subst c0.
  exists c2. split_and!; [done|congruence..].
Qed.

Lemma flushCompletion_sync c cs : keyed_store (cl_store cs) → read_from (cl_store cs) c → sync_le (cl_store cs) (cl_store (flushCompletion c cs).1).
Proof.
  intros Hk (c1 & Hc1 & E1 & E2). unfold flushCompletion, mbind at 1, CM_bind at 1.
  assert (∃ r, server_id (ci_ServerSessionID c) (ci_ClientSessionID c) cs = (cs, r) ∧ ∀ sid, r = Ok sid → sid ≠ "" → sendable (cl_store cs) c1) as (r & -> & Hr).
  { unfold server_id. case_bool_decide as Ee; cbn [negb]; cycle 1.
    - eexists. split; [done|]. intros sid [= <-] _. left. congruence.
    - unfold read, GetClientSession, mbind, CM_bind, lift. destruct (st_sessions (cl_store cs) !! ci_ClientSessionID c) as [row|] eqn:Er; eexists; (split; [done|]); [|done].
      intros sid [= <-] Hne. right. exists row. by rewrite E2. }
  destruct r as [sid|e]; [|done]. case_bool_decide as Es; [done|]. specialize (Hr sid eq_refl Es).
  assert (∀ cs' res (m : CM W unit) (k : nat), cl_store cs' = cl_store cs → syncs_keyed m →
    sync_le (cl_store cs) (cl_store ((_ ← modify (λ now, MarkCompletionAcked now (ci_CompletionID c) res); _ ← m; mret k) cs').1)) as Hack.
  { intros cs' res m k Ecs Hm. assert (sync_le (cl_store cs) (cl_store (modify (λ now, MarkCompletionAcked now (ci_CompletionID c) res) cs').1)) as H1.
    { cbn. rewrite Ecs. apply MarkCompletionAcked_sync. intros c2. rewrite Hc1. by intros [= <-]. }
    unfold mbind at 1, CM_bind at 1, modify at 1. etrans; [exact H1|]. apply (keyed_bind m (λ _, mret k)); [done|auto with syncs|].
    by eapply sync_le_keyed. }
  unfold mbind at 1, CM_bind at 1, try. pose proof (syncs_call_store (λ tok, srv_Complete tok sid (ci_Request c)) cs) as Hcall.
  destruct (call _ cs) as [cs' [res|e]]; cbn [fst] in Hcall.
  - apply Hack; [done|]. destruct (cs_Accepted res); [apply keyed_mark|]. destruct (Contains _ _); [apply keyed_mark|auto with syncs].
  - destruct (cancel_rejected e); [apply Hack; [done|apply keyed_mark]|]. cbn. by rewrite Hcall.
Qed.

Lemma keyed_flushCompletions : syncs_keyed flushCompletions.
Proof.
  assert (∀ l n cs, keyed_store (cl_store cs) → Forall (read_from (cl_store cs)) l →
    sync_le (cl_store cs) (cl_store (flush_each flushCompletion l n cs).1)) as Hall.
  { induction l as [|c l IH]; intros n cs Hk Hl; [done|]. apply Forall_cons in Hl as [Hc Hl]. cbn [flush_each].
    unfold mbind, CM_bind, try. pose proof (flushCompletion_sync c cs Hk Hc) as Hs. destruct (flushCompletion c cs) as [cs' [k|e]]; [|done].
    cbn [fst] in Hs. etrans; [exact Hs|]. apply IH; [by eapply sync_le_keyed|]. eapply Forall_impl; [exact Hl|]. intros c0. by apply read_from_sync. }
  intros cs Hk. unfold flushCompletions, mbind, CM_bind, read. apply Hall; [done|]. apply Forall_forall. intros c Hc.
  apply elem_of_order_by, elem_of_select in Hc as [[id Hid] _]. exists c. by rewrite (proj2 Hk _ _ Hid).
Qed.

Lemma syncs_handleErr res e : syncs (handleErr (W:=W) res e).
Proof. unfold handleErr. destruct e; auto with syncs. Qed.

(** A pass of the sync loop, whatever the server answers. *)
Lemma SyncOnce_keyed f caps : syncs_keyed (SyncOnce f caps).
Proof.
  assert (∀ res e, syncs_keyed (handleErr (W:=W) res e)) as Herr by (intros; apply syncs_syncs_keyed, syncs_handleErr).
  unfold SyncOnce. apply keyed_bind; [auto with syncs|]. intros res. apply keyed_bind.
  { apply keyed_try, syncs_syncs_keyed, syncs_same. intros c. unfold ensureToken. destruct (negb _); [done|]. by case_bool_decide. }
  intros [_|e]; [|auto with syncs]. apply keyed_bind; [destruct caps; auto with syncs|]. intros _.
  apply keyed_bind; [apply keyed_try, syncs_syncs_keyed, syncs_pullWork|]. intros [[n|]|e]; [|auto with syncs|].
  2: { apply keyed_bind; [apply Herr|auto with syncs]. }
  apply keyed_bind; [|auto with syncs]. unfold flushAll.
  apply keyed_bind; [apply keyed_flushEvents|]. intros evs. cbv zeta. destruct evs.2; [apply Herr|].
  apply keyed_bind; [apply keyed_flushArtifacts|]. intros arts. destruct arts.2; [apply Herr|].
  apply keyed_bind; [apply keyed_flushCompletions|]. intros cmps. destruct cmps.2; [apply Herr|].
  apply keyed_bind; [apply keyed_flushResponses|]. intros rsp. destruct rsp.2; [apply Herr|].
  apply syncs_syncs_keyed. unfold finishSync. apply syncs_bind; [auto with syncs|]. intros p. apply syncs_bind; [auto with syncs|].
  intros rs. auto with syncs.
Qed.
End sync.

(** ** What JSON keeps of a saved terminal state *)

(** A string as [encoding/json] writes it: a byte that is not part of UTF-8 becomes U+FFFD. *)
Definition valid_text (s : string) : string := string_of_runes (runes s).

Definition clean_excerpt (x : Excerpt) : Excerpt :=
  mkExcerpt (valid_text (xc_Text x)) (valid_text (xc_SHA256 x)) (xc_ByteLen x) (xc_Truncated x) (xc_Trusted x).
Definition clean_pipeline (p : PipelineInfo) : PipelineInfo :=
  mkPipeline (valid_text <$> pi_Stages p) (pi_HasPipe p) (pi_HasRedirectOut p) (pi_HasRedirectIn p).
Definition clean_command (c : CommandObservation) : CommandObservation :=
  mkCommandObservation (valid_text (co_SchemaVersion c)) (co_Sequence c) (valid_text (co_TaskID c)) (co_TaskIndex c) (co_RecordedAt c)
    (valid_text (co_Executable c)) (valid_text <$> co_Argv c) (co_ArgvAvailable c) (valid_text (co_SubmittedLine c))
    (valid_text (co_CwdBefore c)) (valid_text (co_CwdAfter c)) (co_CwdAvailable c) (co_ExitCode c) (co_ExitAvailable c)
    (clean_excerpt (co_Stdout c)) (clean_excerpt (co_Stderr c)) (clean_pipeline <$> co_Pipeline c) (valid_text (co_ManifestBefore c))
    (valid_text (co_ManifestAfter c)) (valid_text <$> co_WriteSet c) (valid_text (co_Source c)) (co_Structured c) (co_Quality c).
Definition clean_history (h : History) : History := mkHistory (clean_command <$> hi_Events h) (hi_TaskStartSeq h).

(** The state read back; nothing reads the check rows and observations in it. *)
Definition clean_terminal (checks : list CheckStatus) (obs : list Observation) (d : terminalDurable) : terminalDurable :=
  TerminalRunner.mkDurable (td_V d) (valid_text (td_Kind d)) (valid_text (td_RelCwd d)) (td_CommandsRun d) (td_CurrentTaskIdx d)
    (td_RequiredPassed d) (td_ChecksPassed d) checks obs (valid_text (td_LastOutput d)) (valid_text (td_LastError d))
    (valid_text (td_LastShellCwd d)) (valid_text (td_LastShellExe d)) (td_LastExitCode d) (valid_text (td_LastStdout d))
    (valid_text (td_LastStderr d)) (valid_text (td_LastSource d)) (td_LastStructured d) (clean_history <$> td_History d) (td_NextSeq d)
    (valid_text (td_LastManifest d)) (valid_text <$> td_SubmittedTasks d) (td_SavedAt d).

Class EngineJsonLaws `{!EngineJson} := {
  terminal_json d : ∃ checks obs, unmarshal_terminal (marshal_terminal d) = Ok (clean_terminal checks obs d);
  terminal_json_text d : marshal_terminal d ≠ "" }.

Lemma runes_valid_text s : runes (valid_text s) = runes s.
Proof. apply runes_string_of_runes, runes_valid. Qed.

Lemma valid_text_empty s : valid_text s = "" → s = "".
Proof.
  intros E. destruct (decide (s = "")) as [|Hne]; [done|]. exfalso. apply (runes_not_nil s Hne). by rewrite <-runes_valid_text, E.
Qed.

Lemma runes_slash c s : head (runes (String c s)) = Some 47%Z → byte_of c = 47%Z.
Proof.
  intros Hh. destruct (Z.ltb_spec (byte_of c) 0x80) as [Hl|Hl]; [by rewrite runes_1 in Hh by lia; cbn in Hh; simplify_eq|]. exfalso.
  cbn [runes] in Hh. rewrite (proj2 (Z.ltb_ge _ _) Hl) in Hh.
  destruct s as [|c1 s]; [done|]. destruct (_ && _) eqn:E2.
  { apply andb_true_iff in E2 as [E2 _]. apply in_range_true in E2. cbn in Hh. rewrite rune2_eq in Hh. simplify_eq.
    pose proof (Z.mod_pos_bound (byte_of c1) 64 ltac:(lia)). assert (byte_of c mod 32 = byte_of c - 192)%Z as Em by (symmetry; apply (Z.mod_unique _ _ 6); lia). lia. }
  destruct s as [|c2 s]; [done|]. destruct (in_range 0xE0 0xEF (byte_of c) && _ && _) eqn:E3.
  { apply andb_true_iff in E3 as [[E3 E3']%andb_true_iff _]. apply in_range_true in E3. cbn in Hh. rewrite rune3_eq in Hh.
    assert (byte_of c mod 16 = byte_of c - 224)%Z as Em by (symmetry; apply (Z.mod_unique _ _ 14); lia).
    pose proof (Z.mod_pos_bound (byte_of c1) 64 ltac:(lia)). pose proof (Z.mod_pos_bound (byte_of c2) 64 ltac:(lia)).
    unfold second3 in E3'. apply in_range_true in E3'. destruct (Z.eqb_spec (byte_of c) 0xE0) as [E0|E0]; [|simplify_eq; lia].
    assert (byte_of c1 mod 64 = byte_of c1 - 128)%Z by (symmetry; apply (Z.mod_unique _ _ 2); destruct (Z.eqb_spec (byte_of c) 0xED); lia).
    simplify_eq. lia. }
  destruct s as [|c3 s]; [done|]. destruct (in_range 0xF0 0xF4 (byte_of c) && _ && _ && _) eqn:E4; [|done].
  apply andb_true_iff in E4 as [[[E4 E4']%andb_true_iff _]%andb_true_iff _]. apply in_range_true in E4. cbn in Hh. rewrite rune4_eq in Hh.
  assert (byte_of c mod 8 = byte_of c - 240)%Z as Em by (symmetry; apply (Z.mod_unique _ _ 30); lia).
  pose proof (Z.mod_pos_bound (byte_of c1) 64 ltac:(lia)). pose proof (Z.mod_pos_bound (byte_of c2) 64 ltac:(lia)).
  pose proof (Z.mod_pos_bound (byte_of c3) 64 ltac:(lia)).
  unfold second4 in E4'. apply in_range_true in E4'. destruct (Z.eqb_spec (byte_of c) 0xF0) as [E0|E0]; [|simplify_eq; lia].
  assert (byte_of c1 mod 64 = byte_of c1 - 128)%Z by (symmetry; apply (Z.mod_unique _ _ 2); destruct (Z.eqb_spec (byte_of c) 0xF4); lia).
  simplify_eq. lia.
Qed.

(** A relative path stays relative. *)
Lemma valid_text_relative s : IsAbs s = false → IsAbs (valid_text s) = false.
Proof.
  intros Hs. destruct (IsAbs (valid_text s)) eqn:E; [|done]. exfalso. apply HasPrefix_iff in E as [rest Er].
  pose proof (runes_valid_text s) as Hr. rewrite Er in Hr. change ("/" +:+ rest) with (String "/"%char rest) in Hr.
  rewrite runes_1 in Hr by done. destruct s as [|c s]; [done|].
  assert (byte_of c = 47%Z) as Hc by (apply (runes_slash c s); by rewrite <-Hr).
  assert (c = "/"%char) as ->.
  { rewrite <-(ascii_N_embedding c). unfold byte_of in Hc. by replace (N_of_ascii c) with 47%N by lia. }
  unfold IsAbs in Hs. change (String "/"%char s) with ("/" +:+ s) in Hs. by rewrite HasPrefix_app in Hs.
Qed.

(** *** The invariant of a saved state *)

Record history_inv (next : Z) (h : History) : Prop := {
  hv_bound : (length (hi_Events h) ≤ MaxHistoryEvents)%nat;
  hv_sorted : StronglySorted Z.lt (co_Sequence <$> hi_Events h);
  hv_range : Forall (λ e, 1 ≤ co_Sequence e < next)%Z (hi_Events h);
  hv_start : hi_TaskStartSeq h !! 0%Z = Some 1%Z;
  hv_trusted : trusted_history h }.

(** What a runner's saved state satisfies, before and after it was JSON. *)
Record durable_inv (d : terminalDurable) : Prop := {
  dv_next : (1 ≤ td_NextSeq d)%Z;
  dv_history : ∃ h, td_History d = Some h ∧ history_inv (td_NextSeq d) h ∧
    (td_LastSource d = "" → td_LastShellExe d = "" ∧ td_LastStdout d = "" ∧ td_LastShellCwd d = "") ∧
    (td_LastSource d ≠ "" → hi_Events h ≠ []);
  dv_trusted : td_LastStructured d = true → td_LastSource d ≠ "" → trusted_source (td_LastSource d);
  dv_cwd : IsAbs (td_LastShellCwd d) = false }.

Lemma core_history r : core_inv r → history_inv (tr_nextSeq r) (tr_history r).
Proof. intros []. by split. Qed.

Lemma encode_durable_inv saved r : core_inv r → durable_inv (EncodeState saved r).
Proof.
  intros Hc. pose proof (core_history r Hc) as Hh. unfold EncodeState. destruct (tr_lastShell r) as [s|] eqn:Es; cbn [default].
  - destruct (ci_shell _ Hc _ Es) as (Ht & Hcw & Hne & Hev). split; cbn; [apply Hc| |by intros ? _; auto|done].
    exists (tr_history r). split_and!; [done|done|done|done].
  - split; cbn; [apply Hc| |done|done]. exists (tr_history r). by split_and!.
Qed.

Lemma clean_trusted source : trusted_source source → valid_text source = source.
Proof. unfold trusted_source. rewrite !elem_of_cons. by intros [->|[->|[]%elem_of_nil]]. Qed.

Lemma clean_durable_inv checks obs d : durable_inv d → durable_inv (clean_terminal checks obs d).
Proof.
  intros [Hn (h & Hh & [Hb Hs Hr Hst Ht] & Hnone & Hsome) Htr Hc]. split; cbn.
  - done.
  - exists (clean_history h). rewrite Hh. split_and!; [done| | |].
    + split; cbn.
      * by rewrite length_fmap.
      * by rewrite <-list_fmap_compose.
      * rewrite Forall_fmap. eapply Forall_impl; [exact Hr|]. done.
      * done.
      * unfold trusted_history in *. cbn. rewrite Forall_fmap. eapply Forall_impl; [exact Ht|]. cbn. intros e He Hse.
        rewrite clean_trusted; auto.
    + intros E%valid_text_empty. destruct (Hnone E) as (-> & -> & ->). done.
    + intros Hne. cbn. intros E%fmap_nil_inv. apply Hsome; [|done]. intros E'. by rewrite E' in Hne.
  - intros Hstr Hne. rewrite clean_trusted; apply Htr; try done; intros E; by rewrite E in Hne.
  - by apply valid_text_relative.
Qed.

Section restore.
Context `{!GoRegexp} (range_tasks : gmap Z Z → list Z).

(** Restoring such a state into a new runner of the activity gives a runner with the invariant. *)
Lemma restore_durable_inv content ws v now d r0 r :
  IsAbs ws = true → durable_inv d → core_inv r0 → of_activity content ws r0 → tr_lastShell r0 = None →
  RestoreState range_tasks v now (Some (Ok d)) r0 = Ok r → runner_inv range_tasks r ∧ of_activity content ws r.
Proof using Type.
  intros Hw [Hn (h & Hh & [Hb Hs Hr Hst Ht] & Hnone & Hsome) Htr Hc] H0 Hof Hsh. unfold RestoreState.
  case_bool_decide as E; [destruct Hof as [_ Ews]; by rewrite E in Ews; subst ws|]. destruct (negb _); [done|]. cbv zeta.
  set (r1 := if bool_decide (td_RelCwd d = "") then r0 else follow_cwd v (td_RelCwd d) r0).
  assert (core_inv r1) as H1 by (subst r1; case_bool_decide; [done|by apply follow_cwd_core]).
  assert (of_activity content ws r1) as Hof1 by (subst r1; case_bool_decide; [done|by apply follow_of]).
  assert (tr_lastShell r1 = None) as Hsh1 by (subst r1; case_bool_decide; [done|by rewrite follow_lastShell]).
  clearbody r1. rewrite (bool_decide_eq_true_2 (0 < td_NextSeq d)%Z) by lia. rewrite Hh. intros Hok. apply (inj Ok) in Hok; subst r.
  set (r2 := set_submittedTasks _ _).
  assert (core_inv r2 ∧ of_activity content ws r2) as [H2 Hof2].
  { subst r2. destruct (bool_decide (td_LastShellExe d = "") && _ && _ && _) eqn:Ee; (split; [|done]).
    - split; cbn; try done; try apply H1; [by rewrite Hsh1|]. rewrite elem_of_list_to_set, list_elem_of_filter. by intros [? _].
    - split; cbn; try done; try apply H1; [|rewrite elem_of_list_to_set, list_elem_of_filter; by intros [? _]].
      assert (td_LastSource d ≠ "") as Hne.
      { intros Esrc. destruct (Hnone Esrc) as (E1 & E2 & E3). by rewrite E1, E2, E3, Esrc in Ee. }
      intros s [= <-]. cbn. split_and!; [intros; by apply Htr|done|done|by apply Hsome]. }
  clearbody r2. split; [|by apply refresh_of]. apply refresh_inv; [done|]. intros s [= <-]. by destruct (shellState_inv _ H2).
Qed.
End restore.
