(* ===== verification/TerminalRestart.v ===== *)
(** * Restarts of a terminal session

    The state of a terminal runner, saved as JSON by one process and restored by the next, through the
    runner interface of the engine. *)
From S2P Require Import Prelude GoStrings GoText Paths Utf8 Float64 Contracts ContentJson LmsData LmsDb Responses ActivityDoc Sessions.
From S2P Require Import ContentEncode WorkPage ClientStore ClientSync Mastery Typing Observe TerminalVerify TerminalRunner TerminalSession.
From S2P Require TypingRunner.
From S2P Require Import Engine EngineLogic.
From stdpp Require Import options.
Local Open Scope string_scope.
Local Open Scope list_scope.

Section restart.
Context `{!GoText, !GoRegexp, !FloatText, !DurableJson, !WrapJson, !EngineJson, !EngineJsonLaws}.
Context (range_tasks : gmap Z Z → list Z) (digestManifest : list WorkspaceManifestEntry → bool → string) (sha256_hex : string → string).

#[local] Set Default Proof Using "Type*".

Local Abbreviation encode := runner_EncodeState.
Local Abbreviation restore := (runner_RestoreState range_tasks).

(** Every text of the state is UTF-8, so that JSON keeps it. *)
Definition utf8_state (d : terminalDurable) : Prop := clean_terminal (td_Checks d) (td_Observations d) d = d.

(** The check rows and observations of a saved state are not read. *)
Lemma restore_clean v now checks obs d r :
  utf8_state d → RestoreState range_tasks v now (Some (Ok (clean_terminal checks obs d))) r = RestoreState range_tasks v now (Some (Ok d)) r.
Proof.
  intros Hd. assert (E : clean_terminal checks obs d = TerminalRunner.mkDurable (td_V d) (td_Kind d) (td_RelCwd d) (td_CommandsRun d) (td_CurrentTaskIdx d)
    (td_RequiredPassed d) (td_ChecksPassed d) checks obs (td_LastOutput d) (td_LastError d) (td_LastShellCwd d) (td_LastShellExe d) (td_LastExitCode d)
    (td_LastStdout d) (td_LastStderr d) (td_LastSource d) (td_LastStructured d) (td_History d) (td_NextSeq d) (td_LastManifest d) (td_SubmittedTasks d)
    (td_SavedAt d)).
  { unfold clean_terminal. f_equal; [exact (f_equal td_Kind Hd)|exact (f_equal td_RelCwd Hd)|exact (f_equal td_LastOutput Hd)|exact (f_equal td_LastError Hd)|exact (f_equal td_LastShellCwd Hd)|exact (f_equal td_LastShellExe Hd)|exact (f_equal td_LastStdout Hd)|exact (f_equal td_LastStderr Hd)|exact (f_equal td_LastSource Hd)|exact (f_equal td_History Hd)|exact (f_equal td_LastManifest Hd)|exact (f_equal td_SubmittedTasks Hd)]. }
  rewrite E. reflexivity.
Qed.

(** C32: A restart loses nothing.  In every state the runner reaches, encoding its state as JSON, opening a
    new runner on the same activity and workspace and restoring the text into it succeeds, if the texts of
    the state are UTF-8.  It gives the state the old runner would have after evaluating its checks again in
    the directory the new one is in: the same history and numbering, the same observations, task and
    readiness to complete; and no event waits to be sent a second time.  That directory is the old one when
    it can be joined to the workspace and still is a directory, or is the workspace itself and the activity
    opens there; otherwise it is where the activity opens.  The arguments of the last command are not saved;
    that no check needs them is part of the theorem. *)
Theorem terminal_restart content ws os v h now now' saved opts r r0 :
  IsAbs ws = true → reachable range_tasks digestManifest sha256_hex content ws r →
  oo_Content opts = content → oo_Workspace opts = ws → Open range_tasks digestManifest os v now opts NewTerminal = Ok r0 →
  utf8_state (EncodeState saved r) →
  let old := set_cwd (restored_cwd (ho_view h) r r0) r in
  ∃ r', restore h now' (encode saved (RTerminal r)) (RTerminal r0) = Ok (RTerminal r') ∧
    same_inputs r' (Verify range_tasks (ho_view h) now' old) ∧ same_results r' (Verify range_tasks (ho_view h) now' old) ∧ silent r' ∧
    (cwd_restored (ho_view h) r r0 → tr_cwd r' = tr_cwd r).
Proof.
  intros Hw Hr Hoc How Hop Hutf old.
  destruct (restart_restores range_tasks digestManifest sha256_hex content ws os v (ho_view h) now now' saved opts r r0 Hw Hr Hoc How Hop)
    as (r' & Hrun & Hin & Hres & Hsil & Hws). exists r'. fold old in Hin, Hres. split_and!; [|done|done|done|].
  - unfold runner_RestoreState, runner_EncodeState. rewrite bool_decide_eq_false_2 by apply terminal_json_text.
    destruct (terminal_json (EncodeState saved r)) as (checks & obs & ->). rewrite restore_clean, Hrun by done. done.
  - intros Hcwd. destruct Hin as (_ & _ & -> & _). unfold Verify. rewrite <-(restored_cwd_saved (ho_view h) r r0 Hws Hcwd).
    unfold old, refreshLocked. cbv zeta. by destruct (_ && _).
Qed.
End restart.
