(* ===== verification/EngineSafety.v ===== *)
(** * The session engine: what its calls keep

    The engine, its open sessions and the store as a system of steps ([sys_step]: a session is opened,
    a call is made on one, a sync pass runs, the program is killed) and the invariant of the states
    it reaches. *)
From S2P Require Import Prelude GoStrings GoText Paths Utf8 Float64 Contracts ContentJson LmsData LmsDb Responses ActivityDoc Sessions.
From S2P Require Import ContentEncode WorkPage ClientStore ClientSync Mastery Typing Observe TerminalVerify TerminalRunner TerminalSession.
From S2P Require TypingRunner.
From S2P Require Import Engine EngineLogic.
From stdpp Require Import options.
Local Open Scope string_scope.
Local Open Scope list_scope.

(** ** The log of a session *)

(** The events of a client session, in the order they were written. *)
Definition log (cid : string) (s : Store) : list SessionEvent :=
  snd <$> filter (λ x, x.1 = cid) (event_of <$> st_outbox s).

(** Numbered from 0, and beginning with the only [session_started]. *)
Definition log_ok (s : Store) (cid : string) (x : ClientSession) : Prop :=
  Contracts.se_Sequence <$> log cid s = seqZ 0 (ss_NextSequence x) ∧
  ∃ e l, log cid s = e :: l ∧ se_Type e = EventSessionStarted ∧ Forall (λ e, se_Type e ≠ EventSessionStarted) l.

(** A completion is for the server session of its session's row, and acknowledged only if there is one. *)
Definition bound_completions (s : Store) : Prop := ∀ id c, st_completions s !! id = Some c → ∃ row, st_sessions s !! ci_ClientSessionID c = Some row ∧
  ci_ServerSessionID c = ss_ServerSessionID row ∧ (ci_Acked c = true → ss_ServerSessionID row ≠ "").

(** A change of the rows that keeps their server sessions. *)
Lemma bound_rows s s' : st_completions s' = st_completions s → rows_kept s s' → bound_completions s → bound_completions s'.
Proof.
  intros E Hr Hb id c Hc. rewrite E in Hc. destruct (Hb id c Hc) as (row & Hrow & E1 & E2). destruct (Hr _ _ Hrow) as (row' & Hrow' & F & _).
  exists row'. rewrite F. done.
Qed.

Lemma bound_sync s s' : sync_le s s' → bound_completions s → bound_completions s'.
Proof.
  intros Hs Hb id c' Hc'. destruct (sl_completion _ _ Hs _ _ Hc') as (c & Hc & _ & E2 & E1 & _ & Ha). destruct (Hb id c Hc) as (row & Hrow & F1 & F2).
  destruct (sync_rows_kept _ _ Hs _ _ Hrow) as (row' & Hrow' & G & _). exists row'. rewrite E2, E1, G. split_and!; [done|done|].
  intros [Hack|[Hne|(r & Hr & Hne)]]%Ha; [by apply F2|congruence|]. rewrite Hrow in Hr. apply (inj Some) in Hr. by subst r.
Qed.

(** ** The invariant of the store *)

Section invariant.
Context `{!GoText, !GoRegexp, !FloatText, !DurableJson, !WrapJson, !EngineJson, !EngineJsonLaws} {W : Type} `{!Server W, !SessionServer W}.
Context (range_tasks : gmap Z Z → list Z) (digestManifest : list WorkspaceManifestEntry → bool → string).
Context (sha256_hex : string → string) (unmarshal : string → option rawEvent) (uuid : nat → string) `{!Inj (=) (=) uuid}.
Context (constraint_text : string) (fuel : nat) (deviceCaps : option DeviceCapabilities) (opts : Options).
Context (Hhook : hook_lines unmarshal) (Hroot : op_WorkspaceRoot opts = "" ∨ IsAbs (op_WorkspaceRoot opts) = true).
(** The store at the beginning of the call. *)
Context (K : Store).
#[local] Set Default Proof Using "Type*".

(** A saved runner, as far as a terminal runner reads it. *)
Definition saved_ok (x : RunnerState) : Prop :=
  rn_Kind x ≠ "" ∧ (rn_Kind x = KindTerminal → ∀ d, unmarshal_terminal (rn_StateJSON x) = Ok d → durable_inv d).

(** Apart from the logs of the sessions in [D]. *)
Record store_but (D : string → Prop) (n : nat) (s : Store) : Prop := {
  so_keyed : keyed_csessions s;
  so_abs : ∀ cid x, st_sessions s !! cid = Some x → IsAbs (ss_WorkspacePath x) = true;
  so_saved : ∀ cid x, st_runner s !! cid = Some x → saved_ok x;
  so_ids : ∀ cid, is_Some (st_sessions s !! cid) → ∃ k, (k < n)%nat ∧ cid = uuid k;
  so_events : ∀ x, x ∈ event_of <$> st_outbox s → is_Some (st_sessions s !! x.1) ∧ ∃ k, (k < n)%nat ∧ se_EventID x.2 = uuid k;
  so_logs : ∀ cid x, st_sessions s !! cid = Some x → ¬ D cid → log_ok s cid x;
  so_completions : ∀ id, is_Some (st_completions s !! id) → ∃ k, (k < n)%nat ∧ id = uuid k;
  so_ckeyed : keyed_completions s;
  so_bound : bound_completions s;
  so_rows : rows_kept K s }.

Definition store_ok : nat → Store → Prop := store_but (λ _, False).

Lemma store_keyed D n s : store_but D n s → keyed_store s.
Proof. by intros []. Qed.

Lemma store_but_more D n n' s : (n ≤ n')%nat → store_but D n s → store_but D n' s.
Proof.
  intros Hn [J1 J2 J3 J4 J5 J6 J7 J8 J9 J10]. split; try done.
  - intros cid (k & Hk & ->)%J4. exists k. split; [lia|done].
  - intros x (Ha & k & Hk & Hid)%J5. split; [done|]. exists k. split; [lia|done].
  - intros id (k & Hk & ->)%J7. exists k. split; [lia|done].
Qed.

Lemma log_sync s s' cid : event_of <$> st_outbox s' = event_of <$> st_outbox s → log cid s' = log cid s.
Proof. intros E. unfold log. by rewrite E. Qed.

(** The sync loop keeps it. *)
Lemma store_sync D n s s' : sync_le s s' → store_but D n s → store_but D n s'.
Proof.
  intros Hs [J1 J2 J3 J4 J5 J6 J7 J8 J9 J10]. pose proof (sl_outbox _ _ Hs) as Eo. split.
  - by destruct (sync_le_keyed _ _ Hs).
  - intros cid x (y & Hy & _ & _ & -> & _)%(sl_session _ _ Hs). by eapply J2.
  - intros cid x. rewrite (sl_runner _ _ Hs). apply J3.
  - intros cid [x (y & Hy & _)%(sl_session _ _ Hs)]. apply J4. eauto.
  - intros x. rewrite Eo. intros (Ha & Hb)%J5. split; [|done]. by apply (sl_kept _ _ Hs).
  - intros cid x (y & Hy & _ & En & _)%(sl_session _ _ Hs) HD. destruct (J6 _ _ Hy HD) as [Hq Hl].
    unfold log_ok. by rewrite (log_sync _ _ _ Eo), En.
  - intros id [c (c0 & Hc & _)%(sl_completion _ _ Hs)]. apply J7. eauto.
  - by destruct (sync_le_keyed _ _ Hs).
  - by eapply bound_sync.
  - etrans; [exact J10|by apply sync_rows_kept].
Qed.

(** Changes of tables the invariant does not look at. *)
Lemma store_same D n s s' :
  st_runner s' = st_runner s → st_outbox s' = st_outbox s → st_sessions s' = st_sessions s → st_completions s' = st_completions s →
  store_but D n s → store_but D n s'.
Proof.
  intros E1 E2 E3 E4 [J1 J2 J3 J4 J5 J6 J7 J8 J9 J10]. split; unfold keyed_csessions, log_ok, log, keyed_completions, bound_completions, rows_kept; rewrite ?E1, ?E2, ?E3, ?E4; done.
Qed.

Lemma store_save_state D n s now state row :
  st_sessions s !! ss_ClientSessionID row = Some row → store_but D n s → store_but D n (SaveSession now (session_set_state state row) s).
Proof. intros Hrow. apply store_sync. by apply SaveSession_sync. Qed.

Lemma store_runner D n s cid x : saved_ok x → store_but D n s → store_but D n (set_runner (<[cid := x]> (st_runner s)) s).
Proof.
  intros Hx [J1 J2 J3 J4 J5 J6 J7 J8 J9 J10]. split; try done. intros cid' y. cbn. intros [[<- <-]|[_ Hy]]%lookup_insert_Some; [done|by eapply J3].
Qed.
Lemma store_runner_gone D n s cid : store_but D n s → store_but D n (DeleteRunnerState cid s).
Proof. intros [J1 J2 J3 J4 J5 J6 J7 J8 J9 J10]. split; try done. intros cid' y. cbn. intros [_ Hy]%lookup_delete_Some. by eapply J3. Qed.

Lemma store_intent D n s now cid sid req row :
  (∃ k, (k < n)%nat ∧ cr_CompletionID req = uuid k) → st_completions s !! cr_CompletionID req = None →
  st_sessions s !! cid = Some row → ss_ServerSessionID row = sid →
  store_but D n s → store_but D n (SaveCompletionIntent now cid sid req s).
Proof.
  intros Hid Hnone Hrow Hsid [J1 J2 J3 J4 J5 J6 J7 J8 J9 J10]. unfold SaveCompletionIntent. rewrite Hnone.
  split; try done; unfold keyed_completions, bound_completions; cbn.
  - intros id [<-|[_ Hex]]%lookup_insert_is_Some; [done|by apply J7].
  - intros id c [[<- <-]|[_ Hc]]%lookup_insert_Some; [done|by apply J8].
  - intros id c [[<- <-]|[_ Hc]]%lookup_insert_Some; [|by eapply J9]. exists row. cbn. split_and!; [done|done|done].
Qed.

(** *** Writing events *)

Lemma log_snoc s s' cid o : st_outbox s' = st_outbox s ++ [o] →
  log cid s' = log cid s ++ (if bool_decide (ox_ClientSessionID o = cid) then [ox_Event o] else []).
Proof.
  intros E. unfold log. rewrite E, fmap_app, filter_app, fmap_app. f_equal. cbn.
  unfold filter, list_filter. cbn. destruct (decide _); [by rewrite bool_decide_eq_true_2|by rewrite bool_decide_eq_false_2].
Qed.

(** The store with one more event of a session, numbered by its row. *)
Definition put_event (now : Z) (cid : string) (x : ClientSession) (ev : SessionEvent) (s : Store) : Store :=
  set_csessions (<[cid := session_set_next (ss_NextSequence x + 1) now x]> (st_sessions s))
    (set_outbox (st_outbox s ++ [mkOutboxEvent cid (ss_ServerSessionID x) ev false]) s).

Lemma EnqueueEvent_run D n s now cid x id typ t payload k :
  store_but D n s → st_sessions s !! cid = Some x → (0 ≤ ss_NextSequence x)%Z → id = uuid k → (n ≤ k)%nat →
  ∃ ev, EnqueueEvent now cid (mkSessionEvent "1" id typ (-1) t payload) s = Ok (put_event now cid x ev s, ev) ∧
    se_EventID ev = id ∧ se_Type ev = typ ∧ Contracts.se_Sequence ev = ss_NextSequence x.
Proof.
  intros Hs Hx Hn -> Hk. unfold EnqueueEvent. rewrite Hx. cbv zeta. cbn [se_SchemaVersion se_EventID se_Type se_ClientTime se_Payload Contracts.se_Sequence].
  rewrite (bool_decide_eq_true_2 (-1 < 0)%Z) by lia.
  assert (existsb (λ o, bool_decide (se_EventID (ox_Event o) = uuid k)) (st_outbox s) = false) as ->.
  { apply existsb_false_in. intros o Ho. apply bool_decide_eq_false. intros E.
    destruct (so_events _ _ _ Hs (event_of o)) as (_ & k' & Hk' & Hid); [by apply list_elem_of_fmap_2|].
    cbn in Hid. rewrite E in Hid. apply (inj uuid) in Hid. lia. }
  rewrite (bool_decide_eq_true_2 (_ < _)%Z) by (cbn; lia). by eexists.
Qed.

Lemma put_rows now cid x ev s : st_sessions s !! cid = Some x → rows_kept s (put_event now cid x ev s).
Proof.
  intros Hx c y Hy. cbn. destruct (decide (cid = c)) as [<-|Hne].
  - rewrite lookup_insert_eq. eexists. split; [done|]. rewrite Hx in Hy. apply (inj Some) in Hy. by subst y.
  - rewrite lookup_insert_ne by done. by exists y.
Qed.

Lemma put_event_store D D' n n' s now cid x ev k :
  store_but D n s → st_sessions s !! cid = Some x → (n ≤ k < n')%nat → se_EventID ev = uuid k →
  log_ok (put_event now cid x ev s) cid (session_set_next (ss_NextSequence x + 1) now x) → (∀ c, c ≠ cid → ¬ D' c → ¬ D c) →
  store_but D' n' (put_event now cid x ev s).
Proof.
  intros [J1 J2 J3 J4 J5 J6 J7 J8 J9 J10] Hx Hk Hid Hlog HD. split; unfold keyed_csessions; cbn.
  - intros c y [[<- <-]|[_ Hy]]%lookup_insert_Some; [exact (J1 _ _ Hx)|by apply J1].
  - intros c y [[<- <-]|[_ Hy]]%lookup_insert_Some; [exact (J2 _ _ Hx)|by eapply J2].
  - done.
  - intros c Hc. destruct (J4 c) as (k' & Hk' & ->); [|exists k'; split; [lia|done]].
    apply lookup_insert_is_Some in Hc as [<-|[_ Hc]]; [by rewrite Hx|done].
  - intros y. rewrite fmap_app, elem_of_app. cbn. intros [Hy|Hy%list_elem_of_singleton].
    + destruct (J5 y Hy) as (Ha & k' & Hk' & Hy'). split; [|exists k'; split; [lia|done]].
      apply lookup_insert_is_Some. destruct (decide (cid = y.1)); [by left|by right].
    + subst y. cbn. split; [by rewrite lookup_insert_eq|]. exists k. split; [lia|done].
  - intros c y [[<- <-]|[Hne Hy]]%lookup_insert_Some Hc; [done|]. destruct (J6 c y Hy (HD c (not_eq_sym Hne) Hc)) as [Hq Hl].
    unfold log_ok. rewrite (log_snoc s) with (o := mkOutboxEvent cid (ss_ServerSessionID x) ev false) by done. cbn.
    by rewrite bool_decide_eq_false_2, app_nil_r.
  - intros id (k' & Hk' & ->)%J7. exists k'. split; [lia|done].
  - done.
  - eapply (bound_rows s); [done| |done]. by apply put_rows.
  - etrans; [exact J10|]. by apply put_rows.
Qed.

Lemma log_length s cid x : log_ok s cid x → ss_NextSequence x = Z.of_nat (length (log cid s)) ∧ (0 < ss_NextSequence x)%Z.
Proof.
  intros [Hq (e & l & Hl & _)]. apply (f_equal length) in Hq. rewrite length_fmap, length_seqZ, Hl in Hq. rewrite Hl. cbn in *. lia.
Qed.

(** Another event of a session that has begun. *)
Lemma put_event_next D n n' s now cid x ev k :
  store_but D n s → st_sessions s !! cid = Some x → ¬ D cid → (n ≤ k < n')%nat → se_EventID ev = uuid k →
  se_Type ev ≠ EventSessionStarted → Contracts.se_Sequence ev = ss_NextSequence x → store_but D n' (put_event now cid x ev s).
Proof.
  intros Hs Hx HD Hk Hid Ht Hseq. apply (put_event_store D D n n' s now cid x ev k); try done.
  pose proof (so_logs _ _ _ Hs _ _ Hx HD) as Hl. pose proof (log_length _ _ _ Hl) as [Hlen Hpos].
  destruct Hl as [Hq (e & l & Hl & He & Hall)].
  assert (log cid (put_event now cid x ev s) = log cid s ++ [ev]) as E.
  { rewrite (log_snoc s) with (o := mkOutboxEvent cid (ss_ServerSessionID x) ev false) by done. cbn. by rewrite bool_decide_eq_true_2. }
  split; rewrite E.
  - rewrite fmap_app, Hq. cbn. rewrite Hseq. replace (ss_NextSequence x + 1)%Z with (ss_NextSequence x + Z.of_nat 1)%Z by lia.
    rewrite seqZ_app by lia. cbn. by rewrite Z.add_0_l.
  - exists e, (l ++ [ev]). rewrite Hl. split_and!; [done|done|]. apply Forall_app. split; [done|]. by constructor.
Qed.

(** The first event of a new session. *)
Lemma put_event_first n n' s now cid x ev k :
  store_but (λ c, c = cid) n s → st_sessions s !! cid = Some x → log cid s = [] → ss_NextSequence x = 0%Z → (n ≤ k < n')%nat →
  se_EventID ev = uuid k → se_Type ev = EventSessionStarted → Contracts.se_Sequence ev = 0%Z → store_ok n' (put_event now cid x ev s).
Proof.
  intros Hs Hx Hl Hnext Hk Hid Ht Hseq. eapply (put_event_store _ (λ _, False)); try done.
  assert (log cid (put_event now cid x ev s) = [ev]) as E.
  { rewrite (log_snoc s) with (o := mkOutboxEvent cid (ss_ServerSessionID x) ev false) by done. rewrite Hl. cbn. by rewrite bool_decide_eq_true_2. }
  split; rewrite E; cbn.
  - by rewrite Hseq, Hnext.
  - by exists ev, [].
Qed.

(** ** The invariant of a session *)

Definition runner_kind (r : Runner) : string := match r with RTerminal _ => KindTerminal | RTyping _ => KindTyping end.

Definition runner_ok (content : ActivityContent) (ws : string) (r : Runner) : Prop :=
  match r with
  | RTerminal r => runner_inv range_tasks r ∧ of_activity content ws r
  | RTyping r => TypingRunner.typing_runner_inv r ∧ TypingRunner.yr_content r = content
  end.

(** The row of an open session. *)
Definition row_in (store : Store) (s : Session) : Prop :=
  ∃ row, st_sessions store !! s_clientSessionID s = Some row ∧ ss_ServerSessionID row = s_serverSessionID s.

Record session_ok (s : Session) : Prop := {
  sk_abs : IsAbs (s_workspace s) = true;
  sk_runner : runner_ok (s_content s) (s_workspace s) (s_runner s);
  sk_kind : runner_kind (s_runner s) = s_kind s;
  sk_reader : ∀ rd, s_reader s = Some rd → rd_Workspace rd = s_workspace s;
  sk_row : row_in K s }.

Lemma text_err_Ok {A} (r : result string A) a : text_err r = Ok a → r = Ok a.
Proof. destruct r; cbn; by intros [= ->]. Qed.

Local Abbreviation open_r := (runner_Open range_tasks digestManifest).
Local Abbreviation handle_r := (runner_HandleInput range_tasks digestManifest sha256_hex).
Local Abbreviation verify_r := (runner_Verify range_tasks).
Local Abbreviation restore_r := (runner_RestoreState range_tasks).
Local Abbreviation mark_r := (mark_response range_tasks).

Lemma handle_ok content ws h now i r r' :
  input_ok i → runner_ok content ws r → handle_r h now i r = Ok r' → runner_ok content ws r' ∧ runner_kind r' = runner_kind r.
Proof.
  intros Hi Hr Hh%text_err_Ok. destruct r as [r|r]; apply bind_Ok in Hh as (x & Hx & Hh); apply (inj Ok) in Hh; subst r'; (split; [|done]).
  - destruct Hr. split; [by eapply handle_inv|by eapply handle_of].
  - destruct Hr as [Hinv <-]. by eapply TypingRunner.Handle_inv.
Qed.

Lemma verify_ok content ws h now r r' :
  runner_ok content ws r → verify_r h now r = Ok r' → runner_ok content ws r' ∧ runner_kind r' = runner_kind r.
Proof.
  intros Hr Hh%text_err_Ok. destruct r as [r|r].
  - apply (inj Ok) in Hh; subst r'. destruct Hr as [[Hc _] Hof]. split; [|done]. split; [by apply Verify_inv|by apply refresh_of].
  - apply bind_Ok in Hh as (x & Hx & Hh); apply (inj Ok) in Hh; subst r'. destruct Hr as [Hinv <-]. split; [|done]. by eapply TypingRunner.typing_Verify_inv.
Qed.

Lemma mark_runner_ok content ws h now id r : runner_ok content ws r → runner_ok content ws (mark_r h now r id) ∧ runner_kind (mark_r h now r id) = runner_kind r.
Proof.
  intros Hr. destruct r as [r|r]; [|done]. destruct Hr as [[Hc _] Hof]. split; [|done]. split; [by apply MarkResponse_inv|].
  apply refresh_of. by case_bool_decide.
Qed.

Lemma snapshot_ok content ws now drain r :
  runner_ok content ws r → runner_ok content ws (runner_Snapshot now drain r).1 ∧ runner_kind (runner_Snapshot now drain r).1 = runner_kind r.
Proof.
  intros Hr. destruct r as [r|r]; cbn; (split; [|done]); destruct drain; try done.
  - destruct Hr as [[Hc Hres] Hof]. split; [|done]. split; [|exact Hres]. by eapply same_core_inv; [|exact Hc].
  - destruct Hr as [Hinv Hc]. split; [by apply TypingRunner.set_emits_inv|done].
Qed.

Lemma close_ok content ws r : runner_ok content ws r → runner_ok content ws (runner_Close r) ∧ runner_kind (runner_Close r) = runner_kind r.
Proof.
  intros Hr. destruct r as [r|r]; cbn; (split; [|done]).
  - destruct Hr as [[Hc Hres] Hof]. split; [|done]. split; [|exact Hres]. by eapply same_core_inv; [|exact Hc].
  - destruct Hr as [Hinv Hc]. split; [by apply TypingRunner.Close_inv|done].
Qed.

(** A new runner of a kind, opened. *)
Lemma open_ok h now ws content item skip kind r0 r :
  IsAbs ws = true → new_runner kind = Ok r0 → open_r h now (open_opts ws content item skip) r0 = Ok r →
  runner_ok content ws r ∧ runner_kind r = kind ∧
  match r with RTerminal r => tr_lastShell r = None | RTyping _ => True end.
Proof.
  intros Hw Hn Ho%text_err_Ok. unfold new_runner in Hn. case_bool_decide as E1; [|case_bool_decide as E2; [|done]]; apply (inj Ok) in Hn; subst r0.
  - apply bind_Ok in Ho as (x & Hx & Ho); apply (inj Ok) in Ho; subst r. apply Open_inv in Hx as (Hinv & Hc & Hws & Hsh); [|done].
    split_and!; [split; [done|by split]|by rewrite E1|done].
  - apply bind_Ok in Ho as (x & Hx & Ho); apply (inj Ok) in Ho; subst r. apply TypingRunner.typing_Open_inv in Hx as [Hinv Hc].
    split_and!; [by split|by rewrite E2|done].
Qed.

Lemma restore_ok content ws h now x kind r r' :
  IsAbs ws = true → saved_ok x → (rn_Kind x = "" ∨ rn_Kind x = kind) → runner_ok content ws r → runner_kind r = kind →
  match r with RTerminal r => tr_lastShell r = None | RTyping _ => True end →
  restore_r h now (rn_StateJSON x) r = Ok r' → runner_ok content ws r' ∧ runner_kind r' = kind.
Proof.
  intros Hw [Hne Hsaved] Hk Hr Hkind Hsh Ho%text_err_Ok. destruct Hk as [?|Hk]; [done|].
  destruct r as [r|r]; cbn in Hkind; apply bind_Ok in Ho as (y & Hy & Ho); apply (inj Ok) in Ho; subst r'; (split; [|done]).
  - destruct Hr as [[Hc Hres] Hof]. case_bool_decide.
    + unfold RestoreState in Hy. case_bool_decide; [done|]. apply (inj Ok) in Hy. by subst y.
    + destruct (unmarshal_terminal (rn_StateJSON x)) as [d|e] eqn:Ed.
      * eapply restore_durable_inv; [done|apply (Hsaved ltac:(congruence) d eq_refl)|exact Hc|exact Hof|done|exact Hy].
      * unfold RestoreState in Hy. by case_bool_decide.
  - destruct Hr as [Hinv <-]. by eapply TypingRunner.Restore_inv.
Qed.

(** ** What the pieces of a call keep *)

Definition good (st : estate W) : Prop := store_ok (ea_uuids st) (store_of st).
Definition fine (x : estate W * Session) : Prop := good x.1 ∧ session_ok x.2.

Local Abbreviation enqueue := (enqueue uuid).
Local Abbreviation apply_events := (applyRunnerEvents uuid).
Local Abbreviation handle := (handle range_tasks digestManifest sha256_hex).
Local Abbreviation verify := (verify range_tasks).
Local Abbreviation drain := (drainObserveLocked range_tasks digestManifest sha256_hex unmarshal).
Local Abbreviation restore_responses := (restoreSubmittedResponses range_tasks).
Local Abbreviation sync_pass := (sync_pass fuel deviceCaps).
Local Abbreviation eng_SyncOnce := (eng_SyncOnce constraint_text fuel deviceCaps opts).
Local Abbreviation flush := (flush constraint_text fuel deviceCaps opts).
Local Abbreviation attach_terminal := (attach_terminal constraint_text opts).

Lemma good_status f st : good st → good (put_status f st).
Proof. done. Qed.

Lemma keeps_status f : keeps good (status (W:=W) f) (λ _, True).
Proof. by apply keeps_mod. Qed.
Lemma keeps_get_store {A} (f : Store → A) : keeps good (get_store f) (λ _, True).
Proof. by intros st Hst. Qed.
Lemma keeps_on_store f : (∀ now n s, store_ok n s → store_ok n (f now s)) → keeps good (on_store f) (λ _, True).
Proof. intros Hf. apply keeps_mod; [|done]. intros st Hst. by apply Hf. Qed.
Lemma keeps_NewString : keeps good (NewString uuid) (λ _, True).
Proof. intros st Hst. split; [|done]. unfold good. cbn. by eapply store_but_more; [|exact Hst]; lia. Qed.

Lemma keeps_enqueue cid typ payload : typ ≠ EventSessionStarted → keeps good (enqueue cid typ payload) (λ _, True).
Proof.
  intros Ht st Hst. unfold Engine.enqueue, NewString, mbind, SE_bind, se_get, se_mod. cbn [store_of ea_client ea_uuids now_of cl_world].
  destruct (st_sessions (store_of st) !! cid) as [x|] eqn:Ex; cycle 1.
  { unfold EnqueueEvent. change (store_of (mkEState (ea_client st) (ea_status st) (ea_profile st) (S (ea_uuids st)))) with (store_of st).
    rewrite Ex. unfold good. cbn. eapply store_but_more; [|exact Hst]. lia. }
  pose proof (log_length _ _ _ (so_logs _ _ _ Hst _ _ Ex (λ F, F))) as [_ Hpos].
  destruct (EnqueueEvent_run (λ _, False) (ea_uuids st) (store_of st) (now_of st) cid x (uuid (ea_uuids st)) typ (now_of st) (Some payload)
    (ea_uuids st) Hst Ex ltac:(lia) eq_refl ltac:(lia)) as (ev & Hrun & Hid & Hty & Hseq).
  change (store_of (mkEState (ea_client st) (ea_status st) (ea_profile st) (S (ea_uuids st)))) with (store_of st).
  change (now_of (mkEState (ea_client st) (ea_status st) (ea_profile st) (S (ea_uuids st)))) with (now_of st).
  rewrite Hrun. unfold mret, SE_ret. split; [|done]. unfold good. cbn.
  eapply put_event_next; [exact Hst|done|exact (λ F, F)| |exact Hid|by rewrite Hty|done]. lia.
Qed.

Lemma keeps_sync_pass : keeps good sync_pass (λ _, True).
Proof.
  unfold Engine.sync_pass. eapply keeps_bind with (Q := λ _, True).
  - intros st Hst. unfold on_client. pose proof (SyncOnce_keyed fuel deviceCaps (ea_client st) (store_keyed _ _ _ Hst)) as Hs.
    destruct (SyncOnce fuel deviceCaps (ea_client st)) as [c [r|e]]; [split; [|done]|]; unfold good; cbn in *; by eapply store_sync.
  - intros [res|] _; [by apply keeps_ret|apply keeps_fail].
Qed.

Lemma keeps_record_error e : keeps good (record_error (W:=W) constraint_text e) (λ _, True).
Proof. destruct e; [apply keeps_status|by apply keeps_ret]. Qed.

Lemma keeps_eng_SyncOnce : keeps good eng_SyncOnce (λ _, True).
Proof.
  unfold Engine.eng_SyncOnce. destruct (_ || _).
  - eapply keeps_bind; [apply keeps_status|]. intros _ _. by apply keeps_ret.
  - eapply keeps_bind; [apply keeps_sync_pass|]. intros res _. eapply keeps_bind; [apply keeps_status|]. intros _ _.
    eapply keeps_bind; [apply keeps_record_error|]. intros _ _. by apply keeps_ret.
Qed.

Lemma keeps_flush : keeps good flush (λ _, True).
Proof.
  unfold Engine.flush. destruct (_ || _).
  - eapply keeps_bind; [apply keeps_status|]. intros _ _. by apply keeps_ret.
  - eapply keeps_bind; [apply keeps_sync_pass|]. intros res _. eapply keeps_bind; [apply keeps_status|]. intros _ _.
    eapply keeps_bind; [apply keeps_record_error|]. intros _ _. by apply keeps_ret.
Qed.

(** *** On a session *)

Lemma keeps_on_engine {A} (m : SE (estate W) A) (Q : A → Prop) : keeps good m Q → keeps fine (on_engine m) Q.
Proof.
  intros Hm [st s] [Hst Hs]. specialize (Hm st Hst). unfold on_engine. cbn. destruct (m st) as [st' [a|e]]; [destruct Hm; by split|by split].
Qed.

Lemma keeps_set_session f : (∀ s, session_ok s → session_ok (f s)) → keeps fine (set_session (W:=W) f) (λ _, True).
Proof. intros Hf. apply keeps_mod; [|done]. intros [st s] [Hst Hs]. cbn [fst snd] in Hst, Hs. split; [done|by apply Hf]. Qed.

Lemma session_same s s' : s_workspace s' = s_workspace s → s_content s' = s_content s → s_runner s' = s_runner s → s_kind s' = s_kind s →
  s_reader s' = s_reader s → s_clientSessionID s' = s_clientSessionID s → s_serverSessionID s' = s_serverSessionID s → session_ok s → session_ok s'.
Proof. intros E1 E2 E3 E4 E5 E6 E7 [J1 J2 J3 J4 J5]. split; unfold row_in; by rewrite ?E1, ?E2, ?E3, ?E4, ?E5, ?E6, ?E7. Qed.

Lemma session_runner r s : session_ok s → runner_ok (s_content s) (s_workspace s) r ∧ runner_kind r = runner_kind (s_runner s) → session_ok (ses_runner r s).
Proof. intros [J1 J2 J3 J4 J5] [Hr Hk]. split; cbn; [done|done|congruence|done|done]. Qed.

Lemma keeps_handle h i : input_ok i → keeps fine (handle h i) (λ _, True).
Proof.
  intros Hi [st s] [Hst Hs]. cbn [fst snd] in Hst, Hs. unfold Engine.handle. cbn. destruct (runner_HandleInput _ _ _ _ _ _ _) as [r|e] eqn:E; [|by split].
  split; [|done]. split; [done|]. apply session_runner; [done|]. eapply handle_ok; [done|apply Hs|exact E].
Qed.

Lemma keeps_verify h : keeps fine (verify h) (λ _, True).
Proof.
  intros [st s] [Hst Hs]. cbn [fst snd] in Hst, Hs. unfold Engine.verify. cbn. destruct (runner_Verify _ _ _ _) as [r|e] eqn:E; [|by split].
  split; [|done]. split; [done|]. apply session_runner; [done|]. eapply verify_ok; [apply Hs|exact E].
Qed.

Lemma keeps_persist : keeps fine persistRunnerState (λ _, True).
Proof.
  intros [st s] [Hst Hs]. cbn [fst snd] in Hst, Hs. unfold persistRunnerState. destruct (SaveRunnerState _ _ _ _ _) as [store|e] eqn:E; [|by split].
  split; [|done]. split; [|done]. unfold SaveRunnerState in E. apply bind_Ok in E as (u & _ & E). apply bind_Ok in E as (u2 & Hk & E).
  apply (inj Ok) in E; subst store. apply ensure_Ok, negb_true_iff, bool_decide_eq_false in Hk. apply store_runner; [|exact Hst].
  split; cbn; [done|]. intros Ekind d Hd. pose proof (sk_kind _ Hs) as Hkind. pose proof (sk_runner _ Hs) as Hr.
  destruct (s_runner s) as [r|r]; [|by rewrite Ekind in Hkind]. destruct (terminal_json (EncodeState (now_of st) r)) as (checks & obs & Hj).
  cbn [runner_EncodeState default] in Hd. rewrite Hj in Hd. apply (inj Ok) in Hd; subst d. apply clean_durable_inv, encode_durable_inv. apply Hr.
Qed.

Lemma keeps_apply_events : keeps fine apply_events (λ _, True).
Proof.
  intros [st s] [Hst Hs]. cbn [fst snd] in Hst, Hs. unfold applyRunnerEvents. destruct (runner_Snapshot (now_of st) true (s_runner s)) as [r snap] eqn:Esn.
  assert (session_ok (ses_runner r s)) as Hs'.
  { apply session_runner; [done|]. pose proof (snapshot_ok (s_content s) (s_workspace s) (now_of st) true (s_runner s) (sk_runner _ Hs)) as Hsn.
    by rewrite Esn in Hsn. }
  apply (keeps_on_engine _ (λ _, True)); [|by split].
  eapply keeps_bind with (Q := λ _, True).
  { unfold emit_command. destruct (sn_EmitCommand snap); [|by apply keeps_ret]. destruct (sn_LastEvent snap); [|destruct (sn_LastShell snap); [|by apply keeps_ret]];
      by eapply keeps_ignore, keeps_enqueue. }
  intros _ _. eapply keeps_bind with (Q := λ _, True).
  { unfold emit_sample. destruct (sn_Typing snap); [|by apply keeps_ret]. destruct (_ && _); [|by apply keeps_ret]. by eapply keeps_ignore, keeps_enqueue. }
  intros _ _. unfold emit_checks. destruct (sn_EmitChecks snap); [|by apply keeps_ret]. apply keeps_each. intros o _. by eapply keeps_ignore, keeps_enqueue.
Qed.

Lemma drain_loop_ws now lines rd out : rd_Workspace (drain_loop unmarshal now lines rd out).1.1 = rd_Workspace rd.
Proof.
  revert rd out. induction lines as [|l lines IH]; intros rd out; [done|]. cbn [drain_loop].
  destruct (bool_decide _); [done|]. cbv zeta. case_bool_decide; [apply IH|]. destruct (unmarshal _) as [raw|]; [|apply IH].
  destruct (_ || _); [apply IH|]. by rewrite IH.
Qed.

Lemma Drain_ws now rd content : rd_Workspace (Drain unmarshal now rd content).1.1 = rd_Workspace rd.
Proof.
  unfold Drain. case_bool_decide; [done|]. destruct content as [t|]; [|done]. cbv zeta.
  pose proof (drain_loop_ws now (raw_lines (String.substring (rd_offset rd) (String.length t - rd_offset rd) t)) rd []) as Hw.
  destruct (drain_loop _ _ _ _ _) as [[rd' out] []]; exact Hw.
Qed.

Lemma session_message m s : session_ok s → session_ok (ses_message m s).
Proof. by apply session_same. Qed.

Lemma keeps_drain h : keeps fine (drain h) (λ _, True).
Proof.
  intros [st s] [Hst Hs]. cbn [fst snd] in Hst, Hs. unfold drainObserveLocked. destruct (s_reader s) as [rd|] eqn:Er; [|by split].
  pose proof (Drain_ws (now_of st) rd (ho_spool h)) as Hws. pose proof (sk_reader _ Hs rd Er) as Hrd.
  pose proof (Drain_fine unmarshal (now_of st) rd (ho_spool h) Hhook ltac:(right; rewrite Hrd; apply Hs)) as Hev.
  destruct (Drain unmarshal (now_of st) rd (ho_spool h)) as [[rd' events] ok]. cbn [fst snd] in *.
  assert (session_ok (ses_observe (s_observeOK s) (Some rd') s)) as Hs'.
  { destruct Hs as [J1 J2 J3 J4 J5]. split; try done. cbn. intros rd2 [= <-]. congruence. }
  destruct (negb ok); [split; [|done]; split; [done|by apply session_message]|]. apply (keeps_each fine); [|by split]. intros ev Hin. eapply keeps_ignore, keeps_handle. cbn.
  rewrite Forall_forall in Hev. specialize (Hev ev Hin). unfold with_manifest. by case_bool_decide.
Qed.

Lemma keeps_restore_responses (P : estate W → Prop) h :
  keeps (λ x : estate W * Session, P x.1 ∧ session_ok x.2) (restore_responses h) (λ _, True).
Proof.
  intros [st s] [Hst Hs]. cbn [fst snd] in Hst, Hs. unfold restoreSubmittedResponses. split; [|done]. split; [done|]. apply session_runner; [done|].
  cbn [fst snd]. generalize (range_set (ListAckedResponseTaskIDs (s_clientSessionID s) (store_of st))). intros ids.
  assert (∀ r, runner_ok (s_content s) (s_workspace s) r → runner_ok (s_content s) (s_workspace s) (foldl (mark_r h (now_of st)) r ids) ∧
    runner_kind (foldl (mark_r h (now_of st)) r ids) = runner_kind r) as Hall.
  { induction ids as [|id ids IH]; intros r Hr; [done|]. cbn [foldl].
    destruct (mark_runner_ok (s_content s) (s_workspace s) h (now_of st) id r Hr) as [Hr' Hk]. destruct (IH _ Hr') as [Ha Hb]. split; [done|congruence]. }
  apply Hall, Hs.
Qed.

Lemma keeps_startPTY h : keeps fine (startPTY (W:=W) h) (λ _, True).
Proof.
  intros [st s] [Hst Hs]. cbn [fst snd] in Hst, Hs. unfold startPTY.
  set (p := if ho_bash h then _ else _).
  assert (session_ok p.2) as Hp.
  { subst p. destruct (ho_bash h); [|done]. destruct (ho_prepare h); [|by apply session_message]. destruct (ho_writeRC h); [by apply session_message|done]. }
  destruct p as [spool s1]. cbn [snd] in Hp. destruct (ho_shell h) as [sandboxed|e]; [|by split].
  destruct (ho_startPTY h); [by split|]. cbv zeta. destruct spool as [path|]; (split; [|done]); (split; [done|]); cbn [snd].
  - destruct Hp as [J1 J2 J3 J4 J5]. split; try done. cbn. by intros rd [= <-].
  - case_bool_decide; [apply session_message|]; by eapply session_same; [..|exact Hp].
Qed.

Lemma keeps_attach h kind failed : keeps fine (attach_terminal h kind failed) (λ _, True).
Proof.
  unfold Engine.attach_terminal. case_bool_decide; [|by apply keeps_ret]. eapply keeps_bind; [apply keeps_try, keeps_startPTY|].
  intros [u|e] _; [by apply keeps_ret|]. destruct (op_AllowUnsandboxed opts); [|apply keeps_fail]. apply keeps_set_session. apply session_message.
Qed.

Lemma keeps_after_input : keeps fine (after_input uuid) (λ _, True).
Proof. eapply keeps_bind; [apply keeps_apply_events|]. intros _ _. apply keeps_persist. Qed.

(** *** The calls *)

Lemma keeps_unless m : keeps fine m (λ _, True) → keeps fine (unless_completed (W:=W) m) (λ _, True).
Proof. intros Hm x Hx. unfold unless_completed. destruct (s_completed x.2); [done|by apply Hm]. Qed.
Lemma keeps_only_if c msg m : keeps fine m (λ _, True) → keeps fine (only_if (W:=W) c msg m) (λ _, True).
Proof. intros Hm x Hx. unfold only_if. destruct (c x.2); [by apply Hm|done]. Qed.

Lemma keeps_input h i : input_ok i → keeps fine (_ ← handle h i; after_input uuid) (λ _, True).
Proof. intros Hi. eapply keeps_bind; [by apply keeps_handle|]. intros _ _. apply keeps_after_input. Qed.

Lemma keeps_save_state cid state : keeps good (save_state (W:=W) cid state) (λ _, True).
Proof.
  intros st Hst. unfold save_state, get_store, mbind, SE_bind, GetClientSession.
  destruct (st_sessions (store_of st) !! cid) as [row|] eqn:E; [|done]. split; [|done]. unfold good. cbn.
  apply store_save_state; [|exact Hst]. by rewrite (so_keyed _ _ _ Hst _ _ E).
Qed.

Lemma keeps_queue : keeps fine (queue_completion sha256_hex uuid) (λ _, True).
Proof.
  intros [st s] Hx. unfold queue_completion. apply (keeps_on_engine _ (λ _, True)); [|done].
  eapply spec_bind with (Q := λ id st, good st ∧ (∃ k, (k < ea_uuids st)%nat ∧ id = uuid k) ∧ st_completions (store_of st) !! id = None).
  { intros st1 Hst1. split; [exact (proj1 (keeps_NewString st1 Hst1))|]. split; [exists (ea_uuids st1); split; [cbn; lia|done]|].
    apply eq_None_not_Some. intros Hex. destruct (so_completions _ _ _ Hst1 _ Hex) as (k & Hk & E). apply (inj uuid) in E. lia. }
  intros id. cbn beta zeta. eapply spec_bind with (Q := λ _ st, good st).
  { intros st1 (Hst1 & Hid & Hnone). destruct (sk_row _ (proj2 Hx)) as (row & Hrow & Hsid). cbn [snd] in Hrow, Hsid.
    destruct (so_rows _ _ _ Hst1 _ _ Hrow) as (row1 & Hrow1 & E1 & _). unfold good. cbn. eapply store_intent; [done|done|exact Hrow1|congruence|exact Hst1]. }
  intros u1. cbn beta. eapply keeps_bind; [by apply keeps_enqueue|]. intros _ _. by apply keeps_ret.
Qed.

Lemma session_completion id failed st s : session_ok s → session_ok (completion_outcome id failed st s).
Proof.
  intros Hs. unfold completion_outcome. cbv zeta. destruct failed; [by eapply session_same; [..|exact Hs]|].
  destruct (GetCompletion id st) as [c|]; [|by eapply session_same; [..|exact Hs]].
  destruct (ci_Acked c); by eapply session_same; [..|exact Hs].
Qed.

Local Abbreviation Complete := (Complete range_tasks digestManifest sha256_hex unmarshal uuid constraint_text fuel deviceCaps opts).
Local Abbreviation SubmitResponse := (SubmitResponse range_tasks uuid opts).

Lemma keeps_Complete h : keeps fine (Complete h) (λ _, True).
Proof.
  intros x Hx. unfold Engine.Complete. destruct (s_completed x.2); [done|]. revert x Hx.
  eapply keeps_bind; [apply keeps_drain|]. intros _ _. eapply keeps_bind; [eapply keeps_ignore, keeps_verify|]. intros _ _.
  eapply keeps_bind; [apply keeps_get|]. intros y _. destruct (negb _); [apply keeps_fail|].
  eapply keeps_bind; [apply keeps_queue|]. intros id _. eapply keeps_bind.
  { apply keeps_set_session. intros s Hs. by eapply session_same; [..|exact Hs]. }
  intros _ _. eapply keeps_bind.
  { apply (keeps_on_engine _ (λ _, True)). eapply keeps_bind; [apply keeps_save_state|]. intros _ _. apply keeps_on_store.
    intros now n s Hs. by apply store_runner_gone. }
  intros _ _. eapply keeps_bind; [apply keeps_on_engine, keeps_flush|]. intros failed _.
  eapply keeps_bind; [apply keeps_get|]. intros z _. apply keeps_set_session. intros s Hs. by apply session_completion.
Qed.

Lemma keeps_SubmitResponse h task body : keeps fine (SubmitResponse h task body) (λ _, True).
Proof.
  unfold Engine.SubmitResponse. apply keeps_unless. cbv zeta. eapply keeps_bind with (Q := λ _, True).
  { case_bool_decide; [apply keeps_fail|by apply keeps_ret]. }
  intros _ _. eapply keeps_bind; [apply keeps_get|]. intros x _. eapply keeps_bind with (Q := λ _, True); [by apply keeps_of|]. intros _ _.
  eapply keeps_bind; [apply keeps_on_engine, keeps_NewString|]. intros id _. eapply keeps_bind.
  { apply (keeps_on_engine _ (λ _, True)), keeps_on_store. intros now n s Hs. by eapply store_same; [..|exact Hs]. }
  intros _ _. eapply keeps_bind.
  { apply (keeps_on_engine _ (λ _, True)), keeps_on_store. intros now n s Hs. by eapply store_same; [..|exact Hs]. }
  intros _ _. eapply keeps_bind with (Q := λ _, True).
  { destruct (s_runner x.2); [|by apply keeps_ret]. eapply keeps_bind with (Q := λ _, True).
    - apply keeps_mod; [|done]. intros [st s] [Hst Hs]. split; [done|]. apply session_runner; [done|]. apply mark_runner_ok, Hs.
    - intros _ _. eapply keeps_bind; [apply keeps_apply_events|]. intros _ _. eapply keeps_ignore, keeps_persist. }
  intros _ _. destruct (_ && _); [by apply keeps_ret|]. apply keeps_set_session, session_message.
Qed.

Lemma keeps_Pause : keeps fine (Pause (W:=W)) (λ _, True).
Proof.
  unfold Pause. eapply keeps_bind; [apply keeps_set_session; intros s Hs; by eapply session_same; [..|exact Hs]|]. intros _ _.
  eapply keeps_bind; [eapply keeps_ignore, keeps_persist|]. intros _ _. eapply keeps_bind; [apply keeps_get|]. intros x _ [st s] [Hst Hs].
  cbn [fst snd] in *. unfold on_engine, get_store, GetClientSession, mbind, SE_bind, se_of. cbn [fst snd].
  destruct (st_sessions (store_of st) !! s_clientSessionID x.2) as [row|] eqn:E; [|by split]. split; [|done]. split; [|done]. unfold good. cbn.
  apply store_save_state; [|exact Hst]. by rewrite (so_keyed _ _ _ Hst _ _ E).
Qed.

(** What can be asked of an open session. *)
Inductive call := CallRunLine (line : string) | CallTypeRune (r : Z) | CallTypeBackspace | CallVerify | CallComplete | CallPause | CallClose
| CallSubmitResponse (task body : string) | CallSaveDraft (task body : string) | CallWriteTerminal (data : string) | CallDrainIdle
| CallCloseTerminal | CallTutorHint (hint : string).

Definition run_call (h : host) (c : call) : SE (estate W * Session) unit :=
  match c with
  | CallRunLine line => RunLine range_tasks digestManifest sha256_hex uuid h line
  | CallTypeRune r => TypeRune range_tasks digestManifest sha256_hex uuid h r
  | CallTypeBackspace => TypeBackspace range_tasks digestManifest sha256_hex uuid h
  | CallVerify => SessionVerify range_tasks digestManifest sha256_hex unmarshal uuid h
  | CallComplete => Complete h
  | CallPause => Pause
  | CallClose => SessionClose
  | CallSubmitResponse task body => SubmitResponse h task body
  | CallSaveDraft task body => SessionSaveDraft task body
  | CallWriteTerminal data => WriteTerminal h data
  | CallDrainIdle => drainObserveAfterIdle range_tasks digestManifest sha256_hex unmarshal uuid h
  | CallCloseTerminal => CloseTerminal
  | CallTutorHint hint => SetTutorHint hint
  end.

Lemma keeps_call h c : keeps fine (run_call h c) (λ _, True).
Proof.
  destruct c; cbn [run_call].
  - apply keeps_unless, keeps_only_if. by apply keeps_input.
  - apply keeps_unless, keeps_only_if. by apply keeps_input.
  - apply keeps_unless, keeps_only_if. by apply keeps_input.
  - eapply keeps_bind; [apply keeps_drain|]. intros _ _. eapply keeps_bind; [apply keeps_verify|]. intros _ _. apply keeps_after_input.
  - apply keeps_Complete.
  - apply keeps_Pause.
  - apply keeps_set_session. intros s Hs. cbv zeta. set (s1 := match s_reader (ses_pty false s) with Some _ => _ | None => _ end).
    assert (session_ok s1) as Hs1.
    { destruct Hs as [J1 J2 J3 J4 J5]. subst s1. cbn [ses_pty s_reader]. destruct (s_reader s) eqn:Er; split; try done. cbn. by rewrite Er. }
    apply session_runner; [done|]. apply close_ok, Hs1.
  - apply keeps_SubmitResponse.
  - intros [st s] [Hst Hs]. split; [|done]. split; [|done]. by eapply store_same; [..|exact Hst].
  - apply keeps_unless, keeps_only_if, keeps_only_if. intros [st s] [Hst Hs]. destruct (ho_write h); [by split|]. split; [|done]. split; [done|].
    cbn [snd]. destruct (ends_line _); by eapply session_same; [..|exact Hs].
  - intros [st s] [Hst Hs]. unfold drainObserveAfterIdle. destruct (_ || _); [by split|]. case_bool_decide; [by split|].
    assert (fine (st, ses_pending false s)) as Hf by (split; [done|by eapply session_same; [..|exact Hs]]). revert Hf.
    generalize (st, ses_pending false s). eapply keeps_bind; [apply keeps_drain|]. intros _ _. eapply keeps_bind; [apply keeps_apply_events|].
    intros _ _. eapply keeps_ignore, keeps_persist.
  - apply keeps_set_session. intros s Hs. by eapply session_same; [..|exact Hs].
  - apply keeps_set_session. intros s Hs. by eapply session_same; [..|exact Hs].
Qed.

(** *** Opening a session *)

Definition host_ok (h : host) : Prop := ∀ p, ho_tempdir h = Ok p → IsAbs p = true.

Local Abbreviation open_runner := (open_runner range_tasks digestManifest opts).
Local Abbreviation restore_runner := (restore_runner range_tasks digestManifest opts).
Local Abbreviation resumeSession := (resumeSession range_tasks digestManifest constraint_text opts).
Local Abbreviation openFreshSession := (openFreshSession range_tasks digestManifest uuid constraint_text deviceCaps opts).
Local Abbreviation OpenSession := (OpenSession range_tasks digestManifest uuid constraint_text fuel deviceCaps opts).

Lemma path_Join_abs root name : IsAbs root = true → IsAbs (path_Join root name) = true.
Proof.
  intros Hr. unfold path_Join. rewrite bool_decide_eq_false_2 by (by intros ->). case_bool_decide; rewrite IsAbs_Clean; [done|].
  unfold IsAbs in *. apply HasPrefix_iff in Hr as [rest ->]. rewrite append_assoc. apply HasPrefix_app.
Qed.

Lemma keeps_profile kind content resume : keeps good (set_profile (W:=W) opts kind content resume) (λ _, True).
Proof. by apply keeps_mod. Qed.

Lemma keeps_open_runner h item content kind :
  host_ok h → keeps good (open_runner h item content kind) (λ x, IsAbs x.1 = true ∧ runner_ok content x.1 x.2 ∧ runner_kind x.2 = kind).
Proof.
  intros Hh. unfold Engine.open_runner. eapply keeps_bind with (Q := λ root, IsAbs root = true).
  { case_bool_decide as E.
    - apply keeps_of. intros p Hp%text_err_Ok. by apply Hh.
    - apply keeps_ret. by destruct Hroot. }
  intros root Hr. eapply keeps_bind; [apply keeps_profile|]. intros _ _. cbv zeta. set (ws := path_Join root _).
  assert (IsAbs ws = true) as Hws by (by apply path_Join_abs). clearbody ws.
  eapply keeps_bind with (Q := λ _, True); [destruct (ho_os h _); [apply keeps_fail|by apply keeps_ret]|]. intros _ _.
  eapply keeps_bind with (Q := λ r0, new_runner kind = Ok r0); [by apply keeps_of|]. intros r0 Hr0.
  eapply keeps_bind; [apply keeps_get|]. intros st _. eapply keeps_bind with (Q := λ r, runner_ok content ws r ∧ runner_kind r = kind).
  { apply keeps_of. intros r Ho. destruct (open_ok h (now_of st) ws content item false kind r0 r) as (? & ? & _); done. }
  intros r Ho. by apply keeps_ret.
Qed.

(** An identifier that nothing in the store has yet. *)
Definition fresh_id (id : string) (st : estate W) : Prop := ∃ k, id = uuid k ∧ (k < ea_uuids st)%nat ∧ store_ok k (store_of st).

(** A session row without events. *)
Definition new_row (id : string) (st : estate W) : Prop :=
  store_but (λ c, c = id) (ea_uuids st) (store_of st) ∧
  ∃ x, st_sessions (store_of st) !! id = Some x ∧ ss_NextSequence x = 0%Z ∧ log id (store_of st) = [].

Lemma fresh_good id st : fresh_id id st → good st.
Proof. intros (k & _ & Hk & Hs). apply (store_but_more _ k); [lia|exact Hs]. Qed.
Lemma new_row_fails id st : new_row id st → store_but (λ c, c = id) (ea_uuids st) (store_of st).
Proof. by intros [? _]. Qed.

Lemma spec_NewString : spec good (NewString uuid) (λ id st, fresh_id id st) good.
Proof. intros st Hst. exists (ea_uuids st). split_and!; [done|cbn; lia|exact Hst]. Qed.

Lemma keeps_check h content id : keeps (fresh_id id) (check_capabilities (W:=W) opts h content) (λ _, True).
Proof. unfold check_capabilities. destruct (RejectIncompatibleRevision _ _); [apply keeps_fail|by apply keeps_ret]. Qed.

Lemma keeps_start_online h id cid aid : keeps (fresh_id id) (start_online constraint_text deviceCaps opts h cid aid) (λ _, True).
Proof.
  unfold start_online. destruct (_ || _); [by apply keeps_ret|]. eapply keeps_bind with (Q := λ _, True); [by intros st Hst|]. intros tok _.
  eapply keeps_bind with (Q := λ _, True); [case_bool_decide; [by apply keeps_ret|by apply keeps_mod]|]. intros _ _.
  eapply keeps_bind with (Q := λ _, True).
  - eapply keeps_weaken with (Q := λ r, ∀ a, r = Ok a → True); [|done]. apply keeps_try. intros st Hst. unfold on_client, ClientSync.call.
    case_bool_decide; [done|]. destruct (srv_StartSession _ _ _ _ _ _) as [w [a|e]]; done.
  - intros [a|e] _; [by apply keeps_ret|]. destruct (isIncompatibleRevisionError _ e); [apply keeps_fail|by apply keeps_ret].
Qed.

Lemma spec_save_new id row :
  IsAbs (ss_WorkspacePath row) = true → ss_ClientSessionID row = id → ss_NextSequence row = 0%Z →
  spec (fresh_id id) (on_store (λ now, SaveSession now row))
    (λ _ st, new_row id st ∧ ∃ x, st_sessions (store_of st) !! id = Some x ∧ ss_ServerSessionID x = ss_ServerSessionID row) good.
Proof.
  intros Habs <- Hn st (k & Hid & Hk & Hs). unfold on_store, se_mod.
  assert (st_sessions (store_of st) !! ss_ClientSessionID row = None) as Hnone.
  { apply eq_None_not_Some. intros Hex. destruct (so_ids _ _ _ Hs _ Hex) as (k' & Hk' & E). rewrite Hid in E. apply (inj uuid) in E. lia. }
  assert (log (ss_ClientSessionID row) (store_of st) = []) as Hlog.
  { unfold log. rewrite filter_none; [done|]. apply Forall_forall. intros x Hx E. destruct (so_events _ _ _ Hs x Hx) as [[y Hy] _]. rewrite E, Hnone in Hy. done. }
  assert (∀ now, rows_kept (store_of st) (SaveSession now row (store_of st))) as Hrows.
  { intros now c y Hy. cbn. rewrite lookup_insert_ne by (by intros <-; rewrite Hnone in Hy). by exists y. }
  split; [split|].
  - destruct Hs as [J1 J2 J3 J4 J5 J6 J7 J8 J9 J10]. split; unfold keyed_csessions; cbn.
    + intros c y [[<- <-]|[_ Hy]]%lookup_insert_Some; [done|by apply J1].
    + intros c y [[<- <-]|[_ Hy]]%lookup_insert_Some; [done|by eapply J2].
    + done.
    + intros c [Hc|[_ Hc]]%lookup_insert_is_Some; [exists k; split; [done|congruence]|]. destruct (J4 c Hc) as (k' & Hk' & ->). exists k'. split; [lia|done].
    + intros x Hx. destruct (J5 x Hx) as (Ha & k' & Hk' & Hy). split; [|exists k'; split; [lia|done]].
      apply lookup_insert_is_Some. destruct (decide (ss_ClientSessionID row = x.1)); [by left|by right].
    + intros c y [[<- <-]|[_ Hy]]%lookup_insert_Some Hc; [by destruct Hc|]. exact (J6 c y Hy (λ F, F)).
    + intros c (k' & Hk' & ->)%J7. exists k'. split; [lia|done].
    + done.
    + by eapply (bound_rows (store_of st)).
    + by etrans.
  - eexists. split_and!; [by apply lookup_insert_eq|done|exact Hlog].
  - eexists. split; [by apply lookup_insert_eq|done].
Qed.

Lemma spec_start_event id payload : spec (new_row id) (enqueue id EventSessionStarted payload) (λ _ st, good st) good.
Proof.
  intros st (Hs & x & Hx & Hn & Hl). unfold Engine.enqueue, NewString, mbind, SE_bind, se_get, se_mod.
  change (store_of (mkEState (ea_client st) (ea_status st) (ea_profile st) (S (ea_uuids st)))) with (store_of st).
  change (now_of (mkEState (ea_client st) (ea_status st) (ea_profile st) (S (ea_uuids st)))) with (now_of st).
  destruct (EnqueueEvent_run (λ c, c = id) (ea_uuids st) (store_of st) (now_of st) id x (uuid (ea_uuids st)) EventSessionStarted (now_of st)
    (Some payload) (ea_uuids st) Hs Hx ltac:(lia) eq_refl ltac:(lia)) as (ev & -> & Hid & Hty & Hseq).
  unfold mret, SE_ret, good. cbn. eapply put_event_first; [exact Hs|done|done|done| |exact Hid|done|by rewrite Hseq]. lia.
Qed.

(** A row of the store and the runner saved for it. *)
Definition resumable (n : nat) (row : ClientSession) (rs : RunnerState) (s : Store) : Prop :=
  store_ok n s ∧ st_sessions s !! ss_ClientSessionID row = Some row ∧ saved_ok rs.

Lemma find_resumable_row n aid s row rs :
  store_ok n s → find_resumable aid s = Some (row, rs) →
  st_sessions s !! ss_ClientSessionID row = Some row ∧ st_runner s !! ss_ClientSessionID row = Some rs ∧ ss_AssignmentID row = aid.
Proof.
  intros Hs. unfold find_resumable, FindOpenSessionByAssignment, GetRunnerState.
  destruct (order_by _ _) as [|x l] eqn:El; [done|]. destruct (st_runner s !! _) as [y|] eqn:Ey; [|done]. intros [= <- <-].
  assert (x ∈ select (λ x, bool_decide (ss_AssignmentID x = aid) && negb (one_of (ss_State x) ["completed"; "cancelled"])) (st_sessions s)) as Hx.
  { eapply elem_of_order_by. rewrite El. left. }
  apply elem_of_select in Hx as [[k Hk] [Ha _]%andb_true_iff]. pose proof (so_keyed _ _ _ Hs _ _ Hk) as <-.
  apply bool_decide_eq_true in Ha. done.
Qed.

Lemma find_resumable_spec n aid s row rs : store_ok n s → find_resumable aid s = Some (row, rs) → resumable n row rs s.
Proof. intros Hs Hf. destruct (find_resumable_row n aid s row rs Hs Hf) as (Hrow & Hr & _). split_and!; [done|done|by eapply so_saved]. Qed.

Lemma keeps_restore_runner h item content kind row rs (P : estate W → Prop) :
  (∀ p st, P st → P (mkEState (ea_client st) (ea_status st) p (ea_uuids st))) → IsAbs (ss_WorkspacePath row) = true → saved_ok rs →
  keeps P (restore_runner h item content kind row rs) (λ r, runner_ok content (ss_WorkspacePath row) r ∧ runner_kind r = kind).
Proof.
  intros HP Hws Hrs. unfold Engine.restore_runner. eapply keeps_bind with (Q := λ _, rn_Kind rs = "" ∨ rn_Kind rs = kind).
  { destruct (negb _ && _) eqn:E; [apply keeps_fail|]. apply keeps_ret. apply andb_false_iff in E as [E|E];
      apply negb_false_iff, bool_decide_eq_true in E; auto. }
  intros _ Hkind. cbv zeta. eapply keeps_bind with (Q := λ _, True); [case_bool_decide; [apply keeps_fail|by apply keeps_ret]|]. intros _ _.
  eapply keeps_bind with (Q := λ _, True); [destruct (os_Stat _ _); [by apply keeps_ret|apply keeps_fail]|]. intros _ _.
  eapply keeps_bind with (Q := λ _, True); [apply keeps_mod; [intros st Hst; by apply HP|done]|]. intros _ _.
  eapply keeps_bind with (Q := λ r0, new_runner kind = Ok r0); [by apply keeps_of|]. intros r0 Hr0.
  eapply keeps_bind; [apply keeps_get|]. intros st _.
  eapply keeps_bind with (Q := λ r, open_r h (now_of st) (open_opts (ss_WorkspacePath row) content item true) r0 = Ok r); [by apply keeps_of|].
  intros r (Hr & Hk & Hsh)%(open_ok _ _ _ _ _ _ _ _ _ Hws Hr0). apply keeps_of. intros r' Hr'. by eapply restore_ok.
Qed.

Lemma keeps_load_work id : keeps good (load_work constraint_text fuel deviceCaps opts id) (λ _, True).
Proof.
  unfold load_work. eapply keeps_bind; [apply keeps_get_store|]. intros r _. eapply keeps_bind with (Q := λ _, True).
  - destruct r as [x|e]; [by apply keeps_ret|]. destruct (_ && _); [|by apply keeps_ret]. eapply keeps_bind; [apply keeps_eng_SyncOnce|].
    intros res _. destruct (sy_Err res); [by apply keeps_ret|apply keeps_get_store].
  - intros [x|e] _; [by apply keeps_ret|apply keeps_fail].
Qed.

Lemma keeps_sync_first : keeps good (sync_first constraint_text fuel deviceCaps opts) (λ _, True).
Proof.
  unfold sync_first. destruct (_ || _); [by apply keeps_ret|]. eapply keeps_bind; [apply keeps_eng_SyncOnce|]. intros res _.
  case_bool_decide; [apply keeps_fail|by apply keeps_ret].
Qed.

(** A piece that keeps a property of both keeps the first half on an error. *)
Lemma spec_error {A} (m : SE (estate W * Session) A) Q : keeps fine m (λ _, True) → Q = (λ (_ : A) x, fine x) → spec fine m Q (λ x, good x.1).
Proof. intros Hm ->. eapply spec_conseq; [exact Hm|done|by intros ? ? []|by intros ? []]. Qed.

(** The part of opening that runs on the new session. *)
Lemma fresh_session h item content kind id s0 :
  session_ok s0 →
  spec (λ x, new_row id x.1 ∧ x.2 = s0) (
    _ ← restore_responses h;
    _ ← on_engine (opening_events uuid item content kind id);
    _ ← attach_terminal h kind "pty unavailable; command box only: ";
    _ ← se_ignore (verify h);
    se_ignore persistRunnerState) (λ _ x, fine x) (λ x, good x.1).
Proof.
  intros Hs0. eapply spec_bind with (Q := λ _ x, new_row id x.1 ∧ session_ok x.2).
  { intros [st s] [Hst Hs]. cbn in Hst, Hs. subst s. assert (new_row id st ∧ session_ok s0) as Hpre by done.
    pose proof (keeps_restore_responses (new_row id) h (st, s0) Hpre) as Hrr. revert Hrr. unfold restoreSubmittedResponses. by intros [? _]. }
  intros u3. cbn beta. eapply spec_bind with (Q := λ _ x, fine x).
  { intros [st s] [Hst Hs]. cbn in Hst, Hs. unfold on_engine, opening_events, mbind, SE_bind. cbn [fst snd].
    pose proof (spec_start_event id (started_payload item kind) st Hst) as He. destruct (Engine.enqueue _ _ _ _ _) as [st1 [ev|e]]; [|done].
    assert (keeps good (se_each (λ t, _ ← enqueue id EventTaskViewed (viewed_payload t); mret tt) (ac_Tasks content)) (λ _, True)) as Hall.
    { apply keeps_each. intros t _. eapply keeps_bind; [by apply keeps_enqueue|]. intros _ _. by apply keeps_ret. }
    specialize (Hall st1 He). destruct (se_each _ _ st1) as [st2 [[]|e]]; [by destruct Hall|done]. }
  intros u4. cbn beta. eapply spec_bind; [apply spec_error; [apply keeps_attach|done]|]. intros u5. cbn beta.
  eapply spec_bind; [apply spec_error; [eapply keeps_ignore, keeps_verify|done]|]. intros u6. cbn beta.
  apply spec_error; [eapply keeps_ignore, keeps_persist|done].
Qed.

Lemma resumed_session h kind s0 :
  session_ok s0 →
  spec (λ x, good x.1 ∧ x.2 = s0) (
    _ ← restore_responses h;
    _ ← attach_terminal h kind "resumed; pty unavailable: ";
    se_ignore (verify h)) (λ _ x, fine x) (λ x, good x.1).
Proof.
  intros Hs0. eapply spec_bind with (Q := λ _ x, fine x).
  { intros [st s] [Hst Hs]. cbn [fst snd] in *. subst s. assert (fine (st, s0)) as Hpre by done.
    pose proof (keeps_restore_responses good h (st, s0) Hpre) as Hrr. revert Hrr. unfold restoreSubmittedResponses. by intros [? _]. }
  intros u3. cbn beta. eapply spec_bind; [apply spec_error; [apply keeps_attach|done]|]. intros u4. cbn beta.
  apply spec_error; [eapply keeps_ignore, keeps_verify|done].
Qed.

(** *** Scripted runs *)

Local Abbreviation RunLine := (RunLine range_tasks digestManifest sha256_hex uuid).
Local Abbreviation play_script := (play_script range_tasks digestManifest sha256_hex uuid constraint_text).
Local Abbreviation finish_script := (finish_script range_tasks digestManifest sha256_hex unmarshal uuid constraint_text fuel deviceCaps opts).
Local Abbreviation run_session := (run_session range_tasks digestManifest sha256_hex unmarshal uuid constraint_text fuel deviceCaps opts).

Lemma keeps_session_status f : keeps fine (on_engine (status f)) (λ _, True).
Proof. apply keeps_on_engine, keeps_status. Qed.

Lemma keeps_RunLine h line : keeps fine (RunLine h line) (λ _, True).
Proof. apply keeps_unless, keeps_only_if. by apply keeps_input. Qed.

Lemma keeps_scripted h1 h2 sc : keeps fine (run_scripted range_tasks digestManifest sha256_hex uuid constraint_text h1 h2 sc) (λ _, True).
Proof.
  unfold run_scripted. eapply keeps_bind with (Q := λ _, True); [case_bool_decide; [by apply keeps_ret|apply keeps_RunLine]|]. intros _ _.
  eapply keeps_bind; [apply keeps_try, keeps_RunLine|]. intros r _.
  eapply keeps_bind with (Q := λ _, True); [|intros _ _; apply keeps_session_status].
  destruct r; [by apply keeps_ret|]. destruct (Contains _ _); [apply keeps_fail|by apply keeps_ret].
Qed.

Lemma keeps_play ho slug commands : keeps fine (play_script ho slug commands) (λ _, True).
Proof.
  unfold Engine.play_script. eapply keeps_bind; [apply keeps_get|]. intros x _. destruct (is_typing x.2).
  - eapply keeps_bind; [apply keeps_session_status|]. intros _ _. destruct (ac_Typing _) as [t|]; [|apply keeps_fail].
    apply keeps_each. intros p _. apply keeps_each. intros r _. apply keeps_unless, keeps_only_if. by apply keeps_input.
  - case_bool_decide; [|apply keeps_fail]. eapply keeps_bind; [apply keeps_session_status|]. intros _ _. generalize 1.
    induction commands as [|sc commands IH]; intros i; [by apply keeps_ret|]. cbn [run_script].
    eapply keeps_bind; [apply keeps_scripted|]. intros _ _. apply IH.
Qed.

Lemma keeps_finish h : keeps fine (finish_script h) (λ _, True).
Proof.
  unfold Engine.finish_script. eapply keeps_bind; [apply keeps_session_status|]. intros _ _. eapply keeps_bind; [apply (keeps_call h CallVerify)|].
  intros _ _. eapply keeps_bind; [apply keeps_get|]. intros y _. cbv zeta. eapply keeps_bind; [apply keeps_session_status|]. intros _ _.
  destruct (negb _).
  - eapply keeps_bind; [apply keeps_session_status|]. intros _ _.
    eapply keeps_bind; [apply keeps_on_engine; eapply keeps_ignore, keeps_flush|]. intros _ _. apply keeps_fail.
  - eapply keeps_bind; [apply keeps_session_status|]. intros _ _. eapply keeps_bind; [apply keeps_Complete|]. intros _ _.
    eapply keeps_bind; [apply keeps_get|]. intros z _. apply keeps_session_status.
Qed.

Lemma keeps_run_session ho slug commands : keeps fine (run_session ho slug commands) (λ _, True).
Proof.
  unfold Engine.run_session. eapply keeps_bind; [apply keeps_get|]. intros x _. eapply keeps_bind; [apply keeps_session_status|]. intros _ _.
  eapply keeps_bind; [apply keeps_play|]. intros _ _. apply keeps_finish.
Qed.

End invariant.

(** ** Opening a session *)

Section opening.
Context `{!GoText, !GoRegexp, !FloatText, !DurableJson, !WrapJson, !EngineJson, !EngineJsonLaws} {W : Type} `{!Server W, !SessionServer W}.
Context (range_tasks : gmap Z Z → list Z) (digestManifest : list WorkspaceManifestEntry → bool → string).
Context (sha256_hex : string → string) (unmarshal : string → option rawEvent) (uuid : nat → string) `{!Inj (=) (=) uuid}.
Context (constraint_text : string) (fuel : nat) (deviceCaps : option DeviceCapabilities) (opts : Options).
Context (Hhook : hook_lines unmarshal) (Hroot : op_WorkspaceRoot opts = "" ∨ IsAbs (op_WorkspaceRoot opts) = true).
#[local] Set Default Proof Using "Type*".

(** A call that begins at a store with the rows of an earlier one. *)
Lemma store_from K K' D n s : rows_kept K K' → store_but uuid K' D n s → store_but uuid K D n s.
Proof. intros Hk [J1 J2 J3 J4 J5 J6 J7 J8 J9 J10]. split; try done. by etrans. Qed.
Lemma store_now K D n s : store_but uuid K D n s → store_but uuid s D n s.
Proof. intros [J1 J2 J3 J4 J5 J6 J7 J8 J9 J10]. by split. Qed.
Lemma session_later K K' s : rows_kept K K' → session_ok range_tasks K s → session_ok range_tasks K' s.
Proof.
  intros Hk [J1 J2 J3 J4 (row & Hrow & E)]. split; try done. destruct (Hk _ _ Hrow) as (row' & Hrow' & F & _). exists row'. by rewrite F.
Qed.

Local Abbreviation good := (good (W:=W) uuid).
Local Abbreviation session_ok := (session_ok range_tasks).
Local Abbreviation resumeSession := (resumeSession (W:=W) range_tasks digestManifest constraint_text opts).
Local Abbreviation openFreshSession := (openFreshSession range_tasks digestManifest uuid constraint_text deviceCaps opts).
Local Abbreviation OpenSession := (OpenSession range_tasks digestManifest uuid constraint_text fuel deviceCaps opts).
Local Abbreviation RunAssignment := (RunAssignment range_tasks digestManifest sha256_hex unmarshal uuid constraint_text fuel deviceCaps opts).

(** A call that opens a session. *)
Definition opens (K : Store) (P : estate W → Prop) (m : SE (estate W) Session) : Prop :=
  spec P m (λ s st, good K st ∧ session_ok (store_of st) s) (good K).

Lemma run_from {A} K s st (m : SE (estate W * Session) A) :
  rows_kept K (store_of st) →
  match m (st, s) with (x, Ok _) => fine range_tasks uuid (store_of st) x | (x, Err _) => good (store_of st) x.1 end →
  match with_session s m st with (st', Ok s') => good K st' ∧ session_ok (store_of st') s' | (st', Err _) => good K st' end.
Proof.
  intros Hk. unfold with_session. destruct (m (st, s)) as [[st' s'] [a|e]].
  - intros [Hst Hs]. split; [by eapply store_from|]. eapply session_later; [exact (so_rows _ _ _ _ _ Hst)|exact Hs].
  - intros Hst. by eapply store_from.
Qed.

Lemma openFresh_spec K h item content kind : host_ok h → opens K (good K) (openFreshSession h item content kind).
Proof.
  intros Hh. unfold opens, Engine.openFreshSession.
  eapply spec_bind; [by apply (keeps_open_runner range_tasks digestManifest uuid opts Hroot K h item content kind)|].
  intros [ws r]. cbn [fst snd]. eapply spec_bind with (Q := λ id st, fresh_id uuid K id st ∧ IsAbs ws = true ∧ runner_ok range_tasks content ws r ∧ runner_kind r = kind).
  { intros st [Hst Hr]. split; [|done]. exact (spec_NewString uuid K st Hst). }
  intros id. cbn beta.
  assert (∀ A (m : SE (estate W) A) (R : Prop), keeps (fresh_id uuid K id) m (λ _, True) →
    spec (λ st, fresh_id uuid K id st ∧ R) m (λ _ st, fresh_id uuid K id st ∧ R) (good K)) as Hkeep.
  { intros A m R Hm st [Hst HR]. specialize (Hm st Hst). destruct (m st) as [st' [a|e]]; [by destruct Hm|]. by eapply fresh_good. }
  eapply spec_bind; [apply Hkeep, keeps_check; done|]. intros u1. cbn beta. eapply spec_bind; [apply Hkeep, keeps_start_online; done|].
  intros [srv off]. cbn [fst snd]. cbn beta.
  intros st (Hst & Hws & Hr & Hk). set (row := mkClientSession _ _ _ _ _ _ _ _ _ _).
  pose proof (spec_save_new uuid K id row Hws eq_refl eq_refl st Hst) as Hsave. unfold mbind at 1, SE_bind at 1, on_store at 1, se_mod at 1. cbv beta in Hsave.
  set (st1 := put_store _ st) in *. destruct Hsave as [[Hrow Hnew] (x & Hx & Hsrv)]. apply run_from; [exact (so_rows _ _ _ _ _ Hrow)|].
  set (s0 := new_session _ _ _ _ _ _ _ _ _ _).
  assert (session_ok (store_of st1) s0) as Hs0 by (split; try done; by exists x).
  exact (fresh_session range_tasks uuid constraint_text opts Hroot (store_of st1) h item content kind id s0 Hs0 (st1, s0)
    (conj (conj (store_now _ _ _ _ Hrow) Hnew) eq_refl)).
Qed.

Lemma resume_spec K h item content kind row rs :
  opens K (λ st, resumable uuid K (ea_uuids st) row rs (store_of st)) (resumeSession h item content kind row rs).
Proof.
  intros st0 Hst0. pose proof Hst0 as (Hs & Hrow & Hrs). pose proof (so_abs _ _ _ _ _ Hs _ _ Hrow) as Hws. revert st0 Hst0 Hs Hrow.
  cut (opens K (λ st, resumable uuid K (ea_uuids st) row rs (store_of st)) (resumeSession h item content kind row rs));
    [intros Hcut st0 Hst0 _ _; by apply Hcut|]. unfold opens, Engine.resumeSession.
  eapply spec_bind.
  { eapply spec_conseq; [apply (keeps_restore_runner range_tasks digestManifest opts Hroot h item content kind row rs
      (λ st, resumable uuid K (ea_uuids st) row rs (store_of st)))| | |]; [done|done|done|done| |by intros ? []]. intros r st Hr. exact Hr. }
  intros r. cbn beta. eapply spec_bind with (Q := λ _ st, resumable uuid K (ea_uuids st) row rs (store_of st) ∧
    runner_ok range_tasks content (ss_WorkspacePath row) r ∧ runner_kind r = kind).
  { unfold check_capabilities. destruct (RejectIncompatibleRevision _ _); [by intros st [[? _] _]|by intros st Hst]. }
  intros u1. cbn beta. intros st [(Hs & Hrow & _) [Hr Hk]]. unfold mbind at 1, SE_bind at 1, on_store at 1, se_mod at 1.
  set (st1 := put_store _ st). assert (good K st1) as Hst1 by (by apply (store_save_state uuid)).
  apply run_from; [exact (so_rows _ _ _ _ _ Hst1)|]. set (s0 := new_session _ _ _ _ _ _ _ _ _ _).
  assert (session_ok (store_of st1) s0) as Hs0 by (split; try done; eexists; split; [by apply lookup_insert_eq|done]).
  exact (resumed_session range_tasks uuid constraint_text opts Hroot (store_of st1) h kind s0 Hs0 (st1, s0) (conj (store_now _ _ _ _ Hst1) eq_refl)).
Qed.

Lemma keeps_OpenSession K h id : host_ok h → opens K (good K) (OpenSession h id).
Proof.
  intros Hh. assert (∀ A (m : SE (estate W) A) (Q : A → Prop), keeps (good K) m Q → spec (good K) m (λ _ st, good K st) (good K)) as Hrun.
  { intros A m Q Hm. eapply spec_conseq; [exact Hm|done|by intros ? ? []|done]. }
  unfold opens, Engine.OpenSession. eapply spec_bind; [by eapply Hrun, keeps_sync_first|]. intros u1. cbn beta.
  eapply spec_bind; [by eapply Hrun, keeps_load_work|]. intros item. cbn beta.
  eapply spec_bind; [eapply Hrun, (keeps_of _ _ (λ _, True)); done|]. intros content. cbn beta.
  eapply spec_bind; [eapply Hrun, (keeps_of _ _ (λ _, True)); done|]. intros kind. cbn beta.
  eapply spec_bind; [eapply Hrun with (Q := λ _, True); destruct (Supports kind); [by apply keeps_ret|apply keeps_fail]|]. intros u2. cbn beta.
  eapply spec_bind with (Q := λ found st, good K st ∧ ∀ row rs, found = Some (row, rs) → resumable uuid K (ea_uuids st) row rs (store_of st)).
  { intros st Hst. split; [done|]. intros row rs. by apply (find_resumable_spec uuid). }
  intros [[row rs]|]; cycle 1. { intros st [Hst _]. by apply openFresh_spec. }
  intros st [_ Hres]. specialize (Hres row rs eq_refl). pose proof (resume_spec K h item content kind row rs st Hres) as Hr.
  unfold mbind at 1, SE_bind at 1, se_try. destruct (resumeSession h item content kind row rs st) as [st' [s|e]]; [exact Hr|].
  exact (openFresh_spec K h item content kind Hh (put_status _ st') Hr).
Qed.

Lemma keeps_RunAssignment K ho id commands : host_ok (ho 0) → keeps (good K) (RunAssignment ho id commands) (λ _, True).
Proof.
  intros Hh. unfold Engine.RunAssignment. eapply keeps_bind; [by apply keeps_status|]. intros _ _. eapply keeps_bind with (Q := λ _, True).
  { destruct (_ || _); [by apply keeps_ret|]. eapply keeps_bind; [by apply keeps_eng_SyncOnce|]. intros res _.
    case_bool_decide; [apply keeps_fail|]. destruct (sy_Err res); [by apply keeps_status|by apply keeps_ret]. }
  intros _ _. eapply keeps_bind; [by apply keeps_load_work|]. intros item _. eapply keeps_bind; [by apply keeps_status|]. intros _ _.
  eapply spec_bind; [by apply keeps_OpenSession|]. intros s. cbn beta. intros st [Hst Hs]. unfold then_close.
  pose proof (keeps_run_session range_tasks digestManifest sha256_hex unmarshal uuid constraint_text fuel deviceCaps opts Hhook Hroot (store_of st) ho
    (la_Slug (wi_Activity item)) commands (st, s) (conj (store_now K _ _ _ Hst) Hs)) as Hrun.
  destruct (run_session _ _ _ _ _ _ _ _ _ _ _ _ _) as [x [a|e]]; [destruct Hrun as [[Hx _] _]; split; [|done]|destruct Hrun as [Hx _]];
    (eapply store_from; [exact (so_rows _ _ _ _ _ Hst)|exact Hx]).
Qed.
End opening.
