(* ===== verification/EngineSystem.v ===== *)
(** * The session engine: the running program

    The engine, its open sessions and the store as a system of steps ([sys_step]), what holds in
    every state it reaches, and what a completion leaves in the queue. *)
From S2P Require Import Prelude GoStrings GoText Paths Utf8 Float64 Contracts ContentJson LmsData LmsDb Responses ActivityDoc Sessions.
From S2P Require Import ContentEncode WorkPage ClientStore ClientSync Mastery Typing Observe TerminalVerify TerminalRunner TerminalSession.
From S2P Require TypingRunner.
From S2P Require Import Engine EngineLogic EngineSafety.
From stdpp Require Import options.
Local Open Scope string_scope.
Local Open Scope list_scope.

Section system.
Context `{!GoText, !GoRegexp, !FloatText, !DurableJson, !WrapJson, !EngineJson, !EngineJsonLaws} {W : Type} `{!Server W, !SessionServer W}.
Context (range_tasks : gmap Z Z → list Z) (digestManifest : list WorkspaceManifestEntry → bool → string).
Context (sha256_hex : string → string) (unmarshal : string → option rawEvent) (uuid : nat → string) `{!Inj (=) (=) uuid}.
Context (constraint_text : string) (fuel : nat).

Local Abbreviation run_call := (run_call range_tasks digestManifest sha256_hex unmarshal uuid constraint_text fuel).
Local Abbreviation OpenSession := (OpenSession range_tasks digestManifest uuid constraint_text fuel).
Local Abbreviation eng_SyncOnce := (eng_SyncOnce constraint_text fuel).

Local Abbreviation RunAssignment := (RunAssignment range_tasks digestManifest sha256_hex unmarshal uuid constraint_text fuel).

(** Options the program is started with: the directory of the workspaces is the default or absolute. *)
Definition options_ok (opts : Options) : Prop := op_WorkspaceRoot opts = "" ∨ IsAbs (op_WorkspaceRoot opts) = true.

(** ** The steps of the program *)

(** The engine and the sessions that are open.  Each step has its own options and capabilities, so that the
    program may be started again with others.  A session is opened; a call is made on one; a pass of the
    sync loop or a whole scripted assignment runs; the device is paired; or something outside the store changes: the server, the
    status line, a session that is dropped, the whole program killed and started again. *)
Inductive sys_step : estate W * list Session → estate W * list Session → Prop :=
| step_open caps opts h id st live st' r : options_ok opts → host_ok h → OpenSession caps opts h id st = (st', r) →
    sys_step (st, live) (st', match r with Ok s => s :: live | Err _ => live end)
| step_call caps opts h c st s st' s' r l1 l2 : options_ok opts → run_call caps opts h c (st, s) = ((st', s'), r) → sys_step (st, l1 ++ s :: l2) (st', l1 ++ s' :: l2)
| step_sync caps opts st live st' r : options_ok opts → eng_SyncOnce caps opts st = (st', r) → sys_step (st, live) (st', live)
| step_script caps opts ho id commands st live st' r : options_ok opts → host_ok (ho 0%nat) → RunAssignment caps opts ho id commands st = (st', r) → sys_step (st, live) (st', live)
| step_paired token st live : sys_step (st, live) (put_store (SetDeviceToken token (store_of st)) st, live)
| step_outside st st' live live' : store_of st' = store_of st → (ea_uuids st ≤ ea_uuids st')%nat → live' ⊆ live → sys_step (st, live) (st', live').

(** Every state the program can be in, from an empty store. *)
Definition sys_reachable (x : estate W * list Session) : Prop := ∃ st, store_of st = empty_store ∧ rtc sys_step (st, []) x.

Definition sys_inv (x : estate W * list Session) : Prop :=
  good uuid (store_of x.1) x.1 ∧ Forall (session_ok range_tasks (store_of x.1)) x.2.

Context (Hhook : hook_lines unmarshal).
#[local] Set Default Proof Using "Type*".

Lemma empty_store_ok n : store_ok uuid empty_store n empty_store.
Proof. split; unfold keyed_csessions, keyed_completions, bound_completions, rows_kept; cbn; try (intros ? [? E]; by rewrite lookup_empty in E); by intros ? ? ?%lookup_empty_Some || (intros ? ?%elem_of_nil). Qed.

Lemma sys_later (st st' : estate W) live : good uuid (store_of st) st' → Forall (session_ok range_tasks (store_of st)) live →
  sys_inv (st', live) ∧ rows_kept (store_of st) (store_of st').
Proof.
  intros Hst Hl. pose proof (so_rows _ _ _ _ _ Hst) as Hk. split; [|done]. split; [by eapply store_now|].
  eapply Forall_impl; [exact Hl|]. intros s. by apply session_later.
Qed.

Lemma sys_step_inv x y : sys_step x y → sys_inv x → sys_inv y ∧ rows_kept (store_of x.1) (store_of y.1).
Proof.
  intros Hstep [Hst Hl].
  destruct Hstep as [deviceCaps opts h id st live st' r Hroot Hh Ho|deviceCaps opts h c st s st' s' r l1 l2 Hroot Hc|deviceCaps opts st live st' r Hroot Hs
                    |deviceCaps opts ho id cs st live st' r Hroot Hh Hs|token st live|st st' live live' Es Hn Hin];
    cbn [fst snd] in *.
  - pose proof (keeps_OpenSession range_tasks digestManifest uuid constraint_text fuel deviceCaps opts Hroot (store_of st) h id Hh st Hst) as Hk.
    rewrite Ho in Hk. destruct r as [s|e]; [destruct Hk as [Hk Hs]|by apply sys_later].
    destruct (sys_later st st' live Hk Hl) as [[? ?] ?]. split; [|done]. split; [done|by constructor].
  - apply Forall_app in Hl as [Hl1 [Hs Hl2]%Forall_cons].
    pose proof (keeps_call range_tasks digestManifest sha256_hex unmarshal uuid constraint_text fuel deviceCaps opts Hhook Hroot (store_of st) h c (st, s)
      (conj Hst Hs)) as Hk.
    rewrite Hc in Hk. assert (fine range_tasks uuid (store_of st) (st', s')) as [Hst' Hs'] by (by destruct r; [destruct Hk|]).
    apply sys_later; [done|]. apply Forall_app. split; [done|]. by constructor.
  - pose proof (keeps_eng_SyncOnce uuid constraint_text fuel deviceCaps opts Hroot (store_of st) st Hst) as Hk. rewrite Hs in Hk.
    apply sys_later; [|done]. by destruct r; [destruct Hk|].
  - pose proof (keeps_RunAssignment range_tasks digestManifest sha256_hex unmarshal uuid constraint_text fuel deviceCaps opts Hhook Hroot (store_of st) ho id cs
      Hh st Hst) as Hk.
    rewrite Hs in Hk. apply sys_later; [|done]. by destruct r; [destruct Hk|].
  - apply sys_later; [|done]. unfold good. cbn. by eapply (store_same uuid); [..|exact Hst].
  - apply sys_later; [|rewrite Forall_forall in *; auto]. unfold good. rewrite Es. by eapply (store_but_more uuid).
Qed.

Lemma sys_steps_inv x y : rtc sys_step x y → sys_inv x → sys_inv y ∧ rows_kept (store_of x.1) (store_of y.1).
Proof.
  induction 1 as [x|x y z Hxy _ IH]; intros Hx; [done|]. destruct (sys_step_inv _ _ Hxy Hx) as [Hy Hk]. destruct (IH Hy) as [Hz Hk'].
  split; [done|by etrans].
Qed.

Lemma reachable_sys_inv x : sys_reachable x → sys_inv x.
Proof.
  intros (st & Es & Hr). eapply sys_steps_inv; [exact Hr|]. split; [|constructor]. unfold good. cbn [fst]. rewrite Es. apply empty_store_ok.
Qed.

(** ** Completing *)

Context (deviceCaps : option DeviceCapabilities) (opts : Options) (Hroot : options_ok opts).

Local Abbreviation Complete := (Complete range_tasks digestManifest sha256_hex unmarshal uuid constraint_text fuel deviceCaps opts).
Local Abbreviation drain := (drainObserveLocked range_tasks digestManifest sha256_hex unmarshal).
Local Abbreviation handle := (handle range_tasks digestManifest sha256_hex).
Local Abbreviation verify := (verify range_tasks).
Local Abbreviation flush := (flush constraint_text fuel deviceCaps opts).

Section completing.
Context (K : Store).

(** The session apart from its runner, its reader and its message. *)
Definition same_session (s s' : Session) : Prop :=
  s_content s' = s_content s ∧ s_clientSessionID s' = s_clientSessionID s ∧ s_completed s' = s_completed s ∧ s_workspace s' = s_workspace s ∧
  s_kind s' = s_kind s ∧ s_digest s' = s_digest s ∧ s_serverSessionID s' = s_serverSessionID s.

Definition still (st : estate W) (s : Session) (x : estate W * Session) : Prop := x.1 = st ∧ same_session s x.2.

Lemma still_handle st s h i : keeps (still st s) (handle h i) (λ _, True).
Proof. intros [st1 s1] Hs. unfold Engine.handle. by destruct (runner_HandleInput _ _ _ _ _ _ _). Qed.

Lemma still_drain st s h : spec (still st s) (drain h) (λ _ x, still st s x) (λ _, False).
Proof.
  intros [st1 s1] Hs. unfold drainObserveLocked. destruct (s_reader s1); [|done]. destruct (Drain _ _ _ _) as [[rd' events] ok].
  destruct (negb ok); [done|]. set (s2 := ses_observe _ _ _). generalize (with_manifest digestManifest h s2). intros f.
  assert (still st s (st1, s2)) as Hs2 by done. revert Hs2. generalize (st1, s2). clear Hs. induction events as [|ev events IH]; intros x Hx; [done|].
  cbn [se_each]. unfold mbind, SE_bind, se_ignore at 1. apply IH. pose proof (still_handle st s h (InputShellResult None (Some (f ev))) x Hx) as Hh.
  destruct (handle h _ x) as [x' [a|e]]; [by destruct Hh|done].
Qed.

(** The checks at the beginning of a completion: the session afterwards; the store is not touched. *)
Definition checked (h : host) (st : estate W) (s : Session) : Session := (se_ignore (verify h) (drain h (st, s)).1).1.2.

Lemma checked_run h st s :
  ∃ s0, drain h (st, s) = ((st, s0), Ok tt) ∧ se_ignore (verify h) (st, s0) = ((st, checked h st s), Ok tt) ∧ same_session s (checked h st s).
Proof.
  pose proof (still_drain st s h (st, s)) as Hd. unfold checked. destruct (drain h (st, s)) as [[st1 s0] [[]|e]]; [|by destruct Hd].
  destruct Hd as [Est Hs]; [by split_and!|]. cbn [fst snd] in *. subst st1. exists s0. split; [done|]. unfold se_ignore, Engine.verify. cbn.
  by destruct (runner_Verify _ _ _ _).
Qed.

(** A completion and its event, as queued in the store. *)
Definition intent (st : estate W) (s : Session) (st' : estate W) : Prop :=
  (∃ c, st_completions (store_of st') !! uuid (ea_uuids st) = Some c ∧ ci_ClientSessionID c = s_clientSessionID s ∧
     cr_Observations (ci_Request c) = runner_Observations (s_runner s)) ∧
  ∃ ev, se_Type ev = EventSessionCompleted ∧ log (s_clientSessionID s) (store_of st') = log (s_clientSessionID s) (store_of st) ++ [ev].

(** The saved runner is gone then. *)
Definition queued (st : estate W) (s : Session) (st' : estate W) : Prop :=
  intent st s st' ∧ st_runner (store_of st') = delete (s_clientSessionID s) (st_runner (store_of st)).

Lemma queued_sync st s st1 st2 : sync_le (store_of st1) (store_of st2) → queued st s st1 → queued st s st2.
Proof.
  intros Hs [[(c & Hc & Hid & Hobs) (ev & Hev & Hl)] Hr]. split; [split|].
  - destruct (sl_ckept _ _ Hs (uuid (ea_uuids st)) ltac:(eauto)) as [c' Hc']. destruct (sl_completion _ _ Hs _ _ Hc') as (c0 & Hc0 & E1 & E2 & _).
    rewrite Hc in Hc0. apply (inj Some) in Hc0; subst c0. exists c'. split_and!; [done|congruence|congruence].
  - exists ev. split; [done|]. by rewrite (log_sync _ _ _ (sl_outbox _ _ Hs)).
  - by rewrite (sl_runner _ _ Hs).
Qed.

Lemma flush_queued st s : spec (λ x, good uuid K x ∧ queued st s x) flush (λ _ x, queued st s x) (queued st s).
Proof.
  assert (∀ f, spec (queued st s) (status f) (λ _ x, queued st s x) (queued st s)) as Hstatus by (by intros f x).
  unfold Engine.flush. destruct (_ || _).
  { eapply spec_bind; [eapply spec_conseq; [apply Hstatus|by intros ? []|done|done]|]. intros u. by intros x. }
  eapply spec_bind with (Q := λ _ x, queued st s x).
  { unfold sync_pass. eapply spec_bind with (Q := λ _ x, queued st s x).
    - intros x [Hx Hq]. unfold on_client. pose proof (SyncOnce_keyed fuel deviceCaps (ea_client x) (store_keyed _ _ _ _ _ Hx)) as Hs.
      destruct (SyncOnce fuel deviceCaps (ea_client x)) as [c [r|e]]; by eapply queued_sync.
    - intros [res|]; by intros x. }
  intros res. eapply spec_bind; [apply Hstatus|]. intros u. cbn beta. eapply spec_bind with (Q := λ _ x, queued st s x).
  - destruct (sy_Err res); [apply Hstatus|by intros x].
  - intros u2. by intros x.
Qed.
Lemma queue_run st s row :
  good uuid K st → st_sessions (store_of st) !! s_clientSessionID s = Some row → ss_ServerSessionID row = s_serverSessionID s →
  spec (λ x, x = (st, s)) (queue_completion sha256_hex uuid)
    (λ _ x, x.2 = s ∧ good uuid K x.1 ∧ intent st s x.1 ∧ st_runner (store_of x.1) = st_runner (store_of st)) (λ _, False).
Proof.
  intros Hst Hrow Hsid x ->.
  unfold queue_completion, on_engine, enqueue, NewString, on_store, mbind, SE_bind, se_mod, se_get. cbn [fst snd ea_uuids ea_client].
  set (req := mkCompletionRequest _ _ _ _ _ _ _ _). set (s1 := SaveCompletionIntent _ _ _ req _).
  assert (store_ok uuid K (S (ea_uuids st)) s1) as Hs1.
  { assert (st_completions (store_of st) !! cr_CompletionID req = None) as Hnone.
    { apply eq_None_not_Some. intros Hex. destruct (so_completions _ _ _ _ _ Hst _ Hex) as (k & Hlt & E). apply (inj uuid) in E. lia. }
    eapply (store_intent uuid K); [exists (ea_uuids st); split; [lia|done]|exact Hnone|exact Hrow|exact Hsid|]. apply (store_but_more uuid K _ (ea_uuids st)); [lia|exact Hst]. }
  assert (st_completions s1 !! uuid (ea_uuids st) = Some (mkCompletionIntent (uuid (ea_uuids st)) (s_clientSessionID s) (s_serverSessionID s) req None false
    (now_of st) (now_of st))) as Hc.
  { subst s1. unfold SaveCompletionIntent. cbn [set_ccompletions st_completions]. rewrite lookup_insert_eq. f_equal.
    change (cr_CompletionID req) with (uuid (ea_uuids st)). destruct (st_completions _ !! _) as [c|] eqn:Ec; [|done].
    destruct (so_completions _ _ _ _ _ Hst (uuid (ea_uuids st))) as (k & Hlt & E); [by exists c|]. apply (inj uuid) in E. lia. }
  assert (st_runner s1 = st_runner (store_of st) ∧ log (s_clientSessionID s) s1 = log (s_clientSessionID s) (store_of st)) as [Hr Hl] by done.
  assert (st_sessions s1 !! s_clientSessionID s = Some row) as Hrow1 by exact Hrow. clearbody s1.
  pose proof (log_length _ _ _ (so_logs _ _ _ _ _ Hs1 _ _ Hrow1 (λ F, F))) as [_ Hpos].
  destruct (EnqueueEvent_run uuid K (λ _, False) (S (ea_uuids st)) s1 (now_of st) (s_clientSessionID s) row (uuid (S (ea_uuids st)))
    EventSessionCompleted (now_of st) (Some {["completionId" := JStr (uuid (ea_uuids st))]}) (S (ea_uuids st)) Hs1 Hrow1 ltac:(lia) eq_refl
    ltac:(lia)) as (ev & Hrun & Hid & Hty & Hseq).
  match goal with |- context [EnqueueEvent ?n ?c ?e ?x] =>
    replace (EnqueueEvent n c e x) with (Ok (put_event (now_of st) (s_clientSessionID s) row ev s1, ev) : result cerr (Store * SessionEvent))
      by (symmetry; exact Hrun) end.
  unfold mret, SE_ret. cbn [fst snd]. split_and!; [done| | |exact Hr].
  - unfold good. cbn. eapply (put_event_next uuid); [exact Hs1|done|exact (λ F, F)| |exact Hid|by rewrite Hty|done]. lia.
  - split.
    + by eexists.
    + exists ev. split; [done|]. cbn [store_of put_store with_client ea_client with_store cl_store].
      rewrite (log_snoc s1) with (o := mkOutboxEvent (s_clientSessionID s) (ss_ServerSessionID row) ev false) by done.
      cbn [ox_ClientSessionID ox_Event]. by rewrite bool_decide_eq_true_2, Hl.
Qed.

Lemma state_run st s cid :
  spec (λ x : estate W, good uuid K x ∧ intent st s x ∧ st_runner (store_of x) = st_runner (store_of st)) (save_state cid "completed")
    (λ _ x, good uuid K x ∧ intent st s x ∧ st_runner (store_of x) = st_runner (store_of st)) (λ _, False).
Proof.
  intros x (Hx & Hi & Hr). unfold save_state, get_store, mbind, SE_bind, GetClientSession.
  destruct (st_sessions (store_of x) !! cid) as [row|] eqn:E; [|done]. split_and!.
  - unfold good. cbn. apply (store_save_state uuid); [|exact Hx]. by rewrite (so_keyed _ _ _ _ _ Hx _ _ E).
  - exact Hi.
  - exact Hr.
Qed.

Lemma spec_on_engine {A} (P : estate W → Prop) (m : SE (estate W) A) Q (E : estate W → Prop) (R : Session → Prop) :
  spec P m Q E → spec (λ x : estate W * Session, P x.1 ∧ R x.2) (on_engine m) (λ a x, Q a x.1 ∧ R x.2) (λ x, E x.1 ∧ R x.2).
Proof. intros Hm [st s] [Hst Hs]. specialize (Hm st Hst). unfold on_engine. cbn [fst snd] in *. by destruct (m st) as [st' [a|e]]. Qed.

Lemma outcome_completed id failed st s : s_completed (completion_outcome id failed st s) = s_completed s.
Proof. unfold completion_outcome. cbv zeta. destruct failed; [done|]. destruct (GetCompletion id st) as [c|]; [|done]. by destruct (ci_Acked c). Qed.

(** The part of a completion after the checks. *)
Lemma complete_tail st s row :
  good uuid K st → st_sessions (store_of st) !! s_clientSessionID s = Some row → ss_ServerSessionID row = s_serverSessionID s →
  spec (λ x, x = (st, s)) (
    id ← queue_completion sha256_hex uuid;
    _ ← set_session (λ s, ses_message "completion queued" (ses_completed true true s));
    _ ← on_engine (_ ← save_state (s_clientSessionID s) "completed"; on_store (λ _, DeleteRunnerState (s_clientSessionID s)));
    failed ← on_engine flush;
    z ← se_get;
    set_session (completion_outcome id failed (store_of z.1)))
    (λ _ x, queued st s x.1 ∧ s_completed x.2 = true) (λ x, queued st s x.1 ∧ s_completed x.2 = true).
Proof.
  intros Hst Hrow Hsid. eapply spec_bind; [eapply spec_conseq; [by eapply queue_run|done|intros a x Hx; exact Hx|done]|].
  intros id. cbn beta. eapply spec_bind with (Q := λ _ x, (good uuid K x.1 ∧ intent st s x.1 ∧ st_runner (store_of x.1) = st_runner (store_of st)) ∧
    s_completed x.2 = true).
  { intros [st1 s1] (Hs1 & Hx). by split. }
  intros u1. cbn beta. eapply spec_bind with (Q := λ _ x, (good uuid K x.1 ∧ queued st s x.1) ∧ s_completed x.2 = true).
  { eapply spec_conseq; [apply (spec_on_engine (λ x, good uuid K x ∧ intent st s x ∧ st_runner (store_of x) = st_runner (store_of st)) _
      (λ _ x, good uuid K x ∧ queued st s x) (λ _, False) (λ s, s_completed s = true))|done|done|by intros ? [[] _]].
    eapply spec_bind; [apply state_run|]. intros u2. cbn beta. intros x (Hx & Hi & Hr). split; [|split; [exact Hi|]].
    - unfold good. cbn. by apply (store_runner_gone uuid).
    - cbn. by rewrite Hr. }
  intros u2. cbn beta. eapply spec_bind; [apply (spec_on_engine (λ x, good uuid K x ∧ queued st s x) _ (λ _ x, queued st s x) (queued st s) (λ s, s_completed s = true)), flush_queued|].
  intros failed. cbn beta. eapply spec_bind with (Q := λ _ x, queued st s x.1 ∧ s_completed x.2 = true); [by intros x Hx|].
  intros z. cbn beta. intros [st1 s1] [Hq Hc]. split; [done|]. cbn. by rewrite outcome_completed.
Qed.

Lemma complete_ready h st s row :
  good uuid K st → st_sessions (store_of st) !! s_clientSessionID s = Some row → ss_ServerSessionID row = s_serverSessionID s → s_completed s = false →
  runner_CompleteReady (s_runner (checked h st s)) = true →
  queued st (checked h st s) (Complete h (st, s)).1.1 ∧ s_completed (Complete h (st, s)).1.2 = true.
Proof.
  intros Hst Hrow Hsid Hnot Hready. destruct (checked_run h st s) as (s0 & Hd & Hv & Hsame). set (s1 := checked h st s) in *. clearbody s1.
  assert (st_sessions (store_of st) !! s_clientSessionID s1 = Some row) as Hrow1 by (destruct Hsame as (_ & -> & _); done).
  assert (ss_ServerSessionID row = s_serverSessionID s1) as Hsid1 by (destruct Hsame as (_ & _ & _ & _ & _ & _ & ->); done).
  pose proof (complete_tail st s1 row Hst Hrow1 Hsid1 (st, s1) eq_refl) as Ht.
  assert (Complete h (st, s) = (id ← queue_completion sha256_hex uuid;
    _ ← set_session (λ s, ses_message "completion queued" (ses_completed true true s));
    _ ← on_engine (_ ← save_state (s_clientSessionID s1) "completed"; on_store (λ _, DeleteRunnerState (s_clientSessionID s1)));
    failed ← on_engine flush; z ← se_get; set_session (completion_outcome id failed (store_of z.1))) (st, s1)) as ->.
  { unfold Engine.Complete. cbn [snd]. rewrite Hnot, (bind_run _ _ _ _ _ Hd), (bind_run _ _ _ _ _ Hv), (bind_run _ _ (st, s1) (st, s1) (st, s1) eq_refl).
    cbn [snd]. by rewrite Hready. }
  by destruct (@mbind (SE _) _ _ _ _ _ (st, s1)) as [x [a|e]].
Qed.

Lemma complete_not_ready h st s :
  s_completed s = false → runner_CompleteReady (s_runner (checked h st s)) = false →
  ∃ msg, Complete h (st, s) = ((st, checked h st s), Err (COther msg)).
Proof.
  intros Hnot Hready. destruct (checked_run h st s) as (s0 & Hd & Hv & Hsame). set (s1 := checked h st s) in *. clearbody s1.
  unfold Engine.Complete. cbn [snd]. rewrite Hnot, (bind_run _ _ _ _ _ Hd), (bind_run _ _ _ _ _ Hv), (bind_run _ _ (st, s1) (st, s1) (st, s1) eq_refl).
  cbn [snd]. rewrite Hready. by eexists.
Qed.

Lemma checked_fine h st s : fine range_tasks uuid K (st, s) → fine range_tasks uuid K (st, checked h st s).
Proof.
  intros Hf. destruct (checked_run h st s) as (s0 & Hd & Hv & _).
  pose proof (keeps_drain range_tasks digestManifest sha256_hex unmarshal uuid Hhook K h (st, s) Hf) as Hk. rewrite Hd in Hk. destruct Hk as [Hk _].
  pose proof (keeps_ignore _ _ _ (keeps_verify range_tasks uuid K h) (st, s0) Hk) as Hk'. rewrite Hv in Hk'. by destruct Hk'.
Qed.

End completing.

Lemma ready_accepted content ws r :
  runner_ok range_tasks content ws r → NoDup (ck_ID <$> ac_Checks content) → required_trees content → runner_CompleteReady r = true →
  validateRequiredChecks content (runner_Observations r) = Ok tt ∧ validateObservationCapabilities content (runner_Observations r) = Ok tt.
Proof.
  destruct r as [r|r]; cbn.
  - intros [Hinv Hof]. by eapply ready_server_accepts.
  - intros [Hinv <-]. by apply TypingRunner.typing_ready_server_accepts.
Qed.

(** ** The theorems *)

(** C16: What a session completes, the server accepts.  In every state the program reaches, [Complete] on an
    open session whose checks are ready queues one completion of that session with the observations
    just made, appends [session_completed] to its log, drops the saved runner and marks the session,
    whatever the server answers to the flush; and those observations pass the server's validation of
    required checks, tasks and command evidence, when check ids are distinct and no required task
    names an optional check.  When the checks are not ready it is an error and nothing is written. *)
Theorem completion_acceptable st live s h :
  sys_reachable (st, live) → s ∈ live → s_completed s = false →
  NoDup (ck_ID <$> ac_Checks (s_content s)) → required_trees (s_content s) →
  let s1 := checked h st s in
  let '((st', s'), r) := Complete h (st, s) in
  if runner_CompleteReady (s_runner s1)
  then s_completed s' = true ∧ queued st s1 st' ∧ s_clientSessionID s1 = s_clientSessionID s ∧
       validateRequiredChecks (s_content s) (runner_Observations (s_runner s1)) = Ok tt ∧
       validateObservationCapabilities (s_content s) (runner_Observations (s_runner s1)) = Ok tt
  else st' = st ∧ s' = s1 ∧ ∃ msg, r = Err (COther msg).
Proof.
  intros [Hst Hl]%reachable_sys_inv Hs Hnot Hnd Htrees s1. cbn [fst snd] in Hst, Hl. rewrite Forall_forall in Hl.
  destruct (sk_row _ _ _ (Hl s Hs)) as (row & Hrow & Hsid).
  destruct (checked_run h st s) as (_ & _ & _ & (Ec & Eid & _)). destruct (checked_fine (store_of st) h st s (conj Hst (Hl s Hs))) as [_ Hok].
  destruct (runner_CompleteReady (s_runner s1)) eqn:Hready.
  - destruct (complete_ready (store_of st) h st s row Hst Hrow Hsid Hnot Hready) as [Hq Hc]. destruct (Complete h (st, s)) as [[st' s'] r]. cbn [fst snd] in *.
    pose proof (sk_runner _ _ _ Hok) as Hr. cbn [snd] in Hr. rewrite Ec in Hr. by destruct (ready_accepted _ _ _ Hr Hnd Htrees Hready).
  - destruct (complete_not_ready h st s Hnot Hready) as [msg ->]. eauto.
Qed.

(** C17: The log of a session.  In every state the program reaches, through restarts, resumed sessions and
    failing calls, the events written for a session are numbered from 0 without gap up to the next
    number its row holds, begin with [session_started] and contain no second one; and every event in
    the outbox belongs to a session of the store. *)
Theorem session_log st live :
  sys_reachable (st, live) →
  (∀ cid row, st_sessions (store_of st) !! cid = Some row → log_ok (store_of st) cid row) ∧
  (∀ o, o ∈ st_outbox (store_of st) → is_Some (st_sessions (store_of st) !! ox_ClientSessionID o)).
Proof.
  intros [Hst _]%reachable_sys_inv. cbn [fst] in Hst. split.
  - intros cid row Hrow. exact (so_logs _ _ _ _ _ Hst _ _ Hrow (λ F, F)).
  - intros o Ho. by destruct (so_events _ _ _ _ _ Hst (event_of o) ltac:(by apply list_elem_of_fmap_2)).
Qed.

(** C18: A session begun without the server is never delivered.  Once the row of a session holds no server
    session, in every state the program reaches afterwards, whatever calls, restarts and sync passes follow
    and whatever the server answers, the row still holds none and no completion of the session is acknowledged. *)
Theorem offline_session_undelivered st live cid row :
  sys_reachable (st, live) → st_sessions (store_of st) !! cid = Some row → ss_ServerSessionID row = "" →
  ∀ st' live', rtc sys_step (st, live) (st', live') →
  (∃ row', st_sessions (store_of st') !! cid = Some row' ∧ ss_ServerSessionID row' = "") ∧
  (∀ id c, st_completions (store_of st') !! id = Some c → ci_ClientSessionID c = cid → ci_Acked c = false).
Proof.
  intros Hinv%reachable_sys_inv Hrow Hoff st' live' Hsteps. destruct (sys_steps_inv _ _ Hsteps Hinv) as [[Hst _] Hk]. cbn [fst] in Hst, Hk.
  destruct (Hk _ _ Hrow) as (row' & Hrow' & Hid & _). rewrite Hoff in Hid. split; [eauto|]. intros id c Hc Hcid.
  destruct (so_bound _ _ _ _ _ Hst _ _ Hc) as (row2 & Hrow2 & _ & Hack). rewrite Hcid, Hrow' in Hrow2. apply (inj Some) in Hrow2. subst row2.
  destruct (ci_Acked c); [|done]. by destruct (Hack eq_refl).
Qed.
End system.
