(* ===== verification/EngineOpen.v ===== *)
(** * The session engine: opening a session

    What [OpenSession] leaves in the store: a resumed session goes on with the events it has, a new
    one begins with its own. *)
From S2P Require Import Prelude GoStrings GoText Paths Utf8 Float64 Contracts ContentJson LmsData LmsDb Responses ActivityDoc Sessions.
From S2P Require Import ContentEncode WorkPage ClientStore ClientSync Mastery Typing Observe TerminalVerify TerminalRunner TerminalSession.
From S2P Require TypingRunner.
From S2P Require Import Engine EngineLogic EngineSafety EngineSystem.
From stdpp Require Import options.
Local Open Scope string_scope.
Local Open Scope list_scope.

(** The row of an open session. *)
Definition row_started (cid aid ws : string) (s : Store) : Prop :=
  ∃ row, st_sessions s !! cid = Some row ∧ ss_State row = "started" ∧ ss_AssignmentID row = aid ∧ ss_WorkspacePath row = ws.

Section opening.
Context `{!GoText, !GoRegexp, !FloatText, !DurableJson, !WrapJson, !EngineJson, !EngineJsonLaws} {W : Type} `{!Server W, !SessionServer W}.
Context (range_tasks : gmap Z Z → list Z) (digestManifest : list WorkspaceManifestEntry → bool → string).
Context (sha256_hex : string → string) (unmarshal : string → option rawEvent) (uuid : nat → string) `{!Inj (=) (=) uuid}.
Context (constraint_text : string) (fuel : nat) (deviceCaps : option DeviceCapabilities) (opts : Options).
Context (Hhook : hook_lines unmarshal) (Hroot : op_WorkspaceRoot opts = "" ∨ IsAbs (op_WorkspaceRoot opts) = true).
#[local] Set Default Proof Using "Type*".

Local Abbreviation enqueue := (enqueue (W:=W) uuid).
Local Abbreviation eng_SyncOnce := (eng_SyncOnce constraint_text fuel deviceCaps opts).
Local Abbreviation open_runner := (open_runner (W:=W) range_tasks digestManifest opts).
Local Abbreviation restore_runner := (restore_runner (W:=W) range_tasks digestManifest opts).
Local Abbreviation resumeSession := (resumeSession (W:=W) range_tasks digestManifest constraint_text opts).
Local Abbreviation openFreshSession := (openFreshSession range_tasks digestManifest uuid constraint_text deviceCaps opts).
Local Abbreviation OpenSession := (OpenSession range_tasks digestManifest uuid constraint_text fuel deviceCaps opts).

Section from.
Context (K : Store).

(** Nothing in the store has changed, or nothing but what a sync changes. *)
Definition same_store (s0 : Store) (st : estate W) : Prop := store_of st = s0.
Definition synced (s0 : Store) (st : estate W) : Prop := good uuid K st ∧ sync_le s0 (store_of st).

Definition store_free {A} (m : SE (estate W) A) : Prop := ∀ s0, keeps (same_store s0) m (λ _, True).

Lemma free_bind {A B} (m : SE (estate W) A) (f : A → SE (estate W) B) : store_free m → (∀ a, store_free (f a)) → store_free (m ≫= f).
Proof. intros Hm Hf s0. eapply keeps_bind; [apply Hm|]. intros a _. apply Hf. Qed.
Lemma free_ret {A} (a : A) : store_free (mret a).
Proof. intros s0. by apply keeps_ret. Qed.
Lemma free_fail {A} e : store_free (A:=A) (se_fail e).
Proof. intros s0. apply keeps_fail. Qed.
Lemma free_of {A} (r : result cerr A) : store_free (se_of r).
Proof. intros s0. by apply keeps_of. Qed.
Lemma free_get : store_free se_get.
Proof. intros s0. eapply keeps_weaken; [apply keeps_get|done]. Qed.
Lemma free_mod f : (∀ st, store_of (f st) = store_of st) → store_free (se_mod f).
Proof. intros Hf s0. apply keeps_mod; [|done]. intros st Hst. unfold same_store in *. by rewrite Hf. Qed.
Hint Resolve free_ret free_fail free_of free_get : free.

Lemma free_open_runner h item content kind : store_free (open_runner h item content kind).
Proof.
  unfold Engine.open_runner. apply free_bind; [case_bool_decide; auto with free|]. intros root. apply free_bind; [by apply free_mod|]. intros u1.
  cbv zeta. apply free_bind; [destruct (ho_os _ _); auto with free|]. intros u2. apply free_bind; [auto with free|]. intros r0.
  apply free_bind; [auto with free|]. intros st. apply free_bind; auto with free.
Qed.

Lemma free_restore_runner h item content kind row rs : store_free (restore_runner h item content kind row rs).
Proof.
  unfold Engine.restore_runner. apply free_bind; [destruct (_ && _); auto with free|]. intros u1. cbv zeta.
  apply free_bind; [case_bool_decide; auto with free|]. intros u2. apply free_bind; [destruct (os_Stat _ _); auto with free|]. intros u3.
  apply free_bind; [by apply free_mod|]. intros u4. apply free_bind; [auto with free|]. intros r0.
  apply free_bind; [auto with free|]. intros st. apply free_bind; auto with free.
Qed.

Lemma free_check h content : store_free (check_capabilities opts h content).
Proof. unfold check_capabilities. destruct (RejectIncompatibleRevision _ _); auto with free. Qed.

Lemma free_start_online h cid aid : store_free (start_online constraint_text deviceCaps opts h cid aid).
Proof.
  unfold start_online. destruct (_ || _); [auto with free|]. apply free_bind; [by intros s0 st Hst|]. intros tok.
  apply free_bind; [case_bool_decide; [auto with free|by apply free_mod]|]. intros u1. apply free_bind.
  - intros s0 st Hst. unfold se_try, on_client, ClientSync.call. case_bool_decide; [done|]. by destruct (srv_StartSession _ _ _ _ _ _) as [w r].
  - intros [a|e]; [auto with free|]. destruct (isIncompatibleRevisionError _ e); auto with free.
Qed.

(** *** Writing events *)

Definition logs (L : string → list SessionEvent) (s : Store) : Prop := ∀ c, log c s = L c.

Lemma enqueue_log cid aid ws typ payload L :
  spec (λ st, row_started cid aid ws (store_of st) ∧ logs L (store_of st)) (enqueue cid typ payload)
    (λ ev st, row_started cid aid ws (store_of st) ∧ se_Type ev = typ ∧
       logs (λ c, L c ++ (if bool_decide (cid = c) then [ev] else [])) (store_of st)) (λ _, True).
Proof.
  intros st [(row & Hrow & Hs & Ha & Hw) Hl]. unfold Engine.enqueue, NewString, mbind, SE_bind, se_get, se_mod, EnqueueEvent.
  match goal with |- context [st_sessions ?x !! cid] => change x with (store_of st) end. rewrite Hrow. cbv zeta.
  destruct (existsb _ _); [done|]. unfold mret, SE_ret. set (ev := mkSessionEvent _ _ _ _ _ _). split_and!.
  - eexists. split_and!; [by apply lookup_insert_eq|done..].
  - done.
  - intros c. cbn [store_of put_store with_client with_store ea_client cl_store]. rewrite <-(Hl c). by apply (log_snoc (store_of st) _ c (mkOutboxEvent cid (ss_ServerSessionID row) ev false)).
Qed.

Definition viewed_log (cid : string) (L : string → list SessionEvent) (tasks : list Task) (s : Store) : Prop :=
  ∃ evs, (se_Type <$> evs) = (λ _, EventTaskViewed) <$> tasks ∧ logs (λ c, L c ++ (if bool_decide (cid = c) then evs else [])) s.

Lemma viewed_run cid aid ws tasks : ∀ L,
  spec (λ st, row_started cid aid ws (store_of st) ∧ logs L (store_of st))
    (se_each (λ t, _ ← enqueue cid EventTaskViewed (viewed_payload t); mret tt) tasks)
    (λ _ st, row_started cid aid ws (store_of st) ∧ viewed_log cid L tasks (store_of st)) (λ _, True).
Proof.
  induction tasks as [|t tasks IH]; intros L; cbn [se_each].
  { intros st [Hr Hl]. split; [done|]. exists []. split; [done|]. intros c. rewrite (Hl c). case_bool_decide; by rewrite app_nil_r. }
  eapply spec_bind with (Q := λ _ st, row_started cid aid ws (store_of st) ∧
    ∃ ev, se_Type ev = EventTaskViewed ∧ logs (λ c, L c ++ (if bool_decide (cid = c) then [ev] else [])) (store_of st)).
  { eapply spec_bind; [apply enqueue_log|]. intros ev st (Hr & Ht & Hl). cbn beta in *. split; [done|]. by exists ev. }
  intros u st (Hr & ev & Ht & Hl). specialize (IH _ st (conj Hr Hl)). destruct (se_each _ _ st) as [st' [[]|e]]; [|done].
  destruct IH as (Hr' & evs & Hevs & Hl'). split; [done|]. exists (ev :: evs). split; [cbn; by rewrite Ht, Hevs|].
  intros c. rewrite (Hl' c). case_bool_decide; [by rewrite <-app_assoc|by rewrite !app_nil_r].
Qed.

(** *** A new session *)

(** The fields of a session that its calls do not change. *)
Definition kept (s s' : Session) : Prop :=
  s_item s' = s_item s ∧ s_content s' = s_content s ∧ s_clientSessionID s' = s_clientSessionID s ∧ s_workspace s' = s_workspace s ∧
  s_restored s' = s_restored s.

Section frame.
Context (P : Store → Prop) (s0 : Session).

Definition framed (x : estate W * Session) : Prop := P (store_of x.1) ∧ kept s0 x.2.

Lemma framed_responses h : keeps framed (restoreSubmittedResponses range_tasks h) (λ _, True).
Proof. by intros [st s] Hx. Qed.

Lemma framed_verify h : keeps framed (se_ignore (verify range_tasks h)) (λ _, True).
Proof. intros [st s] Hx. unfold se_ignore, verify. by destruct (runner_Verify _ _ _ _). Qed.

Lemma framed_attach h kind msg : keeps framed (attach_terminal constraint_text opts h kind msg) (λ _, True).
Proof.
  unfold attach_terminal. case_bool_decide; [|by apply keeps_ret]. eapply keeps_bind with (Q := λ _, True).
  - intros [st s] Hx. unfold se_try, startPTY. set (p := if ho_bash h then _ else _).
    assert (kept s0 p.2) as Hp.
    { subst p. destruct Hx as [_ Hx]. destruct (ho_bash h); [|done]. destruct (ho_prepare h); [|done]. by destruct (ho_writeRC h). }
    destruct Hx as [HP _]. destruct p as [spool s1]. cbn [snd] in Hp. cbn [fst] in HP.
    assert (∀ s2, kept s0 s2 → framed (st, s2) ∧ True) as Hall by (by intros; split; [split|]).
    destruct (ho_shell h) as [sandboxed|e]; [|by apply Hall]. destruct (ho_startPTY h); [by apply Hall|]. cbv zeta.
    destruct spool as [path|]; [by apply Hall|]. case_bool_decide; by apply Hall.
  - intros [u|e] _; [by apply keeps_ret|]. destruct (op_AllowUnsandboxed opts); [by intros [st s] Hx|apply keeps_fail].
Qed.

Lemma framed_persist (HP : ∀ t s, P s → P (set_runner t s)) : keeps framed (se_ignore persistRunnerState) (λ _, True).
Proof.
  intros [st s] [Hst Hs]. unfold se_ignore, persistRunnerState, SaveRunnerState. cbn [fst snd] in *.
  assert (∀ s', P s' → framed (put_store s' st, s) ∧ True) as Hall by (by intros; split; [split|]).
  destruct (bool_decide (s_clientSessionID s = "")); [by split; [split|]|]. destruct (bool_decide (s_kind s = "")); [by split; [split|]|].
  exact (Hall _ (HP _ _ Hst)).
Qed.
End frame.

(** The opened session and its first events. *)
Definition opened_new (item : StudentWorkItem) (content : ActivityContent) (s0 : Store) (s : Session) (store : Store) : Prop :=
  s_restored s = false ∧ s_item s = item ∧ s_content s = content ∧ st_sessions s0 !! s_clientSessionID s = None ∧
  row_started (s_clientSessionID s) (sa_ID (wi_Assignment item)) (s_workspace s) store ∧
  ∃ evs, (se_Type <$> evs) = EventSessionStarted :: ((λ _, EventTaskViewed) <$> ac_Tasks content) ∧
    logs (λ c, log c s0 ++ (if bool_decide (s_clientSessionID s = c) then evs else [])) store.

Lemma opening_run item content kind cid aid ws L :
  spec (λ st, row_started cid aid ws (store_of st) ∧ logs L (store_of st)) (opening_events uuid item content kind cid)
    (λ _ st, row_started cid aid ws (store_of st) ∧
       ∃ evs, (se_Type <$> evs) = EventSessionStarted :: ((λ _, EventTaskViewed) <$> ac_Tasks content) ∧
         logs (λ c, L c ++ (if bool_decide (cid = c) then evs else [])) (store_of st)) (λ _, True).
Proof.
  unfold opening_events. eapply spec_bind; [apply enqueue_log|]. intros ev st (Hr & Ht & Hl).
  pose proof (viewed_run cid aid ws (ac_Tasks content) _ st (conj Hr Hl)) as Hv. destruct (se_each _ _ st) as [st' [[]|e]]; [|done].
  destruct Hv as (Hr' & evs & Hevs & Hl'). split; [done|]. exists (ev :: evs). split; [cbn; by rewrite Ht, Hevs|].
  intros c. rewrite (Hl' c). case_bool_decide; [by rewrite <-app_assoc|by rewrite !app_nil_r].
Qed.

Lemma with_session_run {A} (P : estate W → Prop) s (m : SE (estate W * Session) A) Q :
  spec (λ x, P x.1 ∧ x.2 = s) m (λ _ x, Q x.2 x.1) (λ _, True) → spec P (with_session s m) Q (λ _, True).
Proof. intros Hm st Hst. specialize (Hm (st, s) (conj Hst eq_refl)). unfold with_session. by destruct (m (st, s)) as [[st' s'] [a|e]]. Qed.

(** A piece that keeps the frame, on a session that may fail. *)
Lemma framed_run {A} P s0 (m : SE (estate W * Session) A) :
  keeps (framed P s0) m (λ _, True) → spec (framed P s0) m (λ _ x, framed P s0 x) (λ _, True).
Proof. intros Hm. eapply spec_conseq; [exact Hm|done|by intros ? ? []|done]. Qed.

Lemma openFresh_run h item content kind s0 :
  host_ok h →
  spec (λ st, good uuid K st ∧ same_store s0 st) (openFreshSession h item content kind)
    (λ s st, opened_new item content s0 s (store_of st)) (λ _, True).
Proof.
  intros Hh. unfold Engine.openFreshSession. eapply spec_bind.
  { eapply spec_conseq; [apply spec_and; [by apply (keeps_open_runner range_tasks digestManifest uuid opts Hroot K h item content kind)|apply free_open_runner]|
      intros st Hst; exact Hst| |done]. intros x st Hx. exact Hx. }
  intros [ws r]. cbn [fst snd]. eapply spec_bind with (Q := λ id st, fresh_id uuid K id st ∧ same_store s0 st).
  { intros st [[Hst _] [Hs _]]. split; [|done]. exact (spec_NewString uuid K st Hst). }
  intros id. cbn beta. eapply spec_bind with (Q := λ _ st, fresh_id uuid K id st ∧ same_store s0 st).
  { eapply spec_conseq; [apply spec_and; [apply (keeps_check uuid opts Hroot K h content id)|apply free_check]|intros st Hst; exact Hst| |done].
    intros x st [[Ha _] [Hb _]]. done. }
  intros u1. cbn beta. eapply spec_bind with (Q := λ _ st, fresh_id uuid K id st ∧ same_store s0 st).
  { eapply spec_conseq; [apply spec_and; [apply (keeps_start_online uuid constraint_text deviceCaps opts Hroot K h id id)|apply free_start_online]|
      intros st Hst; exact Hst| |done]. intros x st [[Ha _] [Hb _]]. done. }
  intros [srv off]. cbn [fst snd]. cbn beta. set (aid := sa_ID (wi_Assignment item)).
  eapply spec_bind with (Q := λ _ st, st_sessions s0 !! id = None ∧ row_started id aid ws (store_of st) ∧ logs (λ c, log c s0) (store_of st)).
  { intros st [(k & Hid & Hk & Hok) Hs]. unfold same_store in Hs. split_and!.
    - apply eq_None_not_Some. rewrite <-Hs. intros Hex. destruct (so_ids _ _ _ _ _ Hok _ Hex) as (k' & Hk' & E). rewrite Hid in E. apply (inj uuid) in E. lia.
    - eexists. split_and!; [by apply lookup_insert_eq|done..].
    - intros c. by rewrite <-Hs. }
  intros u2. cbn beta. apply with_session_run. set (sess := new_session _ _ _ _ _ _ _ _ _ _).
  set (P1 := λ s, st_sessions s0 !! id = None ∧ row_started id aid ws s ∧ logs (λ c, log c s0) s).
  set (P2 := λ s, st_sessions s0 !! id = None ∧ row_started id aid ws s ∧
    ∃ evs, (se_Type <$> evs) = EventSessionStarted :: ((λ _, EventTaskViewed) <$> ac_Tasks content) ∧
      logs (λ c, log c s0 ++ (if bool_decide (id = c) then evs else [])) s).
  eapply spec_bind with (Q := λ _ x, framed P1 sess x).
  { intros [st s] [Hst Hs]. cbn [fst snd] in *. subst s. destruct (framed_responses P1 sess h (st, sess)); done. }
  intros u3. cbn beta. eapply spec_bind with (Q := λ _ x, framed P2 sess x).
  { eapply spec_conseq; [apply (spec_on_engine (λ st, st_sessions s0 !! id = None ∧ row_started id aid ws (store_of st) ∧ logs (λ c, log c s0) (store_of st)) _
      (λ _ st, P2 (store_of st)) (λ _, True) (kept sess))| | |done].
    - intros st [Hnone Hst]. pose proof (opening_run item content kind id aid ws _ st Hst) as Ho.
      destruct (opening_events _ _ _ _ _ st) as [st' [[]|e]]; [|done]. destruct Ho as [Hr Hl]. done.
    - intros [st s] Hx. exact Hx.
    - intros a [st s] Hx. exact Hx. }
  intros u4. cbn beta. eapply spec_bind; [apply framed_run, framed_attach|]. intros u5. cbn beta.
  eapply spec_bind; [apply framed_run, framed_verify|]. intros u6. cbn beta.
  eapply spec_conseq; [apply (framed_run P2 sess), framed_persist; intros t s Hs; exact Hs|done| |done].
  intros a [st s] [(Hnone & Hrow & Hevs) (E1 & E2 & E3 & E4 & E5)]. cbn [fst snd] in *. unfold opened_new. rewrite E1, E2, E3, E4, E5. done.
Qed.

(** *** A resumed session *)

Definition opened_again (item : StudentWorkItem) (s0 : Store) (s : Session) (store : Store) : Prop :=
  s_restored s = true ∧ s_item s = item ∧ is_Some (st_sessions s0 !! s_clientSessionID s) ∧ is_Some (st_runner s0 !! s_clientSessionID s) ∧
  row_started (s_clientSessionID s) (sa_ID (wi_Assignment item)) (s_workspace s) store ∧ sync_le s0 store.

Lemma resume_run h item content kind row rs s0 :
  st_sessions s0 !! ss_ClientSessionID row = Some row → is_Some (st_runner s0 !! ss_ClientSessionID row) →
  ss_AssignmentID row = sa_ID (wi_Assignment item) →
  spec (same_store s0) (resumeSession h item content kind row rs) (λ s st, opened_again item s0 s (store_of st)) (λ st, sync_le s0 (store_of st)).
Proof.
  intros Hrow Hrs Haid. unfold Engine.resumeSession.
  assert (∀ st, same_store s0 st → sync_le s0 (store_of st)) as Hsame by (intros st Hst; unfold same_store in Hst; by rewrite Hst).
  eapply spec_bind with (Q := λ _ st, same_store s0 st).
  { eapply spec_conseq; [apply free_restore_runner|done|by intros ? ? []|done]. }
  intros r. cbn beta. eapply spec_bind with (Q := λ _ st, same_store s0 st).
  { eapply spec_conseq; [apply free_check|done|by intros ? ? []|done]. }
  intros u1. cbn beta.
  set (P := λ s, row_started (ss_ClientSessionID row) (sa_ID (wi_Assignment item)) (ss_WorkspacePath row) s ∧ sync_le s0 s).
  eapply spec_bind with (Q := λ _ st, P (store_of st)).
  { intros st Hst. unfold same_store in Hst. unfold on_store, se_mod. cbn. rewrite Hst. split.
    - eexists. split_and!; [by apply lookup_insert_eq|done..].
    - by apply SaveSession_sync. }
  intros u2. cbn beta. set (sess := new_session _ _ _ _ _ _ _ _ _ _). intros st Hst.
  assert (spec (framed P sess) (_ ← restoreSubmittedResponses range_tasks h; _ ← attach_terminal constraint_text opts h kind "resumed; pty unavailable: ";
    se_ignore (verify range_tasks h)) (λ _ x, framed P sess x) (framed P sess)) as Hm.
  { eapply spec_conseq; [eapply keeps_bind; [apply framed_responses|]; intros u3 _; eapply keeps_bind; [apply framed_attach|]; intros u4 _; apply framed_verify
      |done|by intros ? ? []|done]. }
  specialize (Hm (st, sess)). unfold with_session. destruct (@mbind (SE _) _ _ _ _ _ (st, sess)) as [[st' s'] [[]|e]]; cbn [fst snd] in *.
  - destruct Hm as [[Hr Hs] (E1 & E2 & E3 & E4 & E5)]; [by split|]. cbn [fst snd] in *. unfold opened_again. rewrite E1, E3, E4, E5. by split_and!.
  - destruct Hm as [[_ Hs] _]; [by split|]. done.
Qed.

(** *** Before the session is opened *)

Lemma synced_same s0 st st' : store_of st' = store_of st → ea_uuids st' = ea_uuids st → synced s0 st → synced s0 st'.
Proof. unfold synced, good. by intros -> ->. Qed.

Lemma synced_status s0 f : keeps (synced s0) (status f) (λ _, True).
Proof. apply keeps_mod; [|done]. by intros. Qed.

Lemma synced_pass s0 : keeps (synced s0) (sync_pass fuel deviceCaps) (λ _, True).
Proof.
  unfold sync_pass. eapply keeps_bind with (Q := λ _, True).
  - intros st [Hst Hs]. unfold on_client. pose proof (SyncOnce_keyed fuel deviceCaps (ea_client st) (store_keyed _ _ _ _ _ Hst)) as Hp.
    assert (synced s0 (with_client (SyncOnce fuel deviceCaps (ea_client st)).1 st)) as Hres.
    { split; [by eapply (store_sync uuid)|by etrans]. }
    by destruct (SyncOnce fuel deviceCaps (ea_client st)) as [c [r|e]].
  - intros [res|] _; [by apply keeps_ret|apply keeps_fail].
Qed.

Lemma synced_SyncOnce s0 : keeps (synced s0) eng_SyncOnce (λ _, True).
Proof.
  unfold Engine.eng_SyncOnce. destruct (_ || _).
  - eapply keeps_bind; [apply synced_status|]. intros u _. by apply keeps_ret.
  - eapply keeps_bind; [apply synced_pass|]. intros res _. eapply keeps_bind; [apply synced_status|]. intros u _.
    eapply keeps_bind with (Q := λ _, True); [destruct (sy_Err res); [apply synced_status|by apply keeps_ret]|]. intros u2 _. by apply keeps_ret.
Qed.

Lemma synced_first s0 : keeps (synced s0) (sync_first constraint_text fuel deviceCaps opts) (λ _, True).
Proof.
  unfold sync_first. destruct (_ || _); [by apply keeps_ret|]. eapply keeps_bind; [apply synced_SyncOnce|]. intros res _.
  case_bool_decide; [apply keeps_fail|by apply keeps_ret].
Qed.

Lemma synced_load s0 id : keeps (synced s0) (load_work constraint_text fuel deviceCaps opts id) (λ _, True).
Proof.
  assert (∀ A (f : Store → A), keeps (synced s0) (get_store f) (λ _, True)) as Hget by (by intros A f st).
  unfold load_work. eapply keeps_bind; [apply Hget|]. intros r _. eapply keeps_bind with (Q := λ _, True).
  - destruct r as [x|e]; [by apply keeps_ret|]. destruct (_ && _); [|by apply keeps_ret]. eapply keeps_bind; [apply synced_SyncOnce|].
    intros res _. destruct (sy_Err res); [by apply keeps_ret|apply Hget].
  - intros [x|e] _; [by apply keeps_ret|apply keeps_fail].
Qed.

Lemma opened_new_sync item content s0 s1 s store : sync_le s0 s1 → opened_new item content s1 s store → opened_new item content s0 s store.
Proof.
  intros Hs (H1' & H2' & H3' & Hnone & Hrow & evs & Hev & Hl). unfold opened_new. split_and!; try done.
  - apply eq_None_not_Some. intros Hex%(sl_kept _ _ Hs). rewrite Hnone in Hex. by destruct Hex.
  - exists evs. split; [done|]. intros c. rewrite (Hl c). by rewrite (log_sync s0 s1 c (sl_outbox _ _ Hs)).
Qed.

Lemma opened_again_sync item s0 s1 s store : sync_le s0 s1 → opened_again item s1 s store → opened_again item s0 s store.
Proof.
  intros Hs (H1' & H2' & [row Hrow] & Hrun & Hst & Hle). unfold opened_again. split_and!; try done.
  - destruct (sl_session _ _ Hs _ _ Hrow) as (y & -> & _). eauto.
  - by rewrite <-(sl_runner _ _ Hs).
  - by etrans.
Qed.

Lemma open_run h id s0 :
  host_ok h →
  spec (synced s0) (OpenSession h id) (λ s st, opened_new (s_item s) (s_content s) s0 s (store_of st) ∨ opened_again (s_item s) s0 s (store_of st)) (λ _, True).
Proof.
  intros Hh. assert (∀ A (m : SE (estate W) A) (Q : A → Prop), keeps (synced s0) m Q → spec (synced s0) m (λ _ st, synced s0 st) (λ _, True)) as Hrun.
  { intros A m Q Hm. eapply spec_conseq; [exact Hm|done|by intros ? ? []|done]. }
  unfold Engine.OpenSession. eapply spec_bind; [eapply Hrun, synced_first|]. intros u1. cbn beta. eapply spec_bind; [eapply Hrun, synced_load|].
  intros item. cbn beta. eapply spec_bind; [eapply Hrun, (keeps_of _ _ (λ _, True)); done|]. intros content. cbn beta.
  eapply spec_bind; [eapply Hrun, (keeps_of _ _ (λ _, True)); done|]. intros kind. cbn beta.
  eapply spec_bind; [eapply Hrun with (Q := λ _, True); destruct (Supports kind); [by apply keeps_ret|apply keeps_fail]|]. intros u2. cbn beta.
  assert (spec (synced s0) (openFreshSession h item content kind)
    (λ s st, opened_new (s_item s) (s_content s) s0 s (store_of st) ∨ opened_again (s_item s) s0 s (store_of st)) (λ _, True)) as Hfresh.
  { intros st [Hst Hs]. pose proof (openFresh_run h item content kind (store_of st) Hh st (conj Hst eq_refl)) as Ho.
    destruct (openFreshSession h item content kind st) as [st' [s|e]]; [|done]. left. pose proof Ho as (_ & -> & -> & _). by eapply opened_new_sync. }
  eapply spec_bind with (Q := λ found st, synced s0 st ∧ found = find_resumable (sa_ID (wi_Assignment item)) (store_of st)); [by intros st Hst|].
  intros [[row rs]|]; cbn beta; [|by intros st [Hst _]; apply Hfresh]. intros st [[Hst Hs] Hf]. symmetry in Hf.
  destruct (find_resumable_row uuid K _ _ _ _ _ Hst Hf) as (Hrow & Hr & Haid).
  pose proof (resume_run h item content kind row rs (store_of st) Hrow ltac:(eauto) Haid st eq_refl) as Hres.
  pose proof (resume_spec range_tasks digestManifest uuid constraint_text opts Hroot K h item content kind row rs st
    (find_resumable_spec uuid K _ _ _ _ _ Hst Hf)) as Hgood.
  unfold mbind at 1, SE_bind at 1, se_try. destruct (resumeSession h item content kind row rs st) as [st' [s|e]].
  - right. pose proof Hres as (_ & -> & _). by eapply opened_again_sync.
  - assert (synced s0 (put_status (st_last_error ("resume failed: " +:+ error_text constraint_text e)) st')) as Hst'.
    { eapply (synced_same s0 st'); [done|done|]. split; [done|by etrans]. }
    exact (Hfresh _ Hst').
Qed.

End from.

(** C19: Opening a session.  From every state the program reaches, an [OpenSession] that succeeds has either
    resumed a session of the store that had a saved runner, and then no event is written to any log;
    or it has begun a session with a new identifier whose log is [session_started] and one
    [task_viewed] for each task, and no other log is touched.  Either way the session's row is that
    of the assignment, in state [started], with the session's workspace. *)
Theorem open_session_logs st live h id st' s :
  sys_reachable range_tasks digestManifest sha256_hex unmarshal uuid constraint_text fuel (st, live) → host_ok h →
  OpenSession h id st = (st', Ok s) →
  let cid := s_clientSessionID s in
  row_started cid (sa_ID (wi_Assignment (s_item s))) (s_workspace s) (store_of st') ∧
  if s_restored s
  then is_Some (st_sessions (store_of st) !! cid) ∧ is_Some (st_runner (store_of st) !! cid) ∧
       ∀ c, log c (store_of st') = log c (store_of st)
  else st_sessions (store_of st) !! cid = None ∧
       (se_Type <$> log cid (store_of st')) = EventSessionStarted :: ((λ _, EventTaskViewed) <$> ac_Tasks (s_content s)) ∧
       ∀ c, c ≠ cid → log c (store_of st') = log c (store_of st).
Proof.
  intros [Hst _]%(reachable_sys_inv _ _ _ _ _ _ _ Hhook) Hh Ho cid. cbn [fst] in Hst.
  pose proof (open_run (store_of st) h id (store_of st) Hh st (conj Hst (reflexivity _))) as Hr. rewrite Ho in Hr.
  destruct Hr as [(Hre & _ & _ & Hnone & Hrow & evs & Hev & Hl)|(Hre & _ & Hs & Hrs & Hrow & Hle)]; (split; [done|]); rewrite Hre.
  - split_and!; [done| |].
    + rewrite (Hl cid), bool_decide_eq_true_2 by done. assert (log cid (store_of st) = []) as ->; [|done]. unfold log. rewrite filter_none; [done|].
      apply Forall_forall. intros x Hx E. destruct (so_events _ _ _ _ _ Hst x Hx) as [[y Hy] _]. rewrite E in Hy. unfold cid in Hy. by rewrite Hnone in Hy.
    + intros c Hc. rewrite (Hl c), bool_decide_eq_false_2 by done. by rewrite app_nil_r.
  - split_and!; [done|done|]. intros c. by rewrite (log_sync _ _ c (sl_outbox _ _ Hle)).
Qed.
End opening.
