(* ===== verification/EngineSample.v ===== *)
(** * The session engine: a run of the program

    An implementation of the JSON of saved terminal states, a server and a machine, and a student who
    opens a lesson, works on it and completes it: the theorems on the engine at that run. *)
From S2P Require Import Prelude GoStrings GoText Paths Utf8 Float64 Contracts ContentJson LmsData LmsDb Responses ActivityDoc Sessions.
From S2P Require Import ContentEncode WorkPage ClientStore ClientSync Mastery Typing Observe TerminalVerify TerminalRunner TerminalSession.
From S2P Require TypingRunner.
From S2P Require Import Engine EngineLogic TerminalRestart EngineSafety EngineSystem EngineOpen.
From stdpp Require Import pretty options.
Local Open Scope string_scope.
Local Open Scope list_scope.

(** ** A text form of saved terminal states *)

Local Abbreviation tree := (gen_tree (string + Z)).

Definition tS (s : string) : tree := GenLeaf (inl s).
Definition tZ (z : Z) : tree := GenLeaf (inr z).
Definition tB (b : bool) : tree := tZ (if b then 1 else 0).
Definition tL {A} (f : A → tree) (l : list A) : tree := GenNode 0 (f <$> l).
Definition tO {A} (f : A → tree) (x : option A) : tree := tL f (option_list x).

Definition oS (t : tree) : string := match t with GenLeaf (inl s) => s | _ => "" end.
Definition oZ (t : tree) : Z := match t with GenLeaf (inr z) => z | _ => 0%Z end.
Definition oB (t : tree) : bool := bool_decide (oZ t = 1%Z).
Definition oL {A} (f : tree → A) (t : tree) : list A := match t with GenNode _ l => f <$> l | _ => [] end.
Definition oO {A} (f : tree → A) (t : tree) : option A := head (oL f t).

Lemma oB_tB b : oB (tB b) = b.
Proof. by destruct b. Qed.
Lemma oL_tL {A} (f : A → tree) (g : tree → A) l : (∀ x, g (f x) = x) → oL g (tL f l) = l.
Proof. intros Hg. induction l as [|x l IH]; cbn in *; [done|]. by rewrite Hg, IH. Qed.
Lemma oO_tO {A} (f : A → tree) (g : tree → A) x : (∀ x, g (f x) = x) → oO g (tO f x) = x.
Proof. intros Hg. unfold oO, tO. rewrite oL_tL by done. by destruct x. Qed.

Definition t_excerpt (x : Excerpt) : tree :=
  GenNode 0 [tS (xc_Text x); tS (xc_SHA256 x); tZ (xc_ByteLen x); tB (xc_Truncated x); tB (xc_Trusted x)].
Definition o_excerpt (t : tree) : Excerpt :=
  match t with GenNode _ [a; b; c; d; e] => mkExcerpt (oS a) (oS b) (oZ c) (oB d) (oB e) | _ => mkExcerpt "" "" 0 false false end.
Lemma excerpt_tree x : o_excerpt (t_excerpt x) = x.
Proof. destruct x. cbn. by rewrite !oB_tB. Qed.

Definition t_pipeline (p : PipelineInfo) : tree :=
  GenNode 0 [tL tS (pi_Stages p); tB (pi_HasPipe p); tB (pi_HasRedirectOut p); tB (pi_HasRedirectIn p)].
Definition o_pipeline (t : tree) : PipelineInfo :=
  match t with GenNode _ [a; b; c; d] => mkPipeline (oL oS a) (oB b) (oB c) (oB d) | _ => mkPipeline [] false false false end.
Lemma pipeline_tree p : o_pipeline (t_pipeline p) = p.
Proof. destruct p. unfold o_pipeline, t_pipeline. by rewrite oL_tL, !oB_tB. Qed.

Definition t_quality (q : EvidenceQuality) : tree := tL tB [eq_Exit q; eq_Cwd q; eq_Argv q; eq_Stdout q; eq_Stderr q].
Definition o_quality (t : tree) : EvidenceQuality :=
  match oL oB t with [a; b; c; d; e] => mkQuality a b c d e | _ => mkQuality false false false false false end.
Lemma quality_tree q : o_quality (t_quality q) = q.
Proof. unfold o_quality, t_quality. rewrite (oL_tL _ _ _ oB_tB). by destruct q. Qed.

Definition t_command (c : CommandObservation) : tree :=
  GenNode 0 [tS (co_SchemaVersion c); tZ (co_Sequence c); tS (co_TaskID c); tZ (co_TaskIndex c); tZ (co_RecordedAt c);
    tS (co_Executable c); tL tS (co_Argv c); tB (co_ArgvAvailable c); tS (co_SubmittedLine c); tS (co_CwdBefore c);
    tS (co_CwdAfter c); tB (co_CwdAvailable c); tZ (co_ExitCode c); tB (co_ExitAvailable c); t_excerpt (co_Stdout c);
    t_excerpt (co_Stderr c); tO t_pipeline (co_Pipeline c); tS (co_ManifestBefore c); tS (co_ManifestAfter c);
    tL tS (co_WriteSet c); tS (co_Source c); tB (co_Structured c); t_quality (co_Quality c)].
Definition o_command (t : tree) : CommandObservation :=
  let l := match t with GenNode _ l => l | _ => [] end in
  let x i := default (tS "") (l !! i) in
  mkCommandObservation (oS (x 0)) (oZ (x 1)) (oS (x 2)) (oZ (x 3)) (oZ (x 4)) (oS (x 5)) (oL oS (x 6)) (oB (x 7)) (oS (x 8)) (oS (x 9))
    (oS (x 10)) (oB (x 11)) (oZ (x 12)) (oB (x 13)) (o_excerpt (x 14)) (o_excerpt (x 15)) (oO o_pipeline (x 16)) (oS (x 17)) (oS (x 18))
    (oL oS (x 19)) (oS (x 20)) (oB (x 21)) (o_quality (x 22)).
Lemma command_tree c : o_command (t_command c) = c.
Proof.
  unfold o_command, t_command. cbn -[oB tB oL tL oO tO o_excerpt t_excerpt o_quality t_quality oS oZ].
  rewrite !oB_tB, !oL_tL, !excerpt_tree, oO_tO, quality_tree by (done || apply pipeline_tree). by destruct c.
Qed.

Definition t_history (h : History) : tree :=
  GenNode 0 [tL t_command (hi_Events h); tL (λ x : Z * Z, tL tZ [x.1; x.2]) (map_to_list (hi_TaskStartSeq h))].
Definition o_history (t : tree) : History :=
  match t with
  | GenNode _ [a; b] => mkHistory (oL o_command a) (list_to_map (oL (λ t, match oL oZ t with [x; y] => (x, y) | _ => (0, 0)%Z end) b))
  | _ => mkHistory [] ∅
  end.
Lemma history_tree h : o_history (t_history h) = h.
Proof.
  unfold o_history, t_history. rewrite (oL_tL _ _ _ command_tree), oL_tL by (by intros []). rewrite list_to_map_to_list. by destruct h.
Qed.

(** The check rows and observations are left out: nothing reads them. *)
Definition t_terminal (d : terminalDurable) : tree :=
  GenNode 0 [tZ (td_V d); tS (td_Kind d); tS (td_RelCwd d); tZ (td_CommandsRun d); tZ (td_CurrentTaskIdx d); tB (td_RequiredPassed d);
    tZ (Z.of_nat (td_ChecksPassed d)); tS (td_LastOutput d); tS (td_LastError d); tS (td_LastShellCwd d); tS (td_LastShellExe d);
    tZ (td_LastExitCode d); tS (td_LastStdout d); tS (td_LastStderr d); tS (td_LastSource d); tB (td_LastStructured d);
    tO t_history (td_History d); tZ (td_NextSeq d); tS (td_LastManifest d); tL tS (td_SubmittedTasks d); tZ (td_SavedAt d)].
Definition o_terminal (t : tree) : terminalDurable :=
  let l := match t with GenNode _ l => l | _ => [] end in
  let x i := default (tS "") (l !! i) in
  TerminalRunner.mkDurable (oZ (x 0)) (oS (x 1)) (oS (x 2)) (oZ (x 3)) (oZ (x 4)) (oB (x 5)) (Z.to_nat (oZ (x 6))) [] [] (oS (x 7)) (oS (x 8)) (oS (x 9))
    (oS (x 10)) (oZ (x 11)) (oS (x 12)) (oS (x 13)) (oS (x 14)) (oB (x 15)) (oO o_history (x 16)) (oZ (x 17)) (oS (x 18)) (oL oS (x 19)) (oZ (x 20)).
Lemma terminal_tree d : td_Checks d = [] → td_Observations d = [] → o_terminal (t_terminal d) = d.
Proof.
  intros Hc Ho. unfold o_terminal, t_terminal. cbn -[oB tB oL tL oO tO Z.of_nat Z.to_nat].
  rewrite !oB_tB, oL_tL, oO_tO by (done || apply history_tree). destruct d. cbn in *. subst. by rewrite Nat2Z.id.
Qed.

Definition sample_engine_json : EngineJson := {|
  marshal_terminal d := z_text (Zpos (encode (t_terminal (clean_terminal [] [] d))));
  unmarshal_terminal s := match text_z s with
                          | Some (Zpos p) => match decode p with Some t => Ok (o_terminal t) | None => Err "invalid JSON" end
                          | _ => Err "invalid JSON"
                          end;
  marshal_digest_input digest obs := digest +:+ ":" +:+ GoStrings.Join (ob_CheckID <$> obs) "," |}.

Lemma sample_engine_laws : @EngineJsonLaws sample_engine_json.
Proof.
  split; [|intros d; cbn [marshal_terminal sample_engine_json]; intros E; by apply (f_equal text_z) in E; rewrite text_z_text in E].
  intros d. exists [], []. cbn [marshal_terminal unmarshal_terminal sample_engine_json]. rewrite text_z_text, decode_encode.
  f_equal. by apply terminal_tree.
Qed.

(** ** The run *)

Section run.
#[local] Existing Instance sample_text.
#[local] Existing Instance no_patterns.
#[local] Existing Instance sample_float.
#[local] Existing Instance sample_durable.
#[local] Existing Instance sample_engine_json.
#[local] Existing Instance sample_engine_laws.
#[local] Instance sample_wrap : WrapJson := {| TypingRunner.marshal_wrap now kind state := default "" state; TypingRunner.unmarshal_wrap s := Some s |}.

Definition w_item : StudentWorkItem := mkWorkItem
  (mkStudentAssignment "assignment-1" "student-1" "revision-1" None None "manual" "assigned" 0 0 None None "" ∅ 0 5)
  (mkLearningActivityRevision "revision-1" "activity-1" 1 "1" (contentMap (w_lesson [])) "digest-1" None 0)
  (mkLearningActivity "activity-1" "where-am-i" "Where am I" "" KindTerminal None "published" 0 0).

(** A server that lists one lesson and accepts everything. *)
#[local] Instance w_server : Server unit := {|
  srv_now _ := 7%Z;
  srv_Work _ _ _ w := (w, Ok (mkWorkPage [w_item] "cursor-1" WorkModeSnapshot false));
  srv_PostEvents _ _ l w := (w, Ok (Z.of_nat (length l) - 1)%Z);
  srv_PostArtifact _ _ _ w := (w, Ok tt);
  srv_Complete _ _ _ w := (w, Err (COther "connection reset"));
  srv_SubmitResponse _ _ _ w := (w, Err (COther "connection reset"));
  srv_ReportCapabilities _ _ w := (w, Ok tt) |}.
#[local] Instance w_session_server : SessionServer unit := {|
  srv_StartSession _ cid aid _ _ w := (w, Err (COther "connection reset")) |}.

Definition w_options : Options := mkOptions true true true "/work" false false true "" true false.
Definition w_uuid (n : nat) : string := "id-" +:+ pretty n.
#[local] Instance w_uuid_inj : Inj (=) (=) w_uuid.
Proof. intros a b E. unfold w_uuid in E. injection E as E. by apply (inj pretty). Qed.

Definition w_host : host :=
  mkHost w_view (λ _, None) w_exec (Ok "/tmp/x") true (Ok "/tmp/spool") None (Ok false) None true None None.

Local Abbreviation w_open := (OpenSession w_range w_digest w_uuid "constraint" 3 None w_options).
Local Abbreviation w_call := (run_call w_range w_digest w_sha (λ _, None) w_uuid "constraint" 3 None w_options w_host).

Definition w_start : estate unit :=
  mkEState (mkClient tt empty_store "" StatusIdle (mkSyncResult StatusIdle 0 0 0 0 0 0 None))
    (mkEngineStatus "init" (Some StatusIdle) 0 "" "" "" "" 0 0 0 false false false false "" "") "" 0.
Definition w_paired : estate unit := put_store (SetDeviceToken "token" (store_of w_start)) w_start.

(** The lesson is opened, and the calls are made on it one after the other. *)
Definition w_play (calls : list call) : option (estate unit * Session) :=
  match w_open w_host "assignment-1" w_paired with
  | (st, Ok s) => Some (foldl (λ x c, (w_call c x).1) (st, s) calls)
  | (_, Err _) => None
  end.

Local Abbreviation w_reachable_state := (sys_reachable w_range w_digest w_sha (λ _, None) w_uuid "constraint" 3).

Lemma w_options_ok : options_ok w_options.
Proof. by right. Qed.

Lemma w_host_ok : host_ok w_host.
Proof. by intros p [= <-]. Qed.

Lemma w_paired_reachable : w_reachable_state (w_paired, []).
Proof. exists w_start. split; [done|]. apply rtc_once. apply step_paired. Qed.

Lemma w_play_reachable calls x : w_play calls = Some x → w_reachable_state (x.1, [x.2]).
Proof.
  unfold w_play. destruct (w_open w_host "assignment-1" w_paired) as [st [s|e]] eqn:Eo; [|done]. intros [= <-].
  assert (w_reachable_state (st, [s])) as Hr.
  { destruct w_paired_reachable as (st0 & E0 & Hr). exists st0. split; [done|]. eapply rtc_r; [exact Hr|].
    apply (step_open _ _ _ _ _ _ _ None w_options w_host "assignment-1" w_paired [] st (Ok s) w_options_ok w_host_ok Eo). }
  change st with (st, s).1 in Hr. change s with (st, s).2 in Hr at 2. revert Hr. clear Eo. generalize (st, s).
  induction calls as [|c calls IH]; intros x Hx; [done|]. cbn [foldl]. apply IH. destruct Hx as (st0 & E0 & Hx). exists st0. split; [done|].
  eapply rtc_r; [exact Hx|]. destruct x as [st1 s1]. destruct (w_call c (st1, s1)) as [[st2 s2] r] eqn:Ec. exact (step_call _ _ _ _ _ _ _ None w_options w_host c st1 s1 st2 s2 r [] [] w_options_ok Ec).
Qed.

(** The student works on the lesson. *)
Definition w_work : list call := [CallRunLine "cd notes"; CallRunLine "pwd"].

(** A fact of the state after some calls, computed. *)
Definition w_after (calls : list call) (p : estate unit * Session → bool) : bool := match w_play calls with Some x => p x | None => false end.

Lemma w_after_play calls p : w_after calls p = true → ∃ x, w_play calls = Some x ∧ p x = true.
Proof. unfold w_after. destruct (w_play calls) as [x|]; [|done]. eauto. Qed.

Local Abbreviation w_complete := (Complete w_range w_digest w_sha (λ _, None) w_uuid "constraint" 3 None w_options w_host).
Local Abbreviation w_checked := (checked w_range w_digest w_sha (λ _, None) w_host).

Lemma w_lesson_content : s_content ∘ snd <$> w_play w_work = Some (w_lesson []).
Proof. vm_compute. reflexivity. Qed.

Lemma w_hook : hook_lines (λ _, None).
Proof. by intros ?. Qed.

Lemma completion_acceptable_witness :
  ∃ x, w_play w_work = Some x ∧ s_completed (w_complete x).1.2 = true ∧ queued w_uuid x.1 (w_checked x.1 x.2) (w_complete x).1.1 ∧
    validateRequiredChecks (w_lesson []) (runner_Observations (s_runner (w_checked x.1 x.2))) = Ok tt.
Proof.
  destruct (w_after_play w_work (λ x, negb (s_completed x.2) && runner_CompleteReady (s_runner (w_checked x.1 x.2)))) as (x & Hx & Hp); [vm_compute; reflexivity|].
  apply andb_true_iff in Hp as [Hnot%negb_true_iff Hready].
  pose proof w_lesson_content as Hc. rewrite Hx in Hc. cbn in Hc. apply (inj Some) in Hc.
  pose proof (completion_acceptable w_range w_digest w_sha (λ _, None) w_uuid "constraint" 3 w_hook None w_options w_options_ok x.1 [x.2] x.2 w_host
    (w_play_reachable _ _ Hx) ltac:(left) Hnot) as Ha. rewrite Hc in Ha.
  specialize (Ha ltac:(apply (bool_decide_unpack _); vm_compute; exact I)).
  specialize (Ha ltac:(intros t ch _ _ Hch _; apply list_elem_of_singleton in Hch as ->; reflexivity)). cbv zeta in Ha. rewrite Hready in Ha.
  exists x. split; [exact Hx|]. destruct x as [st s]. cbn [fst snd] in *. destruct (w_complete (st, s)) as [[st' s'] r]. cbn [fst snd].
  destruct Ha as (H1 & H2 & _ & H3 & _). exact (conj H1 (conj H2 H3)).
Defined.

Lemma session_log_witness :
  ∃ x, w_play (w_work ++ [CallComplete]) = Some x ∧ Contracts.se_Sequence <$> log (s_clientSessionID x.2) (store_of x.1) = [0; 1; 2; 3; 4; 5; 6]%Z ∧
    ∃ row, st_sessions (store_of x.1) !! s_clientSessionID x.2 = Some row ∧ log_ok (store_of x.1) (s_clientSessionID x.2) row.
Proof.
  destruct (w_after_play (w_work ++ [CallComplete]) (λ x, bool_decide (is_Some (st_sessions (store_of x.1) !! s_clientSessionID x.2)) &&
    bool_decide (Contracts.se_Sequence <$> log (s_clientSessionID x.2) (store_of x.1) = [0; 1; 2; 3; 4; 5; 6]%Z))) as (x & Hx & Hp); [vm_compute; reflexivity|].
  apply andb_true_iff in Hp as [Hrow%bool_decide_eq_true Hl%bool_decide_eq_true]. destruct Hrow as [row Hrow].
  exists x. split; [exact Hx|]. split; [exact Hl|]. exists row. split; [exact Hrow|].
  exact (proj1 (session_log w_range w_digest w_sha (λ _, None) w_uuid "constraint" 3 w_hook x.1 [x.2]
    (w_play_reachable _ _ Hx)) _ row Hrow).
Defined.

(** The server refused to start the session: after its completion and a pass of the sync loop it is still not delivered. *)
Lemma offline_session_undelivered_witness :
  ∃ x st' r c, w_play (w_work ++ [CallComplete]) = Some x ∧ eng_SyncOnce "constraint" 3 None w_options x.1 = (st', r) ∧
    st_completions (store_of st') !! "id-7" = Some c ∧ ci_ClientSessionID c = s_clientSessionID x.2 ∧ ci_Acked c = false.
Proof.
  destruct (w_after_play (w_work ++ [CallComplete]) (λ x,
    bool_decide (ss_ServerSessionID <$> st_sessions (store_of x.1) !! s_clientSessionID x.2 = Some "") &&
    bool_decide (ci_ClientSessionID <$> st_completions (store_of (eng_SyncOnce "constraint" 3 None w_options x.1).1) !! "id-7" = Some (s_clientSessionID x.2))))
    as (x & Hx & Hp); [vm_compute; reflexivity|].
  apply andb_true_iff in Hp as [Hrow%bool_decide_eq_true Hc%bool_decide_eq_true].
  apply fmap_Some in Hrow as (row & Hrow & Hoff). apply fmap_Some in Hc as (c & Hc & Hid).
  destruct (eng_SyncOnce "constraint" 3 None w_options x.1) as [st' r] eqn:Es. cbn [fst] in Hc.
  exists x, st', r, c. split_and!; [exact Hx|done|exact Hc|done|].
  exact (proj2 (offline_session_undelivered w_range w_digest w_sha (λ _, None) w_uuid "constraint" 3 w_hook x.1 [x.2]
    (s_clientSessionID x.2) row (w_play_reachable _ _ Hx) Hrow (eq_sym Hoff) st' [x.2]
    (rtc_once _ _ (step_sync _ _ _ _ _ _ _ None w_options x.1 [x.2] st' r w_options_ok Es))) _ _ Hc (eq_sym Hid)).
Defined.

(** The program is killed and the lesson is opened again: the same session, and no event of it is written twice. *)
Lemma open_session_logs_witness :
  ∃ x st s, w_play w_work = Some x ∧ w_open w_host "assignment-1" x.1 = (st, Ok s) ∧ s_restored s = true ∧
    s_clientSessionID s = s_clientSessionID x.2 ∧ log (s_clientSessionID s) (store_of st) = log (s_clientSessionID s) (store_of x.1).
Proof.
  destruct (w_after_play w_work (λ x, match w_open w_host "assignment-1" x.1 with
    | (_, Ok s) => s_restored s && bool_decide (s_clientSessionID s = s_clientSessionID x.2) | (_, Err _) => false end)) as (x & Hx & Hp);
    [vm_compute; reflexivity|].
  destruct (w_open w_host "assignment-1" x.1) as [st [s|e]] eqn:Eo; [|discriminate Hp].
  apply andb_true_iff in Hp as [Hre Hid%bool_decide_eq_true].
  destruct (open_session_logs w_range w_digest w_sha (λ _, None) w_uuid "constraint" 3 None w_options w_hook w_options_ok x.1 [x.2] w_host
    "assignment-1" st s (w_play_reachable _ _ Hx) w_host_ok Eo) as [_ Hl]. rewrite Hre in Hl.
  exists x, st, s. exact (conj Hx (conj Eo (conj Hre (conj Hid (proj2 (proj2 Hl) _))))).
Defined.

(** The runner of the lesson is restored by a new process in the directory the student had moved to. *)
Lemma terminal_restart_witness :
  ∃ r', runner_RestoreState w_range w_host 1 (runner_EncodeState 0 (RTerminal (w_done []))) (RTerminal (w_opened [])) = Ok (RTerminal r') ∧
    tr_cwd r' = "/ws/notes" ∧ length (hi_Events (tr_history r')) = 2%nat ∧ CompleteReady r' = true.
Proof.
  destruct (terminal_restart w_range w_digest w_sha (w_lesson []) "/ws" (λ _, None) w_view w_host 0 1 0 (w_opts []) (w_done []) (w_opened []))
    as (r' & Hr & _).
  - reflexivity.
  - apply w_reachable. vm_compute. reflexivity.
  - reflexivity.
  - reflexivity.
  - vm_compute. reflexivity.
  - vm_compute. reflexivity.
  - exists r'. split; [exact Hr|].
    assert (match runner_RestoreState w_range w_host 1 (runner_EncodeState 0 (RTerminal (w_done []))) (RTerminal (w_opened [])) with
            | Ok (RTerminal r) => bool_decide (tr_cwd r = "/ws/notes" ∧ length (hi_Events (tr_history r)) = 2%nat ∧ CompleteReady r = true)
            | _ => false end = true) as Hc by (vm_compute; reflexivity).
    rewrite Hr in Hc. exact (bool_decide_eq_true_1 _ Hc).
Defined.

(** A session that is left while it completes is open again: [Pause] saves the runner and the state [paused]
    over the completed row, so the lesson resumes and can be completed a second time. *)
Example pause_reopens_completed :
  w_after (w_work ++ [CallComplete; CallPause]) (λ x,
    s_completed x.2 &&
    match w_open w_host "assignment-1" x.1 with
    | (st, Ok s) =>
        s_restored s && bool_decide (s_clientSessionID s = s_clientSessionID x.2) && negb (s_completed s) &&
        bool_decide (size (filter (λ c : string * CompletionIntent, ci_ClientSessionID c.2 = s_clientSessionID x.2)
                             (st_completions (store_of (w_complete (st, s)).1.1))) = 2%nat)
    | (_, Err _) => false
    end) = true.
Proof. vm_compute. reflexivity. Qed.
End run.
