(* ===== verification/IdentityData.v ===== *)
(** * Primer Identity: rows, checks and transactions

    The rows of the identity service's OAuth tables ([domain/oauth_token.go],
    [domain/oauth_broker.go]), the validation of what is written to them, the keyed
    hashes of secrets ([secrethash/secrethash.go]) and the transactions the repository
    runs ([repo/errors.go], [repo/oauth_broker.go]) with the constraints of the migrations.

    Times are microseconds, the resolution of PostgreSQL.  Byte strings are strings.
    Internal errors are their class: the texts never reach a caller. *)
From S2P Require Import Prelude GoStrings Utf8 LmsDb.
From Stdlib Require Import Ascii.
From stdpp Require Import options.
Local Open Scope string_scope.

(** ** Times *)

Definition Second : Z := 1000000.
Definition Minute : Z := 60 * Second.
Definition Hour : Z := 60 * Minute.
(** The zero [time.Time]: the first of January of year 1. *)
Definition time_zero : Z := -62135596800 * Second.
Definition IsZero (t : Z) : bool := bool_decide (t = time_zero).

Definition MaxRefreshIdle : Z := 14 * 24 * Hour.
Definition MaxRefreshAbsolute : Z := 90 * 24 * Hour.
Definition MaxAccessTTL : Z := 15 * Minute.
Definition MaxAssertionTTL : Z := 5 * Minute.
Definition AssertionClockSkew : Z := 60 * Second.
Definition MaxAssertionReplayRetention : Z := MaxAssertionTTL + AssertionClockSkew.

Definition uuid_Nil : string := "00000000-0000-0000-0000-000000000000".

(** ** Rows *)

Record OAuthClient := mkOAuthClient {
  oc_ID : string; oc_ClientID : string; oc_ClientType : string; oc_AuthMethod : string; oc_SecretHash : string;
  oc_SecretPepper : option Z; oc_AllowedGrants : list string; oc_Enabled : bool; oc_DisabledAt : option Z }.

Record OAuthClientRedirect := mkRedirect {
  rd_ID : string; rd_ClientID : string; rd_RedirectURI : string; rd_ResourceURI : string; rd_Audience : string;
  rd_AllowedScopes : list string; rd_Enabled : bool }.

Record OAuthClientKey := mkClientKey {
  ok_ID : string; ok_ClientID : string; ok_Kid : string; ok_JWK : string; ok_Enabled : bool; ok_NotBefore : option Z;
  ok_NotAfter : option Z; ok_DisabledAt : option Z }.

Record ClientAssertionReplay := mkReplay {
  cr_ID : string; cr_ClientID : string; cr_EndpointKind : string; cr_JTIHash : string; cr_Audience : string;
  cr_IssuedAt : Z; cr_ExpiresAt : Z; cr_ConsumedAt : Z }.

Record ProviderSessionAssociation := mkAssociation {
  pa_ID : string; pa_AccountID : string; pa_MappingID : string; pa_Provider : string; pa_ProjectID : string;
  pa_OrganizationID : string; pa_MemberID : string; pa_MemberSessionID : string; pa_ExpiresAt : Z; pa_Status : string }.

Record OAuthGrant := mkGrant {
  og_ID : string; og_AccountID : option string; og_ServicePrincipalID : option string; og_ClientID : string;
  og_AssociationID : option string; og_ResourceURI : string; og_Audience : string; og_Scopes : list string;
  og_SubjectClass : string; og_Status : string; og_GrantedAt : Z; og_NotAfter : Z; og_RevokedAt : option Z;
  og_RevokeReason : option string; og_Version : Z }.

Record OAuthAuthorizationCode := mkCode {
  ac_ID : string; ac_CodeHash : string; ac_Pepper : Z; ac_GrantID : string; ac_BrokerID : string; ac_ClientID : string;
  ac_RedirectURI : string; ac_ResourceURI : string; ac_Audience : string; ac_Scopes : list string; ac_PKCEChallenge : string;
  ac_PKCEMethod : string; ac_IssuedAt : Z; ac_ExpiresAt : Z; ac_ConsumedAt : option Z }.

Record OAuthRefreshFamily := mkFamily {
  rf_ID : string; rf_GrantID : string; rf_ClientID : string; rf_ResourceURI : string; rf_Status : string;
  rf_AbsoluteExpiresAt : Z; rf_IdleExpiresAt : Z; rf_LastRotatedAt : Z; rf_RevokedAt : option Z; rf_ExpiredAt : option Z;
  rf_ReuseDetectedAt : option Z; rf_RevokeReason : option string; rf_Version : Z }.

Record OAuthRefreshToken := mkToken {
  rt_ID : string; rt_FamilyID : string; rt_TokenHash : string; rt_Pepper : Z; rt_Sequence : Z; rt_IssuedAt : Z;
  rt_ExpiresAt : Z; rt_ConsumedAt : option Z; rt_RevokedAt : option Z; rt_ReplacedByID : option string;
  rt_ReuseDetectedAt : option Z }.

Record TokenIssuanceAudit := mkAudit {
  ta_ID : string; ta_GrantID : string; ta_CodeID : option string; ta_CodeHash : option string; ta_SubjectRef : string;
  ta_ClientID : string; ta_ResourceURI : string; ta_Audience : string; ta_Scopes : list string; ta_JTIHash : string;
  ta_Kid : string; ta_IssuedAt : Z; ta_ExpiresAt : Z; ta_Outcome : string; ta_CorrelationHash : option string }.

Record ServicePrincipal := mkPrincipal { sp_ID : string; sp_SubjectRef : string; sp_Enabled : bool; sp_DisabledAt : option Z }.

Record ServiceCredential := mkCredential {
  sc_ID : string; sc_PrincipalID : string; sc_ClientID : string; sc_SecretHash : string; sc_Pepper : Z; sc_ResourceURI : string;
  sc_Audience : string; sc_AllowedScopes : list string; sc_CreatedAt : Z; sc_RotatedAt : option Z; sc_RevokedAt : option Z;
  sc_Status : string }.

(** ** Validation ([domain]): true where the code returns no error *)

Definition ValidString (s : string) : bool := bool_decide (string_of_runes (runes s) = s).
Definition no_control (s : string) : bool := forallb (λ r, (0x20 <=? r)%Z && negb (r =? 0x7f)%Z) (runes s).

Definition validateBoundedText (s : string) (max : nat) : bool :=
  negb (bool_decide (s = "")) && ValidString s && bool_decide (String.length s ≤ max)%nat && no_control s.

Fixpoint sorted_unique (l : list string) : bool :=
  match l with
  | a :: (b :: _) as l' => str_lt a b && sorted_unique l'
  | _ => true
  end.

Definition validateCanonicalArray (values : list string) : bool :=
  bool_decide (1 ≤ length values ≤ 32)%nat && forallb (λ v, validateBoundedText v 128) values && sorted_unique values.
Definition ValidateCanonicalScopes (scopes : list string) : bool := validateCanonicalArray scopes.
Definition CanonicalScopes (scopes : list string) : list string := order_by str_le scopes.
Definition FormatScopes (scopes : list string) : string := GoStrings.Join (CanonicalScopes scopes) " ".

Definition letter_digit (r : Z) : bool :=
  in_range 65 90 r || in_range 97 122 r || in_range 48 57 r.

Definition validatePKCE (challenge method : string) : bool :=
  bool_decide (method = "S256") && bool_decide (String.length challenge = 43)%nat &&
  forallb (λ r, letter_digit r || (r =? 95)%Z || (r =? 45)%Z) (runes challenge).

Definition validateCodeVerifier (verifier : string) : bool :=
  bool_decide (43 ≤ String.length verifier ≤ 128)%nat && ValidString verifier &&
  forallb (λ r, letter_digit r || (r =? 45)%Z || (r =? 46)%Z || (r =? 95)%Z || (r =? 126)%Z) (runes verifier).

Definition hash32 (h : string) : bool := bool_decide (String.length h = 32)%nat.

(** What the code calls in packages outside the repository and in [crypto]: [uuid.Parse] (the canonical
    text of what it parsed), HMAC-SHA-256 and the S256 challenge of a verifier. *)
Class IdentityCrypto := {
  uuid_Parse : string → option string;
  hmac_sha256 : string → string → string;
  s256_challenge : string → string }.

(** A keyed hash has 32 bytes. *)
Class CryptoLaws `{!IdentityCrypto} := { hmac_length : ∀ key msg, String.length (hmac_sha256 key msg) = 32%nat }.

Section validation.
Context `{!IdentityCrypto}.

Definition MaxClientIDLen : nat := 128.

Definition ValidatePublicClientID (clientID : string) : bool :=
  validateBoundedText clientID MaxClientIDLen && negb (bool_decide (is_Some (uuid_Parse clientID))).

Definition VerifyS256PKCE (verifier challenge : string) : bool :=
  validateCodeVerifier verifier && validatePKCE challenge "S256" && bool_decide (s256_challenge verifier = challenge).

Definition ValidateClientAssertionReplay (x : ClientAssertionReplay) : bool :=
  negb (bool_decide (cr_ClientID x = uuid_Nil)) && one_of (cr_EndpointKind x) ["token"; "revocation"] && hash32 (cr_JTIHash x) &&
  validateBoundedText (cr_Audience x) 2048 &&
  negb (IsZero (cr_IssuedAt x)) && bool_decide (cr_IssuedAt x < cr_ExpiresAt x)%Z &&
  bool_decide (cr_ExpiresAt x ≤ cr_IssuedAt x + MaxAssertionReplayRetention)%Z &&
  (IsZero (cr_ConsumedAt x) ||
   bool_decide (cr_IssuedAt x - AssertionClockSkew ≤ cr_ConsumedAt x)%Z && bool_decide (cr_ConsumedAt x ≤ cr_ExpiresAt x)%Z).

Record InitialRefreshIssuance := mkInitialRefresh {
  ir_Family : OAuthRefreshFamily; ir_Token : OAuthRefreshToken; ir_ClientID : string; ir_GrantNotAfter : Z; ir_ProviderExpiresAt : Z }.

Definition ValidateInitialRefreshIssuance (x : InitialRefreshIssuance) : bool :=
  let f := ir_Family x in
  let t := ir_Token x in
  let rotated := if IsZero (rf_LastRotatedAt f) then rt_IssuedAt t else rf_LastRotatedAt f in
  ValidatePublicClientID (ir_ClientID x) &&
  negb (negb (bool_decide (rf_ClientID f = uuid_Nil)) && bool_decide (ir_ClientID x = rf_ClientID f)) &&
  negb (bool_decide (rf_GrantID f = uuid_Nil)) && negb (bool_decide (rf_ClientID f = uuid_Nil)) &&
  validateBoundedText (rf_ResourceURI f) 2048 &&
  bool_decide (rf_Status f = "active") &&
  bool_decide (rf_RevokedAt f = None) && bool_decide (rf_ExpiredAt f = None) && bool_decide (rf_ReuseDetectedAt f = None) &&
  bool_decide (rf_RevokeReason f = None) &&
  bool_decide (rotated < rf_AbsoluteExpiresAt f)%Z && bool_decide (rotated < rf_IdleExpiresAt f)%Z &&
  bool_decide (rf_IdleExpiresAt f ≤ rf_AbsoluteExpiresAt f)%Z &&
  bool_decide (rf_IdleExpiresAt f ≤ rotated + MaxRefreshIdle)%Z && bool_decide (rf_AbsoluteExpiresAt f ≤ rotated + MaxRefreshAbsolute)%Z &&
  (IsZero (ir_GrantNotAfter x) || bool_decide (rf_AbsoluteExpiresAt f ≤ ir_GrantNotAfter x)%Z) &&
  (IsZero (ir_ProviderExpiresAt x) || bool_decide (rf_AbsoluteExpiresAt f ≤ ir_ProviderExpiresAt x)%Z) &&
  hash32 (rt_TokenHash t) && bool_decide (0 < rt_Pepper t)%Z && bool_decide (rt_Sequence t = 0)%Z &&
  bool_decide (rt_ConsumedAt t = None) && bool_decide (rt_RevokedAt t = None) && bool_decide (rt_ReplacedByID t = None) &&
  bool_decide (rt_ReuseDetectedAt t = None) &&
  bool_decide (rt_IssuedAt t < rt_ExpiresAt t)%Z && bool_decide (rt_ExpiresAt t ≤ rf_IdleExpiresAt f)%Z.

Definition ValidateTokenIssuanceAudit (a : TokenIssuanceAudit) : bool :=
  negb (bool_decide (ta_GrantID a = uuid_Nil)) && hash32 (ta_JTIHash a) &&
  (bool_decide (ta_CodeID a = None) || match ta_CodeHash a with Some h => hash32 h | None => false end) &&
  match ta_CodeHash a with Some h => hash32 h | None => true end &&
  ValidatePublicClientID (ta_ClientID a) && HasPrefix (ta_SubjectRef a) "identity:" && validateBoundedText (ta_SubjectRef a) 160 &&
  validateBoundedText (ta_ResourceURI a) 2048 && validateBoundedText (ta_Audience a) 128 && ValidateCanonicalScopes (ta_Scopes a) &&
  validateBoundedText (ta_Kid a) 128 && bool_decide (ta_Outcome a = "committed") &&
  bool_decide (ta_IssuedAt a < ta_ExpiresAt a)%Z && bool_decide (ta_ExpiresAt a ≤ ta_IssuedAt a + MaxAccessTTL)%Z &&
  match ta_CorrelationHash a with Some h => hash32 h | None => true end.

Record ClaimAuthorizationCodeInput := mkClaim {
  ci_CodeHash : string; ci_ClientID : string; ci_RedirectURI : string; ci_ResourceURI : string; ci_Audience : string;
  ci_CodeVerifier : string; ci_Now : Z }.

(** [validateClaimNow]: every clock of the service is read in UTC. *)
Definition validateClaimNow (now : Z) : bool := negb (IsZero now).

Definition ValidateClaimAuthorizationCode (x : ClaimAuthorizationCodeInput) : bool :=
  hash32 (ci_CodeHash x) && negb (bool_decide (ci_ClientID x = uuid_Nil)) && validateClaimNow (ci_Now x) &&
  validateBoundedText (ci_RedirectURI x) 2048 && validateBoundedText (ci_ResourceURI x) 2048 &&
  (bool_decide (ci_Audience x = "") || validateBoundedText (ci_Audience x) 128) && validateCodeVerifier (ci_CodeVerifier x).

Definition BindingMatches (code : OAuthAuthorizationCode) (x : ClaimAuthorizationCodeInput) : bool :=
  bool_decide (ac_ClientID code = ci_ClientID x) && bool_decide (ac_RedirectURI code = ci_RedirectURI x) &&
  bool_decide (ac_ResourceURI code = ci_ResourceURI x) && bool_decide (ac_Audience code = ci_Audience x) &&
  VerifyS256PKCE (ci_CodeVerifier x) (ac_PKCEChallenge code).

Definition ValidateOAuthGrant (g : OAuthGrant) : bool :=
  bool_decide (og_SubjectClass g = "human") && bool_decide (is_Some (og_AccountID g)) && bool_decide (is_Some (og_AssociationID g)) &&
  bool_decide (og_ServicePrincipalID g = None) && bool_decide (og_GrantedAt g < og_NotAfter g)%Z && ValidateCanonicalScopes (og_Scopes g).

Definition ValidateProviderMemberSessionID (id : string) : bool :=
  negb (bool_decide (id = "")) && ValidString id && bool_decide (RuneCountInString id ≤ 255)%nat &&
  bool_decide (String.length id ≤ Z.to_nat 1024)%nat && no_control id.

Definition ValidateProviderSessionAssociation (a : ProviderSessionAssociation) : bool :=
  negb (bool_decide (pa_AccountID a = uuid_Nil)) && negb (bool_decide (pa_MappingID a = uuid_Nil)) &&
  bool_decide (pa_Provider a = "stytch_b2b") && validateBoundedText (pa_ProjectID a) 255 &&
  validateBoundedText (pa_OrganizationID a) 255 && validateBoundedText (pa_MemberID a) 255 &&
  ValidateProviderMemberSessionID (pa_MemberSessionID a).

Definition ValidateConsumeBindings (code : OAuthAuthorizationCode) (g : OAuthGrant) (a : ProviderSessionAssociation) (now : Z)
    (x : ClaimAuthorizationCodeInput) : bool :=
  BindingMatches code x && ValidateOAuthGrant g && bool_decide (og_ID g = ac_GrantID code) &&
  bool_decide (og_ClientID g = ci_ClientID x) && bool_decide (og_ClientID g = ac_ClientID code) &&
  bool_decide (og_ResourceURI g = ci_ResourceURI x) && bool_decide (og_Audience g = ci_Audience x) &&
  bool_decide (og_Status g = "active") && validateClaimNow now && bool_decide (now < og_NotAfter g)%Z &&
  bool_decide (og_AssociationID g = Some (pa_ID a)) && ValidateProviderSessionAssociation a &&
  bool_decide (pa_Status a = "active") && bool_decide (og_AccountID g = Some (pa_AccountID a)).

Definition HumanSubjectRef (accountID : string) : string := "identity:" +:+ accountID.

(** ** Keyed hashes ([secrethash]) *)

Definition byte (n : Z) : string := String (ascii_of_N (Z.to_N (n mod 256))) "".
Definition be16 (n : Z) : string := byte (n / 256) +:+ byte n.
Definition be32 (n : Z) : string := byte (n / 16777216) +:+ byte (n / 65536) +:+ byte (n / 256) +:+ byte n.

Definition hash_message (version : Z) (context secret : string) : string :=
  be16 version +:+ be32 (Z.of_nat (String.length context)) +:+ context +:+ be32 (Z.of_nat (String.length secret)) +:+ secret.

Definition Hash (peppers : gmap Z string) (version : Z) (context secret : string) : option string :=
  if bool_decide (version ≤ 0)%Z || bool_decide (context = "") || bool_decide (secret = "") ||
     bool_decide (Z.to_nat 4096 < String.length secret)%nat || bool_decide (128 < String.length context)%nat ||
     negb (ValidString context) || negb (no_control context) then None
  else match peppers !! version with
       | Some pepper => if hash32 pepper then Some (hmac_sha256 pepper (hash_message version context secret)) else None
       | None => None
       end.

Definition hash_Equal (left right : string) : bool := hash32 left && hash32 right && bool_decide (left = right).
End validation.

(** ** The database and its constraints *)

Record idb := mkIdb {
  id_clients : gmap string OAuthClient; id_redirects : gmap string OAuthClientRedirect; id_client_keys : gmap string OAuthClientKey;
  id_replays : gmap string ClientAssertionReplay; id_associations : gmap string ProviderSessionAssociation;
  id_grants : gmap string OAuthGrant; id_codes : gmap string OAuthAuthorizationCode; id_families : gmap string OAuthRefreshFamily;
  id_tokens : gmap string OAuthRefreshToken; id_audits : gmap string TokenIssuanceAudit; id_principals : gmap string ServicePrincipal;
  id_credentials : gmap string ServiceCredential; id_signing_kids : gset string }.

Definition set_replays x d := mkIdb (id_clients d) (id_redirects d) (id_client_keys d) x (id_associations d) (id_grants d) (id_codes d)
  (id_families d) (id_tokens d) (id_audits d) (id_principals d) (id_credentials d) (id_signing_kids d).
Definition set_grants x d := mkIdb (id_clients d) (id_redirects d) (id_client_keys d) (id_replays d) (id_associations d) x (id_codes d)
  (id_families d) (id_tokens d) (id_audits d) (id_principals d) (id_credentials d) (id_signing_kids d).
Definition set_codes x d := mkIdb (id_clients d) (id_redirects d) (id_client_keys d) (id_replays d) (id_associations d) (id_grants d) x
  (id_families d) (id_tokens d) (id_audits d) (id_principals d) (id_credentials d) (id_signing_kids d).
Definition set_families x d := mkIdb (id_clients d) (id_redirects d) (id_client_keys d) (id_replays d) (id_associations d) (id_grants d)
  (id_codes d) x (id_tokens d) (id_audits d) (id_principals d) (id_credentials d) (id_signing_kids d).
Definition set_tokens x d := mkIdb (id_clients d) (id_redirects d) (id_client_keys d) (id_replays d) (id_associations d) (id_grants d)
  (id_codes d) (id_families d) x (id_audits d) (id_principals d) (id_credentials d) (id_signing_kids d).
Definition set_audits x d := mkIdb (id_clients d) (id_redirects d) (id_client_keys d) (id_replays d) (id_associations d) (id_grants d)
  (id_codes d) (id_families d) (id_tokens d) x (id_principals d) (id_credentials d) (id_signing_kids d).
Definition set_principals x d := mkIdb (id_clients d) (id_redirects d) (id_client_keys d) (id_replays d) (id_associations d) (id_grants d)
  (id_codes d) (id_families d) (id_tokens d) (id_audits d) x (id_credentials d) (id_signing_kids d).
Definition set_credentials x d := mkIdb (id_clients d) (id_redirects d) (id_client_keys d) (id_replays d) (id_associations d) (id_grants d)
  (id_codes d) (id_families d) (id_tokens d) (id_audits d) (id_principals d) x (id_signing_kids d).

(** The CHECK constraints, migrations 5, 7, 9 and 11. *)

Definition is_none {A} (o : option A) : bool := match o with None => true | Some _ => false end.
Definition at_least (lo : Z) (o : option Z) : bool := match o with None => true | Some t => (lo <=? t)%Z end.

Definition family_ck (f : OAuthRefreshFamily) : bool :=
  one_of (rf_Status f) ["active"; "revoked"; "expired"; "reuse_detected"] &&
  (rf_LastRotatedAt f <? rf_AbsoluteExpiresAt f)%Z && (rf_LastRotatedAt f <? rf_IdleExpiresAt f)%Z &&
  (rf_IdleExpiresAt f <=? rf_AbsoluteExpiresAt f)%Z && (rf_IdleExpiresAt f <=? rf_LastRotatedAt f + MaxRefreshIdle)%Z &&
  (rf_AbsoluteExpiresAt f <=? rf_LastRotatedAt f + MaxRefreshAbsolute)%Z &&
  (bool_decide (rf_Status f = "active") && is_none (rf_RevokedAt f) && is_none (rf_ExpiredAt f) && is_none (rf_ReuseDetectedAt f) &&
     is_none (rf_RevokeReason f)
   || bool_decide (rf_Status f = "revoked") && negb (is_none (rf_RevokedAt f)) && is_none (rf_ExpiredAt f) &&
     is_none (rf_ReuseDetectedAt f) && negb (is_none (rf_RevokeReason f))
   || bool_decide (rf_Status f = "expired") && is_none (rf_RevokedAt f) && negb (is_none (rf_ExpiredAt f)) &&
     is_none (rf_ReuseDetectedAt f) && negb (is_none (rf_RevokeReason f))
   || bool_decide (rf_Status f = "reuse_detected") && negb (is_none (rf_RevokedAt f)) && is_none (rf_ExpiredAt f) &&
     negb (is_none (rf_ReuseDetectedAt f)) && negb (is_none (rf_RevokeReason f))).

Definition token_ck (t : OAuthRefreshToken) : bool :=
  hash32 (rt_TokenHash t) && (0 <? rt_Pepper t)%Z && (0 <=? rt_Sequence t)%Z && (rt_IssuedAt t <? rt_ExpiresAt t)%Z &&
  negb (bool_decide (rt_ReplacedByID t = Some (rt_ID t))) &&
  (is_none (rt_ConsumedAt t) && is_none (rt_RevokedAt t) && is_none (rt_ReplacedByID t) && is_none (rt_ReuseDetectedAt t)
   || negb (is_none (rt_ConsumedAt t)) && is_none (rt_RevokedAt t) && negb (is_none (rt_ReplacedByID t))
   || is_none (rt_ConsumedAt t) && negb (is_none (rt_RevokedAt t)) && is_none (rt_ReplacedByID t) && is_none (rt_ReuseDetectedAt t)) &&
  at_least (rt_IssuedAt t) (rt_ConsumedAt t) && at_least (rt_IssuedAt t) (rt_RevokedAt t) &&
  match rt_ReuseDetectedAt t, rt_ConsumedAt t with
  | None, _ => true
  | Some r, Some c => negb (is_none (rt_ReplacedByID t)) && (c <=? r)%Z
  | Some _, None => false
  end.

Definition live (t : OAuthRefreshToken) : bool := is_none (rt_ConsumedAt t) && is_none (rt_RevokedAt t).

(** No two rows have the same key. *)
Definition unique_key {A K} `{EqDecision K} (key : A → option K) (t : gmap string A) : bool := bool_decide (NoDup (omap key (rows t))).

Definition tokens_unique (t : gmap string OAuthRefreshToken) : bool :=
  unique_key (λ x, Some (rt_TokenHash x)) t && unique_key (λ x, Some (rt_FamilyID x, rt_Sequence x)) t &&
  unique_key rt_ReplacedByID t && unique_key (λ x, if live x then Some (rt_FamilyID x) else None) t.

Definition grant_ck (g : OAuthGrant) : bool :=
  one_of (og_SubjectClass g) ["human"; "service"] && one_of (og_Status g) ["active"; "revoked"; "expired"] &&
  (og_GrantedAt g <? og_NotAfter g)%Z &&
  (bool_decide (og_SubjectClass g = "human") && negb (is_none (og_AccountID g)) && is_none (og_ServicePrincipalID g) && negb (is_none (og_AssociationID g))
   || bool_decide (og_SubjectClass g = "service") && is_none (og_AccountID g) && negb (is_none (og_ServicePrincipalID g)) && is_none (og_AssociationID g)) &&
  (bool_decide (og_Status g = "active") && is_none (og_RevokedAt g) && is_none (og_RevokeReason g)
   || negb (bool_decide (og_Status g = "active")) && negb (is_none (og_RevokedAt g)) && negb (is_none (og_RevokeReason g))).

(** The subject of an audited token: [identity:<uuid>] or [identity:svc:<uuid>]. *)
Definition uuid_text (s : string) : bool :=
  bool_decide (String.length s = 36)%nat && forallb (λ r, in_range 48 57 r || in_range 97 102 r || (r =? 45)%Z) (runes s).
Definition subject_ck (s : string) : bool :=
  HasPrefix s "identity:" &&
  (uuid_text (TrimPrefix s "identity:") || HasPrefix s "identity:svc:" && uuid_text (TrimPrefix s "identity:svc:")).

Definition audit_ck (a : TokenIssuanceAudit) : bool :=
  hash32 (ta_JTIHash a) && bool_decide (ta_Outcome a = "committed") && (ta_IssuedAt a <? ta_ExpiresAt a)%Z &&
  (ta_ExpiresAt a <=? ta_IssuedAt a + MaxAccessTTL)%Z && match ta_CodeHash a with Some h => hash32 h | None => true end &&
  (is_none (ta_CodeID a) || negb (is_none (ta_CodeHash a))) && match ta_CorrelationHash a with Some h => hash32 h | None => true end &&
  subject_ck (ta_SubjectRef a) && bool_decide (1 ≤ String.length (ta_ClientID a) ≤ 128)%nat && no_control (ta_ClientID a) &&
  no_control (ta_Kid a).

Definition replay_ck (x : ClientAssertionReplay) : bool :=
  one_of (cr_EndpointKind x) ["token"; "revocation"] && hash32 (cr_JTIHash x) && (cr_ConsumedAt x <=? cr_ExpiresAt x)%Z &&
  (cr_IssuedAt x <? cr_ExpiresAt x)%Z && (cr_ExpiresAt x <=? cr_IssuedAt x + MaxAssertionReplayRetention)%Z &&
  no_control (cr_Audience x) && bool_decide (1 ≤ String.length (cr_Audience x) ≤ Z.to_nat 2048)%nat.

Definition credential_ck (c : ServiceCredential) : bool :=
  hash32 (sc_SecretHash c) && (0 <? sc_Pepper c)%Z && bool_decide (1 ≤ RuneCountInString (sc_ResourceURI c) ≤ Z.to_nat 2048)%nat &&
  no_control (sc_ResourceURI c) && no_control (sc_Audience c) && bool_decide (1 ≤ RuneCountInString (sc_Audience c) ≤ 128)%nat &&
  bool_decide (1 ≤ length (sc_AllowedScopes c) ≤ 32)%nat && forallb (λ s, one_of s ["studio.read"; "studio.draft"]) (sc_AllowedScopes c) &&
  (bool_decide (sc_Status c = "active") && is_none (sc_RevokedAt c) || bool_decide (sc_Status c = "revoked") && negb (is_none (sc_RevokedAt c))) &&
  at_least (sc_CreatedAt c) (sc_RotatedAt c).

(** The deferred triggers of the refresh tables ([identity_refresh_family_lifecycle], migration 8):
    an active family has exactly one current token, another none. *)
Definition live_tokens (d : idb) (family : string) : list OAuthRefreshToken :=
  select (λ t, bool_decide (rt_FamilyID t = family) && live t) (id_tokens d).
Definition lifecycle_ok (d : idb) : bool :=
  forallb (λ f, if bool_decide (rf_Status f = "active") then bool_decide (length (live_tokens d (rf_ID f)) = 1)%nat
                else bool_decide (length (live_tokens d (rf_ID f)) = 0)%nat) (rows (id_families d)).

(** ** Transactions *)

Inductive ierr := INotFound | IConflict | IWidening | IInvalid | IOther | IOAuth (code description : string).

#[export] Instance ierr_eq_dec : EqDecision ierr.
Proof. solve_decision. Defined.

(** [mapPGError] *)
Definition mapPGError (sqlstate : string) : ierr :=
  if bool_decide (sqlstate = "23505") then IConflict
  else if bool_decide (sqlstate = "23514") then IInvalid
  else if bool_decide (sqlstate = "23503") then INotFound
  else IOther.

Record iconn := mkIconn { ic_db : idb; ic_aborted : bool }.
Definition IM (A : Type) : Type := iconn → iconn * result ierr A.

#[export] Instance IM_ret : MRet IM := λ A a c, (c, Ok a).
#[export] Instance IM_bind : MBind IM := λ A B f m c, match m c with (c', Ok a) => f a c' | (c', Err e) => (c', Err e) end.

Definition ithrow {A} (e : ierr) : IM A := λ c, (c, Err e).
Definition iensure (b : bool) (e : ierr) : IM unit := if b then mret tt else ithrow e.
Definition iattempt {A} (m : IM A) : IM (result ierr A) := λ c, let (c', r) := m c in (c', Ok r).
(** Replaces the error. *)
Definition ion_error {A} (f : ierr → ierr) (m : IM A) : IM A := λ c, match m c with (c', Err e) => (c', Err (f e)) | ok => ok end.

(** A statement inside a transaction; after one that fails every other fails. *)
Definition istmt {A} (f : idb → result string (idb * A)) : IM A := λ c,
  if ic_aborted c then (c, Err (mapPGError "25P02"))
  else match f (ic_db c) with
       | Ok (d, a) => (mkIconn d false, Ok a)
       | Err code => (mkIconn (ic_db c) true, Err (mapPGError code))
       end.
Definition iquery {A} (f : idb → A) : IM A := istmt (λ d, Ok (d, f d)).

(** One transaction that no concurrent one disturbs: it takes effect as if alone.  The deferred
    triggers run at the commit. *)
Definition serializable {A} (fn : IM A) (d : idb) : idb * result ierr A :=
  match fn (mkIconn d false) with
  | (c, Ok a) => if ic_aborted c || negb (lifecycle_ok (ic_db c)) then (d, Err IOther) else (ic_db c, Ok a)
  | (_, Err e) => (d, Err e)
  end.

(** [WithSerializableRetry]: a transaction that loses against a concurrent one (40001, 40P01) is rolled
    back and repeated; after [maxAttempts] of them the error is returned.  [conflicts] attempts are lost. *)
Definition maxAttempts : nat := 8.
Fixpoint attempt_loop {A} (attempts conflicts : nat) (fn : IM A) (d : idb) : idb * result ierr A :=
  match attempts, conflicts with
  | O, _ => (d, Err IOther)
  | S attempts', S conflicts' => attempt_loop attempts' conflicts' fn d
  | S _, O => serializable fn d
  end.
Definition WithSerializableRetry {A} (conflicts : nat) (fn : IM A) (d : idb) : idb * result ierr A := attempt_loop maxAttempts conflicts fn d.

(** [UPDATE t SET f WHERE p], checked by [ck] and, afterwards, by [unique]. *)
Definition update_where {A} (p : A → bool) (f : A → A) (t : gmap string A) : gmap string A := (λ x, if p x then f x else x) <$> t.

Definition table_ok {A} (ck : A → bool) (unique : gmap string A → bool) (t : gmap string A) : option string :=
  if negb (forallb ck (rows t)) then Some "23514" else if negb (unique t) then Some "23505" else None.

Definition write_tokens (t : gmap string OAuthRefreshToken) (d : idb) : result string (idb * unit) :=
  match table_ok token_ck tokens_unique t with Some code => Err code | None => Ok (set_tokens t d, tt) end.
Definition write_families (t : gmap string OAuthRefreshFamily) (d : idb) : result string (idb * unit) :=
  match table_ok family_ck (λ _, true) t with Some code => Err code | None => Ok (set_families t d, tt) end.

(** The partial indexes on active grants. *)
Definition grants_unique (t : gmap string OAuthGrant) : bool :=
  unique_key (λ g, if bool_decide (og_SubjectClass g = "human") && bool_decide (og_Status g = "active")
                   then Some (og_AccountID g, og_ClientID g, og_AssociationID g, og_ResourceURI g, og_Audience g) else None) t &&
  unique_key (λ g, if bool_decide (og_SubjectClass g = "service") && bool_decide (og_Status g = "active")
                   then Some (og_ServicePrincipalID g, og_ClientID g, og_ResourceURI g, og_Audience g) else None) t.
Definition write_grants (t : gmap string OAuthGrant) (d : idb) : result string (idb * unit) :=
  match table_ok grant_ck grants_unique t with Some code => Err code | None => Ok (set_grants t d, tt) end.

(** [identity_canonical_text_array] (migration 4), on the scopes of a new grant or audit row. *)
Definition scopes_trigger (values : list string) : bool :=
  bool_decide (length values ≤ 32)%nat && forallb (λ v, bool_decide (1 ≤ String.length v ≤ 128)%nat && no_control v) values && sorted_unique values.
