(* ===== verification/OAuthTokens.v ===== *)
(** * Primer Identity: tokens

    Exchange of authorization codes, rotation of refresh tokens, tokens of services and
    revocation: the repository operations ([repo/oauth_token.go], [repo/refresh.go],
    [repo/service_principals.go]), the token endpoint's core ([oauth/service.go]) and the
    checks and lifetime of the access tokens it mints ([token/mint.go], [token/assertion.go]).

    Parameters: the random bytes of a new refresh token, the signer (from the claims to the
    compact token, if a key is available) and the parsed claims of a client assertion whose
    signature verifies under one of the client's keys. *)
From S2P Require Import Prelude GoStrings Utf8 LmsDb IdentityData.
From Stdlib Require Import Ascii.
From stdpp Require Import options.
Local Open Scope string_scope.

(** ** Repository operations *)

Section repo.
Context `{!Postgres, !IdentityCrypto}.

Definition GetEnabledOAuthClientByClientID (clientID : string) : IM OAuthClient :=
  _ ← iensure (ValidatePublicClientID clientID) IInvalid;
  l ← iquery (λ d, select (λ c, bool_decide (oc_ClientID c = clientID) && oc_Enabled c && is_none (oc_DisabledAt c)) (id_clients d));
  match l with c :: _ => mret c | [] => ithrow INotFound end.

Definition GetEnabledOAuthClientRedirect (clientID redirectURI resourceURI : string) : IM OAuthClientRedirect :=
  _ ← iensure (negb (bool_decide (clientID = uuid_Nil))) IInvalid;
  l ← iquery (λ d, select (λ r, bool_decide (rd_ClientID r = clientID) && rd_Enabled r && bool_decide (rd_RedirectURI r = redirectURI) &&
                                bool_decide (rd_ResourceURI r = resourceURI)) (id_redirects d));
  match l with r :: _ => mret r | [] => ithrow INotFound end.

(** The keys that are valid at [now]. *)
Definition ListEnabledOAuthClientKeys (clientID : string) (now : Z) : IM (list OAuthClientKey) :=
  _ ← iensure (negb (bool_decide (clientID = uuid_Nil))) IInvalid;
  iquery (λ d, select (λ k, bool_decide (ok_ClientID k = clientID) && ok_Enabled k && is_none (ok_DisabledAt k) &&
                            match ok_NotBefore k with Some t => (t <=? now)%Z | None => true end &&
                            match ok_NotAfter k with Some t => (now <? t)%Z | None => true end) (id_client_keys d)).

Definition RecordClientAssertionReplay (x : ClientAssertionReplay) : IM unit :=
  _ ← iensure (ValidateClientAssertionReplay x) IInvalid;
  istmt (λ d,
    let row := mkReplay (gen_random_uuid (dom (id_replays d))) (cr_ClientID x) (cr_EndpointKind x) (cr_JTIHash x) (cr_Audience x)
                 (cr_IssuedAt x) (cr_ExpiresAt x) (cr_ConsumedAt x) in
    let t := <[cr_ID row := row]> (id_replays d) in
    match table_ok replay_ck (unique_key (λ r, Some (cr_ClientID r, cr_EndpointKind r, cr_JTIHash r))) t with
    | Some code => Err code
    | None => if has_key (id_clients d) (cr_ClientID x) then Ok (set_replays t d, tt) else Err "23503"
    end).

(** The oldest first. *)
Definition expired_replays (now : Z) (d : idb) : list ClientAssertionReplay :=
  order_by (λ a b, (cr_ExpiresAt a <=? cr_ExpiresAt b)%Z) (select (λ r, (cr_ExpiresAt r <=? now)%Z) (id_replays d)).
Definition PurgeExpiredClientAssertionReplaysBounded (now limit : Z) : IM nat :=
  let limit := if (limit <=? 0)%Z then 256%Z else limit in
  istmt (λ d, let gone := take (Z.to_nat limit) (expired_replays now d) in
              Ok (set_replays (foldr delete (id_replays d) (cr_ID <$> gone)) d, length gone)).

Definition PurgeExpiredClientAssertionReplays (now : Z) : IM nat :=
  istmt (λ d, let gone := expired_replays now d in Ok (set_replays (foldr delete (id_replays d) (cr_ID <$> gone)) d, length gone)).

Definition GetOAuthGrant (id : string) : IM OAuthGrant :=
  _ ← iensure (negb (bool_decide (id = uuid_Nil))) IInvalid;
  r ← iquery (λ d, id_grants d !! id);
  match r with Some g => mret g | None => ithrow INotFound end.

Definition GetProviderSessionAssociation (id : string) : IM ProviderSessionAssociation :=
  _ ← iensure (negb (bool_decide (id = uuid_Nil))) IInvalid;
  r ← iquery (λ d, id_associations d !! id);
  match r with Some a => mret a | None => ithrow INotFound end.

Definition LoadConsumeBindings (grantID : string) : IM (OAuthGrant * ProviderSessionAssociation) :=
  g ← GetOAuthGrant grantID;
  match og_AssociationID g with
  | None => ithrow IInvalid
  | Some a => assoc ← GetProviderSessionAssociation a; mret (g, assoc)
  end.

Definition code_consumed (now : Z) (c : OAuthAuthorizationCode) : OAuthAuthorizationCode :=
  mkCode (ac_ID c) (ac_CodeHash c) (ac_Pepper c) (ac_GrantID c) (ac_BrokerID c) (ac_ClientID c) (ac_RedirectURI c) (ac_ResourceURI c)
    (ac_Audience c) (ac_Scopes c) (ac_PKCEChallenge c) (ac_PKCEMethod c) (ac_IssuedAt c) (ac_ExpiresAt c) (Some now).

Definition claim_audience (audience : string) (x : ClaimAuthorizationCodeInput) : ClaimAuthorizationCodeInput :=
  if bool_decide (ci_Audience x = "")
  then mkClaim (ci_CodeHash x) (ci_ClientID x) (ci_RedirectURI x) (ci_ResourceURI x) audience (ci_CodeVerifier x) (ci_Now x) else x.

Definition ClaimAuthorizationCode (x : ClaimAuthorizationCodeInput) : IM OAuthAuthorizationCode :=
  _ ← iensure (ValidateClaimAuthorizationCode x) IInvalid;
  l ← iquery (λ d, select (λ c, bool_decide (ac_CodeHash c = ci_CodeHash x)) (id_codes d));
  match l with
  | [] => ithrow INotFound
  | code :: _ =>
      let x := claim_audience (ac_Audience code) x in
      _ ← iensure (is_none (ac_ConsumedAt code)) IConflict;
      _ ← iensure (ci_Now x <=? ac_ExpiresAt code)%Z IInvalid;
      ga ← LoadConsumeBindings (ac_GrantID code);
      _ ← iensure (ValidateConsumeBindings code ga.1 ga.2 (ci_Now x) x) IInvalid;
      istmt (λ d, Ok (set_codes (update_where (λ c, bool_decide (ac_ID c = ac_ID code) && is_none (ac_ConsumedAt c)) (code_consumed (ci_Now x)) (id_codes d)) d,
                      code_consumed (ci_Now x) code))
  end.

Definition CreateInitialRefreshFamily (x : InitialRefreshIssuance) : IM (OAuthRefreshFamily * OAuthRefreshToken) :=
  _ ← iensure (ValidateInitialRefreshIssuance x) IInvalid;
  let f := ir_Family x in
  let t := ir_Token x in
  family ← istmt (λ d,
    let id := gen_random_uuid (dom (id_families d)) in
    let row := mkFamily id (rf_GrantID f) (rf_ClientID f) (rf_ResourceURI f) (rf_Status f) (rf_AbsoluteExpiresAt f) (rf_IdleExpiresAt f)
                 (rf_LastRotatedAt f) None None None None 0 in
    if negb (has_key (id_grants d) (rf_GrantID f)) || negb (has_key (id_clients d) (rf_ClientID f)) then Err "23503"
    else '(d', _) ← write_families (<[id := row]> (id_families d)) d; Ok (d', row));
  token ← istmt (λ d,
    let id := gen_random_uuid (dom (id_tokens d)) in
    let row := mkToken id (rf_ID family) (rt_TokenHash t) (rt_Pepper t) (rt_Sequence t) (rt_IssuedAt t) (rt_ExpiresAt t) None None None None in
    '(d', _) ← write_tokens (<[id := row]> (id_tokens d)) d; Ok (d', row));
  mret (family, token).

Definition CreateTokenIssuanceAudit (a : TokenIssuanceAudit) : IM unit :=
  _ ← iensure (ValidateTokenIssuanceAudit a) IInvalid;
  known ← iquery (λ d, bool_decide (ta_Kid a ∈ id_signing_kids d));
  _ ← iensure known INotFound;
  istmt (λ d,
    let id := gen_random_uuid (dom (id_audits d)) in
    let row := mkAudit id (ta_GrantID a) (ta_CodeID a) (ta_CodeHash a) (ta_SubjectRef a) (ta_ClientID a) (ta_ResourceURI a) (ta_Audience a)
                 (ta_Scopes a) (ta_JTIHash a) (ta_Kid a) (ta_IssuedAt a) (ta_ExpiresAt a) (ta_Outcome a) (ta_CorrelationHash a) in
    if negb (audit_ck row) then Err "23514"
    else if negb (scopes_trigger (ta_Scopes row)) then Err "P0001"
    else if negb (has_key (id_grants d) (ta_GrantID row)) || negb (has_opt (id_codes d) (ta_CodeID row)) then Err "23503"
    else Ok (set_audits (<[id := row]> (id_audits d)) d, tt)).

(** *** The end of a family *)

Definition token_revoked (now : Z) (t : OAuthRefreshToken) : OAuthRefreshToken :=
  mkToken (rt_ID t) (rt_FamilyID t) (rt_TokenHash t) (rt_Pepper t) (rt_Sequence t) (rt_IssuedAt t) (rt_ExpiresAt t) (rt_ConsumedAt t)
    (Some now) (rt_ReplacedByID t) (rt_ReuseDetectedAt t).
Definition revoke_live_tokens (familyID : string) (now : Z) : IM unit :=
  istmt (λ d, write_tokens (update_where (λ t, bool_decide (rt_FamilyID t = familyID) && live t) (token_revoked now) (id_tokens d)) d).

Definition family_end (status : string) (revoked expired reuse : option Z) (reason : string) (f : OAuthRefreshFamily) : OAuthRefreshFamily :=
  mkFamily (rf_ID f) (rf_GrantID f) (rf_ClientID f) (rf_ResourceURI f) status (rf_AbsoluteExpiresAt f) (rf_IdleExpiresAt f)
    (rf_LastRotatedAt f) (match revoked with Some _ => revoked | None => rf_RevokedAt f end)
    (match expired with Some _ => expired | None => rf_ExpiredAt f end) (match reuse with Some _ => reuse | None => rf_ReuseDetectedAt f end)
    (Some reason) (rf_Version f + 1).

Definition grant_end (status : string) (now : Z) (reason : string) (g : OAuthGrant) : OAuthGrant :=
  mkGrant (og_ID g) (og_AccountID g) (og_ServicePrincipalID g) (og_ClientID g) (og_AssociationID g) (og_ResourceURI g) (og_Audience g)
    (og_Scopes g) (og_SubjectClass g) status (og_GrantedAt g) (og_NotAfter g) (Some now) (Some reason) (og_Version g + 1).
(** [UPDATE oauth_grants ... FROM oauth_refresh_families f WHERE f.id = ... AND g.status = 'active'] *)
Definition end_grant_of (familyID status : string) (now : Z) (reason : string) : IM unit :=
  istmt (λ d, write_grants (update_where (λ g, bool_decide (rf_GrantID <$> id_families d !! familyID = Some (og_ID g)) && bool_decide (og_Status g = "active"))
                              (grant_end status now reason) (id_grants d)) d).

Definition revoke_family (familyID reason : string) (now : Z) : IM unit :=
  istmt (λ d, write_families (update_where (λ f, bool_decide (rf_ID f = familyID) && bool_decide (rf_Status f = "active"))
                                (family_end "revoked" (Some now) None None reason) (id_families d)) d).

Definition revokeInitialRefreshFamilyTx (familyID reason : string) (now : Z) : IM unit :=
  _ ← revoke_live_tokens familyID now;
  _ ← revoke_family familyID reason now;
  end_grant_of familyID "revoked" now reason.

Definition markRefreshExpired (familyID : string) (now : Z) : IM unit :=
  _ ← revoke_live_tokens familyID now;
  _ ← istmt (λ d, write_families (update_where (λ f, bool_decide (rf_ID f = familyID) && bool_decide (rf_Status f = "active"))
                                    (family_end "expired" None (Some now) None "expired") (id_families d)) d);
  end_grant_of familyID "expired" now "expired".

Definition markRefreshReuse (familyID : string) (now : Z) : IM unit :=
  _ ← revoke_live_tokens familyID now;
  _ ← istmt (λ d, write_families (update_where (λ f, bool_decide (rf_ID f = familyID))
                                    (family_end "reuse_detected" (Some now) None (Some now) "refresh_reuse") (id_families d)) d);
  end_grant_of familyID "revoked" now "refresh_reuse".

(** The token with its family. *)
Definition joined (d : idb) (p : OAuthRefreshToken → OAuthRefreshFamily → bool) : list (OAuthRefreshToken * OAuthRefreshFamily) :=
  omap (λ t, match id_families d !! rt_FamilyID t with Some f => if p t f then Some (t, f) else None | None => None end) (rows (id_tokens d)).

Definition RevokeOwnedInitialRefresh (hashes : list string) (clientID reason : string) (now : Z) : IM unit :=
  _ ← iensure (negb (bool_decide (clientID = uuid_Nil))) IInvalid;
  if bool_decide (hashes = []) then mret tt
  else
    l ← iquery (λ d, joined d (λ t _, bool_decide (rt_TokenHash t ∈ hashes)));
    match l with
    | [] => mret tt
    | (_, f) :: _ => if bool_decide (rf_ClientID f = clientID) then revokeInitialRefreshFamilyTx (rf_ID f) reason now else mret tt
    end.

(** *** Rotation *)

Definition validateRefreshScope (granted requested : list string) : bool :=
  bool_decide (requested = []) || forallb (λ s, bool_decide (s ∈ granted)) requested.

Definition token_consumed (now : Z) (next : string) (t : OAuthRefreshToken) : OAuthRefreshToken :=
  mkToken (rt_ID t) (rt_FamilyID t) (rt_TokenHash t) (rt_Pepper t) (rt_Sequence t) (rt_IssuedAt t) (rt_ExpiresAt t) (Some now)
    (rt_RevokedAt t) (Some next) (rt_ReuseDetectedAt t).
Definition token_unrevoked (t : OAuthRefreshToken) : OAuthRefreshToken :=
  mkToken (rt_ID t) (rt_FamilyID t) (rt_TokenHash t) (rt_Pepper t) (rt_Sequence t) (rt_IssuedAt t) (rt_ExpiresAt t) (rt_ConsumedAt t)
    None (rt_ReplacedByID t) (rt_ReuseDetectedAt t).
Definition family_rotated (now : Z) (f : OAuthRefreshFamily) : OAuthRefreshFamily :=
  mkFamily (rf_ID f) (rf_GrantID f) (rf_ClientID f) (rf_ResourceURI f) (rf_Status f) (rf_AbsoluteExpiresAt f)
    (Z.min (now + MaxRefreshIdle) (rf_AbsoluteExpiresAt f)) now (rf_RevokedAt f) (rf_ExpiredAt f) (rf_ReuseDetectedAt f)
    (rf_RevokeReason f) (rf_Version f + 1).

(** The first of the hashes that some token of the client and resource has. *)
Fixpoint find_refresh (hashes : list string) (clientID resource : string) : IM (option (OAuthRefreshToken * OAuthRefreshFamily)) :=
  match hashes with
  | [] => mret None
  | h :: rest =>
      l ← iquery (λ d, joined d (λ t f, bool_decide (rt_TokenHash t = h) && bool_decide (rf_ClientID f = clientID) && bool_decide (rf_ResourceURI f = resource)));
      match l with x :: _ => mret (Some x) | [] => find_refresh rest clientID resource end
  end.

Definition token_dead (t : OAuthRefreshToken) : bool := negb (is_none (rt_ConsumedAt t)) || negb (is_none (rt_RevokedAt t)).
Definition out_of_time (t : OAuthRefreshToken) (f : OAuthRefreshFamily) (now : Z) : bool :=
  (rt_ExpiresAt t <=? now)%Z || (rf_IdleExpiresAt f <=? now)%Z || (rf_AbsoluteExpiresAt f <=? now)%Z.

Record RefreshRedemption := mkRedemption {
  rr_Family : OAuthRefreshFamily; rr_Previous : OAuthRefreshToken; rr_Next : OAuthRefreshToken; rr_Grant : OAuthGrant;
  rr_Association : ProviderSessionAssociation }.

(** The four statements that replace [prev]; the new row is revoked until [prev] points at it. *)
Definition rotate (prev : OAuthRefreshToken) (family : OAuthRefreshFamily) (nextHash : string) (pepper now : Z) : IM OAuthRefreshToken :=
  next ← istmt (λ d,
    let id := gen_random_uuid (dom (id_tokens d)) in
    let row := mkToken id (rf_ID family) nextHash pepper (rt_Sequence prev + 1) now (rf_IdleExpiresAt family) None (Some now) None None in
    '(d', _) ← write_tokens (<[id := row]> (id_tokens d)) d; Ok (d', row));
  _ ← istmt (λ d, write_tokens (update_where (λ t, bool_decide (rt_ID t = rt_ID prev) && live t) (token_consumed now (rt_ID next)) (id_tokens d)) d);
  _ ← istmt (λ d, write_tokens (update_where (λ t, bool_decide (rt_ID t = rt_ID next)) token_unrevoked (id_tokens d)) d);
  _ ← istmt (λ d, write_families (update_where (λ f, bool_decide (rf_ID f = rf_ID family)) (family_rotated now) (id_families d)) d);
  mret next.

Definition RedeemRefreshToken (hashes : list string) (clientID resource : string) (requested : list string) (nextHash : string)
    (pepper now : Z) : IM RefreshRedemption :=
  _ ← iensure (negb (bool_decide (clientID = uuid_Nil)) && negb (bool_decide (hashes = [])) && negb (bool_decide (resource = "")) &&
               hash32 nextHash && (0 <? pepper)%Z && negb (IsZero now)) IInvalid;
  found ← find_refresh hashes clientID resource;
  match found with
  | None => ithrow INotFound
  | Some (prev, family) =>
      grant ← GetOAuthGrant (rf_GrantID family);
      if negb (bool_decide (og_Status grant = "active")) || negb (bool_decide (rf_Status family = "active")) || token_dead prev ||
         out_of_time prev family now then
        _ ← (if token_dead prev then markRefreshReuse (rf_ID family) now
             else if out_of_time prev family now then markRefreshExpired (rf_ID family) now else mret tt);
        ithrow IConflict
      else
        _ ← iensure (validateRefreshScope (og_Scopes grant) requested) IWidening;
        ga ← LoadConsumeBindings (og_ID grant);
        next ← rotate prev family nextHash pepper now;
        mret (mkRedemption family prev next grant ga.2)
  end.

(** *** Services ([service_principals.go]) *)

(** The newest active credential of an enabled principal and client, with the principal's subject and
    [disabled_at], which the code reads as the end of the credential. *)
Definition GetActiveServiceCredential (clientID : string) : IM (ServiceCredential * string * option Z) :=
  _ ← iensure (negb (bool_decide (clientID = uuid_Nil))) IInvalid;
  l ← iquery (λ d, order_by (λ a b, (sc_CreatedAt b.1.1 <=? sc_CreatedAt a.1.1)%Z)
        (omap (λ c, match id_principals d !! sc_PrincipalID c, id_clients d !! sc_ClientID c with
                    | Some p, Some oc => if bool_decide (sc_ClientID c = clientID) && oc_Enabled oc && sp_Enabled p &&
                                           bool_decide (sc_Status c = "active") && is_none (sc_RevokedAt c)
                                         then Some (c, sp_SubjectRef p, sp_DisabledAt p) else None
                    | _, _ => None
                    end) (rows (id_credentials d))));
  match l with x :: _ => mret x | [] => ithrow INotFound end.

Record ServiceCredentialInput := mkCredentialInput {
  si_ID : string; si_PrincipalID : string; si_ClientID : string; si_SecretHash : string; si_Pepper : Z; si_ResourceURI : string;
  si_Audience : string; si_AllowedScopes : list string }.

Definition credentials_unique (t : gmap string ServiceCredential) : bool :=
  unique_key (λ c, if bool_decide (sc_Status c = "active") && is_none (sc_RevokedAt c) then Some (sc_PrincipalID c, sc_ClientID c) else None) t.

Definition CreateServiceCredential (x : ServiceCredentialInput) (now : Z) : IM string :=
  _ ← iensure (negb (bool_decide (si_PrincipalID x = uuid_Nil)) && negb (bool_decide (si_ClientID x = uuid_Nil)) && hash32 (si_SecretHash x) &&
               (0 <? si_Pepper x)%Z && negb (bool_decide (si_ResourceURI x = "")) && negb (bool_decide (si_Audience x = "")) &&
               negb (bool_decide (si_AllowedScopes x = []))) IInvalid;
  istmt (λ d,
    let id := if bool_decide (si_ID x = uuid_Nil) then gen_random_uuid (dom (id_credentials d)) else si_ID x in
    let row := mkCredential id (si_PrincipalID x) (si_ClientID x) (si_SecretHash x) (si_Pepper x) (si_ResourceURI x) (si_Audience x)
                 (si_AllowedScopes x) now None None "active" in
    let t := <[id := row]> (id_credentials d) in
    if has_key (id_credentials d) id then Err "23505"
    else match table_ok credential_ck credentials_unique t with
         | Some code => Err code
         | None => if has_key (id_principals d) (si_PrincipalID x) && has_key (id_clients d) (si_ClientID x)
                   then Ok (set_credentials t d, id) else Err "23503"
         end).

Definition credential_revoked (now : Z) (rotated : bool) (c : ServiceCredential) : ServiceCredential :=
  mkCredential (sc_ID c) (sc_PrincipalID c) (sc_ClientID c) (sc_SecretHash c) (sc_Pepper c) (sc_ResourceURI c) (sc_Audience c)
    (sc_AllowedScopes c) (sc_CreatedAt c) (if rotated then Some now else sc_RotatedAt c) (Some now) "revoked".
Definition revoke_credential (id : string) (now : Z) (rotated : bool) : IM unit :=
  istmt (λ d,
    let t := update_where (λ c, bool_decide (sc_ID c = id) && bool_decide (sc_Status c = "active") && (negb rotated || is_none (sc_RevokedAt c)))
               (credential_revoked now rotated) (id_credentials d) in
    match table_ok credential_ck credentials_unique t with Some code => Err code | None => Ok (set_credentials t d, tt) end).

Definition RotateServiceCredential (oldID : string) (x : ServiceCredentialInput) (now : Z) : IM string :=
  _ ← iensure (negb (bool_decide (oldID = uuid_Nil)) && negb (IsZero now)) IInvalid;
  _ ← revoke_credential oldID now true;
  _ ← iensure (negb (bool_decide (si_PrincipalID x = uuid_Nil)) && negb (bool_decide (si_ClientID x = uuid_Nil))) IInvalid;
  CreateServiceCredential x now.

Definition RevokeServiceCredential (id : string) (now : Z) : IM unit :=
  _ ← iensure (negb (bool_decide (id = uuid_Nil)) && negb (IsZero now)) IInvalid;
  revoke_credential id now false.

Definition DisableServicePrincipal (id : string) (now : Z) : IM unit :=
  _ ← iensure (negb (bool_decide (id = uuid_Nil)) && negb (IsZero now)) IInvalid;
  istmt (λ d, Ok (set_principals (update_where (λ p, bool_decide (sp_ID p = id) && sp_Enabled p)
                    (λ p, mkPrincipal (sp_ID p) (sp_SubjectRef p) false (Some now)) (id_principals d)) d, tt)).

(** The active grant of the service for the target, made when there is none. *)
Definition CreateServiceGrant (principalID clientID resource audience : string) (scopes : list string) (now notAfter : Z) : IM string :=
  _ ← iensure (negb (bool_decide (principalID = uuid_Nil)) && negb (bool_decide (clientID = uuid_Nil)) && negb (bool_decide (resource = "")) &&
               negb (bool_decide (audience = "")) && negb (bool_decide (scopes = [])) && (now <? notAfter)%Z) IInvalid;
  l ← iquery (λ d, select (λ g, bool_decide (og_ServicePrincipalID g = Some principalID) && bool_decide (og_ClientID g = clientID) &&
                                bool_decide (og_ResourceURI g = resource) && bool_decide (og_Audience g = audience) &&
                                bool_decide (og_SubjectClass g = "service") && bool_decide (og_Status g = "active")) (id_grants d));
  match l with
  | g :: _ => mret (og_ID g)
  | [] =>
      istmt (λ d,
        let id := gen_random_uuid (dom (id_grants d)) in
        let row := mkGrant id None (Some principalID) clientID None resource audience scopes "service" "active" now notAfter None None 0 in
        if negb (scopes_trigger scopes) then Err "P0001"
        else if negb (has_key (id_principals d) principalID) || negb (has_key (id_clients d) clientID) then Err "23503"
        else '(d', _) ← write_grants (<[id := row]> (id_grants d)) d; Ok (d', id))
  end.
End repo.

(** ** Client assertions and access tokens ([token]) *)

Definition boundedUTF8 (s : string) (max : nat) : bool :=
  validateBoundedText s max && forallb (λ r, negb (r =? RuneError)%Z) (runes s).

(** The claims of a client assertion, times in seconds. *)
Record parsedAssertion := mkParsedAssertion {
  as_iss : string; as_sub : string; as_aud : string; as_jti : string; as_iat : Z; as_exp : Z; as_nbf : option Z }.

Record ClientAssertion := mkClientAssertion { cl_JTI : string; cl_IssuedAt : Z; cl_ExpiresAt : Z }.

(** The claims of an access token, times in seconds. *)
Record access_claims := mkClaims {
  at_iss : string; at_sub : string; at_aud : string; at_exp : Z; at_iat : Z; at_jti : string; at_client_id : string; at_scope : string }.

Record HumanInput := mkHumanInput {
  hi_Subject : string; hi_Audience : string; hi_ClientID : string; hi_Scope : string; hi_TTL : Z; hi_GrantNotAfter : Z; hi_ProviderExpiresAt : Z }.

Record IssuedToken := mkIssued { it_Compact : string; it_Lifetime : Z; it_IssuedAt : Z; it_ExpiresAt : Z; it_JTI : string; it_Kid : string }.

Inductive mint_err := MintInvalid | MintUnavailable.

(** What signs: the id of the current key, if there is one, and the compact token for claims: the signing
    may fail or take too long, or the result be too large. *)
Class TokenSigner := {
  signing_kid : option string;
  sign_claims : string → access_claims → result mint_err string;
  (** The claims of an assertion signed under one of the keys, its header and segments in order. *)
  assertion_claims : list string → string → option parsedAssertion }.

Section token.
Context `{!IdentityCrypto, !TokenSigner}.

Definition requireClientID (s : string) : bool := ValidatePublicClientID s && boundedUTF8 s MaxClientIDLen.

Definition validScopeToken (s : string) : bool :=
  negb (bool_decide (s = "")) && ValidString s && forallb (λ r, in_range 0x21 0x7e r && negb (r =? 34)%Z && negb (r =? 92)%Z) (runes s).

(** The parts without repetitions, in the order of their first occurrence. *)
Fixpoint first_occurrences (seen l : list string) : list string :=
  match l with
  | [] => []
  | x :: l' => if bool_decide (x ∈ seen) then first_occurrences seen l' else x :: first_occurrences (x :: seen) l'
  end.

Definition canonicalScope (raw : string) : option string :=
  let parts := Fields raw in
  if boundedUTF8 raw 256 && bool_decide (1 ≤ length parts ≤ 16)%nat &&
     forallb (λ p, bool_decide (String.length p ≤ 64)%nat && validScopeToken p) parts then
    let joined := GoStrings.Join (order_by str_le (first_occurrences [] parts)) " " in
    if bool_decide (String.length joined ≤ 256)%nat then Some joined else None
  else None.

Definition requireUUID (s : string) : bool :=
  boundedUTF8 s 36 && match uuid_Parse s with Some c => negb (bool_decide (c = uuid_Nil)) && bool_decide (c = s) | None => false end.
Definition requireServiceSubject (s : string) : bool :=
  HasPrefix s "identity:svc:" && negb (bool_decide (TrimPrefix s "identity:svc:" = "")) && boundedUTF8 s 160.
Definition requireAudience (s : string) : bool :=
  boundedUTF8 s 128 && negb (ContainsAny s (" ,[]" +:+ bytes [9])).

(** The lifetime left until a bound, whole seconds. *)
Definition truncate_second (t : Z) : Z := t / Second * Second.
Definition cap_lifetime (bound iat lifetime : Z) : option Z :=
  if IsZero bound then Some lifetime
  else let remain := (truncate_second bound - iat)%Z in
       if (remain <=? 0)%Z then None else Some (Z.min remain lifetime).

Definition numericDateMaxUnix : Z := 4102444800.

(** [finishIssue] up to the persisting; [now] is the reading of the clock. *)
Definition issueHuman (issuer kid : string) (now : Z) (jti : string) (x : HumanInput) (service : bool) : result mint_err IssuedToken :=
  if negb (if service then requireServiceSubject (hi_Subject x) else requireUUID (hi_Subject x)) then Err MintInvalid
  else if negb (requireAudience (hi_Audience x) && requireClientID (hi_ClientID x)) then Err MintInvalid
  else match canonicalScope (hi_Scope x) with
  | None => Err MintInvalid
  | Some scope =>
      if (hi_TTL x <=? 0)%Z || (MaxAccessTTL <? hi_TTL x)%Z || negb (hi_TTL x mod Second =? 0)%Z then Err MintInvalid
      else
        let iat := truncate_second now in
        match cap_lifetime (hi_GrantNotAfter x) iat (hi_TTL x) ≫= cap_lifetime (hi_ProviderExpiresAt x) iat with
        | None => Err MintInvalid
        | Some lifetime =>
            let exp := (iat / Second + lifetime / Second)%Z in
            if (lifetime <=? 0)%Z || (MaxAccessTTL <? lifetime)%Z || negb (lifetime mod Second =? 0)%Z then Err MintInvalid
            else if (iat / Second <? 0)%Z || (numericDateMaxUnix <? exp)%Z then Err MintInvalid
            else compact ← sign_claims kid (mkClaims issuer (hi_Subject x) (hi_Audience x) exp (iat / Second) jti (hi_ClientID x) scope);
                 Ok (mkIssued compact lifetime iat (exp * Second) jti kid)
        end
  end.

Definition ParseClientAssertion (raw clientID audience : string) (keys : list string) (now : Z) : option ClientAssertion :=
  if negb (requireClientID clientID && boundedUTF8 audience (Z.to_nat 2048) && bool_decide (1 ≤ length keys ≤ 16)%nat) then None
  else match assertion_claims keys raw with
  | None => None
  | Some c =>
      let skew := (AssertionClockSkew / Second)%Z in
      if bool_decide (as_iss c = clientID) && bool_decide (as_sub c = clientID) && bool_decide (as_aud c = audience) &&
         (as_iat c <? as_exp c)%Z && (as_exp c - as_iat c <=? MaxAssertionTTL / Second)%Z &&
         (as_iat c * Second - AssertionClockSkew <=? now)%Z && (now <=? as_exp c * Second + AssertionClockSkew)%Z &&
         match as_nbf c with
         | None => true
         | Some nbf => (nbf * Second - AssertionClockSkew <=? now)%Z && (as_iat c - skew <=? nbf)%Z && (nbf <=? as_exp c)%Z
         end
      then Some (mkClientAssertion (as_jti c) (as_iat c * Second) (as_exp c * Second)) else None
  end.
End token.

(** ** [base64.RawURLEncoding] *)

Definition sextet (c : ascii) : option Z :=
  let n := Z.of_N (N_of_ascii c) in
  if in_range 65 90 n then Some (n - 65)%Z else if in_range 97 122 n then Some (n - 71)%Z else if in_range 48 57 n then Some (n + 4)%Z
  else if (n =? 45)%Z then Some 62%Z else if (n =? 95)%Z then Some 63%Z else None.
Definition sextet_char (v : Z) : ascii :=
  ascii_of_N (Z.to_N (if (v <? 26)%Z then v + 65 else if (v <? 52)%Z then v + 71 else if (v <? 62)%Z then v - 4 else if (v =? 62)%Z then 45 else 95)).

Fixpoint decode_sextets (l : list Z) : option string :=
  match l with
  | a :: b :: c :: d :: l' =>
      (λ s, byte (a * 4 + b / 16) +:+ byte (b * 16 + c / 4) +:+ byte (c * 64 + d) +:+ s) <$> decode_sextets l'
  | [a; b; c] => Some (byte (a * 4 + b / 16) +:+ byte (b * 16 + c / 4))
  | [a; b] => Some (byte (a * 4 + b / 16))
  | [] => Some ""
  | [_] => None
  end.

(** Line breaks are skipped, and the spare bits of the last character are not looked at. *)
Definition DecodeString (s : string) : option string :=
  let cs := filter (λ c, c ≠ ascii_of_nat 10 ∧ c ≠ ascii_of_nat 13) (String.list_ascii_of_string s) in
  mapM sextet cs ≫= decode_sextets.

Fixpoint encode_bytes (l : list Z) : list Z :=
  match l with
  | a :: b :: c :: l' => a / 4 :: a mod 4 * 16 + b / 16 :: b mod 16 * 4 + c / 64 :: c mod 64 :: encode_bytes l'
  | [a; b] => [a / 4; a mod 4 * 16 + b / 16; b mod 16 * 4]
  | [a] => [a / 4; a mod 4 * 16]
  | [] => []
  end%Z.
Definition EncodeToString (s : string) : string :=
  String.string_of_list_ascii (sextet_char <$> encode_bytes ((λ c, Z.of_N (N_of_ascii c)) <$> String.list_ascii_of_string s)).

(** ** The token endpoint ([oauth/service.go]) *)

Definition refreshSecretBytes : nat := 32.
Definition CodeHashContext : string := "primer.oauth.authorization-code".
Definition clientSecretHashContext : string := "primer.oauth.client-secret".
Definition refreshTokenHashContext : string := "primer.oauth.refresh-token".
Definition assertionJTIHashContext : string := "primer.oauth.client-assertion-jti".
Definition accessJTIHashContext : string := "primer.oauth.access-jti".
Definition assertionTypeJWTBearer : string := "urn:ietf:params:oauth:client-assertion-type:jwt-bearer".

Record Secrets := mkSecrets {
  ss_CodePeppers : gmap Z string; ss_CodeActive : Z; ss_ClientPeppers : gmap Z string; ss_ClientActive : Z;
  ss_RefreshPeppers : gmap Z string; ss_RefreshActive : Z; ss_AssertionPeppers : gmap Z string; ss_AssertionActive : Z }.

Record ServiceConfig := mkServiceConfig { cf_Issuer : string; cf_TokenEndpoint : string; cf_RevocationEndpoint : string; cf_AccessTTL : Z }.

Record ExchangeRequest := mkExchange {
  rq_GrantType : string; rq_Code : string; rq_ClientID : string; rq_RedirectURI : string; rq_Resource : string; rq_CodeVerifier : string;
  rq_RefreshToken : string; rq_Scope : string; rq_AssertionType : string }.
Record RevokeRequest := mkRevoke { rv_Token : string; rv_ClientID : string; rv_AssertionType : string }.
Record ClientAuth := mkAuth { au_Method : string; au_ClientID : string; au_Secret : string; au_Assertion : string }.
Record TokenResponse := mkResponse { tr_AccessToken : string; tr_ExpiresIn : Z; tr_Scope : string; tr_RefreshToken : string }.
Record clientPresentation := mkPresentation { cp_ClientID : string; cp_AssertionType : string; cp_CodeVerifier : string; cp_RequirePKCE : bool }.

(** What a request meets: the clock at its start and at the minting, the random bytes of a new
    refresh token and the id of a new access token, and how many attempts of its transaction are lost
    against concurrent ones. *)
Record request_env := mkRequestEnv { en_now : Z; en_mint_now : Z; en_random : option string; en_jti : string; en_conflicts : nat }.

(** Go's conversion to 16 bits. *)
Definition int16 (z : Z) : Z := ((z + 2 ^ 15) mod 2 ^ 16 - 2 ^ 15)%Z.

Definition oauthErr (code description : string) : ierr := IOAuth code description.
Definition badClient : ierr := oauthErr "invalid_client" "client authentication failed".
Definition badGrant : ierr := oauthErr "invalid_grant" "authorization code is invalid".
Definition badRefresh : ierr := oauthErr "invalid_grant" "refresh token is invalid".
Definition badScope : ierr := oauthErr "invalid_scope" "the requested scope is invalid".
Definition noMaterial : ierr := oauthErr "temporarily_unavailable" "token material is unavailable".
Definition noSigner : ierr := oauthErr "temporarily_unavailable" "signer is unavailable".
Definition noIssuance : ierr := oauthErr "temporarily_unavailable" "token issuance is unavailable".

Definition hasGrant (client : OAuthClient) (want : string) : bool := bool_decide (want ∈ oc_AllowedGrants client).

Definition mapGrantError (e : ierr) : ierr :=
  match e with INotFound | IInvalid | IConflict | IWidening => badGrant | _ => noIssuance end.
Definition mapUnavailable (e : ierr) : ierr := match e with IInvalid => badGrant | _ => noIssuance end.
(** Errors that are not OAuth errors become [temporarily_unavailable]. *)
Definition publicError (fallback e : ierr) : ierr := match e with IOAuth _ _ => e | _ => fallback end.

(** The earliest of the bounds that are set. *)
Definition capTime (candidate : Z) (caps : list Z) : Z :=
  foldl (λ out c, if IsZero c then out else if (c <? out)%Z then c else out) candidate caps.

(** The peppers a service starts with: an active version among them, all of 32 bytes. *)
Definition copyPepperMap (peppers : gmap Z string) (active : Z) : result ierr (gmap Z string) :=
  if bool_decide (peppers = ∅) || (active <=? 0)%Z || bool_decide (peppers !! active = None) ||
     negb (forallb (λ p, (0 <? p.1)%Z && hash32 p.2) (map_to_list peppers))
  then Err (oauthErr "temporarily_unavailable" "secret material is unavailable") else Ok peppers.

Definition copySecrets (s : Secrets) : result ierr Secrets :=
  code ← copyPepperMap (ss_CodePeppers s) (ss_CodeActive s);
  client ← copyPepperMap (ss_ClientPeppers s) (ss_ClientActive s);
  refresh ← copyPepperMap (ss_RefreshPeppers s) (ss_RefreshActive s);
  assertion ← copyPepperMap (ss_AssertionPeppers s) (ss_AssertionActive s);
  Ok (mkSecrets code (ss_CodeActive s) client (ss_ClientActive s) refresh (ss_RefreshActive s) assertion (ss_AssertionActive s)).

Section service.
Context `{!Postgres, !IdentityCrypto, !TokenSigner} (secrets : Secrets) (cfg : ServiceConfig).

(** Hashes of the secret under every pepper, that of the active version first. *)
Definition hashAcrossPeppers (peppers : gmap Z string) (active : Z) (context secret : string) : option (list string) :=
  if bool_decide (peppers = ∅) || (active <=? 0)%Z then None
  else
    let rest := order_by Z.geb (filter (λ v, v ≠ active) (map_to_list peppers).*1) in
    let versions := ((if bool_decide (is_Some (peppers !! active)) then [active] else []) ++ rest)%list in
    match omap (λ v, Hash peppers v context secret) versions with [] => None | l => Some l end.

Definition refreshHashesFromPresented (presented : string) : result unit (option (list string)) :=
  match DecodeString presented with
  | Some raw => if bool_decide (String.length raw = refreshSecretBytes)
                then match hashAcrossPeppers (ss_RefreshPeppers secrets) (ss_RefreshActive secrets) refreshTokenHashContext raw with
                     | Some l => Ok (Some l) | None => Err tt end
                else Ok None
  | None => Ok None
  end.

Definition requestedRefreshScopes (requested : string) : result ierr (list string) :=
  if blank requested then Ok []
  else let canon := CanonicalScopes (Fields requested) in
       if ValidateCanonicalScopes canon then Ok canon else Err badScope.

Definition service_scope (s : string) : bool := one_of s ["studio.read"; "studio.draft"] && negb (Contains s "*").
Definition requestedServiceScopes (requested : string) (allowed : list string) : result ierr (list string) :=
  if negb (forallb service_scope allowed) then Err badScope
  else if bool_decide (requested = "") then Ok (CanonicalScopes allowed)
  else let canon := CanonicalScopes (Fields requested) in
       if negb (ValidateCanonicalScopes canon) then Err badScope
       else if forallb (λ s, service_scope s && bool_decide (s ∈ allowed)) canon then Ok canon else Err badScope.

Definition client_by_id (publicID : string) : IM OAuthClient := ion_error (λ _, badClient) (GetEnabledOAuthClientByClientID publicID).

Definition secret_matches (c : OAuthClient) (secret : string) : bool :=
  match oc_SecretPepper c with
  | Some v => hash32 (oc_SecretHash c) &&
              match Hash (ss_ClientPeppers secrets) v clientSecretHashContext secret with Some h => hash_Equal h (oc_SecretHash c) | None => false end
  | None => false
  end.

(** A client that signs its own assertions: a key, a valid assertion, and its first use. *)
Definition authenticateAssertion (publicID assertion assertionType : string) (now : Z) (audience endpointKind : string) : IM OAuthClient :=
  _ ← iensure (negb (bool_decide (publicID = "")) && negb (bool_decide (assertion = ""))) badClient;
  _ ← iensure (bool_decide (assertionType = "") || bool_decide (assertionType = assertionTypeJWTBearer))
        (oauthErr "invalid_request" "client_assertion_type is invalid");
  _ ← iensure (negb (blank audience) && one_of endpointKind ["token"; "revocation"]) badClient;
  client ← client_by_id publicID;
  _ ← iensure (bool_decide (oc_AuthMethod client = "private_key_jwt") && bool_decide (oc_ClientType client = "confidential")) badClient;
  keys ← ion_error (λ _, badClient) (ListEnabledOAuthClientKeys (oc_ID client) now);
  _ ← iensure (negb (bool_decide (keys = []))) badClient;
  match ParseClientAssertion assertion (oc_ClientID client) audience (ok_JWK <$> keys) now with
  | None => ithrow badClient
  | Some parsed =>
      match Hash (ss_AssertionPeppers secrets) (ss_AssertionActive secrets) assertionJTIHashContext (cl_JTI parsed) with
      | None => ithrow (oauthErr "temporarily_unavailable" "client authentication failed")
      | Some jtiHash =>
          _ ← ion_error (λ e, match e with IConflict | IInvalid => badClient | _ => oauthErr "temporarily_unavailable" "client authentication failed" end)
                (RecordClientAssertionReplay (mkReplay "" (oc_ID client) endpointKind jtiHash audience (cl_IssuedAt parsed)
                   (cl_ExpiresAt parsed + AssertionClockSkew) now));
          mret client
      end
  end.

Definition authenticateClient (req : clientPresentation) (auth : ClientAuth) (now : Z) (audience endpointKind : string) : IM OAuthClient :=
  let method := TrimSpace (au_Method auth) in
  let publicID := if blank (au_ClientID auth) then TrimSpace (cp_ClientID req) else TrimSpace (au_ClientID auth) in
  if bool_decide (method = "none") then
    _ ← iensure (negb (bool_decide (publicID = ""))) (oauthErr "invalid_request" "client_id is required");
    _ ← iensure (bool_decide (cp_ClientID req = "") || bool_decide (cp_ClientID req = publicID))
          (oauthErr "invalid_request" "client_id must appear exactly once");
    client ← client_by_id publicID;
    _ ← iensure (bool_decide (oc_AuthMethod client = "none") && bool_decide (oc_ClientType client = "public")) badClient;
    _ ← iensure (negb (cp_RequirePKCE req && bool_decide (cp_CodeVerifier req = ""))) (oauthErr "invalid_request" "code_verifier is required");
    mret client
  else if bool_decide (method = "client_secret_basic") then
    _ ← iensure (negb (bool_decide (publicID = "")) && negb (bool_decide (au_Secret auth = ""))) badClient;
    client ← client_by_id publicID;
    _ ← iensure (bool_decide (oc_AuthMethod client = "client_secret_basic") && bool_decide (oc_ClientType client = "confidential") &&
                 secret_matches client (au_Secret auth)) badClient;
    mret client
  else if bool_decide (method = "private_key_jwt") then
    authenticateAssertion publicID (au_Assertion auth) (cp_AssertionType req) now audience endpointKind
  else ithrow (oauthErr "invalid_request" "client authentication method is unsupported").

Definition txSigner : IM string := match signing_kid with Some kid => mret kid | None => ithrow noSigner end.

(** Mints, then writes the audit row in the same transaction. *)
Definition mint_and_audit (env : request_env) (kid : string) (x : HumanInput) (service : bool) (a : string → IssuedToken → TokenIssuanceAudit) (onInvalid : ierr)
  : IM IssuedToken :=
  match issueHuman (cf_Issuer cfg) kid (en_mint_now env) (en_jti env) x service with
  | Err MintInvalid => ithrow onInvalid
  | Err MintUnavailable => ithrow noSigner
  | Ok issued =>
      match Hash (ss_AssertionPeppers secrets) (ss_AssertionActive secrets) accessJTIHashContext (it_JTI issued) with
      | None => ithrow noSigner
      | Some jtiHash => _ ← ion_error (λ _, noSigner) (CreateTokenIssuanceAudit (a jtiHash issued)); mret issued
      end
  end.

(** *** Authorization codes *)

Fixpoint claim_code (hashes : list string) (x : string → ClaimAuthorizationCodeInput) : IM OAuthAuthorizationCode :=
  match hashes with
  | [] => ithrow (mapGrantError IOther)
  | h :: rest =>
      r ← iattempt (ClaimAuthorizationCode (x h));
      match r with
      | Ok code => mret code
      | Err e => if bool_decide (e = INotFound) && negb (bool_decide (rest = [])) then claim_code rest x else ithrow (mapGrantError e)
      end
  end.

(** The refresh family and the access token of a code that has been claimed. *)
Definition issue_initial (env : request_env) (refreshHash opaqueRefresh : string) (req : ExchangeRequest) (client : OAuthClient)
    (registration : OAuthClientRedirect) (code : OAuthAuthorizationCode) : IM TokenResponse :=
  let now := en_now env in
  ga ← ion_error mapGrantError (LoadConsumeBindings (ac_GrantID code));
  let grant := ga.1 in
  let assoc := ga.2 in
  match og_AccountID grant with
  | None => ithrow badGrant
  | Some account =>
      _ ← iensure (bool_decide (og_Audience grant = rd_Audience registration) && bool_decide (og_ResourceURI grant = rq_Resource req)) badGrant;
      let idle := capTime (now + MaxRefreshIdle) [og_NotAfter grant; pa_ExpiresAt assoc] in
      let absolute := capTime (now + MaxRefreshAbsolute) [og_NotAfter grant; pa_ExpiresAt assoc] in
      _ ← iensure ((now <? idle)%Z && (now <? absolute)%Z && (idle <=? absolute)%Z) badGrant;
      _ ← ion_error mapUnavailable (CreateInitialRefreshFamily
            (mkInitialRefresh
               (mkFamily "" (ac_GrantID code) (oc_ID client) (ac_ResourceURI code) "active" absolute idle now None None None None 0)
               (mkToken "" "" refreshHash (int16 (ss_RefreshActive secrets)) 0 now idle None None None None)
               (oc_ClientID client) (og_NotAfter grant) (pa_ExpiresAt assoc)));
      let scope := FormatScopes (ac_Scopes code) in
      kid ← txSigner;
      issued ← mint_and_audit env kid
            (mkHumanInput account (ac_Audience code) (oc_ClientID client) scope (cf_AccessTTL cfg) (og_NotAfter grant) (pa_ExpiresAt assoc)) false
            (λ jtiHash i, mkAudit "" (ac_GrantID code) (Some (ac_ID code)) (Some (ac_CodeHash code)) (HumanSubjectRef account) (oc_ClientID client)
               (ac_ResourceURI code) (ac_Audience code) (ac_Scopes code) jtiHash (it_Kid i) (it_IssuedAt i) (it_ExpiresAt i) "committed" None) badGrant;
      mret (mkResponse (it_Compact issued) (it_Lifetime issued / Second) scope opaqueRefresh)
  end.

Definition exchangeCodeTx (env : request_env) (refreshHash opaqueRefresh : string) (req : ExchangeRequest) (auth : ClientAuth) : IM TokenResponse :=
  let now := en_now env in
  client ← authenticateClient (mkPresentation (rq_ClientID req) (rq_AssertionType req) (rq_CodeVerifier req) true) auth now
             (cf_TokenEndpoint cfg) "token";
  _ ← iensure (hasGrant client "authorization_code") (oauthErr "unauthorized_client" "client is not allowed this grant");
  _ ← iensure (ValidatePublicClientID (oc_ClientID client) && negb (bool_decide (oc_ClientID client = oc_ID client)))
        (oauthErr "invalid_client" "client_id is invalid");
  registration ← ion_error (λ _, badGrant) (GetEnabledOAuthClientRedirect (oc_ID client) (rq_RedirectURI req) (rq_Resource req));
  match hashAcrossPeppers (ss_CodePeppers secrets) (ss_CodeActive secrets) CodeHashContext (rq_Code req) with
  | None => ithrow badGrant
  | Some hashes =>
      code ← claim_code hashes (λ h, mkClaim h (oc_ID client) (rq_RedirectURI req) (rq_Resource req) (rd_Audience registration) (rq_CodeVerifier req) now);
      issue_initial env refreshHash opaqueRefresh req client registration code
  end.

(** *** Refresh tokens *)

(** The access token that goes with a rotation. *)
Definition issue_refreshed (env : request_env) (scopes : list string) (nextOpaque : string) (client : OAuthClient) (redemption : RefreshRedemption)
  : IM TokenResponse :=
  let grant := rr_Grant redemption in
  match og_AccountID grant with
  | None => ithrow badRefresh
  | Some account =>
      kid ← txSigner;
      let grantScopes := if bool_decide (scopes = []) then og_Scopes grant else scopes in
      let scope := FormatScopes grantScopes in
      issued ← mint_and_audit env kid
            (mkHumanInput account (og_Audience grant) (oc_ClientID client) scope (cf_AccessTTL cfg) (og_NotAfter grant)
               (pa_ExpiresAt (rr_Association redemption))) false
            (λ jtiHash i, mkAudit "" (og_ID grant) None None (HumanSubjectRef account) (oc_ClientID client) (og_ResourceURI grant)
               (og_Audience grant) grantScopes jtiHash (it_Kid i) (it_IssuedAt i) (it_ExpiresAt i) "committed" None) noSigner;
      mret (mkResponse (it_Compact issued) (it_Lifetime issued / Second) scope nextOpaque)
  end.

(** [None]: the redemption failed for good and what it recorded is committed. *)
Definition refreshTx (env : request_env) (hashes : list string) (scopes : list string) (nextHash nextOpaque : string) (req : ExchangeRequest)
    (auth : ClientAuth) : IM (option TokenResponse) :=
  let now := en_now env in
  client ← authenticateClient (mkPresentation (rq_ClientID req) (rq_AssertionType req) "" false) auth now (cf_TokenEndpoint cfg) "token";
  _ ← iensure (hasGrant client "refresh_token") (oauthErr "unauthorized_client" "client is not authorized for this grant");
  r ← iattempt (RedeemRefreshToken hashes (oc_ID client) (rq_Resource req) scopes nextHash (int16 (ss_RefreshActive secrets)) now);
  match r with
  | Err IWidening => ithrow badScope
  | Err INotFound | Err IConflict => mret None
  | Err e => ithrow e
  | Ok redemption => x ← issue_refreshed env scopes nextOpaque client redemption; mret (Some x)
  end.

(** The new refresh secret: its hash and the text the client gets. *)
Definition newRefresh (env : request_env) : option (string * string) :=
  match en_random env with
  | None => None
  | Some secret => (λ h, (h, EncodeToString secret)) <$> Hash (ss_RefreshPeppers secrets) (ss_RefreshActive secrets) refreshTokenHashContext secret
  end.

Definition exchangeRefreshToken (env : request_env) (req : ExchangeRequest) (auth : ClientAuth) (d : idb) : idb * result ierr TokenResponse :=
  if bool_decide (rq_Resource req = "") || bool_decide (rq_RefreshToken req = "") then
    (d, Err (oauthErr "invalid_request" "refresh_token grant is incomplete"))
  else if negb (one_of (au_Method auth) ["none"; "client_secret_basic"; "private_key_jwt"]) then
    (d, Err (oauthErr "invalid_request" "client authentication is required"))
  else match requestedRefreshScopes (rq_Scope req) with
  | Err e => (d, Err e)
  | Ok scopes =>
      match DecodeString (rq_RefreshToken req) with
      | None => (d, Err badRefresh)
      | Some secret =>
          if negb (bool_decide (String.length secret = refreshSecretBytes)) then (d, Err badRefresh)
          else match hashAcrossPeppers (ss_RefreshPeppers secrets) (ss_RefreshActive secrets) refreshTokenHashContext secret, newRefresh env with
          | None, _ | _, None => (d, Err noMaterial)
          | Some hashes, Some (nextHash, nextOpaque) =>
              match WithSerializableRetry (en_conflicts env) (refreshTx env hashes scopes nextHash nextOpaque req auth) d with
              | (d', Ok (Some r)) => (d', Ok r)
              | (d', Ok None) => (d', Err badRefresh)
              | (d', Err e) => (d', Err (publicError noIssuance e))
              end
          end
      end
  end.

(** *** Services *)

Definition serviceTx (env : request_env) (req : ExchangeRequest) (auth : ClientAuth) : IM TokenResponse :=
  let now := en_now env in
  client ← authenticateClient (mkPresentation (rq_ClientID req) (rq_AssertionType req) "" false) auth now (cf_TokenEndpoint cfg) "token";
  _ ← iensure (hasGrant client "client_credentials") (oauthErr "unauthorized_client" "client is not authorized for this grant");
  cred ← ion_error (λ _, badClient) (GetActiveServiceCredential (oc_ID client));
  let '(c, subject, disabledAt) := cred in
  _ ← iensure (negb (bool_decide (au_Method auth = "client_secret_basic")) ||
               match Hash (ss_ClientPeppers secrets) (sc_Pepper c) clientSecretHashContext (au_Secret auth) with
               | Some h => hash_Equal h (sc_SecretHash c) | None => false end) badClient;
  _ ← iensure (bool_decide (sc_ResourceURI c = rq_Resource req)) (oauthErr "invalid_target" "the requested target is invalid");
  match requestedServiceScopes (rq_Scope req) (sc_AllowedScopes c) with
  | Err e => ithrow e
  | Ok scopes =>
      let notAfter := match disabledAt with Some t => Z.min t (now + cf_AccessTTL cfg) | None => (now + cf_AccessTTL cfg)%Z end in
      _ ← iensure (now <? notAfter)%Z (oauthErr "invalid_client" "client credential is expired");
      grantID ← ion_error (λ _, noIssuance) (CreateServiceGrant (sc_PrincipalID c) (oc_ID client) (rq_Resource req) (sc_Audience c) scopes now notAfter);
      kid ← txSigner;
      issued ← ion_error (λ _, noIssuance) (mint_and_audit env kid
            (mkHumanInput subject (sc_Audience c) (oc_ClientID client) (FormatScopes scopes) (cf_AccessTTL cfg) notAfter time_zero) true
            (λ jtiHash i, mkAudit "" grantID None None subject (oc_ClientID client) (rq_Resource req) (sc_Audience c) scopes jtiHash (it_Kid i)
               (it_IssuedAt i) (it_ExpiresAt i) "committed" None) noIssuance);
      mret (mkResponse (it_Compact issued) (it_Lifetime issued / Second) (FormatScopes scopes) "")
  end.

Definition exchangeClientCredentials (env : request_env) (req : ExchangeRequest) (auth : ClientAuth) (d : idb) : idb * result ierr TokenResponse :=
  if bool_decide (rq_Resource req = "") then (d, Err (oauthErr "invalid_request" "resource is required"))
  else if negb (one_of (au_Method auth) ["client_secret_basic"; "private_key_jwt"]) then (d, Err badClient)
  else match WithSerializableRetry (en_conflicts env) (serviceTx env req auth) d with
       | (d', Ok r) => (d', Ok r)
       | (d', Err e) => (d', Err (publicError noIssuance e))
       end.

(** *** The endpoints *)

Definition Exchange (env : request_env) (req : ExchangeRequest) (auth : ClientAuth) (d : idb) : idb * result ierr TokenResponse :=
  if bool_decide (rq_GrantType req = "client_credentials") then
    if one_of (au_Method auth) [""; "none"] then (d, Err (oauthErr "invalid_request" "client authentication is required"))
    else exchangeClientCredentials env req auth d
  else if bool_decide (rq_GrantType req = "refresh_token") then exchangeRefreshToken env req auth d
  else if negb (bool_decide (rq_GrantType req = "authorization_code")) then
    (d, Err (oauthErr "unsupported_grant_type" "grant type is not supported"))
  else if bool_decide (rq_Code req = "") || bool_decide (rq_RedirectURI req = "") || bool_decide (rq_Resource req = "") ||
          bool_decide (rq_CodeVerifier req = "") then
    (d, Err (oauthErr "invalid_request" "authorization_code grant is incomplete"))
  else match newRefresh env with
       | None => (d, Err noMaterial)
       | Some (refreshHash, opaqueRefresh) =>
           match WithSerializableRetry (en_conflicts env) (exchangeCodeTx env refreshHash opaqueRefresh req auth) d with
           | (d', Ok r) => (d', Ok r)
           | (d', Err e) => (d', Err (publicError noIssuance e))
           end
       end.

Definition noRevocation : ierr := oauthErr "temporarily_unavailable" "token revocation is unavailable".

Definition Revoke (env : request_env) (req : RevokeRequest) (auth : ClientAuth) (d : idb) : idb * result ierr unit :=
  if blank (rv_Token req) then (d, Err (oauthErr "invalid_request" "token is required"))
  else match refreshHashesFromPresented (rv_Token req) with
  | Err _ => (d, Err noMaterial)
  | Ok presented =>
      match WithSerializableRetry (en_conflicts env) (client ← authenticateClient (mkPresentation (rv_ClientID req) (rv_AssertionType req) "" false) auth (en_now env)
                                     (cf_RevocationEndpoint cfg) "revocation";
                          match presented with
                          | None => mret tt
                          | Some hashes => RevokeOwnedInitialRefresh hashes (oc_ID client) "client_revoked" (en_now env)
                          end) d with
      | (d', Ok _) => (d', Ok tt)
      | (d', Err e) => (d', Err (publicError noRevocation e))
      end
  end.

Definition maxAssertionPurge : Z := 1024.
(** [clock] is read when no time is given. *)
Definition PurgeExpiredAssertionReplays (now clock : Z) (d : idb) : idb * result ierr nat :=
  serializable (PurgeExpiredClientAssertionReplaysBounded (if IsZero now then clock else now) maxAssertionPurge) d.

(** [RevokeInitialRefreshFamily] on the pool: there is no enclosing transaction, so each of the three
    statements commits, and meets the deferred triggers, on its own. *)
Definition RevokeInitialFamily (env : request_env) (familyID reason : string) (d : idb) : idb * result ierr unit :=
  if bool_decide (familyID = uuid_Nil) then (d, Err (oauthErr "invalid_request" "family is invalid"))
  else
    let reason := if bool_decide (reason = "") then "operator" else reason in
    let now := en_now env in
    match serializable (revoke_live_tokens familyID now) d with
    | (d1, Err e) => (d1, Err e)
    | (d1, Ok _) =>
        match serializable (revoke_family familyID reason now) d1 with
        | (d2, Err e) => (d2, Err e)
        | (d2, Ok _) => serializable (end_grant_of familyID "revoked" now reason) d2
        end
    end.
End service.
