(* ===== verification/OAuthEvolve.v ===== *)
(** * Primer Identity: how the database evolves

    A small program logic for the transactions of the identity service ([relates]: every run of a
    transaction, failed or not, takes the database along a relation) and its use: the rows of the OAuth tables
    keep what names them, codes are only ever consumed, and tokens, families and grants that have
    ended stay so.  [step] is what the token service can do next; [reachable] its closure. *)
From S2P Require Import Prelude GoStrings Utf8 LmsDb IdentityData OAuthTokens.
From stdpp Require Import options.
Local Open Scope string_scope.
Local Set Default Proof Using "Type*".

(** ** Runs of a transaction *)

Definition relates {A} (R : idb → idb → Prop) (m : IM A) : Prop := ∀ c c' r, m c = (c', r) → R (ic_db c) (ic_db c').

Create HintDb oauth.

Section relates.
Context (R : idb → idb → Prop) `{!PreOrder R}.

Lemma relates_ret {A} (a : A) : relates R (mret a).
Proof. intros c c' r [= <- <-]. reflexivity. Qed.
Lemma relates_throw {A} e : relates R (ithrow (A:=A) e).
Proof. intros c c' r [= <- <-]. reflexivity. Qed.
Lemma relates_ensure b e : relates R (iensure b e).
Proof. destruct b; [apply relates_ret|apply relates_throw]. Qed.
Lemma relates_bind {A B} (m : IM A) (f : A → IM B) : relates R m → (∀ a, relates R (f a)) → relates R (m ≫= f).
Proof.
  intros Hm Hf c c' r. unfold mbind, IM_bind. destruct (m c) as [c1 [a|e]] eqn:E1; intros Hr.
  - etrans; [by eapply Hm|by eapply Hf].
  - injection Hr as <- <-. by eapply Hm.
Qed.
Lemma relates_attempt {A} (m : IM A) : relates R m → relates R (iattempt m).
Proof. intros Hm c c' r. unfold iattempt. destruct (m c) as [c1 r1] eqn:E1. intros [= <- <-]. by eapply Hm. Qed.
Lemma relates_on_error {A} f (m : IM A) : relates R m → relates R (ion_error f m).
Proof.
  intros Hm c c' r. unfold ion_error. destruct (m c) as [c1 [a|e]] eqn:E1; intros [= <- <-]; by eapply Hm.
Qed.
Lemma relates_stmt {A} (f : idb → result string (idb * A)) : (∀ d d' a, f d = Ok (d', a) → R d d') → relates R (istmt f).
Proof.
  intros Hf c c' r. unfold istmt. destruct (ic_aborted c); [by intros [= <- <-]|].
  destruct (f (ic_db c)) as [[d a]|e] eqn:E1; intros [= <- <-]; [by eapply Hf|reflexivity].
Qed.
Lemma relates_query {A} (f : idb → A) : relates R (iquery f).
Proof. apply relates_stmt. intros d d' a [= <- <-]. reflexivity. Qed.

Lemma relates_mono {A} (Q : idb → idb → Prop) (m : IM A) : (∀ d d', Q d d' → R d d') → relates Q m → relates R m.
Proof. intros HQ Hm c c' r Hr. by eapply HQ, Hm. Qed.

(** A transaction that fails leaves the database alone. *)
Lemma relates_serializable {A} (m : IM A) d : relates R m → R d (serializable m d).1.
Proof.
  intros Hm. unfold serializable. destruct (m (mkIconn d false)) as [c [a|e]] eqn:E1; [|reflexivity].
  case_match; [reflexivity|]. apply (Hm _ _ _ E1).
Qed.
End relates.

(** [relates_all] walks through a transaction up to its writing statements. *)
Ltac relates_all :=
  repeat first
    [ progress intros
    | solve [eauto with oauth nocore]
    | apply relates_bind; [apply _| |]
    | first [apply relates_ret | apply relates_throw | apply relates_ensure | apply relates_query]; apply _
    | first [apply relates_attempt | apply relates_on_error]; [apply _|]
    | case_match ].

Lemma serializable_Ok {A} (m : IM A) d d' a :
  serializable m d = (d', Ok a) ↔ ∃ c, m (mkIconn d false) = (c, Ok a) ∧ ic_aborted c = false ∧ lifecycle_ok (ic_db c) = true ∧ d' = ic_db c.
Proof.
  unfold serializable. destruct (m (mkIconn d false)) as [c [x|e]] eqn:E1.
  - destruct (ic_aborted c || negb (lifecycle_ok (ic_db c))) eqn:Hc.
    + split; [done|]. intros (c' & [= <- <-] & Ha & Hl & ->). by rewrite Ha, Hl in Hc.
    + apply orb_false_iff in Hc as [Ha Hl%negb_false_iff]. split; [intros [= <- <-]; by exists c|]. by intros (c' & [= <- <-] & _ & _ & ->).
  - split; [done|]. by intros (c' & ? & _).
Qed.

Lemma serializable_Err {A} (m : IM A) d d' e : serializable m d = (d', Err e) → d' = d.
Proof.
  unfold serializable. destruct (m (mkIconn d false)) as [c [x|err]]; [destruct (ic_aborted c || _)|]; by intros [=].
Qed.

(** A transaction with retries runs as one, or is given up and changes nothing. *)
Lemma retry_run {A} n (m : IM A) d : WithSerializableRetry n m d = if bool_decide (n < maxAttempts)%nat then serializable m d else (d, Err IOther).
Proof.
  unfold WithSerializableRetry. generalize maxAttempts. intros k. revert n. induction k as [|k IH]; intros [|n]; cbn; try done. rewrite IH.
  destruct (decide (n < k)%nat); [by rewrite !bool_decide_eq_true_2 by lia|by rewrite !bool_decide_eq_false_2 by lia].
Qed.
Lemma retry_Ok {A} n (m : IM A) d d' a : WithSerializableRetry n m d = (d', Ok a) → serializable m d = (d', Ok a).
Proof. rewrite retry_run. by destruct (bool_decide _). Qed.
Lemma retry_Err {A} n (m : IM A) d d' e : WithSerializableRetry n m d = (d', Err e) → d' = d.
Proof. rewrite retry_run. destruct (bool_decide _); [apply serializable_Err|by intros [=]]. Qed.

Lemma IM_bind_Ok {A B} (m : IM A) (f : A → IM B) c c' b :
  (m ≫= f) c = (c', Ok b) ↔ ∃ c1 a, m c = (c1, Ok a) ∧ f a c1 = (c', Ok b).
Proof. unfold mbind, IM_bind. destruct (m c) as [c1 [a|e]]; naive_solver. Qed.

Lemma iensure_bind {B} b e (k : unit → IM B) c c' r :
  (iensure b e ≫= k) c = (c', Ok r) ↔ b = true ∧ k tt c = (c', Ok r).
Proof. destruct b; unfold mbind, IM_bind; cbn; naive_solver. Qed.

Lemma IM_bind_Err {A B} (m : IM A) (f : A → IM B) c c' e :
  (m ≫= f) c = (c', Err e) ↔ m c = (c', Err e) ∨ ∃ c1 a, m c = (c1, Ok a) ∧ f a c1 = (c', Err e).
Proof. unfold mbind, IM_bind. destruct (m c) as [c1 [a|e1]]; naive_solver. Qed.

Lemma iensure_bind_Err {B} b e0 (k : unit → IM B) c c' e :
  (iensure b e0 ≫= k) c = (c', Err e) ↔ (b = false ∧ e = e0 ∧ c' = c) ∨ (b = true ∧ k tt c = (c', Err e)).
Proof. destruct b; unfold mbind, IM_bind; cbn; naive_solver. Qed.

Lemma iquery_Err {A} (f : idb → A) c c' e : iquery f c = (c', Err e) ↔ ic_aborted c = true ∧ e = IOther ∧ c' = c.
Proof. unfold iquery, istmt. destruct (ic_aborted c); naive_solver. Qed.

Lemma ion_error_Ok {A} f (m : IM A) c c' a : ion_error f m c = (c', Ok a) ↔ m c = (c', Ok a).
Proof. unfold ion_error. destruct (m c) as [c1 [x|e]]; naive_solver. Qed.

Lemma istmt_Ok {A} (f : idb → result string (idb * A)) c c' a :
  istmt f c = (c', Ok a) ↔ ic_aborted c = false ∧ ∃ d, f (ic_db c) = Ok (d, a) ∧ c' = mkIconn d false.
Proof. unfold istmt. destruct (ic_aborted c); [naive_solver|]. destruct (f (ic_db c)) as [[d x]|e]; naive_solver. Qed.

Lemma iquery_Ok {A} (f : idb → A) c c' a : iquery f c = (c', Ok a) ↔ ic_aborted c = false ∧ a = f (ic_db c) ∧ c' = c.
Proof. unfold iquery. rewrite istmt_Ok. destruct c as [d b]. cbn. naive_solver. Qed.

Lemma ithrow_Ok {A} e c c' (a : A) : ithrow e c = (c', Ok a) ↔ False.
Proof. unfold ithrow. naive_solver. Qed.

Lemma mret_Ok {A} (x a : A) (c c' : iconn) : mret (M:=IM) x c = (c', Ok a) ↔ x = a ∧ c = c'.
Proof. unfold mret, IM_ret. naive_solver. Qed.

(** [run_inv] takes a successful run apart. *)
Ltac run_step :=
  match goal with
  | Hr : (iensure _ _ ≫= _) _ = (_, Ok _) |- _ => apply iensure_bind in Hr as [? Hr]
  | Hr : (_ ≫= _) _ = (_, Ok _) |- _ => apply IM_bind_Ok in Hr as (? & ? & ? & Hr)
  | Hr : ion_error _ _ _ = (_, Ok _) |- _ => apply ion_error_Ok in Hr
  | Hr : ithrow _ _ = (_, Ok _) |- _ => by apply ithrow_Ok in Hr
  | Hr : iquery _ _ = (_, Ok _) |- _ => apply iquery_Ok in Hr as (? & -> & ->)
  | Hr : istmt _ _ = (_, Ok _) |- _ => apply istmt_Ok in Hr as (? & ? & Hr & ->)
  | Hr : mret _ _ = (_, Ok _) |- _ => apply mret_Ok in Hr as [? ?]; subst
  end.
Ltac run_inv := repeat run_step; simplify_eq/=.

(** ** What the rows keep *)

Definition code_le (c c' : OAuthAuthorizationCode) : Prop := c' = c ∨ ∃ now, ac_ConsumedAt c = None ∧ c' = code_consumed now c.

Record family_le (f f' : OAuthRefreshFamily) : Prop := {
  fl_names : (rf_ID f', rf_GrantID f', rf_ClientID f', rf_ResourceURI f') = (rf_ID f, rf_GrantID f, rf_ClientID f, rf_ResourceURI f);
  fl_absolute : rf_AbsoluteExpiresAt f' = rf_AbsoluteExpiresAt f;
  fl_ended : rf_Status f ≠ "active" → rf_Status f' ≠ "active" }.

Record token_le (t t' : OAuthRefreshToken) : Prop := {
  tl_names : (rt_ID t', rt_FamilyID t', rt_TokenHash t', rt_Sequence t') = (rt_ID t, rt_FamilyID t, rt_TokenHash t, rt_Sequence t);
  tl_times : (rt_IssuedAt t', rt_ExpiresAt t') = (rt_IssuedAt t, rt_ExpiresAt t);
  tl_consumed : is_Some (rt_ConsumedAt t) → (rt_ConsumedAt t', rt_ReplacedByID t') = (rt_ConsumedAt t, rt_ReplacedByID t);
  tl_dead : live t = false → live t' = false }.

Record grant_le (g g' : OAuthGrant) : Prop := {
  gl_names : (og_ID g', og_AccountID g', og_ClientID g', og_AssociationID g', og_ResourceURI g', og_Audience g') =
             (og_ID g, og_AccountID g, og_ClientID g, og_AssociationID g, og_ResourceURI g, og_Audience g);
  gl_terms : (og_Scopes g', og_NotAfter g') = (og_Scopes g, og_NotAfter g);
  gl_ended : og_Status g ≠ "active" → og_Status g' ≠ "active" }.

#[export] Instance code_le_preorder : PreOrder code_le.
Proof.
  split; [by left|]. intros c c' c'' [->|(t & Hc & ->)] [->|(t' & Hc' & ->)]; unfold code_le; [by left|by eauto|by eauto|done].
Qed.
#[export] Instance family_le_preorder : PreOrder family_le.
Proof. split; [done|]. intros f f' f'' [] []. split; [congruence|congruence|naive_solver]. Qed.
#[export] Instance token_le_preorder : PreOrder token_le.
Proof.
  split; [done|]. intros t t' t'' [N T C D] [N' T' C' D']. split; [congruence|congruence| |naive_solver].
  intros Ht. specialize (C Ht). rewrite C' by (injection C as -> _; done). done.
Qed.
#[export] Instance grant_le_preorder : PreOrder grant_le.
Proof. split; [done|]. intros g g' g'' [] []. split; [congruence|congruence|naive_solver]. Qed.

(** Every row of [t] is still in [t'], as [P] allows. *)
Definition table_le {A} (P : A → A → Prop) (t t' : gmap string A) : Prop := ∀ id x, t !! id = Some x → ∃ x', t' !! id = Some x' ∧ P x x'.

#[export] Instance table_le_preorder {A} (P : A → A → Prop) `{!PreOrder P} : PreOrder (table_le P).
Proof.
  split.
  - intros t id x Hx. by exists x.
  - intros t t' t'' H1 H2 id x Hx. destruct (H1 _ _ Hx) as (x' & Hx' & ?). destruct (H2 _ _ Hx') as (x'' & ? & ?).
    exists x''. split; [done|by etrans].
Qed.

Lemma table_le_insert {A} (P : A → A → Prop) `{!PreOrder P} (t : gmap string A) id x : t !! id = None → table_le P t (<[id := x]> t).
Proof. intros Hn i y Hy. exists y. split; [|done]. rewrite lookup_insert_ne; [done|congruence]. Qed.

Lemma table_le_update {A} (P : A → A → Prop) `{!PreOrder P} p f (t : gmap string A) :
  (∀ id x, t !! id = Some x → p x = true → P x (f x)) → table_le P t (update_where p f t).
Proof.
  intros Hf id x Hx. exists (if p x then f x else x). split.
  - unfold update_where. by rewrite lookup_fmap, Hx.
  - destruct (p x) eqn:Hp; [by eapply Hf|done].
Qed.

(** Rows are stored under their id. *)
Definition keyed {A} (key : A → string) (t : gmap string A) : Prop := ∀ id x, t !! id = Some x → key x = id.

Lemma keyed_insert {A} (key : A → string) (t : gmap string A) id x : keyed key t → key x = id → keyed key (<[id := x]> t).
Proof. intros Hk Hx i y [[? ?]|[_ Hy]]%lookup_insert_Some; [congruence|by apply Hk]. Qed.
Lemma keyed_update {A} (key : A → string) p f (t : gmap string A) :
  (∀ x, key (f x) = key x) → keyed key t → keyed key (update_where p f t).
Proof.
  intros Hf Hk i y. unfold update_where. rewrite lookup_fmap. rewrite fmap_Some. intros (x & Hx & ->).
  destruct (p x); rewrite ?Hf; by apply Hk.
Qed.

Record wf (d : idb) : Prop := {
  wf_tokens : keyed rt_ID (id_tokens d);
  wf_families : keyed rf_ID (id_families d);
  wf_grants : keyed og_ID (id_grants d);
  wf_codes : keyed ac_ID (id_codes d);
  wf_code_hash : ∀ i j c c', id_codes d !! i = Some c → id_codes d !! j = Some c' → ac_CodeHash c = ac_CodeHash c' → i = j;
  wf_code_grant : ∀ id c, id_codes d !! id = Some c → is_Some (id_grants d !! ac_GrantID c);
  wf_grant_association : ∀ id g a, id_grants d !! id = Some g → og_AssociationID g = Some a → is_Some (id_associations d !! a);
  wf_tokens_ok : table_ok token_ck tokens_unique (id_tokens d) = None;
  wf_families_ok : table_ok family_ck (λ _, true) (id_families d) = None;
  wf_grants_ok : table_ok grant_ck grants_unique (id_grants d) = None }.

(** The same as a test. *)
Definition keyed_b {A} (key : A → string) (t : gmap string A) : bool := forallb (λ p, bool_decide (key p.2 = p.1)) (map_to_list t).
Definition wf_b (d : idb) : bool :=
  keyed_b rt_ID (id_tokens d) && keyed_b rf_ID (id_families d) && keyed_b og_ID (id_grants d) && keyed_b ac_ID (id_codes d) &&
  bool_decide (NoDup (ac_CodeHash <$> (map_to_list (id_codes d)).*2)) &&
  forallb (λ p, has_key (id_grants d) (ac_GrantID p.2)) (map_to_list (id_codes d)) &&
  forallb (λ p, has_opt (id_associations d) (og_AssociationID p.2)) (map_to_list (id_grants d)) &&
  is_none (table_ok token_ck tokens_unique (id_tokens d)) && is_none (table_ok family_ck (λ _, true) (id_families d)) &&
  is_none (table_ok grant_ck grants_unique (id_grants d)).

Lemma keyed_b_keyed {A} (key : A → string) (t : gmap string A) : keyed_b key t = true → keyed key t.
Proof. intros Hk id x Hx%elem_of_map_to_list. unfold keyed_b in Hk. rewrite forallb_forall_in in Hk. by apply Hk, bool_decide_eq_true in Hx. Qed.

Lemma is_none_true {A} (o : option A) : is_none o = true ↔ o = None.
Proof. by destruct o. Qed.

Lemma wf_b_wf d : wf_b d = true → wf d.
Proof.
  unfold wf_b. rewrite !andb_true_iff, bool_decide_eq_true, !is_none_true, !forallb_forall_in.
  intros (((((((((? & ?) & ?) & ?) & Hn) & Hg) & Ha) & ?) & ?) & ?).
  split; try (by apply keyed_b_keyed); try done.
  - intros i j c c' Hi%elem_of_map_to_list Hj%elem_of_map_to_list Hh.
    apply list_elem_of_lookup_1 in Hi as [m Hm], Hj as [n Hn'].
    enough (m = n) by congruence. eapply (NoDup_lookup _ m n (ac_CodeHash c) Hn); rewrite !list_lookup_fmap, ?Hm, ?Hn'; cbn; by rewrite ?Hh.
  - intros id c Hc%elem_of_map_to_list. apply Hg in Hc. by apply bool_decide_eq_true in Hc.
  - intros id g a Hc%elem_of_map_to_list Hga. apply Ha in Hc. cbn in Hc. rewrite Hga in Hc. by apply bool_decide_eq_true in Hc.
Qed.

Record grows (d d' : idb) : Prop := {
  gr_codes : table_le code_le (id_codes d) (id_codes d');
  gr_codes_dom : dom (id_codes d') = dom (id_codes d);
  gr_families : table_le family_le (id_families d) (id_families d');
  gr_tokens : table_le token_le (id_tokens d) (id_tokens d');
  gr_grants : table_le grant_le (id_grants d) (id_grants d');
  gr_audits : id_audits d ⊆ id_audits d';
  gr_registered : (id_clients d', id_redirects d', id_client_keys d', id_associations d', id_signing_kids d') =
                  (id_clients d, id_redirects d, id_client_keys d, id_associations d, id_signing_kids d) }.

#[export] Instance grows_preorder : PreOrder grows.
Proof.
  split; [intros d; split; done|]. intros d d' d'' [] []. split; try congruence; by etrans.
Qed.

(** What every transaction of the service keeps, from a well-formed database on. *)
Definition evolves (d d' : idb) : Prop := wf d → wf d' ∧ grows d d'.

#[export] Instance evolves_preorder : PreOrder evolves.
Proof.
  split; [by intros d|]. intros d d' d'' H1 H2 Hd. destruct (H1 Hd) as [Hd' ?]. destruct (H2 Hd') as [? ?].
  split; [done|by etrans].
Qed.

(** ** The writing statements *)

Lemma write_tokens_Ok t d d' u : write_tokens t d = Ok (d', u) ↔ table_ok token_ck tokens_unique t = None ∧ d' = set_tokens t d.
Proof. unfold write_tokens. destruct u. case_match; naive_solver. Qed.
Lemma write_families_Ok t d d' u : write_families t d = Ok (d', u) ↔ table_ok family_ck (λ _, true) t = None ∧ d' = set_families t d.
Proof. unfold write_families. destruct u. case_match; naive_solver. Qed.
Lemma write_grants_Ok t d d' u : write_grants t d = Ok (d', u) ↔ table_ok grant_ck grants_unique t = None ∧ d' = set_grants t d.
Proof. unfold write_grants. destruct u. case_match; naive_solver. Qed.

Lemma evolves_tokens t d :
  table_ok token_ck tokens_unique t = None → (wf d → keyed rt_ID t ∧ table_le token_le (id_tokens d) t) → evolves d (set_tokens t d).
Proof. intros Ht Hw Hd. destruct (Hw Hd) as [? ?]. by destruct Hd; split; split. Qed.
Lemma evolves_families t d :
  table_ok family_ck (λ _, true) t = None → (wf d → keyed rf_ID t ∧ table_le family_le (id_families d) t) → evolves d (set_families t d).
Proof. intros Ht Hw Hd. destruct (Hw Hd) as [? ?]. by destruct Hd; split; split. Qed.
Lemma evolves_grants t d :
  table_ok grant_ck grants_unique t = None → 
  (wf d → keyed og_ID t ∧ table_le grant_le (id_grants d) t ∧
     ∀ id g a, t !! id = Some g → og_AssociationID g = Some a → is_Some (id_associations d !! a)) →
  evolves d (set_grants t d).
Proof.
  intros Ht Hw Hd. destruct (Hw Hd) as (? & Hle & ?). destruct Hd; split; split; try done.
  intros id c Hc. destruct (wf_code_grant0 id c Hc) as [g Hg]. destruct (Hle _ _ Hg) as (g' & ? & _). by exists g'.
Qed.

(** Where the rows that change are only those the service has no claim on. *)
Lemma evolves_other d d' :
  (id_codes d', id_families d', id_tokens d', id_grants d', id_audits d') = (id_codes d, id_families d, id_tokens d, id_grants d, id_audits d) →
  (id_clients d', id_redirects d', id_client_keys d', id_associations d', id_signing_kids d') =
    (id_clients d, id_redirects d, id_client_keys d, id_associations d, id_signing_kids d) →
  evolves d d'.
Proof.
  intros [= E1 E2 E3 E4 E5] [= F1 F2 F3 F4 F5] Hd. destruct Hd.
  split; split; rewrite ?E1, ?E2, ?E3, ?E4, ?E5, ?F1, ?F2, ?F3, ?F4, ?F5; done.
Qed.

Lemma evolves_audits a d : id_audits d ⊆ a → evolves d (set_audits a d).
Proof. intros Ha Hd. by destruct Hd; split; split. Qed.

Section statements.
Context `{!Postgres, !IdentityCrypto}.

Lemma fresh_id {A} (t : gmap string A) : t !! gen_random_uuid (dom t) = None.
Proof. apply not_elem_of_dom, gen_random_uuid_fresh. Qed.

Lemma revoke_live_tokens_evolves f now : relates evolves (revoke_live_tokens f now).
Proof.
  apply relates_stmt; [apply _|]. intros d d' u (Ht & ->)%write_tokens_Ok. apply evolves_tokens; [done|]. intros Hd. split.
  - apply keyed_update; [done|apply Hd].
  - apply table_le_update; [apply _|]. intros id x _ [_ Hl]%andb_true_iff. split; [done|done| |congruence].
    unfold live in Hl. destruct (rt_ConsumedAt x); [done|by intros []].
Qed.

Lemma family_end_le status rv ex re reason f : status ≠ "active" → family_le f (family_end status rv ex re reason f).
Proof. by split. Qed.

Lemma end_family_evolves p status rv ex re reason :
  status ≠ "active" → relates evolves (istmt (λ d, write_families (update_where p (family_end status rv ex re reason) (id_families d)) d)).
Proof.
  intros Hs. apply relates_stmt; [apply _|]. intros d d' u (Ht & ->)%write_families_Ok. apply evolves_families; [done|]. intros Hd. split.
  - apply keyed_update; [done|apply Hd].
  - apply table_le_update; [apply _|]. intros id x _ _. by apply family_end_le.
Qed.

Lemma end_grant_of_evolves f status now reason : status ≠ "active" → relates evolves (end_grant_of f status now reason).
Proof.
  intros Hs. apply relates_stmt; [apply _|]. intros d d' u (Ht & ->)%write_grants_Ok. apply evolves_grants; [done|]. intros Hd. split_and!.
  - apply keyed_update; [done|apply Hd].
  - apply table_le_update; [apply _|]. intros id x _ _. by split.
  - intros id g a. unfold update_where. rewrite lookup_fmap_Some. intros (x & <- & Hx). case_match; by apply (wf_grant_association d Hd id x).
Qed.

Lemma revokeInitialRefreshFamilyTx_evolves f reason now : relates evolves (revokeInitialRefreshFamilyTx f reason now).
Proof.
  apply relates_bind; [apply _|apply revoke_live_tokens_evolves|intros _].
  apply relates_bind; [apply _|by apply end_family_evolves|intros _]. by apply end_grant_of_evolves.
Qed.
Lemma markRefreshExpired_evolves f now : relates evolves (markRefreshExpired f now).
Proof.
  apply relates_bind; [apply _|apply revoke_live_tokens_evolves|intros _].
  apply relates_bind; [apply _|by apply end_family_evolves|intros _]. by apply end_grant_of_evolves.
Qed.
Lemma markRefreshReuse_evolves f now : relates evolves (markRefreshReuse f now).
Proof.
  apply relates_bind; [apply _|apply revoke_live_tokens_evolves|intros _].
  apply relates_bind; [apply _|by apply end_family_evolves|intros _]. by apply end_grant_of_evolves.
Qed.

Lemma RecordClientAssertionReplay_evolves x : relates evolves (RecordClientAssertionReplay x).
Proof.
  apply relates_bind; [apply _|apply relates_ensure; apply _|intros _]. apply relates_stmt; [apply _|].
  intros d d' u Hr. cbv zeta in Hr. destruct (table_ok _ _ _); [done|]. destruct (has_key _ _); [|done]. injection Hr as <- _. by apply evolves_other.
Qed.

Lemma CreateTokenIssuanceAudit_evolves a : relates evolves (CreateTokenIssuanceAudit a).
Proof.
  apply relates_bind; [apply _|apply relates_ensure; apply _|intros _].
  apply relates_bind; [apply _|apply relates_query; apply _|intros known].
  apply relates_bind; [apply _|apply relates_ensure; apply _|intros _]. apply relates_stmt; [apply _|].
  intros d d' u Hr. cbv zeta in Hr. destruct (negb (audit_ck _)); [done|]. destruct (negb (scopes_trigger _)); [done|].
  destruct (_ || _); [done|]. injection Hr as <- _. apply evolves_audits, insert_subseteq, fresh_id.
Qed.

Lemma code_hash_update p now (d : idb) :
  wf d → ∀ i j c c', update_where p (code_consumed now) (id_codes d) !! i = Some c →
    update_where p (code_consumed now) (id_codes d) !! j = Some c' → ac_CodeHash c = ac_CodeHash c' → i = j.
Proof.
  intros Hd i j c c'. unfold update_where. rewrite !lookup_fmap_Some. intros (x & <- & Hx) (y & <- & Hy) Hh.
  apply (wf_code_hash d Hd i j x y Hx Hy). by destruct (p x), (p y).
Qed.

Lemma ClaimAuthorizationCode_evolves x : relates evolves (ClaimAuthorizationCode x).
Proof.
  apply relates_bind; [apply _|apply relates_ensure; apply _|intros _].
  apply relates_bind; [apply _|apply relates_query; apply _|intros l]. destruct l as [|code l]; [apply relates_throw; apply _|].
  cbn zeta. do 2 (apply relates_bind; [apply _|apply relates_ensure; apply _|intros _]).
  apply relates_bind; [apply _| |intros ga].
  { unfold LoadConsumeBindings, GetOAuthGrant, GetProviderSessionAssociation. relates_all. }
  apply relates_bind; [apply _|apply relates_ensure; apply _|intros _]. apply relates_stmt; [apply _|].
  intros d d' u [= <- _] Hd. split; [split|split]; cbn; try apply Hd; try done.
  - apply keyed_update; [done|apply Hd].
  - by apply code_hash_update.
  - intros id c. unfold update_where. rewrite lookup_fmap_Some. intros (y & <- & Hy). case_match; by apply (wf_code_grant d Hd id y).
  - apply table_le_update; [apply _|]. intros id c _ [_ Hc]%andb_true_iff. right. eexists. split; [|done]. by destruct (ac_ConsumedAt c).
  - unfold update_where. by rewrite dom_fmap_L.
Qed.
#[local] Hint Resolve revoke_live_tokens_evolves revokeInitialRefreshFamilyTx_evolves markRefreshExpired_evolves markRefreshReuse_evolves
  RecordClientAssertionReplay_evolves CreateTokenIssuanceAudit_evolves ClaimAuthorizationCode_evolves : oauth.

(** A row with a new id. *)
Lemma insert_token_evolves (row : OAuthRefreshToken) d :
  id_tokens d !! rt_ID row = None → table_ok token_ck tokens_unique (<[rt_ID row := row]> (id_tokens d)) = None →
  evolves d (set_tokens (<[rt_ID row := row]> (id_tokens d)) d).
Proof.
  intros Hn Ht. apply evolves_tokens; [done|]. intros Hd. split; [by apply keyed_insert; [apply Hd|]|by apply table_le_insert; [apply _|]].
Qed.

Lemma CreateInitialRefreshFamily_evolves x : relates evolves (CreateInitialRefreshFamily x).
Proof.
  unfold CreateInitialRefreshFamily. cbn zeta. apply relates_bind; [apply _|apply relates_ensure; apply _|intros _].
  apply relates_bind; [apply _| |intros family; apply relates_bind; [apply _| |intros; apply relates_ret; apply _]].
  - apply relates_stmt; [apply _|]. intros d d' u Hr. destruct (_ || _); [done|].
    apply bind_Ok in Hr as ([d1 []] & (Ht & ->)%write_families_Ok & [= <-]). apply evolves_families; [done|]. intros Hd.
    split; [by apply keyed_insert; [apply Hd|]|]. apply table_le_insert; [apply _|apply fresh_id].
  - apply relates_stmt; [apply _|]. intros d d' u Hr.
    apply bind_Ok in Hr as ([d1 []] & (Ht & ->)%write_tokens_Ok & [= <-]). apply insert_token_evolves; [apply fresh_id|done].
Qed.

(** The new row, revoked until now, becomes the current token: it is not one of the old. *)
Lemma unrevoke_evolves n d d2 :
  id_tokens d !! n = None → evolves d d2 →
  table_ok token_ck tokens_unique (update_where (λ t, bool_decide (rt_ID t = n)) token_unrevoked (id_tokens d2)) = None →
  evolves d (set_tokens (update_where (λ t, bool_decide (rt_ID t = n)) token_unrevoked (id_tokens d2)) d2).
Proof.
  intros Hn H2 Ht Hd. destruct (H2 Hd) as [Hd2 Hg]. split.
  - destruct Hd2. split; try done. by apply keyed_update.
  - destruct Hg. split; try done. intros id x Hx. destruct (gr_tokens0 id x Hx) as (x' & Hx' & Hle).
    exists x'. split; [|done]. cbn. unfold update_where. rewrite lookup_fmap, Hx'. cbn.
    rewrite bool_decide_eq_false_2; [done|]. rewrite (wf_tokens d2 Hd2 id x' Hx'). congruence.
Qed.

(** Evolution of what has evolved from [d0]. *)
Definition evolves_from (d0 d d' : idb) : Prop := evolves d0 d → evolves d0 d'.
#[local] Instance evolves_from_preorder d0 : PreOrder (evolves_from d0).
Proof. split; [by intros d Hd|]. intros d d' d'' Ha Hb Hd. by apply Hb, Ha. Qed.
Lemma evolves_evolves_from d0 d d' : evolves d d' → evolves_from d0 d d'.
Proof. intros Hd Hd0. by etrans. Qed.

Lemma consume_evolves prev now next :
  relates evolves (istmt (λ d, write_tokens (update_where (λ t, bool_decide (rt_ID t = rt_ID prev) && live t) (token_consumed now next) (id_tokens d)) d)).
Proof.
  apply relates_stmt; [apply _|]. intros d d' u (Ht & ->)%write_tokens_Ok. apply evolves_tokens; [done|]. intros Hd. split.
  - apply keyed_update; [done|apply Hd].
  - apply table_le_update; [apply _|]. intros id x _ [_ Hl]%andb_true_iff. split; [done|done| |congruence].
    unfold live in Hl. destruct (rt_ConsumedAt x); [done|by intros []].
Qed.

Lemma family_rotated_evolves p now : relates evolves (istmt (λ d, write_families (update_where p (family_rotated now) (id_families d)) d)).
Proof.
  apply relates_stmt; [apply _|]. intros d d' u (Ht & ->)%write_families_Ok. apply evolves_families; [done|]. intros Hd. split.
  - apply keyed_update; [done|apply Hd].
  - apply table_le_update; [apply _|]. intros id x _ _. by split.
Qed.

Lemma rotate_rest d0 prev family now (next : OAuthRefreshToken) :
  id_tokens d0 !! rt_ID next = None →
  relates (evolves_from d0)
    (_ ← istmt (λ d, write_tokens (update_where (λ t, bool_decide (rt_ID t = rt_ID prev) && live t) (token_consumed now (rt_ID next)) (id_tokens d)) d);
     _ ← istmt (λ d, write_tokens (update_where (λ t, bool_decide (rt_ID t = rt_ID next)) token_unrevoked (id_tokens d)) d);
     _ ← istmt (λ d, write_families (update_where (λ f, bool_decide (rf_ID f = rf_ID family)) (family_rotated now) (id_families d)) d);
     mret next).
Proof.
  intros Hn. apply relates_bind; [apply _| |intros _].
  { apply (relates_mono _ evolves); [apply evolves_evolves_from|apply consume_evolves]. }
  apply relates_bind; [apply _| |intros _].
  { apply relates_stmt; [apply _|]. intros d d' u (Ht & ->)%write_tokens_Ok Hd0. by apply unrevoke_evolves. }
  apply relates_bind; [apply _| |intros _; apply relates_ret; apply _].
  apply (relates_mono _ evolves); [apply evolves_evolves_from|apply family_rotated_evolves].
Qed.

Lemma rotate_evolves prev family nextHash pepper now : relates evolves (rotate prev family nextHash pepper now).
Proof.
  intros c c' r. unfold rotate. unfold mbind at 1, IM_bind at 1.
  destruct (istmt _ c) as [c1 [next|e]] eqn:E1; intros Hr; cycle 1.
  { injection Hr as <- <-. revert E1. apply relates_stmt; [apply _|]. intros d d' u Hi.
    apply bind_Ok in Hi as ([d1 []] & (Ht & ->)%write_tokens_Ok & [= <-]). apply insert_token_evolves; [apply fresh_id|done]. }
  apply istmt_Ok in E1 as (_ & d1 & Hi & ->). apply bind_Ok in Hi as ([d1' []] & (Ht & ->)%write_tokens_Ok & [= <- <-]).
  apply insert_token_evolves in Ht as H1; [|apply fresh_id]. cbn [rt_ID] in Hr, H1. set (n := gen_random_uuid _) in *.
  assert (Hn : id_tokens (ic_db c) !! n = None) by apply fresh_id. clearbody n.
  revert Hr H1. apply (rotate_rest (ic_db c)); done.
Qed.
#[local] Hint Resolve CreateInitialRefreshFamily_evolves rotate_evolves : oauth.

Lemma find_refresh_evolves hashes clientID resource : relates evolves (find_refresh hashes clientID resource).
Proof. induction hashes as [|h rest IH]; cbn [find_refresh]; relates_all. Qed.

Lemma LoadConsumeBindings_evolves id : relates evolves (LoadConsumeBindings id).
Proof. unfold LoadConsumeBindings, GetOAuthGrant, GetProviderSessionAssociation. relates_all. Qed.

#[local] Hint Resolve find_refresh_evolves LoadConsumeBindings_evolves : oauth.

Lemma RedeemRefreshToken_evolves hashes clientID resource requested nextHash pepper now :
  relates evolves (RedeemRefreshToken hashes clientID resource requested nextHash pepper now).
Proof. unfold RedeemRefreshToken, GetOAuthGrant. relates_all. Qed.

Lemma RevokeOwnedInitialRefresh_evolves hashes clientID reason now : relates evolves (RevokeOwnedInitialRefresh hashes clientID reason now).
Proof. unfold RevokeOwnedInitialRefresh. relates_all. Qed.

Lemma GetEnabledOAuthClientRedirect_evolves client uri resource : relates evolves (GetEnabledOAuthClientRedirect client uri resource).
Proof. unfold GetEnabledOAuthClientRedirect. relates_all. Qed.

Lemma CreateServiceGrant_evolves principal client resource audience scopes now notAfter :
  relates evolves (CreateServiceGrant principal client resource audience scopes now notAfter).
Proof.
  unfold CreateServiceGrant. apply relates_bind; [apply _|apply relates_ensure; apply _|intros _].
  apply relates_bind; [apply _|apply relates_query; apply _|intros [|g l]; [|apply relates_ret; apply _]].
  apply relates_stmt; [apply _|]. intros d d' u Hr. cbn zeta in Hr. destruct (negb (scopes_trigger _)); [done|].
  destruct (_ || _); [done|]. apply bind_Ok in Hr as ([d1 []] & (Ht & ->)%write_grants_Ok & [= <-]). apply evolves_grants; [done|].
  intros Hd. split_and!; [by apply keyed_insert; [apply Hd|]|apply table_le_insert; [apply _|apply fresh_id]|].
  intros id g a [[_ <-]|[_ Hg]]%lookup_insert_Some; [done|by apply (wf_grant_association d Hd id g)].
Qed.
End statements.

(** ** The service *)

Section service.
Context `{!Postgres, !IdentityCrypto, !TokenSigner} (secrets : Secrets) (cfg : ServiceConfig).

#[local] Hint Resolve RecordClientAssertionReplay_evolves CreateTokenIssuanceAudit_evolves ClaimAuthorizationCode_evolves
  CreateInitialRefreshFamily_evolves RedeemRefreshToken_evolves RevokeOwnedInitialRefresh_evolves CreateServiceGrant_evolves
  LoadConsumeBindings_evolves revoke_live_tokens_evolves : oauth.

Lemma authenticateClient_evolves req auth now audience kind : relates evolves (authenticateClient secrets req auth now audience kind).
Proof.
  unfold authenticateClient, authenticateAssertion, client_by_id, GetEnabledOAuthClientByClientID, ListEnabledOAuthClientKeys. cbn zeta.
  relates_all.
Qed.

Lemma mint_and_audit_evolves env kid x service a e : relates evolves (mint_and_audit secrets cfg env kid x service a e).
Proof. unfold mint_and_audit. relates_all. Qed.

Lemma claim_code_evolves hashes x : relates evolves (claim_code hashes x).
Proof. induction hashes as [|h rest IH]; cbn [claim_code]; relates_all. Qed.

#[local] Hint Resolve authenticateClient_evolves mint_and_audit_evolves claim_code_evolves : oauth.

Lemma issue_initial_evolves env h o req client registration code : relates evolves (issue_initial secrets cfg env h o req client registration code).
Proof. unfold issue_initial, txSigner. cbn zeta. relates_all. Qed.
Lemma issue_refreshed_evolves env scopes o client x : relates evolves (issue_refreshed secrets cfg env scopes o client x).
Proof. unfold issue_refreshed, txSigner. cbn zeta. relates_all. Qed.

#[local] Hint Resolve issue_initial_evolves issue_refreshed_evolves : oauth.

Lemma exchangeCodeTx_evolves env h o req auth : relates evolves (exchangeCodeTx secrets cfg env h o req auth).
Proof. unfold exchangeCodeTx, GetEnabledOAuthClientRedirect. cbn zeta. relates_all. Qed.
Lemma refreshTx_evolves env hashes scopes h o req auth : relates evolves (refreshTx secrets cfg env hashes scopes h o req auth).
Proof. unfold refreshTx. cbn zeta. relates_all. Qed.
Lemma serviceTx_evolves env req auth : relates evolves (serviceTx secrets cfg env req auth).
Proof. unfold serviceTx, txSigner, GetActiveServiceCredential. cbn zeta. relates_all. Qed.

#[local] Hint Resolve exchangeCodeTx_evolves refreshTx_evolves serviceTx_evolves : oauth.

Lemma run_evolves {A} (m : IM A) d d' r : serializable m d = (d', r) → relates evolves m → evolves d d'.
Proof. intros Hr Hm. apply (relates_serializable evolves m d) in Hm. by rewrite Hr in Hm. Qed.

Lemma retry_evolves {A} n (m : IM A) d d' r : WithSerializableRetry n m d = (d', r) → relates evolves m → evolves d d'.
Proof. rewrite retry_run. destruct (bool_decide _); [apply run_evolves|by intros [= <- _] _]. Qed.

Lemma Exchange_evolves env req auth d : evolves d (Exchange secrets cfg env req auth d).1.
Proof.
  unfold Exchange, exchangeClientCredentials, exchangeRefreshToken.
  repeat case_match; simplify_eq/=; try reflexivity; eapply retry_evolves; eauto with oauth nocore.
Qed.

Lemma Revoke_evolves env req auth d : evolves d (Revoke secrets cfg env req auth d).1.
Proof.
  unfold Revoke. repeat case_match; simplify_eq/=; try reflexivity; (eapply retry_evolves; [done|relates_all]).
Qed.

Lemma RevokeInitialFamily_evolves env familyID reason d : evolves d (RevokeInitialFamily env familyID reason d).1.
Proof.
  unfold RevokeInitialFamily. case_bool_decide; [done|]. cbn zeta.
  destruct (serializable (revoke_live_tokens _ _) d) as [d1 r1] eqn:E1. apply run_evolves in E1; [|relates_all].
  destruct r1 as [[]|]; [|done]. destruct (serializable (revoke_family _ _ _) d1) as [d2 r2] eqn:E2.
  apply run_evolves in E2; [|by apply end_family_evolves]. destruct r2 as [[]|]; [|by etrans].
  destruct (serializable (end_grant_of _ _ _ _) d2) as [d3 r3] eqn:E3. apply run_evolves in E3; [|by apply end_grant_of_evolves].
  cbn. by do 2 (etrans; [done|]).
Qed.

(** The operations of the service and of its operators, each in a transaction of its own. *)
Inductive step : idb → idb → Prop :=
  | step_exchange env req auth d : step d (Exchange secrets cfg env req auth d).1
  | step_revoke env req auth d : step d (Revoke secrets cfg env req auth d).1
  | step_revoke_family env familyID reason d : step d (RevokeInitialFamily env familyID reason d).1
  | step_purge now clock d : step d (PurgeExpiredAssertionReplays now clock d).1
  | step_new_credential x now d : step d (serializable (CreateServiceCredential x now) d).1
  | step_rotate_credential old x now d : step d (serializable (RotateServiceCredential old x now) d).1
  | step_revoke_credential id now d : step d (serializable (RevokeServiceCredential id now) d).1
  | step_disable_principal id now d : step d (serializable (DisableServicePrincipal id now) d).1.

Lemma revoke_credential_evolves id now rotated : relates evolves (revoke_credential id now rotated).
Proof.
  apply relates_stmt; [apply _|]. intros d d' u Hr. cbn zeta in Hr. destruct (table_ok _ _ _); [done|].
  injection Hr as <- _. by apply evolves_other.
Qed.
Lemma CreateServiceCredential_evolves x now : relates evolves (CreateServiceCredential x now).
Proof.
  apply relates_bind; [apply _|apply relates_ensure; apply _|intros _]. apply relates_stmt; [apply _|].
  intros d d' u Hr. cbn zeta in Hr. destruct (has_key _ _); [done|]. destruct (table_ok _ _ _); [done|].
  destruct (_ && _); [|done]. injection Hr as <- _. by apply evolves_other.
Qed.

Lemma step_evolves d d' : step d d' → evolves d d'.
Proof.
  intros Hs. destruct Hs.
  - apply Exchange_evolves.
  - apply Revoke_evolves.
  - apply RevokeInitialFamily_evolves.
  - unfold PurgeExpiredAssertionReplays. apply relates_serializable; [apply _|]. apply relates_stmt; [apply _|].
    intros d0 d' u [= <- _]. by apply evolves_other.
  - apply relates_serializable; [apply _|]. apply CreateServiceCredential_evolves.
  - apply relates_serializable; [apply _|]. unfold RotateServiceCredential.
    pose proof revoke_credential_evolves. pose proof CreateServiceCredential_evolves. relates_all.
  - apply relates_serializable; [apply _|]. unfold RevokeServiceCredential. pose proof revoke_credential_evolves. relates_all.
  - apply relates_serializable; [apply _|]. apply relates_bind; [apply _|apply relates_ensure; apply _|intros _].
    apply relates_stmt; [apply _|]. intros d0 d' u [= <- _]. by apply evolves_other.
Qed.

Lemma steps_evolve d d' : rtc step d d' → evolves d d'.
Proof. induction 1 as [|d d1 d2 Hs _ IH]; [done|]. by etrans; [apply step_evolves|]. Qed.

(** The deferred triggers hold at every commit. *)
Lemma serializable_lifecycle {A} (m : IM A) d d' r : serializable m d = (d', r) → lifecycle_ok d = true → lifecycle_ok d' = true.
Proof.
  unfold serializable. destruct (m (mkIconn d false)) as [c [x|e]]; [|congruence].
  destruct (_ || _) eqn:Hc; [congruence|]. intros [= <- _] _. apply orb_false_iff in Hc as [_ Hc]. by apply negb_false_iff in Hc.
Qed.

Lemma retry_lifecycle {A} n (m : IM A) d d' r : WithSerializableRetry n m d = (d', r) → lifecycle_ok d = true → lifecycle_ok d' = true.
Proof. rewrite retry_run. destruct (bool_decide _); [apply serializable_lifecycle|by intros [= <- _]]. Qed.

Lemma step_lifecycle d d' : step d d' → lifecycle_ok d = true → lifecycle_ok d' = true.
Proof.
  assert (Hser : ∀ A (m : IM A) d, lifecycle_ok d = true → lifecycle_ok (serializable m d).1 = true).
  { intros A m d0 Hd0. destruct (serializable m d0) as [d1 r] eqn:Hr. by apply (serializable_lifecycle _ _ _ _ Hr). }
  intros Hs Hd. destruct Hs; [| | |by apply Hser..].
  - unfold Exchange, exchangeClientCredentials, exchangeRefreshToken.
    repeat case_match; simplify_eq/=; try done; (eapply retry_lifecycle; [eassumption|done]).
  - unfold Revoke. repeat case_match; simplify_eq/=; try done; (eapply retry_lifecycle; [eassumption|done]).
  - unfold RevokeInitialFamily. case_bool_decide; [done|]. cbn zeta.
    destruct (serializable (revoke_live_tokens _ _) d) as [d1 [[]|]] eqn:E1; (apply serializable_lifecycle in E1; [|done]); [|done].
    destruct (serializable (revoke_family _ _ _) d1) as [d2 [[]|]] eqn:E2; (apply serializable_lifecycle in E2; [|done]); [|done].
    by apply Hser.
Qed.

(** What holds of the database between requests. *)
Definition inv (d : idb) : Prop := wf d ∧ lifecycle_ok d = true.

Lemma steps_inv d d' : rtc step d d' → inv d → inv d' ∧ grows d d'.
Proof.
  intros Hs [Hd Hl]. destruct (steps_evolve _ _ Hs Hd) as [Hd' Hg]. split; [split; [done|]|done].
  clear Hd Hd' Hg. induction Hs as [|d d1 d2 Hone _ IH]; [done|]. apply IH. by apply (step_lifecycle d d1).
Qed.

Lemma lifecycle_live d id f : inv d → id_families d !! id = Some f → length (live_tokens d id) = if bool_decide (rf_Status f = "active") then 1%nat else 0%nat.
Proof.
  intros [Hd Hl] Hf. unfold lifecycle_ok in Hl. rewrite forallb_forall_in in Hl.
  assert (Hin : f ∈ rows (id_families d)) by (apply elem_of_rows; by exists id). specialize (Hl f Hin). cbn beta in Hl.
  rewrite (wf_families d Hd id f Hf) in Hl. destruct (bool_decide (rf_Status f = "active")); by apply bool_decide_eq_true in Hl.
Qed.
End service.
