(* ===== verification/OAuthSample.v ===== *)
(** * A small identity database

    A public client with a redirect, a person's session and grant, and one authorization code: the
    state on which the witnesses of the token endpoint evaluate.  The keyed hash of the sample is
    the last 32 bytes of the message, the S256 challenge the first 43 of the verifier. *)
From S2P Require Import Prelude GoStrings Utf8 LmsDb IdentityData OAuthTokens.
From stdpp Require Import options.
Local Open Scope string_scope.

Definition sample_hmac (_ msg : string) : string :=
  let padded := "--------------------------------" +:+ msg in String.substring (String.length padded - 32) 32 padded.

#[global] Instance sample_crypto : IdentityCrypto := {|
  uuid_Parse := λ s, if uuid_text s then Some s else None;
  hmac_sha256 := sample_hmac;
  s256_challenge := λ v, String.substring 0 43 v |}.

#[global] Instance sample_signer : TokenSigner := {|
  signing_kid := Some "kid-1";
  sign_claims := λ _ c, Ok ("jwt:" +:+ at_jti c);
  assertion_claims := λ keys raw,
    if bool_decide (raw = "assertion-1") && bool_decide (keys = ["jwk-2"])
    then Some (mkParsedAssertion "signing-client" "signing-client" "https://id/token" "jti-1" 1000 1300 None) else None |}.

#[global] Instance identity_postgres : Postgres := sample_postgres.

Definition s_pepper : string := "0123456789abcdef0123456789abcdef".
Definition s_peppers : gmap Z string := {[1%Z := s_pepper]}.
Definition s_secrets : Secrets := mkSecrets s_peppers 1 s_peppers 1 s_peppers 1 s_peppers 1.
Definition s_cfg : ServiceConfig := mkServiceConfig "https://id" "https://id/token" "https://id/revoke" MaxAccessTTL.

Definition s_account : string := "11111111-1111-1111-1111-111111111111".
Definition s_client : OAuthClient := mkOAuthClient "client-row" "web-client" "public" "none" "" None ["authorization_code"; "refresh_token"] true None.
Definition s_other : OAuthClient := mkOAuthClient "other-row" "other-client" "public" "none" "" None ["refresh_token"] true None.
Definition s_signing : OAuthClient :=
  mkOAuthClient "signing-row" "signing-client" "confidential" "private_key_jwt" "" None ["client_credentials"] true None.

Definition s_key : OAuthClientKey := mkClientKey "key-row" "signing-row" "kid-2" "jwk-2" true None None None.

Definition s_principal : ServicePrincipal := mkPrincipal "principal" "identity:svc:22222222-2222-2222-2222-222222222222" true None.
Definition s_credential : ServiceCredential :=
  mkCredential "credential" "principal" "signing-row" "0123456789abcdef0123456789abcdef" 1 "https://studio" "studio" ["studio.read"] 0 None None "active".

Definition s_redirect : OAuthClientRedirect :=
  mkRedirect "redirect-row" "client-row" "https://app/cb" "https://lms" "lms" ["lms.read"] true.
Definition s_association : ProviderSessionAssociation :=
  mkAssociation "assoc" s_account "mapping" "stytch_b2b" "project" "org" "member" "member-session" (1000 * Second + 200 * 24 * Hour) "active".
Definition s_grant : OAuthGrant :=
  mkGrant "grant" (Some s_account) None "client-row" (Some "assoc") "https://lms" "lms" ["lms.read"; "lms.write"] "human" "active" 0
    (1000 * Second + 100 * 24 * Hour) None None 0.

Definition s_verifier : string := "verifier-verifier-verifier-verifier-verifier".
Definition s_code_text : string := "code-code-code-code-code-code-code-code".
Definition s_code : OAuthAuthorizationCode :=
  mkCode "code" (sample_hmac s_pepper s_code_text) 1 "grant" "broker" "client-row" "https://app/cb" "https://lms" "lms" ["lms.read"; "lms.write"]
    (String.substring 0 43 s_verifier) "S256" 0 (2000 * Second) None.

Definition s_db : idb :=
  mkIdb {["client-row" := s_client; "other-row" := s_other; "signing-row" := s_signing]} {["redirect-row" := s_redirect]} {["key-row" := s_key]} ∅
    {["assoc" := s_association]} {["grant" := s_grant]} {["code" := s_code]} ∅ ∅ ∅ {["principal" := s_principal]}
    {["credential" := s_credential]} {["kid-1"]}.

Definition s_random1 : string := "AAAAAAAAAAAAAAAAAAAAAAAAAAAAAAAA".
Definition s_random2 : string := "BBBBBBBBBBBBBBBBBBBBBBBBBBBBBBBB".
Definition s_random3 : string := "CCCCCCCCCCCCCCCCCCCCCCCCCCCCCCCC".
Definition s_env (seconds : Z) (random : string) : request_env := mkRequestEnv (seconds * Second) (seconds * Second) (Some random) "jti-a" 0.

Definition s_code_request : ExchangeRequest :=
  mkExchange "authorization_code" s_code_text "web-client" "https://app/cb" "https://lms" s_verifier "" "" "".
Definition s_refresh_request (token scope : string) : ExchangeRequest :=
  mkExchange "refresh_token" "" "web-client" "" "https://lms" "" token scope "".
Definition s_auth : ClientAuth := mkAuth "none" "web-client" "" "".

(** The code exchanged, then the refresh token used once. *)
Definition s_db1 : idb := (Exchange s_secrets s_cfg (s_env 1000 s_random1) s_code_request s_auth s_db).1.
Definition s_refresh1 : ExchangeRequest := s_refresh_request (EncodeToString s_random1) "".
Definition s_db2 : idb := (Exchange s_secrets s_cfg (s_env 1100 s_random2) s_refresh1 s_auth s_db1).1.

(** A service that signs its assertion. *)
Definition s_service_request : ExchangeRequest := mkExchange "client_credentials" "" "signing-client" "" "https://studio" "" "" "" "".
Definition s_service_auth : ClientAuth := mkAuth "private_key_jwt" "signing-client" "" "assertion-1".
Definition s_db_service : idb := (Exchange s_secrets s_cfg (s_env 1100 s_random1) s_service_request s_service_auth s_db).1.

Lemma substring_length n m s : (n + m ≤ String.length s)%nat → String.length (String.substring n m s) = m.
Proof. revert n m. induction s as [|c s IH]; intros [|n] [|m] Hl; cbn in *; try lia; rewrite ?IH; lia. Qed.

#[global] Instance sample_crypto_laws : CryptoLaws.
Proof. split. intros key msg. cbn. unfold sample_hmac. apply substring_length. rewrite GoStrings.length_append. cbn. lia. Qed.

(** A pair whose second part is known. *)
Lemma pair_eq {A B} (x : A * B) b : x.2 = b → x = (x.1, b).
Proof. destruct x. by intros <-. Qed.

Definition s_response (random : string) : TokenResponse := mkResponse "jwt:jti-a" 900 "lms.read lms.write" (EncodeToString random).

Lemma s_exchange1 : Exchange s_secrets s_cfg (s_env 1000 s_random1) s_code_request s_auth s_db = (s_db1, Ok (s_response s_random1)).
Proof. unfold s_db1. apply (pair_eq (Exchange _ _ _ _ _ _)). vm_compute. reflexivity. Qed.
Lemma s_exchange2 : Exchange s_secrets s_cfg (s_env 1100 s_random2) s_refresh1 s_auth s_db1 = (s_db2, Ok (s_response s_random2)).
Proof. unfold s_db2. apply (pair_eq (Exchange _ _ _ _ _ _)). vm_compute. reflexivity. Qed.
Lemma s_exchange_service :
  Exchange s_secrets s_cfg (s_env 1100 s_random1) s_service_request s_service_auth s_db =
    (s_db_service, Ok (mkResponse "jwt:jti-a" 900 "studio.read" "")).
Proof. unfold s_db_service. apply (pair_eq (Exchange _ _ _ _ _ _)). vm_compute. reflexivity. Qed.
