(* ===== verification/OAuthSafety.v ===== *)
(** * Primer Identity: what the token endpoint guarantees

    Codes and refresh tokens are used once, reuse ends the family and its grant, what has ended stays
    ended, tokens live and reach no further than the grant, and only the owner revokes. *)
From S2P Require Import Prelude GoStrings Utf8 LmsDb IdentityData OAuthTokens OAuthEvolve OAuthSample.
From Stdlib Require Import Ascii.
From stdpp Require Import options.
Local Open Scope string_scope.
Local Open Scope list_scope.
Local Set Default Proof Using "Type*".

(** ** Authorization codes *)

Section codes.
Context `{!Postgres, !IdentityCrypto, !TokenSigner} (secrets : Secrets) (cfg : ServiceConfig).

Lemma LoadConsumeBindings_same id : relates eq (LoadConsumeBindings id).
Proof. unfold LoadConsumeBindings, GetOAuthGrant, GetProviderSessionAssociation. relates_all. Qed.

Lemma GetOAuthGrant_Ok id c c' g : GetOAuthGrant id c = (c', Ok g) → c' = c ∧ id_grants (ic_db c) !! id = Some g ∧ id ≠ uuid_Nil.
Proof.
  unfold GetOAuthGrant. intros Hr. apply iensure_bind in Hr as [Hid Hr]. apply bool_decide_negb in Hid. run_inv. case_match; by run_inv.
Qed.

Lemma LoadConsumeBindings_Ok id c c' ga :
  LoadConsumeBindings id c = (c', Ok ga) →
  c' = c ∧ id_grants (ic_db c) !! id = Some ga.1 ∧ ∃ a, og_AssociationID ga.1 = Some a ∧ id_associations (ic_db c) !! a = Some ga.2.
Proof.
  unfold LoadConsumeBindings, GetProviderSessionAssociation. intros Hr. apply IM_bind_Ok in Hr as (c1 & g & Hg & Hr).
  apply GetOAuthGrant_Ok in Hg as (-> & Hg & _). destruct (og_AssociationID g) as [a|] eqn:Ha; [|done]. run_inv.
  case_match; run_inv. by eauto.
Qed.

(** No code has this hash. *)
Definition no_code (d : idb) (h : string) : Prop := ∀ id c, id_codes d !! id = Some c → ac_CodeHash c ≠ h.
(** The first of the hashes that some code has is that of a consumed one. *)
Definition code_spent (d : idb) (hashes : list string) : Prop :=
  ∃ pre h post id c, hashes = pre ++ h :: post ∧ Forall (no_code d) pre ∧ id_codes d !! id = Some c ∧ ac_CodeHash c = h ∧
    is_Some (ac_ConsumedAt c).

Lemma no_code_grows d d' h : grows d d' → no_code d h → no_code d' h.
Proof.
  intros Hg Hno i x Hx. assert (Hi : i ∈ dom (id_codes d)) by (rewrite <- (gr_codes_dom d d' Hg); by apply elem_of_dom).
  apply elem_of_dom in Hi as [y Hy]. destruct (gr_codes d d' Hg i y Hy) as (y' & Hy' & Hle'). simplify_eq.
  destruct Hle' as [->|(now & _ & ->)]; by apply (Hno i y).
Qed.

Lemma code_spent_grows d d' hashes : grows d d' → code_spent d hashes → code_spent d' hashes.
Proof.
  intros Hg (pre & h & post & id & c & -> & Hpre & Hc & Hh & Hs). destruct (gr_codes d d' Hg id c Hc) as (c' & Hc' & Hle).
  exists pre, h, post, id, c'. split_and!; [done| |done|by destruct Hle as [->|(now & _ & ->)]|].
  - eapply Forall_impl; [done|]. intros h'. by apply no_code_grows.
  - destruct Hle as [->|(now & Hn & _)]; [done|]. by destruct Hs; congruence.
Qed.

(** How a claim ends, from the code with the hash. *)
Lemma Claim_found x c c' code' :
  wf (ic_db c) → ClaimAuthorizationCode x c = (c', Ok code') →
  ∃ id code now, id_codes (ic_db c) !! id = Some code ∧ ac_CodeHash code = ci_CodeHash x ∧ ac_ConsumedAt code = None ∧
    code' = code_consumed now code ∧ id_codes (ic_db c') !! id = Some (code_consumed now code) ∧
    ∃ g, id_grants (ic_db c) !! ac_GrantID code = Some g ∧ og_Status g = "active".
Proof.
  intros Hd Hr. unfold ClaimAuthorizationCode in Hr. run_inv. destruct (select _ _) as [|code l] eqn:Hl; run_inv.
  assert (Hin : code ∈ select (λ y, bool_decide (ac_CodeHash y = ci_CodeHash x)) (id_codes (ic_db c))) by (rewrite Hl; left).
  apply elem_of_select in Hin as ([id Hid] & Hh%bool_decide_eq_true).
  pose proof (LoadConsumeBindings_same _ _ _ _ H6) as Hsame.
  exists id, code, (ci_Now (claim_audience (ac_Audience code) x)). split_and!; [done|done|by destruct (ac_ConsumedAt code)|done| |].
  - unfold update_where. rewrite <- Hsame, lookup_fmap, Hid. cbn. by rewrite bool_decide_eq_true_2, H4.
  - exists x1.1. split; [by apply LoadConsumeBindings_Ok in H6 as (_ & ? & _)|]. unfold ValidateConsumeBindings in H7.
    rewrite !andb_true_iff, !bool_decide_eq_true in H7. naive_solver.
Qed.

Lemma Claim_unconsumed x c c' code' :
  wf (ic_db c) → ClaimAuthorizationCode x c = (c', Ok code') →
  ∃ id code, id_codes (ic_db c) !! id = Some code ∧ ac_CodeHash code = ci_CodeHash x ∧ ac_ConsumedAt code = None.
Proof. intros Hd (id & code & now & ? & ? & ? & _)%Claim_found; [by eauto|done]. Qed.

(** Bindings that cannot be loaded are not missing: the rows are there. *)
Lemma LoadConsumeBindings_found id c :
  wf (ic_db c) → is_Some (id_grants (ic_db c) !! id) → ∀ c', LoadConsumeBindings id c ≠ (c', Err INotFound).
Proof.
  intros Hd [g Hg] c'. unfold LoadConsumeBindings, GetOAuthGrant, GetProviderSessionAssociation.
  rewrite IM_bind_Err, iensure_bind_Err, IM_bind_Err, iquery_Err. setoid_rewrite iquery_Ok. rewrite Hg.
  intros [[?|[_ [?|(? & ? & (_ & -> & ->) & ?)]]]|(c1 & g' & Hr & Hk)]; [naive_solver..|]. run_inv. rewrite Hg in Hr. run_inv.
  destruct (og_AssociationID g') as [a|] eqn:Hga; [|done]. destruct (wf_grant_association _ Hd _ _ _ Hg Hga) as [x Hx].
  rewrite IM_bind_Err, iensure_bind_Err, IM_bind_Err, iquery_Err in Hk. setoid_rewrite iquery_Ok in Hk. rewrite Hx in Hk. naive_solver.
Qed.

(** A claim reports a missing code only when no code has the hash. *)
Lemma Claim_NotFound x c c' :
  wf (ic_db c) → ClaimAuthorizationCode x c = (c', Err INotFound) → c' = c ∧ no_code (ic_db c) (ci_CodeHash x).
Proof.
  intros Hd Hr. unfold ClaimAuthorizationCode in Hr. rewrite iensure_bind_Err, IM_bind_Err, iquery_Err in Hr.
  destruct Hr as [?|[_ [?|(c1 & l & Hq & Hr)]]]; [naive_solver..|]. run_inv. destruct (select _ _) as [|code l] eqn:Hl.
  - injection Hr as <-. split; [done|]. intros id y Hy Hh.
    assert (Hin : y ∈ select (λ y, bool_decide (ac_CodeHash y = ci_CodeHash x)) (id_codes (ic_db c)));
      [|rewrite Hl in Hin; by apply elem_of_nil in Hin].
    apply elem_of_select. split; [by exists id|by apply bool_decide_eq_true].
  - exfalso. cbn zeta in Hr. rewrite !iensure_bind_Err in Hr. destruct Hr as [?|[_ [?|[_ Hr]]]]; [naive_solver..|].
    assert (Hin : code ∈ select (λ y, bool_decide (ac_CodeHash y = ci_CodeHash x)) (id_codes (ic_db c))) by (rewrite Hl; left).
    apply elem_of_select in Hin as ([id Hid] & _). rewrite IM_bind_Err in Hr. destruct Hr as [Hr|(c1 & ga & Hr & Hk)].
    { revert Hr. apply LoadConsumeBindings_found; [done|]. by apply (wf_code_grant _ Hd id). }
    rewrite iensure_bind_Err in Hk. destruct Hk as [?|[_ Hk]]; [naive_solver|]. unfold istmt in Hk. by destruct (ic_aborted c1).
Qed.

(** The loop over the hashes: it ends at the first one that a code has. *)
Lemma claim_code_spends hashes x c c' code :
  wf (ic_db c) → (∀ h, ci_CodeHash (x h) = h) → claim_code hashes x c = (c', Ok code) → code_spent (ic_db c') hashes.
Proof.
  intros Hd Hx. revert c' code. induction hashes as [|h rest IH]; intros c' code Hr; cbn [claim_code] in Hr; [done|].
  apply IM_bind_Ok in Hr as (c1 & r & Hr & Hk). unfold iattempt in Hr. destruct (ClaimAuthorizationCode (x h) c) as [c2 r2] eqn:Hc.
  injection Hr as <- <-. destruct r2 as [code1|e].
  - run_inv. destruct (Claim_found _ _ _ _ Hd Hc) as (id & y & now & _ & Hh & _ & -> & Hid & _).
    exists [], h, rest, id, (code_consumed now y). split_and!; [done|done|done| |done]. cbn. by rewrite Hh, Hx.
  - destruct (_ && _) eqn:Hb; [|done]. apply andb_true_iff in Hb as [->%bool_decide_eq_true _].
    apply Claim_NotFound in Hc as [-> Hno]; [|done]. rewrite Hx in Hno.
    pose proof (claim_code_evolves _ _ _ _ _ Hk Hd) as [_ Hg].
    destruct (IH _ _ Hk) as (pre & h' & post & id & y & -> & Hpre & Hrest).
    exists (h :: pre), h', post, id, y. split_and!; [done| |naive_solver..]. constructor; [|done]. by apply (no_code_grows _ _ _ Hg).
Qed.

(** A spent code is refused, whatever else is presented with it. *)
Lemma spent_code_refused hashes x c c' r :
  wf (ic_db c) → (∀ h, ci_CodeHash (x h) = h) → code_spent (ic_db c) hashes → claim_code hashes x c = (c', r) → ∃ e, r = Err e.
Proof.
  intros Hd Hx (pre & h & post & id & y & -> & Hpre & Hy & Hh & Hs). revert c Hd Hpre Hy.
  induction pre as [|h0 pre IH]; intros c Hd Hpre Hy; cbn [claim_code app]; unfold mbind, IM_bind, iattempt.
  - destruct (ClaimAuthorizationCode (x h) c) as [c1 r1] eqn:Hc. destruct r1 as [code|e].
    + exfalso. destruct (Claim_unconsumed _ _ _ _ Hd Hc) as (id' & z & Hz & Hhz & Hn). rewrite Hx in Hhz.
      assert (id' = id) by (eapply (wf_code_hash _ Hd); [done|done|congruence]). simplify_eq. rewrite Hn in Hs. by destruct Hs.
    + destruct (_ && _) eqn:Hb; [|intros [= <- <-]; by eexists]. exfalso. apply andb_true_iff in Hb as [->%bool_decide_eq_true _].
      apply Claim_NotFound in Hc as [_ Hno]; [|done]. rewrite Hx in Hno. by apply (Hno id y).
  - apply Forall_cons in Hpre as [Hno Hpre]. destruct (ClaimAuthorizationCode (x h0) c) as [c1 r1] eqn:Hc. destruct r1 as [code|e].
    + exfalso. destruct (Claim_unconsumed _ _ _ _ Hd Hc) as (id' & z & Hz & Hhz & _). rewrite Hx in Hhz. by apply (Hno id' z).
    + destruct (_ && _) eqn:Hb; [|intros [= <- <-]; by eexists]. apply andb_true_iff in Hb as [->%bool_decide_eq_true _].
      apply Claim_NotFound in Hc as [-> _]; [|done]. by apply IH.
Qed.

(** What a successful exchange of a code has done by its end. *)
Lemma exchangeCodeTx_spends env h o req auth c c' r :
  wf (ic_db c) → exchangeCodeTx secrets cfg env h o req auth c = (c', Ok r) →
  ∃ hashes, hashAcrossPeppers (ss_CodePeppers secrets) (ss_CodeActive secrets) CodeHashContext (rq_Code req) = Some hashes ∧
    code_spent (ic_db c') hashes.
Proof.
  intros Hd Hr. unfold exchangeCodeTx in Hr. cbn zeta in Hr. apply IM_bind_Ok in Hr as (c1 & client & Hauth & Hr).
  pose proof (authenticateClient_evolves _ _ _ _ _ _ _ _ _ Hauth Hd) as [Hd1 _]. do 2 apply iensure_bind in Hr as [_ Hr].
  apply IM_bind_Ok in Hr as (c2 & registration & Hreg & Hr).
  apply ion_error_Ok in Hreg. pose proof (GetEnabledOAuthClientRedirect_evolves _ _ _ _ _ _ Hreg Hd1) as [Hwf2 _].
  destruct (hashAcrossPeppers _ _ _ _) as [hashes|]; [|done]. exists hashes. split; [done|].
  apply IM_bind_Ok in Hr as (c3 & code & Hcode & Hr). pose proof (claim_code_evolves _ _ _ _ _ Hcode Hwf2) as [Hd3 _].
  pose proof (issue_initial_evolves _ _ _ _ _ _ _ _ _ _ _ _ Hr Hd3) as [_ Hg].
  apply (code_spent_grows _ _ _ Hg). by eapply claim_code_spends; [| |exact Hcode].
Qed.

Lemma exchangeCodeTx_spent env h o req auth c c' r hashes :
  wf (ic_db c) → hashAcrossPeppers (ss_CodePeppers secrets) (ss_CodeActive secrets) CodeHashContext (rq_Code req) = Some hashes →
  code_spent (ic_db c) hashes → exchangeCodeTx secrets cfg env h o req auth c ≠ (c', Ok r).
Proof.
  intros Hd Hh Hs Hr. unfold exchangeCodeTx in Hr. cbn zeta in Hr. apply IM_bind_Ok in Hr as (c1 & client & Hauth & Hr).
  pose proof (authenticateClient_evolves _ _ _ _ _ _ _ _ _ Hauth Hd) as [Hd1 Hg1]. do 2 apply iensure_bind in Hr as [_ Hr].
  apply IM_bind_Ok in Hr as (c2 & registration & Hreg & Hr).
  apply ion_error_Ok in Hreg. pose proof (GetEnabledOAuthClientRedirect_evolves _ _ _ _ _ _ Hreg Hd1) as [Hwf2 Hg2]. rewrite Hh in Hr. apply IM_bind_Ok in Hr as (c3 & code & Hcode & Hr).
  apply (code_spent_grows _ _ _ Hg1), (code_spent_grows _ _ _ Hg2) in Hs.
  apply spent_code_refused in Hcode as [e He]; done.
Qed.
Lemma Exchange_code env req auth d d' r :
  rq_GrantType req = "authorization_code" → Exchange secrets cfg env req auth d = (d', Ok r) →
  ∃ h o, newRefresh secrets env = Some (h, o) ∧ serializable (exchangeCodeTx secrets cfg env h o req auth) d = (d', Ok r).
Proof.
  intros Hg Hr. unfold Exchange in Hr. rewrite Hg in Hr. change (bool_decide (_ = "client_credentials")) with false in Hr.
  change (bool_decide (_ = "refresh_token")) with false in Hr. change (bool_decide (_ = "authorization_code")) with true in Hr.
  cbn [negb] in Hr. destruct (_ || _); [done|]. destruct (newRefresh secrets env) as [[h o]|]; [|done]. exists h, o. split; [done|].
  destruct (WithSerializableRetry _ _ d) as [d1 [x|e]] eqn:Hs; [|done]. apply retry_Ok in Hs. by injection Hr as <- <-.
Qed.

(** A request that fails changes nothing. *)
Lemma Exchange_code_Err env req auth d d' e :
  rq_GrantType req = "authorization_code" → Exchange secrets cfg env req auth d = (d', Err e) → d' = d.
Proof.
  intros Hg Hr. unfold Exchange in Hr. rewrite Hg in Hr. change (bool_decide (_ = "client_credentials")) with false in Hr.
  change (bool_decide (_ = "refresh_token")) with false in Hr. change (bool_decide (_ = "authorization_code")) with true in Hr.
  cbn [negb] in Hr. destruct (_ || _); [congruence|]. destruct (newRefresh secrets env) as [[h o]|]; [|congruence].
  destruct (WithSerializableRetry _ _ d) as [d1 [x|e1]] eqn:Hs; [done|]. apply retry_Err in Hs. congruence.
Qed.

(** C8: an authorization code is good for one exchange.  Once an exchange of it has succeeded, then
    after anything else the service does, every request with that code, by whichever client and
    with whatever else, is refused and leaves the database as it was. *)
Theorem authorization_code_single_use env req auth d d1 r :
  wf d → rq_GrantType req = "authorization_code" → Exchange secrets cfg env req auth d = (d1, Ok r) →
  ∀ d2, rtc (step secrets cfg) d1 d2 →
  ∀ env' req' auth', rq_GrantType req' = "authorization_code" → rq_Code req' = rq_Code req →
  ∃ e, Exchange secrets cfg env' req' auth' d2 = (d2, Err e).
Proof.
  intros Hd Hg Hr d2 Hsteps env' req' auth' Hg' Hcode.
  pose proof (Exchange_evolves secrets cfg env req auth d Hd) as [Hd1 _]. rewrite Hr in Hd1. cbn in Hd1.
  apply Exchange_code in Hr as (h & o & _ & (c & Hr & _ & _ & ->)%serializable_Ok); [|done].
  apply exchangeCodeTx_spends in Hr as (hashes & Hh & Hs); [|done]. pose proof (steps_evolve _ _ _ _ Hsteps Hd1) as [Hd2 Hg2].
  apply (code_spent_grows _ _ _ Hg2) in Hs. destruct (Exchange secrets cfg env' req' auth' d2) as [d3 [r'|e]] eqn:Hr'.
  - exfalso. apply Exchange_code in Hr' as (h' & o' & _ & (c' & Hr' & _)%serializable_Ok); [|done].
    by eapply exchangeCodeTx_spent in Hr'; [|done|rewrite Hcode|done].
  - exists e. by apply Exchange_code_Err in Hr' as ->.
Qed.
End codes.

(** The code of the sample database: after its exchange and a refresh it is refused. *)
Lemma authorization_code_single_use_witness :
  wf s_db ∧ ∃ e, Exchange s_secrets s_cfg (s_env 1200 s_random3) s_code_request s_auth s_db2 = (s_db2, Err e).
Proof.
  assert (Hwf : wf s_db) by (apply wf_b_wf; vm_compute; reflexivity). split; [exact Hwf|].
  eapply (authorization_code_single_use s_secrets s_cfg (s_env 1000 s_random1) s_code_request s_auth s_db s_db1 _ Hwf eq_refl s_exchange1);
    [|reflexivity|reflexivity].
  unfold s_db2. apply rtc_once, step_exchange.
Defined.

(** ** Statements that succeed *)

Lemma rows_update {A} p (f : A → A) t : rows (update_where p f t) = (λ x, if p x then f x else x) <$> rows t.
Proof. unfold rows, update_where. rewrite map_to_list_fmap, <- !list_fmap_compose. done. Qed.

(** Rows that keep their key, or lose it, stay distinct. *)
Lemma unique_update {A K} `{EqDecision K} (key : A → option K) p f (t : gmap string A) :
  (∀ x, p x = true → key (f x) = key x ∨ key (f x) = None) → unique_key key t = true → unique_key key (update_where p f t) = true.
Proof.
  intros Hf. unfold unique_key. rewrite !bool_decide_eq_true, rows_update. generalize (rows t). intros l Hn.
  eapply sublist_NoDup; [exact Hn|]. clear Hn. induction l as [|x l IH]; [done|]. cbn.
  destruct (p x) eqn:Hp; [destruct (Hf x Hp) as [->| ->]|]; destruct (key x); by repeat constructor.
Qed.

Lemma table_ok_None {A} (ck : A → bool) unique t :
  table_ok ck unique t = None ↔ (∀ id x, t !! id = Some x → ck x = true) ∧ unique t = true.
Proof.
  unfold table_ok. destruct (forallb ck (rows t)) eqn:Hc; cbn.
  - rewrite forallb_forall_in in Hc. setoid_rewrite elem_of_rows in Hc. destruct (unique t); cbn; naive_solver.
  - split; [done|]. intros [Hx _]. assert (Ht : forallb ck (rows t) = true); [|congruence].
    apply forallb_forall_in. intros x [id Hid]%elem_of_rows. by eapply Hx.
Qed.

Lemma table_ok_update {A} (ck : A → bool) unique p f t :
  table_ok ck unique t = None → (∀ id x, t !! id = Some x → p x = true → ck (f x) = true) → unique (update_where p f t) = true →
  table_ok ck unique (update_where p f t) = None.
Proof.
  rewrite !table_ok_None. intros [Hc _] Hf Hu. split; [|done]. intros id x. unfold update_where. rewrite lookup_fmap_Some.
  intros (y & <- & Hy). destruct (p y) eqn:Hp; [by eapply Hf|by eapply Hc].
Qed.

Lemma istmt_runs {A} (f : idb → result string (idb * A)) d d' a : f d = Ok (d', a) → istmt f (mkIconn d false) = (mkIconn d' false, Ok a).
Proof. intros Hf. unfold istmt. cbn. by rewrite Hf. Qed.

Lemma token_revoked_ck now t : token_ck t = true → live t = true → (rt_IssuedAt t ≤ now)%Z → token_ck (token_revoked now t) = true.
Proof.
  unfold token_ck, live. intros Hc [Hn Hr]%andb_true_iff Hle. cbn. destruct (rt_ConsumedAt t); [done|]. destruct (rt_RevokedAt t); [done|]. cbn in *.
  destruct (rt_ReplacedByID t), (rt_ReuseDetectedAt t); cbn in *; rewrite ?andb_false_r in Hc; try done.
  apply Z.leb_le in Hle. rewrite Hle. rewrite !andb_true_r in *. done.
Qed.

Lemma tokens_unique_revoked fam now d :
  tokens_unique (id_tokens d) = true →
  tokens_unique (update_where (λ t, bool_decide (rt_FamilyID t = fam) && live t) (token_revoked now) (id_tokens d)) = true.
Proof.
  unfold tokens_unique. rewrite !andb_true_iff. intros (((Ha & Hb) & Hc) & Hd).
  split_and!; apply unique_update; try done; intros x _; [by left..|]. right. unfold live. cbn. by rewrite andb_false_r.
Qed.

Section runs.
Context `{!Postgres}.

Lemma revoke_live_tokens_runs fam now d :
  wf d → (∀ t, t ∈ live_tokens d fam → (rt_IssuedAt t ≤ now)%Z) →
  revoke_live_tokens fam now (mkIconn d false) =
    (mkIconn (set_tokens (update_where (λ t, bool_decide (rt_FamilyID t = fam) && live t) (token_revoked now) (id_tokens d)) d) false, Ok tt).
Proof.
  intros Hd Hnow. apply istmt_runs, write_tokens_Ok. split; [|done]. apply table_ok_update; [apply Hd| |].
  - intros id x Hx Hp. pose proof Hp as [_ Hl]%andb_true_iff. apply token_revoked_ck; [|done|].
    + apply (proj1 (proj1 (table_ok_None _ _ _) (wf_tokens_ok d Hd)) id x Hx).
    + apply Hnow, elem_of_select. split; [by exists id|done].
  - apply tokens_unique_revoked. apply (proj2 (proj1 (table_ok_None _ _ _) (wf_tokens_ok d Hd))).
Qed.

Lemma end_grant_of_runs fam status now reason d :
  wf d → status = "revoked" ∨ status = "expired" →
  end_grant_of fam status now reason (mkIconn d false) =
    (mkIconn (set_grants (update_where (λ g, bool_decide (rf_GrantID <$> id_families d !! fam = Some (og_ID g)) && bool_decide (og_Status g = "active"))
       (grant_end status now reason) (id_grants d)) d) false, Ok tt).
Proof.
  intros Hd Hst. apply istmt_runs, write_grants_Ok. split; [|done]. destruct (proj1 (table_ok_None _ _ _) (wf_grants_ok d Hd)) as [Hck Hu].
  apply table_ok_update; [apply Hd| |].
  - intros id x Hx _. specialize (Hck id x Hx). unfold grant_ck in *. cbn. rewrite !andb_true_iff in Hck. destruct Hck as ((((H1 & _) & H3) & H4) & _).
    rewrite H1, H3, H4. by destruct Hst as [-> | ->].
  - unfold grants_unique in *. rewrite andb_true_iff in *. destruct Hu as [Hu1 Hu2].
    split; apply unique_update; try done; intros x _; right; cbn; destruct Hst as [-> | ->]; by rewrite andb_false_r.
Qed.

Lemma family_reuse_ck now f : family_ck f = true → rf_Status f ≠ "expired" → family_ck (family_end "reuse_detected" (Some now) None (Some now) "refresh_reuse" f) = true.
Proof.
  unfold family_ck. rewrite !andb_true_iff. intros ((((((Hs & H2) & H3) & H4) & H5) & H6) & Hst) Hne. cbn. rewrite H2, H3, H4, H5, H6.
  rewrite (bool_decide_eq_false_2 (rf_Status f = "expired")) in Hst by done. destruct (rf_ExpiredAt f); [|done].
  rewrite !andb_false_r in Hst. cbn in Hst. rewrite ?andb_false_r in Hst. done.
Qed.

(** The three ways a family ends: its tokens, its row, its grant. *)
Definition end_run (p : OAuthRefreshFamily → bool) (status : string) (rv ex re : option Z) (reason gs : string) (now : Z) (fam : string) : IM unit :=
  _ ← revoke_live_tokens fam now;
  _ ← istmt (λ d, write_families (update_where p (family_end status rv ex re reason) (id_families d)) d);
  end_grant_of fam gs now reason.

Lemma live_tokens_revoked fam now d :
  live_tokens (set_tokens (update_where (λ t, bool_decide (rt_FamilyID t = fam) && live t) (token_revoked now) (id_tokens d)) d) fam = [].
Proof.
  unfold live_tokens, select. cbn. rewrite rows_update. apply filter_none. apply Forall_fmap, Forall_forall. intros x _. cbn beta.
  intros Hq. cbv beta in Hq. destruct (bool_decide (rt_FamilyID x = fam) && live x) eqn:Hx; [|congruence].
  apply andb_true_iff in Hq as [_ Hl]. unfold live in Hl. cbn in Hl. by rewrite andb_false_r in Hl.
Qed.

Lemma live_tokens_others fam fam' now d :
  fam' ≠ fam →
  live_tokens (set_tokens (update_where (λ t, bool_decide (rt_FamilyID t = fam) && live t) (token_revoked now) (id_tokens d)) d) fam' = live_tokens d fam'.
Proof.
  intros Hne. unfold live_tokens, select. cbn. rewrite rows_update. induction (rows (id_tokens d)) as [|x l IH]; [done|].
  rewrite fmap_cons. destruct (bool_decide (rt_FamilyID x = fam) && live x) eqn:Hx; [|by rewrite !filter_cons, IH].
  apply andb_true_iff in Hx as [Hx%bool_decide_eq_true _].
  rewrite !filter_cons_False; [done|by rewrite bool_decide_eq_false_2 by congruence|]. cbn. by rewrite bool_decide_eq_false_2 by congruence.
Qed.

Lemma lifecycle_ok_iff d :
  lifecycle_ok d = true ↔ ∀ f, f ∈ rows (id_families d) →
    length (live_tokens d (rf_ID f)) = if bool_decide (rf_Status f = "active") then 1%nat else 0%nat.
Proof.
  unfold lifecycle_ok. rewrite forallb_forall_in. apply forall_proper. intros f. destruct (bool_decide (rf_Status f = "active")); by rewrite bool_decide_eq_true.
Qed.

Lemma lifecycle_end_run p status rv ex re reason now fam d f :
  wf d → id_families d !! fam = Some f → p f = true → (∀ x, p x = true → rf_ID x = fam) → status ≠ "active" →
  lifecycle_ok d = true →
  lifecycle_ok (set_families (update_where p (family_end status rv ex re reason) (id_families d))
    (set_tokens (update_where (λ t, bool_decide (rt_FamilyID t = fam) && live t) (token_revoked now) (id_tokens d)) d)) = true.
Proof.
  intros Hd Hf Hpf Hp Hst. rewrite !lifecycle_ok_iff. intros Hl f'. cbn [id_families set_families]. rewrite rows_update, list_elem_of_fmap.
  change (live_tokens (set_families ?a ?b)) with (live_tokens b). intros (x & -> & [id Hx]%elem_of_rows). destruct (p x) eqn:Hpx.
  - cbn [rf_ID rf_Status family_end]. rewrite (Hp x Hpx), live_tokens_revoked, bool_decide_eq_false_2 by done. done.
  - rewrite live_tokens_others; [apply Hl, elem_of_rows; by exists id|]. intros Heq.
    assert (id = fam) by (by rewrite <- (wf_families d Hd id x Hx)). congruence.
Qed.

Lemma end_run_runs p status rv ex re reason gs now fam d f :
  wf d → id_families d !! fam = Some f → p f = true → (∀ x, p x = true → rf_ID x = fam) → status ≠ "active" →
  family_ck (family_end status rv ex re reason f) = true → gs = "revoked" ∨ gs = "expired" →
  (∀ t, t ∈ live_tokens d fam → (rt_IssuedAt t ≤ now)%Z) →
  ∃ d', end_run p status rv ex re reason gs now fam (mkIconn d false) = (mkIconn d' false, Ok tt) ∧
    id_families d' !! fam = Some (family_end status rv ex re reason f) ∧ live_tokens d' fam = [] ∧
    (∀ g, id_grants d !! rf_GrantID f = Some g → ∃ g', id_grants d' !! rf_GrantID f = Some g' ∧ og_Status g' ≠ "active") ∧
    (lifecycle_ok d = true → lifecycle_ok d' = true).
Proof.
  intros Hd Hf Hpf Hp Hst Hck Hgs Hnow. unfold end_run. unfold mbind, IM_bind.
  pose proof (revoke_live_tokens_runs fam now d Hd Hnow) as H1. rewrite H1. pose proof (revoke_live_tokens_evolves fam now _ _ _ H1 Hd) as [Hd1 _].
  cbn [ic_db] in Hd1. pose proof (live_tokens_revoked fam now d) as Hnone. set (d1 := set_tokens _ d) in *.
  set (t2 := update_where p (family_end status rv ex re reason) (id_families d1)).
  assert (H2 : istmt (λ d, write_families (update_where p (family_end status rv ex re reason) (id_families d)) d) (mkIconn d1 false) =
    (mkIconn (set_families t2 d1) false, Ok tt)).
  { apply istmt_runs, write_families_Ok. split; [|done]. apply table_ok_update; [apply Hd1| |done].
    intros id x Hx Hpx. assert (id = fam) as -> by (rewrite <- (wf_families d1 Hd1 id x Hx); by apply Hp).
    change (id_families d1) with (id_families d) in Hx. by simplify_eq. }
  rewrite H2. assert (Hd2 : wf (set_families t2 d1)) by (by eapply (end_family_evolves p status rv ex re reason Hst _ _ _ H2)).
  assert (Hf2 : t2 !! fam = Some (family_end status rv ex re reason f)).
  { unfold t2, update_where. rewrite lookup_fmap. change (id_families d1) with (id_families d). rewrite Hf. cbn. by rewrite Hpf. }
  rewrite (end_grant_of_runs fam gs now reason _ Hd2 Hgs). eexists. split; [done|].
  split_and!; [done|done| |by apply (lifecycle_end_run p status rv ex re reason now fam d f)].
  intros g Hg. cbn [id_grants set_grants set_families]. unfold update_where. rewrite lookup_fmap.
  change (id_grants d1) with (id_grants d). rewrite Hg. eexists. split; [done|]. cbv beta. change (id_families (set_families t2 d1)) with t2.
  rewrite Hf2, (wf_grants d Hd _ _ Hg), (bool_decide_eq_true_2 (_ <$> _ = _)) by done.
  cbn [andb]. case_bool_decide; [|done]. cbn. by destruct Hgs as [-> | ->].
Qed.
End runs.

(** ** Refresh tokens *)

(** What authentication and minting leave alone. *)
Definition same_tokens (d d' : idb) : Prop :=
  (id_tokens d', id_families d', id_grants d', id_codes d') = (id_tokens d, id_families d, id_grants d, id_codes d).
#[export] Instance same_tokens_preorder : PreOrder same_tokens.
Proof. split; [done|]. unfold same_tokens. intros d d' d''. congruence. Qed.

Section refresh.
Context `{!Postgres, !IdentityCrypto, !TokenSigner} (secrets : Secrets) (cfg : ServiceConfig).

Lemma RecordClientAssertionReplay_same x : relates same_tokens (RecordClientAssertionReplay x).
Proof.
  apply relates_bind; [apply _|apply relates_ensure; apply _|intros _]. apply relates_stmt; [apply _|].
  intros d d' u Hr. cbv zeta in Hr. destruct (table_ok _ _ _); [done|]. destruct (has_key _ _); [|done]. by injection Hr as <- _.
Qed.
Lemma CreateTokenIssuanceAudit_same a : relates same_tokens (CreateTokenIssuanceAudit a).
Proof.
  apply relates_bind; [apply _|apply relates_ensure; apply _|intros _].
  apply relates_bind; [apply _|apply relates_query; apply _|intros known].
  apply relates_bind; [apply _|apply relates_ensure; apply _|intros _]. apply relates_stmt; [apply _|].
  intros d d' u Hr. cbv zeta in Hr. destruct (negb (audit_ck _)); [done|]. destruct (negb (scopes_trigger _)); [done|].
  destruct (_ || _); [done|]. by injection Hr as <- _.
Qed.
#[local] Hint Resolve RecordClientAssertionReplay_same CreateTokenIssuanceAudit_same : oauth.

Lemma authenticateClient_same req auth now audience kind : relates same_tokens (authenticateClient secrets req auth now audience kind).
Proof.
  unfold authenticateClient, authenticateAssertion, client_by_id, GetEnabledOAuthClientByClientID, ListEnabledOAuthClientKeys. cbn zeta.
  relates_all.
Qed.
Lemma issue_refreshed_same env scopes o client x : relates same_tokens (issue_refreshed secrets cfg env scopes o client x).
Proof. unfold issue_refreshed, txSigner, mint_and_audit. cbn zeta. relates_all. Qed.

Lemma elem_of_joined d p t f :
  (t, f) ∈ joined d p ↔ (∃ id, id_tokens d !! id = Some t) ∧ id_families d !! rt_FamilyID t = Some f ∧ p t f = true.
Proof.
  unfold joined. rewrite list_elem_of_omap. setoid_rewrite elem_of_rows. split.
  - intros (y & Hy & Hm). destruct (id_families d !! rt_FamilyID y) as [f'|] eqn:Hf; [|done]. destruct (p y f') eqn:Hp; by simplify_eq.
  - intros (Ht & Hf & Hp). exists t. rewrite Hf, Hp. done.
Qed.

Lemma find_refresh_Some hashes client resource c c' t f :
  find_refresh hashes client resource c = (c', Ok (Some (t, f))) →
  c' = c ∧ (∃ id, id_tokens (ic_db c) !! id = Some t) ∧ id_families (ic_db c) !! rt_FamilyID t = Some f ∧ rt_TokenHash t ∈ hashes ∧
    rf_ClientID f = client ∧ rf_ResourceURI f = resource.
Proof.
  induction hashes as [|h rest IH]; cbn [find_refresh]; intros Hr; run_inv.
  destruct (joined _ _) as [|[t' f'] l] eqn:Hj.
  - destruct (IH Hr) as (? & ? & ? & ? & ?). split_and!; try done; [by right|naive_solver..].
  - run_inv. assert (Hin : (t, f) ∈ joined (ic_db c') (λ t f, bool_decide (rt_TokenHash t = h) && bool_decide (rf_ClientID f = client) &&
                              bool_decide (rf_ResourceURI f = resource))) by (rewrite Hj; left).
    apply elem_of_joined in Hin as (? & ? & [[Hh Hc]%andb_true_iff Hs]%andb_true_iff).
    rewrite bool_decide_eq_true in Hh, Hc, Hs. split_and!; try done. rewrite Hh. left.
Qed.
Definition rotated_token (n family nextHash : string) (pepper seq now idle : Z) : OAuthRefreshToken :=
  mkToken n family nextHash pepper seq now idle None None None None.

Lemma rotate_Ok prev family nextHash pepper now c c' next :
  wf (ic_db c) → id_tokens (ic_db c) !! rt_ID prev = Some prev → live prev = true → id_families (ic_db c) !! rf_ID family = Some family →
  rotate prev family nextHash pepper now c = (c', Ok next) →
  let n := rt_ID next in
  id_tokens (ic_db c) !! n = None ∧ id_tokens (ic_db c') !! rt_ID prev = Some (token_consumed now n prev) ∧
  id_tokens (ic_db c') !! n = Some (rotated_token n (rf_ID family) nextHash pepper (rt_Sequence prev + 1) now (rf_IdleExpiresAt family)) ∧
  id_families (ic_db c') !! rf_ID family = Some (family_rotated now family) ∧ id_grants (ic_db c') = id_grants (ic_db c).
Proof.
  intros Hd Hprev Hlive Hfam Hr. unfold rotate in Hr. apply IM_bind_Ok in Hr as (c1 & nx & Hi & Hr).
  apply istmt_Ok in Hi as (_ & d1 & Hi & ->). apply bind_Ok in Hi as ([d1' []] & (_ & ->)%write_tokens_Ok & [= <- <-]).
  set (n := gen_random_uuid _) in *. assert (Hn : id_tokens (ic_db c) !! n = None) by apply fresh_id. clearbody n.
  assert (Hne : rt_ID prev ≠ n) by congruence. cbn [rt_ID] in Hr. run_inv.
  repeat match goal with
  | Hw : write_tokens _ _ = Ok (_, _) |- _ => apply write_tokens_Ok in Hw as [_ ->]
  | Hw : write_families _ _ = Ok (_, _) |- _ => apply write_families_Ok in Hw as [_ ->]
  end. cbn. unfold update_where. split_and!; [done|..].
  - rewrite !lookup_fmap, lookup_insert_ne, Hprev by done. cbn [fmap option_fmap option_map]. rewrite Hlive, (bool_decide_eq_true_2 (rt_ID prev = rt_ID prev)) by done.
    cbn. by rewrite bool_decide_eq_false_2.
  - rewrite !lookup_fmap, lookup_insert_eq. cbn. rewrite andb_false_r. cbn. by rewrite bool_decide_eq_true_2.
  - rewrite lookup_fmap, Hfam. cbn. by rewrite bool_decide_eq_true_2.
  - done.
Qed.

(** A redemption that succeeds: of a current token, in time, for no more than was granted. *)
Record redeemed (hashes : list string) (client resource : string) (requested : list string) (nextHash : string) (pepper now : Z)
    (d d' : idb) (x : RefreshRedemption) : Prop := {
  rd_guards : negb (bool_decide (client = uuid_Nil)) && negb (bool_decide (hashes = [])) && negb (bool_decide (resource = "")) &&
              hash32 nextHash && (0 <? pepper)%Z && negb (IsZero now) = true;
  rd_grant_id : rf_GrantID (rr_Family x) ≠ uuid_Nil;
  rd_prev : id_tokens d !! rt_ID (rr_Previous x) = Some (rr_Previous x);
  rd_hash : rt_TokenHash (rr_Previous x) ∈ hashes;
  rd_live : live (rr_Previous x) = true;
  rd_family : id_families d !! rf_ID (rr_Family x) = Some (rr_Family x);
  rd_member : rt_FamilyID (rr_Previous x) = rf_ID (rr_Family x);
  rd_owner : rf_ClientID (rr_Family x) = client ∧ rf_ResourceURI (rr_Family x) = resource;
  rd_active : rf_Status (rr_Family x) = "active";
  rd_grant : id_grants d !! rf_GrantID (rr_Family x) = Some (rr_Grant x) ∧ og_Status (rr_Grant x) = "active";
  rd_association : ∃ a, og_AssociationID (rr_Grant x) = Some a ∧ id_associations d !! a = Some (rr_Association x);
  rd_time : out_of_time (rr_Previous x) (rr_Family x) now = false;
  rd_scopes : validateRefreshScope (og_Scopes (rr_Grant x)) requested = true;
  rd_consumed : id_tokens d' !! rt_ID (rr_Previous x) = Some (token_consumed now (rt_ID (rr_Next x)) (rr_Previous x));
  rd_new : id_tokens d !! rt_ID (rr_Next x) = None;
  rd_next : id_tokens d' !! rt_ID (rr_Next x) =
    Some (rotated_token (rt_ID (rr_Next x)) (rf_ID (rr_Family x)) nextHash pepper (rt_Sequence (rr_Previous x) + 1) now (rf_IdleExpiresAt (rr_Family x)));
  rd_rotated : id_families d' !! rf_ID (rr_Family x) = Some (family_rotated now (rr_Family x));
  rd_grants : id_grants d' = id_grants d }.

Lemma Redeem_Ok hashes client resource requested nextHash pepper now c c' x :
  wf (ic_db c) → RedeemRefreshToken hashes client resource requested nextHash pepper now c = (c', Ok x) →
  redeemed hashes client resource requested nextHash pepper now (ic_db c) (ic_db c') x.
Proof.
  intros Hd Hr. unfold RedeemRefreshToken in Hr. apply iensure_bind in Hr as [Hguards Hr].
  apply IM_bind_Ok in Hr as (c1 & [[prev family]|] & Hf & Hr); [|done].
  apply find_refresh_Some in Hf as (-> & [id Hid] & Hfam & Hhash & Hcl & Hres).
  assert (Hpid : rt_ID prev = id) by (by apply (wf_tokens _ Hd)). assert (Hfid : rf_ID family = rt_FamilyID prev) by (by apply (wf_families _ Hd)).
  apply IM_bind_Ok in Hr as (c1 & grant & (-> & Hg & Hgid)%GetOAuthGrant_Ok & Hr).
  destruct (_ || _) eqn:Hguard; [by run_inv|]. rewrite !orb_false_iff, !negb_false_iff, !bool_decide_eq_true in Hguard.
  destruct Hguard as (((Hga & Hfa) & Hdead) & Htime). apply iensure_bind in Hr as [Hsc Hr].
  apply IM_bind_Ok in Hr as (c1 & ga & (-> & Hgr & a & Ha & Has)%LoadConsumeBindings_Ok & Hr).
  apply IM_bind_Ok in Hr as (c1 & next & Hrot & Hr). run_inv.
  rewrite (wf_grants _ Hd _ _ Hg) in Hgr. rewrite Hg in Hgr. simplify_eq.
  assert (Hlive : live prev = true) by (unfold live; unfold token_dead in Hdead; by destruct (rt_ConsumedAt prev), (rt_RevokedAt prev)).
  apply rotate_Ok in Hrot as (? & ? & ? & ? & ?); [|done|done|done|congruence].
  split; cbn; try done; [congruence|by eauto].
Qed.
(** Who a refresh request comes from. *)
Definition authenticate_refresh (env : request_env) (req : ExchangeRequest) (auth : ClientAuth) (d : idb) : iconn * result ierr OAuthClient :=
  authenticateClient secrets (mkPresentation (rq_ClientID req) (rq_AssertionType req) "" false) auth (en_now env) (cf_TokenEndpoint cfg) "token" (mkIconn d false).

(** The hashes a refresh request presents. *)
Definition presented_hashes (req : ExchangeRequest) : option (list string) :=
  match DecodeString (rq_RefreshToken req) with
  | Some secret => if bool_decide (String.length secret = refreshSecretBytes)
                   then hashAcrossPeppers (ss_RefreshPeppers secrets) (ss_RefreshActive secrets) refreshTokenHashContext secret else None
  | None => None
  end.

Lemma Exchange_refresh env req auth d :
  rq_GrantType req = "refresh_token" → Exchange secrets cfg env req auth d = exchangeRefreshToken secrets cfg env req auth d.
Proof.
  intros Hg. unfold Exchange. rewrite Hg. change (bool_decide (_ = "client_credentials")) with false.
  by change (bool_decide (_ = "refresh_token")) with true.
Qed.

Lemma exchangeRefreshToken_Ok env req auth d d' r :
  exchangeRefreshToken secrets cfg env req auth d = (d', Ok r) →
  ∃ hashes scopes h o, presented_hashes req = Some hashes ∧ requestedRefreshScopes (rq_Scope req) = Ok scopes ∧
    newRefresh secrets env = Some (h, o) ∧ serializable (refreshTx secrets cfg env hashes scopes h o req auth) d = (d', Ok (Some r)).
Proof.
  unfold exchangeRefreshToken, presented_hashes. intros Hr. destruct (_ || _); [done|]. destruct (negb _); [done|].
  destruct (requestedRefreshScopes _) as [scopes|]; [|done]. destruct (DecodeString _) as [secret|]; [|done].
  destruct (bool_decide _); [|done]. cbn [negb] in Hr. destruct (hashAcrossPeppers _ _ _ _) as [hashes|]; [|done].
  destruct (newRefresh secrets env) as [[h o]|]; [|done]. exists hashes, scopes, h, o. split_and!; try done.
  destruct (WithSerializableRetry _ _ d) as [d1 [[x|]|e]] eqn:Hs; [|done|done]. apply retry_Ok in Hs. by injection Hr as <- <-.
Qed.

(** A refresh that succeeds: the redemption, then the minting. *)
Lemma refreshTx_Ok env hashes scopes h o req auth c c' r :
  wf (ic_db c) → refreshTx secrets cfg env hashes scopes h o req auth c = (c', Ok (Some r)) →
  ∃ c1 c2 client x,
    authenticateClient secrets (mkPresentation (rq_ClientID req) (rq_AssertionType req) "" false) auth (en_now env) (cf_TokenEndpoint cfg) "token" c =
      (c1, Ok client) ∧ hasGrant client "refresh_token" = true ∧ wf (ic_db c1) ∧ same_tokens (ic_db c) (ic_db c1) ∧ grows (ic_db c) (ic_db c2) ∧
    redeemed hashes (oc_ID client) (rq_Resource req) scopes h (int16 (ss_RefreshActive secrets)) (en_now env) (ic_db c1) (ic_db c2) x ∧
    wf (ic_db c2) ∧ issue_refreshed secrets cfg env scopes o client x c2 = (c', Ok r) ∧ same_tokens (ic_db c2) (ic_db c').
Proof.
  intros Hd Hr. unfold refreshTx in Hr. cbn zeta in Hr. apply IM_bind_Ok in Hr as (c1 & client & Hauth & Hr).
  pose proof (authenticateClient_evolves _ _ _ _ _ _ _ _ _ Hauth Hd) as [Hd1 Hg1]. pose proof (authenticateClient_same _ _ _ _ _ _ _ _ Hauth).
  apply iensure_bind in Hr as [? Hr]. apply IM_bind_Ok in Hr as (c2 & res & Hred & Hr). unfold iattempt in Hred.
  destruct (RedeemRefreshToken _ _ _ _ _ _ _ c1) as [c3 res'] eqn:Hre. injection Hred as <- <-.
  pose proof (RedeemRefreshToken_evolves _ _ _ _ _ _ _ _ _ _ Hre Hd1) as [Hd3 Hg3].
  destruct res' as [x|[]]; [|by run_inv..]. apply Redeem_Ok in Hre; [|done].
  apply IM_bind_Ok in Hr as (c4 & y & Hi & Hr). run_inv. pose proof (issue_refreshed_same _ _ _ _ _ _ _ _ Hi).
  exists c1, c3, client, x. split_and!; try done. by etrans.
Qed.

Lemma validateRefreshScope_incl granted requested :
  validateRefreshScope granted requested = true → (if bool_decide (requested = []) then granted else requested) ⊆ granted.
Proof.
  unfold validateRefreshScope. case_bool_decide; [done|]. cbn. rewrite forallb_forall_in. intros Hf s Hs. by apply Hf, bool_decide_eq_true in Hs.
Qed.

Lemma issue_refreshed_scope env scopes o client x c c' r :
  issue_refreshed secrets cfg env scopes o client x c = (c', Ok r) →
  tr_RefreshToken r = o ∧ tr_Scope r = FormatScopes (if bool_decide (scopes = []) then og_Scopes (rr_Grant x) else scopes).
Proof. unfold issue_refreshed. intros Hr. cbn zeta in Hr. destruct (og_AccountID _); [|done]. by run_inv. Qed.

Lemma live_token_is_the_one d id f t :
  inv d → id_families d !! id = Some f → rf_Status f = "active" → id_tokens d !! rt_ID t = Some t → rt_FamilyID t = id → live t = true →
  live_tokens d id = [t].
Proof.
  intros Hd Hf Ha Ht Hfam Hl. pose proof (lifecycle_live d id f Hd Hf) as Hlen. rewrite bool_decide_eq_true_2 in Hlen by done.
  assert (Hin : t ∈ live_tokens d id).
  { apply elem_of_select. split; [by eexists|]. by rewrite bool_decide_eq_true_2, Hl. }
  destruct (live_tokens d id) as [|t' [|]]; try done. by apply list_elem_of_singleton in Hin as ->.
Qed.

(** C9: a refresh that succeeds replaces the token it was given.  The token whose hash is among the
    hashes of the presented text (one per configured pepper) was the current one of an active family,
    for the requested resource and the authenticated client, under an active grant, and in time; it is
    now consumed and points to the new one, which is the only current token of the family, carries the
    next sequence number and is the one returned; the family's idle time is extended, and the scopes are
    among those granted. *)
Theorem refresh_rotation env req auth d d' r :
  inv d → rq_GrantType req = "refresh_token" → Exchange secrets cfg env req auth d = (d', Ok r) →
  ∃ hashes prev family grant next hash scopes,
    presented_hashes req = Some hashes ∧ rt_TokenHash prev ∈ hashes ∧
    id_tokens d !! rt_ID prev = Some prev ∧ live prev = true ∧ rt_FamilyID prev = rf_ID family ∧
    id_families d !! rf_ID family = Some family ∧ rf_Status family = "active" ∧
    rf_ResourceURI family = rq_Resource req ∧
    (∃ c client, authenticate_refresh env req auth d = (c, Ok client) ∧ oc_ID client = rf_ClientID family) ∧
    id_grants d !! rf_GrantID family = Some grant ∧ og_Status grant = "active" ∧ out_of_time prev family (en_now env) = false ∧
    newRefresh secrets env = Some (hash, tr_RefreshToken r) ∧
    id_tokens d' !! rt_ID prev = Some (token_consumed (en_now env) next prev) ∧
    live_tokens d' (rf_ID family) =
      [rotated_token next (rf_ID family) hash (int16 (ss_RefreshActive secrets)) (rt_Sequence prev + 1) (en_now env) (rf_IdleExpiresAt family)] ∧
    id_families d' !! rf_ID family = Some (family_rotated (en_now env) family) ∧
    scopes ⊆ og_Scopes grant ∧ tr_Scope r = FormatScopes scopes.
Proof.
  intros [Hd Hl] Hg Hr. assert (Hinv : inv d') by (pose proof (steps_inv secrets cfg d d') as Hst; apply Hst; [|done];
    replace d' with (Exchange secrets cfg env req auth d).1 by (by rewrite Hr); apply rtc_once, step_exchange).
  rewrite Exchange_refresh in Hr by done.
  apply exchangeRefreshToken_Ok in Hr as (hashes & scopes & h & o & Hh & Hsc & Hn & (c & Hr & _ & _ & ->)%serializable_Ok).
  apply refreshTx_Ok in Hr as (c1 & c2 & client & x & Hauth & _ & _ & Hs1 & _ & Hx & _ & Hi & Hs2); [|done].
  apply issue_refreshed_scope in Hi as [<- Hscope]. destruct Hx. injection Hs1 as E1 E2 E3 E4. injection Hs2 as F1 F2 F3 F4.
  destruct rd_grant0 as [Hgr Hga]. destruct rd_owner0 as [Hcl Hres].
  exists hashes, (rr_Previous x), (rr_Family x), (rr_Grant x), (rt_ID (rr_Next x)), h, (if bool_decide (scopes = []) then og_Scopes (rr_Grant x) else scopes).
  rewrite E1 in rd_prev0. rewrite E2 in rd_family0. rewrite E3 in Hgr. split_and!; try done; [by eexists _, _|by rewrite F1| |by rewrite F2|by apply validateRefreshScope_incl].
  eapply live_token_is_the_one; [done|by rewrite F2|done|by rewrite F1|done|done].
Qed.
(** *** Reuse *)

(** The secret behind these hashes belongs to one token at most. *)
Definition issued_once (d : idb) (hashes : list string) : Prop :=
  ∀ i j t t', id_tokens d !! i = Some t → id_tokens d !! j = Some t' → rt_TokenHash t ∈ hashes → rt_TokenHash t' ∈ hashes → i = j.

Definition issued_once_b (d : idb) (hashes : list string) : bool :=
  bool_decide (length (select (λ t, bool_decide (rt_TokenHash t ∈ hashes)) (id_tokens d)) ≤ 1)%nat && keyed_b rt_ID (id_tokens d).
Lemma issued_once_b_sound d hashes : issued_once_b d hashes = true → issued_once d hashes.
Proof.
  intros [Hl%bool_decide_eq_true Hk%keyed_b_keyed]%andb_true_iff i j t t' Hi Hj Ht Ht'.
  assert (Hin : t ∈ select (λ t, bool_decide (rt_TokenHash t ∈ hashes)) (id_tokens d))
    by (apply elem_of_select; split; [by exists i|by apply bool_decide_eq_true]).
  assert (Hin' : t' ∈ select (λ t, bool_decide (rt_TokenHash t ∈ hashes)) (id_tokens d))
    by (apply elem_of_select; split; [by exists j|by apply bool_decide_eq_true]).
  destruct (select _ _) as [|x [|]]; [by apply elem_of_nil in Hin| |cbn in Hl; lia].
  apply list_elem_of_singleton in Hin as ->, Hin' as ->. by rewrite <- (Hk _ _ Hi), <- (Hk _ _ Hj).
Qed.

Lemma find_refresh_finds d hashes client resource id t f :
  id_tokens d !! id = Some t → id_families d !! rt_FamilyID t = Some f → rt_TokenHash t ∈ hashes → rf_ClientID f = client → rf_ResourceURI f = resource →
  issued_once d hashes → find_refresh hashes client resource (mkIconn d false) = (mkIconn d false, Ok (Some (t, f))).
Proof.
  intros Ht Hf Hh Hc Hr. induction hashes as [|h rest IH]; intros Hone; [by apply elem_of_nil in Hh|].
  cbn [find_refresh]. unfold mbind, IM_bind. unfold iquery, istmt. cbn [ic_aborted ic_db].
  destruct (joined _ _) as [|[t' f'] l] eqn:Hj.
  - apply IH; [|intros i j x y Hi Hj' Hx Hy; apply (Hone i j x y Hi Hj'); by right].
    apply elem_of_cons in Hh as [Hh|]; [|done]. exfalso.
    assert (Hin : (t, f) ∈ joined d (λ t f, bool_decide (rt_TokenHash t = h) && bool_decide (rf_ClientID f = client) && bool_decide (rf_ResourceURI f = resource))).
    { apply elem_of_joined. split_and!; [by exists id|done|]. by rewrite !bool_decide_eq_true_2. }
    rewrite Hj in Hin. by apply elem_of_nil in Hin.
  - assert (Hin : (t', f') ∈ joined d (λ t f, bool_decide (rt_TokenHash t = h) && bool_decide (rf_ClientID f = client) && bool_decide (rf_ResourceURI f = resource)))
      by (rewrite Hj; left).
    apply elem_of_joined in Hin as ([i Hi] & Hf' & [[Hh'%bool_decide_eq_true _]%andb_true_iff _]%andb_true_iff).
    assert (i = id) by (eapply Hone; [done|done|rewrite Hh'; left|done]). by simplify_eq.
Qed.

(** Presenting a token that has been replaced or revoked. *)
Lemma Redeem_dead d hashes client resource requested nextHash pepper now id t f g :
  wf d → id_tokens d !! id = Some t → token_dead t = true → id_families d !! rt_FamilyID t = Some f → rt_TokenHash t ∈ hashes →
  rf_ClientID f = client → rf_ResourceURI f = resource → issued_once d hashes →
  negb (bool_decide (client = uuid_Nil)) && negb (bool_decide (hashes = [])) && negb (bool_decide (resource = "")) &&
    hash32 nextHash && (0 <? pepper)%Z && negb (IsZero now) = true →
  rf_GrantID f ≠ uuid_Nil → id_grants d !! rf_GrantID f = Some g →
  RedeemRefreshToken hashes client resource requested nextHash pepper now (mkIconn d false) =
    (_ ← markRefreshReuse (rf_ID f) now; ithrow IConflict) (mkIconn d false).
Proof.
  intros Hd Ht Hdead Hf Hh Hc Hr Hone Hguards Hgid Hg. unfold RedeemRefreshToken. rewrite Hguards. cbn [iensure].
  unfold mbind at 1, IM_bind at 1. cbn [mret IM_ret]. unfold mbind at 1, IM_bind at 1. rewrite (find_refresh_finds d hashes client resource id t f) by done.
  unfold mbind at 1, IM_bind at 1. assert (Hgrant : GetOAuthGrant (rf_GrantID f) (mkIconn d false) = (mkIconn d false, Ok g)).
  { unfold GetOAuthGrant. rewrite bool_decide_eq_false_2 by done. cbn. unfold mbind, IM_bind. cbn. by rewrite Hg. }
  rewrite Hgrant, Hdead, !orb_true_r. done.
Qed.

(** The registered client with an id. *)
Definition find_client (t : gmap string OAuthClient) (id : string) : result ierr OAuthClient :=
  if ValidatePublicClientID id then
    match select (λ c, bool_decide (oc_ClientID c = id) && oc_Enabled c && is_none (oc_DisabledAt c)) t with c :: _ => Ok c | [] => Err badClient end
  else Err badClient.
Lemma client_by_id_reads id d : client_by_id id (mkIconn d false) = (mkIconn d false, find_client (id_clients d) id).
Proof.
  unfold client_by_id, GetEnabledOAuthClientByClientID, find_client, ion_error, mbind, IM_bind.
  destruct (ValidatePublicClientID id); [|done]. cbn. by destruct (select _ _).
Qed.

Lemma newRefresh_hash32 `{!CryptoLaws} env h o : newRefresh secrets env = Some (h, o) → hash32 h = true.
Proof.
  unfold newRefresh. destruct (en_random env) as [x|]; [|done]. intros (h' & Hh & [= -> _])%fmap_Some. unfold Hash in Hh.
  destruct (_ || _); [done|]. destruct (_ !! _); [|done]. case_match; [|done]. injection Hh as <-. apply bool_decide_eq_true, hmac_length.
Qed.

(** A refresh request that is complete, up to its transaction. *)
Lemma exchangeRefreshToken_run env req auth d hashes scopes h o :
  rq_Resource req ≠ "" → one_of (au_Method auth) ["none"; "client_secret_basic"; "private_key_jwt"] = true →
  requestedRefreshScopes (rq_Scope req) = Ok scopes → presented_hashes req = Some hashes → newRefresh secrets env = Some (h, o) →
  exchangeRefreshToken secrets cfg env req auth d =
    match WithSerializableRetry (en_conflicts env) (refreshTx secrets cfg env hashes scopes h o req auth) d with
    | (d', Ok (Some r)) => (d', Ok r)
    | (d', Ok None) => (d', Err badRefresh)
    | (d', Err e) => (d', Err (publicError noIssuance e))
    end.
Proof.
  intros Hres Hm Hsc Hp Hn. unfold exchangeRefreshToken, presented_hashes in *. rewrite Hm, Hsc. rewrite bool_decide_eq_false_2 by done.
  destruct (decide (rq_RefreshToken req = "")) as [E|E]; [by rewrite E in Hp|]. rewrite bool_decide_eq_false_2 by done. cbn [orb negb].
  destruct (DecodeString _) as [secret|]; [|done]. destruct (bool_decide _); [|done]. cbn [negb]. by rewrite Hp, Hn.
Qed.

(** A family that has ended has no current token, now and later. *)
Lemma ended_family d d' id f :
  inv d → id_families d !! id = Some f → rf_Status f ≠ "active" → rtc (step secrets cfg) d d' →
  live_tokens d' id = [] ∧ ∃ f', id_families d' !! id = Some f' ∧ rf_Status f' ≠ "active".
Proof.
  intros Hd Hf Hs Hst. destruct (steps_inv secrets cfg d d' Hst Hd) as [Hd' Hg]. destruct (gr_families _ _ Hg _ _ Hf) as (f' & Hf' & Hle).
  apply (fl_ended _ _ Hle) in Hs as Hs'. split; [|by eauto]. pose proof (lifecycle_live d' id f' Hd' Hf') as Hlen.
  rewrite bool_decide_eq_false_2 in Hlen by done. by apply nil_length_inv in Hlen.
Qed.

(** A token that has been replaced stays so, and with it its family and grant. *)
Lemma replaced_later d d2 t f g :
  grows d d2 → id_tokens d !! rt_ID t = Some t → live t = false → id_families d !! rt_FamilyID t = Some f → id_grants d !! rf_GrantID f = Some g →
  ∃ t2 f2 g2, id_tokens d2 !! rt_ID t = Some t2 ∧ token_dead t2 = true ∧ rt_TokenHash t2 = rt_TokenHash t ∧ rt_FamilyID t2 = rt_FamilyID t ∧
    id_families d2 !! rt_FamilyID t = Some f2 ∧ family_le f f2 ∧ id_grants d2 !! rf_GrantID f = Some g2.
Proof.
  intros Hg Ht Hl Hf Hgr. destruct (gr_tokens _ _ Hg _ _ Ht) as (t2 & Ht2 & Hle). destruct (gr_families _ _ Hg _ _ Hf) as (f2 & Hf2 & Hfl).
  destruct (gr_grants _ _ Hg _ _ Hgr) as (g2 & Hg2 & _). apply (tl_dead _ _ Hle) in Hl. injection (tl_names _ _ Hle) as _ E1 E2 _.
  exists t2, f2, g2. split_and!; try done. unfold live in Hl. unfold token_dead. by destruct (rt_ConsumedAt t2), (rt_RevokedAt t2).
Qed.

(** A request for a family that reaches the redemption: complete, from the client the family belongs to,
    with a clock that has not gone back behind the current token, and a transaction that is not given up. *)
Record in_order (env : request_env) (req : ExchangeRequest) (auth : ClientAuth) (family : OAuthRefreshFamily) (d : idb) : Prop := {
  io_resource : rq_Resource req = rf_ResourceURI family;
  io_method : one_of (au_Method auth) ["none"; "client_secret_basic"; "private_key_jwt"] = true;
  io_scopes : ∃ scopes, requestedRefreshScopes (rq_Scope req) = Ok scopes;
  io_client : ∃ d' client, authenticate_refresh env req auth d = (mkIconn d' false, Ok client) ∧ oc_ID client = rf_ClientID family ∧
    hasGrant client "refresh_token" = true;
  io_material : is_Some (newRefresh secrets env);
  io_conflicts : (en_conflicts env < maxAttempts)%nat;
  io_clock : IsZero (en_now env) = false;
  io_order : ∀ t, t ∈ live_tokens d (rf_ID family) → (rt_IssuedAt t ≤ en_now env)%Z }.

(** The second use, inside its transaction. *)
Lemma refreshTx_reuse env hashes scopes h o req auth d d' client t f g :
  inv d → authenticate_refresh env req auth d = (mkIconn d' false, Ok client) → hasGrant client "refresh_token" = true →
  id_tokens d !! rt_ID t = Some t → token_dead t = true → rt_TokenHash t ∈ hashes → issued_once d hashes →
  id_families d !! rt_FamilyID t = Some f → rf_Status f = "active" → rf_ClientID f = oc_ID client → rf_ResourceURI f = rq_Resource req →
  rf_GrantID f ≠ uuid_Nil → id_grants d !! rf_GrantID f = Some g → (∀ t, t ∈ live_tokens d (rf_ID f) → (rt_IssuedAt t ≤ en_now env)%Z) →
  negb (bool_decide (oc_ID client = uuid_Nil)) && negb (bool_decide (hashes = [])) && negb (bool_decide (rq_Resource req = "")) &&
    hash32 h && (0 <? int16 (ss_RefreshActive secrets))%Z && negb (IsZero (en_now env)) = true →
  ∃ d3 g3, refreshTx secrets cfg env hashes scopes h o req auth (mkIconn d false) = (mkIconn d3 false, Ok None) ∧ lifecycle_ok d3 = true ∧
    id_families d3 !! rf_ID f = Some (family_end "reuse_detected" (Some (en_now env)) None (Some (en_now env)) "refresh_reuse" f) ∧
    id_grants d3 !! rf_GrantID f = Some g3 ∧ og_Status g3 ≠ "active".
Proof.
  intros [Hd Hl] Hauth Hhg Ht Hdead Hh Hone Hf Hact Hcl Hres Hgid Hg Hlive Hguards.
  pose proof (authenticateClient_evolves _ _ _ _ _ _ _ _ _ Hauth Hd) as [Hd' _]. pose proof (authenticateClient_same _ _ _ _ _ _ _ _ Hauth) as [= E1 E2 E3 E4].
  cbn [ic_db] in *. assert (Hl' : lifecycle_ok d' = true) by (unfold lifecycle_ok, live_tokens in *; by rewrite E1, E2).
  assert (Hfid : rf_ID f = rt_FamilyID t) by (by apply (wf_families _ Hd)).
  rewrite <- E1 in Ht. rewrite <- E2 in Hf. rewrite <- E3 in Hg. assert (Hone' : issued_once d' hashes) by (unfold issued_once in *; by rewrite E1).
  edestruct (end_run_runs (λ f', bool_decide (rf_ID f' = rf_ID f)) "reuse_detected" (Some (en_now env)) None (Some (en_now env))
    "refresh_reuse" "revoked" (en_now env) (rf_ID f) d') as (d3 & Hrun & Hf3 & _ & Hg3 & Hl3);
    [done|by rewrite Hfid|by apply bool_decide_eq_true|by intros y ?%bool_decide_eq_true|done| |by left| |].
  { apply family_reuse_ck; [|by rewrite Hact]. by apply (proj1 (proj1 (table_ok_None _ _ _) (wf_families_ok d' Hd')) _ _ Hf). }
  { unfold live_tokens in *. by rewrite E1. }
  destruct (Hg3 _ Hg) as (g3 & Hg3' & Hne). exists d3, g3. split_and!; [|by apply Hl3|done|done|done].
  unfold authenticate_refresh in Hauth. unfold refreshTx. cbn zeta. unfold mbind at 1, IM_bind at 1. rewrite Hauth, Hhg. cbn [iensure].
  unfold mbind at 1, IM_bind at 1. cbn [mret IM_ret]. unfold mbind at 1, IM_bind at 1. unfold iattempt.
  rewrite (Redeem_dead d' hashes (oc_ID client) (rq_Resource req) scopes h (int16 (ss_RefreshActive secrets)) (en_now env) (rt_ID t) t f g) by done.
  unfold mbind, IM_bind.
  change (markRefreshReuse ?a ?b) with (end_run (λ f, bool_decide (rf_ID f = a)) "reuse_detected" (Some b) None (Some b) "refresh_reuse" "revoked" b a).
  by rewrite Hrun.
Qed.

(** What a success leaves: the token of the request is replaced, and later it still is. *)
Lemma refreshed_later env req auth d d1 r d2 hashes :
  inv d → rq_GrantType req = "refresh_token" → Exchange secrets cfg env req auth d = (d1, Ok r) → presented_hashes req = Some hashes →
  rtc (step secrets cfg) d1 d2 →
  ∃ family t2 f2 g2, inv d2 ∧ id_families d !! rf_ID family = Some family ∧ rf_Status family = "active" ∧
    id_tokens d2 !! rt_ID t2 = Some t2 ∧ token_dead t2 = true ∧ rt_TokenHash t2 ∈ hashes ∧ rt_FamilyID t2 = rf_ID family ∧
    id_families d2 !! rf_ID family = Some f2 ∧ family_le family f2 ∧ id_grants d2 !! rf_GrantID family = Some g2 ∧
    rf_GrantID family ≠ uuid_Nil ∧ rf_ClientID family ≠ uuid_Nil ∧ hashes ≠ [] ∧ rf_ResourceURI family ≠ "" ∧
    (0 < int16 (ss_RefreshActive secrets))%Z.
Proof.
  intros Hinv Hg Hr Hpres Hsteps. destruct (steps_inv secrets cfg d d2) as [Hinv2 Hgrows]; [|done|].
  { eapply rtc_l; [|exact Hsteps]. replace d1 with (Exchange secrets cfg env req auth d).1 by (by rewrite Hr). apply step_exchange. }
  destruct (steps_inv secrets cfg d d1) as [Hinv1 Hgrows1]; [|done|].
  { replace d1 with (Exchange secrets cfg env req auth d).1 by (by rewrite Hr). apply rtc_once, step_exchange. }
  destruct (steps_inv secrets cfg d1 d2 Hsteps Hinv1) as [_ Hgrows2]. rewrite Exchange_refresh in Hr by done.
  apply exchangeRefreshToken_Ok in Hr as (hashes' & scopes & h & o & Hp & _ & _ & (c & Htx & _ & _ & ->)%serializable_Ok).
  rewrite Hpres in Hp. injection Hp as <-. apply refreshTx_Ok in Htx as (c1 & c2 & client & x & _ & _ & _ & [= E1 E2 E3 E4] & _ & Hx & _ & _ & [= F1 F2 F3 F4]);
    [|apply Hinv]. destruct Hx. destruct rd_grant0 as [Hgr _]. destruct rd_owner0 as [Hcl Hres]. cbn [ic_db] in *.
  rewrite E2 in rd_family0. rewrite <- F1 in rd_consumed0. rewrite <- F2 in rd_rotated0. rewrite <- rd_grants0, <- F3 in Hgr.
  rewrite <- rd_member0 in rd_rotated0.
  destruct (replaced_later (ic_db c) d2 (token_consumed (en_now env) (rt_ID (rr_Next x)) (rr_Previous x)) (family_rotated (en_now env) (rr_Family x)) (rr_Grant x))
    as (t2 & f2 & g2 & Ht2 & Hd2 & Hh2 & Hfam2 & Hf2 & _ & Hg2); [done..|]. cbn [rt_ID rt_FamilyID rt_TokenHash token_consumed] in *. rewrite rd_member0 in Hf2, Hfam2.
  destruct (gr_families _ _ Hgrows _ _ rd_family0) as (f2' & Hf2' & Hle). rewrite Hf2 in Hf2'. injection Hf2' as <-.
  rewrite !andb_true_iff in rd_guards0. destruct rd_guards0 as [[[[[G1%bool_decide_negb G2%bool_decide_negb] G3%bool_decide_negb] _] G4%Z.ltb_lt] _].
  exists (rr_Family x), t2, f2, g2. assert (Hid : rt_ID t2 = rt_ID (rr_Previous x)) by (by apply (wf_tokens _ (proj1 Hinv2))).
  split_and!; try done; [by rewrite Hid|by rewrite Hh2|congruence|congruence].
Qed.

(** What has ended stays ended. *)
Lemma ended_grant d d' id g :
  inv d → id_grants d !! id = Some g → og_Status g ≠ "active" → rtc (step secrets cfg) d d' → ∃ g', id_grants d' !! id = Some g' ∧ og_Status g' ≠ "active".
Proof.
  intros Hd Hg Hs Hst. destruct (steps_inv secrets cfg d d' Hst Hd) as [_ Hgr]. destruct (gr_grants _ _ Hgr _ _ Hg) as (g' & Hg' & Hle).
  exists g'. split; [done|]. by apply (gl_ended _ _ Hle).
Qed.

(** C10: a refresh token that is used again ends everything that came from it.  After a refresh that
    succeeded and whatever the service has done since, a request with the same refresh token, from any
    client, with any authentication and at any time, gets no tokens (the secret belonging to one token of
    the database).  When the family is still active and the request is in order (complete, from the client
    the family belongs to, the clock not behind the current token, the service available), it is answered with [invalid_grant], the family is marked
    and the grant ended; and whatever the service does afterwards, the family and the grant stay ended and
    the family has no current token. *)
Theorem refresh_reuse_ends_family `{!CryptoLaws} env req auth d d1 r hashes d2 env' req' auth' :
  inv d → rq_GrantType req = "refresh_token" → Exchange secrets cfg env req auth d = (d1, Ok r) → presented_hashes req = Some hashes →
  rtc (step secrets cfg) d1 d2 → issued_once d2 hashes →
  rq_GrantType req' = "refresh_token" → rq_RefreshToken req' = rq_RefreshToken req →
  (∀ d3 r', Exchange secrets cfg env' req' auth' d2 ≠ (d3, Ok r')) ∧
  ∃ family fam2, id_families d !! rf_ID family = Some family ∧ rf_Status family = "active" ∧
    (∃ t, id_tokens d2 !! rt_ID t = Some t ∧ rt_TokenHash t ∈ hashes ∧ rt_FamilyID t = rf_ID family) ∧
    id_families d2 !! rf_ID family = Some fam2 ∧
    (rf_Status fam2 = "active" → in_order env' req' auth' family d2 →
     ∃ d3 fam3 grant3, Exchange secrets cfg env' req' auth' d2 = (d3, Err badRefresh) ∧
       id_families d3 !! rf_ID family = Some fam3 ∧ rf_Status fam3 = "reuse_detected" ∧
       id_grants d3 !! rf_GrantID family = Some grant3 ∧ og_Status grant3 ≠ "active" ∧
       ∀ d4, rtc (step secrets cfg) d3 d4 →
         live_tokens d4 (rf_ID family) = [] ∧ (∃ fam4, id_families d4 !! rf_ID family = Some fam4 ∧ rf_Status fam4 ≠ "active") ∧
         ∃ grant4, id_grants d4 !! rf_GrantID family = Some grant4 ∧ og_Status grant4 ≠ "active").
Proof.
  intros Hinv Hg Hr Hpres Hsteps Hone Hg' Htok.
  destruct (refreshed_later env req auth d d1 r d2 hashes Hinv Hg Hr Hpres Hsteps)
    as (family & t2 & f2 & g2 & Hinv2 & Hfam & Hact & Ht2 & Hdead & Hh & Hfid & Hf2 & Hle & Hgr2 & Hgid & Hcid & Hne & Hres & Hpep).
  assert (Hpres' : presented_hashes req' = Some hashes) by (unfold presented_hashes in *; by rewrite Htok).
  rewrite (Exchange_refresh env') by done. split.
  - intros d3 r' Hx. apply exchangeRefreshToken_Ok in Hx as (hashes' & scopes & h & o & Hp & _ & _ & (c & Htx & _)%serializable_Ok).
    rewrite Hpres' in Hp. injection Hp as <-. apply refreshTx_Ok in Htx as (c1 & c2 & client & x & _ & _ & _ & [= E1 _ _ _] & _ & Hx & _); [|apply Hinv2].
    destruct Hx. cbn [ic_db] in *. rewrite E1 in rd_prev0. assert (E : rt_ID (rr_Previous x) = rt_ID t2) by (by eapply Hone).
    rewrite E, Ht2 in rd_prev0. injection rd_prev0 as E'. rewrite <- E' in rd_live0. unfold live in rd_live0. unfold token_dead in Hdead.
    by destruct (rt_ConsumedAt t2), (rt_RevokedAt t2).
  - exists family, f2. split_and!; [done|done|by eauto|done|]. intros Hact2 [Ores Om [scopes Osc] (d' & client & Oauth & Ocl & Ohas) [[h o] Onew] Ocon Oclk Oord].
    injection (fl_names _ _ Hle) as N1 N2 N3 N4.
    destruct (refreshTx_reuse env' hashes scopes h o req' auth' d2 d' client t2 f2 g2) as (d3 & g3 & Hrun & Hl3 & Hf3 & Hg3 & Hne3);
      [done|done|done|done|done|done|done|by rewrite Hfid|done|congruence|congruence|congruence|by rewrite N2|by rewrite N1| |].
    { rewrite Ocl, Ores, (newRefresh_hash32 _ _ _ Onew), Oclk, !bool_decide_eq_false_2 by done. cbn. rewrite andb_true_r. by apply Z.ltb_lt. }
    assert (Hx : Exchange secrets cfg env' req' auth' d2 = (d3, Err badRefresh)).
    { rewrite Exchange_refresh, (exchangeRefreshToken_run env' req' auth' d2 hashes scopes h o) by (done || congruence).
      rewrite retry_run, bool_decide_eq_true_2 by done. unfold serializable. rewrite Hrun. cbn. by rewrite Hl3. }
    rewrite N1 in Hf3. rewrite N2 in Hg3. rewrite <- (Exchange_refresh env') by done. exists d3. do 2 eexists. split_and!; [done|exact Hf3|done|exact Hg3|done|].
    intros d4 Hst. assert (Hinv3 : inv d3). { eapply (steps_inv secrets cfg d2 d3); [|done]. replace d3 with (Exchange secrets cfg env' req' auth' d2).1 by (by rewrite Hx).
      apply rtc_once, step_exchange. }
    destruct (ended_family d3 d4 _ _ Hinv3 Hf3 ltac:(done) Hst) as [? ?]. split_and!; [done|done|by eapply ended_grant].
Qed.
End refresh.

(** The sample: the refresh token of the code, used once and then again. *)
Lemma refresh_rotation_witness :
  ∃ prev next, id_tokens s_db1 !! rt_ID prev = Some prev ∧ id_tokens s_db2 !! rt_ID prev = Some (token_consumed (1100 * Second) next prev).
Proof.
  assert (Hinv : inv s_db1) by (split; [apply wf_b_wf|]; vm_compute; reflexivity).
  destruct (refresh_rotation s_secrets s_cfg (s_env 1100 s_random2) s_refresh1 s_auth s_db1 s_db2
    _ Hinv eq_refl s_exchange2) as (hs & prev & fam & g & next & h & sc & _ & _ & H1 & _ & _ & _ & _ & _ & _ & _ & _ & _ & _ & H2 & _).
  exists prev, next. split; [exact H1|exact H2].
Defined.

Definition s_fam1 : OAuthRefreshFamily :=
  mkFamily "0" "grant" "client-row" "https://lms" "active" (1000 * Second + MaxRefreshAbsolute) (1000 * Second + MaxRefreshIdle) (1000 * Second)
    None None None None 0.

Lemma refresh_reuse_ends_family_witness :
  ∃ d3 grant, Exchange s_secrets s_cfg (s_env 1200 s_random3) s_refresh1 s_auth s_db2 = (d3, Err badRefresh) ∧ og_Status grant ≠ "active".
Proof.
  assert (Hinv : inv s_db1) by (split; [apply wf_b_wf|]; vm_compute; reflexivity).
  destruct (refresh_reuse_ends_family s_secrets s_cfg (s_env 1100 s_random2) s_refresh1 s_auth s_db1 s_db2
    (s_response s_random2) [s_random1] s_db2 (s_env 1200 s_random3) s_refresh1 s_auth Hinv eq_refl s_exchange2) as (_ & fam & f2 & Hfam & Hact & Ht & Hf2 & Hend);
    [vm_compute; reflexivity|reflexivity|apply issued_once_b_sound; vm_compute; reflexivity|reflexivity|reflexivity|].
  assert (Hid : rf_ID fam = "0") by (apply elem_of_map_to_list in Hfam; vm_compute in Hfam; apply list_elem_of_singleton in Hfam; by injection Hfam).
  destruct Hend as (d3 & f3 & g3 & Hx & _ & _ & _ & Hg & _); [| |exists d3, g3; exact (conj Hx Hg)].
  - assert (E : rf_Status <$> id_families s_db2 !! "0" = Some "active") by (vm_compute; reflexivity).
    rewrite <- Hid, Hf2 in E. exact (Some_inj _ _ E).
  - assert (E : fam = s_fam1) by (apply (inj Some); rewrite <- Hfam, Hid; vm_compute; reflexivity). rewrite E. split.
    + vm_compute. reflexivity.
    + vm_compute. reflexivity.
    + exists []. vm_compute. reflexivity.
    + exists s_db2, s_client. split; [vm_compute; reflexivity|]. split; vm_compute; reflexivity.
    + eexists. vm_compute. reflexivity.
    + apply (bool_decide_unpack _). vm_compute. exact I.
    + vm_compute. reflexivity.
    + apply Forall_forall. apply (bool_decide_unpack _). vm_compute. exact I.
Defined.

(** A token presented after its family has expired ends the family, with [invalid_grant]; presented
    again, it is taken for a reuse, whose update the family's check refuses: the answer is then
    [temporarily_unavailable], and nothing is recorded. *)
Example expired_token_twice :
  let later := s_env (1000 + 20 * 24 * 3600) s_random2 in
  let first := Exchange s_secrets s_cfg later s_refresh1 s_auth s_db1 in
  let second := Exchange s_secrets s_cfg later s_refresh1 s_auth first.1 in
  first.2 = Err badRefresh ∧ rf_Status <$> rows (id_families first.1) = ["expired"] ∧ second.2 = Err noIssuance ∧
  rf_Status <$> rows (id_families second.1) = ["expired"].
Proof. vm_compute. auto. Qed.

(** With the secrets a service accepts at its start, a new refresh token can always be hashed. *)
Lemma copied_secrets_hash `{!IdentityCrypto} s s' env random :
  copySecrets s = Ok s' → en_random env = Some random → String.length random = refreshSecretBytes → is_Some (newRefresh s' env).
Proof.
  unfold copySecrets. intros Hs Hr Hl. repeat (apply bind_Ok in Hs as (? & ? & Hs)). injection Hs as <-.
  unfold copyPepperMap in *. repeat (case_match; [done|]). simplify_eq/=. unfold newRefresh. rewrite Hr. cbn. unfold Hash.
  rewrite !orb_false_iff, negb_false_iff, bool_decide_eq_false, bool_decide_eq_false, forallb_forall_in, Z.leb_gt in H5. destruct H5 as (((_ & Hpos) & Hin) & Hall).
  destruct (ss_RefreshPeppers s !! ss_RefreshActive s) as [pepper|] eqn:Hp; [|done].
  apply elem_of_map_to_list in Hp. apply Hall, andb_true_iff in Hp as [_ Hp]. cbn in Hp. rewrite Hp.
  rewrite bool_decide_eq_false_2, (bool_decide_eq_false_2 (random = "")), (bool_decide_eq_false_2 (_ < String.length random)%nat);
    [by eexists|rewrite Hl; unfold refreshSecretBytes; lia|by intros ->|lia].
Qed.
