(* ===== verification/OAuthBounds.v ===== *)
(** * Primer Identity: how far a token reaches, and who revokes

    Lifetimes and audit rows of access tokens, revocation by clients and operators, single use of client
    assertions, and the text of refresh tokens. *)
From S2P Require Import Prelude GoStrings Utf8 LmsDb IdentityData OAuthTokens OAuthEvolve OAuthSample OAuthSafety.
From Stdlib Require Import Ascii.
From stdpp Require Import options.
Local Open Scope string_scope.
Local Open Scope list_scope.
Local Set Default Proof Using "Type*".

(** Case analysis on the outermost conditional of the goal's premise. *)
Ltac first_if E := match goal with |- (if ?b then _ else _) = _ → _ => destruct b eqn:E end.

(** ** Lifetimes *)

Section mint.
Context `{!Postgres, !IdentityCrypto, !TokenSigner} (secrets : Secrets) (cfg : ServiceConfig).

Lemma truncate_second_le t : (truncate_second t ≤ t)%Z ∧ (truncate_second t mod Second = 0)%Z.
Proof. unfold truncate_second, Second. split; [|by apply Z.mod_mul]. pose proof (Z.mul_div_le t 1000000). lia. Qed.

Lemma cap_lifetime_Some bound iat lifetime l :
  cap_lifetime bound iat lifetime = Some l → (l ≤ lifetime)%Z ∧ (IsZero bound = false → iat + l ≤ bound)%Z.
Proof.
  unfold cap_lifetime. destruct (IsZero bound); [intros [= <-]; split; [lia|done]|].
  destruct (_ <=? 0)%Z; [done|]. intros [= <-]. pose proof (truncate_second_le bound). lia.
Qed.

(** A token that is minted lives for whole seconds, at most a quarter of an hour, and not beyond the
    bounds it was given. *)
Lemma issueHuman_bounds issuer kid now jti x service it :
  issueHuman issuer kid now jti x service = Ok it →
  (0 < it_Lifetime it ≤ MaxAccessTTL)%Z ∧ (it_Lifetime it mod Second = 0)%Z ∧ (it_IssuedAt it ≤ now)%Z ∧
  it_ExpiresAt it = (it_IssuedAt it + it_Lifetime it)%Z ∧
  (IsZero (hi_GrantNotAfter x) = false → it_ExpiresAt it ≤ hi_GrantNotAfter x)%Z ∧
  (IsZero (hi_ProviderExpiresAt x) = false → it_ExpiresAt it ≤ hi_ProviderExpiresAt x)%Z.
Proof.
  unfold issueHuman. first_if E1; [done|]. first_if E2; [done|]. destruct (canonicalScope _) as [scope|]; [|done].
  first_if Httl; [done|]. cbn zeta. destruct (_ ≫= _) as [lifetime|] eqn:Hcap; [|done].
  first_if Hlt; [done|]. first_if E3; [done|]. intros (compact & _ & [= <-])%bind_Ok. cbn.
  apply bind_Some in Hcap as (l1 & C1%cap_lifetime_Some & C2%cap_lifetime_Some).
  rewrite !orb_false_iff, negb_false_iff, Z.leb_gt, Z.ltb_ge, Z.eqb_eq in Hlt. destruct Hlt as ((Hpos & Hmax) & Hmod).
  pose proof (truncate_second_le now) as [Hle Hm0]. set (iat := truncate_second now) in *. clearbody iat.
  assert (Hexp : ((iat / Second + lifetime / Second) * Second = iat + lifetime)%Z).
  { rewrite Z.mul_add_distr_r, !(Z.mul_comm (_ / _)), <- !Z_div_exact_full_2 by done. done. }
  rewrite Hexp. split_and!; try done; try lia; intros Hz; [destruct C1 as [_ C1]; specialize (C1 Hz)|destruct C2 as [_ C2]; specialize (C2 Hz)]; lia.
Qed.

(** What the audit row says of the token. *)
Lemma mint_and_audit_Ok env kid x service a e c c' issued :
  mint_and_audit secrets cfg env kid x service a e c = (c', Ok issued) →
  issueHuman (cf_Issuer cfg) kid (en_mint_now env) (en_jti env) x service = Ok issued ∧
  ∃ id row jtiHash, id_audits (ic_db c) !! id = None ∧ id_audits (ic_db c') !! id = Some row ∧
    let y := a jtiHash issued in
    (ta_GrantID row, ta_ClientID row, ta_Scopes row, ta_IssuedAt row, ta_ExpiresAt row) = (ta_GrantID y, ta_ClientID y, ta_Scopes y, ta_IssuedAt y, ta_ExpiresAt y).
Proof.
  unfold mint_and_audit. destruct (issueHuman _ _ _ _ _ _) as [it|[]]; [|done|done]. destruct (Hash _ _ _ _) as [jtiHash|]; [|done]. intros Hr.
  apply IM_bind_Ok in Hr as (c1 & [] & Hr & Hret). run_inv. split; [done|].
  unfold CreateTokenIssuanceAudit in *. run_inv. cbv zeta in *.
  repeat match goal with Hx : (if ?b then _ else _) = Ok _ |- _ => destruct b; [done|] end. simplify_eq/=.
  exists (gen_random_uuid (dom (id_audits (ic_db c)))). eexists _, jtiHash. split_and!; [apply fresh_id|by rewrite lookup_insert_eq|done].
Qed.
(** Claiming a code and starting a family leave the grants alone. *)
Definition same_grants (d d' : idb) : Prop := id_grants d' = id_grants d ∧ id_associations d' = id_associations d.
#[local] Instance same_grants_preorder : PreOrder same_grants.
Proof. split; [done|]. unfold same_grants. intros d d' d''. intuition congruence. Qed.

Lemma Claim_same_grants x : relates same_grants (ClaimAuthorizationCode x).
Proof.
  unfold ClaimAuthorizationCode, LoadConsumeBindings, GetOAuthGrant, GetProviderSessionAssociation. cbn zeta. relates_all.
  apply relates_stmt; [apply _|]. by intros d d' u [= <- _].
Qed.
Lemma claim_code_same_grants hashes x : relates same_grants (claim_code hashes x).
Proof. pose proof Claim_same_grants. induction hashes as [|h rest IH]; cbn [claim_code]; relates_all. Qed.
Lemma CreateInitial_same_grants x : relates same_grants (CreateInitialRefreshFamily x).
Proof.
  unfold CreateInitialRefreshFamily. cbn zeta. relates_all; (apply relates_stmt; [apply _|]; intros d d' u Hr).
  - destruct (_ || _); [done|]. by apply bind_Ok in Hr as ([d1 []] & (Ht & ->)%write_families_Ok & [= <-]).
  - by apply bind_Ok in Hr as ([d1 []] & (Ht & ->)%write_tokens_Ok & [= <-]).
Qed.
Lemma authenticate_same_grants req auth now audience kind : relates same_grants (authenticateClient secrets req auth now audience kind).
Proof.
  assert (Hrec : ∀ x, relates same_grants (RecordClientAssertionReplay x)).
  { intros x. apply relates_bind; [apply _|apply relates_ensure; apply _|intros _]. apply relates_stmt; [apply _|].
    intros d d' u Hr. cbv zeta in Hr. destruct (table_ok _ _ _); [done|]. destruct (has_key _ _); [|done]. by injection Hr as <- _. }
  unfold authenticateClient, authenticateAssertion, client_by_id, GetEnabledOAuthClientByClientID, ListEnabledOAuthClientKeys. cbn zeta.
  relates_all.
Qed.

Lemma claim_code_grant hashes x c c' code :
  wf (ic_db c) → claim_code hashes x c = (c', Ok code) → ∃ g, id_grants (ic_db c) !! ac_GrantID code = Some g ∧ og_Status g = "active".
Proof.
  intros Hd. induction hashes as [|h rest IH]; cbn [claim_code]; intros Hr; [done|].
  apply IM_bind_Ok in Hr as (c1 & r & Hr & Hk). unfold iattempt in Hr. destruct (ClaimAuthorizationCode (x h) c) as [c2 r2] eqn:Hc.
  injection Hr as <- <-. destruct r2 as [code1|e].
  - run_inv. by destruct (Claim_found _ _ _ _ Hd Hc) as (id & y & now & _ & _ & _ & -> & _ & Hg).
  - destruct (_ && _) eqn:Hb; [|done]. apply andb_true_iff in Hb as [->%bool_decide_eq_true _].
    apply Claim_NotFound in Hc as [-> _]; [|done]. by apply IH.
Qed.

(** The grant behind a token and the bounds it puts on it. *)
Definition within_grant (d d' : idb) (r : TokenResponse) : Prop :=
  ∃ id a g assoc p, id_audits d !! id = None ∧ id_audits d' !! id = Some a ∧
    id_grants d !! ta_GrantID a = Some g ∧ og_Status g = "active" ∧ og_AssociationID g = Some assoc ∧ id_associations d !! assoc = Some p ∧
    (1 ≤ tr_ExpiresIn r ≤ 900)%Z ∧ ta_ExpiresAt a = (ta_IssuedAt a + tr_ExpiresIn r * Second)%Z ∧
    (IsZero (og_NotAfter g) = false → ta_ExpiresAt a ≤ og_NotAfter g)%Z ∧ (IsZero (pa_ExpiresAt p) = false → ta_ExpiresAt a ≤ pa_ExpiresAt p)%Z ∧
    tr_Scope r = FormatScopes (ta_Scopes a).

Lemma lifetime_seconds l : (0 < l ≤ MaxAccessTTL)%Z → (l mod Second = 0)%Z → (1 ≤ l / Second ≤ 900)%Z ∧ (l / Second * Second = l)%Z.
Proof. unfold MaxAccessTTL, Minute, Second. intros Hl Hm. pose proof (Z.div_mod l 1000000). lia. Qed.

(** From the minting to the claim about the response. *)
Lemma minted_within d c c' env kid x a e issued r g assoc p gid :
  mint_and_audit secrets cfg env kid x false a e c = (c', Ok issued) → (∀ j i, ta_GrantID (a j i) = gid ∧ ta_IssuedAt (a j i) = it_IssuedAt i ∧ ta_ExpiresAt (a j i) = it_ExpiresAt i) →
  (∀ j i, tr_Scope r = FormatScopes (ta_Scopes (a j i))) → tr_ExpiresIn r = (it_Lifetime issued / Second)%Z →
  grows d (ic_db c) → id_grants d !! gid = Some g → og_Status g = "active" → og_AssociationID g = Some assoc → id_associations d !! assoc = Some p →
  hi_GrantNotAfter x = og_NotAfter g → hi_ProviderExpiresAt x = pa_ExpiresAt p →
  within_grant d (ic_db c') r.
Proof.
  intros (Hi & id & row & jti & Hn & Hrow & Heq)%mint_and_audit_Ok Ha Hsc Hexp Hg Hgr Hst Has Hp Hng Hpp. cbn zeta in Heq.
  apply issueHuman_bounds in Hi as (Hl & Hmod & _ & Hex & Hb1 & Hb2). destruct (Ha jti issued) as (Hgid & Hia & Hea).
  injection Heq as E1 _ E3 E4 E5. destruct (lifetime_seconds _ Hl Hmod) as [[Hs0 Hs1] Hs2].
  exists id, row, g, assoc, p. rewrite E1, E4, E5, E3, Hgid, Hia, Hea, Hexp, Hs2, <- Hng, <- Hpp. split_and!; try done.
  destruct (id_audits d !! id) as [y|] eqn:Hy; [|done]. apply (lookup_weaken _ (id_audits (ic_db c))) in Hy; [congruence|]. by apply (gr_audits _ _ Hg).
Qed.
Lemma issue_refreshed_within env scopes o client x c c' r d :
  issue_refreshed secrets cfg env scopes o client x c = (c', Ok r) → grows d (ic_db c) →
  id_grants d !! og_ID (rr_Grant x) = Some (rr_Grant x) → og_Status (rr_Grant x) = "active" →
  (∃ a, og_AssociationID (rr_Grant x) = Some a ∧ id_associations d !! a = Some (rr_Association x)) → within_grant d (ic_db c') r.
Proof.
  unfold issue_refreshed. intros Hr Hg Hgr Hst (a & Ha & Hp). cbn zeta in Hr. destruct (og_AccountID _) as [account|]; [|done].
  apply IM_bind_Ok in Hr as (c1 & kid & Hk & Hr). unfold txSigner in Hk. destruct signing_kid; [|done].
  apply IM_bind_Ok in Hr as (c2 & issued & Hmint & Hr). run_inv. eapply minted_within; try done. intros j i. by split_and!.
Qed.

Lemma issue_initial_within env h o req client registration code c c' r d :
  issue_initial secrets cfg env h o req client registration code c = (c', Ok r) → wf (ic_db c) → grows d (ic_db c) → same_grants d (ic_db c) →
  (∃ g, id_grants d !! ac_GrantID code = Some g ∧ og_Status g = "active") → within_grant d (ic_db c') r.
Proof.
  unfold issue_initial. intros Hr Hd Hg [E1 E2] (g & Hgr & Hst). cbn zeta in Hr.
  apply IM_bind_Ok in Hr as (c1 & ga & (-> & Hga & a & Ha & Hp)%ion_error_Ok%LoadConsumeBindings_Ok & Hr). rewrite E1 in Hga. rewrite E2 in Hp. simplify_eq.
  destruct (og_AccountID _) as [account|]; [|done]. do 2 apply iensure_bind in Hr as [_ Hr].
  apply IM_bind_Ok in Hr as (c1 & fam & Hfam%ion_error_Ok & Hr).
  pose proof (CreateInitialRefreshFamily_evolves _ _ _ _ Hfam Hd) as [_ Hg1].
  apply IM_bind_Ok in Hr as (c2 & kid & Hk & Hr). unfold txSigner in Hk. destruct signing_kid; [|done].
  apply IM_bind_Ok in Hr as (c3 & issued & Hmint & Hr). run_inv. eapply minted_within; try done; [|by etrans]. intros j i. by split_and!.
Qed.

(** C11: every access token of a person is bounded.  It comes with a new audit row that names an active
    grant, lasts a whole number of seconds between one and fifteen minutes' worth, ends no later
    than the grant and the provider's session, and its scopes are those of the audit row. *)
Theorem access_token_within_grant env req auth d d' r :
  inv d → rq_GrantType req = "authorization_code" ∨ rq_GrantType req = "refresh_token" →
  Exchange secrets cfg env req auth d = (d', Ok r) → within_grant d d' r.
Proof.
  intros [Hd Hl] Hg Hr. destruct Hg as [Hg|Hg].
  - apply Exchange_code in Hr as (h & o & _ & (c & Hr & _ & _ & ->)%serializable_Ok); [|done]. unfold exchangeCodeTx in Hr. cbn zeta in Hr.
    apply IM_bind_Ok in Hr as (c1 & client & Hauth & Hr). pose proof (authenticateClient_evolves _ _ _ _ _ _ _ _ _ Hauth Hd) as [Hd1 Hg1].
    apply authenticate_same_grants in Hauth. do 2 apply iensure_bind in Hr as [_ Hr].
    apply IM_bind_Ok in Hr as (c2 & registration & Hreg%ion_error_Ok & Hr).
    assert (c2 = c1) as -> by (unfold GetEnabledOAuthClientRedirect in Hreg; run_inv; destruct (select _ _); by run_inv).
    destruct (hashAcrossPeppers _ _ _ _) as [hashes|]; [|done]. apply IM_bind_Ok in Hr as (c2 & code & Hcode & Hr).
    pose proof (claim_code_evolves _ _ _ _ _ Hcode Hd1) as [Hd2 Hg2]. pose proof (claim_code_same_grants _ _ _ _ _ Hcode) as Hs2.
    eapply issue_initial_within; [exact Hr|done|by etrans|by etrans|].
    apply claim_code_grant in Hcode as (g & Hgr & Hst); [|done]. exists g. split; [|done]. by rewrite (proj1 Hauth) in Hgr.
  - rewrite Exchange_refresh in Hr by done.
    apply exchangeRefreshToken_Ok in Hr as (hashes & scopes & h & o & _ & _ & _ & (c & Hr & _ & _ & ->)%serializable_Ok).
    apply refreshTx_Ok in Hr as (c1 & c2 & client & x & Hauth & _ & Hd1 & Hs1 & Hg1 & Hx & Hd2 & Hi & _); [|done].
    apply authenticate_same_grants in Hauth as [E1 E2]. cbn in E1, E2.
    destruct (rd_grant _ _ _ _ _ _ _ _ _ _ Hx) as [Hgr Hst]. pose proof (rd_association _ _ _ _ _ _ _ _ _ _ Hx) as Ha.
    eapply issue_refreshed_within; [exact Hi|done| |done|by rewrite <- E2].
    rewrite E1 in Hgr. by rewrite (wf_grants d Hd _ _ Hgr).
Qed.
End mint.

(** ** Revocation *)

Section revocation.
Context `{!Postgres, !IdentityCrypto, !TokenSigner} (secrets : Secrets) (cfg : ServiceConfig).

(** C14: the operator's revocation cannot end an active family.  Its three statements run outside a
    transaction, and the first, which revokes the current token, leaves the active family without
    one; the deferred trigger refuses that at once, so nothing is revoked. *)
Theorem operator_revocation_fails env familyID reason d f :
  inv d → familyID ≠ uuid_Nil → id_families d !! familyID = Some f → rf_Status f = "active" →
  ∃ e, RevokeInitialFamily env familyID reason d = (d, Err e).
Proof.
  intros [Hd Hl] Hid Hf Ha. unfold RevokeInitialFamily. rewrite bool_decide_eq_false_2 by done. cbn zeta.
  destruct (serializable (revoke_live_tokens familyID (en_now env)) d) as [d1 [u|e]] eqn:Hs; cycle 1.
  { apply serializable_Err in Hs as ->. by exists e. }
  exfalso. apply serializable_Ok in Hs as (c & Hr & _ & Hl1 & ->). unfold revoke_live_tokens in Hr. run_inv.
  apply write_tokens_Ok in Hr as [_ ->]. rewrite lifecycle_ok_iff in Hl1.
  assert (Hin : f ∈ rows (id_families d)) by (apply elem_of_rows; by exists familyID). specialize (Hl1 f Hin).
  rewrite (wf_families d Hd _ _ Hf), live_tokens_revoked, bool_decide_eq_true_2 in Hl1 by done. done.
Qed.

(** What the statements of a revocation have done when they succeed. *)
Lemma revokeTx_Ok fam reason now c c' f u :
  wf (ic_db c) → id_families (ic_db c) !! fam = Some f → revokeInitialRefreshFamilyTx fam reason now c = (c', Ok u) →
  live_tokens (ic_db c') fam = [] ∧
  (∃ f', id_families (ic_db c') !! fam = Some f' ∧ rf_Status f' ≠ "active") ∧
  ∀ g, id_grants (ic_db c) !! rf_GrantID f = Some g → ∃ g', id_grants (ic_db c') !! rf_GrantID f = Some g' ∧ og_Status g' ≠ "active".
Proof.
  intros Hd Hf Hr. unfold revokeInitialRefreshFamilyTx, revoke_live_tokens, revoke_family, end_grant_of in Hr. run_inv.
  repeat match goal with
  | Hw : write_tokens _ _ = Ok (_, _) |- _ => apply write_tokens_Ok in Hw as [_ ->]
  | Hw : write_families _ _ = Ok (_, _) |- _ => apply write_families_Ok in Hw as [_ ->]
  | Hw : write_grants _ _ = Ok (_, _) |- _ => apply write_grants_Ok in Hw as [_ ->]
  end. cbn [id_families id_grants set_grants set_families set_tokens ic_db]. split_and!.
  - apply live_tokens_revoked.
  - unfold update_where. rewrite lookup_fmap, Hf. eexists. split; [done|]. cbv beta. rewrite (wf_families _ Hd _ _ Hf), (bool_decide_eq_true_2 (fam = fam)) by done.
    cbn [andb]. by case_bool_decide.
  - intros g Hg. unfold update_where. rewrite !lookup_fmap, Hg, Hf. eexists. split; [done|]. cbv beta. cbn [fmap option_fmap option_map].
    rewrite (wf_grants _ Hd _ _ Hg), bool_decide_eq_true_2 by (by case_match). cbn [andb]. by case_bool_decide.
Qed.

Lemma owned_found d hashes id t f :
  id_tokens d !! id = Some t → id_families d !! rt_FamilyID t = Some f → rt_TokenHash t ∈ hashes → issued_once d hashes →
  ∃ l, joined d (λ t _, bool_decide (rt_TokenHash t ∈ hashes)) = (t, f) :: l.
Proof.
  intros Ht Hf Hh Hone. assert (Hin : (t, f) ∈ joined d (λ t _, bool_decide (rt_TokenHash t ∈ hashes))).
  { apply elem_of_joined. split_and!; [by exists id|done|by apply bool_decide_eq_true]. }
  destruct (joined _ _) as [|[t' f'] l] eqn:Hj; [by apply elem_of_nil in Hin|].
  assert (Hin' : (t', f') ∈ joined d (λ t _, bool_decide (rt_TokenHash t ∈ hashes))) by (rewrite Hj; left).
  apply elem_of_joined in Hin' as ([i Hi] & Hf' & Hh'%bool_decide_eq_true).
  assert (i = id) by (by eapply Hone). exists l. by simplify_eq.
Qed.

(** C13: a client revokes its own tokens and no others.  When a revocation succeeds, the owner of the
    presented token has ended its family, its current token and its grant; any other client has
    changed no token, family or grant, and cannot tell the difference. *)
Theorem revocation_by_owner_only env req auth d d' client c1 hashes id t f :
  inv d →
  authenticateClient secrets (mkPresentation (rv_ClientID req) (rv_AssertionType req) "" false) auth (en_now env) (cf_RevocationEndpoint cfg) "revocation"
    (mkIconn d false) = (c1, Ok client) →
  Revoke secrets cfg env req auth d = (d', Ok tt) → refreshHashesFromPresented secrets (rv_Token req) = Ok (Some hashes) → issued_once d hashes →
  id_tokens d !! id = Some t → rt_TokenHash t ∈ hashes → id_families d !! rt_FamilyID t = Some f →
  (rf_ClientID f = oc_ID client →
     live_tokens d' (rt_FamilyID t) = [] ∧ (∃ f', id_families d' !! rt_FamilyID t = Some f' ∧ rf_Status f' ≠ "active") ∧
     ∀ g, id_grants d !! rf_GrantID f = Some g → ∃ g', id_grants d' !! rf_GrantID f = Some g' ∧ og_Status g' ≠ "active") ∧
  (rf_ClientID f ≠ oc_ID client → same_tokens d d').
Proof.
  intros [Hd Hl] Hauth Hr Hpres Hone Ht Hh Hf. unfold Revoke in Hr. destruct (blank _); [done|]. rewrite Hpres in Hr.
  destruct (WithSerializableRetry _ _ d) as [d1 [[]|e]] eqn:Hs; [|done]. injection Hr as <-. apply retry_Ok, serializable_Ok in Hs as (c & Hr & _ & _ & ->).
  unfold mbind at 1, IM_bind at 1 in Hr. rewrite Hauth in Hr. pose proof (authenticateClient_evolves _ _ _ _ _ _ _ _ _ Hauth Hd) as [Hd1 _].
  pose proof (authenticateClient_same _ _ _ _ _ _ _ _ _ Hauth) as Hsame. cbn [ic_db] in Hsame. pose proof Hsame as [= E1 E2 E3 E4].
  unfold RevokeOwnedInitialRefresh in Hr. apply iensure_bind in Hr as [_ Hr].
  rewrite bool_decide_eq_false_2 in Hr by (intros ->; by apply elem_of_nil in Hh).
  apply IM_bind_Ok in Hr as (c2 & l & (Hna & -> & ->)%iquery_Ok & Hr).
  destruct (owned_found (ic_db c1) hashes id t f) as [l Hj]; [by rewrite E1|by rewrite E2|done|by unfold issued_once; rewrite E1|]. rewrite Hj in Hr.
  destruct (bool_decide (rf_ClientID f = oc_ID client)) eqn:Hown.
  - apply bool_decide_eq_true in Hown. split; [intros _|done]. rewrite (wf_families d Hd _ _ Hf) in Hr.
    apply (revokeTx_Ok _ _ _ _ _ f) in Hr; [|done|by rewrite E2]. by rewrite E3 in Hr.
  - apply bool_decide_eq_false in Hown. split; [done|intros _]. by run_inv.
Qed.
End revocation.

(** ** The text of a refresh token *)

Lemma sextet_sextet_char v : (0 ≤ v < 64)%Z → sextet (sextet_char v) = Some v ∧ sextet_char v ≠ ascii_of_nat 10 ∧ sextet_char v ≠ ascii_of_nat 13.
Proof.
  intros Hv. assert (Hall : forallb (λ n, bool_decide (sextet (sextet_char (Z.of_nat n)) = Some (Z.of_nat n) ∧ sextet_char (Z.of_nat n) ≠ ascii_of_nat 10 ∧
    sextet_char (Z.of_nat n) ≠ ascii_of_nat 13)) (seq 0 64) = true) by (vm_compute; reflexivity).
  rewrite forallb_forall_in in Hall. specialize (Hall (Z.to_nat v)). rewrite elem_of_seq, bool_decide_eq_true, Z2Nat.id in Hall by lia. apply Hall. lia.
Qed.

Lemma mapM_sextet l : Forall (λ v, 0 ≤ v < 64)%Z l → mapM sextet (sextet_char <$> l) = Some l.
Proof. induction 1 as [|v l Hv _ IH]; [done|]. cbn. rewrite (proj1 (sextet_sextet_char v Hv)). cbn. by rewrite IH. Qed.

Lemma filter_sextet l : Forall (λ v, 0 ≤ v < 64)%Z l →
  filter (λ c, c ≠ ascii_of_nat 10 ∧ c ≠ ascii_of_nat 13) (sextet_char <$> l) = sextet_char <$> l.
Proof. intros Hl. apply filter_all, Forall_fmap. eapply Forall_impl; [exact Hl|]. intros v Hv. apply (sextet_sextet_char v Hv). Qed.

(** Three at a time. *)
Lemma list_three_ind {A} (P : list A → Prop) :
  P [] → (∀ a, P [a]) → (∀ a b, P [a; b]) → (∀ a b c l, P l → P (a :: b :: c :: l)) → ∀ l, P l.
Proof.
  intros H0 H1 H2 H3. fix IH 1. intros [|a [|b [|c l]]]; [done|apply H1|apply H2|apply H3, IH].
Qed.

Definition byte_string (l : list Z) : string := foldr (λ n s, byte n +:+ s) "" l.

Lemma byte_eq n m : (n mod 256 = m mod 256)%Z → byte n = byte m.
Proof. unfold byte. by intros ->. Qed.

Lemma group_bytes a b c : (0 ≤ a < 256 → 0 ≤ b < 256 → 0 ≤ c < 256 →
  byte (a / 4 * 4 + (a mod 4 * 16 + b / 16) / 16) = byte a ∧
  byte ((a mod 4 * 16 + b / 16) * 16 + (b mod 16 * 4 + c / 64) / 4) = byte b ∧
  byte ((b mod 16 * 4 + c / 64) * 64 + c mod 64) = byte c)%Z.
Proof. intros Ha Hb Hc. split_and!; apply byte_eq; Z.to_euclidean_division_equations; lia. Qed.

Lemma encode_bytes_spec l : Forall (λ n, 0 ≤ n < 256)%Z l →
  Forall (λ v, 0 ≤ v < 64)%Z (encode_bytes l) ∧ decode_sextets (encode_bytes l) = Some (byte_string l).
Proof.
  induction l as [|a|a b|a b c l IH] using list_three_ind; intros Hl; rewrite ?Forall_cons in Hl;
    cbn [encode_bytes decode_sextets byte_string foldr].
  - split; [constructor|done].
  - destruct Hl as [Ha _]. destruct (group_bytes a 0 0) as (E1 & _ & _); [lia..|]. change (0 / 16)%Z with 0%Z in E1. rewrite Z.add_0_r in E1.
    split; [repeat constructor; Z.to_euclidean_division_equations; lia|]. by rewrite E1.
  - destruct Hl as (Ha & Hb & _). destruct (group_bytes a b 0) as (E1 & E2 & _); [lia..|]. change (0 / 64)%Z with 0%Z in E2. rewrite Z.add_0_r in E2.
    split; [repeat constructor; Z.to_euclidean_division_equations; lia|]. by rewrite E1, E2.
  - destruct Hl as (Ha & Hb & Hc & Hl). destruct (IH Hl) as [Hf Hd]. destruct (group_bytes a b c) as (E1 & E2 & E3); [lia..|].
    split; [repeat constructor; [Z.to_euclidean_division_equations; lia..|done]|]. rewrite Hd. cbn. by rewrite E1, E2, E3.
Qed.

Definition code_of (c : ascii) : Z := Z.of_N (N_of_ascii c).

Lemma byte_string_codes s : byte_string (code_of <$> String.list_ascii_of_string s) = s.
Proof.
  induction s as [|c s IH]; [done|]. cbn [String.list_ascii_of_string]. rewrite fmap_cons.
  change (byte_string (?x :: ?l)) with (byte x +:+ byte_string l). rewrite IH. unfold byte, code_of. rewrite Z.mod_small by (pose proof (N_ascii_bounded c); lia).
  by rewrite N2Z.id, ascii_N_embedding.
Qed.

(** The raw URL alphabet loses nothing. *)
Lemma Decode_Encode s : DecodeString (EncodeToString s) = Some s.
Proof.
  unfold DecodeString, EncodeToString. rewrite String.list_ascii_of_string_of_list_ascii.
  assert (Hb : Forall (λ n, 0 ≤ n < 256)%Z (code_of <$> String.list_ascii_of_string s)).
  { apply Forall_fmap, Forall_forall. intros c _. unfold code_of. cbn. pose proof (N_ascii_bounded c). lia. }
  destruct (encode_bytes_spec _ Hb) as [Hf Hd]. change ((λ c, Z.of_N (N_of_ascii c)) <$> ?l) with (code_of <$> l).
  rewrite filter_sextet, mapM_sextet by done. cbn. by rewrite Hd, byte_string_codes.
Qed.

Section token_text.
Context `{!IdentityCrypto} (secrets : Secrets).

(** C15: the refresh token that is handed out is the one that is recognised.  Its text, presented in a
    refresh request or for revocation, yields first the hash that was stored with it. *)
Theorem refresh_token_recognised env s h o req rv :
  en_random env = Some s → String.length s = refreshSecretBytes → newRefresh secrets env = Some (h, o) →
  rq_RefreshToken req = o → rv_Token rv = o →
  ∃ rest, presented_hashes secrets req = Some (h :: rest) ∧ refreshHashesFromPresented secrets (rv_Token rv) = Ok (Some (h :: rest)).
Proof.
  intros Hs Hlen Hn Hreq Hrv. unfold newRefresh in Hn. rewrite Hs in Hn. apply fmap_Some in Hn as (h' & Hh & [= -> ->]).
  unfold presented_hashes, refreshHashesFromPresented. rewrite Hreq, Hrv, Decode_Encode, bool_decide_eq_true_2 by done.
  assert (Hacross : ∃ rest, hashAcrossPeppers (ss_RefreshPeppers secrets) (ss_RefreshActive secrets) refreshTokenHashContext s = Some (h' :: rest)).
  { unfold hashAcrossPeppers. pose proof Hh as Hv. unfold Hash in Hv. destruct (bool_decide (ss_RefreshActive secrets ≤ 0)%Z) eqn:Hpos; [done|].
    apply bool_decide_eq_false in Hpos. destruct (_ || _); [done|]. destruct (ss_RefreshPeppers secrets !! ss_RefreshActive secrets) eqn:Hl; [|done].
    rewrite bool_decide_eq_false_2, (proj2 (Z.leb_gt _ _)) by (lia || (intros He; by rewrite He, lookup_empty in Hl)).
    cbn [orb]. rewrite bool_decide_eq_true_2 by (rewrite ?Hl; by eauto). cbn [app omap]. cbn. rewrite Hh. by eexists. }
  destruct Hacross as [rest ->]. by exists rest.
Qed.
End token_text.

(** ** Client assertions *)

(** The claims of an assertion are those its text holds, whichever keys verify it. *)
Class AssertionLaws `{!TokenSigner} := {
  assertion_claims_text : ∀ keys keys' raw c c', assertion_claims keys raw = Some c → assertion_claims keys' raw = Some c' → c = c' }.

Section assertions.
Context `{!Postgres, !IdentityCrypto, !TokenSigner, !AssertionLaws} (secrets : Secrets) (cfg : ServiceConfig).

Lemma Parse_jti raw id audience keys now a :
  ParseClientAssertion raw id audience keys now = Some a → ∃ c, assertion_claims keys raw = Some c ∧ cl_JTI a = as_jti c ∧ as_iss c = id.
Proof.
  unfold ParseClientAssertion. first_if E1; [done|]. destruct (assertion_claims keys raw) as [c|]; [|done]. cbn zeta.
  first_if E2; [|done]. intros [= <-]. exists c. rewrite !andb_true_iff, !bool_decide_eq_true in E2. naive_solver.
Qed.

(** The replay row an accepted assertion leaves. *)
Definition used (d : idb) (client kind jtiHash : string) : Prop :=
  ∃ id r, id_replays d !! id = Some r ∧ cr_ClientID r = client ∧ cr_EndpointKind r = kind ∧ cr_JTIHash r = jtiHash.

Lemma Record_uses x c c' u : RecordClientAssertionReplay x c = (c', Ok u) →
  ¬ used (ic_db c) (cr_ClientID x) (cr_EndpointKind x) (cr_JTIHash x) ∧ used (ic_db c') (cr_ClientID x) (cr_EndpointKind x) (cr_JTIHash x).
Proof.
  intros Hr. unfold RecordClientAssertionReplay in Hr. run_inv. cbv zeta in Hr. destruct (table_ok _ _ _) eqn:Hok; [done|].
  destruct (has_key _ _); [|done]. injection Hr as <- _. apply table_ok_None in Hok as [_ Hu].
  set (row := mkReplay _ _ _ _ _ _ _ _) in *. set (n := gen_random_uuid _) in *.
  assert (Hn : id_replays (ic_db c) !! n = None) by apply fresh_id. split; [|by exists n, row; cbn; rewrite lookup_insert_eq].
  intros (id & r & Hid & E1 & E2 & E3). unfold unique_key in Hu. apply bool_decide_eq_true in Hu.
  rewrite (omap_Permutation _ _ _ (rows_insert _ _ row Hn)) in Hu. cbn in Hu. apply NoDup_cons in Hu as [Hu _]. apply Hu.
  apply list_elem_of_omap. exists r. split; [apply elem_of_rows; by exists id|]. cbn. by rewrite E1, E2, E3.
Qed.

(** What authentication by an assertion has read and recorded. *)
Lemma assertion_Ok publicID raw ty now audience kind c c' client :
  authenticateAssertion secrets publicID raw ty now audience kind c = (c', Ok client) →
  ∃ claims jtiHash keys, find_client (id_clients (ic_db c)) publicID = Ok client ∧ assertion_claims keys raw = Some claims ∧
    as_iss claims = oc_ClientID client ∧
    Hash (ss_AssertionPeppers secrets) (ss_AssertionActive secrets) assertionJTIHashContext (as_jti claims) = Some jtiHash ∧
    ¬ used (ic_db c) (oc_ID client) kind jtiHash ∧ used (ic_db c') (oc_ID client) kind jtiHash.
Proof.
  intros Hr. unfold authenticateAssertion in Hr. do 3 apply iensure_bind in Hr as [_ Hr]. apply IM_bind_Ok in Hr as (c1 & cl & Hcl & Hr).
  assert (Hc : ic_aborted c = false).
  { unfold client_by_id, GetEnabledOAuthClientByClientID in Hcl. apply ion_error_Ok in Hcl. by run_inv. }
  destruct c as [d b]. cbn in Hc. subst b. rewrite client_by_id_reads in Hcl. injection Hcl as <- Hcl. cbn [ic_db].
  apply iensure_bind in Hr as [_ Hr]. apply IM_bind_Ok in Hr as (c2 & keys & Hk & Hr).
  apply ion_error_Ok in Hk. unfold ListEnabledOAuthClientKeys in Hk. apply iensure_bind in Hk as [_ (_ & _ & ->)%iquery_Ok].
  apply iensure_bind in Hr as [_ Hr]. destruct (ParseClientAssertion _ _ _ _ _) as [parsed|] eqn:Hp; [|done]. apply Parse_jti in Hp as (claims & Hcla & Hjti & Hiss).
  rewrite Hjti in Hr. destruct (Hash _ _ _ _) as [jtiHash|] eqn:Hh; [|done]. apply IM_bind_Ok in Hr as (c3 & u & Hrec & Hr).
  apply ion_error_Ok, Record_uses in Hrec as [Hno Hyes]. run_inv. by exists claims, jtiHash, (ok_JWK <$> keys).
Qed.

Lemma find_client_id t id c : find_client t id = Ok c → oc_ClientID c = id.
Proof.
  unfold find_client. destruct (ValidatePublicClientID id); [|done]. destruct (select _ t) as [|x l] eqn:Hl; [done|]. intros [= <-].
  assert (Hin : x ∈ select (λ c, bool_decide (oc_ClientID c = id) && oc_Enabled c && is_none (oc_DisabledAt c)) t) by (rewrite Hl; left).
  apply elem_of_select in Hin as [_ Hx]. rewrite !andb_true_iff, bool_decide_eq_true in Hx. naive_solver.
Qed.

Lemma authenticate_assertion pres auth now audience kind c c' client :
  TrimSpace (au_Method auth) = "private_key_jwt" → authenticateClient secrets pres auth now audience kind c = (c', Ok client) →
  ∃ publicID, authenticateAssertion secrets publicID (au_Assertion auth) (cp_AssertionType pres) now audience kind c = (c', Ok client).
Proof.
  intros Hm Hr. unfold authenticateClient in Hr. cbn zeta in Hr. rewrite Hm in Hr.
  change (bool_decide ("private_key_jwt" = "none")) with false in Hr. change (bool_decide ("private_key_jwt" = "client_secret_basic")) with false in Hr.
  change (bool_decide ("private_key_jwt" = "private_key_jwt")) with true in Hr. cbn iota in Hr. by eexists.
Qed.

(** An assertion that has been accepted is refused as long as its row is kept. *)
Lemma assertion_refused pres pres' auth auth' now now' audience audience' kind c c1 client d2 c3 client' :
  TrimSpace (au_Method auth) = "private_key_jwt" → TrimSpace (au_Method auth') = "private_key_jwt" → au_Assertion auth' = au_Assertion auth →
  authenticateClient secrets pres auth now audience kind c = (c1, Ok client) → id_replays (ic_db c1) ⊆ id_replays d2 → id_clients d2 = id_clients (ic_db c) →
  authenticateClient secrets pres' auth' now' audience' kind (mkIconn d2 false) ≠ (c3, Ok client').
Proof.
  intros Hm Hm' Hsame Hr Hsub Hcl Hr'. apply authenticate_assertion in Hr as [p Hr]; [|done]. apply authenticate_assertion in Hr' as [p' Hr']; [|done].
  apply assertion_Ok in Hr as (cla & jh & keys & Hf & Ha & Hi & Hh & _ & Hu). apply assertion_Ok in Hr' as (cla' & jh' & keys' & Hf' & Ha' & Hi' & Hh' & Hno & _).
  cbn [ic_db] in *. rewrite Hsame in Ha'. pose proof (assertion_claims_text _ _ _ _ _ Ha Ha') as <-. rewrite Hh in Hh'. injection Hh' as <-.
  rewrite Hcl in Hf'. pose proof (find_client_id _ _ _ Hf). pose proof (find_client_id _ _ _ Hf'). assert (p' = p) as -> by congruence.
  rewrite Hf in Hf'. injection Hf' as <-. apply Hno. destruct Hu as (id & r & Hid & Hrest). exists id, r. split; [|done]. by eapply lookup_weaken.
Qed.

(** *** The row outlives the request *)

Definition same_replays (d d' : idb) : Prop := id_replays d' = id_replays d.
#[local] Instance same_replays_preorder : PreOrder same_replays.
Proof. split; [done|]. unfold same_replays. intros d d' d''. congruence. Qed.

(** A statement that writes other tables. *)
Ltac other_table :=
  apply relates_stmt; [apply _|]; intros d d' u Hw; cbv zeta in Hw;
  repeat match type of Hw with
  | (if ?b then _ else _) = Ok _ => destruct b; [discriminate Hw|]
  | _ ≫= _ = Ok _ => let d1 := fresh "d1" in let Hd1 := fresh "Hd1" in apply bind_Ok in Hw as ([d1 []] & Hd1 & Hw); injection Hw as <- _; rename Hd1 into Hw
  end;
  first [ by (apply write_tokens_Ok in Hw as [_ ->]) | by (apply write_families_Ok in Hw as [_ ->]) | by (apply write_grants_Ok in Hw as [_ ->])
        | by injection Hw as <- _ | discriminate Hw ].

Lemma exchange_parts_same_replays :
  (∀ x, relates same_replays (ClaimAuthorizationCode x)) ∧ (∀ x, relates same_replays (CreateInitialRefreshFamily x)) ∧
  (∀ a, relates same_replays (CreateTokenIssuanceAudit a)) ∧ (∀ hs cl rs rq nh p now, relates same_replays (RedeemRefreshToken hs cl rs rq nh p now)) ∧
  (∀ p cl rs au sc now na, relates same_replays (CreateServiceGrant p cl rs au sc now na)).
Proof.
  split_and!; intros.
  - unfold ClaimAuthorizationCode, LoadConsumeBindings, GetOAuthGrant, GetProviderSessionAssociation. cbn zeta. relates_all; other_table.
  - unfold CreateInitialRefreshFamily. cbn zeta. relates_all; other_table.
  - unfold CreateTokenIssuanceAudit. relates_all; other_table.
  - unfold RedeemRefreshToken, LoadConsumeBindings, GetOAuthGrant, GetProviderSessionAssociation, rotate, markRefreshReuse, markRefreshExpired,
      revoke_live_tokens, end_grant_of.
    assert (Hfind : ∀ hs, relates same_replays (find_refresh hs cl rs)) by (intros l; induction l; cbn [find_refresh]; relates_all).
    relates_all; other_table.
  - unfold CreateServiceGrant. relates_all; other_table.
Qed.
(** Every exchange starts with the authentication of the client at the token endpoint, and keeps what it
    recorded. *)
Lemma after_authentication {A} (f : OAuthClient → IM A) pres auth now d d' a :
  (∀ client, relates same_replays (f client)) →
  serializable (client ← authenticateClient secrets pres auth now (cf_TokenEndpoint cfg) "token"; f client) d = (d', Ok a) →
  ∃ c1 client, authenticateClient secrets pres auth now (cf_TokenEndpoint cfg) "token" (mkIconn d false) = (c1, Ok client) ∧ id_replays d' = id_replays (ic_db c1).
Proof.
  intros Hf (c & Hr & _ & _ & ->)%serializable_Ok. apply IM_bind_Ok in Hr as (c1 & client & Hauth & Hr). exists c1, client.
  split; [done|]. by apply Hf in Hr.
Qed.

Lemma Exchange_authenticated env req auth d d' r :
  Exchange secrets cfg env req auth d = (d', Ok r) →
  ∃ pres c1 client, authenticateClient secrets pres auth (en_now env) (cf_TokenEndpoint cfg) "token" (mkIconn d false) = (c1, Ok client) ∧
    id_replays d' = id_replays (ic_db c1).
Proof.
  destruct exchange_parts_same_replays as (Hclaim & Hinit & Haudit & Hredeem & Hgrant).
  assert (Hcodes : ∀ hs x, relates same_replays (claim_code hs x)) by (intros hs x; induction hs; cbn [claim_code]; relates_all).
  assert (Hload : ∀ id, relates same_replays (LoadConsumeBindings id))
    by (unfold LoadConsumeBindings, GetOAuthGrant, GetProviderSessionAssociation; relates_all).
  unfold Exchange. first_if E1.
  - first_if E2; [done|]. unfold exchangeClientCredentials. first_if E3; [done|]. first_if E4; [done|].
    destruct (WithSerializableRetry _ _ d) as [d1 [x|e]] eqn:Hs; intros [= <- _]. apply retry_Ok in Hs. exists (mkPresentation (rq_ClientID req) (rq_AssertionType req) "" false).
    eapply after_authentication; [|exact Hs]. intros client. unfold txSigner, mint_and_audit, GetActiveServiceCredential. relates_all.
  - first_if E2; [|first_if E3; [done|first_if E4; [done|]]].
    + unfold exchangeRefreshToken. intros Hr. apply exchangeRefreshToken_Ok in Hr as (hashes & scopes & h & o & _ & _ & _ & Hs).
      exists (mkPresentation (rq_ClientID req) (rq_AssertionType req) "" false). eapply after_authentication; [|exact Hs].
      intros client. unfold issue_refreshed, txSigner, mint_and_audit. cbn zeta. relates_all.
    + destruct (newRefresh secrets env) as [[h o]|]; [|done]. destruct (WithSerializableRetry _ _ d) as [d1 [x|e]] eqn:Hs; intros [= <- _]. apply retry_Ok in Hs.
      exists (mkPresentation (rq_ClientID req) (rq_AssertionType req) (rq_CodeVerifier req) true). eapply after_authentication; [|exact Hs].
      intros client. unfold issue_initial, txSigner, mint_and_audit, GetEnabledOAuthClientRedirect. cbn zeta. relates_all.
Qed.

(** C12: a client assertion is accepted once.  After an exchange that an assertion authenticated, and as
    long as the record of it is not purged, no request at the token endpoint that presents the same
    assertion succeeds, whichever client it names and whatever the grant. *)
Theorem client_assertion_single_use env req auth d d1 r :
  wf d → TrimSpace (au_Method auth) = "private_key_jwt" → Exchange secrets cfg env req auth d = (d1, Ok r) →
  ∀ d2, rtc (step secrets cfg) d1 d2 → id_replays d1 ⊆ id_replays d2 →
  ∀ env' req' auth' d3 r', TrimSpace (au_Method auth') = "private_key_jwt" → au_Assertion auth' = au_Assertion auth →
  Exchange secrets cfg env' req' auth' d2 ≠ (d3, Ok r').
Proof.
  intros Hd Hm Hr d2 Hst Hsub env' req' auth' d3 r' Hm' Hsame Hr'.
  assert (Hev : wf d1 ∧ grows d d1) by (pose proof (Exchange_evolves secrets cfg env req auth d Hd) as He; by rewrite Hr in He).
  destruct Hev as [Hd1 Hg1]. destruct (steps_evolve _ _ _ _ Hst Hd1) as [_ Hg2].
  apply Exchange_authenticated in Hr as (pres & c1 & client & Ha & Hrep). apply Exchange_authenticated in Hr' as (pres' & c2 & client' & Ha' & _).
  eapply assertion_refused; [exact Hm|exact Hm'|exact Hsame|exact Ha|by rewrite <- Hrep| |exact Ha'].
  injection (gr_registered _ _ Hg1) as E _ _ _ _. injection (gr_registered _ _ Hg2) as E' _ _ _ _. cbn. congruence.
Qed.
End assertions.

(** ** The sample database *)

Lemma s_inv : inv s_db ∧ inv s_db1.
Proof. split; (split; [apply wf_b_wf|]; vm_compute; reflexivity). Qed.

Lemma access_token_within_grant_witness : within_grant s_db s_db1 (s_response s_random1).
Proof.
  apply (access_token_within_grant s_secrets s_cfg (s_env 1000 s_random1) s_code_request s_auth s_db s_db1 (s_response s_random1)).
  - apply s_inv.
  - left. reflexivity.
  - apply s_exchange1.
Defined.

Lemma operator_revocation_fails_witness : ∃ e, RevokeInitialFamily (s_env 1100 s_random2) "0" "" s_db1 = (s_db1, Err e).
Proof.
  apply (operator_revocation_fails (s_env 1100 s_random2) "0" "" s_db1 s_fam1).
  - apply s_inv.
  - vm_compute. discriminate.
  - vm_compute. reflexivity.
  - reflexivity.
Defined.

Definition s_token : OAuthRefreshToken :=
  mkToken "0" "0" s_random1 1 0 (1000 * Second) (1000 * Second + MaxRefreshIdle) None None None None.
Definition s_revoke : RevokeRequest := mkRevoke (EncodeToString s_random1) "" "".
Definition s_db_revoked : idb := (Revoke s_secrets s_cfg (s_env 1100 s_random2) s_revoke s_auth s_db1).1.

(** By its owner: the family of the sample is ended. *)
Lemma revocation_by_owner_only_witness : live_tokens s_db_revoked "0" = [].
Proof.
  apply (revocation_by_owner_only s_secrets s_cfg (s_env 1100 s_random2) s_revoke s_auth s_db1 s_db_revoked s_client
    (mkIconn s_db1 false) [s_random1] "0" s_token s_fam1).
  - apply s_inv.
  - vm_compute. reflexivity.
  - unfold s_db_revoked. apply (pair_eq (Revoke _ _ _ _ _ _)). vm_compute. reflexivity.
  - vm_compute. reflexivity.
  - apply issued_once_b_sound. vm_compute. reflexivity.
  - vm_compute. reflexivity.
  - left.
  - vm_compute. reflexivity.
  - reflexivity.
Defined.

Lemma refresh_token_recognised_witness : ∃ rest, presented_hashes s_secrets s_refresh1 = Some (s_random1 :: rest).
Proof.
  destruct (refresh_token_recognised s_secrets (s_env 1000 s_random1) s_random1 s_random1 (EncodeToString s_random1) s_refresh1 s_revoke)
    as (rest & Hrest & _); [reflexivity|reflexivity|vm_compute; reflexivity|reflexivity|reflexivity|].
  exists rest. exact Hrest.
Defined.

#[global] Instance sample_assertion_laws : AssertionLaws.
Proof. split. intros keys keys' raw c c'. cbn. intros H1 H2. repeat case_match; by simplify_eq. Qed.

Lemma client_assertion_single_use_witness :
  Exchange s_secrets s_cfg (s_env 1200 s_random2) s_service_request s_service_auth s_db_service ≠
    (s_db_service, Ok (mkResponse "jwt:jti-a" 900 "studio.read" "")).
Proof.
  assert (Hwf : wf s_db) by apply s_inv.
  apply (client_assertion_single_use s_secrets s_cfg (s_env 1100 s_random1) s_service_request s_service_auth s_db s_db_service _ Hwf
    ltac:(vm_compute; reflexivity) s_exchange_service s_db_service ltac:(reflexivity) ltac:(reflexivity)); vm_compute; reflexivity.
Defined.

(** At the last instant of its retention the record of an assertion is purged while the assertion is still
    accepted: it can be used a second time. *)
Example assertion_replayed_at_the_end_of_retention :
  let last := s_env 1360 s_random2 in
  let purged := (serializable (PurgeExpiredClientAssertionReplaysBounded (en_now last) 1024) s_db_service).1 in
  is_ok (Exchange s_secrets s_cfg last s_service_request s_service_auth s_db_service).2 = false ∧
  is_ok (Exchange s_secrets s_cfg last s_service_request s_service_auth purged).2 = true.
Proof. vm_compute. auto. Qed.
